(* ===== verification/_CoqProject ===== *)
-Q . S2P
Prelude.v
Clock.v
PyText.v
Models.v
Database.v
Samples.v
AssetReadiness.v
Occurrence.v
Skips.v
Targeting.v
NowPlaying.v
ConflictGate.v
Upcoming.v
DeviceStatus.v
Slideshow.v
DeviceSync.v
Evaluate.v
EndNow.v
Jobs.v
Leader.v
Presence.v
JsonText.v
Alerts.v
TempAlerts.v
OfflineAlerts.v
Triage.v
Notifications.v
Ota.v
Access.v
Accounts.v
Features.v
Budget.v
LogBlobs.v
LogRequests.v
LogFrames.v
LogChunks.v
LogFlow.v
RateLimit.v
DeviceIdentity.v
Bootstrap.v
Variants.v
Profiles.v
DeviceLife.v
Schedules.v
Slides.v
Library.v
Paging.v
Intake.v
ImageBuild.v
Chat.v
Display.v
Agent.v
Worker.v
Imager.v
