(* ===== verification/Prelude.v ===== *)
(** * Agora CMS: a verification of the core services

    Agora CMS (the Python package under src/) tells a fleet of signage screens
    what to play.  Operators create assets, schedules, groups and tags; a
    background tick on one replica works out which schedule is entitled to which
    device, pushes each device a sync message, and reports devices that are away
    while something should play.  Devices register with a key, are adopted, send
    heartbeats, logs and upgrade progress; alerts and notifications tell the
    operators.  This library translates these services to Rocq and proves them
    against short specifications.

    ** The parts and how they interact

    - Prelude (this file): Python exceptions as values of [result], dicts that
      keep insertion order, stable sorts, best-of folds, string order; tactics.
    - Clock: the naive [date], [time] and [datetime] of Python with the
      OverflowError of date arithmetic, and the text formats used.
    - PyText: the string methods and conversions of Python that several parts
      use (strip, lower, int, UUID).
    - Models, Database: the rows of shared/models and cms/models the code reads,
      and the tables a tick reads and writes ([Db]).  Samples: concrete rows for
      the witnesses.
    - AssetReadiness: cms/services/variant_view.py, asset_readiness.py.
    - Occurrence: cms/services/occurrence.py.  [occurs_at] and [starts_at] say
      on a nominal time line when a schedule is in its window; [matches_at] and
      [schedules_overlap] decide exactly that.
    - Skips: [SkipSnapshot] of cms/services/scheduler.py, its persistence and
      purge.  EndNow: the endpoint that creates skips
      (cms/routers/schedules.py, [end_schedule_now]).
    - Targeting: device_membership.py and the two target resolvers of
      scheduler.py; [targets] is their specification.
    - NowPlaying: [compute_now_playing].  [eligible] (enabled, in its window,
      not skipped, targeting the device) and [winner] (eligible and beating
      every other eligible schedule) are the abstract specification that the
      dashboard, the status page, the sync message and the tick refine.
    - ConflictGate: the two gates that keep equal-priority schedules apart:
      [_check_conflicts] (cms/routers/schedules.py) when a schedule is written,
      device_config_validation.py and routers/device_tags.py when a device is
      retagged.  Both preserve [conflict_free].
    - Upcoming, DeviceStatus: [get_upcoming_schedules] and
      [get_device_schedule_status].
    - Slideshow: cms/services/slideshow_resolver.py: decks, tag expansion,
      visibility windows, playback slots, the plan, the manifest checksum and
      the fetch message.
    - DeviceSync: [build_device_sync] and the pushes; it calls Slideshow for the
      checksums of slideshows.
    - Evaluate: [evaluate_schedules], one tick: purge, pushes, the dedup table
      of MISSED reports, the confirmed-playback cache.
    - Jobs: shared/services/jobs.py: the job table with its transactional outbox
      as a system of producers, workers and drainers.
    - LogBlobs, LogRequests, LogFrames, LogChunks, LogFlow: the collection of
      device logs.  LogBlobs is the store of bundles (log_blob.py: paths, their
      guard, both backends).  LogRequests is the outbox of requests
      (models/log_request.py, log_outbox.py, one tick of log_drainer.py and of
      log_reaper.py); [drained] and [reaped] say what a tick makes of a row.
      LogFrames is the wire format of chunks, built from codecs that satisfy
      the class [CodecLaws]; LogChunks the assembler of
      log_chunk_assembler.py.  LogFlow composes them (routers/log_requests.py,
      the LOGS_RESPONSE branch of device_inbound.py, [handle_frame]) into the
      relation [flow_step], where the second halves of the handlers are steps
      of their own.
    - Leader: cms/services/leader.py: the lease that lets one replica run the
      loop ([scheduler_loop] in scheduler.py), as a system of replicas.

    - Presence: device_presence.py: connections, heartbeats and the status
      shadow of a device row.  Alerts: the state and the operations of
      alert_service.py, device_events.py and the alert rows of device_alerts.py;
      TempAlerts and OfflineAlerts: what they do to temperature samples and to
      devices that come and go.  Triage: the severity tags and fleet counts of
      device_alerts.py.  Notifications: the inbox (routers/notifications.py).
    - Ota: firmware upgrades: ota_progress.py, the upgrade endpoint of
      routers/devices.py with its claim, the part of a registration that gives
      the claim back (routers/ws.py), and the startup backfill of main.py.
    - Access: who a request runs as and what it may do (auth.py,
      permissions.py, routers/mcp.py).  Accounts: users, roles, API keys, sign
      in, invitation and password reset (routers/users.py, roles.py,
      api_keys.py, ui.py), on the tables of Access.
    - RateLimit: the sliding-window limiters (routers/bootstrap.py, ui.py) and
      the nonce cache of device_identity.py.  DeviceIdentity: the rest of
      device_identity.py, with base64.  Bootstrap: registration, polling,
      adoption, connect tokens, expiry and fleets (device_bootstrap.py,
      routers/bootstrap.py, fleet_registry.py); it calls both.

    - Variants: cms/services/transcoder.py: the rows and jobs that make a file
      for every asset and profile, the liveness monitor, the passes of the
      reaper, and [delete_asset] of routers/assets.py, on the tables of [Lib]
      (assets, variants, profiles, jobs, notifications, files).  [ready_for] and
      [latest_ready] say which file a screen plays.  Profiles:
      routers/profiles.py with its validation, the defaults and the seeding.
      Worker: the database side of worker/__main__.py and worker/transcoder.py:
      claim and checks, heartbeat, start, publication, failure and the end of a
      run.  [media_step] puts the three together, one commit at a time.

    - DeviceLife: the rest of a device row's life and the groups: registration
      (device_register.py, ws.py, wps_webhook.py), tokens and API keys, adoption,
      edits, moves (device_membership.py), deletion, the purge (device_purge.py)
      and the group endpoints of routers/devices.py; [floor_op] is any of them.
      Schedules: the endpoints that write schedules and device tags
      (routers/schedules.py, device_tags.py).  [console_op] puts both next to
      the gates of ConflictGate: everything that decides which schedules reach
      a device.

    - Slides: the body of a slide (schemas/asset.py), the row it becomes and the
      CHECK constraints of slideshow_slides.  Library: visibility, slideshows,
      sharing, the global flag, deletion, tags and the bulk endpoint of
      routers/assets.py, on the tables of [Lib] with the columns [Shelf] adds;
      [covered] is the audience rule, [lib_step] one committed request.  Paging:
      the paginated list with its filters, order and cursor.  Intake: uploads,
      web pages, streams, edits and recaptures, with urllib's splitting of URLs.

    - JsonText: json.dumps and json.loads.  Features: the registry of feature
      flags, their evaluation and administration
      (cms/services/feature_flags.py, routers/features.py).  Budget, Chat,
      Display, Agent: the assistant.  Budget is the token caps
      (services/assistant/budget.py, routers/assistant_settings.py), Chat the
      tables of threads, messages, usage and proposals with the operations
      users have on them (routers/chat.py, the editor threads of
      routers/assets.py and composed.py), Display the names on the cards
      (approval_display.py), Agent the tool profiles, the MCP client, the two
      loops of agent.py and the decisions of chat_approvals.py.  [chat_step]
      is any of these requests, one commit at a time.

    - ImageBuild, Imager: images for new devices.  ImageBuild has what keeps no
      state: the rules for URLs, the walk along redirects, the catalog, a
      checked download (shared/services/imager_catalog.py, parts of
      worker/imager_handlers.py), the env of a fleet and its injection into an
      image (cms/services/imager.py).  Imager has the rows, the endpoints of
      routers/imager.py and the two handlers of the worker, on the job tables of
      [Lib] and the fleets of Bootstrap; [img_step] is one commit, one upload or
      one removal of a file.

    Definitions keep the names of the Python functions; a definition for a part
    of a function (a loop body, a guard) has a name of its own and a comment.
    The database state is passed explicitly, fallible code returns [result exn],
    and a handler that fails after its commit returns the changed tables next to
    the error ([end_schedule_now]).  UTC instants are microseconds since 1970;
    local times are naive datetimes.

    ** What is an argument

    ZoneInfo (a function from UTC instants to local datetimes, [None] for an
    unknown key), SHA-256, the storage URL signer, the message queue, the
    transport (who is connected, what the live shadows say, the tokens it
    mints), bcrypt, the cookie signer, HMAC, Ed25519, X25519, HKDF, AES-GCM,
    the order of creation of users, which groups exist, fresh UUIDs, tokens and
    keys, tarfile, the encoders (what a run of one yields is an [Outcome]), which
    files can be unlinked, the outcome of inserts and commits that other sessions
    can break, the order of the asset types in the database, which bracketed host
    ipaddress accepts, the language model (any function of the conversation), the
    MCP server (any function of the log of calls), the prompt, the texts of JSON
    decode errors, the text of a float, the rows that give cards their names,
    and the success or failure of blob reads and writes; for the imager the web
    servers (any function from URLs to responses), xz, parted and mtools, the
    conversion of a catalog's size to a column, and the free space.  No
    theorem assumes more of them than that they are functions, with three
    exceptions: where a time zone must send an instant to a proper datetime this
    is a hypothesis ([now_ok]) that the witnesses discharge with UTC, and opening
    what was sealed needs the documented laws of the cryptographic primitives
    ([crypto_laws], discharged for toy primitives), and reading back what was put
    into an image needs that xz and mtools keep what they are given
    ([image_tools]).  Endpoints of Bootstrap,
    Accounts and Ota start after authentication.

    ** The theorems

    Claims are numbered C1 ... in the doc comments.  Exactness of the decision
    procedures (occurrences, overlap, windows, readiness, upcoming list, sync
    message, MISSED reports); preservation of [conflict_free] by both gates;
    agreement of the bulk and the single code paths (target resolvers, push and
    fetch, counts and decks, purge and snapshot); the invariant and the status
    machine of log collection under any interleaving ([flow_invariant],
    [flow_transitions]), the end of every request within its retry budget
    ([drain_terminates]), the round trip and the errors of the wire format, the
    assembly of a transfer in any order of arrival, and the chunked upload from
    the frames to the stored bundle ([chunked_upload_completes]); safety of the distributed
    parts by invariants over step relations ([outbox_ok], [world_ok],
    [offline_run]); progress of the drainer and bounded takeover of the lease.
    OFFLINE and ONLINE notifications of a device alternate
    ([offline_online_alternate]), a device that stays hot is reported
    ([hot_device_alerts]), users do not touch each other's inbox
    ([inbox_isolated]).  One upgrade request at a time ([upgrade_claim_exclusive]),
    consistent columns ([ota_columns_ok]).  Soundness of authentication
    ([current_user_sound], [verify_mcp_token_sound]), consistency of the accounts
    under every operation ([accounts_preserved]), single use of reset links
    ([reset_link_single_use]).  Consistency and bound of the registration tables
    ([bootstrap_invariant]), finality of an adoption ([adoption_final]), delivery
    of the credentials from the registration to the opened payload
    ([adoption_delivers]), sealing and opening ([sealed_roundtrip]), what a
    signature covers ([signed_text_injective]), replay protection
    ([request_not_replayed]) and rate limits ([rate_limit_holds]).
    A screen keeps its file whatever happens to profiles, jobs and workers, as
    long as a failure is not written over a READY row ([playback_never_lost]);
    recovery of dead workers is exact and lets one run publish
    ([recover_stalled_exact], [evicted_run_is_silent]); repair, deletion and
    failure notifications do what their specifications say
    ([reconcile_stranded_exact], [deletion_completes], [superseded_reclaimed],
    [fail_notes_exact]); an edit of a profile renews every file it concerns
    ([profile_edit_complete]) and the profiles stay consistent
    ([profiles_preserved]).  The fleet stays free of conflicts under everything
    that changes schedules, tags, groups or devices ([fleet_conflict_free]); what a
    creation has established about a schedule ([create_schedule_sound],
    [loop_end_exact]); a registration
    gives out keys and configuration only to an adopted device with the right
    token ([register_authenticates], [register_roundtrip]), a rotated key works
    for five minutes more ([key_rotation_exact]), and the purge spares what was
    adopted or came back ([purge_exact]).
    No slideshow shows its audience an asset the audience may not see
    ([deck_leaks_nothing]), except through the two gaps of the global flag that
    [toggle_exact] delimits; uploads and edits keep that rule and the uniqueness
    of names ([intake_keeps_library]), the bulk endpoint is its single operations
    in a row ([bulk_is_single_steps]), every accepted slide is a row the table
    accepts ([accepted_slides_fit_table], [direction_order_irrelevant]), and the
    pages of the library are complete ([pages_complete]).
    JSON text is read back as the value it was made from ([json_roundtrip]).  A
    change of a flag grants exactly what it says and touches no other flag
    ([flag_set_exact]); the page of budgets shows and stores exactly the caps
    sent ([budget_page_exact]).  No tool that writes runs without an approved
    proposal by the owner of the thread, under any interleaving of turns, edits
    and decisions ([writes_need_approval]); the history a turn sends is one the
    model accepts ([histories_coherent]); one request to talk takes a
    user at most one turn's worth of tokens beyond the cap ([overspend_bounded]).
    What an operator downloads was built from a file whose checksum a catalog of
    an allowed host announced, with the secret of the row's own fleet
    ([image_provenance]); no other host is contacted ([imager_contacts_allowed]);
    a device with the image can register until its fleet is deleted
    ([flashed_device_registers]); an accepted build that nothing disturbs is
    delivered ([image_delivered]).
    Some theorems and examples record behaviour that differs from what the
    comments in the code say: [end_now_until_exact], [resume_time_small_hours],
    [zero_length_announced], [last_tail_not_synced], [playback_slot_on_screen],
    [terminal_is_not_final], [stuck_rows_starve], [two_dispatchers],
    [foreign_device_completes], [second_transfer_overwrites],
    [traversal_guard_bypassed], [azure_blob_leaks], [refused_upload_leaves_part],
    [backoff_starves], [healed_device_close_ignored],
    [ungrouped_device_phantom_online], [stale_offline_without_online],
    [orphaned_device_row_stays_open], [ungrouped_hot_device_row_stays_open],
    [missing_reading_keeps_state], [late_progress_resurrects],
    [late_failure_drops_new_claim], [partial_register_drops_claim],
    [inactive_user_key_works], [orphaned_key_is_admin],
    [deleted_user_key_becomes_admin], [ungrouped_event_hidden_from_members],
    [forced_change_needs_no_password], [reregistration_hides_payload],
    [registration_replayed], [comment_ttl_too_short], [addresses_differ],
    [video_edit_strands_image], [disable_enable_strands],
    [late_timeout_unreadies], [late_failure_unreadies],
    [evicted_thumbnail_publishes], [composed_source_unreapable],
    [stranded_batch_starves], [new_profile_skips_streams],
    [name_with_newline_accepted], [adoption_creates_conflict],
    [double_rotation_breaks_grace], [orphaned_key_still_works],
    [auto_assign_disabled_profile], [rename_group_raises],
    [empty_token_takes_over], [foreign_group_scheduled],
    [partial_update_empties_window], [loops_longer_than_a_day],
    [tag_block_composed_ungated], [url_swap_keeps_loop_count],
    [unknown_kind_reaches_table], [composed_source_ungloballed],
    [group_deck_source_ungloballed], [toggle_is_not_admin_only],
    [clip_ignored_in_duration], [saved_stream_member_counts_dwell],
    [tag_block_hides_unused], [unknown_durations_lost], [null_cursor_raises],
    [search_is_a_pattern], [loopback_accepted], [bracket_raises],
    [third_page_raises], [deleted_name_raises], [invisible_asset_renamed],
    [refused_upload_leaves_file],
    [unknown_state_breaks_page], [double_approval_runs_twice],
    [rejection_overwritten], [fallback_id_collides], [delete_thread_refunds],
    [failed_turn_leaves_nothing], [parallel_turns_interleave],
    [bypass_accepts_reads], [card_names_anything],
    [stamped_size_unchecked], [interrupted_import_stuck],
    [late_failure_unreadies_base], [delete_race_loses_blob],
    [deleted_base_fails_build], [newline_output_name], [wifi_writes_env],
    [wifi_not_listed].

    ** Bounds

    These loops of the code are fuelled.  The weekday search of Occurrence
    ([RANGE_FUEL], 8) leaves after at most seven days, and
    [schedules_overlap_total] shows that the fuel never runs out; the search for
    a free user name has one more attempt than there are users, and
    [unique_username_total] shows that this is enough; the search for the name
    of a copied profile and for that of a schedule likewise ([copy_name_total],
    [unique_name_total]); a client that follows the cursors of the library needs
    one request more than there are assets ([pages_complete]).  The JSON reader
    has the length of the text as fuel, which [json_size_length] shows to be
    enough for every text the printer makes; a turn of the assistant makes at
    most [max_iters] requests, and a download follows at most [MAX_REDIRECTS]
    redirects, as in the code.  [drain_terminates] asks for
    [2 * max_attempts + 1] ticks: each takes at least one unit of the measure
    [budget] from every row in flight.  The decimal printer [Z_str] is given the number
    of binary digits as fuel.  Years stop at Python's [date.max].

    ** Not modelled

    Daylight-saving folds beyond what the zone function yields; concurrency
    inside one database transaction (a tick sees one consistent [Db]); rows and
    columns no modelled function reads; logging, audit rows, e-mail and metrics;
    HTML pages and list formatting; the contents of files, the widths of text columns, composed slides, what drives
    the encoders, stream capture and voice synthesis, the progress columns of
    transcodes and the remote mirror of files; the scratch
    directories of the imager and the command lines of its tools; the prompts and prices
    of the assistant and the MCP server itself; NaN, Infinity and lone surrogates
    in JSON; the bundle poller.  Letter case, blanks and digits of
    strings are those of ASCII.
    A Python [str] that travels as bytes is represented by its UTF-8 bytes
    (lone surrogates, which [encode] rejects, have no representation); the
    chunk assembler is that of one process, as in the code. *)

From stdpp Require Export base tactics list gmap strings fin_maps sorting.
From Stdlib Require Export Ascii ZArith Lia.
From stdpp Require Export strings.

#[export] Set Default Goal Selector "!".

(** ** Python exceptions and fallible computations *)

(** The exceptions the modelled code raises, one constructor per Python class
    that the code (or the part of the language it uses) can raise. *)
Inductive exn :=
  | OverflowError
  | KeyError
  | AttributeError
  | IntegrityError
  | RuntimeError
  | ValueError (msg : string)
  | HTTPException (status : Z)
  | OSError
  | ArgumentError                            (* SQLAlchemy, for a comparison with None *)
  | MultipleResultsFound                     (* SQLAlchemy: scalar_one_or_none on two rows *)
  | StaleDataError                           (* SQLAlchemy: an UPDATE that finds no row *)
  | PermissionError (msg : string)
  | BudgetExceededError (daily_cap used : Z)
  | AssistantUnavailableError (msg : string)
  | McpUnavailableError (msg : string)
  | TransportError (msg : string).

#[export] Instance exn_eq_dec : EqDecision exn.
Proof. solve_decision. Defined.

(** [Ok a] is a normal return, [Err e] an exception in flight. *)
Inductive result (E A : Type) : Type :=
  | Ok (a : A)
  | Err (e : E).
Arguments Ok {E A} a.
Arguments Err {E A} e.

#[export] Instance result_ret E : MRet (result E) := λ A a, Ok a.
#[export] Instance result_bind E : MBind (result E) := λ A B f m,
  match m with Ok a => f a | Err e => Err e end.
#[export] Instance result_fmap E : FMap (result E) := λ A B f m,
  match m with Ok a => Ok (f a) | Err e => Err e end.
#[export] Instance result_eq_dec {E A} `{EqDecision E, EqDecision A} : EqDecision (result E A).
Proof. solve_decision. Defined.

Lemma result_bind_ok {E A B} (x : result E A) (f : A → result E B) (b : B) :
  x ≫= f = Ok b → ∃ a, x = Ok a ∧ f a = Ok b.
Proof. destruct x as [a|]; [|done]. by exists a. Qed.

Definition is_ok {E A} (m : result E A) : bool :=
  match m with Ok _ => true | Err _ => false end.

(** ** Notations *)

Declare Scope agora_scope.
Delimit Scope agora_scope with agora.
Notation "x <s y" := (String.ltb x y) (at level 70) : agora_scope.
Notation "m 'or_else' d" := (default d m) (at level 65, right associativity) : agora_scope.
Open Scope agora_scope.

(** ** Automation *)

Create HintDb agora discriminated.

(** Splits every [if] and [match] that blocks the goal or a hypothesis. *)
Ltac break_if :=
  match goal with
  | |- context [if ?b then _ else _] => destruct b eqn:?
  | H : context [if ?b then _ else _] |- _ => destruct b eqn:?
  end.

Ltac bool_to_prop :=
  repeat match goal with
  | H : (_ && _)%bool = true |- _ => apply andb_true_iff in H as [? ?]
  | H : (_ || _)%bool = false |- _ => apply orb_false_iff in H as [? ?]
  | H : negb _ = true |- _ => apply negb_true_iff in H
  | H : negb _ = false |- _ => apply negb_false_iff in H
  | H : bool_decide _ = true |- _ => apply bool_decide_eq_true in H
  | H : bool_decide _ = false |- _ => apply bool_decide_eq_false in H
  | H : (_ <? _)%Z = true |- _ => apply Z.ltb_lt in H
  | H : (_ <? _)%Z = false |- _ => apply Z.ltb_ge in H
  | H : (_ <=? _)%Z = true |- _ => apply Z.leb_le in H
  | H : (_ <=? _)%Z = false |- _ => apply Z.leb_gt in H
  | H : (_ =? _)%Z = true |- _ => apply Z.eqb_eq in H
  | H : (_ =? _)%Z = false |- _ => apply Z.eqb_neq in H
  end.

(** [lia] with division and remainder by constants turned into equations. *)
Ltac zdm := Z.div_mod_to_equations; lia.

(** ** Booleans and decisions *)

Lemma bool_decide_iff_eq (P : Prop) `{Decision P} (b : bool) :
  (P ↔ b = true) → bool_decide P = b.
Proof. case_bool_decide; destruct b; naive_solver. Qed.

(** ** Folds that keep the best element *)

Section fold_inv.
Context {A B : Type} (f : B → A → B) (I : B → Prop).

(** An invariant kept by the body of a loop holds after the loop. *)
Lemma fold_left_inv (l : list A) (b : B) :
  I b → (∀ b' a, a ∈ l → I b' → I (f b' a)) → I (fold_left f l b).
Proof.
  revert b. induction l as [|a l IH]; intros b Hb Hstep; [done|].
  apply IH; [apply Hstep; [left|done] | intros ????; apply Hstep; [by right|done]].
Qed.
End fold_inv.

(** ** Python's string order *)

Lemma str_ltb_irrefl s : (s <s s) = false.
Proof.
  unfold String.ltb. pose proof (String.compare_antisym s s) as H.
  destruct (String.compare s s); done.
Qed.

Lemma str_ltb_asym s1 s2 : (s1 <s s2) = true → (s2 <s s1) = false.
Proof.
  unfold String.ltb. rewrite (String.compare_antisym s2 s1).
  destruct (String.compare s1 s2); done.
Qed.

Lemma str_ltb_total s1 s2 : (s1 <s s2) = true ∨ s1 = s2 ∨ (s2 <s s1) = true.
Proof.
  unfold String.ltb. rewrite (String.compare_antisym s2 s1).
  destruct (String.compare s1 s2) eqn:E; auto. apply String.compare_eq_iff in E. auto.
Qed.

Lemma str_ltb_leb s1 s2 : (s1 <s s2) = true ↔ String.le s1 s2 ∧ s1 ≠ s2.
Proof.
  unfold String.le. split.
  - intros H. split; [|intros ->; by rewrite str_ltb_irrefl in H].
    apply Is_true_true. unfold String.ltb, String.leb in *. by destruct (String.compare s1 s2).
  - intros [H%Is_true_true Hne]. unfold String.ltb, String.leb in *.
    destruct (String.compare s1 s2) eqn:E; try done.
    by apply String.compare_eq_iff in E.
Qed.

Lemma str_ltb_trans s1 s2 s3 : (s1 <s s2) = true → (s2 <s s3) = true → (s1 <s s3) = true.
Proof.
  intros H12 H23. pose proof H12 as H12'. apply str_ltb_leb in H12, H23. apply str_ltb_leb.
  destruct H12, H23. split; [by trans s2|]. intros ->.
  apply str_ltb_asym in H12'. apply not_true_iff_false in H12'. apply H12', str_ltb_leb. done.
Qed.

(** ** Concatenation *)

Lemma str_app_cons c a b : String c a +:+ b = String c (a +:+ b).
Proof. reflexivity. Qed.
Lemma str_app_nil b : "" +:+ b = b.
Proof. reflexivity. Qed.

Lemma str_app_assoc a b c : (a +:+ b) +:+ c = a +:+ (b +:+ c).
Proof. induction a as [|x a IH]; [done|]. by rewrite !str_app_cons, IH. Qed.

Lemma str_app_length a b : String.length (a +:+ b) = (String.length a + String.length b)%nat.
Proof. induction a as [|x a IH]; [done|]. rewrite str_app_cons. simpl. by rewrite IH. Qed.

Lemma str_app_inj_l a b s : s +:+ a = s +:+ b → a = b.
Proof. apply String.app_inj. Qed.

Lemma str_app_inj_r a b s : a +:+ s = b +:+ s → a = b.
Proof.
  revert b. induction a as [|c a IH]; intros [|d b] H; [done|..].
  - apply (f_equal String.length) in H. rewrite !str_app_length in H. simpl in H. lia.
  - apply (f_equal String.length) in H. rewrite !str_app_length in H. simpl in H. lia.
  - rewrite !str_app_cons in H. injection H as -> H. by rewrite (IH b).
Qed.

Lemma str_app_nil_r a : a +:+ "" = a.
Proof. induction a as [|c a IH]; [done|]. by rewrite str_app_cons, IH. Qed.

Lemma concat_cons x l : String.concat "" (x :: l) = x +:+ String.concat "" l.
Proof. destruct l; simpl; [by rewrite str_app_nil_r|done]. Qed.

(** [sorted(xs)] of a set of strings. *)
Definition str_sorted (X : gset string) : list string := merge_sort String.le (elements X).

Lemma elem_of_str_sorted x X : x ∈ str_sorted X ↔ x ∈ X.
Proof. unfold str_sorted. by rewrite merge_sort_Permutation, elem_of_elements. Qed.

(** ** Python's stable sort by an integer key *)

Section sort_by.
Context {A : Type} (key : A → Z).

Fixpoint insert_by (x : A) (l : list A) : list A :=
  match l with
  | [] => [x]
  | y :: l' => if (key x <=? key y)%Z then x :: y :: l' else y :: insert_by x l'
  end.

(** [l.sort(key=key)]: equal keys keep their order. *)
Definition sort_by (l : list A) : list A := foldr insert_by [] l.

Definition key_le (x y : A) : Prop := (key x ≤ key y)%Z.

Lemma insert_by_Permutation x l : insert_by x l ≡ₚ x :: l.
Proof.
  induction l as [|y l IH]; simpl; [done|]. case_match; [done|].
  rewrite IH. constructor.
Qed.

Lemma sort_by_Permutation l : sort_by l ≡ₚ l.
Proof.
  induction l as [|x l IH]; simpl; [done|]. by rewrite insert_by_Permutation, IH.
Qed.

Lemma insert_by_Sorted x l : Sorted key_le l → Sorted key_le (insert_by x l).
Proof.
  induction 1 as [|y l Hl IH Hhd]; simpl; [by repeat constructor|].
  destruct (Z.leb_spec (key x) (key y)).
  - repeat constructor; done.
  - constructor; [done|]. destruct Hhd as [|z l Hz]; simpl; [constructor; unfold key_le; lia|].
    case_match; constructor; unfold key_le in *; lia.
Qed.

Lemma sort_by_Sorted l : Sorted key_le (sort_by l).
Proof. induction l; simpl; [constructor|]. by apply insert_by_Sorted. Qed.

Lemma head_insert_by x l :
  head (insert_by x l) = match head l with Some y => if (key x <=? key y)%Z then Some x else Some y | None => Some x end.
Proof. destruct l as [|y l]; [done|]. simpl. by case_match. Qed.

(** The first row of the sorted list: the first of the smallest key. *)
Lemma head_sort_by l x :
  head (sort_by l) = Some x →
  ∃ l1 l2, l = l1 ++ x :: l2 ∧ (∀ y, y ∈ l1 → key x < key y)%Z ∧ (∀ y, y ∈ l2 → key x ≤ key y)%Z.
Proof.
  revert x. induction l as [|a l IH]; intros x; simpl; [done|]. rewrite head_insert_by.
  destruct (head (sort_by l)) as [y|] eqn:Hy.
  - destruct (IH y eq_refl) as (l1 & l2 & -> & H1 & H2). destruct (Z.leb_spec (key a) (key y)) as [Hle|Hlt]; intros [= <-].
    + exists [], (l1 ++ y :: l2). split; [done|]. split; [set_solver|].
      intros z [Hz|[->|Hz]%elem_of_cons]%elem_of_app; [specialize (H1 z Hz); lia|done|specialize (H2 z Hz); lia].
    + exists (a :: l1), l2. split; [done|]. split; [|done]. intros z [->|Hz]%elem_of_cons; auto.
  - intros [= <-]. exists [], l. split; [done|]. split; [set_solver|].
    assert (l = []) as ->; [|set_solver]. apply Permutation_nil_r. rewrite <-(sort_by_Permutation l).
    by destruct (sort_by l).
Qed.

Lemma head_sort_by_None l : head (sort_by l) = None → l = [].
Proof.
  intros H. apply Permutation_nil_r. rewrite <-(sort_by_Permutation l). by destruct (sort_by l).
Qed.

Lemma head_sort_by_intro l1 x l2 :
  (∀ y, y ∈ l1 → key x < key y)%Z → (∀ y, y ∈ l2 → key x ≤ key y)%Z → head (sort_by (l1 ++ x :: l2)) = Some x.
Proof.
  induction l1 as [|a l1 IH]; intros H1 H2; simpl.
  - rewrite head_insert_by. destruct (head (sort_by l2)) as [y|] eqn:Hy; [|done].
    apply head_sort_by in Hy as (k1 & k2 & -> & _). rewrite (proj2 (Z.leb_le _ _)); [done|].
    apply H2, elem_of_app. right. left.
  - rewrite head_insert_by, IH; [|intros; apply H1; by right|done].
    by rewrite (proj2 (Z.leb_gt _ _)) by (apply H1; left).
Qed.

(** Leaving out rows that are not of the smallest key keeps the first row. *)
Lemma head_sort_by_filter (P : A → Prop) `{!∀ x, Decision (P x)} l :
  (∀ x, x ∈ l → ¬ P x → ∃ y, y ∈ l ∧ key y < key x)%Z → head (sort_by (filter P l)) = head (sort_by l).
Proof.
  intros Hdrop. destruct (head (sort_by l)) as [x|] eqn:Hx.
  - apply head_sort_by in Hx as (l1 & l2 & -> & H1 & H2).
    assert (P x) as HP.
    { apply dec_stable. intros HnP. destruct (Hdrop x) as (y & Hy & Hlt); [apply elem_of_app; right; left|done|].
      apply elem_of_app in Hy as [Hy|[->|Hy]%elem_of_cons]; [specialize (H1 y Hy)| |specialize (H2 y Hy)]; lia. }
    rewrite filter_app, filter_cons_True by done.
    apply head_sort_by_intro; intros y [_ Hy]%list_elem_of_filter; auto.
  - apply head_sort_by_None in Hx as ->. done.
Qed.

(** Filtering commutes with the stable sort. *)
Lemma filter_insert_by (P : A → Prop) `{!∀ x, Decision (P x)} x l :
  Sorted key_le l → filter P (insert_by x l) = if decide (P x) then insert_by x (filter P l) else filter P l.
Proof.
  intros Hs. induction Hs as [|y l Hs IH Hhd].
  { simpl. rewrite filter_cons, filter_nil. by destruct (decide (P x)). }
  simpl. destruct (Z.leb_spec (key x) (key y)) as [Hle|Hlt].
  - rewrite filter_cons. destruct (decide (P x)) as [Hx|]; [|done].
    assert (Hins : ∀ k, Sorted key_le k → (∀ z, z ∈ k → key x ≤ key z)%Z → insert_by x (filter P k) = x :: filter P k).
    { intros k _ Hk. destruct (filter P k) as [|z r] eqn:Hf; [done|]. simpl.
      assert (z ∈ filter P k) as [_ Hz]%list_elem_of_filter by (rewrite Hf; left).
      by rewrite (proj2 (Z.leb_le _ _) (Hk z Hz)). }
    rewrite Hins; [done|by constructor|]. intros z Hz. apply Sorted_StronglySorted in Hs; [|intros a b c; unfold key_le; lia].
    assert (Hall : ∀ z, z ∈ l → (key y ≤ key z)%Z).
    { intros z' Hz'. destruct Hhd as [|w k Hw]; [by apply elem_of_nil in Hz'|]. unfold key_le in Hw.
      apply StronglySorted_inv in Hs as [_ Hs]. rewrite Forall_forall in Hs.
      apply elem_of_cons in Hz' as [->|Hz']; [done|]. specialize (Hs z' Hz'). unfold key_le in Hs. lia. }
    apply elem_of_cons in Hz as [->|Hz]; [done|]. specialize (Hall z Hz). lia.
  - rewrite !filter_cons, IH. destruct (decide (P y)), (decide (P x)); simpl; try done.
    by rewrite (proj2 (Z.leb_gt _ _)).
Qed.
Lemma filter_sort_by (P : A → Prop) `{!∀ x, Decision (P x)} l : filter P (sort_by l) = sort_by (filter P l).
Proof.
  induction l as [|x l IH]; [done|]. simpl. rewrite filter_insert_by by apply sort_by_Sorted.
  rewrite filter_cons, IH. by destruct (decide (P x)).
Qed.
End sort_by.

(** ** Python's stable sort by a total order *)

Section sort_on.
Context {A : Type} (leb : A → A → bool).

Fixpoint insert_on (x : A) (l : list A) : list A :=
  match l with
  | [] => [x]
  | y :: l' => if leb x y then x :: y :: l' else y :: insert_on x l'
  end.
Definition sort_on (l : list A) : list A := foldr insert_on [] l.

Lemma insert_on_Permutation x l : insert_on x l ≡ₚ x :: l.
Proof.
  induction l as [|y l IH]; simpl; [done|]. case_match; [done|]. rewrite IH. constructor.
Qed.
Lemma sort_on_Permutation l : sort_on l ≡ₚ l.
Proof. induction l as [|x l IH]; simpl; [done|]. by rewrite insert_on_Permutation, IH. Qed.

Hypothesis leb_total : ∀ x y, leb x y = true ∨ leb y x = true.

Lemma insert_on_Sorted x l :
  Sorted (λ a b, leb a b = true) l → Sorted (λ a b, leb a b = true) (insert_on x l).
Proof.
  induction 1 as [|y l Hl IH Hhd]; simpl; [by repeat constructor|].
  destruct (leb x y) eqn:Hxy; [by repeat constructor|].
  assert (leb y x = true) by (destruct (leb_total x y); congruence).
  constructor; [done|]. destruct Hhd as [|z l Hz]; simpl; [by constructor|].
  case_match; by constructor.
Qed.
Lemma sort_on_Sorted l : Sorted (λ a b, leb a b = true) (sort_on l).
Proof. induction l; simpl; [constructor|]. by apply insert_on_Sorted. Qed.
End sort_on.

Lemma insert_on_map {A} (leb : A → A → bool) (f : A → A) x l :
  (∀ a b, leb (f a) (f b) = leb a b) → insert_on leb (f x) (f <$> l) = f <$> insert_on leb x l.
Proof. intros H. induction l as [|y l IH]; [done|]. csimpl. rewrite H. destruct (leb x y); [done|]. csimpl. by rewrite IH. Qed.
(** A change that the order does not see commutes with sorting. *)
Lemma sort_on_map {A} (leb : A → A → bool) (f : A → A) l : (∀ a b, leb (f a) (f b) = leb a b) → sort_on leb (f <$> l) = f <$> sort_on leb l.
Proof. intros H. induction l as [|x l IH]; [done|]. cbn [fmap list_fmap sort_on foldr]. fold (sort_on leb (f <$> l)). rewrite IH. by apply insert_on_map. Qed.

(** ** Dicts that keep the order of insertion *)

Section alist.
Context {K V : Type} `{EqDecision K}.
Implicit Types (k : K) (v : V) (l : list (K * V)).

Fixpoint aget k l : option V :=
  match l with
  | [] => None
  | (k', v) :: l' => if decide (k = k') then Some v else aget k l'
  end.

(** [d[k] = v]: a present key keeps its place. *)
Fixpoint aset k v l : list (K * V) :=
  match l with
  | [] => [(k, v)]
  | (k', v') :: l' => if decide (k = k') then (k, v) :: l' else (k', v') :: aset k v l'
  end.

Lemma aget_aset k k' v l : aget k' (aset k v l) = if decide (k' = k) then Some v else aget k' l.
Proof.
  induction l as [|[k0 v0] l IH]; simpl; [done|].
  repeat case_decide; simpl; repeat case_decide; congruence.
Qed.
Lemma aset_keys k v l : (aset k v l).*1 = if decide (k ∈ l.*1) then l.*1 else l.*1 ++ [k].
Proof.
  induction l as [|[k0 v0] l IH]; [done|].
  change (((k0, v0) :: l).*1) with (k0 :: l.*1). simpl. destruct (decide (k = k0)) as [->|Hne].
  - rewrite decide_True; [done|]. apply elem_of_cons. by left.
  - rewrite fmap_cons, IH. destruct (decide (k ∈ l.*1)).
    + rewrite decide_True; [done|]. apply elem_of_cons. by right.
    + rewrite decide_False; [done|]. by intros [?|?]%elem_of_cons.
Qed.
Lemma aset_NoDup k v l : NoDup l.*1 → NoDup (aset k v l).*1.
Proof.
  intros Hnd. rewrite aset_keys. case_decide; [done|].
  apply NoDup_app. split_and!; [done|set_solver|apply NoDup_singleton].
Qed.
Lemma aget_elem_of k v l : NoDup l.*1 → aget k l = Some v ↔ (k, v) ∈ l.
Proof.
  induction l as [|[k0 v0] l IH]; simpl; [set_solver|]. intros [Hnin Hnd]%NoDup_cons.
  rewrite elem_of_cons. case_decide as Hk; [subst|].
  - split; [intros [= ->]; auto|]. intros [[= ->]|Hin]; [done|].
    exfalso. apply Hnin, list_elem_of_fmap. by exists (k0, v).
  - rewrite IH by done. naive_solver.
Qed.

(** [d.pop(k, None)]. *)
Definition adel k l : list (K * V) := filter (λ kv, kv.1 ≠ k) l.

Lemma aget_filter (P : K * V → Prop) `{!∀ kv, Decision (P kv)} k l :
  NoDup l.*1 → aget k (filter P l) = (v ← aget k l; if decide (P (k, v)) then Some v else None).
Proof.
  induction l as [|[k0 v0] l IH]; [done|]. intros [Hnin Hnd]%NoDup_cons. rewrite filter_cons. simpl.
  destruct (decide (k = k0)) as [->|Hne]; simpl.
  - destruct (decide (P (k0, v0))); simpl; [by rewrite decide_True|]. rewrite IH by done.
    destruct (aget k0 l) as [v|] eqn:E; [|done]. exfalso. apply aget_elem_of in E; [|done].
    apply Hnin, list_elem_of_fmap. by exists (k0, v).
  - destruct (decide (P (k0, v0))); simpl; [rewrite decide_False by done|]; by apply IH.
Qed.

Lemma aget_adel k k' l : NoDup l.*1 → aget k' (adel k l) = if decide (k' = k) then None else aget k' l.
Proof.
  intros Hnd. unfold adel. rewrite aget_filter by done. case_decide; destruct (aget k' l); simpl; try done.
  - by rewrite decide_False by auto.
  - by rewrite decide_True.
Qed.
Lemma adel_aset k v l : adel k (aset k v l) = adel k l.
Proof.
  unfold adel. induction l as [|[k0 v0] l IH]; simpl.
  - by rewrite filter_cons_False by (by intros []).
  - case_decide as Hk; [subst; by rewrite !filter_cons_False by (simpl; tauto)|].
    rewrite !filter_cons_True by (simpl; by auto). by rewrite IH.
Qed.
Lemma filter_keys_NoDup (P : K * V → Prop) `{!∀ kv, Decision (P kv)} l : NoDup l.*1 → NoDup (filter P l).*1.
Proof.
  intros Hnd. eapply sublist_NoDup; [exact Hnd|]. apply fmap_sublist, sublist_filter.
Qed.
End alist.

(** ** Building a dict from rows *)

(** [list(dict.fromkeys(l))]: the first occurrences, in order. *)
Definition fromkeys {A} `{EqDecision A} (l : list A) : list A := reverse (remove_dups (reverse l)).

Lemma elem_of_fromkeys {A} `{EqDecision A} (l : list A) x : x ∈ fromkeys l ↔ x ∈ l.
Proof. unfold fromkeys. by rewrite elem_of_reverse, elem_of_remove_dups, elem_of_reverse. Qed.

(** [for k, v in rows: d.setdefault(k, set()).add(v)]. *)
Definition multidict_of (rows : list (string * string)) : gmap string (gset string) :=
  fold_left (λ m kv, <[kv.1 := {[kv.2]} ∪ default ∅ (m !! kv.1)]> m) rows ∅.

Lemma elem_of_multidict_fold rows m k v :
  v ∈ default ∅ (fold_left (λ (m : gmap string (gset string)) kv,
                   <[kv.1 := {[kv.2]} ∪ default ∅ (m !! kv.1)]> m) rows m !! k) ↔
  v ∈ default ∅ (m !! k) ∨ (k, v) ∈ rows.
Proof.
  revert m. induction rows as [|[k' v'] rows IH]; intros m; simpl.
  { rewrite elem_of_nil. naive_solver. }
  rewrite IH, elem_of_cons. destruct (decide (k = k')) as [->|Hne].
  - rewrite lookup_insert_eq. simpl. set_solver.
  - rewrite lookup_insert_ne by done. naive_solver.
Qed.

Lemma elem_of_multidict_of rows k v :
  v ∈ default ∅ (multidict_of rows !! k) ↔ (k, v) ∈ rows.
Proof.
  unfold multidict_of. rewrite elem_of_multidict_fold, lookup_empty. simpl. set_solver.
Qed.

Lemma NoDup_fmap_eq {A B} (f : A → B) (l : list A) (x y : A) :
  NoDup (f <$> l) → x ∈ l → y ∈ l → f x = f y → x = y.
Proof.
  induction l as [|a l IH]; simpl; [set_solver|]. intros [Hnin Hnd]%NoDup_cons Hx Hy Heq.
  apply elem_of_cons in Hx as [->|Hx]; apply elem_of_cons in Hy as [->|Hy]; [done|..|by auto].
  - exfalso. apply Hnin. rewrite Heq. by apply list_elem_of_fmap_2.
  - exfalso. apply Hnin. rewrite <- Heq. by apply list_elem_of_fmap_2.
Qed.

Lemma NoDup_fmap_filter {A B} (f : A → B) (P : A → Prop) `{∀ x, Decision (P x)} (l : list A) :
  NoDup (f <$> l) → NoDup (f <$> filter P l).
Proof.
  induction l as [|a l IH]; [done|]. rewrite filter_cons. rewrite !fmap_cons.
  intros [Hnin Hnd]%NoDup_cons. case_decide; [|auto]. rewrite fmap_cons. constructor; [|auto].
  rewrite list_elem_of_fmap in *. intros (x & Hfx & [_ Hx]%list_elem_of_filter). eauto.
Qed.

Lemma filter_nil_intro {A} (P : A → Prop) `{∀ x, Decision (P x)} (l : list A) :
  (∀ x, x ∈ l → ¬ P x) → filter P l = [].
Proof.
  induction l as [|a l IH]; intros Hno; [done|]. rewrite filter_cons_False by (apply Hno; left).
  apply IH. intros x Hx. apply Hno. by right.
Qed.

Lemma StronglySorted_lookup {A} (R : A → A → Prop) (l : list A) i j x y :
  StronglySorted R l → (i < j)%nat → l !! i = Some x → l !! j = Some y → R x y.
Proof.
  intros Hs. revert i j. induction Hs as [|a l Hs IH Hall]; intros i j Hij Hi Hj; [done|].
  destruct j as [|j]; [lia|]. destruct i as [|i]; simpl in *.
  - injection Hi as ->. rewrite Forall_forall in Hall. by eapply Hall, list_elem_of_lookup_2.
  - apply (IH i j); [lia|done|done].
Qed.

Lemma list_find_filter {A} (P Q : A → Prop) `{∀ x, Decision (P x), ∀ x, Decision (Q x)} (l : list A) i x :
  list_find P (filter Q l) = Some (i, x) → ∃ j, list_find (λ a, Q a ∧ P a) l = Some (j, x).
Proof.
  revert i. induction l as [|a l IH]; intros i; [done|]. rewrite filter_cons.
  destruct (decide (Q a)) as [HQ|HQ]; simpl.
  - destruct (decide (P a)) as [HP|HP].
    + intros [= <- <-]. exists 0%nat. by rewrite decide_True.
    + destruct (list_find P (filter Q l)) as [[k y]|]; simpl; [|done]. intros [= <- <-].
      destruct (IH k eq_refl) as [j Hj]. exists (S j). rewrite decide_False by naive_solver. by rewrite Hj.
  - intros Hf. destruct (IH i Hf) as [j Hj]. exists (S j). rewrite decide_False by naive_solver. by rewrite Hj.
Qed.

(** Mapping and filtering a list whose keys are distinct keeps them distinct. *)
Lemma omap_fmap_NoDup {A B K} (key : A → K) (key' : B → K) (f : A → option B) (l : list A) :
  (∀ a b, f a = Some b → key' b = key a) → NoDup (key <$> l) → NoDup (key' <$> omap f l).
Proof.
  intros Hf. induction l as [|a l IH]; simpl; [constructor|]. intros [Hnin Hnd]%NoDup_cons.
  destruct (f a) as [b|] eqn:Hfa; simpl; [|auto]. constructor; [|auto].
  rewrite (Hf _ _ Hfa). intros (b' & Hk & (a' & Ha' & Hf')%list_elem_of_omap)%list_elem_of_fmap.
  apply Hnin, list_elem_of_fmap. exists a'. split; [|done]. by rewrite Hk, (Hf _ _ Hf').
Qed.

Lemma list_elem_of_concat_fmap {A B} (f : A → list B) (l : list A) (y : B) :
  y ∈ concat (f <$> l) ↔ ∃ x, x ∈ l ∧ y ∈ f x.
Proof.
  induction l as [|a l IH]; simpl; [set_solver|]. rewrite elem_of_app, IH.
  setoid_rewrite elem_of_cons. naive_solver.
Qed.

Lemma omap_cons_match {A B} (f : A → option B) (x : A) (l : list A) :
  omap f (x :: l) = match f x with Some y => y :: omap f l | None => omap f l end.
Proof. done. Qed.

Lemma omap_ext_in {A B} (f g : A → option B) (l : list A) :
  (∀ x, x ∈ l → f x = g x) → omap f l = omap g l.
Proof.
  induction l as [|a l IH]; intros Hfg; [done|]. simpl.
  rewrite (Hfg a) by left. specialize (IH (λ x Hx, Hfg x (list_elem_of_further _ _ _ Hx))).
  destruct (g a); [f_equal|]; exact IH.
Qed.

Section dict.
Context {K V : Type} `{Countable K}.
Implicit Types (rows : list (K * V)) (m : gmap K V).

(** [for k, v in rows: d[k] = v]: a later row overwrites an earlier one. *)
Definition dict_update m rows : gmap K V := fold_left (λ m kv, <[kv.1 := kv.2]> m) rows m.
Definition dict_of rows : gmap K V := dict_update ∅ rows.

Lemma dict_update_ne rows m k : k ∉ rows.*1 → dict_update m rows !! k = m !! k.
Proof.
  unfold dict_update. revert m. induction rows as [|[k' v'] rows IH]; intros m; simpl; [done|].
  rewrite not_elem_of_cons. intros [??]. rewrite IH by done. by rewrite lookup_insert_ne.
Qed.

Lemma lookup_dict_update rows m k v :
  NoDup rows.*1 →
  dict_update m rows !! k = Some v ↔ (k, v) ∈ rows ∨ (k ∉ rows.*1 ∧ m !! k = Some v).
Proof.
  revert m. induction rows as [|[k' v'] rows IH]; intros m; simpl.
  { rewrite elem_of_nil. unfold dict_update; simpl. intros _. set_solver. }
  intros [Hnin Hnd]%NoDup_cons.
  change (dict_update m ((k', v') :: rows)) with (dict_update (<[k':=v']> m) rows).
  rewrite IH, elem_of_cons, not_elem_of_cons by done.
  destruct (decide (k = k')) as [->|Hne].
  - rewrite lookup_insert_eq. split.
    + intros [Hin|[_ [= ->]]]; auto.
    + intros [[[= ->]|Hin]|[[? _] _]]; [auto|auto|done].
  - rewrite lookup_insert_ne by done. naive_solver.
Qed.

(** With distinct keys the dict holds exactly the rows. *)
Lemma lookup_dict_of rows k v : NoDup rows.*1 → dict_of rows !! k = Some v ↔ (k, v) ∈ rows.
Proof. intros ?. unfold dict_of. rewrite lookup_dict_update, lookup_empty by done. naive_solver. Qed.

Lemma dict_of_is_Some rows k : is_Some (dict_of rows !! k) ↔ k ∈ rows.*1.
Proof.
  unfold dict_of. enough (∀ m, is_Some (dict_update m rows !! k) ↔ k ∈ rows.*1 ∨ is_Some (m !! k)) as Hg.
  { rewrite Hg, lookup_empty. split; [intros [?|[? ?]]|]; [done..|auto]. }
  induction rows as [|[k' v'] rows IH]; intros m; simpl.
  { rewrite elem_of_nil. unfold dict_update; simpl. naive_solver. }
  change (dict_update m ((k', v') :: rows)) with (dict_update (<[k':=v']> m) rows).
  rewrite IH, elem_of_cons. destruct (decide (k = k')) as [->|Hne].
  - rewrite lookup_insert_eq. split; [auto|]. intros _. right. by eexists.
  - rewrite lookup_insert_ne by done. naive_solver.
Qed.

(** Rows computed from objects with distinct keys have distinct keys. *)
Section omap_keys.
  Context {A : Type} (key : A → K) (f : A → option (K * V)).
  Hypothesis f_key : ∀ a kv, f a = Some kv → kv.1 = key a.

Lemma omap_keys_NoDup l : NoDup (key <$> l) → NoDup (omap f l).*1.
  Proof. by apply omap_fmap_NoDup. Qed.

Lemma lookup_dict_of_omap l a :
    NoDup (key <$> l) → a ∈ l → dict_of (omap f l) !! key a = snd <$> f a.
  Proof.
    intros Hnd Ha. apply option_eq. intros v.
    rewrite lookup_dict_of by by apply omap_keys_NoDup.
    rewrite list_elem_of_omap, fmap_Some. split.
    - intros (a' & Ha' & Hf). pose proof (f_key _ _ Hf) as Hk. simpl in Hk.
      assert (a = a') as <- by by eapply (NoDup_fmap_eq key).
      by exists (key a, v).
    - intros ([k v'] & Hf & ->). exists a. split; [done|]. rewrite Hf.
      by rewrite <- (f_key _ _ Hf).
  Qed.
End omap_keys.
End dict.

(** The values of the entries of a map that satisfy a condition. *)
Lemma map_filter_values_nil {K V} `{Countable K} (P : K * V → Prop) `{∀ x, Decision (P x)}
    (m : gmap K V) :
  (map_to_list (filter P m)).*2 = [] ↔ ∀ k v, m !! k = Some v → ¬ P (k, v).
Proof.
  split.
  - intros Hnil%fmap_nil_inv k v Hk HP. apply map_to_list_empty_iff in Hnil.
    assert (filter P m !! k = Some v) as Hf by by apply map_lookup_filter_Some.
    by rewrite Hnil, lookup_empty in Hf.
  - intros Hno. assert (filter P m = ∅) as ->; [|by rewrite map_to_list_empty].
    apply map_empty. intros k. apply eq_None_not_Some.
    intros [v [Hk HP]%map_lookup_filter_Some]. by eapply Hno.
Qed.

(** ** Filters and maps in the error monad *)

Section error_lists.
Context {E A B : Type}.

(** [[x for x in l if p(x)]] where [p] may raise. *)
Fixpoint filter_ok (p : A → result E bool) (l : list A) : result E (list A) :=
  match l with
  | [] => Ok []
  | a :: l' => keep ← p a; rest ← filter_ok p l'; Ok (if (keep : bool) then a :: rest else rest)
  end.

(** A loop that appends at most one element per item. *)
Fixpoint omap_ok (f : A → result E (option B)) (l : list A) : result E (list B) :=
  match l with
  | [] => Ok []
  | a :: l' =>
      r ← f a; rest ← omap_ok f l';
      Ok (match r with Some b => b :: rest | None => rest end)
  end.

Lemma elem_of_filter_ok p l l' x :
  filter_ok p l = Ok l' → x ∈ l' ↔ x ∈ l ∧ p x = Ok true.
Proof.
  revert l'. induction l as [|a l IH]; intros l'; simpl; [intros [= <-]; set_solver|].
  destruct (p a) as [keep|] eqn:Hp; simpl; [|done].
  destruct (filter_ok p l) as [rest|]; simpl; [|done]. intros [= <-].
  specialize (IH rest eq_refl). destruct keep; rewrite !elem_of_cons, ?IH;
    (split; [intros; destruct_or?; destruct_and?; subst; auto|]);
    intros [[->|?] Hpx]; rewrite ?Hp in Hpx; try discriminate; auto.
Qed.

Lemma filter_ok_no_error p l l' a :
  filter_ok p l = Ok l' → a ∈ l → ∃ b, p a = Ok b.
Proof.
  revert l'. induction l as [|x l IH]; intros l'; simpl; [set_solver|].
  destruct (p x) as [b|] eqn:Hp; simpl; [|discriminate].
  destruct (filter_ok p l) as [rest|]; simpl; [|discriminate].
  intros _ [->|?]%elem_of_cons; eauto.
Qed.

Lemma filter_ok_sublist p l l' : filter_ok p l = Ok l' → l' `sublist_of` l.
Proof.
  revert l'. induction l as [|a l IH]; intros l'; simpl; [by intros [= <-]|].
  destruct (p a) as [keep|] eqn:Hp; simpl; [|done].
  destruct (filter_ok p l) as [rest|]; simpl; [|done]. intros [= <-].
  specialize (IH rest eq_refl). destruct keep; by constructor.
Qed.

Lemma filter_ok_total p l : (∀ a, a ∈ l → ∃ b, p a = Ok b) → ∃ l', filter_ok p l = Ok l'.
Proof.
  induction l as [|a l IH]; simpl; intros Hp; [by eexists|].
  destruct (Hp a) as [b ->]; [left|]. destruct IH as [rest ->]; [intros; apply Hp; by right|].
  simpl. eauto.
Qed.

Lemma elem_of_omap_ok f l l' y :
  omap_ok f l = Ok l' → y ∈ l' ↔ ∃ x, x ∈ l ∧ f x = Ok (Some y).
Proof.
  revert l'. induction l as [|a l IH]; intros l'; simpl.
  { intros [= <-]. setoid_rewrite elem_of_nil. naive_solver. }
  destruct (f a) as [r|] eqn:Hf; simpl; [|done].
  destruct (omap_ok f l) as [rest|]; simpl; [|done]. intros [= <-].
  specialize (IH rest eq_refl). setoid_rewrite elem_of_cons.
  destruct r as [b|]; rewrite ?elem_of_cons, IH; split.
  - intros [->|(x & ? & ?)]; [exists a|exists x]; auto.
  - intros (x & [->|?] & Hx); [rewrite Hf in Hx; injection Hx as <-; auto|eauto].
  - intros (x & ? & ?). exists x. auto.
  - intros (x & [->|?] & Hx); [rewrite Hf in Hx; discriminate|eauto].
Qed.

Lemma omap_ok_no_error f l l' a :
  omap_ok f l = Ok l' → a ∈ l → ∃ r, f a = Ok r.
Proof.
  revert l'. induction l as [|x l IH]; intros l'; simpl; [set_solver|].
  destruct (f x) as [r|] eqn:Hf; simpl; [|done].
  destruct (omap_ok f l) as [rest|]; simpl; [|done]. intros _ [->|?]%elem_of_cons; eauto.
Qed.

Lemma omap_ok_total f l : (∀ a, a ∈ l → ∃ b, f a = Ok b) → ∃ l', omap_ok f l = Ok l'.
Proof.
  induction l as [|a l IH]; simpl; intros Hp; [by eexists|].
  destruct (Hp a) as [b ->]; [left|]. destruct IH as [rest ->]; [intros; apply Hp; by right|].
  simpl. eauto.
Qed.
End error_lists.

(** ** Keeping the best element of a list *)

Section best.
Context {A : Type} (beats : A → A → bool).

(** The loop body [if best is None or beats(x, best): best = x]. *)
Definition pick (incumbent : option A) (x : A) : option A :=
  match incumbent with
  | None => Some x
  | Some y => if beats x y then Some x else Some y
  end.

Hypothesis beats_irrefl : ∀ x, beats x x = false.
Hypothesis beats_trans : ∀ x y z, beats x y = true → beats y z = true → beats x z = true.

Definition total_on (l : list A) : Prop :=
  ∀ x y, x ∈ l → y ∈ l → x = y ∨ beats x y = true ∨ beats y x = true.

Definition best_of (l : list A) (x : A) : Prop :=
  x ∈ l ∧ ∀ y, y ∈ l → y = x ∨ beats x y = true.

Lemma best_of_unique l x y : best_of l x → best_of l y → x = y.
Proof.
  intros [Hx Hx'] [Hy Hy']. destruct (Hx' y Hy) as [->|Hxy]; [done|].
  destruct (Hy' x Hx) as [->|Hyx]; [done|].
  pose proof (beats_trans _ _ _ Hxy Hyx). by rewrite beats_irrefl in *.
Qed.

Lemma fold_pick_some l b :
  total_on (b :: l) → ∃ x, fold_left pick l (Some b) = Some x ∧ best_of (b :: l) x.
Proof.
  revert b. induction l as [|a l IH]; intros b Ht; simpl.
  { exists b. split; [done|]. split; [by left|]. intros y Hy. left. set_solver. }
  set (c := if beats a b then a else b).
  replace (if beats a b then Some a else Some b) with (Some c) by (unfold c; by case_match).
  destruct (IH c) as (x & Hx & Hin & Hbest).
  { intros x y Hx Hy. apply Ht; unfold c in *; case_match; set_solver. }
  exists x. split; [done|]. split; [unfold c in *; case_match; set_solver|].
  intros y Hy. assert (beats x c = true ∨ x = c) as Hxc by (destruct (Hbest c) as [?|?]; [left|..]; auto).
  assert (y = c ∨ y ∈ l ∨ beats c y = true) as [->|[?|Hcy]].
  { unfold c. destruct (beats a b) eqn:E; [set_solver|].
    apply elem_of_cons in Hy as [->|[->|?]%elem_of_cons]; [auto| |auto].
    destruct (Ht a b) as [->|[?|?]]; [set_solver|set_solver|auto|congruence|auto]. }
  - naive_solver.
  - apply Hbest. by right.
  - right. destruct Hxc as [?| ->]; eauto.
Qed.

(** The loop returns the best element, in whatever order the list comes. *)
Lemma fold_pick_spec l x :
  total_on l → fold_left pick l None = Some x ↔ best_of l x.
Proof.
  destruct l as [|a l]; simpl; intros Ht.
  { unfold best_of. set_solver. }
  destruct (fold_pick_some l a Ht) as (y & -> & Hy). split.
  - by intros [= <-].
  - intros Hx. f_equal. by eapply best_of_unique.
Qed.

Lemma fold_pick_none l : fold_left pick l None = None ↔ l = [].
Proof.
  destruct l as [|a l]; simpl; [done|]. split; [|done].
  enough (∀ b, fold_left pick l (Some b) ≠ None) by naive_solver.
  clear. induction l; simpl; [done|]. intros b. by case_match.
Qed.
End best.

(** ** The front of a sorted list *)

Lemma filter_all {A} (P : A → Prop) `{!∀ x, Decision (P x)} (l : list A) :
  (∀ x, x ∈ l → P x) → filter P l = l.
Proof.
  induction l as [|a l IH]; intros Hall; [done|]. rewrite filter_cons_True by (apply Hall; left).
  f_equal. apply IH. intros x Hx. apply Hall. by right.
Qed.

Lemma filter_fmap_length {A B} (f : A → B) (P : B → Prop) (Q : A → Prop)
    `{!∀ x, Decision (P x), !∀ x, Decision (Q x)} (l : list A) :
  (∀ x, x ∈ l → P (f x) → Q x) → (length (filter P (f <$> l)) ≤ length (filter Q l))%nat.
Proof.
  induction l as [|a l IH]; intros Himp; [done|]. rewrite fmap_cons, !filter_cons.
  assert (IH' : (length (filter P (f <$> l)) ≤ length (filter Q l))%nat) by (apply IH; intros x Hx; apply Himp; by right).
  assert (P (f a) → Q a) by (apply Himp; left).
  repeat case_decide; simpl; try lia. tauto.
Qed.

Lemma filter_length_mono {A} (P Q : A → Prop) `{!∀ x, Decision (P x), !∀ x, Decision (Q x)} (l : list A) :
  (∀ x, x ∈ l → P x → Q x) → (length (filter P l) ≤ length (filter Q l))%nat.
Proof. intros ?. rewrite <-(list_fmap_id l) at 1. by apply filter_fmap_length. Qed.

(** In a sorted list an element with few smaller-or-equal ones is near the front. *)
Lemma elem_of_take_sorted {A} (key : A → Z) (l : list A) (x : A) (n : nat) :
  Sorted (key_le key) l → x ∈ l → (length (filter (λ y, (key y ≤ key x)%Z) l) ≤ n)%nat → x ∈ take n l.
Proof.
  intros Hs [i Hi]%list_elem_of_lookup_1 Hn. apply elem_of_take. exists i. split; [done|].
  assert (Hlen : length (take (S i) l) = S i) by (rewrite length_take; apply lookup_lt_Some in Hi; lia).
  assert (Hall : filter (λ y, (key y ≤ key x)%Z) (take (S i) l) = take (S i) l).
  { apply filter_all. intros y (j & Hy & Hj)%elem_of_take.
    destruct (decide (j = i)) as [->|]; [simplify_eq; lia|].
    assert (StronglySorted (key_le key) l) as Hss by (apply Sorted_StronglySorted; [intros ???; unfold key_le; lia|done]).
    eapply (StronglySorted_lookup (key_le key)); [done| |done|done]. lia. }
  rewrite <-(take_drop (S i) l), filter_app, length_app, Hall in Hn. lia.
Qed.

(** ** Unique columns

    No two rows of a table have the same key, rows without one apart. *)
Definition unique_by {A K} (f : A → option K) (m : gmap string A) : Prop :=
  ∀ i j a b k, m !! i = Some a → m !! j = Some b → f a = Some k → f b = Some k → i = j.

Section unique_by.
Context {A K : Type} (f : A → option K).
Implicit Types (m : gmap string A).

Lemma unique_by_insert i a m :
  unique_by f m → (∀ j b k, m !! j = Some b → j ≠ i → f a = Some k → f b ≠ Some k) → unique_by f (<[i := a]> m).
Proof.
  intros Hu Hnew j1 j2 b1 b2 k H1 H2 F1 F2. destruct (decide (j1 = i)) as [->|N1], (decide (j2 = i)) as [->|N2].
  - done.
  - rewrite lookup_insert_eq in H1. injection H1 as <-. rewrite lookup_insert_ne in H2 by done. by destruct (Hnew j2 b2 k).
  - rewrite lookup_insert_eq in H2. injection H2 as <-. rewrite lookup_insert_ne in H1 by done. by destruct (Hnew j1 b1 k).
  - rewrite lookup_insert_ne in H1, H2 by done. by apply (Hu j1 j2 b1 b2 k).
Qed.
(** A row that keeps its key, or drops it. *)
Lemma unique_by_update i a a' m :
  unique_by f m → m !! i = Some a → f a' = f a ∨ f a' = None → unique_by f (<[i := a']> m).
Proof.
  intros Hu Ha Hf. apply unique_by_insert; [done|]. intros j b k Hb Hne Hk Hbk. destruct Hf as [Hf|Hf]; [|congruence].
  destruct Hne. apply (Hu j i b a k); congruence.
Qed.
Lemma unique_by_delete i m : unique_by f m → unique_by f (delete i m).
Proof. intros Hu j1 j2 b1 b2 k [_ H1]%lookup_delete_Some [_ H2]%lookup_delete_Some. by apply Hu. Qed.
Lemma unique_by_fmap (g : A → A) m : unique_by f m → (∀ a, f (g a) = f a) → unique_by f (g <$> m).
Proof.
  intros Hu Hg j1 j2 b1 b2 k. rewrite !lookup_fmap. intros (a1 & H1 & ->)%fmap_Some_1 (a2 & H2 & ->)%fmap_Some_1.
  rewrite !Hg. by apply Hu.
Qed.
End unique_by.

Lemma unique_by_filter {A K} (f : A → option K) (P : string * A → Prop) `{!∀ x, Decision (P x)} (m : gmap string A) :
  unique_by f m → unique_by f (filter P m).
Proof. intros Hu i j a b k [Ha _]%map_lookup_filter_Some [Hb _]%map_lookup_filter_Some. by apply Hu. Qed.

(** ** Queries

    [SELECT ... WHERE p] on a table, in some order. *)
Definition rows_where {A} (p : A → bool) (m : gmap string A) : list (string * A) := filter (λ ia, p ia.2 = true) (map_to_list m).

Section rows_where.
Context {A : Type} (p : A → bool).
Implicit Types (m : gmap string A).

Lemma elem_of_rows_where i a m : (i, a) ∈ rows_where p m ↔ p a = true ∧ m !! i = Some a.
Proof. unfold rows_where. by rewrite list_elem_of_filter, elem_of_map_to_list. Qed.

Lemma rows_where_nil m : rows_where p m = [] ↔ ∀ i a, m !! i = Some a → p a = false.
Proof.
  split.
  - intros E i a Ha. destruct (p a) eqn:Hp; [|done]. assert (Hin : (i, a) ∈ rows_where p m) by by apply elem_of_rows_where.
    rewrite E in Hin. by apply elem_of_nil in Hin.
  - intros H. destruct (rows_where p m) as [|[i a] l] eqn:E; [done|]. assert (Hin : (i, a) ∈ rows_where p m) by (rewrite E; left).
    apply elem_of_rows_where in Hin as [Hp Ha]. by rewrite (H i a Ha) in Hp.
Qed.

Lemma rows_where_head m i a l : rows_where p m = (i, a) :: l → p a = true ∧ m !! i = Some a.
Proof. intros E. apply elem_of_rows_where. rewrite E. left. Qed.

(** How many rows match. *)
Definition count_where m : nat := length (rows_where p m).

Lemma count_where_insert i a m : m !! i = None → count_where (<[i := a]> m) = ((if p a then 1 else 0) + count_where m)%nat.
Proof.
  intros Hi. unfold count_where, rows_where. rewrite (map_to_list_insert m i a) by done. rewrite filter_cons. cbn [snd].
  by destruct (p a); case_decide.
Qed.
Lemma count_where_mono m1 m2 : m1 ⊆ m2 → (count_where m1 ≤ count_where m2)%nat.
Proof.
  intros Hsub. apply submseteq_length, NoDup_submseteq; [apply NoDup_filter, NoDup_map_to_list|].
  intros [i a] [Hp Hi]%elem_of_rows_where. apply elem_of_rows_where. split; [done|]. by eapply lookup_weaken.
Qed.
(** A row that is replaced. *)
Lemma count_where_update i a a' m :
  m !! i = Some a → (count_where (<[i := a']> m) + (if p a then 1 else 0) = count_where m + (if p a' then 1 else 0))%nat.
Proof.
  intros Hi. assert (H1 : count_where m = ((if p a then 1 else 0) + count_where (delete i m))%nat).
  { rewrite <-(count_where_insert i a (delete i m)) by apply lookup_delete_eq. by rewrite insert_delete_id. }
  rewrite <-(insert_delete_eq m i a'), count_where_insert by apply lookup_delete_eq. lia.
Qed.
End rows_where.

(** ** The first free candidate *)

(** The first of [cand 0], [cand 1], ... that is free. *)
Fixpoint first_free (taken : string → bool) (cand : nat → string) (fuel k : nat) : option string :=
  match fuel with
  | O => None
  | S fuel' => if taken (cand k) then first_free taken cand fuel' (S k) else Some (cand k)
  end.


Section first_free.
Context (taken : string → bool) (cand : nat → string).

Lemma first_free_spec fuel k :
  match first_free taken cand fuel k with
  | Some s => ∃ i, s = cand i ∧ (k ≤ i < k + fuel)%nat ∧ taken s = false ∧ ∀ j, (k ≤ j < i)%nat → taken (cand j) = true
  | None => ∀ j, (k ≤ j < k + fuel)%nat → taken (cand j) = true
  end.
Proof.
  revert k. induction fuel as [|fuel IH]; intros k; simpl; [lia|].
  destruct (taken (cand k)) eqn:Ht; [|exists k; split_and!; [done|lia..|done|lia]].
  specialize (IH (S k)). destruct (first_free _ _ _ _) as [s|].
  - destruct IH as (i & -> & Hi & Hf & Hall). exists i. split_and!; [done|lia..|done|].
    intros j Hj. destruct (decide (j = k)) as [->|]; [done|]. apply Hall. lia.
  - intros j Hj. destruct (decide (j = k)) as [->|]; [done|]. apply IH. lia.
Qed.

(** Pigeonhole: distinct candidates, one more than there are names. *)
Lemma first_free_total (names : list string) :
  (∀ s, taken s = true → s ∈ names) → (∀ i j, cand i = cand j → i = j) →
  ∃ i, first_free taken cand (S (length names)) 0 = Some (cand i) ∧ taken (cand i) = false ∧
       ∀ j, (j < i)%nat → taken (cand j) = true.
Proof.
  intros Hn Hinj. pose proof (first_free_spec (S (length names)) 0) as H. destruct (first_free _ _ _ _) as [s|].
  - destruct H as (i & -> & _ & Hf & Hall). exists i. split_and!; [done|done|]. intros j Hj. apply Hall. lia.
  - exfalso. assert (Hsub : cand <$> seq 0 (S (length names)) ⊆ names).
    { intros x (j & -> & Hj%elem_of_seq)%list_elem_of_fmap. apply Hn, H. lia. }
    apply NoDup_submseteq, submseteq_length in Hsub.
    + rewrite length_fmap, length_seq in Hsub. lia.
    + apply NoDup_fmap_2_strong; [|apply NoDup_seq]. auto.
Qed.
End first_free.

(** ** Rows found by key *)

Lemma find_key_spec {A} (key : A → string) (l : list A) k a :
  NoDup (key <$> l) → snd <$> list_find (λ x, key x = k) l = Some a ↔ a ∈ l ∧ key a = k.
Proof.
  induction l as [|x l IH]; simpl; intros Hnd; [split; [done|by intros [?%elem_of_nil _]]|].
  apply NoDup_cons in Hnd as [Hx Hnd]. rewrite elem_of_cons. case_decide as Hk; simpl.
  - split; [intros [= ->]; auto|]. intros [[->|Ha] E]; [done|]. exfalso. apply Hx, list_elem_of_fmap. exists a. by rewrite Hk, E.
  - specialize (IH Hnd). destruct (list_find _ l) as [[n y]|]; simpl in *; naive_solver.
Qed.

Lemma find_key_map {A} (key : A → string) (f : A → A) (l : list A) k :
  (∀ x, key (f x) = key x) →
  snd <$> list_find (λ x, key x = k) (f <$> l) = f <$> (snd <$> list_find (λ x, key x = k) l).
Proof.
  intros Hf. induction l as [|x l IH]; [done|]. csimpl. rewrite Hf. case_decide; [done|].
  destruct (list_find _ (f <$> l)) as [[]|], (list_find _ l) as [[]|]; simpl in *; congruence.
Qed.

Lemma find_key_app {A} (key : A → string) (l : list A) x k :
  key x ≠ k → snd <$> list_find (λ y, key y = k) (l ++ [x]) = snd <$> list_find (λ y, key y = k) l.
Proof.
  intros Hx. induction l as [|y l IH]; simpl; [by rewrite decide_False|]. case_decide; simpl; [done|].
  destruct (list_find _ (l ++ [x])) as [[]|], (list_find _ l) as [[]|]; simpl in *; congruence.
Qed.
