(* ===== verification/Clock.v ===== *)
(** * Python's naive dates and times

    The part of Python's [datetime] module the scheduler uses.  A [date] is its
    proleptic Gregorian ordinal (day 1 is Monday 0001-01-01), a [time] has the
    four fields of the class, a naive [datetime] is a date with a time.
    Durations ([timedelta]) are microseconds.  Date arithmetic that leaves
    [date.min .. date.max] raises [OverflowError], as it does in Python. *)

From S2P Require Import Prelude.
Open Scope Z_scope.

Definition DAY_US : Z := 86400000000.

Abbreviation date := Z.
Definition date_min : date := 1.
Definition date_max : date := 3652059.
Definition date_ok (d : date) : bool := (date_min <=? d) && (d <=? date_max).

(** [date.isoweekday]: 1 is Monday, 7 is Sunday. *)
Definition isoweekday (d : date) : Z := (d - 1) mod 7 + 1.

(** [d + timedelta(days=n)]. *)
Definition date_add (d : date) (n : Z) : result exn date :=
  if date_ok (d + n) then Ok (d + n) else Err OverflowError.

Record time := Time { hour : Z; minute : Z; second : Z; microsecond : Z }.

#[export] Instance time_eq_dec : EqDecision time.
Proof. solve_decision. Defined.

(** The range every constructed [time] satisfies. *)
Definition time_ok (t : time) : bool :=
  ((0 <=? hour t) && (hour t <? 24) && (0 <=? minute t) && (minute t <? 60) &&
   (0 <=? second t) && (second t <? 60) && (0 <=? microsecond t) && (microsecond t <? 1000000))%bool.

(** Microseconds since midnight. *)
Definition time_us (t : time) : Z :=
  (hour t * 3600 + minute t * 60 + second t) * 1000000 + microsecond t.

(** The inverse of [time_us] on one day. *)
Definition time_of_us (u : Z) : time :=
  Time (u / 3600000000) (u / 60000000 mod 60) (u / 1000000 mod 60) (u mod 1000000).

Record datetime := Datetime { dt_date : date; dt_time : time }.

#[export] Instance datetime_eq_dec : EqDecision datetime.
Proof. solve_decision. Defined.

Definition datetime_ok (d : datetime) : bool := (date_ok (dt_date d) && time_ok (dt_time d))%bool.

(** Position on the nominal time line; Python compares naive datetimes field by
    field, which on well-formed values is the order of this number. *)
Definition dt_us (d : datetime) : Z := dt_date d * DAY_US + time_us (dt_time d).
Definition dt_of_us (u : Z) : datetime := Datetime (u / DAY_US) (time_of_us (u mod DAY_US)).

(** [d + timedelta(microseconds=n)]. *)
Definition dt_add (d : datetime) (n : Z) : result exn datetime :=
  let d' := dt_of_us (dt_us d + n) in
  if date_ok (dt_date d') then Ok d' else Err OverflowError.

(** [a - b] and the comparisons. *)
Definition dt_sub (a b : datetime) : Z := dt_us a - dt_us b.
Definition dt_ltb (a b : datetime) : bool := dt_us a <? dt_us b.
Definition dt_leb (a b : datetime) : bool := dt_us a <=? dt_us b.
Definition time_leb (a b : time) : bool := time_us a <=? time_us b.

(** [int(td.total_seconds())]: truncation towards zero. *)
Definition total_seconds_int (us : Z) : Z := Z.quot us 1000000.
(** [int(td.total_seconds() / 60)]. *)
Definition total_minutes_int (us : Z) : Z := Z.quot us 60000000.

(** ** Text forms *)

(** One decimal digit. *)
Definition digit (n : Z) : string :=
  String (Ascii.ascii_of_N (Z.to_N (48 + n mod 10))) EmptyString.
(** A non-negative number padded to two digits; [%H], [%M] and [%S]. *)
Definition pad2 (n : Z) : string := digit (n / 10) +:+ digit n.
(** ... and to four; the year of [isoformat]. *)
Definition pad4 (n : Z) : string := pad2 (n / 100) +:+ pad2 (n mod 100).

(** [str] of an integer. *)
Fixpoint nat_str_fuel (fuel : nat) (n : Z) : string :=
  match fuel with
  | O => ""
  | S f => if n <? 10 then digit n else nat_str_fuel f (n / 10) +:+ digit n
  end.
Definition Z_str (n : Z) : string :=
  if n <? 0 then "-" +:+ nat_str_fuel (S (Z.to_nat (Z.log2 (- n)))) (- n)
  else nat_str_fuel (S (Z.to_nat (Z.log2 n))) n.

(** [t.strftime("%H:%M:%S")]. *)
Definition strftime_HMS (t : time) : string :=
  pad2 (hour t) +:+ ":" +:+ pad2 (minute t) +:+ ":" +:+ pad2 (second t).

(** [t.strftime("%I:%M %p").lstrip("0")], in the C locale. *)
Fixpoint lstrip0 (s : string) : string :=
  match s with
  | String "0"%char s' => lstrip0 s'
  | _ => s
  end.
Definition hour12 (h : Z) : Z := if h mod 12 =? 0 then 12 else h mod 12.
Definition strftime_IMp (t : time) : string :=
  lstrip0 (pad2 (hour12 (hour t)) +:+ ":" +:+ pad2 (minute t) +:+
           (if hour t <? 12 then " AM" else " PM")).

(** Year, month and day of an ordinal ([date.fromordinal]), counting years from
    March so that the leap day comes last. *)
Definition ymd (d : date) : Z * Z * Z :=
  let z := d + 305 in
  let era := z / 146097 in
  let doe := z mod 146097 in
  let yoe := (doe - doe / 1460 + doe / 36524 - doe / 146096) / 365 in
  let doy := doe - (365 * yoe + yoe / 4 - yoe / 100) in
  let mp := (5 * doy + 2) / 153 in
  let day := doy - (153 * mp + 2) / 5 + 1 in
  let month := if mp <? 10 then mp + 3 else mp - 9 in
  (yoe + era * 400 + (if month <=? 2 then 1 else 0), month, day).

(** [date.isoformat()]. *)
Definition date_isoformat (d : date) : string :=
  let '(y, m, dd) := ymd d in
  pad4 y +:+ "-" +:+ pad2 m +:+ "-" +:+ pad2 dd.

(** ** Lemmas *)

Lemma isoweekday_range d : 1 ≤ isoweekday d ≤ 7.
Proof. unfold isoweekday. zdm. Qed.

(** Seven consecutive days meet every weekday. *)
Lemma isoweekday_hits (d w : Z) : 1 ≤ w ≤ 7 → ∃ d', d ≤ d' ≤ d + 6 ∧ isoweekday d' = w.
Proof.
  intros Hw. exists (d + (w - 1 - (d - 1)) mod 7). unfold isoweekday. split; zdm.
Qed.

Lemma time_us_range t : time_ok t = true → 0 ≤ time_us t < DAY_US.
Proof. unfold time_ok, time_us, DAY_US. intros. bool_to_prop. lia. Qed.

Lemma time_of_us_ok u : 0 ≤ u < DAY_US → time_ok (time_of_us u) = true.
Proof.
  unfold time_ok, time_of_us, DAY_US; simpl. intros.
  rewrite !andb_true_iff, !Z.leb_le, !Z.ltb_lt. repeat split; zdm.
Qed.

Lemma time_us_of_us u : 0 ≤ u < DAY_US → time_us (time_of_us u) = u.
Proof. unfold time_us, time_of_us, DAY_US; simpl. intros. zdm. Qed.

Lemma time_of_us_us t : time_ok t = true → time_of_us (time_us t) = t.
Proof.
  unfold time_ok, time_of_us, time_us. destruct t as [h m s us]; simpl. intros. bool_to_prop.
  f_equal; zdm.
Qed.

Lemma dt_us_of_us u : dt_us (dt_of_us u) = u.
Proof.
  unfold dt_us, dt_of_us; simpl. rewrite time_us_of_us; unfold DAY_US; zdm.
Qed.

Lemma dt_of_us_us d : time_ok (dt_time d) = true → dt_of_us (dt_us d) = d.
Proof.
  destruct d as [d t]; unfold dt_of_us, dt_us; simpl. intros Ht.
  pose proof (time_us_range t Ht).
  replace ((d * DAY_US + time_us t) / DAY_US) with d by (unfold DAY_US in *; zdm).
  replace ((d * DAY_US + time_us t) mod DAY_US) with (time_us t) by (unfold DAY_US in *; zdm).
  by rewrite time_of_us_us.
Qed.

(** The order on well-formed datetimes is the order of dates, then of times. *)
Lemma dt_us_lt_lex a b :
  datetime_ok a = true → datetime_ok b = true →
  dt_us a < dt_us b ↔ dt_date a < dt_date b ∨ (dt_date a = dt_date b ∧ time_us (dt_time a) < time_us (dt_time b)).
Proof.
  unfold datetime_ok, dt_us. intros Ha Hb. bool_to_prop.
  pose proof (time_us_range (dt_time a)). pose proof (time_us_range (dt_time b)).
  unfold DAY_US in *. naive_solver lia.
Qed.

Lemma dt_of_us_ok u : date_ok (u / DAY_US) = true → datetime_ok (dt_of_us u) = true.
Proof.
  unfold datetime_ok, dt_of_us; simpl. intros ->. simpl.
  apply time_of_us_ok. unfold DAY_US. zdm.
Qed.

Example ymd_epoch : date_isoformat 719163 = "1970-01-01". Proof. reflexivity. Qed.
Example ymd_leap : date_isoformat 738945 = "2024-02-29". Proof. reflexivity. Qed.
Example ymd_last : date_isoformat date_max = "9999-12-31". Proof. reflexivity. Qed.
Example ymd_first : date_isoformat date_min = "0001-01-01". Proof. reflexivity. Qed.
Example imp_noon : strftime_IMp (Time 12 5 0 0) = "12:05 PM". Proof. reflexivity. Qed.
Example imp_am : strftime_IMp (Time 0 30 0 0) = "12:30 AM". Proof. reflexivity. Qed.
Example imp_nine : strftime_IMp (Time 21 5 9 0) = "9:05 PM". Proof. reflexivity. Qed.
Example str_num : Z_str 1207 = "1207". Proof. reflexivity. Qed.
