(* ===== verification/PyText.v ===== *)
(** * Text functions of Python: strip and int

    [str] methods and conversions that several parts use, on ASCII text (the
    other characters of Unicode count as neither space nor digit). *)

From S2P Require Import Prelude Clock.
Open Scope Z_scope.

(** [str.isspace] on one ASCII character. *)
Definition is_space (c : ascii) : bool :=
  let n := nat_of_ascii c in ((9 <=? n) && (n <=? 13) || (28 <=? n) && (n <=? 32))%nat.

Fixpoint str_lstrip (s : string) : string :=
  match s with
  | EmptyString => EmptyString
  | String c s' => if is_space c then str_lstrip s' else s
  end.
Fixpoint str_rstrip (s : string) : string :=
  match s with
  | EmptyString => EmptyString
  | String c s' =>
      match str_rstrip s' with
      | EmptyString => if is_space c then EmptyString else String c EmptyString
      | t => String c t
      end
  end.
(** [s.strip()]. *)
Definition str_strip (s : string) : string := str_rstrip (str_lstrip s).

Definition digit_value (c : ascii) : option Z :=
  let n := Z.of_nat (nat_of_ascii c) in if (48 <=? n) && (n <=? 57) then Some (n - 48) else None.

(** Decimal digits, single underscores between them. *)
Fixpoint parse_digits (acc : Z) (after_digit : bool) (s : string) : option Z :=
  match s with
  | EmptyString => if after_digit then Some acc else None
  | String c s' =>
      match digit_value c with
      | Some d => parse_digits (10 * acc + d) true s'
      | None => if bool_decide (c = "_"%char) && after_digit then parse_digits acc false s' else None
      end
  end.

(** [int(s)]: [None] is the ValueError. *)
Definition int_of_str (s : string) : option Z :=
  match str_strip s with
  | String "+"%char t => parse_digits 0 false t
  | String "-"%char t => Z.opp <$> parse_digits 0 false t
  | t => parse_digits 0 false t
  end.

Lemma str_rstrip_idem s : str_rstrip (str_rstrip s) = str_rstrip s.
Proof.
  induction s as [|c s IH]; [done|]. cbn [str_rstrip]. destruct (str_rstrip s) as [|c' t] eqn:E.
  - destruct (is_space c) eqn:Hc; [done|]. cbn. by rewrite Hc.
  - change (match str_rstrip (String c' t) with EmptyString => if is_space c then EmptyString else String c EmptyString
            | String _ _ as t0 => String c t0 end = String c (String c' t)). by rewrite IH.
Qed.

Lemma str_lstrip_head s : str_lstrip s = "" ∨ ∃ c t, str_lstrip s = String c t ∧ is_space c = false.
Proof.
  induction s as [|c s IH]; [by left|]. cbn [str_lstrip]. destruct (is_space c) eqn:Hc; [done|]. right. by exists c, s.
Qed.

Lemma str_rstrip_head c s : is_space c = false → ∃ t, str_rstrip (String c s) = String c t.
Proof. intros Hc. cbn [str_rstrip]. destruct (str_rstrip s); [rewrite Hc|]; by eexists. Qed.

Lemma str_strip_idem s : str_strip (str_strip s) = str_strip s.
Proof.
  unfold str_strip. destruct (str_lstrip_head s) as [->|(c & t & -> & Hc)]; [done|].
  destruct (str_rstrip_head c t Hc) as [t' E]. rewrite E at 1. cbn [str_lstrip]. rewrite Hc, <-E. apply str_rstrip_idem.
Qed.

(** ** UUIDs *)

Definition is_hex (c : ascii) : bool :=
  let n := nat_of_ascii c in ((48 <=? n) && (n <=? 57) || (97 <=? n) && (n <=? 102) || (65 <=? n) && (n <=? 70))%nat.
Definition lower_char (c : ascii) : ascii :=
  let n := nat_of_ascii c in if ((65 <=? n) && (n <=? 90))%nat then ascii_of_nat (n + 32) else c.

Fixpoint str_filter (p : ascii → bool) (s : string) : string :=
  match s with EmptyString => EmptyString | String c s' => if p c then String c (str_filter p s') else str_filter p s' end.
Fixpoint str_map (f : ascii → ascii) (s : string) : string :=
  match s with EmptyString => EmptyString | String c s' => String (f c) (str_map f s') end.
Fixpoint str_all (p : ascii → bool) (s : string) : bool :=
  match s with EmptyString => true | String c s' => p c && str_all p s' end.

(** [s.lower()]. *)
Definition str_lower (s : string) : string := str_map lower_char s.

(** [s.startswith(p)] and the rest. *)
Fixpoint str_drop_prefix (p s : string) : option string :=
  match p, s with
  | EmptyString, _ => Some s
  | String a p', String b s' => if bool_decide (a = b) then str_drop_prefix p' s' else None
  | _, EmptyString => None
  end.
Definition str_startswith (p s : string) : bool := bool_decide (is_Some (str_drop_prefix p s)).

(** [s.endswith(suffix)]. *)
Fixpoint str_endswith (suffix s : string) : bool :=
  bool_decide (s = suffix) || match s with EmptyString => false | String _ s' => str_endswith suffix s' end.

(** [pat in s]. *)
Fixpoint str_contains (pat s : string) : bool :=
  str_startswith pat s || match s with EmptyString => false | String _ s' => str_contains pat s' end.

(** The text before the last [c], if there is one. *)
Fixpoint before_last (c : ascii) (s : string) : option string :=
  match s with
  | EmptyString => None
  | String x s' => match before_last c s' with
                   | Some r => Some (String x r)
                   | None => if decide (x = c) then Some EmptyString else None
                   end
  end.

(** [s.rsplit(c, 1)[0]]. *)
Definition rsplit_head (c : ascii) (s : string) : string := default s (before_last c s).

Example rsplit_heads : (rsplit_head "." "a.b.mp4", rsplit_head "." "abc") = ("a.b", "abc")%string.
Proof. reflexivity. Qed.


(** [s.replace(p, "")], with fuel for the length of the text. *)
Fixpoint str_remove (fuel : nat) (p s : string) : string :=
  match fuel, s with
  | O, _ => s
  | S fuel, EmptyString => EmptyString
  | S fuel, String c s' =>
      match str_drop_prefix p s with
      | Some rest => str_remove fuel p rest
      | None => String c (str_remove fuel p s')
      end
  end.

Fixpoint strip_left (p : ascii → bool) (s : string) : string :=
  match s with EmptyString => EmptyString | String c s' => if p c then strip_left p s' else s end.
Fixpoint strip_right (p : ascii → bool) (s : string) : string :=
  match s with
  | EmptyString => EmptyString
  | String c s' => match strip_right p s' with EmptyString => if p c then EmptyString else String c EmptyString | t => String c t end
  end.

(** The canonical text of 32 hexadecimal digits. *)
Definition uuid_text (h : string) : string :=
  String.substring 0 8 h +:+ "-" +:+ String.substring 8 4 h +:+ "-" +:+ String.substring 12 4 h +:+ "-" +:+ String.substring 16 4 h +:+ "-" +:+ String.substring 20 12 h.

(** [uuid.UUID(s)], by its canonical text; [None] is the ValueError. *)
Definition uuid_of_str (s : string) : option string :=
  let n := String.length s in
  let brace c := bool_decide (c = "{"%char) || bool_decide (c = "}"%char) in
  let h := str_filter (λ c, negb (bool_decide (c = "-"%char)))
             (strip_right brace (strip_left brace (str_remove n "uuid:" (str_remove n "urn:" s)))) in
  if bool_decide (String.length h = 32%nat) && str_all is_hex h then Some (uuid_text (str_lower h)) else None.

(** ** Texts all of whose characters have a property *)

Lemma str_all_app p a b : str_all p (a +:+ b) = str_all p a && str_all p b.
Proof. induction a as [|c a IH]; [done|]. rewrite str_app_cons. simpl. by rewrite IH, andb_assoc. Qed.
Lemma str_all_impl (p q : ascii → bool) s : (∀ c, p c = true → q c = true) → str_all p s = true → str_all q s = true.
Proof. intros H. induction s as [|c s IH]; [done|]. simpl. intros [Hc Hs]%andb_true_iff. rewrite (H c Hc). auto. Qed.


(** ** Decimal texts *)

Lemma digit_value_digit n t : 0 ≤ n → digit n +:+ t = String (Ascii.ascii_of_N (Z.to_N (48 + n mod 10))) t ∧
  digit_value (Ascii.ascii_of_N (Z.to_N (48 + n mod 10))) = Some (n mod 10).
Proof.
  intros Hn. split; [done|]. assert (H : 0 ≤ n mod 10 < 10) by (apply Z.mod_pos_bound; lia).
  assert (Hc : n mod 10 ∈ [0;1;2;3;4;5;6;7;8;9]).
  { rewrite !elem_of_cons. lia. }
  repeat (apply elem_of_cons in Hc as [->|Hc]; [by vm_compute|]). by apply elem_of_nil in Hc.
Qed.

Lemma parse_nat_str fuel n acc b t :
  0 ≤ n < 2 ^ Z.of_nat fuel → (0 < fuel)%nat →
  ∃ k, parse_digits acc b (nat_str_fuel fuel n +:+ t) = parse_digits (acc * k + n) true t.
Proof.
  revert n acc b t. induction fuel as [|f IH]; intros n acc b t Hn Hf; [lia|]. cbn [nat_str_fuel].
  destruct (Z.ltb_spec n 10) as [Hlt|Hge].
  - exists 10. destruct (digit_value_digit n t) as [E1 E2]; [lia|]. rewrite E1. cbn [parse_digits]. rewrite E2.
    rewrite Z.mod_small by lia. f_equal. lia.
  - rewrite Nat2Z.inj_succ, Z.pow_succ_r in Hn by lia.
    assert (Hdiv : 0 ≤ n / 10 < 2 ^ Z.of_nat f) by (split; [apply Z.div_pos; lia|apply Z.div_lt_upper_bound; lia]).
    assert (Hpos : (0 < f)%nat). { destruct f; [|lia]. cbn in Hdiv. assert (1 ≤ n / 10) by (apply Z.div_le_lower_bound; lia). lia. }
    rewrite str_app_assoc. destruct (IH (n / 10) acc b (digit n +:+ t) Hdiv Hpos) as [k ->].
    exists (10 * k). destruct (digit_value_digit n t) as [E1 E2]; [lia|]. rewrite E1. cbn [parse_digits]. rewrite E2. f_equal.
    pose proof (Z.div_mod n 10 ltac:(lia)). lia.
Qed.

(** [str] of a natural number reads back. *)
Lemma parse_Z_str n : 0 ≤ n → parse_digits 0 false (Z_str n) = Some n.
Proof.
  intros Hn. unfold Z_str. rewrite (proj2 (Z.ltb_ge _ _)) by lia. rewrite <-(str_app_nil_r (nat_str_fuel _ n)).
  destruct (parse_nat_str (S (Z.to_nat (Z.log2 n))) n 0 false "") as [k ->]; [|lia|by rewrite Z.mul_0_l].
  split; [done|]. rewrite Nat2Z.inj_succ, Z2Nat.id by apply Z.log2_nonneg. destruct (Z.eq_dec n 0) as [->|Hne]; [done|].
  apply Z.log2_spec. lia.
Qed.

Lemma Z_str_inj n m : 0 ≤ n → 0 ≤ m → Z_str n = Z_str m → n = m.
Proof. intros Hn Hm E. apply parse_Z_str in Hn, Hm. congruence. Qed.
Lemma Z_str_nonempty n : 0 ≤ n → Z_str n ≠ "".
Proof. intros Hn E. apply parse_Z_str in Hn. rewrite E in Hn. done. Qed.
