(* ===== verification/Models.v ===== *)
(** * Rows of the CMS database the scheduler reads

    One record per ORM model (shared/models/asset.py, cms/models/device.py,
    cms/models/schedule.py), with the columns and relationships the modelled
    code uses.  A UUID is its canonical text, so [str(x.id)] is the identity. *)

From S2P Require Import Prelude Clock.
Open Scope Z_scope.

Abbreviation uuid := string.

Inductive AssetType :=
  | VIDEO | IMAGE | WEBPAGE | STREAM | SAVED_STREAM | SLIDESHOW | COMPOSED | VOICE_ANNOUNCEMENT.

#[export] Instance AssetType_eq_dec : EqDecision AssetType.
Proof. solve_decision. Defined.

(** The enum's [.value]. *)
Definition AssetType_value (t : AssetType) : string :=
  match t with
  | VIDEO => "video" | IMAGE => "image" | WEBPAGE => "webpage" | STREAM => "stream"
  | SAVED_STREAM => "saved_stream" | SLIDESHOW => "slideshow" | COMPOSED => "composed"
  | VOICE_ANNOUNCEMENT => "voice_announcement"
  end.

Inductive VariantStatus := V_PENDING | V_PROCESSING | V_READY | V_FAILED | V_CANCELLED.

#[export] Instance VariantStatus_eq_dec : EqDecision VariantStatus.
Proof. solve_decision. Defined.

Record Asset := mkAsset {
  a_id : uuid;
  a_filename : string;
  a_original_filename : option string;
  a_display_name : option string;
  a_asset_type : AssetType;
  a_size_bytes : Z;
  a_checksum : string;
  a_url : option string;
  a_duration_ms : option Z;     (* duration_seconds, rounded to milliseconds *)
  a_shuffle : bool;
  a_slideshow_anchor_at : option Z;
  a_deleted_at : option Z
}.

(** A transcoded variant of a source asset for one device profile. *)
Record AssetVariant := mkVariant {
  v_id : uuid;
  v_source_asset_id : uuid;
  v_profile_id : uuid;
  v_filename : string;
  v_size_bytes : Z;
  v_checksum : string;
  v_status : VariantStatus;
  v_created_at : Z;
  v_deleted_at : option Z;
  v_error_message : string
}.

(** The visibility window of a slide; an absent field does not restrict it. *)
Record SlideWindow := mkSlideWindow {
  valid_from : option date;
  valid_to : option date;
  active_days : option (list Z);
  active_start : option time;
  active_end : option time
}.

Inductive SlideKind := K_ASSET (source_asset_id : option uuid) | K_TAG (tag_id : option uuid).

(** A row of [slideshow_slides]. *)
Record SlideshowSlide := mkSlide {
  sl_slideshow_asset_id : uuid;
  sl_kind : SlideKind;
  sl_position : Z;
  sl_duration_ms : Z;
  sl_play_to_end : bool;
  sl_transition : string;
  sl_transition_ms : Z;
  sl_member_transition : option string;
  sl_member_transition_ms : option Z;
  sl_fit : string;
  sl_effect : string;
  sl_effect_direction : string;
  sl_window : SlideWindow;
  sl_clip_start_ms : option Z;
  sl_clip_duration_ms : option Z
}.

Record AssetTag := mkAssetTag { at_id : uuid; at_asset_id : uuid; at_tag_id : uuid; at_created_at : Z }.

Inductive DeviceStatus := D_PENDING | D_ADOPTED | D_ORPHANED.

#[export] Instance DeviceStatus_eq_dec : EqDecision DeviceStatus.
Proof. solve_decision. Defined.

Definition DeviceStatus_value (s : DeviceStatus) : string :=
  match s with D_PENDING => "pending" | D_ADOPTED => "adopted" | D_ORPHANED => "orphaned" end.

Record DeviceGroup := mkGroup {
  g_id : uuid;
  g_name : string;
  g_default_asset : option Asset
}.

Record Device := mkDevice {
  d_id : string;
  d_name : string;
  d_status : DeviceStatus;
  d_group_id : option uuid;
  d_group : option DeviceGroup;
  d_profile_id : option uuid;
  d_default_asset : option Asset;
  d_timezone : option string;
  d_device_type : string;
  d_capabilities : list string
}.

Record Schedule := mkSchedule {
  s_id : uuid;
  s_name : string;
  s_group_id : option uuid;
  s_group : option DeviceGroup;
  s_tag_id : option uuid;
  s_asset : option Asset;
  s_start_date : option datetime;
  s_end_date : option datetime;
  s_start_time : time;
  s_end_time : time;
  s_days_of_week : option (list Z);
  s_priority : Z;
  s_enabled : bool;
  s_loop_count : option Z;
  s_skipped_until : option datetime
}.

(** Python's truth value of an optional or empty string. *)
Definition truthy (s : option string) : option string :=
  match s with Some "" => None | _ => s end.

(** [x or y] on optional strings. *)
Definition str_or (x y : option string) : option string :=
  match truthy x with Some v => Some v | None => y end.

(** Well-formed schedule times; every [datetime.time] satisfies it. *)
Definition schedule_times_ok (s : Schedule) : bool :=
  (time_ok (s_start_time s) && time_ok (s_end_time s))%bool.

Lemma truthy_nonempty s : s ≠ "" → truthy (Some s) = Some s.
Proof. by destruct s. Qed.
