(* ===== verification/Database.v ===== *)
(** * The database and transport state the scheduler works on

    One record for the tables the scheduler reads and writes and one for the
    answers of the device transport.  A query result is a list of rows in the
    order the database returns them; the theorems do not depend on that order
    unless the query has an ORDER BY. *)

From S2P Require Import Prelude Clock Models.
Open Scope Z_scope.

(** A row of [schedule_missed_events] without its key
    (schedule, device, occurrence date). *)
Record MissedEvent := mkMissed {
  me_first_seen_offline_at : Z;
  me_emitted_at : option Z
}.

Inductive ScheduleLogEvent := STARTED | ENDED | SKIPPED | MISSED.

#[export] Instance ScheduleLogEvent_eq_dec : EqDecision ScheduleLogEvent.
Proof. solve_decision. Defined.

Record ScheduleLog := mkLog {
  l_schedule_id : option uuid;
  l_schedule_name : string;
  l_device_id : option string;
  l_device_name : string;
  l_asset_filename : string;
  l_event : ScheduleLogEvent;
  l_details : option string
}.

#[export] Instance ScheduleLog_eq_dec : EqDecision ScheduleLog.
Proof. solve_decision. Defined.

Abbreviation missed_key := (uuid * string * Z)%type.

(** A tag belongs to one group. *)
Record DeviceTag := mkTag { t_id : uuid; t_group_id : uuid; t_name : string }.

(** The media library: assets, their variants, the slides of the slideshows,
    the asset tags and the media each composed slide declares. *)
Record Media := mkMedia {
  m_assets : list Asset;
  m_variants : list AssetVariant;
  m_slides : list SlideshowSlide;
  m_asset_tags : list AssetTag;
  m_composed : list (uuid * list uuid)     (* asset_id, bundle_source_asset_ids *)
}.

Record Db := mkDb {
  db_timezone : option string;                       (* CMSSetting "timezone" *)
  db_schedules : list Schedule;
  db_devices : list Device;
  db_tags : list DeviceTag;
  db_tag_assignments : list (uuid * string);         (* tag_id, device_id *)
  db_media : Media;
  db_device_skips : gmap (uuid * string) datetime;   (* ScheduleDeviceSkip *)
  db_missed : gmap missed_key MissedEvent;
  db_logs : list ScheduleLog
}.

Definition set_missed (f : gmap missed_key MissedEvent → gmap missed_key MissedEvent) (db : Db) : Db :=
  mkDb (db_timezone db) (db_schedules db) (db_devices db) (db_tags db) (db_tag_assignments db)
       (db_media db) (db_device_skips db) (f (db_missed db)) (db_logs db).
Definition set_logs (f : list ScheduleLog → list ScheduleLog) (db : Db) : Db :=
  mkDb (db_timezone db) (db_schedules db) (db_devices db) (db_tags db) (db_tag_assignments db)
       (db_media db) (db_device_skips db) (db_missed db) (f (db_logs db)).
Definition set_device_skips (f : gmap (uuid * string) datetime → gmap (uuid * string) datetime) (db : Db) : Db :=
  mkDb (db_timezone db) (db_schedules db) (db_devices db) (db_tags db) (db_tag_assignments db)
       (db_media db) (f (db_device_skips db)) (db_missed db) (db_logs db).
Definition set_schedules (f : list Schedule → list Schedule) (db : Db) : Db :=
  mkDb (db_timezone db) (f (db_schedules db)) (db_devices db) (db_tags db) (db_tag_assignments db)
       (db_media db) (db_device_skips db) (db_missed db) (db_logs db).

Definition set_assignments (f : list (uuid * string) → list (uuid * string)) (db : Db) : Db :=
  mkDb (db_timezone db) (db_schedules db) (db_devices db) (db_tags db) (f (db_tag_assignments db))
       (db_media db) (db_device_skips db) (db_missed db) (db_logs db).

(** [select(Schedule).where(Schedule.enabled == True)]. *)
Definition enabled_schedules (db : Db) : list Schedule :=
  filter (λ s, s_enabled s = true) (db_schedules db).

(** A WHERE clause [column IN (...)], [None] when the query has no such clause. *)
Definition where_in {A} `{EqDecision A} (x : A) (l : option (list A)) : bool :=
  match l with None => true | Some l => bool_decide (x ∈ l) end.

(** What the transport reports about an online device
    ([device_presence._row_to_state]). *)
Record LiveState := mkLive {
  ls_device_id : string;
  ls_mode : string;
  ls_asset : option string;
  ls_started_at : option string
}.

(** The replica-local cache entry of [_confirmed_playing]. *)
Record Confirmed := mkConfirmed {
  cp_schedule_id : option string;
  cp_since : option string
}.

#[export] Instance Confirmed_eq_dec : EqDecision Confirmed.
Proof. solve_decision. Defined.

(** The text of a UTC instant in microseconds since 1970
    ([datetime.isoformat()] of an aware UTC datetime). *)
Definition EPOCH_ORDINAL : Z := 719163.
Definition utc_datetime (u : Z) : datetime := dt_of_us (u + EPOCH_ORDINAL * DAY_US).
Definition pad6 (n : Z) : string := pad2 (n / 10000) +:+ pad2 (n / 100 mod 100) +:+ pad2 (n mod 100).
Definition utc_isoformat (u : Z) : string :=
  let d := utc_datetime u in
  date_isoformat (dt_date d) +:+ "T" +:+ strftime_HMS (dt_time d) +:+
  (if microsecond (dt_time d) =? 0 then "" else "." +:+ pad6 (microsecond (dt_time d))) +:+ "+00:00".

Example utc_iso : utc_isoformat 1709164800000001 = "2024-02-29T00:00:00.000001+00:00".
Proof. reflexivity. Qed.
