(* ===== verification/Samples.v ===== *)
(** * Small concrete rows

    A video, daily schedules, screens and a database made of them: the inputs
    at which the theorems of the scheduler are applied. *)

From S2P Require Import Prelude Clock Models Database.
Open Scope Z_scope.

Definition video (id : uuid) : Asset :=
  mkAsset id (id +:+ ".mp4") None None VIDEO 1000 "c0ffee" None (Some 60000) false None None.

Definition hm (h m : Z) : time := Time h m 0 0.

(** The 29th of February 2024, a Thursday, at [h:m]. *)
Definition leap_day : date := 738945.
Definition at_hm (h m : Z) : datetime := Datetime leap_day (hm h m).

(** The instant of local midnight of [leap_day] on a clock that shows UTC. *)
Definition utc_tz (u : Z) : datetime := utc_datetime u.
Definition utc_at (h m : Z) : Z := dt_us (at_hm h m) - EPOCH_ORDINAL * DAY_US.

Definition daily (id gid : uuid) (prio : Z) (st en : time) : Schedule :=
  mkSchedule id id (Some gid) None None (Some (video id)) None None st en None prio true None None.

Definition screen (did gid : uuid) : Device :=
  mkDevice did did D_ADOPTED (Some gid) None None None None "" [].

Definition no_media : Media := mkMedia [] [] [] [] [].

Definition fleet (schedules : list Schedule) (devices : list Device) : Db :=
  mkDb None schedules devices [] [] no_media ∅ ∅ [].

(** Two schedules of one group: a day window and a night window across
    midnight that overlap between 21:00 and 23:00. *)
Definition day_show : Schedule := daily "day" "g" 1 (hm 9 0) (hm 23 0).
Definition night_show : Schedule := daily "night" "g" 2 (hm 21 0) (hm 6 0).
Definition two_shows : Db := fleet [day_show; night_show] [screen "d1" "g"; screen "d2" "g"].

(** A slideshow of one video and one tag block; the video has an older ready
    variant and a newer one in progress. *)
Definition old_variant : AssetVariant := mkVariant "v1" "a" "p" "v1.mp4" 10 "111" V_READY 1 None "".
Definition new_variant : AssetVariant := mkVariant "v2" "a" "p" "v2.mp4" 20 "" V_PROCESSING 2 None "".

Definition always : SlideWindow := mkSlideWindow None None None None None.
Definition slide_row (kind : SlideKind) (pos : Z) (w : SlideWindow) : SlideshowSlide :=
  mkSlide "deck" kind pos 10000 false "cut" 600 None None "cover" "none" "in" w None None.

Definition deck : Asset :=
  mkAsset "deck" "deck" None None SLIDESHOW 0 "5eed" None None false None None.
Definition library : Media :=
  mkMedia [video "a"; video "b"; deck] [old_variant; new_variant]
    [slide_row (K_TAG (Some "t")) 1 always; slide_row (K_ASSET (Some "a")) 0 always]
    [mkAssetTag "x2" "b" "t" 2; mkAssetTag "x1" "a" "t" 1] [].
