(* ===== verification/AssetReadiness.v ===== *)
(** * Which assets can be assigned (cms/services/variant_view.py,
      cms/services/asset_readiness.py)

    An asset with transcoded variants is ready when every profile that has a
    live variant has a ready one; a composed slide also needs a published
    bundle.  The library shows one variant per profile, the newest. *)

From S2P Require Import Prelude Clock Models Database Samples.
Open Scope Z_scope.

(** ** Definitions *)

(** [v] replaces [cur] for its profile. *)
Definition supersedes (v cur : AssetVariant) : bool :=
  (v_created_at cur <? v_created_at v) ||
  ((v_created_at v =? v_created_at cur) && (v_id cur <s v_id v)).

Definition is_live (v : AssetVariant) : bool := bool_decide (v_deleted_at v = None).
Definition is_ready (v : AssetVariant) : bool := bool_decide (v_status v = V_READY).
Definition is_inflight (v : AssetVariant) : bool :=
  bool_decide (v_status v = V_PENDING ∨ v_status v = V_PROCESSING).

(** The loop body of the two collapses for the rows that pass [keep];
    [profile_id] is a NOT NULL column. *)
Definition collapse_step (keep : AssetVariant → bool) (latest : list (uuid * AssetVariant))
    (v : AssetVariant) : list (uuid * AssetVariant) :=
  if keep v then
    match aget (v_profile_id v) latest with
    | None => aset (v_profile_id v) v latest
    | Some cur => if supersedes v cur then aset (v_profile_id v) v latest else latest
    end
  else latest.

Definition collapse_to_latest (variants : list AssetVariant) : list AssetVariant :=
  (fold_left (collapse_step is_live) variants []).*2.

Definition collapse_to_ready (variants : list AssetVariant) : list AssetVariant :=
  (fold_left (collapse_step (λ v, is_live v && is_ready v)) variants []).*2.

(** [by_profile.setdefault(pid, []).append(v)]. *)
Definition group_by_profile (live : list AssetVariant) : list (uuid * list AssetVariant) :=
  fold_left (λ m v, aset (v_profile_id v) (default [] (aget (v_profile_id v) m) ++ [v]) m) live [].

(** The loop over the profiles, left at the first one with work in flight:
    [(any_unready_profile, any_in_flight)]. *)
Fixpoint readiness_loop (groups : list (list AssetVariant)) (unready : bool) : bool * bool :=
  match groups with
  | [] => (unready, false)
  | vs :: rest =>
      if existsb is_ready vs then readiness_loop rest unready
      else if existsb is_inflight vs then (true, true)
      else readiness_loop rest true
  end.

Definition is_asset_ready (variants : list AssetVariant) : bool * option string :=
  let live := filter (λ v, is_live v = true) variants in
  match live with
  | [] => (true, None)
  | _ =>
      match group_by_profile live with
      | [] => (true, None)
      | by_profile =>
          let '(any_unready_profile, any_in_flight) := readiness_loop by_profile.*2 false in
          if negb any_unready_profile then (true, None)
          else (false, Some (if any_in_flight then "transcoding…" else "transcode failed"))
      end
  end.

Definition COMPOSED_UNPUBLISHED_REASON : string := "not published yet".

Definition composed_unpublished_reason (asset : option Asset) : option string :=
  match asset with
  | None => None
  | Some a =>
      if negb (bool_decide (a_asset_type a = COMPOSED)) then None
      else match truthy (Some (a_checksum a)) with
           | None => Some COMPOSED_UNPUBLISHED_REASON
           | Some _ => None
           end
  end.

#[global] Arguments composed_unpublished_reason : simpl never.

(** [asset.variants]. *)
Definition variants_of (m : Media) (asset_id : uuid) : list AssetVariant :=
  filter (λ v, v_source_asset_id v = asset_id) (m_variants m).

Definition require_asset_ready (m : Media) (asset_id : uuid) : result exn Asset :=
  match list_find (λ a, a_id a = asset_id) (m_assets m) with
  | None => Err (HTTPException 404)
  | Some (_, asset) =>
      if negb (is_asset_ready (variants_of m asset_id)).1 then Err (HTTPException 422)
      else match composed_unpublished_reason (Some asset) with
           | Some _ => Err (HTTPException 422)
           | None => Ok asset
           end
  end.

(** ** Specification *)

(** [v] is the newest of the variants of its profile that pass [keep]. *)
Definition newest (keep : AssetVariant → bool) (variants : list AssetVariant) (v : AssetVariant) : Prop :=
  v ∈ variants ∧ keep v = true ∧
  ∀ u, u ∈ variants → keep u = true → v_profile_id u = v_profile_id v → u = v ∨ supersedes v u = true.

(** Every profile with a live variant has a live ready one. *)
Definition every_profile_ready (variants : list AssetVariant) : Prop :=
  ∀ v, v ∈ variants → v_deleted_at v = None →
  ∃ u, u ∈ variants ∧ v_deleted_at u = None ∧ v_profile_id u = v_profile_id v ∧ v_status u = V_READY.

(** ** Lemmas *)

Lemma supersedes_irrefl v : supersedes v v = false.
Proof. unfold supersedes. rewrite Z.ltb_irrefl, Z.eqb_refl, str_ltb_irrefl. done. Qed.

Lemma supersedes_spec v u :
  supersedes v u = true ↔
  v_created_at u < v_created_at v ∨ (v_created_at v = v_created_at u ∧ (v_id u <s v_id v) = true).
Proof. unfold supersedes. rewrite orb_true_iff, andb_true_iff, Z.ltb_lt, Z.eqb_eq. done. Qed.

Lemma supersedes_trans x y z : supersedes x y = true → supersedes y z = true → supersedes x z = true.
Proof.
  rewrite !supersedes_spec. intros [?|[? ?]] [?|[? ?]]; try (left; lia).
  right. split; [lia|]. by eapply str_ltb_trans.
Qed.

Lemma supersedes_total l : NoDup (v_id <$> l) → total_on supersedes l.
Proof.
  intros Hnd x y Hx Hy. rewrite !supersedes_spec.
  destruct (Z.lt_trichotomy (v_created_at x) (v_created_at y)) as [?|[?|?]]; [auto| |auto].
  destruct (str_ltb_total (v_id x) (v_id y)) as [?|[?|?]]; [auto| |auto].
  left. by eapply (NoDup_fmap_eq v_id).
Qed.

(** The rows of one profile, and what the loop holds for it. *)
Definition profile_rows (keep : AssetVariant → bool) (p : uuid) (l : list AssetVariant) : list AssetVariant :=
  filter (λ v, keep v = true ∧ v_profile_id v = p) l.

Lemma collapse_fold keep l m p :
  NoDup m.*1 →
  let m' := fold_left (collapse_step keep) l m in
  NoDup m'.*1 ∧ aget p m' = fold_left (pick supersedes) (profile_rows keep p l) (aget p m).
Proof.
  revert m. induction l as [|v l IH]; intros m Hnd; simpl; [done|].
  assert (NoDup (collapse_step keep m v).*1 ∧
    aget p (collapse_step keep m v) =
    if decide (keep v = true ∧ v_profile_id v = p) then pick supersedes (aget p m) v else aget p m) as [Hnd' Hp].
  { unfold collapse_step. destruct (keep v) eqn:Hk.
    2:{ split; [done|]. rewrite decide_False by naive_solver. done. }
    destruct (aget (v_profile_id v) m) as [cur|] eqn:Hc; [destruct (supersedes v cur) eqn:Hs|];
      (split; [by try apply aset_NoDup|]); rewrite ?aget_aset;
      repeat case_decide; destruct_and?; subst; rewrite ?Hc; simpl; rewrite ?Hs; try done; naive_solver. }
  destruct (IH _ Hnd') as [H1 H2]. split; [done|]. rewrite H2, Hp. unfold profile_rows.
  rewrite filter_cons. by case_decide.
Qed.

Lemma elem_of_collapse keep l v :
  NoDup (v_id <$> l) →
  v ∈ (fold_left (collapse_step keep) l []).*2 ↔ newest keep l v.
Proof.
  intros Hnd. destruct (collapse_fold keep l [] (v_profile_id v)) as [Hk Hg]; [constructor|].
  assert (best_of supersedes (profile_rows keep (v_profile_id v) l) v ↔ newest keep l v) as <-.
  { unfold best_of, newest, profile_rows. setoid_rewrite list_elem_of_filter. naive_solver. }
  rewrite <- fold_pick_spec;
    [|apply supersedes_irrefl|apply supersedes_trans|apply supersedes_total; by apply NoDup_fmap_filter].
  simpl in Hg. rewrite <- Hg, aget_elem_of by done. split; [|intros; by apply list_elem_of_fmap; exists (v_profile_id v, v)].
  intros ([p u] & -> & Hin)%list_elem_of_fmap. simpl.
  destruct (collapse_fold keep l [] p) as [_ Hp]; [constructor|].
  assert (aget p (fold_left (collapse_step keep) l []) = Some u) as Hu by by apply aget_elem_of.
  rewrite Hu in Hp. symmetry in Hp. apply fold_pick_spec in Hp as [Hin' _];
    [|apply supersedes_irrefl|apply supersedes_trans|apply supersedes_total; by apply NoDup_fmap_filter].
  apply list_elem_of_filter in Hin' as [[_ <-] _]. done.
Qed.

Lemma group_by_profile_spec l m p :
  aget p (fold_left (λ m v, aset (v_profile_id v) (default [] (aget (v_profile_id v) m) ++ [v]) m) l m) =
  match filter (λ v, v_profile_id v = p) l with
  | [] => aget p m
  | vs => Some (default [] (aget p m) ++ vs)
  end.
Proof.
  revert m. induction l as [|v l IH]; intros m; simpl; [done|].
  rewrite IH, filter_cons, aget_aset. repeat case_decide; subst; try done.
  simpl. destruct (filter _ l); [done|]. simpl. by rewrite <- app_assoc.
Qed.

Lemma group_by_profile_NoDup l m :
  NoDup m.*1 →
  NoDup (fold_left (λ m v, aset (v_profile_id v) (default [] (aget (v_profile_id v) m) ++ [v]) m) l m).*1.
Proof. revert m. induction l; intros m ?; simpl; [done|]. by apply IHl, aset_NoDup. Qed.

Lemma elem_of_groups l p vs :
  (p, vs) ∈ group_by_profile l ↔ vs = filter (λ v, v_profile_id v = p) l ∧ vs ≠ [].
Proof.
  unfold group_by_profile. rewrite <- aget_elem_of by (apply group_by_profile_NoDup; constructor).
  rewrite group_by_profile_spec. simpl. destruct (filter _ l); naive_solver.
Qed.

Lemma readiness_loop_spec groups u :
  let r := readiness_loop groups u in
  (r.1 = true ↔ u = true ∨ ∃ vs, vs ∈ groups ∧ existsb is_ready vs = false) ∧
  (r.2 = true ↔ ∃ vs, vs ∈ groups ∧ existsb is_ready vs = false ∧ existsb is_inflight vs = true).
Proof.
  revert u. induction groups as [|vs groups IH]; intros u; simpl.
  { split; [|]; split; [auto|intros [?|(? & ?%elem_of_nil & _)]; done|done|intros (? & ?%elem_of_nil & _); done]. }
  setoid_rewrite elem_of_cons.
  destruct (existsb is_ready vs) eqn:Hr; [|destruct (existsb is_inflight vs) eqn:Hi]; simpl.
  - destruct (IH u) as [-> ->]. split; split; naive_solver congruence.
  - naive_solver.
  - destruct (IH true) as [-> ->]. split; split; naive_solver congruence.
Qed.

Lemma existsb_elem {A} (f : A → bool) l : existsb f l = true ↔ ∃ x, x ∈ l ∧ f x = true.
Proof. rewrite existsb_exists. by setoid_rewrite list_elem_of_In. Qed.

Lemma is_asset_ready_unfold variants :
  is_asset_ready variants =
  let r := readiness_loop (group_by_profile (filter (λ v, is_live v = true) variants)).*2 false in
  if negb r.1 then (true, None)
  else (false, Some (if r.2 then "transcoding…" else "transcode failed")).
Proof.
  unfold is_asset_ready. destruct (filter _ variants) eqn:Hf; [done|]. rewrite <- Hf.
  destruct (group_by_profile _) eqn:Hg; [done|]. rewrite <- Hg.
  destruct (readiness_loop _ false). done.
Qed.

Lemma unready_group variants vs :
  vs ∈ (group_by_profile (filter (λ v, is_live v = true) variants)).*2 ↔
  ∃ v, v ∈ variants ∧ v_deleted_at v = None ∧
       vs = filter (λ u, v_profile_id u = v_profile_id v) (filter (λ v, is_live v = true) variants).
Proof.
  rewrite list_elem_of_fmap. split.
  - intros ([p vs'] & -> & [Hvs Hne]%elem_of_groups). simpl.
    destruct vs' as [|v vs']; [done|].
    assert (v ∈ v :: vs') as Hv by left. rewrite Hvs in Hv.
    rewrite !list_elem_of_filter in Hv. destruct Hv as (<- & Hl & Hin).
    apply bool_decide_eq_true in Hl. by exists v.
  - intros (v & Hin & Hl & ->). eexists (v_profile_id v, _). split; [done|]. apply elem_of_groups.
    split; [done|]. intros Hnil.
    assert (v ∈ @nil AssetVariant) as []%elem_of_nil. rewrite <- Hnil, !list_elem_of_filter.
    split_and!; [done|by apply bool_decide_eq_true|done].
Qed.

Lemma group_existsb variants v f :
  existsb f (filter (λ u, v_profile_id u = v_profile_id v) (filter (λ v, is_live v = true) variants)) = true ↔
  ∃ u, u ∈ variants ∧ v_deleted_at u = None ∧ v_profile_id u = v_profile_id v ∧ f u = true.
Proof.
  rewrite existsb_elem. setoid_rewrite list_elem_of_filter. setoid_rewrite list_elem_of_filter.
  unfold is_live. setoid_rewrite bool_decide_eq_true. naive_solver.
Qed.

(** The loop finds an unready profile iff there is one. *)
Lemma every_profile_ready_groups variants :
  every_profile_ready variants ↔
  ∀ vs, vs ∈ (group_by_profile (filter (λ v, is_live v = true) variants)).*2 → existsb is_ready vs = true.
Proof.
  split.
  - intros Hall vs (v & Hv & Hl & ->)%unready_group. apply group_existsb.
    destruct (Hall v Hv Hl) as (u & ? & ? & ? & ?). exists u. split_and!; [done..|]. by apply bool_decide_eq_true.
  - intros Hall v Hv Hl. specialize (Hall _ (proj2 (unready_group variants _) (ex_intro _ v (conj Hv (conj Hl eq_refl))))).
    apply group_existsb in Hall as (u & ? & ? & ? & Hu%bool_decide_eq_true). by exists u.
Qed.

(** ** Theorems *)

(**  [collapse_to_latest] and [collapse_to_ready] return exactly the newest
    live (live and ready) variant of every profile that has one, ties broken
    by id. *)
Theorem collapse_newest (variants : list AssetVariant) (v : AssetVariant) :
  NoDup (v_id <$> variants) →
  (v ∈ collapse_to_latest variants ↔ newest is_live variants v) ∧
  (v ∈ collapse_to_ready variants ↔ newest (λ v, is_live v && is_ready v) variants v).
Proof. intros Hnd. split; by apply elem_of_collapse. Qed.

(**  [is_asset_ready] is exact: ready iff every profile with a live variant
    has a live ready one; otherwise the reason is "transcoding…" iff some
    profile without a ready variant has one pending or processing. *)
Theorem is_asset_ready_exact (variants : list AssetVariant) :
  ((is_asset_ready variants).1 = true ↔ every_profile_ready variants) ∧
  ((is_asset_ready variants).2 = None ↔ every_profile_ready variants) ∧
  ((is_asset_ready variants).2 = Some "transcoding…" ↔
   ∃ v, v ∈ variants ∧ v_deleted_at v = None ∧ is_inflight v = true ∧
        ∀ u, u ∈ variants → v_deleted_at u = None → v_profile_id u = v_profile_id v → v_status u ≠ V_READY).
Proof.
  rewrite is_asset_ready_unfold. cbv zeta.
  set (live := filter (λ v, is_live v = true) variants).
  pose proof (readiness_loop_spec (group_by_profile live).*2 false) as [H1 H2].
  set (r := readiness_loop _ _) in *.
  pose proof (group_existsb variants) as Hex. fold live in Hex.
  assert (r.1 = true ↔ ¬ every_profile_ready variants) as Hr1.
  { rewrite H1, every_profile_ready_groups. fold live. split.
    - intros [?|(vs & Hvs & Hno)] Hall; [done|]. rewrite (Hall vs Hvs) in Hno. done.
    - intros Hnot. right. destruct (existsb (λ vs, negb (existsb is_ready vs)) (group_by_profile live).*2) eqn:Hb.
      + apply existsb_elem in Hb as (vs & Hvs & Hn%negb_true_iff). eauto.
      + exfalso. apply Hnot. intros vs Hvs. apply not_true_iff_false in Hb. rewrite existsb_elem in Hb.
        destruct (existsb is_ready vs) eqn:He; [done|]. exfalso. apply Hb. exists vs. by rewrite He. }
  destruct r.1 eqn:Hr; simpl.
  - assert (¬ every_profile_ready variants) by by apply Hr1.
    split_and!; [naive_solver..|]. trans (r.2 = true); [destruct r.2; naive_solver|]. rewrite H2. split.
    + intros (vs & (v & Hv & Hl & ->)%unready_group & Hno & (u & Hu & Hul & Hp & Hi)%Hex).
      exists u. split_and!; [done..|]. intros w Hw Hwl Hwp Hst. apply not_true_iff_false in Hno.
      apply Hno, Hex. exists w. split_and!; [done..|congruence|by apply bool_decide_eq_true].
    + intros (v & Hv & Hl & Hi & Hno). eexists. split; [apply unready_group; by exists v|]. split.
      * apply not_true_iff_false. intros (u & ? & ? & ? & ?%bool_decide_eq_true)%(Hex v is_ready).
        by apply (Hno u).
      * apply Hex. by exists v.
  - assert (every_profile_ready variants) as Hall.
    { apply every_profile_ready_groups. intros vs Hvs. destruct (existsb is_ready vs) eqn:He; [done|].
      assert (false = true) by (apply H1; eauto). done. }
    split_and!; [done..|]. split; [done|]. intros (v & Hv & Hl & _ & Hno).
    destruct (Hall v Hv Hl) as (u & ? & ? & ? & ?). by destruct (Hno u).
Qed.

(** ** Witnesses *)

Lemma collapse_newest_witness :
  (new_variant ∈ collapse_to_latest [old_variant; new_variant] ↔ newest is_live [old_variant; new_variant] new_variant) ∧
  (new_variant ∈ collapse_to_ready [old_variant; new_variant] ↔
   newest (λ v, is_live v && is_ready v) [old_variant; new_variant] new_variant).
Proof. apply collapse_newest. apply (bool_decide_unpack _). by vm_compute. Defined.
