(* ===== verification/Occurrence.v ===== *)
(** * Recurring occurrences of a schedule (cms/services/occurrence.py)

    [matches_at] decides whether an instant lies in a schedule's window and
    [schedules_overlap] whether two schedules ever play together.  The
    specification is [covers]: the union over all anchor days of half-open
    intervals that the module's documentation describes.  The code decides both
    questions by looking at two, respectively three, day offsets; the theorems
    show that this is exact. *)

From S2P Require Import Prelude Clock Models Samples.
Open Scope Z_scope.

(** ** Definitions *)

Definition _time_to_us (t : time) : Z :=
  ((hour t * 3600 + minute t * 60 + second t) * 1000000) + microsecond t.

Definition occurrence_bounds (start_time end_time : time) : option (Z * Z) :=
  let start_us := _time_to_us start_time in
  let end_us := _time_to_us end_time in
  if end_us =? start_us then None
  else if end_us <? start_us then Some (start_us, end_us + DAY_US)
  else Some (start_us, end_us).

(** [frozenset(range(1, 8))]. *)
Definition _ALL_WEEKDAYS : gset Z := list_to_set [1; 2; 3; 4; 5; 6; 7].

Definition allowed_weekdays (days_of_week : option (list Z)) : gset Z :=
  match days_of_week with
  | None | Some [] => _ALL_WEEKDAYS
  | Some l => list_to_set l ∩ _ALL_WEEKDAYS
  end.

(** [datetime | date | None]. *)
Inductive dateish := DateV (d : date) | DatetimeV (d : datetime).

Definition _date_of (value : option dateish) : option date :=
  match value with
  | None => None
  | Some (DatetimeV d) => Some (dt_date d)
  | Some (DateV d) => Some d
  end.

Definition _shift_weekday (weekday delta : Z) : Z := (weekday - 1 + delta) mod 7 + 1.

(** The [while d <= hi] loop; [fuel] bounds its iterations.  Stepping past
    [date.max] raises [OverflowError], also on the last, unused, step. *)
Fixpoint range_loop (fuel : nat) (d hi : date) (weekdays : gset Z) : result exn bool :=
  match fuel with
  | O => Ok false
  | S f =>
      if d <=? hi then
        if bool_decide (isoweekday d ∈ weekdays) then Ok true
        else d' ← date_add d 1; range_loop f d' hi weekdays
      else Ok false
  end.

(** The loop runs on ranges shorter than a week only: eight steps are enough
    (see [range_loop_spec]). *)
Definition RANGE_FUEL : nat := 8.

Definition _range_contains_weekday (lo hi : option date) (weekdays : gset Z) : result exn bool :=
  if bool_decide (weekdays = ∅) then Ok false
  else match lo, hi with
  | Some lo, Some hi =>
      if hi <? lo then Ok false
      else if 6 <=? hi - lo then Ok true
      else range_loop RANGE_FUEL lo hi weekdays
  | _, _ => Ok true
  end.

(** One turn of the anchor loop of [matches_at]. *)
Definition anchor_matches (days : gset Z) (lo hi : option date) (start_us end_us : Z)
    (now_date now_us anchor : Z) : bool :=
  if negb (bool_decide (isoweekday anchor ∈ days)) then false
  else if match lo with Some l => anchor <? l | None => false end then false
  else if match hi with Some h => h <? anchor | None => false end then false
  else
    let offset_us := now_us + (if anchor =? now_date then 0 else DAY_US) in
    (start_us <=? offset_us) && (offset_us <? end_us).

Definition matches_at (s : Schedule) (now : datetime) : result exn bool :=
  if negb (s_enabled s) then Ok false
  else match occurrence_bounds (s_start_time s) (s_end_time s) with
  | None => Ok false
  | Some (start_us, end_us) =>
      let days := allowed_weekdays (s_days_of_week s) in
      let lo := _date_of (DatetimeV <$> s_start_date s) in
      let hi := _date_of (DatetimeV <$> s_end_date s) in
      let now_date := dt_date now in
      let t := dt_time now in
      let now_us := (hour t * 3600 + minute t * 60 + second t) * 1000000 + microsecond t in
      yesterday ← date_add now_date (-1);
      Ok (existsb (anchor_matches days lo hi start_us end_us now_date now_us) [now_date; yesterday])
  end.

Definition _shift_date (value : option date) (days : Z) : result exn (option date) :=
  match value with
  | None => Ok None
  | Some v => d ← date_add v days; Ok (Some d)
  end.

Definition _max_date (x y : option date) : option date :=
  match x, y with
  | None, _ => y
  | _, None => x
  | Some a, Some b => Some (Z.max a b)
  end.

Definition _min_date (x y : option date) : option date :=
  match x, y with
  | None, _ => y
  | _, None => x
  | Some a, Some b => Some (Z.min a b)
  end.

(** What [schedules_overlap] reads from one schedule. *)
Record window := mkWindow {
  w_start : Z; w_end : Z; w_days : gset Z; w_lo : option date; w_hi : option date
}.

Definition window_of (s : Schedule) : option window :=
  '(st, en) ← occurrence_bounds (s_start_time s) (s_end_time s);
  Some (mkWindow st en (allowed_weekdays (s_days_of_week s))
          (_date_of (DatetimeV <$> s_start_date s)) (_date_of (DatetimeV <$> s_end_date s))).

(** The set comprehension [{w for w in a_days if _shift_weekday(w, delta) in b_days}]. *)
Definition common_weekdays (a_days b_days : gset Z) (delta : Z) : gset Z :=
  filter (λ w, _shift_weekday w delta ∈ b_days) a_days.

(** The loop [for delta in (-1, 0, 1)] of [schedules_overlap]. *)
Fixpoint overlap_loop (deltas : list Z) (a b : window) : result exn bool :=
  match deltas with
  | [] => Ok false
  | delta :: rest =>
      let b_start := w_start b + delta * DAY_US in
      let b_end := w_end b + delta * DAY_US in
      if negb ((w_start a <? b_end) && (b_start <? w_end a)) then overlap_loop rest a b
      else
        let common := common_weekdays (w_days a) (w_days b) delta in
        if bool_decide (common = ∅) then overlap_loop rest a b
        else
          b_lo ← _shift_date (w_lo b) (- delta);
          b_hi ← _shift_date (w_hi b) (- delta);
          found ← _range_contains_weekday (_max_date (w_lo a) b_lo) (_min_date (w_hi a) b_hi) common;
          if (found : bool) then Ok true else overlap_loop rest a b
  end.

Definition schedules_overlap (a b : Schedule) : result exn bool :=
  match window_of a, window_of b with
  | Some wa, Some wb => overlap_loop [-1; 0; 1] wa wb
  | _, _ => Ok false
  end.

(** ** Specification *)

(** Anchor day [d] belongs to the window's inclusive date range. *)
Definition in_range (lo hi : option date) (d : Z) : Prop :=
  (∀ l, lo = Some l → l ≤ d) ∧ (∀ h, hi = Some h → d ≤ h).

(** Day [d] is an anchor of the window. *)
Definition anchors (w : window) (d : Z) : Prop :=
  isoweekday d ∈ w_days w ∧ in_range (w_lo w) (w_hi w) d.

(** Some occurrence of the window contains instant [t]. *)
Definition covers (w : window) (t : Z) : Prop :=
  ∃ d, anchors w d ∧ d * DAY_US + w_start w ≤ t < d * DAY_US + w_end w.

(** The schedule plays at instant [t], whether or not it is enabled. *)
Definition occurs_at (s : Schedule) (t : Z) : Prop :=
  ∃ w, window_of s = Some w ∧ covers w t.

(** What [window_of] guarantees: a non-empty interval that starts on the anchor
    day and lasts less than one day, on real weekdays. *)
Record window_ok (w : window) : Prop := {
  wok_start : 0 ≤ w_start w < DAY_US;
  wok_end : w_start w < w_end w < w_start w + DAY_US;
  wok_days : w_days w ⊆ _ALL_WEEKDAYS
}.

(** The dates of a window are far enough from the ends of the calendar for a
    shift by one day and one more step of the weekday loop. *)
Definition dates_safe (w : window) : Prop :=
  ∀ d, (w_lo w = Some d ∨ w_hi w = Some d) → date_min < d < date_max - 1.

(** ** Lemmas *)

Lemma elem_of_all_weekdays w : w ∈ _ALL_WEEKDAYS ↔ 1 ≤ w ≤ 7.
Proof.
  unfold _ALL_WEEKDAYS. rewrite elem_of_list_to_set, !elem_of_cons, elem_of_nil. lia.
Qed.

Lemma isoweekday_all d : isoweekday d ∈ _ALL_WEEKDAYS.
Proof. apply elem_of_all_weekdays, isoweekday_range. Qed.

Lemma isoweekday_shift d delta : isoweekday (d + delta) = _shift_weekday (isoweekday d) delta.
Proof. unfold isoweekday, _shift_weekday. zdm. Qed.

#[export] Hint Resolve isoweekday_all : agora.

Lemma allowed_weekdays_subset l : allowed_weekdays l ⊆ _ALL_WEEKDAYS.
Proof. unfold allowed_weekdays. repeat case_match; set_solver. Qed.

Lemma window_of_ok s w :
  schedule_times_ok s = true → window_of s = Some w → window_ok w.
Proof.
  unfold schedule_times_ok, window_of, occurrence_bounds.
  intros [Hst%time_us_range Het%time_us_range]%andb_true_iff Hw.
  unfold _time_to_us, time_us in *.
  repeat break_if; simplify_option_eq; bool_to_prop;
    (split; simpl; [lia | lia | apply allowed_weekdays_subset]).
Qed.

(** The two days the anchor loop inspects are the only candidates. *)
Lemma covers_anchor w t d :
  window_ok w → d * DAY_US + w_start w ≤ t < d * DAY_US + w_end w →
  d = t / DAY_US ∨ d = t / DAY_US - 1.
Proof. intros [[??] [??] _]. unfold DAY_US in *. intros. zdm. Qed.

Lemma covers_two_days w t :
  window_ok w →
  covers w t ↔ ∃ d, (d = t / DAY_US ∨ d = t / DAY_US - 1) ∧ anchors w d ∧
                     d * DAY_US + w_start w ≤ t < d * DAY_US + w_end w.
Proof.
  intros Hw. split; [|intros (d & _ & ? & ?); by exists d].
  intros (d & Ha & Ht). exists d. split; [by eapply covers_anchor|done].
Qed.

Lemma in_range_bool lo hi d :
  in_range lo hi d ↔
  match lo with Some l => d <? l | None => false end = false ∧
  match hi with Some h => h <? d | None => false end = false.
Proof.
  unfold in_range. destruct lo as [l|], hi as [h|]; rewrite ?Z.ltb_ge;
    (split; [intros [Hl Hh]; split; auto | intros [??]; split; intros; simplify_eq; done]).
Qed.

Lemma anchor_matches_spec w nd nu a :
  0 ≤ nu < DAY_US → a = nd ∨ a = nd - 1 →
  anchor_matches (w_days w) (w_lo w) (w_hi w) (w_start w) (w_end w) nd nu a = true ↔
  anchors w a ∧ a * DAY_US + w_start w ≤ nd * DAY_US + nu < a * DAY_US + w_end w.
Proof.
  intros Hnu Ha. unfold anchor_matches, anchors. rewrite in_range_bool.
  case_bool_decide as Hday; simpl; [|naive_solver].
  destruct (match w_lo w with Some l => a <? l | None => false end); [naive_solver|].
  destruct (match w_hi w with Some h => h <? a | None => false end); [naive_solver|].
  rewrite andb_true_iff, Z.leb_le, Z.ltb_lt.
  destruct (Z.eqb_spec a nd) as [->|]; unfold DAY_US in *; (split; [intros; split; [done|lia]|lia]).
Qed.

Lemma matches_at_window s w now :
  s_enabled s = true → window_of s = Some w →
  matches_at s now =
    (yesterday ← date_add (dt_date now) (-1);
     Ok (existsb (anchor_matches (w_days w) (w_lo w) (w_hi w) (w_start w) (w_end w)
                    (dt_date now) (time_us (dt_time now))) [dt_date now; yesterday])).
Proof.
  unfold matches_at, window_of. intros -> Hw. simpl.
  destruct (occurrence_bounds _ _) as [[st en]|]; simplify_option_eq. done.
Qed.

Lemma matches_at_none s now :
  s_enabled s = false ∨ window_of s = None → matches_at s now = Ok false.
Proof.
  unfold matches_at, window_of. intros [->|H]; [done|].
  destruct (s_enabled s); [|done]. simpl.
  destruct (occurrence_bounds _ _) as [[]|]; [discriminate|done].
Qed.

Lemma date_add_pred d : date_min < d ≤ date_max → date_add d (-1) = Ok (d - 1).
Proof.
  intros. unfold date_add, date_ok.
  replace (d + -1) with (d - 1) by lia.
  destruct (_ && _)%bool eqn:E; [done|].
  apply andb_false_iff in E as [E|E]; bool_to_prop; lia.
Qed.

Lemma dt_us_day d : time_ok (dt_time d) = true → dt_us d / DAY_US = dt_date d.
Proof. intros H%time_us_range. unfold dt_us, DAY_US in *. zdm. Qed.

Lemma matches_at_correct s now :
  schedule_times_ok s = true → datetime_ok now = true → date_min < dt_date now →
  ∃ r, matches_at s now = Ok r ∧ (r = true ↔ s_enabled s = true ∧ occurs_at s (dt_us now)).
Proof.
  intros Hs [Hd Ht]%andb_true_iff Hmin. unfold occurs_at.
  destruct (s_enabled s) eqn:He; [destruct (window_of s) as [w|] eqn:Hw|].
  2-3: rewrite matches_at_none by auto; exists false; naive_solver.
  rewrite (matches_at_window s w) by done.
  unfold date_ok in Hd. bool_to_prop. rewrite date_add_pred by lia. simpl.
  eexists. split; [done|].
  pose proof (window_of_ok s w Hs Hw) as Hok. pose proof (time_us_range _ Ht) as Hnu.
  rewrite orb_false_r, orb_true_iff, !anchor_matches_spec by auto.
  trans (covers w (dt_us now)); [|naive_solver].
  rewrite covers_two_days, dt_us_day by done. unfold dt_us. split.
  - intros [?|?]; eexists; (split; [|done]); auto.
  - intros (d & [->| ->] & ?); auto.
Qed.

(** ** The weekday search *)

Lemma range_loop_spec fuel d hi wd b :
  hi - d < Z.of_nat fuel → range_loop fuel d hi wd = Ok b →
  b = true ↔ ∃ x, d ≤ x ≤ hi ∧ isoweekday x ∈ wd.
Proof.
  revert d. induction fuel as [|f IH]; intros d Hf; simpl.
  { intros [= <-]. split; [done|]. intros (x & ? & ?). lia. }
  destruct (d <=? hi) eqn:E; bool_to_prop.
  2:{ intros [= <-]. split; [done|]. intros (x & ? & ?). lia. }
  case_bool_decide as Hd.
  { intros [= <-]. split; [|done]. intros _. exists d. split; [lia|done]. }
  unfold date_add. destruct (date_ok (d + 1)); simpl; [|discriminate].
  intros Hr. rewrite (IH (d + 1)) by (done || lia). split.
  - intros (x & ? & ?). exists x. split; [lia|done].
  - intros (x & ? & ?). destruct (decide (x = d)) as [->|]; [done|].
    exists x. split; [lia|done].
Qed.

Lemma range_loop_total fuel d hi wd :
  date_min ≤ d → hi < date_max → ∃ b, range_loop fuel d hi wd = Ok b.
Proof.
  revert d. induction fuel as [|f IH]; intros d Hd Hhi; simpl; [by eexists|].
  destruct (d <=? hi) eqn:E; [|by eexists]. bool_to_prop.
  case_bool_decide; [by eexists|].
  unfold date_add, date_ok. destruct (_ && _)%bool eqn:E'; simpl.
  - apply IH; lia.
  - apply andb_false_iff in E' as [?|?]; bool_to_prop; lia.
Qed.

Lemma weekday_between (lo hi : Z) (wd : gset Z) :
  wd ⊆ _ALL_WEEKDAYS → wd ≠ ∅ → 6 ≤ hi - lo → ∃ d, lo ≤ d ≤ hi ∧ isoweekday d ∈ wd.
Proof.
  intros Hsub Hne Hlen. destruct (set_choose_L wd Hne) as [w Hw].
  destruct (isoweekday_hits lo w) as (d & ? & <-); [by apply elem_of_all_weekdays, Hsub|].
  exists d. split; [lia|done].
Qed.

Lemma range_contains_weekday_spec lo hi wd b :
  wd ⊆ _ALL_WEEKDAYS → _range_contains_weekday lo hi wd = Ok b →
  b = true ↔ ∃ d, in_range lo hi d ∧ isoweekday d ∈ wd.
Proof.
  intros Hsub. unfold _range_contains_weekday, in_range.
  case_bool_decide as Hne; [subst; intros [= <-]; set_solver|].
  assert (∀ l h, 6 ≤ h - l → (∀ l', lo = Some l' → l' ≤ l) → (∀ h', hi = Some h' → h ≤ h') →
    ∃ d, ((∀ l, lo = Some l → l ≤ d) ∧ (∀ h, hi = Some h → d ≤ h)) ∧ isoweekday d ∈ wd) as Hweek.
  { intros l h Hlh Hl Hh. destruct (weekday_between l h wd Hsub Hne Hlh) as (d & ? & ?).
    exists d. split; [|done]. split; [intros l' ?%Hl; lia | intros h' ?%Hh; lia]. }
  destruct lo as [l|], hi as [h|];
    try (intros [= <-]; split; [intros _|done]).
  2:{ apply (Hweek l (l + 6)); intros; simplify_eq; lia. }
  2:{ apply (Hweek (h - 6) h); intros; simplify_eq; lia. }
  2:{ apply (Hweek 0 6); intros; simplify_eq; lia. }
  destruct (h <? l) eqn:E; bool_to_prop.
  { intros [= <-]. split; [done|]. intros (d & [Hl Hh] & _).
    specialize (Hl _ eq_refl). specialize (Hh _ eq_refl). lia. }
  destruct (6 <=? h - l) eqn:E6; bool_to_prop.
  { intros [= <-]. split; [intros _|done]. apply (Hweek l h); intros; simplify_eq; lia. }
  intros ->%range_loop_spec; [|unfold RANGE_FUEL; lia]. split.
  - intros (d & ? & ?). exists d. split; [|done]. split; intros; simplify_eq; lia.
  - intros (d & [Hl Hh] & ?). exists d. split; [|done]. split; auto.
Qed.

Lemma range_contains_weekday_total lo hi wd :
  (∀ l h, lo = Some l → hi = Some h → date_min ≤ l ∧ h < date_max) →
  ∃ b, _range_contains_weekday lo hi wd = Ok b.
Proof.
  intros Hs. unfold _range_contains_weekday.
  case_bool_decide; [by eexists|]. destruct lo as [l|], hi as [h|]; try by eexists.
  destruct (Hs l h eq_refl eq_refl).
  repeat (break_if; [by eexists|]). by apply range_loop_total.
Qed.

(** ** The overlap search *)

(** Occurrences anchored [delta] days apart meet on some anchor day. *)
Definition meets (a b : window) (delta : Z) : Prop :=
  (w_start a < w_end b + delta * DAY_US ∧ w_start b + delta * DAY_US < w_end a) ∧
  ∃ d, anchors a d ∧ anchors b (d + delta).

(** Two windows play together iff occurrences at most one day apart meet: this
    is why three offsets are enough. *)
Lemma covers_both_meets a b :
  window_ok a → window_ok b →
  (∃ t, covers a t ∧ covers b t) ↔ ∃ delta, delta ∈ [-1; 0; 1] ∧ meets a b delta.
Proof.
  intros Ha Hb. split.
  - intros (t & (da & Hda & Hta) & (db & Hdb & Htb)).
    pose proof (covers_anchor a t da Ha Hta). pose proof (covers_anchor b t db Hb Htb).
    exists (db - da). split.
    + rewrite !elem_of_cons. lia.
    + split; [unfold DAY_US in *; lia|]. exists da. replace (da + (db - da)) with db by lia. done.
  - intros (delta & _ & [? ?] & d & ? & ?).
    destruct (wok_end a Ha), (wok_end b Hb).
    exists (Z.max (d * DAY_US + w_start a) ((d + delta) * DAY_US + w_start b)).
    split; [exists d | exists (d + delta)]; (split; [done|]); unfold DAY_US in *; lia.
Qed.

Lemma shift_date_ok v n v' :
  _shift_date v n = Ok v' → v' = (λ d, d + n) <$> v.
Proof.
  unfold _shift_date, date_add. destruct v as [d|]; simpl; [|congruence].
  destruct (date_ok _); simpl; congruence.
Qed.

Lemma in_range_inter lo1 hi1 lo2 hi2 delta d :
  in_range (_max_date lo1 ((λ x, x + - delta) <$> lo2)) (_min_date hi1 ((λ x, x + - delta) <$> hi2)) d
  ↔ in_range lo1 hi1 d ∧ in_range lo2 hi2 (d + delta).
Proof.
  rewrite !in_range_bool.
  destruct lo1, hi1, lo2, hi2; simpl; rewrite ?Z.ltb_ge; naive_solver lia.
Qed.

Lemma common_weekdays_spec a b delta d :
  isoweekday d ∈ common_weekdays a b delta ↔ isoweekday d ∈ a ∧ isoweekday (d + delta) ∈ b.
Proof.
  unfold common_weekdays. rewrite elem_of_filter, <- isoweekday_shift. naive_solver.
Qed.

Lemma common_weekdays_subset a b delta :
  a ⊆ _ALL_WEEKDAYS → common_weekdays a b delta ⊆ _ALL_WEEKDAYS.
Proof. unfold common_weekdays. set_solver. Qed.

(** One offset of the loop answers [meets] for that offset. *)
Lemma overlap_search_spec a b delta blo bhi found :
  w_days a ⊆ _ALL_WEEKDAYS →
  w_start a < w_end b + delta * DAY_US → w_start b + delta * DAY_US < w_end a →
  _shift_date (w_lo b) (- delta) = Ok blo → _shift_date (w_hi b) (- delta) = Ok bhi →
  _range_contains_weekday (_max_date (w_lo a) blo) (_min_date (w_hi a) bhi)
    (common_weekdays (w_days a) (w_days b) delta) = Ok found →
  found = true ↔ meets a b delta.
Proof.
  intros Hsub ?? ->%shift_date_ok ->%shift_date_ok Hr.
  apply range_contains_weekday_spec in Hr; [|by apply common_weekdays_subset].
  rewrite Hr. setoid_rewrite in_range_inter. setoid_rewrite common_weekdays_spec.
  unfold meets, anchors. naive_solver.
Qed.

(** A [false] answer of one offset and the answer of the rest of the loop. *)
Lemma exists_delta_cons (P : Z → Prop) delta rest :
  ¬ P delta → (∃ x, x ∈ delta :: rest ∧ P x) ↔ ∃ x, x ∈ rest ∧ P x.
Proof. setoid_rewrite elem_of_cons. naive_solver. Qed.

Lemma overlap_loop_sound deltas a b r :
  w_days a ⊆ _ALL_WEEKDAYS → overlap_loop deltas a b = Ok r →
  r = true ↔ ∃ delta, delta ∈ deltas ∧ meets a b delta.
Proof.
  intros Hsub. induction deltas as [|delta rest IH]; simpl.
  { intros [= <-]. split; [done|]. intros (? & []%elem_of_nil & _). }
  destruct (_ && _)%bool eqn:Hwin; simpl.
  2:{ intros Hr. rewrite exists_delta_cons; [auto|].
      intros [[? ?] _]. apply andb_false_iff in Hwin as [?|?]; bool_to_prop; lia. }
  bool_to_prop. case_bool_decide as Hc.
  { intros Hr. rewrite exists_delta_cons; [auto|]. intros (_ & d & [? _] & [? _]).
    assert (isoweekday d ∈ common_weekdays (w_days a) (w_days b) delta) as Hd
      by by apply common_weekdays_spec.
    rewrite Hc in Hd. set_solver. }
  destruct (_shift_date (w_lo b) _) as [blo|] eqn:Hlo; simpl; [|discriminate].
  destruct (_shift_date (w_hi b) _) as [bhi|] eqn:Hhi; simpl; [|discriminate].
  destruct (_range_contains_weekday _ _ _) as [found|] eqn:Hr; simpl; [|discriminate].
  apply (overlap_search_spec a b delta blo bhi) in Hr; [|done..].
  destruct found; intros Hrest.
  - injection Hrest as <-. split; [intros _|done]. exists delta.
    split; [by left|]. by apply Hr.
  - rewrite exists_delta_cons; [auto|]. intros ?%Hr. done.
Qed.

Lemma date_add_total d n : date_min ≤ d + n ≤ date_max → date_add d n = Ok (d + n).
Proof.
  intros. unfold date_add, date_ok. destruct (_ && _)%bool eqn:E; [done|].
  apply andb_false_iff in E as [?|?]; bool_to_prop; lia.
Qed.

Lemma shift_date_total w v delta :
  dates_safe w → v = w_lo w ∨ v = w_hi w → -1 ≤ delta ≤ 1 →
  _shift_date v (- delta) = Ok ((λ d, d + - delta) <$> v).
Proof.
  intros Hs Hv Hd. unfold _shift_date. destruct v as [d|]; [|done].
  assert (date_min < d < date_max - 1) by (apply Hs; naive_solver).
  rewrite date_add_total by lia. done.
Qed.

Lemma max_date_some x y l : _max_date x y = Some l → x = Some l ∨ y = Some l.
Proof. destruct x as [a|], y as [b|]; simpl; intros; simplify_eq; auto.
  destruct (Z.max_spec a b) as [[? ->]|[? ->]]; auto. Qed.

Lemma min_date_some x y h : _min_date x y = Some h → x = Some h ∨ y = Some h.
Proof. destruct x as [a|], y as [b|]; simpl; intros; simplify_eq; auto.
  destruct (Z.min_spec a b) as [[? ->]|[? ->]]; auto. Qed.

Lemma overlap_range_total a b delta :
  dates_safe a → dates_safe b → -1 ≤ delta ≤ 1 →
  ∃ r, _range_contains_weekday (_max_date (w_lo a) ((λ d, d + - delta) <$> w_lo b))
         (_min_date (w_hi a) ((λ d, d + - delta) <$> w_hi b))
         (common_weekdays (w_days a) (w_days b) delta) = Ok r.
Proof.
  intros Ha Hb ?. apply range_contains_weekday_total. intros l h Hl Hh.
  apply max_date_some in Hl as [Hl|(x & Hl & Hx)%fmap_Some];
    apply min_date_some in Hh as [Hh|(y & Hh & Hy)%fmap_Some]; simpl in *; subst;
    split; (first [pose proof (Ha _ (or_introl Hl)) | pose proof (Hb _ (or_introl Hl))]);
    (first [pose proof (Ha _ (or_intror Hh)) | pose proof (Hb _ (or_intror Hh))]); lia.
Qed.

Lemma overlap_loop_total deltas a b :
  (∀ delta, delta ∈ deltas → -1 ≤ delta ≤ 1) → dates_safe a → dates_safe b →
  ∃ r, overlap_loop deltas a b = Ok r.
Proof.
  intros Hd Ha Hb. induction deltas as [|delta rest IH]; simpl; [by eexists|].
  destruct IH as [r IH]; [intros; apply Hd; by right|].
  assert (-1 ≤ delta ≤ 1) by (apply Hd; left).
  repeat (break_if; [by eexists|]).
  rewrite !(shift_date_total b) by auto. simpl.
  destruct (overlap_range_total a b delta) as [[] Hr]; [done..| |]; rewrite Hr; simpl; by eexists.
Qed.

Lemma schedules_overlap_correct a b r :
  schedule_times_ok a = true → schedule_times_ok b = true →
  schedules_overlap a b = Ok r → r = true ↔ ∃ t, occurs_at a t ∧ occurs_at b t.
Proof.
  intros Ha Hb. unfold schedules_overlap, occurs_at.
  destruct (window_of a) as [wa|] eqn:Hwa; [|intros [= <-]; naive_solver].
  destruct (window_of b) as [wb|] eqn:Hwb; [|intros [= <-]; naive_solver].
  pose proof (window_of_ok _ _ Ha Hwa) as Hoka. pose proof (window_of_ok _ _ Hb Hwb) as Hokb.
  intros ->%overlap_loop_sound; [|apply Hoka].
  rewrite <- covers_both_meets by done. naive_solver.
Qed.

(** Symmetric as a predicate on instants, hence as an answer. *)
Lemma schedules_overlap_sym a b r r' :
  schedule_times_ok a = true → schedule_times_ok b = true →
  schedules_overlap a b = Ok r → schedules_overlap b a = Ok r' → r = r'.
Proof.
  intros Ha Hb Hr Hr'. apply schedules_overlap_correct in Hr, Hr'; [|done..].
  destruct r, r'; naive_solver.
Qed.

(** ** Theorems *)

(** C3.  [matches_at] answers exactly whether an occurrence of the schedule
    contains the instant: for an enabled schedule and any instant after
    0001-01-01 the two anchors it inspects are enough, also when the window
    wraps past midnight. *)
Theorem matches_at_exact (s : Schedule) (now : datetime) :
  schedule_times_ok s = true → datetime_ok now = true → date_min < dt_date now →
  ∃ r, matches_at s now = Ok r ∧
       (r = true ↔ s_enabled s = true ∧ occurs_at s (dt_us now)).
Proof. apply matches_at_correct. Qed.

(** C2.  [schedules_overlap] is exact: when it returns, the answer is [true]
    iff some instant lies in an occurrence of both schedules, across midnight,
    weekday and date-range boundaries. *)
Theorem schedules_overlap_exact (a b : Schedule) (r : bool) :
  schedule_times_ok a = true → schedule_times_ok b = true →
  schedules_overlap a b = Ok r →
  r = true ↔ ∃ t, occurs_at a t ∧ occurs_at b t.
Proof. apply schedules_overlap_correct. Qed.

(**  [schedules_overlap] raises nothing when the dates stay two days away
    from the ends of Python's calendar: the weekday loop terminates within its
    fuel and every shift stays in range. *)
Theorem schedules_overlap_total (a b : Schedule) :
  (∀ w, window_of a = Some w → dates_safe w) → (∀ w, window_of b = Some w → dates_safe w) →
  ∃ r, schedules_overlap a b = Ok r.
Proof.
  intros Ha Hb. unfold schedules_overlap.
  destruct (window_of a) as [wa|]; [|by eexists].
  destruct (window_of b) as [wb|]; [|by eexists].
  apply overlap_loop_total; [|by apply Ha|by apply Hb].
  intros delta. rewrite !elem_of_cons, elem_of_nil. lia.
Qed.

(** ** Witnesses *)

Lemma matches_at_exact_witness :
  ∃ r, matches_at night_show (at_hm 2 30) = Ok r ∧
       (r = true ↔ s_enabled night_show = true ∧ occurs_at night_show (dt_us (at_hm 2 30))).
Proof. apply (matches_at_exact night_show (at_hm 2 30)); reflexivity. Defined.

Lemma schedules_overlap_exact_witness : ∃ t, occurs_at day_show t ∧ occurs_at night_show t.
Proof. by apply (schedules_overlap_exact day_show night_show true). Defined.

Lemma schedules_overlap_total_witness : ∃ r, schedules_overlap day_show night_show = Ok r.
Proof.
  apply (schedules_overlap_total day_show night_show); intros w Hw d; vm_compute in Hw;
    injection Hw as <-; intros [?|?]; discriminate.
Defined.
