(* ===== verification/Skips.v ===== *)
(** * Operator skips (cms/services/scheduler.py, [SkipSnapshot])

    A skip suspends a schedule until a local time, for all its devices or for
    one device.  Every pass loads the persisted skips once and works on the
    snapshot that is active at its [local_now]. *)

From S2P Require Import Prelude Clock Models Occurrence Database Samples.
Open Scope Z_scope.

Record SkipSnapshot := mkSkips {
  schedule_wide : gmap string datetime;
  per_device : gmap (string * string) datetime
}.

Definition skips_empty : SkipSnapshot := mkSkips ∅ ∅.

Definition active_as_of (sk : SkipSnapshot) (local_now : datetime) : SkipSnapshot :=
  mkSkips (filter (λ kv, dt_ltb local_now kv.2 = true) (schedule_wide sk))
          (filter (λ kv, dt_ltb local_now kv.2 = true) (per_device sk)).

Definition expired_schedule_ids (sk : SkipSnapshot) (local_now : datetime) : list string :=
  (map_to_list (filter (λ kv, dt_leb kv.2 local_now = true) (schedule_wide sk))).*1.

Definition expired_device_pairs (sk : SkipSnapshot) (local_now : datetime) : list (string * string) :=
  (map_to_list (filter (λ kv, dt_leb kv.2 local_now = true) (per_device sk))).*1.

Definition is_schedule_skipped (sk : SkipSnapshot) (schedule_id : string) : bool :=
  bool_decide (is_Some (schedule_wide sk !! schedule_id)).

Definition is_skipped_for_device (sk : SkipSnapshot) (schedule_id device_id : string) : bool :=
  if is_schedule_skipped sk schedule_id then true
  else bool_decide (is_Some (per_device sk !! (schedule_id, device_id))).

(** [(id, skipped_until)] of the schedules with a schedule-wide skip; the wall
    clock fields are kept, the time zone label is dropped. *)
Definition skipped_rows (db : Db) : list (string * datetime) :=
  omap (λ s, until ← s_skipped_until s; Some (s_id s, until)) (db_schedules db).

Definition load_skip_snapshot (db : Db) : SkipSnapshot :=
  mkSkips (dict_of (skipped_rows db)) (dict_of (map_to_list (db_device_skips db))).

(** The purge of expired skips in [evaluate_schedules]: schedule-wide skips are
    reset to NULL, per-device rows deleted. *)
Definition clear_skipped_until (sids : list string) (s : Schedule) : Schedule :=
  if bool_decide (s_id s ∈ sids)
  then mkSchedule (s_id s) (s_name s) (s_group_id s) (s_group s) (s_tag_id s) (s_asset s)
         (s_start_date s) (s_end_date s) (s_start_time s) (s_end_time s) (s_days_of_week s)
         (s_priority s) (s_enabled s) (s_loop_count s) None
  else s.

Definition purge_expired (raw : SkipSnapshot) (local_now : datetime) (db : Db) : Db :=
  let db := set_schedules (fmap (clear_skipped_until (expired_schedule_ids raw local_now))) db in
  set_device_skips (λ m, fold_left (λ m k, delete k m) (expired_device_pairs raw local_now) m) db.

(** [skip_until] computed by the "End Now" endpoint
    (cms/routers/schedules.py, [end_schedule_now]). *)
Definition end_now_until (s : Schedule) (local_now : datetime) : result exn datetime :=
  let end_today := Datetime (dt_date local_now) (s_end_time s) in
  if time_leb (s_end_time s) (s_start_time s) then dt_add end_today DAY_US else Ok end_today.

(** ** Lemmas *)

Lemma lookup_filter_true {K V} `{Countable K} (P : K * V → Prop) `{∀ x, Decision (P x)}
    (m : gmap K V) (k : K) :
  is_Some (filter P m !! k) ↔ ∃ v, m !! k = Some v ∧ P (k, v).
Proof.
  split.
  - intros [v [??]%map_lookup_filter_Some]. eauto.
  - intros (v & ? & ?). exists v. by apply map_lookup_filter_Some.
Qed.

Lemma is_schedule_skipped_active sk now sid :
  is_schedule_skipped (active_as_of sk now) sid = true ↔
  ∃ until, schedule_wide sk !! sid = Some until ∧ dt_us now < dt_us until.
Proof.
  unfold is_schedule_skipped. rewrite bool_decide_eq_true. simpl.
  rewrite lookup_filter_true. simpl. unfold dt_ltb. by setoid_rewrite Z.ltb_lt.
Qed.

Lemma elem_of_expired_schedule_ids sk now sid :
  sid ∈ expired_schedule_ids sk now ↔
  ∃ until, schedule_wide sk !! sid = Some until ∧ dt_us until ≤ dt_us now.
Proof.
  unfold expired_schedule_ids. rewrite list_elem_of_fmap. split.
  - intros ([k v] & -> & [??]%elem_of_map_to_list%map_lookup_filter_Some). simpl in *.
    exists v. unfold dt_leb in *. bool_to_prop. done.
  - intros (v & ? & ?). exists (sid, v). split; [done|].
    apply elem_of_map_to_list, map_lookup_filter_Some. split; [done|].
    by apply Z.leb_le.
Qed.

Lemma elem_of_expired_device_pairs sk now p :
  p ∈ expired_device_pairs sk now ↔
  ∃ until, per_device sk !! p = Some until ∧ dt_us until ≤ dt_us now.
Proof.
  unfold expired_device_pairs. rewrite list_elem_of_fmap. split.
  - intros ([k v] & -> & [??]%elem_of_map_to_list%map_lookup_filter_Some). simpl in *.
    exists v. unfold dt_leb in *. bool_to_prop. done.
  - intros (v & ? & ?). exists (p, v). split; [done|].
    apply elem_of_map_to_list, map_lookup_filter_Some. split; [done|].
    by apply Z.leb_le.
Qed.

Lemma lookup_delete_all {K V} `{Countable K} (ks : list K) (m : gmap K V) k :
  fold_left (λ m k, delete k m) ks m !! k = if bool_decide (k ∈ ks) then None else m !! k.
Proof.
  revert m. induction ks as [|k' ks IH]; intros m; simpl; [done|].
  rewrite IH. destruct (decide (k = k')) as [->|].
  - rewrite lookup_delete_eq. rewrite (bool_decide_true (k' ∈ k' :: ks)) by left. by case_match.
  - rewrite lookup_delete_ne by done.
    rewrite (bool_decide_ext (k ∈ k' :: ks) (k ∈ ks)); [done|set_solver].
Qed.

(** Schedule ids are a primary key. *)
Definition ids_unique (db : Db) : Prop := NoDup (s_id <$> db_schedules db).

Lemma elem_of_skipped_rows db sid until :
  (sid, until) ∈ skipped_rows db ↔
  ∃ s, s ∈ db_schedules db ∧ s_id s = sid ∧ s_skipped_until s = Some until.
Proof.
  unfold skipped_rows. rewrite list_elem_of_omap. split.
  - intros (s & ? & ?). simplify_option_eq. eauto.
  - intros (s & ? & <- & Hu). exists s. split; [done|]. by rewrite Hu.
Qed.

Lemma skipped_rows_NoDup db : ids_unique db → NoDup (skipped_rows db).*1.
Proof. apply omap_keys_NoDup. intros s kv ?. by simplify_option_eq. Qed.

Lemma lookup_schedule_wide db sid until :
  ids_unique db →
  schedule_wide (load_skip_snapshot db) !! sid = Some until ↔
  ∃ s, s ∈ db_schedules db ∧ s_id s = sid ∧ s_skipped_until s = Some until.
Proof.
  intros ?. simpl. rewrite lookup_dict_of by by apply skipped_rows_NoDup.
  apply elem_of_skipped_rows.
Qed.

Lemma lookup_per_device db : per_device (load_skip_snapshot db) = db_device_skips db.
Proof.
  apply map_eq. intros k. simpl. apply option_eq. intros v.
  rewrite lookup_dict_of by apply NoDup_fst_map_to_list. apply elem_of_map_to_list.
Qed.

Lemma purged_schedules raw now db :
  db_schedules (purge_expired raw now db) =
  clear_skipped_until (expired_schedule_ids raw now) <$> db_schedules db.
Proof. done. Qed.

Lemma clear_skipped_id sids s : s_id (clear_skipped_until sids s) = s_id s.
Proof. unfold clear_skipped_until. by case_match. Qed.

Lemma purge_ids_unique raw now db : ids_unique db → ids_unique (purge_expired raw now db).
Proof.
  unfold ids_unique. rewrite purged_schedules, <- list_fmap_compose.
  intros H. erewrite list_fmap_ext; [exact H|]. intros. apply clear_skipped_id.
Qed.

Lemma time_us_ltb s : time_leb (s_end_time s) (s_start_time s) = false →
  time_us (s_start_time s) < time_us (s_end_time s).
Proof. unfold time_leb. intros. bool_to_prop. done. Qed.

Lemma purge_per_device db now :
  per_device (load_skip_snapshot (purge_expired (load_skip_snapshot db) now db)) =
  per_device (active_as_of (load_skip_snapshot db) now).
Proof.
  change (per_device (active_as_of ?sk now)) with
    (filter (λ kv : string * string * datetime, dt_ltb now kv.2 = true) (per_device sk)).
  rewrite !lookup_per_device. apply map_eq. intros k.
  unfold purge_expired, set_device_skips; cbn [db_device_skips set_schedules].
  rewrite lookup_delete_all. apply option_eq. intros v. rewrite map_lookup_filter_Some. unfold dt_ltb; simpl; rewrite Z.ltb_lt.
  case_bool_decide as Hk; rewrite elem_of_expired_device_pairs, lookup_per_device in Hk.
  - destruct Hk as (u & Hu1 & Hu2). split; [done|]. intros [??]. simplify_eq. lia.
  - split; [|by intros []]. intros Hv. split; [done|].
    destruct (Z.lt_ge_cases (dt_us now) (dt_us v)); [done|]. exfalso. apply Hk. eauto.
Qed.

Lemma clear_skipped_keeps sids s v :
  s_skipped_until (clear_skipped_until sids s) = Some v ↔ s_skipped_until s = Some v ∧ s_id s ∉ sids.
Proof. unfold clear_skipped_until. case_bool_decide; naive_solver. Qed.

Lemma purge_schedule_wide db now :
  ids_unique db →
  schedule_wide (load_skip_snapshot (purge_expired (load_skip_snapshot db) now db)) =
  schedule_wide (active_as_of (load_skip_snapshot db) now).
Proof.
  intros Hu. apply map_eq. intros sid. apply option_eq. intros v.
  change (schedule_wide (active_as_of ?sk now)) with
    (filter (λ kv : string * datetime, dt_ltb now kv.2 = true) (schedule_wide sk)).
  rewrite map_lookup_filter_Some, !lookup_schedule_wide by auto using purge_ids_unique.
  rewrite purged_schedules. unfold dt_ltb; simpl. rewrite Z.ltb_lt.
  setoid_rewrite list_elem_of_fmap. split.
  - intros (s' & (s & -> & Hs) & Hid & [Hv Hex]%clear_skipped_keeps).
    rewrite clear_skipped_id in Hid. split; [by exists s|].
    destruct (Z.lt_ge_cases (dt_us now) (dt_us v)); [done|]. exfalso. apply Hex.
    apply elem_of_expired_schedule_ids. exists v. split; [|done].
    apply lookup_schedule_wide; [done|]. by exists s.
  - intros [(s & Hs & <- & Hv) Hlt]. eexists. split; [by exists s|].
    rewrite clear_skipped_id, clear_skipped_keeps. split_and!; [done..|].
    intros (u & Hsw & Hle)%elem_of_expired_schedule_ids.
    assert (schedule_wide (load_skip_snapshot db) !! s_id s = Some v) as Hsw'
      by by (apply lookup_schedule_wide; [done|]; exists s).
    rewrite Hsw in Hsw'. simplify_eq. lia.
Qed.

(** ** Theorems *)

(**  Purging the expired skips from the database and loading a fresh
    snapshot gives exactly the snapshot of the skips still active: the purge
    loses no active skip and leaves no expired one, schedule-wide or per
    device. *)
Theorem purge_load_active (db : Db) (now : datetime) :
  ids_unique db →
  load_skip_snapshot (purge_expired (load_skip_snapshot db) now db) =
  active_as_of (load_skip_snapshot db) now.
Proof.
  intros Hu. pose proof (purge_schedule_wide db now Hu) as H1.
  pose proof (purge_per_device db now) as H2.
  destruct (load_skip_snapshot _), (active_as_of _ _). simpl in *. by subst.
Qed.

(**  "End Now" pressed during the part of an overnight occurrence that lies
    after midnight: the computed skip does not end with the occurrence in
    progress but with the next one, so that a whole further night is skipped.
    Before midnight, and for a window that does not wrap, the skip ends with
    the occurrence in progress. *)
Theorem end_now_until_exact (s : Schedule) (w : window) (now u : datetime) (a : Z) :
  schedule_times_ok s = true → time_ok (dt_time now) = true → window_of s = Some w →
  a * DAY_US + w_start w ≤ dt_us now < a * DAY_US + w_end w →
  end_now_until s now = Ok u →
  (a = dt_date now → dt_us u = a * DAY_US + w_end w) ∧
  (a ≠ dt_date now → dt_us u = (a + 1) * DAY_US + w_end w ∧
                      dt_us now < (a + 1) * DAY_US + w_start w).
Proof.
  intros Hs Ht Hw Ha Hu.
  pose proof (window_of_ok _ _ Hs Hw) as Hok.
  pose proof (covers_anchor w _ a Hok Ha) as Hnear. rewrite dt_us_day in Hnear by done.
  apply andb_true_iff in Hs as [Hst%time_us_range Het%time_us_range].
  apply time_us_range in Ht.
  assert (dt_us u = dt_date now * DAY_US + w_end w ∧ w_start w = time_us (s_start_time s)) as [-> Hws].
  { unfold window_of, occurrence_bounds in Hw. unfold end_now_until, time_leb in Hu.
    change (_time_to_us) with time_us in Hw.
    destruct (Z.leb_spec (time_us (s_end_time s)) (time_us (s_start_time s))).
    - unfold dt_add in Hu. destruct (date_ok _); [|done]. injection Hu as <-.
      rewrite dt_us_of_us. unfold dt_us at 1. simpl.
      repeat break_if; bool_to_prop; simplify_option_eq; simpl; unfold DAY_US in *; lia.
    - injection Hu as <-. unfold dt_us. simpl.
      repeat break_if; bool_to_prop; simplify_option_eq; simpl; unfold DAY_US in *; lia. }
  unfold dt_us in Ha |- *. unfold DAY_US in *. destruct (wok_end _ Hok). destruct (wok_start _ Hok).
  unfold DAY_US in *. split; [intros ->; lia | intros; destruct Hnear; lia].
Qed.

(** ** Witnesses *)

(** The night show at half past two: the occurrence started the day before. *)
Lemma end_now_until_exact_witness :
  dt_us (Datetime (leap_day + 1) (hm 6 0)) = leap_day * DAY_US + (6 * 3600 * 1000000 + DAY_US) ∧
  dt_us (at_hm 2 30) < leap_day * DAY_US + 21 * 3600 * 1000000.
Proof.
  apply (end_now_until_exact night_show
           (mkWindow (21 * 3600 * 1000000) (6 * 3600 * 1000000 + DAY_US) _ALL_WEEKDAYS None None)
           (at_hm 2 30) (Datetime (leap_day + 1) (hm 6 0)) (leap_day - 1));
    first [reflexivity | vm_compute; intuition congruence].
Defined.

Lemma purge_load_active_witness :
  load_skip_snapshot (purge_expired (load_skip_snapshot two_shows) (at_hm 1 0) two_shows) =
  active_as_of (load_skip_snapshot two_shows) (at_hm 1 0).
Proof. apply purge_load_active. apply (bool_decide_unpack _). by vm_compute. Defined.
