(* ===== verification/Targeting.v ===== *)
(** * Which devices a schedule targets (cms/services/scheduler.py,
      cms/services/device_membership.py)

    A schedule targets the adopted devices of its group, narrowed by its tag.
    The scheduler resolves one schedule at a time on a change
    ([_get_target_device_ids]) and all of them in bulk on a tick
    ([load_target_devices_by_schedule]); both must agree. *)

From S2P Require Import Prelude Clock Models Database Skips Samples.

(** [effective_device_group_rows_subquery]: [(device_id, group_id)] rows.  An
    argument is [None] when the caller does not filter on it. *)
Definition effective_device_group_rows_subquery (db : Db)
    (device_ids : option (list string)) (group_ids : option (list uuid))
    (statuses : option (list DeviceStatus)) : list (string * uuid) :=
  omap (λ d,
    gid ← d_group_id d;
    if (where_in (d_id d) device_ids && where_in gid group_ids && where_in (d_status d) statuses)%bool
    then Some (d_id d, gid) else None) (db_devices db).

Definition _load_adopted_devices_by_group_ids (db : Db) (group_ids : gset uuid)
    : gmap uuid (gset string) :=
  if bool_decide (group_ids = ∅) then ∅
  else multidict_of ((λ row, (row.2, row.1)) <$>
         effective_device_group_rows_subquery db None (Some (elements group_ids)) (Some [D_ADOPTED])).

Definition _load_tagged_device_ids (db : Db) (tag_ids : gset uuid) : gmap uuid (gset string) :=
  if bool_decide (tag_ids = ∅) then ∅
  else multidict_of (filter (λ row, row.1 ∈ tag_ids) (db_tag_assignments db)).

(** [targets & tagged.get(tag_id, set())] when the schedule carries a tag. *)
Definition narrow_by_tag (tagged : gmap uuid (gset string)) (s : Schedule) (targets : gset string)
    : gset string :=
  match s_tag_id s with
  | Some tag => targets ∩ default ∅ (tagged !! tag)
  | None => targets
  end.

Definition _get_target_device_ids (db : Db) (s : Schedule) : list string :=
  match s_group_id s with
  | None => []
  | Some gid =>
      let devices_by_group := _load_adopted_devices_by_group_ids db {[gid]} in
      let targets := default ∅ (devices_by_group !! gid) in
      let tagged :=
        match s_tag_id s with Some tag => _load_tagged_device_ids db {[tag]} | None => ∅ end in
      str_sorted (narrow_by_tag tagged s targets)
  end.

Definition load_target_devices_by_schedule (db : Db) (schedules : list Schedule)
    : gmap string (gset string) :=
  let group_ids : gset uuid := list_to_set (omap s_group_id schedules) in
  if bool_decide (group_ids = ∅) then ∅
  else
    let devices_by_group := _load_adopted_devices_by_group_ids db group_ids in
    let tagged := _load_tagged_device_ids db
      (list_to_set (omap (λ s, _ ← s_group_id s; s_tag_id s) schedules)) in
    dict_of (omap (λ s,
      gid ← s_group_id s;
      Some (s_id s, narrow_by_tag tagged s (default ∅ (devices_by_group !! gid)))) schedules).

(** ** Specification *)

(** Device [did] is a target of [s]: adopted, in the schedule's group, and
    carrying the schedule's tag if it has one. *)
Definition targets (db : Db) (s : Schedule) (did : string) : Prop :=
  ∃ d gid, d ∈ db_devices db ∧ d_id d = did ∧ d_status d = D_ADOPTED ∧
    d_group_id d = Some gid ∧ s_group_id s = Some gid ∧
    (∀ tag, s_tag_id s = Some tag → (tag, did) ∈ db_tag_assignments db).

(** ** Lemmas *)

Lemma elem_of_adopted_by_group db gids gid did :
  gid ∈ gids →
  did ∈ default ∅ (_load_adopted_devices_by_group_ids db gids !! gid) ↔
  ∃ d, d ∈ db_devices db ∧ d_id d = did ∧ d_status d = D_ADOPTED ∧ d_group_id d = Some gid.
Proof.
  intros Hg. unfold _load_adopted_devices_by_group_ids.
  rewrite bool_decide_false by set_solver.
  rewrite elem_of_multidict_of, list_elem_of_fmap.
  unfold effective_device_group_rows_subquery. setoid_rewrite list_elem_of_omap. split.
  - intros ([did' gid'] & Heq & (d & Hd & Hrow)). simpl in Heq. injection Heq as <- <-.
    destruct (d_group_id d) as [g|] eqn:Hgd; simpl in Hrow; [|done].
    case_match eqn:Hw; [|done]. injection Hrow as <- <-. bool_to_prop.
    exists d. split_and!; [done|done| |done]. by apply list_elem_of_singleton.
  - intros (d & Hd & <- & Hst & Hgd). exists (d_id d, gid). split; [done|].
    exists d. split; [done|]. rewrite Hgd. simpl.
    rewrite !bool_decide_true; [done| |by apply elem_of_elements].
    rewrite Hst. left.
Qed.

Lemma elem_of_tagged db tags tag did :
  tag ∈ tags →
  did ∈ default ∅ (_load_tagged_device_ids db tags !! tag) ↔ (tag, did) ∈ db_tag_assignments db.
Proof.
  intros Ht. unfold _load_tagged_device_ids. rewrite bool_decide_false by set_solver.
  rewrite elem_of_multidict_of, list_elem_of_filter. naive_solver.
Qed.

(** The two resolvers narrow the same way. *)
Lemma elem_of_narrowed db gids tags s gid did :
  s_group_id s = Some gid → gid ∈ gids → (∀ tag, s_tag_id s = Some tag → tag ∈ tags) →
  did ∈ narrow_by_tag (_load_tagged_device_ids db tags) s
          (default ∅ (_load_adopted_devices_by_group_ids db gids !! gid)) ↔
  targets db s did.
Proof.
  intros Hs Hg Htags. unfold narrow_by_tag, targets.
  destruct (s_tag_id s) as [tag|]; [rewrite elem_of_intersection|];
    rewrite elem_of_adopted_by_group, ?elem_of_tagged by auto.
  - split.
    + intros [(d & ? & ? & ? & ?) ?]. exists d, gid. split_and!; [done..|]. naive_solver.
    + intros (d & gid' & ? & ? & ? & ? & ? & Htag). simplify_eq. split; [|auto]. by exists d.
  - split.
    + intros (d & ? & ? & ? & ?). exists d, gid. split_and!; [done..|]. naive_solver.
    + intros (d & gid' & ? & ? & ? & ? & ? & Htag). simplify_eq. by exists d.
Qed.

Lemma elem_of_get_target_device_ids db s did :
  did ∈ _get_target_device_ids db s ↔ targets db s did.
Proof.
  unfold _get_target_device_ids. destruct (s_group_id s) as [gid|] eqn:Hg.
  - rewrite elem_of_str_sorted. destruct (s_tag_id s) as [tag|] eqn:Ht.
    + apply elem_of_narrowed; [done|set_solver|]. intros ? [= <-]%(eq_trans (eq_sym Ht)). set_solver.
    + rewrite <- (elem_of_narrowed db {[gid]} ∅ s gid); [|done|set_solver|by rewrite Ht].
      unfold narrow_by_tag. by rewrite Ht.
  - rewrite elem_of_nil. unfold targets. naive_solver.
Qed.

Lemma lookup_target_devices db l s did :
  NoDup (s_id <$> l) → s ∈ l →
  did ∈ default ∅ (load_target_devices_by_schedule db l !! s_id s) ↔ targets db s did.
Proof.
  intros Hnd Hs. unfold load_target_devices_by_schedule.
  destruct (decide ((list_to_set (omap s_group_id l) : gset uuid) = ∅)) as [He|Hne].
  - rewrite bool_decide_true by done. rewrite lookup_empty; simpl.
    split; [set_solver|]. intros (d & gid & _ & _ & _ & _ & Hg & _). exfalso.
    assert (gid ∈ (list_to_set (omap s_group_id l) : gset uuid)); [|set_solver].
    apply elem_of_list_to_set, list_elem_of_omap. eauto.
  - rewrite bool_decide_false by done.
    rewrite (lookup_dict_of_omap s_id) by (done || (intros; by simplify_option_eq)).
    destruct (s_group_id s) as [gid|] eqn:Hg; simpl; [|unfold targets; set_solver].
    apply elem_of_narrowed; [done| |].
    + apply elem_of_list_to_set, list_elem_of_omap. eauto.
    + intros tag Ht. apply elem_of_list_to_set, list_elem_of_omap. exists s. by rewrite Hg.
Qed.

(** ** Theorems *)

(**  The bulk resolver of the scheduler tick and the single resolver used
    on a schedule change agree with each other and with the specification: a
    device is a target iff it is adopted, belongs to the schedule's group and
    carries the schedule's tag if there is one. *)
Theorem target_resolvers_agree (db : Db) (l : list Schedule) (s : Schedule) (did : string) :
  NoDup (s_id <$> l) → s ∈ l →
  (did ∈ default ∅ (load_target_devices_by_schedule db l !! s_id s) ↔ targets db s did) ∧
  (did ∈ _get_target_device_ids db s ↔ targets db s did).
Proof.
  intros. split; [by apply lookup_target_devices | apply elem_of_get_target_device_ids].
Qed.

(** ** Witnesses *)

Lemma target_resolvers_agree_witness :
  ("d1" ∈ default ∅ (load_target_devices_by_schedule two_shows [day_show; night_show] !! "day") ↔
   targets two_shows day_show "d1") ∧
  ("d1" ∈ _get_target_device_ids two_shows day_show ↔ targets two_shows day_show "d1").
Proof.
  apply (target_resolvers_agree two_shows [day_show; night_show] day_show "d1"); [|left].
  apply (bool_decide_unpack _). by vm_compute.
Defined.
