(* ===== verification/NowPlaying.v ===== *)
(** * What plays now on every device (cms/services/scheduler.py)

    [compute_now_playing] picks for every device the active schedule that wins
    ([_schedule_wins]: higher priority, ties broken by id) and says whether the
    device confirms it.  The replica-local cache [_confirmed_playing] and its
    operations are here too. *)

From S2P Require Import Prelude Clock Models Occurrence Database Skips Targeting Samples.
Open Scope Z_scope.

Definition _asset_display_name (a : option Asset) : string :=
  match a with
  | None => "—"
  | Some a => default (a_filename a) (str_or (a_display_name a)
                (str_or (a_original_filename a) (Some (a_filename a))))
  end.

(** [_schedule_wins] against an incumbent. *)
Definition beats (candidate incumbent : Schedule) : bool :=
  if negb (s_priority candidate =? s_priority incumbent)
  then s_priority incumbent <? s_priority candidate
  else s_id candidate <s s_id incumbent.

Definition _schedule_wins (candidate : Schedule) (incumbent : option Schedule) : bool :=
  match incumbent with
  | None => true
  | Some i => beats candidate i
  end.

Definition _matches_now (s : Schedule) (now : datetime) : result exn bool := matches_at s now.

(** ** The confirmed-playback cache *)

Abbreviation confirmed_cache := (gmap string Confirmed).

Definition set_now_playing (device_id : string) (entry : Confirmed) (c : confirmed_cache) : confirmed_cache :=
  <[device_id := entry]> c.

Definition clear_now_playing (device_id : string) (c : confirmed_cache)
    : option Confirmed * confirmed_cache :=
  (c !! device_id, delete device_id c).

(** Cache invalidation after a skip; the skip itself lives in the database. *)
Definition skip_schedule_until (schedule_id : string) (device_id : option string)
    (c : confirmed_cache) : confirmed_cache :=
  match device_id with
  | None => filter (λ kv, cp_schedule_id kv.2 ≠ Some schedule_id) c
  | Some did =>
      match c !! did with
      | Some info => if bool_decide (cp_schedule_id info = Some schedule_id) then delete did c else c
      | None => c
      end
  end.

(** ** The dashboard computation *)

Record NowPlaying := mkNowPlaying {
  np_device_id : string;
  np_device_name : string;
  np_schedule_id : string;
  np_schedule_name : string;
  np_group_id : option string;
  np_group_name : option string;
  np_asset_filename : string;
  np_asset_raw : option string;
  np_priority : Z;
  np_since : string;
  np_source : string;
  np_end_time : string;
  np_start_time_raw : string;
  np_end_time_raw : string
}.

(** The schedules in their window and not skipped. *)
Definition active_schedules (db : Db) (skips : SkipSnapshot) (local_now : datetime)
    : result exn (list Schedule) :=
  filter_ok (λ s, m ← _matches_now s local_now; Ok (m && negb (is_schedule_skipped skips (s_id s))))
            (enabled_schedules db).

(** Target devices of the active schedules with an asset, without the devices
    that skip the schedule. *)
Definition schedule_targets (skips : SkipSnapshot) (targets_by_schedule : gmap string (gset string))
    (active : list Schedule) : list (Schedule * list string) :=
  omap (λ s,
    match s_asset s with
    | None => None
    | Some _ =>
        let target_ids := filter (λ did, is_skipped_for_device skips (s_id s) did = false)
          (elements (default ∅ (targets_by_schedule !! s_id s))) in
        match target_ids with [] => None | _ => Some (s, target_ids) end
    end) active.

Definition assign_devices (m : gmap string Schedule) (st : Schedule * list string) : gmap string Schedule :=
  fold_left (λ m did, if _schedule_wins st.1 (m !! did) then <[did := st.1]> m else m) st.2 m.

Definition device_schedule (st : list (Schedule * list string)) : gmap string Schedule :=
  fold_left assign_devices st ∅.

Definition is_url_asset (a : Asset) : bool :=
  bool_decide (a_asset_type a = WEBPAGE ∨ a_asset_type a = STREAM).

Definition expected_raw (a : Asset) : option string :=
  if is_url_asset a then a_url a else Some (a_filename a).

(** [live and live["mode"] == "play" and live["asset"] == expected_raw]. *)
Definition live_plays (live : option LiveState) (raw : option string) : bool :=
  match live with
  | Some l => bool_decide (ls_mode l = "play" ∧ ls_asset l = raw)
  | None => false
  end.

(** The [since] text and the confirmation flag of one entry. *)
Definition confirmation (now : Z) (sid : string) (live : option LiveState) (raw : option string)
    (confirmed : option Confirmed) : string * bool :=
  let since := utc_isoformat now in
  let live_matches := live_plays live raw in
  match confirmed with
  | Some c =>
      if bool_decide (cp_schedule_id c = Some sid)
      then (default since (cp_since c), live_matches)
      else if live_matches then (default since (l ← live; ls_started_at l), true)
      else (since, false)
  | None => if live_matches then (default since (l ← live; ls_started_at l), true) else (since, false)
  end.

(** One entry of the result; every winner has an asset. *)
Definition now_playing_entry (now : Z) (device_names : gmap string string)
    (live_states : gmap string LiveState) (cache : confirmed_cache)
    (did : string) (s : Schedule) (a : Asset) : NowPlaying :=
  let asset_raw := expected_raw a in
  let '(since, is_confirmed) :=
    confirmation now (s_id s) (live_states !! did) asset_raw (cache !! did) in
  {| np_device_id := did;
     np_device_name := default did (device_names !! did);
     np_schedule_id := s_id s;
     np_schedule_name := s_name s;
     np_group_id := s_group_id s;
     np_group_name := g_name <$> s_group s;
     np_asset_filename := _asset_display_name (s_asset s);
     np_asset_raw := asset_raw;
     np_priority := s_priority s;
     np_since := since;
     np_source := if is_confirmed then "confirmed" else "scheduled";
     np_end_time := strftime_IMp (s_end_time s);
     np_start_time_raw := strftime_HMS (s_start_time s);
     np_end_time_raw := strftime_HMS (s_end_time s) |}.

Definition live_by_device (states : list LiveState) : gmap string LiveState :=
  dict_of ((λ l, (ls_device_id l, l)) <$> states).

(** [name or id] of the devices in [ids]. *)
Definition device_names_of (db : Db) (ids : list string) : gmap string string :=
  dict_of (omap (λ d, if bool_decide (d_id d ∈ ids)
                      then Some (d_id d, default (d_id d) (truthy (Some (d_name d)))) else None)
             (db_devices db)).

(** [tz] converts a UTC instant (microseconds since 1970) to naive local time.
    The entries come in the order of the map of winners; the code's dict order
    follows the iteration order of Python sets of device ids. *)
Definition compute_now_playing (db : Db) (states : list LiveState) (cache : confirmed_cache)
    (tz : Z → datetime) (now : Z) : result exn (list NowPlaying) :=
  let local_now := tz now in
  let skips := active_as_of (load_skip_snapshot db) local_now in
  active ← active_schedules db skips local_now;
  if bool_decide (active = []) then Ok []
  else
    let live_states := live_by_device states in
    let st := schedule_targets skips (load_target_devices_by_schedule db active) active in
    let names := device_names_of db (concat st.*2) in
    Ok (omap (λ '(did, s), a ← s_asset s; Some (now_playing_entry now names live_states cache did s a))
             (map_to_list (device_schedule st))).

(** ** Specification *)

(** Schedule [s] is entitled to device [did] at [local_now]. *)
Definition eligible (db : Db) (local_now : datetime) (s : Schedule) (did : string) : Prop :=
  s ∈ db_schedules db ∧ s_enabled s = true ∧ occurs_at s (dt_us local_now) ∧ is_Some (s_asset s) ∧
  targets db s did ∧
  (∀ until, s_skipped_until s = Some until → dt_us until ≤ dt_us local_now) ∧
  (∀ until, db_device_skips db !! (s_id s, did) = Some until → dt_us until ≤ dt_us local_now).

(** [s] is the winner among the schedules entitled to [did]. *)
Definition winner (db : Db) (local_now : datetime) (did : string) (s : Schedule) : Prop :=
  eligible db local_now s did ∧
  ∀ s', eligible db local_now s' did → s' = s ∨ beats s s' = true.

(** What every row read from the database satisfies. *)
Record db_ok (db : Db) : Prop := {
  dok_ids : ids_unique db;
  dok_times : ∀ s, s ∈ db_schedules db → schedule_times_ok s = true
}.

(** ** Lemmas *)

Lemma beats_irrefl s : beats s s = false.
Proof. unfold beats. rewrite Z.eqb_refl. apply str_ltb_irrefl. Qed.

Lemma beats_trans x y z : beats x y = true → beats y z = true → beats x z = true.
Proof.
  unfold beats.
  destruct (Z.eqb_spec (s_priority x) (s_priority y)), (Z.eqb_spec (s_priority y) (s_priority z)),
    (Z.eqb_spec (s_priority x) (s_priority z)); simpl; rewrite ?Z.ltb_lt; intros; try lia.
  by eapply str_ltb_trans.
Qed.

Lemma beats_total l : NoDup (s_id <$> l) → total_on beats l.
Proof.
  intros Hnd x y Hx Hy. unfold beats. rewrite (Z.eqb_sym (s_priority y)).
  destruct (Z.eqb_spec (s_priority x) (s_priority y)); simpl; [|rewrite !Z.ltb_lt; right; lia].
  destruct (str_ltb_total (s_id x) (s_id y)) as [?|[?|?]]; auto.
  left. by eapply (NoDup_fmap_eq s_id).
Qed.

Lemma beats_priority x y : beats x y = true → s_priority y ≤ s_priority x.
Proof. unfold beats. destruct (Z.eqb_spec (s_priority x) (s_priority y)); simpl; rewrite ?Z.ltb_lt; lia. Qed.

(** One schedule's device loop, seen from one device. *)
Lemma assign_devices_lookup m s ids did :
  assign_devices m (s, ids) !! did =
  if bool_decide (did ∈ ids) then pick beats (m !! did) s else m !! did.
Proof.
  unfold assign_devices; simpl. revert m. induction ids as [|d ids IH]; intros m; simpl; [done|].
  rewrite IH. clear IH.
  assert ((if _schedule_wins s (m !! d) then <[d:=s]> m else m) !! did =
          if bool_decide (did = d) then pick beats (m !! did) s else m !! did) as ->.
  { case_bool_decide as Hd; [subst did|].
    - destruct (m !! d) as [i|] eqn:Hm; simpl; [destruct (beats s i)|]; by rewrite ?lookup_insert_eq, ?Hm.
    - destruct (_schedule_wins s (m !! d)); [by rewrite lookup_insert_ne by congruence|done]. }
  rewrite (bool_decide_ext (did ∈ d :: ids) (did = d ∨ did ∈ ids)) by apply elem_of_cons.
  case_bool_decide as Hin; case_bool_decide as Heq; try (rewrite bool_decide_true by auto);
    try done; [|by rewrite bool_decide_false by naive_solver].
  destruct (m !! did) as [i|]; simpl; [|by rewrite beats_irrefl].
  destruct (beats s i) eqn:E; simpl; rewrite ?beats_irrefl, ?E; done.
Qed.

(** The schedules that list [did] among their targets. *)
Definition candidates (st : list (Schedule * list string)) (did : string) : list Schedule :=
  omap (λ x, if bool_decide (did ∈ x.2) then Some x.1 else None) st.

Lemma device_schedule_lookup st did :
  device_schedule st !! did = fold_left (pick beats) (candidates st did) None.
Proof.
  unfold device_schedule. rewrite <- (lookup_empty (M := gmap string) did).
  generalize (∅ : gmap string Schedule) as m. induction st as [|[s ids] st IH]; intros m; simpl; [done|].
  rewrite IH, assign_devices_lookup. simpl. by case_bool_decide.
Qed.

Lemma elem_of_candidates st did s :
  s ∈ candidates st did ↔ ∃ ids, (s, ids) ∈ st ∧ did ∈ ids.
Proof.
  unfold candidates. rewrite list_elem_of_omap. split.
  - intros ([s' ids] & Hin & Hs). simpl in Hs. case_bool_decide; simplify_eq. eauto.
  - intros (ids & Hin & Hd). exists (s, ids). split; [done|]. simpl. by rewrite bool_decide_true.
Qed.

(** The winner of every device does not depend on the order of the schedules. *)
Lemma device_schedule_spec st did s :
  NoDup (s_id <$> st.*1) → device_schedule st !! did = Some s ↔ best_of beats (candidates st did) s.
Proof.
  intros Hnd. rewrite device_schedule_lookup. apply fold_pick_spec; [exact beats_irrefl|exact beats_trans|].
  intros x y (ids & Hx & _)%elem_of_candidates (ids' & Hy & _)%elem_of_candidates.
  apply (beats_total st.*1 Hnd); apply list_elem_of_fmap; by eexists (_, _).
Qed.

Lemma schedule_targets_ids skips tbs active :
  NoDup (s_id <$> active) → NoDup (s_id <$> (schedule_targets skips tbs active).*1).
Proof.
  rewrite <- list_fmap_compose. apply omap_fmap_NoDup. intros s [s' ids].
  destruct (s_asset s); [|done].
  destruct (filter _ _); [done|]. by intros [= <- <-].
Qed.

Lemma elem_of_schedule_targets skips tbs active did s :
  s ∈ candidates (schedule_targets skips tbs active) did ↔
  s ∈ active ∧ is_Some (s_asset s) ∧ did ∈ default ∅ (tbs !! s_id s) ∧
  is_skipped_for_device skips (s_id s) did = false.
Proof.
  rewrite elem_of_candidates. unfold schedule_targets. setoid_rewrite list_elem_of_omap. split.
  - intros (ids & (s' & Hs' & Heq) & Hd).
    destruct (s_asset s') eqn:Ha; [|done].
    case_match eqn:Hf; [done|]. injection Heq as <- <-. rewrite <- Hf in Hd.
    apply list_elem_of_filter in Hd as [? ?%elem_of_elements]. rewrite Ha. eauto.
  - intros (Hs & [a Ha] & Hd & Hsk).
    set (ids := filter (λ did, is_skipped_for_device skips (s_id s) did = false)
                  (elements (default ∅ (tbs !! s_id s)))).
    assert (did ∈ ids) as Hin by by apply list_elem_of_filter; rewrite elem_of_elements.
    exists ids. split; [|done]. exists s. split; [done|]. rewrite Ha. fold ids.
    destruct ids; [set_solver|done].
Qed.

Lemma is_skipped_active sk now sid did :
  is_skipped_for_device (active_as_of sk now) sid did = true ↔
  (∃ u, schedule_wide sk !! sid = Some u ∧ dt_us now < dt_us u) ∨
  (∃ u, per_device sk !! (sid, did) = Some u ∧ dt_us now < dt_us u).
Proof.
  unfold is_skipped_for_device. rewrite <- is_schedule_skipped_active.
  destruct (is_schedule_skipped _ _); [naive_solver|].
  rewrite bool_decide_eq_true. simpl. rewrite lookup_filter_true. simpl.
  unfold dt_ltb. setoid_rewrite Z.ltb_lt. naive_solver.
Qed.

Lemma not_skipped_iff db now s did :
  ids_unique db → s ∈ db_schedules db →
  is_skipped_for_device (active_as_of (load_skip_snapshot db) now) (s_id s) did = false ↔
  (∀ until, s_skipped_until s = Some until → dt_us until ≤ dt_us now) ∧
  (∀ until, db_device_skips db !! (s_id s, did) = Some until → dt_us until ≤ dt_us now).
Proof.
  intros Hu Hs. rewrite <- not_true_iff_false, is_skipped_active, lookup_per_device.
  assert (∀ u, schedule_wide (load_skip_snapshot db) !! s_id s = Some u ↔ s_skipped_until s = Some u) as Hsw.
  { intros u. rewrite lookup_schedule_wide by done. split; [|by exists s].
    intros (s' & Hs' & Hid & <-). by rewrite (NoDup_fmap_eq s_id _ s' s Hu Hs' Hs Hid). }
  setoid_rewrite Hsw. split.
  - intros Hno. split; intros u Hl; (destruct (Z.lt_ge_cases (dt_us now) (dt_us u)); [|done]);
      exfalso; apply Hno; eauto.
  - intros [H1 H2] [(u & ?%H1 & ?)|(u & ?%H2 & ?)]; lia.
Qed.

(** The instants at which the evaluator runs. *)
Definition now_ok (now : datetime) : Prop := datetime_ok now = true ∧ date_min < dt_date now.

Lemma matches_now_spec s now :
  schedule_times_ok s = true → now_ok now →
  ∃ r, _matches_now s now = Ok r ∧ (r = true ↔ s_enabled s = true ∧ occurs_at s (dt_us now)).
Proof. intros ? []. by apply matches_at_correct. Qed.

Lemma elem_of_active db skips now active s :
  db_ok db → now_ok now → active_schedules db skips now = Ok active →
  s ∈ active ↔ s ∈ db_schedules db ∧ s_enabled s = true ∧ occurs_at s (dt_us now) ∧
               is_schedule_skipped skips (s_id s) = false.
Proof.
  intros Hdb Hnow Ha. rewrite (elem_of_filter_ok _ _ _ _ Ha).
  unfold enabled_schedules. rewrite list_elem_of_filter.
  split.
  - intros [[He Hs] Hm]. destruct (matches_now_spec s now) as (r & Hr & Hspec); [by apply Hdb|done|].
    rewrite Hr in Hm. simpl in Hm. injection Hm as Hm. bool_to_prop. naive_solver.
  - intros (Hs & He & Ho & Hsk). split; [done|].
    destruct (matches_now_spec s now) as (r & Hr & Hspec); [by apply Hdb|done|].
    rewrite Hr. simpl. f_equal. rewrite Hsk, andb_true_r. by apply Hspec.
Qed.

Lemma active_total db skips now :
  db_ok db → now_ok now → ∃ active, active_schedules db skips now = Ok active.
Proof.
  intros Hdb Hnow. apply filter_ok_total. intros s [_ Hs]%list_elem_of_filter.
  destruct (matches_now_spec s now) as (r & -> & _); [by apply Hdb|done|]. by eexists.
Qed.

Lemma active_NoDup db skips now active :
  db_ok db → active_schedules db skips now = Ok active → NoDup (s_id <$> active).
Proof.
  intros [Hu _] Ha%filter_ok_sublist.
  eapply sublist_NoDup; [exact Hu|]. apply fmap_sublist.
  etrans; [exact Ha|]. apply sublist_filter.
Qed.

(** The candidates the fold sees are the eligible schedules. *)
Lemma candidates_eligible db now active did s :
  db_ok db → now_ok now →
  let skips := active_as_of (load_skip_snapshot db) now in
  active_schedules db skips now = Ok active →
  s ∈ candidates (schedule_targets skips (load_target_devices_by_schedule db active) active) did ↔
  eligible db now s did.
Proof.
  intros Hdb Hnow skips Ha. rewrite elem_of_schedule_targets. unfold eligible. split.
  - intros (Hs & Has & Ht & Hsk).
    rewrite lookup_target_devices in Ht by eauto using active_NoDup.
    apply (elem_of_active db skips now) in Hs as (Hs & He & Ho & _); [|done..].
    apply not_skipped_iff in Hsk as [??]; [|apply Hdb|done]. done.
  - intros (Hs & He & Ho & Has & Ht & Hsk).
    assert (is_skipped_for_device skips (s_id s) did = false) as Hnot
      by by (apply not_skipped_iff; [apply Hdb|done|]).
    assert (s ∈ active) as Hact.
    { apply (elem_of_active db skips now); [done..|]. split_and!; [done..|].
      unfold is_skipped_for_device in Hnot. by case_match. }
    split_and!; [done..| |done]. apply lookup_target_devices; eauto using active_NoDup.
Qed.

Lemma device_schedule_winner db now active did s :
  db_ok db → now_ok now →
  let skips := active_as_of (load_skip_snapshot db) now in
  active_schedules db skips now = Ok active →
  device_schedule (schedule_targets skips (load_target_devices_by_schedule db active) active) !! did = Some s
  ↔ winner db now did s.
Proof.
  intros Hdb Hnow skips Ha. subst skips.
  rewrite device_schedule_spec by (apply schedule_targets_ids; by eapply active_NoDup).
  unfold best_of, winner. rewrite candidates_eligible by done.
  by setoid_rewrite (candidates_eligible db now active did).
Qed.

Lemma compute_now_playing_ok db states cache tz now active :
  active_schedules db (active_as_of (load_skip_snapshot db) (tz now)) (tz now) = Ok active →
  let skips := active_as_of (load_skip_snapshot db) (tz now) in
  let st := schedule_targets skips (load_target_devices_by_schedule db active) active in
  compute_now_playing db states cache tz now =
  Ok (omap (λ '(did, s), a ← s_asset s;
              Some (now_playing_entry now (device_names_of db (concat st.*2))
                      (live_by_device states) cache did s a)) (map_to_list (device_schedule st))).
Proof. unfold compute_now_playing. intros ->. simpl. case_bool_decide; [by subst|done]. Qed.

Lemma entry_device now names live cache did s a :
  np_device_id (now_playing_entry now names live cache did s a) = did.
Proof. unfold now_playing_entry. by case_match. Qed.

Lemma entry_schedule now names live cache did s a :
  np_schedule_id (now_playing_entry now names live cache did s a) = s_id s.
Proof. unfold now_playing_entry. by case_match. Qed.

Lemma winner_unique db now did s s' : db_ok db → winner db now did s → winner db now did s' → s = s'.
Proof.
  intros _ [Hs Hb] [Hs' Hb']. destruct (Hb s' Hs') as [->|H1]; [done|].
  destruct (Hb' s Hs) as [->|H2]; [done|]. pose proof (beats_trans _ _ _ H1 H2). by rewrite beats_irrefl in *.
Qed.

Lemma now_playing_winners (db : Db) (states : list LiveState) (cache : confirmed_cache)
    (tz : Z → datetime) (now : Z) :
  db_ok db → now_ok (tz now) →
  ∃ l, compute_now_playing db states cache tz now = Ok l ∧
       NoDup (np_device_id <$> l) ∧
       ∀ did sid, (∃ e, e ∈ l ∧ np_device_id e = did ∧ np_schedule_id e = sid) ↔
                  (∃ s, s_id s = sid ∧ winner db (tz now) did s).
Proof.
  intros Hdb Hnow.
  destruct (active_total db (active_as_of (load_skip_snapshot db) (tz now)) (tz now)) as [active Ha]; [done..|].
  rewrite (compute_now_playing_ok _ _ _ _ _ active Ha). eexists. split; [done|].
  set (st := schedule_targets _ _ _). split.
  - apply (omap_fmap_NoDup fst); [|apply NoDup_fst_map_to_list].
    intros [did s] e. destruct (s_asset s); simpl; [|done]. intros [= <-]. apply entry_device.
  - intros did sid. setoid_rewrite list_elem_of_omap. split.
    + intros (e & ([did' s] & Hin & He) & Hd & Hs). destruct (s_asset s); simpl in He; [|done].
      injection He as <-. rewrite entry_device in Hd. rewrite entry_schedule in Hs. subst did'.
      exists s. split; [done|]. apply elem_of_map_to_list in Hin.
      by apply (device_schedule_winner db (tz now) active).
    + intros (s & <- & Hw). pose proof Hw as [(_ & _ & _ & [a Has] & _) _].
      apply (device_schedule_winner db (tz now) active) in Hw; [|done..].
      eexists. split; [exists (did, s); rewrite Has; split; [by apply elem_of_map_to_list|done]|].
      by rewrite entry_device, entry_schedule.
Qed.

(** ** Theorems *)

(** C1.  The dashboard shows every device exactly once and with the right
    schedule: [compute_now_playing] returns, its entries have distinct devices,
    and a device is shown with a schedule iff that schedule is enabled, in its
    window, not skipped, targets the device, and beats every other such
    schedule (higher priority, ties by id), whatever the order of the rows. *)
Theorem compute_now_playing_winners (db : Db) (states : list LiveState) (cache : confirmed_cache)
    (tz : Z → datetime) (now : Z) :
  db_ok db → now_ok (tz now) →
  ∃ l, compute_now_playing db states cache tz now = Ok l ∧
       NoDup (np_device_id <$> l) ∧
       ∀ did sid, (∃ e, e ∈ l ∧ np_device_id e = did ∧ np_schedule_id e = sid) ↔
                  (∃ s, s_id s = sid ∧ winner db (tz now) did s).
Proof. apply now_playing_winners. Qed.

(**  An entry is labelled "confirmed" only when the live device shadow says
    that the device is playing exactly the asset the winning schedule shows,
    whatever the replica-local cache holds. *)
Theorem confirmed_only_if_live (db : Db) (states : list LiveState) (cache : confirmed_cache)
    (tz : Z → datetime) (now : Z) (l : list NowPlaying) (e : NowPlaying) :
  compute_now_playing db states cache tz now = Ok l → e ∈ l → np_source e = "confirmed" →
  ∃ live, live_by_device states !! np_device_id e = Some live ∧
          ls_mode live = "play" ∧ ls_asset live = np_asset_raw e.
Proof.
  unfold compute_now_playing.
  destruct (active_schedules _ _ _) as [active|]; simpl; [|done].
  case_bool_decide; intros [= <-]; [set_solver|].
  intros ([did s] & _ & He)%list_elem_of_omap. destruct (s_asset s) as [a|]; simpl in He; [|done].
  injection He as <-. unfold now_playing_entry.
  destruct (confirmation _ _ _ _ _) as [since conf] eqn:Hc. simpl. destruct conf; [intros _|done].
  assert (live_plays (live_by_device states !! did) (expected_raw a) = true) as Hl.
  { unfold confirmation in Hc. repeat case_match; simplify_eq; done. }
  unfold live_plays in Hl. case_match; [|done]. bool_to_prop. naive_solver.
Qed.

(** ** Witnesses *)

Lemma two_shows_ok : db_ok two_shows.
Proof.
  split; [apply (bool_decide_unpack _); by vm_compute|].
  intros s Hs. simpl in Hs. rewrite !elem_of_cons, elem_of_nil in Hs.
  destruct Hs as [->|[->|[]]]; reflexivity.
Qed.

Lemma compute_now_playing_winners_witness :
  ∃ l, compute_now_playing two_shows [] ∅ utc_tz (utc_at 22 0) = Ok l ∧
       NoDup (np_device_id <$> l) ∧
       ∀ did sid, (∃ e, e ∈ l ∧ np_device_id e = did ∧ np_schedule_id e = sid) ↔
                  (∃ s, s_id s = sid ∧ winner two_shows (utc_tz (utc_at 22 0)) did s).
Proof.
  apply (compute_now_playing_winners two_shows [] ∅ utc_tz (utc_at 22 0)); [apply two_shows_ok|].
  split; by vm_compute.
Defined.

Definition sample_state : LiveState := mkLive "d1" "play" (Some "night.mp4") None.
Definition sample_playing : list NowPlaying :=
  match compute_now_playing two_shows [sample_state] ∅ utc_tz (utc_at 22 0) with Ok l => l | Err _ => [] end.

Lemma confirmed_only_if_live_witness :
  ∃ e live, e ∈ sample_playing ∧ live_by_device [sample_state] !! np_device_id e = Some live ∧
            ls_mode live = "play" ∧ ls_asset live = np_asset_raw e.
Proof.
  destruct (list_find (λ e, np_source e = "confirmed") sample_playing) as [[i e]|] eqn:He.
  - apply list_find_Some in He as (Hi%list_elem_of_lookup_2 & Hc & _).
    destruct (confirmed_only_if_live two_shows [sample_state] ∅ utc_tz (utc_at 22 0) sample_playing e)
      as [live Hl]; [by vm_compute|done|done|]. by exists e, live.
  - exfalso. by vm_compute in He.
Defined.
