(* ===== verification/ConflictGate.v ===== *)
(** * Write-time conflict checks (cms/services/scheduler.py,
      cms/routers/schedules.py, cms/services/device_config_validation.py)

    Two enabled schedules of equal priority must never play on one device at
    the same time.  Two gates enforce it: [_check_conflicts] when a schedule is
    written and [validate_device_transition] when a device's tags change. *)

From S2P Require Import Prelude Clock PyText Models Occurrence Database Skips Targeting Samples.
Open Scope Z_scope.

(** ** The schedule gate *)

Definition schedules_conflict (a b : Schedule) : result exn bool :=
  match s_group_id a, s_group_id b with
  | Some ga, Some gb =>
      if negb (bool_decide (ga = gb)) then Ok false
      else if negb (s_priority a =? s_priority b) then Ok false
      else schedules_overlap a b
  | _, _ => Ok false
  end.

(** [device_tags.tagged_device_ids]. *)
Definition tagged_device_ids (db : Db) (tag_id : uuid) : gset string :=
  list_to_set (omap (λ row, if bool_decide (row.1 = tag_id) then Some row.2 else None)
                 (db_tag_assignments db)).

(** The per-call cache of tag members only avoids repeated queries. *)
Definition _targets_overlap (db : Db) (a b : Schedule) : bool :=
  match s_tag_id a, s_tag_id b with
  | Some ta, Some tb =>
      if bool_decide (ta = tb) then true
      else negb (bool_decide (tagged_device_ids db ta ∩ tagged_device_ids db tb = ∅))
  | _, _ => true
  end.

(** The query of [_check_conflicts]. *)
Definition conflict_query (db : Db) (s : Schedule) (gid : uuid) (exclude_id : option uuid) : list Schedule :=
  filter (λ e, s_enabled e = true ∧ s_group_id e = Some gid ∧ s_priority e = s_priority s ∧
               Some (s_id e) ≠ exclude_id) (db_schedules db).

Definition _check_conflicts (db : Db) (s : Schedule) (exclude_id : option uuid) : result exn unit :=
  match s_group_id s with
  | None => Ok tt
  | Some gid =>
      candidates ← filter_ok (schedules_conflict s) (conflict_query db s gid exclude_id);
      if existsb (_targets_overlap db s) candidates then Err (HTTPException 409) else Ok tt
  end.

(** [db.add(schedule)]. *)
Definition add_schedule (s : Schedule) (db : Db) : Db := set_schedules (λ l, l ++ [s]) db.

(** ** The device gate *)

Record ConflictPair := mkPair {
  schedule_a_id : string; schedule_a_name : string;
  schedule_b_id : string; schedule_b_name : string;
  cp_priority : Z
}.

(** [tuple(sorted((a, b)))]. *)
Definition pair_key (p : ConflictPair) : string * string :=
  if schedule_b_id p <s schedule_a_id p then (schedule_b_id p, schedule_a_id p)
  else (schedule_a_id p, schedule_b_id p).

Record CapabilityFailure := mkCapFailure {
  cf_schedule_id : string; cf_schedule_name : string; cf_asset_type : string;
  cf_required_capability : string; cf_reason : string
}.

Record DeviceValidationResult := mkDevResult {
  dr_device_id : string;
  introduced_conflicts : list ConflictPair;
  preexisting_conflicts : list ConflictPair;
  capability_failures : list CapabilityFailure
}.

Definition is_blocked (r : DeviceValidationResult) : bool :=
  negb (bool_decide (length (introduced_conflicts r) = 0%nat) &&
        bool_decide (length (capability_failures r) = 0%nat)).

Definition has_warnings (r : DeviceValidationResult) : bool :=
  negb (bool_decide (length (preexisting_conflicts r) = 0%nat)).

(** [SetValidationResult], keyed by device. *)
Abbreviation SetValidationResult := (gmap string DeviceValidationResult).

Definition set_is_blocked (r : SetValidationResult) : bool :=
  existsb (λ kv, is_blocked kv.2) (map_to_list r).
Definition blocked_devices (r : SetValidationResult) : list DeviceValidationResult :=
  filter (λ d, is_blocked d = true) (map_to_list r).*2.
Definition all_introduced_conflicts (r : SetValidationResult) : list ConflictPair :=
  (map_to_list (dict_of ((λ c, (pair_key c, c)) <$>
     concat (introduced_conflicts <$> (map_to_list r).*2)))).*2.

Record DeviceTargeting := mkTargeting { tg_group_id : option uuid; tg_tag_ids : gset uuid }.

(** [itertools.combinations(l, 2)]. *)
Fixpoint combinations2 {A} (l : list A) : list (A * A) :=
  match l with
  | [] => []
  | a :: l' => ((λ b, (a, b)) <$> l') ++ combinations2 l'
  end.

Definition pair_of (a b : Schedule) : ConflictPair :=
  mkPair (s_id a) (s_name a) (s_id b) (s_name b) (s_priority a).

(** The inner loop over one priority bucket. *)
Definition bucket_conflicts (bucket : list Schedule) : result exn (list ConflictPair) :=
  omap_ok (λ ab, o ← schedules_overlap ab.1 ab.2;
             Ok (if (o : bool) then Some (pair_of ab.1 ab.2) else None))
          (combinations2 bucket).

(** The priorities in order of first appearance ([by_priority.setdefault]). *)
Definition priorities (l : list Schedule) : list Z := fromkeys (s_priority <$> l).

Definition bucket_of (l : list Schedule) (p : Z) : list Schedule := filter (λ s, s_priority s = p) l.

Fixpoint all_buckets (l : list Schedule) (ps : list Z) : result exn (list ConflictPair) :=
  match ps with
  | [] => Ok []
  | p :: ps' => c ← bucket_conflicts (bucket_of l p); rest ← all_buckets l ps'; Ok (c ++ rest)
  end.

Definition find_effective_conflicts (schedules : list Schedule)
    : result exn (gmap (string * string) ConflictPair) :=
  let enabled := filter (λ s, s_enabled s = true) schedules in
  found ← all_buckets enabled (priorities enabled);
  Ok (dict_of ((λ p, (pair_key p, p)) <$> found)).

Definition diff_conflicts (before after : gmap (string * string) ConflictPair)
    : list ConflictPair * list ConflictPair :=
  ((map_to_list (filter (λ kv, before !! kv.1 = None) after)).*2,
   (map_to_list (filter (λ kv, is_Some (before !! kv.1)) after)).*2).

#[global] Arguments diff_conflicts : simpl never.

(** An empty device type contains neither name. *)
Definition _is_pi5_compatible (device_type : option string) : bool :=
  match truthy device_type with
  | None => false
  | Some t => str_contains "pi 5" (str_lower t) || str_contains "compute module 5" (str_lower t)
  end.

Definition CAPABILITY_SLIDESHOW_V1 : string := "slideshow_v1".
Definition CAPABILITY_SLIDESHOW_COMPOSED_V1 : string := "slideshow_composed_v1".

(** The failure one schedule adds, if any. *)
Definition capability_failure (device_type : option string) (caps : gset string)
    (composed_ids : gset string) (s : Schedule) : option CapabilityFailure :=
  if negb (s_enabled s) then None
  else
    asset ← s_asset s;
    let ty := a_asset_type asset in
    let fail req reason := Some (mkCapFailure (s_id s) (s_name s) (AssetType_value ty) req reason) in
    if bool_decide (ty = WEBPAGE ∨ ty = STREAM) then
      if _is_pi5_compatible device_type then None
      else fail "raspberry_pi_5"
             ("'" +:+ a_filename asset +:+ "' requires a Raspberry Pi 5 or newer; device type is " +:+
              default "unknown" (truthy device_type) +:+ ".")
    else if bool_decide (ty = SLIDESHOW) then
      if negb (bool_decide (CAPABILITY_SLIDESHOW_V1 ∈ caps)) then
        fail CAPABILITY_SLIDESHOW_V1
             ("'" +:+ a_filename asset +:+ "' is a slideshow but the device does not advertise '" +:+
              CAPABILITY_SLIDESHOW_V1 +:+ "'.")
      else if bool_decide (a_id asset ∈ composed_ids ∧ CAPABILITY_SLIDESHOW_COMPOSED_V1 ∉ caps) then
        fail CAPABILITY_SLIDESHOW_COMPOSED_V1
             ("'" +:+ a_filename asset +:+ "' contains a composed slide but the device does not advertise '" +:+
              CAPABILITY_SLIDESHOW_COMPOSED_V1 +:+ "'.")
      else None
    else None.

Definition capability_failures_for_device (device_type : option string) (capabilities : list string)
    (schedules : list Schedule) (composed_ids : gset string) : list CapabilityFailure :=
  omap (capability_failure device_type (list_to_set capabilities) composed_ids) schedules.

Definition validate_device_effective_config (device_id : string) (device_type : option string)
    (capabilities : list string) (before_schedules : option (list Schedule))
    (after_schedules : list Schedule) (composed_ids : gset string) : result exn DeviceValidationResult :=
  after_conflicts ← find_effective_conflicts after_schedules;
  before_conflicts ← match before_schedules with
                     | Some l => find_effective_conflicts l
                     | None => Ok ∅
                     end;
  let d := diff_conflicts before_conflicts after_conflicts in
  Ok (mkDevResult device_id d.1 d.2
        (capability_failures_for_device device_type capabilities after_schedules composed_ids)).

(** [by_group.setdefault(s.group_id, []).append(s)] over the enabled schedules of [group_ids]. *)
Definition _load_enabled_schedules_by_group (db : Db) (group_ids : gset uuid)
    : gmap uuid (list Schedule) :=
  if bool_decide (group_ids = ∅) then ∅
  else fold_left (λ m s,
         match s_group_id s with
         | Some gid => if bool_decide (gid ∈ group_ids)
                       then <[gid := default [] (m !! gid) ++ [s]]> m else m
         | None => m
         end) (enabled_schedules db) ∅.

(** [s.tag_id is None or s.tag_id in targeting.tag_ids]. *)
Definition tag_reaches (tg : DeviceTargeting) (s : Schedule) : bool :=
  match s_tag_id s with None => true | Some t => bool_decide (t ∈ tg_tag_ids tg) end.

Definition effective_schedules (tg : DeviceTargeting) (by_group : gmap uuid (list Schedule))
    : list Schedule :=
  match tg_group_id tg with
  | None => []
  | Some gid => filter (λ s, tag_reaches tg s = true) (default [] (by_group !! gid))
  end.

(** One device of the loop of [validate_device_transition]; [None] when the
    device is not adopted and is skipped. *)
Definition validate_one (db : Db) (by_group : gmap uuid (list Schedule))
    (before : gmap string DeviceTargeting) (composed_ids : gset string)
    (kv : string * DeviceTargeting) : result exn (option (string * DeviceValidationResult)) :=
  match list_find (λ d, d_id d = kv.1 ∧ d_status d = D_ADOPTED) (db_devices db) with
  | None => Ok None
  | Some (_, device) =>
      r ← validate_device_effective_config kv.1 (Some (d_device_type device)) (d_capabilities device)
            ((λ tg, effective_schedules tg by_group) <$> before !! kv.1)
            (effective_schedules kv.2 by_group) composed_ids;
      Ok (Some (kv.1, r))
  end.

Definition validate_device_transition (db : Db) (after before : gmap string DeviceTargeting)
    (composed_ids : gset string) : result exn SetValidationResult :=
  let group_ids : gset uuid :=
    list_to_set (omap (λ kv, tg_group_id kv.2) (map_to_list after ++ map_to_list before)) in
  let by_group := _load_enabled_schedules_by_group db group_ids in
  rows ← omap_ok (validate_one db by_group before composed_ids) (map_to_list after);
  Ok (dict_of rows).

(** [current_device_targeting]. *)
Definition current_device_targeting (db : Db) (device_id : string) : DeviceTargeting :=
  mkTargeting (x ← list_find (λ d, d_id d = device_id) (db_devices db); d_group_id x.2)
    (list_to_set (omap (λ row, if bool_decide (row.2 = device_id) then Some row.1 else None)
                    (db_tag_assignments db))).

Definition describe_conflicts (pairs : list ConflictPair) : string :=
  String.concat "; " ((λ p, "'" +:+ schedule_a_name p +:+ "' vs '" +:+ schedule_b_name p +:+
                            "' (priority " +:+ Z_str (cp_priority p) +:+ ")") <$> pairs).

(** Replaces the tag assignments of one device. *)
Definition retag (device_id : string) (tag_ids : list uuid) (db : Db) : Db :=
  set_assignments (λ l, filter (λ row, row.2 ≠ device_id) l ++ ((λ t, (t, device_id)) <$> tag_ids)) db.

(** [device_tags.set_device_tags]: every tag must exist and belong to the
    device's group. *)
Definition service_set_device_tags (db : Db) (device : Device) (tag_ids : list uuid) : result exn Db :=
  let wanted := fromkeys tag_ids in
  match wanted, d_group_id device with
  | _ :: _, None => Err (ValueError "Assign the device to a group before tagging it")
  | _, _ =>
      let tags := filter (λ t, t_id t ∈ wanted) (db_tags db) in
      let missing := filter (λ tid, tid ∉ t_id <$> tags) wanted in
      let foreign := filter (λ t, Some (t_group_id t) ≠ d_group_id device) tags in
      match missing, foreign with
      | [], [] => Ok (retag (d_id device) (t_id <$> tags) db)
      | _ :: _, _ => Err (ValueError ("Unknown tag(s): " +:+ String.concat ", " missing))
      | [], _ :: _ => Err (ValueError ("Tag(s) belong to a different group: " +:+
          String.concat ", " (merge_sort String.le (t_name <$> foreign))))
      end
  end.

(** The tag endpoint (cms/routers/device_tags.py, [set_device_tags]), without
    access control and audit: the new tag set is validated against the present
    one and written only when it introduces no conflict. *)
Definition set_device_tags (db : Db) (device_id : string) (tag_ids : list uuid) : result exn Db :=
  match list_find (λ d, d_id d = device_id) (db_devices db) with
  | None => Err (HTTPException 404)
  | Some (_, device) =>
      validation ← validate_device_transition db
        {[device_id := mkTargeting (d_group_id device) (list_to_set tag_ids)]}
        {[device_id := current_device_targeting db device_id]} ∅;
      match introduced_conflicts <$> validation !! device_id with
      | Some (_ :: _) => Err (HTTPException 409)
      | _ => match service_set_device_tags db device tag_ids with
             | Ok db' => Ok db'
             | Err _ => Err (HTTPException 422)
             end
      end
  end.

(** ** Specification *)

(** Two schedules that would fight for a device that both target. *)
Definition clash (a b : Schedule) : Prop :=
  a ≠ b ∧ s_priority a = s_priority b ∧ ∃ t, occurs_at a t ∧ occurs_at b t.

(** No device is the target of two enabled schedules that clash. *)
Definition conflict_free (db : Db) : Prop :=
  ∀ a b did, a ∈ db_schedules db → b ∈ db_schedules db → s_enabled a = true → s_enabled b = true →
    targets db a did → targets db b did → ¬ clash a b.

(** Primary keys and well-formed times. *)
Record gate_ok (db : Db) : Prop := {
  gok_schedules : NoDup (s_id <$> db_schedules db);
  gok_devices : NoDup (d_id <$> db_devices db);
  gok_times : ∀ s, s ∈ db_schedules db → schedule_times_ok s = true
}.

(** ** Lemmas *)

Lemma clash_sym a b : clash a b → clash b a.
Proof. unfold clash. naive_solver. Qed.

Lemma elem_of_combinations2 {A} (l : list A) a b :
  (a, b) ∈ combinations2 l → a ∈ l ∧ b ∈ l.
Proof.
  induction l as [|x l IH]; simpl; [set_solver|].
  rewrite elem_of_app, list_elem_of_fmap. intros [(y & [= -> ->] & ?)|?]; [|naive_solver set_solver].
  split; [by left|by right].
Qed.

Lemma combinations2_distinct {A} (l : list A) a b :
  NoDup l → (a, b) ∈ combinations2 l → a ≠ b.
Proof.
  induction l as [|x l IH]; simpl; [set_solver|]. intros [Hnin Hnd]%NoDup_cons.
  rewrite elem_of_app, list_elem_of_fmap. intros [(y & [= -> ->] & ?)|?]; [|auto].
  by intros ->.
Qed.

Lemma combinations2_complete {A} (l : list A) a b :
  a ∈ l → b ∈ l → a ≠ b → (a, b) ∈ combinations2 l ∨ (b, a) ∈ combinations2 l.
Proof.
  induction l as [|x l IH]; simpl; [set_solver|].
  rewrite !elem_of_cons, !elem_of_app, !list_elem_of_fmap.
  intros [->|Ha] [->|Hb] Hne; [done|..].
  - left. left. eauto.
  - right. left. eauto.
  - destruct (IH Ha Hb Hne); auto.
Qed.

Lemma pair_key_sym a b : pair_key (pair_of a b) = pair_key (pair_of b a).
Proof.
  unfold pair_key. simpl. destruct (str_ltb_total (s_id a) (s_id b)) as [H|[H|H]].
  - by rewrite H, (str_ltb_asym _ _ H).
  - by rewrite H, !str_ltb_irrefl.
  - by rewrite H, (str_ltb_asym _ _ H).
Qed.

Lemma pair_key_inj a b a' b' :
  pair_key (pair_of a b) = pair_key (pair_of a' b') →
  (s_id a = s_id a' ∧ s_id b = s_id b') ∨ (s_id a = s_id b' ∧ s_id b = s_id a').
Proof. unfold pair_key. simpl. repeat case_match; naive_solver. Qed.

Lemma bucket_conflicts_spec bucket c p :
  NoDup bucket → (∀ s, s ∈ bucket → schedule_times_ok s = true) →
  (∀ a b, a ∈ bucket → b ∈ bucket → s_priority a = s_priority b) →
  bucket_conflicts bucket = Ok c →
  p ∈ c ↔ ∃ a b, (a, b) ∈ combinations2 bucket ∧ clash a b ∧ p = pair_of a b.
Proof.
  intros Hnd Ht Hp Hc. unfold bucket_conflicts in Hc. rewrite (elem_of_omap_ok _ _ _ _ Hc). split.
  - intros ([a b] & Hab & Ho). simpl in Ho.
    destruct (elem_of_combinations2 _ _ _ Hab) as [Ha Hb].
    destruct (schedules_overlap a b) as [o|] eqn:Hov; simpl in Ho; [|done].
    destruct o; [|done]. injection Ho as <-. exists a, b. split_and!; [done| |done].
    split_and!; [by eapply combinations2_distinct|by apply Hp|].
    apply schedules_overlap_correct in Hov; [by apply Hov|by apply Ht..].
  - intros (a & b & Hab & (Hne & _ & Ht') & ->). exists (a, b). split; [done|]. simpl.
    destruct (elem_of_combinations2 _ _ _ Hab) as [Ha Hb].
    destruct (omap_ok_no_error _ _ _ (a, b) Hc Hab) as [r Hr]. simpl in Hr.
    destruct (schedules_overlap a b) as [o|] eqn:Hov; simpl in *; [|done].
    by rewrite (proj2 (schedules_overlap_correct a b o (Ht a Ha) (Ht b Hb) Hov) Ht').
Qed.

Lemma all_buckets_spec l ps found p :
  all_buckets l ps = Ok found →
  p ∈ found ↔ ∃ prio c, prio ∈ ps ∧ bucket_conflicts (bucket_of l prio) = Ok c ∧ p ∈ c.
Proof.
  revert found. induction ps as [|prio ps IH]; intros found; simpl.
  { intros [= <-]. set_solver. }
  destruct (bucket_conflicts (bucket_of l prio)) as [c|] eqn:Hc; simpl; [|done].
  destruct (all_buckets l ps) as [rest|]; simpl; [|done]. intros [= <-].
  rewrite elem_of_app, (IH rest eq_refl). setoid_rewrite elem_of_cons. split.
  - intros [?|(q & d & ? & ? & ?)]; [exists prio, c | exists q, d]; auto.
  - intros (q & d & [->|?] & ? & ?); [left; congruence | right; eauto].
Qed.

Lemma all_buckets_ok l ps found prio :
  all_buckets l ps = Ok found → prio ∈ ps → ∃ c, bucket_conflicts (bucket_of l prio) = Ok c.
Proof.
  revert found. induction ps as [|q ps IH]; intros found; simpl; [set_solver|].
  destruct (bucket_conflicts (bucket_of l q)) as [c|] eqn:Hc; simpl; [|discriminate].
  destruct (all_buckets l ps) as [rest|]; simpl; [|discriminate]. intros _.
  rewrite elem_of_cons. intros [->|?]; eauto.
Qed.

Lemma find_effective_conflicts_spec l m k :
  NoDup (s_id <$> l) → (∀ s, s ∈ l → schedule_times_ok s = true) →
  find_effective_conflicts l = Ok m →
  is_Some (m !! k) ↔ ∃ a b, a ∈ l ∧ b ∈ l ∧ s_enabled a = true ∧ s_enabled b = true ∧
                            clash a b ∧ k = pair_key (pair_of a b).
Proof.
  intros Hnd Ht. unfold find_effective_conflicts.
  set (en := filter (λ s, s_enabled s = true) l).
  destruct (all_buckets en (priorities en)) as [found|] eqn:Hf; simpl; [|done].
  intros [= <-]. rewrite dict_of_is_Some, <- list_fmap_compose, list_elem_of_fmap. simpl.
  assert (∀ prio, NoDup (bucket_of en prio)) as Hndb.
  { intros prio. apply NoDup_filter, NoDup_filter. by eapply NoDup_fmap_1. }
  assert (∀ prio s, s ∈ bucket_of en prio ↔ s ∈ l ∧ s_enabled s = true ∧ s_priority s = prio) as Hb.
  { intros prio s. unfold bucket_of, en. rewrite !list_elem_of_filter. naive_solver. }
  assert (∀ prio c p, bucket_conflicts (bucket_of en prio) = Ok c → p ∈ c ↔
    ∃ a b, (a, b) ∈ combinations2 (bucket_of en prio) ∧ clash a b ∧ p = pair_of a b) as Hspec.
  { intros prio c p. apply bucket_conflicts_spec; [done|..].
    - intros s Hs%Hb. naive_solver.
    - intros a b ?%Hb ?%Hb. naive_solver. }
  split.
  - intros (p & -> & Hp). rewrite (all_buckets_spec _ _ _ _ Hf) in Hp.
    destruct Hp as (prio & c & _ & Hc & (a & b & Hab & Hcl & ->)%(Hspec _ _ _ Hc)).
    apply elem_of_combinations2 in Hab as [?%Hb ?%Hb]. exists a, b. naive_solver.
  - intros (a & b & Ha & Hb' & Hea & Heb & Hcl & ->).
    pose proof Hcl as (Hne & Hp & _).
    assert (s_priority a ∈ priorities en) as Hprio.
    { apply elem_of_fromkeys, list_elem_of_fmap_2, list_elem_of_filter. done. }
    destruct (all_buckets_ok _ _ _ _ Hf Hprio) as [c Hc].
    assert (∀ x y, clash x y → (x, y) ∈ combinations2 (bucket_of en (s_priority a)) → pair_of x y ∈ found) as Hin.
    { intros x y Hxy Hxyin. rewrite (all_buckets_spec _ _ _ _ Hf).
      exists (s_priority a), c. split_and!; [done..|]. apply (Hspec _ _ _ Hc). eauto. }
    destruct (combinations2_complete (bucket_of en (s_priority a)) a b) as [Hab|Hba];
      [by apply Hb|by apply Hb|done|..].
    + exists (pair_of a b). auto.
    + exists (pair_of b a). split; [apply pair_key_sym|]. auto using clash_sym.
Qed.

Lemma diff_conflicts_nil before after :
  (diff_conflicts before after).1 = [] ↔ ∀ k, is_Some (after !! k) → is_Some (before !! k).
Proof.
  unfold diff_conflicts. simpl. rewrite map_filter_values_nil. simpl. split.
  - intros H k [v Hv]. specialize (H k v Hv). destruct (before !! k); [by eexists|done].
  - intros H k v Hv Hb. destruct (H k) as [? Hk]; [by eexists|]. congruence.
Qed.

Lemma diff_conflicts_none before after :
  (diff_conflicts before after).1 = [] → (diff_conflicts before after).2 = [] → after = ∅.
Proof.
  rewrite diff_conflicts_nil. unfold diff_conflicts. simpl.
  rewrite map_filter_values_nil. simpl. intros H1 H2. apply map_empty. intros k. destruct (after !! k) as [v|] eqn:Hk; [|done].
  exfalso. apply (H2 k v Hk), H1. by eexists.
Qed.

Lemma elem_of_by_group db gids gid s :
  gid ∈ gids →
  s ∈ default [] (_load_enabled_schedules_by_group db gids !! gid) ↔
  s ∈ enabled_schedules db ∧ s_group_id s = Some gid.
Proof.
  intros Hg. unfold _load_enabled_schedules_by_group. rewrite bool_decide_false by set_solver.
  enough (∀ l (m : gmap uuid (list Schedule)),
    s ∈ default [] (fold_left (λ m s, match s_group_id s with
         | Some gid => if bool_decide (gid ∈ gids) then <[gid := default [] (m !! gid) ++ [s]]> m else m
         | None => m end) l m !! gid) ↔
    s ∈ default [] (m !! gid) ∨ (s ∈ l ∧ s_group_id s = Some gid)) as Hgen.
  { rewrite Hgen, lookup_empty. simpl. set_solver. }
  induction l as [|x l IH]; intros m; simpl; [set_solver|].
  rewrite IH, elem_of_cons. destruct (s_group_id x) as [gx|] eqn:Hx; [|naive_solver].
  case_bool_decide as Hin; [|naive_solver].
  destruct (decide (gx = gid)) as [->|Hne].
  - rewrite lookup_insert_eq. simpl. rewrite elem_of_app, list_elem_of_singleton.
    split; [intros [[?| ->]|[? ?]]; auto | intros [?|[[->|?] ?]]; auto].
  - rewrite lookup_insert_ne by done. naive_solver.
Qed.

Lemma elem_of_effective db gids tg gid s :
  tg_group_id tg = Some gid → gid ∈ gids →
  s ∈ effective_schedules tg (_load_enabled_schedules_by_group db gids) ↔
  s ∈ db_schedules db ∧ s_enabled s = true ∧ s_group_id s = Some gid ∧ tag_reaches tg s = true.
Proof.
  intros Htg Hg. unfold effective_schedules. rewrite Htg, list_elem_of_filter, elem_of_by_group by done.
  unfold enabled_schedules. rewrite list_elem_of_filter. naive_solver.
Qed.

Lemma effective_NoDup db gids t gid :
  gate_ok db → tg_group_id t = Some gid →
  NoDup (s_id <$> effective_schedules t (_load_enabled_schedules_by_group db gids)).
Proof.
  intros Hdb Ht. unfold effective_schedules. rewrite Ht.
  apply NoDup_fmap_filter.
  enough (∀ l (m : gmap uuid (list Schedule)), NoDup (s_id <$> l) →
    NoDup (s_id <$> default [] (m !! gid)) →
    (∀ s, s ∈ l → s_id s ∉ s_id <$> default [] (m !! gid)) →
    NoDup (s_id <$> default [] (fold_left (λ m s, match s_group_id s with
         | Some gid => if bool_decide (gid ∈ gids) then <[gid := default [] (m !! gid) ++ [s]]> m else m
         | None => m end) l m !! gid))) as Hgen.
  { unfold _load_enabled_schedules_by_group. case_bool_decide; [rewrite lookup_empty; constructor|].
    apply Hgen; [|rewrite lookup_empty; constructor|rewrite lookup_empty; set_solver].
    apply NoDup_fmap_filter, Hdb. }
  induction l as [|x l IH]; intros m Hnd Hm Hdis; simpl; [done|].
  simpl in Hnd. apply NoDup_cons in Hnd as [Hx Hnd]. destruct (s_group_id x) as [g|].
  2:{ apply IH; [done..|]. set_solver. }
  case_bool_decide; [|apply IH; [done..|]; set_solver].
  apply IH; [done|..]; (destruct (decide (g = gid)) as [->|];
    [rewrite lookup_insert_eq; simpl; rewrite fmap_app; simpl|rewrite lookup_insert_ne by done; set_solver]).
  - apply NoDup_app. split_and!; [done| |apply NoDup_singleton]. set_solver.
  - intros s Hs. rewrite elem_of_app, list_elem_of_singleton. intros [?|Heq]; [set_solver|].
    apply Hx. rewrite <- Heq. by apply list_elem_of_fmap_2.
Qed.

(** For an adopted device, being targeted is being effective. *)
Lemma targets_device db s d :
  gate_ok db → d ∈ db_devices db → d_status d = D_ADOPTED →
  targets db s (d_id d) ↔
  ∃ gid, d_group_id d = Some gid ∧ s_group_id s = Some gid ∧
         (∀ tag, s_tag_id s = Some tag → (tag, d_id d) ∈ db_tag_assignments db).
Proof.
  intros Hdb Hd Hst. unfold targets. split.
  - intros (d' & gid & Hd' & Hid & _ & Hg & ? & ?).
    pose proof (NoDup_fmap_eq d_id _ d d' (gok_devices db Hdb) Hd Hd' (eq_sym Hid)). subst d'. eauto.
  - intros (gid & ? & ? & ?). exists d, gid. done.
Qed.

Lemma tagged_device_ids_spec db tag did :
  did ∈ tagged_device_ids db tag ↔ (tag, did) ∈ db_tag_assignments db.
Proof.
  unfold tagged_device_ids. rewrite elem_of_list_to_set, list_elem_of_omap. split.
  - intros ([t d] & Hin & Hx). simpl in Hx. case_bool_decide; simplify_eq. done.
  - intros Hin. exists (tag, did). split; [done|]. simpl. by rewrite bool_decide_true.
Qed.

(** Two schedules with a common target device pass the tag filter of the gate. *)
Lemma common_target_overlap db a b did :
  gate_ok db → targets db a did → targets db b did →
  s_group_id a = s_group_id b ∧ _targets_overlap db a b = true.
Proof.
  intros Hdb (d & gid & Hd & <- & _ & Hg & Hga & Hta) (d' & gid' & Hd' & Hid & _ & Hg' & Hgb & Htb).
  pose proof (NoDup_fmap_eq d_id _ d d' (gok_devices db Hdb) Hd Hd' (eq_sym Hid)). subst d'.
  split; [congruence|]. unfold _targets_overlap.
  destruct (s_tag_id a) as [ta|], (s_tag_id b) as [tb|]; try done.
  case_bool_decide; [done|]. rewrite bool_decide_false; [done|].
  intros Hempty. apply (not_elem_of_empty (C := gset string) (d_id d)). rewrite <- Hempty.
  apply elem_of_intersection. rewrite !tagged_device_ids_spec. auto.
Qed.

Lemma check_conflicts_overlap db s e gid ex :
  gate_ok db → schedule_times_ok s = true → _check_conflicts db s ex = Ok tt →
  e ∈ db_schedules db → Some (s_id e) ≠ ex → s_enabled e = true → s_group_id s = Some gid → s_group_id e = Some gid →
  _targets_overlap db s e = true → ¬ clash s e.
Proof.
  intros Hdb Hts Hc He Hex Hen Hgs Hg Hto (Hne & Hp & Hov). unfold _check_conflicts in Hc. rewrite Hgs in Hc.
  assert (e ∈ conflict_query db s gid ex) as Hq by by apply list_elem_of_filter.
  destruct (filter_ok _ _) as [cands|] eqn:Hf; simpl in Hc; [|done].
  destruct (existsb _ cands) eqn:Hcs; [done|].
  apply not_true_iff_false in Hcs. apply Hcs, existsb_exists. exists e.
  split; [|done]. apply list_elem_of_In, (elem_of_filter_ok _ _ _ _ Hf). split; [done|].
  destruct (filter_ok_no_error _ _ _ e Hf Hq) as [r Hr]. rewrite Hr.
  unfold schedules_conflict in Hr. rewrite Hgs, Hg, bool_decide_true, Hp, Z.eqb_refl in Hr by done.
  simpl in Hr. f_equal. by apply (schedules_overlap_correct s e r); [|apply Hdb| |].
Qed.

Lemma check_conflicts_sound db s e did ex :
  gate_ok db → schedule_times_ok s = true → _check_conflicts db s ex = Ok tt →
  e ∈ db_schedules db → Some (s_id e) ≠ ex → s_enabled e = true → targets db s did → targets db e did → ¬ clash s e.
Proof.
  intros Hdb Hts Hc He Hex Hen Hs Het. destruct (common_target_overlap db s e did Hdb Hs Het) as [Hg Hto].
  destruct (id Hs) as (d & gid & _ & _ & _ & _ & Hgs & _).
  eapply check_conflicts_overlap; [done..|exact Hgs| |done]. congruence.
Qed.

(** What a successful tag write has checked and done. *)
Lemma set_device_tags_inv db did tids db' :
  set_device_tags db did tids = Ok db' →
  ∃ d tags v, d ∈ db_devices db ∧ d_id d = did ∧
    (∀ t, t ∈ tags → t ∈ tids ∧ ∃ tag, tag ∈ db_tags db ∧ t_id tag = t ∧ d_group_id d = Some (t_group_id tag)) ∧
    db' = retag did tags db ∧
    validate_device_transition db {[did := mkTargeting (d_group_id d) (list_to_set tids)]}
      {[did := current_device_targeting db did]} ∅ = Ok v ∧
    (∀ r, v !! did = Some r → introduced_conflicts r = []).
Proof.
  unfold set_device_tags. destruct (list_find _ (db_devices db)) as [[i d]|] eqn:Hd; [|done].
  apply list_find_Some in Hd as (Hd%list_elem_of_lookup_2 & <- & _).
  destruct (validate_device_transition _ _ _ _) as [v|] eqn:Hv; simpl; [|done].
  intros Hset.
  assert (∀ r, v !! d_id d = Some r → introduced_conflicts r = []) as Hi.
  { intros r Hr. rewrite Hr in Hset. simpl in Hset. by destruct (introduced_conflicts r). }
  assert (service_set_device_tags db d tids = Ok db') as Hs.
  { destruct (introduced_conflicts <$> v !! d_id d) as [[|]|];
      destruct (service_set_device_tags db d tids); congruence. }
  exists d, (t_id <$> filter (λ t, t_id t ∈ fromkeys tids) (db_tags db)), v. split_and!; [done..| | |done|done].
  - intros t (tag & -> & Htag)%list_elem_of_fmap. pose proof Htag as [Hw Hin]%list_elem_of_filter.
    split; [by apply elem_of_fromkeys|]. exists tag. split_and!; [done..|].
    assert (filter (λ t, Some (t_group_id t) ≠ d_group_id d) (filter (λ t, t_id t ∈ fromkeys tids) (db_tags db)) = []) as Hn.
    { unfold service_set_device_tags in Hs. by repeat case_match; simplify_eq. }
    destruct (decide (d_group_id d = Some (t_group_id tag))); [done|].
    assert (tag ∈ ([] : list DeviceTag)) as []%not_elem_of_nil. rewrite <-Hn. apply list_elem_of_filter. by split; [apply not_eq_sym|].
  - unfold service_set_device_tags in Hs. by repeat case_match; simplify_eq.
Qed.

Lemma elem_of_retag db did tags t e :
  (t, e) ∈ db_tag_assignments (retag did tags db) ↔
  (e ≠ did ∧ (t, e) ∈ db_tag_assignments db) ∨ (e = did ∧ t ∈ tags).
Proof.
  unfold retag. simpl. rewrite elem_of_app, list_elem_of_filter, list_elem_of_fmap. simpl.
  naive_solver.
Qed.

Lemma targets_retag_ne db did tags s e :
  e ≠ did → targets (retag did tags db) s e → targets db s e.
Proof.
  intros Hne (d & gid & Hd & He & Hst & Hg & Hs & Ht). exists d, gid.
  split_and!; [exact Hd|exact He|exact Hst|exact Hg|exact Hs|].
  intros t [[_ ?]|[? _]]%Ht%elem_of_retag; [done|congruence].
Qed.

(** [current_device_targeting] describes the device as stored. *)
Lemma current_targeting_reaches db d s gid :
  gate_ok db → d ∈ db_devices db → d_status d = D_ADOPTED → d_group_id d = Some gid →
  tg_group_id (current_device_targeting db (d_id d)) = Some gid ∧
  (s_group_id s = Some gid → tag_reaches (current_device_targeting db (d_id d)) s = true →
   targets db s (d_id d)).
Proof.
  intros Hdb Hd Hst Hg. split.
  - unfold current_device_targeting. simpl.
    destruct (list_find (λ d', d_id d' = d_id d) (db_devices db)) as [[i d']|] eqn:Hf; simpl.
    + apply list_find_Some in Hf as (Hd'%list_elem_of_lookup_2 & Hid & _).
      by rewrite (NoDup_fmap_eq d_id _ d' d (gok_devices db Hdb) Hd' Hd Hid).
    + apply list_find_None in Hf. rewrite Forall_forall in Hf. by destruct (Hf d Hd).
  - intros Hs Ht. apply targets_device; [done..|]. exists gid. split_and!; [done..|]. intros tag Htag.
    unfold tag_reaches, current_device_targeting in Ht. simpl in Ht. rewrite Htag in Ht.
    apply bool_decide_eq_true, elem_of_list_to_set, list_elem_of_omap in Ht as ([t e] & Hin & Hx).
    simpl in Hx. case_bool_decide; [|done]. by simplify_eq.
Qed.

(** The validation of one adopted device that reports no introduced conflict:
    every clash among its new effective schedules is one it already had. *)
Lemma validate_transition_single db d tg v a b gid :
  gate_ok db → d ∈ db_devices db → d_status d = D_ADOPTED → d_group_id d = Some gid →
  tg_group_id tg = Some gid →
  validate_device_transition db {[d_id d := tg]} {[d_id d := current_device_targeting db (d_id d)]} ∅ = Ok v →
  (∀ r, v !! d_id d = Some r → introduced_conflicts r = []) →
  (∀ s, s = a ∨ s = b → s ∈ db_schedules db ∧ s_enabled s = true ∧ s_group_id s = Some gid ∧
                        tag_reaches tg s = true) →
  clash a b → targets db a (d_id d) ∧ targets db b (d_id d).
Proof.
  intros Hdb Hd Hst Hg Htg Hv Hintro Hab Hcl. unfold validate_device_transition in Hv.
  set (gids := list_to_set _ : gset uuid) in Hv.
  assert (gid ∈ gids) as Hgid.
  { apply elem_of_list_to_set, list_elem_of_omap. exists (d_id d, tg). split; [|done].
    rewrite map_to_list_singleton. apply elem_of_app. by left; left. }
  rewrite map_to_list_singleton in Hv. simpl in Hv. unfold validate_one in Hv. simpl in Hv.
  destruct (list_find _ (db_devices db)) as [[i d']|] eqn:Hf.
  2:{ apply list_find_None in Hf. rewrite Forall_forall in Hf. by destruct (Hf d Hd). }
  rewrite lookup_singleton_eq in Hv. simpl in Hv. unfold validate_device_effective_config in Hv.
  destruct (current_targeting_reaches db d a gid) as [Hcg Hta]; [done..|].
  destruct (current_targeting_reaches db d b gid) as [_ Htb]; [done..|].
  set (eff := λ t, effective_schedules t (_load_enabled_schedules_by_group db gids)).
  change (effective_schedules tg _) with (eff tg) in Hv.
  change (effective_schedules (current_device_targeting db (d_id d)) _)
    with (eff (current_device_targeting db (d_id d))) in Hv.
  pose proof (λ t s Ht, elem_of_effective db gids t gid s Ht Hgid) as Hel.
  assert (∀ t, tg_group_id t = Some gid →
    NoDup (s_id <$> eff t) ∧ ∀ s, s ∈ eff t → schedule_times_ok s = true) as Heff.
  { intros t Ht. split; [by apply (effective_NoDup db gids t gid)|].
    intros s Hs%(Hel t s Ht). apply Hdb, Hs. }
  destruct (find_effective_conflicts (eff tg)) as [m|] eqn:Hm; simpl in Hv; [|done].
  destruct (find_effective_conflicts (eff (current_device_targeting db (d_id d)))) as [m0|] eqn:Hm0;
    simpl in Hv; [|done].
  injection Hv as <-. specialize (Hintro _ (lookup_insert_eq _ _ _)). change ((diff_conflicts m0 m).1 = []) in Hintro.
  rewrite diff_conflicts_nil in Hintro.
  destruct (Heff _ Htg) as [Hnd Hts]. destruct (Heff _ Hcg) as [Hnd0 Hts0].
  assert (is_Some (m !! pair_key (pair_of a b))) as Hk%Hintro.
  { apply (find_effective_conflicts_spec _ _ _ Hnd Hts Hm). exists a, b.
    pose proof (Hab a (or_introl eq_refl)). pose proof (Hab b (or_intror eq_refl)).
    split_and!; [by apply (Hel tg a Htg)|by apply (Hel tg b Htg)|naive_solver..]. }
  apply (find_effective_conflicts_spec _ _ _ Hnd0 Hts0 Hm0) in Hk
    as (x & y & Hx & Hy & _ & _ & _ & Hkey).
  apply (Hel _ _ Hcg) in Hx, Hy.
  assert (∀ s z, s ∈ db_schedules db → z ∈ db_schedules db → s_id s = s_id z → s = z) as Hu.
  { intros s z. apply NoDup_fmap_eq, Hdb. }
  destruct (Hab a) as (Ha & _ & Hga & _); [auto|]. destruct (Hab b) as (Hb & _ & Hgb & _); [auto|].
  destruct (pair_key_inj _ _ _ _ Hkey) as [[H1 H2]|[H1 H2]].
  - rewrite <- (Hu a x) in Hx by naive_solver. rewrite <- (Hu b y) in Hy by naive_solver. naive_solver.
  - rewrite <- (Hu a y) in Hy by naive_solver. rewrite <- (Hu b x) in Hx by naive_solver. naive_solver.
Qed.

(** ** Theorems *)

(**  The schedule gate keeps the fleet conflict free: when
    [_check_conflicts] accepts a new schedule, adding it creates no device on
    which two enabled schedules of equal priority are ever in their window
    together. *)
Theorem check_conflicts_preserves (db : Db) (s : Schedule) :
  gate_ok db → schedule_times_ok s = true → conflict_free db →
  _check_conflicts db s None = Ok tt →
  conflict_free (add_schedule s db).
Proof.
  intros Hdb Hts Hcf Hc a b did Ha Hb Hea Heb Hta Htb Hcl.
  change (targets db a did) in Hta. change (targets db b did) in Htb.
  simpl in Ha, Hb. apply elem_of_app in Ha as [Ha|Ha%list_elem_of_singleton];
    apply elem_of_app in Hb as [Hb|Hb%list_elem_of_singleton]; subst.
  - by apply (Hcf a b did).
  - apply clash_sym in Hcl. by apply (check_conflicts_sound db s a did None) in Hcl.
  - by apply (check_conflicts_sound db s b did None) in Hcl.
  - by destruct Hcl as [[] _].
Qed.

(**  [validate_device_effective_config] is exact: it reports no conflict,
    introduced or preexisting, iff no two enabled schedules of the proposed
    effective set clash.  The winner on a validated device is then the unique
    schedule of strictly highest priority. *)
Theorem validate_config_exact (did : string) (ty : option string) (caps : list string)
    (before : option (list Schedule)) (after : list Schedule) (composed : gset string)
    (r : DeviceValidationResult) :
  NoDup (s_id <$> after) → (∀ s, s ∈ after → schedule_times_ok s = true) →
  validate_device_effective_config did ty caps before after composed = Ok r →
  introduced_conflicts r = [] ∧ preexisting_conflicts r = [] ↔
  ∀ a b, a ∈ after → b ∈ after → s_enabled a = true → s_enabled b = true → ¬ clash a b.
Proof.
  intros Hnd Ht. unfold validate_device_effective_config.
  destruct (find_effective_conflicts after) as [m|] eqn:Hm; simpl; [|done].
  pose proof (λ k, find_effective_conflicts_spec after m k Hnd Ht Hm) as Hspec.
  destruct (match before with Some l => find_effective_conflicts l | None => Ok ∅ end) as [b|]; simpl; [|done].
  intros [= <-]. cbn [introduced_conflicts preexisting_conflicts]. split.
  - intros [Hi Hp] x y Hx Hy Hex Hey Hcl.
    pose proof (diff_conflicts_none b m Hi Hp) as ->.
    assert (is_Some ((∅ : gmap (string * string) ConflictPair) !! pair_key (pair_of x y))) as [? Hk].
    { apply Hspec. exists x, y. done. }
    by rewrite lookup_empty in Hk.
  - intros Hno. assert (m = ∅) as ->.
    { apply map_empty. intros k. destruct (m !! k) eqn:Hk; [|done]. exfalso.
      assert (is_Some (m !! k)) as (x & y & ? & ? & ? & ? & ? & _)%Hspec by by eexists.
      by apply (Hno x y). }
    unfold diff_conflicts. by rewrite !map_filter_empty, map_to_list_empty.
Qed.


(**  The device gate keeps the fleet conflict free: a tag change that
    [set_device_tags] accepts creates no device on which two enabled schedules
    of equal priority are ever in their window together. *)
Theorem set_device_tags_preserves (db db' : Db) (device_id : string) (tag_ids : list uuid) :
  gate_ok db → conflict_free db → set_device_tags db device_id tag_ids = Ok db' → conflict_free db'.
Proof.
  intros Hdb Hcf Hset.
  destruct (set_device_tags_inv _ _ _ _ Hset) as (d & tags & v & Hd & <- & Htags & -> & Hv & Hi).
  intros a b e Ha Hb Hea Heb Hta Htb Hcl.
  destruct (decide (e = d_id d)) as [->|Hne].
  2:{ apply (Hcf a b e); eauto using targets_retag_ne. }
  assert (gate_ok (retag (d_id d) tags db)) as Hdb' by (destruct Hdb; by split).
  destruct (id Hta) as (x & g & Hx & Hid & Hst & _).
  pose proof (NoDup_fmap_eq d_id _ x d (gok_devices db Hdb) Hx Hd Hid). subst x.
  apply targets_device in Hta as (gid & Hg & Hga & Hta); [|done..].
  apply targets_device in Htb as (gid' & Hg' & Hgb & Htb); [|done..].
  assert (gid' = gid) as -> by congruence.
  assert (∀ s, (∀ tag, s_tag_id s = Some tag → (tag, d_id d) ∈ db_tag_assignments (retag (d_id d) tags db)) →
    tag_reaches (mkTargeting (d_group_id d) (list_to_set tag_ids)) s = true) as Hreach.
  { intros s Hs. unfold tag_reaches. destruct (s_tag_id s) as [t|]; [|done]. simpl.
    apply bool_decide_eq_true, elem_of_list_to_set. apply (Htags t).
    destruct (proj1 (elem_of_retag _ _ _ _ _) (Hs t eq_refl)) as [[? _]|[_ ?]]; done. }
  assert (targets db a (d_id d) ∧ targets db b (d_id d)) as [? ?].
  { apply (validate_transition_single db d (mkTargeting (d_group_id d) (list_to_set tag_ids)) v a b gid);
      try done. intros s [->| ->]; auto. }
  by apply (Hcf a b (d_id d)).
Qed.

(** ** Witnesses *)

Definition one_show : Db := fleet [day_show] [screen "d1" "g"].

Lemma one_show_ok : gate_ok one_show ∧ conflict_free one_show.
Proof.
  split; [split; [apply (bool_decide_unpack _); by vm_compute..|]|].
  - intros s Hs. simpl in Hs. apply list_elem_of_singleton in Hs as ->. reflexivity.
  - intros a b did Ha Hb _ _ _ _ [Hne _]. simpl in Ha, Hb.
    apply list_elem_of_singleton in Ha, Hb. congruence.
Qed.

Lemma check_conflicts_preserves_witness :
  conflict_free (add_schedule night_show one_show).
Proof.
  apply (check_conflicts_preserves one_show night_show);
    [apply one_show_ok|reflexivity|apply one_show_ok|reflexivity].
Defined.

Definition clashing : list Schedule := [day_show; daily "late" "g" 1 (hm 22 0) (hm 2 0)].
Definition clashing_result : DeviceValidationResult :=
  match validate_device_effective_config "d1" None [] None clashing ∅ with
  | Ok r => r | Err _ => mkDevResult "" [] [] [] end.

Lemma validate_config_exact_witness :
  introduced_conflicts clashing_result = [] ∧ preexisting_conflicts clashing_result = [] ↔
  ∀ a b, a ∈ clashing → b ∈ clashing → s_enabled a = true → s_enabled b = true → ¬ clash a b.
Proof.
  apply (validate_config_exact "d1" None [] None clashing ∅ clashing_result).
  - apply (bool_decide_unpack _). by vm_compute.
  - intros s Hs. unfold clashing in Hs. rewrite !elem_of_cons, elem_of_nil in Hs.
    destruct Hs as [->|[->|[]]]; reflexivity.
  - by vm_compute.
Defined.

Definition tagged_shows : Db :=
  mkDb None [day_show] [screen "d1" "g"] [mkTag "t" "g" "lobby"] [] no_media ∅ ∅ [].

Lemma set_device_tags_preserves_witness : conflict_free (retag "d1" ["t"] tagged_shows).
Proof.
  apply (set_device_tags_preserves tagged_shows _ "d1" ["t"]).
  - split; [apply (bool_decide_unpack _); by vm_compute..|].
    intros s Hs. simpl in Hs. apply list_elem_of_singleton in Hs as ->. reflexivity.
  - intros a b did Ha Hb _ _ _ _ [Hne _]. simpl in Ha, Hb.
    apply list_elem_of_singleton in Ha, Hb. congruence.
  - by vm_compute.
Defined.
