(* ===== verification/Upcoming.v ===== *)
(** * What plays next (cms/services/scheduler.py)

    [get_upcoming_schedules] lists, for the dashboard, the schedules that start
    within a day and the ones that are in their window but do not play.  The
    interval tests kept beside it ([_times_overlap], [_days_overlap],
    [_dates_overlap]) are here too. *)

From S2P Require Import Prelude Clock Models Occurrence Database Skips Targeting NowPlaying Samples.
Open Scope Z_scope.

(** ** Entries *)

(** One dict of the result; an absent key is [None]. *)
Record UpcomingEntry := mkEntry {
  ue_schedule_id : string;
  ue_schedule_name : string;
  ue_group_id : option string;
  ue_group_name : string;
  ue_asset_filename : string;
  ue_target_name : string;
  ue_target_type : string;
  ue_priority : Z;
  ue_start_time : string;
  ue_end_time : string;
  ue_duration_mins : Z;
  ue_duration_secs : Z;
  ue_countdown : string;
  ue_starts_in_seconds : Z;
  ue_day_label : string;
  ue_preempted : option bool;
  ue_resumes_at : option string;
  ue_starting : option bool;
  ue_no_targets : option bool
}.

(** [datetime.combine(d, s.end_time)], one day later when the window crosses
    midnight. *)
Definition end_after (s : Schedule) (d : date) : result exn datetime :=
  let end_dt := Datetime d (s_end_time s) in
  if time_leb (s_end_time s) (s_start_time s) then dt_add end_dt DAY_US else Ok end_dt.

(** [f"{n} {unit}{'s' if n != 1 else ''}"]. *)
Definition plural (n : Z) (unit_name : string) : string :=
  Z_str n +:+ " " +:+ unit_name +:+ (if n =? 1 then "" else "s").

Definition span_text (secs : Z) : string :=
  if secs <? 60 then "less than a minute"
  else if secs <? 3600 then plural (secs / 60) "minute"
  else
    let mins := secs mod 3600 / 60 in
    plural (secs / 3600) "hour" +:+ (if 0 <? mins then ", " +:+ plural mins "minute" else "").

(** The fields every kind of entry computes the same way. *)
Definition base_entry (s : Schedule) (run_date : date) (countdown : string) (starts_in : Z)
    (day_label : string) (preempted : option bool) (resumes_at : option string)
    (starting no_targets : option bool) : result exn UpcomingEntry :=
  let start_dt := Datetime run_date (s_start_time s) in
  end_dt ← end_after s run_date;
  let target_name := default "—" (truthy (g_name <$> s_group s)) in
  Ok {| ue_schedule_id := s_id s;
        ue_schedule_name := s_name s;
        ue_group_id := s_group_id s;
        ue_group_name := target_name;
        ue_asset_filename := _asset_display_name (s_asset s);
        ue_target_name := target_name;
        ue_target_type := "group";
        ue_priority := s_priority s;
        ue_start_time := strftime_IMp (s_start_time s);
        ue_end_time := strftime_IMp (s_end_time s);
        ue_duration_mins := total_minutes_int (dt_sub end_dt start_dt);
        ue_duration_secs := total_seconds_int (dt_sub end_dt start_dt);
        ue_countdown := countdown;
        ue_starts_in_seconds := starts_in;
        ue_day_label := day_label;
        ue_preempted := preempted;
        ue_resumes_at := resumes_at;
        ue_starting := starting;
        ue_no_targets := no_targets |}.

Definition _upcoming_entry (s : Schedule) (run_date : date) (day_label : string) (delta : Z)
    : result exn UpcomingEntry :=
  let total_secs := total_seconds_int delta in
  base_entry s run_date (span_text total_secs) total_secs day_label None None None None.

Definition _preempted_entry (s : Schedule) (local_now : datetime) (resume_at : time)
    : result exn UpcomingEntry :=
  let today := dt_date local_now in
  _ ← end_after s today;
  resume_dt ← (if time_leb resume_at (dt_time local_now)
               then dt_add (Datetime today resume_at) DAY_US else Ok (Datetime today resume_at));
  let resume_secs := Z.max 0 (total_seconds_int (dt_sub resume_dt local_now)) in
  base_entry s today ("resumes in " +:+ span_text resume_secs) resume_secs "today"
    (Some true) (Some (strftime_IMp resume_at)) None None.

Definition _starting_entry (s : Schedule) (local_now : datetime) : result exn UpcomingEntry :=
  base_entry s (dt_date local_now) "starting" 0 "today" None None (Some true) None.

Definition _no_targets_entry (s : Schedule) (local_now : datetime) : result exn UpcomingEntry :=
  base_entry s (dt_date local_now) "no_targets" 0 "today" None None (Some false) (Some true).

(** ** When a preempted schedule resumes *)

(** [if latest is None or end_dt > latest: latest = end_dt]. *)
Definition later (latest : option datetime) (end_dt : datetime) : option datetime :=
  match latest with
  | None => Some end_dt
  | Some l => if dt_ltb l end_dt then Some end_dt else Some l
  end.

(** Does [other] hold back [preempted] now?  The guards the two loops share. *)
Definition blocks_now (preempted other : Schedule) (local_now : datetime) : result exn bool :=
  if negb (s_enabled other) then Ok false
  else if s_priority other <=? s_priority preempted then Ok false
  else _matches_now other local_now.

Definition resume_step (local_now : datetime) (latest : option datetime) (other : Schedule)
    : result exn (option datetime) :=
  end_dt ← end_after other (dt_date local_now);
  Ok (later latest end_dt).

(** The loop over the winners of the target devices. *)
Definition device_blocker (preempted : Schedule) (winning_by_device : gmap string NowPlaying)
    (schedules_by_id : gmap string Schedule) (did : string) : option Schedule :=
  winner_entry ← winning_by_device !! did;
  if bool_decide (np_schedule_id winner_entry = s_id preempted) then None
  else schedules_by_id !! np_schedule_id winner_entry.

(** [preempted.group_id and other.group_id == preempted.group_id]. *)
Definition same_target (preempted other : Schedule) : bool :=
  match s_group_id preempted with
  | Some g => bool_decide (s_group_id other = Some g)
  | None => false
  end.

Fixpoint resume_loop (preempted : Schedule) (local_now : datetime) (others : list Schedule)
    (latest : option datetime) : result exn (option datetime) :=
  match others with
  | [] => Ok latest
  | other :: rest =>
      b ← blocks_now preempted other local_now;
      latest' ← (if (b : bool) then resume_step local_now latest other else Ok latest);
      resume_loop preempted local_now rest latest'
  end.

Definition _find_resume_time (preempted : Schedule) (all_schedules : list Schedule)
    (local_now : datetime) (target_devices : option (gset string))
    (winning_by_device : option (gmap string NowPlaying))
    (schedules_by_id : option (gmap string Schedule)) : result exn (option time) :=
  let others : list Schedule :=
    match target_devices, winning_by_device, schedules_by_id with
    | Some devices, Some winning, Some by_id =>
        omap (M:=list) (device_blocker preempted winning by_id) (elements devices)
    | _, _, _ =>
        filter (λ other, s_id other ≠ s_id preempted ∧ same_target preempted other = true) all_schedules
    end in
  latest ← resume_loop preempted local_now others None;
  Ok (option_map dt_time latest).

(** ** The list *)

Section upcoming.
Context (schedules : list Schedule) (local_now : datetime) (tomorrow : date).
Context (now_playing : option (list NowPlaying)) (skipped_ids : gset string).
Context (per_device_skipped : gset (string * string)).
Context (targets_by_schedule : option (gmap string (gset string))).

Definition winning_sids : gset string :=
  list_to_set (np_schedule_id <$> default [] now_playing).
Definition winning_by_did : gmap string NowPlaying :=
  dict_of ((λ np, (np_device_id np, np)) <$> default [] now_playing).
Definition schedules_by_id : gmap string Schedule := dict_of ((λ s, (s_id s, s)) <$> schedules).

(** [start_date], [end_date] and [days_of_week] allow an occurrence on [d]. *)
Definition day_allowed (s : Schedule) (d : date) : bool :=
  if match s_start_date s with Some x => d <? dt_date x | None => false end then false
  else if match s_end_date s with Some x => dt_date x <? d | None => false end then false
  else match s_days_of_week s with
       | None | Some [] => true
       | Some days => bool_decide (isoweekday d ∈ days)
       end.

(** A schedule in its window. *)
Definition matching_entry (s : Schedule) : result exn (option UpcomingEntry) :=
  match now_playing with
  | None => Ok None
  | Some _ =>
      if bool_decide (s_id s ∈ winning_sids) then Ok None
      else if bool_decide (s_id s ∈ skipped_ids) then Ok None
      else
        let targets := m ← targets_by_schedule; Some (default ∅ (m !! s_id s)) in
        if bool_decide (targets = Some ∅) then e ← _no_targets_entry s local_now; Ok (Some e)
        else if match targets with
                | Some t => forallb (λ did, bool_decide ((s_id s, did) ∈ per_device_skipped)) (elements t)
                | None => false
                end then Ok None
        else
          resume_at ← _find_resume_time s schedules local_now targets (Some winning_by_did)
                        (Some schedules_by_id);
          match resume_at with
          | Some t => e ← _preempted_entry s local_now t; Ok (Some e)
          | None => e ← _starting_entry s local_now; Ok (Some e)
          end
  end.

(** A schedule outside its window. *)
Definition waiting_entry (s : Schedule) : result exn (option UpcomingEntry) :=
  let today := dt_date local_now in
  let today_start := Datetime today (s_start_time s) in
  if (dt_ltb local_now today_start && day_allowed s today)%bool
  then e ← _upcoming_entry s today "today" (dt_sub today_start local_now); Ok (Some e)
  else
    let delta := dt_sub (Datetime tomorrow (s_start_time s)) local_now in
    if DAY_US <? delta then Ok None
    else if day_allowed s tomorrow
    then e ← _upcoming_entry s tomorrow "tomorrow" delta; Ok (Some e)
    else Ok None.

Definition schedule_entry (s : Schedule) : result exn (option UpcomingEntry) :=
  if negb (s_enabled s) then Ok None
  else
    matching ← _matches_now s local_now;
    if (matching : bool) then matching_entry s else waiting_entry s.
End upcoming.

Definition get_upcoming_schedules (schedules : list Schedule) (now : Z) (tz : Z → datetime)
    (now_playing : option (list NowPlaying)) (skipped_schedule_ids : gset string)
    (per_device_skipped : gset (string * string))
    (target_devices_by_schedule : option (gmap string (gset string))) : result exn (list UpcomingEntry) :=
  let local_now := tz now in
  tomorrow ← date_add (dt_date local_now) 1;
  results ← omap_ok (schedule_entry schedules local_now tomorrow now_playing skipped_schedule_ids
                       per_device_skipped target_devices_by_schedule) schedules;
  Ok (sort_by ue_starts_in_seconds results).

(** ** Interval tests on the clock *)

Definition to_min (t : time) : Z := hour t * 60 + minute t.

Definition _times_overlap (s1 e1 s2 e2 : time) : bool :=
  let a := to_min s1 in let b := to_min e1 in
  let c := to_min s2 in let d := to_min e2 in
  if ((a =? b) || (c =? d))%bool then false
  else if ((a <? b) && (c <? d))%bool then ((a <? d) && (c <? b))%bool
  else if ((b <=? a) && (d <=? c))%bool then true
  else
    let '(a, b, c, d) := if d <=? c then (c, d, a, b) else (a, b, c, d) in
    ((c <? b) || (a <? d))%bool.

Definition _days_overlap (d1 d2 : option (list Z)) : bool :=
  match d1, d2 with
  | None, _ | Some [], _ | _, None | _, Some [] => true
  | Some l1, Some l2 =>
      negb (bool_decide ((list_to_set l1 : gset Z) ∩ list_to_set l2 = ∅))
  end.

Definition _dates_overlap (s1 e1 s2 e2 : option datetime) : bool :=
  if match e1, s2 with Some e, Some s => dt_date e <? dt_date s | _, _ => false end then false
  else if match e2, s1 with Some e, Some s => dt_date e <? dt_date s | _, _ => false end then false
  else true.

(** ** Specification *)

(** An occurrence of [s] starts at instant [t]. *)
Definition starts_at (s : Schedule) (t : Z) : Prop :=
  ∃ d, isoweekday d ∈ allowed_weekdays (s_days_of_week s) ∧
       in_range (dt_date <$> s_start_date s) (dt_date <$> s_end_date s) d ∧
       t = d * DAY_US + time_us (s_start_time s).

(** The instant at which the occurrence of [s] that starts on day [d] ends. *)
Definition end_instant (s : Schedule) (d : date) : Z :=
  d * DAY_US + time_us (s_end_time s) +
  (if time_us (s_end_time s) <=? time_us (s_start_time s) then DAY_US else 0).

(** The minute [m] of the day lies in the window [s .. e], which may cross
    midnight. *)
Definition minute_in (s e : time) (m : Z) : Prop :=
  0 ≤ m < 1440 ∧
  (to_min s < to_min e ∧ to_min s ≤ m < to_min e ∨
   to_min e < to_min s ∧ (to_min s ≤ m ∨ m < to_min e)).

(** ** Lemmas *)

Lemma base_entry_inv s d c n l p r st nt e :
  base_entry s d c n l p r st nt = Ok e →
  ue_schedule_id e = s_id s ∧ ue_starts_in_seconds e = n ∧ ue_preempted e = p ∧
  ue_starting e = st ∧ ue_no_targets e = nt ∧ ue_resumes_at e = r.
Proof.
  unfold base_entry. destruct (end_after s d); simpl; [|done]. by intros [= <-].
Qed.

Lemma preempted_entry_inv s now t e :
  _preempted_entry s now t = Ok e →
  ue_schedule_id e = s_id s ∧ ue_preempted e = Some true ∧ ue_starting e = None ∧
  ue_no_targets e = None ∧ ue_resumes_at e = Some (strftime_IMp t).
Proof.
  unfold _preempted_entry. destruct (end_after s _); simpl; [|done].
  destruct (if time_leb t _ then _ else _); simpl; [|done].
  intros H%base_entry_inv. naive_solver.
Qed.

Lemma day_allowed_spec s d :
  day_allowed s d = true ↔
  isoweekday d ∈ allowed_weekdays (s_days_of_week s) ∧
  in_range (dt_date <$> s_start_date s) (dt_date <$> s_end_date s) d.
Proof.
  rewrite in_range_bool. unfold day_allowed.
  replace (match s_start_date s with Some x => d <? dt_date x | None => false end)
    with (match dt_date <$> s_start_date s with Some x => d <? x | None => false end)
    by by destruct (s_start_date s).
  replace (match s_end_date s with Some x => dt_date x <? d | None => false end)
    with (match dt_date <$> s_end_date s with Some x => x <? d | None => false end)
    by by destruct (s_end_date s).
  destruct (match dt_date <$> s_start_date s with Some x => d <? x | None => false end);
    [split; [done|naive_solver]|].
  destruct (match dt_date <$> s_end_date s with Some x => x <? d | None => false end);
    [split; [done|naive_solver]|].
  pose proof (isoweekday_all d) as Hall.
  destruct (s_days_of_week s) as [[|x l]|]; [naive_solver| |naive_solver].
  rewrite bool_decide_eq_true.
  change (allowed_weekdays (Some (x :: l))) with (list_to_set (x :: l) ∩ _ALL_WEEKDAYS).
  rewrite elem_of_intersection, elem_of_list_to_set. naive_solver.
Qed.

(** Outside its window a schedule is listed iff it starts within a day. *)
Lemma waiting_entry_spec s now r :
  schedule_times_ok s = true → datetime_ok now = true →
  waiting_entry now (dt_date now + 1) s = Ok r →
  (∀ e, r = Some e → ∃ t, starts_at s t ∧ dt_us now < t ≤ dt_us now + DAY_US ∧
     ue_schedule_id e = s_id s ∧ ue_starts_in_seconds e = (t - dt_us now) / 1000000) ∧
  ((∃ t, starts_at s t ∧ dt_us now < t ≤ dt_us now + DAY_US) → is_Some r).
Proof.
  intros [Hst%time_us_range _]%andb_true_iff [_ Hnt%time_us_range]%andb_true_iff.
  unfold waiting_entry, dt_ltb, dt_sub, dt_us. simpl.
  set (st := time_us (s_start_time s)) in *. set (nt := time_us (dt_time now)) in *.
  set (d := dt_date now).
  assert (∀ x, 0 < x → total_seconds_int x = x / 1000000) as Hsec.
  { intros x Hx. unfold total_seconds_int. apply Z.quot_div_nonneg; lia. }
  assert (∀ dd, (∃ t, starts_at s t ∧ dt_us now < t ≤ dt_us now + DAY_US) →
    (∀ x, day_allowed s x = true → d * DAY_US + nt < x * DAY_US + st ≤ d * DAY_US + nt + DAY_US → x = dd) →
    day_allowed s dd = true ∧ d * DAY_US + nt < dd * DAY_US + st ≤ d * DAY_US + nt + DAY_US) as Hex.
  { intros dd (t & (x & Hw & Hr & ->) & Ht) Hx. unfold dt_us in Ht. fold d nt st in Ht.
    assert (day_allowed s x = true) as Ha by by apply day_allowed_spec.
    by rewrite <- (Hx x). }
  unfold DAY_US in *.
  destruct (_ && _)%bool eqn:Htoday.
  - bool_to_prop. unfold _upcoming_entry.
    destruct (base_entry _ _ _ _ _ _ _ _ _) as [e|] eqn:He; simpl; [|done]. intros [= <-].
    split; [|by eexists]. intros ? [= <-]. apply base_entry_inv in He as (Hid & Hn & _).
    exists (d * 86400000000 + st). split_and!; [|lia|lia|done|rewrite Hn; apply Hsec; lia].
    exists d. by apply day_allowed_spec in H0 as [? ?].
  - destruct (Z.ltb_spec 86400000000 ((d + 1) * 86400000000 + st - (d * 86400000000 + nt))) as [Hfar|Hnear].
    + intros [= <-]. split; [done|]. intros Hx%(Hex d); [|intros; lia].
      exfalso. destruct Hx as [Ha Hx]. rewrite Ha, andb_true_r in Htoday. bool_to_prop. lia.
    + destruct (day_allowed s (d + 1)) eqn:Ha.
      * unfold _upcoming_entry. destruct (base_entry _ _ _ _ _ _ _ _ _) as [e|] eqn:He; simpl; [|done].
        intros [= <-]. split; [|by eexists]. intros ? [= <-]. apply base_entry_inv in He as (Hid & Hn & _).
        exists ((d + 1) * 86400000000 + st). split_and!; [|lia|lia|done|rewrite Hn; apply Hsec; lia].
        exists (d + 1). by apply day_allowed_spec in Ha as [? ?].
      * intros [= <-]. split; [done|]. intros Hx%(Hex (d + 1)); [by destruct Hx as [Hx _]; rewrite Ha in Hx|intros; lia].
Qed.

Lemma schedule_entry_id sl now tm np sk pd tg s e :
  schedule_entry sl now tm np sk pd tg s = Ok (Some e) → ue_schedule_id e = s_id s.
Proof.
  unfold schedule_entry, matching_entry, waiting_entry, _upcoming_entry, _starting_entry, _no_targets_entry.
  intros H.
  repeat match type of H with
  | context [match base_entry ?a ?b ?c ?d ?e ?f ?g ?h ?i with _ => _ end] =>
      destruct (base_entry a b c d e f g h i) eqn:?; simpl in H; try discriminate
  | context [base_entry ?a ?b ?c ?d ?e ?f ?g ?h ?i ≫= _] =>
      destruct (base_entry a b c d e f g h i) eqn:?; simpl in H; try discriminate
  | context [_preempted_entry ?a ?b ?c ≫= _] =>
      destruct (_preempted_entry a b c) eqn:?; simpl in H; try discriminate
  | context [_find_resume_time ?a ?b ?c ?d ?e ?f ≫= _] =>
      destruct (_find_resume_time a b c d e f) as [[]|] eqn:?; simpl in H; try discriminate
  | context [_matches_now ?a ?b ≫= _] =>
      destruct (_matches_now a b) eqn:?; simpl in H; try discriminate
  | context [match ?x with _ => _ end] => destruct x eqn:?; simpl in H; try discriminate
  end; simplify_eq;
  match goal with
  | H : base_entry _ _ _ _ _ _ _ _ _ = Ok _ |- _ => by apply base_entry_inv in H as [? _]
  | H : _preempted_entry _ _ _ = Ok _ |- _ => by apply preempted_entry_inv in H as [? _]
  end.
Qed.

Lemma upcoming_inv sl now tz np sk pd tg l :
  get_upcoming_schedules sl now tz np sk pd tg = Ok l →
  Sorted (key_le ue_starts_in_seconds) l ∧
  ∀ s, NoDup (s_id <$> sl) → s ∈ sl →
    ∃ r, schedule_entry sl (tz now) (dt_date (tz now) + 1) np sk pd tg s = Ok r ∧
         ∀ e, (e ∈ l ∧ ue_schedule_id e = s_id s) ↔ r = Some e.
Proof.
  unfold get_upcoming_schedules, date_add.
  destruct (date_ok _); simpl; [|done].
  destruct (omap_ok _ sl) as [res|] eqn:Hres; simpl; [|done].
  intros [= <-]. split; [apply sort_by_Sorted|]. intros s Hnd Hs.
  destruct (omap_ok_no_error _ _ _ s Hres Hs) as [r Hr]. exists r. split; [done|].
  intros e. rewrite sort_by_Permutation, (elem_of_omap_ok _ _ _ _ Hres). split.
  - intros [(s' & Hs' & He) Hid]. pose proof (schedule_entry_id _ _ _ _ _ _ _ _ _ He) as Hid'.
    assert (s' = s) as -> by (eapply (NoDup_fmap_eq s_id); [done..|congruence]). congruence.
  - intros ->. split; [eauto|]. by eapply schedule_entry_id.
Qed.

(** The schedules [_find_resume_time] considers on the dashboard's path. *)
Definition blocker (preempted : Schedule) (now : datetime) (devices : gset string)
    (winning : gmap string NowPlaying) (by_id : gmap string Schedule) (o : Schedule) : Prop :=
  ∃ did np, did ∈ devices ∧ winning !! did = Some np ∧ np_schedule_id np ≠ s_id preempted ∧
    by_id !! np_schedule_id np = Some o ∧ s_enabled o = true ∧ s_priority preempted < s_priority o ∧
    _matches_now o now = Ok true.

Lemma later_spec l x y : later l x = Some y →
  dt_us x ≤ dt_us y ∧ (∀ z, l = Some z → dt_us z ≤ dt_us y) ∧ (y = x ∨ l = Some y).
Proof.
  unfold later, dt_ltb. destruct l as [z|].
  - destruct (Z.ltb_spec (dt_us z) (dt_us x)); intros [= <-]; (split_and!; [lia| |auto]);
      intros ? [= <-]; lia.
  - intros [= <-]. split_and!; [lia|done|auto].
Qed.

(** The loop keeps the latest of the ends it has seen. *)
Lemma resume_loop_spec p now others latest r :
  resume_loop p now others latest = Ok r →
  (∀ y, r = Some y →
    (latest = Some y ∨ ∃ o, o ∈ others ∧ blocks_now p o now = Ok true ∧ end_after o (dt_date now) = Ok y) ∧
    (∀ z, latest = Some z → dt_us z ≤ dt_us y) ∧
    (∀ o z, o ∈ others → blocks_now p o now = Ok true → end_after o (dt_date now) = Ok z → dt_us z ≤ dt_us y)) ∧
  (r = None → latest = None ∧ ∀ o, o ∈ others → blocks_now p o now = Ok false).
Proof.
  revert latest. induction others as [|o others IH]; intros latest; simpl.
  { intros [= <-]. split; [intros y ->; split_and!; [auto|naive_solver|set_solver]|].
    intros ->. split; [done|set_solver]. }
  destruct (blocks_now p o now) as [b|] eqn:Hb; simpl; [|done].
  destruct b; simpl.
  - unfold resume_step. destruct (end_after o (dt_date now)) as [x|] eqn:Hx; simpl; [|done].
    intros [Hsome Hnone]%IH. destruct (later latest x) as [y0|] eqn:Hl.
    2:{ by unfold later in Hl; repeat case_match. }
    apply later_spec in Hl as (Hxy & Hz & Hor). split; [|intros [? _]%Hnone; done].
    intros y Hy. destruct (Hsome y Hy) as (H1 & H2 & H3). specialize (H2 _ eq_refl).
    split_and!.
    + destruct H1 as [[= ->]|(o' & ? & ? & ?)]; [destruct Hor as [->|?]; [right|by left]|right; exists o'; set_solver].
      exists o. split_and!; [left|done|done].
    + intros z Hz'. specialize (Hz z Hz'). lia.
    + intros o' z [->|Ho']%elem_of_cons Hbo Hzo; [assert (z = x) by congruence; subst; lia|eauto].
  - intros [Hsome Hnone]%IH. split.
    + intros y Hy. destruct (Hsome y Hy) as (H1 & H2 & H3). split_and!; [|done|].
      * destruct H1 as [?|(o' & ? & ? & ?)]; [by left|right; exists o'; set_solver].
      * intros o' z [->|Ho']%elem_of_cons Hbo; [congruence|eauto].
    + intros [? Hno]%Hnone. split; [done|]. intros o' [->|?]%elem_of_cons; auto.
Qed.

(** A loop that returns computed the end of every blocker. *)
Lemma resume_loop_end p now others latest r :
  resume_loop p now others latest = Ok r →
  ∀ o, o ∈ others → blocks_now p o now = Ok true → ∃ z, end_after o (dt_date now) = Ok z.
Proof.
  revert latest. induction others as [|x others IH]; intros latest; simpl; [set_solver|].
  destruct (blocks_now p x now) as [b|] eqn:Hb; simpl; [|done].
  unfold resume_step. destruct b; simpl; [destruct (end_after x _) eqn:Hx; simpl; [|done]|];
    intros Hr o [->|Ho]%elem_of_cons Hbo; eauto; congruence.
Qed.

Lemma end_after_instant o d y :
  schedule_times_ok o = true → end_after o d = Ok y →
  dt_us y = end_instant o d ∧ dt_time y = s_end_time o.
Proof.
  intros [_ Het]%andb_true_iff. pose proof (time_us_range _ Het) as Hr.
  unfold end_after, end_instant, time_leb. destruct (Z.leb_spec (time_us (s_end_time o)) (time_us (s_start_time o))).
  - unfold dt_add. destruct (date_ok _); [|done]. intros [= <-]. rewrite dt_us_of_us.
    unfold dt_us, dt_of_us. simpl. split; [lia|].
    replace ((d * DAY_US + time_us (s_end_time o) + DAY_US) mod DAY_US) with (time_us (s_end_time o)).
    { by apply time_of_us_us. } unfold DAY_US in *. zdm.
  - intros [= <-]. unfold dt_us. simpl. split; [lia|done].
Qed.

Lemma blocks_now_true p o now :
  blocks_now p o now = Ok true ↔
  s_enabled o = true ∧ s_priority p < s_priority o ∧ _matches_now o now = Ok true.
Proof.
  unfold blocks_now. destruct (s_enabled o); simpl; [|naive_solver].
  destruct (Z.leb_spec (s_priority o) (s_priority p)); naive_solver lia.
Qed.

Lemma elem_of_device_blockers p (devices : gset string) winning by_id o :
  o ∈ omap (M:=list) (device_blocker p winning by_id) (elements devices) ↔
  ∃ did np, did ∈ devices ∧ winning !! did = Some np ∧ np_schedule_id np ≠ s_id p ∧
            by_id !! np_schedule_id np = Some o.
Proof.
  rewrite list_elem_of_omap. unfold device_blocker. setoid_rewrite elem_of_elements. split.
  - intros (did & Hd & Hx). destruct (winning !! did) as [np|] eqn:Hw; simpl in Hx; [|done].
    case_bool_decide; [done|]. exists did, np. done.
  - intros (did & np & Hd & Hw & Hne & Ho). exists did. split; [done|]. rewrite Hw. simpl.
    by rewrite bool_decide_false.
Qed.

(** ** Theorems *)

(**  [get_upcoming_schedules] is sorted by the time to the start and exact
    for a schedule outside its window: it lists an enabled schedule iff one of
    its occurrences starts within the next 24 hours, with the seconds until
    that start. *)
Theorem upcoming_waiting_exact (sl : list Schedule) (now : Z) (tz : Z → datetime)
    (np : option (list NowPlaying)) (sk : gset string) (pd : gset (string * string))
    (tg : option (gmap string (gset string))) (l : list UpcomingEntry) (s : Schedule) :
  NoDup (s_id <$> sl) → s ∈ sl → s_enabled s = true → schedule_times_ok s = true →
  now_ok (tz now) → ¬ occurs_at s (dt_us (tz now)) →
  get_upcoming_schedules sl now tz np sk pd tg = Ok l →
  Sorted (key_le ue_starts_in_seconds) l ∧
  ((∃ e, e ∈ l ∧ ue_schedule_id e = s_id s) ↔
   ∃ t, starts_at s t ∧ dt_us (tz now) < t ≤ dt_us (tz now) + DAY_US) ∧
  (∀ e, e ∈ l → ue_schedule_id e = s_id s →
   ∃ t, starts_at s t ∧ dt_us (tz now) < t ≤ dt_us (tz now) + DAY_US ∧
        ue_starts_in_seconds e = (t - dt_us (tz now)) / 1000000).
Proof.
  intros Hnd Hs Hen Hts Hnow Hno [Hsort Hl]%upcoming_inv. split; [done|].
  destruct (Hl s Hnd Hs) as (r & Hr & He). unfold schedule_entry in Hr. rewrite Hen in Hr. simpl in Hr.
  destruct (matches_now_spec s (tz now) Hts Hnow) as (m & Hm & Hmt). rewrite Hm in Hr. simpl in Hr.
  destruct m; [exfalso; naive_solver|].
  destruct Hnow as [Hnow _]. destruct (waiting_entry_spec s (tz now) r Hts Hnow Hr) as [H1 H2]. split.
  - split.
    + intros (e & (t & ? & ? & _)%He%H1). eauto.
    + intros [e Hre]%H2. exists e. by apply He.
  - intros e Hel Hid. destruct (H1 e) as (t & ? & ? & _ & ?); [by apply He|]. eauto.
Qed.

(**  A schedule in its window is hidden from the list exactly when it is
    playing somewhere, was ended schedule-wide, or is ended on every one of
    its adopted targets; one without targets is flagged [no_targets]. *)
Theorem upcoming_matching_exact (sl : list Schedule) (now : Z) (tz : Z → datetime)
    (nps : list NowPlaying) (sk : gset string) (pd : gset (string * string))
    (tg : gmap string (gset string)) (l : list UpcomingEntry) (s : Schedule) :
  NoDup (s_id <$> sl) → s ∈ sl → s_enabled s = true → schedule_times_ok s = true →
  now_ok (tz now) → occurs_at s (dt_us (tz now)) →
  get_upcoming_schedules sl now tz (Some nps) sk pd (Some tg) = Ok l →
  let targets := default ∅ (tg !! s_id s) in
  (¬ (∃ e, e ∈ l ∧ ue_schedule_id e = s_id s) ↔
   s_id s ∈ np_schedule_id <$> nps ∨ s_id s ∈ sk ∨
   targets ≠ ∅ ∧ ∀ did, did ∈ targets → (s_id s, did) ∈ pd) ∧
  (∀ e, e ∈ l → ue_schedule_id e = s_id s → ue_no_targets e = Some true ↔ targets = ∅).
Proof.
  intros Hnd Hs Hen Hts Hnow Hocc [_ Hl]%upcoming_inv targets.
  destruct (Hl s Hnd Hs) as (r & Hr & He). unfold schedule_entry in Hr. rewrite Hen in Hr. simpl in Hr.
  destruct (matches_now_spec s (tz now) Hts Hnow) as (m & Hm & Hmt). rewrite Hm in Hr. simpl in Hr.
  destruct m; [|exfalso; naive_solver]. clear Hl Hm Hmt.
  assert ((¬ (∃ e, e ∈ l ∧ ue_schedule_id e = s_id s)) ↔ r = None) as ->.
  { destruct r as [e|]; [|naive_solver]. split; [|done]. intros Hx. exfalso. apply Hx. exists e. by apply He. }
  assert (∀ e, e ∈ l → ue_schedule_id e = s_id s → r = Some e) as He' by naive_solver. clear He.
  unfold matching_entry, winning_sids in Hr. simpl in Hr. fold targets in Hr.
  rewrite (bool_decide_ext _ (s_id s ∈ np_schedule_id <$> nps)) in Hr by apply elem_of_list_to_set.
  case_bool_decide as Hw; [simplify_eq; naive_solver|].
  case_bool_decide as Hsk; [simplify_eq; naive_solver|].
  case_bool_decide as Hemp.
  { injection Hemp as Hemp. destruct (_no_targets_entry s (tz now)) as [e|] eqn:Hne; simpl in Hr; [|done].
    apply base_entry_inv in Hne as (_ & _ & _ & _ & Hne & _). injection Hr as <-.
    split; [naive_solver|]. intros e' ? ?. assert (e' = e) as -> by naive_solver. by rewrite Hne. }
  assert (targets ≠ ∅) as Hne by congruence.
  destruct (forallb _ _) eqn:Hall.
  { simplify_eq. rewrite forallb_forall in Hall. split; [|naive_solver].
    split; [|done]. intros _. right. right. split; [done|].
    intros did Hd%elem_of_elements%list_elem_of_In%Hall. by apply bool_decide_eq_true in Hd. }
  assert (¬ ∀ did, did ∈ targets → (s_id s, did) ∈ pd) as Hnall.
  { intros Hx. apply not_true_iff_false in Hall. apply Hall, forallb_forall. intros did Hd.
    apply bool_decide_eq_true, Hx. by apply elem_of_elements, list_elem_of_In. }
  destruct (_find_resume_time _ _ _ _ _ _) as [[t|]|]; simpl in Hr; [| |done].
  - destruct (_preempted_entry s (tz now) t) as [e|] eqn:Hpe; simpl in Hr; [|done]. injection Hr as <-.
    apply preempted_entry_inv in Hpe as (_ & _ & _ & Hnt & _). split; [naive_solver|].
    intros e' ? ?. assert (e' = e) as -> by naive_solver. by rewrite Hnt.
  - destruct (_starting_entry s (tz now)) as [e|] eqn:Hse; simpl in Hr; [|done]. injection Hr as <-.
    apply base_entry_inv in Hse as (_ & _ & _ & _ & Hnt & _). split; [naive_solver|].
    intros e' ? ?. assert (e' = e) as -> by naive_solver. by rewrite Hnt.
Qed.

(**  The dashboard's resume hint names the blocker that ends last: when
    every schedule that holds the devices started its occurrence today,
    [_find_resume_time] returns the end time of one of them and none of them
    ends later; it returns nothing iff there is no blocker. *)
Theorem find_resume_time_latest (p : Schedule) (sl : list Schedule) (now : datetime)
    (devices : gset string) (winning : gmap string NowPlaying) (by_id : gmap string Schedule)
    (r : option time) :
  (∀ o, blocker p now devices winning by_id o →
        schedule_times_ok o = true ∧ time_us (s_start_time o) ≤ time_us (dt_time now)) →
  _find_resume_time p sl now (Some devices) (Some winning) (Some by_id) = Ok r →
  (r = None ↔ ¬ ∃ o, blocker p now devices winning by_id o) ∧
  (∀ t, r = Some t →
   ∃ o, blocker p now devices winning by_id o ∧ t = s_end_time o ∧
        ∀ o', blocker p now devices winning by_id o' →
              end_instant o' (dt_date now) ≤ end_instant o (dt_date now)).
Proof.
  intros Hok. unfold _find_resume_time.
  destruct (resume_loop _ _ _ _) as [latest|] eqn:Hl; simpl; [|done]. intros [= <-].
  pose proof Hl as [Hsome Hnone]%resume_loop_spec.
  assert (∀ o, blocker p now devices winning by_id o ↔
    o ∈ omap (M:=list) (device_blocker p winning by_id) (elements devices) ∧ blocks_now p o now = Ok true) as Hb.
  { intros o. rewrite elem_of_device_blockers, blocks_now_true. unfold blocker. naive_solver. }
  destruct latest as [y|]; simpl.
  - destruct (Hsome y eq_refl) as ([?|(o & Ho & Hbo & Hy)] & _ & Hmax); [done|].
    assert (blocker p now devices winning by_id o) as Hblk by by apply Hb.
    destruct (end_after_instant o (dt_date now) y) as [Hyi Hyt]; [by apply Hok|done|].
    split; [split; [done|intros Hx; exfalso; eauto]|].
    intros t [= <-]. exists o. split_and!; [done|done|]. intros o' [Ho' Hbo']%Hb.
    destruct (resume_loop_end _ _ _ _ _ Hl o' Ho' Hbo') as [z Hz].
    destruct (end_after_instant o' (dt_date now) z) as [Hzi _]; [by apply Hok, Hb|done|].
    rewrite <- Hyi, <- Hzi. eauto.
  - destruct (Hnone eq_refl) as [_ Hno]. split; [|done]. split; [|done].
    intros _ (o & [Ho Hbo]%Hb). rewrite (Hno o Ho) in Hbo. done.
Qed.

(** [_times_overlap] is exact on the minutes of the day: it holds iff some
    minute lies in both windows, across midnight or not. *)
Theorem times_overlap_exact (s1 e1 s2 e2 : time) :
  time_ok s1 = true → time_ok e1 = true → time_ok s2 = true → time_ok e2 = true →
  _times_overlap s1 e1 s2 e2 = true ↔ ∃ m, minute_in s1 e1 m ∧ minute_in s2 e2 m.
Proof.
  assert (∀ t, time_ok t = true → 0 ≤ to_min t < 1440) as Hr.
  { unfold time_ok, to_min. intros t ?. bool_to_prop. lia. }
  intros ?%Hr ?%Hr ?%Hr ?%Hr. unfold _times_overlap, minute_in.
  set (a := to_min s1) in *. set (b := to_min e1) in *. set (c := to_min s2) in *. set (d := to_min e2) in *.
  clearbody a b c d. clear Hr.
  destruct (Z.eqb_spec a b), (Z.eqb_spec c d); simpl; try (split; [done|intros (m & ? & ?); lia]).
  destruct (Z.ltb_spec a b), (Z.ltb_spec c d), (Z.leb_spec b a), (Z.leb_spec d c); simpl; try lia;
    rewrite ?andb_true_iff, ?orb_true_iff, ?Z.ltb_lt; split; try (intros (m & ? & ?); lia); intros Hx.
  - exists (Z.max a c). lia.
  - destruct Hx; [exists a|exists (b - 1)]; lia.
  - destruct Hx; [exists c|exists (d - 1)]; lia.
  - exists 1439. lia.
Qed.

(** ** Witnesses *)

Definition ok_or_nil {E A} (r : result E (list A)) : list A := match r with Ok l => l | Err _ => [] end.

Definition shows_at (h m : Z) : list UpcomingEntry :=
  ok_or_nil (get_upcoming_schedules [day_show; night_show] (utc_at h m) utc_tz (Some []) ∅ ∅
               (Some {["day" := {["d1"]}; "night" := {["d1"]}]})).

Lemma shows_NoDup : NoDup (s_id <$> [day_show; night_show]).
Proof. apply (bool_decide_unpack _). by vm_compute. Qed.

(** A window between 9:00 and 23:00 does not contain 7:00. *)
Lemma day_show_waits : ¬ occurs_at day_show (dt_us (utc_tz (utc_at 7 0))).
Proof.
  destruct (matches_now_spec day_show (utc_tz (utc_at 7 0))) as (r & Hr & Hiff); [done|by split|].
  assert (_matches_now day_show (utc_tz (utc_at 7 0)) = Ok false) as Hf by by vm_compute.
  rewrite Hf in Hr. injection Hr as <-. intros Ho. by assert (false = true) by by apply Hiff.
Qed.

Lemma upcoming_waiting_exact_witness :
  ∃ t, starts_at day_show t ∧ dt_us (utc_tz (utc_at 7 0)) < t ≤ dt_us (utc_tz (utc_at 7 0)) + DAY_US.
Proof.
  destruct (upcoming_waiting_exact [day_show; night_show] (utc_at 7 0) utc_tz (Some []) ∅ ∅
    (Some {["day" := {["d1"]}; "night" := {["d1"]}]}) (shows_at 7 0) day_show) as (_ & Hx & _).
  - apply shows_NoDup.
  - left.
  - reflexivity.
  - reflexivity.
  - split; reflexivity.
  - apply day_show_waits.
  - by vm_compute.
  - apply Hx. destruct (list_find (λ e, ue_schedule_id e = "day") (shows_at 7 0)) as [[i e]|] eqn:He.
    + apply list_find_Some in He as (Hi%list_elem_of_lookup_2 & Hc & _). by exists e.
    + exfalso. by vm_compute in He.
Defined.

Definition show_targets : gmap string (gset string) := {["day" := {["d1"]}; "night" := {["d1"]}]}.

Lemma upcoming_matching_exact_witness :
  ¬ (∃ e, e ∈ shows_at 22 0 ∧ ue_schedule_id e = "day") ↔
  "day" ∈ np_schedule_id <$> ([] : list NowPlaying) ∨ "day" ∈ (∅ : gset string) ∨
  default ∅ (show_targets !! "day") ≠ ∅ ∧
  ∀ did, did ∈ default ∅ (show_targets !! "day") → ("day", did) ∈ (∅ : gset (string * string)).
Proof.
  refine (proj1 (upcoming_matching_exact [day_show; night_show] (utc_at 22 0) utc_tz [] ∅ ∅ show_targets
    (shows_at 22 0) day_show _ _ _ _ _ _ _)).
  - apply shows_NoDup.
  - left.
  - reflexivity.
  - reflexivity.
  - split; reflexivity.
  - exists (mkWindow (9 * 3600000000) (23 * 3600000000) _ALL_WEEKDAYS None None). split; [done|].
    exists leap_day. split; [split; [apply isoweekday_all|by split]|]. vm_compute. intuition congruence.
  - by vm_compute.
Defined.

Definition sample_np (did sid : string) : NowPlaying :=
  mkNowPlaying did did sid sid None None "" None 0 "" "scheduled" "" "" "".

Definition night_blocks (r : result exn (option time)) : Prop := r = Ok (Some (hm 6 0)).

Lemma find_resume_time_latest_witness :
  night_blocks (_find_resume_time day_show [] (at_hm 22 0) (Some {["d1"]})
                  (Some {["d1" := sample_np "d1" "night"]}) (Some {["night" := night_show]})) ∧
  ∃ o, blocker day_show (at_hm 22 0) {["d1"]} {["d1" := sample_np "d1" "night"]}
         {["night" := night_show]} o ∧ hm 6 0 = s_end_time o.
Proof.
  split; [by vm_compute|].
  edestruct (find_resume_time_latest day_show [] (at_hm 22 0) {["d1"]}
    {["d1" := sample_np "d1" "night"]} {["night" := night_show]} (Some (hm 6 0))) as [_ Hr].
  - intros o (did & np & Hd & Hw & _ & Ho & _). apply elem_of_singleton in Hd as ->.
    rewrite lookup_singleton_eq in Hw. injection Hw as <-. simpl in Ho.
    rewrite lookup_singleton_eq in Ho. injection Ho as <-. by vm_compute.
  - by vm_compute.
  - destruct (Hr _ eq_refl) as (o & Ho & He & _). by exists o.
Defined.

(** In the small hours the hint can name the wrong blocker: at 02:00 [long] holds
    a device until 07:00, but the window of [night] that started yesterday is
    placed on tomorrow and wins with 03:00. *)
Example resume_time_small_hours :
  let long := daily "long" "g" 5 (hm 1 0) (hm 7 0) in
  let night := daily "night" "g" 5 (hm 22 0) (hm 3 0) in
  let p := daily "p" "g" 1 (hm 0 30) (hm 9 0) in
  _find_resume_time p [] (at_hm 2 0) (Some {["d1"; "d2"]})
    (Some {["d1" := sample_np "d1" "long"; "d2" := sample_np "d2" "night"]})
    (Some {["long" := long; "night" := night]}) = Ok (Some (hm 3 0)).
Proof. by vm_compute. Qed.

(** A window of length zero never plays and is announced all the same. *)
Example zero_length_announced :
  let z := daily "z" "g" 1 (hm 9 0) (hm 9 0) in
  (window_of z, ue_schedule_id <$> ok_or_nil (get_upcoming_schedules [z] (utc_at 7 0) utc_tz None ∅ ∅ None)) =
  (None, ["z"]).
Proof. by vm_compute. Qed.

Lemma times_overlap_exact_witness :
  ∃ m, minute_in (hm 9 0) (hm 23 0) m ∧ minute_in (hm 21 0) (hm 6 0) m.
Proof. by apply (times_overlap_exact (hm 9 0) (hm 23 0) (hm 21 0) (hm 6 0)). Defined.
