(* ===== verification/DeviceStatus.v ===== *)
(** * The schedule status of one device (cms/services/scheduler.py,
      [get_device_schedule_status])

    What plays now on a device, what it preempts, and what comes next. *)

From S2P Require Import Prelude Clock Models Occurrence Database Skips Targeting NowPlaying Upcoming Samples.
Open Scope Z_scope.

Record ScheduleSummary := mkSummary {
  sy_schedule_id : uuid; sy_schedule_name : string; sy_group_id : option uuid; sy_group_name : option string;
  sy_asset_filename : string; sy_priority : Z; sy_start_time : string; sy_end_time : string;
  sy_countdown : option string; sy_day_label : option string;
  sy_preempted : bool; sy_starting : bool; sy_no_targets : bool;
  sy_resumes_at : option string; sy_source : option string;
  sy_preempting_schedule_id : option uuid; sy_preempting_schedule_name : option string;
  sy_preempting_group_id : option uuid; sy_preempting_group_name : option string;
  sy_preempting_priority : option Z
}.

Definition _device_schedule_status_summary (schedule : Schedule) (countdown day_label : option string)
    (preempted starting no_targets : bool) (resumes_at source : option string) (preempting : option Schedule)
    : ScheduleSummary :=
  {| sy_schedule_id := s_id schedule;
     sy_schedule_name := s_name schedule;
     sy_group_id := s_group_id schedule;
     sy_group_name := g_name <$> s_group schedule;
     sy_asset_filename := _asset_display_name (s_asset schedule);
     sy_priority := s_priority schedule;
     sy_start_time := strftime_IMp (s_start_time schedule);
     sy_end_time := strftime_IMp (s_end_time schedule);
     sy_countdown := countdown; sy_day_label := day_label;
     sy_preempted := preempted; sy_starting := starting; sy_no_targets := no_targets;
     sy_resumes_at := resumes_at; sy_source := source;
     sy_preempting_schedule_id := s_id <$> preempting;
     sy_preempting_schedule_name := s_name <$> preempting;
     sy_preempting_group_id := p ← preempting; s_group_id p;
     sy_preempting_group_name := p ← preempting; g_name <$> s_group p;
     sy_preempting_priority := s_priority <$> preempting |}.

Record DeviceScheduleStatus := mkDeviceStatus {
  ds_device_id : string;
  ds_now_playing : option ScheduleSummary;
  ds_coming_up : list ScheduleSummary;
  ds_preempted : list ScheduleSummary
}.

(** The enabled schedules that target the device and are not skipped on it. *)
Definition device_schedules (db : Db) (skips : SkipSnapshot) (device_id : string) : list Schedule :=
  let schedules := enabled_schedules db in
  let targets_by_schedule := load_target_devices_by_schedule db schedules in
  filter (λ s, device_id ∈ default ∅ (targets_by_schedule !! s_id s) ∧
               is_schedule_skipped skips (s_id s) = false ∧
               is_skipped_for_device skips (s_id s) device_id = false) schedules.

(** The entry of one active schedule that the winner preempts. *)
Definition preempted_summary (dscheds : list Schedule) (by_id : gmap string Schedule) (local_now : datetime)
    (device_id : string) (winning_entry : NowPlaying) (winning : Schedule) (schedule : Schedule)
    : result exn (option ScheduleSummary) :=
  if s_priority winning <=? s_priority schedule then Ok None
  else
    resume_at ← _find_resume_time schedule dscheds local_now (Some {[device_id]})
                  (Some {[device_id := winning_entry]}) (Some by_id);
    countdown ← (match resume_at with
                 | Some t => e ← _preempted_entry schedule local_now t; Ok (Some (ue_countdown e))
                 | None => Ok None
                 end);
    Ok (Some (_device_schedule_status_summary schedule countdown (Some "today") true false false
                (strftime_IMp <$> resume_at) None (Some winning))).

Definition coming_up_summary (by_id : gmap string Schedule) (entry : UpcomingEntry) : option ScheduleSummary :=
  s ← by_id !! ue_schedule_id entry;
  if bool_decide (ue_preempted entry = Some true) then None
  else Some (_device_schedule_status_summary s (Some (ue_countdown entry)) (Some (ue_day_label entry)) false
               (bool_decide (ue_starting entry = Some true)) (bool_decide (ue_no_targets entry = Some true))
               (ue_resumes_at entry) None None).

Definition get_device_schedule_status (db : Db) (states : list LiveState) (cache : confirmed_cache)
    (tz : Z → datetime) (now : Z) (device_id : string) : result exn DeviceScheduleStatus :=
  let local_now := tz now in
  let skips := active_as_of (load_skip_snapshot db) local_now in
  let dscheds := device_schedules db skips device_id in
  let by_id := schedules_by_id dscheds in
  now_playing_all ← compute_now_playing db states cache tz now;
  let winning_entry := x ← list_find (λ e, np_device_id e = device_id) now_playing_all; Some x.2 in
  let winning := e ← winning_entry; s ← by_id !! np_schedule_id e; Some (e, s) in
  let now_playing := (λ es, _device_schedule_status_summary es.2 None None false false false None
                              (Some (np_source es.1)) None) <$> winning in
  preempted ← (match winning with
               | None => Ok []
               | Some (e, w) =>
                   active_non_winners ← filter_ok (λ s, if bool_decide (s_id s = s_id w) then Ok false
                                                        else _matches_now s local_now) dscheds;
                   omap_ok (preempted_summary dscheds by_id local_now device_id e w) active_non_winners
               end);
  upcoming ← get_upcoming_schedules dscheds now tz (Some now_playing_all) (dom (schedule_wide skips))
               (dom (per_device skips)) (Some (dict_of ((λ s, (s_id s, {[device_id]})) <$> dscheds)));
  Ok (mkDeviceStatus device_id now_playing (omap (coming_up_summary by_id) upcoming) preempted).

(** ** Lemmas *)

Lemma elem_of_device_schedules db now device_id s :
  db_ok db →
  s ∈ device_schedules db (active_as_of (load_skip_snapshot db) now) device_id ↔
  s ∈ db_schedules db ∧ s_enabled s = true ∧ targets db s device_id ∧
  (∀ until, s_skipped_until s = Some until → dt_us until ≤ dt_us now) ∧
  (∀ until, db_device_skips db !! (s_id s, device_id) = Some until → dt_us until ≤ dt_us now).
Proof.
  intros Hdb. unfold device_schedules. rewrite list_elem_of_filter. unfold enabled_schedules at 2.
  rewrite list_elem_of_filter. split.
  - intros [(Ht & _ & Hsk) [He Hs]].
    rewrite lookup_target_devices in Ht by (apply NoDup_fmap_filter, Hdb || by apply list_elem_of_filter).
    apply not_skipped_iff in Hsk; [|apply Hdb|done]. naive_solver.
  - intros (Hs & He & Ht & Hsk).
    assert (is_skipped_for_device (active_as_of (load_skip_snapshot db) now) (s_id s) device_id = false) as Hnot
      by by (apply not_skipped_iff; [apply Hdb|done|]).
    split; [|done]. split_and!; [| |done].
    + apply lookup_target_devices; [apply NoDup_fmap_filter, Hdb|by apply list_elem_of_filter|done].
    + unfold is_skipped_for_device in Hnot. by case_match.
Qed.

Lemma lookup_schedules_by_id l s : NoDup (s_id <$> l) → s ∈ l → schedules_by_id l !! s_id s = Some s.
Proof.
  intros Hnd Hs. unfold schedules_by_id. apply lookup_dict_of.
  - by rewrite <- list_fmap_compose.
  - apply list_elem_of_fmap. by exists s.
Qed.

(** The entry the device's winner appears with. *)
Lemma winning_entry_spec db states cache tz now did l :
  db_ok db → now_ok (tz now) → compute_now_playing db states cache tz now = Ok l →
  ∀ e, (x ← list_find (λ e, np_device_id e = did) l; Some x.2) = Some e ↔
       e ∈ l ∧ np_device_id e = did.
Proof.
  intros Hdb Hnow Hl e.
  destruct (now_playing_winners db states cache tz now Hdb Hnow) as (l' & Hl' & Hnd & _).
  assert (l' = l) as -> by congruence.
  destruct (list_find _ l) as [[i x]|] eqn:Hf; simpl.
  - apply list_find_Some in Hf as (Hx%list_elem_of_lookup_2 & Hd & _). split; [by intros [= <-]|].
    intros [He Hd']. f_equal. apply (NoDup_fmap_eq np_device_id l); [done..|congruence].
  - apply list_find_None in Hf. rewrite Forall_forall in Hf. split; [done|]. intros [He Hd]. by destruct (Hf e He).
Qed.

(** ** Theorems *)

(**  The status page of a device agrees with the specification: it shows a
    schedule as playing iff that schedule is the device's winner, and every
    schedule it shows as preempted is entitled to the device (but for its
    asset) and has a strictly lower priority than the winner. *)
Theorem device_status_winner (db : Db) (states : list LiveState) (cache : confirmed_cache)
    (tz : Z → datetime) (now : Z) (did : string) (st : DeviceScheduleStatus) :
  db_ok db → now_ok (tz now) →
  get_device_schedule_status db states cache tz now did = Ok st →
  (∀ sid, sy_schedule_id <$> ds_now_playing st = Some sid ↔ ∃ s, s_id s = sid ∧ winner db (tz now) did s) ∧
  (∀ y, y ∈ ds_preempted st →
     ∃ s w, sy_schedule_id y = s_id s ∧ winner db (tz now) did w ∧ s_priority s < s_priority w ∧
            s ∈ db_schedules db ∧ s_enabled s = true ∧ occurs_at s (dt_us (tz now)) ∧ targets db s did).
Proof.
  intros Hdb Hnow. unfold get_device_schedule_status.
  destruct (compute_now_playing db states cache tz now) as [l|] eqn:Hl; cbn [mbind result_bind]; [|done].
  pose proof (winning_entry_spec db states cache tz now did l Hdb Hnow Hl) as Hwe.
  destruct (now_playing_winners db states cache tz now Hdb Hnow) as (l' & Hl' & _ & Hwin).
  assert (l' = l) as -> by congruence. clear Hl'.
  set (dscheds := device_schedules _ _ did).
  assert (NoDup (s_id <$> dscheds)) as Hnd by (apply NoDup_fmap_filter, NoDup_fmap_filter, Hdb).
  assert (∀ s, winner db (tz now) did s → s ∈ dscheds) as Hwd.
  { intros s [(? & ? & ? & ? & ? & ? & ?) _]. by apply elem_of_device_schedules. }
  set (we := x ← list_find _ l; Some x.2) in *.
  set (winning := e ← we; _).
  assert (∀ e w, winning = Some (e, w) ↔ we = Some e ∧ np_schedule_id e = s_id w ∧ winner db (tz now) did w) as Hwinning.
  { intros e w. unfold winning. destruct we as [e'|]; simpl; [|naive_solver].
    destruct (proj1 (Hwe e') eq_refl) as [He' Hd'].
    destruct (proj1 (Hwin did (np_schedule_id e')) (ex_intro _ e' (conj He' (conj Hd' eq_refl)))) as (s & Hs & Hsw).
    rewrite <- Hs, lookup_schedules_by_id by auto. simpl. split; [by intros [= <- <-]|].
    intros ([= ->] & Hid & Hw). f_equal. f_equal.
    apply (NoDup_fmap_eq s_id (db_schedules db)); [apply Hdb|apply Hsw|apply Hw|congruence]. }
  destruct (match winning with Some _ => _ | None => _ end) as [pre|] eqn:Hpre; cbn [mbind result_bind]; [|done].
  destruct (get_upcoming_schedules _ _ _ _ _ _ _); cbn [mbind result_bind]; [|done].
  intros [= <-]. cbn [ds_now_playing ds_preempted]. split.
  - intros sid. destruct winning as [[e w]|] eqn:Hw; simpl.
    + destruct (proj1 (Hwinning e w) eq_refl) as (_ & _ & Hww). split; [intros [= <-]; by exists w|].
      intros (s & <- & Hs). f_equal. f_equal. by eapply winner_unique.
    + split; [done|]. intros (s & <- & Hs).
      destruct (proj2 (Hwin did (s_id s)) (ex_intro _ s (conj eq_refl Hs))) as (e & He & Hd & Hid).
      assert (None = Some (e, s)); [|done]. apply Hwinning. split_and!; [by apply Hwe|done|done].
  - intros y Hy. destruct winning as [[e w]|] eqn:Hw; [|injection Hpre as <-; by apply elem_of_nil in Hy].
    destruct (proj1 (Hwinning e w) eq_refl) as (_ & _ & Hww).
    destruct (filter_ok _ dscheds) as [act|] eqn:Hact; cbn [mbind result_bind] in Hpre; [|done].
    rewrite (elem_of_omap_ok _ _ _ _ Hpre) in Hy. destruct Hy as (s & Hs & Hy).
    rewrite (elem_of_filter_ok _ _ _ _ Hact) in Hs. destruct Hs as [Hs Hm].
    case_bool_decide; [done|]. unfold preempted_summary in Hy.
    destruct (Z.leb_spec (s_priority w) (s_priority s)); [done|].
    destruct (_find_resume_time _ _ _ _ _ _); cbn [mbind result_bind] in Hy; [|done].
    destruct (match _ with Some t => _ | None => _ end); cbn [mbind result_bind] in Hy; [|done].
    injection Hy as <-. apply elem_of_device_schedules in Hs as (Hin & He & Ht & _); [|done].
    exists s, w. split_and!; try done.
    destruct (matches_now_spec s (tz now)) as (r & Hr & Hiff); [by apply Hdb|done|].
    rewrite Hm in Hr. injection Hr as <-. by apply Hiff.
Qed.

(** ** Witnesses *)

Definition status_d1 : DeviceScheduleStatus :=
  match get_device_schedule_status two_shows [] ∅ utc_tz (utc_at 22 0) "d1" with
  | Ok st => st | Err _ => mkDeviceStatus "" None [] [] end.

Lemma device_status_winner_witness :
  sy_schedule_id <$> ds_now_playing status_d1 = Some "night" ∧
  ∃ s, s_id s = "night" ∧ winner two_shows (utc_tz (utc_at 22 0)) "d1" s.
Proof.
  assert (sy_schedule_id <$> ds_now_playing status_d1 = Some "night") as Hn by by vm_compute.
  split; [exact Hn|].
  apply (device_status_winner two_shows [] ∅ utc_tz (utc_at 22 0) "d1" status_d1);
    [apply two_shows_ok|split; by vm_compute|by vm_compute|exact Hn].
Defined.
