(* ===== verification/Slideshow.v ===== *)
(** * Slideshow resolver (cms/services/slideshow_resolver.py)

    A slideshow asset is a list of slide rows.  For a device the resolver drops
    the slides that are closed now, expands the tag blocks, picks for every
    slide the newest ready variant of the device's profile (or the source), and
    sends the manifest with a checksum that changes when any of it does.
    SHA-256 and the storage backend's download URLs are parameters; probed
    durations are whole milliseconds. *)

From S2P Require Import Prelude Clock Models Occurrence Database Samples AssetReadiness.
Open Scope Z_scope.

(** ** Blockers, specs and plans *)

Definition BLOCKER_SOURCE_DELETED : string := "source_deleted".
Definition BLOCKER_VARIANT_PROCESSING : string := "variant_processing".
Definition BLOCKER_VARIANT_FAILED : string := "variant_failed".
Definition BLOCKER_VARIANT_CANCELLED : string := "variant_cancelled".
Definition BLOCKER_SOURCE_UNPUBLISHED : string := "source_unpublished".

Record _SiblingPlan := mkSibling {
  sb_source_asset_id : uuid; sb_filename : string; sb_asset_type_value : string;
  sb_checksum : string; sb_size_bytes : Z; sb_download_path : string; sb_api_url_path : string
}.

(** The fields of a planned slide that name the file to download. *)
Record FileRef := mkFile {
  f_download_path : string; f_api_url_path : string; f_checksum : string; f_size_bytes : Z
}.

Record _SlidePlan := mkSlidePlan {
  sp_position : Z;
  sp_source_asset_id : uuid;
  sp_source_filename : string;
  sp_source_asset_type : AssetType;
  sp_duration_ms : Z;
  sp_play_to_end : bool;
  sp_transition : string;
  sp_transition_ms : Z;
  sp_fit : string;
  sp_effect : string;
  sp_effect_direction : string;
  sp_file : FileRef;
  sp_siblings : list _SiblingPlan;
  sp_window : SlideWindow;
  sp_clip_start_ms : Z;
  sp_clip_duration_ms : option Z
}.

Record _SlideSpec := mkSpec {
  ss_position : Z;
  ss_source_asset_id : uuid;
  ss_duration_ms : Z;
  ss_play_to_end : bool;
  ss_transition : string;
  ss_transition_ms : Z;
  ss_fit : string;
  ss_effect : string;
  ss_effect_direction : string;
  ss_tag_member : bool;
  ss_window : SlideWindow;
  ss_clip_start_ms : Z;
  ss_clip_duration_ms : option Z
}.

Record SlideshowBlocker := mkBlocker {
  bl_slide_position : Z; bl_source_asset_id : uuid; bl_source_filename : string; bl_status : string
}.

Record SlideshowPlan := mkPlan { pl_slides : list _SlidePlan; pl_blockers : list SlideshowBlocker }.

Definition ready (p : SlideshowPlan) : bool :=
  negb (bool_decide (length (pl_slides p) = 0%nat)) && bool_decide (length (pl_blockers p) = 0%nat).

(** ** Picking variants *)

(** [ORDER BY created_at DESC, id DESC]. *)
Definition newer_first (x y : AssetVariant) : bool := negb (supersedes y x).

(** Composed-slide siblings. *)
Definition is_file_asset (t : AssetType) : bool := bool_decide (t = VIDEO ∨ t = IMAGE ∨ t = SAVED_STREAM).

(** The live variants of an asset for a profile. *)
Definition live_variants (m : Media) (asset_id profile_id : uuid) : list AssetVariant :=
  filter (λ v, v_source_asset_id v = asset_id ∧ v_profile_id v = profile_id ∧ v_deleted_at v = None)
    (m_variants m).

Definition variant_api_path (v : AssetVariant) : string := "/api/assets/variants/" +:+ v_id v +:+ "/download".
Definition asset_api_path (a : Asset) : string := "/api/assets/" +:+ a_id a +:+ "/download".

Definition _resolve_composed_sibling (m : Media) (ref : Asset) (profile_id : option uuid)
    : option _SiblingPlan :=
  let source := mkSibling (a_id ref) (a_filename ref) (AssetType_value (a_asset_type ref))
                  (a_checksum ref) (a_size_bytes ref) (a_filename ref) (asset_api_path ref) in
  match profile_id with
  | Some pid =>
      if negb (is_file_asset (a_asset_type ref)) then Some source
      else
        match head (sort_on newer_first (filter (λ v, v_status v = V_READY) (live_variants m (a_id ref) pid))) with
        | Some r => Some (mkSibling (a_id ref) (a_filename ref) (AssetType_value (a_asset_type ref))
                            (v_checksum r) (v_size_bytes r) ("variants/" +:+ v_filename r) (variant_api_path r))
        | None => match live_variants m (a_id ref) pid with
                  | _ :: _ => None
                  | [] => Some source
                  end
        end
  | None => Some source
  end.

Inductive SiblingsPlan := NO_SIBLINGS | SIBLINGS_INFLIGHT | SIBLINGS (l : list _SiblingPlan).

(** The loop over the declared ids; a missing asset is skipped, one in flight
    ends it. *)
Fixpoint siblings_loop (m : Media) (profile_id : option uuid) (declared : list uuid)
    : option (list _SiblingPlan) :=
  match declared with
  | [] => Some []
  | aid :: rest =>
      match list_find (λ a, a_id a = aid ∧ a_deleted_at a = None) (m_assets m) with
      | None => siblings_loop m profile_id rest
      | Some (_, ref) =>
          s ← _resolve_composed_sibling m ref profile_id;
          l ← siblings_loop m profile_id rest;
          Some (s :: l)
      end
  end.

Definition _plan_composed_siblings (m : Media) (composed_asset : Asset) (profile_id : option uuid)
    : SiblingsPlan :=
  match list_find (λ row, row.1 = a_id composed_asset) (m_composed m) with
  | None | Some (_, (_, [])) => NO_SIBLINGS
  | Some (_, (_, declared)) =>
      match siblings_loop m profile_id declared with
      | None => SIBLINGS_INFLIGHT
      | Some l => SIBLINGS l
      end
  end.

(** ** Visibility windows *)

(** [datetime.weekday]: 0 is Monday. *)
Definition weekday (d : date) : Z := isoweekday d - 1.

Definition time_ltb (a b : time) : bool := time_us a <? time_us b.

Definition _slide_window_open (w : SlideWindow) (local_now : datetime) : result exn bool :=
  let d := dt_date local_now in
  let t := dt_time local_now in
  if match valid_from w with Some f => d <? f | None => false end then Ok false
  else if match valid_to w with Some u => u <? d | None => false end then Ok false
  else
    effective_wd ←
      (match active_start w, active_end w with
       | Some start, Some end_ =>
           if (time_ltb end_ start && time_ltb t end_)%bool
           then y ← dt_add local_now (- DAY_US); Ok (weekday (dt_date y))
           else Ok (weekday d)
       | _, _ => Ok (weekday d)
       end);
    if match active_days w with
       | Some (x :: l) => negb (bool_decide (effective_wd ∈ x :: l))
       | _ => false
       end then Ok false
    else match active_start w, active_end w with
         | Some start, Some end_ =>
             if time_ltb start end_ then Ok (negb (time_ltb t start) && time_ltb t end_)
             else Ok (negb (time_ltb t start) || time_ltb t end_)
         | Some start, None => Ok (negb (time_ltb t start))
         | None, Some end_ => Ok (time_ltb t end_)
         | None, None => Ok true
         end.

Definition _EMPTY_WINDOW : SlideWindow := mkSlideWindow None None None None None.

Definition _row_window_kwargs (row : SlideshowSlide) : SlideWindow :=
  let w := sl_window row in
  mkSlideWindow (valid_from w) (valid_to w)
    (match active_days w with Some (x :: l) => Some (x :: l) | _ => None end)
    (active_start w) (active_end w).

(** [time.isoformat()]. *)
Definition time_isoformat (t : time) : string :=
  strftime_HMS t +:+ (if microsecond t =? 0 then "" else "." +:+ pad6 (microsecond t)).

Record WindowWire := mkWire {
  w_valid_from : option string; w_valid_to : option string; w_active_days : option (list Z);
  w_active_start : option string; w_active_end : option string
}.

Definition _window_wire_fields (w : SlideWindow) : WindowWire :=
  mkWire (date_isoformat <$> valid_from w) (date_isoformat <$> valid_to w)
    (match active_days w with Some (x :: l) => Some (x :: l) | _ => None end)
    (time_isoformat <$> active_start w) (time_isoformat <$> active_end w).

(** ** Loading the deck *)

Definition _TAG_MEMBER_ASSET_TYPES : list AssetType := [IMAGE; VIDEO; SAVED_STREAM; COMPOSED].

(** [ORDER BY created_at ASC, id ASC]. *)
Definition tagged_first (x y : AssetTag) : bool :=
  (at_created_at x <? at_created_at y) ||
  ((at_created_at x =? at_created_at y) && negb (at_id y <s at_id x)).

(** The rows of the join of assets and their tags that count as members. *)
Definition is_member (m : Media) (tag_id : uuid) (t : AssetTag) : bool :=
  bool_decide (at_tag_id t = tag_id) &&
  existsb (λ a, bool_decide (a_id a = at_asset_id t ∧ a_deleted_at a = None ∧
                             a_asset_type a ∈ _TAG_MEMBER_ASSET_TYPES)) (m_assets m).

Definition expand_tag_members (m : Media) (tag_id : uuid) : list uuid :=
  at_asset_id <$> sort_on tagged_first (filter (λ t, is_member m tag_id t = true) (m_asset_tags m)).

(** The members of a tag block from index [idx] and position [pos] on. *)
Fixpoint member_specs (row : SlideshowSlide) (win : SlideWindow) (idx : nat) (pos : Z) (ids : list uuid)
    : list _SlideSpec :=
  match ids with
  | [] => []
  | aid :: rest =>
      let '(m_trans, m_trans_ms) :=
        match idx with
        | O => (sl_transition row, sl_transition_ms row)
        | S _ => (default (sl_transition row) (sl_member_transition row),
                  default (sl_transition_ms row) (sl_member_transition_ms row))
        end in
      mkSpec pos aid (sl_duration_ms row) false m_trans m_trans_ms (sl_fit row) (sl_effect row)
        (sl_effect_direction row) true win 0 None
      :: member_specs row win (S idx) (pos + 1) rest
  end.

(** The specs of one row, the first at position [pos]. *)
Definition row_specs (m : Media) (win : SlideWindow) (pos : Z) (row : SlideshowSlide) : list _SlideSpec :=
  match sl_kind row with
  | K_TAG None => []
  | K_TAG (Some tag_id) => member_specs row win 0 pos (expand_tag_members m tag_id)
  | K_ASSET None => []
  | K_ASSET (Some aid) =>
      [mkSpec pos aid (sl_duration_ms row) (sl_play_to_end row) (sl_transition row) (sl_transition_ms row)
         (sl_fit row) (sl_effect row) (sl_effect_direction row) false win
         (default 0 (sl_clip_start_ms row)) (sl_clip_duration_ms row)]
  end.

Fixpoint specs_loop (m : Media) (local_now : option datetime) (emit_windows : bool) (pos : Z)
    (rows : list SlideshowSlide) : result exn (list _SlideSpec) :=
  match rows with
  | [] => Ok []
  | row :: rest =>
      show ← (match emit_windows, local_now with
              | false, Some now => _slide_window_open (sl_window row) now
              | _, _ => Ok true
              end);
      let win := if emit_windows then _row_window_kwargs row else _EMPTY_WINDOW in
      let here := if (show : bool) then row_specs m win pos row else [] in
      l ← specs_loop m local_now emit_windows (pos + Z.of_nat (length here)) rest;
      Ok (here ++ l)
  end.

(** The rows of a deck in order. *)
Definition deck_rows (m : Media) (slideshow_id : uuid) : list SlideshowSlide :=
  sort_by sl_position (filter (λ r, sl_slideshow_asset_id r = slideshow_id) (m_slides m)).

Definition _load_slide_specs (m : Media) (asset : Asset) (local_now : option datetime)
    (emit_windows : bool) : result exn (list _SlideSpec) :=
  specs_loop m local_now emit_windows 0 (deck_rows m (a_id asset)).

(** ** Counts for the library *)

(** [counts[sid] = counts.get(sid, 0) + n]. *)
Definition bump (counts : gmap uuid Z) (sid : uuid) (n : Z) : gmap uuid Z :=
  <[sid := default 0 (counts !! sid) + n]> counts.

Definition zero_counts (ids : list uuid) : gmap uuid Z := dict_of ((λ sid, (sid, 0)) <$> ids).

(** The grouped member count over the tags in use. *)
Definition member_count (m : Media) (tag_id : uuid) : Z :=
  Z.of_nat (length (filter (λ t, is_member m tag_id t = true) (m_asset_tags m))).

Definition effective_slide_counts (m : Media) (slideshow_ids : list uuid) : gmap uuid Z :=
  let counts := zero_counts slideshow_ids in
  if bool_decide (slideshow_ids = []) then counts
  else
    let rows := filter (λ r, sl_slideshow_asset_id r ∈ slideshow_ids) (m_slides m) in
    let counts := fold_left (λ c r, match sl_kind r with
                                    | K_TAG _ => c
                                    | K_ASSET _ => bump c (sl_slideshow_asset_id r) 1
                                    end) rows counts in
    fold_left (λ c r, match sl_kind r with
                      | K_TAG (Some t) => bump c (sl_slideshow_asset_id r) (member_count m t)
                      | _ => c
                      end) rows counts.

Definition is_expired (today_local : date) (r : SlideshowSlide) : bool :=
  match valid_to (sl_window r) with Some u => u <? today_local | None => false end.

Definition expired_slide_counts (m : Media) (slideshow_ids : list uuid) (today_local : date) : gmap uuid Z :=
  let counts := zero_counts slideshow_ids in
  if bool_decide (slideshow_ids = []) then counts
  else fold_left (λ c r, bump c (sl_slideshow_asset_id r) 1)
         (filter (λ r, sl_slideshow_asset_id r ∈ slideshow_ids ∧ is_expired today_local r = true) (m_slides m))
         counts.

(** ** Planning *)

(** [(duration_ms, play_to_end, clip_start_ms)]. *)
Definition _effective_slide_playback (spec : _SlideSpec) (src : Asset) (tag_member_play_to_end emit_clip : bool)
    : Z * bool * Z :=
  let is_video := bool_decide (a_asset_type src = VIDEO ∨ a_asset_type src = SAVED_STREAM) in
  let real_ms := if is_video then a_duration_ms src else None in
  let start := ss_clip_start_ms spec in
  let wants_play_to_end := ss_play_to_end spec || (tag_member_play_to_end && is_video) in
  let clip := match ss_clip_duration_ms spec with
              | Some c => if (is_video && (0 <? c))%bool then Some c else None
              | None => None
              end in
  match clip with
  | Some c => if emit_clip then (c, false, start) else (c, false, 0)
  | None =>
      if wants_play_to_end then
        match real_ms with
        | None => (ss_duration_ms spec, true, if emit_clip then start else 0)
        | Some real =>
            let slot := real - start in
            if slot <=? 0 then (ss_duration_ms spec, true, 0)
            else (slot, true, if emit_clip then start else 0)
        end
      else (ss_duration_ms spec, false, 0)
  end.

(** The two lookup tables: the first row of each source in newest-first order. *)
Definition first_by_source (rows : list AssetVariant) : gmap uuid AssetVariant :=
  fold_left (λ m v, match m !! v_source_asset_id v with
                    | None => <[v_source_asset_id v := v]> m
                    | Some _ => m
                    end) rows ∅.

Definition variant_rows (m : Media) (profile_id : option uuid) (source_ids : list uuid) : list AssetVariant :=
  match profile_id with
  | None => []
  | Some pid => sort_on newer_first
      (filter (λ v, v_source_asset_id v ∈ source_ids ∧ v_profile_id v = pid ∧ v_deleted_at v = None) (m_variants m))
  end.

Definition source_file (src : Asset) : FileRef :=
  mkFile (a_filename src) (asset_api_path src) (a_checksum src) (a_size_bytes src).
Definition variant_file (v : AssetVariant) : FileRef :=
  mkFile ("variants/" +:+ v_filename v) (variant_api_path v) (v_checksum v) (v_size_bytes v).

(** What blocks a slide whose newest variant is not ready. *)
Definition variant_blocker (v : AssetVariant) : string :=
  match v_status v with
  | V_PENDING | V_PROCESSING => BLOCKER_VARIANT_PROCESSING
  | V_FAILED => BLOCKER_VARIANT_FAILED
  | _ => BLOCKER_VARIANT_CANCELLED
  end.

(** The file and the siblings of one slide, or the status that blocks it. *)
Definition resolve_source (m : Media) (profile_id : option uuid)
    (ready_by_source latest_any_by_source : gmap uuid AssetVariant) (src : Asset)
    : (FileRef * list _SiblingPlan) + string :=
  if bool_decide (a_asset_type src = COMPOSED) then
    match composed_unpublished_reason (Some src) with
    | Some _ => inr BLOCKER_SOURCE_UNPUBLISHED
    | None =>
        match _plan_composed_siblings m src profile_id with
        | SIBLINGS_INFLIGHT => inr BLOCKER_VARIANT_PROCESSING
        | NO_SIBLINGS => inl (source_file src, [])
        | SIBLINGS l => inl (source_file src, l)
        end
    end
  else if (bool_decide (is_Some profile_id) && is_file_asset (a_asset_type src))%bool then
    match ready_by_source !! a_id src with
    | Some v => inl (variant_file v, [])
    | None =>
        match latest_any_by_source !! a_id src with
        | Some latest => inr (variant_blocker latest)
        | None => inl (source_file src, [])
        end
    end
  else inl (source_file src, []).

Definition plan_one (m : Media) (profile_id : option uuid) (emit_clip : bool)
    (ready_by_source latest_any_by_source : gmap uuid AssetVariant) (spec : _SlideSpec)
    : _SlidePlan + SlideshowBlocker :=
  let sid := ss_source_asset_id spec in
  match list_find (λ a, a_id a = sid) (m_assets m) with
  | None => inr (mkBlocker (ss_position spec) sid "" BLOCKER_SOURCE_DELETED)
  | Some (_, src) =>
      if bool_decide (is_Some (a_deleted_at src))
      then inr (mkBlocker (ss_position spec) sid (a_filename src) BLOCKER_SOURCE_DELETED)
      else
        let '(dur, pte, clip) := _effective_slide_playback spec src (ss_tag_member spec) emit_clip in
        match resolve_source m profile_id ready_by_source latest_any_by_source src with
        | inr status => inr (mkBlocker (ss_position spec) sid (a_filename src) status)
        | inl (file, siblings) =>
            inl {| sp_position := ss_position spec; sp_source_asset_id := sid;
                   sp_source_filename := a_filename src; sp_source_asset_type := a_asset_type src;
                   sp_duration_ms := dur; sp_play_to_end := pte;
                   sp_transition := ss_transition spec; sp_transition_ms := ss_transition_ms spec;
                   sp_fit := ss_fit spec; sp_effect := ss_effect spec;
                   sp_effect_direction := ss_effect_direction spec;
                   sp_file := file; sp_siblings := siblings; sp_window := ss_window spec;
                   sp_clip_start_ms := clip; sp_clip_duration_ms := ss_clip_duration_ms spec |}
        end
  end.

Definition slides_of (l : list (_SlidePlan + SlideshowBlocker)) : list _SlidePlan :=
  omap (λ x, match x with inl s => Some s | inr _ => None end) l.
Definition blockers_of (l : list (_SlidePlan + SlideshowBlocker)) : list SlideshowBlocker :=
  omap (λ x, match x with inl _ => None | inr b => Some b end) l.

(** The outcomes of the specs, in order. *)
Definition plan_specs (m : Media) (profile_id : option uuid) (emit_clip : bool) (specs : list _SlideSpec)
    : list (_SlidePlan + SlideshowBlocker) :=
  let rows := variant_rows m profile_id (ss_source_asset_id <$> specs) in
  plan_one m profile_id emit_clip (first_by_source (filter (λ v, v_status v = V_READY) rows))
    (first_by_source rows) <$> specs.

Definition plan_slideshow (m : Media) (asset : Asset) (profile_id : option uuid)
    (local_now : option datetime) (emit_windows emit_clip : bool) : result exn SlideshowPlan :=
  specs ← _load_slide_specs m asset local_now emit_windows;
  let l := plan_specs m profile_id emit_clip specs in
  Ok (mkPlan (slides_of l) (blockers_of l)).

(** ** The manifest *)

Definition int_of_bool (b : bool) : string := if b then "1" else "0".

(** The text one slide adds to the hashed manifest. *)
Definition slide_text (emit_windows : bool) (s : _SlidePlan) : string :=
  "|" +:+ Z_str (sp_position s) +:+ "|" +:+ sp_source_asset_id s +:+ "|" +:+ f_checksum (sp_file s) +:+ "|" +:+
  Z_str (sp_duration_ms s) +:+ "|" +:+ int_of_bool (sp_play_to_end s) +:+ "|" +:+ sp_transition s +:+ "|" +:+
  Z_str (sp_transition_ms s) +:+ "|" +:+ sp_fit s +:+ "|" +:+ sp_effect s +:+ "|" +:+ sp_effect_direction s +:+
  (if sp_clip_start_ms s =? 0 then "" else "|clip=" +:+ Z_str (sp_clip_start_ms s)) +:+
  String.concat "" ((λ sib, "|sib|" +:+ sb_source_asset_id sib +:+ "|" +:+ sb_checksum sib) <$> sp_siblings s) +:+
  (if emit_windows then
     let w := _window_wire_fields (sp_window s) in
     "|w|" +:+ default "" (w_valid_from w) +:+ "|" +:+ default "" (w_valid_to w) +:+ "|" +:+
     String.concat "," (Z_str <$> default [] (w_active_days w)) +:+ "|" +:+
     default "" (w_active_start w) +:+ "|" +:+ default "" (w_active_end w)
   else "").

(** The bytes given to SHA-256. *)
Definition manifest_text (asset_checksum : string) (slides : list _SlidePlan) (shuffle emit_windows : bool) : string :=
  asset_checksum +:+ "|shuffle=" +:+ int_of_bool shuffle +:+
  String.concat "" (slide_text emit_windows <$> slides).

(** Wire messages (cms/schemas/protocol.py). *)
Record Sibling := mkSib {
  sib_name : string; sib_asset_type : string; sib_download_url : string; sib_checksum : string; sib_size_bytes : Z
}.
Record SlideDescriptor := mkDescriptor {
  sd_asset_name : string; sd_asset_type : string; sd_download_url : string; sd_checksum : string;
  sd_size_bytes : Z; sd_duration_ms : Z; sd_play_to_end : bool; sd_clip_start_ms : Z;
  sd_transition : string; sd_transition_ms : Z; sd_fit : string; sd_effect : string; sd_effect_direction : string;
  sd_siblings : option (list Sibling); sd_window : WindowWire
}.
Record FetchAssetMessage := mkFetch {
  fm_asset_name : string; fm_download_url : string; fm_checksum : string; fm_size_bytes : Z;
  fm_asset_type : string; fm_slides : list SlideDescriptor; fm_manifest_schema_version : string;
  fm_cycle_duration_ms : Z; fm_started_at : option string; fm_shuffle : bool; fm_shuffle_seed : option Z
}.

Definition SLIDESHOW_MANIFEST_SCHEMA_VERSION_LATEST : string := "1.6".

(** [dt.isoformat(timespec="milliseconds")] of a UTC instant in milliseconds,
    with [Z] for the offset. *)
Definition pad3 (n : Z) : string := digit (n / 100) +:+ pad2 (n mod 100).
Definition isoformat_ms_Z (ms : Z) : string :=
  let d := utc_datetime (ms * 1000) in
  date_isoformat (dt_date d) +:+ "T" +:+ strftime_HMS (dt_time d) +:+ "." +:+
  pad3 (microsecond (dt_time d) / 1000) +:+ "Z".

(** The boundary of the cycle that contains [now_ms]. *)
Definition cycle_floor (now_ms cycle_duration_ms : Z) : Z :=
  now_ms / cycle_duration_ms * cycle_duration_ms.

Definition _compute_cycle_anchor (now_ms cycle_duration_ms : Z) : option string :=
  if cycle_duration_ms <=? 0 then None
  else Some (isoformat_ms_Z (cycle_floor now_ms cycle_duration_ms)).

(** [anchor] is the persisted instant in microseconds. *)
Definition _format_anchor (anchor : Z) : string := isoformat_ms_Z (anchor / 1000).

Definition wire_asset_type (t : AssetType) : string :=
  match t with COMPOSED => "composed" | VIDEO | SAVED_STREAM => "video" | _ => "image" end.

(** The two hexadecimal digits of a byte. *)
Definition hex_digit (n : N) : ascii := ascii_of_N (if (n <? 10)%N then 48 + n else 87 + n).
Fixpoint hexdigest (s : string) : string :=
  match s with
  | EmptyString => EmptyString
  | String c s' => let n := N_of_ascii c in
      String (hex_digit (n / 16)%N) (String (hex_digit (n mod 16)%N) (hexdigest s'))
  end.

(** [int.from_bytes(s[:n], "big")]. *)
Fixpoint from_bytes (n : nat) (s : string) (acc : Z) : Z :=
  match n, s with
  | S n', String c s' => from_bytes n' s' (acc * 256 + Z.of_N (N_of_ascii c))
  | _, _ => acc
  end.

(** [uuid.UUID(s).bytes] of a canonical text. *)
Definition hex_value (c : ascii) : option N :=
  let n := N_of_ascii c in
  if ((48 <=? n) && (n <=? 57))%N then Some (n - 48)%N
  else if ((97 <=? n) && (n <=? 102))%N then Some (n - 87)%N else None.
Fixpoint unhex (s : string) (high : option N) : string :=
  match s with
  | EmptyString => EmptyString
  | String c s' =>
      match hex_value c, high with
      | None, _ => unhex s' high
      | Some v, None => unhex s' (Some v)
      | Some v, Some h => String (ascii_of_N (h * 16 + v)) (unhex s' None)
      end
  end.
Definition uuid_bytes (u : uuid) : string := unhex u None.

Section fetch.
Context (sha256 : string → string).                  (* raw digest *)
Context (device_download_url : string → string → string).  (* the storage backend *)

Definition _compute_resolved_manifest_checksum (asset_checksum : string) (slides : list _SlidePlan)
    (shuffle emit_windows : bool) : string :=
  hexdigest (sha256 (manifest_text asset_checksum slides shuffle emit_windows)).

Definition resolved_slideshow_checksum (m : Media) (asset : Asset) (profile_id : option uuid)
    (local_now : option datetime) (emit_windows emit_clip : bool) : result exn (option string) :=
  plan ← plan_slideshow m asset profile_id local_now emit_windows emit_clip;
  Ok (if ready plan
      then Some (_compute_resolved_manifest_checksum (a_checksum asset) (pl_slides plan)
                   (a_shuffle asset) emit_windows)
      else None).

Definition _shuffle_seed_for_asset (asset_id : uuid) : Z :=
  Z.land (from_bytes 4 (sha256 (uuid_bytes asset_id)) 0) 0x7FFFFFFF.

Definition descriptor (base_url : string) (emit_windows : bool) (sp : _SlidePlan) : SlideDescriptor :=
  let url path api := device_download_url path (base_url +:+ api) in
  mkDescriptor (sp_source_filename sp) (wire_asset_type (sp_source_asset_type sp))
    (url (f_download_path (sp_file sp)) (f_api_url_path (sp_file sp)))
    (f_checksum (sp_file sp)) (f_size_bytes (sp_file sp)) (sp_duration_ms sp) (sp_play_to_end sp)
    (sp_clip_start_ms sp) (sp_transition sp) (sp_transition_ms sp) (sp_fit sp) (sp_effect sp)
    (sp_effect_direction sp)
    (match sp_siblings sp with
     | [] => None
     | l => Some ((λ s, mkSib (sb_filename s) (sb_asset_type_value s)
                          (url (sb_download_path s) (sb_api_url_path s)) (sb_checksum s) (sb_size_bytes s)) <$> l)
     end)
    (_window_wire_fields (if emit_windows then sp_window sp else _EMPTY_WINDOW)).

Definition sum_durations (slides : list _SlidePlan) : Z := foldr (λ s n, sp_duration_ms s + n) 0 slides.

Definition build_fetch_for_slideshow (m : Media) (asset : Asset) (profile_id : option uuid)
    (base_url : string) (now_ms : Z) (local_now : option datetime) (emit_windows emit_clip : bool)
    : result exn (option FetchAssetMessage) :=
  plan ← plan_slideshow m asset profile_id local_now emit_windows emit_clip;
  if negb (ready plan) then Ok None
  else
    let cycle_duration_ms := sum_durations (pl_slides plan) in
    Ok (Some {|
      fm_asset_name := a_filename asset;
      fm_download_url := "";
      fm_checksum := _compute_resolved_manifest_checksum (a_checksum asset) (pl_slides plan)
                       (a_shuffle asset) emit_windows;
      fm_size_bytes := 0;
      fm_asset_type := AssetType_value SLIDESHOW;
      fm_slides := descriptor base_url emit_windows <$> pl_slides plan;
      fm_manifest_schema_version := SLIDESHOW_MANIFEST_SCHEMA_VERSION_LATEST;
      fm_cycle_duration_ms := cycle_duration_ms;
      fm_started_at := match a_slideshow_anchor_at asset with
                       | Some anchor => Some (_format_anchor anchor)
                       | None => _compute_cycle_anchor now_ms cycle_duration_ms
                       end;
      fm_shuffle := a_shuffle asset;
      fm_shuffle_seed := if a_shuffle asset then Some (_shuffle_seed_for_asset (a_id asset)) else None |}).
End fetch.

(** The summary of the API and the builder: ready, and the blockers as they are. *)
Definition slideshow_readiness (m : Media) (asset : Asset) (profile_id : option uuid)
    : result exn (bool * list SlideshowBlocker) :=
  plan ← plan_slideshow m asset profile_id None false false;
  Ok (ready plan, pl_blockers plan).

(** ** Specification *)

(** Microseconds into the day at which the daily window opens and closes; it
    closes on the next day when it wraps. *)
Definition opens_us (w : SlideWindow) : Z :=
  match active_start w with Some s => time_us s | None => 0 end.
Definition closes_us (w : SlideWindow) : Z :=
  match active_end w with
  | Some e => time_us e + (if time_us e <? opens_us w then DAY_US else 0)
  | None => DAY_US
  end.

Definition day_active (w : SlideWindow) (d : date) : Prop :=
  match active_days w with Some (x :: l) => weekday d ∈ x :: l | _ => True end.

(** The window opened on some active day contains instant [t]. *)
Definition slide_covers (w : SlideWindow) (t : Z) : Prop :=
  ∃ a, day_active w a ∧ a * DAY_US + opens_us w ≤ t < a * DAY_US + closes_us w.

(** The constraints of the table: well-formed, non-degenerate times. *)
Record slide_window_ok (w : SlideWindow) : Prop := {
  swk_start : ∀ s, active_start w = Some s → time_ok s = true;
  swk_end : ∀ e, active_end w = Some e → time_ok e = true;
  swk_ne : ∀ s e, active_start w = Some s → active_end w = Some e → time_us s ≠ time_us e
}.

(** How long a device shows a slide: a slide that plays to its end runs for
    what is left of the source after the offset. *)
Definition on_screen_ms (real : Z) (emitted : Z * bool * Z) : Z :=
  let '(dur, pte, start) := emitted in if (pte : bool) then real - start else dur.

(** The file a device of profile [pid] gets for the file asset [a]. *)
Definition best_file (m : Media) (pid : uuid) (a : Asset) (f : FileRef) : Prop :=
  (∃ v, f = variant_file v ∧ v_profile_id v = pid ∧
        newest (λ v, is_live v && is_ready v && bool_decide (v_source_asset_id v = a_id a)) (m_variants m) v) ∨
  (live_variants m (a_id a) pid = [] ∧ f = source_file a).

(** ** Lemmas *)

Lemma dt_add_yesterday now :
  datetime_ok now = true → date_min < dt_date now →
  dt_add now (- DAY_US) = Ok (Datetime (dt_date now - 1) (dt_time now)).
Proof.
  intros [Hd Ht]%andb_true_iff Hmin. pose proof (time_us_range _ Ht) as Hr.
  unfold dt_add, dt_of_us. cbn [dt_date].
  assert ((dt_us now + - DAY_US) / DAY_US = dt_date now - 1) as -> by (unfold dt_us, DAY_US in *; zdm).
  assert ((dt_us now + - DAY_US) mod DAY_US = time_us (dt_time now)) as -> by (unfold dt_us, DAY_US in *; zdm).
  rewrite time_of_us_us by done. unfold date_ok in *. bool_to_prop.
  rewrite (proj2 (Z.leb_le _ _)), (proj2 (Z.leb_le _ _)); [done|lia|lia].
Qed.

(** Time [t] of a day belongs to the window opened the day before. *)
Definition in_tail (w : SlideWindow) (t : Z) : bool :=
  bool_decide (DAY_US < closes_us w) && (t <? closes_us w - DAY_US).

(** The day whose window can contain an instant of day [d]: [d] itself or, in
    the tail of a wrapped window, the day before. *)
Lemma slide_covers_day w d t :
  slide_window_ok w → 0 ≤ t < DAY_US →
  slide_covers w (d * DAY_US + t) ↔
  (in_tail w t = true ∧ day_active w (d - 1)) ∨
  (in_tail w t = false ∧ day_active w d ∧ opens_us w ≤ t < closes_us w).
Proof.
  intros Hw Ht.
  assert (0 ≤ opens_us w < DAY_US) as Ho.
  { unfold opens_us. destruct (active_start w) eqn:Hs; [|unfold DAY_US; lia].
    by apply time_us_range, (swk_start _ Hw). }
  assert (closes_us w ≤ DAY_US ∨ DAY_US ≤ closes_us w < opens_us w + DAY_US) as Hc.
  { unfold closes_us. destruct (active_end w) as [e|] eqn:He; [|lia].
    pose proof (time_us_range e (swk_end _ Hw _ He)). destruct (Z.ltb_spec (time_us e) (opens_us w)); lia. }
  assert (∀ a, a * DAY_US + opens_us w ≤ d * DAY_US + t < a * DAY_US + closes_us w → a = d ∨ a = d - 1) as Ha
    by (unfold DAY_US in *; lia).
  trans (if in_tail w t then day_active w (d - 1) else day_active w d ∧ opens_us w ≤ t < closes_us w);
    [|destruct (in_tail w t); naive_solver].
  unfold slide_covers, in_tail. case_bool_decide as Hwrap; simpl.
  - destruct (Z.ltb_spec t (closes_us w - DAY_US)) as [Hlt|Hge].
    + split; [|intros Had; exists (d - 1); unfold DAY_US in *; (split; [done|lia])].
      intros (a & Had & Hin). destruct (Ha a Hin) as [->| ->]; [unfold DAY_US in *; lia|done].
    + split; [|intros [Had ?]; exists d; unfold DAY_US in *; (split; [done|lia])].
      intros (a & Had & Hin). destruct (Ha a Hin) as [->| ->]; unfold DAY_US in *; (split; [done|lia]) || lia.
  - split; [|intros [Had ?]; exists d; unfold DAY_US in *; (split; [done|lia])].
    intros (a & Had & Hin). destruct (Ha a Hin) as [->| ->]; unfold DAY_US in *; (split; [done|lia]) || lia.
Qed.

Lemma day_active_bool w d :
  match active_days w with Some (x :: l) => negb (bool_decide (weekday d ∈ x :: l)) | _ => false end = false
  ↔ day_active w d.
Proof.
  unfold day_active. destruct (active_days w) as [[|x l]|]; [done| |done].
  by rewrite negb_false_iff, bool_decide_eq_true.
Qed.

Lemma specs_loop_positions m now ew pos rows specs :
  specs_loop m now ew pos rows = Ok specs → ss_position <$> specs = seqZ pos (Z.of_nat (length specs)).
Proof.
  assert (∀ row win idx ids pos, ss_position <$> member_specs row win idx pos ids = seqZ pos (Z.of_nat (length ids))
    ∧ length (member_specs row win idx pos ids) = length ids) as Hmem.
  { intros row win idx ids. revert idx. induction ids as [|a ids IH]; intros idx p; [done|].
    cbn [member_specs]. destruct (IH (S idx) (p + 1)) as [IH1 IH2]. destruct idx; rewrite fmap_cons, IH1; simpl;
      rewrite IH2; (split; [|done]); rewrite (seqZ_cons p) by lia; f_equal; f_equal; lia. }
  assert (∀ win p row, ss_position <$> row_specs m win p row = seqZ p (Z.of_nat (length (row_specs m win p row)))) as Hrow.
  { intros win p row. unfold row_specs. destruct (sl_kind row) as [[aid|]|[t|]]; [|done| |done].
    - simpl. by rewrite (seqZ_cons p) by lia.
    - destruct (Hmem row win 0%nat (expand_tag_members m t) p) as [H1 H2]. by rewrite H1, H2. }
  revert pos specs. induction rows as [|row rows IH]; intros pos specs; simpl; [by intros [= <-]|].
  destruct (match ew, now with false, Some n => _ | _, _ => _ end) as [show|]; simpl; [|done].
  set (here := if show then row_specs m _ pos row else []).
  destruct (specs_loop m now ew _ rows) as [l|] eqn:Hl; simpl; [|done]. intros [= <-].
  rewrite fmap_app, (IH _ _ Hl), length_app, Nat2Z.inj_add, seqZ_app by lia. f_equal.
  unfold here. destruct show; [apply Hrow|done].
Qed.

Lemma plan_one_position m pid ec r l spec :
  match plan_one m pid ec r l spec with inl s => sp_position s | inr b => bl_slide_position b end = ss_position spec.
Proof.
  unfold plan_one. destruct (list_find _ _) as [[? src]|]; [|done]. case_bool_decide; [done|].
  destruct (_effective_slide_playback _ _ _ _) as [[]]. by destruct (resolve_source _ _ _ _ _) as [[]|].
Qed.

(** The outcomes split into slides and blockers without loss. *)
Lemma partition_outcomes (l : list (_SlidePlan + SlideshowBlocker)) (P : _SlidePlan + SlideshowBlocker → Z) :
  ((λ s, P (inl s)) <$> slides_of l) ++ ((λ b, P (inr b)) <$> blockers_of l) ≡ₚ P <$> l.
Proof.
  induction l as [|[s|b] l IH]; [done|..].
  - change (slides_of (inl s :: l)) with (s :: slides_of l). change (blockers_of (inl s :: l)) with (blockers_of l).
    rewrite !fmap_cons. simpl. by rewrite IH.
  - change (slides_of (inr b :: l)) with (slides_of l). change (blockers_of (inr b :: l)) with (b :: blockers_of l).
    rewrite !fmap_cons, <- IH. by rewrite Permutation_middle.
Qed.

Lemma blockers_nil l : blockers_of l = [] → inl <$> slides_of l = l.
Proof.
  induction l as [|[s|b] l IH]; [done| |done].
  change (slides_of (inl s :: l)) with (s :: slides_of l). change (blockers_of (inl s :: l)) with (blockers_of l).
  intros ?. rewrite fmap_cons. by rewrite IH.
Qed.

Lemma ready_spec p : ready p = true ↔ pl_slides p ≠ [] ∧ pl_blockers p = [].
Proof.
  unfold ready. rewrite andb_true_iff, negb_true_iff, bool_decide_eq_false, bool_decide_eq_true.
  rewrite length_zero_iff_nil, length_zero_iff_nil. done.
Qed.

Lemma newer_first_total x y : newer_first x y = true ∨ newer_first y x = true.
Proof.
  unfold newer_first. rewrite !negb_true_iff, <- !not_true_iff_false.
  destruct (supersedes y x) eqn:H1; [|auto]. right. intros H2.
  pose proof (supersedes_trans _ _ _ H1 H2). by rewrite supersedes_irrefl in *.
Qed.

Lemma newer_first_spec x y :
  newer_first x y = true ↔
  v_created_at y < v_created_at x ∨ (v_created_at y = v_created_at x ∧ (v_id x <s v_id y) = false).
Proof.
  unfold newer_first. rewrite negb_true_iff, <- not_true_iff_false, supersedes_spec, <- not_true_iff_false.
  destruct (Z.lt_trichotomy (v_created_at y) (v_created_at x)) as [?|[?|?]]; naive_solver lia.
Qed.

Lemma newer_first_trans : Transitive (λ x y, newer_first x y = true).
Proof.
  intros x y z. rewrite !newer_first_spec. intros [?|[? H1]] [?|[? H2]]; try (left; lia).
  right. split; [lia|]. apply not_true_iff_false. intros H3.
  destruct (str_ltb_total (v_id x) (v_id y)) as [?|[He|Hyx]]; [congruence|congruence|].
  pose proof (str_ltb_trans _ _ _ Hyx H3). congruence.
Qed.

(** In newest-first order the first row that satisfies a condition is the
    newest one that does. *)
Lemma first_newest (P : AssetVariant → Prop) `{∀ v, Decision (P v)} l i v :
  NoDup (v_id <$> l) → list_find P (sort_on newer_first l) = Some (i, v) →
  v ∈ l ∧ P v ∧ ∀ u, u ∈ l → P u → u = v ∨ supersedes v u = true.
Proof.
  intros Hnd Hf. pose proof Hf as (Hi & HP & Hmin)%list_find_Some.
  assert (∀ u, u ∈ sort_on newer_first l ↔ u ∈ l) as Hin by (intros u; by rewrite sort_on_Permutation).
  split_and!; [by eapply Hin, list_elem_of_lookup_2|done|]. intros u Hu HPu.
  assert (Sorted (λ x y, newer_first x y = true) (sort_on newer_first l)) as Hs
    by apply sort_on_Sorted, newer_first_total.
  apply Hin, list_elem_of_lookup in Hu as [j Hj].
  assert (u ∈ l) as Hul by by eapply Hin, list_elem_of_lookup_2.
  assert (v ∈ l) as Hvl by by eapply Hin, list_elem_of_lookup_2.
  destruct (decide (i = j)) as [->|Hij]; [left; congruence|].
  assert (i < j)%nat as Hlt.
  { destruct (decide (j < i)%nat); [|lia]. exfalso. by apply (Hmin j u). }
  apply Sorted_StronglySorted in Hs; [|apply newer_first_trans].
  pose proof (StronglySorted_lookup _ _ i j v u Hs Hlt Hi Hj) as Hvu. cbv beta in Hvu.
  apply newer_first_spec in Hvu.
  destruct (supersedes_total l Hnd v u Hvl Hul) as [->|[?|Huv]]; [auto|auto|].
  apply supersedes_spec in Huv. destruct Hvu as [?|[? ?]], Huv as [?|[? ?]]; congruence || lia.
Qed.

(** The tables hold the first row of every source. *)
Lemma first_by_source_lookup rows sid :
  first_by_source rows !! sid = snd <$> list_find (λ v, v_source_asset_id v = sid) rows.
Proof.
  unfold first_by_source.
  enough (∀ m : gmap uuid AssetVariant,
    fold_left (λ m v, match m !! v_source_asset_id v with
                      | None => <[v_source_asset_id v := v]> m | Some _ => m end) rows m !! sid =
    match m !! sid with Some v => Some v | None => snd <$> list_find (λ v, v_source_asset_id v = sid) rows end)
    as Hgen by by rewrite Hgen, lookup_empty.
  induction rows as [|v rows IH]; intros m; simpl; [by destruct (m !! sid)|].
  rewrite IH. case_decide as Hs.
  - subst. destruct (m !! v_source_asset_id v) eqn:Hm; [by rewrite Hm|by rewrite lookup_insert_eq].
  - assert ((match m !! v_source_asset_id v with
             | None => <[v_source_asset_id v := v]> m | Some _ => m end) !! sid = m !! sid) as ->.
    { destruct (m !! v_source_asset_id v); [done|]. by rewrite lookup_insert_ne. }
    destruct (m !! sid); [done|]. by destruct (list_find _ rows) as [[]|].
Qed.

Lemma live_variants_nil m aid pid v :
  live_variants m aid pid = [] → v ∈ m_variants m → v_source_asset_id v = aid → v_profile_id v = pid →
  v_deleted_at v ≠ None.
Proof.
  intros Hnil Hv Ha Hp Hd. assert (v ∈ live_variants m aid pid) as Hin by by apply list_elem_of_filter.
  rewrite Hnil in Hin. by apply elem_of_nil in Hin.
Qed.

(** What [resolve_source] picks for a file asset. *)
Lemma resolve_source_best m pid ids src f sibs :
  NoDup (v_id <$> m_variants m) → a_id src ∈ ids → is_file_asset (a_asset_type src) = true →
  resolve_source m (Some pid) (first_by_source (filter (λ v, v_status v = V_READY) (variant_rows m (Some pid) ids)))
    (first_by_source (variant_rows m (Some pid) ids)) src = inl (f, sibs) →
  best_file m pid src f.
Proof.
  intros Hnd Hids Hfile. unfold resolve_source.
  rewrite bool_decide_false by (intros Hc; by rewrite Hc in Hfile).
  rewrite bool_decide_true by done. rewrite Hfile. simpl.
  rewrite !first_by_source_lookup. unfold variant_rows.
  set (l := filter _ (m_variants m)).
  assert (NoDup (v_id <$> l)) as Hndl by by apply NoDup_fmap_filter.
  assert (∀ u, u ∈ l ∧ v_source_asset_id u = a_id src ↔
    u ∈ m_variants m ∧ v_source_asset_id u = a_id src ∧ v_profile_id u = pid ∧ v_deleted_at u = None) as Hl.
  { intros u. unfold l. rewrite list_elem_of_filter. split; [naive_solver|].
    intros (? & Hs & ? & ?). by rewrite Hs. }
  destruct (list_find _ (filter _ _)) as [[i v]|] eqn:Hr; simpl.
  - intros [= <- <-]. left. exists v.
    assert (∃ j, list_find (λ v, v_status v = V_READY ∧ v_source_asset_id v = a_id src) (sort_on newer_first l)
                 = Some (j, v)) as [j Hj] by by eapply list_find_filter.
    apply first_newest in Hj as (Hv & [Hst Hsrc] & Hbest); [|done].
    pose proof (proj1 (Hl v) (conj Hv Hsrc)) as (Hvm & _ & Hp & Hd). split_and!; [done|done|].
    split_and!; [done| |].
    + unfold is_live, is_ready. rewrite !bool_decide_true by done. done.
    + intros u Hu Hk Hpu. unfold is_live, is_ready in Hk. bool_to_prop.
      assert (u ∈ l ∧ v_source_asset_id u = a_id src) as [Hul _] by (apply Hl; split_and!; congruence).
      by apply Hbest.
  - destruct (list_find _ (sort_on newer_first l)) as [[i v]|] eqn:Ha; simpl; [done|].
    intros [= <- <-]. right. split; [|done]. apply list_find_None in Ha. rewrite Forall_forall in Ha.
    apply filter_nil_intro. intros u Hu (Hs & Hp & Hd). apply (Ha u); [|done].
    rewrite sort_on_Permutation. by apply Hl.
Qed.

Lemma concat_app l1 l2 : String.concat "" (l1 ++ l2) = String.concat "" l1 +:+ String.concat "" l2.
Proof.
  induction l1 as [|x l1 IH]; [done|]. change ((x :: l1) ++ l2) with (x :: (l1 ++ l2)).
  by rewrite !concat_cons, IH, str_app_assoc.
Qed.

Lemma fold_bump_sum {A} (step : gmap uuid Z → A → gmap uuid Z) (weight : A → Z) (sid : uuid) rows counts :
  (∀ c r, r ∈ rows → default 0 (step c r !! sid) = default 0 (c !! sid) + weight r) →
  default 0 (fold_left step rows counts !! sid) =
  default 0 (counts !! sid) + foldr (λ r n, weight r + n) 0 rows.
Proof.
  revert counts. induction rows as [|r rows IH]; intros counts Hstep; simpl; [lia|].
  rewrite IH by (intros; apply Hstep; by right). rewrite Hstep by left. lia.
Qed.

Lemma default_bump c k n sid :
  default 0 (bump c k n !! sid) = default 0 (c !! sid) + (if decide (k = sid) then n else 0).
Proof.
  unfold bump. case_decide as Hk; [subst; by rewrite lookup_insert_eq|].
  rewrite lookup_insert_ne by done. lia.
Qed.

Lemma default_zero_counts ids sid : default 0 (zero_counts ids !! sid) = 0.
Proof.
  unfold zero_counts, dict_of, dict_update.
  enough (∀ m : gmap uuid Z, default 0 (m !! sid) = 0 →
    default 0 (fold_left (λ m kv, <[kv.1 := kv.2]> m) ((λ sid, (sid, 0)) <$> ids) m !! sid) = 0) as Hg
    by by apply Hg; rewrite lookup_empty.
  induction ids as [|x ids IH]; intros m Hm; [done|]. simpl. apply IH.
  destruct (decide (x = sid)) as [->|]; [by rewrite lookup_insert_eq|by rewrite lookup_insert_ne].
Qed.

Lemma foldr_sum_filter {A} (w : A → Z) (P : A → Prop) `{∀ x, Decision (P x)} rows :
  (∀ r, ¬ P r → w r = 0) → foldr (λ r n, w r + n) 0 (filter P rows) = foldr (λ r n, w r + n) 0 rows.
Proof.
  intros Hw. induction rows as [|r rows IH]; [done|]. rewrite filter_cons. simpl.
  case_decide; simpl; rewrite IH; [done|]. by rewrite (Hw r).
Qed.

Lemma foldr_sum_Permutation {A} (w : A → Z) l1 l2 :
  l1 ≡ₚ l2 → foldr (λ r n, w r + n) 0 l1 = foldr (λ r n, w r + n) 0 l2.
Proof. induction 1; simpl; lia. Qed.

(** The number of slides one row expands to. *)
Definition row_weight (m : Media) (r : SlideshowSlide) : Z :=
  match sl_kind r with
  | K_ASSET _ => 1
  | K_TAG (Some t) => member_count m t
  | K_TAG None => 0
  end.

Lemma member_specs_length row win idx pos ids : length (member_specs row win idx pos ids) = length ids.
Proof.
  revert idx pos. induction ids as [|a ids IH]; intros idx pos; simpl; [done|]. destruct idx; simpl; by rewrite IH.
Qed.

Lemma row_specs_weight m win pos r :
  sl_kind r ≠ K_ASSET None → Z.of_nat (length (row_specs m win pos r)) = row_weight m r.
Proof.
  unfold row_specs, row_weight. destruct (sl_kind r) as [[aid|]|[t|]]; [done|done| |done]. intros _.
  rewrite member_specs_length. unfold expand_tag_members, member_count.
  by rewrite length_fmap, sort_on_Permutation.
Qed.

(** The deck shown to the API, without window drop, has one spec per member. *)
Lemma specs_loop_all m pos rows :
  (∀ r, r ∈ rows → sl_kind r ≠ K_ASSET None) →
  ∃ specs, specs_loop m None false pos rows = Ok specs ∧
           Z.of_nat (length specs) = foldr (λ r n, row_weight m r + n) 0 rows.
Proof.
  revert pos. induction rows as [|r rows IH]; intros pos Hk; simpl; [by eexists|].
  destruct (IH (pos + Z.of_nat (length (row_specs m _EMPTY_WINDOW pos r)))) as (l & -> & Hl);
    [intros; apply Hk; by right|].
  simpl. eexists. split; [done|]. rewrite length_app, Nat2Z.inj_add, Hl, row_specs_weight by (apply Hk; left). done.
Qed.

(** ** Theorems *)

(**  [_slide_window_open] decides the window exactly: it never raises (after
    0001-01-01) and says open iff the local date lies in the date range and
    the instant lies in the window opened on an active day, today or, for the
    tail of a window that wraps past midnight, yesterday. *)
Theorem slide_window_open_exact (w : SlideWindow) (now : datetime) :
  slide_window_ok w → datetime_ok now = true → date_min < dt_date now →
  ∃ r, _slide_window_open w now = Ok r ∧
       (r = true ↔ in_range (valid_from w) (valid_to w) (dt_date now) ∧ slide_covers w (dt_us now)).
Proof.
  intros Hw Hnow Hmin. pose proof Hnow as [_ Ht%time_us_range]%andb_true_iff.
  pose proof (in_range_bool (valid_from w) (valid_to w) (dt_date now)) as Hrange.
  pose proof (slide_covers_day w (dt_date now) _ Hw Ht) as Hcov. fold (dt_us now) in Hcov.
  rewrite <- (day_active_bool w (dt_date now)), <- (day_active_bool w (dt_date now - 1)) in Hcov.
  enough (∃ r, _slide_window_open w now = Ok r ∧ (r = true ↔
    (match valid_from w with Some f => dt_date now <? f | None => false end = false ∧
     match valid_to w with Some u => u <? dt_date now | None => false end = false) ∧
    ((in_tail w (time_us (dt_time now)) = true ∧
      match active_days w with Some (x :: l) => negb (bool_decide (weekday (dt_date now - 1) ∈ x :: l)) | _ => false end = false) ∨
     (in_tail w (time_us (dt_time now)) = false ∧
      match active_days w with Some (x :: l) => negb (bool_decide (weekday (dt_date now) ∈ x :: l)) | _ => false end = false ∧
      opens_us w ≤ time_us (dt_time now) < closes_us w)))) as (r & Hr & Hiff).
  { exists r. split; [done|]. by rewrite Hiff, Hrange, Hcov. }
  clear Hrange Hcov. unfold _slide_window_open.
  destruct (match valid_from w with Some f => dt_date now <? f | None => false end);
    [exists false; naive_solver|].
  destruct (match valid_to w with Some u => u <? dt_date now | None => false end);
    [exists false; naive_solver|].
  rewrite dt_add_yesterday by done.
  unfold in_tail, closes_us, opens_us, time_ltb.
  set (t := time_us (dt_time now)) in *. set (d := dt_date now).
  set (day_closed := λ wd, match active_days w with
                           | Some (x :: l) => negb (bool_decide (wd ∈ x :: l)) | _ => false end).
  assert (∀ (c x : bool) (P : Prop), (x = true ↔ P) →
    ∃ r, (if c then Ok false else Ok x) = Ok (E := exn) r ∧ (r = true ↔ (false = false ∧ false = false) ∧ c = false ∧ P)) as Hif.
  { intros c x P HP. exists (negb c && x). split; [by destruct c|]. rewrite andb_true_iff, negb_true_iff. naive_solver. }
  destruct (active_start w) as [s|] eqn:Hs, (active_end w) as [e|] eqn:He.
  - pose proof (time_us_range s (swk_start _ Hw _ Hs)) as Hsr. pose proof (time_us_range e (swk_end _ Hw _ He)) as Her.
    pose proof (swk_ne _ Hw _ _ Hs He) as Hne.
    destruct (Z.ltb_spec (time_us e) (time_us s)) as [Hes|Hes]; simpl.
    + replace (time_us e + DAY_US - DAY_US) with (time_us e) by lia.
      rewrite (proj2 (Z.ltb_ge (time_us s) (time_us e))) by lia.
      destruct (Z.ltb_spec t (time_us e)); simpl.
      * rewrite bool_decide_true by lia. simpl.
        destruct (Hif (day_closed (weekday (d - 1))) (negb (t <? time_us s) || true) True) as (r & Hr1 & Hr);
          [by rewrite orb_true_r|]. exists r. split; [exact Hr1|]. rewrite Hr. unfold day_closed. naive_solver.
      * rewrite andb_false_r.
        destruct (Hif (day_closed (weekday d)) (negb (t <? time_us s) || false)
          (time_us s ≤ t < time_us e + DAY_US)) as (r & Hr1 & Hr).
        { rewrite orb_false_r, negb_true_iff, Z.ltb_ge. lia. } exists r. split; [exact Hr1|]. rewrite Hr. unfold day_closed. naive_solver.
    + rewrite Z.add_0_r, (bool_decide_false (DAY_US < time_us e)) by lia. simpl.
      rewrite (proj2 (Z.ltb_lt (time_us s) (time_us e))) by lia.
      destruct (Hif (day_closed (weekday d)) (negb (t <? time_us s) && (t <? time_us e))
        (time_us s ≤ t < time_us e)) as (r & Hr1 & Hr).
      { rewrite andb_true_iff, negb_true_iff, Z.ltb_ge, Z.ltb_lt. lia. } exists r. split; [exact Hr1|]. rewrite Hr. unfold day_closed. naive_solver.
  - simpl.
    destruct (Hif (day_closed (weekday d)) (negb (t <? time_us s)) (time_us s ≤ t < DAY_US)) as (r & Hr1 & Hr).
    { rewrite negb_true_iff, Z.ltb_ge. lia. } exists r. split; [exact Hr1|]. rewrite Hr. unfold day_closed. naive_solver.
  - pose proof (time_us_range e (swk_end _ Hw _ He)) as Her.
    rewrite (proj2 (Z.ltb_ge (time_us e) 0)), Z.add_0_r by lia. simpl. rewrite bool_decide_false by lia. simpl.
    destruct (Hif (day_closed (weekday d)) (t <? time_us e) (0 ≤ t < time_us e)) as (r & Hr1 & Hr).
    { rewrite Z.ltb_lt. lia. } exists r. split; [exact Hr1|]. rewrite Hr. unfold day_closed. naive_solver.
  - simpl.
    destruct (Hif (day_closed (weekday d)) true (0 ≤ t < DAY_US)) as (r & Hr1 & Hr); [naive_solver|].
    exists r. split; [exact Hr1|]. rewrite Hr. unfold day_closed. naive_solver.
Qed.

(**  [expired_slide_counts] counts, per slideshow, exactly the slides whose
    last date has passed, and such a slide is closed at every later instant. *)
Theorem expired_counts_exact (m : Media) (ids : list uuid) (today : date) (sid : uuid) :
  sid ∈ ids →
  default 0 (expired_slide_counts m ids today !! sid) =
    Z.of_nat (length (filter (λ r, sl_slideshow_asset_id r = sid ∧ is_expired today r = true) (m_slides m))) ∧
  ∀ r now, is_expired today r = true → today ≤ dt_date now → _slide_window_open (sl_window r) now = Ok false.
Proof.
  intros Hsid. split.
  - unfold expired_slide_counts. rewrite bool_decide_false by (by intros ->; apply elem_of_nil in Hsid).
    rewrite (fold_bump_sum _ (λ r, if decide (sl_slideshow_asset_id r = sid) then 1 else 0) sid)
      by (intros; apply default_bump).
    rewrite default_zero_counts. induction (m_slides m) as [|r l IH]; [done|].
    rewrite !filter_cons. destruct (decide (sl_slideshow_asset_id r = sid)) as [Hr|Hr].
    + destruct (is_expired today r) eqn:He.
      * rewrite !decide_True by (split; congruence). simpl. rewrite decide_True by done. lia.
      * rewrite !decide_False by naive_solver. done.
    + rewrite (decide_False (P := sl_slideshow_asset_id r = sid ∧ _)) by naive_solver.
      case_decide; simpl; [rewrite decide_False by done|]; lia.
  - intros r now He Hd. unfold is_expired in He. unfold _slide_window_open.
    destruct (match valid_from (sl_window r) with Some f => _ | None => _ end); [done|].
    destruct (valid_to (sl_window r)) as [u|]; [|done]. apply Z.ltb_lt in He.
    by rewrite (proj2 (Z.ltb_lt u (dt_date now))) by lia.
Qed.

(**  [effective_slide_counts] agrees with the resolver: the count of a
    slideshow is the number of slides its deck expands to. *)
Theorem effective_counts_exact (m : Media) (ids : list uuid) (asset : Asset) :
  a_id asset ∈ ids → (∀ r, r ∈ m_slides m → sl_kind r ≠ K_ASSET None) →
  ∃ specs, _load_slide_specs m asset None false = Ok specs ∧
           default 0 (effective_slide_counts m ids !! a_id asset) = Z.of_nat (length specs).
Proof.
  intros Hid Hk. unfold _load_slide_specs.
  destruct (specs_loop_all m 0 (deck_rows m (a_id asset))) as (specs & Hs & Hlen).
  { intros r. unfold deck_rows. rewrite sort_by_Permutation, list_elem_of_filter. intros [_ ?]. by apply Hk. }
  exists specs. split; [done|]. rewrite Hlen. unfold deck_rows.
  rewrite (foldr_sum_Permutation _ _ _ (sort_by_Permutation sl_position _)).
  unfold effective_slide_counts. rewrite bool_decide_false by (intros ->; by apply elem_of_nil in Hid).
  set (sid := a_id asset) in *.
  pose (w1 r := if decide (sl_slideshow_asset_id r = sid) then match sl_kind r with K_ASSET _ => 1 | _ => 0 end else 0).
  pose (w2 r := if decide (sl_slideshow_asset_id r = sid) then
                  match sl_kind r with K_TAG (Some t) => member_count m t | _ => 0 end else 0).
  rewrite (fold_bump_sum _ w2 sid).
  2:{ intros c r _. unfold w2. destruct (sl_kind r) as [|[t|]]; rewrite ?default_bump; case_decide; lia. }
  rewrite (fold_bump_sum _ w1 sid).
  2:{ intros c r _. unfold w1. destruct (sl_kind r) as [|[t|]]; rewrite ?default_bump; case_decide; lia. }
  rewrite default_zero_counts.
  assert (∀ r, r ∈ m_slides m → w1 r + w2 r = if decide (sl_slideshow_asset_id r = sid) then row_weight m r else 0) as Hw.
  { intros r Hr. specialize (Hk r Hr). unfold w1, w2, row_weight. case_decide; [|lia].
    destruct (sl_kind r) as [[]|[]]; (lia || done). }
  clear Hk Hs Hlen. clearbody w1 w2. induction (m_slides m) as [|r l IH]; [done|]. rewrite !filter_cons.
  assert (∀ r, r ∈ l → w1 r + w2 r = if decide (sl_slideshow_asset_id r = sid) then row_weight m r else 0) as Hw'
    by (intros; apply Hw; by right). specialize (IH Hw'). specialize (Hw r (list_elem_of_here _ _)).
  destruct (decide (sl_slideshow_asset_id r = sid)) as [Hr|Hr].
  - rewrite decide_True by (by rewrite Hr). simpl. lia.
  - case_decide; [|lia]. simpl. lia.
Qed.

(** C32.  The planner loses nothing: the slides and the blockers of a plan
    together carry every position of the deck exactly once, numbered from 0,
    and a plan is ready iff the deck is not empty and every slide resolved, in
    the order of the deck. *)
Theorem plan_slideshow_complete (m : Media) (asset : Asset) (pid : option uuid) (now : option datetime)
    (ew ec : bool) (specs : list _SlideSpec) (plan : SlideshowPlan) :
  _load_slide_specs m asset now ew = Ok specs → plan_slideshow m asset pid now ew ec = Ok plan →
  (sp_position <$> pl_slides plan) ++ (bl_slide_position <$> pl_blockers plan)
    ≡ₚ seqZ 0 (Z.of_nat (length specs)) ∧
  (ready plan = true ↔ specs ≠ [] ∧ sp_position <$> pl_slides plan = seqZ 0 (Z.of_nat (length specs))).
Proof.
  intros Hs. unfold plan_slideshow. rewrite Hs. simpl. intros [= <-]. simpl.
  pose proof (specs_loop_positions _ _ _ _ _ _ Hs) as Hpos.
  set (l := plan_specs m pid ec specs).
  assert ((λ x, match x with inl s => sp_position s | inr b => bl_slide_position b end) <$> l
          = seqZ 0 (Z.of_nat (length specs))) as Hl.
  { unfold l, plan_specs. rewrite <- list_fmap_compose, <- Hpos. apply list_fmap_ext.
    intros i x Hx. simpl. apply plan_one_position. }
  pose proof (partition_outcomes l (λ x, match x with inl s => sp_position s | inr b => bl_slide_position b end)) as Hpart.
  rewrite Hl in Hpart. split; [exact Hpart|]. rewrite ready_spec. simpl. split.
  - intros [Hne Hnil]. pose proof (blockers_nil _ Hnil) as Hb. split.
    + intros ->. done.
    + rewrite <- Hl. rewrite <- Hb at 2. by rewrite <- list_fmap_compose.
  - intros [Hne Heq].
    assert (length (slides_of l) = length specs) as Hlen.
    { apply (f_equal length) in Heq. by rewrite length_fmap, length_seqZ, Nat2Z.id in Heq. }
    apply Permutation_length in Hpart. rewrite length_app, !length_fmap, length_seqZ, Nat2Z.id in Hpart.
    split; [intros Hn; rewrite Hn in Hlen; destruct specs; done|].
    apply length_zero_iff_nil. lia.
Qed.

(**  Every planned slide shows an asset that is not deleted, and for a file
    asset on a device with a profile its file is the newest live ready variant
    of that profile, or the source when the profile has no live variant. *)
Theorem plan_slideshow_files (m : Media) (asset : Asset) (pid : uuid) (now : option datetime)
    (ew ec : bool) (plan : SlideshowPlan) (s : _SlidePlan) :
  NoDup (v_id <$> m_variants m) →
  plan_slideshow m asset (Some pid) now ew ec = Ok plan → s ∈ pl_slides plan →
  ∃ a, a ∈ m_assets m ∧ a_id a = sp_source_asset_id s ∧ a_deleted_at a = None ∧
       (is_file_asset (a_asset_type a) = true → best_file m pid a (sp_file s)).
Proof.
  intros Hnd. unfold plan_slideshow. destruct (_load_slide_specs m asset now ew) as [specs|]; simpl; [|done].
  intros [= <-] Hs. simpl in Hs. unfold slides_of in Hs. apply list_elem_of_omap in Hs as ([s'|] & Hin & Hx); [|done].
  injection Hx as ->. unfold plan_specs in Hin. apply list_elem_of_fmap in Hin as (spec & Hone & Hspec).
  unfold plan_one in Hone. destruct (list_find _ (m_assets m)) as [[i a]|] eqn:Hf; [|done].
  apply list_find_Some in Hf as (Ha%list_elem_of_lookup_2 & Hid & _).
  case_bool_decide as Hdel; [done|].
  destruct (_effective_slide_playback _ _ _ _) as [[dur pte] clip].
  destruct (resolve_source _ _ _ _ _) as [[f sibs]|] eqn:Hr; [|done]. injection Hone as ->. simpl.
  exists a. split_and!; [done|done|by destruct (a_deleted_at a); [destruct Hdel|]|]. intros Hfile.
  eapply resolve_source_best; [done| |done|exact Hr]. rewrite Hid. by apply list_elem_of_fmap_2.
Qed.

(**  The slot invariant of the anchored cycle: on a device that can seek,
    the duration the resolver emits for a probed video is exactly the time the
    device shows it.  Without the capability the time on screen exceeds the
    slot by the dropped offset for a slide that plays from an offset to its
    natural end, and only for such slides. *)
Theorem playback_slot_on_screen (spec : _SlideSpec) (src : Asset) (emit_clip : bool) (real : Z) :
  a_asset_type src = VIDEO ∨ a_asset_type src = SAVED_STREAM →
  a_duration_ms src = Some real → 0 ≤ ss_clip_start_ms spec < real →
  let e := _effective_slide_playback spec src (ss_tag_member spec) emit_clip in
  on_screen_ms real e - e.1.1 =
  (if (negb emit_clip && (ss_play_to_end spec || ss_tag_member spec) &&
       negb (match ss_clip_duration_ms spec with Some c => 0 <? c | None => false end))%bool
   then ss_clip_start_ms spec else 0).
Proof.
  intros Hv Hd Hst. unfold _effective_slide_playback. rewrite (bool_decide_true _ Hv), Hd.
  rewrite andb_true_r. simpl.
  assert ((real - ss_clip_start_ms spec <=? 0) = false) as Hslot by (apply Z.leb_gt; lia).
  destruct (ss_clip_duration_ms spec) as [c|]; [destruct (0 <? c)|];
    destruct emit_clip, (ss_play_to_end spec), (ss_tag_member spec); simpl; rewrite ?Hslot; simpl; lia.
Qed.

(**  The manifest text reacts to the file of every slide: changing the
    checksum of one slide (a new variant of its source) changes the text that
    is hashed, whatever the other slides are; without the window capability
    the text does not depend on the visibility windows at all. *)
Theorem manifest_text_sensitive (ck : string) (l1 l2 : list _SlidePlan) (s s' : _SlidePlan) (shuffle ew : bool) :
  s' = mkSlidePlan (sp_position s) (sp_source_asset_id s) (sp_source_filename s) (sp_source_asset_type s)
         (sp_duration_ms s) (sp_play_to_end s) (sp_transition s) (sp_transition_ms s) (sp_fit s) (sp_effect s)
         (sp_effect_direction s) (sp_file s') (sp_siblings s) (sp_window s') (sp_clip_start_ms s)
         (sp_clip_duration_ms s) →
  (f_checksum (sp_file s) ≠ f_checksum (sp_file s') → sp_window s' = sp_window s →
   manifest_text ck (l1 ++ s :: l2) shuffle ew ≠ manifest_text ck (l1 ++ s' :: l2) shuffle ew) ∧
  (f_checksum (sp_file s) = f_checksum (sp_file s') →
   manifest_text ck (l1 ++ s :: l2) shuffle false = manifest_text ck (l1 ++ s' :: l2) shuffle false).
Proof.
  intros Hs'. split.
  - intros Hne Hwin Heq. apply Hne. unfold manifest_text in Heq. apply str_app_inj_l, str_app_inj_l, str_app_inj_l in Heq.
    rewrite !fmap_app, !fmap_cons, !concat_app, !concat_cons in Heq.
    apply str_app_inj_l, str_app_inj_r in Heq. unfold slide_text in Heq. rewrite Hs' in Heq.
    cbn [sp_position sp_source_asset_id sp_duration_ms sp_play_to_end sp_transition sp_transition_ms sp_fit
         sp_effect sp_effect_direction sp_file sp_siblings sp_window sp_clip_start_ms] in Heq.
    rewrite Hwin in Heq.
    do 5 apply str_app_inj_l in Heq. by apply str_app_inj_r in Heq.
  - intros Heq. unfold manifest_text. rewrite !fmap_app, !fmap_cons, !concat_app, !concat_cons.
    assert (slide_text false s = slide_text false s') as ->; [|done].
    rewrite Hs'. unfold slide_text. simpl. by rewrite Heq.
Qed.

(** C33.  The push and the fetch agree: for the same deck, profile, time and
    capabilities, [build_fetch_for_slideshow] sends a manifest iff
    [resolved_slideshow_checksum] yields a checksum, with that checksum; the
    cycle length is the sum of the slots on the wire. *)
Theorem fetch_matches_push (sha256 : string → string) (url : string → string → string) (m : Media)
    (asset : Asset) (pid : option uuid) (base : string) (now_ms : Z) (now : option datetime) (ew ec : bool)
    (r : option FetchAssetMessage) :
  build_fetch_for_slideshow sha256 url m asset pid base now_ms now ew ec = Ok r →
  resolved_slideshow_checksum sha256 m asset pid now ew ec = Ok (fm_checksum <$> r) ∧
  (∀ f, r = Some f → fm_slides f ≠ [] ∧
        fm_cycle_duration_ms f = foldr (λ d n, sd_duration_ms d + n) 0 (fm_slides f)).
Proof.
  unfold build_fetch_for_slideshow, resolved_slideshow_checksum.
  destruct (plan_slideshow m asset pid now ew ec) as [plan|]; simpl; [|done].
  destruct (ready plan) eqn:Hready; simpl; intros [= <-]; (split; [done|]); [|done].
  intros f [= <-]. simpl. apply ready_spec in Hready as [Hne _]. split; [by destruct (pl_slides plan)|].
  unfold sum_durations. clear. induction (pl_slides plan) as [|s l IH]; simpl; [done|]. by rewrite IH.
Qed.

(** ** Witnesses *)

(** Friday 22:00 to 02:00, seen on Saturday (2024-03-02) at half past midnight. *)
Definition friday_night : SlideWindow := mkSlideWindow None None (Some [4]) (Some (hm 22 0)) (Some (hm 2 0)).

Lemma slide_window_open_exact_witness :
  slide_covers friday_night (dt_us (Datetime (leap_day + 2) (hm 0 30))).
Proof.
  destruct (slide_window_open_exact friday_night (Datetime (leap_day + 2) (hm 0 30))) as (r & Hr & Hiff).
  - split; [by intros ? [= <-]|by intros ? [= <-]|by intros ? ? [= <-] [= <-]].
  - reflexivity.
  - reflexivity.
  - vm_compute in Hr. injection Hr as <-. by apply Hiff.
Defined.

Definition expired_window : SlideWindow := mkSlideWindow None (Some (leap_day - 1)) None None None.
Definition old_library : Media := mkMedia [] [] [slide_row (K_ASSET (Some "a")) 0 expired_window] [] [].

Lemma expired_counts_exact_witness :
  default 0 (expired_slide_counts old_library ["deck"] leap_day !! "deck") = 1.
Proof.
  destruct (expired_counts_exact old_library ["deck"] leap_day "deck") as [-> _]; [left|reflexivity].
Defined.

Lemma effective_counts_exact_witness :
  ∃ specs, _load_slide_specs library deck None false = Ok specs ∧
           default 0 (effective_slide_counts library ["deck"] !! "deck") = Z.of_nat (length specs).
Proof.
  apply (effective_counts_exact library ["deck"] deck); [left|].
  intros r Hr. simpl in Hr. rewrite !elem_of_cons, elem_of_nil in Hr. destruct Hr as [->|[->|[]]]; done.
Defined.

Definition ok_default {E A} (d : A) (r : result E A) : A := match r with Ok a => a | Err _ => d end.
Definition sample_plan : SlideshowPlan :=
  ok_default (mkPlan [] []) (plan_slideshow library deck (Some "p") None false false).
Definition sample_specs : list _SlideSpec := ok_default [] (_load_slide_specs library deck None false).

Lemma plan_slideshow_complete_witness :
  (sp_position <$> pl_slides sample_plan) ++ (bl_slide_position <$> pl_blockers sample_plan) ≡ₚ seqZ 0 3.
Proof.
  apply (plan_slideshow_complete library deck (Some "p") None false false sample_specs sample_plan); by vm_compute.
Defined.

Lemma plan_slideshow_files_witness :
  ∃ s a, s ∈ pl_slides sample_plan ∧ a_id a = sp_source_asset_id s ∧ a_deleted_at a = None.
Proof.
  destruct (pl_slides sample_plan) as [|s l] eqn:Hp; [exfalso; by vm_compute in Hp|].
  destruct (plan_slideshow_files library deck "p" None false false sample_plan s) as (a & _ & ? & ? & _).
  - apply (bool_decide_unpack _). by vm_compute.
  - by vm_compute.
  - rewrite Hp. left.
  - exists s, a. split; [left|done].
Defined.

(** A slide that starts twenty seconds into a one-minute video and plays to
    its end: without the capability the device plays the whole minute in a slot
    of forty seconds. *)
Definition offset_spec : _SlideSpec := mkSpec 0 "a" 10000 true "cut" 600 "cover" "none" "in" false always 20000 None.

Lemma playback_slot_on_screen_witness :
  on_screen_ms 60000 (_effective_slide_playback offset_spec (video "a") false false) -
  (_effective_slide_playback offset_spec (video "a") false false).1.1 = 20000.
Proof.
  apply (playback_slot_on_screen offset_spec (video "a") false 60000); [by left|done|simpl; lia].
Defined.

Definition plan_with (ck : string) : _SlidePlan :=
  mkSlidePlan 0 "a" "a.mp4" VIDEO 10000 false "cut" 600 "cover" "none" "in" (mkFile "" "" ck 1) [] always 0 None.

Lemma manifest_text_sensitive_witness :
  manifest_text "ck" [plan_with "111"] false false ≠ manifest_text "ck" [plan_with "222"] false false.
Proof. apply (manifest_text_sensitive "ck" [] [] (plan_with "111") (plan_with "222") false false); done. Defined.

(** A stand-in digest. *)
Definition toy_digest (s : string) : string := s.

Definition sample_fetch : option FetchAssetMessage :=
  ok_default None (build_fetch_for_slideshow toy_digest (λ _ api, api) library deck (Some "p") "http://cms" 1000 None
                     false false).

Lemma fetch_matches_push_witness :
  resolved_slideshow_checksum toy_digest library deck (Some "p") None false false =
  Ok (fm_checksum <$> sample_fetch).
Proof.
  apply (fetch_matches_push toy_digest (λ _ api, api) library deck (Some "p") "http://cms" 1000 None false false
           sample_fetch). by vm_compute.
Defined.
