(* ===== verification/DeviceSync.v ===== *)
(** * What a device is sent (cms/services/scheduler.py, sync messages)

    [build_device_sync] collects the schedules that target a device and can
    play within the next thirty days, with the checksums of the files the
    device should hold; [push_sync_to_device] sends it to a connected, adopted
    device.  The time zone database and SHA-256 are parameters. *)

From S2P Require Import Prelude Clock Models Occurrence Database Samples Skips Targeting NowPlaying AssetReadiness Slideshow.
Open Scope Z_scope.

Definition SCHEDULE_WINDOW_DAYS : Z := 30.
Definition CAPABILITY_SLIDESHOW_VISIBILITY_V1 : string := "slideshow_visibility_v1".
Definition CAPABILITY_SLIDESHOW_CLIP_V1 : string := "slideshow_clip_v1".

(** ** Messages (cms/schemas/protocol.py) *)

Record ScheduleEntry := mkScheduleEntry {
  se_id : string; se_name : string; se_asset : string;
  se_asset_checksum : option string; se_asset_type : option string; se_url : option string;
  se_start_time : string; se_end_time : string;
  se_start_date : option string; se_end_date : option string;
  se_days_of_week : option (list Z); se_priority : Z; se_loop_count : option Z
}.

Record SyncMessage := mkSync {
  sm_device_status : option string; sm_timezone : string; sm_schedules : list ScheduleEntry;
  sm_default_asset : option string; sm_default_asset_checksum : option string; sm_splash : option string
}.

(** ** Entries *)

Definition _resolve_group_default_asset (d : Device) : option Asset := g ← d_group d; g_default_asset g.

(** The checksum of the file of one entry. *)
Definition entry_checksum (a : Asset) (variant_checksums slideshow_checksums : gmap string string) : option string :=
  match (if bool_decide (a_asset_type a = SLIDESHOW) then slideshow_checksums !! a_id a else None) with
  | Some c => Some c
  | None =>
      match variant_checksums !! a_filename a with
      | Some c => Some c
      | None => truthy (Some (a_checksum a))
      end
  end.

Definition _schedule_to_entry (s : Schedule) (variant_checksums slideshow_checksums : gmap string string)
    : result exn ScheduleEntry :=
  match s_asset s with
  | None => Err AttributeError
  | Some a =>
      let checksum := entry_checksum a variant_checksums slideshow_checksums in
      Ok {| se_id := s_id s; se_name := s_name s; se_asset := a_filename a;
            se_asset_checksum := if is_url_asset a then None else checksum;
            se_asset_type := Some (if bool_decide (a_asset_type a = SAVED_STREAM) then "video"
                                   else AssetType_value (a_asset_type a));
            se_url := if is_url_asset a then a_url a else None;
            se_start_time := strftime_HMS (s_start_time s); se_end_time := strftime_HMS (s_end_time s);
            se_start_date := (λ d, date_isoformat (dt_date d)) <$> s_start_date s;
            se_end_date := (λ d, date_isoformat (dt_date d)) <$> s_end_date s;
            se_days_of_week := s_days_of_week s; se_priority := s_priority s; se_loop_count := s_loop_count s |}
  end.

(** The latest ready variant of every asset for a profile, by the file name of
    the source ([ORDER BY created_at DESC], the first row of a name wins). *)
Definition profile_variant_checksums (m : Media) (profile_id : option uuid) : gmap string string :=
  match profile_id with
  | None => ∅
  | Some pid =>
      fold_left (λ acc v,
          match list_find (λ a, a_id a = v_source_asset_id v) (m_assets m) with
          | None => acc
          | Some (_, a) => match acc !! a_filename a with
                           | Some _ => acc
                           | None => <[a_filename a := v_checksum v]> acc
                           end
          end)
        (sort_by (λ v, - v_created_at v)
           (filter (λ v, v_profile_id v = pid ∧ v_status v = V_READY ∧ v_deleted_at v = None) (m_variants m)))
        ∅
  end.

(** ** The sync message *)

(** The date range of a schedule meets [today .. cutoff]. *)
Definition in_sync_window (s : Schedule) (today cutoff : date) : bool :=
  negb (match s_end_date s with Some e => dt_date e <? today | None => false end) &&
  negb (match s_start_date s with Some b => cutoff <? dt_date b | None => false end).

Section sync.
Context (sha256 : string → string).
(** [ZoneInfo(key)], [None] when the key is unknown; from UTC microseconds
    since 1970 to local time. *)
Context (zone_info : string → option (Z → datetime)).

Definition zone (key : string) : result exn (Z → datetime) :=
  match zone_info key with Some tz => Ok tz | None => Err KeyError end.

(** The memo table of [_get_slideshow_checksum]. *)
Definition _get_slideshow_checksum (m : Media) (dev : Device) (device_local_now : datetime)
    (asset : Asset) (cache : gmap string string) : result exn (option string * gmap string string) :=
  match cache !! a_id asset with
  | Some c => Ok (Some c, cache)
  | None =>
      resolved ← resolved_slideshow_checksum sha256 m asset (d_profile_id dev) (Some device_local_now)
                   (bool_decide (CAPABILITY_SLIDESHOW_VISIBILITY_V1 ∈ d_capabilities dev))
                   (bool_decide (CAPABILITY_SLIDESHOW_CLIP_V1 ∈ d_capabilities dev));
      Ok (resolved, match resolved with Some c => <[a_id asset := c]> cache | None => cache end)
  end.

(** The default-asset slideshow override; it also seeds the memo table. *)
Definition default_slideshow_checksum (m : Media) (dev : Device) (device_local_now : datetime)
    (default_asset : option Asset) : result exn (option string * gmap string string) :=
  match default_asset with
  | Some a => if bool_decide (a_asset_type a = SLIDESHOW)
              then _get_slideshow_checksum m dev device_local_now a ∅ else Ok (None, ∅)
  | None => Ok (None, ∅)
  end.

(** One turn of the loop over the enabled schedules. *)
Definition sync_step (m : Media) (dev : Device) (device_local_now : datetime) (skips : SkipSnapshot)
    (targets_by_schedule : gmap string (gset string)) (today cutoff_date : date)
    (variant_checksums cache : gmap string string) (s : Schedule)
    : result exn (option ScheduleEntry * gmap string string) :=
  match s_asset s with
  | None => Ok (None, cache)
  | Some a =>
      if negb (in_sync_window s today cutoff_date) then Ok (None, cache)
      else if negb (bool_decide (d_id dev ∈ default ∅ (targets_by_schedule !! s_id s))) then Ok (None, cache)
      else if is_skipped_for_device skips (s_id s) (d_id dev) then Ok (None, cache)
      else
        rc ← (if bool_decide (a_asset_type a = SLIDESHOW)
              then _get_slideshow_checksum m dev device_local_now a cache else Ok (None, cache));
        match composed_unpublished_reason (Some a) with
        | Some _ => Ok (None, rc.2)
        | None => e ← _schedule_to_entry s variant_checksums rc.2; Ok (Some e, rc.2)
        end
  end.

Fixpoint sync_loop (step : gmap string string → Schedule → result exn (option ScheduleEntry * gmap string string))
    (cache : gmap string string) (l : list Schedule) : result exn (list ScheduleEntry) :=
  match l with
  | [] => Ok []
  | s :: rest =>
      r ← step cache s;
      entries ← sync_loop step r.2 rest;
      Ok (match r.1 with Some e => e :: entries | None => entries end)
  end.

Definition _build_device_sync_impl (db : Db) (now : Z) (device_id : string) (skips : option SkipSnapshot)
    : result exn (option SyncMessage) :=
  let cms_tz := default "UTC" (truthy (db_timezone db)) in
  _ ← dt_add (utc_datetime now) (SCHEDULE_WINDOW_DAYS * DAY_US);
  tz ← zone cms_tz;
  let local_now := tz now in
  let local_cutoff := tz (now + SCHEDULE_WINDOW_DAYS * DAY_US) in
  let skips := default (active_as_of (load_skip_snapshot db) local_now) skips in
  match list_find (λ d, d_id d = device_id) (db_devices db) with
  | None => Ok None
  | Some (_, dev) =>
      let device_zone := default cms_tz (truthy (d_timezone dev)) in
      let device_local_now := default tz (zone_info device_zone) now in
      let default_asset := match d_default_asset dev with
                           | Some a => Some a | None => _resolve_group_default_asset dev end in
      let m := db_media db in
      let variant_checksums := profile_variant_checksums m (d_profile_id dev) in
      let default_checksum :=
        (λ a, default (a_checksum a) (f ← truthy (Some (a_filename a)); variant_checksums !! f)) <$> default_asset in
      rc ← default_slideshow_checksum m dev device_local_now default_asset;
      let default_checksum := match rc.1 with Some c => Some c | None => default_checksum end in
      let all_schedules := enabled_schedules db in
      let targets_by_schedule := load_target_devices_by_schedule db all_schedules in
      entries ← sync_loop (sync_step m dev device_local_now skips targets_by_schedule
                             (dt_date local_now) (dt_date local_cutoff) variant_checksums) rc.2 all_schedules;
      Ok (Some {| sm_device_status := Some (DeviceStatus_value (d_status dev));
                  sm_timezone := device_zone;
                  sm_schedules := entries;
                  sm_default_asset := a_filename <$> default_asset;
                  sm_default_asset_checksum := truthy default_checksum;
                  sm_splash := a_filename <$> default_asset |})
  end.

(** The REPEATABLE READ transaction is one consistent [db]. *)
Definition build_device_sync := _build_device_sync_impl.

(** The message handed to the transport, if any. *)
Definition push_sync_to_device (is_connected : string → bool) (db : Db) (now : Z) (device_id : string)
    (skips : option SkipSnapshot) : result exn (option SyncMessage) :=
  if negb (is_connected device_id) then Ok None
  else
    let status := x ← list_find (λ d, d_id d = device_id) (db_devices db); Some (d_status x.2) in
    if negb (bool_decide (status = Some D_ADOPTED)) then Ok None
    else build_device_sync db now device_id skips.

Fixpoint push_all (is_connected : string → bool) (db : Db) (now : Z) (skips : option SkipSnapshot)
    (ids : list string) : result exn (list (string * SyncMessage)) :=
  match ids with
  | [] => Ok []
  | did :: rest =>
      r ← push_sync_to_device is_connected db now did skips;
      l ← push_all is_connected db now skips rest;
      Ok (match r with Some msg => (did, msg) :: l | None => l end)
  end.

Definition push_sync_to_affected_devices (is_connected : string → bool) (db : Db) (now : Z) (s : Schedule)
    : result exn (list (string * SyncMessage)) :=
  push_all is_connected db now None (_get_target_device_ids db s).
End sync.

(** ** Specification *)

(** The schedule belongs in the message for [did]. *)
Definition deliverable (db : Db) (local_now : datetime) (cutoff : date) (s : Schedule) (did : string) : Prop :=
  s ∈ db_schedules db ∧ s_enabled s = true ∧ targets db s did ∧
  (∃ a, s_asset s = Some a ∧ composed_unpublished_reason (Some a) = None) ∧
  (∀ e, s_end_date s = Some e → dt_date local_now ≤ dt_date e) ∧
  (∀ b, s_start_date s = Some b → dt_date b ≤ cutoff) ∧
  (∀ until, s_skipped_until s = Some until → dt_us until ≤ dt_us local_now) ∧
  (∀ until, db_device_skips db !! (s_id s, did) = Some until → dt_us until ≤ dt_us local_now).

(** ** Lemmas *)

Lemma sync_loop_spec step cache l entries :
  sync_loop step cache l = Ok entries →
  (∀ e, e ∈ entries → ∃ s c r, s ∈ l ∧ step c s = Ok r ∧ r.1 = Some e) ∧
  (∀ s, s ∈ l → ∃ c r, step c s = Ok r ∧ ∀ e, r.1 = Some e → e ∈ entries).
Proof.
  revert cache entries. induction l as [|s l IH]; intros cache entries; simpl.
  { intros [= <-]. split; intros ? []%elem_of_nil. }
  destruct (step cache s) as [r|] eqn:Hr; simpl; [|done].
  destruct (sync_loop step r.2 l) as [rest|] eqn:Hl; simpl; [|done]. intros [= <-].
  destruct (IH _ _ Hl) as [H1 H2]. split.
  - intros e He. assert (r.1 = Some e ∨ e ∈ rest) as [?|Hin].
    { destruct r.1; [|auto]. apply elem_of_cons in He as [->|?]; auto. }
    + exists s, cache, r. split_and!; [by left|done|done].
    + destruct (H1 e Hin) as (s' & c & r' & ? & ? & ?). exists s', c, r'. split_and!; [by right|done|done].
  - intros s' [->|Hs']%elem_of_cons.
    + exists cache, r. split; [done|]. intros e ->. left.
    + destruct (H2 s' Hs') as (c & r' & ? & He). exists c, r'. split; [done|].
      intros e Hre. specialize (He e Hre). destruct r.1; [by right|done].
Qed.

Lemma in_sync_window_spec s today cutoff :
  in_sync_window s today cutoff = true ↔
  (∀ e, s_end_date s = Some e → today ≤ dt_date e) ∧ (∀ b, s_start_date s = Some b → dt_date b ≤ cutoff).
Proof.
  unfold in_sync_window. destruct (s_end_date s) as [e|], (s_start_date s) as [b|];
    rewrite ?andb_true_iff, ?negb_true_iff, ?Z.ltb_ge; naive_solver.
Qed.

Section sync_lemmas.
Context (sha256 : string → string) (m : Media) (dev : Device) (dnow : datetime) (skips : SkipSnapshot).
Context (tbs : gmap string (gset string)) (today cutoff : date) (vc : gmap string string).

(** What makes a turn of the loop emit an entry does not depend on the memo. *)
Definition emits (s : Schedule) : Prop :=
  (∃ a, s_asset s = Some a ∧ composed_unpublished_reason (Some a) = None) ∧
  in_sync_window s today cutoff = true ∧ d_id dev ∈ default ∅ (tbs !! s_id s) ∧
  is_skipped_for_device skips (s_id s) (d_id dev) = false.

Lemma sync_step_spec cache s r :
  sync_step sha256 m dev dnow skips tbs today cutoff vc cache s = Ok r →
  (is_Some r.1 ↔ emits s) ∧ (∀ e, r.1 = Some e → se_id e = s_id s).
Proof.
  assert (∀ c, is_Some (@None ScheduleEntry, c : gmap string string).1 ↔ False) as Hnone.
  { intros c. split; [intros [? ?]; done|done]. }
  unfold sync_step, emits. destruct (s_asset s) as [a|]; [|intros [= <-]; rewrite Hnone; naive_solver].
  destruct (in_sync_window s today cutoff); simpl; [|intros [= <-]; rewrite Hnone; naive_solver].
  case_bool_decide as Ht; simpl; [|intros [= <-]; rewrite Hnone; naive_solver].
  destruct (is_skipped_for_device _ _ _); [intros [= <-]; rewrite Hnone; naive_solver|].
  destruct (if bool_decide _ then _ else _) as [[x c]|]; simpl; [|done].
  destruct (composed_unpublished_reason (Some a)) eqn:Hc.
  - intros [= <-]. rewrite Hnone. naive_solver.
  - unfold _schedule_to_entry. destruct (s_asset s) as [a'|] eqn:Ha; simpl; [|done].
    intros [= <-]. simpl. split; [|by intros e [= <-]]. split; [|by eexists]. intros _.
    split_and!; [by exists a|done..].
Qed.
End sync_lemmas.

(** The schedules of the message of a device. *)
Lemma sync_message_schedules sha256 zi db now did msg tz :
  db_ok db → NoDup (d_id <$> db_devices db) → zi (default "UTC" (truthy (db_timezone db))) = Some tz →
  build_device_sync sha256 zi db now did None = Ok (Some msg) →
  ∀ s, s ∈ db_schedules db →
    ((∃ e, e ∈ sm_schedules msg ∧ se_id e = s_id s) ↔
     deliverable db (tz now) (dt_date (tz (now + SCHEDULE_WINDOW_DAYS * DAY_US))) s did).
Proof.
  intros Hdb Hdev Hzi. unfold build_device_sync, _build_device_sync_impl.
  destruct (dt_add _ _); simpl; [|done]. unfold zone. rewrite Hzi. simpl.
  destruct (list_find _ (db_devices db)) as [[i dev]|] eqn:Hf; [|done].
  apply list_find_Some in Hf as (Hd%list_elem_of_lookup_2 & <- & _).
  destruct (default_slideshow_checksum _ _ _ _ _) as [rc|]; simpl; [|done].
  destruct (sync_loop _ _ _) as [entries|] eqn:Hl; simpl; [|done]. intros [= <-] s Hs. simpl.
  apply sync_loop_spec in Hl as [H1 H2].
  set (skips := active_as_of (load_skip_snapshot db) (tz now)) in *.
  set (tbs := load_target_devices_by_schedule db (enabled_schedules db)) in *.
  assert (∀ x, s_enabled x = true → x ∈ db_schedules db →
    emits dev skips tbs (dt_date (tz now)) (dt_date (tz (now + SCHEDULE_WINDOW_DAYS * DAY_US))) x ↔
    deliverable db (tz now) (dt_date (tz (now + SCHEDULE_WINDOW_DAYS * DAY_US))) x (d_id dev)) as Hem.
  { intros x Hex Hx. unfold emits, deliverable, skips. rewrite in_sync_window_spec.
    rewrite not_skipped_iff by (done || apply Hdb). unfold tbs. rewrite lookup_target_devices.
    - naive_solver.
    - apply NoDup_fmap_filter, Hdb.
    - by apply list_elem_of_filter. }
  split.
  - intros (e & He & Hid). destruct (H1 e He) as (x & c & r & Hx & Hr & Hre).
    apply list_elem_of_filter in Hx as [Hex Hx]. apply sync_step_spec in Hr as [Hiff Hsid].
    assert (x = s) as -> by (apply (NoDup_fmap_eq s_id (db_schedules db)); [apply Hdb|done|done|rewrite <- Hid; symmetry; by apply Hsid]).
    apply Hem; [done..|]. apply Hiff. by exists e.
  - intros Hdel. pose proof Hdel as (_ & Hex & _).
    destruct (H2 s) as (c & r & Hr & He); [by apply list_elem_of_filter|].
    apply sync_step_spec in Hr as [Hiff Hsid]. apply Hem, Hiff in Hdel as [e Hre]; [|done..].
    exists e. auto.
Qed.

(** The loop over the variants keeps the first row of every file name. *)
Lemma variant_checksum_first (m : Media) rows (acc : gmap string string) (fname : string) :
  fold_left (λ acc v,
      match list_find (λ a, a_id a = v_source_asset_id v) (m_assets m) with
      | None => acc
      | Some (_, a) => match acc !! a_filename a with
                       | Some _ => acc
                       | None => <[a_filename a := v_checksum v]> acc
                       end
      end) rows acc !! fname =
  match acc !! fname with
  | Some c => Some c
  | None => (λ x, v_checksum x.2) <$>
      list_find (λ v, (λ x, a_filename x.2) <$> list_find (λ a, a_id a = v_source_asset_id v) (m_assets m) = Some fname) rows
  end.
Proof.
  revert acc. induction rows as [|v rows IH]; intros acc; simpl; [by destruct (acc !! fname)|].
  rewrite IH. clear IH. destruct (list_find (λ a, a_id a = v_source_asset_id v) (m_assets m)) as [[i a]|]; simpl.
  - destruct (decide (a_filename a = fname)) as [Hfn|Hne].
    + subst. rewrite decide_True by done. destruct (acc !! a_filename a) eqn:Ha; rewrite ?Ha; [done|].
      by rewrite lookup_insert_eq.
    + rewrite decide_False by congruence.
      replace ((match acc !! a_filename a with Some _ => acc | None => <[a_filename a:=v_checksum v]> acc end) !! fname)
        with (acc !! fname) by (destruct (acc !! a_filename a); [done|by rewrite lookup_insert_ne]).
      destruct (acc !! fname); [done|]. by destruct (list_find _ rows) as [[]|].
  - destruct (acc !! fname); [done|]. by destruct (list_find _ rows) as [[]|].
Qed.

(** ** Theorems *)

(** C26.  The sync message is exact: it lists a schedule iff the schedule is
    enabled, targets the device, has a playable asset, is not skipped, and its
    date range meets the next thirty days. *)
Theorem build_device_sync_exact (sha256 : string → string) (zi : string → option (Z → datetime)) (db : Db)
    (now : Z) (did : string) (msg : SyncMessage) (tz : Z → datetime) (s : Schedule) :
  db_ok db → NoDup (d_id <$> db_devices db) → zi (default "UTC" (truthy (db_timezone db))) = Some tz →
  build_device_sync sha256 zi db now did None = Ok (Some msg) → s ∈ db_schedules db →
  (∃ e, e ∈ sm_schedules msg ∧ se_id e = s_id s) ↔
  deliverable db (tz now) (dt_date (tz (now + SCHEDULE_WINDOW_DAYS * DAY_US))) s did.
Proof. intros. by eapply sync_message_schedules. Qed.

(**  A device can play what the dashboard shows: a schedule entitled to the
    device now is in its sync message, provided its last date is not before
    today (and the asset is published). *)
Theorem eligible_is_synced (sha256 : string → string) (zi : string → option (Z → datetime)) (db : Db)
    (now : Z) (did : string) (msg : SyncMessage) (tz : Z → datetime) (s : Schedule) :
  db_ok db → NoDup (d_id <$> db_devices db) → zi (default "UTC" (truthy (db_timezone db))) = Some tz →
  time_ok (dt_time (tz now)) = true →
  dt_date (tz now) ≤ dt_date (tz (now + SCHEDULE_WINDOW_DAYS * DAY_US)) →
  build_device_sync sha256 zi db now did None = Ok (Some msg) → eligible db (tz now) s did →
  composed_unpublished_reason (s_asset s) = None →
  (∀ e, s_end_date s = Some e → dt_date (tz now) ≤ dt_date e) →
  ∃ e, e ∈ sm_schedules msg ∧ se_id e = s_id s.
Proof.
  intros Hdb Hdev Hzi Ht Hcut Hb (Hs & He & (w & Hw & d & [_ Hrange] & Hd) & [a Ha] & Htg & Hsk & Hsk') Hc Hend.
  apply (sync_message_schedules sha256 zi db now did msg tz Hdb Hdev Hzi Hb s Hs).
  split_and!; try done; [by exists a; rewrite <- Ha|].
  intros b Hb'. assert (d ≤ dt_date (tz now)) as Hdn.
  { pose proof (window_of_ok s w (dok_times _ Hdb s Hs) Hw) as Hok.
    pose proof (covers_anchor w _ d Hok Hd) as Hor. rewrite dt_us_day in Hor by done. lia. }
  assert (dt_date b ≤ d); [|lia]. apply Hrange. unfold window_of in Hw.
  destruct (occurrence_bounds _ _) as [[]|]; [|done]. injection Hw as <-. simpl. by rewrite Hb'.
Qed.

(**  The checksum map gives, for the file name of an asset, the checksum of
    a live ready variant of the profile than which no other is newer; it has
    no entry only when the profile has no such variant. *)
Theorem variant_checksums_newest (m : Media) (pid : uuid) (a : Asset) :
  NoDup (a_id <$> m_assets m) → NoDup (a_filename <$> m_assets m) → a ∈ m_assets m →
  let usable v := v ∈ m_variants m ∧ v_source_asset_id v = a_id a ∧ v_profile_id v = pid ∧
                  v_status v = V_READY ∧ v_deleted_at v = None in
  (∀ c, profile_variant_checksums m (Some pid) !! a_filename a = Some c →
     ∃ v, usable v ∧ c = v_checksum v ∧ ∀ u, usable u → v_created_at u ≤ v_created_at v) ∧
  (profile_variant_checksums m (Some pid) !! a_filename a = None → ∀ v, ¬ usable v).
Proof.
  intros Hid Hfn Ha usable. unfold profile_variant_checksums. rewrite variant_checksum_first, lookup_empty.
  set (rows := sort_by _ _).
  assert (∀ v, (λ x, a_filename x.2) <$> list_find (λ a, a_id a = v_source_asset_id v) (m_assets m) =
               Some (a_filename a) ↔ v_source_asset_id v = a_id a) as Hsrc.
  { intros v. destruct (list_find (λ a, a_id a = v_source_asset_id v) (m_assets m)) as [[i b]|] eqn:Hf; simpl.
    - apply list_find_Some in Hf as (Hb%list_elem_of_lookup_2 & Hbid & _). split.
      + intros [= Heq]. by rewrite <- (NoDup_fmap_eq a_filename _ b a Hfn Hb Ha Heq).
      + intros Hv. f_equal. f_equal. apply (NoDup_fmap_eq a_id (m_assets m)); [done..|congruence].
    - apply list_find_None in Hf. rewrite Forall_forall in Hf. split; [done|]. intros Hv. by destruct (Hf a Ha). }
  assert (∀ v, usable v ↔ v ∈ rows ∧ v_source_asset_id v = a_id a) as Hus.
  { intros v. unfold rows, usable. rewrite sort_by_Permutation, list_elem_of_filter. naive_solver. }
  destruct (list_find _ rows) as [[i v]|] eqn:Hf; simpl; (split; [|try done]).
  - intros c [= <-]. apply list_find_Some in Hf as (Hi & Hv%Hsrc & Hmin). exists v.
    split_and!; [apply Hus; split; [by eapply list_elem_of_lookup_2|done]|done|].
    intros u [Hu Hua]%Hus. apply list_elem_of_lookup in Hu as [j Hj].
    destruct (decide (j = i)) as [->|Hij]; [assert (u = v) as -> by congruence; done|].
    destruct (decide (j < i)%nat) as [Hlt|]; [exfalso; apply (Hmin j u Hj Hlt); by apply Hsrc|].
    assert (Transitive (key_le (λ v, - v_created_at v))) as Htr by (intros x y z; unfold key_le; lia).
    pose proof (sort_by_Sorted (λ v, - v_created_at v)
      (filter (λ v, v_profile_id v = pid ∧ v_status v = V_READY ∧ v_deleted_at v = None) (m_variants m))) as Hs.
    apply Sorted_StronglySorted in Hs; [|done].
    assert (i < j)%nat as Hlt by lia. pose proof (StronglySorted_lookup _ _ i j v u Hs Hlt Hi Hj) as Hle.
    unfold key_le in Hle. lia.
  - done.
  - intros _ v [Hv Hva]%Hus. apply list_find_None in Hf. rewrite Forall_forall in Hf.
    apply (Hf v Hv). by apply Hsrc.
Qed.

Lemma push_all_spec sha256 zi conn db now skips ids l :
  push_all sha256 zi conn db now skips ids = Ok l →
  ∀ did, did ∈ l.*1 ↔ did ∈ ids ∧ ∃ msg, push_sync_to_device sha256 zi conn db now did skips = Ok (Some msg).
Proof.
  revert l. induction ids as [|x ids IH]; intros l; simpl; [intros [= <-]; set_solver|].
  destruct (push_sync_to_device _ _ _ _ _ x _) as [r|] eqn:Hr; simpl; [|done].
  destruct (push_all _ _ _ _ _ _ ids) as [l'|]; simpl; [|done]. intros [= <-] did.
  specialize (IH l' eq_refl did). rewrite elem_of_cons.
  destruct r as [msg|]; [rewrite fmap_cons, elem_of_cons|]; rewrite IH; simpl; naive_solver congruence.
Qed.

Lemma push_all_total sha256 zi conn db now skips ids l :
  push_all sha256 zi conn db now skips ids = Ok l →
  ∀ did, did ∈ ids → ∃ r, push_sync_to_device sha256 zi conn db now did skips = Ok r.
Proof.
  revert l. induction ids as [|x ids IH]; intros l; simpl; [set_solver|].
  destruct (push_sync_to_device _ _ _ _ _ x _) as [r|] eqn:Hr; simpl; [|done].
  destruct (push_all _ _ _ _ _ _ ids) as [l'|]; simpl; [|done].
  intros _ did [->|?]%elem_of_cons; eauto.
Qed.

(**  A schedule change is pushed to exactly the connected target devices of
    the schedule. *)
Theorem push_affected_exact (sha256 : string → string) (zi : string → option (Z → datetime))
    (conn : string → bool) (db : Db) (now : Z) (s : Schedule) (l : list (string * SyncMessage)) (did : string) :
  NoDup (d_id <$> db_devices db) →
  push_sync_to_affected_devices sha256 zi conn db now s = Ok l →
  did ∈ l.*1 ↔ conn did = true ∧ targets db s did.
Proof.
  intros Hdev Hl. pose proof Hl as Hspec. unfold push_sync_to_affected_devices in Hspec.
  rewrite (push_all_spec _ _ _ _ _ _ _ _ Hspec did), elem_of_get_target_device_ids.
  split.
  - intros [Ht (msg & Hp)]. split; [|done]. unfold push_sync_to_device in Hp. by destruct (conn did).
  - intros [Hc Ht]. split; [done|].
    destruct (push_all_total _ _ _ _ _ _ _ _ Hspec did) as [r Hr]; [by apply elem_of_get_target_device_ids|].
    destruct r as [msg|]; [by eexists|]. exfalso. unfold push_sync_to_device in Hr. rewrite Hc in Hr. simpl in Hr.
    destruct Ht as (d & gid & Hd & Hid & Hst & _).
    destruct (list_find (λ d, d_id d = did) (db_devices db)) as [[i d']|] eqn:Hf.
    + pose proof Hf as (Hd'%list_elem_of_lookup_2 & Hid' & _)%list_find_Some.
      assert (d' = d) as -> by (apply (NoDup_fmap_eq d_id (db_devices db)); [done..|congruence]).
      simpl in Hr. rewrite Hst, bool_decide_true in Hr by done. simpl in Hr.
      unfold build_device_sync, _build_device_sync_impl in Hr.
      destruct (dt_add _ _); simpl in Hr; [|done]. destruct (zone zi _); simpl in Hr; [|done].
      rewrite Hf in Hr. destruct (default_slideshow_checksum _ _ _ _ _); simpl in Hr; [|done].
      by destruct (sync_loop _ _ _).
    + apply list_find_None in Hf. rewrite Forall_forall in Hf. by apply (Hf d Hd).
Qed.

(** ** Witnesses *)

Definition utc_zone (key : string) : option (Z → datetime) :=
  if bool_decide (key = "UTC") then Some utc_tz else None.

Lemma two_shows_sync_ok : db_ok two_shows ∧ NoDup (d_id <$> db_devices two_shows).
Proof.
  split; [apply two_shows_ok|]. apply (bool_decide_unpack _). by vm_compute.
Qed.

Definition sync_of (db : Db) (now : Z) (did : string) : SyncMessage :=
  match build_device_sync toy_digest utc_zone db now did None with
  | Ok (Some msg) => msg | _ => mkSync None "" [] None None None end.

Lemma build_device_sync_exact_witness :
  (∃ e, e ∈ sm_schedules (sync_of two_shows (utc_at 22 0) "d1") ∧ se_id e = "day") ↔
  deliverable two_shows (utc_tz (utc_at 22 0))
    (dt_date (utc_tz (utc_at 22 0 + SCHEDULE_WINDOW_DAYS * DAY_US))) day_show "d1".
Proof.
  apply (build_device_sync_exact toy_digest utc_zone two_shows (utc_at 22 0) "d1" _ utc_tz day_show).
  - apply two_shows_sync_ok.
  - apply two_shows_sync_ok.
  - reflexivity.
  - by vm_compute.
  - left.
Defined.

Lemma night_show_eligible : eligible two_shows (utc_tz (utc_at 22 0)) night_show "d1".
Proof.
  split_and!; [right; left|done| |by eexists| |done|].
  - destruct (matches_now_spec night_show (utc_tz (utc_at 22 0))) as (r & Hr & Hiff); [done|by split|].
    assert (_matches_now night_show (utc_tz (utc_at 22 0)) = Ok true) as Ht by by vm_compute.
    rewrite Ht in Hr. injection Hr as <-. by apply Hiff.
  - apply elem_of_get_target_device_ids. apply (bool_decide_unpack _). by vm_compute.
  - intros u Hu. simpl in Hu. by rewrite lookup_empty in Hu.
Qed.

Lemma eligible_is_synced_witness :
  ∃ e, e ∈ sm_schedules (sync_of two_shows (utc_at 22 0) "d1") ∧ se_id e = "night".
Proof.
  apply (eligible_is_synced toy_digest utc_zone two_shows (utc_at 22 0) "d1" _ utc_tz night_show).
  - apply two_shows_sync_ok.
  - apply two_shows_sync_ok.
  - reflexivity.
  - by vm_compute.
  - vm_compute. discriminate.
  - by vm_compute.
  - apply night_show_eligible.
  - by vm_compute.
  - done.
Defined.

(** The tail of the last occurrence: at two in the morning after its last date
    the night show still plays for the dashboard, but the sync message drops
    it. *)
Definition last_night : Schedule :=
  mkSchedule "last" "last" (Some "g") None None (Some (video "v")) None (Some (Datetime (leap_day - 1) (hm 0 0)))
    (hm 21 0) (hm 6 0) None 1 true None None.
Definition last_night_db : Db := fleet [last_night] [screen "d1" "g"].

Example last_tail_not_synced :
  (np_schedule_id <$> ok_default [] (compute_now_playing last_night_db [] ∅ utc_tz (utc_at 2 0)),
   sm_schedules (sync_of last_night_db (utc_at 2 0) "d1")) = (["last"], []).
Proof. by vm_compute. Qed.

Lemma variant_checksums_newest_witness :
  profile_variant_checksums library (Some "p") !! a_filename (video "a") = Some "111" ∧
  ∃ v, v ∈ m_variants library ∧ "111" = v_checksum v.
Proof.
  destruct (variant_checksums_newest library "p" (video "a")) as [H1 _].
  - apply (bool_decide_unpack _). by vm_compute.
  - apply (bool_decide_unpack _). by vm_compute.
  - left.
  - destruct (H1 "111") as (v & (Hv & _) & Hc & _); [by vm_compute|]. split; [by vm_compute|]. by exists v.
Defined.

Definition pushed : list (string * SyncMessage) :=
  ok_default [] (push_sync_to_affected_devices toy_digest utc_zone (λ did, bool_decide (did = "d1")) two_shows
                   (utc_at 22 0) day_show).

Lemma push_affected_exact_witness :
  "d2" ∈ pushed.*1 ↔ bool_decide ("d2" = "d1") = true ∧ targets two_shows day_show "d2".
Proof.
  apply (push_affected_exact toy_digest utc_zone (λ did, bool_decide (did = "d1")) two_shows (utc_at 22 0) day_show
           pushed "d2"); [apply two_shows_sync_ok|by vm_compute].
Defined.
