(* ===== verification/Evaluate.v ===== *)
(** * The scheduler tick (cms/services/scheduler.py, [evaluate_schedules])

    One pass: push a sync to every connected device, purge expired skips, and
    report the active schedules whose device has been offline for the grace
    period.  The grace clock and the claim "already reported" live in
    [schedule_missed_events].  The environment answers what the code asks: who
    is connected, what the devices play, and how every log INSERT ends. *)

From S2P Require Import Prelude Clock Models Occurrence Database Samples Skips Targeting NowPlaying AssetReadiness Slideshow DeviceSync.
Open Scope Z_scope.

Definition EVAL_INTERVAL_SECONDS : Z := 15.
Definition MISSED_GRACE_SECONDS : Z := 60.
Definition MISSED_RETENTION_DAYS : Z := 7.

Definition SECOND_US : Z := 1000000.

(** How an INSERT of a log row inside a savepoint ends. *)
Inductive insert_outcome := INSERTED | FK_VIOLATION | INSERT_FAILED.

Definition is_inserted (o : insert_outcome) : bool := match o with INSERTED => true | _ => false end.

(** ** The log helper *)

(** [_log_event]: a foreign-key violation is retried without the keys; any other
    failure is raised. *)
Definition _log_event (with_keys without_keys : insert_outcome) (entry : ScheduleLog) (db : Db)
    : result exn Db :=
  match with_keys with
  | INSERTED => Ok (set_logs (λ l, l ++ [entry]) db)
  | FK_VIOLATION =>
      match without_keys with
      | INSERTED => Ok (set_logs (λ l, l ++ [mkLog None (l_schedule_name entry) None (l_device_name entry)
                                               (l_asset_filename entry) (l_event entry) (l_details entry)]) db)
      | FK_VIOLATION => Err IntegrityError
      | INSERT_FAILED => Err RuntimeError
      end
  | INSERT_FAILED => Err RuntimeError
  end.

(** ** Active schedules of offline devices *)

(** [active_offline_context]: what the log entry of a pair needs. *)
Record OfflineCtx := mkCtx {
  oc_schedule_id : uuid; oc_device_id : string; oc_schedule_name : string;
  oc_device_name : string; oc_asset_filename : string
}.

(** [{r[0]: (r[1] or r[0])}] over the adopted devices. *)
Definition all_adopted (db : Db) : gmap string string :=
  dict_of (omap (λ d, if bool_decide (d_status d = D_ADOPTED)
                      then Some (d_id d, default (d_id d) (truthy (Some (d_name d)))) else None) (db_devices db)).

Definition offline_ctx (adopted : gmap string string) (s : Schedule) (did : string) : OfflineCtx :=
  mkCtx (s_id s) did (s_name s) (default did (adopted !! did)) (_asset_display_name (s_asset s)).

(** The pairs of an active schedule and an offline adopted target, in the
    order of the loops; the keys are distinct because schedule ids are. *)
Definition active_offline (skips : SkipSnapshot) (connected : gset string) (adopted : gmap string string)
    (targets_by_schedule : gmap string (gset string)) (active : list Schedule) : list OfflineCtx :=
  concat ((λ s,
    match s_asset s with
    | None => []
    | Some _ =>
        omap (M:=list) (λ did,
          if is_skipped_for_device skips (s_id s) did then None
          else if bool_decide (did ∈ connected ∨ adopted !! did = None) then None
          else Some (offline_ctx adopted s did))
          (elements (default ∅ (targets_by_schedule !! s_id s)))
    end) <$> active).

Definition ctx_key (c : OfflineCtx) : string * string := (oc_schedule_id c, oc_device_id c).
Definition row_key (d : date) (c : OfflineCtx) : missed_key := (oc_schedule_id c, oc_device_id c, d).

(** ** The MISSED table *)

(** INSERT ... ON CONFLICT DO NOTHING. *)
Definition _insert_missed_event_stmt (k : missed_key) (first_seen : Z)
    (m : gmap missed_key MissedEvent) : gmap missed_key MissedEvent :=
  match m !! k with
  | Some _ => m
  | None => <[k := mkMissed first_seen None]> m
  end.

Definition seed_missed (occurrence_date : date) (utc_now : Z) (ctxs : list OfflineCtx)
    (m : gmap missed_key MissedEvent) : gmap missed_key MissedEvent :=
  fold_left (λ m c, _insert_missed_event_stmt (row_key occurrence_date c) utc_now m) ctxs m.

(** UPDATE ... WHERE emitted_at IS NULL AND first_seen_offline_at <= cutoff
    RETURNING first_seen_offline_at. *)
Definition claim (k : missed_key) (grace_cutoff utc_now : Z) (m : gmap missed_key MissedEvent)
    : option Z * gmap missed_key MissedEvent :=
  match m !! k with
  | Some row =>
      if (bool_decide (me_emitted_at row = None) && (me_first_seen_offline_at row <=? grace_cutoff))%bool
      then (Some (me_first_seen_offline_at row),
            <[k := mkMissed (me_first_seen_offline_at row) (Some utc_now)]> m)
      else (None, m)
  | None => (None, m)
  end.

(** The revert: WHERE emitted_at = utc_now. *)
Definition revert (k : missed_key) (utc_now : Z) (m : gmap missed_key MissedEvent) : gmap missed_key MissedEvent :=
  match m !! k with
  | Some row => if bool_decide (me_emitted_at row = Some utc_now)
                then <[k := mkMissed (me_first_seen_offline_at row) None]> m else m
  | None => m
  end.

Definition missed_log (with_keys : bool) (c : OfflineCtx) (elapsed : Z) : ScheduleLog :=
  mkLog (if with_keys then Some (oc_schedule_id c) else None) (oc_schedule_name c)
    (if with_keys then Some (oc_device_id c) else None) (oc_device_name c) (oc_asset_filename c) MISSED
    (Some ("Device offline for " +:+ Z_str elapsed +:+ "s")).

(** The part of the state the claim loop changes, and the emission counter. *)
Record ClaimState := mkClaim {
  cs_missed : gmap missed_key MissedEvent; cs_logs : list ScheduleLog; cs_count : Z
}.

(** One turn of the claim loop.  [ins c b] is the outcome of the INSERT for
    [c], with ([true]) or without ([false]) foreign keys. *)
Definition claim_step (ins : OfflineCtx → bool → insert_outcome) (occurrence_date : date) (utc_now : Z)
    (st : ClaimState) (c : OfflineCtx) : ClaimState :=
  let k := row_key occurrence_date c in
  let grace_cutoff := utc_now - MISSED_GRACE_SECONDS * SECOND_US in
  let '(row, missed) := claim k grace_cutoff utc_now (cs_missed st) in
  match row with
  | None => mkClaim missed (cs_logs st) (cs_count st)
  | Some first_seen =>
      let elapsed := total_seconds_int (utc_now - first_seen) in
      let written :=
        match ins c true with
        | INSERTED => Some (missed_log true c elapsed)
        | FK_VIOLATION => if is_inserted (ins c false) then Some (missed_log false c elapsed) else None
        | INSERT_FAILED => None
        end in
      match written with
      | Some l => mkClaim missed (cs_logs st ++ [l]) (cs_count st + 1)
      | None => mkClaim (revert k utc_now missed) (cs_logs st) (cs_count st)
      end
  end.

(** The cleanup of the dedup rows. *)
Definition cleanup_missed (occurrence_date retention_cutoff : date) (keys : gset (string * string))
    (m : gmap missed_key MissedEvent) : gmap missed_key MissedEvent :=
  filter (λ kv, ¬ kv.1.2 < retention_cutoff)
    (filter (λ kv, ¬ (kv.1.2 = occurrence_date ∧ kv.1.1 ∉ keys)) m).

(** ** The confirmed-playback cache *)

Definition drop_disconnected (connected : gset string) (c : confirmed_cache) : confirmed_cache :=
  filter (λ kv, kv.1 ∈ connected) c.

(** [info.get("schedule_id") and str(...) not in active_sids], negated. *)
Definition still_active (active_sids : gset string) (info : Confirmed) : bool :=
  match truthy (cp_schedule_id info) with Some sid => bool_decide (sid ∈ active_sids) | None => true end.

Definition drop_expired (active_sids : gset string) (c : confirmed_cache) : confirmed_cache :=
  filter (λ kv, still_active active_sids kv.2 = true) c.

Definition seed_confirmed_step (live_states : gmap string LiveState) (utc_now : Z)
    (c : confirmed_cache) (sa : Schedule * Asset * string) : confirmed_cache :=
  let '(s, a, did) := sa in
  match c !! did with
  | Some _ => c
  | None =>
      if live_plays (live_states !! did) (expected_raw a)
      then <[did := mkConfirmed (Some (s_id s)) (Some (utc_isoformat utc_now))]> c else c
  end.

(** The pairs of an active schedule with an asset and a target device. *)
Definition active_pairs (targets_by_schedule : gmap string (gset string)) (active : list Schedule)
    : list (Schedule * Asset * string) :=
  concat ((λ s, match s_asset s with
                | None => []
                | Some a => (λ did, (s, a, did)) <$> elements (default ∅ (targets_by_schedule !! s_id s))
                end) <$> active).

Definition seed_confirmed (live_states : gmap string LiveState) (utc_now : Z)
    (pairs : list (Schedule * Asset * string)) (c : confirmed_cache) : confirmed_cache :=
  fold_left (seed_confirmed_step live_states utc_now) pairs c.

(** ** The tick *)

(** What the tick reads from outside the database. *)
Record TickEnv := mkEnv {
  te_connected : list string;             (* transport.connected_ids() *)
  te_is_connected : string → bool;        (* transport.is_connected *)
  te_states : list LiveState;             (* transport.get_all_states() *)
  te_now : Z;                             (* the first clock reading *)
  te_utc_now : Z;                         (* the second clock reading *)
  te_ins : OfflineCtx → bool → insert_outcome
}.

Record TickResult := mkTick {
  tr_db : Db; tr_cache : confirmed_cache; tr_pushed : list (string * SyncMessage); tr_missed_emitted : Z
}.

Section tick.
Context (sha256 : string → string) (zone_info : string → option (Z → datetime)).

Definition evaluate_schedules (env : TickEnv) (db : Db) (cache : confirmed_cache) : result exn TickResult :=
  tz ← zone zone_info (default "UTC" (truthy (db_timezone db)));
  let local_now := tz (te_now env) in
  let raw_skips := load_skip_snapshot db in
  let skips := active_as_of raw_skips local_now in
  let connected : gset string := list_to_set (te_connected env) in
  pushed ← push_all sha256 zone_info (te_is_connected env) db (te_now env) (Some skips) (elements connected);
  let db1 := purge_expired raw_skips local_now db in
  active ← active_schedules db skips local_now;
  let targets := load_target_devices_by_schedule db active in
  let occurrence_date := dt_date local_now in
  let ctxs := active_offline skips connected (all_adopted db) targets active in
  let seeded := seed_missed occurrence_date (te_utc_now env) ctxs (db_missed db1) in
  let claimed := fold_left (claim_step (te_ins env) occurrence_date (te_utc_now env)) ctxs
                   (mkClaim seeded (db_logs db1) 0) in
  retention_cutoff ← date_add occurrence_date (- MISSED_RETENTION_DAYS);
  let keys : gset (string * string) := list_to_set (ctx_key <$> ctxs) in
  let db2 := set_missed (λ _, cleanup_missed occurrence_date retention_cutoff keys (cs_missed claimed)) db1 in
  let db3 := set_logs (λ _, cs_logs claimed) db2 in
  let cache1 := drop_disconnected connected cache in
  let cache2 := drop_expired (list_to_set (s_id <$> active)) cache1 in
  let cache3 := seed_confirmed (live_by_device (te_states env)) (te_utc_now env)
                  (active_pairs targets active) cache2 in
  Ok (mkTick db3 cache3 pushed (cs_count claimed)).
End tick.

(** ** Specification *)

(** Schedule [s] should be playing on [did] and the device is away. *)
Definition away (db : Db) (connected : list string) (local_now : datetime) (s : Schedule) (did : string) : Prop :=
  eligible db local_now s did ∧ did ∉ connected.

(** The grace period of a row is over at [utc_now] and it is not reported. *)
Definition due_row (utc_now : Z) (row : MissedEvent) : bool :=
  bool_decide (me_emitted_at row = None) &&
  (me_first_seen_offline_at row <=? utc_now - MISSED_GRACE_SECONDS * SECOND_US).

(** The log entry a tick writes for [c], given the table [m]. *)
Definition due_log (ins : OfflineCtx → bool → insert_outcome) (d : date) (utc_now : Z)
    (m : gmap missed_key MissedEvent) (c : OfflineCtx) : option ScheduleLog :=
  row ← m !! row_key d c;
  if negb (due_row utc_now row) then None
  else
    let elapsed := total_seconds_int (utc_now - me_first_seen_offline_at row) in
    match ins c true with
    | INSERTED => Some (missed_log true c elapsed)
    | FK_VIOLATION => if is_inserted (ins c false) then Some (missed_log false c elapsed) else None
    | INSERT_FAILED => None
    end.

(** ** Lemmas *)

Lemma claim_spec k cutoff now m :
  claim k cutoff now m =
  match m !! k with
  | Some row => if (bool_decide (me_emitted_at row = None) && (me_first_seen_offline_at row <=? cutoff))%bool
                then (Some (me_first_seen_offline_at row), <[k := mkMissed (me_first_seen_offline_at row) (Some now)]> m)
                else (None, m)
  | None => (None, m)
  end.
Proof. done. Qed.

(** A turn of the claim loop, seen through [due_log]. *)
Lemma claim_step_spec ins d now st c :
  let st' := claim_step ins d now st c in
  cs_logs st' = cs_logs st ++ match due_log ins d now (cs_missed st) c with Some l => [l] | None => [] end ∧
  cs_count st' = cs_count st + (match due_log ins d now (cs_missed st) c with Some _ => 1 | None => 0 end) ∧
  ∀ k, cs_missed st' !! k =
    if decide (k = row_key d c ∧ is_Some (due_log ins d now (cs_missed st) c))
    then (λ row, mkMissed (me_first_seen_offline_at row) (Some now)) <$> cs_missed st !! k
    else cs_missed st !! k.
Proof.
  unfold claim_step, due_log, due_row. rewrite claim_spec.
  destruct (cs_missed st !! row_key d c) as [row|] eqn:Hrow; simpl.
  2:{ rewrite app_nil_r, Z.add_0_r. split_and!; [done..|]. intros k. by rewrite decide_False by (by intros [_ [? ?]]). }
  destruct (bool_decide _ && _)%bool eqn:Hdue; simpl.
  2:{ rewrite app_nil_r, Z.add_0_r. split_and!; [done..|]. intros k. by rewrite decide_False by (by intros [_ [? ?]]). }
  assert (∀ k, revert (row_key d c) now (<[row_key d c := mkMissed (me_first_seen_offline_at row) (Some now)]> (cs_missed st)) !! k
          = cs_missed st !! k) as Hrev.
  { intros k. unfold revert. rewrite lookup_insert_eq. simpl. rewrite bool_decide_true, insert_insert_eq by done.
    destruct (decide (k = row_key d c)) as [->|]; [|by rewrite lookup_insert_ne].
    rewrite lookup_insert_eq, Hrow. apply andb_true_iff in Hdue as [He%bool_decide_eq_true _].
    destruct row; simpl in *; by rewrite He. }
  assert (∀ l k, <[row_key d c := mkMissed (me_first_seen_offline_at row) (Some now)]> (cs_missed st) !! k =
    if decide (k = row_key d c ∧ is_Some (Some (l : ScheduleLog)))
    then (λ row, mkMissed (me_first_seen_offline_at row) (Some now)) <$> cs_missed st !! k
    else cs_missed st !! k) as Hset.
  { intros l k. destruct (decide (k = row_key d c)) as [->|].
    - rewrite decide_True by (split; [done|by eexists]). by rewrite lookup_insert_eq, Hrow.
    - rewrite decide_False by naive_solver. by rewrite lookup_insert_ne. }
  destruct (ins c true); [|destruct (ins c false)|]; simpl; rewrite ?app_nil_r, ?Z.add_0_r;
    (split_and!; [done..|]); intros k; try apply Hset; rewrite Hrev;
    by rewrite decide_False by (by intros [_ [? ?]]).
Qed.

Lemma due_log_ext ins d now m m' c :
  m !! row_key d c = m' !! row_key d c → due_log ins d now m c = due_log ins d now m' c.
Proof. unfold due_log. by intros ->. Qed.

(** The loop over pairs with distinct keys decides every pair on the initial
    table. *)
Lemma claim_fold ins d now ctxs st :
  NoDup (row_key d <$> ctxs) →
  let st' := fold_left (claim_step ins d now) ctxs st in
  cs_logs st' = cs_logs st ++ omap (due_log ins d now (cs_missed st)) ctxs ∧
  cs_count st' = cs_count st + Z.of_nat (length (omap (due_log ins d now (cs_missed st)) ctxs)) ∧
  (∀ c, c ∈ ctxs → cs_missed st' !! row_key d c =
     if due_log ins d now (cs_missed st) c
     then (λ row, mkMissed (me_first_seen_offline_at row) (Some now)) <$> cs_missed st !! row_key d c
     else cs_missed st !! row_key d c) ∧
  (∀ k, k ∉ row_key d <$> ctxs → cs_missed st' !! k = cs_missed st !! k).
Proof.
  revert st. induction ctxs as [|c ctxs IH]; intros st Hnd; cbn zeta; cbn [fold_left].
  { simpl. rewrite app_nil_r, Z.add_0_r. split_and!; [done|done|intros ? []%elem_of_nil|done]. }
  rewrite omap_cons_match.
  rewrite fmap_cons in Hnd. apply NoDup_cons in Hnd as [Hnin Hnd].
  destruct (claim_step_spec ins d now st c) as (Hlogs & Hcount & Hmiss).
  destruct (IH (claim_step ins d now st c) Hnd) as (IH1 & IH2 & IH3 & IH4). clear IH.
  assert (∀ c', c' ∈ ctxs → row_key d c' ≠ row_key d c) as Hne.
  { intros c' Hc' Heq. apply Hnin. rewrite <- Heq. by apply list_elem_of_fmap_2. }
  assert (∀ k, k ≠ row_key d c → cs_missed (claim_step ins d now st c) !! k = cs_missed st !! k) as Hother.
  { intros k Hk. rewrite Hmiss. by rewrite decide_False by naive_solver. }
  assert (omap (due_log ins d now (cs_missed (claim_step ins d now st c))) ctxs =
          omap (due_log ins d now (cs_missed st)) ctxs) as Homap.
  { apply omap_ext_in. intros x Hx. apply due_log_ext, Hother. auto. }
  rewrite Homap in IH1, IH2. split_and!.
  - rewrite IH1, Hlogs, <- app_assoc. f_equal. by destruct (due_log ins d now (cs_missed st) c).
  - rewrite IH2, Hcount. destruct (due_log ins d now (cs_missed st) c); cbn [length]; lia.
  - intros c' [->|Hc']%elem_of_cons.
    + rewrite IH4 by done. rewrite Hmiss. destruct (due_log ins d now (cs_missed st) c).
      * rewrite decide_True by (split; [done|by eexists]). done.
      * by rewrite decide_False by (by intros [_ [? ?]]).
    + rewrite IH3 by done. rewrite Hother by auto. by rewrite (due_log_ext _ _ _ _ (cs_missed st)) by auto.
  - intros k Hk. rewrite fmap_cons, not_elem_of_cons in Hk. destruct Hk. by rewrite IH4, Hother.
Qed.

Lemma seed_missed_lookup d now ctxs m k :
  seed_missed d now ctxs m !! k =
  match m !! k with
  | Some row => Some row
  | None => if decide (k ∈ row_key d <$> ctxs) then Some (mkMissed now None) else None
  end.
Proof.
  unfold seed_missed. revert m. induction ctxs as [|c ctxs IH]; intros m; cbn [fold_left].
  { rewrite decide_False by apply not_elem_of_nil. by destruct (m !! k). }
  rewrite IH, fmap_cons. clear IH. unfold _insert_missed_event_stmt.
  destruct (decide (k = row_key d c)) as [->|Hne].
  - rewrite (decide_True (P := row_key d c ∈ row_key d c :: _)) by left.
    destruct (m !! row_key d c) eqn:Hr; [by rewrite Hr|by rewrite lookup_insert_eq].
  - assert (k ∈ row_key d c :: (row_key d <$> ctxs) ↔ k ∈ row_key d <$> ctxs) as Hiff
      by (rewrite elem_of_cons; naive_solver).
    rewrite (decide_ext _ _ _ _ Hiff). destruct (m !! row_key d c); [done|]. by rewrite lookup_insert_ne.
Qed.

(** A row seeded by the tick is not due in the same tick. *)
Lemma due_log_seeded ins d now ctxs m c :
  due_log ins d now (seed_missed d now ctxs m) c = due_log ins d now m c.
Proof.
  unfold due_log. rewrite seed_missed_lookup. destruct (m !! row_key d c); [done|].
  case_decide; [|done]. simpl. unfold due_row, MISSED_GRACE_SECONDS, SECOND_US. simpl.
  by rewrite (proj2 (Z.leb_gt now _)) by lia.
Qed.

Lemma adopted_of_target db s did :
  targets db s did → is_Some (all_adopted db !! did).
Proof.
  intros (d & gid & Hd & <- & Hst & _). unfold all_adopted. apply dict_of_is_Some, list_elem_of_fmap.
  eexists (d_id d, _). split; [done|]. apply list_elem_of_omap. exists d. split; [done|].
  by rewrite bool_decide_true.
Qed.

(** The pairs of the tick are the active schedules of absent target devices. *)
Lemma elem_of_active_offline db connected now active c :
  db_ok db → now_ok now →
  let skips := active_as_of (load_skip_snapshot db) now in
  active_schedules db skips now = Ok active →
  c ∈ active_offline skips (list_to_set connected) (all_adopted db)
        (load_target_devices_by_schedule db active) active ↔
  ∃ s did, away db connected now s did ∧ c = offline_ctx (all_adopted db) s did.
Proof.
  intros Hdb Hnow skips Ha. unfold active_offline. rewrite list_elem_of_concat_fmap.
  assert (NoDup (s_id <$> active)) as Hnd by by eapply active_NoDup.
  split.
  - intros (s & Hs & Hc). destruct (s_asset s) as [a|] eqn:Has; [|by apply elem_of_nil in Hc].
    apply list_elem_of_omap in Hc as (did & Hd%elem_of_elements & Hx).
    rewrite lookup_target_devices in Hd by done.
    destruct (is_skipped_for_device skips (s_id s) did) eqn:Hsk; [done|].
    case_bool_decide as Hcond; [done|]. injection Hx as <-.
    exists s, did. split; [|done]. split; [|set_solver].
    apply (elem_of_active db skips now active s Hdb Hnow Ha) in Hs as (Hin & He & Ho & _).
    apply not_skipped_iff in Hsk as [??]; [|apply Hdb|done]. by split_and!.
  - intros (s & did & [(Hin & He & Ho & [a Has] & Ht & Hsk1 & Hsk2) Hnc] & ->).
    assert (is_skipped_for_device skips (s_id s) did = false) as Hsk
      by by (apply not_skipped_iff; [apply Hdb|done|]).
    assert (s ∈ active) as Hs.
    { apply (elem_of_active db skips now); [done..|]. split_and!; [done..|].
      unfold is_skipped_for_device in Hsk. by case_match. }
    exists s. split; [done|]. rewrite Has. apply list_elem_of_omap. exists did.
    rewrite elem_of_elements, lookup_target_devices by done. split; [done|]. rewrite Hsk.
    destruct (adopted_of_target _ _ _ Ht) as [n Hn]. rewrite bool_decide_false; [done|].
    intros [?|?]; [set_solver|congruence].
Qed.

Lemma active_offline_NoDup skips connected adopted targets active :
  NoDup (s_id <$> active) →
  NoDup (ctx_key <$> active_offline skips connected adopted targets active).
Proof.
  unfold active_offline. induction active as [|s active IH]; intros Hnd; [constructor|].
  rewrite fmap_cons in Hnd. apply NoDup_cons in Hnd as [Hnin Hnd]. simpl. rewrite fmap_app.
  apply NoDup_app. split_and!; [| |by apply IH].
  - destruct (s_asset s); [|constructor].
    apply (omap_fmap_NoDup (λ did, (s_id s, did))).
    + intros did c. destruct (is_skipped_for_device _ _ _); [done|]. case_bool_decide; [done|]. by intros [= <-].
    + apply NoDup_fmap_2; [|apply NoDup_elements]. intros ??. by intros [= ->].
  - intros k Hk1 Hk2. apply list_elem_of_fmap in Hk1 as (c1 & -> & Hc1).
    apply list_elem_of_fmap in Hk2 as (c2 & Heq & Hc2). apply Hnin.
    assert (oc_schedule_id c1 = s_id s) as Hid.
    { destruct (s_asset s); [|by apply elem_of_nil in Hc1].
      apply list_elem_of_omap in Hc1 as (did & _ & Hx). destruct (is_skipped_for_device _ _ _); [done|].
      case_bool_decide; [done|]. by injection Hx as <-. }
    apply list_elem_of_concat_fmap in Hc2 as (s' & Hs' & Hc2).
    assert (oc_schedule_id c2 = s_id s') as Hid'.
    { destruct (s_asset s'); [|by apply elem_of_nil in Hc2].
      apply list_elem_of_omap in Hc2 as (did & _ & Hx). destruct (is_skipped_for_device _ _ _); [done|].
      case_bool_decide; [done|]. by injection Hx as <-. }
    apply list_elem_of_fmap. exists s'. split; [|done]. unfold ctx_key in Heq. congruence.
Qed.

(** Everything a successful tick did. *)
Record tick_facts (env : TickEnv) (db : Db) (cache : confirmed_cache) (tz : Z → datetime) (r : TickResult)
    (active : list Schedule) (ctxs : list OfflineCtx) : Prop := {
  tf_active : active_schedules db (active_as_of (load_skip_snapshot db) (tz (te_now env))) (tz (te_now env)) = Ok active;
  tf_ctxs : ctxs = active_offline (active_as_of (load_skip_snapshot db) (tz (te_now env)))
                     (list_to_set (te_connected env)) (all_adopted db)
                     (load_target_devices_by_schedule db active) active;
  tf_logs : db_logs (tr_db r) = db_logs db ++
              omap (due_log (te_ins env) (dt_date (tz (te_now env))) (te_utc_now env) (db_missed db)) ctxs;
  tf_count : tr_missed_emitted r = Z.of_nat (length
              (omap (due_log (te_ins env) (dt_date (tz (te_now env))) (te_utc_now env) (db_missed db)) ctxs));
  tf_missed_ctx : ∀ c, c ∈ ctxs → db_missed (tr_db r) !! row_key (dt_date (tz (te_now env))) c =
    Some (match db_missed db !! row_key (dt_date (tz (te_now env))) c with
          | None => mkMissed (te_utc_now env) None
          | Some row =>
              if due_log (te_ins env) (dt_date (tz (te_now env))) (te_utc_now env) (db_missed db) c
              then mkMissed (me_first_seen_offline_at row) (Some (te_utc_now env)) else row
          end);
  tf_missed_other : ∀ k, k ∉ row_key (dt_date (tz (te_now env))) <$> ctxs →
    db_missed (tr_db r) !! k =
    if decide (k.2 = dt_date (tz (te_now env)) ∨ k.2 < dt_date (tz (te_now env)) - MISSED_RETENTION_DAYS)
    then None else db_missed db !! k;
  tf_cache : tr_cache r = seed_confirmed (live_by_device (te_states env)) (te_utc_now env)
               (active_pairs (load_target_devices_by_schedule db active) active)
               (drop_expired (list_to_set (s_id <$> active)) (drop_disconnected (list_to_set (te_connected env)) cache))
}.

Lemma cleanup_lookup (d rc : date) (keys : gset (string * string)) (m : gmap missed_key MissedEvent) (k : missed_key) :
  cleanup_missed d rc keys m !! k =
  if decide (k.2 < rc ∨ (k.2 = d ∧ k.1 ∉ keys)) then None else m !! k.
Proof.
  unfold cleanup_missed. apply option_eq. intros v. rewrite !map_lookup_filter_Some. simpl.
  case_decide; naive_solver.
Qed.

Lemma evaluate_inv sha zi env db cache tz r :
  db_ok db → zi (default "UTC" (truthy (db_timezone db))) = Some tz →
  evaluate_schedules sha zi env db cache = Ok r →
  ∃ active ctxs, tick_facts env db cache tz r active ctxs.
Proof.
  intros Hdb Hzi. unfold evaluate_schedules, zone. rewrite Hzi. cbn [mbind result_bind].
  set (now := tz (te_now env)). set (skips := active_as_of (load_skip_snapshot db) now).
  destruct (push_all _ _ _ _ _ _ _) as [pushed|]; cbn [mbind result_bind]; [|done].
  destruct (active_schedules db skips now) as [active|] eqn:Ha; cbn [mbind result_bind]; [|done].
  set (ctxs := active_offline _ _ _ _ active). set (d := dt_date now).
  destruct (date_add d _) as [rc|] eqn:Hrc; cbn [mbind result_bind]; [|done].
  assert (rc = d - MISSED_RETENTION_DAYS) as ->.
  { unfold date_add in Hrc. destruct (date_ok _); [|done]. injection Hrc as <-. lia. }
  assert (NoDup (row_key d <$> ctxs)) as Hnd.
  { assert (NoDup (ctx_key <$> ctxs)) as Hk by (apply active_offline_NoDup; by eapply active_NoDup).
    revert Hk. generalize ctxs. clear. intros l. induction l as [|c l IH]; [constructor|].
    rewrite !fmap_cons. intros [Hnin Hnd]%NoDup_cons. constructor; [|auto].
    intros (x & Hx & Hin)%list_elem_of_fmap. apply Hnin, list_elem_of_fmap. exists x. split; [|done].
    unfold row_key, ctx_key in *. congruence. }
  intros [= <-]. exists active, ctxs.
  destruct (claim_fold (te_ins env) d (te_utc_now env) ctxs
              (mkClaim (seed_missed d (te_utc_now env) ctxs (db_missed db)) (db_logs db) 0) Hnd)
    as (Hlogs & Hcount & Hin & Hout).
  cbn [cs_missed cs_logs cs_count] in *.
  assert (omap (due_log (te_ins env) d (te_utc_now env) (seed_missed d (te_utc_now env) ctxs (db_missed db))) ctxs =
          omap (due_log (te_ins env) d (te_utc_now env) (db_missed db)) ctxs) as Homap
    by (apply omap_ext_in; intros; apply due_log_seeded).
  rewrite Homap in Hlogs, Hcount.
  assert (∀ k, k.2 = d → k ∉ row_key d <$> ctxs ↔ k.1 ∉ ctx_key <$> ctxs) as Hkeys.
  { intros [p d'] Hd. simpl in Hd. subst d'. rewrite !list_elem_of_fmap. unfold row_key, ctx_key. simpl.
    split; intros Hno (c & Hc & Hin'); apply Hno; exists c; (split; [|done]); destruct p; congruence. }
  split; [exact Ha|done|exact Hlogs|exact Hcount| | |done].
  - intros c Hc. fold now d. cbn [tr_db db_missed set_logs set_missed]. rewrite cleanup_lookup. simpl.
    rewrite decide_False.
    2:{ unfold MISSED_RETENTION_DAYS. intros [?|[_ Hno]]; [lia|]. apply Hno.
        apply elem_of_list_to_set, list_elem_of_fmap. by exists c. }
    rewrite Hin, due_log_seeded, seed_missed_lookup by done.
    rewrite decide_True by by apply list_elem_of_fmap_2.
    destruct (db_missed db !! row_key d c) as [row|] eqn:Hrow.
    + destruct (due_log _ _ _ _ c); done.
    + assert (due_log (te_ins env) d (te_utc_now env) (db_missed db) c = None) as ->; [|done].
      unfold due_log. by rewrite Hrow.
  - intros k Hk. fold now d. cbn [tr_db db_missed set_logs set_missed]. rewrite cleanup_lookup, Hout by done.
    rewrite seed_missed_lookup. fold d in Hk. destruct (decide (k ∈ row_key d <$> ctxs)) as [?|_]; [done|].
    assert (k.2 = d → k.1 ∉ (list_to_set (ctx_key <$> ctxs) : gset (string * string))) as Hk2.
    { intros Hd. rewrite elem_of_list_to_set. by apply Hkeys. }
    destruct (db_missed db !! k); repeat case_decide; try done; naive_solver.
Qed.





(** ** Theorems *)

(**  A tick reports MISSED exactly for the pairs that are due: the schedule
    is entitled to the device now, the device is not connected, its grace row
    of today is older than sixty seconds and not yet reported, and the log row
    could be inserted, with its keys or, after a foreign-key violation,
    without.  The counter is the number of entries written. *)
Theorem tick_missed_exact (sha : string → string) (zi : string → option (Z → datetime)) (env : TickEnv)
    (db : Db) (cache : confirmed_cache) (tz : Z → datetime) (r : TickResult) :
  db_ok db → zi (default "UTC" (truthy (db_timezone db))) = Some tz → now_ok (tz (te_now env)) →
  evaluate_schedules sha zi env db cache = Ok r →
  ∃ new, db_logs (tr_db r) = db_logs db ++ new ∧ tr_missed_emitted r = Z.of_nat (length new) ∧
    ∀ l, l ∈ new ↔ ∃ s did row,
      away db (te_connected env) (tz (te_now env)) s did ∧
      db_missed db !! (s_id s, did, dt_date (tz (te_now env))) = Some row ∧
      me_emitted_at row = None ∧ me_first_seen_offline_at row + MISSED_GRACE_SECONDS * SECOND_US ≤ te_utc_now env ∧
      let c := offline_ctx (all_adopted db) s did in
      let elapsed := total_seconds_int (te_utc_now env - me_first_seen_offline_at row) in
      (te_ins env c true = INSERTED ∧ l = missed_log true c elapsed ∨
       te_ins env c true = FK_VIOLATION ∧ te_ins env c false = INSERTED ∧ l = missed_log false c elapsed).
Proof.
  intros Hdb Hzi Hnow Hr.
  destruct (evaluate_inv _ _ _ _ _ _ _ Hdb Hzi Hr) as (active & ctxs & [Hact -> Hlogs Hcount _ _ _]).
  eexists. split; [exact Hlogs|]. split; [exact Hcount|]. intros l. rewrite list_elem_of_omap.
  setoid_rewrite (elem_of_active_offline db (te_connected env) (tz (te_now env)) active _ Hdb Hnow Hact).
  unfold due_log, due_row, row_key. split.
  - intros (c & (s & did & Haway & ->) & Hl). exists s, did. simpl in Hl.
    destruct (db_missed db !! (s_id s, did, dt_date (tz (te_now env)))) as [row|] eqn:Hrow; simpl in Hl; [|done].
    destruct (bool_decide _ && _)%bool eqn:Hdue; simpl in Hl; [|done]. bool_to_prop.
    exists row. split_and!; [done..|lia|]. destruct (te_ins env _ true); [| |done].
    + injection Hl as <-. by left.
    + destruct (te_ins env _ false); [|done..]. injection Hl as <-. by right.
  - intros (s & did & row & Haway & Hrow & Hem & Hge & Hins). eexists. split; [by exists s, did|].
    simpl. rewrite Hrow. simpl. rewrite bool_decide_true by done.
    rewrite (proj2 (Z.leb_le _ _)) by lia. simpl.
    destruct Hins as [[-> ->]|(-> & -> & ->)]; done.
Qed.


(**  The dedup table after a tick: the row of an absent pair keeps its grace
    clock, is marked reported exactly when the tick reported it (a failed
    insert leaves it due), and a pair seen for the first time starts its clock
    now; every other row of today and every row older than a week is gone. *)
Theorem tick_missed_table (sha : string → string) (zi : string → option (Z → datetime)) (env : TickEnv)
    (db : Db) (cache : confirmed_cache) (tz : Z → datetime) (r : TickResult) :
  db_ok db → zi (default "UTC" (truthy (db_timezone db))) = Some tz → now_ok (tz (te_now env)) →
  evaluate_schedules sha zi env db cache = Ok r →
  let today := dt_date (tz (te_now env)) in
  (∀ s did, away db (te_connected env) (tz (te_now env)) s did →
     let c := offline_ctx (all_adopted db) s did in
     db_missed (tr_db r) !! (s_id s, did, today) =
     Some (match db_missed db !! (s_id s, did, today) with
           | None => mkMissed (te_utc_now env) None
           | Some row => if due_log (te_ins env) today (te_utc_now env) (db_missed db) c
                         then mkMissed (me_first_seen_offline_at row) (Some (te_utc_now env)) else row
           end)) ∧
  (∀ sid did day row, db_missed (tr_db r) !! (sid, did, day) = Some row →
     today - MISSED_RETENTION_DAYS ≤ day ∧
     (day = today → ∃ s, s_id s = sid ∧ away db (te_connected env) (tz (te_now env)) s did) ∧
     (day ≠ today → db_missed db !! (sid, did, day) = Some row)).
Proof.
  intros Hdb Hzi Hnow Hr today.
  destruct (evaluate_inv _ _ _ _ _ _ _ Hdb Hzi Hr) as (active & ctxs & [Hact -> _ _ Hin Hout _]).
  pose proof (λ c, elem_of_active_offline db (te_connected env) (tz (te_now env)) active c Hdb Hnow Hact) as Hc.
  cbv zeta in Hc. split.
  - intros s did Haway c. apply (Hin c), Hc. by exists s, did.
  - intros sid did day row Hrow. destruct (decide ((sid, did, day) ∈ row_key today <$> active_offline
      (active_as_of (load_skip_snapshot db) (tz (te_now env))) (list_to_set (te_connected env)) (all_adopted db)
      (load_target_devices_by_schedule db active) active)) as [Hk|Hk].
    + apply list_elem_of_fmap in Hk as (c & Heq & (s & did' & Haway & ->)%Hc).
      unfold row_key in Heq. simpl in Heq. injection Heq as -> -> ->. unfold MISSED_RETENTION_DAYS.
      split_and!; [lia| |done]. intros _. by exists s.
    + rewrite Hout in Hrow by exact Hk. simpl in Hrow. case_decide as Hcase; [done|]. fold today in Hcase.
      split_and!; [lia|intros ->; exfalso; auto|done].
Qed.

(**  The confirmed-playback cache after a tick: an entry either was there,
    for a connected device and a schedule still in its window, or was seeded
    for a target of an active schedule whose live state shows that schedule's
    asset. *)
Theorem tick_cache_sound (sha : string → string) (zi : string → option (Z → datetime)) (env : TickEnv)
    (db : Db) (cache : confirmed_cache) (tz : Z → datetime) (r : TickResult) (did : string) (info : Confirmed) :
  db_ok db → zi (default "UTC" (truthy (db_timezone db))) = Some tz → now_ok (tz (te_now env)) →
  evaluate_schedules sha zi env db cache = Ok r → tr_cache r !! did = Some info →
  (cache !! did = Some info ∧ did ∈ te_connected env ∧
   ∀ sid, truthy (cp_schedule_id info) = Some sid →
     ∃ s, s ∈ db_schedules db ∧ s_id s = sid ∧ s_enabled s = true ∧ occurs_at s (dt_us (tz (te_now env)))) ∨
  (∃ s a live, s ∈ db_schedules db ∧ s_asset s = Some a ∧ occurs_at s (dt_us (tz (te_now env))) ∧ targets db s did ∧
     live_by_device (te_states env) !! did = Some live ∧ ls_mode live = "play" ∧ ls_asset live = expected_raw a ∧
     info = mkConfirmed (Some (s_id s)) (Some (utc_isoformat (te_utc_now env)))).
Proof.
  intros Hdb Hzi Hnow Hr.
  destruct (evaluate_inv _ _ _ _ _ _ _ Hdb Hzi Hr) as (active & ctxs & [Hact _ _ _ _ _ ->]).
  pose proof (λ s, elem_of_active db _ (tz (te_now env)) active s Hdb Hnow Hact) as Hactive.
  set (pairs := active_pairs _ active). unfold seed_confirmed.
  assert (∀ c, fold_left (seed_confirmed_step (live_by_device (te_states env)) (te_utc_now env)) pairs c !! did = Some info →
    c !! did = Some info ∨ ∃ s a, (s, a, did) ∈ pairs ∧
      live_plays (live_by_device (te_states env) !! did) (expected_raw a) = true ∧
      info = mkConfirmed (Some (s_id s)) (Some (utc_isoformat (te_utc_now env)))) as Hfold.
  { clearbody pairs. induction pairs as [|[[s a] x] pairs IH]; intros c Hc; [by left|]. simpl in Hc.
    destruct (IH _ Hc) as [Hstep|(s' & a' & ? & ? & ?)]; [|right; exists s', a'; split; [by right|done]].
    destruct (c !! x) as [?|] eqn:Hx; [by left|].
    destruct (live_plays _ _) eqn:Hl; [|by left]. destruct (decide (x = did)) as [->|Hne].
    - rewrite lookup_insert_eq in Hstep. injection Hstep as <-. right. exists s, a. split; [left|done].
    - rewrite lookup_insert_ne in Hstep by done. by left. }
  intros [Hc|(s & a & Hin & Hl & ->)]%Hfold.
  - left. unfold drop_expired, drop_disconnected in Hc.
    apply map_lookup_filter_Some in Hc as [[Hc Hconn]%map_lookup_filter_Some Hact'].
    simpl in *. split_and!; [done|by apply elem_of_list_to_set in Hconn|]. intros sid Hsid.
    unfold still_active in Hact'. rewrite Hsid in Hact'. apply bool_decide_eq_true in Hact'.
    apply elem_of_list_to_set, list_elem_of_fmap in Hact' as (s & -> & (? & ? & ? & _)%Hactive). by exists s.
  - right. unfold pairs, active_pairs in Hin. apply list_elem_of_concat_fmap in Hin as (s' & Hs' & Hin).
    destruct (s_asset s') as [a'|] eqn:Ha; [|by apply elem_of_nil in Hin].
    apply list_elem_of_fmap in Hin as (x & [= -> -> ->] & Hx%elem_of_elements).
    rewrite lookup_target_devices in Hx by (done || by eapply active_NoDup).
    apply Hactive in Hs' as (? & ? & ? & _). unfold live_plays in Hl.
    destruct (live_by_device (te_states env) !! x) as [live|]; [|done].
    apply bool_decide_eq_true in Hl as [? ?]. by exists s', a', live.
Qed.

(** ** Witnesses *)

Definition all_inserted (c : OfflineCtx) (with_keys : bool) : insert_outcome := INSERTED.
Definition tick_env (h m : Z) : TickEnv :=
  mkEnv [] (λ _, false) [] (utc_at h m) (utc_at h m) all_inserted.

Definition tick_at (h m : Z) (db : Db) : TickResult :=
  match evaluate_schedules toy_digest utc_zone (tick_env h m) db ∅ with
  | Ok r => r | Err _ => mkTick db ∅ [] 0 end.

(** The night show has been missing on [d1] since 21:55. *)
Definition waiting_db : Db :=
  set_missed (λ _, {[("night", "d1", leap_day) := mkMissed (utc_at 21 55) None]}) two_shows.

Lemma waiting_db_ok : db_ok waiting_db ∧ away waiting_db [] (utc_tz (utc_at 22 0)) night_show "d1".
Proof.
  split; [split; [apply two_shows_ok|apply two_shows_ok]|]. split; [exact night_show_eligible|set_solver].
Qed.

Lemma tick_missed_exact_witness :
  ∃ new, db_logs (tr_db (tick_at 22 0 waiting_db)) = [] ++ new ∧
         missed_log true (offline_ctx (all_adopted waiting_db) night_show "d1") 300 ∈ new.
Proof.
  destruct (tick_missed_exact toy_digest utc_zone (tick_env 22 0) waiting_db ∅ utc_tz (tick_at 22 0 waiting_db))
    as (new & Hlogs & _ & Hnew).
  - apply waiting_db_ok.
  - reflexivity.
  - split; by vm_compute.
  - by vm_compute.
  - exists new. split; [exact Hlogs|]. apply Hnew.
    exists night_show, "d1", (mkMissed (utc_at 21 55) None).
    split_and!; [apply waiting_db_ok|by vm_compute|done|vm_compute; discriminate|]. left. split; by vm_compute.
Defined.


Lemma tick_missed_table_witness :
  is_Some (db_missed (tr_db (tick_at 22 0 waiting_db)) !! ("night", "d1", leap_day)).
Proof.
  destruct (tick_missed_table toy_digest utc_zone (tick_env 22 0) waiting_db ∅ utc_tz (tick_at 22 0 waiting_db))
    as [Hrow _].
  - apply waiting_db_ok.
  - reflexivity.
  - split; by vm_compute.
  - by vm_compute.
  - pose proof (Hrow night_show "d1" (proj2 waiting_db_ok)) as Hk.
    exact (mk_is_Some _ _ Hk).
Defined.

Definition live_env : TickEnv :=
  mkEnv ["d1"] (λ _, false) [mkLive "d1" "play" (Some "night.mp4") None] (utc_at 22 0) (utc_at 22 0) all_inserted.
Definition live_tick : TickResult :=
  match evaluate_schedules toy_digest utc_zone live_env two_shows ∅ with
  | Ok r => r | Err _ => mkTick two_shows ∅ [] 0 end.

Lemma tick_cache_sound_witness :
  ∃ info, tr_cache live_tick !! "d1" = Some info ∧
    ∃ s a, s ∈ db_schedules two_shows ∧ s_asset s = Some a ∧ targets two_shows s "d1".
Proof.
  destruct (tr_cache live_tick !! "d1") as [info|] eqn:Hi; [|exfalso; by vm_compute in Hi].
  exists info. split; [done|].
  destruct (tick_cache_sound toy_digest utc_zone live_env two_shows ∅ utc_tz live_tick "d1" info)
    as [[Hc _]|(s & a & live & ? & ? & _ & ? & _)].
  - apply two_shows_ok.
  - reflexivity.
  - split; by vm_compute.
  - by vm_compute.
  - exact Hi.
  - by rewrite lookup_empty in Hc.
  - exists s, a. split_and!; assumption.
Defined.

(** One overnight occurrence is reported once per local day, as the schema of
    the table documents: the key of the dedup row is the date of the tick. *)
Definition night_only : Db := fleet [night_show] [screen "d1" "g"].
Definition tomorrow_env (m : Z) : TickEnv :=
  mkEnv [] (λ _, false) [] (utc_at 24 m) (utc_at 24 m) all_inserted.

Example overnight_reported_twice :
  let run env db := match evaluate_schedules toy_digest utc_zone env db ∅ with
                    | Ok r => (tr_missed_emitted r, tr_db r) | Err _ => (-1, db) end in
  let '(n1, db1) := run (tick_env 23 0) night_only in
  let '(n2, db2) := run (tick_env 23 2) db1 in
  let '(n3, db3) := run (tomorrow_env 0) db2 in
  let '(n4, _) := run (tomorrow_env 2) db3 in
  (n1, n2, n3, n4) = (0, 1, 0, 1).
Proof. by vm_compute. Qed.
