(* ===== verification/EndNow.v ===== *)
(** * The "End Now" endpoint (cms/routers/schedules.py, [end_schedule_now])

    The whole handler after authentication and the parsing of the body: it
    computes the skip, checks the scope, invalidates the cache, persists the
    skip, logs it per affected device and pushes the affected devices. *)

From S2P Require Import Prelude Clock Models Occurrence Database Samples Skips Targeting NowPlaying DeviceSync.
Open Scope Z_scope.

(** ** Definitions *)

Record EndNowOut := mkEndNow {
  en_ended : string;
  en_until : datetime;                            (* resumes_after *)
  en_device_id : option string;
  en_pushed : list (string * SyncMessage)
}.

(** [schedule.skipped_until = until] on the row with the id. *)
Definition with_skip (until : datetime) (s : Schedule) : Schedule :=
  mkSchedule (s_id s) (s_name s) (s_group_id s) (s_group s) (s_tag_id s) (s_asset s)
    (s_start_date s) (s_end_date s) (s_start_time s) (s_end_time s) (s_days_of_week s)
    (s_priority s) (s_enabled s) (s_loop_count s) (Some until).
Definition mark_skipped (sid : uuid) (until : datetime) (s : Schedule) : Schedule :=
  if bool_decide (s_id s = sid) then with_skip until s else s.

(** The skip in the database: the schedule's column, or an upserted row. *)
Definition persist_skip (sid : uuid) (device_id : option string) (until : datetime) (db : Db) : Db :=
  match device_id with
  | None => set_schedules (fmap (mark_skipped sid until)) db
  | Some did => set_device_skips (<[(sid, did) := until]>) db
  end.

(** [display_name or original_filename or filename]. *)
Definition skipped_name (a : Asset) : string :=
  default (a_filename a) (str_or (a_display_name a) (truthy (a_original_filename a))).

Definition skipped_log (s : Schedule) (a : Asset) (dev_names : gmap string string) (did : string) : ScheduleLog :=
  mkLog (Some (s_id s)) (s_name s) (Some did) (default did (dev_names !! did)) (skipped_name a)
        SKIPPED (Some "Ended early by admin").

Section end_now.
Context (sha256 : string → string) (zone_info : string → option (Z → datetime)).
(** [connected] is the transport, [verify_access] the group check of the
    caller ([_verify_schedule_access]), [device_id] the stripped, non-empty
    device of the body. *)
Context (connected : string → bool) (verify_access : Schedule → result exn unit).

(** The guards: what the handler decides before it changes anything. *)
Definition end_now_plan (db : Db) (now : Z) (schedule_id : uuid) (device_id : option string)
    : result exn (Schedule * datetime * list string) :=
  match list_find (λ s, s_id s = schedule_id) (db_schedules db) with
  | None => Err (HTTPException 404)
  | Some (_, s) =>
      _ ← verify_access s;
      tz ← zone zone_info (default "UTC" (truthy (db_timezone db)));
      end_today ← end_now_until s (tz now);
      let target_ids := _get_target_device_ids db s in
      match device_id with
      | None => Ok (s, end_today, target_ids)
      | Some did => if bool_decide (did ∈ target_ids) then Ok (s, end_today, [did]) else Err (HTTPException 400)
      end
  end.

(** The tables and the cache at the end, and what the caller gets; an
    exception raised after the first commit does not undo it. *)
Definition end_schedule_now (db : Db) (cache : confirmed_cache) (now : Z) (schedule_id : uuid)
    (device_id : option string) : Db * confirmed_cache * result exn EndNowOut :=
  match end_now_plan db now schedule_id device_id with
  | Err e => (db, cache, Err e)
  | Ok (s, end_today, affected_ids) =>
      let cache' := skip_schedule_until (s_id s) device_id cache in
      let db1 := persist_skip (s_id s) device_id end_today db in
      match s_asset s, affected_ids with
      | None, _ :: _ => (db1, cache', Err AttributeError)
      | a, _ =>
          let names := device_names_of db1 affected_ids in
          let rows := match a with Some a => skipped_log s a names <$> affected_ids | None => [] end in
          let db2 := set_logs (λ l, l ++ rows) db1 in
          (db2, cache',
           pushed ← push_all sha256 zone_info connected db2 now None affected_ids;
           Ok (mkEndNow (s_id s) end_today device_id pushed))
      end
  end.
End end_now.

(** ** Specification *)

(** The pairs the skip covers. *)
Definition in_scope (sid : uuid) (device_id : option string) (x : uuid) (did : string) : Prop :=
  x = sid ∧ (device_id = None ∨ device_id = Some did).

(** Some schedule with id [x] is entitled to the device. *)
Definition entitled (db : Db) (t : datetime) (x : uuid) (did : string) : Prop :=
  ∃ s, s_id s = x ∧ eligible db t s did.

(** ** Lemmas *)

Lemma mark_skipped_id sid until s : s_id (mark_skipped sid until s) = s_id s.
Proof. unfold mark_skipped. by case_bool_decide. Qed.

(** What eligibility asks of a schedule apart from the skips. *)
Definition wanted (db : Db) (t : datetime) (s : Schedule) (did : string) : Prop :=
  s ∈ db_schedules db ∧ s_enabled s = true ∧ occurs_at s (dt_us t) ∧ is_Some (s_asset s) ∧ targets db s did.

Lemma eligible_wanted db t s did :
  eligible db t s did ↔ wanted db t s did ∧
    (∀ u, s_skipped_until s = Some u → dt_us u ≤ dt_us t) ∧
    (∀ u, db_device_skips db !! (s_id s, did) = Some u → dt_us u ≤ dt_us t).
Proof. unfold eligible, wanted. tauto. Qed.

Lemma wanted_mark sid until db t s did :
  s ∈ db_schedules db →
  wanted (set_schedules (fmap (mark_skipped sid until)) db) t (mark_skipped sid until s) did ↔ wanted db t s did.
Proof.
  intros Hin. assert (mark_skipped sid until s ∈ mark_skipped sid until <$> db_schedules db)
    by by apply list_elem_of_fmap_2.
  unfold wanted, targets. simpl. unfold mark_skipped in *. case_bool_decide; simpl; tauto.
Qed.

Lemma persist_out_of_scope sid dev u db t x did :
  ¬ in_scope sid dev x did → entitled (persist_skip sid dev u db) t x did ↔ entitled db t x did.
Proof.
  intros Hout. unfold entitled, in_scope in *. destruct dev as [d|]; simpl.
  - assert ((sid, d) ≠ (x, did)) as Hne by (intros [= -> ->]; tauto).
    split; intros (s & <- & He); exists s; (split; [done|]); rewrite eligible_wanted in *; simpl in *.
    + by rewrite lookup_insert_ne in He.
    + by rewrite lookup_insert_ne.
  - assert (x ≠ sid) as Hne by tauto.
    assert (∀ s, s_id s = x → mark_skipped sid u s = s) as Hid
      by (intros s <-; unfold mark_skipped; by rewrite bool_decide_eq_false_2).
    split; intros (s & Hs & He); rewrite eligible_wanted in He; destruct He as (Hw & Hs1 & Hs2).
    + pose proof (proj1 Hw) as Hin. apply list_elem_of_fmap in Hin as (s0 & -> & Hin).
      rewrite mark_skipped_id in Hs. rewrite Hid in * by done. exists s0. split; [done|].
      rewrite eligible_wanted. split; [|done]. apply (wanted_mark sid u) ; [done|]. by rewrite Hid.
    + exists s. split; [done|]. rewrite eligible_wanted. split; [|done].
      rewrite <-(Hid s Hs). apply wanted_mark; [apply Hw|done].
Qed.

Lemma persist_in_scope sid dev u db t did :
  dev = None ∨ dev = Some did →
  (entitled (persist_skip sid dev u db) t sid did → dt_us u ≤ dt_us t) ∧
  (dt_us u ≤ dt_us t → entitled db t sid did → entitled (persist_skip sid dev u db) t sid did).
Proof.
  intros Hs. unfold entitled. destruct dev as [d|]; simpl.
  - destruct Hs as [|[= ->]]; [done|]. split.
    + intros (s & <- & He). rewrite eligible_wanted in He. apply He. simpl. by rewrite lookup_insert_eq.
    + intros Hu (s & <- & He). exists s. split; [done|]. rewrite eligible_wanted in *. simpl.
      destruct He as (Hw & H1 & H2). split; [done|]. split; [done|]. intros v. rewrite lookup_insert_eq.
      by intros [= <-].
  - split.
    + intros (s & Hid & He). rewrite eligible_wanted in He. destruct He as (Hw & H1 & H2).
      pose proof (proj1 Hw) as Hin. apply list_elem_of_fmap in Hin as (s0 & -> & Hin).
      rewrite mark_skipped_id in Hid. apply H1. unfold mark_skipped. by rewrite bool_decide_eq_true_2.
    + intros Hu (s & Hid & He). exists (mark_skipped sid u s). rewrite mark_skipped_id. split; [done|].
      rewrite eligible_wanted in *. destruct He as (Hw & H1 & H2). split; [apply wanted_mark; [apply Hw|done]|].
      rewrite mark_skipped_id. split; [|done]. intros v. unfold mark_skipped.
      rewrite bool_decide_eq_true_2 by done. by intros [= <-].
Qed.

(** What the handler did when it returned normally. *)
Lemma end_schedule_now_cases sha zi conn va db cache now sid dev db' cache' r :
  end_schedule_now sha zi conn va db cache now sid dev = (db', cache', Ok r) →
  ∃ s tz affected rows,
    s ∈ db_schedules db ∧ s_id s = sid ∧ zi (default "UTC" (truthy (db_timezone db))) = Some tz ∧
    end_now_until s (tz now) = Ok (en_until r) ∧
    (∀ did, did ∈ affected ↔ did ∈ _get_target_device_ids db s ∧ (dev = None ∨ dev = Some did)) ∧
    db' = set_logs (λ l, l ++ rows) (persist_skip sid dev (en_until r) db) ∧
    l_device_id <$> rows = Some <$> affected ∧ Forall (λ l, l_event l = SKIPPED) rows.
Proof.
  unfold end_schedule_now, end_now_plan. intros Hrun.
  destruct (list_find _ _) as [[i s]|] eqn:Hf; [|done]. apply list_find_Some in Hf as (Hi & Hid & _).
  apply list_elem_of_lookup_2 in Hi.
  destruct (va s); [|done]. cbn [mbind result_bind] in Hrun. unfold zone in Hrun.
  destruct (zi _) as [tz|] eqn:Hz; [|done]. cbn [mbind result_bind] in Hrun.
  destruct (end_now_until s (tz now)) as [u|] eqn:Hu; [|done]. cbn [mbind result_bind] in Hrun.
  set (targets := _get_target_device_ids db s) in *.
  assert (∃ affected, (match dev with
       | None => Ok (s, u, targets)
       | Some did => if bool_decide (did ∈ targets) then Ok (s, u, [did]) else Err (HTTPException 400)
       end : result exn _) = Ok (s, u, affected) ∧
       ∀ did, did ∈ affected ↔ did ∈ targets ∧ (dev = None ∨ dev = Some did)) as (affected & Heq & Haff).
  { destruct dev as [d|]; [|exists targets; naive_solver].
    case_bool_decide; [|done]. exists [d]. split; [done|]. intros did. rewrite list_elem_of_singleton. naive_solver. }
  rewrite Heq in Hrun. rewrite Hid in Hrun.
  exists s, tz, affected. destruct (s_asset s) as [asset|].
  - injection Hrun as <- _ Hp. destruct (push_all _ _ _ _ _ _ _) as [pushed|]; [|done]. injection Hp as <-.
    eexists. split; [done|]. split; [done|]. split; [done|]. split; [exact Hu|]. split; [done|]. split; [done|].
    split; [by rewrite <-list_fmap_compose|]. apply Forall_fmap, Forall_true. done.
  - destruct affected as [|d l]; [|done]. injection Hrun as <- _ <-.
    exists []. split; [done|]. split; [done|]. split; [done|]. split; [exact Hu|]. split; [done|]. split; [done|].
    split; [done|constructor].
Qed.

(**  "End Now" does exactly what it is asked to: until the computed time no
    pair in its scope is entitled to play, from then on every pair that was
    entitled is so again, every pair outside the scope is untouched at every
    time, and one SKIPPED entry is logged for each target in the scope. *)
Theorem end_now_scope_exact (sha : string → string) (zi : string → option (Z → datetime)) (conn : string → bool)
    (va : Schedule → result exn unit) (db db' : Db) (cache cache' : confirmed_cache) (now : Z) (sid : uuid)
    (dev : option string) (r : EndNowOut) :
  end_schedule_now sha zi conn va db cache now sid dev = (db', cache', Ok r) →
  (∀ t x did, ¬ in_scope sid dev x did → entitled db' t x did ↔ entitled db t x did) ∧
  (∀ t did, in_scope sid dev sid did → dt_us t < dt_us (en_until r) → ¬ entitled db' t sid did) ∧
  (∀ t did, in_scope sid dev sid did → dt_us (en_until r) ≤ dt_us t → entitled db t sid did → entitled db' t sid did) ∧
  (∃ s rows, s ∈ db_schedules db ∧ s_id s = sid ∧ db_logs db' = db_logs db ++ rows ∧
     Forall (λ l, l_event l = SKIPPED) rows ∧
     ∀ did, Some did ∈ l_device_id <$> rows ↔ targets db s did ∧ in_scope sid dev sid did).
Proof.
  intros (s & tz & affected & rows & Hin & Hid & Hz & Hu & Haff & -> & Hdev & Hev)%end_schedule_now_cases.
  split; [|split; [|split]].
  - intros t x did Hout. by apply (persist_out_of_scope sid dev (en_until r) db).
  - intros t did [_ Hs] Ht He. apply (persist_in_scope sid dev (en_until r) db t did Hs) in He. lia.
  - intros t did [_ Hs] Ht. by apply (persist_in_scope sid dev (en_until r) db t did Hs).
  - exists s, rows. split; [done|]. split; [done|]. split; [by destruct dev|]. split; [done|].
    intros did. rewrite Hdev, list_elem_of_fmap. unfold in_scope.
    setoid_rewrite Haff. setoid_rewrite elem_of_get_target_device_ids. naive_solver.
Qed.

(** ** Witnesses *)

(** The night show is ended at ten in the evening on its only screen. *)
Definition ended_night : Db * confirmed_cache * result exn EndNowOut :=
  end_schedule_now (λ s, s) utc_zone (λ _, true) (λ _, Ok tt) two_shows ∅ (utc_at 22 0) "night" (Some "d1").
Definition ended_until : datetime :=
  match ended_night.2 with Ok r => en_until r | Err _ => at_hm 0 0 end.

Lemma end_now_scope_exact_witness :
  ended_until = Datetime (leap_day + 1) (hm 6 0) ∧
  ¬ entitled ended_night.1.1 (at_hm 23 0) "night" "d1" ∧
  (entitled ended_night.1.1 (at_hm 22 30) "day" "d1" ↔ entitled two_shows (at_hm 22 30) "day" "d1").
Proof.
  split; [by vm_compute|].
  assert (match ended_night.2 with Ok out => en_until out = Datetime (leap_day + 1) (hm 6 0) | Err _ => False end) as Hu
    by (vm_compute; reflexivity).
  destruct ended_night as [[db' cache'] r] eqn:E. unfold ended_night in E. cbn [fst snd] in *.
  destruct r as [out|]; [|contradiction].
  destruct (end_now_scope_exact _ _ _ _ _ _ _ _ _ _ _ _ E) as (Hother & Hended & _).
  split.
  - apply Hended; [split; [reflexivity|by right]|]. rewrite Hu. vm_compute. reflexivity.
  - apply Hother. intros [H _]. discriminate H.
Defined.
