(* ===== verification/Jobs.v ===== *)
(** * The job queue and its outbox (shared/models/job.py, shared/services/jobs.py)

    A job row is created together with an outbox row in one transaction; the
    drainer turns outbox rows into queue messages; a worker that receives a
    message claims the job and finishes it.  Instants are microseconds since
    1970, the queue service is the argument [send] ([None] is success, [Some e]
    an exception with text [e]), fresh UUIDs are arguments. *)

From S2P Require Import Prelude Clock Models Samples.
From stdpp Require Import pretty.
Open Scope Z_scope.

(** ** Rows *)

Inductive JobType := VARIANT_TRANSCODE | STREAM_CAPTURE | VOICE_SYNTHESIS | IMAGE_IMPORT | IMAGE_PROVISION.
Inductive JobStatus := J_PENDING | J_PROCESSING | J_DONE | J_FAILED | J_CANCELLED.

#[export] Instance JobType_eq_dec : EqDecision JobType.
Proof. solve_decision. Defined.
#[export] Instance JobStatus_eq_dec : EqDecision JobStatus.
Proof. solve_decision. Defined.

Definition MAX_JOB_RETRIES : Z := 3.
Definition MAX_OUTBOX_ATTEMPTS : Z := 20.
Definition OUTBOX_BATCH_SIZE : nat := 100.
Definition OUTBOX_MAX_BACKOFF_SECONDS : Z := 60.

Record Job := mkJob {
  j_id : uuid;
  j_type : JobType;
  j_target_id : uuid;
  j_status : JobStatus;
  j_retry_count : Z;
  j_error_message : string;
  j_created_at : Z;
  j_completed_at : option Z;
  j_heartbeat_at : option Z;
  j_cancel_requested : bool
}.

Record JobOutbox := mkOutbox {
  o_id : uuid;
  o_job_id : uuid;
  o_created_at : Z;
  o_attempts : Z;
  o_last_attempt_at : option Z;
  o_last_error : string
}.

#[export] Instance JobOutbox_eq_dec : EqDecision JobOutbox.
Proof. solve_decision. Defined.

(** The two tables; the outbox rows in physical order. *)
Record JobStore := mkStore { js_jobs : gmap uuid Job; js_outbox : list JobOutbox }.

Definition is_active (st : JobStatus) : bool := bool_decide (st = J_PENDING ∨ st = J_PROCESSING).
Definition is_terminal (st : JobStatus) : bool :=
  bool_decide (st = J_DONE ∨ st = J_FAILED ∨ st = J_CANCELLED).

(** The partial unique index [uq_jobs_one_active_per_variant]. *)
Definition indexed (j : Job) : bool := bool_decide (j_type j = VARIANT_TRANSCODE) && is_active (j_status j).

Definition index_ok (jobs : gmap uuid Job) : Prop :=
  ∀ i1 i2 j1 j2, jobs !! i1 = Some j1 → jobs !! i2 = Some j2 →
    indexed j1 = true → indexed j2 = true → j_target_id j1 = j_target_id j2 → i1 = i2.

(** ** Producing jobs *)

Definition new_job (id : uuid) (t : JobType) (target_id : uuid) (now : Z) : Job :=
  mkJob id t target_id J_PENDING 0 "" now None None false.
Definition new_outbox (id job_id : uuid) (now : Z) : JobOutbox := mkOutbox id job_id now 0 None "".

(** Writing one job row: no other row may have the same index entry. *)
Definition put_job (id : uuid) (j : Job) (jobs : gmap uuid Job) : result exn (gmap uuid Job) :=
  if indexed j && existsb (λ kv, bool_decide (kv.1 ≠ id) && indexed kv.2 && bool_decide (j_target_id kv.2 = j_target_id j))
                          (map_to_list jobs) then Err IntegrityError
  else Ok (<[id := j]> jobs).

(** Flushing a new job row: the primary key and the partial index. *)
Definition insert_job (j : Job) (jobs : gmap uuid Job) : result exn (gmap uuid Job) :=
  if bool_decide (is_Some (jobs !! j_id j)) then Err IntegrityError else put_job (j_id j) j jobs.

Fixpoint insert_jobs (l : list Job) (jobs : gmap uuid Job) : result exn (gmap uuid Job) :=
  match l with
  | [] => Ok jobs
  | j :: l' => jobs' ← insert_job j jobs; insert_jobs l' jobs'
  end.

Definition enqueue_job (id outbox_id : uuid) (now : Z) (t : JobType) (target_id : uuid) (st : JobStore)
    : result exn (JobStore * uuid) :=
  jobs ← insert_job (new_job id t target_id now) (js_jobs st);
  Ok (mkStore jobs (js_outbox st ++ [new_outbox outbox_id id now]), id).

(** The targets that already have an active job, among the requested ones. *)
Definition existing_active (specs : list (JobType * uuid)) (jobs : gmap uuid Job) : list (JobType * uuid) :=
  omap (λ kv : uuid * Job,
          if bool_decide (j_target_id kv.2 ∈ specs.*2) && is_active (j_status kv.2)
          then Some (j_type kv.2, j_target_id kv.2) else None) (map_to_list jobs).

Fixpoint fresh_specs (existing specs : list (JobType * uuid)) : list (JobType * uuid) :=
  match specs with
  | [] => []
  | sp :: rest =>
      if bool_decide (sp ∈ existing) then fresh_specs existing rest
      else sp :: fresh_specs (sp :: existing) rest
  end.

(** [gen n] gives the UUIDs of the [n]-th job and outbox row of the call. *)
Definition stage_jobs (gen : nat → uuid * uuid) (now : Z) (specs : list (JobType * uuid)) (st : JobStore)
    : result exn (JobStore * list Job) :=
  match specs with
  | [] => Ok (st, [])
  | _ =>
      let fresh := fresh_specs (existing_active specs (js_jobs st)) specs in
      match fresh with
      | [] => Ok (st, [])
      | _ =>
          let jobs := imap (λ n sp, new_job (gen n).1 sp.1 sp.2 now) fresh in
          jobs' ← insert_jobs jobs (js_jobs st);
          Ok (mkStore jobs' (js_outbox st ++ imap (λ n (_ : JobType * uuid), new_outbox (gen n).2 (gen n).1 now) fresh), jobs)
      end
  end.

Definition enqueue_jobs (gen : nat → uuid * uuid) (now : Z) (specs : list (JobType * uuid)) (st : JobStore)
    : result exn (JobStore * list uuid) :=
  match stage_jobs gen now specs st with
  | Err e => Err e
  | Ok (st', jobs) => Ok (st', j_id <$> jobs)
  end.

(** Deleting a job row takes its outbox rows along ([ondelete="CASCADE"]). *)
Definition delete_job (id : uuid) (st : JobStore) : JobStore :=
  mkStore (delete id (js_jobs st)) (filter (λ o, o_job_id o ≠ id) (js_outbox st)).

(** ** The worker's operations *)

Definition claimed (now : Z) (job : Job) : Job :=
  if bool_decide (j_status job = J_DONE) then job
  else
    let n := j_retry_count job + 1 in
    if MAX_JOB_RETRIES <? n
    then mkJob (j_id job) (j_type job) (j_target_id job) J_FAILED n
           ("exceeded retry limit (" +:+ Z_str MAX_JOB_RETRIES +:+ ")") (j_created_at job) (Some now) (j_heartbeat_at job) (j_cancel_requested job)
    else mkJob (j_id job) (j_type job) (j_target_id job) J_PROCESSING n ""
           (j_created_at job) (j_completed_at job) (Some now) (j_cancel_requested job).

(** The transaction fails when the update violates the partial index, which a
    claim of a failed job does while its replacement is active. *)
Definition claim_job (now : Z) (job_id : uuid) (st : JobStore) : result exn (JobStore * option Job) :=
  match js_jobs st !! job_id with
  | None => Ok (st, None)
  | Some job =>
      jobs ← put_job job_id (claimed now job) (js_jobs st);
      Ok (mkStore jobs (js_outbox st), Some (claimed now job))
  end.

Definition finish (status : JobStatus) (error : string) (now : Z) (job : Job) : Job :=
  mkJob (j_id job) (j_type job) (j_target_id job) status (j_retry_count job) error
        (j_created_at job) (Some now) (j_heartbeat_at job) (j_cancel_requested job).

Definition mark_done (now : Z) (job_id : uuid) (st : JobStore) : JobStore :=
  match js_jobs st !! job_id with
  | None => st
  | Some job => if is_terminal (j_status job) then st
                else mkStore (<[job_id := finish J_DONE "" now job]> (js_jobs st)) (js_outbox st)
  end.

Definition mark_failed (now : Z) (job_id : uuid) (error : string) (st : JobStore) : JobStore :=
  match js_jobs st !! job_id with
  | None => st
  | Some job => mkStore (<[job_id := finish J_FAILED (String.substring 0 2000 error) now job]> (js_jobs st)) (js_outbox st)
  end.

(** ** The drainer *)

Definition backoff_us (attempts : Z) : Z := Z.min (2 ^ attempts) OUTBOX_MAX_BACKOFF_SECONDS * 1000000.

(** Does the loop body reach the send? *)
Definition due (now : Z) (row : JobOutbox) : bool :=
  (o_attempts row <? MAX_OUTBOX_ATTEMPTS) &&
  match o_last_attempt_at row with
  | None => true
  | Some t => t + backoff_us (o_attempts row) <=? now
  end.

Definition send_failed (now : Z) (error : string) (row : JobOutbox) : JobOutbox :=
  mkOutbox (o_id row) (o_job_id row) (o_created_at row) (o_attempts row + 1) (Some now) (String.substring 0 2000 error).

(** [SELECT ... ORDER BY created_at LIMIT 100 FOR UPDATE SKIP LOCKED]: the rows
    another replica holds are passed over before the limit applies. *)
Definition outbox_batch (locked : JobOutbox → bool) (st : JobStore) : list JobOutbox :=
  take OUTBOX_BATCH_SIZE (sort_by o_created_at (filter (λ o, locked o = false) (js_outbox st))).

Section drain.
Context (send : JobOutbox → option string) (now : Z).

Definition sent (row : JobOutbox) : bool := due now row && bool_decide (send row = None).

(** What the loop leaves of a row of the batch. *)
Definition after_drain (row : JobOutbox) : option JobOutbox :=
  if due now row then
    match send row with
    | None => None
    | Some error => Some (send_failed now error row)
    end
  else Some row.

(** The new tables, the messages sent in order, and the count returned. *)
Definition drain_outbox (locked : JobOutbox → bool) (st : JobStore) : JobStore * list uuid * Z :=
  let rows := outbox_batch locked st in
  let msgs := o_job_id <$> filter (λ o, sent o = true) rows in
  (mkStore (js_jobs st)
     (omap (λ o, if bool_decide (o ∈ rows) then after_drain o else Some o) (js_outbox st)),
   msgs, Z.of_nat (length msgs)).
End drain.

(** In whole microseconds where the code divides to seconds. *)
Definition outbox_oldest_age_us (now : Z) (st : JobStore) : option Z :=
  o ← head (sort_by o_created_at (js_outbox st)); Some (now - o_created_at o).

(** ** Specification *)

(** Jobs, outbox and every message ever handed to the queue. *)
Record System := mkSystem { sys_store : JobStore; sys_queue : list uuid }.

(** What the CMS replicas and the workers can do.  A drainer that dies before
    its commit has sent some of its messages and changed no row. *)
Inductive system_step : System → System → Prop :=
  | step_enqueue id oid now t target st st' q r :
      enqueue_job id oid now t target st = Ok (st', r) → system_step (mkSystem st q) (mkSystem st' q)
  | step_stage gen now specs st st' q jobs :
      stage_jobs gen now specs st = Ok (st', jobs) → system_step (mkSystem st q) (mkSystem st' q)
  | step_delete id st q : system_step (mkSystem st q) (mkSystem (delete_job id st) q)
  | step_claim now id st st' q r :
      claim_job now id st = Ok (st', r) → system_step (mkSystem st q) (mkSystem st' q)
  | step_done now id st q : system_step (mkSystem st q) (mkSystem (mark_done now id st) q)
  | step_failed now id e st q : system_step (mkSystem st q) (mkSystem (mark_failed now id e st) q)
  | step_drain send now locked st q :
      system_step (mkSystem st q)
        (mkSystem (drain_outbox send now locked st).1.1 (q ++ (drain_outbox send now locked st).1.2))
  | step_drain_crash send now locked st q k :
      system_step (mkSystem st q) (mkSystem st (q ++ take k (drain_outbox send now locked st).1.2)).

Definition empty_system : System := mkSystem (mkStore ∅ []) [].

(** The contract of the outbox. *)
Record outbox_ok (sy : System) : Prop := {
  ob_index : index_ok (js_jobs (sys_store sy));
  ob_owed : ∀ id job, js_jobs (sys_store sy) !! id = Some job →
              id ∈ sys_queue sy ∨ ∃ o, o ∈ js_outbox (sys_store sy) ∧ o_job_id o = id;
  ob_fk : ∀ o, o ∈ js_outbox (sys_store sy) → is_Some (js_jobs (sys_store sy) !! o_job_id o);
  ob_attempts : ∀ o, o ∈ js_outbox (sys_store sy) → 0 ≤ o_attempts o ≤ MAX_OUTBOX_ATTEMPTS
}.

(** What the queue delivers to the workers for one job. *)
Inductive worker_op := OpClaim (now : Z) | OpDone (now : Z) | OpFailed (now : Z) (error : string).

Definition work_step (id : uuid) (op : worker_op) (st : JobStore) : JobStore :=
  match op with
  | OpClaim now => match claim_job now id st with Ok (st', _) => st' | Err _ => st end
  | OpDone now => mark_done now id st
  | OpFailed now error => mark_failed now id error st
  end.

(** A claim that makes the worker run the job. *)
Definition starts_run (id : uuid) (op : worker_op) (st : JobStore) : bool :=
  match op with
  | OpClaim now => match claim_job now id st with
                   | Ok (_, Some job) => bool_decide (j_status job = J_PROCESSING) | _ => false end
  | _ => false
  end.

Fixpoint runs_of (id : uuid) (ops : list worker_op) (st : JobStore) : nat :=
  match ops with
  | [] => 0
  | op :: rest => (if starts_run id op st then 1 else 0) + runs_of id rest (work_step id op st)
  end.

Definition active_on (st : JobStore) (t : JobType) (target : uuid) : Prop :=
  ∃ id j, js_jobs st !! id = Some j ∧ j_type j = t ∧ j_target_id j = target ∧ is_active (j_status j) = true.

(** ** The partial index *)

Lemma put_job_spec id j jobs jobs' :
  put_job id j jobs = Ok jobs' →
  jobs' = <[id := j]> jobs ∧ (index_ok jobs → index_ok jobs').
Proof.
  unfold put_job. destruct (_ && _) eqn:Hc; [done|]. intros [= <-]. split; [done|].
  intros Hidx.
  assert (Hfree : ∀ i k, i ≠ id → jobs !! i = Some k → indexed j = true → indexed k = true →
                   j_target_id k ≠ j_target_id j).
  { intros i k Hi Hk Hj Hik Ht. rewrite Hj in Hc. simpl in Hc. apply not_true_iff_false in Hc.
    apply Hc, existsb_exists. exists (i, k). split; [by apply list_elem_of_In, elem_of_map_to_list|].
    simpl. rewrite Hik. by rewrite !bool_decide_eq_true_2. }
  intros i1 i2 j1 j2 H1 H2 Hx1 Hx2 Ht.
  destruct (decide (i1 = id)) as [->|N1], (decide (i2 = id)) as [->|N2]; [done| | |];
    simplify_map_eq.
  - destruct (Hfree i2 j2 N2 H2 Hx1 Hx2). done.
  - destruct (Hfree i1 j1 N1 H1 Hx2 Hx1). done.
  - by eapply Hidx.
Qed.

(** A row that does not enter the index, or was in it already, can be written. *)
Lemma put_job_ok id j jobs :
  (∀ i k, i ≠ id → jobs !! i = Some k → indexed j = true → indexed k = true → j_target_id k ≠ j_target_id j) →
  put_job id j jobs = Ok (<[id := j]> jobs).
Proof.
  intros Hfree. unfold put_job. destruct (_ && _) eqn:Hc; [|done].
  apply andb_true_iff in Hc as [Hj Hex]. apply existsb_exists in Hex as ([i k] & Hin & Hb).
  apply list_elem_of_In, elem_of_map_to_list in Hin. simpl in Hb. bool_to_prop.
  exfalso. by eapply Hfree.
Qed.

Lemma insert_job_spec j jobs jobs' :
  insert_job j jobs = Ok jobs' →
  jobs !! j_id j = None ∧ jobs' = <[j_id j := j]> jobs ∧ (index_ok jobs → index_ok jobs').
Proof.
  unfold insert_job. case_bool_decide as Hn; [done|]. intros [-> ?]%put_job_spec.
  split; [by apply eq_None_not_Some|]. done.
Qed.

Lemma insert_jobs_spec l jobs jobs' :
  insert_jobs l jobs = Ok jobs' →
  (index_ok jobs → index_ok jobs') ∧
  (∀ id, is_Some (jobs' !! id) ↔ is_Some (jobs !! id) ∨ id ∈ j_id <$> l).
Proof.
  revert jobs. induction l as [|j l IH]; intros jobs; simpl.
  { intros [= <-]. split; [done|]. intros id. rewrite elem_of_nil. naive_solver. }
  destruct (insert_job j jobs) as [jobs1|] eqn:Hj; [|done]. cbn [mbind result_bind].
  intros Hl. apply insert_job_spec in Hj as (Hnew & -> & Hi). apply IH in Hl as [Hi' Hd].
  split; [naive_solver|]. intros id. rewrite Hd, elem_of_cons.
  destruct (decide (id = j_id j)) as [->|N]; simplify_map_eq; naive_solver.
Qed.

(** The index condition of a concrete table, computed. *)
Definition index_check (jobs : gmap uuid Job) : bool :=
  let l := map_to_list jobs in
  forallb (λ x, forallb (λ y, negb (indexed x.2 && indexed y.2 && bool_decide (j_target_id x.2 = j_target_id y.2)) ||
                              bool_decide (x.1 = y.1)) l) l.
Lemma index_check_ok jobs : index_check jobs = true → index_ok jobs.
Proof.
  unfold index_check. intros H i1 i2 j1 j2 H1%elem_of_map_to_list H2%elem_of_map_to_list X1 X2 Ht.
  rewrite forallb_forall in H. specialize (H (i1, j1)). rewrite <-list_elem_of_In in H. specialize (H H1).
  rewrite forallb_forall in H. specialize (H (i2, j2)). rewrite <-list_elem_of_In in H. specialize (H H2).
  cbn [fst snd] in H. rewrite X1, X2, bool_decide_eq_true_2 in H by done. simpl in H. by apply bool_decide_eq_true in H.
Qed.

Lemma index_ok_insert_inactive id j jobs :
  is_active (j_status j) = false → index_ok jobs → index_ok (<[id := j]> jobs).
Proof.
  intros Hj. eapply put_job_spec, put_job_ok. intros i k _ _ Hx.
  unfold indexed in Hx. rewrite Hj, andb_false_r in Hx. done.
Qed.

Lemma index_ok_delete id jobs : index_ok jobs → index_ok (delete id jobs).
Proof. intros H i1 i2 j1 j2 [_ H1]%lookup_delete_Some [_ H2]%lookup_delete_Some. by eapply H. Qed.

(** ** The contract is kept by every step *)

(** A step that keeps the outbox rows and the set of jobs keeps the contract. *)
Lemma outbox_ok_jobs jobs jobs' ob q :
  outbox_ok (mkSystem (mkStore jobs ob) q) → index_ok jobs' →
  (∀ id, is_Some (jobs' !! id) ↔ is_Some (jobs !! id)) → outbox_ok (mkSystem (mkStore jobs' ob) q).
Proof.
  intros [Hi Ho Hf Ha] Hi' Hd. split; [done| | |done]; simpl in *.
  - intros id job Hjob. destruct (proj1 (Hd id)) as [job0 H0]; [by eexists|]. by eapply Ho.
  - intros o Hin. by apply Hd, Hf.
Qed.

Lemma is_Some_insert_same id j0 j (jobs : gmap uuid Job) i :
  jobs !! id = Some j0 → is_Some (<[id := j]> jobs !! i) ↔ is_Some (jobs !! i).
Proof. intros H. destruct (decide (i = id)) as [->|]; simplify_map_eq; naive_solver. Qed.

Lemma update_outbox_ok id j0 j st q :
  js_jobs st !! id = Some j0 → index_ok (<[id := j]> (js_jobs st)) → outbox_ok (mkSystem st q) →
  outbox_ok (mkSystem (mkStore (<[id := j]> (js_jobs st)) (js_outbox st)) q).
Proof.
  intros Hj Hi Hok. destruct st as [jobs ob]. eapply outbox_ok_jobs; [done..|].
  intros i. by eapply is_Some_insert_same.
Qed.

Lemma claim_outbox_ok now id st st' r q :
  claim_job now id st = Ok (st', r) → outbox_ok (mkSystem st q) → outbox_ok (mkSystem st' q).
Proof.
  unfold claim_job. destruct (js_jobs st !! id) as [job|] eqn:Hj; [|by intros [= <- <-]].
  destruct (put_job _ _ _) as [jobs|] eqn:Hp; [|done]. cbn [mbind result_bind]. intros [= <- <-] Hok.
  apply put_job_spec in Hp as [-> Hi]. eapply update_outbox_ok; [done| |done]. apply Hi, Hok.
Qed.

Lemma mark_done_outbox_ok now id st q :
  outbox_ok (mkSystem st q) → outbox_ok (mkSystem (mark_done now id st) q).
Proof.
  unfold mark_done. intros Hok. destruct (js_jobs st !! id) eqn:Hj; [|done]. case_match; [done|].
  eapply update_outbox_ok; [done| |done]. apply index_ok_insert_inactive; [done|apply Hok].
Qed.

Lemma mark_failed_outbox_ok now id e st q :
  outbox_ok (mkSystem st q) → outbox_ok (mkSystem (mark_failed now id e st) q).
Proof.
  unfold mark_failed. intros Hok. destruct (js_jobs st !! id) eqn:Hj; [|done].
  eapply update_outbox_ok; [done| |done]. apply index_ok_insert_inactive; [done|apply Hok].
Qed.

Lemma delete_outbox_ok id st q : outbox_ok (mkSystem st q) → outbox_ok (mkSystem (delete_job id st) q).
Proof.
  intros [Hi Ho Hf Ha]. split; simpl in *.
  - by apply index_ok_delete.
  - intros i job [Hne Hj]%lookup_delete_Some. destruct (Ho i job Hj) as [|(o & Hin & <-)]; [by left|right].
    exists o. rewrite list_elem_of_filter. done.
  - intros o [Hne Hin]%list_elem_of_filter. rewrite lookup_delete_ne by done. by apply Hf.
  - intros o [_ Hin]%list_elem_of_filter. by apply Ha.
Qed.

(** New rows come with their outbox rows. *)
Lemma enqueued_outbox_ok st q jobs' (rows : list JobOutbox) (ids : list uuid) :
  outbox_ok (mkSystem st q) → (index_ok (js_jobs st) → index_ok jobs') →
  (∀ id, is_Some (jobs' !! id) ↔ is_Some (js_jobs st !! id) ∨ id ∈ ids) →
  o_job_id <$> rows = ids → (∀ o, o ∈ rows → o_attempts o = 0) →
  outbox_ok (mkSystem (mkStore jobs' (js_outbox st ++ rows)) q).
Proof.
  intros [Hi Ho Hf Ha] Hi' Hd Hids H0. split; simpl in *.
  - by apply Hi'.
  - intros id job Hjob. destruct (proj1 (Hd id)) as [[j0 Hj0]|Hin]; [by eexists| |].
    + destruct (Ho id j0 Hj0) as [|(o & Hino & <-)]; [by left|right].
      exists o. rewrite elem_of_app. auto.
    + right. rewrite <-Hids in Hin. apply list_elem_of_fmap in Hin as (o & -> & Hin).
      exists o. rewrite elem_of_app. auto.
  - intros o [Hin|Hin]%elem_of_app; apply Hd; [left; by apply Hf|right].
    rewrite <-Hids. by apply list_elem_of_fmap_2.
  - intros o [Hin|Hin]%elem_of_app; [by apply Ha|]. rewrite (H0 o Hin). done.
Qed.

Lemma enqueue_outbox_ok id oid now t target st st' r q :
  enqueue_job id oid now t target st = Ok (st', r) → outbox_ok (mkSystem st q) → outbox_ok (mkSystem st' q).
Proof.
  unfold enqueue_job. destruct (insert_job _ _) as [jobs|] eqn:Hj; [|done]. cbn [mbind result_bind].
  intros [= <- <-] Hok. apply insert_job_spec in Hj as (Hn & -> & Hi).
  eapply (enqueued_outbox_ok _ _ _ _ [id]); [done|done| |done|].
  - intros i. rewrite list_elem_of_singleton. simpl.
    destruct (decide (i = id)) as [->|]; simplify_map_eq; naive_solver.
  - intros o ->%list_elem_of_singleton. done.
Qed.

Lemma stage_jobs_cases gen now specs st st' jobs :
  stage_jobs gen now specs st = Ok (st', jobs) →
  let fresh := fresh_specs (existing_active specs (js_jobs st)) specs in
  jobs = imap (λ n sp, new_job (gen n).1 sp.1 sp.2 now) fresh ∧
  insert_jobs jobs (js_jobs st) = Ok (js_jobs st') ∧
  js_outbox st' = js_outbox st ++ imap (λ n _, new_outbox (gen n).2 (gen n).1 now) fresh.
Proof.
  unfold stage_jobs. destruct specs as [|sp specs].
  { intros [= <- <-]. simpl. by rewrite app_nil_r. }
  set (fr := fresh_specs _ _). destruct fr as [|f rest].
  { intros [= <- <-]. simpl. by rewrite app_nil_r. }
  destruct (insert_jobs _ _) as [jobs'|] eqn:Hj; [|done]. cbn [mbind result_bind].
  intros [= <- <-]. done.
Qed.

Lemma stage_outbox_ok gen now specs st st' jobs q :
  stage_jobs gen now specs st = Ok (st', jobs) → outbox_ok (mkSystem st q) → outbox_ok (mkSystem st' q).
Proof.
  intros (-> & Hj & Ho)%stage_jobs_cases Hok. destruct st' as [jobs' ob']. simpl in *. subst ob'.
  apply insert_jobs_spec in Hj as [Hi Hd].
  eapply enqueued_outbox_ok; [done|done|exact Hd| |].
  - rewrite !fmap_imap. done.
  - intros o (n & sp & -> & _)%elem_of_lookup_imap. done.
Qed.

(** ** The drainer's lemmas *)

Lemma after_drain_cases send now o :
  (due now o = false ∧ after_drain send now o = Some o) ∨
  (due now o = true ∧ send o = None ∧ after_drain send now o = None) ∨
  (due now o = true ∧ ∃ e, send o = Some e ∧ after_drain send now o = Some (send_failed now e o)).
Proof.
  unfold after_drain. destruct (due now o); [|by left].
  destruct (send o) eqn:Hs; naive_solver.
Qed.

Section drain_lemmas.
Context (send : JobOutbox → option string) (now : Z) (locked : JobOutbox → bool) (st : JobStore).
Notation rows := (outbox_batch locked st).
Notation st' := (drain_outbox send now locked st).1.1.
Notation msgs := (drain_outbox send now locked st).1.2.

Lemma outbox_batch_spec o : o ∈ rows → o ∈ js_outbox st ∧ locked o = false.
Proof.
  unfold outbox_batch. intros Hin%subseteq_take.
  rewrite sort_by_Permutation in Hin. apply list_elem_of_filter in Hin. tauto.
Qed.

Lemma elem_of_msgs id : id ∈ msgs ↔ ∃ o, o ∈ rows ∧ due now o = true ∧ send o = None ∧ o_job_id o = id.
Proof.
  simpl. rewrite list_elem_of_fmap. unfold sent. split.
  - intros (o & -> & [Hs Hin]%list_elem_of_filter). bool_to_prop. by exists o.
  - intros (o & Hin & Hd & Hs & <-). exists o. split; [done|]. apply list_elem_of_filter.
    by rewrite Hd, bool_decide_eq_true_2.
Qed.

Lemma elem_of_drained o' :
  o' ∈ js_outbox st' ↔
  ∃ o, o ∈ js_outbox st ∧ (if bool_decide (o ∈ rows) then after_drain send now o else Some o) = Some o'.
Proof. simpl. rewrite list_elem_of_omap. done. Qed.

Lemma drained_from o' : o' ∈ js_outbox st' →
  ∃ o, o ∈ js_outbox st ∧ o_job_id o' = o_job_id o ∧
       (o' = o ∨ due now o = true ∧ o_attempts o' = o_attempts o + 1).
Proof.
  intros (o & Hin & Ho)%elem_of_drained. exists o. split; [done|].
  case_bool_decide; [|simplify_eq; by auto].
  destruct (after_drain_cases send now o) as [[? E]|[(?&?&E)|(?&e&?&E)]]; rewrite E in Ho; simplify_eq; auto.
Qed.

Lemma drain_outbox_ok q : outbox_ok (mkSystem st q) → outbox_ok (mkSystem st' (q ++ msgs)).
Proof.
  intros [Hi Ho Hf Ha]. split; cbn [sys_store sys_queue] in *.
  - done.
  - intros id job Hj. rewrite elem_of_app. destruct (Ho id job Hj) as [|(o & Hin & <-)]; [by auto|].
    destruct (decide (o ∈ rows)) as [Hr|Hr].
    + destruct (after_drain_cases send now o) as [[? E]|[(?&?&E)|(?&e&?&E)]].
      * right. exists o. rewrite elem_of_drained. split; [|done]. exists o. by rewrite bool_decide_eq_true_2.
      * left. right. apply elem_of_msgs. by exists o.
      * right. exists (send_failed now e o). rewrite elem_of_drained. split; [|done].
        exists o. by rewrite bool_decide_eq_true_2.
    + right. exists o. rewrite elem_of_drained. split; [|done]. exists o. by rewrite bool_decide_eq_false_2.
  - intros o' (o & Hin & -> & _)%drained_from. by apply Hf.
  - intros o' (o & Hin & _ & [->|[Hd ->]])%drained_from; [by apply Ha|].
    specialize (Ha o Hin). unfold due in Hd. bool_to_prop. lia.
Qed.
End drain_lemmas.

Lemma crash_outbox_ok st q l : outbox_ok (mkSystem st q) → outbox_ok (mkSystem st (q ++ l)).
Proof.
  intros [Hi Ho Hf Ha]. split; simpl in *; try done.
  intros id job Hj. rewrite elem_of_app. destruct (Ho id job Hj); auto.
Qed.

Lemma system_step_ok sy sy' : system_step sy sy' → outbox_ok sy → outbox_ok sy'.
Proof.
  intros [] Hok; eauto using enqueue_outbox_ok, stage_outbox_ok, delete_outbox_ok, claim_outbox_ok,
    mark_done_outbox_ok, mark_failed_outbox_ok, drain_outbox_ok, crash_outbox_ok.
Qed.

Lemma system_run_ok sy sy' : rtc system_step sy sy' → outbox_ok sy → outbox_ok sy'.
Proof. induction 1; eauto using system_step_ok. Qed.

Lemma empty_system_ok : outbox_ok empty_system.
Proof. split; simpl; [intros ???? H; done|done|by intros ? ?%elem_of_nil..]. Qed.

(** C28.  At-least-once delivery: in every state the producers, workers and
    drainers can reach, crashes between sending and committing included, every
    job row either was handed to the queue or still has its outbox row; no
    outbox row outlives its job, none exceeds twenty attempts, and no variant
    has two active transcode jobs. *)
Theorem outbox_at_least_once (sy : System) :
  rtc system_step empty_system sy → outbox_ok sy.
Proof.
  intros H. eapply system_run_ok; [exact H|exact empty_system_ok].
Qed.

(** ** Staging *)

Lemma elem_of_existing_active specs jobs t target :
  (t, target) ∈ existing_active specs jobs ↔
  target ∈ specs.*2 ∧ ∃ id j, jobs !! id = Some j ∧ j_type j = t ∧ j_target_id j = target ∧ is_active (j_status j) = true.
Proof.
  unfold existing_active. rewrite list_elem_of_omap. split.
  - intros ([id j] & Hin%elem_of_map_to_list & Hc). simpl in Hc. case_match; [|done]. bool_to_prop.
    simplify_eq. split; [done|]. by exists id, j.
  - intros (Hin & id & j & Hj & <- & <- & Ha). exists (id, j). split; [by apply elem_of_map_to_list|].
    simpl. rewrite Ha. by rewrite bool_decide_eq_true_2.
Qed.

Lemma elem_of_fresh_specs existing specs sp : sp ∈ fresh_specs existing specs ↔ sp ∈ specs ∧ sp ∉ existing.
Proof.
  revert existing. induction specs as [|x specs IH]; intros existing; simpl.
  { rewrite elem_of_nil. naive_solver. }
  rewrite elem_of_cons. case_bool_decide as Hx.
  - rewrite IH. naive_solver.
  - rewrite elem_of_cons, IH, elem_of_cons. destruct (decide (sp = x)); naive_solver.
Qed.

Lemma fresh_specs_NoDup existing specs : NoDup (fresh_specs existing specs).
Proof.
  revert existing. induction specs as [|x specs IH]; intros existing; simpl; [constructor|].
  case_bool_decide; [done|]. constructor; [|done]. rewrite elem_of_fresh_specs, elem_of_cons. tauto.
Qed.

(** Pending jobs with new keys, on distinct targets without an active job of
    the same type, go in. *)
Lemma insert_jobs_ok l jobs :
  NoDup (j_id <$> l) → (∀ j, j ∈ l → jobs !! j_id j = None) →
  NoDup ((λ j, (j_type j, j_target_id j)) <$> l) →
  (∀ j i k, j ∈ l → jobs !! i = Some k → j_type k = j_type j → j_target_id k = j_target_id j →
            is_active (j_status k) = false) →
  ∃ jobs', insert_jobs l jobs = Ok jobs' ∧ (∀ j, j ∈ l → jobs' !! j_id j = Some j) ∧
           (∀ i, i ∉ j_id <$> l → jobs' !! i = jobs !! i).
Proof.
  revert jobs. induction l as [|j l IH]; intros jobs; simpl.
  { intros _ _ _ _. exists jobs. split; [done|]. split; [by intros ? ?%elem_of_nil|done]. }
  intros [Hj Hnd]%NoDup_cons Hnew [Ht Hnt]%NoDup_cons Hfree.
  assert (Hput : insert_job j jobs = Ok (<[j_id j := j]> jobs)).
  { unfold insert_job. rewrite bool_decide_eq_false_2 by (rewrite Hnew by left; by intros [? ?]).
    apply put_job_ok. intros i k _ Hk Hx Hy He. unfold indexed in *. bool_to_prop.
    assert (is_active (j_status k) = false) by (eapply Hfree; [by left|done|congruence|done]). congruence. }
  rewrite Hput. cbn [mbind result_bind].
  destruct (IH (<[j_id j := j]> jobs)) as (jobs' & -> & Hin & Hout); [done| |done| |].
  - intros k Hk. assert (j_id k ≠ j_id j) by (intros E; apply Hj; rewrite <-E; by apply list_elem_of_fmap_2).
    rewrite lookup_insert_ne by done. apply Hnew. by right.
  - intros k i k' Hk Hi Hty Htg. destruct (decide (i = j_id j)) as [->|N]; simplify_map_eq.
    + exfalso. apply Ht. apply list_elem_of_fmap. exists k. split; [congruence|done].
    + eapply Hfree; [by right|done..].
  - exists jobs'. split; [done|]. split.
    + intros k [->|Hk]%elem_of_cons; [|by apply Hin]. rewrite Hout by done. by simplify_map_eq.
    + intros i Hi. rewrite not_elem_of_cons in Hi. rewrite Hout by tauto. apply lookup_insert_ne. naive_solver.
Qed.

Lemma existing_active_on specs st t target :
  (t, target) ∈ specs → (t, target) ∈ existing_active specs (js_jobs st) ↔ active_on st t target.
Proof.
  intros Hin. rewrite elem_of_existing_active. unfold active_on. split; [naive_solver|].
  intros H. split; [|done]. apply list_elem_of_fmap. by exists (t, target).
Qed.

(** The rows staged for [fr]: their keys and targets. *)
Section staged.
Context (gen : nat → uuid * uuid) (now : Z) (fr : list (JobType * uuid)).
Notation jobs := (imap (λ n sp, new_job (gen n).1 sp.1 sp.2 now) fr).

Lemma staged_specs : (λ j, (j_type j, j_target_id j)) <$> jobs = fr.
Proof. apply list_eq. intros i. rewrite list_lookup_fmap, list_lookup_imap. by destruct (fr !! i) as [[]|]. Qed.

Lemma staged_ids : (∀ n m, (gen n).1 = (gen m).1 → n = m) → NoDup (j_id <$> jobs).
Proof.
  intros Hg. apply NoDup_alt. intros i k x. rewrite !list_lookup_fmap, !list_lookup_imap.
  destruct (fr !! i), (fr !! k); simpl; intros; simplify_eq. by apply Hg.
Qed.

Lemma elem_of_staged j : j ∈ jobs → ∃ n sp, j = new_job (gen n).1 sp.1 sp.2 now ∧ sp ∈ fr.
Proof.
  intros (n & sp & -> & Hl)%elem_of_lookup_imap. exists n, sp. split; [done|].
  by eapply list_elem_of_lookup_2.
Qed.

Lemma staged_outbox :
  o_job_id <$> imap (λ n (_ : JobType * uuid), new_outbox (gen n).2 (gen n).1 now) fr = j_id <$> jobs.
Proof. by rewrite !fmap_imap. Qed.
End staged.

(** [stage_jobs] in one equation: the early returns are the case without rows. *)
Lemma stage_jobs_insert gen now specs st jobs' :
  let fr := fresh_specs (existing_active specs (js_jobs st)) specs in
  let jobs := imap (λ n sp, new_job (gen n).1 sp.1 sp.2 now) fr in
  insert_jobs jobs (js_jobs st) = Ok jobs' →
  stage_jobs gen now specs st =
    Ok (mkStore jobs' (js_outbox st ++ imap (λ n _, new_outbox (gen n).2 (gen n).1 now) fr), jobs).
Proof.
  intros fr jobs Hi. unfold stage_jobs. destruct specs as [|sp specs].
  { simpl in *. simplify_eq. rewrite app_nil_r. by destruct st. }
  fold fr. destruct fr as [|f rest] eqn:Hf.
  { simpl in Hi. simplify_eq. simpl. rewrite app_nil_r. by destruct st. }
  fold jobs. by rewrite Hi.
Qed.

Lemma insert_jobs_lookup l jobs jobs' k j :
  insert_jobs l jobs = Ok jobs' → jobs' !! k = Some j → jobs !! k = Some j ∨ j ∈ l.
Proof.
  revert jobs. induction l as [|i l IH]; intros jobs; simpl; [intros [= <-]; by left|].
  destruct (insert_job i jobs) as [jobs1|] eqn:Hi; [|done]. cbn [mbind result_bind]. intros Hl Hk.
  apply insert_job_spec in Hi as (_ & -> & _). destruct (IH _ Hl Hk) as [Hj|Hj]; [|right; by right].
  destruct (decide (k = j_id i)) as [->|Hne]; simplify_map_eq; [right; left|by left].
Qed.

(** What a successful staging leaves in the table. *)
Lemma stage_jobs_table gen now specs st st' jobs :
  stage_jobs gen now specs st = Ok (st', jobs) →
  (index_ok (js_jobs st) → index_ok (js_jobs st')) ∧
  ∀ k j, js_jobs st' !! k = Some j →
    js_jobs st !! k = Some j ∨ ((j_type j, j_target_id j) ∈ specs ∧ j_status j = J_PENDING ∧ j_cancel_requested j = false).
Proof.
  intros (-> & Hj & _)%stage_jobs_cases. split; [by apply insert_jobs_spec in Hj as [Hi _]|].
  intros k j Hk. destruct (insert_jobs_lookup _ _ _ _ _ Hj Hk) as [?|Hin]; [by left|right].
  apply elem_of_staged in Hin as (n & [t tg] & -> & Hsp%elem_of_fresh_specs). by destruct Hsp.
Qed.

(**  Staging never fails on the partial index and suppresses exactly the
    duplicates: a requested target gets one new job iff it had no active job of
    the type, every requested target has one afterwards, each new job has its
    outbox row, and no existing row changes. *)
Theorem stage_jobs_exact (gen : nat → uuid * uuid) (now : Z) (specs : list (JobType * uuid)) (st : JobStore) :
  (∀ n m, (gen n).1 = (gen m).1 → n = m) → (∀ n, js_jobs st !! (gen n).1 = None) →
  ∃ st' jobs, stage_jobs gen now specs st = Ok (st', jobs) ∧
    NoDup ((λ j, (j_type j, j_target_id j)) <$> jobs) ∧
    (∀ t target, (t, target) ∈ (λ j, (j_type j, j_target_id j)) <$> jobs ↔
                 (t, target) ∈ specs ∧ ¬ active_on st t target) ∧
    (∀ t target, (t, target) ∈ specs → active_on st' t target) ∧
    o_job_id <$> js_outbox st' = (o_job_id <$> js_outbox st) ++ (j_id <$> jobs) ∧
    (∀ i j, js_jobs st !! i = Some j → js_jobs st' !! i = Some j).
Proof.
  intros Hgen Hnew. set (fr := fresh_specs (existing_active specs (js_jobs st)) specs).
  set (jobs := imap (λ n sp, new_job (gen n).1 sp.1 sp.2 now) fr).
  assert (Hfr : ∀ sp, sp ∈ fr ↔ sp ∈ specs ∧ ¬ active_on st sp.1 sp.2).
  { intros [t tg]. unfold fr. rewrite elem_of_fresh_specs. split; intros [H1 H2]; (split; [done|]).
    - by rewrite <-existing_active_on.
    - by rewrite existing_active_on. }
  destruct (insert_jobs_ok jobs (js_jobs st)) as (jobs' & Hi & Hin & Hout).
  - by apply staged_ids.
  - intros j (n & sp & -> & _)%elem_of_staged. apply Hnew.
  - unfold jobs. rewrite staged_specs. apply fresh_specs_NoDup.
  - intros j i k (n & sp & -> & [_ Ha]%Hfr)%elem_of_staged Hk Ht Htg. simpl in Ht, Htg.
    apply not_true_iff_false. intros Hact. apply Ha. by exists i, k.
  - exists (mkStore jobs' (js_outbox st ++ imap (λ n _, new_outbox (gen n).2 (gen n).1 now) fr)), jobs.
    assert (Hold : ∀ i j, js_jobs st !! i = Some j → jobs' !! i = Some j).
    { intros i j Hj. rewrite Hout; [done|]. intros (k & -> & Hk)%list_elem_of_fmap.
      apply elem_of_staged in Hk as (n & sp & -> & _). simpl in Hj. by rewrite Hnew in Hj. }
    split; [by apply stage_jobs_insert|]. rewrite !(staged_specs gen now fr : _ <$> jobs = fr).
    split; [apply fresh_specs_NoDup|]. split; [intros t tg; apply Hfr|]. split; [|split; [|done]].
    + intros t tg Hsp. destruct (decide ((t, tg) ∈ fr)) as [Hf|Hf].
      * rewrite <-(staged_specs gen now fr) in Hf. apply list_elem_of_fmap in Hf as (j & He & Hj).
        exists (j_id j), j. simplify_eq. split; [by apply Hin|].
        apply elem_of_staged in Hj as (n & sp & -> & _). done.
      * unfold fr in Hf. rewrite elem_of_fresh_specs in Hf.
        assert (active_on st t tg) as (i & j & Hj & ?).
        { apply (existing_active_on specs); [done|]. apply dec_stable. tauto. }
        exists i, j. split; [by apply Hold|done].
    + simpl. by rewrite fmap_app, staged_outbox.
Qed.

(** ** Progress of the drainer *)

Lemma backoff_le n : backoff_us n ≤ OUTBOX_MAX_BACKOFF_SECONDS * 1000000.
Proof. unfold backoff_us, OUTBOX_MAX_BACKOFF_SECONDS. lia. Qed.

(**  The drainer makes progress: a row not held by another replica, with
    attempts left, not tried during the last minute and among the hundred
    oldest free rows, is handled by the drain: either its message is sent and
    the row is gone, or the row stays with one more attempt counted. *)
Theorem drain_progress (send : JobOutbox → option string) (now : Z) (locked : JobOutbox → bool)
    (st : JobStore) (o : JobOutbox) :
  NoDup (o_id <$> js_outbox st) → o ∈ js_outbox st → locked o = false →
  o_attempts o < MAX_OUTBOX_ATTEMPTS →
  (∀ t, o_last_attempt_at o = Some t → t + OUTBOX_MAX_BACKOFF_SECONDS * 1000000 ≤ now) →
  (length (filter (λ p, locked p = false ∧ (o_created_at p ≤ o_created_at o)%Z) (js_outbox st)) ≤ OUTBOX_BATCH_SIZE)%nat →
  let '(st', msgs, _) := drain_outbox send now locked st in
  (send o = None ∧ o_job_id o ∈ msgs ∧ ∀ p, p ∈ js_outbox st' → o_id p ≠ o_id o) ∨
  (∃ e p, send o = Some e ∧ p ∈ js_outbox st' ∧ o_id p = o_id o ∧ o_job_id p = o_job_id o ∧
          o_attempts p = o_attempts o + 1 ∧ o_last_attempt_at p = Some now).
Proof.
  intros Hnd Hin Hl Ha Ht Hold.
  assert (Hrow : o ∈ outbox_batch locked st).
  { apply (elem_of_take_sorted o_created_at); [apply sort_by_Sorted| |].
    - rewrite sort_by_Permutation. by apply list_elem_of_filter.
    - rewrite sort_by_Permutation, list_filter_filter. etrans; [|exact Hold].
      apply Nat.eq_le_incl. f_equal. apply list_filter_iff. intros. tauto. }
  assert (Hdue : due now o = true).
  { unfold due. rewrite (proj2 (Z.ltb_lt _ _)) by done. simpl. case_match; [|done].
    apply Z.leb_le. etrans; [|by apply Ht]. pose proof (backoff_le (o_attempts o)). lia. }
  pose proof (elem_of_msgs send now locked st) as Hm. pose proof (elem_of_drained send now locked st) as Hd.
  destruct (drain_outbox send now locked st) as [[st' msgs] n] eqn:Hdrain. cbn [fst snd] in Hm, Hd.
  destruct (after_drain_cases send now o) as [[? _]|[(_&Hs&E)|(_&e&Hs&E)]]; [congruence| |].
  - left. split; [done|]. split; [apply Hm; by exists o|]. intros p Hp Hid.
    apply Hd in Hp as (o2 & Hin2 & Ho2).
    assert (o_id p = o_id o2) as Hid2.
    { case_bool_decide; [|by simplify_eq].
      destruct (after_drain_cases send now o2) as [[? E2]|[(?&?&E2)|(?&e2&?&E2)]]; rewrite E2 in Ho2; by simplify_eq. }
    assert (o2 = o) as -> by (eapply (NoDup_fmap_eq o_id); [done..|congruence]).
    rewrite bool_decide_eq_true_2, E in Ho2 by done. done.
  - right. exists e, (send_failed now e o). split; [done|]. split; [|done].
    apply Hd. exists o. by rewrite bool_decide_eq_true_2.
Qed.

(** ** Poison protection *)

Lemma claimed_retry now job : j_status job ≠ J_DONE → j_retry_count (claimed now job) = j_retry_count job + 1.
Proof. intros H. unfold claimed. rewrite bool_decide_eq_false_2 by done. by destruct (_ <? _). Qed.

Lemma claimed_processing now job :
  j_status (claimed now job) = J_PROCESSING → j_status job ≠ J_DONE ∧ j_retry_count job < MAX_JOB_RETRIES.
Proof. unfold claimed. case_bool_decide; [congruence|]. destruct (_ <? _) eqn:E; [done|]. bool_to_prop. intros _. split; [done|lia]. Qed.

(** The attempts left of a job. *)
Definition runs_left (id : uuid) (st : JobStore) : nat :=
  match js_jobs st !! id with Some job => Z.to_nat (MAX_JOB_RETRIES - j_retry_count job) | None => 0 end.

Lemma work_step_runs id op st :
  ((if starts_run id op st then 1 else 0) + runs_left id (work_step id op st) ≤ runs_left id st)%nat.
Proof.
  unfold runs_left. destruct op as [now|now|now e]; simpl.
  - unfold claim_job. destruct (js_jobs st !! id) as [job|] eqn:Hj; [|simpl; rewrite Hj; lia].
    destruct (put_job id (claimed now job) (js_jobs st)) as [jobs|] eqn:Hp; cbn [mbind result_bind]; [|rewrite Hj; lia].
    apply put_job_spec in Hp as [-> _]. cbn [js_jobs]. rewrite lookup_insert_eq. case_bool_decide as Hs.
    + apply claimed_processing in Hs as [Hd Hr]. rewrite claimed_retry by done. lia.
    + destruct (decide (j_status job = J_DONE)) as [Hd|Hd]; [|rewrite claimed_retry by done; lia].
      unfold claimed. rewrite bool_decide_eq_true_2 by done. lia.
  - unfold mark_done. destruct (js_jobs st !! id) as [job|] eqn:Hj; [|rewrite Hj; lia].
    destruct (is_terminal _); [rewrite Hj; lia|]. cbn [js_jobs]. by rewrite lookup_insert_eq.
  - unfold mark_failed. destruct (js_jobs st !! id) as [job|] eqn:Hj; [|rewrite Hj; lia].
    cbn [js_jobs]. by rewrite lookup_insert_eq.
Qed.

(**  Poison protection: however often the queue redelivers the message of a
    job and however its runs end, workers start the job at most three times in
    its life, once less for every claim already counted. *)
Theorem poison_bound (id : uuid) (ops : list worker_op) (st : JobStore) (job : Job) :
  js_jobs st !! id = Some job →
  (runs_of id ops st ≤ Z.to_nat (MAX_JOB_RETRIES - j_retry_count job))%nat.
Proof.
  intros Hj. replace (Z.to_nat _) with (runs_left id st) by (unfold runs_left; by rewrite Hj).
  clear Hj. revert st. induction ops as [|op ops IH]; intros st; simpl; [lia|].
  pose proof (work_step_runs id op st). specialize (IH (work_step id op st)). lia.
Qed.

(** ** Witnesses *)

Definition sample_gen (n : nat) : uuid * uuid := ("job" +:+ pretty n, "row" +:+ pretty n).
Definition transcode (target : uuid) : JobType * uuid := (VARIANT_TRANSCODE, target).

(** Two variants staged, one of them requested twice. *)
Definition staged_store : JobStore :=
  match stage_jobs sample_gen 0 [transcode "v1"; transcode "v2"; transcode "v1"] (mkStore ∅ []) with
  | Ok (st, _) => st | Err _ => mkStore ∅ [] end.
Definition queue_up (o : JobOutbox) : option string := None.
Definition unlocked (o : JobOutbox) : bool := false.
Definition drained_system : System :=
  mkSystem (drain_outbox queue_up 1 unlocked staged_store).1.1
           ([] ++ (drain_outbox queue_up 1 unlocked staged_store).1.2).

Lemma sample_gen_fresh : (∀ n m, (sample_gen n).1 = (sample_gen m).1 → n = m).
Proof. intros n m H. simpl in H. apply (inj (String.append "job")) in H. by apply (inj pretty) in H. Defined.

Lemma stage_jobs_exact_witness :
  ∃ st' jobs, stage_jobs sample_gen 0 [transcode "v1"; transcode "v2"; transcode "v1"] (mkStore ∅ []) = Ok (st', jobs) ∧
    NoDup ((λ j, (j_type j, j_target_id j)) <$> jobs).
Proof.
  destruct (stage_jobs_exact sample_gen 0 [transcode "v1"; transcode "v2"; transcode "v1"] (mkStore ∅ []))
    as (st' & jobs & Heq & Hnd & _); [exact sample_gen_fresh|intros n; apply lookup_empty|].
  exists st', jobs. split; [exact Heq|exact Hnd].
Defined.

Lemma outbox_at_least_once_witness :
  sys_queue drained_system = ["job0"; "job1"] ∧ js_outbox (sys_store drained_system) = [] ∧ outbox_ok drained_system.
Proof.
  split; [by vm_compute|]. split; [by vm_compute|]. apply (outbox_at_least_once drained_system).
  eapply rtc_l; [|eapply rtc_l; [apply (step_drain queue_up 1 unlocked staged_store [])|apply rtc_refl]].
  eapply (step_stage sample_gen 0 [transcode "v1"; transcode "v2"; transcode "v1"]). by vm_compute.
Defined.

(** A queue outage: the first row is tried, fails and is counted. *)
Lemma drain_progress_witness :
  ∃ p, p ∈ js_outbox (drain_outbox (λ _, Some "503") 1 unlocked staged_store).1.1 ∧
       o_id p = "row0" ∧ o_attempts p = 1.
Proof.
  pose proof (drain_progress (λ _, Some "503") 1 unlocked staged_store (new_outbox "row0" "job0" 0)) as H.
  destruct (drain_outbox _ _ _ _) as [[st' msgs] n]. simpl.
  destruct H as [(Hs & _)|(e & p & _ & Hp & Hid & _ & Ha & _)].
  - apply (bool_decide_unpack _). by vm_compute.
  - apply (bool_decide_unpack _). by vm_compute.
  - reflexivity.
  - reflexivity.
  - intros t Ht. discriminate.
  - apply (bool_decide_unpack _). by vm_compute.
  - discriminate.
  - exists p. split; [exact Hp|]. split; [exact Hid|exact Ha].
Defined.

Definition redelivered : list worker_op :=
  [OpClaim 1; OpFailed 2 "boom"; OpClaim 3; OpClaim 4; OpClaim 5; OpClaim 6].
Lemma poison_bound_witness :
  runs_of "job0" redelivered staged_store = 3%nat ∧ (runs_of "job0" redelivered staged_store ≤ 3)%nat.
Proof.
  split; [by vm_compute|].
  apply (poison_bound "job0" redelivered staged_store (new_job "job0" VARIANT_TRANSCODE "v1" 0)). by vm_compute.
Defined.

(** A terminal job does not stay terminal: a redelivered message starts a
    failed job again, and a late [mark_failed] overwrites DONE. *)
Example terminal_is_not_final :
  let failed := mark_failed 2 "job0" "boom" (work_step "job0" (OpClaim 1) staged_store) in
  let again := work_step "job0" (OpClaim 3) failed in
  let late := mark_failed 5 "job0" "late" (mark_done 4 "job0" again) in
  (j_status <$> js_jobs failed !! "job0", j_status <$> js_jobs again !! "job0",
   j_status <$> js_jobs late !! "job0") = (Some J_FAILED, Some J_PROCESSING, Some J_FAILED).
Proof. by vm_compute. Qed.

(** A hundred rows that used up their attempts occupy every batch: a younger
    row is never sent, although the queue works. *)
Definition stuck_row (n : nat) : JobOutbox := mkOutbox ("row" +:+ pretty n) "job0" 0 20 (Some 0) "503".
Example stuck_rows_starve :
  let st := mkStore (js_jobs staged_store) ((stuck_row <$> seq 0 100) ++ [new_outbox "young" "job1" 1]) in
  (drain_outbox queue_up 86400000000 unlocked st).1.2 = [] ∧
  js_outbox (drain_outbox queue_up 86400000000 unlocked st).1.1 = js_outbox st.
Proof. by vm_compute. Qed.
