(* ===== verification/Leader.v ===== *)
(** * Leader election for the background loops (cms/services/leader.py,
      cms/models/leader_lease.py, the loop of cms/services/scheduler.py)

    The replicas share the table [leader_leases]; each one renews or takes over
    the row of its loop with one conditional upsert.  Instants are the
    database's NOW(), in microseconds.  A database call can fail before its
    commit or lose the answer after it ([io]). *)

From S2P Require Import Prelude Clock Database.
Open Scope Z_scope.

(** ** The lease *)

(** A row of [leader_leases], keyed by [loop_name]. *)
Record LeaseRow := mkLease { lr_holder_id : string; lr_expires_at : Z; lr_renewed_at : Z }.

(** The Python object; [ll_task] says whether the heartbeat task runs. *)
Record LeaderLease := mkLeader {
  ll_loop_name : string;
  ll_ttl_s : Z;
  ll_heartbeat_s : Z;
  ll_holder_id : string;
  ll_task : bool;
  ll_is_leader : bool;
  ll_enabled : bool
}.

Inductive io := IO_OK | IO_FAILED | IO_LOST_ACK.

Definition make_lease (loop_name : string) (ttl_s heartbeat_s : Z) (holder_id : string) : result exn LeaderLease :=
  if ttl_s <=? heartbeat_s
  then Err (ValueError ("heartbeat_s (" +:+ Z_str heartbeat_s +:+ ") must be < ttl_s (" +:+ Z_str ttl_s +:+
                        "); rule of thumb ttl_s = 3 × heartbeat_s"))
  else Ok (mkLeader loop_name ttl_s heartbeat_s holder_id false false true).

Definition set_leader (b : bool) (l : LeaderLease) : LeaderLease :=
  mkLeader (ll_loop_name l) (ll_ttl_s l) (ll_heartbeat_s l) (ll_holder_id l) (ll_task l) b (ll_enabled l).
Definition set_task (b : bool) (l : LeaderLease) : LeaderLease :=
  mkLeader (ll_loop_name l) (ll_ttl_s l) (ll_heartbeat_s l) (ll_holder_id l) b (ll_is_leader l) (ll_enabled l).
Definition disable (l : LeaderLease) : LeaderLease :=
  mkLeader (ll_loop_name l) (ll_ttl_s l) (ll_heartbeat_s l) (ll_holder_id l) (ll_task l) (ll_is_leader l) false.

Definition is_leader (l : LeaderLease) : bool := if ll_enabled l then ll_is_leader l else true.

Definition ttl_us (l : LeaderLease) : Z := ll_ttl_s l * 1000000.

(** [INSERT ... ON CONFLICT (loop_name) DO UPDATE ... WHERE ... RETURNING]. *)
Definition upsert (now : Z) (l : LeaderLease) (table : gmap string LeaseRow) : gmap string LeaseRow * bool :=
  let row := mkLease (ll_holder_id l) (now + ttl_us l) now in
  match table !! ll_loop_name l with
  | None => (<[ll_loop_name l := row]> table, true)
  | Some r => if (lr_expires_at r <? now) || bool_decide (lr_holder_id r = ll_holder_id l)
              then (<[ll_loop_name l := row]> table, true) else (table, false)
  end.

(** The call as the caller sees it: [None] when it raises. *)
Definition _try_acquire (i : io) (now : Z) (l : LeaderLease) (table : gmap string LeaseRow)
    : gmap string LeaseRow * option bool :=
  match i with
  | IO_OK => ((upsert now l table).1, Some (upsert now l table).2)
  | IO_FAILED => (table, None)
  | IO_LOST_ACK => ((upsert now l table).1, None)
  end.

(** One turn of [_heartbeat_run] after its sleep. *)
Definition heartbeat (i : io) (now : Z) (l : LeaderLease) (table : gmap string LeaseRow)
    : LeaderLease * gmap string LeaseRow :=
  let (table', won) := _try_acquire i now l table in
  (set_leader (default false won) l, table').

Definition start (postgres : bool) (i : io) (now : Z) (l : LeaderLease) (table : gmap string LeaseRow)
    : LeaderLease * gmap string LeaseRow :=
  if ll_task l then (l, table)
  else if negb postgres then (disable l, table)
  else let (table', won) := _try_acquire i now l table in
       (set_task true (set_leader (default false won) l), table').

Definition expire (now : Z) (l : LeaderLease) (table : gmap string LeaseRow) : gmap string LeaseRow :=
  match table !! ll_loop_name l with
  | Some r => if bool_decide (lr_holder_id r = ll_holder_id l)
              then <[ll_loop_name l := mkLease (lr_holder_id r) now (lr_renewed_at r)]> table else table
  | None => table
  end.

Definition _release (i : io) (now : Z) (l : LeaderLease) (table : gmap string LeaseRow)
    : LeaderLease * gmap string LeaseRow :=
  if negb (ll_enabled l) then (set_leader false l, table)
  else (set_leader false l, match i with IO_FAILED => table | _ => expire now l table end).

Definition stop (i : io) (now : Z) (l : LeaderLease) (table : gmap string LeaseRow)
    : LeaderLease * gmap string LeaseRow :=
  _release i now (set_task false l) table.

(** ** The scheduler's loop *)

Inductive TickOutcome := EVALUATED | SKIPPED_NOT_LEADER | TICK_ERROR.

(** One turn of [scheduler_loop]: the tick runs only on the leader, and an
    exception it raises ends neither the loop nor the lease. *)
Definition scheduler_iteration {A} (l : LeaderLease) (evaluate : result exn A) : TickOutcome * option A :=
  if is_leader l then
    match evaluate with Ok a => (EVALUATED, Some a) | Err _ => (TICK_ERROR, None) end
  else (SKIPPED_NOT_LEADER, None).

(** ** Replicas sharing the table *)

(** [w_won] remembers when the database last answered a replica's acquisition
    with success; no code reads it. *)
Record World := mkWorld {
  w_now : Z;
  w_table : gmap string LeaseRow;
  w_replicas : gmap string LeaderLease;      (* by holder_id *)
  w_won : gmap string Z
}.

Definition put_replica (h : string) (r : LeaderLease * gmap string LeaseRow) (w : World) : World :=
  mkWorld (w_now w) r.2 (<[h := r.1]> (w_replicas w))
    (if ll_is_leader r.1 then <[h := w_now w]> (w_won w) else w_won w).

(** What happens in a deployment on Postgres: replicas appear, start, beat,
    stop or crash, in any order and at any time; the beats are not assumed to
    be punctual. *)
Inductive world_step : World → World → Prop :=
  | world_time w d : 0 ≤ d → world_step w (mkWorld (w_now w + d) (w_table w) (w_replicas w) (w_won w))
  | world_new w h loop ttl hb l :
      w_replicas w !! h = None → make_lease loop ttl hb h = Ok l → 0 < hb →
      world_step w (mkWorld (w_now w) (w_table w) (<[h := l]> (w_replicas w)) (w_won w))
  | world_start w h l i :
      w_replicas w !! h = Some l → ll_task l = false →
      world_step w (put_replica h (start true i (w_now w) l (w_table w)) w)
  | world_beat w h l i :
      w_replicas w !! h = Some l → ll_task l = true →
      world_step w (put_replica h (heartbeat i (w_now w) l (w_table w)) w)
  | world_stop w h l i :
      w_replicas w !! h = Some l → world_step w (put_replica h (stop i (w_now w) l (w_table w)) w)
  | world_crash w h :
      world_step w (mkWorld (w_now w) (w_table w) (delete h (w_replicas w)) (w_won w)).

Definition empty_world : World := mkWorld 0 ∅ ∅ ∅.
Definition reachable (w : World) : Prop := rtc world_step empty_world w.

(** ** The invariant *)

Record replica_ok (w : World) (h : string) (l : LeaderLease) : Prop := {
  ro_id : ll_holder_id l = h;
  ro_enabled : ll_enabled l = true;
  ro_ttl : 0 < ll_ttl_s l;
  ro_fresh : ll_is_leader l = true →
    ∃ t, w_won w !! h = Some t ∧
         (w_now w ≤ t + ttl_us l →
          ∃ r, w_table w !! ll_loop_name l = Some r ∧ lr_holder_id r = h ∧ t + ttl_us l ≤ lr_expires_at r)
}.

Definition world_ok (w : World) : Prop := ∀ h l, w_replicas w !! h = Some l → replica_ok w h l.

Lemma upsert_spec now l table :
  (upsert now l table = (<[ll_loop_name l := mkLease (ll_holder_id l) (now + ttl_us l) now]> table, true) ∧
   ∀ r, table !! ll_loop_name l = Some r → lr_expires_at r < now ∨ lr_holder_id r = ll_holder_id l) ∨
  (upsert now l table = (table, false) ∧
   ∃ r, table !! ll_loop_name l = Some r ∧ now ≤ lr_expires_at r ∧ lr_holder_id r ≠ ll_holder_id l).
Proof.
  unfold upsert. destruct (table !! ll_loop_name l) as [r|]; [|by left; split].
  destruct (_ || _) eqn:E.
  - left. split; [done|]. intros ? [= <-]. apply orb_true_iff in E as [E|E]; bool_to_prop; auto.
  - right. split; [done|]. exists r. bool_to_prop. done.
Qed.

(** The row another replica relies on survives any call of replica [l]. *)
Definition keeps (w : World) (l : LeaderLease) (table' : gmap string LeaseRow) : Prop :=
  ∀ loop r, w_table w !! loop = Some r → lr_holder_id r ≠ ll_holder_id l → w_now w ≤ lr_expires_at r →
            table' !! loop = Some r.

Lemma upsert_keeps w l : keeps w l (upsert (w_now w) l (w_table w)).1.
Proof.
  intros loop r Hr Hne Hexp. destruct (upsert_spec (w_now w) l (w_table w)) as [[-> H]|[-> _]]; [|done]. simpl.
  destruct (decide (loop = ll_loop_name l)) as [->|]; [|by rewrite lookup_insert_ne].
  destruct (H r Hr); [lia|done].
Qed.

Lemma try_acquire_keeps i w l : keeps w l (_try_acquire i (w_now w) l (w_table w)).1.
Proof. destruct i; simpl; [apply upsert_keeps|by intros ??|apply upsert_keeps]. Qed.

Lemma expire_keeps w l : keeps w l (expire (w_now w) l (w_table w)).
Proof.
  intros loop r Hr Hne Hexp. unfold expire.
  destruct (decide (loop = ll_loop_name l)) as [->|N].
  - rewrite Hr. by rewrite bool_decide_eq_false_2.
  - destruct (w_table w !! ll_loop_name l); [|done]. case_bool_decide; [|done]. by rewrite lookup_insert_ne.
Qed.

(** Replacing replica [h] keeps the invariant of the others. *)
Lemma put_replica_ok w h l r :
  world_ok w → w_replicas w !! h = Some l → ll_holder_id l = h →
  keeps w l r.2 → replica_ok (put_replica h r w) h r.1 → world_ok (put_replica h r w).
Proof.
  intros Hok Hl Hid Hk Hr h' l' Hl'. simpl in Hl'.
  destruct (decide (h' = h)) as [->|N]; [by simplify_map_eq|].
  rewrite lookup_insert_ne in Hl' by done. destruct (Hok h' l' Hl') as [Hi He Ht Hf].
  split; [done..|]. intros Hlead. destruct (Hf Hlead) as (t & Hwon & Hrow). exists t. split.
  - simpl. case_match; [|done]. by rewrite lookup_insert_ne.
  - intros Hnow. destruct (Hrow Hnow) as (row & Hin & Hh & Hexp). exists row. split; [|done].
    apply Hk; [done|congruence|simpl in Hnow; lia].
Qed.

Lemma acquired_ok i w h l b :
  replica_ok w h l →
  let r := _try_acquire i (w_now w) l (w_table w) in
  replica_ok (put_replica h (set_task b (set_leader (default false r.2) l), r.1) w) h
             (set_task b (set_leader (default false r.2) l)).
Proof.
  intros [Hi He Ht Hf] r. split; [done..|]. intros Hlead. simpl in Hlead.
  destruct i; subst r; simpl in *; try done.
  destruct (upsert_spec (w_now w) l (w_table w)) as [[E _]|[E _]]; rewrite E in Hlead |- *; simpl in *; [|done].
  exists (w_now w). rewrite !lookup_insert_eq. split; [done|]. intros _. eexists. split; [done|]. simpl.
  split; [done|unfold ttl_us; simpl; lia].
Qed.

Lemma set_task_same l : set_task (ll_task l) l = l.
Proof. by destruct l. Qed.

Lemma released_ok i w h l : replica_ok w h l →
  let r := stop i (w_now w) l (w_table w) in replica_ok (put_replica h r w) h r.1 ∧ keeps w l r.2.
Proof.
  intros [Hi He Ht Hf] r. subst r. unfold stop, _release. simpl. rewrite He. simpl. split.
  - split; [done..|]. intros Hlead. done.
  - destruct i; [exact (expire_keeps w (set_task false l))|by intros ??|exact (expire_keeps w (set_task false l))].
Qed.

Lemma world_step_ok w w' : world_step w w' → world_ok w → world_ok w'.
Proof.
  intros [? d Hd|? h loop ttl hb l Hh Hm Hhb|? h l i Hl Htask|? h l i Hl Htask|? h l i Hl|? h] Hok.
  - intros h l Hl. destruct (Hok h l Hl) as [Hi He Ht Hf]. split; [done..|]. intros Hlead.
    destruct (Hf Hlead) as (t & Hw & Hrow). exists t. split; [done|]. simpl. intros Hn. apply Hrow. lia.
  - intros h' l' Hl'. simpl in Hl'. destruct (decide (h' = h)) as [->|N]; simplify_map_eq.
    + unfold make_lease in Hm. destruct (_ <=? _) eqn:E; [done|]. bool_to_prop. simplify_eq. split; simpl; [done..|lia|done].
    + destruct (Hok h' l' Hl') as [Hi He Ht Hf]. by split.
  - pose proof (Hok h l Hl) as Hr. unfold start. rewrite Htask. simpl. pose proof (try_acquire_keeps i w0 l) as Hk.
    pose proof (acquired_ok i w0 h l true Hr) as Ha. destruct (_try_acquire i (w_now w0) l (w_table w0)) as [table' won].
    eapply put_replica_ok; [done|done|apply Hr|done|done].
  - pose proof (Hok h l Hl) as Hr. unfold heartbeat. pose proof (try_acquire_keeps i w0 l) as Hk.
    pose proof (acquired_ok i w0 h l true Hr) as Ha. destruct (_try_acquire i (w_now w0) l (w_table w0)) as [table' won].
    replace (set_leader (default false won) l) with (set_task true (set_leader (default false won) l))
      by (rewrite <-Htask; by destruct l).
    eapply put_replica_ok; [done|done|apply Hr|done|done].
  - destruct (released_ok i w0 h l (Hok h l Hl)) as [Hr Hk].
    eapply put_replica_ok; [done|done|apply (Hok h l Hl)|done|done].
  - intros h' l' Hl'. simpl in Hl'. apply lookup_delete_Some in Hl' as [_ Hl']. destruct (Hok h' l' Hl') as [Hi He Ht Hf]. by split.
Qed.

Lemma reachable_ok w : reachable w → world_ok w.
Proof.
  intros Hr. assert (world_ok empty_world) as H0 by (by intros h l Hl).
  revert H0. unfold reachable in Hr. induction Hr as [|w1 w2 w3 Hstep _ IH]; [done|].
  intros H1. apply IH. by eapply world_step_ok.
Qed.

(** C29.  Two replicas never lead the same loop on fresh leases: of two replicas
    that both believe to be the leader of a loop, at least one has not been
    confirmed by the database within its time to live.  This holds whatever
    calls fail, replicas crash, or heartbeats come late, and release never
    takes the lease away from a successor. *)
Theorem lease_exclusive (w : World) (h1 h2 : string) (l1 l2 : LeaderLease) (t1 t2 : Z) :
  reachable w → h1 ≠ h2 →
  w_replicas w !! h1 = Some l1 → w_replicas w !! h2 = Some l2 → ll_loop_name l1 = ll_loop_name l2 →
  is_leader l1 = true → is_leader l2 = true →
  w_won w !! h1 = Some t1 → w_won w !! h2 = Some t2 →
  t1 + ttl_us l1 < w_now w ∨ t2 + ttl_us l2 < w_now w.
Proof.
  intros Hr Hne Hl1 Hl2 Hloop Hi1 Hi2 Ht1 Ht2. apply reachable_ok in Hr.
  destruct (Hr h1 l1 Hl1) as [_ He1 _ Hf1], (Hr h2 l2 Hl2) as [_ He2 _ Hf2].
  unfold is_leader in *. rewrite He1 in Hi1. rewrite He2 in Hi2.
  destruct (Hf1 Hi1) as (? & ? & Hrow1), (Hf2 Hi2) as (? & ? & Hrow2). simplify_eq.
  destruct (Z.lt_ge_cases (t1 + ttl_us l1) (w_now w)) as [|H1]; [by left|].
  destruct (Z.lt_ge_cases (t2 + ttl_us l2) (w_now w)) as [|H2]; [by right|].
  destruct (Hrow1 H1) as (r & Hin & Hh1 & _), (Hrow2 H2) as (r' & Hin' & Hh2 & _).
  rewrite Hloop in Hin. congruence.
Qed.

(** ** Takeover *)

(** A deployment whose replicas all use the time to live [T] (seconds), as the
    replicas of one release do. *)
Definition uniform (T : Z) (w : World) : Prop := ∀ h l, w_replicas w !! h = Some l → ll_ttl_s l = T.
Definition run_of (T : Z) : World → Prop := rtc (λ w w', world_step w w' ∧ uniform T w') empty_world.

Definition rows_bounded (T : Z) (w : World) : Prop :=
  ∀ loop r, w_table w !! loop = Some r → lr_expires_at r ≤ w_now w + T * 1000000.

Lemma try_acquire_bounded T i w l :
  ll_ttl_s l = T → rows_bounded T w →
  ∀ loop r, (_try_acquire i (w_now w) l (w_table w)).1 !! loop = Some r → lr_expires_at r ≤ w_now w + T * 1000000.
Proof.
  intros <- Hb. assert (H : ∀ loop r, (upsert (w_now w) l (w_table w)).1 !! loop = Some r →
                              lr_expires_at r ≤ w_now w + ll_ttl_s l * 1000000).
  { intros loop r. destruct (upsert_spec (w_now w) l (w_table w)) as [[-> _]|[-> _]]; simpl; [|apply Hb].
    destruct (decide (loop = ll_loop_name l)) as [->|N].
    - rewrite lookup_insert_eq. intros [= <-]. simpl. unfold ttl_us. lia.
    - rewrite lookup_insert_ne by done. apply Hb. }
  destruct i; simpl; [exact H|exact Hb|exact H].
Qed.

Lemma expire_bounded T w l :
  0 ≤ T → rows_bounded T w →
  ∀ loop r, expire (w_now w) l (w_table w) !! loop = Some r → lr_expires_at r ≤ w_now w + T * 1000000.
Proof.
  intros HT Hb loop r. unfold expire. destruct (w_table w !! ll_loop_name l) eqn:E; [|apply Hb].
  case_bool_decide; [|apply Hb]. destruct (decide (loop = ll_loop_name l)) as [->|N].
  - rewrite lookup_insert_eq. intros [= <-]. simpl. lia.
  - rewrite lookup_insert_ne by done. apply Hb.
Qed.

Lemma world_step_bounded T w w' :
  world_step w w' → world_ok w → uniform T w → rows_bounded T w → rows_bounded T w'.
Proof.
  intros [? d Hd|? h loop ttl hb l Hh Hm Hhb|? h l i Hl Htask|? h l i Hl Htask|? h l i Hl|? h] Hok Hu Hb; try done.
  - intros lp r Hr. simpl in *. specialize (Hb lp r Hr). lia.
  - pose proof (try_acquire_bounded T i w0 l (Hu h l Hl) Hb) as H. unfold start. rewrite Htask. simpl.
    destruct (_try_acquire i (w_now w0) l (w_table w0)) as [table' won]. exact H.
  - pose proof (try_acquire_bounded T i w0 l (Hu h l Hl) Hb) as H. unfold heartbeat.
    destruct (_try_acquire i (w_now w0) l (w_table w0)) as [table' won]. exact H.
  - destruct (Hok h l Hl) as [_ He Ht _]. rewrite (Hu h l Hl) in Ht.
    unfold stop, _release. simpl. rewrite He.
    assert (0 ≤ T) as HT by lia. pose proof (expire_bounded T w0 (set_task false l) HT Hb) as H.
    destruct i; [exact H|exact Hb|exact H].
Qed.

Lemma run_of_bounded T w : run_of T w → world_ok w ∧ rows_bounded T w.
Proof.
  intros Hr. assert (world_ok empty_world ∧ uniform T empty_world ∧ rows_bounded T empty_world) as H0.
  { split; [by intros h l Hl|]. split; [by intros h l Hl|by intros lp r Hl]. }
  revert H0. unfold run_of in Hr. induction Hr as [|w1 w2 w3 [Hstep Hu] _ IH]; [naive_solver|].
  intros (H1 & H2 & H3). apply IH. split; [by eapply world_step_ok|]. split; [done|by eapply world_step_bounded].
Qed.

(**  Bounded failover: once the other replicas have been silent for longer
    than the time to live, whatever happened before, the next heartbeat of any
    standby that reaches the database makes it the leader, with the row in its
    name for a full time to live, and its loop runs the tick. *)
Theorem lease_takeover (T : Z) (w : World) (h : string) (l : LeaderLease) (d : Z) :
  run_of T w → w_replicas w !! h = Some l → T * 1000000 < d →
  let now := w_now w + d in
  let (l', table') := heartbeat IO_OK now l (w_table w) in
  is_leader l' = true ∧ table' !! ll_loop_name l = Some (mkLease h (now + ttl_us l) now) ∧
  (∀ A (tick : result exn A), (scheduler_iteration l' tick).1 ≠ SKIPPED_NOT_LEADER).
Proof.
  intros [Hok Hb]%run_of_bounded Hl Hd now. destruct (Hok h l Hl) as [Hi He Ht _]. unfold heartbeat. simpl.
  destruct (upsert_spec now l (w_table w)) as [[-> _]|[-> (r & Hr & Hexp & _)]].
  - simpl. assert (is_leader (set_leader true l) = true) as Hlead by (unfold is_leader; simpl; by case_match).
    split; [done|]. rewrite lookup_insert_eq, Hi. split; [done|].
    intros A tick. unfold scheduler_iteration. rewrite Hlead. by destruct tick.
  - specialize (Hb _ _ Hr). lia.
Qed.

(** ** Witnesses *)

(** Two replicas of the scheduler loop, with the ttl and heartbeat it uses. *)
Definition lease_of (h : string) : LeaderLease :=
  match make_lease "scheduler" 30 10 h with Ok l => l | Err _ => mkLeader "" 0 0 "" false false false end.
Definition one_replica (h : string) (w : World) : World :=
  mkWorld (w_now w) (w_table w) (<[h := lease_of h]> (w_replicas w)) (w_won w).
Definition started (h : string) (w : World) : World :=
  match w_replicas w !! h with
  | Some l => put_replica h (start true IO_OK (w_now w) l (w_table w)) w | None => w end.
Definition beaten (h : string) (w : World) : World :=
  match w_replicas w !! h with
  | Some l => put_replica h (heartbeat IO_OK (w_now w) l (w_table w)) w | None => w end.
Definition later_by (d : Z) (w : World) : World := mkWorld (w_now w + d) (w_table w) (w_replicas w) (w_won w).

Definition leading : World := started "a" (one_replica "a" empty_world).
Definition standby : World := one_replica "b" leading.
(** Replica a's heartbeat is late by a second; b has taken over, a has not
    noticed yet and still believes to lead. *)
Definition overtaken : World := started "b" (later_by 31000000 standby).

Lemma new_step h w : w_replicas w !! h = None → world_step w (one_replica h w).
Proof. intros H. by apply (world_new w h "scheduler" 30 10). Defined.
Lemma start_step h w l : w_replicas w !! h = Some l → ll_task l = false → world_step w (started h w).
Proof. intros H Ht. unfold started. rewrite H. by apply world_start. Defined.

Definition running (h : string) : LeaderLease := set_task true (set_leader true (lease_of h)).

Lemma lease_exclusive_witness :
  (is_leader <$> w_replicas overtaken !! "a", is_leader <$> w_replicas overtaken !! "b") = (Some true, Some true) ∧
  (0 + 30000000 < w_now overtaken ∨ 31000000 + 30000000 < w_now overtaken).
Proof.
  split; [by vm_compute|].
  apply (lease_exclusive overtaken "a" "b" (running "a") (running "b") 0 31000000);
    [|discriminate|by vm_compute..].
  eapply rtc_l; [apply (new_step "a"); by vm_compute|].
  eapply rtc_l; [eapply (start_step "a"); by vm_compute|].
  eapply rtc_l; [apply (new_step "b"); by vm_compute|].
  eapply rtc_l; [apply (world_time standby 31000000); lia|].
  eapply rtc_l; [eapply (start_step "b"); by vm_compute|]. apply rtc_refl.
Defined.

Lemma uniform_check w :
  forallb (λ kv, ll_ttl_s kv.2 =? 30) (map_to_list (w_replicas w)) = true → uniform 30 w.
Proof.
  intros H h l Hl. rewrite forallb_forall in H. apply elem_of_map_to_list, list_elem_of_In in Hl.
  specialize (H _ Hl). simpl in H. by apply Z.eqb_eq in H.
Defined.

(** Replica a goes silent; half a minute later b's heartbeat takes the lease. *)
Lemma lease_takeover_witness :
  let (l', table') := heartbeat IO_OK 30000001 (lease_of "b") (w_table standby) in
  is_leader l' = true ∧ table' !! "scheduler" = Some (mkLease "b" 60000001 30000001) ∧
  (∀ A (tick : result exn A), (scheduler_iteration l' tick).1 ≠ SKIPPED_NOT_LEADER).
Proof.
  apply (lease_takeover 30 standby "b" (lease_of "b") 30000001); [|by vm_compute|by vm_compute].
  eapply rtc_l; [split; [apply (new_step "a"); by vm_compute|by apply uniform_check; vm_compute]|].
  eapply rtc_l; [split; [eapply (start_step "a"); by vm_compute|by apply uniform_check; vm_compute]|].
  eapply rtc_l; [split; [apply (new_step "b"); by vm_compute|by apply uniform_check; vm_compute]|]. apply rtc_refl.
Defined.

(** The loop does not exclude a second dispatcher: both replicas run a tick. *)
Example two_dispatchers :
  let tick h := match w_replicas overtaken !! h with
                | Some l => Some (scheduler_iteration l (Ok tt : result exn unit)).1 | None => None end in
  (tick "a", tick "b") = (Some EVALUATED, Some EVALUATED).
Proof. by vm_compute. Qed.
