(* ===== verification/Presence.v ===== *)
(** * Presence and telemetry of devices (cms/services/device_presence.py,
      device_events.py: group context)

    The columns of [devices] that say who is connected and what the last STATUS
    heartbeat reported.  Instants are microseconds since 1970. *)

From Stdlib Require Import QArith.
From S2P Require Import Prelude Clock Models.
Open Scope Z_scope.

(** ** JSON values *)

Inductive Json :=
  | JNull | JBool (b : bool) | JNum (q : Q) | JStr (s : string) | JArr (l : list Json) | JObj (l : list (string * Json)).

(** A key of a JSON object: missing, null, or with a value. *)
Inductive field (A : Type) := Absent | Null | Given (a : A).
Arguments Absent {A}.
Arguments Null {A}.
Arguments Given {A} a.

(** [status.get(key)]. *)
Definition get_field {A} (f : field A) : option A := match f with Given a => Some a | _ => None end.

(** [_normalize_display_ports]. *)
Definition has_name (item : Json) : bool :=
  match item with JObj l => bool_decide ("name" ∈ l.*1) | _ => false end.
Definition _normalize_display_ports (value : Json) : option (list Json) :=
  match value with
  | JArr l => if forallb has_name l then Some l else None
  | _ => None
  end.

(** ** Rows and messages *)

(** What a STATUS heartbeat says of the player. *)
Record Telemetry := mkTelemetry {
  te_mode : string; te_asset : option string; te_pipeline_state : string; te_playback_started_at : option Z;
  te_playback_position_ms : option Z; te_uptime_seconds : Z; te_cpu_temp_c : option Q; te_load_avg : option Q
}.

Record PDevice := mkPDevice {
  pd_name : string; pd_status : DeviceStatus; pd_group_id : option uuid;
  pd_online : bool; pd_connection_id : option string; pd_ip_address : option string; pd_last_seen : option Z;
  pd_last_status_ts : option Z; pd_telemetry : Telemetry; pd_error : option string; pd_error_since : option Z;
  pd_ssh_enabled : option bool; pd_local_api_enabled : option bool; pd_display_connected : option bool;
  pd_display_ports : option (list Json)
}.

Abbreviation devices := (gmap string PDevice).

(** The message; [sm_started_at] is what [_parse_timestamp] makes of the text. *)
Record StatusMsg := mkStatusMsg {
  sm_mode : field string; sm_asset : field string; sm_pipeline_state : field string; sm_started_at : option Z;
  sm_playback_position_ms : field Z; sm_uptime_seconds : field Z; sm_cpu_temp_c : field Q; sm_load_avg : field Q;
  sm_error : field string; sm_ssh_enabled : field bool; sm_local_api_enabled : field bool;
  sm_display_connected : field bool; sm_display_ports : field Json
}.

(** What the alert service is told. *)
Inductive AlertCall :=
  | device_disconnected (device_id device_name : string) (group_id : option uuid) (group_name : string) (status : DeviceStatus)
  | device_reconnected (device_id device_name : string) (group_id : option uuid) (group_name : string) (status : DeviceStatus).

(** ** Groups of a device (device_events.py) *)

(** The names of the groups, by id. *)
Abbreviation group_names := (gmap uuid string).

(** [snapshot_device_groups]: the caller's primary group first, then the group
    of the device if it is another one. *)
Definition snapshot_device_groups (groups : group_names) (ds : devices) (device_id : string)
    (primary_group_id : option uuid) (primary_group_name : option string) : list (uuid * string) :=
  let own := gid ← (d ← ds !! device_id; pd_group_id d); name ← groups !! gid; Some (gid, name) in
  match primary_group_id with
  | Some p =>
      let name := match truthy primary_group_name with Some n => Some n | None => groups !! p end in
      (p, name or_else "") :: match own with Some (g, n) => if bool_decide (g = p) then [] else [(g, n)] | None => [] end
  | None => match own with Some gn => [gn] | None => [] end
  end.

Definition get_primary_device_group_context (groups : group_names) (ds : devices) (device_id : string)
    : option uuid * string :=
  match snapshot_device_groups groups ds device_id None None with
  | [] => (None, "")
  | (g, n) :: _ => (Some g, n)
  end.

(** ** Operations *)

(** [name or device_id]. *)
Definition name_or_id (device_id : string) (d : PDevice) : string := truthy (Some (pd_name d)) or_else device_id.

Definition set_online (online : bool) (conn : option string) (d : PDevice) : PDevice :=
  mkPDevice (pd_name d) (pd_status d) (pd_group_id d) online conn (pd_ip_address d) (pd_last_seen d)
    (pd_last_status_ts d) (pd_telemetry d) (pd_error d) (pd_error_since d) (pd_ssh_enabled d)
    (pd_local_api_enabled d) (pd_display_connected d) (pd_display_ports d).

Definition connected (conn ip : option string) (clk : Z) (d : PDevice) : PDevice :=
  mkPDevice (pd_name d) (pd_status d) (pd_group_id d) true conn
    (match ip with Some _ => ip | None => pd_ip_address d end) (Some clk)
    (pd_last_status_ts d) (pd_telemetry d) (pd_error d) (pd_error_since d) (pd_ssh_enabled d)
    (pd_local_api_enabled d) (pd_display_connected d) (pd_display_ports d).

Definition mark_online (clk : Z) (device_id : string) (connection_id ip_address : option string) (ds : devices) : devices :=
  alter (connected connection_id ip_address clk) device_id ds.

(** [UPDATE ... WHERE id = :id [AND connection_id = :expected]]. *)
Definition mark_offline (device_id : string) (expected_connection_id : option string) (ds : devices) : devices * bool :=
  match ds !! device_id with
  | Some d =>
      if match expected_connection_id with Some c => bool_decide (pd_connection_id d = Some c) | None => true end
      then (<[device_id := set_online false None d]> ds, true) else (ds, false)
  | None => (ds, false)
  end.

Definition mark_offline_and_alert (groups : group_names) (device_id : string) (expected_connection_id : option string)
    (ds : devices) : devices * option AlertCall :=
  match expected_connection_id with
  | None => ((mark_offline device_id None ds).1, None)
  | Some c =>
      match ds !! device_id, mark_offline device_id (Some c) ds with
      | Some d, (ds', true) =>
          let '(gid, gname) := get_primary_device_group_context groups ds' device_id in
          (ds', Some (device_disconnected device_id (name_or_id device_id d) gid gname (pd_status d)))
      | _, _ => (ds, None)
      end
  end.

(** The monotonic guard of [update_status]. *)
Definition accepts (ts : Z) (d : PDevice) : bool :=
  match pd_last_status_ts d with Some t => t <? ts | None => true end.

Definition telemetry_of (m : StatusMsg) : Telemetry :=
  mkTelemetry (match sm_mode m with Given s => s | _ => "unknown" end) (get_field (sm_asset m))
    (match sm_pipeline_state m with Given s => s | _ => "NULL" end) (sm_started_at m)
    (get_field (sm_playback_position_ms m)) (get_field (sm_uptime_seconds m) or_else 0)
    (get_field (sm_cpu_temp_c m)) (get_field (sm_load_avg m)).

(** A null in a column that may not be null. *)
Definition violates_not_null (m : StatusMsg) : bool :=
  match sm_mode m, sm_pipeline_state m with Null, _ | _, Null => true | _, _ => false end.

(** A toggle keeps its value unless the device gives one. *)
Definition sticky (f : field bool) (old : option bool) : option bool :=
  match f with Given b => Some b | _ => old end.

Definition apply_status (ts : Z) (m : StatusMsg) (d : PDevice) : PDevice :=
  let new_error := get_field (sm_error m) in
  mkPDevice (pd_name d) (pd_status d) (pd_group_id d) (pd_online d) (pd_connection_id d) (pd_ip_address d) (Some ts)
    (Some ts) (telemetry_of m) new_error
    (match new_error with
     | None => None
     | Some _ => match pd_error d with None => Some ts | Some _ => pd_error_since d end
     end)
    (sticky (sm_ssh_enabled m) (pd_ssh_enabled d)) (sticky (sm_local_api_enabled m) (pd_local_api_enabled d))
    (match sm_display_connected m with Absent => pd_display_connected d | Null => None | Given b => Some b end)
    (match sm_display_ports m with
     | Given v => match _normalize_display_ports v with Some l => Some l | None => pd_display_ports d end
     | _ => pd_display_ports d
     end).

(** [ts] is [status_ts or now()]. *)
Definition update_status (groups : group_names) (ts : Z) (device_id : string) (status : StatusMsg) (ds : devices)
    : result exn (devices * bool * option AlertCall) :=
  match ds !! device_id with
  | None => Ok (ds, false, None)
  | Some d =>
      if negb (accepts ts d) then Ok (ds, false, None)
      else if violates_not_null status then Err IntegrityError
      else
        let d' := apply_status ts status d in
        if pd_online d' then Ok (<[device_id := d']> ds, true, None)
        else
          let ds' := <[device_id := set_online true (pd_connection_id d') d']> ds in
          let '(gid, gname) := get_primary_device_group_context groups ds' device_id in
          Ok (ds', true, Some (device_reconnected device_id (name_or_id device_id d') gid gname (pd_status d')))
  end.

(** [set_flags]: the three columns it may touch. *)
Definition set_flags (device_id : string) (ssh_enabled local_api_enabled display_connected : option (option bool))
    (ds : devices) : devices :=
  alter (λ d, mkPDevice (pd_name d) (pd_status d) (pd_group_id d) (pd_online d) (pd_connection_id d) (pd_ip_address d)
    (pd_last_seen d) (pd_last_status_ts d) (pd_telemetry d) (pd_error d) (pd_error_since d)
    (ssh_enabled or_else pd_ssh_enabled d) (local_api_enabled or_else pd_local_api_enabled d)
    (display_connected or_else pd_display_connected d) (pd_display_ports d)) device_id ds.

Definition is_online (device_id : string) (ds : devices) : bool :=
  match ds !! device_id with Some d => pd_online d | None => false end.
Definition ids_online (ds : devices) : list string := (filter (λ kd, pd_online kd.2 = true) (map_to_list ds)).*1.
Definition count_online (ds : devices) : Z := Z.of_nat (length (ids_online ds)).

(** ** Receiving heartbeats *)

Section heartbeats.
Context (groups : group_names) (device_id : string).

(** A heartbeat and its timestamp; one that the database refuses leaves the row. *)
Definition receive (ds : devices) (tm : Z * StatusMsg) : devices :=
  match update_status groups tm.1 device_id tm.2 ds with Ok (ds', _, _) => ds' | Err _ => ds end.

(** The row the heartbeats leave, if the device exists. *)
Definition receive_row (d : PDevice) (tm : Z * StatusMsg) : PDevice :=
  if accepts tm.1 d && negb (violates_not_null tm.2)
  then let d' := apply_status tm.1 tm.2 d in set_online true (pd_connection_id d') d' else d.

Lemma set_online_same d : pd_online d = true → set_online true (pd_connection_id d) d = d.
Proof. destruct d; simpl. by intros ->. Qed.

Lemma receive_lookup ds tm : receive ds tm !! device_id = (λ d, receive_row d tm) <$> ds !! device_id.
Proof.
  unfold receive, update_status. destruct (ds !! device_id) as [d|] eqn:Hd; [|by rewrite Hd].
  unfold receive_row. cbn [fmap option_fmap option_map]. destruct (accepts tm.1 d); cbn [negb andb]; [|by rewrite Hd].
  destruct (violates_not_null tm.2); cbn [negb]; [by rewrite Hd|]. cbv zeta.
  destruct (pd_online (apply_status tm.1 tm.2 d)) eqn:Hon.
  - rewrite lookup_insert_eq. by rewrite set_online_same.
  - destruct (get_primary_device_group_context _ _ _). by rewrite lookup_insert_eq.
Qed.

Lemma fold_receive_lookup l ds : fold_left receive l ds !! device_id = (λ d, fold_left receive_row l d) <$> ds !! device_id.
Proof.
  revert ds. induction l as [|tm l IH]; intros ds; cbn [fold_left]; [by destruct (ds !! device_id)|].
  rewrite IH, receive_lookup. by destruct (ds !! device_id).
Qed.

(** What a heartbeat overwrites whole. *)
Definition reported (d : PDevice) : option Z * Telemetry * option string * option Z :=
  (pd_last_status_ts d, pd_telemetry d, pd_error d, pd_last_seen d).

Definition report_step (v : option Z * Telemetry * option string * option Z) (tm : Z * StatusMsg) :=
  if match v.1.1.1 with Some t => t <? tm.1 | None => true end && negb (violates_not_null tm.2)
  then (Some tm.1, telemetry_of tm.2, get_field (sm_error tm.2), Some tm.1) else v.

Lemma reported_step d tm : reported (receive_row d tm) = report_step (reported d) tm.
Proof. unfold receive_row, report_step, accepts, reported. cbn. by destruct (_ && _). Qed.

Lemma reported_fold l d : reported (fold_left receive_row l d) = fold_left report_step l (reported d).
Proof. revert d. induction l as [|tm l IH]; intros d; [done|]. cbn [fold_left]. by rewrite IH, reported_step. Qed.

Lemma report_step_comm v a b : a.1 ≠ b.1 → report_step (report_step v a) b = report_step (report_step v b) a.
Proof.
  intros Hne. unfold report_step. destruct (violates_not_null a.2), (violates_not_null b.2); rewrite ?andb_false_r; try done.
  rewrite !andb_true_r. destruct v as [[[[t|] ?] ?] ?]; cbn [fst snd];
    destruct (Z.ltb_spec t a.1), (Z.ltb_spec t b.1) || idtac; cbn [fst snd];
    repeat match goal with |- context [?x <? ?y] => destruct (Z.ltb_spec x y) end; done || lia.
Qed.

Lemma fold_report_perm l1 l2 v :
  l1 ≡ₚ l2 → NoDup l1.*1 → fold_left report_step l1 v = fold_left report_step l2 v.
Proof.
  intros Hp. revert v. induction Hp as [|x l1 l2 Hp IH|x y l|l1 l2 l3 Hp1 IH1 Hp2 IH2]; intros v Hnd; cbn [fold_left].
  - done.
  - apply NoDup_cons in Hnd as [_ Hnd]. by apply IH.
  - rewrite report_step_comm; [done|]. rewrite !fmap_cons in Hnd. apply NoDup_cons in Hnd as [Hin _]. set_solver.
  - rewrite IH1 by done. apply IH2. by rewrite <-Hp1.
Qed.

(** Telemetry does not depend on the order of delivery: heartbeats with
    distinct timestamps that arrive in any two orders (as when two replicas
    deliver them, with repeats discarded by the guard) leave the same report,
    that is, the same telemetry, error, report time and last-seen time. *)
Theorem telemetry_order_irrelevant l1 l2 ds :
  l1 ≡ₚ l2 → NoDup l1.*1 →
  reported <$> fold_left receive l1 ds !! device_id = reported <$> fold_left receive l2 ds !! device_id.
Proof.
  intros Hp Hnd. rewrite !fold_receive_lookup. destruct (ds !! device_id) as [d|]; [|done].
  cbn [fmap option_fmap option_map]. rewrite !reported_fold. f_equal. by apply fold_report_perm.
Qed.

(** A second delivery of a heartbeat, or an older one, changes nothing. *)
Lemma stale_status_ignored ds d tm t :
  ds !! device_id = Some d → pd_last_status_ts d = Some t → tm.1 ≤ t → receive ds tm = ds.
Proof.
  intros Hd Ht Hle. unfold receive, update_status. rewrite Hd. unfold accepts. rewrite Ht.
  by rewrite (proj2 (Z.ltb_ge _ _)).
Qed.

(** *** The latch of the error *)

Definition errs (m : StatusMsg) : bool := bool_decide (is_Some (get_field (sm_error m))).

(** Heartbeats in order, all newer than the row. *)
Definition in_order (d : PDevice) (l : list (Z * StatusMsg)) : Prop :=
  StronglySorted Z.lt l.*1 ∧ (∀ t tm, pd_last_status_ts d = Some t → tm ∈ l → t < tm.1) ∧
  ∀ tm, tm ∈ l → violates_not_null tm.2 = false.

Lemma in_order_cons d tm l :
  in_order d (tm :: l) →
  receive_row d tm = set_online true (pd_connection_id d) (apply_status tm.1 tm.2 d) ∧ in_order (receive_row d tm) l.
Proof.
  intros (Hs & Hnew & Hok). assert (E : receive_row d tm = set_online true (pd_connection_id d) (apply_status tm.1 tm.2 d)).
  { unfold receive_row. assert (accepts tm.1 d = true) as ->.
    { unfold accepts. destruct (pd_last_status_ts d) as [t|] eqn:Ht; [|done]. apply Z.ltb_lt, Hnew; [done|left]. }
    rewrite Hok by left. done. }
  split; [done|]. rewrite fmap_cons in Hs. apply StronglySorted_inv in Hs as [Hs Hall]. rewrite E. split_and!; [done| |].
  - cbn. intros t x [= <-] Hx. rewrite Forall_forall in Hall. apply Hall. by apply list_elem_of_fmap_2.
  - intros x Hx. apply Hok. by right.
Qed.

Lemma error_kept l d t :
  in_order d l → (∀ tm, tm ∈ l → errs tm.2 = true) → is_Some (pd_error d) → pd_error_since d = Some t →
  pd_error_since (fold_left receive_row l d) = Some t.
Proof.
  revert d. induction l as [|tm l IH]; intros d Hord Herr [e He] Ht; [done|]. cbn [fold_left].
  apply in_order_cons in Hord as [E Hord]. assert (Hm : errs tm.2 = true) by (apply Herr; left).
  apply bool_decide_eq_true in Hm as [e' He']. apply IH; [done|intros x Hx; apply Herr; by right|..]; rewrite E; cbn; rewrite He'.
  - done.
  - by rewrite He.
Qed.

(** [error_since] is the time of the first heartbeat of the current error:
    after heartbeats in order, those of [before] ending without an error and
    all those of [run] reporting one, it is the timestamp of the first of
    [run]; a heartbeat without an error clears it. *)
Theorem error_since_exact before t0 m0 run ds d :
  ds !! device_id = Some d → in_order d (before ++ (t0, m0) :: run) →
  match last before with Some tm => errs tm.2 = false | None => pd_error d = None end →
  errs m0 = true → (∀ tm, tm ∈ run → errs tm.2 = true) →
  (pd_error_since <$> fold_left receive (before ++ (t0, m0) :: run) ds !! device_id) = Some (Some t0) ∧
  ∀ t m, errs m = false → in_order (fold_left receive_row (before ++ (t0, m0) :: run) d) [(t, m)] →
    (pd_error_since <$> fold_left receive (before ++ (t0, m0) :: run ++ [(t, m)]) ds !! device_id) = Some None.
Proof.
  intros Hd Hord Hlast Hm0 Hrun.
  assert (Hmain : pd_error_since (fold_left receive_row (before ++ (t0, m0) :: run) d) = Some t0).
  { clear Hd. revert d Hord Hlast. induction before as [|tm before IH]; intros d Hord Hlast; cbn [app fold_left].
    - apply in_order_cons in Hord as [E Hord]. cbn in Hlast. apply bool_decide_eq_true in Hm0 as [e He].
      apply error_kept; [done|done|..]; rewrite E; cbn; rewrite He; [done|]. by rewrite Hlast.
    - apply in_order_cons in Hord as [E Hord]. apply IH; [done|]. rewrite last_cons in Hlast.
      destruct (last before) as [x|]; [done|]. rewrite E. cbn. apply bool_decide_eq_false in Hlast.
      by apply eq_None_not_Some. }
  split; [rewrite fold_receive_lookup, Hd; cbn; by rewrite Hmain|].
  intros t m Hm Hord'. rewrite fold_receive_lookup, Hd. cbn [fmap option_fmap option_map].
  rewrite app_comm_cons, app_assoc, fold_left_app. cbn [fold_left].
  apply in_order_cons in Hord' as [-> _]. cbn. apply bool_decide_eq_false in Hm.
  by rewrite (proj2 (eq_None_not_Some _) Hm).
Qed.
End heartbeats.

(** ** Connections *)

Section connections.
Context (groups : group_names) (device_id : string).

(** What happens to the presence of a device; [OpStale] is its part in the
    sweep of stale devices. *)
Inductive presence_op :=
  | OpOnline (clk : Z) (conn ip : option string)
  | OpOffline (expected : option string)
  | OpDropped (expected : option string)
  | OpStatus (ts : Z) (m : StatusMsg)
  | OpFlags (ssh api disp : option (option bool))
  | OpStale.

Definition presence_step (ds : devices) (op : presence_op) : devices * option AlertCall :=
  match op with
  | OpOnline clk conn ip => (mark_online clk device_id conn ip ds, None)
  | OpOffline expected => ((mark_offline device_id expected ds).1, None)
  | OpDropped expected => mark_offline_and_alert groups device_id expected ds
  | OpStatus ts m => match update_status groups ts device_id m ds with
                     | Ok (ds', _, call) => (ds', call)
                     | Err _ => (ds, None)
                     end
  | OpFlags ssh api disp => (set_flags device_id ssh api disp ds, None)
  | OpStale => (alter (set_online false None) device_id ds, None)
  end.

(** How often the end of connection [c] was reported to the alert service, and
    how often [c] was opened. *)
Fixpoint drops (c : string) (ds : devices) (ops : list presence_op) : nat :=
  match ops with
  | [] => 0
  | op :: ops =>
      ((match op, (presence_step ds op).2 with OpDropped e, Some _ => if bool_decide (e = Some c) then 1 else 0 | _, _ => 0 end)
       + drops c (presence_step ds op).1 ops)%nat
  end.
Fixpoint opens (c : string) (ops : list presence_op) : nat :=
  match ops with
  | [] => 0
  | op :: ops =>
      ((match op with OpOnline _ conn _ => if bool_decide (conn = Some c) then 1 else 0 | _ => 0 end) + opens c ops)%nat
  end.
(** The row holds [c]. *)
Definition holds (c : string) (ds : devices) : nat :=
  if bool_decide ((d ← ds !! device_id; pd_connection_id d) = Some c) then 1 else 0.

Lemma holds_alter_same c f ds :
  (∀ d, pd_connection_id (f d) = pd_connection_id d) → holds c (alter f device_id ds) = holds c ds.
Proof.
  intros Hf. unfold holds. rewrite lookup_alter_eq. destruct (ds !! device_id) as [d|]; [|done]. cbn. by rewrite Hf.
Qed.

Lemma mark_offline_holds expected c ds :
  (holds c (mark_offline device_id expected ds).1 ≤ holds c ds)%nat ∧
  (expected = Some c → (mark_offline device_id expected ds).2 = true →
   holds c ds = 1%nat ∧ holds c (mark_offline device_id expected ds).1 = 0%nat).
Proof.
  unfold mark_offline, holds. destruct (ds !! device_id) as [d|] eqn:Hd; [|simpl; by rewrite Hd].
  destruct expected as [e|].
  - destruct (bool_decide_reflect (pd_connection_id d = Some e)) as [He|He]; cbn [fst snd]; [|by rewrite Hd].
    rewrite lookup_insert_eq. cbn. split; [case_bool_decide; [done|lia]|]. intros [= ->] _.
    by rewrite bool_decide_eq_true_2.
  - cbn [fst snd]. rewrite lookup_insert_eq. cbn. split; [case_bool_decide; [done|lia]|done].
Qed.

Lemma presence_step_holds c ds op :
  ((match op, (presence_step ds op).2 with OpDropped e, Some _ => if bool_decide (e = Some c) then 1 else 0 | _, _ => 0 end)
   + holds c (presence_step ds op).1 ≤
   (match op with OpOnline _ conn _ => if bool_decide (conn = Some c) then 1 else 0 | _ => 0 end) + holds c ds)%nat.
Proof.
  destruct op as [clk conn ip|expected|expected|ts m|ssh api disp|]; cbn [presence_step fst snd].
  - unfold mark_online, holds. rewrite lookup_alter_eq. destruct (ds !! device_id); cbn; repeat case_bool_decide; lia || done.
  - apply mark_offline_holds.
  - destruct expected as [e|]; cbn [mark_offline_and_alert fst snd].
    2: { cbn. apply (mark_offline_holds None). }
    unfold mark_offline_and_alert. destruct (mark_offline_holds (Some e) c ds) as [Hle Heq].
    destruct (ds !! device_id) as [d|]; [|cbn; lia]. destruct (mark_offline device_id (Some e) ds) as [ds' [|]]; [|cbn; lia].
    destruct (get_primary_device_group_context _ _ _). cbn [fst snd] in *. case_bool_decide as He; [|lia].
    destruct (Heq He eq_refl) as [-> ->]. lia.
  - unfold update_status. destruct (ds !! device_id) as [d|] eqn:Hd; [|done].
    destruct (negb (accepts ts d)); [done|]. destruct (violates_not_null m); [done|]. cbv zeta.
    destruct (pd_online _); [|destruct (get_primary_device_group_context _ _ _)];
      cbn [fst snd]; unfold holds; rewrite lookup_insert_eq, Hd; done.
  - unfold set_flags. by rewrite holds_alter_same.
  - unfold holds. rewrite lookup_alter_eq. destruct (ds !! device_id); cbn; repeat case_bool_decide; lia || done.
Qed.

(** The end of a connection is reported at most once: in any sequence of
    connects, disconnect reports (from every replica, with any token),
    heartbeats, toggles and stale sweeps, the reports for connection [c] that
    reach the alert service are at most the times [c] was opened, plus one if
    the row held it at the start; so a late report about a replaced connection
    neither takes the device offline nor alerts. *)
Theorem drop_reported_once c ds ops : (drops c ds ops ≤ opens c ops + holds c ds)%nat.
Proof.
  revert ds. induction ops as [|op ops IH]; intros ds; [simpl; lia|]. cbn [drops opens].
  pose proof (presence_step_holds c ds op). pose proof (IH (presence_step ds op).1). lia.
Qed.

Lemma late_drop_ignored c d ds :
  ds !! device_id = Some d → pd_connection_id d ≠ Some c →
  mark_offline_and_alert groups device_id (Some c) ds = (ds, None).
Proof.
  intros Hd Hc. unfold mark_offline_and_alert, mark_offline. rewrite Hd. by rewrite bool_decide_eq_false_2.
Qed.
End connections.

(** ** After a stale sweep *)

(** A device that the sweep marked offline and a heartbeat marked online again
    has no connection id, so the end of its connection, which names it, is
    taken for a late report: the device stays online and nobody is told. *)
Example healed_device_close_ignored :
  let dev := mkPDevice "Lobby" D_ADOPTED (Some "g1") false None None (Some 0) None
               (mkTelemetry "play" None "PLAYING" None None 0 None None) None None None None None None in
  let m := mkStatusMsg Absent Absent Absent None Absent Absent Absent Absent Absent Absent Absent Absent Absent in
  let groups := {["g1" := "Hall"]} in
  let run := fold_left (λ s op, ((presence_step groups "pi" s.1 op).1, s.2 ++ [(presence_step groups "pi" s.1 op).2]))
    [OpOnline 1 (Some "c1") None; OpStale; OpStatus 2 m; OpDropped (Some "c1")] ({["pi" := dev]}, []) in
  is_online "pi" run.1 = true ∧ (pd_connection_id <$> run.1 !! "pi") = Some None ∧
  run.2 = [None; None; Some (device_reconnected "pi" "Lobby" (Some "g1") "Hall" D_ADOPTED); None].
Proof. vm_compute. done. Qed.

(** ** Witnesses *)

Definition a_telemetry : Telemetry := mkTelemetry "play" None "PLAYING" None None 0 None None.
Definition a_pdevice : PDevice :=
  mkPDevice "Lobby" D_ADOPTED (Some "g1") true (Some "c1") None (Some 0) None a_telemetry None None None None None None.
Definition a_status (error : field string) : StatusMsg :=
  mkStatusMsg Absent Absent Absent None Absent Absent Absent Absent error Absent Absent Absent Absent.

Lemma telemetry_order_irrelevant_witness :
  reported <$> fold_left (receive ∅ "pi") [(1, a_status Absent); (2, a_status (Given "x"))] {["pi" := a_pdevice]} !! "pi" =
  reported <$> fold_left (receive ∅ "pi") [(2, a_status (Given "x")); (1, a_status Absent)] {["pi" := a_pdevice]} !! "pi".
Proof.
  apply (telemetry_order_irrelevant ∅ "pi" [(1, a_status Absent); (2, a_status (Given "x"))]
    [(2, a_status (Given "x")); (1, a_status Absent)]); [apply perm_swap|].
  apply NoDup_cons. split; [by intros [?|?%elem_of_nil]%elem_of_cons|apply NoDup_singleton].
Defined.

Lemma error_since_exact_witness :
  (pd_error_since <$> fold_left (receive ∅ "pi") [(1, a_status Absent); (2, a_status (Given "x")); (3, a_status (Given "y"))]
    {["pi" := a_pdevice]} !! "pi") = Some (Some 2).
Proof.
  refine (proj1 (error_since_exact ∅ "pi" [(1, a_status Absent)] 2 (a_status (Given "x")) [(3, a_status (Given "y"))]
    {["pi" := a_pdevice]} a_pdevice eq_refl _ eq_refl eq_refl _)).
  - split_and!; [|done|].
    + repeat (apply SSorted_cons; [|repeat (apply Forall_cons; split; [reflexivity|]); apply Forall_nil; done]). apply SSorted_nil.
    + by intros tm [->|[->|[->|?%elem_of_nil]%elem_of_cons]%elem_of_cons]%elem_of_cons.
  - by intros tm [->|?%elem_of_nil]%elem_of_cons.
Defined.
