(* ===== verification/JsonText.v ===== *)
(** * JSON text of Python: json.dumps and json.loads

    The values of [Json] with their text.  A number with denominator 1 is an
    [int], any other a [float]; [float_repr] prints floats.  On ASCII text; the
    literals NaN and Infinity and lone surrogates are not read. *)

From Stdlib Require Import QArith.
From S2P Require Import Prelude Clock Models PyText Presence.
Open Scope Z_scope.

(** [dict(pairs)]: the last value of a key, at the place of the first. *)
Definition alist_of {A} (l : list (string * A)) : list (string * A) := fold_left (λ d kv, aset kv.1 kv.2 d) l [].

Lemma aset_fresh {A} k (v : A) (d : list (string * A)) : k ∉ d.*1 → aset k v d = d ++ [(k, v)].
Proof.
  induction d as [|[x y] d IH]; [done|]. cbn [aset fmap list_fmap]. rewrite not_elem_of_cons. intros [N ?].
  rewrite decide_False by done. by rewrite IH.
Qed.
Lemma alist_of_gen {A} (l d : list (string * A)) : NoDup (d ++ l).*1 → fold_left (λ d kv, aset kv.1 kv.2 d) l d = d ++ l.
Proof.
  revert d. induction l as [|[k v] l IH]; intros d N; simpl; [by rewrite app_nil_r|]. rewrite aset_fresh.
  - rewrite IH, <-app_assoc; [done|]. by rewrite <-app_assoc.
  - rewrite fmap_app in N. csimpl in N. apply NoDup_app in N as (_ & N & _). intros I. apply (N k I). left.
Qed.
Lemma alist_of_NoDup {A} (l : list (string * A)) : NoDup l.*1 → alist_of l = l.
Proof. intros N. unfold alist_of. by rewrite alist_of_gen. Qed.

(** ** json.dumps *)

Definition hex_digit (n : nat) : ascii := ascii_of_nat (if (n <? 10)%nat then 48 + n else 87 + n).
Definition json_char (c : ascii) : string :=
  let n := nat_of_ascii c in
  if (n =? 34)%nat then "\" +:+ String c "" else if (n =? 92)%nat then "\\"
  else if (n =? 10)%nat then "\n" else if (n =? 13)%nat then "\r" else if (n =? 9)%nat then "\t"
  else if (n =? 8)%nat then "\b" else if (n =? 12)%nat then "\f"
  else if ((n <? 32) || (n =? 127))%nat then "\u00" +:+ String (hex_digit (n / 16)) (String (hex_digit (n mod 16)) "")
  else String c "".
Definition QUOTE : string := String (ascii_of_nat 34) "".
Fixpoint json_body (s : string) : string := match s with EmptyString => "" | String c s' => json_char c +:+ json_body s' end.
Definition json_str (s : string) : string := QUOTE +:+ json_body s +:+ QUOTE.

(** A join with ", ". *)
Fixpoint comma_sep (l : list string) : string :=
  match l with [] => "" | [x] => x | x :: l' => x +:+ ", " +:+ comma_sep l' end.

Section dumps.
Context (float_repr : Q → string).

Fixpoint json_dumps (v : Json) : string :=
  match v with
  | JNull => "null"
  | JBool b => if b then "true" else "false"
  | JNum q => if (Qden q =? 1)%positive then Z_str (Qnum q) else float_repr q
  | JStr s => json_str s
  | JArr l => "[" +:+ comma_sep (List.map json_dumps l) +:+ "]"
  | JObj l => "{" +:+ comma_sep (List.map (λ kv, json_str kv.1 +:+ ": " +:+ json_dumps kv.2) l) +:+ "}"
  end.
End dumps.

(** ** json.loads *)

Definition is_json_ws (c : ascii) : bool := bool_decide (nat_of_ascii c ∈ [32; 9; 10; 13]%nat).
Definition skip_ws (s : string) : string := strip_left is_json_ws s.

Definition hex_value (c : ascii) : option Z :=
  let n := Z.of_nat (nat_of_ascii c) in
  if (48 <=? n) && (n <=? 57) then Some (n - 48)
  else if (97 <=? n) && (n <=? 102) then Some (n - 87)
  else if (65 <=? n) && (n <=? 70) then Some (n - 55) else None.
Definition hex4 (a b c d : ascii) : option Z :=
  w ← hex_value a; x ← hex_value b; y ← hex_value c; z ← hex_value d; Some (((w * 16 + x) * 16 + y) * 16 + z).

(** The UTF-8 bytes of a code point. *)
Definition utf8_char (n : Z) : string :=
  let b k := String (ascii_of_N (Z.to_N k)) "" in
  if n <? 128 then b n
  else if n <? 2048 then b (192 + n / 64) +:+ b (128 + n mod 64)
  else if n <? 65536 then b (224 + n / 4096) +:+ b (128 + n / 64 mod 64) +:+ b (128 + n mod 64)
  else b (240 + n / 262144) +:+ b (128 + n / 4096 mod 64) +:+ b (128 + n / 64 mod 64) +:+ b (128 + n mod 64).

Definition escape_char (c : ascii) : option ascii :=
  let n := nat_of_ascii c in
  (if (n =? 34) || (n =? 92) || (n =? 47) then Some c
   else if n =? 98 then Some (ascii_of_nat 8) else if n =? 102 then Some (ascii_of_nat 12)
   else if n =? 110 then Some (ascii_of_nat 10) else if n =? 114 then Some (ascii_of_nat 13)
   else if n =? 116 then Some (ascii_of_nat 9) else None)%nat.

(** After a backslash: the characters meant and the rest. *)
Definition p_escape (s : string) : option (string * string) :=
  match s with
  | String u r =>
      if (nat_of_ascii u =? 117)%nat then
        match r with
        | String a (String b (String c (String d r))) =>
            n ← hex4 a b c d;
            if (n <? 55296) || (57343 <? n) then Some (utf8_char n, r)
            else if 56319 <? n then None
            else match r with
                 | String e (String v (String a (String b (String c (String d r))))) =>
                     if ((nat_of_ascii e =? 92) && (nat_of_ascii v =? 117))%nat then
                       m ← hex4 a b c d;
                       if (56320 <=? m) && (m <=? 57343) then Some (utf8_char (65536 + (n - 55296) * 1024 + (m - 56320)), r) else None
                     else None
                 | _ => None
                 end
        | _ => None
        end
      else x ← escape_char u; Some (String x "", r)
  | EmptyString => None
  end.

(** After the opening quote: the text and what follows the closing quote. *)
Fixpoint p_string (fuel : nat) (s : string) : option (string * string) :=
  match fuel, s with
  | S f, String c s' =>
      let n := nat_of_ascii c in
      if (n =? 34)%nat then Some ("", s')
      else if (n =? 92)%nat then '(x, r) ← p_escape s'; '(t, r) ← p_string f r; Some (x +:+ t, r)
      else if (n <? 32)%nat then None
      else '(t, r) ← p_string f s'; Some (String c t, r)
  | _, _ => None
  end.

Definition is_digit (c : ascii) : bool := bool_decide (is_Some (digit_value c)).
Fixpoint take_digits (s : string) : string * string :=
  match s with
  | String c s' => if is_digit c then (String c (take_digits s').1, (take_digits s').2) else ("", s)
  | EmptyString => ("", "")
  end.
Definition digits_Z (s : string) : Z := default 0 (parse_digits 0 false s).

(** An exact decimal, kept with a denominator other than 1. *)
Definition decimal (m e : Z) : Q := if 0 <=? e then Qmake (m * 10 ^ e * 10) 10 else Qmake m (Z.to_pos (10 ^ (- e))).

Definition p_fraction (s : string) : string * string :=
  match s with
  | String "."%char s' => match take_digits s' with ("", _) => ("", s) | dr => dr end
  | _ => ("", s)
  end.
Definition p_exponent (s : string) : option Z * string :=
  match s with
  | String c s' =>
      if bool_decide (c = "e"%char ∨ c = "E"%char) then
        let '(sign, s1) := match s' with String "-"%char t => (-1, t) | String "+"%char t => (1, t) | t => (1, t) end in
        match take_digits s1 with ("", _) => (None, s) | (ds, r) => (Some (sign * digits_Z ds), r) end
      else (None, s)
  | EmptyString => (None, s)
  end.
(** The integer part: a single 0, or digits that do not start with 0. *)
Definition p_int (s : string) : option (string * string) :=
  match s with
  | String c s' => if bool_decide (c = "0"%char) then Some ("0", s')
                   else match take_digits s with ("", _) => None | dr => Some dr end
  | EmptyString => None
  end.
Definition p_sign (s : string) : Z * string := match s with String "-"%char t => (-1, t) | t => (1, t) end.
Definition p_number (s : string) : option (Json * string) :=
  let '(sign, s) := p_sign s in
  '(ds, r) ← p_int s;
  let '(fs, r) := p_fraction r in
  let '(ex, r) := p_exponent r in
  match fs, ex with
  | "", None => Some (JNum (Qmake (sign * digits_Z ds) 1), r)
  | _, _ => Some (JNum (decimal (sign * digits_Z (ds +:+ fs)) (default 0 ex - Z.of_nat (String.length fs))), r)
  end.

Definition p_word (s : string) : option (Json * string) :=
  match str_drop_prefix "null" s, str_drop_prefix "true" s, str_drop_prefix "false" s with
  | Some r, _, _ => Some (JNull, r)
  | _, Some r, _ => Some (JBool true, r)
  | _, _, Some r => Some (JBool false, r)
  | _, _, _ => None
  end.

(** The first character and the rest. *)
Definition eat (c : nat) (s : string) : option string :=
  match s with String x r => if (nat_of_ascii x =? c)%nat then Some r else None | EmptyString => None end.

Fixpoint p_value (fuel : nat) (s : string) : option (Json * string) :=
  match fuel with
  | O => None
  | S f =>
      match eat 34 s, eat 123 s, eat 91 s with
      | Some r, _, _ => '(t, r) ← p_string (String.length r) r; Some (JStr t, r)
      | _, Some r, _ =>
          match eat 125 (skip_ws r) with
          | Some r => Some (JObj [], r)
          | None => '(l, r) ← p_members f (skip_ws r); Some (JObj (alist_of l), r)
          end
      | _, _, Some r =>
          match eat 93 (skip_ws r) with
          | Some r => Some (JArr [], r)
          | None => '(l, r) ← p_items f (skip_ws r); Some (JArr l, r)
          end
      | None, None, None => match p_word s with Some vr => Some vr | None => p_number s end
      end
  end
with p_items (fuel : nat) (s : string) : option (list Json * string) :=
  match fuel with
  | O => None
  | S f =>
      '(v, r) ← p_value f s;
      match eat 93 (skip_ws r), eat 44 (skip_ws r) with
      | Some r, _ => Some ([v], r)
      | _, Some r => '(l, r) ← p_items f (skip_ws r); Some (v :: l, r)
      | _, _ => None
      end
  end
with p_members (fuel : nat) (s : string) : option (list (string * Json) * string) :=
  match fuel with
  | O => None
  | S f =>
      r ← eat 34 s;
      '(k, r) ← p_string (String.length r) r;
      r ← eat 58 (skip_ws r);
      '(v, r) ← p_value f (skip_ws r);
      match eat 125 (skip_ws r), eat 44 (skip_ws r) with
      | Some r, _ => Some ([(k, v)], r)
      | _, Some r => '(l, r) ← p_members f (skip_ws r); Some ((k, v) :: l, r)
      | _, _ => None
      end
  end.

(** [json.loads(s)]; [None] is the JSONDecodeError. *)
Definition json_loads (s : string) : option Json :=
  '(v, r) ← p_value (S (S (String.length s))) (skip_ws s);
  if bool_decide (skip_ws r = "") then Some v else None.

(** ** json.loads reads what json.dumps wrote *)

Section json_ind.
Context (P : Json → Prop) (Hnull : P JNull) (Hbool : ∀ b, P (JBool b)) (Hnum : ∀ q, P (JNum q)) (Hstr : ∀ s, P (JStr s))
  (Harr : ∀ l, Forall P l → P (JArr l)) (Hobj : ∀ l, Forall (λ kv, P kv.2) l → P (JObj l)).

(** Induction through the lists of a value. *)
Fixpoint json_nested_ind (v : Json) : P v :=
  match v with
  | JNull => Hnull | JBool b => Hbool b | JNum q => Hnum q | JStr s => Hstr s
  | JArr l => Harr l ((fix go l : Forall P l :=
      match l with [] => Forall_nil_2 _ | x :: l' => Forall_cons_2 _ _ _ (json_nested_ind x) (go l') end) l)
  | JObj l => Hobj l ((fix go l : Forall (λ kv, P kv.2) l :=
      match l with [] => Forall_nil_2 _ | x :: l' => Forall_cons_2 _ _ _ (json_nested_ind x.2) (go l') end) l)
  end.
End json_ind.

(** Integers only, and no key twice: what [dict] and [int] hold. *)
Fixpoint plain (v : Json) : Prop :=
  match v with
  | JNum q => Qden q = 1%positive
  | JArr l => foldr (λ x P, plain x ∧ P) True l
  | JObj l => NoDup l.*1 ∧ foldr (λ kv P, plain kv.2 ∧ P) True l
  | _ => True
  end.

(** The fuel [p_value] needs for the text of a value. *)
Fixpoint json_size (v : Json) : nat :=
  match v with
  | JArr l => S (foldr (λ x n, S (json_size x) + n) 0 l)
  | JObj l => S (foldr (λ kv n, S (json_size kv.2) + n) 0 l)
  | _ => 1
  end%nat.

Lemma p_string_char f c t : p_string (S f) (json_char c +:+ t) = '(x, r) ← p_string f t; Some (String c x, r).
Proof. destruct c as [[] [] [] [] [] [] [] []]; reflexivity. Qed.
Lemma p_string_body f s rest : (String.length s < f)%nat → p_string f (json_body s +:+ QUOTE +:+ rest) = Some (s, rest).
Proof.
  revert f. induction s as [|c s IH]; intros [|f] H; simpl in H; try lia; [done|]. simpl json_body. rewrite str_app_assoc, p_string_char.
  by rewrite IH by lia.
Qed.
Lemma json_body_length s : (String.length s ≤ String.length (json_body s))%nat.
Proof.
  induction s as [|c s IH]; simpl; [done|]. rewrite str_app_length. enough (1 ≤ String.length (json_char c))%nat by lia.
  destruct c as [[] [] [] [] [] [] [] []]; vm_compute; lia.
Qed.
(** What follows the opening quote of a printed text. *)
Lemma p_string_str s rest :
  let r := json_body s +:+ QUOTE +:+ rest in p_string (String.length r) r = Some (s, rest).
Proof. intros r. apply p_string_body. unfold r. rewrite !str_app_length. pose proof (json_body_length s). simpl. lia. Qed.

(** *** Numbers *)

Lemma digit_is_digit n : 0 ≤ n → is_digit (Ascii.ascii_of_N (Z.to_N (48 + n mod 10))) = true.
Proof. intros Hn. unfold is_digit. destruct (digit_value_digit n "" Hn) as [_ ->]. by rewrite bool_decide_true by eauto. Qed.

Definition stops (rest : string) : bool :=
  match rest with String c _ => negb (is_digit c || bool_decide (c ∈ ["."; "e"; "E"]%char)) | EmptyString => true end.

Lemma take_digits_stop rest : stops rest = true → take_digits rest = ("", rest).
Proof. destruct rest as [|c r]; [done|]. simpl. destruct (is_digit c); [done|]. done. Qed.
Lemma take_digits_nat_str f n t : 0 ≤ n → take_digits (nat_str_fuel f n +:+ t) = (nat_str_fuel f n +:+ (take_digits t).1, (take_digits t).2).
Proof.
  revert n t. induction f as [|f IH]; intros n t Hn; cbn [nat_str_fuel]; [rewrite !str_app_nil; by destruct (take_digits t)|].
  assert (D : ∀ u, take_digits (digit n +:+ u) = (digit n +:+ (take_digits u).1, (take_digits u).2)).
  { intros u. destruct (digit_value_digit n u Hn) as [-> _]. cbn [take_digits]. rewrite digit_is_digit by done.
    destruct (digit_value_digit n (take_digits u).1 Hn) as [-> _]. done. }
  destruct (n <? 10); [apply D|]. rewrite !str_app_assoc, IH by (apply Z.div_pos; lia). by rewrite D.
Qed.

(** The first digit of a positive number is not 0. *)
Lemma nat_str_head f n t : 0 < n < 2 ^ Z.of_nat f →
  ∃ d u, nat_str_fuel f n +:+ t = String (Ascii.ascii_of_N (Z.to_N (48 + d))) u ∧ 1 ≤ d ≤ 9.
Proof.
  revert n t. induction f as [|f IH]; intros n t Hn; [simpl in Hn; lia|]. cbn [nat_str_fuel]. destruct (Z.ltb_spec n 10) as [L|G].
  - exists n. destruct (digit_value_digit n t) as [-> _]; [lia|]. rewrite Z.mod_small by lia. eexists. split; [done|lia].
  - rewrite str_app_assoc. apply IH. rewrite Nat2Z.inj_succ, Z.pow_succ_r in Hn by lia.
    split; [apply Z.div_str_pos; lia|apply Z.div_lt_upper_bound; lia].
Qed.

Lemma log2_fuel n : 0 < n → 0 < n < 2 ^ Z.of_nat (S (Z.to_nat (Z.log2 n))).
Proof. intros H. rewrite Nat2Z.inj_succ, Z2Nat.id by apply Z.log2_nonneg. split; [done|]. by apply Z.log2_spec. Qed.
Lemma Z_str_nonneg n : 0 ≤ n → Z_str n = nat_str_fuel (S (Z.to_nat (Z.log2 n))) n.
Proof. intros H. unfold Z_str. by rewrite (proj2 (Z.ltb_ge _ _)) by lia. Qed.
Lemma Z_str_neg n : n < 0 → Z_str n = "-" +:+ Z_str (- n).
Proof. intros H. unfold Z_str. rewrite (proj2 (Z.ltb_lt _ _)), (proj2 (Z.ltb_ge _ _)) by lia. done. Qed.

Lemma p_int_str n rest : 0 ≤ n → stops rest = true → p_int (Z_str n +:+ rest) = Some (Z_str n, rest).
Proof.
  intros Hn Hs. destruct (Z.eq_dec n 0) as [->|Hne].
  { change (Z_str 0 +:+ rest) with (String "0"%char rest). unfold p_int. by rewrite bool_decide_true. } rewrite Z_str_nonneg by done.
  destruct (nat_str_head _ n rest (log2_fuel n ltac:(lia))) as (d & u & E & Hd). pose proof (take_digits_nat_str (S (Z.to_nat (Z.log2 n))) n rest Hn) as T.
  rewrite (take_digits_stop rest) in T by done. simpl snd in T. simpl fst in T. rewrite str_app_nil_r in T.
  destruct (nat_str_head _ n "" (log2_fuel n ltac:(lia))) as (d' & u' & E' & Hd'). rewrite str_app_nil_r in E'.
  unfold p_int. rewrite E, bool_decide_false, <-E, T.
  - by rewrite E'.
  - assert (Hc : d ∈ [1;2;3;4;5;6;7;8;9]) by (rewrite !elem_of_cons; lia).
    repeat (apply elem_of_cons in Hc as [->|Hc]; [by vm_compute|]). by apply elem_of_nil in Hc.
Qed.

Lemma stops_no_tail rest : stops rest = true → p_fraction rest = ("", rest) ∧ p_exponent rest = (None, rest).
Proof.
  destruct rest as [|c r]; [done|]. simpl. intros H. apply negb_true_iff, orb_false_iff in H as [_ H]. apply bool_decide_eq_false in H.
  split.
  - destruct (decide (c = "."%char)) as [->|N]; [by destruct H; left|]. destruct c as [[] [] [] [] [] [] [] []]; try done.
  - rewrite bool_decide_false; [done|]. set_solver.
Qed.

Lemma digits_Z_str n : 0 ≤ n → digits_Z (Z_str n) = n.
Proof. intros H. unfold digits_Z. by rewrite parse_Z_str. Qed.

(** How a printed number starts. *)
Lemma Z_str_head n rest : ∃ c u, Z_str n +:+ rest = String c u ∧ c ∈ ["-"; "0"; "1"; "2"; "3"; "4"; "5"; "6"; "7"; "8"; "9"]%char ∧ (c = "-"%char ↔ n < 0).
Proof.
  destruct (Z.lt_ge_cases n 0) as [L|G].
  - rewrite Z_str_neg by done. eexists _, _. split; [done|]. split; [left|done].
  - destruct (Z.eq_dec n 0) as [->|Hne].
    { eexists _, _. split; [done|]. split; [right; left|]. split; [by intros ?|lia]. }
    rewrite Z_str_nonneg by done. destruct (nat_str_head _ n rest (log2_fuel n ltac:(lia))) as (d & u & -> & Hd).
    eexists _, _. split; [done|]. assert (Hc : d ∈ [1;2;3;4;5;6;7;8;9]) by (rewrite !elem_of_cons; lia).
    repeat (apply elem_of_cons in Hc as [->|Hc]; [split; [vm_compute; repeat (try (by left); right)|split; [by vm_compute|lia]]|]).
    by apply elem_of_nil in Hc.
Qed.

Lemma p_number_str n rest : stops rest = true → p_number (Z_str n +:+ rest) = Some (JNum (Qmake n 1), rest).
Proof.
  intros Hs. destruct (stops_no_tail rest Hs) as [Ef Ee]. unfold p_number. destruct (Z.lt_ge_cases n 0) as [L|G].
  - assert (Eq : Z_str n +:+ rest = String "-"%char (Z_str (- n) +:+ rest)) by by rewrite Z_str_neg.
    rewrite Eq. cbn [p_sign]. rewrite p_int_str by (done || lia). simpl. rewrite Ef, Ee, digits_Z_str by lia. by replace (-1 * - n) with n by lia.
  - destruct (Z_str_head n rest) as (c & u & E & Hc & Hm).
    assert (Hp : p_sign (Z_str n +:+ rest) = (1, Z_str n +:+ rest)).
    { rewrite E. assert (N : c ≠ "-"%char) by (intros ->; pose proof (proj1 Hm eq_refl); lia). clear -N. by destruct c as [[] [] [] [] [] [] [] []]. }
    rewrite Hp, p_int_str by (done || lia). simpl mbind. cbv beta iota. rewrite Ef, Ee, digits_Z_str by lia. by rewrite Z.mul_1_l.
Qed.

(** *** Values *)

Section roundtrip.
Context (float_repr : Q → string).
Abbreviation dumps := (json_dumps float_repr).
Definition number_start : list ascii := ["-"; "0"; "1"; "2"; "3"; "4"; "5"; "6"; "7"; "8"; "9"]%char.

(** How a printed value starts. *)
Lemma dumps_head v rest : plain v → ∃ c u, dumps v +:+ rest = String c u ∧ is_json_ws c = false ∧ nat_of_ascii c ≠ 93%nat.
Proof.
  intros P. destruct v as [|b|q|s|l|l]; [by eexists _, _|by destruct b; eexists _, _| |by eexists _, _..].
  simpl in P |- *. rewrite P. simpl. destruct (Z_str_head (Qnum q) rest) as (c & u & -> & Hc & _). exists c, u. split; [done|].
  repeat (apply elem_of_cons in Hc as [->|Hc]; [by vm_compute|]). by apply elem_of_nil in Hc.
Qed.

Lemma skip_ws_head c u : is_json_ws c = false → skip_ws (String c u) = String c u.
Proof. intros H. unfold skip_ws. simpl. by rewrite H. Qed.
Lemma skip_ws_dumps v rest : plain v → skip_ws (dumps v +:+ rest) = dumps v +:+ rest.
Proof. intros P. destruct (dumps_head v rest P) as (c & u & -> & H & _). by apply skip_ws_head. Qed.

Lemma str_length_Z n : (1 ≤ String.length (Z_str n))%nat.
Proof. destruct (Z_str_head n "") as (c & u & E & _). rewrite str_app_nil_r in E. rewrite E. simpl. lia. Qed.

(** [p_value] on a number. *)
Lemma p_value_num f n rest : stops rest = true → p_value (S f) (Z_str n +:+ rest) = Some (JNum (Qmake n 1), rest).
Proof.
  intros Hs. pose proof (p_number_str n rest Hs) as Hp. destruct (Z_str_head n rest) as (c & u & E & Hc & _). rewrite E in Hp |- *.
  cbn [p_value].
  assert (W : eat 34 (String c u) = None ∧ eat 123 (String c u) = None ∧ eat 91 (String c u) = None ∧ p_word (String c u) = None).
  { repeat (apply elem_of_cons in Hc as [->|Hc]; [by vm_compute|]). by apply elem_of_nil in Hc. }
  destruct W as (-> & -> & -> & ->). done.
Qed.

Definition reads (v : Json) : Prop :=
  plain v → ∀ f rest, (json_size v ≤ f)%nat → stops rest = true → p_value f (dumps v +:+ rest) = Some (v, rest).

Lemma p_items_dumps l : Forall reads l → l ≠ [] → foldr (λ x P, plain x ∧ P) True l → ∀ f rest,
  (foldr (λ x n, S (json_size x) + n) 0 l ≤ f)%nat →
  p_items f (comma_sep (List.map dumps l) +:+ "]" +:+ rest) = Some (l, rest).
Proof.
  induction 1 as [|x l Hx Hl IH]; intros Hne P f rest Hf; [done|]. simpl in P. destruct P as [Px Pl]. simpl in Hf.
  destruct f as [|f]; [lia|]. cbn [p_items]. destruct l as [|y l].
  - cbn [List.map comma_sep]. rewrite Hx by (done || (simpl; lia)). done.
  - change (comma_sep (List.map dumps (x :: y :: l))) with (dumps x +:+ ", " +:+ comma_sep (List.map dumps (y :: l))).
    rewrite !str_app_assoc, Hx by (done || (simpl; lia)).
    specialize (IH ltac:(done) Pl f rest ltac:(simpl in Hf |- *; lia)).
    assert (Hws : skip_ws (comma_sep (List.map dumps (y :: l)) +:+ "]" +:+ rest) = comma_sep (List.map dumps (y :: l)) +:+ "]" +:+ rest).
    { destruct l; cbn [List.map comma_sep]; rewrite ?str_app_assoc; apply skip_ws_dumps, Pl. }
    revert IH Hws. generalize (comma_sep (List.map dumps (y :: l)) +:+ "]" +:+ rest). intros T IH Hws.
    assert (Hsp : skip_ws (" " +:+ T) = T) by exact Hws. simpl. rewrite Hsp, IH. done.
Qed.

Abbreviation member := (λ kv : string * Json, json_str kv.1 +:+ ": " +:+ dumps kv.2).

Lemma p_members_dumps l : Forall (λ kv, reads kv.2) l → l ≠ [] → foldr (λ kv P, plain kv.2 ∧ P) True l → ∀ f rest,
  (foldr (λ kv n, S (json_size kv.2) + n) 0 l ≤ f)%nat →
  p_members f (comma_sep (List.map member l) +:+ "}" +:+ rest) = Some (l, rest).
Proof.
  induction 1 as [|[k x] l Hx Hl IH]; intros Hne P f rest Hf; [done|]. simpl in P, Hx. destruct P as [Px Pl]. simpl in Hf.
  destruct f as [|f]; [lia|].
  assert (Hm : ∀ T, stops T = true → ∃ r, eat 34 (json_str k +:+ ": " +:+ dumps x +:+ T) = Some r ∧ p_string (String.length r) r = Some (k, ": " +:+ dumps x +:+ T) ∧
             p_value f (skip_ws (" " +:+ dumps x +:+ T)) = Some (x, T)).
  { intros T HT. exists (json_body k +:+ QUOTE +:+ ": " +:+ dumps x +:+ T). split; [|split].
    - simpl. unfold json_str. by rewrite !str_app_assoc.
    - apply p_string_str.
    - assert (Hsp : skip_ws (" " +:+ dumps x +:+ T) = dumps x +:+ T) by (pose proof (skip_ws_dumps x T Px) as Hd; exact Hd).
      rewrite Hsp. apply Hx; [done|lia|done]. }
  assert (Step : ∀ T, stops T = true → p_members (S f) (json_str k +:+ ": " +:+ dumps x +:+ T) =
            match eat 125 (skip_ws T), eat 44 (skip_ws T) with
            | Some r, _ => Some ([(k, x)], r)
            | _, Some r => '(l, r) ← p_members f (skip_ws r); Some ((k, x) :: l, r)
            | _, _ => None
            end).
  { intros T HT. destruct (Hm T HT) as (r & E1 & E2 & E3). cbn [p_members]. rewrite E1. cbn [mbind option_bind]. rewrite E2.
    cbn [mbind option_bind]. change (skip_ws (": " +:+ ?t)) with (": " +:+ t). change (eat 58 (": " +:+ ?t)) with (Some (" " +:+ t)).
    cbn [mbind option_bind]. rewrite E3. done. }
  destruct l as [|y l].
  - cbn [List.map comma_sep]. rewrite !str_app_assoc. by rewrite Step.
  - change (comma_sep (List.map member ((k, x) :: y :: l))) with ((json_str k +:+ ": " +:+ dumps x) +:+ ", " +:+ comma_sep (List.map member (y :: l))).
    specialize (IH ltac:(done) Pl f rest ltac:(simpl in Hf |- *; lia)). rewrite !str_app_assoc.
    assert (Hws : skip_ws (comma_sep (List.map member (y :: l)) +:+ "}" +:+ rest) = comma_sep (List.map member (y :: l)) +:+ "}" +:+ rest).
    { destruct l; cbn [List.map comma_sep]; done. }
    revert IH Hws. generalize (comma_sep (List.map member (y :: l)) +:+ "}" +:+ rest). intros T IH Hws.
    rewrite Step by done. assert (Hsp : skip_ws (" " +:+ T) = T) by exact Hws. simpl. rewrite Hsp, IH. done.
Qed.

Lemma p_value_dumps v : reads v.
Proof.
  induction v as [|b|q|s|l IH|l IH] using json_nested_ind; intros P f rest Hf Hs; (destruct f as [|f]; [by destruct (Nat.nle_succ_0 _ Hf)|]).
  - done.
  - by destruct b.
  - simpl in P |- *. rewrite P. simpl. destruct q as [n d]. simpl in P. subst d. by apply p_value_num.
  - simpl json_dumps. unfold json_str. rewrite !str_app_assoc. cbn [p_value]. change (eat 34 (QUOTE +:+ ?t)) with (Some t).
    cbv beta iota. by rewrite p_string_str.
  - destruct l as [|x l]; [done|]. pose proof (p_items_dumps (x :: l) IH ltac:(done) P f rest ltac:(simpl in Hf |- *; lia)) as Hi.
    assert (Hws : ∃ c u, comma_sep (List.map dumps (x :: l)) +:+ "]" +:+ rest = String c u ∧ is_json_ws c = false ∧ nat_of_ascii c ≠ 93%nat).
    { simpl in P. destruct l; cbn [List.map comma_sep]; rewrite ?str_app_assoc; apply dumps_head, P. }
    change (dumps (JArr (x :: l))) with ("[" +:+ comma_sep (List.map dumps (x :: l)) +:+ "]").
    rewrite !str_app_assoc. revert Hi Hws. generalize (comma_sep (List.map dumps (x :: l)) +:+ "]" +:+ rest).
    intros T Hi (c & u & -> & Hc & H93). simpl. rewrite !str_app_nil, skip_ws_head by done. simpl.
    rewrite (proj2 (Nat.eqb_neq _ _)) by done. rewrite Hi. done.
  - destruct P as [N P]. destruct l as [|x l]; [done|].
    pose proof (p_members_dumps (x :: l) IH ltac:(done) P f rest ltac:(simpl in Hf |- *; lia)) as Hi.
    assert (Hws : ∃ u, comma_sep (List.map member (x :: l)) +:+ "}" +:+ rest = String (ascii_of_nat 34) u).
    { destruct l; cbn [List.map comma_sep]; by eexists. }
    change (dumps (JObj (x :: l))) with ("{" +:+ comma_sep (List.map member (x :: l)) +:+ "}").
    rewrite !str_app_assoc. revert Hi Hws. generalize (comma_sep (List.map member (x :: l)) +:+ "}" +:+ rest).
    intros T Hi (u & ->). simpl. rewrite !str_app_nil, skip_ws_head by done. simpl. simpl in Hi. rewrite Hi. simpl. by rewrite alist_of_NoDup.
Qed.

(** The fuel of [json_loads] is enough. *)
Lemma comma_sep_length {A} (g : A → string) (sz : A → nat) l :
  Forall (λ x, sz x ≤ String.length (g x))%nat l → (foldr (λ x n, S (sz x) + n) 0 l ≤ S (String.length (comma_sep (List.map g l))))%nat.
Proof.
  induction 1 as [|x l Hx Hl IH]; [simpl; lia|]. destruct l as [|y l]; [simpl; lia|].
  change (comma_sep (List.map g (x :: y :: l))) with (g x +:+ ", " +:+ comma_sep (List.map g (y :: l))).
  rewrite !str_app_length. change (String.length ", ") with 2%nat. cbn [foldr] in IH |- *. lia.
Qed.
Lemma json_size_length v : plain v → (json_size v ≤ String.length (dumps v))%nat.
Proof.
  induction v as [|b|q|s|l IH|l IH] using json_nested_ind; intros P.
  - simpl. lia.
  - destruct b; simpl; lia.
  - simpl in P |- *. rewrite P. apply str_length_Z.
  - simpl. unfold json_str. rewrite !str_app_length. simpl. lia.
  - simpl json_dumps. rewrite !str_app_length. pose proof (comma_sep_length dumps json_size l) as H. simpl. simpl in H.
    enough (Forall (λ x, json_size x ≤ String.length (dumps x))%nat l) by (specialize (H ltac:(done)); lia).
    clear H. induction IH as [|x l Hx _ IH]; [done|]. simpl in P. destruct P as [Px P]. constructor; auto.
  - simpl json_dumps. rewrite !str_app_length. pose proof (comma_sep_length member (λ kv, json_size kv.2) l) as H. simpl. simpl in H.
    enough (Forall (λ kv, json_size kv.2 ≤ String.length (member kv))%nat l) by (specialize (H ltac:(done)); lia).
    destruct P as [_ P]. clear H. induction IH as [|x l Hx _ IH]; [done|]. simpl in P. destruct P as [Px P]. constructor; [|auto].
    rewrite !str_app_length. specialize (Hx Px). lia.
Qed.

(** What [json.dumps] writes, [json.loads] reads back. *)
Lemma json_roundtrip v : plain v → json_loads (dumps v) = Some v.
Proof.
  intros P. unfold json_loads. pose proof (skip_ws_dumps v "" P) as Hs. rewrite str_app_nil_r in Hs. rewrite Hs.
  pose proof (p_value_dumps v P (S (S (String.length (dumps v)))) "") as H. rewrite str_app_nil_r in H.
  rewrite H; [done| |done]. pose proof (json_size_length v P). lia.
Qed.
End roundtrip.
