(* ===== verification/Alerts.v ===== *)
(** * Alerts on devices (cms/services/alert_service.py, device_alerts.py:
      lifecycle, device_events.py)

    Offline alerts are debounced by a grace window and temperature alerts by a
    cooldown, with their state in the database so that any replica may handle
    any event.  Each operation here is one transaction. *)

From Stdlib Require Import QArith.
From S2P Require Import Prelude Clock Models Presence.
Open Scope Z_scope.

(** ** Rows *)

Inductive TempLevel := T_NORMAL | T_WARNING | T_CRITICAL.
#[export] Instance TempLevel_eq_dec : EqDecision TempLevel.
Proof. solve_decision. Defined.
Definition TempLevel_value (l : TempLevel) : string :=
  match l with T_NORMAL => "normal" | T_WARNING => "warning" | T_CRITICAL => "critical" end.

Record AlertState := mkAlertState {
  as_offline_since : option Z; as_offline_notified : bool;
  as_temp_level : TempLevel; as_temp_last_alert_at : option Z; as_temp_last_sample_ts : option Z
}.

Inductive EventType := EV_OFFLINE | EV_ONLINE | EV_TEMP_HIGH | EV_TEMP_CLEARED.
#[export] Instance EventType_eq_dec : EqDecision EventType.
Proof. solve_decision. Defined.

(** The details column of an event. *)
Inductive EventDetails :=
  | stale_heartbeat
  | grace_expired (incident : uuid)
  | back_online (incident : option uuid)
  | temperature (cpu_temp_c threshold_warning threshold_critical : Q) (level previous_level : TempLevel) (incident : uuid).

Record DeviceEvent := mkEvent {
  ev_id : uuid; ev_device_id : string; ev_device_name : string; ev_group_snapshots : list (uuid * string);
  ev_type : EventType; ev_details : EventDetails; ev_created_at : Z
}.

(** A group notification; the incident is in its details. *)
Record Notification := mkNote {
  n_device_id : string; n_level : string; n_title : string; n_message : string; n_targets : list uuid;
  n_event_type : EventType; n_incident : option uuid
}.

Inductive AlertKind := K_OFFLINE | K_TEMPERATURE.
#[export] Instance AlertKind_eq_dec : EqDecision AlertKind.
Proof. solve_decision. Defined.
#[export] Instance AlertKind_countable : Countable AlertKind.
Proof.
  refine (inj_countable' (λ k, match k with K_OFFLINE => true | K_TEMPERATURE => false end)
            (λ b : bool, if b then K_OFFLINE else K_TEMPERATURE) _). by intros [].
Defined.

Record DeviceAlert := mkAlert {
  al_open : bool; al_incident_id : option uuid; al_opened_at : Z; al_resolved_at : option Z;
  al_raise_event_id : option uuid; al_resolve_event_id : option uuid
}.

(** The tables the service reads and writes. *)
Record AlertDb := mkAlertDb {
  ad_devices : devices; ad_groups : group_names; ad_states : gmap string AlertState;
  ad_alerts : gmap (string * AlertKind) DeviceAlert; ad_events : list DeviceEvent; ad_notes : list Notification
}.

Definition put_states (st : gmap string AlertState) (d : AlertDb) : AlertDb :=
  mkAlertDb (ad_devices d) (ad_groups d) st (ad_alerts d) (ad_events d) (ad_notes d).
Definition put_devices (ds : devices) (d : AlertDb) : AlertDb :=
  mkAlertDb ds (ad_groups d) (ad_states d) (ad_alerts d) (ad_events d) (ad_notes d).
Definition put_alert (k : string * AlertKind) (a : DeviceAlert) (d : AlertDb) : AlertDb :=
  mkAlertDb (ad_devices d) (ad_groups d) (ad_states d) (<[k := a]> (ad_alerts d)) (ad_events d) (ad_notes d).
Definition add_event (e : DeviceEvent) (d : AlertDb) : AlertDb :=
  mkAlertDb (ad_devices d) (ad_groups d) (ad_states d) (ad_alerts d) (ad_events d ++ [e]) (ad_notes d).
Definition add_note (n : Notification) (d : AlertDb) : AlertDb :=
  mkAlertDb (ad_devices d) (ad_groups d) (ad_states d) (ad_alerts d) (ad_events d) (ad_notes d ++ [n]).

(** [AlertService]'s cached settings. *)
Record AlertCfg := mkAlertCfg {
  offline_grace_seconds : Z; temp_warning_c : Q; temp_critical_c : Q; temp_cooldown_seconds : Z
}.
Definition default_alert_cfg : AlertCfg := mkAlertCfg 300 70 80 300.
Definition STALE_PRESENCE_THRESHOLD_S : Z := 60.
Definition STALE_PRESENCE_BATCH_SIZE : nat := 50.

(** ** Texts *)

Definition quoted (s : string) : string := "'" +:+ s +:+ "'".

Definition _group_label (snapshot : list (uuid * string)) : string :=
  match filter (λ n, n ≠ "") snapshot.*2 with
  | [] => "ungrouped devices"
  | [n] => "group " +:+ quoted n
  | names => "groups " +:+ String.concat ", " (quoted <$> names)
  end.

Definition plural (n : Z) (unit : string) : string := Z_str n +:+ " " +:+ unit +:+ (if n =? 1 then "" else "s").

Definition humanize_seconds (n : Z) : string :=
  let n := Z.max n 0 in
  let hours := n / 3600 in
  let rem := n mod 3600 in
  let minutes := rem / 60 in
  let seconds := rem mod 60 in
  let parts := (if hours =? 0 then [] else [plural hours "hour"]) ++ (if minutes =? 0 then [] else [plural minutes "minute"]) in
  String.concat " " (parts ++ (if negb (seconds =? 0) || bool_decide (parts = []) then [plural seconds "second"] else [])).

(** [_build_group_notification]. *)
Definition _build_group_notification (device_id level title message : string) (group_snapshot : list (uuid * string))
    (t : EventType) (incident : option uuid) : Notification :=
  mkNote device_id level title message (fromkeys group_snapshot.*1) t incident.

(** ** Events and lifecycle rows *)

(** [emit_device_event]: an empty snapshot is taken again. *)
Definition emit_device_event (event_id : uuid) (clk : Z) (device_id device_name : string) (primary_group_id : option uuid)
    (primary_group_name : string) (group_snapshot : list (uuid * string)) (t : EventType) (details : EventDetails)
    (d : AlertDb) : AlertDb * DeviceEvent :=
  let snapshot := match group_snapshot with
                  | [] => snapshot_device_groups (ad_groups d) (ad_devices d) device_id primary_group_id (Some primary_group_name)
                  | _ => group_snapshot
                  end in
  let e := mkEvent event_id device_id device_name snapshot t details clk in
  (add_event e d, e).

Definition get_alert_lifecycle_row (device_id : string) (kind : AlertKind) (d : AlertDb) : option DeviceAlert :=
  ad_alerts d !! (device_id, kind).

(** [open_alert_lifecycle], which is always given the incident. *)
Definition open_alert_lifecycle (device_id : string) (kind : AlertKind) (raise_event : DeviceEvent) (incident_id : uuid)
    (d : AlertDb) : AlertDb :=
  match get_alert_lifecycle_row device_id kind d with
  | None => put_alert (device_id, kind)
              (mkAlert true (Some incident_id) (ev_created_at raise_event) None (Some (ev_id raise_event)) None) d
  | Some row =>
      let opened_at := if al_open row then al_opened_at row else ev_created_at raise_event in
      let raised := if al_open row then al_raise_event_id row else Some (ev_id raise_event) in
      put_alert (device_id, kind)
        (mkAlert true (Some incident_id) opened_at None
           (match raised with Some e => Some e | None => Some (ev_id raise_event) end) None) d
  end.

Definition resolve_alert_lifecycle (device_id : string) (kind : AlertKind) (resolve_event : DeviceEvent) (d : AlertDb)
    : AlertDb :=
  match get_alert_lifecycle_row device_id kind d with
  | None => d
  | Some row => put_alert (device_id, kind)
                  (mkAlert false (al_incident_id row) (al_opened_at row) (Some (ev_created_at resolve_event))
                     (al_raise_event_id row) (Some (ev_id resolve_event))) d
  end.

(** ** Offline detection *)

Definition offline_cleared (s : AlertState) : AlertState :=
  mkAlertState None false (as_temp_level s) (as_temp_last_alert_at s) (as_temp_last_sample_ts s).
Definition offline_from (clk : Z) (notified : bool) (s : AlertState) : AlertState :=
  mkAlertState (Some clk) notified (as_temp_level s) (as_temp_last_alert_at s) (as_temp_last_sample_ts s).
Definition new_state (since : option Z) : AlertState := mkAlertState since false T_NORMAL None None.

(** The foreign key to [devices]: an insert for an unknown device fails. *)
Definition insert_state (device_id : string) (s : AlertState) (d : AlertDb) : AlertDb :=
  match ad_devices d !! device_id with
  | Some _ => put_states (<[device_id := s]> (ad_states d)) d
  | None => d
  end.

Definition _record_disconnect (clk : Z) (device_id : string) (d : AlertDb) : AlertDb :=
  match ad_states d !! device_id with
  | None => insert_state device_id (new_state (Some clk)) d
  | Some s =>
      match as_offline_since s with
      | None => put_states (<[device_id := offline_from clk (as_offline_notified s) s]> (ad_states d)) d
      | Some _ => d
      end
  end.

(** The part of [_record_reconnect] that follows a consumed notification. *)
Definition announce_online (clk : Z) (event_id : uuid) (device_id device_name : string) (gid : option uuid)
    (group_name : string) (d : AlertDb) : AlertDb :=
  let group_snapshot := snapshot_device_groups (ad_groups d) (ad_devices d) device_id gid (Some group_name) in
  let incident_id := row ← get_alert_lifecycle_row device_id K_OFFLINE d; al_incident_id row in
  let '(d, event) := emit_device_event event_id clk device_id device_name gid group_name group_snapshot EV_ONLINE
                       (back_online incident_id) d in
  let d := resolve_alert_lifecycle device_id K_OFFLINE event d in
  add_note (_build_group_notification device_id "success" ("Device back online: " +:+ device_name)
              ("Device " +:+ quoted device_name +:+ " in " +:+ _group_label group_snapshot +:+ " is back online.")
              group_snapshot EV_ONLINE incident_id) d.

Definition _record_reconnect (clk : Z) (event_id : uuid) (device_id device_name : string) (gid : option uuid)
    (group_name : string) (d : AlertDb) : AlertDb :=
  match ad_states d !! device_id with
  | Some s =>
      let d' := put_states (<[device_id := offline_cleared s]> (ad_states d)) d in
      if as_offline_notified s then announce_online clk event_id device_id device_name gid group_name d' else d'
  | None => insert_state device_id (new_state None) d
  end.

Definition _clear_alert_state (device_id : string) (d : AlertDb) : AlertDb :=
  put_states (alter offline_cleared device_id (ad_states d)) d.

(** [device_disconnected] and [device_reconnected], with the task they spawn. *)
Definition on_alert_call (clk : Z) (event_id : uuid) (call : AlertCall) (d : AlertDb) : AlertDb :=
  match call with
  | device_disconnected id _ _ _ status => if bool_decide (status = D_ADOPTED) then _record_disconnect clk id d else d
  | device_reconnected id name gid gname status =>
      if bool_decide (status = D_ADOPTED) then _record_reconnect clk event_id id name gid gname d
      else _clear_alert_state id d
  end.

Section sweeps.
Context (cfg : AlertCfg) (clk : Z).
(** Fresh ids of the events and incidents of a sweep, by device. *)
Context (event_id incident_id : string → uuid).

(** *** Stale presence *)

(** [now - STALE_PRESENCE_THRESHOLD_S]. *)
Definition is_stale (d : PDevice) : bool :=
  pd_online d && match pd_last_seen d with Some t => t <? clk - STALE_PRESENCE_THRESHOLD_S * 1000000 | None => false end.

(** The ids of the LIMIT subquery, in the order the database gives them. *)
Definition stale_claim (ds : devices) : list string :=
  take STALE_PRESENCE_BATCH_SIZE (filter (λ kd, is_stale kd.2 = true) (map_to_list ds)).*1.

Definition flip_offline (ids : list string) (ds : devices) : devices :=
  foldr (λ id ds, alter (set_online false None) id ds) ds ids.

Definition stale_one (d : AlertDb) (device_id : string) : AlertDb :=
  match ad_devices d !! device_id with
  | None => d
  | Some dev =>
      match bool_decide (pd_status dev = D_ADOPTED), snapshot_device_groups (ad_groups d) (ad_devices d) device_id None None with
      | true, (g, n) :: rest =>
          let d := (emit_device_event (event_id device_id) clk device_id (name_or_id device_id dev) (Some g) n ((g, n) :: rest)
                      EV_OFFLINE stale_heartbeat d).1 in
          match ad_states d !! device_id with
          | None => insert_state device_id (new_state (Some clk)) d
          | Some s =>
              match as_offline_since s with
              | None => put_states (<[device_id := offline_from clk false s]> (ad_states d)) d
              | Some _ => d
              end
          end
      | _, _ => d
      end
  end.

Definition stale_presence_sweep_once (d : AlertDb) : AlertDb * Z :=
  let claimed := stale_claim (ad_devices d) in
  (fold_left stale_one claimed (put_devices (flip_offline claimed (ad_devices d)) d), Z.of_nat (length claimed)).

(** *** The offline sweep *)

Definition past_grace (s : AlertState) : bool :=
  negb (as_offline_notified s) &&
  match as_offline_since s with Some t => t <=? clk - offline_grace_seconds cfg * 1000000 | None => false end.

Definition offline_claim (st : gmap string AlertState) : list string :=
  (filter (λ ks, past_grace ks.2 = true) (map_to_list st)).*1.

Definition set_notified (s : AlertState) : AlertState :=
  mkAlertState (as_offline_since s) true (as_temp_level s) (as_temp_last_alert_at s) (as_temp_last_sample_ts s).

Definition claim_notified (st : gmap string AlertState) : gmap string AlertState :=
  (λ s, if past_grace s then set_notified s else s) <$> st.

Definition notify_offline (d : AlertDb) (device_id : string) : AlertDb * bool :=
  match ad_devices d !! device_id with
  | None => (d, false)
  | Some dev =>
      match bool_decide (pd_status dev = D_ADOPTED), snapshot_device_groups (ad_groups d) (ad_devices d) device_id None None with
      | true, (g, n) :: rest =>
          let group_snapshot := (g, n) :: rest in
          let name := name_or_id device_id dev in
          let incident := incident_id device_id in
          let '(d, event) := emit_device_event (event_id device_id) clk device_id name (Some g) n group_snapshot EV_OFFLINE
                               (grace_expired incident) d in
          let d := open_alert_lifecycle device_id K_OFFLINE event incident d in
          (add_note (_build_group_notification device_id "error" ("Device offline: " +:+ name)
             ("Device " +:+ quoted name +:+ " in " +:+ _group_label group_snapshot +:+ " has been offline for over " +:+
              humanize_seconds (offline_grace_seconds cfg) +:+ ".") group_snapshot EV_OFFLINE (Some incident)) d, true)
      | _, _ => (d, false)
      end
  end.

Definition notify_all (d : AlertDb) (ids : list string) : AlertDb * Z :=
  fold_left (λ dn id, let '(d', b) := notify_offline dn.1 id in (d', dn.2 + (if b then 1 else 0))) ids (d, 0).

Definition offline_sweep_once (d : AlertDb) : AlertDb * Z :=
  notify_all (put_states (claim_notified (ad_states d)) d) (offline_claim (ad_states d)).
End sweeps.

(** ** Temperature *)

Section temperature.
Context (cfg : AlertCfg).

Definition _classify_temp (cpu_temp_c : Q) : TempLevel :=
  if Qle_bool (temp_critical_c cfg) cpu_temp_c then T_CRITICAL
  else if Qle_bool (temp_warning_c cfg) cpu_temp_c then T_WARNING else T_NORMAL.

Definition past_cooldown (s : AlertState) (sample_ts : Z) : bool :=
  match as_temp_last_alert_at s with
  | None => true
  | Some t => t + temp_cooldown_seconds cfg * 1000000 <=? sample_ts
  end.

(** The decision: the event to fire and the level of its notification. *)
Definition temp_decision (old_level new_level : TempLevel) (cooled : bool) : option (EventType * string) :=
  let high := (EV_TEMP_HIGH, if bool_decide (new_level = T_CRITICAL) then "error" else "warning") in
  if negb (bool_decide (old_level = new_level)) then
    if bool_decide (new_level = T_NORMAL) then Some (EV_TEMP_CLEARED, "success")
    else if bool_decide (old_level = T_WARNING ∧ new_level = T_CRITICAL) then Some (EV_TEMP_HIGH, "error")
    else if cooled then Some high else None
  else if negb (bool_decide (new_level = T_NORMAL)) then if cooled then Some high else None
  else None.

(** [:.1f]. *)
Context (fmt1 : Q → string).

Definition _emit_temp_alert (clk : Z) (event_id fresh_incident : uuid) (device_id device_name : string)
    (group_id : option uuid) (group_name : string) (group_snapshot : list (uuid * string)) (t : EventType)
    (notif_level : string) (cpu_temp_c : Q) (new_level previous_level : TempLevel) (d : AlertDb) : AlertDb :=
  let incident := match get_alert_lifecycle_row device_id K_TEMPERATURE d with
                  | Some row => if al_open row then al_incident_id row else Some fresh_incident
                  | None => Some fresh_incident
                  end or_else fresh_incident in
  let '(d, event) := emit_device_event event_id clk device_id device_name group_id group_name group_snapshot t
                       (temperature cpu_temp_c (temp_warning_c cfg) (temp_critical_c cfg) new_level previous_level incident) d in
  let high := bool_decide (t = EV_TEMP_HIGH) in
  let d := if high then open_alert_lifecycle device_id K_TEMPERATURE event incident d
           else resolve_alert_lifecycle device_id K_TEMPERATURE event d in
  let title := (if high then "High temperature: " else "Temperature normal: ") +:+ device_name in
  let message :=
    "Device " +:+ quoted device_name +:+ " in " +:+ _group_label group_snapshot +:+
    (if high then " is at " +:+ fmt1 cpu_temp_c +:+ "°C (" +:+ TempLevel_value new_level +:+ ")."
     else " temperature returned to normal (" +:+ fmt1 cpu_temp_c +:+ "°C).") in
  add_note (_build_group_notification device_id notif_level title message group_snapshot t (Some incident)) d.

Definition reset_temp (s : AlertState) : AlertState :=
  mkAlertState (as_offline_since s) (as_offline_notified s) T_NORMAL None None.
Definition _reset_temp_state (device_id : string) (d : AlertDb) : AlertDb :=
  put_states (alter reset_temp device_id (ad_states d)) d.

Definition sampled (level : TempLevel) (ts : Z) (fired : bool) (s : AlertState) : AlertState :=
  mkAlertState (as_offline_since s) (as_offline_notified s) level
    (if fired then Some ts else as_temp_last_alert_at s) (Some ts).

(** The body of [check_temperature] once the device has an owner. *)
Definition sample_temperature (clk : Z) (event_id fresh_incident : uuid) (device_id : string) (cpu_temp_c : Q)
    (device_name : string) (group_id : option uuid) (group_name : string) (group_snapshot : list (uuid * string))
    (sample_ts : Z) (d : AlertDb) : AlertDb :=
  let new_level := _classify_temp cpu_temp_c in
  let d := match ad_states d !! device_id with None => insert_state device_id (new_state None) d | Some _ => d end in
  match ad_states d !! device_id with
  | None => d
  | Some s =>
      if match as_temp_last_sample_ts s with Some stored => sample_ts <=? stored | None => false end then d
      else
        let old_level := as_temp_level s in
        let decision := temp_decision old_level new_level (past_cooldown s sample_ts) in
        let d := put_states (<[device_id := sampled new_level sample_ts (bool_decide (is_Some decision)) s]> (ad_states d)) d in
        match decision with
        | Some (t, notif_level) =>
            _emit_temp_alert clk event_id fresh_incident device_id device_name group_id group_name group_snapshot t
              notif_level cpu_temp_c new_level old_level d
        | None => d
        end
  end.

Definition check_temperature (clk : Z) (event_id fresh_incident : uuid) (device_id : string) (cpu_temp_c : option Q)
    (device_name : string) (group_id : option uuid) (group_name : string) (status : DeviceStatus) (sample_ts : option Z)
    (d : AlertDb) : AlertDb :=
  match cpu_temp_c with
  | None => d
  | Some temp =>
      if negb (bool_decide (status = D_ADOPTED)) then _reset_temp_state device_id d
      else match group_id with
      | None => _reset_temp_state device_id d
      | Some _ =>
          let ts := sample_ts or_else clk in
          match snapshot_device_groups (ad_groups d) (ad_devices d) device_id group_id (Some group_name) with
          | [] => _reset_temp_state device_id d
          | snapshot => sample_temperature clk event_id fresh_incident device_id temp device_name group_id group_name
                          snapshot ts d
          end
      end
  end.
End temperature.

(** ** Frames: what an operation leaves alone *)

Lemma put_alert_lookup_ne k k' a d : k ≠ k' → ad_alerts (put_alert k a d) !! k' = ad_alerts d !! k'.
Proof. intros. cbn. by apply lookup_insert_ne. Qed.

Lemma open_alert_frame id kind e i d :
  ad_devices (open_alert_lifecycle id kind e i d) = ad_devices d ∧
  ad_groups (open_alert_lifecycle id kind e i d) = ad_groups d ∧
  ad_states (open_alert_lifecycle id kind e i d) = ad_states d ∧
  ad_events (open_alert_lifecycle id kind e i d) = ad_events d ∧
  ad_notes (open_alert_lifecycle id kind e i d) = ad_notes d.
Proof. unfold open_alert_lifecycle. by destruct (get_alert_lifecycle_row _ _ _). Qed.

Lemma resolve_alert_frame id kind e d :
  ad_devices (resolve_alert_lifecycle id kind e d) = ad_devices d ∧
  ad_groups (resolve_alert_lifecycle id kind e d) = ad_groups d ∧
  ad_states (resolve_alert_lifecycle id kind e d) = ad_states d ∧
  ad_events (resolve_alert_lifecycle id kind e d) = ad_events d ∧
  ad_notes (resolve_alert_lifecycle id kind e d) = ad_notes d.
Proof. unfold resolve_alert_lifecycle. by destruct (get_alert_lifecycle_row _ _ _). Qed.

(** The row after an open and after a resolve. *)
Definition is_open (i : option uuid) (r : option DeviceAlert) : Prop :=
  ∃ row, r = Some row ∧ al_open row = true ∧ al_incident_id row = i ∧ al_resolved_at row = None.
Definition not_open (r : option DeviceAlert) : Prop := ∀ row, r = Some row → al_open row = false.

Lemma open_alert_lookup id kind e i d k :
  k ≠ (id, kind) → ad_alerts (open_alert_lifecycle id kind e i d) !! k = ad_alerts d !! k.
Proof.
  intros. unfold open_alert_lifecycle. destruct (get_alert_lifecycle_row _ _ _); by apply put_alert_lookup_ne.
Qed.
Lemma resolve_alert_lookup id kind e d k :
  k ≠ (id, kind) → ad_alerts (resolve_alert_lifecycle id kind e d) !! k = ad_alerts d !! k.
Proof.
  intros. unfold resolve_alert_lifecycle. destruct (get_alert_lifecycle_row _ _ _); [by apply put_alert_lookup_ne|done].
Qed.
Lemma open_alert_opens id kind e i d : is_open (Some i) (ad_alerts (open_alert_lifecycle id kind e i d) !! (id, kind)).
Proof.
  unfold open_alert_lifecycle. destruct (get_alert_lifecycle_row _ _ _); eexists; cbn; by rewrite lookup_insert_eq.
Qed.
Lemma resolve_alert_resolves id kind e d : not_open (ad_alerts (resolve_alert_lifecycle id kind e d) !! (id, kind)).
Proof.
  intros row. unfold resolve_alert_lifecycle, get_alert_lifecycle_row.
  destruct (ad_alerts d !! (id, kind)) as [r|] eqn:Hr; [|congruence]. cbn. rewrite lookup_insert_eq. by intros [= <-].
Qed.

Lemma snapshot_None_cases groups ds id :
  snapshot_device_groups groups ds id None None = [] ∨
  ∃ g n, snapshot_device_groups groups ds id None None = [(g, n)].
Proof.
  unfold snapshot_device_groups. destruct (_ ≫= _) as [[g n]|]; [right; by exists g, n|by left].
Qed.
