(* ===== verification/TempAlerts.v ===== *)
(** * Temperature alerts (cms/services/alert_service.py: check_temperature)

    What one sample does to the row of a device, the alerts that are due, and
    the reminders of a device that stays hot. *)

From Stdlib Require Import QArith.
From S2P Require Import Prelude Clock Models Presence Alerts.
Open Scope Z_scope.

(** ** Temperature: the state of one device *)

Section temperature_facts.
Context (cfg : AlertCfg) (fmt1 : Q → string).

(** A sample that is not newer than the stored one. *)
Definition old_sample (s : AlertState) (ts : Z) : bool :=
  match as_temp_last_sample_ts s with Some stored => ts <=? stored | None => false end.

(** What one sample does to the row, and what it fires. *)
Definition temp_step (s : AlertState) (sample : Z * Q) : AlertState * option (EventType * string) :=
  if old_sample s sample.1 then (s, None)
  else
    let new_level := _classify_temp cfg sample.2 in
    let decision := temp_decision (as_temp_level s) new_level (past_cooldown cfg s sample.1) in
    (sampled new_level sample.1 (bool_decide (is_Some decision)) s, decision).

Lemma temp_decision_type old new cooled t l :
  temp_decision old new cooled = Some (t, l) →
  (t = EV_TEMP_HIGH ∧ new ≠ T_NORMAL) ∨ (t = EV_TEMP_CLEARED ∧ new = T_NORMAL ∧ old ≠ T_NORMAL).
Proof.
  unfold temp_decision. intros H. destruct old, new, cooled; cbn in H; try discriminate; injection H as <- <-; by auto.
Qed.

(** The row that a sample finds. *)
Definition temp_row (device_id : string) (d : AlertDb) : option AlertState :=
  match ad_states d !! device_id with
  | Some s => Some s
  | None => (λ _, new_state None) <$> ad_devices d !! device_id
  end.

Definition note_summary (n : Notification) : string * (EventType * string) := (n_device_id n, (n_event_type n, n_level n)).

(** The row of the temperature alert after an event of type [t]. *)
Definition temp_incident (device_id : string) (d : AlertDb) : option uuid :=
  row ← ad_alerts d !! (device_id, K_TEMPERATURE); if al_open row then al_incident_id row else None.

Lemma emit_temp_alert_spec clk e fresh id name gid gname snap t lvl temp new old d :
  let r := _emit_temp_alert cfg fmt1 clk e fresh id name gid gname snap t lvl temp new old d in
  ad_devices r = ad_devices d ∧ ad_groups r = ad_groups d ∧ ad_states r = ad_states d ∧
  (∀ k, k ≠ (id, K_TEMPERATURE) → ad_alerts r !! k = ad_alerts d !! k) ∧
  ∃ i n, n_device_id n = id ∧ n_event_type n = t ∧ n_level n = lvl ∧ n_incident n = Some i ∧ ad_notes r = ad_notes d ++ [n] ∧
    i = temp_incident id d or_else fresh ∧
    (if bool_decide (t = EV_TEMP_HIGH) then is_open (Some i) (ad_alerts r !! (id, K_TEMPERATURE))
     else not_open (ad_alerts r !! (id, K_TEMPERATURE))).
Proof.
  intros r. unfold _emit_temp_alert in r. cbv zeta in r. set (i := _ or_else fresh) in r.
  assert (Hi : i = temp_incident id d or_else fresh).
  { unfold i, temp_incident, get_alert_lifecycle_row. destruct (ad_alerts d !! (id, K_TEMPERATURE)) as [row|]; [|done].
    cbn. by destruct (al_open row). }
  clearbody i. unfold emit_device_event in r. set (d1 := add_event _ d) in r. set (ev := mkEvent _ _ _ _ _ _ _) in d1, r.
  set (d2 := if bool_decide _ then open_alert_lifecycle _ _ _ _ _ else _) in r. subst r. cbn [add_note ad_devices ad_groups ad_states ad_alerts ad_notes].
  assert (Hf : ad_devices d2 = ad_devices d ∧ ad_groups d2 = ad_groups d ∧ ad_states d2 = ad_states d ∧
               ad_notes d2 = ad_notes d ∧ (∀ k, k ≠ (id, K_TEMPERATURE) → ad_alerts d2 !! k = ad_alerts d !! k) ∧
               if bool_decide (t = EV_TEMP_HIGH) then is_open (Some i) (ad_alerts d2 !! (id, K_TEMPERATURE))
               else not_open (ad_alerts d2 !! (id, K_TEMPERATURE))).
  { unfold d2. destruct (bool_decide (t = EV_TEMP_HIGH)).
    - destruct (open_alert_frame id K_TEMPERATURE ev i d1) as (-> & -> & -> & _ & ->). split_and!; try done.
      + intros k Hk. by rewrite open_alert_lookup.
      + apply open_alert_opens.
    - destruct (resolve_alert_frame id K_TEMPERATURE ev d1) as (-> & -> & -> & _ & ->). split_and!; try done.
      + intros k Hk. by rewrite resolve_alert_lookup.
      + apply resolve_alert_resolves. }
  destruct Hf as (-> & -> & -> & -> & Hal & Hrow). split_and!; try done. exists i. eexists.
  split_and!; cycle 4; [reflexivity|..]; done.
Qed.

(** The body of [check_temperature] is [temp_step] on the row, a notification
    for what it fires, and the row of the alert. *)
Lemma sample_temperature_spec clk e fresh id temp name gid gname snap ts d s :
  temp_row id d = Some s →
  let r := sample_temperature cfg fmt1 clk e fresh id temp name gid gname snap ts d in
  let fired := (temp_step s (ts, temp)).2 in
  ad_devices r = ad_devices d ∧ ad_groups r = ad_groups d ∧
  ad_states r = <[id := (temp_step s (ts, temp)).1]> (ad_states d) ∧
  (∀ k, k ≠ (id, K_TEMPERATURE) → ad_alerts r !! k = ad_alerts d !! k) ∧
  match fired with
  | None => ad_notes r = ad_notes d ∧ ad_alerts r = ad_alerts d
  | Some (t, lvl) =>
      ∃ i n, n_device_id n = id ∧ n_event_type n = t ∧ n_level n = lvl ∧ n_incident n = Some i ∧ ad_notes r = ad_notes d ++ [n] ∧
        i = temp_incident id d or_else fresh ∧
        (if bool_decide (t = EV_TEMP_HIGH) then is_open (Some i) (ad_alerts r !! (id, K_TEMPERATURE))
         else not_open (ad_alerts r !! (id, K_TEMPERATURE)))
  end.
Proof.
  intros Hrow r fired.
  set (d1 := match ad_states d !! id with None => insert_state id (new_state None) d | Some _ => d end).
  assert (H1 : ad_devices d1 = ad_devices d ∧ ad_groups d1 = ad_groups d ∧ ad_alerts d1 = ad_alerts d ∧
               ad_notes d1 = ad_notes d ∧ ad_states d1 !! id = Some s ∧ ∀ s', <[id:=s']> (ad_states d1) = <[id:=s']> (ad_states d)).
  { unfold d1, temp_row in *. destruct (ad_states d !! id) as [s0|] eqn:Hs; [by injection Hrow as ->|].
    unfold insert_state. destruct (ad_devices d !! id); [|done]. injection Hrow as <-. cbn.
    rewrite lookup_insert_eq. split_and!; try done; intros s'; by rewrite insert_insert_eq. }
  destruct H1 as (Hdev & Hgr & Hal & Hno & Hst & Hins).
  assert (Er : r = if old_sample s ts then d1 else
                     let db := put_states (<[id := (temp_step s (ts, temp)).1]> (ad_states d1)) d1 in
                     match fired with
                     | Some (t, lvl) => _emit_temp_alert cfg fmt1 clk e fresh id name gid gname snap t lvl temp
                                          (_classify_temp cfg temp) (as_temp_level s) db
                     | None => db
                     end).
  { unfold r, sample_temperature. cbv zeta. fold d1. rewrite Hst. fold (old_sample s ts).
    unfold fired, temp_step. cbn [fst snd]. by destruct (old_sample s ts). }
  clearbody d1 r. subst r. unfold fired, temp_step. cbn [fst snd]. destruct (old_sample s ts) eqn:Hold.
  - cbn [fst snd]. rewrite Hdev, Hgr, Hal, Hno, <-(Hins s), insert_id by done. done.
  - cbn [fst snd]. destruct (temp_decision _ _ _) as [[t lvl]|] eqn:Hdec; cbv zeta.
    + match goal with |- context [_emit_temp_alert _ _ _ _ _ _ _ _ _ _ _ _ _ _ _ ?db] =>
        destruct (emit_temp_alert_spec clk e fresh id name gid gname snap t lvl temp (_classify_temp cfg temp) (as_temp_level s) db)
          as (-> & -> & -> & Halr & i & n & Hn1 & Hn2 & Hn3 & Hn4 & -> & Hi & Hopen) end.
      cbn [put_states ad_devices ad_groups ad_states ad_alerts ad_notes] in *. rewrite Hdev, Hgr, Hno. rewrite ?Hins in Halr, Hopen |- *. split_and!; try done.
      * intros k Hk. by rewrite Halr, Hal.
      * exists i, n. split_and!; try done. rewrite Hi. unfold temp_incident. cbn. by rewrite Hal.
    + cbn. rewrite Hdev, Hgr, Hal, Hno, Hins. done.
Qed.
(** *** What a sample does *)

Definition in_cooldown (s : AlertState) (ts : Z) : Prop :=
  ∃ t, as_temp_last_alert_at s = Some t ∧ ts < t + temp_cooldown_seconds cfg * 1000000.

(** An alert is due: the temperature returned to normal, rose from warning to
    critical, or is high outside the cooldown. *)
Definition alert_due (s : AlertState) (ts : Z) (temp : Q) : Prop :=
  old_sample s ts = false ∧
  match _classify_temp cfg temp with
  | T_NORMAL => as_temp_level s ≠ T_NORMAL
  | T_CRITICAL => as_temp_level s = T_WARNING ∨ ¬ in_cooldown s ts
  | T_WARNING => ¬ in_cooldown s ts
  end.

Definition due_event (level : TempLevel) : EventType * string :=
  match level with
  | T_NORMAL => (EV_TEMP_CLEARED, "success") | T_WARNING => (EV_TEMP_HIGH, "warning") | T_CRITICAL => (EV_TEMP_HIGH, "error")
  end.

Lemma past_cooldown_false s ts : past_cooldown cfg s ts = false ↔ in_cooldown s ts.
Proof.
  unfold past_cooldown, in_cooldown. destruct (as_temp_last_alert_at s) as [t|].
  - rewrite Z.leb_gt. split; [intros; by exists t|]. by intros (? & [= <-] & ?).
  - split; [done|]. by intros (? & ? & ?).
Qed.

Lemma temp_step_due s ts temp : alert_due s ts temp → (temp_step s (ts, temp)).2 = Some (due_event (_classify_temp cfg temp)).
Proof.
  intros [Hold Hdue]. unfold temp_step. cbn [fst snd]. rewrite Hold. cbn [snd]. unfold temp_decision.
  pose proof (proj1 (past_cooldown_false s ts)) as Hpc.
  destruct (_classify_temp cfg temp), (as_temp_level s), (past_cooldown cfg s ts); cbn in *; try done;
    try (destruct Hdue as [?|Hdue]; [done|]); by destruct (Hdue (Hpc eq_refl)).
Qed.
Lemma temp_step_not_due s ts temp : ¬ alert_due s ts temp → (temp_step s (ts, temp)).2 = None.
Proof.
  intros Hn. unfold temp_step. cbn [fst snd]. destruct (old_sample s ts) eqn:Hold; [done|]. cbn [snd].
  destruct (temp_decision _ _ _) as [[t l]|] eqn:Hdec; [|done]. destruct Hn. split; [done|].
  pose proof (past_cooldown_false s ts) as Hpc. unfold temp_decision in Hdec.
  assert (Hout : past_cooldown cfg s ts = true → ¬ in_cooldown s ts) by (intros E H; apply Hpc in H; congruence).
  clear Hpc. destruct (_classify_temp cfg temp), (as_temp_level s), (past_cooldown cfg s ts); cbn in *; auto; done.
Qed.

Lemma check_temperature_owned clk e fresh id temp name g gname ts d :
  check_temperature cfg fmt1 clk e fresh id (Some temp) name (Some g) gname D_ADOPTED (Some ts) d =
  sample_temperature cfg fmt1 clk e fresh id temp name (Some g) gname
    (snapshot_device_groups (ad_groups d) (ad_devices d) id (Some g) (Some gname)) ts d.
Proof. done. Qed.

(** A temperature sample of an adopted device in a group raises exactly the
    alerts that are due, and remembers the sample: when an alert is due there
    is one new notification about the device, of the kind and severity of the
    new level, the alert row is opened or resolved with it and the cooldown
    starts again; otherwise there is no notification, and a sample that is not
    newer than the stored one changes nothing. The offline columns are never
    touched. *)
Theorem check_temperature_exact clk e fresh id temp name g gname ts d s :
  temp_row id d = Some s →
  let r := check_temperature cfg fmt1 clk e fresh id (Some temp) name (Some g) gname D_ADOPTED (Some ts) d in
  let level := _classify_temp cfg temp in
  (alert_due s ts temp →
     ∃ n, ad_notes r = ad_notes d ++ [n] ∧ note_summary n = (id, due_event level) ∧
       ad_states r !! id = Some (mkAlertState (as_offline_since s) (as_offline_notified s) level (Some ts) (Some ts)) ∧
       (if bool_decide (level = T_NORMAL) then not_open (ad_alerts r !! (id, K_TEMPERATURE))
        else is_open (n_incident n) (ad_alerts r !! (id, K_TEMPERATURE)))) ∧
  (¬ alert_due s ts temp →
     ad_notes r = ad_notes d ∧ ad_alerts r = ad_alerts d ∧
     ad_states r !! id = Some (if old_sample s ts then s else
       mkAlertState (as_offline_since s) (as_offline_notified s) level (as_temp_last_alert_at s) (Some ts))) ∧
  ∀ id', id' ≠ id → ad_states r !! id' = ad_states d !! id'.
Proof.
  intros Hrow. cbv zeta. rewrite check_temperature_owned.
  destruct (sample_temperature_spec clk e fresh id temp name (Some g) gname
    (snapshot_device_groups (ad_groups d) (ad_devices d) id (Some g) (Some gname)) ts d s Hrow) as (_ & _ & -> & _ & Hfired).
  split_and!; [intros Hdue|intros Hdue|intros id' Hne; by rewrite lookup_insert_ne]; rewrite lookup_insert_eq.
  - rewrite (temp_step_due _ _ _ Hdue) in Hfired. pose proof (proj1 Hdue) as Hold.
    assert (Est : (temp_step s (ts, temp)).1 = sampled (_classify_temp cfg temp) ts true s).
    { unfold temp_step. cbn [fst snd]. rewrite Hold. cbn [fst]. f_equal.
      apply bool_decide_eq_true. pose proof (temp_step_due _ _ _ Hdue) as Hd. unfold temp_step in Hd. cbn [fst snd] in Hd.
      rewrite Hold in Hd. cbn [snd] in Hd. by rewrite Hd. }
    destruct (due_event _) as [t lvl] eqn:Hev. destruct Hfired as (i & n & Hn1 & Hn2 & Hn3 & Hn4 & Hnotes & _ & Hopen).
    exists n. split_and!; [done|unfold note_summary; congruence|by rewrite Est|].
    rewrite Hn4. destruct (_classify_temp cfg temp); injection Hev as <- <-; exact Hopen.
  - rewrite (temp_step_not_due _ _ _ Hdue) in Hfired. destruct Hfired as [Hn Ha]. split_and!; [done|done|]. f_equal.
    pose proof (temp_step_not_due _ _ _ Hdue) as Hd. unfold temp_step in *. cbn [fst snd] in *.
    destruct (old_sample s ts); [done|]. cbn [fst snd] in *. by rewrite Hd.
Qed.

(** *** A device that stays hot *)

(** A sample as the service receives it. *)
Record TempSample := mkTempSample {
  ts_clk : Z; ts_event : uuid; ts_fresh : uuid; ts_temp : Q; ts_name : string; ts_group : uuid; ts_group_name : string; ts_at : Z
}.
Definition receive_sample (id : string) (d : AlertDb) (p : TempSample) : AlertDb :=
  check_temperature cfg fmt1 (ts_clk p) (ts_event p) (ts_fresh p) id (Some (ts_temp p)) (ts_name p) (Some (ts_group p))
    (ts_group_name p) D_ADOPTED (Some (ts_at p)) d.

(** The last alert was not after the last sample. *)
Definition alert_before_sample (s : AlertState) : Prop :=
  ∀ a, as_temp_last_alert_at s = Some a → ∃ t, as_temp_last_sample_ts s = Some t ∧ a ≤ t.

Lemma receive_sample_row id d p s :
  temp_row id d = Some s → temp_row id (receive_sample id d p) = Some (temp_step s (ts_at p, ts_temp p)).1.
Proof.
  intros Hrow. unfold receive_sample. rewrite check_temperature_owned.
  destruct (sample_temperature_spec (ts_clk p) (ts_event p) (ts_fresh p) id (ts_temp p) (ts_name p) (Some (ts_group p))
    (ts_group_name p) (snapshot_device_groups (ad_groups d) (ad_devices d) id (Some (ts_group p)) (Some (ts_group_name p)))
    (ts_at p) d s Hrow) as (_ & _ & Hst & _ & _).
  unfold temp_row. rewrite Hst. by rewrite lookup_insert_eq.
Qed.

Lemma receive_sample_notes id d p s :
  temp_row id d = Some s →
  ∃ ns, ad_notes (receive_sample id d p) = ad_notes d ++ ns ∧
        note_summary <$> ns = match (temp_step s (ts_at p, ts_temp p)).2 with Some ev => [(id, ev)] | None => [] end.
Proof.
  intros Hrow. unfold receive_sample. rewrite check_temperature_owned.
  destruct (sample_temperature_spec (ts_clk p) (ts_event p) (ts_fresh p) id (ts_temp p) (ts_name p) (Some (ts_group p))
    (ts_group_name p) (snapshot_device_groups (ad_groups d) (ad_devices d) id (Some (ts_group p)) (Some (ts_group_name p)))
    (ts_at p) d s Hrow) as (_ & _ & _ & _ & Hf).
  destruct (temp_step s (ts_at p, ts_temp p)).2 as [[t lvl]|].
  - destruct Hf as (i & n & H1 & H2 & H3 & _ & -> & _). exists [n]. split; [done|]. cbn. unfold note_summary. congruence.
  - destruct Hf as [-> _]. exists []. by rewrite app_nil_r.
Qed.
Definition hot (p : TempSample) : Prop := _classify_temp cfg (ts_temp p) ≠ T_NORMAL.

(** Samples in order, all newer than the row. *)
Definition newer_samples (s : AlertState) (run : list TempSample) : Prop :=
  StronglySorted Z.lt (ts_at <$> run) ∧ ∀ p, p ∈ run → old_sample s (ts_at p) = false.

Lemma newer_samples_cons s p run :
  newer_samples s (p :: run) →
  (temp_step s (ts_at p, ts_temp p)).1 = sampled (_classify_temp cfg (ts_temp p)) (ts_at p)
    (bool_decide (is_Some (temp_step s (ts_at p, ts_temp p)).2)) s ∧
  newer_samples (temp_step s (ts_at p, ts_temp p)).1 run.
Proof.
  intros [Hs Hnew]. assert (Hp : old_sample s (ts_at p) = false) by (apply Hnew; left).
  unfold temp_step. cbn [fst snd]. rewrite Hp. cbn [fst snd]. split; [done|].
  rewrite fmap_cons in Hs. apply StronglySorted_inv in Hs as [Hs Hall]. split; [done|]. intros q Hq.
  unfold old_sample. cbn. rewrite Forall_forall in Hall. apply Z.leb_gt, Hall. by apply list_elem_of_fmap_2.
Qed.

(** Something high was announced about the device. *)
Definition high_note (id : string) (n : Notification) : Prop := n_device_id n = id ∧ n_event_type n = EV_TEMP_HIGH.

Lemma hot_fires id d p s :
  temp_row id d = Some s → hot p → is_Some (temp_step s (ts_at p, ts_temp p)).2 →
  ∃ n, ad_notes (receive_sample id d p) = ad_notes d ++ [n] ∧ high_note id n.
Proof.
  intros Hrow Hhot [[t lvl] Hf]. destruct (receive_sample_notes id d p s Hrow) as (ns & Hns & Hsum). rewrite Hf in Hsum.
  destruct ns as [|n [|]]; try done. exists n. split; [done|]. injection Hsum as Hn1 Hn2 _. split; [done|]. rewrite Hn2.
  unfold temp_step in Hf. cbn [fst snd] in Hf. destruct (old_sample s _); [done|]. cbn [snd] in Hf.
  by apply temp_decision_type in Hf as [[-> _]|(_ & Hn & _)].
Qed.

Lemma receive_samples_grow id d run s :
  temp_row id d = Some s → ∃ ns, ad_notes (fold_left (receive_sample id) run d) = ad_notes d ++ ns.
Proof.
  revert d s. induction run as [|p run IH]; intros d s Hrow; cbn [fold_left]; [exists []; by rewrite app_nil_r|].
  destruct (receive_sample_notes id d p s Hrow) as (n1 & E1 & _).
  destruct (IH _ _ (receive_sample_row id d p s Hrow)) as (n2 & E2). exists (n1 ++ n2). by rewrite E2, E1, app_assoc.
Qed.

Lemma hot_run_fires id run pn d s bound :
  temp_row id d = Some s → newer_samples s (run ++ [pn]) → (∀ p, p ∈ run ++ [pn] → hot p) →
  (∀ a, as_temp_last_alert_at s = Some a → a ≤ bound) → bound + temp_cooldown_seconds cfg * 1000000 ≤ ts_at pn →
  ∃ ns n, ad_notes (fold_left (receive_sample id) (run ++ [pn]) d) = ad_notes d ++ ns ∧ n ∈ ns ∧ high_note id n.
Proof.
  revert d s. induction run as [|p run IH]; intros d s Hrow Hnew Hhot Ha Hb; cbn [app fold_left].
  - assert (Hdue : alert_due s (ts_at pn) (ts_temp pn)).
    { destruct Hnew as [_ Hnew]. split; [apply Hnew; left|].
      assert (Hcd : ¬ in_cooldown s (ts_at pn)) by (intros (a & Hsa & Hlt); pose proof (Ha a Hsa); lia).
      pose proof (Hhot pn ltac:(left)) as Hh. unfold hot in Hh. destruct (_classify_temp _ _); auto. }
    destruct (hot_fires id d pn s Hrow) as (n & -> & Hn); [apply Hhot; left|by rewrite temp_step_due|].
    exists [n], n. split_and!; [done|left|done].
  - destruct (newer_samples_cons s p _ Hnew) as [Est Hnew'].
    destruct (temp_step s (ts_at p, ts_temp p)).2 as [ev|] eqn:Hf.
    + destruct (hot_fires id d p s Hrow) as (n & En & Hn); [apply Hhot; left|by rewrite Hf|].
      destruct (receive_samples_grow id (receive_sample id d p) (run ++ [pn]) _ (receive_sample_row id d p s Hrow)) as (ns & ->).
      exists (n :: ns), n. rewrite En, <-app_assoc. split_and!; [done|left|done].
    + destruct (receive_sample_notes id d p s Hrow) as (n1 & E1 & Hsum). rewrite Hf in Hsum. destruct n1; [|done].
      rewrite app_nil_r in E1. rewrite <-E1. apply (IH _ _ (receive_sample_row id d p s Hrow)); [done|..|done].
      * intros q Hq. apply Hhot. by right.
      * rewrite Est. cbn. done.
Qed.

(** A device that stays hot is not forgotten: in any run of samples in
    order, all at warning or critical, that lasts at least the cooldown, a
    TEMP_HIGH notification about the device is created, whatever alerts came
    before the run; applied to later parts of a run it gives a reminder in
    every stretch as long as the cooldown. *)
Theorem hot_device_alerts id d s p0 run pn :
  temp_row id d = Some s → alert_before_sample s → newer_samples s (p0 :: run ++ [pn]) →
  (∀ p, p ∈ p0 :: run ++ [pn] → hot p) → ts_at p0 + temp_cooldown_seconds cfg * 1000000 ≤ ts_at pn →
  ∃ ns n, ad_notes (fold_left (receive_sample id) (p0 :: run ++ [pn]) d) = ad_notes d ++ ns ∧ n ∈ ns ∧ high_note id n.
Proof.
  intros Hrow Hbefore Hnew Hhot Hlong. apply (hot_run_fires id (p0 :: run) pn d s (ts_at p0)); try done.
  intros a Ha. destruct (Hbefore a Ha) as (t & Ht & Hle). destruct Hnew as [_ Hnew].
  specialize (Hnew p0 ltac:(left)). unfold old_sample in Hnew. rewrite Ht in Hnew. apply Z.leb_gt in Hnew. lia.
Qed.

Lemma temp_step_before s sample : alert_before_sample s → alert_before_sample (temp_step s sample).1.
Proof.
  intros Hb. unfold temp_step. destruct (old_sample s sample.1) eqn:Hold; [done|]. cbn [fst]. intros a.
  destruct (bool_decide _); cbn; [intros [= <-]; by exists sample.1|]. intros Ha. destruct (Hb a Ha) as (t & Ht & Hle).
  exists sample.1. split; [done|]. unfold old_sample in Hold. rewrite Ht in Hold. apply Z.leb_gt in Hold. lia.
Qed.
End temperature_facts.

(** ** What does not reset or resolve *)

(** A heartbeat without a reading leaves the temperature state as it is. *)
Example missing_reading_keeps_state cfg fmt1 clk e fresh id name gid gname st ts d :
  check_temperature cfg fmt1 clk e fresh id None name gid gname st ts d = d.
Proof. done. Qed.

(** A device that loses its group while hot keeps its alert row open: its state
    is normal again and no TEMP_CLEARED can follow. *)
Example ungrouped_hot_device_row_stays_open :
  let dev g := mkPDevice "Lobby" D_ADOPTED g true None None None None
                 (mkTelemetry "play" None "PLAYING" None None 0 None None) None None None None None None in
  let d0 := mkAlertDb {["pi" := dev (Some "g1")]} {["g1" := "Hall"]} ∅ ∅ [] [] in
  let sample temp gid ts d := check_temperature default_alert_cfg (λ _, "") ts "e" "i" "pi" (Some temp) "Lobby" gid "Hall"
                                D_ADOPTED (Some ts) d in
  let d := sample 40%Q (Some "g1") 3 (sample 40%Q None 2 (sample 90%Q (Some "g1") 1 d0)) in
  (λ a, al_open a) <$> ad_alerts d !! ("pi", K_TEMPERATURE) = Some true ∧
  (λ s, as_temp_level s) <$> ad_states d !! "pi" = Some T_NORMAL ∧ n_event_type <$> ad_notes d = [EV_TEMP_HIGH].
Proof. vm_compute. done. Qed.

(** ** Witnesses *)

Definition hot_db : AlertDb :=
  mkAlertDb {["pi" := mkPDevice "Lobby" D_ADOPTED (Some "g1") true None None None None
    (mkTelemetry "play" None "PLAYING" None None 0 None None) None None None None None None]} {["g1" := "Hall"]} ∅ ∅ [] [].
Definition hot_sample (t : Z) : TempSample := mkTempSample t "e" "i" 75%Q "Lobby" "g1" "Hall" t.

Lemma check_temperature_exact_witness :
  ∃ n, ad_notes (check_temperature default_alert_cfg (λ _, "") 9 "e" "i" "pi" (Some 75%Q) "Lobby" (Some "g1") "Hall" D_ADOPTED
                   (Some 9) hot_db) = [n] ∧ note_summary n = ("pi", (EV_TEMP_HIGH, "warning")).
Proof.
  destruct (proj1 (check_temperature_exact default_alert_cfg (λ _, "") 9 "e" "i" "pi" 75%Q "Lobby" "g1" "Hall" 9 hot_db
    (new_state None) eq_refl)) as (n & E & Hn & _).
  - split; [done|]. by intros (t & ? & _).
  - exists n. split; [exact E|exact Hn].
Defined.

Lemma hot_device_alerts_witness :
  ∃ ns n, ad_notes (fold_left (receive_sample default_alert_cfg (λ _, "") "pi") [hot_sample 1; hot_sample 400000000] hot_db) = ns ∧
    n ∈ ns ∧ n_event_type n = EV_TEMP_HIGH.
Proof.
  destruct (hot_device_alerts default_alert_cfg (λ _, "") "pi" hot_db (new_state None) (hot_sample 1) [] (hot_sample 400000000))
    as (ns & n & E & Hin & _ & Hn).
  - reflexivity.
  - by intros a.
  - split; [|by intros p [->|[->|?%elem_of_nil]%elem_of_cons]%elem_of_cons].
    apply SSorted_cons; [apply SSorted_cons; [apply SSorted_nil|done]|by repeat constructor].
  - by intros p [->|[->|?%elem_of_nil]%elem_of_cons]%elem_of_cons.
  - vm_compute. discriminate.
  - exists ns, n. split; [exact E|]. by split.
Defined.
