(* ===== verification/OfflineAlerts.v ===== *)
(** * Offline alerts (cms/services/alert_service.py: connection events, sweeps)

    Any interleaving of the service's operations alternates the OFFLINE and
    ONLINE notifications of a device; the offline sweep alerts exactly the
    devices whose grace has run out. *)

From Stdlib Require Import QArith.
From S2P Require Import Prelude Clock Models Presence Alerts TempAlerts.
Open Scope Z_scope.

(** ** Offline alerts of one device alternate *)

Section alternation.
Context (x : string).

(** The offline and online notifications of the device, with their incident. *)
Definition offline_notes (notes : list Notification) : list (EventType * option uuid) :=
  omap (λ n, if bool_decide (n_device_id n = x ∧ (n_event_type n = EV_OFFLINE ∨ n_event_type n = EV_ONLINE))
             then Some (n_event_type n, n_incident n) else None) notes.

(** [paired l o]: [l] is a sequence of OFFLINE/ONLINE pairs of one incident
    each, then OFFLINE of incident [o] if there is one. *)
Inductive paired : list (EventType * option uuid) → option uuid → Prop :=
  | paired_nil : paired [] None
  | paired_off l i : paired l None → paired (l ++ [(EV_OFFLINE, Some i)]) (Some i)
  | paired_on l i : paired l (Some i) → paired (l ++ [(EV_ONLINE, Some i)]) None.

(** What the operations may do to the alert state of the device. *)
Definition view (d : AlertDb) : option (bool * option Z) * option DeviceAlert * list (EventType * option uuid) :=
  ((λ s, (as_offline_notified s, as_offline_since s)) <$> ad_states d !! x, ad_alerts d !! (x, K_OFFLINE),
   offline_notes (ad_notes d)).

Definition alternating (d : AlertDb) : Prop :=
  ∃ o, paired (offline_notes (ad_notes d)) o ∧
    match o with
    | Some i => (∃ s, ad_states d !! x = Some s ∧ as_offline_notified s = true ∧ is_Some (as_offline_since s)) ∧
                is_open (Some i) (ad_alerts d !! (x, K_OFFLINE))
    | None => (∀ s, ad_states d !! x = Some s → as_offline_notified s = false) ∧ not_open (ad_alerts d !! (x, K_OFFLINE))
    end.

(** The device is adopted and in a group that exists. *)
Definition owned (d : AlertDb) : Prop :=
  ∃ dev g n, ad_devices d !! x = Some dev ∧ pd_status dev = D_ADOPTED ∧ pd_group_id dev = Some g ∧ ad_groups d !! g = Some n.

(** One event in the life of the service: a connection event (of any device),
    a run of either sweep, a temperature sample, or a change of devices and
    groups made elsewhere. *)
Inductive alert_op :=
  | Op_call (clk : Z) (event_id : uuid) (call : AlertCall)
  | Op_stale (clk : Z) (event_id : string → uuid)
  | Op_sweep (cfg : AlertCfg) (clk : Z) (event_id incident_id : string → uuid)
  | Op_temperature (cfg : AlertCfg) (fmt1 : Q → string) (clk : Z) (event_id fresh : uuid) (id : string) (temp : option Q)
      (name : string) (gid : option uuid) (gname : string) (status : DeviceStatus) (ts : option Z)
  | Op_registry (ds : devices) (gs : group_names).

Definition alert_step (d : AlertDb) (op : alert_op) : AlertDb :=
  match op with
  | Op_call clk e call => on_alert_call clk e call d
  | Op_stale clk e => (stale_presence_sweep_once clk e d).1
  | Op_sweep cfg clk e i => (offline_sweep_once cfg clk e i d).1
  | Op_temperature cfg fmt1 clk e i id temp name gid gname status ts =>
      check_temperature cfg fmt1 clk e i id temp name gid gname status ts d
  | Op_registry ds gs => mkAlertDb ds gs (ad_states d) (ad_alerts d) (ad_events d) (ad_notes d)
  end.

(** A call about the device reports it adopted; a change of the registry keeps
    it adopted and in a group. *)
Definition keeps_owned (op : alert_op) : Prop :=
  match op with
  | Op_call _ _ (device_disconnected id _ _ _ st) | Op_call _ _ (device_reconnected id _ _ _ st) => id = x → st = D_ADOPTED
  | Op_registry ds gs =>
      ∃ dev g n, ds !! x = Some dev ∧ pd_status dev = D_ADOPTED ∧ pd_group_id dev = Some g ∧ gs !! g = Some n
  | _ => True
  end.

Lemma alternating_view d d' : view d' = view d → alternating d → alternating d'.
Proof.
  intros [= Hs Ha Hn] (o & Hp & Ho). exists o. rewrite Hn, Ha. split; [done|]. destruct o as [i|].
  - destruct Ho as [(s & Hx & Hno & Hsi) Hop]. split; [|done]. rewrite Hx in Hs.
    destruct (ad_states d' !! x) as [s'|]; [|done]. cbn in Hs. exists s'. split; [done|].
    injection Hs as -> ->. done.
  - destruct Ho as [Hx Hop]. split; [|done]. intros s' Hs'. rewrite Hs' in Hs.
    destruct (ad_states d !! x) as [s|]; [|done]. cbn in Hs. injection Hs as -> _. by apply Hx.
Qed.

Lemma offline_notes_app l n : offline_notes (l ++ [n]) = offline_notes l ++ offline_notes [n].
Proof. apply omap_app. Qed.
Lemma offline_notes_other n : n_device_id n ≠ x → offline_notes [n] = [].
Proof. intros. unfold offline_notes. cbn. rewrite bool_decide_eq_false_2; [done|by intros []]. Qed.

(** Operations that touch neither the notifications nor the lifecycle row, and
    of the state only when it began. *)
Lemma alternating_states d d' :
  offline_notes (ad_notes d') = offline_notes (ad_notes d) → ad_alerts d' !! (x, K_OFFLINE) = ad_alerts d !! (x, K_OFFLINE) →
  (∀ s, ad_states d !! x = Some s → ∃ s', ad_states d' !! x = Some s' ∧
     as_offline_notified s' = as_offline_notified s ∧ (is_Some (as_offline_since s) → is_Some (as_offline_since s'))) →
  (∀ s', ad_states d !! x = None → ad_states d' !! x = Some s' → as_offline_notified s' = false) →
  alternating d → alternating d'.
Proof.
  intros Hn Ha Hs Hnone (o & Hp & Ho). exists o. rewrite Hn, Ha. split; [done|]. destruct o as [i|].
  - destruct Ho as [(s & Hx & Hno & Hsi) Hop]. split; [|done]. destruct (Hs s Hx) as (s' & Hx' & Hno' & Hsi').
    exists s'. rewrite Hno'. auto.
  - destruct Ho as [Hx Hop]. split; [|done]. intros s' Hs'. destruct (ad_states d !! x) as [s|] eqn:E; [|by eauto].
    destruct (Hs s eq_refl) as (s'' & E' & Hno & _). rewrite E' in Hs'. injection Hs' as <-. rewrite Hno. by apply Hx.
Qed.

Lemma alternating_put_state d id f :
  (∀ s, ad_states d !! x = Some s → id = x → as_offline_notified (f s) = as_offline_notified s ∧
                                      (is_Some (as_offline_since s) → is_Some (as_offline_since (f s)))) →
  alternating d → alternating (put_states (alter f id (ad_states d)) d).
Proof.
  intros Hf. apply alternating_states; [done|done|..]; cbn [put_states ad_states].
  - intros s Hs. destruct (decide (id = x)) as [->|Hne].
    + exists (f s). rewrite lookup_alter_eq, Hs. by split; [|apply Hf].
    + exists s. by rewrite lookup_alter_ne.
  - intros s' Hnone. destruct (decide (id = x)) as [->|Hne]; [by rewrite lookup_alter_eq, Hnone|].
    rewrite lookup_alter_ne by done. congruence.
Qed.

Lemma insert_as_alter {A} (m : gmap string A) id f a : m !! id = Some a → <[id := f a]> m = alter f id m.
Proof.
  intros Hm. apply map_eq. intros k. destruct (decide (k = id)) as [->|Hne].
  - by rewrite lookup_insert_eq, lookup_alter_eq, Hm.
  - by rewrite lookup_insert_ne, lookup_alter_ne by done.
Qed.

Lemma alternating_insert_state d id s :
  ad_states d !! id = None → as_offline_notified s = false → alternating d → alternating (insert_state id s d).
Proof.
  intros Hnone Hs. unfold insert_state. destruct (ad_devices d !! id); [|done].
  apply alternating_states; [done|done|..]; cbn [put_states ad_states].
  - intros s0 Hs0. exists s0. rewrite lookup_insert_ne; [done|congruence].
  - intros s' Hx. destruct (decide (id = x)) as [->|Hne]; [rewrite lookup_insert_eq; congruence|].
    rewrite lookup_insert_ne by done. congruence.
Qed.

Lemma alternating_open_since d s :
  alternating d → ad_states d !! x = Some s → as_offline_since s = None → as_offline_notified s = false.
Proof.
  intros (o & _ & Ho) Hs Hn. destruct o as [i|].
  - destruct Ho as [(s' & Hs' & _ & [t Ht]) _]. congruence.
  - by apply Ho.
Qed.

(** *** Connection events *)

Lemma record_disconnect_alternating clk id d : alternating d → alternating (_record_disconnect clk id d).
Proof.
  intros Ha. unfold _record_disconnect. destruct (ad_states d !! id) as [s|] eqn:Hs; [|by apply alternating_insert_state].
  destruct (as_offline_since s) eqn:Hsince; [done|].
  change (offline_from clk (as_offline_notified s) s) with ((λ s, offline_from clk (as_offline_notified s) s) s).
  rewrite insert_as_alter by done. by apply alternating_put_state.
Qed.

Lemma announce_online_frame clk e id name gid gname d :
  ad_states (announce_online clk e id name gid gname d) = ad_states d ∧
  offline_notes (ad_notes (announce_online clk e id name gid gname d)) =
    offline_notes (ad_notes d) ++
    (if decide (id = x) then [(EV_ONLINE, row ← ad_alerts d !! (id, K_OFFLINE); al_incident_id row)] else []) ∧
  (id ≠ x → ad_alerts (announce_online clk e id name gid gname d) !! (x, K_OFFLINE) = ad_alerts d !! (x, K_OFFLINE)) ∧
  not_open (ad_alerts (announce_online clk e id name gid gname d) !! (id, K_OFFLINE)).
Proof.
  unfold announce_online. destruct (emit_device_event _ _ _ _ _ _ _ _ _ d) as [d1 ev] eqn:E.
  assert (E1 : d1 = add_event ev d) by (unfold emit_device_event in E; injection E as <- <-; done).
  destruct (resolve_alert_frame id K_OFFLINE ev d1) as (_ & _ & Hst & _ & Hno).
  cbn [add_note ad_states ad_notes ad_alerts]. rewrite Hst, Hno, E1. split_and!; [done|..].
  - rewrite offline_notes_app. f_equal. cbn [add_event ad_notes]. destruct (decide (id = x)) as [->|Hne].
    + unfold offline_notes. cbn. by rewrite bool_decide_eq_true_2 by auto.
    + by apply offline_notes_other.
  - intros Hne. rewrite resolve_alert_lookup by congruence. done.
  - apply resolve_alert_resolves.
Qed.

Lemma record_reconnect_alternating clk e id name gid gname d :
  alternating d → alternating (_record_reconnect clk e id name gid gname d).
Proof.
  intros Ha. unfold _record_reconnect. destruct (ad_states d !! id) as [s|] eqn:Hs; [|by apply alternating_insert_state].
  assert (Hclear : id ≠ x ∨ as_offline_notified s = false →
                   alternating (put_states (<[id := offline_cleared s]> (ad_states d)) d)).
  { intros Hor. destruct (decide (id = x)) as [->|Hne].
    - destruct Hor as [?|Hno]; [done|]. destruct Ha as ([i|] & Hp & Ho).
      { destruct Ho as [(s' & ? & ? & _) _]. congruence. }
      exists None. split; [done|]. split; [|apply Ho]. cbn. intros s'. rewrite lookup_insert_eq. by intros [= <-].
    - rewrite insert_as_alter by done. by apply alternating_put_state. }
  destruct (as_offline_notified s) eqn:Hno; [|by apply Hclear; right].
  set (d' := put_states _ d) in *. destruct (announce_online_frame clk e id name gid gname d') as (Est & Eno & Eal & Enew).
  destruct (decide (id = x)) as [->|Hne].
  - destruct Ha as ([i|] & Hp & Ho); [|destruct Ho as [Ho _]; rewrite (Ho s Hs) in Hno; done].
    destruct Ho as [_ (row & Hrow & _ & Hi & _)]. exists None. rewrite Eno, Est.
    assert (Hrow' : ad_alerts d' !! (x, K_OFFLINE) = Some row) by done. rewrite Hrow'. cbn [mbind option_bind]. rewrite Hi.
    split; [by apply (paired_on (offline_notes (ad_notes d)))|]. split; [|done].
    cbn. intros s'. rewrite lookup_insert_eq. by intros [= <-].
  - rewrite app_nil_r in Eno. assert (Ha' : alternating d') by (apply Hclear; by left).
    apply (alternating_view d'); [|done]. unfold view. by rewrite Est, Eno, Eal.
Qed.

Lemma call_alternating clk e call d :
  keeps_owned (Op_call clk e call) → alternating d → alternating (on_alert_call clk e call d).
Proof.
  intros Hk Ha. destruct call as [id name gid gname st|id name gid gname st]; cbn in *; case_bool_decide as Hst.
  - by apply record_disconnect_alternating.
  - done.
  - by apply record_reconnect_alternating.
  - apply alternating_put_state; [|done]. intros s _ Hid. by destruct (Hst (Hk Hid)).
Qed.

(** *** The sweeps *)

Lemma owned_snapshot d :
  owned d → ∃ dev g n, ad_devices d !! x = Some dev ∧ pd_status dev = D_ADOPTED ∧
                       snapshot_device_groups (ad_groups d) (ad_devices d) x None None = [(g, n)].
Proof.
  intros (dev & g & n & Hd & Hst & Hg & Hn). exists dev, g, n. split_and!; [done|done|].
  unfold snapshot_device_groups. rewrite Hd. cbn. rewrite Hg. cbn. by rewrite Hn.
Qed.

Lemma stale_one_alternating clk e d id : alternating d → alternating (stale_one clk e d id).
Proof.
  intros Ha. unfold stale_one. destruct (ad_devices d !! id) as [dev|]; [|done].
  destruct (bool_decide _); [|done]. destruct (snapshot_device_groups _ _ _ _ _) as [|[g n] rest]; [done|]. cbv zeta.
  set (d1 := (emit_device_event _ _ _ _ _ _ _ _ _ d).1).
  assert (Ha1 : alternating d1) by (by apply (alternating_view d)).
  change (ad_states d) with (ad_states d1).
  destruct (ad_states d1 !! id) as [s|] eqn:Hs; [|by apply alternating_insert_state].
  destruct (as_offline_since s) eqn:Hsince; [done|].
  change (offline_from clk false s) with ((λ s, offline_from clk false s) s). rewrite insert_as_alter by done.
  apply alternating_put_state; [|done]. intros s' Hs' ->. rewrite Hs in Hs'. injection Hs' as <-.
  rewrite (alternating_open_since d1 s) by done. done.
Qed.

Lemma stale_sweep_alternating clk e d : alternating d → alternating (stale_presence_sweep_once clk e d).1.
Proof.
  intros Ha. unfold stale_presence_sweep_once. cbn [fst].
  apply fold_left_inv; [|intros d' id _; apply stale_one_alternating].
  by apply (alternating_view d).
Qed.

Lemma flip_offline_owner ids ds id dev :
  ds !! id = Some dev → ∃ dev', flip_offline ids ds !! id = Some dev' ∧ pd_status dev' = pd_status dev ∧
                                pd_group_id dev' = pd_group_id dev ∧ pd_name dev' = pd_name dev.
Proof.
  intros Hd. induction ids as [|i ids (dev' & IH & Hst & Hg & Hn)]; [by exists dev|]. cbn [flip_offline foldr].
  fold (flip_offline ids ds). destruct (decide (i = id)) as [->|Hne].
  - exists (set_online false None dev'). by rewrite lookup_alter_eq, IH.
  - exists dev'. by rewrite lookup_alter_ne.
Qed.

Lemma stale_one_registry clk e d id :
  ad_devices (stale_one clk e d id) = ad_devices d ∧ ad_groups (stale_one clk e d id) = ad_groups d.
Proof.
  unfold stale_one. destruct (ad_devices d !! id) eqn:Hd; [|done]. destruct (bool_decide _); [|done].
  destruct (snapshot_device_groups _ _ _ _ _) as [|[g n] rest]; [done|]. cbn [emit_device_event fst add_event ad_states].
  destruct (ad_states d !! id) as [s|]; [by destruct (as_offline_since s)|].
  unfold insert_state. cbn. by rewrite Hd.
Qed.

Lemma notify_offline_registry cfg clk e i d id :
  ad_devices (notify_offline cfg clk e i d id).1 = ad_devices d ∧ ad_groups (notify_offline cfg clk e i d id).1 = ad_groups d ∧
  ad_states (notify_offline cfg clk e i d id).1 = ad_states d.
Proof.
  unfold notify_offline. destruct (ad_devices d !! id) eqn:Hd; [|done]. destruct (bool_decide _); [|done].
  destruct (snapshot_device_groups _ _ _ _ _) as [|[g n] rest]; [done|].
  cbn [emit_device_event fst ad_devices ad_groups ad_states add_note].
  edestruct open_alert_frame as (-> & -> & -> & _ & _). done.
Qed.

Lemma notify_offline_view cfg clk e i d id : id ≠ x → view (notify_offline cfg clk e i d id).1 = view d.
Proof.
  intros Hne. unfold notify_offline. destruct (ad_devices d !! id) eqn:Hd; [|done]. destruct (bool_decide _); [|done].
  destruct (snapshot_device_groups _ _ _ _ _) as [|[g n] rest]; [done|].
  cbn [emit_device_event fst]. unfold view. cbn [add_note ad_states ad_alerts ad_notes].
  edestruct open_alert_frame as (_ & _ & -> & _ & ->). rewrite open_alert_lookup by congruence.
  rewrite offline_notes_app, offline_notes_other by done. by rewrite app_nil_r.
Qed.

(** The device between the claim and its notification. *)
Definition claimed_pending (d : AlertDb) : Prop :=
  paired (offline_notes (ad_notes d)) None ∧
  (∃ s, ad_states d !! x = Some s ∧ as_offline_notified s = true ∧ is_Some (as_offline_since s)).

Lemma notify_offline_alternating cfg clk e i d :
  owned d → claimed_pending d → alternating (notify_offline cfg clk e i d x).1.
Proof.
  intros Ho [Hp Hs]. destruct (owned_snapshot d Ho) as (dev & g & n & Hd & Hst & Hsn). unfold notify_offline.
  rewrite Hd, Hst, Hsn. cbn [emit_device_event fst].
  match goal with |- context [bool_decide ?P] => rewrite (bool_decide_eq_true_2 P) by done end.
  set (d1 := add_event _ d). set (ev := mkEvent _ _ _ _ _ _ _). cbn [fst].
  destruct (open_alert_frame x K_OFFLINE ev (i x) d1) as (_ & _ & Est & _ & Eno).
  exists (Some (i x)). cbn [add_note ad_states ad_notes ad_alerts]. rewrite Eno, Est, offline_notes_app. split_and!.
  - unfold offline_notes at 2. cbn. rewrite bool_decide_eq_true_2 by auto. by apply paired_off.
  - done.
  - apply open_alert_opens.
Qed.

Lemma notify_all_fst cfg clk e i d ids :
  (notify_all cfg clk e i d ids).1 = fold_left (λ d id, (notify_offline cfg clk e i d id).1) ids d.
Proof.
  unfold notify_all. change d with (d, 0).1 at 2. generalize (d, 0) as dn.
  induction ids as [|id ids IH]; intros dn; [done|]. cbn [fold_left]. rewrite IH.
  by destruct (notify_offline cfg clk e i dn.1 id).
Qed.

Lemma notify_others_view cfg clk e i ids d :
  x ∉ ids → let d' := fold_left (λ d id, (notify_offline cfg clk e i d id).1) ids d in
            view d' = view d ∧ ad_devices d' = ad_devices d ∧ ad_groups d' = ad_groups d ∧ ad_states d' = ad_states d.
Proof.
  intros Hx. apply (fold_left_inv _ (λ d', view d' = view d ∧ ad_devices d' = ad_devices d ∧ ad_groups d' = ad_groups d ∧
                                           ad_states d' = ad_states d)); [done|].
  intros d' id Hid (Hv & Hd & Hg & Hs). rewrite notify_offline_view by (intros ->; done).
  destruct (notify_offline_registry cfg clk e i d' id) as (-> & -> & ->). done.
Qed.

Lemma elem_of_offline_claim cfg clk st id :
  id ∈ offline_claim cfg clk st ↔ ∃ s, st !! id = Some s ∧ past_grace cfg clk s = true.
Proof.
  unfold offline_claim. rewrite list_elem_of_fmap. split.
  - intros ([k s] & -> & Hin). apply list_elem_of_filter in Hin as [Hp Hin]. apply elem_of_map_to_list in Hin. by exists s.
  - intros (s & Hs & Hp). exists (id, s). split; [done|]. apply list_elem_of_filter. split; [done|].
    by apply elem_of_map_to_list.
Qed.

Lemma offline_claim_NoDup cfg clk st : NoDup (offline_claim cfg clk st).
Proof. apply NoDup_fmap_filter, NoDup_fst_map_to_list. Qed.

Lemma past_grace_inv cfg clk s : past_grace cfg clk s = true → as_offline_notified s = false ∧ is_Some (as_offline_since s).
Proof. unfold past_grace. destruct (as_offline_notified s), (as_offline_since s); done. Qed.

Lemma offline_sweep_alternating cfg clk e i d :
  owned d → alternating d → alternating (offline_sweep_once cfg clk e i d).1.
Proof.
  intros Ho Ha. unfold offline_sweep_once. rewrite notify_all_fst. set (d0 := put_states _ d).
  assert (E0 : ad_states d0 !! x = (λ s, if past_grace cfg clk s then set_notified s else s) <$> ad_states d !! x).
  { unfold d0, claim_notified. cbn [put_states ad_states]. by rewrite lookup_fmap. }
  destruct (decide (x ∈ offline_claim cfg clk (ad_states d))) as [Hin|Hnin].
  - pose proof (offline_claim_NoDup cfg clk (ad_states d)) as Hnd. apply list_elem_of_split in Hin as Hsplit.
    destruct Hsplit as (l1 & l2 & El). rewrite El in Hnd |- *. apply NoDup_app in Hnd as (_ & Hd12 & Hnd2).
    apply NoDup_cons in Hnd2 as [Hx2 _]. assert (Hx1 : x ∉ l1) by (intros H; apply (Hd12 x H); left).
    apply elem_of_offline_claim in Hin as (s & Hs & Hp). apply past_grace_inv in Hp as Hp'. destruct Hp' as [Hno Hsi].
    rewrite fold_left_app. cbn [fold_left]. set (d1 := fold_left _ l1 d0).
    destruct (notify_others_view cfg clk e i l1 d0 Hx1) as (Hv & Hdev & Hgr & Hst). fold d1 in Hv, Hdev, Hgr, Hst.
    assert (Hpend : claimed_pending d1).
    { destruct Ha as (o & Hpair & Hcase). destruct o as [inc|].
      { destruct Hcase as [(s' & Hs' & Hno' & _) _]. congruence. }
      split.
      - injection Hv as _ _ Hn. by rewrite Hn.
      - rewrite Hst, E0, Hs. cbn. rewrite Hp. by eexists. }
    destruct (notify_others_view cfg clk e i l2 (notify_offline cfg clk e i d1 x).1 Hx2) as (Hv2 & _ & _ & _).
    apply (alternating_view _ _ Hv2). apply notify_offline_alternating; [|done].
    unfold owned. by rewrite Hdev, Hgr.
  - destruct (notify_others_view cfg clk e i (offline_claim cfg clk (ad_states d)) d0 Hnin) as (Hv & _ & _ & _).
    apply (alternating_view _ _ Hv). apply (alternating_view d); [|done]. unfold view. rewrite E0.
    destruct (ad_states d !! x) as [s|] eqn:Hs; [|done]. cbn [fmap option_fmap option_map].
    destruct (past_grace cfg clk s) eqn:Hp; [|done]. destruct Hnin. apply elem_of_offline_claim. by exists s.
Qed.
(** *** All of the service *)

Lemma check_temperature_cases cfg fmt1 clk e fresh id temp name gid gname st ts d :
  let r := check_temperature cfg fmt1 clk e fresh id temp name gid gname st ts d in
  r = d ∨ r = _reset_temp_state id d ∨
  ∃ t snap ts', temp = Some t ∧ st = D_ADOPTED ∧ is_Some gid ∧
    r = sample_temperature cfg fmt1 clk e fresh id t name gid gname snap ts' d.
Proof.
  cbv zeta. unfold check_temperature. destruct temp as [t|]; [|by left]. case_bool_decide as Hst; cbn [negb]; [|auto].
  destruct gid as [g|]; [|auto]. cbv zeta. destruct (snapshot_device_groups _ _ _ _ _) as [|gn snap]; [auto|].
  right; right. by exists t, (gn :: snap), (ts or_else clk).
Qed.

Lemma sample_temperature_absent cfg fmt1 clk e fresh id temp name gid gname snap ts d :
  temp_row id d = None → sample_temperature cfg fmt1 clk e fresh id temp name gid gname snap ts d = d.
Proof.
  unfold temp_row, sample_temperature. cbv zeta. destruct (ad_states d !! id) eqn:Hs; [done|].
  unfold insert_state. destruct (ad_devices d !! id); [done|]. by rewrite Hs.
Qed.

Lemma check_temperature_registry cfg fmt1 clk e fresh id temp name gid gname st ts d :
  let r := check_temperature cfg fmt1 clk e fresh id temp name gid gname st ts d in
  ad_devices r = ad_devices d ∧ ad_groups r = ad_groups d.
Proof.
  cbv zeta. destruct (check_temperature_cases cfg fmt1 clk e fresh id temp name gid gname st ts d)
    as [->|[->|(t & snap & ts' & _ & _ & _ & ->)]]; [done|done|].
  destruct (temp_row id d) as [s|] eqn:Hrow; [|by rewrite sample_temperature_absent].
  by destruct (sample_temperature_spec cfg fmt1 clk e fresh id t name gid gname snap ts' d s Hrow) as (-> & -> & _).
Qed.

Lemma temp_step_offline cfg s p :
  as_offline_notified (temp_step cfg s p).1 = as_offline_notified s ∧ as_offline_since (temp_step cfg s p).1 = as_offline_since s.
Proof. unfold temp_step. by destruct (old_sample s p.1). Qed.

Lemma temperature_alternating cfg fmt1 clk e fresh id temp name gid gname st ts d :
  alternating d → alternating (check_temperature cfg fmt1 clk e fresh id temp name gid gname st ts d).
Proof.
  intros Ha. destruct (check_temperature_cases cfg fmt1 clk e fresh id temp name gid gname st ts d)
    as [->|[->|(t & snap & ts' & _ & _ & _ & ->)]]; [done|by apply alternating_put_state|].
  destruct (temp_row id d) as [s|] eqn:Hrow; [|by rewrite sample_temperature_absent].
  destruct (sample_temperature_spec cfg fmt1 clk e fresh id t name gid gname snap ts' d s Hrow) as (_ & _ & Hst & Hal & Hf).
  destruct (temp_step_offline cfg s (ts', t)) as [Hno Hsi].
  apply (alternating_states d); [|by apply Hal| | |done].
  - destruct (temp_step cfg s (ts', t)).2 as [[ty lvl]|] eqn:Hfired; [|by destruct Hf as [-> _]].
    destruct Hf as (i & n & _ & Hty & _ & _ & -> & _). rewrite offline_notes_app.
    unfold offline_notes at 2. cbn. rewrite bool_decide_eq_false_2; [by rewrite app_nil_r|]. rewrite Hty.
    unfold temp_step in Hfired. destruct (old_sample _ _); [done|]. cbn [snd] in Hfired.
    apply temp_decision_type in Hfired as [[-> _]|[-> _]]; by intros [_ [?|?]].
  - intros s0 Hs0. rewrite Hst. destruct (decide (id = x)) as [->|Hne]; [|exists s0; by rewrite lookup_insert_ne].
    exists (temp_step cfg s (ts', t)).1. rewrite lookup_insert_eq. unfold temp_row in Hrow. rewrite Hs0 in Hrow.
    injection Hrow as ->. by rewrite Hno, Hsi.
  - intros s' Hnone. rewrite Hst. destruct (decide (id = x)) as [->|Hne]; [|rewrite lookup_insert_ne by done; congruence].
    rewrite lookup_insert_eq. intros [= <-]. rewrite Hno. unfold temp_row in Hrow. rewrite Hnone in Hrow.
    destruct (ad_devices d !! x); [|done]. by injection Hrow as <-.
Qed.

Lemma stale_sweep_owned clk e d : owned d → owned (stale_presence_sweep_once clk e d).1.
Proof.
  intros (dev & g & n & Hd & Hst & Hg & Hn). unfold stale_presence_sweep_once. cbn [fst].
  set (d0 := put_devices _ d). set (ids := stale_claim clk (ad_devices d)).
  assert (H : ad_devices (fold_left (stale_one clk e) ids d0) = ad_devices d0 ∧ ad_groups (fold_left (stale_one clk e) ids d0) = ad_groups d0).
  { apply (fold_left_inv _ (λ d', ad_devices d' = ad_devices d0 ∧ ad_groups d' = ad_groups d0)); [done|].
    intros d' id _ [H1 H2]. by destruct (stale_one_registry clk e d' id) as [-> ->]. }
  destruct H as [Hdev Hgr]. destruct (flip_offline_owner ids (ad_devices d) x dev Hd) as (dev' & Hd' & Hst' & Hg' & _).
  exists dev', g, n. rewrite Hdev, Hgr. cbn. by rewrite Hst', Hg'.
Qed.

Lemma call_owned clk e call d : owned d → owned (on_alert_call clk e call d).
Proof.
  intros Ho. assert (H : ad_devices (on_alert_call clk e call d) = ad_devices d ∧ ad_groups (on_alert_call clk e call d) = ad_groups d).
  { destruct call as [id ? ? ? st|id name gid gname st]; cbn; case_bool_decide; try done.
    - unfold _record_disconnect, insert_state. destruct (ad_states d !! id) as [s|]; [by destruct (as_offline_since s)|].
      by destruct (ad_devices d !! id).
    - unfold _record_reconnect, insert_state. destruct (ad_states d !! id) as [s|]; [|by destruct (ad_devices d !! id)].
      destruct (as_offline_notified s); [|done]. unfold announce_online, emit_device_event.
      cbn [add_note ad_devices ad_groups]. by edestruct resolve_alert_frame as (-> & -> & _). }
  destruct H as [Hd Hg]. unfold owned. by rewrite Hd, Hg.
Qed.

Lemma alert_step_owned d op : keeps_owned op → owned d → owned (alert_step d op).
Proof.
  intros Hk Ho. destruct op as [clk e call|clk e|cfg clk e i|cfg fmt1 clk e fresh id temp name gid gname st ts|ds gs]; cbn [alert_step].
  - by apply call_owned.
  - by apply stale_sweep_owned.
  - unfold offline_sweep_once. rewrite notify_all_fst. set (ids := offline_claim _ _ _).
    apply (fold_left_inv _ owned); [done|]. intros d' id _ (dev & g & n & H).
    exists dev, g, n. by destruct (notify_offline_registry cfg clk e i d' id) as (-> & -> & _).
  - destruct (check_temperature_registry cfg fmt1 clk e fresh id temp name gid gname st ts d) as [Hd Hg].
    unfold owned. by rewrite Hd, Hg.
  - exact Hk.
Qed.

Lemma alert_step_alternating d op : keeps_owned op → owned d → alternating d → alternating (alert_step d op).
Proof.
  intros Hk Ho Ha. destruct op as [clk e call|clk e|cfg clk e i|cfg fmt1 clk e fresh id temp name gid gname st ts|ds gs]; cbn [alert_step].
  - by apply call_alternating.
  - by apply stale_sweep_alternating.
  - by apply offline_sweep_alternating.
  - by apply temperature_alternating.
  - by apply (alternating_view d).
Qed.

Lemma alternating_run ops d :
  Forall keeps_owned ops → owned d → alternating d → owned (fold_left alert_step ops d) ∧ alternating (fold_left alert_step ops d).
Proof.
  intros Hk Ho Ha. apply (fold_left_inv _ (λ d, owned d ∧ alternating d)); [done|].
  intros d' op Hop [Ho' Ha']. rewrite Forall_forall in Hk. split; [by apply alert_step_owned; auto|].
  apply alert_step_alternating; auto.
Qed.

(** C34. Offline alerts of a device alternate. From empty alert tables, through
    any interleaving of connection reports, stale sweeps, offline sweeps,
    temperature samples and changes of the registry in which the device stays
    adopted and in a group, its notifications are OFFLINE, ONLINE, OFFLINE, ...:
    never two of a kind in a row, never an ONLINE first, and each ONLINE carries
    the incident of the OFFLINE before it. The device is marked notified, with
    the alert row open under that incident, exactly while its last
    notification is an OFFLINE. *)
Theorem offline_online_alternate ops ds gs :
  let d0 := mkAlertDb ds gs ∅ ∅ [] [] in
  Forall keeps_owned ops → owned d0 →
  let d := fold_left alert_step ops d0 in
  ∃ o, paired (offline_notes (ad_notes d)) o ∧
    match o with
    | Some i => (∃ s, ad_states d !! x = Some s ∧ as_offline_notified s = true ∧ is_Some (as_offline_since s)) ∧
                is_open (Some i) (ad_alerts d !! (x, K_OFFLINE))
    | None => (∀ s, ad_states d !! x = Some s → as_offline_notified s = false) ∧ not_open (ad_alerts d !! (x, K_OFFLINE))
    end.
Proof.
  intros d0 Hk Ho. apply (alternating_run ops d0 Hk Ho). exists None. split; [apply paired_nil|]. split; [done|].
  intros row. cbn. by rewrite lookup_empty.
Qed.

Lemma paired_parity l o : paired l o → Nat.even (length l) = bool_decide (o = None).
Proof.
  induction 1 as [|l i H IH|l i H IH]; [done|..]; rewrite length_app, Nat.add_1_r, Nat.even_succ, <-Nat.negb_even, IH; done.
Qed.
End alternation.

(** ** The offline sweep *)

Section sweep_facts.
Context (cfg : AlertCfg) (clk : Z) (event_id incident_id : string → uuid).

(** There is somebody to alert. *)
Definition alertable (d : AlertDb) (id : string) : Prop :=
  (pd_status <$> ad_devices d !! id) = Some D_ADOPTED ∧
  snapshot_device_groups (ad_groups d) (ad_devices d) id None None ≠ [].
#[export] Instance alertable_dec d id : Decision (alertable d id).
Proof. unfold alertable. apply _. Defined.

Definition targets (d : AlertDb) (id : string) : list uuid :=
  fromkeys (snapshot_device_groups (ad_groups d) (ad_devices d) id None None).*1.

Definition offline_note (d : AlertDb) (id : string) : string * EventType * string * option uuid * list uuid :=
  (id, EV_OFFLINE, "error", Some (incident_id id), targets d id).
Definition note_view (n : Notification) : string * EventType * string * option uuid * list uuid :=
  (n_device_id n, n_event_type n, n_level n, n_incident n, n_targets n).
Definition event_view (e : DeviceEvent) : uuid * string * EventType * EventDetails :=
  (ev_id e, ev_device_id e, ev_type e, ev_details e).

(** One device of the claim. *)
Lemma notify_offline_spec d id :
  let r := notify_offline cfg clk event_id incident_id d id in
  (¬ alertable d id → r = (d, false)) ∧
  (alertable d id →
     r.2 = true ∧ note_view <$> ad_notes r.1 = (note_view <$> ad_notes d) ++ [offline_note d id] ∧
     event_view <$> ad_events r.1 =
       (event_view <$> ad_events d) ++ [(event_id id, id, EV_OFFLINE, grace_expired (incident_id id))] ∧
     is_open (Some (incident_id id)) (ad_alerts r.1 !! (id, K_OFFLINE)) ∧
     ∀ k, k ≠ (id, K_OFFLINE) → ad_alerts r.1 !! k = ad_alerts d !! k).
Proof.
  intros r. unfold r, notify_offline, alertable, offline_note, targets.
  destruct (ad_devices d !! id) as [dev|] eqn:Hd; cbn [fmap option_fmap option_map]; [|by split; [|intros [? _]]].
  destruct (bool_decide_reflect (pd_status dev = D_ADOPTED)) as [Hst|Hst]; cbn [andb].
  2: { split; [done|]. intros [[= ?] _]. done. }
  destruct (snapshot_device_groups _ _ _ _ _) as [|[g n] rest] eqn:Hsn; [split; [done|by intros [_ ?]]|].
  split; [intros []; by rewrite Hst|]. intros _. cbn [emit_device_event fst snd add_note ad_notes ad_events ad_alerts].
  edestruct open_alert_frame as (_ & _ & _ & -> & ->). cbn [add_event ad_notes ad_events].
  split_and!; [done|by rewrite fmap_app|by rewrite fmap_app|apply open_alert_opens|].
  intros k Hk. by rewrite open_alert_lookup.
Qed.

Lemma alertable_registry d d' id : ad_devices d' = ad_devices d → ad_groups d' = ad_groups d → alertable d' id ↔ alertable d id.
Proof. unfold alertable. by intros -> ->. Qed.

Lemma notify_all_spec d ids :
  NoDup ids →
  let r := notify_all cfg clk event_id incident_id d ids in
  let told := filter (alertable d) ids in
  r.2 = Z.of_nat (length told) ∧ note_view <$> ad_notes r.1 = (note_view <$> ad_notes d) ++ (offline_note d <$> told) ∧
  event_view <$> ad_events r.1 =
    (event_view <$> ad_events d) ++ ((λ id, (event_id id, id, EV_OFFLINE, grace_expired (incident_id id))) <$> told) ∧
  (∀ id, id ∈ told → is_open (Some (incident_id id)) (ad_alerts r.1 !! (id, K_OFFLINE))) ∧
  (∀ k, (∀ id, id ∈ told → k ≠ (id, K_OFFLINE)) → ad_alerts r.1 !! k = ad_alerts d !! k) ∧
  ad_devices r.1 = ad_devices d ∧ ad_groups r.1 = ad_groups d ∧ ad_states r.1 = ad_states d.
Proof.
  induction ids as [|id ids IH] using rev_ind; intros Hnd.
  { cbn. rewrite !app_nil_r. split_and!; try done. intros id Hid. by apply elem_of_nil in Hid. }
  apply NoDup_app in Hnd as (Hnd & Hdisj & _). destruct (IH Hnd) as (Hn & Hno & Hev & Hop & Hal & Hdev & Hgr & Hst). clear IH.
  cbv zeta. unfold notify_all in *. rewrite fold_left_app. cbn [fold_left].
  set (r := fold_left _ ids (d, 0)) in *. destruct r as [d1 c]. cbn [fst snd] in *.
  destruct (notify_offline_spec d1 id) as [Hskip Htell]. cbv zeta in Hskip, Htell.
  destruct (notify_offline_registry cfg clk event_id incident_id d1 id) as (Hdev1 & Hgr1 & Hst1).
  pose proof (alertable_registry d d1 id Hdev Hgr) as Hiff. rewrite filter_app, filter_cons. cbn [filter list_filter].
  rewrite !fmap_app. destruct (notify_offline cfg clk event_id incident_id d1 id) as [d2 b]. cbn [fst snd] in *.
  case_decide as Hal1.
  - destruct (Htell (proj2 Hiff Hal1)) as (-> & Hno2 & Hev2 & Hop2 & Hal2).
    rewrite length_app, Hno2, Hev2, Hno, Hev. cbn [length fmap list_fmap]. rewrite !app_assoc.
    assert (offline_note d1 id = offline_note d id) as -> by (unfold offline_note, targets; by rewrite Hdev, Hgr).
    assert (Hidin : id ∉ filter (alertable d) ids).
    { intros [_ Hin]%list_elem_of_filter. apply (Hdisj id Hin). by left. }
    split_and!; try congruence; [lia|..].
    + intros id' [Hin|Hin]%elem_of_app.
      * rewrite Hal2 by (intros [= ->]; done). by apply Hop.
      * apply list_elem_of_singleton in Hin as ->. done.
    + intros k Hk. rewrite Hal2 by (apply Hk, elem_of_app; right; by left). apply Hal. intros id' Hid'. apply Hk, elem_of_app. by left.
  - specialize (Hskip (λ H, Hal1 (proj1 Hiff H))). injection Hskip as -> ->. rewrite app_nil_r. cbn [fmap list_fmap].
    rewrite !app_nil_r. split_and!; try done. lia.
Qed.

(** The offline sweep alerts exactly the devices whose grace has just run
    out: it marks notified every device that has been offline for the grace
    period and is not yet marked; each of them that is adopted and in a group
    gets one OFFLINE event, one "error" notification to its group and an open
    alert row, all with the same new incident; it returns how many; nothing
    else changes. A sweep that follows at once (by another replica) does
    nothing. *)
Theorem offline_sweep_exact d :
  let r := offline_sweep_once cfg clk event_id incident_id d in
  let told := filter (alertable d) (offline_claim cfg clk (ad_states d)) in
  r.2 = Z.of_nat (length told) ∧ NoDup told ∧
  (∀ id, id ∈ told ↔ alertable d id ∧ ∃ s t, ad_states d !! id = Some s ∧ as_offline_notified s = false ∧
                       as_offline_since s = Some t ∧ t + offline_grace_seconds cfg * 1000000 ≤ clk) ∧
  note_view <$> ad_notes r.1 = (note_view <$> ad_notes d) ++ (offline_note d <$> told) ∧
  event_view <$> ad_events r.1 =
    (event_view <$> ad_events d) ++ ((λ id, (event_id id, id, EV_OFFLINE, grace_expired (incident_id id))) <$> told) ∧
  (∀ id, ad_alerts r.1 !! (id, K_TEMPERATURE) = ad_alerts d !! (id, K_TEMPERATURE) ∧
     if bool_decide (id ∈ told) then is_open (Some (incident_id id)) (ad_alerts r.1 !! (id, K_OFFLINE))
     else ad_alerts r.1 !! (id, K_OFFLINE) = ad_alerts d !! (id, K_OFFLINE)) ∧
  (∀ id, ad_states r.1 !! id = (λ s, if past_grace cfg clk s then set_notified s else s) <$> ad_states d !! id) ∧
  ∀ e' i', offline_sweep_once cfg clk e' i' r.1 = (r.1, 0).
Proof.
  cbv zeta. set (told := filter (alertable d) _). set (claimed := offline_claim cfg clk (ad_states d)) in *.
  set (d0 := put_states (claim_notified cfg clk (ad_states d)) d).
  change (offline_sweep_once cfg clk event_id incident_id d) with (notify_all cfg clk event_id incident_id d0 claimed).
  destruct (notify_all_spec d0 claimed) as (Hn & Hno & Hev & Hop & Hal & Hdev & Hgr & Hst); [apply offline_claim_NoDup|].
  assert (Htold : filter (alertable d0) claimed = told) by done. rewrite Htold in *. clear Htold.
  split_and!; [done|apply NoDup_filter, offline_claim_NoDup|..].
  - intros id. unfold told. rewrite list_elem_of_filter. unfold claimed. rewrite elem_of_offline_claim.
    apply and_iff_compat_l. unfold past_grace. split.
    + intros (s & Hs & Hp). apply andb_true_iff in Hp as [Hp1 Hp2]. destruct (as_offline_since s) as [t|] eqn:Ht; [|done].
      exists s, t. split_and!; [done|by apply negb_true_iff|done|]. apply Z.leb_le in Hp2. lia.
    + intros (s & t & Hs & Hno' & Ht & Hle). exists s. split; [done|]. rewrite Hno', Ht. apply Z.leb_le. lia.
  - done.
  - done.
  - intros id. split; [apply Hal; congruence|]. case_bool_decide as Hin; [by apply Hop|]. apply Hal. intros id' Hid' [= ->]. done.
  - intros id. rewrite Hst. unfold d0, claim_notified. cbn [put_states ad_states]. by rewrite lookup_fmap.
  - intros e' i'. unfold offline_sweep_once. set (r := (notify_all cfg clk event_id incident_id d0 claimed).1) in *.
    assert (Hclaim : offline_claim cfg clk (ad_states r) = []).
    { destruct (offline_claim cfg clk (ad_states r)) as [|id l] eqn:E; [done|]. exfalso.
      assert (Hin : id ∈ offline_claim cfg clk (ad_states r)) by (rewrite E; left).
      apply elem_of_offline_claim in Hin as (s & Hs & Hp). rewrite Hst in Hs. unfold d0, claim_notified in Hs.
      cbn [put_states ad_states] in Hs. rewrite lookup_fmap in Hs. destruct (ad_states d !! id) as [s0|]; [|done].
      injection Hs as <-. destruct (past_grace cfg clk s0) eqn:Hp0; [|congruence]. by unfold past_grace in Hp. }
    rewrite Hclaim. cbn. f_equal. assert (Hsame : claim_notified cfg clk (ad_states r) = ad_states r).
    { apply map_eq. intros id. unfold claim_notified. rewrite lookup_fmap. destruct (ad_states r !! id) as [s|] eqn:Hs; [|done].
      cbn. destruct (past_grace cfg clk s) eqn:Hp; [|done]. assert (Hin : id ∈ offline_claim cfg clk (ad_states r)).
      { apply elem_of_offline_claim. by exists s. } rewrite Hclaim in Hin. by apply elem_of_nil in Hin. }
    rewrite Hsame. unfold put_states. by destruct r.
Qed.
End sweep_facts.

(** ** What the alternation depends on *)

Section examples.
Definition sample_telemetry : Telemetry := mkTelemetry "play" None "PLAYING" None None 0 None None.
Definition sample_device (gid : option uuid) (status : DeviceStatus) (online : bool) : PDevice :=
  mkPDevice "Lobby" status gid online (Some "c1") None (Some 0) None sample_telemetry None None None None None None.
Definition sample_db (gid : option uuid) (status : DeviceStatus) : AlertDb :=
  mkAlertDb {["pi" := sample_device gid status true]} {["g1" := "Hall"]} ∅ ∅ [] [].

(** An adopted device in no group is claimed by the sweep without an alert;
    when it comes back it is announced all the same, to nobody. *)
Example ungrouped_device_phantom_online :
  let d := fold_left alert_step
    [Op_call 0 "e1" (device_disconnected "pi" "Lobby" None "" D_ADOPTED);
     Op_sweep default_alert_cfg 400000000 (λ _, "e2") (λ _, "i1");
     Op_call 401000000 "e3" (device_reconnected "pi" "Lobby" None "" D_ADOPTED)] (sample_db None D_ADOPTED) in
  (λ n, (n_event_type n, n_targets n)) <$> ad_notes d = [(EV_ONLINE, [])] ∧ ev_type <$> ad_events d = [EV_ONLINE].
Proof. vm_compute. done. Qed.

(** A device whose heartbeats pause and come back: the stale sweep logs OFFLINE
    at once, the reconnect within the grace period logs nothing. *)
Example stale_offline_without_online :
  let d := fold_left alert_step
    [Op_stale 100000000 (λ _, "e1");
     Op_call 120000000 "e2" (device_reconnected "pi" "Lobby" (Some "g1") "Hall" D_ADOPTED)] (sample_db (Some "g1") D_ADOPTED) in
  ev_type <$> ad_events d = [EV_OFFLINE] ∧ ad_notes d = [] ∧
  (λ s, as_offline_since s) <$> ad_states d !! "pi" = Some None.
Proof. vm_compute. done. Qed.

(** A device that is orphaned while it is marked offline leaves the alert row
    open: the reconnect clears the state but not the row. *)
Example orphaned_device_row_stays_open :
  let orphan := {["pi" := sample_device (Some "g1") D_ORPHANED false]} in
  let d := fold_left alert_step
    [Op_call 0 "e1" (device_disconnected "pi" "Lobby" (Some "g1") "Hall" D_ADOPTED);
     Op_sweep default_alert_cfg 400000000 (λ _, "e2") (λ _, "i1");
     Op_registry orphan {["g1" := "Hall"]};
     Op_call 401000000 "e3" (device_reconnected "pi" "Lobby" (Some "g1") "Hall" D_ORPHANED)] (sample_db (Some "g1") D_ADOPTED) in
  (λ s, as_offline_notified s) <$> ad_states d !! "pi" = Some false ∧
  (λ a, al_open a) <$> ad_alerts d !! ("pi", K_OFFLINE) = Some true.
Proof. vm_compute. done. Qed.
End examples.

(** ** Witnesses *)

Definition offline_run : list alert_op :=
  [Op_call 0 "e1" (device_disconnected "pi" "Lobby" (Some "g1") "Hall" D_ADOPTED);
   Op_sweep default_alert_cfg 400000000 (λ _, "e2") (λ _, "i1");
   Op_call 401000000 "e3" (device_reconnected "pi" "Lobby" (Some "g1") "Hall" D_ADOPTED)].

Lemma offline_online_alternate_witness :
  offline_notes "pi" (ad_notes (fold_left alert_step offline_run (sample_db (Some "g1") D_ADOPTED))) =
    [(EV_OFFLINE, Some "i1"); (EV_ONLINE, Some "i1")] ∧
  ∃ o, paired (offline_notes "pi" (ad_notes (fold_left alert_step offline_run (sample_db (Some "g1") D_ADOPTED)))) o.
Proof.
  split; [vm_compute; reflexivity|].
  destruct (offline_online_alternate "pi" offline_run {["pi" := sample_device (Some "g1") D_ADOPTED true]} {["g1" := "Hall"]})
    as (o & Ho & _).
  - repeat (apply Forall_cons; split; [by intros|]); by apply Forall_nil.
  - exists (sample_device (Some "g1") D_ADOPTED true), "g1", "Hall". by split_and!.
  - exists o. exact Ho.
Defined.
