(* ===== verification/Triage.v ===== *)
(** * The triage bar (cms/services/device_alerts.py: severity tags and counts)

    The tags of a device, and the counts over a fleet that the dashboard shows. *)

From S2P Require Import Prelude Models.
Open Scope Z_scope.

(** ** Tags *)

Inductive Tag := G_ERROR | G_OFFLINE | G_DISPLAY_OFF | G_STORAGE_CRITICAL | G_ORPHANED | G_MAINTENANCE.
#[export] Instance Tag_eq_dec : EqDecision Tag.
Proof. solve_decision. Defined.
Definition Tag_value (t : Tag) : string :=
  match t with
  | G_ERROR => "error" | G_OFFLINE => "offline" | G_DISPLAY_OFF => "display-off"
  | G_STORAGE_CRITICAL => "storage-critical" | G_ORPHANED => "orphaned" | G_MAINTENANCE => "maintenance"
  end.

Definition SEVERITY_TAGS : list Tag := [G_ERROR; G_OFFLINE; G_DISPLAY_OFF; G_STORAGE_CRITICAL; G_ORPHANED; G_MAINTENANCE].
Definition NEEDS_ATTENTION_TAGS : list Tag := [G_ERROR; G_OFFLINE; G_DISPLAY_OFF; G_STORAGE_CRITICAL; G_ORPHANED].
Definition CRITICAL_TAGS : list Tag := [G_ERROR; G_OFFLINE; G_STORAGE_CRITICAL].
Definition WARNING_TAGS : list Tag := [G_DISPLAY_OFF; G_ORPHANED].

(** A decorated device. Its display ports are given by their connected flags;
    an absent or false flag is [false]. *)
Record TDevice := mkTDevice {
  td_status : DeviceStatus; td_is_online : bool; td_error : option string; td_pipeline_state : string;
  td_display_ports : list bool; td_display_connected : option bool; td_storage_capacity_mb : Z; td_storage_used_mb : Z;
  td_is_upgrading : bool; td_update_available : bool
}.

Definition _is_display_off (d : TDevice) : bool :=
  td_is_online d &&
  match td_display_ports d with
  | [] => bool_decide (td_display_connected d = Some false)
  | ports => forallb negb ports
  end.

(** [(cap - used) / cap * 100.0] as a fraction: free and capacity. *)
Definition _free_storage_pct (d : TDevice) : option (Z * Z) :=
  if td_storage_capacity_mb d <=? 0 then None
  else Some (td_storage_capacity_mb d - td_storage_used_mb d, td_storage_capacity_mb d).
(** Below five per cent. *)
Definition storage_critical (d : TDevice) : bool :=
  match _free_storage_pct d with Some (free, cap) => free * 100 <? 5 * cap | None => false end.

Definition may_manage (user_perms : option (list string)) : bool :=
  match user_perms with None => true | Some perms => bool_decide ("devices:manage" ∈ perms) end.

Definition device_severity_tags (user_perms : option (list string)) (d : TDevice) : list Tag :=
  match td_status d with
  | D_PENDING => []
  | D_ORPHANED => [G_ORPHANED]
  | D_ADOPTED =>
      (if td_is_online d then
         (if bool_decide (is_Some (truthy (td_error d))) || bool_decide (td_pipeline_state d = "ERROR") then [G_ERROR] else []) ++
         (if _is_display_off d then [G_DISPLAY_OFF] else [])
       else [G_OFFLINE]) ++
      (if storage_critical d then [G_STORAGE_CRITICAL] else []) ++
      (if (td_is_upgrading d || td_update_available d) && may_manage user_perms then [G_MAINTENANCE] else [])
  end.

Definition is_needs_attention (tags : list Tag) : bool := existsb (λ t, bool_decide (t ∈ NEEDS_ATTENTION_TAGS)) tags.
Definition is_critical (tags : list Tag) : bool := existsb (λ t, bool_decide (t ∈ CRITICAL_TAGS)) tags.
Definition is_warning (tags : list Tag) : bool :=
  negb (is_critical tags) && existsb (λ t, bool_decide (t ∈ WARNING_TAGS)) tags.

(** ** Counts *)

(** The keys of the result of [fleet_counts]. *)
Inductive CountKey := N_all | N_needs_attention | N_critical | N_warning | N_healthy | N_tag (t : Tag).
#[export] Instance CountKey_eq_dec : EqDecision CountKey.
Proof. solve_decision. Defined.
Abbreviation counts := (list (CountKey * Z)).

Definition zero_counts : counts :=
  ((λ k, (k, 0)) <$> [N_all; N_needs_attention; N_critical; N_warning; N_healthy]) ++ ((λ t, (N_tag t, 0)) <$> SEVERITY_TAGS).

(** [counts[k] += 1]. *)
Definition count_up (k : CountKey) (c : counts) : counts := aset k ((aget k c or_else 0) + 1) c.

(** The keys that one device adds to. *)
Definition device_keys (user_perms : option (list string)) (d : TDevice) : list CountKey :=
  if bool_decide (td_status d = D_PENDING) then []
  else match device_severity_tags user_perms d with
       | [] => [N_all; N_healthy]
       | tags => [N_all] ++ (if is_needs_attention tags then [N_needs_attention] else []) ++
                 (if is_critical tags then [N_critical] else if is_warning tags then [N_warning] else []) ++ (N_tag <$> tags)
       end.

Definition count_device (user_perms : option (list string)) (c : counts) (d : TDevice) : counts :=
  fold_left (λ c k, count_up k c) (device_keys user_perms d) c.

Definition fleet_counts (user_perms : option (list string)) (devices : list TDevice) : counts :=
  fold_left (count_device user_perms) devices zero_counts.

(** ** Facts *)

(** The shapes of the tags of an adopted device. *)
Lemma adopted_tags perms d :
  td_status d = D_ADOPTED →
  ∃ on err off sto mai : bool, device_severity_tags perms d =
    (if on then (if err then [G_ERROR] else []) ++ (if off then [G_DISPLAY_OFF] else []) else [G_OFFLINE]) ++
    (if sto then [G_STORAGE_CRITICAL] else []) ++ (if mai then [G_MAINTENANCE] else []).
Proof. intros Ha. unfold device_severity_tags. rewrite Ha. by do 5 eexists. Qed.

Lemma tags_NoDup perms d : NoDup (device_severity_tags perms d).
Proof.
  destruct (decide (td_status d = D_ADOPTED)) as [Ha|Ha].
  - destruct (adopted_tags perms d Ha) as (on & err & off & sto & mai & ->).
    destruct on, err, off, sto, mai; apply (bool_decide_unpack _); by vm_compute.
  - unfold device_severity_tags. destruct (td_status d); [apply NoDup_nil_2|done|apply NoDup_singleton].
Qed.

Lemma device_keys_NoDup perms d : NoDup (device_keys perms d).
Proof.
  unfold device_keys. pose proof (tags_NoDup perms d) as Hnd.
  assert (Htags : ∀ a b c, NoDup ([N_all] ++ (if a : bool then [N_needs_attention] else []) ++
                     (if b : bool then [N_critical] else if c : bool then [N_warning] else []) ++ (N_tag <$> device_severity_tags perms d))).
  { intros a b c. rewrite !app_assoc. apply NoDup_app. split_and!.
    - destruct a, b, c; apply (bool_decide_unpack _); vm_compute; done.
    - intros k Hk (t & -> & _)%list_elem_of_fmap. destruct a, b, c; cbn in Hk; set_solver.
    - apply NoDup_fmap_2_strong; [|done]. by intros ?? _ _ [= ->]. }
  case_bool_decide; [apply NoDup_nil_2|]. destruct (device_severity_tags perms d) eqn:E; [|apply Htags].
  apply (bool_decide_unpack _); vm_compute; done.
Qed.

Lemma aget_count_up k k' c : aget k' (count_up k c) or_else 0 = (aget k' c or_else 0) + (if decide (k' = k) then 1 else 0).
Proof. unfold count_up. rewrite aget_aset. case_decide; [by subst|]. lia. Qed.

Lemma aget_count_keys ks c k :
  NoDup ks → aget k (fold_left (λ c k, count_up k c) ks c) or_else 0 = (aget k c or_else 0) + (if decide (k ∈ ks) then 1 else 0).
Proof.
  revert c. induction ks as [|k0 ks IH]; intros c Hnd; cbn [fold_left].
  - rewrite decide_False; [lia|]. by intros ?%elem_of_nil.
  - apply NoDup_cons in Hnd as [Hnin Hnd]. rewrite IH, aget_count_up by done. destruct (decide (k = k0)) as [->|Hne].
    + rewrite decide_False by done. rewrite decide_True by left. lia.
    + destruct (decide (k ∈ ks)) as [Hin|Hin].
      * rewrite decide_True by (by right). lia.
      * rewrite decide_False; [lia|]. by intros [?|?]%elem_of_cons.
Qed.

(** How many devices a key is about. *)
Definition about (perms : option (list string)) (k : CountKey) (d : TDevice) : Prop :=
  let tags := device_severity_tags perms d in
  td_status d ≠ D_PENDING ∧
  match k with
  | N_all => True
  | N_healthy => tags = []
  | N_needs_attention => ∃ t, t ∈ tags ∧ t ∈ NEEDS_ATTENTION_TAGS
  | N_critical => ∃ t, t ∈ tags ∧ t ∈ CRITICAL_TAGS
  | N_warning => (∀ t, t ∈ tags → t ∉ CRITICAL_TAGS) ∧ ∃ t, t ∈ tags ∧ t ∈ WARNING_TAGS
  | N_tag t => t ∈ tags
  end.

Lemma existsb_tags (tags bucket : list Tag) :
  existsb (λ t, bool_decide (t ∈ bucket)) tags = true ↔ ∃ t, t ∈ tags ∧ t ∈ bucket.
Proof.
  rewrite existsb_exists. split; intros (t & Ht & Hb); exists t; rewrite <-?list_elem_of_In in *;
    [by apply bool_decide_eq_true in Hb|by rewrite bool_decide_eq_true].
Qed.
Lemma existsb_tags_false (tags bucket : list Tag) :
  existsb (λ t, bool_decide (t ∈ bucket)) tags = false ↔ ∀ t, t ∈ tags → t ∉ bucket.
Proof.
  rewrite <-not_true_iff_false, existsb_tags. split; [intros Hn t Ht Hb; apply Hn; by exists t|].
  intros Hn (t & Ht & Hb). by apply (Hn t).
Qed.

Lemma elem_of_if (b : bool) (x k : CountKey) : k ∈ (if b then [x] else []) ↔ b = true ∧ k = x.
Proof. destruct b; rewrite ?list_elem_of_singleton, ?elem_of_nil; naive_solver. Qed.
Lemma elem_of_if2 (c w : bool) (x y k : CountKey) :
  k ∈ (if c then [x] else if negb c && w then [y] else []) ↔ (c = true ∧ k = x) ∨ (negb c && w = true ∧ k = y).
Proof. destruct c, w; cbn; rewrite ?list_elem_of_singleton, ?elem_of_nil; naive_solver. Qed.

Lemma device_keys_about perms k d : k ∈ device_keys perms d ↔ about perms k d.
Proof.
  unfold device_keys, about. cbv zeta. case_bool_decide as Hp; [split; [by intros ?%elem_of_nil|by intros []]|].
  destruct (device_severity_tags perms d) as [|t0 ts] eqn:E.
  { destruct k; set_solver. }
  assert (Hne : t0 :: ts ≠ []) by done. set (tags := t0 :: ts) in *. clearbody tags. clear E.
  unfold is_warning, is_needs_attention, is_critical. rewrite !elem_of_app, elem_of_if, elem_of_if2, list_elem_of_singleton,
    list_elem_of_fmap. destruct k as [| | | | |t]; (split; [intros [H|[[? H]|[[[? H]|[? H]]|(t' & H & ?)]]]; try discriminate|intros [Hd H]]).
  - done.
  - by left.
  - split; [done|]. by apply existsb_tags.
  - right; left. split; [by apply existsb_tags|done].
  - split; [done|]. by apply existsb_tags.
  - right; right; left; left. split; [by apply existsb_tags|done].
  - split; [done|]. rewrite andb_true_iff, negb_true_iff, existsb_tags, existsb_tags_false in *. tauto.
  - right; right; left; right. split; [|done]. rewrite andb_true_iff, negb_true_iff, existsb_tags, existsb_tags_false. tauto.
  - done.
  - injection H as ->. done.
  - right; right; right. by exists t.
Qed.
#[export] Instance about_dec perms k d : Decision (about perms k d).
Proof. refine (cast_if (decide (k ∈ device_keys perms d))); by rewrite <-device_keys_about. Defined.

(** Each count of the triage bar is the number of devices it is about:
    [all] counts the devices that are not pending, [healthy] those without a
    tag, each tag those that carry it, and the buckets those with a tag of the
    bucket, [warning] only without a critical one. *)
Theorem fleet_counts_exact perms devices k :
  aget k (fleet_counts perms devices) or_else 0 = Z.of_nat (length (filter (about perms k) devices)).
Proof.
  assert (Hgen : ∀ c, aget k (fold_left (count_device perms) devices c) or_else 0 =
                      (aget k c or_else 0) + Z.of_nat (length (filter (about perms k) devices))).
  { induction devices as [|d ds IH]; intros c; cbn [fold_left]; [cbn; lia|]. rewrite IH. unfold count_device.
    rewrite aget_count_keys by apply device_keys_NoDup. rewrite filter_cons.
    pose proof (device_keys_about perms k d). destruct (decide (k ∈ device_keys perms d)), (decide (about perms k d));
      try tauto; cbn [length]; lia. }
  unfold fleet_counts. rewrite Hgen. by replace (aget k zero_counts or_else 0) with 0 by (by destruct k as [| | | | |[]]).
Qed.

(** Every device that counts is in exactly one of: healthy, needs attention, or
    under maintenance only; and a device that needs attention is in exactly
    one of the critical and the warning bucket. *)
Theorem buckets_partition perms devices :
  let n k := aget k (fleet_counts perms devices) or_else 0 in
  n N_needs_attention = n N_critical + n N_warning ∧
  n N_all = n N_healthy + n N_needs_attention +
    Z.of_nat (length (filter (λ d, td_status d ≠ D_PENDING ∧ device_severity_tags perms d = [G_MAINTENANCE]) devices)).
Proof.
  cbv beta zeta. rewrite !fleet_counts_exact. induction devices as [|d ds [IH1 IH2]]; [done|]. rewrite !filter_cons.
  assert (Hd : (if decide (about perms N_needs_attention d) then 1 else 0) =
                 (if decide (about perms N_critical d) then 1 else 0) + (if decide (about perms N_warning d) then 1 else 0) ∧
               (if decide (about perms N_all d) then 1 else 0) =
                 (if decide (about perms N_healthy d) then 1 else 0) + (if decide (about perms N_needs_attention d) then 1 else 0) +
                 (if decide (td_status d ≠ D_PENDING ∧ device_severity_tags perms d = [G_MAINTENANCE]) then 1 else 0)).
  { assert (Hb : ∀ k, (if decide (about perms k d) then 1 else 0) = if bool_decide (k ∈ device_keys perms d) then 1 else 0).
    { intros k. pose proof (device_keys_about perms k d). repeat case_decide || case_bool_decide; tauto. }
    rewrite !Hb. clear Hb. assert (Hm : (if decide (td_status d ≠ D_PENDING ∧ device_severity_tags perms d = [G_MAINTENANCE]) then 1 else 0) =
      if negb (bool_decide (td_status d = D_PENDING)) && bool_decide (device_severity_tags perms d = [G_MAINTENANCE]) then 1 else 0).
    { case_decide as H; repeat case_bool_decide; cbn; tauto. }
    rewrite Hm. clear. unfold device_keys. destruct (decide (td_status d = D_ADOPTED)) as [Ha|Ha].
    - destruct (adopted_tags perms d Ha) as (on & err & off & sto & mai & ->). rewrite Ha.
      destruct on, err, off, sto, mai; by vm_compute.
    - unfold device_severity_tags. by destruct (td_status d). }
  destruct Hd as [Hd1 Hd2]. repeat case_decide; cbn [length] in *; lia.
Qed.
