(* ===== verification/Notifications.v ===== *)
(** * The notification inbox (cms/routers/notifications.py, models/notification.py)

    Who sees a notification, and the per-user read and dismissed state.  Group
    and system notifications are shared rows; [notification_reads] keeps what
    each user did with them. *)

From S2P Require Import Prelude Models.
Open Scope Z_scope.

(** ** Rows *)

Definition NOTIFICATIONS_SYSTEM : string := "notifications:system".
Definition GROUPS_VIEW_ALL : string := "groups:view_all".

(** A notification with the groups of its [notification_groups] rows. *)
Record NRow := mkNRow {
  nf_id : uuid; nf_scope : string; nf_user_id : option uuid; nf_group_id : option uuid; nf_group_targets : list uuid;
  nf_created_at : Z; nf_read_at : option Z
}.

Record ReadRow := mkRead { rd_read_at : option Z; rd_dismissed_at : option Z }.

(** [notification_reads] is keyed by notification and user. *)
Record NotifDb := mkNotifDb { nd_notes : list NRow; nd_reads : gmap (uuid * uuid) ReadRow }.

(** The user of a request: the permissions of the role, if there is one, and
    the groups ([_user_group_ids]). *)
Record NUser := mkNUser { nu_id : uuid; nu_role : option (list string); nu_groups : list uuid }.

Definition with_read_at (t : option Z) (n : NRow) : NRow :=
  mkNRow (nf_id n) (nf_scope n) (nf_user_id n) (nf_group_id n) (nf_group_targets n) (nf_created_at n) t.

(** ** Queries *)

Definition _visibility_clause (u : NUser) (n : NRow) : bool :=
  let perms := nu_role u or_else [] in
  (bool_decide (NOTIFICATIONS_SYSTEM ∈ perms) && bool_decide (nf_scope n = "system")) ||
  (if bool_decide (GROUPS_VIEW_ALL ∈ perms) then
     bool_decide (nf_scope n = "group") && (negb (bool_decide (nf_group_targets n = [])) || bool_decide (is_Some (nf_group_id n)))
   else
     bool_decide (nf_scope n = "group") &&
     (existsb (λ g, bool_decide (g ∈ nu_groups u)) (nf_group_targets n) ||
      match nf_group_id n with Some g => bool_decide (g ∈ nu_groups u) | None => false end)) ||
  (bool_decide (nf_scope n = "user") && bool_decide (nf_user_id n = Some (nu_id u))).

(** The read row of the outer join. *)
Definition read_row (u : NUser) (db : NotifDb) (n : NRow) : option ReadRow := nd_reads db !! (nf_id n, nu_id u).

Definition dismissed (u : NUser) (db : NotifDb) (n : NRow) : bool :=
  bool_decide (is_Some (row ← read_row u db n; rd_dismissed_at row)).

(** [coalesce(read_row.read_at, notifications.read_at)]. *)
Definition _effective_read_at_clause (u : NUser) (db : NotifDb) (n : NRow) : option Z :=
  match (row ← read_row u db n; rd_read_at row) with Some t => Some t | None => nf_read_at n end.

(** [_visible_query]. *)
Definition listed (u : NUser) (db : NotifDb) (n : NRow) : bool := _visibility_clause u n && negb (dismissed u db n).
Definition _visible_query (u : NUser) (db : NotifDb) : list NRow := filter (λ n, listed u db n = true) (nd_notes db).

Definition is_unread (u : NUser) (db : NotifDb) (n : NRow) : bool :=
  bool_decide (_effective_read_at_clause u db n = None).
Definition unread_rows (u : NUser) (db : NotifDb) : list NRow := filter (λ n, is_unread u db n = true) (_visible_query u db).

(** [_get_visible_notification]. *)
Definition _get_visible_notification (nid : uuid) (u : NUser) (db : NotifDb) : result exn (NRow * option Z) :=
  match filter (λ n, nf_id n = nid) (_visible_query u db) with
  | [] => Err (HTTPException 404)
  | n :: _ => Ok (n, _effective_read_at_clause u db n)
  end.

(** [ORDER BY created_at DESC, id DESC]. *)
Definition newest_first (a b : NRow) : bool :=
  (nf_created_at b <? nf_created_at a) ||
  ((nf_created_at a =? nf_created_at b) && negb (String.ltb (nf_id a) (nf_id b))).

Definition list_notifications (unread_only : bool) (limit : nat) (u : NUser) (db : NotifDb) : list (NRow * option Z) :=
  let rows := if unread_only then unread_rows u db else _visible_query u db in
  (λ n, (n, _effective_read_at_clause u db n)) <$> take limit (sort_on newest_first rows).

Definition notification_count (u : NUser) (db : NotifDb) : Z := Z.of_nat (length (unread_rows u db)).

(** ** Operations *)

(** [INSERT ... ON CONFLICT DO UPDATE SET read_at] and [SET dismissed_at]. *)
Definition upsert_read (t : option Z) (k : uuid * uuid) (reads : gmap (uuid * uuid) ReadRow) : gmap (uuid * uuid) ReadRow :=
  <[k := match reads !! k with Some row => mkRead t (rd_dismissed_at row) | None => mkRead t None end]> reads.
Definition upsert_dismissed (t : option Z) (k : uuid * uuid) (reads : gmap (uuid * uuid) ReadRow) : gmap (uuid * uuid) ReadRow :=
  <[k := match reads !! k with Some row => mkRead (rd_read_at row) t | None => mkRead None t end]> reads.

(** [_set_legacy_user_read_at] on the row with the id. *)
Definition _set_legacy_user_read_at (nid : uuid) (t : Z) (notes : list NRow) : list NRow :=
  (λ n, if bool_decide (nf_id n = nid ∧ nf_scope n = "user") then with_read_at (Some t) n else n) <$> notes.

Definition mark_read (clk : Z) (nid : uuid) (u : NUser) (db : NotifDb) : NotifDb * result exn Z :=
  match _get_visible_notification nid u db with
  | Err e => (db, Err e)
  | Ok (_, existing_read_at) =>
      let read_at := existing_read_at or_else clk in
      (mkNotifDb (_set_legacy_user_read_at nid read_at (nd_notes db)) (upsert_read (Some read_at) (nid, nu_id u) (nd_reads db)),
       Ok read_at)
  end.

Inductive Dialect := postgresql | sqlite.

(** [INSERT ... ON CONFLICT DO NOTHING]. *)
Definition insert_missing (row : ReadRow) (k : uuid * uuid) (reads : gmap (uuid * uuid) ReadRow) : gmap (uuid * uuid) ReadRow :=
  match reads !! k with Some _ => reads | None => <[k := row]> reads end.

(** The writes of [mark_all_read] and [delete_all_notifications] to the read
    rows: one upsert in PostgreSQL, an insert and an update in SQLite. *)
Definition read_all_rows (dialect : Dialect) (clk : Z) (ids : list uuid) (u : NUser) (reads : gmap (uuid * uuid) ReadRow) :=
  match dialect with
  | postgresql => foldr (λ i, upsert_read (Some clk) (i, nu_id u)) reads ids
  | sqlite =>
      foldr (λ i, alter (λ row, mkRead (Some clk) (rd_dismissed_at row)) (i, nu_id u))
        (foldr (λ i, insert_missing (mkRead (Some clk) None) (i, nu_id u)) reads ids) (fromkeys ids)
  end.
Definition dismiss_all_rows (dialect : Dialect) (clk : Z) (ids : list uuid) (u : NUser) (reads : gmap (uuid * uuid) ReadRow) :=
  match dialect with
  | postgresql => foldr (λ i, upsert_dismissed (Some clk) (i, nu_id u)) reads ids
  | sqlite =>
      foldr (λ i, alter (λ row, mkRead (rd_read_at row) (Some clk)) (i, nu_id u))
        (foldr (λ i, insert_missing (mkRead None (Some clk)) (i, nu_id u)) reads ids) (fromkeys ids)
  end.

Definition mark_all_read (dialect : Dialect) (clk : Z) (u : NUser) (db : NotifDb) : NotifDb * Z :=
  let ids := nf_id <$> unread_rows u db in
  match ids with
  | [] => (db, 0)
  | _ =>
      (mkNotifDb
         ((λ n, if bool_decide (nf_id n ∈ ids ∧ nf_scope n = "user" ∧ nf_user_id n = Some (nu_id u))
                then with_read_at (Some clk) n else n) <$> nd_notes db)
         (read_all_rows dialect clk ids u (nd_reads db)),
       Z.of_nat (length ids))
  end.

Definition delete_notification (clk : Z) (nid : uuid) (u : NUser) (db : NotifDb) : NotifDb * result exn unit :=
  match _get_visible_notification nid u db with
  | Err e => (db, Err e)
  | Ok (n, _) =>
      (mkNotifDb
         ((λ m, if bool_decide (nf_id m = nid ∧ nf_scope n = "user" ∧ nf_user_id n = Some (nu_id u) ∧ nf_read_at n = None)
                then with_read_at (Some clk) m else m) <$> nd_notes db)
         (upsert_dismissed (Some clk) (nid, nu_id u) (nd_reads db)), Ok ())
  end.

Definition delete_all_notifications (dialect : Dialect) (clk : Z) (u : NUser) (db : NotifDb) : NotifDb * Z :=
  let ids := nf_id <$> _visible_query u db in
  match ids with
  | [] => (db, 0)
  | _ => (mkNotifDb (nd_notes db) (dismiss_all_rows dialect clk ids u (nd_reads db)), Z.of_nat (length ids))
  end.

(** ** Facts *)

Section facts.
Implicit Types (u v : NUser) (db : NotifDb) (n : NRow).

(** The primary key. *)
Definition ids_unique db : Prop := NoDup (nf_id <$> nd_notes db).

Lemma fold_partial_alter (g : option ReadRow → option ReadRow) (w : uuid) (ids : list uuid) (m : gmap (uuid * uuid) ReadRow) k :
  NoDup ids →
  foldr (λ i, partial_alter g (i, w)) m ids !! k =
  if bool_decide (k.2 = w ∧ k.1 ∈ ids) then g (m !! k) else m !! k.
Proof.
  intros Hnd. induction ids as [|i ids IH]; cbn [foldr].
  { rewrite bool_decide_eq_false_2; [done|]. by intros [_ ?%elem_of_nil]. }
  apply NoDup_cons in Hnd as [Hnin Hnd]. destruct k as [j y]. cbn [fst snd] in *. destruct (decide ((i, w) = (j, y))) as [Heq|Hne].
  - injection Heq as <- <-. rewrite lookup_partial_alter_eq, IH by done.
    rewrite bool_decide_eq_false_2 by (by intros [_ ?]). rewrite bool_decide_eq_true_2; [done|]. split; [done|left].
  - rewrite lookup_partial_alter_ne, IH by done. rewrite (bool_decide_ext (y = w ∧ j ∈ i :: ids) (y = w ∧ j ∈ ids)); [done|].
    rewrite elem_of_cons. naive_solver.
Qed.

Lemma fold_op_ext (f g : uuid * uuid → gmap (uuid * uuid) ReadRow → gmap (uuid * uuid) ReadRow) (w : uuid) (ids : list uuid) m :
  (∀ k m, f k m = g k m) → foldr (λ i, f (i, w)) m ids = foldr (λ i, g (i, w)) m ids.
Proof. intros Hfg. induction ids as [|i ids IH]; [done|]. cbn [foldr]. by rewrite IH, Hfg. Qed.

Lemma upsert_read_alter t k m :
  upsert_read t k m = partial_alter (λ o, Some (match o with Some row => mkRead t (rd_dismissed_at row) | None => mkRead t None end)) k m.
Proof.
  unfold upsert_read. apply map_eq. intros k'. destruct (decide (k = k')) as [->|Hne].
  - by rewrite lookup_insert_eq, lookup_partial_alter_eq.
  - by rewrite lookup_insert_ne, lookup_partial_alter_ne.
Qed.
Lemma upsert_dismissed_alter t k m :
  upsert_dismissed t k m = partial_alter (λ o, Some (match o with Some row => mkRead (rd_read_at row) t | None => mkRead None t end)) k m.
Proof.
  unfold upsert_dismissed. apply map_eq. intros k'. destruct (decide (k = k')) as [->|Hne].
  - by rewrite lookup_insert_eq, lookup_partial_alter_eq.
  - by rewrite lookup_insert_ne, lookup_partial_alter_ne.
Qed.
Lemma insert_missing_alter row k m : insert_missing row k m = partial_alter (λ o, Some (o or_else row)) k m.
Proof.
  unfold insert_missing. apply map_eq. intros k'. destruct (m !! k) as [r|] eqn:Hk; (destruct (decide (k = k')) as [->|Hne];
    [rewrite lookup_partial_alter_eq, Hk; by rewrite ?lookup_insert_eq|rewrite lookup_partial_alter_ne by done; by rewrite ?lookup_insert_ne by done]).
Qed.

Lemma fromkeys_NoDup (l : list uuid) : NoDup l → fromkeys l = l.
Proof.
  intros Hnd. unfold fromkeys. assert (E : remove_dups (reverse l) = reverse l).
  { assert (Hr : NoDup (reverse l)) by by rewrite reverse_Permutation. revert Hr. generalize (reverse l) as k.
    induction k as [|x k IH]; [done|]. intros [Hx Hk]%NoDup_cons. cbn. destruct (decide_rel _ _ _); [done|by rewrite IH]. }
  by rewrite E, reverse_involutive.
Qed.

(** What the bulk writes do to a read row, in either dialect. *)
Lemma read_all_rows_lookup dialect clk ids u reads k :
  NoDup ids →
  read_all_rows dialect clk ids u reads !! k =
  if bool_decide (k.2 = nu_id u ∧ k.1 ∈ ids) then Some (mkRead (Some clk) (row ← reads !! k; rd_dismissed_at row)) else reads !! k.
Proof.
  intros Hnd. destruct dialect; cbn [read_all_rows].
  - rewrite (fold_op_ext _ _ _ _ _ (upsert_read_alter (Some clk))), fold_partial_alter by done.
    case_bool_decide; [|done]. by destruct (reads !! k).
  - rewrite fromkeys_NoDup by done. unfold alter, map_alter. rewrite fold_partial_alter by done.
    rewrite (fold_op_ext _ _ _ _ _ (insert_missing_alter _)), fold_partial_alter by done.
    case_bool_decide; [|done]. by destruct (reads !! k).
Qed.
Lemma dismiss_all_rows_lookup dialect clk ids u reads k :
  NoDup ids →
  dismiss_all_rows dialect clk ids u reads !! k =
  if bool_decide (k.2 = nu_id u ∧ k.1 ∈ ids) then Some (mkRead (row ← reads !! k; rd_read_at row) (Some clk)) else reads !! k.
Proof.
  intros Hnd. destruct dialect; cbn [dismiss_all_rows].
  - rewrite (fold_op_ext _ _ _ _ _ (upsert_dismissed_alter (Some clk))), fold_partial_alter by done.
    case_bool_decide; [|done]. by destruct (reads !! k).
  - rewrite fromkeys_NoDup by done. unfold alter, map_alter. rewrite fold_partial_alter by done.
    rewrite (fold_op_ext _ _ _ _ _ (insert_missing_alter _)), fold_partial_alter by done.
    case_bool_decide; [|done]. by destruct (reads !! k).
Qed.

Lemma visible_ids_NoDup u db : ids_unique db → NoDup (nf_id <$> _visible_query u db).
Proof. apply NoDup_fmap_filter. Qed.
Lemma unread_ids_NoDup u db : ids_unique db → NoDup (nf_id <$> unread_rows u db).
Proof. intros Hu. by apply NoDup_fmap_filter, visible_ids_NoDup. Qed.

(** The rows of another user, or of the same one with the same read row. *)
Lemma listed_ext v db db' n n' :
  nf_id n' = nf_id n → _visibility_clause v n' = _visibility_clause v n → read_row v db' n' = read_row v db n →
  listed v db' n' = listed v db n.
Proof. intros Hid Hv Hr. unfold listed, dismissed. by rewrite Hv, Hr. Qed.

Lemma visibility_with_read_at v t n : _visibility_clause v (with_read_at t n) = _visibility_clause v n.
Proof. done. Qed.

Lemma user_note_invisible u v n :
  nf_scope n = "user" → nf_user_id n = Some (nu_id u) → nu_id v ≠ nu_id u → _visibility_clause v n = false.
Proof.
  intros Hs Hu Hne. unfold _visibility_clause. rewrite Hs, Hu.
  rewrite (bool_decide_eq_false_2 ("user" = "system")), (bool_decide_eq_false_2 ("user" = "group")) by done.
  rewrite (bool_decide_eq_false_2 (Some (nu_id u) = Some (nu_id v))) by congruence.
  rewrite !andb_false_r. by destruct (bool_decide _).
Qed.

Lemma visible_user_note u n :
  _visibility_clause u n = true → nf_scope n = "user" → nf_user_id n = Some (nu_id u).
Proof.
  unfold _visibility_clause. intros Hv Hs. rewrite Hs in Hv.
  rewrite (bool_decide_eq_false_2 ("user" = "system")), (bool_decide_eq_false_2 ("user" = "group")) in Hv by done.
  rewrite andb_false_r in Hv. cbn [andb orb] in Hv.
  replace (if bool_decide (GROUPS_VIEW_ALL ∈ nu_role u or_else []) then false else false) with false in Hv by (by case_match).
  cbn [orb] in Hv. by apply andb_true_iff in Hv as [_ Hv%bool_decide_eq_true].
Qed.

(** Changing rows that [v] does not see, and read rows of others. *)
Lemma other_user_same v db db' (h : NRow → NRow) :
  nd_notes db' = h <$> nd_notes db →
  (∀ n, n ∈ nd_notes db → h n = n ∨ (h n = with_read_at (nf_read_at (h n)) n ∧ _visibility_clause v n = false)) →
  (∀ nid, nd_reads db' !! (nid, nu_id v) = nd_reads db !! (nid, nu_id v)) →
  ∀ b limit, list_notifications b limit v db' = list_notifications b limit v db.
Proof.
  intros Hnotes Hh Hreads b limit.
  assert (Heff : ∀ n, _effective_read_at_clause v db' n = _effective_read_at_clause v db n).
  { intros n. unfold _effective_read_at_clause, read_row. by rewrite Hreads. }
  assert (Hlist : ∀ n, listed v db' n = listed v db n) by (intros n; apply listed_ext; [done|done|apply Hreads]).
  assert (Hq : _visible_query v db' = _visible_query v db).
  { unfold _visible_query. rewrite Hnotes. revert Hh. generalize (nd_notes db) as l. induction l as [|n l IH]; intros Hh; [done|].
    cbn [fmap list_fmap]. rewrite !filter_cons, IH by (intros m Hm; apply Hh; by right). rewrite Hlist.
    destruct (Hh n ltac:(left)) as [->|[E Hv]]; [done|]. unfold listed. rewrite E, visibility_with_read_at, Hv. cbn.
    by rewrite !decide_False. }
  assert (Hu : unread_rows v db' = unread_rows v db).
  { unfold unread_rows. rewrite Hq. apply list_filter_iff. intros n. unfold is_unread. by rewrite Heff. }
  unfold list_notifications. rewrite Hq, Hu. apply list_fmap_ext. intros i n _. by rewrite Heff.
Qed.

Inductive inbox_op := Mark_read (nid : uuid) | Mark_all_read | Delete (nid : uuid) | Delete_all.
Definition inbox_step (dialect : Dialect) (clk : Z) u (op : inbox_op) db : NotifDb :=
  match op with
  | Mark_read nid => (mark_read clk nid u db).1
  | Mark_all_read => (mark_all_read dialect clk u db).1
  | Delete nid => (delete_notification clk nid u db).1
  | Delete_all => (delete_all_notifications dialect clk u db).1
  end.

Lemma get_visible_inv nid u db n t :
  _get_visible_notification nid u db = Ok (n, t) →
  n ∈ nd_notes db ∧ nf_id n = nid ∧ listed u db n = true ∧ t = _effective_read_at_clause u db n.
Proof.
  unfold _get_visible_notification. destruct (filter _ _) as [|m l] eqn:E; [done|]. intros [= <- <-].
  assert (Hin : m ∈ filter (λ n, nf_id n = nid) (_visible_query u db)) by (rewrite E; left).
  apply list_elem_of_filter in Hin as [Hid Hin]. apply list_elem_of_filter in Hin as [Hl Hin]. done.
Qed.

Lemma listed_user_note u db n : listed u db n = true → nf_scope n = "user" → nf_user_id n = Some (nu_id u).
Proof. intros [Hv _]%andb_true_iff. by apply visible_user_note. Qed.

Lemma same_id_same_row db n m : ids_unique db → n ∈ nd_notes db → m ∈ nd_notes db → nf_id n = nf_id m → n = m.
Proof. apply NoDup_fmap_eq. Qed.

(** Users do not touch each other's inbox: whatever a user reads or
    dismisses, one notification or all of them, in either database dialect,
    every other user gets the same list with the same read times, read or
    unread, of any length. *)
Theorem inbox_isolated dialect clk u v op db :
  ids_unique db → nu_id v ≠ nu_id u →
  ∀ b limit, list_notifications b limit v (inbox_step dialect clk u op db) = list_notifications b limit v db.
Proof.
  intros Huniq Hne. assert (Hid : ∀ d : NotifDb, nd_notes d = id <$> nd_notes d) by (intros d; by rewrite list_fmap_id).
  assert (Hself : ∀ n : NRow, n ∈ nd_notes db → id n = n ∨ (id n = with_read_at (nf_read_at (id n)) n ∧ _visibility_clause v n = false)) by auto.
  destruct op as [nid| |nid|]; cbn [inbox_step].
  - unfold mark_read. destruct (_get_visible_notification nid u db) as [[n t]|] eqn:Hg; [|done].
    apply get_visible_inv in Hg as (Hn & Hnid & Hl & ->). cbn [fst]. eapply other_user_same; [reflexivity|..]; cbn [nd_reads].
    + intros m Hm. case_bool_decide as Hc; [|by left]. destruct Hc as [Hmid Hs]. right. split; [done|].
      assert (m = n) as -> by (apply (same_id_same_row db); congruence).
      by apply (user_note_invisible u); [|apply (listed_user_note _ db)|].
    + intros j. unfold upsert_read. rewrite lookup_insert_ne; [done|congruence].
  - unfold mark_all_read. destruct (nf_id <$> unread_rows u db) as [|i ids] eqn:Hids; [done|]. rewrite <-Hids. cbn [fst].
    eapply other_user_same; [reflexivity|..]; cbn [nd_reads].
    + intros m Hm. case_bool_decide as Hc; [|by left]. destruct Hc as (_ & Hs & Hu). right. split; [done|].
      by apply (user_note_invisible u).
    + intros j. rewrite read_all_rows_lookup by by apply unread_ids_NoDup. rewrite bool_decide_eq_false_2; [done|]. by intros [? _].
  - unfold delete_notification. destruct (_get_visible_notification nid u db) as [[n t]|] eqn:Hg; [|done].
    apply get_visible_inv in Hg as (Hn & Hnid & Hl & _). cbn [fst]. eapply other_user_same; [reflexivity|..]; cbn [nd_reads].
    + intros m Hm. case_bool_decide as Hc; [|by left]. destruct Hc as (Hmid & Hs & Hu & _). right. split; [done|].
      assert (m = n) as -> by (apply (same_id_same_row db); congruence). by apply (user_note_invisible u).
    + intros j. unfold upsert_dismissed. rewrite lookup_insert_ne; [done|congruence].
  - unfold delete_all_notifications. destruct (nf_id <$> _visible_query u db) as [|i ids] eqn:Hids; [done|]. rewrite <-Hids. cbn [fst].
    eapply (other_user_same _ _ _ id); [apply (Hid (mkNotifDb (nd_notes db) _))|exact Hself|]; cbn [nd_reads].
    intros j. rewrite dismiss_all_rows_lookup by by apply visible_ids_NoDup. rewrite bool_decide_eq_false_2; [done|]. by intros [? _].
Qed.

(** *** What an operation does to the user's own inbox *)

Lemma newest_first_map (h : NRow → NRow) l :
  (∀ n, nf_id (h n) = nf_id n ∧ nf_created_at (h n) = nf_created_at n) →
  sort_on newest_first (h <$> l) = h <$> sort_on newest_first l.
Proof.
  intros Hh. apply sort_on_map. intros a b. unfold newest_first. destruct (Hh a) as [-> ->]. by destruct (Hh b) as [-> ->].
Qed.

(** The id of a listed notification and its read time. *)
Definition summary (p : NRow * option Z) : uuid * option Z := (nf_id p.1, p.2).

Lemma own_list u db db' (h : NRow → NRow) (t : NRow → option Z) :
  nd_notes db' = h <$> nd_notes db →
  (∀ n, nf_id (h n) = nf_id n ∧ nf_created_at (h n) = nf_created_at n) →
  (∀ n, n ∈ nd_notes db → listed u db' (h n) = listed u db n) →
  (∀ n, n ∈ _visible_query u db → _effective_read_at_clause u db' (h n) = t n) →
  ∀ limit, summary <$> list_notifications false limit u db' =
           (λ n, (nf_id n, t n)) <$> take limit (sort_on newest_first (_visible_query u db)).
Proof.
  intros Hnotes Hh Hl Ht limit. unfold list_notifications.
  assert (Hq : _visible_query u db' = h <$> _visible_query u db).
  { unfold _visible_query. rewrite Hnotes. revert Hl. generalize (nd_notes db) as l. induction l as [|n l IH]; intros Hl; [done|].
    cbn [fmap list_fmap]. rewrite !filter_cons, IH by (intros m Hm; apply Hl; by right). rewrite Hl by left. by case_decide. }
  rewrite Hq, (newest_first_map h) by done. rewrite <-fmap_take, <-!list_fmap_compose. apply list_fmap_ext. intros i n Hin.
  unfold summary, compose. cbn [fst snd]. destruct (Hh n) as [-> _]. f_equal. apply Ht. apply list_elem_of_lookup_2 in Hin. apply elem_of_take in Hin as (j & Hj & _).
  apply list_elem_of_lookup_2 in Hj. by rewrite sort_on_Permutation in Hj.
Qed.

Lemma summary_list u db limit :
  summary <$> list_notifications false limit u db =
  (λ n, (nf_id n, _effective_read_at_clause u db n)) <$> take limit (sort_on newest_first (_visible_query u db)).
Proof. unfold list_notifications. by rewrite <-list_fmap_compose. Qed.

Lemma unread_rows_nil u db :
  (∀ n, n ∈ _visible_query u db → _effective_read_at_clause u db n ≠ None) → unread_rows u db = [].
Proof. intros H. apply filter_nil_intro. intros n Hn Hu%bool_decide_eq_true. by apply (H n). Qed.

Lemma visible_query_map u db db' h :
  nd_notes db' = h <$> nd_notes db → (∀ n, n ∈ nd_notes db → listed u db' (h n) = listed u db n) →
  _visible_query u db' = h <$> _visible_query u db.
Proof.
  intros Hnotes. unfold _visible_query. rewrite Hnotes. generalize (nd_notes db) as l. induction l as [|n l IH]; intros Hl; [done|].
  cbn [fmap list_fmap]. rewrite !filter_cons, IH by (intros m Hm; apply Hl; by right). rewrite Hl by left. by case_decide.
Qed.

(** "Mark all read" marks exactly the unread ones: it answers the number
    the unread badge showed, the badge shows zero afterwards, and the user's
    list is the same, with the notifications that were read keeping their read
    time and the others read now, in either database dialect. *)
Theorem mark_all_read_exact dialect clk u db :
  ids_unique db →
  let r := mark_all_read dialect clk u db in
  r.2 = notification_count u db ∧ notification_count u r.1 = 0 ∧
  ∀ limit, summary <$> list_notifications false limit u r.1 =
           (λ p, (p.1, Some (p.2 or_else clk))) <$> (summary <$> list_notifications false limit u db).
Proof.
  intros Huniq. cbv zeta. unfold mark_all_read, notification_count. destruct (nf_id <$> unread_rows u db) as [|i ids] eqn:Hids.
  { apply fmap_nil_inv in Hids. cbn [fst snd]. rewrite Hids. split_and!; [done|done|]. intros limit.
    rewrite !summary_list, <-list_fmap_compose. apply list_fmap_ext. intros j n Hj. unfold compose. cbn [fst snd]. f_equal.
    apply list_elem_of_lookup_2, elem_of_take in Hj as (j' & Hj & _). apply list_elem_of_lookup_2 in Hj.
    rewrite sort_on_Permutation in Hj. destruct (_effective_read_at_clause u db n) as [t0|] eqn:He; [reflexivity|]. exfalso.
    assert (Hin : n ∈ unread_rows u db) by (apply list_elem_of_filter; split; [by apply bool_decide_eq_true|done]).
    rewrite Hids in Hin. by apply elem_of_nil in Hin. }
  rewrite <-Hids. clear i ids Hids. cbn [fst snd]. rewrite length_fmap. split; [done|].
  set (ids := nf_id <$> unread_rows u db). set (h := λ n, if bool_decide (nf_id n ∈ ids ∧ _) then _ else n).
  set (db' := mkNotifDb (h <$> nd_notes db) _).
  assert (Hids : NoDup ids) by by apply unread_ids_NoDup.
  assert (Hmem : ∀ n, n ∈ _visible_query u db → nf_id n ∈ ids ↔ _effective_read_at_clause u db n = None).
  { intros n Hn. unfold ids. rewrite list_elem_of_fmap. split.
    - intros (m & Hid & Hm). apply list_elem_of_filter in Hm as [Hm1%bool_decide_eq_true Hm2].
      assert (n = m) as ->; [|done]. apply list_elem_of_filter in Hn as [_ Hn], Hm2 as [_ Hm2]. by apply (same_id_same_row db).
    - intros He. exists n. split; [done|]. apply list_elem_of_filter. split; [by apply bool_decide_eq_true|done]. }
  assert (Hh : ∀ n, nf_id (h n) = nf_id n ∧ nf_created_at (h n) = nf_created_at n) by (intros n; unfold h; by case_bool_decide).
  assert (Hrow : ∀ n, read_row u db' (h n) = if bool_decide (nf_id n ∈ ids)
            then Some (mkRead (Some clk) (row ← read_row u db n; rd_dismissed_at row)) else read_row u db n).
  { intros n. unfold read_row at 1. cbn [db' nd_reads]. destruct (Hh n) as [-> _]. rewrite read_all_rows_lookup by done. cbn [fst snd].
    rewrite (bool_decide_ext (nu_id u = nu_id u ∧ nf_id n ∈ ids) (nf_id n ∈ ids)) by tauto. done. }
  assert (Hl : ∀ n, n ∈ nd_notes db → listed u db' (h n) = listed u db n).
  { intros n _. unfold listed, dismissed. rewrite Hrow. f_equal; [unfold h; by case_bool_decide|]. f_equal.
    apply bool_decide_ext. case_bool_decide; [|done]. cbn. done. }
  assert (Heff : ∀ n, n ∈ _visible_query u db → _effective_read_at_clause u db' (h n) = Some (_effective_read_at_clause u db n or_else clk)).
  { intros n Hn. unfold _effective_read_at_clause at 1. rewrite Hrow. case_bool_decide as Hin.
    - apply Hmem in Hin; [|done]. by rewrite Hin.
    - destruct (_effective_read_at_clause u db n) as [t|] eqn:He; [|by destruct Hin; apply Hmem].
      unfold h. rewrite bool_decide_eq_false_2 by (by intros [? _]). cbn. exact He. }
  split.
  - rewrite unread_rows_nil; [done|]. rewrite (visible_query_map u db db' h) by done. intros m (n & -> & Hn)%list_elem_of_fmap.
    by rewrite Heff.
  - intros limit. rewrite (own_list u db db' h _ eq_refl Hh Hl Heff), summary_list, <-list_fmap_compose. done.
Qed.

(** "Dismiss all" answers how many were visible and leaves none. *)
Theorem delete_all_exact dialect clk u db :
  ids_unique db →
  let r := delete_all_notifications dialect clk u db in
  r.2 = Z.of_nat (length (_visible_query u db)) ∧ _visible_query u r.1 = [] ∧ notification_count u r.1 = 0.
Proof.
  intros Huniq. cbv zeta. unfold delete_all_notifications.
  assert (Hnil : ∀ d, _visible_query u d = [] → notification_count u d = 0) by (intros d Hd; unfold notification_count, unread_rows; by rewrite Hd).
  destruct (nf_id <$> _visible_query u db) as [|i ids] eqn:Hids.
  { apply fmap_nil_inv in Hids. cbn [fst snd]. rewrite Hids. split_and!; [done|done|]. by apply Hnil. }
  rewrite <-Hids. clear i ids Hids. cbn [fst snd]. rewrite length_fmap. split; [done|]. set (db' := mkNotifDb _ _).
  assert (Hq : _visible_query u db' = []).
  { apply filter_nil_intro. intros n Hn Hl. unfold listed in Hl. apply andb_true_iff in Hl as [Hv Hd].
    unfold dismissed, read_row in Hd. cbn [db' nd_reads] in Hd. rewrite dismiss_all_rows_lookup in Hd by by apply visible_ids_NoDup.
    cbn [fst snd] in Hd. destruct (bool_decide_reflect (nu_id u = nu_id u ∧ nf_id n ∈ nf_id <$> _visible_query u db)) as [Hc|Hc]; [done|].
    destruct Hc. split; [done|]. apply list_elem_of_fmap_2, list_elem_of_filter. split; [|done].
    unfold listed, dismissed, read_row. by rewrite Hv. }
  split; [done|]. by apply Hnil.
Qed.

(** Reading one: 404 unless it is visible; the first read time is kept. *)
Theorem mark_read_exact clk nid u db :
  ids_unique db →
  match mark_read clk nid u db with
  | (db', Err e) => db' = db ∧ e = HTTPException 404 ∧ ∀ n, n ∈ _visible_query u db → nf_id n ≠ nid
  | (db', Ok t) =>
      (∃ n, n ∈ _visible_query u db ∧ nf_id n = nid ∧ t = _effective_read_at_clause u db n or_else clk) ∧
      ∀ limit, summary <$> list_notifications false limit u db' =
               (λ p, (p.1, if bool_decide (p.1 = nid) then Some t else p.2)) <$> (summary <$> list_notifications false limit u db)
  end.
Proof.
  intros Huniq. unfold mark_read. destruct (_get_visible_notification nid u db) as [[n t0]|e] eqn:Hg.
  2: { unfold _get_visible_notification in Hg. destruct (filter _ _) as [|? ?] eqn:E; [|done]. injection Hg as <-. split_and!; [done|done|].
    intros n Hn Hid. assert (Hin : n ∈ filter (λ n, nf_id n = nid) (_visible_query u db)) by by apply list_elem_of_filter.
    rewrite E in Hin. by apply elem_of_nil in Hin. }
  apply get_visible_inv in Hg as (Hn & Hnid & Hl & ->). set (t := _ or_else clk).
  split; [exists n; split_and!; [by apply list_elem_of_filter|done|done]|].
  intros limit. set (db' := mkNotifDb _ _). set (h := λ n, if bool_decide (nf_id n = nid ∧ nf_scope n = "user") then with_read_at (Some t) n else n).
  assert (Hh : ∀ n, nf_id (h n) = nf_id n ∧ nf_created_at (h n) = nf_created_at n) by (intros m; unfold h; by case_bool_decide).
  assert (Hrow : ∀ m, read_row u db' (h m) = if bool_decide (nf_id m = nid)
            then Some (mkRead (Some t) (row ← read_row u db m; rd_dismissed_at row)) else read_row u db m).
  { intros m. unfold read_row. cbn [db' nd_reads]. destruct (Hh m) as [-> _]. unfold upsert_read. case_bool_decide as Hm.
    - rewrite Hm, lookup_insert_eq. by destruct (nd_reads db !! _).
    - rewrite lookup_insert_ne; [done|congruence]. }
  rewrite (own_list u db db' h (λ m, if bool_decide (nf_id m = nid) then Some t else _effective_read_at_clause u db m) eq_refl Hh).
  - rewrite summary_list, <-list_fmap_compose. done.
  - intros m _. unfold listed, dismissed. rewrite Hrow. f_equal; [unfold h; by case_bool_decide|]. f_equal. apply bool_decide_ext.
    by case_bool_decide.
  - intros m _. unfold _effective_read_at_clause at 1. rewrite Hrow. case_bool_decide as Hm; [done|].
    unfold h. rewrite bool_decide_eq_false_2 by (by intros [? _]). done.
Qed.
End facts.

(** ** Witnesses *)

Definition alice : NUser := mkNUser "alice" (Some [NOTIFICATIONS_SYSTEM]) ["g1"].
Definition bob : NUser := mkNUser "bob" (Some []) ["g1"].
Definition two_notes : NotifDb :=
  mkNotifDb [mkNRow "n1" "system" None None [] 1 None; mkNRow "n2" "group" None (Some "g1") ["g1"] 2 None] ∅.

Lemma two_notes_unique : ids_unique two_notes.
Proof. unfold ids_unique. apply (bool_decide_unpack _). by vm_compute. Qed.

Lemma inbox_isolated_witness :
  list_notifications true 10 bob (inbox_step postgresql 5 alice Mark_all_read two_notes) =
  [(mkNRow "n2" "group" None (Some "g1") ["g1"] 2 None, None)].
Proof.
  rewrite (inbox_isolated postgresql 5 alice bob Mark_all_read two_notes two_notes_unique); [|discriminate].
  by vm_compute.
Defined.

Lemma mark_all_read_exact_witness :
  notification_count alice two_notes = 2 ∧ notification_count alice (mark_all_read postgresql 5 alice two_notes).1 = 0.
Proof.
  split; [by vm_compute|]. exact (proj1 (proj2 (mark_all_read_exact postgresql 5 alice two_notes two_notes_unique))).
Defined.
