(* ===== verification/Ota.v ===== *)
(** * Firmware upgrades (cms/services/ota_progress.py, routers/devices.py,
      routers/ws.py and wps_webhook.py: register, main.py: backfill)

    The columns of [devices] that follow an upgrade: the claim taken by the
    upgrade endpoint, and the projection of the lifecycle events. *)

From Stdlib Require Import QArith.
From S2P Require Import Prelude Clock Models Presence PyText.
Open Scope Z_scope.

(** ** Lifecycle events *)

Inductive OtaEvent :=
  | ota_download_started | ota_download_progress | ota_signature_verified | ota_staged | ota_stage_progress
  | ota_extract_progress | ota_tryboot_initiated | ota_slot_confirmed | ota_promoted | ota_migration_complete
  | ota_failed | ota_declined.
#[export] Instance OtaEvent_eq_dec : EqDecision OtaEvent.
Proof. solve_decision. Defined.

(** [WIRE_TO_CMS_EVENT]. *)
Definition WIRE_TO_CMS_EVENT : list (string * OtaEvent) :=
  [("download_started", ota_download_started); ("download_progress", ota_download_progress);
   ("signature_verified", ota_signature_verified); ("staged", ota_staged); ("stage_progress", ota_stage_progress);
   ("extract_progress", ota_extract_progress); ("tryboot_initiated", ota_tryboot_initiated);
   ("slot_confirmed", ota_slot_confirmed); ("promoted", ota_promoted); ("migration_complete", ota_migration_complete);
   ("failed", ota_failed); ("declined", ota_declined)].

Definition _PHASE_ORDER (e : OtaEvent) : Z :=
  match e with
  | ota_download_started => 10 | ota_download_progress => 20 | ota_signature_verified => 30 | ota_staged => 40
  | ota_stage_progress => 50 | ota_extract_progress => 50 | ota_tryboot_initiated => 70 | ota_slot_confirmed => 80
  | ota_promoted => 90 | ota_migration_complete => 100 | ota_failed => 999 | ota_declined => 999
  end.

Definition _TERMINAL (e : OtaEvent) : bool :=
  match e with ota_promoted | ota_migration_complete | ota_failed | ota_declined => true | _ => false end.

Definition OTA_STUCK_PHASE : OtaEvent := ota_tryboot_initiated.

Definition _PHASE_LABELS (e : OtaEvent) : string :=
  match e with
  | ota_download_started => "Starting download" | ota_download_progress => "Downloading bundle"
  | ota_signature_verified => "Verifying signature" | ota_staged => "Staging bundle" | ota_stage_progress => "Staging"
  | ota_extract_progress => "Extracting bundle" | ota_tryboot_initiated => "Rebooting into new slot"
  | ota_slot_confirmed => "Confirming new slot" | ota_promoted => "Promoted" | ota_migration_complete => "Promoted"
  | ota_failed => "Failed" | ota_declined => "Declined"
  end.

Definition _STAGE_SUBPHASE_LABELS : list (string * string) :=
  [("extracting_meta", "Extracting metadata"); ("mounting_inactive", "Mounting inactive slot");
   ("wiping_inactive", "Wiping inactive slot"); ("extracting_boot", "Extracting boot");
   ("extracting_rootfs", "Extracting rootfs"); ("verifying_manifest", "Verifying manifest");
   ("copying_fleet_state", "Copying fleet state"); ("finalizing", "Finalizing")].
Definition _EXTRACT_SUBPHASE_LABELS : list (string * string) :=
  [("extracting_boot", "Extracting boot"); ("extracting_rootfs", "Extracting rootfs")].

(** ** The row *)

(** The columns of the upgrade; the first group is the projection. *)
Record OtaRow := mkOtaRow {
  or_phase : option OtaEvent; or_label : option string; or_pct : option Q; or_bytes_done : option Z; or_bytes_total : option Z;
  or_updated_at : option Z;
  or_upgrade_started_at : option Z; or_upgrade_cooldown_until : option Z;
  or_firmware_version : string; or_os_version : string; or_last_seen : option Z
}.

(** The columns of OTA_PROJECTION_FIELD_NAMES set to NULL, with a claim. *)
Definition clear_projection (claim : option Z) (d : OtaRow) : OtaRow :=
  mkOtaRow None None None None None None claim (or_upgrade_cooldown_until d) (or_firmware_version d) (or_os_version d) (or_last_seen d).
Definition with_claim (claim cooldown : option Z) (d : OtaRow) : OtaRow :=
  mkOtaRow (or_phase d) (or_label d) (or_pct d) (or_bytes_done d) (or_bytes_total d) (or_updated_at d) claim cooldown
    (or_firmware_version d) (or_os_version d) (or_last_seen d).

(** ** The projection *)

(** [int(v)] of a JSON value; numbers are finite. *)
Definition py_int (v : Json) : option Z :=
  match v with
  | JBool b => Some (if b then 1 else 0)
  | JNum q => Some (Z.quot (Qnum q) (Zpos (Qden q)))
  | JStr s => int_of_str s
  | _ => None
  end.
Definition _safe_int (v : option Json) : option Z :=
  match v with
  | None | Some JNull => None
  | Some v => match py_int v with Some i => if 0 <=? i then Some i else None | None => None end
  end.

(** [done / total * 100.0], clamped; the quotient is kept exact. *)
Definition _safe_pct (done total : option Z) : option Q :=
  match done, total with
  | Some d, Some t =>
      if t <=? 0 then None
      else let pct := (inject_Z (d * 100) / inject_Z t)%Q in
           Some (if Qle_bool 0 pct then if Qle_bool pct 100 then pct else 100%Q else 0%Q)
  | _, _ => None
  end.

Abbreviation payload := (list (string * Json)).

(** A label of the table, when the sub-phase is a string in it. *)
Definition sub_label (labels : list (string * string)) (v : option Json) : option string :=
  match v with Some (JStr s) => aget s labels | _ => None end.

Definition _derive (e : OtaEvent) (p : payload) : string * option Q * option Z * option Z :=
  let done := _safe_int (aget "bytes_done" p) in
  let total := _safe_int (aget "bytes_total" p) in
  match e with
  | ota_download_progress => (_PHASE_LABELS e, _safe_pct done total, done, total)
  | ota_stage_progress => (sub_label _STAGE_SUBPHASE_LABELS (aget "phase" p) or_else _PHASE_LABELS e, None, None, None)
  | ota_extract_progress =>
      (sub_label _EXTRACT_SUBPHASE_LABELS (aget "phase" p) or_else _PHASE_LABELS e, _safe_pct done total, done, total)
  | _ => (_PHASE_LABELS e, None, None, None)
  end.

Definition cur_order (d : OtaRow) : Z := match or_phase d with Some e => _PHASE_ORDER e | None => -1 end.

Definition handle_event (clk : Z) (e : OtaEvent) (p : payload) (d : OtaRow) : OtaRow * bool :=
  if (_PHASE_ORDER e <? cur_order d) && negb (_TERMINAL e) then (d, false)
  else if _TERMINAL e then (clear_projection None d, true)
  else
    let '(label, pct, bytes_done, bytes_total) := _derive e p in
    if (_PHASE_ORDER e =? cur_order d) &&
       match bytes_done, or_bytes_done d with Some b, Some prev => b <? prev | _, _ => false end
    then (d, false)
    else (mkOtaRow (Some e) (Some label) pct bytes_done bytes_total (Some clk) (or_upgrade_started_at d)
            (or_upgrade_cooldown_until d) (or_firmware_version d) (or_os_version d) (or_last_seen d), true).

(** The events that leave a row in the event log (the others are progress). *)
Definition logged_event (e : OtaEvent) : bool :=
  match e with
  | ota_download_progress | ota_stage_progress | ota_extract_progress | ota_signature_verified | ota_staged
  | ota_tryboot_initiated | ota_slot_confirmed | ota_promoted => false
  | _ => true
  end.

(** The LIFECYCLE_EVENT branch of [dispatch_device_message]: the row, and the
    event to log with whether the projection took it. *)
Definition lifecycle_event (clk : Z) (wire_type : string) (p : payload) (d : OtaRow) : OtaRow * option (OtaEvent * bool) :=
  match aget wire_type WIRE_TO_CMS_EVENT with
  | None => (d, None)
  | Some e => let '(d', mutated) := handle_event clk e p d in (d', if logged_event e then Some (e, mutated) else None)
  end.

(** ** What the API shows *)

Definition UPGRADE_TTL : Z := 15 * 60 * 1000000.
Definition SEND_FAILURE_COOLDOWN : Z := 10 * 1000000.
Definition OTA_FRESH_TTL : Z := 2 * 60 * 1000000.
Definition STUCK_TRYBOOT_TTL : Z := 15 * 60 * 1000000.

Definition _is_upgrading (now : Z) (d : OtaRow) : bool :=
  match or_upgrade_started_at d with Some t => now - t <? UPGRADE_TTL | None => false end.

Definition _is_upgrade_stuck (now : Z) (d : OtaRow) : bool :=
  bool_decide (or_phase d = Some ota_tryboot_initiated) &&
  match or_updated_at d with Some t => STUCK_TRYBOOT_TTL <=? now - t | None => false end.

Definition _ota_fields_for_out (now : Z) (d : OtaRow) : option OtaEvent * option string * option Q * option Z * option Z :=
  match or_updated_at d with
  | Some t => if OTA_FRESH_TTL <=? now - t then (None, None, None, None, None)
              else (or_phase d, or_label d, or_pct d, or_bytes_done d, or_bytes_total d)
  | None => (None, None, None, None, None)
  end.

(** ** The upgrade endpoint *)

(** The cached bundle of the device's channel. *)
Record Bundle := mkBundle { bu_release_id : string; bu_target_version : string }.

(** The conditions of the claiming UPDATE. *)
Definition claimable (claim_ts : Z) (d : OtaRow) : bool :=
  match or_upgrade_started_at d with None => true | Some t => t <? claim_ts - UPGRADE_TTL end &&
  match or_upgrade_cooldown_until d with None => true | Some t => t <? claim_ts end.

(** Up to and including the claim; [Ok] carries the claim. *)
Definition upgrade_begin (clk : Z) (connected : bool) (d : OtaRow) : OtaRow * result exn Z :=
  if negb connected then (d, Err (HTTPException 409))
  else if _is_upgrade_stuck clk d then (d, Err (HTTPException 409))
  else if claimable clk d then (with_claim (Some clk) (or_upgrade_cooldown_until d) d, Ok clk)
  else (d, Err (HTTPException 409)).

Definition _release_claim (claimed : Z) (d : OtaRow) : OtaRow :=
  if bool_decide (or_upgrade_started_at d = Some claimed) then with_claim None (or_upgrade_cooldown_until d) d else d.
Definition _release_with_cooldown (now claimed : Z) (d : OtaRow) : OtaRow :=
  if bool_decide (or_upgrade_started_at d = Some claimed) then with_claim None (Some (now + SEND_FAILURE_COOLDOWN)) d else d.

(** After the claim: the bundle, the version the request read, the dispatch. *)
Definition upgrade_end (now claimed : Z) (os_version : string) (latest : option Bundle) (sent : bool) (d : OtaRow)
    : OtaRow * result exn string :=
  match latest with
  | None => (_release_claim claimed d, Err (HTTPException 503))
  | Some b =>
      if negb (bool_decide (os_version = "")) && bool_decide (os_version = bu_target_version b)
      then (_release_claim claimed d, Err (HTTPException 409))
      else if negb sent then (_release_with_cooldown now claimed d, Err (HTTPException 502))
      else (d, Ok (bu_release_id b))
  end.

(** ** After the reboot: registration and backfill *)

Definition opt_strip (s : option string) : string := str_strip (s or_else "").

Definition version_bumped (prior_os prior_fw incoming_os incoming_fw : option string) : bool :=
  let prior_os_s := opt_strip prior_os in
  let prior_fw_s := opt_strip prior_fw in
  let incoming_os_s := opt_strip incoming_os in
  let incoming_fw_s := opt_strip incoming_fw in
  if bool_decide (incoming_os_s = "") && bool_decide (incoming_fw_s = "") then false
  else
    let effective_os := if bool_decide (incoming_os_s = "") then prior_os_s else incoming_os_s in
    let effective_fw := if bool_decide (incoming_fw_s = "") then prior_fw_s else incoming_fw_s in
    negb (bool_decide ((effective_os, effective_fw) = (prior_os_s, prior_fw_s))).

(** The version columns after [register_known_device]. *)
Definition with_versions (fw os : string) (d : OtaRow) : OtaRow :=
  mkOtaRow (or_phase d) (or_label d) (or_pct d) (or_bytes_done d) (or_bytes_total d) (or_updated_at d) (or_upgrade_started_at d)
    (or_upgrade_cooldown_until d) fw os (or_last_seen d).
Definition refresh_versions (fw os : option string) (d : OtaRow) : OtaRow :=
  with_versions (truthy fw or_else or_firmware_version d) (truthy os or_else or_os_version d) d.

(** Clearing the claim at registration; [snap] is the row read before. *)
Definition clear_claim_at_register (snap : OtaRow) (fw os : option string) (d : OtaRow) : OtaRow :=
  match or_upgrade_started_at snap with
  | None => d
  | Some claim =>
      let reported := (opt_strip os, opt_strip fw) in
      let prior := (str_strip (or_os_version snap), str_strip (or_firmware_version snap)) in
      if negb (bool_decide (reported = ("", ""))) && negb (bool_decide (prior = reported)) then _release_claim claim d else d
  end.

(** Clearing a stuck projection at registration; whether an event is logged. *)
Definition clear_stuck_at_register (snap : OtaRow) (fw os : option string) (d : OtaRow) : OtaRow * bool :=
  match or_updated_at snap with
  | Some t =>
      if bool_decide (or_phase snap = Some OTA_STUCK_PHASE) &&
         version_bumped (Some (or_os_version snap)) (Some (or_firmware_version snap)) os fw
      then if bool_decide (or_updated_at d = Some t ∧ or_phase d = Some OTA_STUCK_PHASE)
           then (clear_projection (or_upgrade_started_at d) d, true) else (d, false)
      else (d, false)
  | None => (d, false)
  end.

(** The registration of a known device, as far as these columns go. *)
Definition register_ota (fw os : option string) (d : OtaRow) : OtaRow * bool :=
  clear_stuck_at_register d fw os (clear_claim_at_register d fw os (refresh_versions fw os d)).

Definition recover_window : Z := 5 * 60 * 1000000.
(** A row that [_backfill_stuck_ota_projection] clears. *)
Definition stuck_but_alive (now : Z) (d : OtaRow) : bool :=
  bool_decide (or_phase d = Some OTA_STUCK_PHASE) &&
  match or_updated_at d, or_last_seen d with
  | Some t, Some seen => (t <? now - 15 * 60 * 1000000) && (t + recover_window <? seen)
  | _, _ => false
  end.
Definition _backfill_stuck_ota_projection (now : Z) (rows : gmap string OtaRow) : gmap string OtaRow :=
  (λ d, if stuck_but_alive now d then clear_projection (or_upgrade_started_at d) d else d) <$> rows.

(** ** The projection never goes back *)

Definition deliver_event (d : OtaRow) (x : Z * OtaEvent * payload) : OtaRow := (handle_event x.1.1 x.1.2 x.2 d).1.
Definition live_event (x : Z * OtaEvent * payload) : Prop := _TERMINAL x.1.2 = false.

Lemma PHASE_ORDER_pos e : 0 < _PHASE_ORDER e.
Proof. by destruct e. Qed.

Lemma deliver_order d x : live_event x → cur_order (deliver_event d x) = Z.max (cur_order d) (_PHASE_ORDER x.1.2).
Proof.
  destruct x as [[clk e] p]. unfold live_event, deliver_event, handle_event. cbn [fst snd]. intros ->. rewrite andb_true_r.
  destruct (Z.ltb_spec (_PHASE_ORDER e) (cur_order d)) as [Hlt|Hge]; cbn [fst]; [lia|].
  destruct (_derive e p) as [[[label pct] done] total]. destruct (Z.eqb_spec (_PHASE_ORDER e) (cur_order d)) as [Heq|Hne]; cbn [andb].
  - destruct (match done with Some b => _ | None => false end); cbn [fst]; [lia|]. cbn. lia.
  - cbn. lia.
Qed.

Lemma deliver_all_order l d :
  Forall live_event l → cur_order (fold_left deliver_event l d) = foldr Z.max (cur_order d) ((λ x, _PHASE_ORDER x.1.2) <$> l).
Proof.
  intros Hl. revert d. induction Hl as [|x l Hx Hl IH]; intros d; [done|]. cbn [fold_left fmap list_fmap foldr].
  rewrite IH, deliver_order by done. clear. induction l as [|y l IH]; cbn [fmap list_fmap foldr]; lia.
Qed.

(** Rows in the same phase, up to the two events that share a step. *)
Definition same_phase (d1 d2 : OtaRow) : Prop := cur_order d1 = cur_order d2.

(** The phase shown for an upgrade is that of the most advanced event,
    whatever the order of delivery: two orders of the same progress events
    (repeats included) leave rows in the same phase, and that phase is the
    maximum of the row's and of the events'. *)
Theorem ota_phase_order_irrelevant l1 l2 d :
  l1 ≡ₚ l2 → Forall live_event l1 →
  same_phase (fold_left deliver_event l1 d) (fold_left deliver_event l2 d) ∧
  (∀ x, x ∈ l1 → _PHASE_ORDER x.1.2 ≤ cur_order (fold_left deliver_event l1 d)) ∧
  (cur_order (fold_left deliver_event l1 d) = cur_order d ∨
   ∃ x, x ∈ l1 ∧ cur_order (fold_left deliver_event l1 d) = _PHASE_ORDER x.1.2).
Proof.
  intros Hp Hl. assert (Hl2 : Forall live_event l2) by by rewrite <-Hp. unfold same_phase. rewrite !deliver_all_order by done.
  split; [|clear Hp Hl Hl2 l2; induction l1 as [|x l [IH1 IH2]]; cbn [fmap list_fmap foldr]].
  - clear Hl Hl2. induction Hp; cbn [fmap list_fmap foldr]; lia.
  - split; [by intros x ?%elem_of_nil|by left].
  - split.
    + intros y [->|Hy]%elem_of_cons; [lia|]. pose proof (IH1 y Hy). lia.
    + destruct (Z.max_spec (_PHASE_ORDER x.1.2) (foldr Z.max (cur_order d) ((λ x, _PHASE_ORDER x.1.2) <$> l))) as [[_ ->]|[_ ->]].
      * destruct IH2 as [->|(y & Hy & E)]; [by left|]. right. exists y. split; [by right|done].
      * right. exists x. split; [left|done].
Qed.

(** One event never moves the badge back: an event that ends the upgrade
    clears the projection and the claim; any other is either ignored, or moves
    to a later phase, or stays in the phase with no fewer bytes done. *)
Theorem ota_never_regresses clk e p d :
  let r := handle_event clk e p d in
  if _TERMINAL e then r.2 = true ∧ r.1 = clear_projection None d
  else or_upgrade_started_at r.1 = or_upgrade_started_at d ∧
    (r = (d, false) ∨
     (r.2 = true ∧ or_phase r.1 = Some e ∧ or_updated_at r.1 = Some clk ∧
      (cur_order d < cur_order r.1 ∨
       (cur_order r.1 = cur_order d ∧
        ∀ b b', or_bytes_done d = Some b → or_bytes_done r.1 = Some b' → b ≤ b')))).
Proof.
  cbv zeta. unfold handle_event. destruct (_TERMINAL e) eqn:Ht.
  - rewrite andb_false_r. done.
  - rewrite andb_true_r. destruct (Z.ltb_spec (_PHASE_ORDER e) (cur_order d)) as [Hlt|Hge]; [split; [done|by left]|].
    destruct (_derive e p) as [[[label pct] done] total]. destruct (Z.eqb_spec (_PHASE_ORDER e) (cur_order d)) as [Heq|Hne]; cbn [andb].
    + destruct done as [b|], (or_bytes_done d) as [prev|] eqn:Hprev;
        try (split; [done|right; split_and!; [done..|right; split; [done|cbn; congruence]]]).
      destruct (Z.ltb_spec b prev) as [Hb|Hb]; [split; [done|by left]|].
      split; [done|]. right. split_and!; [done..|]. right. split; [done|]. cbn. intros ? ? [= ->] [= ->]. lia.
    + split; [done|]. right. split_and!; [done..|]. left. cbn. lia.
Qed.

(** *** Values in range *)

Lemma safe_int_nonneg v i : _safe_int v = Some i → 0 ≤ i.
Proof.
  unfold _safe_int. intros H. assert (H' : ∃ j, (if 0 <=? j then Some j else None) = Some i).
  { destruct v as [[]|]; try discriminate; destruct (py_int _); try discriminate; by eexists. }
  destruct H' as (j & Hj). destruct (Z.leb_spec 0 j); [|done]. by injection Hj as <-.
Qed.

Definition pct_ok (pct : option Q) : Prop := ∀ q, pct = Some q → (0 <= q <= 100)%Q.

Lemma safe_pct_bounds done total : pct_ok (_safe_pct done total).
Proof.
  intros q. unfold _safe_pct. destruct done as [d|], total as [t|]; try done. destruct (t <=? 0); [done|].
  set (pct := (_ / _)%Q). intros [= <-]. destruct (Qle_bool 0 pct) eqn:H0; [|by split].
  destruct (Qle_bool pct 100) eqn:H1; [|by split]. split; by apply Qle_bool_iff.
Qed.

Definition ota_ok (d : OtaRow) : Prop :=
  pct_ok (or_pct d) ∧ (∀ b, or_bytes_done d = Some b → 0 ≤ b) ∧ (∀ b, or_bytes_total d = Some b → 0 ≤ b) ∧
  (is_Some (or_phase d) ↔ is_Some (or_updated_at d)) ∧ (∀ e, or_phase d = Some e → _TERMINAL e = false).

(** Everything that may happen to the row. *)
Inductive ota_op :=
  | U_event (clk : Z) (wire_type : string) (p : payload)
  | U_begin (clk : Z) (connected : bool)
  | U_end (now claimed : Z) (os_version : string) (latest : option Bundle) (sent : bool)
  | U_register (snap : OtaRow) (fw os : option string)
  | U_backfill (now : Z).

Definition ota_step (d : OtaRow) (op : ota_op) : OtaRow :=
  match op with
  | U_event clk w p => (lifecycle_event clk w p d).1
  | U_begin clk connected => (upgrade_begin clk connected d).1
  | U_end now claimed os latest sent => (upgrade_end now claimed os latest sent d).1
  | U_register snap fw os => (clear_stuck_at_register snap fw os (clear_claim_at_register snap fw os (refresh_versions fw os d))).1
  | U_backfill now => if stuck_but_alive now d then clear_projection (or_upgrade_started_at d) d else d
  end.

Lemma derive_ok e p : let '(_, pct, done, total) := _derive e p in
  pct_ok pct ∧ (∀ b, done = Some b → 0 ≤ b) ∧ (∀ b, total = Some b → 0 ≤ b).
Proof.
  unfold _derive. destruct e; cbv beta iota zeta; split_and!; try apply safe_pct_bounds; try (intros b Hb; by apply safe_int_nonneg in Hb); by intros ? ?.
Qed.

Lemma clear_projection_ok claim d : ota_ok (clear_projection claim d).
Proof. split_and!; cbn; try done; by intros ? ?. Qed.
Lemma with_claim_ok claim cd d : ota_ok d → ota_ok (with_claim claim cd d).
Proof. done. Qed.
Lemma release_claim_ok t d : ota_ok d → ota_ok (_release_claim t d).
Proof. unfold _release_claim. by case_bool_decide. Qed.

Lemma handle_event_ok clk e p d : ota_ok d → ota_ok (handle_event clk e p d).1.
Proof.
  intros Hd. unfold handle_event. destruct (_TERMINAL e) eqn:Ht; [rewrite andb_false_r; apply clear_projection_ok|].
  rewrite andb_true_r. destruct (_ <? _); [done|]. pose proof (derive_ok e p) as Hder.
  destruct (_derive e p) as [[[label pct] done] total]. destruct (_ && _); [done|]. destruct Hder as (H1 & H2 & H3).
  split_and!; [done..| |]; cbn; [done|]. by intros ? [= <-].
Qed.

(** The upgrade columns stay consistent: from a row that is, any sequence of
    lifecycle events, upgrade requests, registrations and backfills keeps the
    percentage between 0 and 100, the byte counts non-negative, the phase set
    exactly when its time is, and never a phase that has ended. *)
Theorem ota_columns_ok ops d : ota_ok d → ota_ok (fold_left ota_step ops d).
Proof.
  intros Hd. apply fold_left_inv; [done|]. clear d Hd. intros d op _ Hd.
  destruct op as [clk w p|clk connected|now claimed os latest sent|snap fw os|now]; cbn [ota_step].
  - unfold lifecycle_event. destruct (aget w WIRE_TO_CMS_EVENT) as [e|]; [|done].
    pose proof (handle_event_ok clk e p d Hd) as H. by destruct (handle_event clk e p d).
  - unfold upgrade_begin. destruct (negb connected); [done|]. destruct (_is_upgrade_stuck clk d); [done|]. by destruct (claimable clk d).
  - unfold upgrade_end. destruct latest as [b|]; [|by apply release_claim_ok].
    destruct (_ && _); [by apply release_claim_ok|]. destruct (negb sent); [|done].
    cbn [fst]. unfold _release_with_cooldown. by case_bool_decide.
  - set (d1 := clear_claim_at_register snap fw os (refresh_versions fw os d)).
    assert (Hd1 : ota_ok d1).
    { unfold d1, clear_claim_at_register. destruct (or_upgrade_started_at snap); [|done].
      destruct (_ && _); [by apply release_claim_ok|done]. }
    unfold clear_stuck_at_register. destruct (or_updated_at snap); [|done]. destruct (_ && _); [|done].
    case_bool_decide; [apply clear_projection_ok|done].
  - destruct (stuck_but_alive now d); [apply clear_projection_ok|done].
Qed.

(** ** The claim is a lock *)

(** The operation does not give the claim [t] back: it is not the failing end
    of the request that took it, not the end of the upgrade, and not a
    registration that reads as a new version; and it happens within the ttl. *)
Definition keeps_claim (t : Z) (op : ota_op) : Prop :=
  match op with
  | U_event _ w _ => match aget w WIRE_TO_CMS_EVENT with Some e => _TERMINAL e = false | None => True end
  | U_begin clk _ => clk ≤ t + UPGRADE_TTL
  | U_end _ claimed os latest sent =>
      claimed ≠ t ∨ (∃ b, latest = Some b ∧ sent = true ∧ (os = "" ∨ os ≠ bu_target_version b))
  | U_register snap fw os =>
      or_upgrade_started_at snap ≠ Some t ∨ (opt_strip os, opt_strip fw) = ("", "") ∨
      (opt_strip os, opt_strip fw) = (str_strip (or_os_version snap), str_strip (or_firmware_version snap))
  | U_backfill _ => True
  end.

Lemma release_other t t' d : or_upgrade_started_at d = Some t → t' ≠ t → _release_claim t' d = d.
Proof. intros Hd Hne. unfold _release_claim. rewrite bool_decide_eq_false_2; [done|congruence]. Qed.

Lemma keeps_claim_step t op d :
  or_upgrade_started_at d = Some t → keeps_claim t op → or_upgrade_started_at (ota_step d op) = Some t.
Proof.
  intros Hd Hk. destruct op as [clk w p|clk connected|now claimed os latest sent|snap fw os|now]; cbn [ota_step keeps_claim] in *.
  - unfold lifecycle_event. destruct (aget w WIRE_TO_CMS_EVENT) as [e|]; [|done].
    pose proof (ota_never_regresses clk e p d) as H. cbv zeta in H. rewrite Hk in H. destruct H as [H _].
    destruct (handle_event clk e p d). cbn in *. congruence.
  - unfold upgrade_begin. destruct (negb connected); [done|]. destruct (_is_upgrade_stuck clk d); [done|].
    unfold claimable. rewrite Hd. rewrite (proj2 (Z.ltb_ge _ _)) by lia. done.
  - unfold upgrade_end. destruct Hk as [Hne|(b & -> & -> & Hos)].
    + destruct latest as [b|]; cbn [fst]; [|by rewrite (release_other t)].
      destruct (_ && _); cbn [fst]; [by rewrite (release_other t)|]. destruct (negb sent); cbn [fst]; [|done].
      unfold _release_with_cooldown. rewrite bool_decide_eq_false_2; [done|congruence].
    + destruct (negb (bool_decide (os = "")) && bool_decide (os = bu_target_version b)) eqn:E; [|done].
      apply andb_true_iff in E as [E1%negb_true_iff%bool_decide_eq_false E2%bool_decide_eq_true]. by destruct Hos.
  - assert (Hc : or_upgrade_started_at (clear_claim_at_register snap fw os (refresh_versions fw os d)) = Some t).
    { unfold clear_claim_at_register. destruct (or_upgrade_started_at snap) as [t'|] eqn:Hs; [|done].
      destruct (negb (bool_decide ((opt_strip os, opt_strip fw) = ("", ""))) && _) eqn:E; [|done].
      apply andb_true_iff in E as [E1%negb_true_iff%bool_decide_eq_false E2%negb_true_iff%bool_decide_eq_false].
      destruct Hk as [Hne|[?|?]]; [|done|congruence]. rewrite (release_other t); [done|done|congruence]. }
    unfold clear_stuck_at_register. destruct (or_updated_at snap); [|done]. destruct (_ && _); [|done]. by case_bool_decide.
  - by destruct (stuck_but_alive now d).
Qed.

(** C37. While a request holds the upgrade claim of a device, no other request
    gets it: through any sequence of requests (their beginnings within the ttl
    of the claim, their ends with any other claim), lifecycle events that do
    not end the upgrade, registrations that do not read as a new version and
    backfills, the row keeps the claim and every further request is refused
    with 409; a stale request can never give it back. *)
Theorem upgrade_claim_exclusive t ops d clk connected :
  or_upgrade_started_at d = Some t → Forall (keeps_claim t) ops → clk ≤ t + UPGRADE_TTL →
  or_upgrade_started_at (fold_left ota_step ops d) = Some t ∧
  (upgrade_begin clk connected (fold_left ota_step ops d)).2 = Err (HTTPException 409).
Proof.
  intros Hd Hops Hclk. assert (H : or_upgrade_started_at (fold_left ota_step ops d) = Some t).
  { apply (fold_left_inv _ (λ d, or_upgrade_started_at d = Some t)); [done|]. intros d' op Hop Hd'.
    apply keeps_claim_step; [done|]. rewrite Forall_forall in Hops. by apply Hops. }
  split; [done|]. unfold upgrade_begin. destruct (negb connected); [done|]. destruct (_is_upgrade_stuck _ _); [done|].
  unfold claimable. rewrite H. by rewrite (proj2 (Z.ltb_ge _ _)) by lia.
Qed.

(** The claim is not for ever: a connected device that is not stuck gets the
    next request through once the ttl and the cooldown are over. *)
Lemma upgrade_claim_expires t clk d :
  or_upgrade_started_at d = Some t → t + UPGRADE_TTL < clk → _is_upgrade_stuck clk d = false →
  (∀ c, or_upgrade_cooldown_until d = Some c → c < clk) → (upgrade_begin clk true d).2 = Ok clk.
Proof.
  intros Hd Ht Hs Hc. unfold upgrade_begin. cbn [negb]. rewrite Hs. unfold claimable. rewrite Hd, (proj2 (Z.ltb_lt _ _)) by lia.
  destruct (or_upgrade_cooldown_until d) as [c|]; [|done]. rewrite (proj2 (Z.ltb_lt _ _)); [done|by apply Hc].
Qed.

(** ** After the upgrade *)

(** A version field that is present has a visible character. *)
Definition not_blank (s : option string) : Prop := ∀ t, s = Some t → str_strip t = "" → t = "".

(** [version_bumped] says whether registering changes the versions: it holds
    exactly when the version columns that [register_known_device] leaves
    differ from the ones before, up to surrounding blanks. *)
Theorem version_bumped_exact fw os d :
  not_blank fw → not_blank os →
  version_bumped (Some (or_os_version d)) (Some (or_firmware_version d)) os fw = true ↔
  (str_strip (or_os_version (refresh_versions fw os d)), str_strip (or_firmware_version (refresh_versions fw os d))) ≠
  (str_strip (or_os_version d), str_strip (or_firmware_version d)).
Proof.
  intros Hfw Hos. assert (H : ∀ (s : option string) old, not_blank s →
    str_strip (truthy s or_else old) = if bool_decide (opt_strip s = "") then str_strip old else opt_strip s).
  { intros [s|] old Hb; [|done]. unfold opt_strip. cbn [default]. case_bool_decide as E.
    - by rewrite (Hb s eq_refl E).
    - unfold truthy. destruct s; [done|]. done. }
  unfold version_bumped, refresh_versions. cbn [or_os_version or_firmware_version with_versions]. rewrite !H by done.
  change (opt_strip (Some ?s)) with (str_strip s). cbv zeta.
  change (opt_strip (Some (or_os_version d))) with (str_strip (or_os_version d)).
  change (opt_strip (Some (or_firmware_version d))) with (str_strip (or_firmware_version d)).
  destruct (bool_decide_reflect (opt_strip os = "")) as [Ho|Ho], (bool_decide_reflect (opt_strip fw = "")) as [Hf|Hf]; cbn [andb];
    rewrite ?negb_true_iff, ?bool_decide_eq_false; try tauto. split; [done|congruence].
Qed.

(** The backfill clears exactly the rows that are stuck although the device
    has been heard of since: it leaves every other row alone, never touches a
    claim, and no row it leaves is both stuck and seen more than five minutes
    after its last event. *)
Theorem backfill_exact now rows id d :
  rows !! id = Some d →
  ∃ d', _backfill_stuck_ota_projection now rows !! id = Some d' ∧ or_upgrade_started_at d' = or_upgrade_started_at d ∧
    (stuck_but_alive now d = false → d' = d) ∧
    (stuck_but_alive now d = true → or_phase d' = None ∧ _ota_fields_for_out now d' = (None, None, None, None, None)) ∧
    ∀ t seen, _is_upgrade_stuck (now - 1) d' = true → or_updated_at d' = Some t → or_last_seen d' = Some seen →
      seen ≤ t + recover_window.
Proof.
  intros Hd. unfold _backfill_stuck_ota_projection. rewrite lookup_fmap, Hd. eexists; split; [done|].
  destruct (stuck_but_alive now d) eqn:Hs; [by split_and!|]. split_and!; [done|done|done|].
  intros t seen Hst Ht Hseen. unfold _is_upgrade_stuck in Hst. apply andb_true_iff in Hst as [Hp%bool_decide_eq_true Hst].
  rewrite Ht in Hst. apply Z.leb_le in Hst. unfold stuck_but_alive in Hs. rewrite Ht, Hseen in Hs.
  rewrite (bool_decide_eq_true_2 (or_phase d = Some OTA_STUCK_PHASE)) in Hs by done. cbn [andb] in Hs.
  apply andb_false_iff in Hs as [Hs|Hs]; apply Z.ltb_ge in Hs; unfold STUCK_TRYBOOT_TTL in *; lia.
Qed.

(** ** Examples *)

Section examples.
Definition idle_row : OtaRow := mkOtaRow None None None None None None None None "1.0" "2.0" None.

(** A progress event that arrives after the end of the upgrade lights the badge
    again, and no terminal event follows to clear it. *)
Example late_progress_resurrects :
  let d := fold_left deliver_event [(1, ota_staged, []); (2, ota_promoted, []); (3, ota_stage_progress, [])] idle_row in
  or_phase d = Some ota_stage_progress ∧ or_label d = Some "Staging".
Proof. by vm_compute. Qed.

(** A late [failed] of an earlier upgrade gives back the claim of the next one,
    so that a second request gets through at once. *)
Example late_failure_drops_new_claim :
  let d1 := (upgrade_begin 5 true idle_row).1 in
  let d2 := (lifecycle_event 6 "failed" [] d1).1 in
  (upgrade_begin 6 true d1).2 = Err (HTTPException 409) ∧ (upgrade_begin 7 true d2).2 = Ok 7.
Proof. by vm_compute. Qed.

(** A registration that reports the same firmware and omits [os_version] gives
    back the claim of a running upgrade, although the versions have not
    changed. *)
Example partial_register_drops_claim :
  let d := (upgrade_begin 5 true idle_row).1 in
  version_bumped (Some "2.0") (Some "1.0") None (Some "1.0") = false ∧
  or_upgrade_started_at (register_ota (Some "1.0") None d).1 = None.
Proof. by vm_compute. Qed.
End examples.

(** ** Witnesses *)

Lemma ota_phase_order_irrelevant_witness :
  same_phase (fold_left deliver_event [(1, ota_staged, []); (2, ota_stage_progress, [])] idle_row)
             (fold_left deliver_event [(2, ota_stage_progress, []); (1, ota_staged, [])] idle_row).
Proof.
  refine (proj1 (ota_phase_order_irrelevant [(1, ota_staged, []); (2, ota_stage_progress, [])]
    [(2, ota_stage_progress, []); (1, ota_staged, [])] idle_row _ _)); [apply perm_swap|by repeat constructor].
Defined.

Lemma ota_columns_ok_witness :
  ota_ok (fold_left ota_step [U_begin 5 true; U_event 6 "staged" []; U_register idle_row None (Some "1.0")] idle_row).
Proof. apply (ota_columns_ok _ idle_row). split_and!; cbn; try done; by intros ? ?. Defined.

Lemma upgrade_claim_exclusive_witness :
  (upgrade_begin 9 true (fold_left ota_step [U_begin 6 true; U_event 7 "staged" []; U_backfill 8] (upgrade_begin 5 true idle_row).1)).2 =
  Err (HTTPException 409).
Proof.
  refine (proj2 (upgrade_claim_exclusive 5 [U_begin 6 true; U_event 7 "staged" []; U_backfill 8] (upgrade_begin 5 true idle_row).1 9 true
    eq_refl _ _)); [|by vm_compute]. repeat (apply Forall_cons; split); [by vm_compute..|apply Forall_nil; done].
Defined.
