(* ===== verification/Access.v ===== *)
(** * Authentication and permissions (cms/auth.py, cms/permissions.py)

    Who a request runs as, what that user may do, and which groups it reaches. *)

From S2P Require Import Prelude Models PyText.
Open Scope Z_scope.

(** ** Rows *)

Record Role := mkRole { rl_name : string; rl_permissions : list string; rl_is_builtin : bool }.

Record User := mkUser {
  us_username : string; us_email : string; us_password_hash : string; us_role_id : uuid; us_is_active : bool;
  us_must_change_password : bool; us_last_login_at : option Z;
  us_setup_token : option string; us_setup_token_created_at : option Z;
  us_reset_token : option string; us_reset_token_created_at : option Z
}.

(** [ak_user_id] is set to NULL when the user is deleted. *)
Record APIKey := mkAPIKey { ak_name : string; ak_key_hash : string; ak_key_type : string; ak_user_id : option uuid; ak_last_used_at : option Z }.

Record AuthDb := mkAuthDb {
  au_users : gmap uuid User; au_roles : gmap uuid Role; au_user_groups : gset (uuid * uuid); au_keys : gmap uuid APIKey;
  au_settings : gmap string string
}.

Definition role_of (db : AuthDb) (u : User) : option Role := au_roles db !! us_role_id u.

(** ** Permissions *)

Definition DEVICES_MANAGE : string := "devices:manage".
Definition DEVICES_REBOOT : string := "devices:reboot".
Definition DEVICES_DELETE : string := "devices:delete".
Definition GROUPS_VIEW_ALL : string := "groups:view_all".

Definition has_permission (user_permissions : list string) (required : string) : bool :=
  if bool_decide (required ∈ user_permissions) then true
  else if bool_decide (required = DEVICES_MANAGE)
       then bool_decide (DEVICES_REBOOT ∈ user_permissions) || bool_decide (DEVICES_DELETE ∈ user_permissions)
       else false.

(** ** Settings *)

Definition get_setting (db : AuthDb) (key : string) : option string := au_settings db !! key.
Definition put_settings (s : gmap string string) (db : AuthDb) : AuthDb :=
  mkAuthDb (au_users db) (au_roles db) (au_user_groups db) (au_keys db) s.
Definition put_keys (k : gmap uuid APIKey) (db : AuthDb) : AuthDb :=
  mkAuthDb (au_users db) (au_roles db) (au_user_groups db) k (au_settings db).
Definition put_users (u : gmap uuid User) (db : AuthDb) : AuthDb :=
  mkAuthDb u (au_roles db) (au_user_groups db) (au_keys db) (au_settings db).
Definition put_roles (r : gmap uuid Role) (db : AuthDb) : AuthDb :=
  mkAuthDb (au_users db) r (au_user_groups db) (au_keys db) (au_settings db).
Definition put_groups (g : gset (uuid * uuid)) (db : AuthDb) : AuthDb :=
  mkAuthDb (au_users db) (au_roles db) g (au_keys db) (au_settings db).

Definition set_setting (key value : string) (db : AuthDb) : AuthDb := put_settings (<[key := value]> (au_settings db)) db.
Definition delete_setting (key : string) (db : AuthDb) : AuthDb := put_settings (delete key (au_settings db)) db.

Definition SETTING_MCP_ENABLED : string := "mcp_enabled".
Definition SETTING_MCP_SERVICE_KEY_HASH : string := "mcp_service_key_hash".
Definition SETTING_MCP_ROLE_ID : string := "mcp_role_id".
Definition SETTING_API_ROLE_ID : string := "api_role_id".
Definition SERVICE_KEY_PREFIX : string := "agora_svc_".

(** ** Who a request runs as *)

(** What a signed and fresh session cookie holds. *)
Inductive Session := S_user_id (text : string) | S_username (name : string) | S_other.

(** The headers and the cookie of a request. *)
Record Request := mkRequest {
  rq_api_key : option string; rq_on_behalf_of : option string; rq_cookie : option string; rq_path : string
}.

Section auth.
(** SHA-256 and the cookie signer ([None] for a bad or expired cookie). *)
Context (sha256 : string → string) (loads : string → option Session).

Definition active_user (db : AuthDb) (id : uuid) : option (uuid * User) :=
  match au_users db !! id with Some u => if us_is_active u then Some (id, u) else None | None => None end.

(** An active user whose role is named Admin: the least id. *)
Definition is_active_admin (db : AuthDb) (u : User) : bool :=
  us_is_active u && bool_decide ((rl_name <$> role_of db u) = Some "Admin").
Definition by_user_id (a b : uuid * User) : bool := negb (String.ltb b.1 a.1).
Definition any_admin (db : AuthDb) : option (uuid * User) :=
  head (sort_on by_user_id (filter (λ iu, is_active_admin db iu.2 = true) (map_to_list (au_users db)))).

Definition key_with_hash (db : AuthDb) (h : string) : option (uuid * APIKey) :=
  head (filter (λ ik, ak_key_hash ik.2 = h) (map_to_list (au_keys db))).

Definition touch_key (clk : Z) (id : uuid) (db : AuthDb) : AuthDb :=
  put_keys (alter (λ k, mkAPIKey (ak_name k) (ak_key_hash k) (ak_key_type k) (ak_user_id k) (Some clk)) id (au_keys db)) db.

Definition _resolve_user_from_api_key (clk : Z) (api_key : string) (db : AuthDb) : AuthDb * option (uuid * User * APIKey) :=
  match key_with_hash db (sha256 api_key) with
  | None => (db, None)
  | Some (kid, key) =>
      let db := touch_key clk kid db in
      match (id ← ak_user_id key; u ← au_users db !! id; Some (id, u)) with
      | Some iu => (db, Some (iu, key))
      | None => match any_admin db with Some iu => (db, Some (iu, key)) | None => (db, None) end
      end
  end.

Definition _resolve_user_from_session (cookie : string) (db : AuthDb) : option (uuid * User) :=
  match loads cookie with
  | Some (S_user_id text) => match uuid_of_str text with Some id => active_user db id | None => None end
  | Some (S_username name) =>
      head (filter (λ iu, us_username iu.2 = name ∧ us_is_active iu.2 = true) (map_to_list (au_users db)))
  | Some S_other | None => None
  end.

Definition get_current_user (clk : Z) (rq : Request) (db : AuthDb) : AuthDb * result exn (uuid * User) :=
  match truthy (rq_api_key rq) with
  | Some api_key =>
      if str_startswith SERVICE_KEY_PREFIX api_key then
        match truthy (get_setting db SETTING_MCP_SERVICE_KEY_HASH) with
        | Some h =>
            if bool_decide (sha256 api_key = h) then
              match uuid_of_str (rq_on_behalf_of rq or_else "MCP Service") with
              | Some id => match active_user db id with Some iu => (db, Ok iu) | None => (db, Err (HTTPException 403)) end
              | None => match any_admin db with Some iu => (db, Ok iu) | None => (db, Err (HTTPException 503)) end
              end
            else (db, Err (HTTPException 401))
        | None => (db, Err (HTTPException 401))
        end
      else
        match _resolve_user_from_api_key clk api_key db with
        | (db', None) => (db', Err (HTTPException 401))
        | (db', Some (iu, key)) =>
            if bool_decide (ak_key_type key = "mcp") then (db', Err (HTTPException 403)) else (db', Ok iu)
        end
  | None =>
      match (cookie ← truthy (rq_cookie rq); _resolve_user_from_session cookie db) with
      | Some iu => (db, Ok iu)
      | None => (db, Err (HTTPException 401))
      end
  end.

Definition _PASSWORD_CHANGE_EXEMPT_PATHS : list string := ["/force-password-change"; "/api/users/me/password"; "/logout"].

Definition require_auth (clk : Z) (rq : Request) (db : AuthDb) : AuthDb * result exn (uuid * User) :=
  match get_current_user clk rq db with
  | (db', Ok (id, u)) =>
      if us_must_change_password u && negb (bool_decide (rq_path rq ∈ _PASSWORD_CHANGE_EXEMPT_PATHS))
      then (db', Err (HTTPException 307)) else (db', Ok (id, u))
  | r => r
  end.

Definition require_permission (perms : list string) (clk : Z) (rq : Request) (db : AuthDb) : AuthDb * result exn (uuid * User) :=
  match get_current_user clk rq db with
  | (db', Ok (id, u)) =>
      match role_of db' u with
      | None => (db', Err (HTTPException 403))
      | Some role => if forallb (has_permission (rl_permissions role)) perms then (db', Ok (id, u)) else (db', Err (HTTPException 403))
      end
  | r => r
  end.

(** [compute_effective_permissions], as a set. *)
Definition compute_effective_permissions (u : User) (key_type : string) (db : AuthDb) : gset string :=
  let user_perms : gset string := match role_of db u with Some r => list_to_set (rl_permissions r) | None => ∅ end in
  let setting_key := if bool_decide (key_type = "mcp") then SETTING_MCP_ROLE_ID else SETTING_API_ROLE_ID in
  match (text ← truthy (get_setting db setting_key); id ← uuid_of_str text; au_roles db !! id) with
  | Some ceiling => user_perms ∩ list_to_set (rl_permissions ceiling)
  | None => user_perms
  end.

(** *** The MCP back channel (cms/routers/mcp.py) *)

(** [authorization.removeprefix("Bearer ").strip()]. *)
Definition bearer_token (authorization : string) : string := str_strip (str_drop_prefix "Bearer " authorization or_else authorization).

Definition _resolve_on_behalf_of_user (text : string) (db : AuthDb) : result exn (uuid * User) :=
  match uuid_of_str text with
  | None => Err (HTTPException 400)
  | Some id => match au_users db !! id with
               | None => Err (HTTPException 404)
               | Some u => if us_is_active u then Ok (id, u) else Err (HTTPException 403)
               end
  end.

Definition verify_mcp_token (clk : Z) (authorization : string) (on_behalf_of : option string) (db : AuthDb)
    : AuthDb * result exn (uuid * gset string) :=
  let token := bearer_token authorization in
  if bool_decide (token = "") then (db, Err (HTTPException 401))
  else if negb (bool_decide (get_setting db SETTING_MCP_ENABLED = Some "true")) then (db, Err (HTTPException 403))
  else if str_startswith SERVICE_KEY_PREFIX token then
    match truthy (get_setting db SETTING_MCP_SERVICE_KEY_HASH) with
    | Some h =>
        if bool_decide (sha256 token = h) then
          match truthy on_behalf_of with
          | None => (db, Err (HTTPException 400))
          | Some text => match _resolve_on_behalf_of_user text db with
                         | Ok (id, u) => (db, Ok (id, compute_effective_permissions u "mcp" db))
                         | Err e => (db, Err e)
                         end
          end
        else (db, Err (HTTPException 401))
    | None => (db, Err (HTTPException 401))
    end
  else
    match _resolve_user_from_api_key clk token db with
    | (db', None) => (db', Err (HTTPException 401))
    | (db', Some (id, u, key)) =>
        if negb (bool_decide (ak_key_type key = "mcp")) then (db', Err (HTTPException 403))
        else if negb (us_is_active u) then (db', Err (HTTPException 403))
        else (db', Ok (id, compute_effective_permissions u "mcp" db'))
    end.
End auth.

(** ** Group scope *)

(** [None] means no filtering.  A user without a role raises. *)
Definition get_user_group_ids (id : uuid) (u : User) (db : AuthDb) : result exn (option (gset uuid)) :=
  match role_of db u with
  | None => Err AttributeError
  | Some r =>
      if bool_decide (GROUPS_VIEW_ALL ∈ rl_permissions r) then Ok None
      else Ok (Some (set_map snd (filter (λ ug, ug.1 = id) (au_user_groups db))))
  end.

(** The single-group clause, on the group of a row. *)
Definition build_group_read_scope_clause (group_ids : option (gset uuid)) (group_column : option uuid) : bool :=
  match group_ids with
  | None => true
  | Some gs => match group_column with None => true | Some g => bool_decide (g ∈ gs) end
  end.

(** The clause of events with a snapshot of groups. *)
Definition build_group_snapshot_read_scope_clause (group_ids : option (gset uuid)) (legacy_group : option uuid)
    (snapshot : option (list uuid)) : bool :=
  match group_ids with
  | None => true
  | Some gs =>
      if bool_decide (gs = ∅) then
        bool_decide (legacy_group = None) && match snapshot with None | Some [] => true | _ => false end
      else
        match legacy_group with Some g => bool_decide (g ∈ gs) | None => false end ||
        match snapshot with Some l => existsb (λ g, bool_decide (g ∈ gs)) l | None => false end
  end.

Definition verify_resource_group_access (id : uuid) (u : User) (db : AuthDb) (resource_group_ids : gset uuid) : result exn unit :=
  if bool_decide (resource_group_ids = ∅) then Ok ()
  else gids ← get_user_group_ids id u db;
       match gids with
       | None => Ok ()
       | Some gs => if bool_decide (resource_group_ids ## gs) then Err (HTTPException 403) else Ok ()
       end.

Definition assert_authority_over_group_set (id : uuid) (u : User) (db : AuthDb) (group_ids : gset uuid) : result exn unit :=
  if bool_decide (group_ids = ∅) then Ok ()
  else gids ← get_user_group_ids id u db;
       match gids with
       | None => Ok ()
       | Some gs => if bool_decide (group_ids ⊆ gs) then Ok () else Err (HTTPException 403)
       end.

Definition can_manage_group_membership (id : uuid) (u : User) (db : AuthDb) (group_id : uuid) : bool :=
  match role_of db u with
  | None => false
  | Some r =>
      forallb (has_permission (rl_permissions r)) ["devices:write"; "schedules:read"; "schedules:write"] &&
      is_ok (assert_authority_over_group_set id u db {[group_id]})
  end.

(** ** Facts *)

Section facts.
Context (sha256 : string → string) (loads : string → option Session).
Implicit Types (db : AuthDb) (u : User) (id : uuid).

Lemma active_user_spec db id iu : active_user db id = Some iu → au_users db !! iu.1 = Some iu.2 ∧ us_is_active iu.2 = true.
Proof.
  unfold active_user. destruct (au_users db !! id) as [u|] eqn:Hu; [|done]. destruct (us_is_active u) eqn:Ha; [|done].
  by intros [= <-].
Qed.

Lemma any_admin_spec db iu :
  any_admin db = Some iu →
  au_users db !! iu.1 = Some iu.2 ∧ us_is_active iu.2 = true ∧ (rl_name <$> role_of db iu.2) = Some "Admin".
Proof.
  unfold any_admin. intros H. apply head_Some_elem_of in H. rewrite sort_on_Permutation in H.
  apply list_elem_of_filter in H as [Hp Hin]. destruct iu as [id u]. apply elem_of_map_to_list in Hin.
  apply andb_true_iff in Hp as [Ha Hr%bool_decide_eq_true]. done.
Qed.

Lemma session_spec db cookie iu :
  _resolve_user_from_session loads cookie db = Some iu → au_users db !! iu.1 = Some iu.2 ∧ us_is_active iu.2 = true.
Proof.
  unfold _resolve_user_from_session. destruct (loads cookie) as [[text|name|]|]; try done.
  - destruct (uuid_of_str text) as [id|]; [|done]. apply active_user_spec.
  - intros H. apply head_Some_elem_of, list_elem_of_filter in H as [[_ Ha] Hin]. destruct iu as [id u].
    apply elem_of_map_to_list in Hin. done.
Qed.

Lemma key_with_hash_spec db h kid key : key_with_hash db h = Some (kid, key) → au_keys db !! kid = Some key ∧ ak_key_hash key = h.
Proof.
  unfold key_with_hash. intros H. apply head_Some_elem_of, list_elem_of_filter in H as [Hh Hin].
  by apply elem_of_map_to_list in Hin.
Qed.

(** The tables a request may change: only the use of a key. *)
Definition same_but_keys db db' : Prop :=
  au_users db' = au_users db ∧ au_roles db' = au_roles db ∧ au_user_groups db' = au_user_groups db ∧ au_settings db' = au_settings db.

Lemma touch_key_same clk kid db : same_but_keys db (touch_key clk kid db).
Proof. done. Qed.

(** A user that a key stands for. *)
Definition key_owner db (api_key : string) id u key : Prop :=
  ∃ kid, au_keys db !! kid = Some key ∧ ak_key_hash key = sha256 api_key ∧
    ((ak_user_id key = Some id ∧ au_users db !! id = Some u) ∨
     ((i ← ak_user_id key; au_users db !! i) = None ∧ any_admin db = Some (id, u))).

Lemma any_admin_same db db' : same_but_keys db db' → any_admin db' = any_admin db.
Proof. intros (Hu & Hr & _). unfold any_admin, is_active_admin, role_of. by rewrite Hu, Hr. Qed.

Lemma resolve_api_key_spec clk api_key db :
  let r := _resolve_user_from_api_key sha256 clk api_key db in
  same_but_keys db r.1 ∧ ∀ id u key, r.2 = Some (id, u, key) → key_owner db api_key id u key.
Proof.
  cbv zeta. unfold _resolve_user_from_api_key. destruct (key_with_hash db (sha256 api_key)) as [[kid key]|] eqn:Hk; [|done].
  apply key_with_hash_spec in Hk as [Hk Hh]. cbv zeta. rewrite (any_admin_same db) by done.
  destruct (ak_user_id key) as [id|] eqn:Hid; cbn [mbind option_bind].
  - change (au_users (touch_key clk kid db)) with (au_users db). destruct (au_users db !! id) as [u|] eqn:Hu; cbn [mbind option_bind].
    + split; [done|]. intros ??? [= <- <- <-]. exists kid. split_and!; [done|done|by left].
    + destruct (any_admin db) as [[i v]|] eqn:Ha; (split; [done|]); [|done]. intros ??? [= <- <- <-].
      exists kid. split_and!; [done|done|]. right. rewrite Hid. cbn. done.
  - destruct (any_admin db) as [[i v]|] eqn:Ha; (split; [done|]); [|done]. intros ??? [= <- <- <-].
    exists kid. split_and!; [done|done|]. right. by rewrite Hid.
Qed.

(** Authentication is sound: a request only ever runs as a user of the
    table, with no table changed but the use of a key; the user is active,
    unless the request carries an API key, not of type mcp, that belongs to
    that user. *)
Theorem current_user_sound clk rq db :
  let r := get_current_user sha256 loads clk rq db in
  same_but_keys db r.1 ∧
  ∀ id u, r.2 = Ok (id, u) →
    au_users db !! id = Some u ∧
    (us_is_active u = true ∨
     ∃ api_key kid key, truthy (rq_api_key rq) = Some api_key ∧ str_startswith SERVICE_KEY_PREFIX api_key = false ∧
       au_keys db !! kid = Some key ∧ ak_key_hash key = sha256 api_key ∧ ak_key_type key ≠ "mcp" ∧ ak_user_id key = Some id).
Proof.
  cbv zeta. unfold get_current_user. destruct (truthy (rq_api_key rq)) as [api_key|] eqn:Hak.
  - destruct (str_startswith SERVICE_KEY_PREFIX api_key) eqn:Hpre.
    + destruct (truthy (get_setting db SETTING_MCP_SERVICE_KEY_HASH)) as [h|]; [|done].
      case_bool_decide as Hh; [|done]. destruct (uuid_of_str _) as [i|].
      * destruct (active_user db i) as [[j v]|] eqn:Ha; [|done]. apply active_user_spec in Ha as [Hu Hact]. split; [done|].
        intros id u [= <- <-]. split; [done|by left].
      * destruct (any_admin db) as [[j v]|] eqn:Ha; [|done]. apply any_admin_spec in Ha as (Hu & Hact & _). split; [done|].
        intros id u [= <- <-]. split; [done|by left].
    + destruct (resolve_api_key_spec clk api_key db) as [Hsame Howner].
      destruct (_resolve_user_from_api_key sha256 clk api_key db) as [db' [[[i v] key]|]]; cbn [fst snd] in *; [|by split].
      case_bool_decide as Hty; (split; [done|]); [done|]. intros id u [= <- <-].
      destruct (Howner i v key eq_refl) as (kid & Hk & Hh & [[Hid Hu]|[Hnone Ha]]).
      * split; [done|]. right. exists api_key, kid, key. by split_and!.
      * apply any_admin_spec in Ha as (Hu & Hact & _). split; [done|by left].
  - destruct (rq_cookie rq) as [cookie|]; [|done]. destruct (truthy (Some cookie)) as [c|]; [|done]. cbn [mbind option_bind].
    destruct (_resolve_user_from_session loads c db) as [[i v]|] eqn:Hs; [|done]. apply session_spec in Hs as [Hu Hact].
    split; [done|]. intros id u [= <- <-]. split; [done|by left].
Qed.

(** A request without an API key, or with the service key, runs as an active user. *)
Corollary session_user_active clk rq db id u :
  truthy (rq_api_key rq) = None → (get_current_user sha256 loads clk rq db).2 = Ok (id, u) → us_is_active u = true.
Proof.
  intros Hnone Hok. destruct (current_user_sound clk rq db) as [_ H]. destruct (H id u Hok) as [_ [?|(k & ? & ? & Hk & _)]]; [done|].
  congruence.
Qed.

(** [require_permission] lets a request through exactly when it
    authenticates, the user has a role, and the role grants every permission
    asked for; a refusal of an authenticated user is a 403. *)
Theorem require_permission_exact perms clk rq db :
  let auth := get_current_user sha256 loads clk rq db in
  let r := require_permission sha256 loads perms clk rq db in
  r.1 = auth.1 ∧
  match auth.2 with
  | Err e => r.2 = Err e
  | Ok (id, u) =>
      (r.2 = Ok (id, u) ↔ ∃ role, role_of db u = Some role ∧ ∀ p, p ∈ perms → has_permission (rl_permissions role) p = true) ∧
      (r.2 = Ok (id, u) ∨ r.2 = Err (HTTPException 403))
  end.
Proof.
  cbv zeta. unfold require_permission. destruct (current_user_sound clk rq db) as [(_ & Hroles & _) _].
  destruct (get_current_user sha256 loads clk rq db) as [db' [[id u]|e]]; cbn [fst snd] in *; [|done].
  unfold role_of in *. rewrite Hroles. destruct (au_roles db !! us_role_id u) as [role|]; cbn [fst snd].
  2: { split; [done|]. split; [|by right]. split; [done|]. by intros (role & ? & _). }
  destruct (forallb (has_permission (rl_permissions role)) perms) eqn:Hp; cbn [fst snd]; (split; [done|]); (split; [|by auto]).
  - split; [|done]. intros _. exists role. split; [done|]. intros p Hin. rewrite forallb_forall in Hp. apply Hp. by apply list_elem_of_In.
  - split; [done|]. intros (role' & [= <-] & Hall). exfalso. assert (forallb (has_permission (rl_permissions role)) perms = true); [|congruence].
    apply forallb_forall. intros p Hin. apply Hall. by apply list_elem_of_In.
Qed.

(** The MCP back channel never grants more than the user has: a token is
    accepted only while the MCP server is enabled, for an existing, active
    user, and the permissions are those of the user's role, cut down to the
    system-wide MCP ceiling when one is configured. *)
Theorem verify_mcp_token_sound clk authorization obo db id perms :
  (verify_mcp_token sha256 clk authorization obo db).2 = Ok (id, perms) →
  get_setting db SETTING_MCP_ENABLED = Some "true" ∧
  ∃ u, au_users db !! id = Some u ∧ us_is_active u = true ∧
    (∀ p, p ∈ perms → ∃ role, role_of db u = Some role ∧ p ∈ rl_permissions role) ∧
    ∀ text rid ceiling, get_setting db SETTING_MCP_ROLE_ID = Some text → uuid_of_str text = Some rid →
      au_roles db !! rid = Some ceiling → ∀ p, p ∈ perms → p ∈ rl_permissions ceiling.
Proof.
  unfold verify_mcp_token. cbv zeta. case_bool_decide as Htok; [done|].
  destruct (bool_decide_reflect (get_setting db SETTING_MCP_ENABLED = Some "true")) as [Hen|]; [|done]. cbn [negb].
  assert (Heff : ∀ u db', same_but_keys db db' →
    (∀ p, p ∈ compute_effective_permissions u "mcp" db' → ∃ role, role_of db u = Some role ∧ p ∈ rl_permissions role) ∧
    ∀ text rid ceiling, get_setting db SETTING_MCP_ROLE_ID = Some text → uuid_of_str text = Some rid →
      au_roles db !! rid = Some ceiling → ∀ p, p ∈ compute_effective_permissions u "mcp" db' → p ∈ rl_permissions ceiling).
  { intros u db' (_ & Hr & _ & Hs). unfold compute_effective_permissions, role_of, get_setting. rewrite Hr, Hs.
    rewrite (bool_decide_eq_true_2 ("mcp" = "mcp")) by done. split.
    - intros p Hp. assert (Hin : p ∈ (match au_roles db !! us_role_id u with Some r => list_to_set (rl_permissions r) | None => ∅ end : gset string)).
      { destruct (truthy _ ≫= _); set_solver. }
      destruct (au_roles db !! us_role_id u) as [role|]; [|by apply elem_of_empty in Hin].
      exists role. split; [done|]. by apply elem_of_list_to_set in Hin.
    - intros text rid ceiling Htext Hrid Hc p. rewrite Htext. destruct (truthy (Some text)) as [t|] eqn:Ht.
      + assert (t = text) as -> by (unfold truthy in Ht; destruct text; congruence).
        cbn [mbind option_bind]. rewrite Hrid. cbn [mbind option_bind]. rewrite Hc. set_solver.
      + unfold truthy in Ht. destruct text; [|done]. by vm_compute in Hrid. }
  destruct (str_startswith SERVICE_KEY_PREFIX (bearer_token authorization)).
  - destruct (truthy (get_setting db SETTING_MCP_SERVICE_KEY_HASH)) as [h|]; [|done]. case_bool_decide; [|done].
    destruct (truthy obo) as [text|]; [|done]. unfold _resolve_on_behalf_of_user. destruct (uuid_of_str text) as [i|]; [|done].
    destruct (au_users db !! i) as [u|] eqn:Hu; [|done]. destruct (us_is_active u) eqn:Ha; [|done]. cbn [snd].
    intros [= <- <-]. split; [done|]. exists u. split_and!; [done|done|..]; by apply (Heff u db).
  - destruct (resolve_api_key_spec clk (bearer_token authorization) db) as [Hsame Howner].
    destruct (_resolve_user_from_api_key sha256 clk (bearer_token authorization) db) as [db' [[[i u] key]|]]; cbn [fst snd] in *; [|done].
    case_bool_decide as Hty; cbn [negb]; [|done]. destruct (us_is_active u) eqn:Ha; cbn [negb snd]; [|done].
    intros [= <- <-]. split; [done|]. exists u. split_and!; [|done|by apply (Heff u db')..].
    destruct (Howner i u key eq_refl) as (kid & _ & _ & [[_ Hu]|[_ Hadm]]); [done|]. by apply any_admin_spec in Hadm as (Hu & _).
Qed.
End facts.

(** ** Scope and authority agree *)

(** Lists and single resources agree on who may see what: for a user with a
    role, the clause that filters lists keeps a row with group [g] (or none)
    exactly when the check on a resource by id lets the user in, and the check
    otherwise answers 403. *)
Theorem scope_clause_matches_by_id id u db g gids :
  get_user_group_ids id u db = Ok gids →
  let scope : gset uuid := match g with Some x => {[x]} | None => ∅ end in
  (build_group_read_scope_clause gids g = true ↔ verify_resource_group_access id u db scope = Ok ()) ∧
  (build_group_read_scope_clause gids g = false ↔ verify_resource_group_access id u db scope = Err (HTTPException 403)).
Proof.
  intros Hg. cbv zeta. unfold verify_resource_group_access, build_group_read_scope_clause. rewrite Hg. cbn [mbind result_bind].
  destruct g as [x|].
  - rewrite bool_decide_eq_false_2 by set_solver. destruct gids as [gs|]; [|done].
    rewrite (bool_decide_ext ({[x]} ## gs) (x ∉ gs)) by set_solver. destruct (bool_decide_reflect (x ∈ gs)) as [Hx|Hx].
    + rewrite bool_decide_eq_false_2 by (by intros ?). done.
    + by rewrite bool_decide_eq_true_2.
  - rewrite bool_decide_eq_true_2 by done. by destruct gids.
Qed.

(** Authority over a set of groups is access to each of them. *)
Theorem authority_is_each_access id u db gs :
  is_Some (role_of db u) →
  assert_authority_over_group_set id u db gs = Ok () ↔ ∀ g, g ∈ gs → verify_resource_group_access id u db {[g]} = Ok ().
Proof.
  intros [r Hr]. unfold assert_authority_over_group_set, verify_resource_group_access, get_user_group_ids. rewrite Hr.
  assert (Hne : ∀ g : uuid, bool_decide (({[g]} : gset uuid) = ∅) = false) by (intros g; apply bool_decide_eq_false; set_solver).
  destruct (bool_decide_reflect (gs = ∅)) as [->|Hgs]; [split; [by intros _ g ?%elem_of_empty|done]|].
  setoid_rewrite Hne. case_bool_decide as Hall; cbn [mbind result_bind]; [done|].
  set (mine := set_map _ _). case_bool_decide as Hsub.
  - split; [|done]. intros _ g Hin. rewrite bool_decide_eq_false_2; [done|]. set_solver.
  - split; [done|]. intros H. destruct Hsub. intros g Hin. specialize (H g Hin). case_bool_decide as Hd; [done|].
    destruct (decide (g ∈ mine)) as [|Hn]; [done|]. destruct Hd. set_solver.
Qed.

(** ** Examples *)

Section examples.
Definition viewer : Role := mkRole "Viewer" ["devices:read"] true.
Definition admin : Role := mkRole "Admin" ["devices:read"; "groups:view_all"; "users:write"] true.
Definition person (role : uuid) (active : bool) : User := mkUser "x" "x@x" "" role active false None None None None None.
Definition auth_db (keys : gmap uuid APIKey) : AuthDb :=
  mkAuthDb {["u1" := person "r-admin" true; "u2" := person "r-viewer" false]} {["r-admin" := admin; "r-viewer" := viewer]} ∅ keys ∅.
Definition key_request : Request := mkRequest (Some "agora_secret") None None "/api/devices".

(** A deactivated user cannot log in, but the user's API key still works. *)
Example inactive_user_key_works :
  (get_current_user (λ s, s) (λ _, None) 5 key_request
     (auth_db {["k" := mkAPIKey "ci" "agora_secret" "api" (Some "u2") None]})).2 = Ok ("u2", person "r-viewer" false).
Proof. by vm_compute. Qed.

(** A key whose user was deleted runs as an administrator. *)
Example orphaned_key_is_admin :
  (get_current_user (λ s, s) (λ _, None) 5 key_request
     (auth_db {["k" := mkAPIKey "ci" "agora_secret" "api" None None]})).2 = Ok ("u1", person "r-admin" true).
Proof. by vm_compute. Qed.

(** Events without a group are shown to a user in no group, and hidden from one
    who is put in a group. *)
Example ungrouped_event_hidden_from_members :
  build_group_snapshot_read_scope_clause (Some ∅) None None = true ∧
  build_group_snapshot_read_scope_clause (Some {["g1"]}) None None = false.
Proof. by vm_compute. Qed.
End examples.

(** ** Witnesses *)

Lemma scope_clause_matches_by_id_witness :
  verify_resource_group_access "u2" (person "r-viewer" true) (auth_db ∅) {["g1"]} = Err (HTTPException 403).
Proof.
  exact (proj1 (proj2 (scope_clause_matches_by_id "u2" (person "r-viewer" true) (auth_db ∅) (Some "g1") (Some ∅) eq_refl)) eq_refl).
Defined.

Definition mcp_db : AuthDb :=
  set_setting SETTING_MCP_ENABLED "true" (auth_db {["k" := mkAPIKey "mcp" "agora_key" "mcp" (Some "u1") None]}).

Lemma verify_mcp_token_sound_witness :
  ∃ perms, (verify_mcp_token (λ s, s) 5 "Bearer agora_key" None mcp_db).2 = Ok ("u1", perms) ∧
    ∀ p, p ∈ perms → ∃ role, role_of mcp_db (person "r-admin" true) = Some role ∧ p ∈ rl_permissions role.
Proof.
  eexists. split; [reflexivity|].
  destruct (verify_mcp_token_sound (λ s, s) 5 "Bearer agora_key" None mcp_db "u1" _ eq_refl) as (_ & u & Hu & _ & Hp & _).
  assert (u = person "r-admin" true) as -> by (by injection Hu). exact Hp.
Defined.
