(* ===== verification/Accounts.v ===== *)
(** * Users, roles and API keys (cms/routers/users.py, roles.py, api_keys.py,
      cms/ui.py: login, invitation and password reset, cms/models/user.py)

    The operations that change who may sign in and with what.  Display names,
    audit rows, e-mails and group names are left out. *)

From S2P Require Import Prelude Clock Models PyText Access.
Open Scope Z_scope.

(** ** Permissions and addresses *)




Definition SETUP_TOKEN_TTL : Z := 7 * 86400 * 1000000.

Definition token_is_expired (ttl now : Z) (token : option string) (issued : option Z) : bool :=
  match truthy token with
  | None => false
  | Some _ => match issued with None => true | Some t => t + ttl <? now end
  end.
Definition setup_token_is_expired (now : Z) (u : User) : bool :=
  token_is_expired SETUP_TOKEN_TTL now (us_setup_token u) (us_setup_token_created_at u).

(** ** Rows by other columns *)

Definition users_where (p : User → bool) (db : AuthDb) : list (uuid * User) :=
  filter (λ iu, p iu.2 = true) (map_to_list (au_users db)).

(** ** Users *)



(** The fields of a user, one at a time. *)
Definition with_login (email hash : string) (role : uuid) (active must : bool) (u : User) : User :=
  mkUser (us_username u) email hash role active must (us_last_login_at u) (us_setup_token u) (us_setup_token_created_at u)
    (us_reset_token u) (us_reset_token_created_at u).
Definition with_setup_token (token : option string) (at_ : option Z) (u : User) : User :=
  mkUser (us_username u) (us_email u) (us_password_hash u) (us_role_id u) (us_is_active u) (us_must_change_password u)
    (us_last_login_at u) token at_ (us_reset_token u) (us_reset_token_created_at u).
Definition with_last_login (t : option Z) (u : User) : User :=
  mkUser (us_username u) (us_email u) (us_password_hash u) (us_role_id u) (us_is_active u) (us_must_change_password u) t
    (us_setup_token u) (us_setup_token_created_at u) (us_reset_token u) (us_reset_token_created_at u).
(** A new password that completes the setup. *)
Definition with_password (hash : string) (u : User) : User :=
  with_setup_token None None (with_login (us_email u) hash (us_role_id u) (us_is_active u) false u).

Definition put_user (id : uuid) (u : User) (db : AuthDb) : AuthDb := put_users (<[id := u]> (au_users db)) db.

Section accounts.
(** bcrypt, SHA-256, and which groups exist. *)
Context (hash_password : string → string) (verify_password : string → string → bool) (sha256 : string → string).
Context (group_exists : uuid → bool).




(** The keys of a deleted user lose their owner. *)
Definition disown (id : uuid) (k : APIKey) : APIKey :=
  if bool_decide (ak_user_id k = Some id) then mkAPIKey (ak_name k) (ak_key_hash k) (ak_key_type k) None (ak_last_used_at k) else k.

Definition delete_user (admin id : uuid) (db : AuthDb) : AuthDb * result exn unit :=
  match au_users db !! id with
  | None => (db, Err (HTTPException 404))
  | Some _ =>
      if bool_decide (id = admin) then (db, Err (HTTPException 400))
      else (mkAuthDb (delete id (au_users db)) (au_roles db) (filter (λ ug, ug.1 ≠ id) (au_user_groups db))
              (disown id <$> au_keys db) (au_settings db), Ok ())
  end.



(** ** Signing in (cms/ui.py) *)


(** A link that signs in: the user whose session is set. *)
Definition setup_account (now : Z) (token : string) (db : AuthDb) : result exn uuid :=
  match users_where (λ u, bool_decide (us_setup_token u = Some token) && us_is_active u) db with
  | (id, u) :: _ => if setup_token_is_expired now u then Err (HTTPException 400) else Ok id
  | [] => Err (HTTPException 400)
  end.



(** The length of an ASCII password. *)
Definition password_ok (new_password confirm_password : string) : bool :=
  (6 <=? String.length new_password)%nat && bool_decide (new_password = confirm_password).


(** [force_password_change_submit], for the user of the session. *)
Definition force_password_change_submit (clk : Z) (id : uuid) (new_password confirm_password : string) (db : AuthDb)
    : AuthDb * result exn unit :=
  match au_users db !! id with
  | None => (db, Err (HTTPException 303))
  | Some u =>
      if negb (password_ok new_password confirm_password) then (db, Err (HTTPException 400))
      else (put_user id (with_last_login (Some clk) (with_password (hash_password new_password) u)) db, Ok ())
  end.

(** ** Roles *)





(** ** API keys *)







End accounts.

(** ** Lower case *)


(** ** The search for a user name ends *)







(** ** The tables stay consistent *)











(** *** Every operation *)


Section steps.
Context (hash_password : string → string) (verify_password : string → string → bool) (sha256 : string → string).
Context (group_exists : uuid → bool).
















End steps.

(** ** A reset link works once *)

Section reset.
Context (hash_password : string → string) (verify_password : string → string → bool) (sha256 : string → string).
Context (group_exists : uuid → bool).







End reset.

(** ** Examples *)

Section examples.

(** A signed-in user who need not change the password can post the form of the
    forced change: the new password is set and the current one never asked. *)
Example forced_change_needs_no_password :
  (au_users (force_password_change_submit (λ p, p) 9 "u1" "stolen!" "stolen!" (auth_db ∅)).1 !! "u1") =
    Some (with_last_login (Some 9) (with_password "stolen!" (person "r-admin" true))) ∧
  us_must_change_password (person "r-admin" true) = false.
Proof. by vm_compute. Qed.

(** The key of a deleted user lives on as an administrator's. *)
Example deleted_user_key_becomes_admin :
  let db := (delete_user "u1" "u2" (auth_db {["k" := mkAPIKey "ci" "agora_secret" "api" (Some "u2") None]})).1 in
  (get_current_user (λ s, s) (λ _, None) 5 key_request db).2 = Ok ("u1", person "r-admin" true).
Proof. by vm_compute. Qed.

(** Completing the setup with the emailed link once closes it. *)
Example setup_link_closed :
  let db := put_user "u2" (with_setup_token (Some "tok") (Some 0) (person "r-viewer" true)) (auth_db ∅) in
  setup_account 5 "tok" db = Ok "u2" ∧
  setup_account 6 "tok" (force_password_change_submit (λ p, p) 5 "u2" "secret" "secret" db).1 = Err (HTTPException 400).
Proof. by vm_compute. Qed.
End examples.

(** ** Witnesses *)




