(* ===== verification/Features.v ===== *)
(** * Feature flags (cms/services/feature_flags.py, assistant_flag.py,
      cms/routers/features.py, cms/models/feature_flag.py)

    The registry, the stored state, evaluation with its memo per request, and
    the administration.  Flags are rows by name; users and roles are those of
    Access. *)

From S2P Require Import Prelude Clock Models PyText Access.
Open Scope Z_scope.

(** ** Declarations and rows *)

Inductive FlagState := F_OFF | F_TARGETED | F_ON.
#[export] Instance FlagState_eq_dec : EqDecision FlagState.
Proof. solve_decision. Defined.

(** [state.value], and [FlagState(text)] with [None] for the ValueError. *)
Definition flag_value (s : FlagState) : string := match s with F_OFF => "off" | F_TARGETED => "targeted" | F_ON => "on" end.
Definition FlagState_of (s : string) : option FlagState := List.find (λ f, bool_decide (flag_value f = s)) [F_OFF; F_TARGETED; F_ON].

Inductive FlagKind := RELEASE | PERMANENT.
#[export] Instance FlagKind_eq_dec : EqDecision FlagKind.
Proof. solve_decision. Defined.

Record Flag := mkFlag {
  fl_description : string; fl_owner : string; fl_default : FlagState; fl_kind : FlagKind; fl_include_admins : bool;
  fl_expires : option date
}.

(** [Flag.__post_init__]. *)
Definition flag_post_init (f : Flag) : result exn unit :=
  if bool_decide (fl_kind f = RELEASE ∧ fl_expires f = None)
  then Err (ValueError "release flags must declare an expiry date so they can't silently become permanent; use FlagKind.PERMANENT for kill-switches and ongoing limited-access features")
  else Ok tt.

Record FeatureFlagState := mkFlagRow {
  ff_state : string; ff_user_ids : list string; ff_role_ids : list string; ff_updated_at : Z; ff_updated_by_id : option uuid
}.

Abbreviation Registry := (gmap string Flag).
Abbreviation FlagRows := (gmap string FeatureFlagState).

Definition ASSISTANT_FLAG_KEY : string := "assistant".
Definition REGISTRY : Registry := {[ ASSISTANT_FLAG_KEY :=
  mkFlag "The in-CMS Assistant: chat, and tool grounding via MCP. Costs money per message, so access is granted deliberately rather than switched on for everyone."
    "platform" F_TARGETED PERMANENT true None ]}.

Definition SETTINGS_WRITE : string := "settings:write".

(** ** Evaluation *)

Definition _permissions_for (adb : AuthDb) (user : User) : list string :=
  match role_of adb user with Some role => rl_permissions role | None => [] end.

(** The state in force. *)
Definition state_of (flag : Flag) (row : option FeatureFlagState) : FlagState :=
  match row with Some r => FlagState_of (ff_state r) or_else fl_default flag | None => fl_default flag end.

Definition _evaluate (adb : AuthDb) (flags : FlagRows) (name : string) (user : option (uuid * User)) (registry : Registry) : bool :=
  match registry !! name with
  | None => false
  | Some flag =>
      let row := flags !! name in
      match state_of flag row with
      | F_ON => true
      | F_OFF => false
      | F_TARGETED =>
          match user with
          | None => false
          | Some (id, u) =>
              if match row with Some r => bool_decide (id ∈ ff_user_ids r) || bool_decide (us_role_id u ∈ ff_role_ids r) | None => false end then true
              else if fl_include_admins flag then has_permission (_permissions_for adb u) SETTINGS_WRITE
              else false
          end
      end
  end.

(** [request.state.feature_flag_cache]; [None] when no request is passed. *)
Abbreviation FlagCache := (gmap (string * option uuid) bool).

Definition enabled (adb : AuthDb) (flags : FlagRows) (name : string) (user : option (uuid * User)) (registry : Registry) (cache : option FlagCache)
    : bool * option FlagCache :=
  let cache_key := (name, fst <$> user) in
  match (c ← cache; c !! cache_key) with
  | Some answer => (answer, cache)
  | None => let result := _evaluate adb flags name user registry in (result, insert cache_key result <$> cache)
  end.

Definition assistant_enabled_for (adb : AuthDb) (flags : FlagRows) (user : uuid * User) : bool :=
  (enabled adb flags ASSISTANT_FLAG_KEY (Some user) REGISTRY None).1.

(** ** Administration *)

Record FlagView := mkFlagView {
  fv_name : string; fv_flag : Flag; fv_state : FlagState; fv_user_ids : list string; fv_role_ids : list string;
  fv_updated_at : option Z; fv_updated_by_id : option uuid; fv_is_default : bool
}.

(** [FlagView.is_overdue]. *)
Definition is_overdue (today : date) (v : FlagView) : bool :=
  match fl_kind (fv_flag v), fl_expires (fv_flag v) with RELEASE, Some d => d <? today | _, _ => false end.

Definition _view (name : string) (flag : Flag) (row : option FeatureFlagState) : result exn FlagView :=
  match row with
  | None => Ok (mkFlagView name flag (fl_default flag) [] [] None None true)
  | Some r => match FlagState_of (ff_state r) with
              | Some st => Ok (mkFlagView name flag st (ff_user_ids r) (ff_role_ids r) (Some (ff_updated_at r)) (ff_updated_by_id r) false)
              | None => Err (ValueError "FlagState")
              end
  end.

Fixpoint views (flags : FlagRows) (registry : Registry) (names : list string) : result exn (list FlagView) :=
  match names with
  | [] => Ok []
  | name :: rest => match registry !! name with
                    | None => Err KeyError
                    | Some flag => v ← _view name flag (flags !! name); l ← views flags registry rest; Ok (v :: l)
                    end
  end.
Definition get_all (flags : FlagRows) (registry : Registry) : result exn (list FlagView) := views flags registry (str_sorted (dom registry)).

Definition get_flag (flags : FlagRows) (registry : Registry) (name : string) : result exn (option FlagView) :=
  match registry !! name with None => Ok None | Some flag => Some <$> _view name flag (flags !! name) end.

Definition set_state (now : Z) (flags : FlagRows) (registry : Registry) (name : string) (state : FlagState) (user_ids role_ids : list uuid)
    (actor : option uuid) : result exn (FlagRows * FlagView) :=
  match registry !! name with
  | None => Err KeyError
  | Some flag =>
      let '(uids, rids) := if bool_decide (state = F_TARGETED) then (user_ids, role_ids) else ([], []) in
      let row := mkFlagRow (flag_value state) uids rids now actor in
      v ← _view name flag (Some row); Ok (<[name := row]> flags, v)
  end.

(** ** The endpoints (cms/routers/features.py) *)

Record FlagOut := mkFlagOut { fo_view : FlagView; fo_user_ids : list uuid; fo_role_ids : list uuid; fo_is_overdue : bool; fo_include_admins : bool }.

Fixpoint parse_uuids (l : list string) : result exn (list uuid) :=
  match l with
  | [] => Ok []
  | s :: rest => match uuid_of_str s with None => Err (ValueError "badly formed hexadecimal UUID string") | Some u => us ← parse_uuids rest; Ok (u :: us) end
  end.

Definition _to_out (today : date) (view : FlagView) : result exn FlagOut :=
  us ← parse_uuids (fv_user_ids view); rs ← parse_uuids (fv_role_ids view);
  Ok (mkFlagOut view us rs (is_overdue today view) (match REGISTRY !! fv_name view with Some f => fl_include_admins f | None => false end)).

Fixpoint to_outs (today : date) (l : list FlagView) : result exn (list FlagOut) :=
  match l with [] => Ok [] | v :: rest => o ← _to_out today v; os ← to_outs today rest; Ok (o :: os) end.

(** The catalogs of active users and of roles, by name. *)
Definition name_first (a b : uuid * string) : bool := negb (String.ltb b.2 a.2).
Definition _catalogs (adb : AuthDb) : list (uuid * string) * list (uuid * string) :=
  (sort_on name_first ((λ iu, (iu.1, us_username iu.2)) <$> filter (λ iu, us_is_active iu.2 = true) (map_to_list (au_users adb))),
   sort_on name_first ((λ ir, (ir.1, rl_name ir.2)) <$> map_to_list (au_roles adb))).

Definition _payload (today : date) (adb : AuthDb) (flags : FlagRows) : result exn (list FlagOut * (list (uuid * string) * list (uuid * string))) :=
  vs ← get_all flags REGISTRY; os ← to_outs today vs; Ok (os, _catalogs adb).

Definition list_features := _payload.

Definition _reject_unknown {A} (table : gmap uuid A) (ids : list uuid) : result exn unit :=
  if forallb (λ i, bool_decide (is_Some (table !! i))) ids then Ok tt else Err (HTTPException 400).

Record FlagStateIn := mkFlagStateIn { fi_state : string; fi_user_ids : list uuid; fi_role_ids : list uuid }.

(** The rows after the request, and the answer: the page is built after the commit. *)
Definition set_feature_state (now : Z) (today : date) (actor : uuid) (name : string) (payload : FlagStateIn) (adb : AuthDb) (flags : FlagRows)
    : FlagRows * result exn (list FlagOut * (list (uuid * string) * list (uuid * string))) :=
  match FlagState_of (fi_state payload) with
  | None => (flags, Err (HTTPException 400))
  | Some state =>
      if bool_decide (REGISTRY !! name = None) then (flags, Err (HTTPException 404))
      else
        match (_ ← (if bool_decide (state = F_TARGETED)
                    then _ ← _reject_unknown (au_users adb) (fi_user_ids payload); _reject_unknown (au_roles adb) (fi_role_ids payload)
                    else Ok tt);
               set_state now flags REGISTRY name state (fi_user_ids payload) (fi_role_ids payload) (Some actor)) with
        | Err e => (flags, Err e)
        | Ok (flags', _) => (flags', _payload today adb flags')
        end
  end.

(** ** Who has a feature *)

Lemma FlagState_of_value s : FlagState_of (flag_value s) = Some s.
Proof. by destruct s. Qed.

#[local] Opaque REGISTRY _payload FlagState_of.


(** What a payload grants to a user. *)
Definition granted (adb : AuthDb) (flag : Flag) (state : FlagState) (p : FlagStateIn) (id : uuid) (u : User) : Prop :=
  match state with
  | F_ON => True
  | F_OFF => False
  | F_TARGETED => id ∈ fi_user_ids p ∨ us_role_id u ∈ fi_role_ids p ∨
                  fl_include_admins flag = true ∧ SETTINGS_WRITE ∈ _permissions_for adb u
  end.

Lemma has_settings_write perms : has_permission perms SETTINGS_WRITE = true ↔ SETTINGS_WRITE ∈ perms.
Proof. unfold has_permission. case_bool_decide; [done|]. split; [|done]. by rewrite bool_decide_false. Qed.

Lemma set_state_eq now flags (registry : Registry) name flag state us rs actor :
  registry !! name = Some flag → ∃ v,
  set_state now flags registry name state us rs actor =
  Ok (<[name := mkFlagRow (flag_value state) (if bool_decide (state = F_TARGETED) then us else [])
                  (if bool_decide (state = F_TARGETED) then rs else []) now actor]> flags, v).
Proof.
  intros R. unfold set_state, _view. rewrite R. destruct (bool_decide (state = F_TARGETED)); cbn [ff_state];
    rewrite FlagState_of_value; by eexists.
Qed.

Lemma set_feature_state_row now today actor name p adb flags flags' r :
  set_feature_state now today actor name p adb flags = (flags', r) → flags' ≠ flags ∨ is_ok r = true →
  ∃ flag state, REGISTRY !! name = Some flag ∧ FlagState_of (fi_state p) = Some state ∧
    flags' = <[name := mkFlagRow (flag_value state) (if bool_decide (state = F_TARGETED) then fi_user_ids p else [])
                         (if bool_decide (state = F_TARGETED) then fi_role_ids p else []) now (Some actor)]> flags.
Proof.
  unfold set_feature_state. destruct (FlagState_of _) as [state|] eqn:S; [|by intros [= <- <-] [?|?]].
  destruct (REGISTRY !! name) as [flag|] eqn:R; [|by intros [= <- <-] [?|?]]. rewrite bool_decide_false by done.
  destruct (set_state_eq now flags REGISTRY name flag state (fi_user_ids p) (fi_role_ids p) (Some actor) R) as [v ->].
  match goal with |- (match ?c ≫= _ with _ => _ end) = _ → _ => destruct c as [[]|e] end; [|by intros [= <- <-] [?|?]].
  intros H%(f_equal fst) _. exists flag, state. split_and!; [done|done|symmetry; exact H].
Qed.

(** Flipping a switch does what the page says: the flag is then on for exactly the users the payload grants it to
    (and the holders of settings:write where the flag lets them in), whatever was stored before, and every other flag
    answers as before. *)
Theorem flag_set_exact (now : Z) (today : date) (actor : uuid) (name : string) (p : FlagStateIn) (adb : AuthDb) (flags flags' : FlagRows) out :
  set_feature_state now today actor name p adb flags = (flags', Ok out) →
  ∃ flag state, REGISTRY !! name = Some flag ∧ FlagState_of (fi_state p) = Some state ∧
    (∀ id u, _evaluate adb flags' name (Some (id, u)) REGISTRY = true ↔ granted adb flag state p id u) ∧
    (∀ other user registry, other ≠ name → _evaluate adb flags' other user registry = _evaluate adb flags other user registry).
Proof.
  intros H. destruct (set_feature_state_row _ _ _ _ _ _ _ _ _ H) as (flag & state & R & S & ->); [by right|].
  exists flag, state. split_and!; [done|done| |].
  - intros id u. unfold _evaluate. rewrite R, lookup_insert_eq. unfold state_of. simpl. rewrite FlagState_of_value. simpl.
    destruct state; simpl; [done| |done]. rewrite <-has_settings_write. repeat case_bool_decide; simpl; destruct (fl_include_admins flag); naive_solver.
  - intros other user registry Hne. unfold _evaluate. by rewrite lookup_insert_ne.
Qed.

(** ** The memo *)

(** The questions of one request, each with the cache left by the one before. *)
Fixpoint ask (adb : AuthDb) (flags : FlagRows) (registry : Registry) (qs : list (string * option (uuid * User))) (cache : option FlagCache) : list bool :=
  match qs with
  | [] => []
  | (name, user) :: rest => let '(answer, cache') := enabled adb flags name user registry cache in answer :: ask adb flags registry rest cache'
  end.

Definition cache_ok (adb : AuthDb) (flags : FlagRows) (registry : Registry) (cache : option FlagCache) : Prop :=
  ∀ c name id answer, cache = Some c → c !! (name, id) = Some answer →
    ∀ user, fst <$> user = id → (∀ i u, user = Some (i, u) → au_users adb !! i = Some u) → answer = _evaluate adb flags name user registry.

Lemma enabled_ok adb flags registry name user cache :
  cache_ok adb flags registry cache → (∀ i u, user = Some (i, u) → au_users adb !! i = Some u) →
  (enabled adb flags name user registry cache).1 = _evaluate adb flags name user registry ∧
  cache_ok adb flags registry (enabled adb flags name user registry cache).2.
Proof.
  intros C U. unfold enabled. destruct cache as [c|]; simpl; [|done]. destruct (c !! _) as [a|] eqn:E; simpl.
  - split; [|done]. by eapply C.
  - split; [done|]. intros c' n id a [= <-] H user' Hid U'. destruct (decide ((n, id) = (name, fst <$> user))) as [[= -> ->]|N].
    + rewrite lookup_insert_eq in H. injection H as <-. destruct user as [[i u]|], user' as [[i' u']|]; simpl in Hid; simplify_eq; [|done].
      specialize (U i u eq_refl). specialize (U' i u' eq_refl). by simplify_eq.
    + rewrite lookup_insert_ne in H by done. by eapply C.
Qed.

(** Within a request the memo never changes an answer. *)
Lemma memo_sound adb flags registry qs : 
  Forall (λ q, ∀ i u, q.2 = Some (i, u) → au_users adb !! i = Some u) qs →
  ask adb flags registry qs (Some ∅) = (λ q, _evaluate adb flags q.1 q.2 registry) <$> qs.
Proof.
  intros U. assert (C : cache_ok adb flags registry (Some ∅)) by (intros ???? [= <-]; by rewrite lookup_empty).
  revert U C. generalize (Some (∅ : FlagCache)). induction qs as [|[n u] qs IH]; intros cache U C; [done|].
  apply Forall_cons in U as [U0 U]. simpl. destruct (enabled_ok adb flags registry n u cache C U0) as [E C'].
  destruct (enabled adb flags n u registry cache) as [a c']. simpl in E, C'. by rewrite E, IH.
Qed.

(** ** A stored state the code does not know *)

Definition flag_user : User := mkUser "amy" "amy@x.org" "h" "ops" true false None None None None None.
Definition flag_db : AuthDb := mkAuthDb {[ "amy" := flag_user ]} {[ "ops" := mkRole "Operator" ["settings:write"] false ]} ∅ ∅ ∅.

(** Evaluation falls back to the default of the flag; the page of the flags
    raises. *)
Example unknown_state_breaks_page :
  let flags := {[ ASSISTANT_FLAG_KEY := mkFlagRow "beta" [] [] 0 None ]} in
  _evaluate flag_db flags ASSISTANT_FLAG_KEY (Some ("amy", flag_user)) REGISTRY = true ∧
  list_features 0 flag_db flags = Err (ValueError "FlagState").
Proof. by vm_compute. Qed.

(** ** Witnesses *)

Lemma flag_set_exact_witness :
  let flags' := (set_feature_state 5 0 "amy" ASSISTANT_FLAG_KEY (mkFlagStateIn "off" [] []) flag_db ∅).1 in
  _evaluate flag_db flags' ASSISTANT_FLAG_KEY (Some ("amy", flag_user)) REGISTRY = false.
Proof.
  intros flags'. destruct (flag_set_exact 5 0 "amy" ASSISTANT_FLAG_KEY (mkFlagStateIn "off" [] []) flag_db ∅ flags'
    (match (set_feature_state 5 0 "amy" ASSISTANT_FLAG_KEY (mkFlagStateIn "off" [] []) flag_db ∅).2 with Ok o => o | Err _ => ([], ([], [])) end))
    as (flag & state & _ & S & H & _); [by vm_compute|]. vm_compute in S. injection S as <-.
  apply not_true_iff_false. intros E. by apply H in E.
Defined.
