(* ===== verification/Budget.v ===== *)
(** * Token caps of the assistant (cms/services/assistant/budget.py: the caps,
      cms/routers/assistant_settings.py)

    The default cap and the overrides per user live as texts in [cms_settings];
    the endpoint of the settings page replaces both.  User ids are canonical
    texts of UUIDs. *)

From S2P Require Import Prelude Clock Models PyText Presence JsonText Ota Access.
Open Scope Z_scope.

(** ** Settings *)

Definition DEFAULT_DAILY_TOKEN_CAP : Z := 50000.
Definition BUDGET_CAP_KEY : string := "assistant_daily_token_cap".
Definition BUDGET_OVERRIDES_KEY : string := "assistant_daily_token_cap_overrides".

Definition get_default_cap (adb : AuthDb) : Z :=
  match truthy (get_setting adb BUDGET_CAP_KEY) with
  | None => DEFAULT_DAILY_TOKEN_CAP
  | Some raw => int_of_str raw or_else DEFAULT_DAILY_TOKEN_CAP
  end.
Definition set_default_cap (cap : Z) (adb : AuthDb) : AuthDb := set_setting BUDGET_CAP_KEY (Z_str cap) adb.

Abbreviation Overrides := (list (uuid * Z)).

(** The loop body over the JSON object: an entry that does not parse is skipped. *)
Definition load_entry (out : Overrides) (kv : string * Json) : Overrides :=
  match uuid_of_str kv.1, py_int kv.2 with Some u, Some n => aset u n out | _, _ => out end.
Definition _load_overrides (adb : AuthDb) : Overrides :=
  match truthy (get_setting adb BUDGET_OVERRIDES_KEY) with
  | None => []
  | Some raw => match json_loads raw with Some (JObj data) => fold_left load_entry data [] | _ => [] end
  end.
Definition get_overrides := _load_overrides.

(** [json.dumps({str(uid): int(c)})]; there are no floats to print. *)
Definition serialised (overrides : Overrides) : string :=
  json_dumps (λ _, "") (JObj ((λ uc, (uc.1, JNum (QArith_base.Qmake uc.2 1))) <$> overrides)).
Definition store_overrides (overrides : Overrides) (adb : AuthDb) : AuthDb := set_setting BUDGET_OVERRIDES_KEY (serialised overrides) adb.

Definition set_user_override (user_id : uuid) (cap : Z) (adb : AuthDb) : AuthDb := store_overrides (aset user_id cap (_load_overrides adb)) adb.
Definition clear_user_override (user_id : uuid) (adb : AuthDb) : AuthDb :=
  let overrides := _load_overrides adb in
  match aget user_id overrides with None => adb | Some _ => store_overrides (adel user_id overrides) adb end.

Definition get_user_daily_cap (adb : AuthDb) (user_id : uuid) : Z := aget user_id (_load_overrides adb) or_else get_default_cap adb.

(** ** The settings page *)

Record AssistantBudgetIn := mkBudgetIn { bi_default_cap : Z; bi_overrides : list (string * Z) }.

Definition parse_override (acc : Overrides * list string) (kv : string * Z) : Overrides * list string :=
  match uuid_of_str kv.1 with Some u => (aset u kv.2 acc.1, acc.2) | None => (acc.1, acc.2 ++ [kv.1]) end.
Definition parsed_overrides (p : AssistantBudgetIn) : Overrides * list string := fold_left parse_override (bi_overrides p) ([], []).

(** Without the catalog of users. *)
Definition get_assistant_settings (adb : AuthDb) : Z * Overrides := (get_default_cap adb, get_overrides adb).

Definition clear_missing (incoming : list uuid) (adb : AuthDb) (uid : uuid) : AuthDb :=
  if bool_decide (uid ∈ incoming) then adb else clear_user_override uid adb.
Definition set_one (adb : AuthDb) (uc : uuid * Z) : AuthDb := set_user_override uc.1 uc.2 adb.

Definition put_assistant_budget (p : AssistantBudgetIn) (adb : AuthDb) : result exn (AuthDb * (Z * Overrides)) :=
  let '(parsed, bad_keys) := parsed_overrides p in
  if negb (bool_decide (bad_keys = [])) then Err (HTTPException 400)
  else if negb (forallb (λ u, bool_decide (is_Some (au_users adb !! u))) parsed.*1) then Err (HTTPException 400)
  else
    let adb := set_default_cap (bi_default_cap p) adb in
    let adb := fold_left (clear_missing parsed.*1) (_load_overrides adb).*1 adb in
    let adb := fold_left set_one parsed adb in
    Ok (adb, get_assistant_settings adb).

(** ** Texts of numbers and ids read back *)

Lemma strip_all p s : str_all (λ c, negb (p c)) s = true → strip_left p s = s ∧ strip_right p s = s.
Proof.
  induction s as [|c s IH]; [done|]. simpl. intros [Hc Hs]%andb_true_iff. apply negb_true_iff in Hc. rewrite Hc. split; [done|].
  destruct (IH Hs) as [_ ->]. by destruct s.
Qed.
Lemma str_strip_all s : str_all (λ c, negb (is_space c)) s = true → str_strip s = s.
Proof.
  intros H. unfold str_strip. assert (L : str_lstrip s = s).
  { destruct s as [|c s]; [done|]. simpl in H |- *. apply andb_true_iff in H as [Hc _]. apply negb_true_iff in Hc. by rewrite Hc. }
  rewrite L. clear L. induction s as [|c s IH]; [done|]. simpl in H |- *. apply andb_true_iff in H as [Hc Hs]. apply negb_true_iff in Hc.
  rewrite IH by done. by destruct s; [rewrite Hc|].
Qed.
Lemma is_digit_not_space c : is_digit c = true → negb (is_space c) = true.
Proof. by destruct c as [[] [] [] [] [] [] [] []]. Qed.

Lemma nat_str_digits f n : 0 ≤ n → str_all is_digit (nat_str_fuel f n) = true.
Proof.
  revert n. induction f as [|f IH]; intros n Hn; cbn [nat_str_fuel]; [done|].
  assert (D : str_all is_digit (digit n) = true).
  { rewrite <-(str_app_nil_r (digit n)). destruct (digit_value_digit n "" Hn) as [-> _]. simpl. by rewrite digit_is_digit. }
  destruct (n <? 10); [done|]. rewrite str_all_app, IH by (apply Z.div_pos; lia). by rewrite D.
Qed.
Lemma Z_str_no_space n : str_all (λ c, negb (is_space c)) (Z_str n) = true.
Proof.
  assert (H : ∀ m, 0 ≤ m → str_all (λ c, negb (is_space c)) (Z_str m) = true).
  { intros m Hm. rewrite Z_str_nonneg by done. eapply str_all_impl; [apply is_digit_not_space|by apply nat_str_digits]. }
  destruct (Z.lt_ge_cases n 0); [|by apply H]. rewrite Z_str_neg, str_all_app, H by lia. done.
Qed.

Lemma int_of_Z_str n : int_of_str (Z_str n) = Some n.
Proof.
  unfold int_of_str. rewrite str_strip_all by apply Z_str_no_space. destruct (Z.lt_ge_cases n 0) as [L|G].
  - assert (E : Z_str n = String "-"%char (Z_str (- n))) by by rewrite Z_str_neg. rewrite E. cbn. rewrite parse_Z_str by lia. simpl. f_equal. lia.
  - rewrite <-(parse_Z_str n) by done. destruct (Z_str_head n "") as (c & u & E & Hc & Hm). rewrite str_app_nil_r in E. rewrite E.
    repeat (apply elem_of_cons in Hc as [->|Hc]; [try done; by pose proof (proj1 Hm eq_refl); lia|]). by apply elem_of_nil in Hc.
Qed.

Definition uuid_char (c : ascii) : bool := (is_hex c && bool_decide (lower_char c = c)) || bool_decide (c = "-"%char).
Lemma str_all_substring p n m s : str_all p s = true → str_all p (String.substring n m s) = true.
Proof.
  revert n m. induction s as [|c s IH]; intros [|n] [|m]; simpl; try done; intros [Hc Hs]%andb_true_iff; [by rewrite Hc, IH|auto..].
Qed.
Lemma str_filter_app p a b : str_filter p (a +:+ b) = str_filter p a +:+ str_filter p b.
Proof. induction a as [|c a IH]; [done|]. rewrite str_app_cons. simpl. destruct (p c); rewrite IH; [by rewrite str_app_cons|done]. Qed.
Lemma str_filter_all p s : str_all p s = true → str_filter p s = s.
Proof. induction s as [|c s IH]; [done|]. simpl. intros [-> Hs]%andb_true_iff. by rewrite IH. Qed.

Definition lower_hex (c : ascii) : bool := is_hex c && bool_decide (lower_char c = c).
Lemma uuid_text_chars h : String.length h = 32%nat → str_all lower_hex h = true →
  str_all uuid_char (uuid_text h) = true ∧ str_filter (λ c, negb (bool_decide (c = "-"%char))) (uuid_text h) = h.
Proof.
  intros L H. assert (S : ∀ n m, str_all uuid_char (String.substring n m h) = true ∧
    str_filter (λ c, negb (bool_decide (c = "-"%char))) (String.substring n m h) = String.substring n m h).
  { intros n m. pose proof (str_all_substring lower_hex n m h H) as Hs. split; [eapply str_all_impl; [|exact Hs]|apply str_filter_all; eapply str_all_impl; [|exact Hs]].
    - intros c Hc. unfold uuid_char, lower_hex in *. by rewrite Hc.
    - intros c. by destruct c as [[] [] [] [] [] [] [] []]. }
  unfold uuid_text. split.
  - rewrite !str_all_app. by rewrite !(proj1 (S _ _)).
  - rewrite !str_filter_app, !(proj2 (S _ _)). clear S H. do 32 (destruct h as [|? h]; [done|]). by destruct h.
Qed.

Lemma str_remove_absent f c p s : str_all (λ x, negb (bool_decide (c = x))) s = true → str_remove f (String c p) s = s.
Proof.
  revert s. induction f as [|f IH]; intros s H; [by destruct s|]. destruct s as [|x s]; [done|]. simpl in H |- *.
  apply andb_true_iff in H as [Hx Hs]. apply negb_true_iff in Hx. rewrite Hx. by rewrite IH.
Qed.

Lemma str_lower_hex h : str_all is_hex h = true →
  String.length (str_lower h) = String.length h ∧ str_all lower_hex (str_lower h) = true.
Proof.
  induction h as [|c h IH]; [done|]. simpl. intros [Hc Hh]%andb_true_iff. destruct (IH Hh) as [L A]. split; [by f_equal|].
  fold (str_lower h). rewrite A, andb_true_r. unfold lower_hex. by destruct c as [[] [] [] [] [] [] [] []].
Qed.
Lemma str_lower_id h : str_all lower_hex h = true → str_lower h = h.
Proof.
  induction h as [|c h IH]; [done|]. simpl. unfold lower_hex at 1. intros [[_ Hc]%andb_true_iff Hh]%andb_true_iff. apply bool_decide_eq_true in Hc.
  unfold str_lower in *. simpl. by rewrite Hc, IH.
Qed.

(** The text of a UUID reads back. *)
Lemma uuid_of_str_idem s u : uuid_of_str s = Some u → uuid_of_str u = Some u.
Proof.
  unfold uuid_of_str at 1. set (h := str_filter _ _). destruct (bool_decide (String.length h = 32%nat) && str_all is_hex h) eqn:E; [|done].
  apply andb_true_iff in E as [L%bool_decide_eq_true A]. intros [= <-]. destruct (str_lower_hex h A) as [L' A']. rewrite L in L'.
  destruct (uuid_text_chars (str_lower h) L' A') as [C F]. unfold uuid_of_str.
  assert (R : ∀ n c p, uuid_char c = false → str_remove n (String c p) (uuid_text (str_lower h)) = uuid_text (str_lower h)).
  { intros n c p Hc. apply str_remove_absent. eapply str_all_impl; [|exact C]. intros x Hx. apply negb_true_iff, bool_decide_eq_false.
    intros ->. congruence. }
  rewrite (R _ "u"%char), (R _ "u"%char) by done.
  assert (B : str_all (λ c, negb (bool_decide (c = "{"%char) || bool_decide (c = "}"%char))) (uuid_text (str_lower h)) = true).
  { eapply str_all_impl; [|exact C]. intros c. by destruct c as [[] [] [] [] [] [] [] []]. }
  destruct (strip_all _ _ B) as [-> ->]. rewrite F, bool_decide_true by done. rewrite (str_lower_id (str_lower h)) by done.
  assert (X : str_all is_hex (str_lower h) = true) by (eapply str_all_impl; [|exact A']; unfold lower_hex; by intros c [? _]%andb_true_iff).
  by rewrite X.
Qed.

(** ** What the settings say *)

Record overrides_ok (o : Overrides) : Prop := {
  oo_keys : NoDup o.*1;
  oo_canon : Forall (λ u, uuid_of_str u = Some u) o.*1
}.

Lemma overrides_ok_aset u n o : overrides_ok o → uuid_of_str u = Some u → overrides_ok (aset u n o).
Proof.
  intros [N C] Hu. split; [by apply aset_NoDup|]. rewrite aset_keys. case_decide; [done|]. apply Forall_app. by repeat constructor.
Qed.
Lemma overrides_ok_adel u o : overrides_ok o → overrides_ok (adel u o).
Proof.
  intros [N C]. split; [by apply filter_keys_NoDup|]. rewrite Forall_forall in C |- *. intros x Hx. apply C.
  apply list_elem_of_fmap in Hx as (kv & -> & [_ Hkv]%list_elem_of_filter). apply list_elem_of_fmap. by exists kv.
Qed.
Lemma load_overrides_ok adb : overrides_ok (_load_overrides adb).
Proof.
  unfold _load_overrides. assert (E : overrides_ok []) by (split; constructor). destruct (truthy _) as [raw|]; [|done].
  destruct (json_loads raw) as [[]|]; try done. apply fold_left_inv; [done|]. intros o [k v] _ Ho. unfold load_entry.
  destruct (uuid_of_str _) as [u|] eqn:U; [|done]. destruct (py_int _); [|done]. apply overrides_ok_aset; [done|by eapply uuid_of_str_idem].
Qed.

Lemma serialised_nonempty o : truthy (Some (serialised o)) = Some (serialised o).
Proof. by destruct o. Qed.
Lemma load_entries (o out : Overrides) : Forall (λ u, uuid_of_str u = Some u) o.*1 → NoDup (out ++ o).*1 →
  fold_left load_entry ((λ uc, (uc.1, JNum (QArith_base.Qmake uc.2 1))) <$> o) out = out ++ o.
Proof.
  revert out. induction o as [|[u n] o IH]; intros out C N; [by rewrite app_nil_r|]. apply Forall_cons in C as [Cu C].
  assert (E : load_entry out (u, JNum (QArith_base.Qmake n 1)) = aset u n out).
  { unfold load_entry. cbn [fst snd] in Cu |- *. rewrite Cu. cbn. by rewrite Z.quot_1_r. }
  cbn [fmap list_fmap fold_left fst snd]. rewrite E, aset_fresh.
  - rewrite IH; [by rewrite <-app_assoc|done|by rewrite <-app_assoc].
  - rewrite fmap_app in N. csimpl in N. apply NoDup_app in N as (_ & N & _). intros I. apply (N u I). left.
Qed.
(** What is stored is what is loaded. *)
Lemma load_store o adb : overrides_ok o → _load_overrides (store_overrides o adb) = o.
Proof.
  intros [N C]. unfold _load_overrides, store_overrides, get_setting, set_setting, put_settings. cbn [au_settings]. rewrite lookup_insert_eq.
  rewrite serialised_nonempty. unfold serialised. rewrite json_roundtrip.
  - by rewrite load_entries.
  - split; [by rewrite <-list_fmap_compose|]. clear. induction o as [|[u n] o IH]; [done|]. by split.
Qed.

Lemma load_set u n adb : uuid_of_str u = Some u → _load_overrides (set_user_override u n adb) = aset u n (_load_overrides adb).
Proof. intros Hu. apply load_store, overrides_ok_aset; [apply load_overrides_ok|done]. Qed.
Lemma load_clear u adb x : aget x (_load_overrides (clear_user_override u adb)) = if decide (x = u) then None else aget x (_load_overrides adb).
Proof.
  pose proof (load_overrides_ok adb) as O. unfold clear_user_override. destruct (aget u _) as [n|] eqn:E.
  - rewrite load_store by by apply overrides_ok_adel. apply aget_adel, O.
  - case_decide; [by subst|done].
Qed.

(** The other settings, and the accounts, stay. *)
Definition same_rest (adb adb' : AuthDb) : Prop :=
  au_users adb' = au_users adb ∧ au_roles adb' = au_roles adb ∧ au_user_groups adb' = au_user_groups adb ∧ au_keys adb' = au_keys adb ∧
  ∀ k, k ≠ BUDGET_OVERRIDES_KEY → get_setting adb' k = get_setting adb k.
#[export] Instance same_rest_refl : Reflexive same_rest.
Proof. by intros x. Qed.
#[export] Instance same_rest_trans : Transitive same_rest.
Proof.
  intros x y z (A & B & C & D & E) (A' & B' & C' & D' & E'). split_and!; try congruence. intros k Hk. by rewrite E', E.
Qed.
Lemma store_same_rest o adb : same_rest adb (store_overrides o adb).
Proof. split_and!; try done. intros k Hk. unfold get_setting, store_overrides, set_setting. cbn. by rewrite lookup_insert_ne. Qed.
Lemma clear_same_rest u adb : same_rest adb (clear_user_override u adb).
Proof. unfold clear_user_override. destruct (aget _ _); [apply store_same_rest|done]. Qed.

Lemma clear_missing_all incoming l adb x :
  aget x (_load_overrides (fold_left (clear_missing incoming) l adb)) =
    (if bool_decide (x ∈ l ∧ x ∉ incoming) then None else aget x (_load_overrides adb)) ∧
  same_rest adb (fold_left (clear_missing incoming) l adb).
Proof.
  revert adb. induction l as [|u l IH]; intros adb; cbn [fold_left]; [by rewrite bool_decide_false by (by intros [?%elem_of_nil _])|].
  destruct (IH (clear_missing incoming adb u)) as [-> R]. unfold clear_missing in R |- *. destruct (bool_decide (u ∈ incoming)) eqn:U.
  - split; [|done]. apply bool_decide_eq_true in U. repeat case_bool_decide; set_solver.
  - split; [|etrans; [apply clear_same_rest|done]]. apply bool_decide_eq_false in U. rewrite load_clear.
    repeat case_bool_decide; repeat case_decide; set_solver.
Qed.
Lemma set_all parsed adb x : Forall (λ u, uuid_of_str u = Some u) parsed.*1 → NoDup parsed.*1 →
  aget x (_load_overrides (fold_left set_one parsed adb)) = match aget x parsed with Some n => Some n | None => aget x (_load_overrides adb) end ∧
  same_rest adb (fold_left set_one parsed adb).
Proof.
  revert adb. induction parsed as [|[u n] parsed IH]; intros adb C N; [done|]. apply Forall_cons in C as [Cu C].
  cbn [fmap list_fmap] in N. apply NoDup_cons in N as [Nu N]. cbn [fold_left]. destruct (IH (set_one adb (u, n)) C N) as [-> R].
  unfold set_one at 1. cbn [fst snd]. rewrite load_set, aget_aset by done. cbn [aget]. split; [|etrans; [apply store_same_rest|done]].
  case_decide as E; [subst|done]. destruct (aget u parsed) eqn:A; [|done]. apply aget_elem_of in A; [|done]. destruct Nu.
  apply list_elem_of_fmap. by exists (u, z).
Qed.

Lemma parsed_ok p : overrides_ok (parsed_overrides p).1.
Proof.
  unfold parsed_overrides. apply (fold_left_inv _ (λ acc, overrides_ok acc.1)); [split; constructor|]. intros [o b] [k v] _ Ho.
  unfold parse_override. cbn [fst snd]. destruct (uuid_of_str k) eqn:U; [|done]. apply overrides_ok_aset; [done|by eapply uuid_of_str_idem].
Qed.

(** Saving the settings page makes its numbers the caps in force, through the texts in the settings table and back:
    a user the page names has the cap it gives, everyone else the default it gives, whatever was stored before; no
    account and no other setting changes. *)
Theorem budget_page_exact (p : AssistantBudgetIn) (adb adb' : AuthDb) shown :
  put_assistant_budget p adb = Ok (adb', shown) →
  (∀ u, get_user_daily_cap adb' u = aget u (parsed_overrides p).1 or_else bi_default_cap p) ∧
  au_users adb' = au_users adb ∧ au_roles adb' = au_roles adb ∧
  (∀ k, k ∉ [BUDGET_CAP_KEY; BUDGET_OVERRIDES_KEY] → get_setting adb' k = get_setting adb k).
Proof.
  unfold put_assistant_budget. pose proof (parsed_ok p) as [N C]. destruct (parsed_overrides p) as [parsed bad]. cbn [fst] in N, C |- *.
  destruct (negb _); [done|]. destruct (negb _); [done|]. intros [= <- _].
  set (a1 := set_default_cap _ _). set (a2 := fold_left (clear_missing parsed.*1) _ a1).
  assert (R2 : same_rest a1 a2) by apply (clear_missing_all parsed.*1 (_load_overrides a1).*1 a1 "").
  pose proof (set_all parsed a2 "" C N) as [_ R3].
  destruct (transitivity R2 R3) as (Hu & Hr & _ & _ & Hs). split_and!; [|done|done|].
  - intros u. unfold get_user_daily_cap. destruct (set_all parsed a2 u C N) as [-> _]. destruct (aget u parsed) as [n|] eqn:A; [done|].
    assert (Hn : aget u (_load_overrides a2) = None).
    { destruct (clear_missing_all parsed.*1 (_load_overrides a1).*1 a1 u) as [E _]. fold a2 in E. rewrite E. case_bool_decide as B; [done|].
      destruct (aget u (_load_overrides a1)) as [n|] eqn:L; [|done]. destruct B.
      apply aget_elem_of in L; [|apply load_overrides_ok]. split; [apply list_elem_of_fmap; by exists (u, n)|].
      intros ((u' & n') & -> & I)%list_elem_of_fmap. apply aget_elem_of in I; [|done]. simpl in A. congruence. }
    rewrite Hn. simpl. unfold get_default_cap. rewrite Hs by done. unfold a1, set_default_cap, get_setting, set_setting. cbn [au_settings put_settings].
    rewrite lookup_insert_eq. assert (T : truthy (Some (Z_str (bi_default_cap p))) = Some (Z_str (bi_default_cap p))).
    { destruct (Z_str_head (bi_default_cap p) "") as (c & x & E & _). rewrite str_app_nil_r in E. by rewrite E. }
    by rewrite T, int_of_Z_str.
  - intros k Hk. rewrite Hs by set_solver. unfold a1, set_default_cap, get_setting, set_setting. cbn. rewrite lookup_insert_ne by set_solver. done.
Qed.

(** ** Witnesses *)

Definition BOB : uuid := "12345678-1234-5678-1234-567812345678".
Definition bobs_db : AuthDb := mkAuthDb {[ BOB := mkUser "bob" "bob@x.org" "h" "ops" true false None None None None None ]} ∅ ∅ ∅ {[ BUDGET_CAP_KEY := "7" ]}.

Lemma budget_page_exact_witness :
  match put_assistant_budget (mkBudgetIn 20 [("12345678123456781234567812345678", -1)]) bobs_db with
  | Ok (adb', _) => get_user_daily_cap adb' BOB = -1 ∧ get_user_daily_cap adb' "x" = 20
  | Err _ => False
  end.
Proof.
  destruct (put_assistant_budget (mkBudgetIn 20 [("12345678123456781234567812345678", -1)]) bobs_db) as [[adb' shown]|e] eqn:E; [|by vm_compute in E].
  destruct (budget_page_exact _ _ _ _ E) as (H & _). split; [by rewrite (H BOB)|by rewrite (H "x")].
Defined.
