(* ===== verification/LogBlobs.v ===== *)
(** * The store of log bundles (cms/services/log_blob.py)

    Two backends: a directory and an Azure container.  A blob is addressed by a
    relative path; the local backend normalises it and guards against leaving
    its directory. *)

From Stdlib Require Import Strings.Byte.
From S2P Require Import Prelude.
Open Scope Z_scope.

Abbreviation bytes := (list Byte.byte).
#[export] Instance byte_eq_dec : EqDecision Byte.byte := Byte.byte_eq_dec.

(** ** Paths *)

Definition SLASH : Ascii.ascii := "/"%char.
Definition BACKSLASH : Ascii.ascii := "\"%char.

(** [s.split(c)]: never empty. *)
Fixpoint split_on (c : Ascii.ascii) (s : string) : list string :=
  match s with
  | EmptyString => [EmptyString]
  | String a s' =>
      if decide (a = c) then EmptyString :: split_on c s'
      else match split_on c s' with
           | x :: l => String a x :: l
           | [] => [String a EmptyString]
           end
  end.

(** [s.replace(c, d)] for single characters. *)
Fixpoint replace_char (c d : Ascii.ascii) (s : string) : string :=
  match s with
  | EmptyString => EmptyString
  | String a s' => String (if decide (a = c) then d else a) (replace_char c d s')
  end.

(** [posixpath.normpath]; [acc] holds the components kept so far, last first. *)
Fixpoint norm_comps (absolute : bool) (acc comps : list string) : list string :=
  match comps with
  | [] => rev acc
  | comp :: comps =>
      if bool_decide (comp = "" ∨ comp = ".") then norm_comps absolute acc comps
      else if bool_decide (comp ≠ "..") then norm_comps absolute (comp :: acc) comps
      else match acc with
           | [] => if absolute then norm_comps absolute [] comps else norm_comps absolute [".."] comps
           | top :: rest =>
               if bool_decide (top = "..") then norm_comps absolute (comp :: acc) comps
               else norm_comps absolute rest comps
           end
  end.

Definition initial_slashes (path : string) : string :=
  match path with
  | String a (String b (String c _)) =>
      if decide (a = SLASH) then if decide (b = SLASH) then if decide (c = SLASH) then "/" else "//" else "/" else ""
  | String a (String b EmptyString) => if decide (a = SLASH) then if decide (b = SLASH) then "//" else "/" else ""
  | String a EmptyString => if decide (a = SLASH) then "/" else ""
  | EmptyString => ""
  end.

Definition normpath (path : string) : string :=
  let lead := initial_slashes path in
  let joined := lead +:+ String.concat "/" (norm_comps (bool_decide (lead ≠ "")) [] (split_on SLASH path)) in
  if bool_decide (joined = "") then "." else joined.

(** ** Backends *)

Inductive Backend := Local | Azure.

#[export] Instance Backend_eq_dec : EqDecision Backend.
Proof. solve_decision. Defined.

(** [LocalLogBlobBackend._resolve]: the path below the base directory, after
    its guard. *)
Definition _resolve (relative_path : string) : result exn string :=
  let clean := replace_char BACKSLASH SLASH (normpath relative_path) in
  if String.prefix ".." clean || String.prefix "/" clean then Err (ValueError "invalid log blob path")
  else Ok clean.

(** The file or blob a path names.  The operating system follows the [..] of a
    path that still has some, from the base directory (whose parents exist, for
    [write] makes them); Azure names are flat. *)
Definition blob_key (bk : Backend) (path : string) : result exn string :=
  match bk with
  | Local => normpath <$> _resolve path
  | Azure => Ok path
  end.

Abbreviation blobs := (gmap string bytes).

(** What the file system or the service does with a request that reaches it. *)
Inductive blob_io := BLOB_OK | BLOB_FAILS.
Inductive write_io := WRITE_OK | WRITE_FAILS (remains : option bytes) (err : exn).

#[export] Instance blob_io_eq_dec : EqDecision blob_io.
Proof. solve_decision. Defined.

(** A source of data: the chunks it yields and the exception it ends with. *)
Record DataSource := mkSource { src_chunks : list bytes; src_error : option exn }.
Definition of_bytes (data : bytes) : DataSource := mkSource [data] None.

(** [write]: the local backend writes chunk by chunk, so a source that raises
    leaves what it gave; Azure uploads once the source has ended. *)
Definition write_log_blob (bk : Backend) (io : string → write_io) (path : string) (src : DataSource) (b : blobs)
    : blobs * result exn Z :=
  let data := concat (src_chunks src) in
  match blob_key bk path with
  | Err e => (b, Err e)
  | Ok k =>
      match bk, src_error src, io k with
      | Local, _, WRITE_FAILS rest err => (match rest with Some c => <[k := c]> b | None => b end, Err err)
      | Local, Some e, WRITE_OK => (<[k := data]> b, Err e)
      | Azure, Some e, _ => (b, Err e)
      | Azure, None, WRITE_FAILS _ err => (b, Err err)
      | _, None, WRITE_OK => (<[k := data]> b, Ok (Z.of_nat (length data)))
      end
  end.

(** [delete]: [None] when it raises.  The local backend raises on any failure
    but a missing file; Azure logs the failure and answers False. *)
Definition delete_log_blob (bk : Backend) (io : string → blob_io) (path : string) (b : blobs)
    : blobs * option bool :=
  match blob_key bk path with
  | Err _ => (b, None)
  | Ok k =>
      match bk, io k with
      | _, BLOB_OK => (delete k b, Some (bool_decide (is_Some (b !! k))))
      | Local, BLOB_FAILS => (b, None)
      | Azure, BLOB_FAILS => (b, Some false)
      end
  end.

(** [get_download_response]: the bytes served, [None] when there is no file. *)
Definition read_log_blob (bk : Backend) (path : string) (b : blobs) : result exn (option bytes) :=
  match blob_key bk path with Err e => Err e | Ok k => Ok (b !! k) end.

(** ** Plain ids *)

(** The ids the CMS gives (UUIDs and the device ids it stores): no separator,
    not hidden. *)
Fixpoint no_char (c : Ascii.ascii) (s : string) : bool :=
  match s with
  | EmptyString => true
  | String a s' => negb (bool_decide (a = c)) && no_char c s'
  end.
Definition plain (s : string) : bool :=
  negb (bool_decide (s = "")) && no_char SLASH s && no_char BACKSLASH s && negb (String.prefix "." s).

(** [f"{device_id}/{request_id}.tar.gz"]. *)
Definition bundle_path (device_id request_id : string) : string :=
  device_id +:+ "/" +:+ request_id +:+ ".tar.gz".

Example normpath_dots : normpath "a//b/./../c/" = "a/c". Proof. reflexivity. Qed.
Example normpath_up : normpath "../a/../../b" = "../../b". Proof. reflexivity. Qed.
Example normpath_root : normpath "///.." = "/". Proof. reflexivity. Qed.
Example normpath_empty : normpath "" = ".". Proof. reflexivity. Qed.

(** ** Lemmas *)

Lemma no_char_spec c s : no_char c s = true → replace_char c SLASH s = s ∧ split_on c s = [s].
Proof.
  induction s as [|a s IH]; [done|]. simpl. intros [Ha Hs]%andb_true_iff. bool_to_prop.
  destruct (IH Hs) as [IH1 IH2]. by rewrite IH1, IH2, !decide_False by done.
Qed.

Lemma replace_char_app c d s1 s2 : replace_char c d (s1 +:+ s2) = replace_char c d s1 +:+ replace_char c d s2.
Proof. induction s1 as [|a s1 IH]; [done|]. rewrite str_app_cons. simpl. rewrite IH. by rewrite str_app_cons. Qed.

Lemma no_char_app c s1 s2 : no_char c (s1 +:+ s2) = no_char c s1 && no_char c s2.
Proof. induction s1 as [|a s1 IH]; [done|]. rewrite str_app_cons. simpl. by rewrite IH, andb_assoc. Qed.

(** The components of a path whose first one has no slash. *)
Lemma split_on_slash s rest :
  no_char SLASH s = true → split_on SLASH (s +:+ "/" +:+ rest) = s :: split_on SLASH rest.
Proof.
  induction s as [|a s IH]; [done|]. rewrite str_app_cons. simpl. intros [Ha Hs]%andb_true_iff. bool_to_prop.
  by rewrite decide_False, IH.
Qed.

Lemma plain_inv s :
  plain s = true → s ≠ "" ∧ no_char SLASH s = true ∧ no_char BACKSLASH s = true ∧ String.prefix "." s = false.
Proof. unfold plain. intros Hp. bool_to_prop. done. Qed.

Lemma plain_normal s : plain s = true → s ≠ "." ∧ s ≠ "..".
Proof. intros (_ & _ & _ & Hp)%plain_inv. split; by intros ->. Qed.

Lemma prefix_app p s rest : s ≠ "" → String.length p = 1%nat → String.prefix p (s +:+ rest) = String.prefix p s.
Proof.
  intros Hs Hp. destruct s as [|c s]; [done|]. destruct p as [|a [|]]; try done. rewrite str_app_cons.
  simpl. destruct (ascii_dec a c); [|done]. by destruct s, rest.
Qed.

Lemma prefix_dots s : String.prefix "." s = false → String.prefix ".." s = false.
Proof. destruct s as [|a s]; [done|]. cbn [String.prefix]. destruct (ascii_dec "." a); [by destruct s|done]. Qed.

Lemma initial_slashes_plain s rest : s ≠ "" → no_char SLASH s = true → initial_slashes (s +:+ rest) = "".
Proof.
  destruct s as [|a s]; [done|]. rewrite str_app_cons. simpl. intros _ [Ha _]%andb_true_iff. bool_to_prop.
  destruct (s +:+ rest) as [|b [|c ?]]; simpl; by rewrite decide_False by done.
Qed.

Section plain_path.
Context (dev id : string).
Hypothesis dev_plain : plain dev = true.
Hypothesis id_plain : no_char SLASH id = true ∧ no_char BACKSLASH id = true.
Notation file := (id +:+ ".tar.gz").

Lemma file_normal : file ≠ "" ∧ file ≠ "." ∧ file ≠ "..".
Proof.
  assert (Hl : (7 ≤ String.length file)%nat) by (rewrite str_app_length; simpl; lia).
  repeat split; intros E; rewrite E in Hl; simpl in Hl; lia.
Qed.

Lemma file_no_char c : c = SLASH ∨ c = BACKSLASH → no_char c file = true.
Proof. destruct id_plain as [H1 H2]. intros [-> | ->]; rewrite no_char_app, ?H1, ?H2; done. Qed.

Lemma normpath_bundle : normpath (bundle_path dev id) = bundle_path dev id.
Proof.
  destruct (plain_inv dev dev_plain) as (Hne & Hs & _ & _), (plain_normal dev dev_plain) as [Hd Hdd].
  destruct file_normal as (Hf & Hfd & Hfdd). unfold normpath, bundle_path.
  rewrite initial_slashes_plain, split_on_slash by done.
  destruct (no_char_spec SLASH file (file_no_char _ (or_introl eq_refl))) as [_ ->].
  cbn [norm_comps]. rewrite (bool_decide_eq_false_2 (dev = "" ∨ dev = ".")) by tauto.
  rewrite (bool_decide_eq_true_2 (dev ≠ "..")) by done.
  rewrite (bool_decide_eq_false_2 (file = "" ∨ file = ".")) by tauto.
  rewrite (bool_decide_eq_true_2 (file ≠ "..")) by done.
  cbn [rev app]. change (String.concat "/" [dev; file]) with (dev +:+ "/" +:+ file). rewrite str_app_nil.
  rewrite bool_decide_eq_false_2; [done|]. by destruct dev.
Qed.

(** Where the bundle of plain ids is: at its own path, in both backends. *)
Lemma blob_key_plain bk : blob_key bk (bundle_path dev id) = Ok (bundle_path dev id).
Proof.
  destruct bk; [|done]. unfold blob_key, _resolve. rewrite normpath_bundle.
  destruct (plain_inv dev dev_plain) as (Hne & Hs & Hb & Hp).
  assert (Hrep : replace_char BACKSLASH SLASH (bundle_path dev id) = bundle_path dev id).
  { unfold bundle_path. rewrite !(replace_char_app _ _ dev), (replace_char_app _ _ "/").
    rewrite (proj1 (no_char_spec _ _ Hb)), (proj1 (no_char_spec _ _ (file_no_char _ (or_intror eq_refl)))). done. }
  rewrite Hrep. assert (String.prefix "." (bundle_path dev id) = false) as Hdot.
  { unfold bundle_path. by rewrite prefix_app. }
  rewrite (prefix_dots _ Hdot). replace (String.prefix "/" (bundle_path dev id)) with false.
  2: { unfold bundle_path. rewrite prefix_app by done. destruct dev as [|a s]; [done|]. cbn [String.prefix no_char] in *.
       apply andb_true_iff in Hs as [Hs _]. bool_to_prop. by destruct (ascii_dec "/" a). }
  cbn [orb]. cbn. by rewrite normpath_bundle.
Qed.
End plain_path.

Lemma slash_last_inj d1 d2 i1 i2 :
  no_char SLASH i1 = true → no_char SLASH i2 = true → d1 +:+ "/" +:+ i1 = d2 +:+ "/" +:+ i2 → i1 = i2.
Proof.
  intros H1 H2. revert d2. induction d1 as [|a d1 IH]; intros [|b d2] E.
  - by injection E.
  - injection E as <- E. change (i1 = d2 +:+ "/" +:+ i2) in E. subst i1.
    rewrite !no_char_app, andb_false_r in H1. done.
  - injection E as -> E. change (d1 +:+ "/" +:+ i1 = i2) in E. subst i2.
    rewrite !no_char_app, andb_false_r in H2. done.
  - rewrite !str_app_cons in E. injection E as -> E. by apply IH with d2.
Qed.

(** Different requests have different bundles, whatever the devices. *)
Lemma bundle_path_inj d1 d2 i1 i2 :
  no_char SLASH i1 = true → no_char SLASH i2 = true → bundle_path d1 i1 = bundle_path d2 i2 → i1 = i2.
Proof.
  unfold bundle_path. intros H1 H2 E. apply (slash_last_inj d1 d2); [done..|].
  rewrite <-!str_app_assoc in E. apply str_app_inj_r in E. by rewrite !str_app_assoc in E.
Qed.

(** The guard of [_resolve] looks at the path before it turns backslashes into
    separators, so a request id of a chunk frame can name a file outside the
    directory of the bundles, and, with slashes, the bundle of another device. *)
Example traversal_guard_bypassed :
  _resolve (bundle_path "A" "\..\..\evil") = Ok "A//../../evil.tar.gz" ∧
  blob_key Local (bundle_path "A" "\..\..\evil") = Ok "../evil.tar.gz".
Proof. vm_compute. done. Qed.

Example foreign_bundle_named : blob_key Local (bundle_path "A" "../B/r") = blob_key Local (bundle_path "B" "r").
Proof. vm_compute. done. Qed.
