(* ===== verification/LogRequests.v ===== *)
(** * The outbox of device log requests (cms/models/log_request.py,
      cms/services/log_outbox.py, log_drainer.py, log_reaper.py)

    A request is a row that moves from pending to sent to ready, or ends failed
    or expired.  The helpers are guarded updates; the drainer retries and
    rescues, the reaper removes the bundles past their retention.  Instants are
    microseconds since 1970; every helper reads the clock itself, here its
    argument [clk]. *)

From S2P Require Import Prelude Clock Models LogBlobs.
Open Scope Z_scope.

(** ** Rows *)

Inductive LogStatus := STATUS_PENDING | STATUS_SENT | STATUS_READY | STATUS_FAILED | STATUS_EXPIRED.

#[export] Instance LogStatus_eq_dec : EqDecision LogStatus.
Proof. solve_decision. Defined.

Definition LogStatus_value (s : LogStatus) : string :=
  match s with
  | STATUS_PENDING => "pending" | STATUS_SENT => "sent" | STATUS_READY => "ready"
  | STATUS_FAILED => "failed" | STATUS_EXPIRED => "expired"
  end.

(** [TERMINAL_STATUSES]. *)
Definition log_terminal (s : LogStatus) : bool :=
  bool_decide (s = STATUS_READY ∨ s = STATUS_FAILED ∨ s = STATUS_EXPIRED).

Record LogRequest := mkLogRequest {
  lg_id : string;
  lg_device_id : string;
  lg_services : option (list string);
  lg_since : string;
  lg_status : LogStatus;
  lg_attempts : Z;
  lg_last_error : option string;
  lg_sent_at : option Z;
  lg_ready_at : option Z;
  lg_blob_path : option string;
  lg_size_bytes : option Z;
  lg_expires_at : option Z;
  lg_created_at : Z;
  lg_updated_at : Z
}.

#[export] Instance LogRequest_eq_dec : EqDecision LogRequest.
Proof. solve_decision. Defined.

(** The table, by primary key. *)
Abbreviation log_table := (gmap string LogRequest).

(** ** The helpers *)

Definition DEFAULT_RETENTION_US : Z := 3600000000.

Definition new_request (id device_id : string) (services : option (list string)) (since : string)
    (expires_in : option Z) (clk : Z) : LogRequest :=
  mkLogRequest id device_id services since STATUS_PENDING 0 None None None None None
    (e ← expires_in; Some (clk + e)) clk clk.

(** The flush fails on a duplicate key or an unknown device. *)
Definition create (device_known : string → bool) (id device_id : string) (services : option (list string))
    (since : string) (expires_in : option Z) (clk : Z) (t : log_table) : result exn (log_table * LogRequest) :=
  if bool_decide (is_Some (t !! id)) || negb (device_known device_id) then Err IntegrityError
  else let row := new_request id device_id services since expires_in clk in Ok (<[id := row]> t, row).

Definition get (t : log_table) (request_id : string) : option LogRequest := t !! request_id.

(** [UPDATE ... WHERE id = :id AND guard]; the flag is [rowcount > 0]. *)
Definition update_where (id : string) (guard : LogRequest → bool) (f : LogRequest → LogRequest) (t : log_table)
    : log_table * bool :=
  match t !! id with
  | Some r => if guard r then (<[id := f r]> t, true) else (t, false)
  | None => (t, false)
  end.

Definition has_status (s : LogStatus) (r : LogRequest) : bool := bool_decide (lg_status r = s).
Definition non_terminal (r : LogRequest) : bool := negb (log_terminal (lg_status r)).

(** [error[:2000] if error else None]. *)
Definition clip_error (error : string) : option string := String.substring 0 2000 <$> truthy (Some error).

Definition to_sent (n clk : Z) (r : LogRequest) : LogRequest :=
  mkLogRequest (lg_id r) (lg_device_id r) (lg_services r) (lg_since r) STATUS_SENT (lg_attempts r + n)
    (lg_last_error r) (Some clk) (lg_ready_at r) (lg_blob_path r) (lg_size_bytes r) (lg_expires_at r)
    (lg_created_at r) clk.
Definition to_ready (path : string) (size clk : Z) (r : LogRequest) : LogRequest :=
  mkLogRequest (lg_id r) (lg_device_id r) (lg_services r) (lg_since r) STATUS_READY (lg_attempts r)
    None (lg_sent_at r) (Some clk) (Some path) (Some size) (lg_expires_at r) (lg_created_at r) clk.
(** The updates that leave everything but status, attempts and error alone. *)
Definition with_error (s : LogStatus) (n : Z) (error : option string) (clk : Z) (r : LogRequest) : LogRequest :=
  mkLogRequest (lg_id r) (lg_device_id r) (lg_services r) (lg_since r) s (lg_attempts r + n)
    error (lg_sent_at r) (lg_ready_at r) (lg_blob_path r) (lg_size_bytes r) (lg_expires_at r)
    (lg_created_at r) clk.
Definition to_status (s : LogStatus) (clk : Z) (r : LogRequest) : LogRequest :=
  with_error s 0 (lg_last_error r) clk r.

Definition mark_sent (attempt_increment clk : Z) (id : string) : log_table → log_table * bool :=
  update_where id (has_status STATUS_PENDING) (to_sent attempt_increment clk).
Definition mark_ready (blob_path : string) (size_bytes clk : Z) (id : string) : log_table → log_table * bool :=
  update_where id (λ r, has_status STATUS_PENDING r || has_status STATUS_SENT r) (to_ready blob_path size_bytes clk).
Definition mark_failed (error : string) (clk : Z) (id : string) : log_table → log_table * bool :=
  update_where id non_terminal (with_error STATUS_FAILED 0 (clip_error error) clk).
Definition record_error (error : string) (clk : Z) (id : string) : log_table → log_table * bool :=
  update_where id non_terminal (λ r, with_error (lg_status r) 0 (clip_error error) clk r).
Definition mark_expired (clk : Z) (id : string) : log_table → log_table * bool :=
  update_where id non_terminal (to_status STATUS_EXPIRED clk).
Definition record_attempt_error (error : string) (clk : Z) (id : string) : log_table → log_table * bool :=
  update_where id (has_status STATUS_PENDING) (with_error STATUS_PENDING 1 (clip_error error) clk).

(** [SELECT ... WHERE ... ORDER BY key LIMIT n [FOR UPDATE SKIP LOCKED]]. *)
Definition select_rows (p : LogRequest → bool) (key : LogRequest → Z) (n : nat) (locked : LogRequest → bool)
    (t : log_table) : list LogRequest :=
  take n (sort_by key (filter (λ r, p r = true ∧ locked r = false) (map_to_list t).*2)).

Definition no_lock (r : LogRequest) : bool := false.

Definition list_pending (limit : nat) (max_attempts : option Z) (t : log_table) : list LogRequest :=
  select_rows (λ r, has_status STATUS_PENDING r && match max_attempts with Some m => lg_attempts r <? m | None => true end)
    lg_created_at limit no_lock t.

Definition expired_by (now : Z) (r : LogRequest) : bool :=
  match lg_expires_at r with Some e => e <=? now | None => false end.
Definition expires_key (r : LogRequest) : Z := default 0 (lg_expires_at r).

Definition list_expired (now : Z) (limit : nat) (t : log_table) : list LogRequest :=
  select_rows (expired_by now) expires_key limit no_lock t.
Definition list_for_device (device_id : string) (limit : nat) (t : log_table) : list LogRequest :=
  select_rows (λ r, bool_decide (lg_device_id r = device_id)) (λ r, - lg_created_at r) limit no_lock t.
(** The count of one status; absent statuses have no key in the code's dict. *)
Definition count_by_status (t : log_table) (s : LogStatus) : Z :=
  Z.of_nat (length (filter (λ r, lg_status r = s) (map_to_list t).*2)).

(** ** The drainer *)

Record DrainerConfig := mkDrainerConfig { dc_batch_size : nat; dc_sent_timeout_sec : Z; dc_max_attempts : Z }.

(** [_resolve_config(None)] and the defaults of the settings. *)
Definition default_drainer : DrainerConfig := mkDrainerConfig 25 900 10.

Definition _backoff_seconds (attempts : Z) : Z := Z.min (60 * 2 ^ attempts) 3600.

Definition _eligible_for_retry (now : Z) (r : LogRequest) : bool :=
  if lg_attempts r =? 0 then true
  else lg_updated_at r + _backoff_seconds (lg_attempts r) * 1000000 <=? now.

Definition claim_due_pending (now : Z) (batch_size : nat) (locked : LogRequest → bool) (t : log_table)
    : list LogRequest :=
  filter (λ r, _eligible_for_retry now r = true)
    (select_rows (has_status STATUS_PENDING) lg_created_at batch_size locked t).

Definition sent_key (r : LogRequest) : Z := default 0 (lg_sent_at r).
Definition sent_before (cutoff : Z) (r : LogRequest) : bool :=
  match lg_sent_at r with Some s => s <=? cutoff | None => false end.

Definition claim_stuck_sent (now sent_timeout_sec : Z) (batch_size : nat) (locked : LogRequest → bool)
    (t : log_table) : list LogRequest :=
  select_rows (λ r, has_status STATUS_SENT r && sent_before (now - sent_timeout_sec * 1000000) r)
    sent_key batch_size locked t.

Record DrainStats := mkDrainStats {
  claimed_pending : Z; dispatched : Z; failed : Z; rescued_sent : Z
}.

Section drain_once.
Context (cfg : DrainerConfig) (clk : Z).
(** [dispatch r]: what sending the request of the snapshot [r] gives; [Some e]
    is an exception or the ten-second timeout, with its text. *)
Context (dispatch : LogRequest → option string).

Definition timeout_detail (r : LogRequest) : string :=
  let detail := "sent timeout after " +:+ Z_str (lg_attempts r) +:+ " attempts" in
  match truthy (lg_last_error r) with
  | Some e => detail +:+ " (last error: " +:+ e +:+ ")"
  | None => detail
  end.

Definition rescue (st : log_table * DrainStats) (r : LogRequest) : log_table * DrainStats :=
  let '(t, s) := st in
  if dc_max_attempts cfg <=? lg_attempts r
  then ((mark_failed (timeout_detail r) clk (lg_id r) t).1,
        mkDrainStats (claimed_pending s) (dispatched s) (failed s + 1) (rescued_sent s))
  else ((update_where (lg_id r) (has_status STATUS_SENT) (to_status STATUS_PENDING clk) t).1,
        mkDrainStats (claimed_pending s) (dispatched s) (failed s) (rescued_sent s + 1)).

Definition settle (st : log_table * DrainStats) (r : LogRequest) : log_table * DrainStats :=
  let '(t, s) := st in
  match dispatch r with
  | Some err =>
      if dc_max_attempts cfg <=? lg_attempts r + 1
      then ((mark_failed err clk (lg_id r) t).1,
            mkDrainStats (claimed_pending s) (dispatched s) (failed s + 1) (rescued_sent s))
      else ((record_attempt_error err clk (lg_id r) t).1, s)
  | None => ((mark_sent 1 clk (lg_id r) t).1,
             mkDrainStats (claimed_pending s) (dispatched s + 1) (failed s) (rescued_sent s))
  end.

Definition drain_once (now : Z) (locked : LogRequest → bool) (t : log_table) : log_table * DrainStats :=
  let pending_rows := claim_due_pending now (dc_batch_size cfg) locked t in
  let stuck_rows := claim_stuck_sent now (dc_sent_timeout_sec cfg) (dc_batch_size cfg) locked t in
  let st := fold_left rescue stuck_rows (t, mkDrainStats (Z.of_nat (length pending_rows)) 0 0 0) in
  fold_left settle pending_rows st.
End drain_once.

(** ** The reaper *)

Record ReapStats := mkReapStats {
  rs_claimed : Z; blobs_deleted : Z; blobs_missing : Z; rows_expired : Z; rs_errors : Z
}.

Definition claim_expired_rows (now : Z) (batch_size : nat) (locked : LogRequest → bool) (t : log_table)
    : list LogRequest :=
  select_rows (λ r, expired_by now r && negb (has_status STATUS_EXPIRED r)) expires_key batch_size locked t.

Definition to_tombstone (clk : Z) (r : LogRequest) : LogRequest :=
  mkLogRequest (lg_id r) (lg_device_id r) (lg_services r) (lg_since r) STATUS_EXPIRED (lg_attempts r)
    (lg_last_error r) (lg_sent_at r) (lg_ready_at r) None (lg_size_bytes r) (lg_expires_at r)
    (lg_created_at r) clk.

Section reap_once.
Context (clk : Z) (bk : Backend) (delete_io : string → blob_io).

Record ReapState := mkReap { rp_table : log_table; rp_blobs : blobs; rp_stats : ReapStats }.

Definition expire_row (t : log_table) (r : LogRequest) : log_table :=
  (update_where (lg_id r) (λ _, true) (to_tombstone clk) t).1.

Definition reap_row (st : ReapState) (r : LogRequest) : ReapState :=
  let s := rp_stats st in
  match truthy (lg_blob_path r) with
  | Some path =>
      match delete_log_blob bk delete_io path (rp_blobs st) with
      | (b, None) =>
          mkReap (rp_table st) b
            (mkReapStats (rs_claimed s) (blobs_deleted s) (blobs_missing s) (rows_expired s) (rs_errors s + 1))
      | (b, Some existed) =>
          mkReap (expire_row (rp_table st) r) b
            (mkReapStats (rs_claimed s) (blobs_deleted s + (if existed then 1 else 0))
               (blobs_missing s + (if existed then 0 else 1)) (rows_expired s + 1) (rs_errors s))
      end
  | None => mkReap (expire_row (rp_table st) r) (rp_blobs st)
              (mkReapStats (rs_claimed s) (blobs_deleted s) (blobs_missing s) (rows_expired s + 1) (rs_errors s))
  end.

Definition reap_once (now : Z) (batch_size : nat) (locked : LogRequest → bool) (t : log_table) (b : blobs)
    : ReapState :=
  let rows := claim_expired_rows now batch_size locked t in
  fold_left reap_row rows (mkReap t b (mkReapStats (Z.of_nat (length rows)) 0 0 0 0)).
End reap_once.

(** ** Lemmas on guarded updates *)

(** Every row sits under its own key. *)
Definition keyed (t : log_table) : Prop := ∀ id r, t !! id = Some r → lg_id r = id.

Lemma update_where_lookup id guard f t i :
  (update_where id guard f t).1 !! i =
  (if bool_decide (i = id) then (λ r, if guard r then f r else r) <$> t !! i else t !! i).
Proof.
  unfold update_where. case_bool_decide as Hi.
  - subst i. destruct (t !! id) as [r|] eqn:Hr; [|simpl; by rewrite Hr]. simpl.
    destruct (guard r); simpl; [by rewrite lookup_insert_eq|by rewrite Hr].
  - destruct (t !! id) as [r|]; [|done]. destruct (guard r); [|done]. simpl. by rewrite lookup_insert_ne.
Qed.

Lemma update_where_keyed id guard f t :
  (∀ r, lg_id (f r) = lg_id r) → keyed t → keyed (update_where id guard f t).1.
Proof.
  intros Hf Hk i r'. rewrite update_where_lookup. case_bool_decide; [|by apply Hk].
  destruct (t !! i) as [r|] eqn:Hr; [|done]. simpl. intros [= <-]. destruct (guard r); [rewrite Hf|]; by apply Hk.
Qed.

(** A pass of guarded updates over distinct rows of the table treats each of
    them once and nothing else. *)
Lemma fold_update_rows {S : Type} (step : log_table * S → LogRequest → log_table * S)
    (guard : LogRequest → LogRequest → bool) (f : LogRequest → LogRequest → LogRequest)
    (rows : list LogRequest) (t : log_table) (s : S) (i : string) :
  (∀ t s r, (step (t, s) r).1 = (update_where (lg_id r) (guard r) (f r) t).1) →
  (∀ r x, lg_id (f r x) = lg_id x) → keyed t → NoDup (lg_id <$> rows) → (∀ r, r ∈ rows → t !! lg_id r = Some r ∧ guard r r = true) →
  (fold_left step rows (t, s)).1 !! i = (λ r, if bool_decide (r ∈ rows) then f r r else r) <$> t !! i.
Proof.
  intros Hu Hid. revert t s. induction rows as [|r rows IH]; intros t s Hk Hnd Hin.
  { cbn [fold_left fst]. destruct (t !! i); [|done]. cbn [fmap option_fmap option_map].
    by rewrite bool_decide_eq_false_2 by apply not_elem_of_nil. }
  apply NoDup_cons in Hnd as [Hr Hnd]. cbn [fold_left]. destruct (Hin r) as [Htr Hg]; [left|].
  assert (Hne : ∀ x, x ∈ rows → lg_id x ≠ lg_id r) by (intros x Hx E; apply Hr; rewrite <-E; by apply list_elem_of_fmap_2).
  rewrite (surjective_pairing (step (t, s) r)), Hu, IH; [|by apply update_where_keyed|done|].
  - rewrite update_where_lookup. destruct (decide (i = lg_id r)) as [->|Hi].
    + rewrite bool_decide_eq_true_2, Htr by done. cbn [fmap option_fmap option_map]. rewrite Hg.
      rewrite (bool_decide_eq_true_2 (r ∈ r :: rows)) by left.
      destruct (decide (f r r ∈ rows)) as [Hf|Hf]; [|by rewrite bool_decide_eq_false_2].
      destruct (Hne _ Hf (Hid r r)).
    + rewrite bool_decide_eq_false_2 by done. destruct (t !! i) as [x|] eqn:Hx; [|done]. simpl. f_equal.
      assert (x ≠ r) by (intros ->; apply Hi; symmetry; by apply Hk).
      apply (f_equal (λ b : bool, if b then f x x else x)), bool_decide_ext. rewrite elem_of_cons. tauto.
  - intros x Hx. destruct (Hin x) as [Htx Hgx]; [by right|]. split; [|done].
    rewrite update_where_lookup, bool_decide_eq_false_2 by by apply Hne. done.
Qed.

(** ** Lemmas on the queries *)

Section select.
Context (p : LogRequest → bool) (key : LogRequest → Z) (n : nat) (locked : LogRequest → bool) (t : log_table).
Hypothesis t_keyed : keyed t.

Lemma elem_of_rows r : r ∈ (map_to_list t).*2 ↔ t !! lg_id r = Some r.
Proof.
  rewrite list_elem_of_fmap. split.
  - intros ([i x] & -> & Hi%elem_of_map_to_list). simpl. by rewrite (t_keyed i x Hi).
  - intros H. exists (lg_id r, r). by rewrite elem_of_map_to_list.
Qed.

Lemma rows_NoDup : NoDup (lg_id <$> (map_to_list t).*2).
Proof.
  replace (lg_id <$> (map_to_list t).*2) with (map_to_list t).*1; [apply NoDup_fst_map_to_list|].
  rewrite <-list_fmap_compose. apply list_fmap_ext. intros i [k x] Hi. simpl.
  symmetry. apply t_keyed, elem_of_map_to_list. by eapply list_elem_of_lookup_2.
Qed.

Lemma elem_of_select_rows r :
  r ∈ select_rows p key n locked t → t !! lg_id r = Some r ∧ p r = true ∧ locked r = false.
Proof.
  unfold select_rows. intros Hr%subseteq_take. rewrite sort_by_Permutation in Hr.
  apply list_elem_of_filter in Hr as [[??] Hr]. split; [by apply elem_of_rows|done].
Qed.

Lemma select_rows_NoDup : NoDup (lg_id <$> select_rows p key n locked t).
Proof.
  unfold select_rows. rewrite fmap_take.
  eapply sublist_NoDup; [|apply sublist_take]. rewrite sort_by_Permutation.
  apply NoDup_fmap_filter, rows_NoDup.
Qed.

(** A row with few older competitors is selected. *)
Lemma select_rows_oldest r :
  t !! lg_id r = Some r → p r = true → locked r = false →
  (length (filter (λ x, (p x = true ∧ locked x = false) ∧ (key x ≤ key r)%Z) (map_to_list t).*2) ≤ n)%nat →
  r ∈ select_rows p key n locked t.
Proof.
  intros Hr Hp Hl Hn. unfold select_rows. apply (elem_of_take_sorted key); [apply sort_by_Sorted| |].
  - rewrite sort_by_Permutation. apply list_elem_of_filter. split; [done|]. by apply elem_of_rows.
  - rewrite sort_by_Permutation, list_filter_filter. etrans; [|exact Hn].
    apply Nat.eq_le_incl. f_equal. apply list_filter_iff. intros. tauto.
Qed.
End select.

Lemma select_rows_few {p key n locked t} (Q : LogRequest → Prop) `{!∀ r, Decision (Q r)} r :
  keyed t → (∀ r, p r = true → Q r) → (length (filter Q (map_to_list t).*2) ≤ n)%nat →
  t !! lg_id r = Some r → p r = true → locked r = false → r ∈ select_rows p key n locked t.
Proof.
  intros Hk HQ Hn Hr Hp Hl. apply select_rows_oldest; [done..|]. etrans; [|exact Hn].
  apply filter_length_mono. intros x _ [[Hx _] _]. auto.
Qed.

(** ** The drainer, row by row *)

Section drained.
Context (cfg : DrainerConfig) (clk : Z) (dispatch : LogRequest → option string).
Context (now : Z) (locked : LogRequest → bool) (t : log_table).

Definition rescued (r : LogRequest) : LogRequest :=
  if dc_max_attempts cfg <=? lg_attempts r
  then with_error STATUS_FAILED 0 (clip_error (timeout_detail r)) clk r
  else to_status STATUS_PENDING clk r.

Definition settled (r : LogRequest) : LogRequest :=
  match dispatch r with
  | Some err => with_error (if dc_max_attempts cfg <=? lg_attempts r + 1 then STATUS_FAILED else STATUS_PENDING)
                  (if dc_max_attempts cfg <=? lg_attempts r + 1 then 0 else 1) (clip_error err) clk r
  | None => to_sent 1 clk r
  end.

Definition due_pending : list LogRequest := claim_due_pending now (dc_batch_size cfg) locked t.
Definition due_stuck : list LogRequest :=
  claim_stuck_sent now (dc_sent_timeout_sec cfg) (dc_batch_size cfg) locked t.

(** What one tick makes of a row. *)
Definition drained (r : LogRequest) : LogRequest :=
  if bool_decide (r ∈ due_stuck) then rescued r
  else if bool_decide (r ∈ due_pending) then settled r else r.

Hypothesis t_keyed : keyed t.

Lemma elem_of_due_pending r :
  r ∈ due_pending → t !! lg_id r = Some r ∧ lg_status r = STATUS_PENDING ∧ _eligible_for_retry now r = true.
Proof.
  intros [He Hr]%list_elem_of_filter. apply elem_of_select_rows in Hr as (Hr & Hs%bool_decide_eq_true & _); auto.
Qed.

Lemma elem_of_due_stuck r : r ∈ due_stuck → t !! lg_id r = Some r ∧ lg_status r = STATUS_SENT.
Proof.
  intros Hr. apply elem_of_select_rows in Hr as (Hr & [Hs%bool_decide_eq_true _]%andb_true_iff & _); auto.
Qed.

Lemma due_disjoint r : r ∈ due_pending → r ∉ due_stuck.
Proof. intros (_ & Hp & _)%elem_of_due_pending [_ Hs]%elem_of_due_stuck. congruence. Qed.

Lemma rescue_step t0 s r :
  (rescue cfg clk (t0, s) r).1 =
  (update_where (lg_id r) (if dc_max_attempts cfg <=? lg_attempts r then non_terminal else has_status STATUS_SENT)
     (λ x, if dc_max_attempts cfg <=? lg_attempts r then with_error STATUS_FAILED 0 (clip_error (timeout_detail r)) clk x
           else to_status STATUS_PENDING clk x) t0).1.
Proof. unfold rescue, mark_failed. by destruct (_ <=? _). Qed.

Lemma settle_step t0 s r :
  (settle cfg clk dispatch (t0, s) r).1 =
  (update_where (lg_id r)
     (if dispatch r then if dc_max_attempts cfg <=? lg_attempts r + 1 then non_terminal else has_status STATUS_PENDING
      else has_status STATUS_PENDING)
     (λ x, match dispatch r with
           | Some err => with_error (if dc_max_attempts cfg <=? lg_attempts r + 1 then STATUS_FAILED else STATUS_PENDING)
                           (if dc_max_attempts cfg <=? lg_attempts r + 1 then 0 else 1) (clip_error err) clk x
           | None => to_sent 1 clk x
           end) t0).1.
Proof.
  unfold settle, mark_failed, record_attempt_error, mark_sent. destruct (dispatch r); [|done]. by destruct (_ <=? _).
Qed.

Lemma drain_once_rows : (drain_once cfg clk dispatch now locked t).1 = drained <$> t.
Proof.
  apply map_eq. intros i. unfold drain_once. fold due_pending due_stuck.
  set (s := mkDrainStats _ _ _ _).
  assert (Hmid : ∀ j, (fold_left (rescue cfg clk) due_stuck (t, s)).1 !! j =
                      (λ r, if bool_decide (r ∈ due_stuck) then rescued r else r) <$> t !! j).
  { intros j. apply (fold_update_rows (rescue cfg clk) _ _ due_stuck t s j rescue_step);
      [|done|by apply select_rows_NoDup|].
    - intros r x. by destruct (_ <=? _).
    - intros r [Hr Hs]%elem_of_due_stuck. split; [done|].
      destruct (_ <=? _); unfold non_terminal, has_status; by rewrite Hs. }
  rewrite (surjective_pairing (fold_left _ due_stuck _)).
  rewrite (fold_update_rows _ _ _ _ _ _ i (λ t0 s0 r, settle_step t0 s0 r)).
  - rewrite Hmid, lookup_fmap. destruct (t !! i) as [r|] eqn:Hr; [|done]. cbn [fmap option_fmap option_map].
    unfold drained. destruct (bool_decide_reflect (r ∈ due_stuck)) as [Hst|Hst]; [|done].
    rewrite bool_decide_eq_false_2; [done|]. intros [Hx _]%elem_of_due_pending.
    apply elem_of_due_stuck in Hst as [Hr' Hs].
    assert (lg_id (rescued r) = lg_id r) as E by (unfold rescued; by destruct (_ <=? _)).
    assert (rescued r = r) as E' by congruence.
    apply (f_equal lg_status) in E'. revert E'. unfold rescued. rewrite Hs. by destruct (_ <=? _).
  - intros r x. destruct (dispatch r); [|done]. by destruct (_ <=? _).
  - intros j r'. rewrite Hmid. destruct (t !! j) as [r|] eqn:Hr; [|done]. intros [= <-].
    assert (lg_id (rescued r) = lg_id r) as E by (unfold rescued; by destruct (_ <=? _)).
    case_bool_decide; [rewrite E|]; by apply t_keyed.
  - eapply sublist_NoDup; [by apply (select_rows_NoDup (has_status STATUS_PENDING) lg_created_at (dc_batch_size cfg) locked)|].
    apply fmap_sublist, sublist_filter.
  - intros r Hr. pose proof (due_disjoint r Hr) as Hd. apply elem_of_due_pending in Hr as (Hr & Hs & _).
    rewrite Hmid, Hr. cbn [fmap option_fmap option_map]. rewrite bool_decide_eq_false_2 by done. split; [done|].
    destruct (dispatch r); [destruct (_ <=? _)|]; unfold non_terminal, has_status; by rewrite Hs.
Qed.
End drained.

(** ** The retry budget *)

Lemma backoff_bounds attempts : 0 ≤ attempts → 0 ≤ _backoff_seconds attempts ≤ 3600.
Proof. intros ?. unfold _backoff_seconds. pose proof (Z.pow_nonneg 2 attempts). lia. Qed.

Section budget.
Context (cfg : DrainerConfig).
Notation m := (dc_max_attempts cfg).

(** What the drainer may still spend on a request. *)
Definition budget (r : LogRequest) : Z :=
  match lg_status r with
  | STATUS_PENDING => 2 * (m - lg_attempts r)
  | STATUS_SENT => 2 * (m - lg_attempts r) + 1
  | _ => 0
  end.

(** A request in flight last touched at [last] or before, within its retries. *)
Definition in_budget (last : Z) (r : LogRequest) : Prop :=
  0 ≤ lg_attempts r ∧ lg_updated_at r ≤ last ∧
  match lg_status r with
  | STATUS_PENDING => lg_attempts r < m
  | STATUS_SENT => lg_attempts r ≤ m ∧ ∃ s, lg_sent_at r = Some s ∧ s ≤ last
  | _ => True
  end.

Lemma budget_pos last r : in_budget last r → non_terminal r = true → 1 ≤ budget r.
Proof.
  intros (_ & _ & Hs). unfold non_terminal, budget. destruct (lg_status r) eqn:E; cbn; intros; [lia|lia|done..].
Qed.

Lemma budget_spent last r : in_budget last r → budget r ≤ 0 → log_terminal (lg_status r) = true.
Proof.
  intros Hb Hle. destruct (non_terminal r) eqn:E; [apply (budget_pos last) in E; [lia|done]|].
  by apply negb_false_iff in E.
Qed.

(** A tick keeps the row within its budget, and spends some if it takes it. *)
Lemma rescued_budget clk last r :
  lg_status r = STATUS_SENT → last ≤ clk → in_budget last r →
  in_budget clk (rescued cfg clk r) ∧ budget (rescued cfg clk r) < budget r.
Proof.
  unfold in_budget, budget, rescued. intros -> ? (? & ? & ? & ?). destruct (Z.leb_spec m (lg_attempts r)); cbn; lia.
Qed.

Lemma settled_budget dispatch clk last r :
  lg_status r = STATUS_PENDING → last ≤ clk → in_budget last r →
  in_budget clk (settled cfg clk dispatch r) ∧ budget (settled cfg clk dispatch r) < budget r.
Proof.
  unfold in_budget, budget, settled. intros -> ? (? & ? & ?).
  destruct (dispatch r); [destruct (Z.leb_spec m (lg_attempts r + 1)); cbn; lia|].
  cbn. split_and!; [lia..|by eexists|lia].
Qed.

Lemma in_budget_mono last last' r : last ≤ last' → in_budget last r → in_budget last' r.
Proof.
  intros ? (? & ? & Hs). repeat split; [lia..|]. destruct (lg_status r); [done| |done..].
  destruct Hs as (? & s & ? & ?). split; [done|]. exists s. split; [done|lia].
Qed.

(** One tick at [now], its clock reading [clk]. *)
Record Tick := mkTick { tk_now : Z; tk_clk : Z; tk_dispatch : LogRequest → option string }.

Definition drain_tick (t : log_table) (k : Tick) : log_table :=
  (drain_once cfg (tk_clk k) (tk_dispatch k) (tk_now k) no_lock t).1.

(** Successive ticks, each at least [gap] after the clock of the one before. *)
Fixpoint spaced (gap last : Z) (ks : list Tick) : Prop :=
  match ks with
  | [] => True
  | k :: ks => last + gap ≤ tk_now k ∧ last ≤ tk_clk k ∧ spaced gap (tk_clk k) ks
  end.

(** Long enough for every backoff and for the sent timeout. *)
Definition patience : Z := Z.max 3600 (dc_sent_timeout_sec cfg) * 1000000.

Definition in_flight (t : log_table) : list LogRequest :=
  filter (λ r, non_terminal r = true) (map_to_list t).*2.

Definition table_ok (last : Z) (t : log_table) : Prop :=
  keyed t ∧ (∀ i r, t !! i = Some r → in_budget last r) ∧ (length (in_flight t) ≤ dc_batch_size cfg)%nat.

Section tick.
Context (k : Tick) (last : Z) (t : log_table).
Hypothesis t_ok : table_ok last t.
Hypothesis k_late : last + patience ≤ tk_now k ∧ last ≤ tk_clk k.
Notation drained := (drained cfg (tk_clk k) (tk_dispatch k) (tk_now k) no_lock t).

(** Nothing in flight is passed over. *)
Lemma drained_in_flight i r :
  t !! i = Some r → non_terminal r = true →
  in_budget (tk_clk k) (drained r) ∧ budget (drained r) < budget r.
Proof.
  destruct t_ok as (Hk & Hb & Hn), k_late as [Hl Hc]. intros Hr Hnt. pose proof (Hb _ _ Hr) as Hbr.
  pose proof (Hk _ _ Hr) as Hid. rewrite <-Hid in Hr. unfold LogRequests.drained, patience in *.
  assert (Hsel : ∀ p key, p r = true → (∀ x, p x = true → non_terminal x = true) →
                 r ∈ select_rows p key (dc_batch_size cfg) no_lock t).
  { intros p key Hp Hall. by apply (select_rows_few (λ x, non_terminal x = true)). }
  destruct (lg_status r) eqn:Hs; try (exfalso; revert Hnt; unfold non_terminal; by rewrite Hs).
  - rewrite bool_decide_eq_false_2 by (intros [_ ?]%elem_of_due_stuck; [congruence|done]).
    rewrite bool_decide_eq_true_2; [by apply settled_budget with last|].
    apply list_elem_of_filter. split.
    + unfold _eligible_for_retry. destruct Hbr as (Ha & Hu & _). pose proof (backoff_bounds _ Ha).
      destruct (_ =? _); [done|]. apply Z.leb_le. lia.
    + apply Hsel; [by apply bool_decide_eq_true|]. intros x Hx%bool_decide_eq_true.
      unfold non_terminal. by rewrite Hx.
  - rewrite bool_decide_eq_true_2; [by apply rescued_budget with last|]. apply Hsel.
    + destruct Hbr as (_ & _ & Hx). rewrite Hs in Hx. destruct Hx as (_ & s & Hx & ?).
      unfold sent_before, has_status. rewrite Hs, Hx, bool_decide_eq_true_2 by done. apply Z.leb_le. lia.
    + intros x [Hx%bool_decide_eq_true _]%andb_true_iff. unfold non_terminal. by rewrite Hx.
Qed.

Lemma drained_at_rest r : t !! lg_id r = Some r → non_terminal r = false → drained r = r.
Proof.
  destruct t_ok as (Hk & _ & _). intros Hr Hnt. unfold LogRequests.drained.
  rewrite !bool_decide_eq_false_2; [done|..].
  - intros (_ & Hs & _)%elem_of_due_pending; [|done]. revert Hnt. unfold non_terminal. by rewrite Hs.
  - intros (_ & Hs)%elem_of_due_stuck; [|done]. revert Hnt. unfold non_terminal. by rewrite Hs.
Qed.

Lemma drained_id r : lg_id (drained r) = lg_id r.
Proof.
  unfold LogRequests.drained, rescued, settled. repeat case_bool_decide; [by destruct (_ <=? _)| |done].
  destruct (tk_dispatch k r); [|done]. by destruct (_ <=? _).
Qed.

Lemma drain_tick_ok : table_ok (tk_clk k) (drain_tick t k).
Proof.
  destruct t_ok as (Hk & Hb & Hn). unfold drain_tick. rewrite drain_once_rows by done. split_and!.
  - intros i r'. rewrite lookup_fmap_Some. intros (r & <- & Hr). rewrite drained_id. by apply Hk.
  - intros i r'. rewrite lookup_fmap_Some. intros (r & <- & Hr).
    destruct (non_terminal r) eqn:Hnt; [by eapply drained_in_flight|].
    rewrite drained_at_rest; [|by rewrite (Hk _ _ Hr)|done]. eapply in_budget_mono, Hb, Hr. tauto.
  - etrans; [|exact Hn]. unfold in_flight. rewrite map_to_list_fmap, <-list_fmap_compose.
    rewrite (list_fmap_ext _ (drained ∘ snd)) by (by intros ? [] ?).
    rewrite list_fmap_compose. apply filter_fmap_length.
    intros r Hr%elem_of_rows; [|done]. simpl. intros Hnt. destruct (non_terminal r) eqn:E; [done|].
    rewrite drained_at_rest in Hnt; congruence.
Qed.
End tick.

(** C6. The drainer ends every request: in a table whose rows in flight fit in
    one batch and are within their retry budget, ticks that come at least
    [patience] (the longest backoff and the sent timeout) after one another
    leave no row pending or sent once there have been [2 * max_attempts + 1]
    of them, whatever the dispatches answer and with no device ever replying. *)
Theorem drain_terminates ks last t :
  table_ok last t → spaced patience last ks → 2 * m + 1 ≤ Z.of_nat (length ks) →
  in_flight (fold_left drain_tick ks t) = [].
Proof.
  intros Hok Hsp Hlen.
  assert (Hb : ∀ i r, t !! i = Some r → budget r ≤ Z.max 0 (2 * m + 1)).
  { intros i r Hr. apply Hok in Hr as (? & _). unfold budget. destruct (lg_status r); lia. }
  revert Hb. assert (Hn : Z.max 0 (2 * m + 1) ≤ Z.of_nat (length ks)) by lia. revert Hn.
  generalize (Z.max 0 (2 * m + 1)). clear Hlen. revert last t Hok Hsp.
  induction ks as [|k ks IH]; intros last t Hok Hsp n Hle Hn.
  - destruct Hok as (Hk & Hb & _). apply filter_nil_intro. simpl in *.
    intros r Hr%elem_of_rows Hnt; [|done]. pose proof (budget_pos _ _ (Hb _ _ Hr) Hnt).
    pose proof (Hn _ _ Hr). lia.
  - destruct Hsp as (? & ? & Hsp). cbn [fold_left length] in *.
    apply (IH (tk_clk k) (drain_tick t k) (drain_tick_ok _ _ _ Hok ltac:(done)) Hsp (Z.max 0 (n - 1))); [lia|].
    intros i r'. unfold drain_tick. rewrite drain_once_rows by apply Hok.
    rewrite lookup_fmap_Some. intros (r & <- & Hr). destruct (non_terminal r) eqn:Hnt.
    + pose proof (drained_in_flight k last t Hok ltac:(done) _ _ Hr Hnt) as [_ ?].
      specialize (Hn _ _ Hr). lia.
    + rewrite (drained_at_rest k last t Hok); [|by rewrite (proj1 Hok _ _ Hr)|done].
      unfold budget. unfold non_terminal in Hnt. destruct (lg_status r); (done || lia).
Qed.
End budget.

(** ** The reaper, row by row and blob by blob *)

Section reaped.
Context (clk : Z) (bk : Backend) (delete_io : string → blob_io).
Context (now : Z) (batch_size : nat) (locked : LogRequest → bool) (t : log_table) (b : blobs).

Definition reap_claim : list LogRequest := claim_expired_rows now batch_size locked t.
Definition keeps_row (r : LogRequest) : bool :=
  match truthy (lg_blob_path r) with
  | Some p => match blob_key bk p with
              | Ok k => bool_decide (bk = Local ∧ delete_io k = BLOB_FAILS)
              | Err _ => true
              end
  | None => false
  end.
Definition reaped (r : LogRequest) : LogRequest :=
  if bool_decide (r ∈ reap_claim) && negb (keeps_row r) then to_tombstone clk r else r.
(** The blob the row names. *)
Definition row_blob (r : LogRequest) : option string :=
  p ← truthy (lg_blob_path r); match blob_key bk p with Ok k => Some k | Err _ => None end.

Lemma reap_row_table st r :
  rp_table (reap_row clk bk delete_io st r) = (update_where (lg_id r) (λ _, negb (keeps_row r)) (to_tombstone clk) (rp_table st)).1.
Proof.
  unfold reap_row, keeps_row, delete_log_blob, expire_row. destruct (truthy (lg_blob_path r)) as [p|]; [|done].
  destruct (blob_key bk p) as [k|e]; [|unfold update_where; by destruct (rp_table st !! lg_id r)].
  destruct bk, (delete_io k); try done. unfold update_where. by destruct (rp_table st !! lg_id r).
Qed.

Lemma reap_row_blobs st r k :
  rp_blobs (reap_row clk bk delete_io st r) !! k =
  (if bool_decide (delete_io k = BLOB_OK ∧ row_blob r = Some k) then None else rp_blobs st !! k).
Proof.
  assert (Hno : row_blob r ≠ Some k → bool_decide (delete_io k = BLOB_OK ∧ row_blob r = Some k) = false)
    by (intros ?; apply bool_decide_eq_false_2; tauto).
  unfold reap_row, delete_log_blob, row_blob in *. destruct (truthy (lg_blob_path r)) as [q|]; [|by rewrite Hno].
  cbn [mbind option_bind] in *. destruct (blob_key bk q) as [k'|e]; [|by rewrite Hno].
  destruct (decide (k' = k)) as [->|Hne].
  - destruct (delete_io k) eqn:Hd.
    + rewrite (bool_decide_eq_true_2 (BLOB_OK = BLOB_OK ∧ _)) by done. destruct bk; apply lookup_delete_eq.
    + rewrite (bool_decide_eq_false_2 (BLOB_FAILS = BLOB_OK ∧ _)) by (by intros []). by destruct bk.
  - rewrite Hno by congruence. destruct bk, (delete_io k'); try done; by apply lookup_delete_ne.
Qed.

Lemma reap_row_stats st r :
  rs_claimed (rp_stats (reap_row clk bk delete_io st r)) = rs_claimed (rp_stats st) ∧
  rows_expired (rp_stats (reap_row clk bk delete_io st r)) = rows_expired (rp_stats st) + (if keeps_row r then 0 else 1) ∧
  rs_errors (rp_stats (reap_row clk bk delete_io st r)) = rs_errors (rp_stats st) + (if keeps_row r then 1 else 0).
Proof.
  unfold reap_row, keeps_row, delete_log_blob. destruct (truthy (lg_blob_path r)) as [q|]; [|simpl; lia].
  destruct (blob_key bk q) as [k|e]; [|simpl; lia]. destruct bk, (delete_io k); simpl; lia.
Qed.

Lemma fold_reap_blobs rows st k :
  rp_blobs (fold_left (reap_row clk bk delete_io) rows st) !! k =
  (if bool_decide (delete_io k = BLOB_OK ∧ Exists (λ r, row_blob r = Some k) rows) then None
   else rp_blobs st !! k).
Proof.
  revert st. induction rows as [|r rows IH]; intros st.
  { rewrite bool_decide_eq_false_2; [done|]. by intros [_ ?%Exists_nil]. }
  cbn [fold_left]. rewrite IH, reap_row_blobs. repeat case_bool_decide; try done; rewrite Exists_cons in *; naive_solver.
Qed.

Lemma fold_reap_stats rows st :
  let s := rp_stats (fold_left (reap_row clk bk delete_io) rows st) in
  rs_claimed s = rs_claimed (rp_stats st) ∧
  rows_expired s + rs_errors s = rows_expired (rp_stats st) + rs_errors (rp_stats st) + Z.of_nat (length rows) ∧
  rs_errors s = rs_errors (rp_stats st) + Z.of_nat (length (filter (λ r, keeps_row r = true) rows)).
Proof.
  revert st. induction rows as [|r rows IH]; intros st; [simpl; lia|].
  cbn [fold_left]. destruct (IH (reap_row clk bk delete_io st r)) as (H1 & H2 & H3).
  destruct (reap_row_stats st r) as (G1 & G2 & G3). rewrite filter_cons. cbn zeta.
  destruct (keeps_row r); case_decide; try done; cbn [length]; lia.
Qed.

Lemma reap_once_blobs k :
  rp_blobs (reap_once clk bk delete_io now batch_size locked t b) !! k = b !! k ∨
  (delete_io k = BLOB_OK ∧ ∃ r, r ∈ reap_claim ∧ row_blob r = Some k).
Proof.
  unfold reap_once. rewrite fold_reap_blobs. case_bool_decide as Hd; [right|by left].
  destruct Hd as [Hd (r & Hr & Hb)%Exists_exists]. by eauto.
Qed.

Hypothesis t_keyed : keyed t.

Lemma fold_reap_table i :
  rp_table (reap_once clk bk delete_io now batch_size locked t b) !! i = reaped <$> t !! i.
Proof.
  unfold reap_once. fold reap_claim. set (s0 := mkReapStats _ _ _ _ _).
  set (rows' := filter (λ r, keeps_row r = false) reap_claim).
  assert (Hsplit : ∀ rows st, rp_table (fold_left (reap_row clk bk delete_io) rows st) =
    (fold_left (λ (ts : log_table * unit) r, ((update_where (lg_id r) (λ _, true) (to_tombstone clk) ts.1).1, tt))
       (filter (λ r, keeps_row r = false) rows) (rp_table st, tt)).1).
  { induction rows as [|r rows IH]; intros st; [done|]. cbn [fold_left]. rewrite IH, filter_cons, reap_row_table.
    destruct (keeps_row r); case_decide; try done. simpl. unfold update_where. by destruct (rp_table st !! lg_id r). }
  rewrite Hsplit. cbn [rp_table]. fold rows'.
  rewrite (fold_update_rows _ (λ _ _, true) (λ _, to_tombstone clk)); [|done|done|done|..].
  - destruct (t !! i) as [r|] eqn:Hr; [|done]. cbn [fmap option_fmap option_map]. f_equal. unfold reaped, rows'.
    rewrite (bool_decide_ext (r ∈ filter _ _) (keeps_row r = false ∧ r ∈ reap_claim)) by (by rewrite list_elem_of_filter).
    rewrite bool_decide_and. destruct (keeps_row r), (bool_decide (r ∈ reap_claim)); done.
  - apply NoDup_fmap_filter. by apply select_rows_NoDup.
  - intros r [_ Hr]%list_elem_of_filter. by apply elem_of_select_rows in Hr as (? & _).
Qed.

Lemma reap_once_table : rp_table (reap_once clk bk delete_io now batch_size locked t b) = reaped <$> t.
Proof. apply map_eq. intros i. rewrite lookup_fmap. apply fold_reap_table. Qed.

(** One reaper tick, exactly: a claimed row (past [expires_at], not yet
    expired, among the oldest of the batch) becomes a tombstone without
    [blob_path], except that a delete that raises leaves it as it was; every
    other row is untouched; a blob disappears iff a claimed row names it and
    its delete works; and every claimed row is counted once, as expired or as
    an error. *)
Theorem reap_once_exact :
  let st := reap_once clk bk delete_io now batch_size locked t b in
  rp_table st = reaped <$> t ∧
  (∀ k, rp_blobs st !! k =
     (if bool_decide (delete_io k = BLOB_OK ∧ Exists (λ r, row_blob r = Some k) reap_claim) then None else b !! k)) ∧
  rs_claimed (rp_stats st) = Z.of_nat (length reap_claim) ∧
  rows_expired (rp_stats st) + rs_errors (rp_stats st) = rs_claimed (rp_stats st) ∧
  rs_errors (rp_stats st) = Z.of_nat (length (filter (λ r, keeps_row r = true) reap_claim)).
Proof.
  cbv zeta. split; [apply reap_once_table|].
  split; [intros k; unfold reap_once; by rewrite fold_reap_blobs|].
  unfold reap_once. fold reap_claim.
  destruct (fold_reap_stats reap_claim (mkReap t b (mkReapStats (Z.of_nat (length reap_claim)) 0 0 0 0))) as (H1 & H2 & H3).
  cbn zeta in *. rewrite H1, H2, H3. cbn. lia.
Qed.
End reaped.

(** ** Witnesses *)

Definition small_drainer : DrainerConfig := mkDrainerConfig 1 900 2.
Definition new_row : LogRequest := new_request "r" "A" None "24h" (Some DEFAULT_RETENTION_US) 0.
(** A device that answers the first dispatch only. *)
Definition five_ticks : list Tick :=
  (λ k, mkTick (k * 3600000000) (k * 3600000000) (λ r, if lg_attempts r =? 0 then None else Some "offline")) <$>
    [1; 2; 3; 4; 5].

Lemma new_row_keyed : keyed {["r" := new_row]}.
Proof. by intros id r [<- <-]%lookup_singleton_Some. Defined.

Lemma new_row_table_ok : table_ok small_drainer 0 {["r" := new_row]}.
Proof.
  split; [apply new_row_keyed|]. split; [|by vm_compute; constructor].
  intros id r [<- <-]%lookup_singleton_Some. repeat split; simpl; lia.
Defined.

Lemma drain_terminates_witness :
  in_flight (fold_left (drain_tick small_drainer) five_ticks {["r" := new_row]}) = [].
Proof.
  apply (drain_terminates small_drainer five_ticks 0 {["r" := new_row]} new_row_table_ok).
  - repeat split; unfold patience; simpl; lia.
  - simpl. lia.
Defined.

Lemma reap_once_exact_witness :
  rows_expired (rp_stats (reap_once 7 Local (λ _, BLOB_OK) 3600000000 100 no_lock {["r" := new_row]} ∅)) = 1.
Proof.
  destruct (reap_once_exact 7 Local (λ _, BLOB_OK) 3600000000 100 no_lock {["r" := new_row]} ∅ new_row_keyed)
    as (_ & _ & H3 & H4 & H5).
  revert H3 H4 H5. vm_compute. intros ? ? ?. congruence.
Defined.
