(* ===== verification/LogFrames.v ===== *)
(** * The wire format of log chunks (cms/services/log_chunk_assembler.py:
      [parse_frame], [encode_frame])

    A bundle travels in binary frames: a packed header, the request id in UTF-8,
    a packed trailer, the payload.  The packed parts are built from codecs of
    fixed size (Python's [struct]) that satisfy one interface. *)

From Stdlib Require Import Strings.Byte.
From S2P Require Import Prelude Clock Models LogBlobs.
Open Scope Z_scope.

(** ** Fixed-size codecs *)

(** A [struct.Struct] of [csize] bytes over the values of [cdom]. *)
Record codec (A : Type) := mkCodec {
  csize : nat;
  cdom : A → Prop;
  pack : A → bytes;
  unpack : bytes → A
}.
Arguments mkCodec {A} csize cdom pack unpack.
Arguments csize {A} c.
Arguments cdom {A} c a.
Arguments pack {A} c a.
Arguments unpack {A} c bs.

(** What [struct] promises: packing a value of the domain and unpacking it
    gives it back, and any [csize] bytes are the packing of what they unpack to. *)
Class CodecLaws {A} (c : codec A) := {
  length_pack a : length (pack c a) = csize c;
  unpack_pack a : cdom c a → unpack c (pack c a) = a;
  pack_unpack bs : length bs = csize c → pack c (unpack c bs) = bs;
  dom_unpack bs : length bs = csize c → cdom c (unpack c bs)
}.

Definition byte_Z (b : Byte.byte) : Z := Z.of_N (Byte.to_N b).
Definition Z_byte (z : Z) : Byte.byte := default Byte.x00 (Byte.of_N (Z.to_N (z mod 256))).

(** ["B"], ["H"] (little-endian) and ["4s"]. *)
Definition u8 : codec Z :=
  mkCodec 1 (λ z, 0 ≤ z < 256) (λ z, [Z_byte z]) (λ bs, byte_Z (nth 0 bs Byte.x00)).
Definition u16 : codec Z :=
  mkCodec 2 (λ z, 0 ≤ z < 65536) (λ z, [Z_byte z; Z_byte (z / 256)])
    (λ bs, byte_Z (nth 0 bs Byte.x00) + 256 * byte_Z (nth 1 bs Byte.x00)).
(** A byte string is truncated or padded with zeros to its width. *)
Definition raw (n : nat) : codec bytes :=
  mkCodec n (λ b, length b = n) (λ b, take n (b ++ replicate n Byte.x00)) (take n).
Definition pair_codec {A B} (c : codec A) (d : codec B) : codec (A * B) :=
  mkCodec (csize c + csize d) (λ ab, cdom c ab.1 ∧ cdom d ab.2) (λ ab, pack c ab.1 ++ pack d ab.2)
    (λ bs, (unpack c (take (csize c) bs), unpack d (drop (csize c) bs))).

(** [Struct.unpack_from(data, offset)]. *)
Definition unpack_from {A} (c : codec A) (data : bytes) (offset : nat) : A :=
  unpack c (take (csize c) (drop offset data)).

(** ** UTF-8 *)

(** A Python [str] is represented by its UTF-8 bytes, so that [encode] is the
    identity and [decode] checks that the bytes are well formed: no overlong
    form, no surrogate, nothing above U+10FFFF. *)
Definition in_range (lo hi : Z) (b : Byte.byte) : bool := (lo <=? byte_Z b) && (byte_Z b <=? hi).
Definition utf8_tail : Byte.byte → bool := in_range 0x80 0xBF.

(** The bytes allowed after a leading byte of three or four. *)
Definition utf8_second (lead b : Byte.byte) : bool :=
  if byte_Z lead =? 0xE0 then in_range 0xA0 0xBF b
  else if byte_Z lead =? 0xED then in_range 0x80 0x9F b
  else if byte_Z lead =? 0xF0 then in_range 0x90 0xBF b
  else if byte_Z lead =? 0xF4 then in_range 0x80 0x8F b
  else utf8_tail b.

Fixpoint utf8_valid (bs : bytes) : bool :=
  match bs with
  | [] => true
  | b :: r =>
      if in_range 0 0x7F b then utf8_valid r
      else match r with
      | [] => false
      | b1 :: r1 =>
          if in_range 0xC2 0xDF b then utf8_tail b1 && utf8_valid r1
          else match r1 with
          | [] => false
          | b2 :: r2 =>
              if in_range 0xE0 0xEF b then utf8_second b b1 && utf8_tail b2 && utf8_valid r2
              else match r2 with
              | [] => false
              | b3 :: r3 =>
                  in_range 0xF0 0xF4 b && utf8_second b b1 && utf8_tail b2 && utf8_tail b3 && utf8_valid r3
              end
          end
      end
  end.

Definition utf8_encode (s : string) : bytes := String.list_byte_of_string s.
Definition utf8_decode (bs : bytes) : option string :=
  if utf8_valid bs then Some (String.string_of_list_byte bs) else None.

(** ** Frames *)

Definition MAGIC : bytes := String.list_byte_of_string "LGCK".
Definition VERSION : Z := 1.
Definition FLAG_FINAL : Z := 1.
Definition _HEADER_PREFIX : codec (bytes * (Z * Z)) := pair_codec (raw 4) (pair_codec u8 u16).
Definition _TRAILER : codec (Z * (Z * Z)) := pair_codec u16 (pair_codec u16 u8).
Definition _FIXED_HEADER_BYTES : nat := 12.

Record ChunkFrame := mkChunkFrame {
  cf_request_id : string; cf_seq : Z; cf_total : Z; cf_is_final : bool; cf_payload : bytes
}.

(** [ChunkProtocolError], one constructor per message. *)
Inductive ChunkProtocolError :=
  | frame_too_short (len : nat)
  | bad_magic (magic : bytes)
  | unsupported_version (version : Z)
  | truncated
  | non_utf8
  | total_zero
  | seq_out_of_range (seq total : Z).

Definition is_chunk_frame (data : bytes) : bool :=
  (4 <=? length data)%nat && bool_decide (take 4 data = MAGIC).

Definition parse_frame (data : bytes) : result ChunkProtocolError ChunkFrame :=
  if (length data <? _FIXED_HEADER_BYTES)%nat then Err (frame_too_short (length data)) else
  let '(magic, (version, rid_len)) := unpack_from _HEADER_PREFIX data 0 in
  if negb (bool_decide (magic = MAGIC)) then Err (bad_magic magic) else
  if negb (version =? VERSION) then Err (unsupported_version version) else
  let rid_start := csize _HEADER_PREFIX in
  let rid_end := (rid_start + Z.to_nat rid_len)%nat in
  if (length data <? rid_end + csize _TRAILER)%nat then Err truncated else
  match utf8_decode (take (rid_end - rid_start) (drop rid_start data)) with
  | None => Err non_utf8
  | Some request_id =>
      let '(seq, (total, flags)) := unpack_from _TRAILER data rid_end in
      if total =? 0 then Err total_zero else
      if total <=? seq then Err (seq_out_of_range seq total) else
      let payload := drop (rid_end + csize _TRAILER) data in
      Ok (mkChunkFrame request_id seq total (negb (Z.land flags FLAG_FINAL =? 0)) payload)
  end.

Definition encode_frame (request_id : string) (seq total : Z) (payload : bytes) (is_final : bool)
    : result exn bytes :=
  let rid_bytes := utf8_encode request_id in
  if 0xFFFF <? Z.of_nat (length rid_bytes) then Err (ValueError "request_id too long") else
  if (total <? 1) || (0xFFFF <? total) then Err (ValueError "total out of range") else
  if (seq <? 0) || (total <=? seq) then Err (ValueError "seq out of range") else
  let header := pack _HEADER_PREFIX (MAGIC, (VERSION, Z.of_nat (length rid_bytes))) ++ rid_bytes in
  let trailer := pack _TRAILER (seq, (total, if is_final then FLAG_FINAL else 0)) in
  Ok (header ++ trailer ++ payload).

(** ** The codecs obey the interface *)

Lemma byte_Z_range b : 0 ≤ byte_Z b < 256.
Proof. unfold byte_Z. pose proof (Byte.to_N_bounded b). lia. Qed.

Lemma byte_Z_byte z : byte_Z (Z_byte z) = z mod 256.
Proof.
  unfold byte_Z, Z_byte. pose proof (Z.mod_pos_bound z 256 ltac:(lia)).
  destruct (Byte.of_N _) as [b|] eqn:E; simpl.
  - apply Byte.to_of_N in E. lia.
  - apply Byte.of_N_None_iff in E. lia.
Qed.

Lemma byte_Z_inj b b' : byte_Z b = byte_Z b' → b = b'.
Proof.
  unfold byte_Z. intros E. assert (E' : Byte.to_N b = Byte.to_N b') by lia.
  apply (f_equal Byte.of_N) in E'. rewrite !Byte.of_to_N in E'. by simplify_eq.
Qed.

Lemma Z_byte_Z b z : z mod 256 = byte_Z b → Z_byte z = b.
Proof. intros E. apply byte_Z_inj. by rewrite byte_Z_byte. Qed.

#[export] Instance u8_laws : CodecLaws u8.
Proof.
  split; simpl.
  - done.
  - intros z Hz. rewrite byte_Z_byte. by apply Z.mod_small.
  - intros [|b [|]] Hb; try done. simpl. f_equal. apply Z_byte_Z, Z.mod_small, byte_Z_range.
  - intros. apply byte_Z_range.
Qed.

#[export] Instance u16_laws : CodecLaws u16.
Proof.
  split; simpl.
  - done.
  - intros z Hz. rewrite !byte_Z_byte. zdm.
  - intros [|b0 [|b1 [|]]] Hb; try done. simpl.
    pose proof (byte_Z_range b0). pose proof (byte_Z_range b1).
    f_equal; [|f_equal]; apply Z_byte_Z; zdm.
  - intros bs _. pose proof (byte_Z_range (nth 0 bs Byte.x00)). pose proof (byte_Z_range (nth 1 bs Byte.x00)). lia.
Qed.

#[export] Instance raw_laws n : CodecLaws (raw n).
Proof.
  split; simpl.
  - intros b. rewrite length_take, length_app, length_replicate. lia.
  - intros b <-. by rewrite take_take, Nat.min_id, take_app_length.
  - intros bs <-. by rewrite firstn_all, take_app_length.
  - intros bs <-. by rewrite firstn_all.
Qed.

#[export] Instance pair_laws {A B} (c : codec A) (d : codec B) :
  CodecLaws c → CodecLaws d → CodecLaws (pair_codec c d).
Proof.
  intros Hc Hd. split; simpl.
  - intros [x y]. by rewrite length_app, !length_pack.
  - intros [x y] [Hx Hy]. simpl in *. rewrite <-(length_pack (c := c) x) at 1 2.
    by rewrite take_app_length, drop_app_length, !unpack_pack.
  - intros bs Hl. rewrite !pack_unpack; [apply take_drop|rewrite length_drop; lia|rewrite length_take; lia].
  - intros bs Hl. split; apply dom_unpack; [rewrite length_take|rewrite length_drop]; lia.
Qed.

#[export] Instance header_laws : CodecLaws _HEADER_PREFIX.
Proof. apply _. Qed.
#[export] Instance trailer_laws : CodecLaws _TRAILER.
Proof. apply _. Qed.

Section unpack_from.
Context {A} (c : codec A) `{!CodecLaws c}.

(** Reading back what was packed at an offset. *)
Lemma unpack_from_pack pre a post : cdom c a → unpack_from c (pre ++ pack c a ++ post) (length pre) = a.
Proof.
  intros. unfold unpack_from. rewrite drop_app_length, <-(length_pack (c := c) a), take_app_length.
  by apply unpack_pack.
Qed.

(** Data is the packing of what is read at an offset, with what is around it. *)
Lemma unpack_from_split data off :
  (off + csize c ≤ length data)%nat →
  data = take off data ++ pack c (unpack_from c data off) ++ drop (off + csize c) data.
Proof.
  intros Hl. unfold unpack_from. rewrite pack_unpack by (rewrite length_take, length_drop; lia).
  rewrite <-drop_drop, take_drop, take_drop. done.
Qed.

Lemma dom_unpack_from data off : (off + csize c ≤ length data)%nat → cdom c (unpack_from c data off).
Proof. intros. apply dom_unpack. rewrite length_take, length_drop. lia. Qed.
End unpack_from.

(** ** Frames and their wires *)

Definition wf_frame (f : ChunkFrame) : Prop :=
  utf8_valid (utf8_encode (cf_request_id f)) = true ∧ Z.of_nat (length (utf8_encode (cf_request_id f))) < 65536 ∧
  0 ≤ cf_seq f < cf_total f ∧ cf_total f < 65536.

(** The bytes of a frame whose flag byte is [flags]. *)
Definition wire (f : ChunkFrame) (flags : Z) : bytes :=
  let rid := utf8_encode (cf_request_id f) in
  pack _HEADER_PREFIX (MAGIC, (VERSION, Z.of_nat (length rid))) ++ rid ++
  pack _TRAILER (cf_seq f, (cf_total f, flags)) ++ cf_payload f.

Definition final_flag (flags : Z) : bool := negb (Z.land flags FLAG_FINAL =? 0).

Lemma utf8_decode_encode s : utf8_valid (utf8_encode s) = true → utf8_decode (utf8_encode s) = Some s.
Proof. intros Hv. unfold utf8_decode. rewrite Hv. f_equal. apply String.string_of_list_byte_of_string. Qed.

Lemma utf8_encode_decode bs s : utf8_decode bs = Some s → utf8_encode s = bs ∧ utf8_valid bs = true.
Proof.
  unfold utf8_decode. destruct (utf8_valid bs); [|done]. intros [= <-]. split; [|done].
  apply String.list_byte_of_string_of_list_byte.
Qed.

Lemma final_flag_of (b : bool) : final_flag (if b then FLAG_FINAL else 0) = b.
Proof. by destruct b. Qed.

Lemma length_header a : length (pack _HEADER_PREFIX a) = 7%nat.
Proof. apply (length_pack (c := _HEADER_PREFIX)). Qed.
Lemma length_trailer a : length (pack _TRAILER a) = 5%nat.
Proof. apply (length_pack (c := _TRAILER)). Qed.

Lemma parse_wire f flags :
  wf_frame f → 0 ≤ flags < 256 → final_flag flags = cf_is_final f → parse_frame (wire f flags) = Ok f.
Proof.
  intros (Hu & Hl & Hs & Ht) Hf Hfin. unfold parse_frame, wire.
  set (rid := utf8_encode (cf_request_id f)) in *. set (hd := pack _HEADER_PREFIX _).
  assert (Hhd : length hd = 7%nat) by apply length_header.
  set (tr := pack _TRAILER _). assert (Htr : length tr = 5%nat) by apply length_trailer.
  assert (Hlen : length (hd ++ rid ++ tr ++ cf_payload f) = (12 + length rid + length (cf_payload f))%nat)
    by (rewrite !length_app; lia).
  assert (Hpay : drop (7 + length rid + 5) (hd ++ rid ++ tr ++ cf_payload f) = cf_payload f).
  { rewrite !app_assoc. apply drop_app_length'. rewrite !length_app. lia. }
  rewrite (proj2 (Nat.ltb_ge _ _)) by (rewrite Hlen; unfold _FIXED_HEADER_BYTES; lia).
  replace (unpack_from _HEADER_PREFIX _ 0) with (MAGIC, (VERSION, Z.of_nat (length rid)))
    by (symmetry; apply (unpack_from_pack _HEADER_PREFIX []); unfold VERSION; repeat split; simpl; lia).
  rewrite bool_decide_eq_true_2, Z.eqb_refl by done. cbn [negb]. rewrite Nat2Z.id.
  change (csize _HEADER_PREFIX) with 7%nat. change (csize _TRAILER) with 5%nat.
  rewrite (proj2 (Nat.ltb_ge _ _)) by (rewrite Hlen; lia).
  replace (7 + length rid - 7)%nat with (length rid) by lia.
  rewrite <-Hhd at 1. rewrite drop_app_length, take_app_length. unfold rid at 1.
  rewrite utf8_decode_encode by done.
  replace (unpack_from _TRAILER _ _) with (cf_seq f, (cf_total f, flags)).
  2: { symmetry. rewrite app_assoc, <-Hhd, <-length_app. apply (unpack_from_pack _TRAILER). repeat split; simpl; lia. }
  rewrite (proj2 (Z.eqb_neq _ _)), (proj2 (Z.leb_gt _ _)) by lia.
  fold (final_flag flags). rewrite Hfin, Hpay. by destruct f.
Qed.

(** The header, read byte by byte. *)
Definition rid_len_of (data : bytes) : Z := byte_Z (nth 5 data Byte.x00) + 256 * byte_Z (nth 6 data Byte.x00).

Lemma unpack_header data :
  (12 <= length data)%nat →
  unpack_from _HEADER_PREFIX data 0 = (take 4 data, (byte_Z (nth 4 data Byte.x00), rid_len_of data)).
Proof. do 7 (destruct data as [|? data]; [simpl; lia|]). done. Qed.

Lemma parse_frame_inv data f :
  parse_frame data = Ok f →
  ∃ flags, wf_frame f ∧ 0 ≤ flags < 256 ∧ final_flag flags = cf_is_final f ∧ data = wire f flags.
Proof.
  unfold parse_frame. destruct (Nat.ltb_spec (length data) _FIXED_HEADER_BYTES) as [|Hl]; [done|].
  unfold _FIXED_HEADER_BYTES in Hl.
  pose proof (unpack_from_split _HEADER_PREFIX data 0 ltac:(simpl; lia)) as Hd.
  pose proof (dom_unpack_from _HEADER_PREFIX data 0 ltac:(simpl; lia)) as Hdom.
  destruct (unpack_from _HEADER_PREFIX data 0) as [magic [version n]]. destruct Hdom as [_ [_ Hn]]. simpl in Hn.
  destruct (bool_decide_reflect (magic = MAGIC)) as [->|]; [|done].
  destruct (Z.eqb_spec version VERSION) as [->|]; [|done]. cbn [negb].
  change (csize _HEADER_PREFIX) with 7%nat in *. change (csize _TRAILER) with 5%nat.
  destruct (Nat.ltb_spec (length data) (7 + Z.to_nat n + 5)) as [|Hl']; [done|].
  replace (7 + Z.to_nat n - 7)%nat with (Z.to_nat n) by lia.
  destruct (utf8_decode _) as [rid|] eqn:Hrid; [|done].
  apply utf8_encode_decode in Hrid as [Hrid Hvalid].
  pose proof (unpack_from_split _TRAILER data (7 + Z.to_nat n) ltac:(simpl; lia)) as Hd'.
  pose proof (dom_unpack_from _TRAILER data (7 + Z.to_nat n) ltac:(simpl; lia)) as Hdom.
  destruct (unpack_from _TRAILER data _) as [seq [total flags]]. destruct Hdom as [Hseq [Htot Hfl]]. simpl in Hseq, Htot, Hfl.
  destruct (Z.eqb_spec total 0); [done|]. destruct (Z.leb_spec total seq); [done|].
  intros [= <-]. exists flags. cbn [cf_is_final cf_seq cf_total cf_request_id cf_payload].
  assert (Hrl : length (utf8_encode rid) = Z.to_nat n) by (rewrite Hrid, length_take, length_drop; lia).
  split_and!; [|lia|lia|done|].
  { unfold wf_frame. cbn [cf_is_final cf_seq cf_total cf_request_id cf_payload]. rewrite Hrl. split_and!; [by rewrite Hrid|lia..]. }
  unfold wire. cbn [cf_is_final cf_seq cf_total cf_request_id cf_payload].
  rewrite Hrl, Z2Nat.id by lia.
  assert (Htake : take 7 data = pack _HEADER_PREFIX (MAGIC, (VERSION, n))).
  { rewrite firstn_O, app_nil_l in Hd. rewrite Hd. apply take_app_length'. symmetry. apply length_header. }
  rewrite <-Htake, Hrid, app_assoc, take_take_drop. exact Hd'.
Qed.

(** Parsing accepts exactly the wire form: [parse_frame] returns [f] iff [f]
    is well formed and the bytes are its header, its request id in UTF-8, its
    trailer with a flag byte whose lowest bit says final (the other seven are
    ignored), and its payload; nothing of the bytes is lost or made up. *)
Theorem parse_frame_exact data f :
  parse_frame data = Ok f ↔
  ∃ flags, wf_frame f ∧ 0 ≤ flags < 256 ∧ final_flag flags = cf_is_final f ∧ data = wire f flags.
Proof.
  split; [apply parse_frame_inv|]. intros (flags & Hwf & Hf & Hfin & ->). by apply parse_wire.
Qed.

Lemma encode_frame_ok rid seq total payload fin data :
  encode_frame rid seq total payload fin = Ok data ↔
  Z.of_nat (length (utf8_encode rid)) < 65536 ∧ 0 ≤ seq < total ∧ total < 65536 ∧
  data = wire (mkChunkFrame rid seq total fin payload) (if fin then FLAG_FINAL else 0).
Proof.
  unfold encode_frame, wire. cbn [cf_request_id cf_seq cf_total cf_payload].
  destruct (Z.ltb_spec 0xFFFF (Z.of_nat (length (utf8_encode rid)))); [split; [done|lia]|].
  destruct (Z.ltb_spec total 1), (Z.ltb_spec 0xFFFF total); cbn [orb]; try (split; [done|lia]).
  destruct (Z.ltb_spec seq 0), (Z.leb_spec total seq); cbn [orb]; try (split; [done|lia]).
  rewrite <-app_assoc. split; [intros [= <-]; split_and!; (done || lia)|]. by intros (_ & _ & _ & ->).
Qed.

(** C8. Round trip of the wire format: whatever [encode_frame] produces for the
    id of a Python string, [parse_frame] reads back, field by field; and a
    frame that was parsed is encoded again to the same bytes up to the seven
    reserved flag bits, without an error. *)
Theorem frame_roundtrip rid seq total payload fin data :
  utf8_valid (utf8_encode rid) = true →
  encode_frame rid seq total payload fin = Ok data →
  parse_frame data = Ok (mkChunkFrame rid seq total fin payload) ∧ is_chunk_frame data = true ∧
  ∀ data' f, parse_frame data' = Ok f →
    ∃ flags, data' = wire f flags ∧
      encode_frame (cf_request_id f) (cf_seq f) (cf_total f) (cf_payload f) (cf_is_final f) =
      Ok (wire f (if cf_is_final f then FLAG_FINAL else 0)).
Proof.
  intros Hu (Hl & Hs & Ht & ->)%encode_frame_ok. split_and!.
  - apply parse_wire; [done|by destruct fin|by destruct fin].
  - done.
  - intros data' f (flags & (Hu' & Hl' & Hs' & Ht') & _ & _ & ->)%parse_frame_inv. exists flags. split; [done|].
    apply encode_frame_ok. split_and!; (done || lia).
Qed.

(** What a rejected frame is told is the first thing that is wrong with it:
    the length, the magic, the version, the length of the id, its encoding, a
    zero total, a sequence number past the total; [parse_frame] accepts when
    nothing is. *)
Theorem parse_frame_errors data :
  let ver := byte_Z (nth 4 data Byte.x00) in
  let rid := take (Z.to_nat (rid_len_of data)) (drop 7 data) in
  let trailer := unpack_from _TRAILER data (7 + Z.to_nat (rid_len_of data)) in
  let header_ok := (12 ≤ length data)%nat ∧ take 4 data = MAGIC ∧ ver = VERSION ∧
    12 + rid_len_of data ≤ Z.of_nat (length data) in
  match parse_frame data with
  | Err (frame_too_short n) => n = length data ∧ (n < 12)%nat
  | Err (bad_magic m) => (12 ≤ length data)%nat ∧ m = take 4 data ∧ m ≠ MAGIC
  | Err (unsupported_version v) => (12 ≤ length data)%nat ∧ take 4 data = MAGIC ∧ v = ver ∧ v ≠ VERSION
  | Err truncated => (12 ≤ length data)%nat ∧ take 4 data = MAGIC ∧ ver = VERSION ∧
      Z.of_nat (length data) < 12 + rid_len_of data
  | Err non_utf8 => header_ok ∧ utf8_valid rid = false
  | Err total_zero => header_ok ∧ utf8_valid rid = true ∧ trailer.2.1 = 0
  | Err (seq_out_of_range s n) => header_ok ∧ utf8_valid rid = true ∧ s = trailer.1 ∧ n = trailer.2.1 ∧ 1 ≤ n ≤ s
  | Ok f => header_ok ∧ utf8_encode (cf_request_id f) = rid ∧ cf_seq f = trailer.1 ∧ cf_total f = trailer.2.1 ∧
      cf_is_final f = Z.odd trailer.2.2
  end.
Proof.
  cbv zeta. unfold parse_frame. destruct (Nat.ltb_spec (length data) _FIXED_HEADER_BYTES) as [|Hl]; [done|].
  unfold _FIXED_HEADER_BYTES in Hl. rewrite unpack_header by done.
  assert (Hr : 0 ≤ rid_len_of data).
  { unfold rid_len_of. pose proof (byte_Z_range (nth 5 data Byte.x00)). pose proof (byte_Z_range (nth 6 data Byte.x00)). lia. }
  destruct (bool_decide_reflect (take 4 data = MAGIC)) as [HM|HM]; cbn [negb]; [|done].
  destruct (Z.eqb_spec (byte_Z (nth 4 data Byte.x00)) VERSION) as [HV|HV]; cbn [negb]; [|done].
  change (csize _HEADER_PREFIX) with 7%nat in *. change (csize _TRAILER) with 5%nat.
  destruct (Nat.ltb_spec (length data) (7 + Z.to_nat (rid_len_of data) + 5)) as [|Hl']; [split_and!; (done || lia)|].
  replace (7 + Z.to_nat (rid_len_of data) - 7)%nat with (Z.to_nat (rid_len_of data)) by lia.
  assert (Hok : (12 ≤ length data)%nat ∧ take 4 data = MAGIC ∧ byte_Z (nth 4 data Byte.x00) = VERSION ∧
    12 + rid_len_of data ≤ Z.of_nat (length data)) by (split_and!; (done || lia)).
  destruct (utf8_decode _) as [rid|] eqn:Hrid.
  2: { split; [done|]. unfold utf8_decode in Hrid. by destruct (utf8_valid _). }
  apply utf8_encode_decode in Hrid as [Hrid Hvalid].
  pose proof (dom_unpack_from _TRAILER data (7 + Z.to_nat (rid_len_of data)) ltac:(simpl; lia)) as Hdom.
  destruct (unpack_from _TRAILER data _) as [seq [total flags]]. destruct Hdom as [Hseq [Htot Hfl]].
  cbn [fst snd u16 u8 cdom] in *.
  destruct (Z.eqb_spec total 0); [done|]. destruct (Z.leb_spec total seq); [split_and!; (done || lia)|].
  cbn [cf_is_final cf_seq cf_total cf_request_id].
  split; [done|split; [done|split; [done|split; [done|]]]].
  change FLAG_FINAL with (Z.ones 1). rewrite Z.land_ones by lia. change (2 ^ 1) with 2. rewrite Zmod_odd. by destruct (Z.odd flags).
Qed.

(** ** Witnesses *)

Lemma frame_roundtrip_witness :
  parse_frame (wire (mkChunkFrame "r" 1 3 false [Byte.x2a]) 0) = Ok (mkChunkFrame "r" 1 3 false [Byte.x2a]).
Proof. by apply (frame_roundtrip "r" 1 3 [Byte.x2a] false). Defined.
