(* ===== verification/LogChunks.v ===== *)
(** * The assembler of chunked log bundles
      (cms/services/log_chunk_assembler.py: [LogChunkAssembler])

    A process-local buffer per device and request collects the chunks of a
    transfer and gives the bundle when the final frame finds them all.  Times
    are microseconds since 1970. *)

From S2P Require Import Prelude Clock Models Database LogBlobs LogFrames.
Open Scope Z_scope.

(** ** State *)

Record _Buffer := mkBuffer {
  bf_device_id : string; bf_request_id : string; bf_total : Z; bf_created_at : Z; bf_last_updated_at : Z;
  bf_chunks : gmap Z bytes; bf_total_bytes : Z; bf_saw_final : bool
}.

Record AssembledBundle := mkBundle { ab_device_id : string; ab_request_id : string; ab_data : bytes }.
Record ReapedTransfer := mkReaped { rt_device_id : string; rt_request_id : string; rt_reason : string }.

Record AssemblerConfig := mkAssembler { max_count : Z; max_bytes : Z; ttl_sec : Z }.

(** [LogChunkAssembler.__init__]. *)
Definition new_assembler (max_count max_bytes ttl_sec : Z) : result exn AssemblerConfig :=
  if max_count <? 1 then Err (ValueError "max_count must be >= 1") else
  if max_bytes <? 1 then Err (ValueError "max_bytes must be >= 1") else
  if ttl_sec <=? 0 then Err (ValueError "buffer_ttl_sec must be > 0") else
  Ok (mkAssembler max_count max_bytes ttl_sec).

(** [init_assembler] with the defaults of the settings. *)
Definition default_assembler : AssemblerConfig := mkAssembler 30 22020096 300.

Abbreviation transfer_key := (string * string)%type.
(** [self._buffers]: a dict, in the order of insertion. *)
Abbreviation buffers := (list (transfer_key * _Buffer)).

(** [ChunkStateError], one constructor per message; [missing_chunk] is the
    KeyError of [_Buffer.assemble]. *)
Inductive ingest_error :=
  | chunks_exceeded (total max_count : Z)
  | total_changed (saw has : Z)
  | bytes_exceeded (projected max_bytes : Z)
  | chunks_missing (missing : list Z)
  | missing_chunk.

(** [str] of a list of ints. *)
Definition list_str (l : list Z) : string := "[" +:+ String.concat ", " (Z_str <$> l) +:+ "]".

Definition state_error_str (e : ingest_error) : string :=
  match e with
  | chunks_exceeded total m => "chunks_exceeded: total " +:+ Z_str total +:+ " > max_count " +:+ Z_str m
  | total_changed saw has => "total_changed: saw " +:+ Z_str saw +:+ ", frame has " +:+ Z_str has
  | bytes_exceeded p m => "bytes_exceeded: assembled size would be " +:+ Z_str p +:+ " bytes > max_bytes " +:+ Z_str m
  | chunks_missing l => "chunks_missing: final frame received but seqs " +:+ list_str l +:+ " still missing"
  | missing_chunk => ""
  end.

(** ** Operations *)

Definition has_all (b : _Buffer) : bool := Z.of_nat (size (bf_chunks b)) =? bf_total b.

Definition assemble (b : _Buffer) : option bytes :=
  parts ← mapM (λ i, bf_chunks b !! i) (seqZ 0 (bf_total b)); Some (concat parts).

Definition pending_count (bufs : buffers) : nat := length bufs.
Definition has_buffer (device_id request_id : string) (bufs : buffers) : bool :=
  bool_decide (is_Some (aget (device_id, request_id) bufs)).

Definition touch (now : Z) (b : _Buffer) : _Buffer :=
  mkBuffer (bf_device_id b) (bf_request_id b) (bf_total b) (bf_created_at b) now
    (bf_chunks b) (bf_total_bytes b) (bf_saw_final b).
Definition set_final (f : bool) (b : _Buffer) : _Buffer :=
  mkBuffer (bf_device_id b) (bf_request_id b) (bf_total b) (bf_created_at b) (bf_last_updated_at b)
    (bf_chunks b) (bf_total_bytes b) (f || bf_saw_final b).
Definition add_chunk (seq : Z) (payload : bytes) (projected : Z) (b : _Buffer) : _Buffer :=
  mkBuffer (bf_device_id b) (bf_request_id b) (bf_total b) (bf_created_at b) (bf_last_updated_at b)
    (<[seq := payload]> (bf_chunks b)) projected (bf_saw_final b).

Definition missing_seqs (b : _Buffer) : list Z :=
  filter (λ i, bf_chunks b !! i = None) (seqZ 0 (bf_total b)).

Definition _finalise (key : transfer_key) (b : _Buffer) (bufs : buffers)
    : buffers * result ingest_error (option AssembledBundle) :=
  match assemble b with
  | None => (bufs, Err missing_chunk)
  | Some data => (adel key bufs, Ok (Some (mkBundle (bf_device_id b) (bf_request_id b) data)))
  end.

Section ingest.
Context (cfg : AssemblerConfig).

(** The buffer the frame goes to: the one there, or a new one. *)
Definition open_buffer (now : Z) (device_id : string) (frame : ChunkFrame) (bufs : buffers)
    : result ingest_error _Buffer :=
  match aget (device_id, cf_request_id frame) bufs with
  | None =>
      if max_count cfg <? cf_total frame then Err (chunks_exceeded (cf_total frame) (max_count cfg))
      else Ok (mkBuffer device_id (cf_request_id frame) (cf_total frame) now now ∅ 0 false)
  | Some buf =>
      if negb (bf_total buf =? cf_total frame) then Err (total_changed (bf_total buf) (cf_total frame))
      else Ok buf
  end.

Definition ingest (now : Z) (device_id : string) (frame : ChunkFrame) (bufs : buffers)
    : buffers * result ingest_error (option AssembledBundle) :=
  let key := (device_id, cf_request_id frame) in
  match open_buffer now device_id frame bufs with
  | Err e => (adel key bufs, Err e)
  | Ok buf0 =>
      let buf := touch now buf0 in
      match bf_chunks buf !! cf_seq frame with
      | Some _ =>
          let buf := set_final (cf_is_final frame) buf in
          let bufs := aset key buf bufs in
          if bf_saw_final buf && has_all buf then _finalise key buf bufs else (bufs, Ok None)
      | None =>
          let projected := bf_total_bytes buf + Z.of_nat (length (cf_payload frame)) in
          if max_bytes cfg <? projected then (adel key bufs, Err (bytes_exceeded projected (max_bytes cfg)))
          else
            let buf := set_final (cf_is_final frame) (add_chunk (cf_seq frame) (cf_payload frame) projected buf) in
            let bufs := aset key buf bufs in
            if bf_saw_final buf then
              if has_all buf then _finalise key buf bufs
              else if cf_is_final frame then (adel key bufs, Err (chunks_missing (missing_seqs buf)))
              else (bufs, Ok None)
            else (bufs, Ok None)
      end
  end.

Definition drop_transfer (device_id request_id : string) (bufs : buffers) : buffers * bool :=
  (adel (device_id, request_id) bufs, has_buffer device_id request_id bufs).

Definition reap_reason (b : _Buffer) : string :=
  "chunk_buffer_timeout: last frame received at " +:+ utc_isoformat (bf_last_updated_at b) +:+
  " (TTL " +:+ Z_str (ttl_sec cfg) +:+ "s)".

Definition stalled (now : Z) (b : _Buffer) : bool := bf_last_updated_at b <=? now - ttl_sec cfg * 1000000.

Definition reap_expired (now : Z) (bufs : buffers) : buffers * list ReapedTransfer :=
  (filter (λ kb, stalled now kb.2 = false) bufs,
   (λ kb, mkReaped (bf_device_id kb.2) (bf_request_id kb.2) (reap_reason kb.2)) <$>
     filter (λ kb, stalled now kb.2 = true) bufs).
End ingest.

(** ** What a buffer holds *)

(** The chunks in order, a missing one counting as empty. *)
Definition content (chunks : gmap Z bytes) (total : Z) : bytes :=
  concat ((λ i, chunks !! i or_else []) <$> seqZ 0 total).

Lemma length_concat_fmap {A} (f : A → bytes) l :
  length (concat (f <$> l)) = sum_list_with (λ x, length (f x)) l.
Proof. induction l as [|x l IH]; [done|]. rewrite fmap_cons. simpl. by rewrite length_app, IH. Qed.

Lemma seqZ_split m n s : m ≤ s < m + n → seqZ m n = seqZ m (s - m) ++ s :: seqZ (s + 1) (m + n - s - 1).
Proof.
  intros ?. replace n with ((s - m) + (m + n - s)) at 1 by lia. rewrite seqZ_app by lia. f_equal.
  rewrite seqZ_cons by lia. f_equal; [lia|f_equal; lia].
Qed.

Lemma content_insert chunks total s p :
  chunks !! s = None → 0 ≤ s < total →
  length (content (<[s := p]> chunks) total) = (length (content chunks total) + length p)%nat.
Proof.
  intros Hs Hr. unfold content. rewrite !length_concat_fmap, (seqZ_split 0 total s), !sum_list_with_app by lia.
  simpl. rewrite lookup_insert_eq, Hs. simpl.
  assert (Heq : ∀ l, s ∉ l → sum_list_with (λ x, length (<[s:=p]> chunks !! x or_else [])) l =
                          sum_list_with (λ x, length (chunks !! x or_else [])) l).
  { induction l as [|x l IH]; [done|]. intros [Hx Hl]%not_elem_of_cons. simpl.
    rewrite lookup_insert_ne, IH by done. done. }
  rewrite !Heq by (rewrite elem_of_seqZ; lia). lia.
Qed.

Section full.
Context (chunks : gmap Z bytes) (total : Z).
Hypothesis total_pos : 1 ≤ total.
Hypothesis in_total : ∀ i, is_Some (chunks !! i) → 0 ≤ i < total.

Lemma chunks_full : Z.of_nat (size chunks) = total → ∀ i, 0 ≤ i < total → is_Some (chunks !! i).
Proof.
  intros Hsz i Hi. apply elem_of_dom.
  assert (Hd : dom chunks = (list_to_set (seqZ 0 total) : gset Z)).
  { apply set_subseteq_size_eq.
    - intros j Hj%elem_of_dom%in_total. apply elem_of_list_to_set, elem_of_seqZ. lia.
    - rewrite size_list_to_set, length_seqZ, size_dom by apply NoDup_seqZ. lia. }
  rewrite Hd. apply elem_of_list_to_set, elem_of_seqZ. lia.
Qed.

Lemma full_chunks : (∀ i, 0 ≤ i < total → is_Some (chunks !! i)) → Z.of_nat (size chunks) = total.
Proof.
  intros Hall. assert (Hd : dom chunks = (list_to_set (seqZ 0 total) : gset Z)).
  { apply set_eq. intros j. rewrite elem_of_dom, elem_of_list_to_set, elem_of_seqZ. split; [intros ?%in_total; lia|].
    intros ?. apply Hall. lia. }
  rewrite <-size_dom, Hd, size_list_to_set, length_seqZ by apply NoDup_seqZ. lia.
Qed.
End full.

Lemma assemble_full b :
  (∀ i, 0 ≤ i < bf_total b → is_Some (bf_chunks b !! i)) →
  assemble b = Some (content (bf_chunks b) (bf_total b)).
Proof.
  intros Hall. unfold assemble, content.
  assert (E : ∀ l, (∀ i, i ∈ l → is_Some (bf_chunks b !! i)) →
    mapM (λ i, bf_chunks b !! i) l = Some ((λ i, bf_chunks b !! i or_else []) <$> l)).
  { induction l as [|i l IH]; intros Hl; [done|]. destruct (Hl i) as [c Hc]; [left|]. simpl.
    rewrite Hc. simpl. rewrite IH by (intros; apply Hl; by right). simpl. done. }
  rewrite E; [done|]. intros i Hi%elem_of_seqZ. apply Hall. lia.
Qed.

(** ** The invariant of the buffers *)

Section invariant.
Context (cfg : AssemblerConfig).

Record buffer_ok (key : transfer_key) (b : _Buffer) : Prop := mkBufferOk {
  ok_key : key = (bf_device_id b, bf_request_id b);
  ok_total : 1 ≤ bf_total b ≤ max_count cfg;
  ok_seqs : ∀ i, is_Some (bf_chunks b !! i) → 0 ≤ i < bf_total b;
  ok_bytes : bf_total_bytes b = Z.of_nat (length (content (bf_chunks b) (bf_total b)));
  ok_cap : bf_total_bytes b ≤ max_bytes cfg
}.

Definition buffers_ok (bufs : buffers) : Prop :=
  NoDup bufs.*1 ∧ ∀ key b, aget key bufs = Some b → buffer_ok key b.

Lemma buffers_ok_filter (P : transfer_key * _Buffer → Prop) `{!∀ kb, Decision (P kb)} bufs :
  buffers_ok bufs → buffers_ok (filter P bufs).
Proof.
  intros [Hnd Hok]. split; [by apply filter_keys_NoDup|]. intros key b. rewrite aget_filter by done.
  destruct (aget key bufs) as [b'|] eqn:E; [|done]. cbn. case_decide; [|done]. intros [= <-]. by apply Hok.
Qed.

Lemma buffers_ok_adel key bufs : buffers_ok bufs → buffers_ok (adel key bufs).
Proof.
  intros [Hnd Hok]. split; [by apply filter_keys_NoDup|]. intros key' b. rewrite aget_adel by done.
  case_decide; [done|]. apply Hok.
Qed.

Lemma buffers_ok_aset key b bufs : buffers_ok bufs → buffer_ok key b → buffers_ok (aset key b bufs).
Proof.
  intros [Hnd Hok] Hb. split; [by apply aset_NoDup|]. intros key' b'. rewrite aget_aset.
  case_decide; [intros [= <-]; by subst|]. apply Hok.
Qed.

(** What the parser ensures of a frame. *)
Definition frame_ok (f : ChunkFrame) : Prop := 0 ≤ cf_seq f < cf_total f.

Lemma open_buffer_ok now dev f bufs b :
  0 < max_bytes cfg → buffers_ok bufs → frame_ok f → open_buffer cfg now dev f bufs = Ok b →
  buffer_ok (dev, cf_request_id f) b ∧ bf_total b = cf_total f.
Proof.
  intros Hmb [_ Hok] Hf. unfold frame_ok in Hf. unfold open_buffer.
  destruct (aget _ bufs) as [b0|] eqn:Hb.
  - destruct (Z.eqb_spec (bf_total b0) (cf_total f)); [|done]. intros [= <-]. split; [by apply Hok|done].
  - destruct (Z.ltb_spec (max_count cfg) (cf_total f)); [done|]. intros [= <-]. split; [|done].
    split; cbn; [done|lia|by intros i [? ?]| |lia].
    unfold content. rewrite length_concat_fmap. by induction (seqZ 0 (cf_total f)).
Qed.

Lemma open_buffer_held now dev f bufs b :
  open_buffer cfg now dev f bufs = Ok b →
  bf_chunks b = match aget (dev, cf_request_id f) bufs with Some b => bf_chunks b | None => ∅ end ∧
  match aget (dev, cf_request_id f) bufs with Some b => bf_total b = cf_total f | None => cf_total f ≤ max_count cfg end.
Proof.
  unfold open_buffer. destruct (aget _ bufs) as [b0|].
  - destruct (Z.eqb_spec (bf_total b0) (cf_total f)); [|done]. by intros [= <-].
  - destruct (Z.ltb_spec (max_count cfg) (cf_total f)); [done|]. by intros [= <-].
Qed.

Lemma open_buffer_error now dev f bufs e :
  open_buffer cfg now dev f bufs = Err e →
  match e with
  | chunks_exceeded n m => aget (dev, cf_request_id f) bufs = None ∧ n = cf_total f ∧ m = max_count cfg ∧ m < n
  | total_changed saw has => ∃ b, aget (dev, cf_request_id f) bufs = Some b ∧ saw = bf_total b ∧ has = cf_total f ∧ saw ≠ has
  | _ => False
  end.
Proof.
  unfold open_buffer. destruct (aget _ bufs) as [b0|].
  - destruct (Z.eqb_spec (bf_total b0) (cf_total f)); [done|]. intros [= <-]. eauto.
  - destruct (Z.ltb_spec (max_count cfg) (cf_total f)); [|done]. by intros [= <-].
Qed.

Lemma touch_ok key now b : buffer_ok key b → buffer_ok key (touch now b).
Proof. by intros []. Qed.
Lemma set_final_ok key fin b : buffer_ok key b → buffer_ok key (set_final fin b).
Proof. by intros []. Qed.
Lemma add_chunk_ok key s p b :
  buffer_ok key b → bf_chunks b !! s = None → 0 ≤ s < bf_total b →
  bf_total_bytes b + Z.of_nat (length p) ≤ max_bytes cfg →
  buffer_ok key (add_chunk s p (bf_total_bytes b + Z.of_nat (length p)) b).
Proof.
  intros [Hk Ht Hs Hb Hc] Hnone Hr Hle. split; cbn; [done..| | |done].
  - intros i. destruct (decide (i = s)) as [->|]; [done|]. rewrite lookup_insert_ne by done. apply Hs.
  - rewrite content_insert by done. lia.
Qed.

Lemma has_all_full key b : buffer_ok key b → has_all b = true → ∀ i, 0 ≤ i < bf_total b → is_Some (bf_chunks b !! i).
Proof.
  intros [_ Ht Hs _ _] Hall%Z.eqb_eq. exact (chunks_full _ _ (proj1 Ht) Hs Hall).
Qed.

Lemma full_has_all key b : buffer_ok key b → (∀ i, 0 ≤ i < bf_total b → is_Some (bf_chunks b !! i)) → has_all b = true.
Proof. intros [_ Ht Hs _ _] Hall. apply Z.eqb_eq. by apply (full_chunks _ _ (proj1 Ht) Hs). Qed.

Lemma finalise_ok key b bufs :
  buffer_ok key b → has_all b = true →
  _finalise key b bufs = (adel key bufs, Ok (Some (mkBundle (bf_device_id b) (bf_request_id b)
                                                  (content (bf_chunks b) (bf_total b))))).
Proof. intros Hb Hall. unfold _finalise. rewrite assemble_full; [done|]. by apply has_all_full with key. Qed.

(** The possible ends of an ingest, with what they mean for the transfer. *)
Definition ingest_post (dev : string) (f : ChunkFrame) (bufs bufs' : buffers)
    (r : result ingest_error (option AssembledBundle)) : Prop :=
  let key := (dev, cf_request_id f) in
  buffers_ok bufs' ∧
  (∀ key', key' ≠ key → aget key' bufs' = aget key' bufs) ∧
  match r with
  | Ok (Some bundle) =>
      aget key bufs' = None ∧ ab_device_id bundle = dev ∧ ab_request_id bundle = cf_request_id f ∧
      Z.of_nat (length (ab_data bundle)) ≤ max_bytes cfg
  | Ok None => ∃ b, aget key bufs' = Some b ∧ is_Some (bf_chunks b !! cf_seq f)
  | Err e => aget key bufs' = None ∧ e ≠ missing_chunk
  end.

Section post.
Context (dev : string) (f : ChunkFrame) (bufs : buffers).
Hypothesis bufs_ok : buffers_ok bufs.
Notation key := (dev, cf_request_id f).
Notation post := (ingest_post dev f bufs).

Lemma post_error e : e ≠ missing_chunk → post (adel key bufs) (Err e).
Proof.
  intros He. split; [by apply buffers_ok_adel|]. destruct bufs_ok as [Hnd _].
  split; [intros key' Hk; rewrite aget_adel by done; by rewrite decide_False|].
  split; [|done]. rewrite aget_adel by done. by rewrite decide_True.
Qed.

Lemma post_wait b : buffer_ok key b → is_Some (bf_chunks b !! cf_seq f) → post (aset key b bufs) (Ok None).
Proof.
  intros Hb Hs. split; [by apply buffers_ok_aset|].
  split; [intros key' Hk; rewrite aget_aset; by rewrite decide_False|].
  exists b. split; [|done]. rewrite aget_aset. by rewrite decide_True.
Qed.

Lemma post_finalise b :
  buffer_ok key b → has_all b = true →
  post (_finalise key b (aset key b bufs)).1 (_finalise key b (aset key b bufs)).2.
Proof.
  intros Hb Hall. rewrite (finalise_ok key) by done. simpl.
  pose proof (buffers_ok_aset key b bufs bufs_ok Hb) as Hok'. split; [by apply buffers_ok_adel|].
  destruct Hok' as [Hnd _]. split.
  - intros key' Hk. rewrite aget_adel, aget_aset by done. by rewrite !decide_False.
  - destruct Hb as [[= Hd Hr] _ _ Hbytes Hcap]. cbn.
    split_and!; [rewrite aget_adel by done; by rewrite decide_True|done|done|lia].
Qed.
End post.

(** C30. The assembler is safe whatever frames arrive: its buffers keep their
    invariant (at most [max_count] chunks, numbered below the total, of at most
    [max_bytes] bytes, which the byte counter counts), buffers of other
    transfers are untouched, an assembled bundle is within [max_bytes] and
    carries the ids of its transfer, assembling never hits a missing chunk, and
    a bundle or an error leaves no buffer of that transfer behind. *)
Theorem ingest_safe now dev f bufs :
  0 < max_bytes cfg → buffers_ok bufs → frame_ok f →
  ingest_post dev f bufs (ingest cfg now dev f bufs).1 (ingest cfg now dev f bufs).2.
Proof.
  intros Hmb Hok Hf. unfold ingest. destruct (open_buffer cfg now dev f bufs) as [b0|e] eqn:Ho.
  2: { apply post_error; [done|]. apply open_buffer_error in Ho. by intros ->. }
  apply open_buffer_ok in Ho as [Hb0 Ht0]; [|done..]. apply (touch_ok _ now) in Hb0.
  assert (Hseq : 0 ≤ cf_seq f < bf_total (touch now b0)) by (unfold frame_ok in Hf; cbn; lia).
  destruct (bf_chunks (touch now b0) !! cf_seq f) as [c|] eqn:Hc; cbv zeta.
  - pose proof (set_final_ok _ (cf_is_final f) _ Hb0) as Hb1.
    destruct (_ && _) eqn:E; [apply andb_true_iff in E as [_ E]; by apply post_finalise|].
    apply post_wait; [done|done|]. cbn in *. by rewrite Hc.
  - destruct (Z.ltb_spec (max_bytes cfg) (bf_total_bytes (touch now b0) + Z.of_nat (length (cf_payload f))));
      [by apply post_error|].
    pose proof (set_final_ok _ (cf_is_final f) _
      (add_chunk_ok _ _ (cf_payload f) _ Hb0 Hc Hseq ltac:(lia))) as Hb1.
    set (b1 := set_final _ _) in *.
    assert (is_Some (bf_chunks b1 !! cf_seq f)) by (cbn; by rewrite lookup_insert_eq).
    destruct (bf_saw_final b1); [|by apply post_wait].
    destruct (has_all b1) eqn:E; [by apply post_finalise|].
    destruct (cf_is_final f); [rewrite adel_aset; by apply post_error|by apply post_wait].
Qed.

(** The errors of the assembler are exactly those of its contract: a new
    transfer that announces too many chunks, a total that changes, a payload
    past the byte cap, and a final frame that finds chunks missing, which are
    listed; duplicates are never an error of their own. *)
Theorem ingest_errors now dev f bufs :
  0 < max_bytes cfg → buffers_ok bufs → frame_ok f →
  let old := aget (dev, cf_request_id f) bufs in
  let held := match old with Some b => bf_chunks b | None => ∅ end in
  let bytes_held := Z.of_nat (length (content held (cf_total f))) in
  let open := match old with Some b => bf_total b = cf_total f | None => cf_total f ≤ max_count cfg end in
  match (ingest cfg now dev f bufs).2 with
  | Err (chunks_exceeded n m) => old = None ∧ n = cf_total f ∧ m = max_count cfg ∧ m < n
  | Err (total_changed saw has) => ∃ b, old = Some b ∧ saw = bf_total b ∧ has = cf_total f ∧ saw ≠ has
  | Err (bytes_exceeded p m) =>
      open ∧ held !! cf_seq f = None ∧ m = max_bytes cfg ∧ p = bytes_held + Z.of_nat (length (cf_payload f)) ∧ m < p
  | Err (chunks_missing l) =>
      open ∧ held !! cf_seq f = None ∧ cf_is_final f = true ∧ l ≠ [] ∧
      ∀ i, i ∈ l ↔ 0 ≤ i < cf_total f ∧ held !! i = None ∧ i ≠ cf_seq f
  | Err missing_chunk => False
  | Ok _ => open ∧ (is_Some (held !! cf_seq f) ∨ bytes_held + Z.of_nat (length (cf_payload f)) ≤ max_bytes cfg)
  end.
Proof.
  intros Hmb Hok Hf. cbv zeta. unfold ingest.
  destruct (open_buffer cfg now dev f bufs) as [b0|e] eqn:Ho; [|apply open_buffer_error in Ho; by destruct e].
  pose proof (open_buffer_ok _ _ _ _ _ Hmb Hok Hf Ho) as [Hb0 Ht0].
  destruct (open_buffer_held _ _ _ _ _ Ho) as [Hheld Hopen].
  set (held := match aget _ _ with Some b => bf_chunks b | None => ∅ end) in *.
  assert (Hbytes : bf_total_bytes b0 = Z.of_nat (length (content held (cf_total f))))
    by (destruct Hb0; congruence).
  cbn [touch bf_chunks bf_total_bytes]. rewrite Hheld, <-Hbytes. apply (touch_ok _ now) in Hb0.
  destruct (held !! cf_seq f) as [c|] eqn:Hc; cbv zeta.
  - apply (set_final_ok _ (cf_is_final f)) in Hb0. destruct (_ && _) eqn:E; [|by split; [|left]].
    apply andb_true_iff in E as [_ E]. rewrite (finalise_ok _ _ _ Hb0 E). by split; [|left].
  - destruct (Z.ltb_spec (max_bytes cfg) (bf_total_bytes b0 + Z.of_nat (length (cf_payload f)))); [done|].
    assert (Hb1 : buffer_ok (dev, cf_request_id f) (set_final (cf_is_final f) (add_chunk (cf_seq f) (cf_payload f)
        (bf_total_bytes b0 + Z.of_nat (length (cf_payload f))) (touch now b0)))).
    { apply set_final_ok. apply (add_chunk_ok _ _ _ (touch now b0)); [done|cbn; by rewrite Hheld| |done].
      unfold frame_ok in Hf. cbn. lia. }
    destruct (bf_saw_final _); [|split; [done|by right]].
    destruct (has_all _) eqn:E; [rewrite (finalise_ok _ _ _ Hb1 E); split; [done|by right]|].
    destruct (cf_is_final f) eqn:Hfin; [|split; [done|by right]].
    split_and!; [done..| |].
    + intros Hnil. apply not_true_iff_false in E. apply E, (full_has_all _ _ Hb1).
      intros i Hi. apply not_eq_None_Some. intros Hnone.
      assert (i ∈ missing_seqs (set_final true (add_chunk (cf_seq f) (cf_payload f)
        (bf_total_bytes b0 + Z.of_nat (length (cf_payload f))) (touch now b0)))) as Hin
        by (apply list_elem_of_filter; split; [done|]; apply elem_of_seqZ; lia).
      rewrite Hnil in Hin. by apply not_elem_of_nil in Hin.
    + intros i. unfold missing_seqs. rewrite list_elem_of_filter, elem_of_seqZ. cbn. rewrite Hheld, Ht0.
      destruct (decide (i = cf_seq f)) as [->|]; [rewrite lookup_insert_eq; naive_solver|].
      rewrite lookup_insert_ne by done. naive_solver lia.
Qed.

(** ** One transfer among others *)

(** The clock, the device and the frame of an arrival. *)
Record Arrival := mkArrival { ar_now : Z; ar_device : string; ar_frame : ChunkFrame }.

Definition arrive (bufs : buffers) (a : Arrival) : buffers :=
  (ingest cfg (ar_now a) (ar_device a) (ar_frame a) bufs).1.
Definition arrival_key (a : Arrival) : transfer_key := (ar_device a, cf_request_id (ar_frame a)).

Section transfer.
(** A bundle cut in [n] parts. *)
Context (n : Z) (part : Z → bytes) (key : transfer_key).
Definition whole : bytes := concat (part <$> seqZ 0 n).

Hypothesis max_bytes_pos : 0 < max_bytes cfg.
Hypothesis n_fits : 1 ≤ n ≤ max_count cfg.
Hypothesis whole_fits : Z.of_nat (length whole) ≤ max_bytes cfg.

(** A frame of the transfer: any part of it. *)
Definition part_of (f : ChunkFrame) : Prop :=
  0 ≤ cf_seq f < n ∧ cf_total f = n ∧ cf_payload f = part (cf_seq f).

(** The buffer of the transfer once the parts in [seen] have come. *)
Definition receiving (seen : gset Z) (bufs : buffers) : Prop :=
  buffers_ok bufs ∧
  match aget key bufs with
  | None => seen = ∅
  | Some b => bf_total b = n ∧ bf_saw_final b = false ∧
      ∀ i, bf_chunks b !! i = (if decide (i ∈ seen) then Some (part i) else None)
  end.

Lemma content_le chunks :
  (∀ i c, chunks !! i = Some c → c = part i) → (length (content chunks n) ≤ length whole)%nat.
Proof.
  intros Hc. unfold content, whole. rewrite !length_concat_fmap.
  induction (seqZ 0 n) as [|i l IH]; [done|]. simpl.
  destruct (chunks !! i) as [c|] eqn:E; simpl; [rewrite (Hc _ _ E)|]; lia.
Qed.

Lemma content_whole chunks : (∀ i, 0 ≤ i < n → chunks !! i = Some (part i)) → content chunks n = whole.
Proof.
  intros Hc. unfold content, whole. f_equal. apply list_fmap_ext. intros j i Hi%list_elem_of_lookup_2%elem_of_seqZ.
  rewrite Hc by lia. done.
Qed.

(** The buffer a frame of the transfer opens: with [seen], and then its part. *)
Lemma receiving_open seen now f bufs :
  receiving seen bufs → part_of f → key = (key.1, cf_request_id f) →
  ∃ b, open_buffer cfg now key.1 f bufs = Ok b ∧ bf_total b = n ∧ bf_saw_final b = false ∧
    ∀ i, bf_chunks b !! i = (if decide (i ∈ seen) then Some (part i) else None).
Proof.
  intros [Hok Hr] (Hs & Ht & _) Hk. unfold open_buffer. rewrite <-Hk. destruct (aget key bufs) as [b|].
  - destruct Hr as (Hn & Hfin & Hc). exists b. by rewrite Ht, Hn, Z.eqb_refl.
  - subst seen. rewrite Ht, (proj2 (Z.ltb_ge _ _)) by lia. eexists. split_and!; [done..|]. cbn. intros i.
    by rewrite decide_False by apply not_elem_of_empty.
Qed.

(** What an arriving part does, in one formula: the part joins those seen; a
    final frame that completes them gives the bundle. *)
Lemma receive_part seen now f bufs :
  receiving seen bufs → part_of f → key = (key.1, cf_request_id f) →
  if cf_is_final f then
    (∀ i, 0 ≤ i < n → i ∈ seen ∨ i = cf_seq f) →
    (ingest cfg now key.1 f bufs).2 = Ok (Some (mkBundle key.1 key.2 whole)) ∧
    aget key (ingest cfg now key.1 f bufs).1 = None
  else receiving ({[cf_seq f]} ∪ seen) (ingest cfg now key.1 f bufs).1 ∧ (ingest cfg now key.1 f bufs).2 = Ok None.
Proof.
  intros Hrec Hf Hk. destruct (receiving_open seen now f bufs Hrec Hf Hk) as (b0 & Ho & Hn & Hfin & Hc).
  destruct Hf as (Hs & Ht & Hp), Hrec as [Hok _].
  assert (Hfo : frame_ok f) by (unfold frame_ok; lia).
  destruct (open_buffer_ok _ _ _ _ _ max_bytes_pos Hok Hfo Ho) as [Hb0 _]. apply (touch_ok _ now) in Hb0.
  unfold ingest. rewrite Ho, <-Hk in *. cbn [touch bf_chunks bf_total_bytes]. rewrite Hc.
  (* The buffer after the frame, whether the part is new or not. *)
  assert (Hafter : ∀ b, buffer_ok key b → bf_total b = n → bf_saw_final b = cf_is_final f →
    (∀ i, bf_chunks b !! i = (if decide (i ∈ ({[cf_seq f]} ∪ seen : gset Z)) then Some (part i) else None)) →
    if cf_is_final f then (∀ i, 0 ≤ i < n → i ∈ seen ∨ i = cf_seq f) →
      has_all b = true ∧ (_finalise key b (aset key b bufs)).2 = Ok (Some (mkBundle key.1 key.2 whole)) ∧
      aget key (_finalise key b (aset key b bufs)).1 = None
    else receiving ({[cf_seq f]} ∪ seen) (aset key b bufs)).
  { intros b Hb Hbn Hbf Hbc. destruct (cf_is_final f).
    - intros Hall. assert (Hfull : ∀ i, 0 ≤ i < n → bf_chunks b !! i = Some (part i)).
      { intros i Hi. rewrite Hbc, decide_True; [done|]. destruct (Hall i Hi); set_solver. }
      assert (has_all b = true) as Hha.
      { apply (full_has_all _ _ Hb). rewrite Hbn. intros i Hi. rewrite Hfull by done. done. }
      split; [done|]. rewrite (finalise_ok _ _ _ Hb Hha), Hbn, content_whole by done. cbn.
      destruct Hb as [-> _ _ _ _]. split; [done|].
      rewrite aget_adel by (apply aset_NoDup; by destruct Hok). by rewrite decide_True.
    - split; [by apply buffers_ok_aset|]. rewrite aget_aset, decide_True by done. done. }
  destruct (decide (cf_seq f ∈ seen)) as [Hin|Hnin]; cbv zeta.
  - set (b := set_final (cf_is_final f) (touch now b0)).
    pose proof (Hafter b (set_final_ok _ _ _ Hb0) Hn) as HR. specialize (HR ltac:(cbn; by rewrite Hfin, orb_false_r)).
    specialize (HR ltac:(intros i; cbn; rewrite Hc; apply decide_ext; set_solver)).
    assert (Hbf : bf_saw_final b = cf_is_final f) by (cbn; by rewrite Hfin, orb_false_r).
    rewrite Hbf. destruct (cf_is_final f); cbn [andb]; [|by split].
    intros Hall. destruct (HR Hall) as (-> & HR'). exact HR'.
  - assert (Hbytes : bf_total_bytes b0 + Z.of_nat (length (cf_payload f)) ≤ max_bytes cfg).
    { pose proof (ok_bytes _ _ Hb0) as Hb. cbn in Hb. rewrite Hb, Hp, Hn.
      rewrite <-Nat2Z.inj_add, <-(content_insert _ _ (cf_seq f)) by (try rewrite Hc, decide_False by done; (done || lia)).
      etrans; [|exact whole_fits]. apply Nat2Z.inj_le, content_le. intros i c.
      destruct (decide (i = cf_seq f)) as [->|]; [rewrite lookup_insert_eq; congruence|].
      rewrite lookup_insert_ne, Hc by done. case_decide; congruence. }
    rewrite (proj2 (Z.ltb_ge _ _)) by done.
    set (b := set_final _ _).
    assert (Hb : buffer_ok key b).
    { apply set_final_ok, (add_chunk_ok _ _ _ (touch now b0)); [done|cbn; by rewrite Hc, decide_False|cbn; lia|done]. }
    assert (Hbf : bf_saw_final b = cf_is_final f) by (cbn; by rewrite Hfin, orb_false_r).
    pose proof (Hafter b Hb Hn Hbf) as HR.
    assert (Hbc : ∀ i, bf_chunks b !! i = (if decide (i ∈ ({[cf_seq f]} ∪ seen : gset Z)) then Some (part i) else None)).
    { intros i. cbn. destruct (decide (i = cf_seq f)) as [->|].
      - rewrite lookup_insert_eq, decide_True, Hp by set_solver. done.
      - rewrite lookup_insert_ne, Hc by done. apply decide_ext. set_solver. }
    specialize (HR Hbc). rewrite Hbf. destruct (cf_is_final f); [|by split].
    intros Hall. destruct (HR Hall) as (-> & HR'). exact HR'.
Qed.

Lemma arrive_other seen a bufs :
  receiving seen bufs → frame_ok (ar_frame a) → arrival_key a ≠ key → receiving seen (arrive bufs a).
Proof.
  intros [Hok Hr] Hf Hk.
  destruct (ingest_safe (ar_now a) (ar_device a) (ar_frame a) bufs max_bytes_pos Hok Hf) as (Hok' & Hother & _).
  split; [done|]. unfold arrive. by rewrite Hother.
Qed.

(** The sequence numbers of the arrivals of the transfer. *)
Definition seqs_of (arrivals : list Arrival) : list Z :=
  (cf_seq ∘ ar_frame) <$> filter (λ a, arrival_key a = key) arrivals.

Definition arrivals_ok (arrivals : list Arrival) : Prop :=
  ∀ a, a ∈ arrivals → frame_ok (ar_frame a) ∧
    (arrival_key a = key → part_of (ar_frame a) ∧ cf_is_final (ar_frame a) = false).

Lemma receive_arrivals seen arrivals bufs :
  receiving seen bufs → arrivals_ok arrivals →
  receiving (list_to_set (seqs_of arrivals) ∪ seen) (fold_left arrive arrivals bufs).
Proof.
  revert seen bufs. induction arrivals as [|a arrivals IH]; intros seen bufs Hrec Hok.
  { cbn. by rewrite union_empty_l_L. }
  destruct (Hok a) as [Hf Hmine]; [left|].
  assert (Hok' : arrivals_ok arrivals) by (intros x Hx; apply Hok; by right).
  cbn [fold_left]. unfold seqs_of. rewrite filter_cons. destruct (decide (arrival_key a = key)) as [Hk|Hk].
  - destruct (Hmine Hk) as [Hp Hnf]. rewrite fmap_cons. cbn [list_to_set].
    replace ({[_]} ∪ _ ∪ seen) with (list_to_set (seqs_of arrivals) ∪ ({[cf_seq (ar_frame a)]} ∪ seen) : gset Z) by set_solver.
    apply IH; [|done]. pose proof (receive_part seen (ar_now a) (ar_frame a) bufs Hrec Hp) as Hr.
    rewrite Hnf in Hr. unfold arrive. rewrite <-Hk in Hr at 1 3. apply Hr. by rewrite <-Hk.
  - apply IH; [by apply arrive_other|done].
Qed.

(** A transfer is assembled whatever the network does to the order of its
    parts: from a state without its buffer, after any arrivals in which the
    parts of a bundle came unflagged, in any order, with any repeats, mixed
    with any frames of other transfers, the final frame that completes the
    parts yields the bundle, its parts in order, and frees the buffer. *)
Theorem assemble_transfer arrivals last bufs :
  buffers_ok bufs → aget key bufs = None → arrivals_ok arrivals →
  arrival_key last = key → part_of (ar_frame last) → cf_is_final (ar_frame last) = true →
  (∀ i, 0 ≤ i < n → i ∈ seqs_of arrivals ∨ i = cf_seq (ar_frame last)) →
  let after := ingest cfg (ar_now last) (ar_device last) (ar_frame last) (fold_left arrive arrivals bufs) in
  after.2 = Ok (Some (mkBundle key.1 key.2 whole)) ∧ aget key after.1 = None.
Proof.
  intros Hok Hnone Harr Hk Hp Hfin Hall. cbv zeta.
  assert (Hrec : receiving ∅ bufs) by (split; [done|by rewrite Hnone]).
  pose proof (receive_arrivals ∅ arrivals bufs Hrec Harr) as Hr.
  pose proof (receive_part _ (ar_now last) (ar_frame last) _ Hr Hp) as Hend. rewrite Hfin in Hend.
  assert (ar_device last = key.1) as -> by (by rewrite <-Hk).
  apply Hend; [by rewrite <-Hk|]. intros i Hi. destruct (Hall i Hi) as [?|?]; [left|by right]. set_solver.
Qed.
End transfer.

(** ** The reaper of stalled transfers *)

(** The reaper of the assembler removes exactly the transfers whose last
    frame is older than the TTL, reports each of them once, and leaves the
    others, with their invariant, untouched. *)
Theorem reap_expired_exact now bufs :
  buffers_ok bufs →
  let after := reap_expired cfg now bufs in
  buffers_ok after.1 ∧
  (∀ key, aget key after.1 =
     (b ← aget key bufs; if now - ttl_sec cfg * 1000000 <? bf_last_updated_at b then Some b else None)) ∧
  (∀ dev rid, (∃ x, x ∈ after.2 ∧ rt_device_id x = dev ∧ rt_request_id x = rid) ↔
     ∃ b, aget (dev, rid) bufs = Some b ∧ bf_last_updated_at b ≤ now - ttl_sec cfg * 1000000) ∧
  NoDup ((λ x, (rt_device_id x, rt_request_id x)) <$> after.2) ∧
  (length after.1 + length after.2 = length bufs)%nat.
Proof.
  intros [Hnd Hok]. cbn zeta. unfold reap_expired. cbn [fst snd].
  assert (Hget : ∀ key, aget key (filter (λ kb, stalled cfg now kb.2 = false) bufs) =
    (b ← aget key bufs; if now - ttl_sec cfg * 1000000 <? bf_last_updated_at b then Some b else None)).
  { intros key. rewrite aget_filter by done. destruct (aget key bufs) as [b|]; [|done]. cbn. unfold stalled.
    destruct (Z.leb_spec (bf_last_updated_at b) (now - ttl_sec cfg * 1000000)),
      (Z.ltb_spec (now - ttl_sec cfg * 1000000) (bf_last_updated_at b)); try lia; by case_decide. }
  assert (Hkey : ∀ kb, kb ∈ bufs → kb.1 = (bf_device_id kb.2, bf_request_id kb.2)).
  { intros [k b] Hkb. apply aget_elem_of in Hkb; [|done]. by destruct (Hok _ _ Hkb). }
  split_and!.
  - split; [by apply filter_keys_NoDup|]. intros key b. rewrite Hget. destruct (aget key bufs) as [b'|] eqn:E; [|done].
    cbn. destruct (_ <? _); [|done]. intros [= <-]. by apply Hok.
  - exact Hget.
  - intros dev rid. split.
    + intros (x & (kb & -> & [Hst Hkb]%list_elem_of_filter)%list_elem_of_fmap & <- & <-). exists kb.2. cbn.
      rewrite <-(Hkey kb) by done. split; [apply aget_elem_of; [done|by destruct kb]|by apply Z.leb_le].
    + intros (b & Hb & Hle). exists (mkReaped (bf_device_id b) (bf_request_id b) (reap_reason cfg b)).
      pose proof (ok_key _ _ (Hok _ _ Hb)) as [= -> ->]. split; [|done]. apply list_elem_of_fmap.
      exists (bf_device_id b, bf_request_id b, b). split; [done|]. apply list_elem_of_filter.
      split; [by apply Z.leb_le|by apply aget_elem_of].
  - rewrite <-list_fmap_compose.
    replace (_ <$> filter _ bufs) with ((filter (λ kb : transfer_key * _Buffer, stalled cfg now kb.2 = true) bufs).*1);
      [by apply filter_keys_NoDup|].
    apply list_fmap_ext. intros j kb [_ Hkb]%list_elem_of_lookup_2%list_elem_of_filter. by apply Hkey.
  - rewrite length_fmap. clear. induction bufs as [|kb bufs IH]; [done|]. rewrite !filter_cons.
    destruct (stalled cfg now kb.2); repeat case_decide; try done; cbn; lia.
Qed.
End invariant.

(** ** Witnesses *)

Definition small_assembler : AssemblerConfig := mkAssembler 2 3 300.
Definition part_frame (s : Z) (fin : bool) : ChunkFrame := mkChunkFrame "r" s 2 fin [Z_byte s].

Lemma no_buffers_ok cfg : buffers_ok cfg [].
Proof. split; [apply NoDup_nil_2|done]. Defined.

Lemma ingest_safe_witness :
  ingest_post small_assembler "A" (part_frame 1 false) []
    (ingest small_assembler 5 "A" (part_frame 1 false) []).1 (ingest small_assembler 5 "A" (part_frame 1 false) []).2.
Proof.
  apply ingest_safe; [reflexivity|apply no_buffers_ok|]. split; [discriminate|reflexivity].
Defined.

(** A final frame that comes first finds part 0 missing. *)
Lemma ingest_errors_witness :
  (ingest small_assembler 5 "A" (part_frame 1 true) []).2 = Err (chunks_missing [0]) ∧
  ∀ i, i ∈ [0] ↔ 0 ≤ i < 2 ∧ (∅ : gmap Z bytes) !! i = None ∧ i ≠ 1.
Proof.
  split; [reflexivity|].
  apply (ingest_errors small_assembler 5 "A" (part_frame 1 true) []);
    [reflexivity|apply no_buffers_ok|]. split; [discriminate|reflexivity].
Defined.

(** Part 1 twice, then part 0 as the final frame; another device in between. *)
Definition mixed_arrivals : list Arrival :=
  [mkArrival 1 "A" (part_frame 1 false); mkArrival 2 "B" (part_frame 0 false); mkArrival 3 "A" (part_frame 1 false)].

Lemma assemble_transfer_witness :
  (ingest small_assembler 4 "A" (part_frame 0 true) (fold_left (arrive small_assembler) mixed_arrivals [])).2 =
  Ok (Some (mkBundle "A" "r" [Byte.x00; Byte.x01])).
Proof.
  assert (Hn : 1 ≤ 2 ≤ max_count small_assembler) by (split; discriminate).
  assert (Hw : Z.of_nat (length (whole 2 (λ s, [Z_byte s]))) ≤ max_bytes small_assembler) by (vm_compute; discriminate).
  change (Ok (Some (mkBundle "A" "r" [Byte.x00; Byte.x01])))
    with (Ok (E := ingest_error) (Some (mkBundle ("A", "r").1 ("A", "r").2 (whole 2 (λ s, [Z_byte s]))))).
  refine (proj1 (assemble_transfer small_assembler 2 (λ s, [Z_byte s]) ("A", "r") eq_refl Hn Hw
    mixed_arrivals (mkArrival 4 "A" (part_frame 0 true)) [] (no_buffers_ok _) eq_refl _ eq_refl _ eq_refl _)).
  - intros a Ha. unfold mixed_arrivals in Ha. rewrite !elem_of_cons, elem_of_nil in Ha.
    destruct Ha as [->|[->|[->|[]]]]; (split; [split; [discriminate|reflexivity]|]); vm_compute; intuition congruence.
  - repeat split; discriminate || reflexivity.
  - intros i Hi. simpl. destruct (decide (i = 0)) as [->|]; [by right|left].
    replace i with 1 by lia. vm_compute. left.
Defined.

(** Only the first of two buffers is older than the TTL. *)
Lemma reap_expired_exact_witness :
  (length (reap_expired small_assembler 400000000 (fold_left (arrive small_assembler)
     [mkArrival 1 "A" (part_frame 1 false); mkArrival 350000000 "B" (part_frame 1 false)] [])).1 +
   length (reap_expired small_assembler 400000000 (fold_left (arrive small_assembler)
     [mkArrival 1 "A" (part_frame 1 false); mkArrival 350000000 "B" (part_frame 1 false)] [])).2 = 2)%nat.
Proof.
  apply (reap_expired_exact small_assembler 400000000 (fold_left (arrive small_assembler)
     [mkArrival 1 "A" (part_frame 1 false); mkArrival 350000000 "B" (part_frame 1 false)] [])).
  simpl. do 2 (apply (ingest_safe small_assembler); [reflexivity| |split; [discriminate|reflexivity]]).
  apply no_buffers_ok.
Defined.
