(* ===== verification/LogFlow.v ===== *)
(** * The log pipeline (cms/routers/log_requests.py, the LOGS_RESPONSE branch of
      cms/services/device_inbound.py, [handle_frame] and the reaper loop of
      log_chunk_assembler.py)

    The operations that bring a request from the operator to a bundle: each is
    a function on the shared state, and the system interleaves them. *)

From S2P Require Import Prelude Clock Models Database LogBlobs LogRequests LogFrames LogChunks.
Open Scope Z_scope.

(** ** The shared state *)

(** The outbox table, the bundles, and the buffers of the assembler. *)
Record World := mkWorld { w_table : log_table; w_blobs : blobs; w_bufs : buffers }.

Definition set_table (t : log_table) (w : World) : World := mkWorld t (w_blobs w) (w_bufs w).

(** A commit that succeeds keeps the change, one that fails loses it. *)
Definition committed (ok : bool) (f : log_table → log_table * bool) (t : log_table) : log_table :=
  if ok then (f t).1 else t.

(** ** Creating a request *)

(** [create_log_request] up to its first commit.  [access]: the outcome of
    [_verify_device_access]; [id]: the fresh UUID. *)
Definition create_log_request_begin (access : result exn unit) (device_known : string → bool)
    (id device_id : string) (services : option (list string)) (since : string) (clk : Z) (w : World)
    : World * result exn string :=
  match access with
  | Err e => (w, Err e)
  | Ok _ =>
      match create device_known id device_id services since (Some DEFAULT_RETENTION_US) clk (w_table w) with
      | Err e => (w, Err e)
      | Ok (t, row) => (set_table t w, Ok (lg_id row))
      end
  end.

(** The rest, after the dispatch: [err] is the text of its failure. *)
Definition create_log_request_end (dispatch_err : option string) (clk : Z) (id : string) (w : World)
    : World * LogStatus :=
  match dispatch_err with
  | None => (set_table (mark_sent 1 clk id (w_table w)).1 w, STATUS_SENT)
  | Some e =>
      (set_table (record_attempt_error (truthy (Some e) or_else "dispatch failed") clk id (w_table w)).1 w,
       STATUS_PENDING)
  end.

(** ** Reading a request *)

Definition _load_outbox_row_with_access (access : string → result exn unit) (request_id : string) (w : World)
    : result exn LogRequest :=
  match get (w_table w) request_id with
  | None => Err (HTTPException 404)
  | Some row => _ ← access (lg_device_id row); Ok row
  end.

(** [_serialise]: the download link. *)
Definition download_url (row : LogRequest) : option string :=
  if has_status STATUS_READY row && bool_decide (is_Some (truthy (lg_blob_path row)))
  then Some ("/api/logs/requests/" +:+ lg_id row +:+ "/download") else None.

Definition set_expires (clk : Z) (r : LogRequest) : LogRequest :=
  mkLogRequest (lg_id r) (lg_device_id r) (lg_services r) (lg_since r) (lg_status r) (lg_attempts r)
    (lg_last_error r) (lg_sent_at r) (lg_ready_at r) (lg_blob_path r) (lg_size_bytes r) (Some clk)
    (lg_created_at r) (lg_updated_at r).

Definition download_log_request (bk : Backend) (access : string → result exn unit) (clk : Z) (request_id : string)
    (w : World) : World * result exn (option bytes) :=
  match _load_outbox_row_with_access access request_id w with
  | Err e => (w, Err e)
  | Ok row =>
      match has_status STATUS_READY row, truthy (lg_blob_path row) with
      | true, Some path =>
          (set_table (update_where request_id (λ _, true) (set_expires clk) (w_table w)).1 w,
           read_log_blob bk path (w_blobs w))
      | _, _ => (w, Err (HTTPException 409))
      end
  end.

(** ** The upload endpoint *)

(** [require_device_auth]: the current key, or the previous one within five
    minutes of the rotation; [key_hash] is the SHA-256 of the header. *)
Record ApiDevice := mkApiDevice {
  ad_id : string; ad_key_hash : option string; ad_previous_hash : option string; ad_rotated_at : option Z
}.

Definition scalar_one_or_none {A} (l : list A) : result exn (option A) :=
  match l with [] => Ok None | [x] => Ok (Some x) | _ => Err RuntimeError end.

Definition require_device_auth (devices : list ApiDevice) (sha256 : string → string) (now : Z)
    (api_key : option string) : result exn ApiDevice :=
  match truthy api_key with
  | None => Err (HTTPException 401)
  | Some key =>
      let key_hash := sha256 key in
      current ← scalar_one_or_none (filter (λ d, ad_key_hash d = Some key_hash) devices);
      match current with
      | Some d => Ok d
      | None =>
          previous ← scalar_one_or_none (filter (λ d, ad_previous_hash d = Some key_hash) devices);
          match previous with
          | Some d =>
              match ad_rotated_at d with
              | Some r => if now - r <? 300000000 then Ok d else Err (HTTPException 401)
              | None => Err (HTTPException 401)
              end
          | None => Err (HTTPException 401)
          end
      end
  end.

Definition MAX_UPLOAD_BYTES : Z := 104857600.

(** [_bounded_body_stream]: [total] bytes have been yielded; [end_error] is how
    the request's own stream ends. *)
Fixpoint _bounded_body_stream (total : Z) (body : list bytes) (end_error : option exn) : DataSource :=
  match body with
  | [] => mkSource [] end_error
  | chunk :: body =>
      if bool_decide (chunk = []) then _bounded_body_stream total body end_error
      else
        let total := total + Z.of_nat (length chunk) in
        if MAX_UPLOAD_BYTES <? total then mkSource [] (Some (HTTPException 413))
        else let s := _bounded_body_stream total body end_error in mkSource (chunk :: src_chunks s) (src_error s)
  end.

(** [upload_log_bundle] up to the write: the guards. *)
Definition upload_check (device_id request_id : string) (w : World) : result exn unit :=
  match get (w_table w) request_id with
  | None => Err (HTTPException 404)
  | Some row =>
      if negb (bool_decide (lg_device_id row = device_id)) then Err (HTTPException 404)
      else if log_terminal (lg_status row) then Err (HTTPException 409)
      else if negb (has_status STATUS_PENDING row || has_status STATUS_SENT row) then Err (HTTPException 409)
      else Ok tt
  end.

(** The write and what follows it, in the state they find. *)
Definition upload_store (bk : Backend) (io : string → write_io) (body : list bytes) (end_error : option exn)
    (clk : Z) (commit : bool) (device_id request_id : string) (w : World) : World * result exn Z :=
  let blob_path := bundle_path device_id request_id in
  match write_log_blob bk io blob_path (_bounded_body_stream 0 body end_error) (w_blobs w) with
  | (b, Err (HTTPException s)) => (mkWorld (w_table w) b (w_bufs w), Err (HTTPException s))
  | (b, Err _) => (mkWorld (w_table w) b (w_bufs w), Err (HTTPException 500))
  | (b, Ok size_bytes) =>
      (mkWorld (committed commit (mark_ready blob_path size_bytes clk request_id) (w_table w)) b (w_bufs w),
       if commit then Ok size_bytes else Err RuntimeError)
  end.

Definition upload_log_bundle bk io body end_error clk commit device_id request_id (w : World)
    : World * result exn Z :=
  match upload_check device_id request_id w with
  | Err e => (w, Err e)
  | Ok _ => upload_store bk io body end_error clk commit device_id request_id w
  end.

(** ** The chunked upload *)

(** [handle_frame]; [c1] and [c2]: whether its two commits succeed. *)
Definition handle_frame (bk : Backend) (asm : AssemblerConfig) (io : string → write_io) (clk : Z) (c1 c2 : bool)
    (device_id : string) (frame_bytes : bytes) (w : World) : World * result exn (option AssembledBundle) :=
  match parse_frame frame_bytes with
  | Err _ => (w, Ok None)
  | Ok frame =>
      match ingest asm clk device_id frame (w_bufs w) with
      | (bufs, Err missing_chunk) => (mkWorld (w_table w) (w_blobs w) bufs, Err KeyError)
      | (bufs, Err e) =>
          (mkWorld (committed c1 (mark_failed (state_error_str e) clk (cf_request_id frame)) (w_table w))
             (w_blobs w) bufs, Ok None)
      | (bufs, Ok None) => (mkWorld (w_table w) (w_blobs w) bufs, Ok None)
      | (bufs, Ok (Some bundle)) =>
          let rid := ab_request_id bundle in
          let blob_path := bundle_path (ab_device_id bundle) rid in
          match write_log_blob bk io blob_path (of_bytes (ab_data bundle)) (w_blobs w) with
          | (b, Ok _) =>
              if c1
              then (mkWorld (mark_ready blob_path (Z.of_nat (length (ab_data bundle))) clk rid (w_table w)).1 b bufs,
                    Ok (Some bundle))
              else (mkWorld (committed c2 (mark_failed "chunk_persist_failed" clk rid) (w_table w)) b bufs, Ok None)
          | (b, Err _) =>
              (mkWorld (committed c2 (mark_failed "chunk_persist_failed" clk rid) (w_table w)) b bufs, Ok None)
          end
      end
  end.

(** One tick of [run_reaper_loop] of the assembler; the update of a row that
    raises ([db_ok] false) is logged and skipped. *)
Definition chunk_reaper_tick (asm : AssemblerConfig) (clk : Z) (db_ok : string → bool) (w : World) : World :=
  let '(bufs, expired) := reap_expired asm clk (w_bufs w) in
  mkWorld
    (fold_left (λ t item, committed (db_ok (rt_request_id item))
                            (mark_failed (rt_reason item) clk (rt_request_id item)) t) expired (w_table w))
    (w_blobs w) bufs.

(** ** The inline reply (LOGS_RESPONSE) *)

(** The members of the archive: the names made safe and the texts. *)
Definition log_members (logs : list (string * option string)) : list (string * bytes) :=
  (λ sl, (replace_char BACKSLASH "_"%char (replace_char SLASH "_"%char sl.1) +:+ ".log",
          utf8_encode (sl.2 or_else ""))) <$> logs.

(** What the handler finds: whether it goes on. *)
Definition reply_check (request_id : string) (w : World) : bool :=
  bool_decide (request_id ≠ "") &&
  match get (w_table w) request_id with
  | Some row => has_status STATUS_PENDING row || has_status STATUS_SENT row
  | None => false
  end.

(** What it then does: [tar_gz] builds the archive, [exn_text] is the text of an
    exception, [c1] and [c2] the commits. *)
Definition reply_store (bk : Backend) (io : string → write_io) (tar_gz : list (string * bytes) → bytes)
    (exn_text : exn → string) (clk : Z) (c1 c2 : bool) (device_id request_id : string)
    (logs : list (string * option string)) (error : option string) (w : World) : World :=
  let failing e b t := mkWorld (committed c2 (record_error (exn_text e) clk request_id) t) b (w_bufs w) in
  match truthy error with
  | Some e =>
      if c1 then set_table (mark_failed e clk request_id (w_table w)).1 w
      else failing RuntimeError (w_blobs w) (w_table w)
  | None =>
      let payload := tar_gz (log_members logs) in
      let blob_path := bundle_path device_id request_id in
      match write_log_blob bk io blob_path (of_bytes payload) (w_blobs w) with
      | (b, Ok _) =>
          if c1
          then mkWorld (mark_ready blob_path (Z.of_nat (length payload)) clk request_id (w_table w)).1 b (w_bufs w)
          else failing RuntimeError b (w_table w)
      | (b, Err e) => failing e b (w_table w)
      end
  end.

Definition logs_response bk io tar_gz exn_text clk c1 c2 device_id request_id logs error (w : World) : World :=
  if reply_check request_id w
  then reply_store bk io tar_gz exn_text clk c1 c2 device_id request_id logs error w else w.

(** ** The system *)

(** Any interleaving of the operations, for one process's assembler.  The ids
    the CMS makes or authenticates are plain; the request id inside a chunk
    frame is the device's choice.  The second halves of the handlers are steps
    of their own and may come at any time, so that other steps fall between a
    check and the write it guards. *)
Section system.
Context (bk : Backend) (asm : AssemblerConfig) (dcfg : DrainerConfig).

Inductive flow_step : World → World → Prop :=
  | step_create access known id dev services since clk w :
      plain id = true →
      flow_step w (create_log_request_begin access known id dev services since clk w).1
  | step_dispatched err clk id w :
      flow_step w (create_log_request_end err clk id w).1
  | step_download access clk id w :
      flow_step w (download_log_request bk access clk id w).1
  | step_upload io body end_error clk commit dev id w :
      plain dev = true → plain id = true →
      flow_step w (upload_store bk io body end_error clk commit dev id w).1
  | step_frame io clk c1 c2 dev frame_bytes w :
      plain dev = true →
      flow_step w (handle_frame bk asm io clk c1 c2 dev frame_bytes w).1
  | step_reply io tar_gz exn_text clk c1 c2 dev id logs error w :
      plain dev = true → plain id = true →
      flow_step w (reply_store bk io tar_gz exn_text clk c1 c2 dev id logs error w)
  | step_drain clk dispatch now locked w :
      flow_step w (set_table (drain_once dcfg clk dispatch now locked (w_table w)).1 w)
  | step_reap clk delete_io now batch locked w :
      flow_step w (let st := reap_once clk bk delete_io now batch locked (w_table w) (w_blobs w) in
                   mkWorld (rp_table st) (rp_blobs st) (w_bufs w))
  | step_chunk_reap clk db_ok w :
      flow_step w (chunk_reaper_tick asm clk db_ok w)
  | step_device_deleted dev w :
      flow_step w (set_table (filter (λ ir, lg_device_id ir.2 ≠ dev) (w_table w)) w).

(** ** Its invariant *)

(** A row as the pipeline keeps it, next to the blobs: it has a path iff it is
    ready, and then the path is that of its own bundle, which is there. *)
Record row_ok (b : blobs) (r : LogRequest) : Prop := mkRowOk {
  ok_id : plain (lg_id r) = true;
  ok_attempts : 0 ≤ lg_attempts r;
  ok_sent : lg_status r = STATUS_SENT → is_Some (lg_sent_at r);
  ok_path : lg_status r ≠ STATUS_READY → lg_blob_path r = None;
  ok_ready : lg_status r = STATUS_READY →
    ∃ dev, plain dev = true ∧ lg_blob_path r = Some (bundle_path dev (lg_id r)) ∧
      is_Some (b !! bundle_path dev (lg_id r)) ∧ is_Some (lg_size_bytes r) ∧ is_Some (lg_ready_at r)
}.

Definition rows_ok (b : blobs) (t : log_table) : Prop :=
  keyed t ∧ ∀ i r, t !! i = Some r → row_ok b r.

Definition flow_ok (w : World) : Prop := rows_ok (w_blobs w) (w_table w) ∧ buffers_ok asm (w_bufs w).





Lemma pending_or_sent r :
  has_status STATUS_PENDING r || has_status STATUS_SENT r = true → lg_status r ≠ STATUS_READY.
Proof. unfold has_status. intros [->%bool_decide_eq_true | ->%bool_decide_eq_true]%orb_true_iff; done. Qed.









Lemma write_stores io path src b b' n :
  write_log_blob bk io path src b = (b', Ok n) →
  ∃ k, blob_key bk path = Ok k ∧ b' = <[k := concat (src_chunks src)]> b ∧
    n = Z.of_nat (length (concat (src_chunks src))) ∧ src_error src = None ∧ io k = WRITE_OK.
Proof.
  unfold write_log_blob. destruct (blob_key bk path) as [k|]; [|done].
  destruct bk, (src_error src) eqn:Hs, (io k) as [|rest ?] eqn:Hio; intros [= <- <-]; by exists k.
Qed.




(** *** One lemma per step *)

Lemma create_ok access known id dev services since clk w :
  plain id = true → flow_ok w → flow_ok (create_log_request_begin access known id dev services since clk w).1.
Proof.
  intros Hid [[Hk Hr] Hb]. unfold create_log_request_begin. destruct access; [|done].
  unfold create. destruct (_ || _); [done|]. cbn. split; [|done]. split; intros i r; cbn; rewrite lookup_insert_Some.
  - intros [[<- <-]|[_ Hi]]; [done|by apply Hk].
  - intros [[<- <-]|[_ Hi]]; [by split|by eapply Hr].
Qed.





Hypothesis asm_max_bytes : 0 < max_bytes asm.










(** *** The status machine *)

(** The transitions the pipeline documents: the retry of a stuck request, the
    direct ready of a reply that beats the drainer, expiry from anywhere. *)
Inductive status_edge : LogStatus → LogStatus → Prop :=
  | edge_sent : status_edge STATUS_PENDING STATUS_SENT
  | edge_rescue : status_edge STATUS_SENT STATUS_PENDING
  | edge_ready s : log_terminal s = false → status_edge s STATUS_READY
  | edge_failed s : log_terminal s = false → status_edge s STATUS_FAILED
  | edge_expired s : s ≠ STATUS_EXPIRED → status_edge s STATUS_EXPIRED.

Record row_step (r r' : LogRequest) : Prop := mkRowStep {
  rs_same : lg_id r' = lg_id r ∧ lg_device_id r' = lg_device_id r ∧ lg_services r' = lg_services r ∧
            lg_since r' = lg_since r ∧ lg_created_at r' = lg_created_at r;
  rs_status : lg_status r' = lg_status r ∨ status_edge (lg_status r) (lg_status r');
  rs_terminal : log_terminal (lg_status r) = true →
    r' = r ∨ ∃ clk, r' = set_expires clk r ∨ r' = to_tombstone clk r
}.

Definition table_step (t t' : log_table) : Prop :=
  ∀ i r, t !! i = Some r → ∃ r', t' !! i = Some r' ∧ row_step r r'.

Lemma row_step_refl r : row_step r r.
Proof. split; [done|by left|by left]. Qed.

Lemma table_step_refl t : table_step t t.
Proof. intros i r Hi. exists r. split; [done|apply row_step_refl]. Qed.

Lemma table_step_update t id guard f :
  (∀ r, guard r = true → row_step r (f r)) → table_step t (update_where id guard f t).1.
Proof.
  intros Hf i r Hi. rewrite update_where_lookup. case_bool_decide; [|by exists r; split; [|apply row_step_refl]].
  rewrite Hi. simpl. eexists. split; [done|]. destruct (guard r) eqn:G; [by apply Hf|apply row_step_refl].
Qed.

Lemma table_step_fmap t f : (∀ i r, t !! i = Some r → row_step r (f r)) → table_step t (f <$> t).
Proof. intros Hf i r Hi. exists (f r). rewrite lookup_fmap, Hi. split; [done|by eapply Hf]. Qed.

(** A row in flight may change in any way that keeps its identity and follows
    an edge. *)
Lemma in_flight_step r r' :
  log_terminal (lg_status r) = false →
  (lg_id r' = lg_id r ∧ lg_device_id r' = lg_device_id r ∧ lg_services r' = lg_services r ∧
   lg_since r' = lg_since r ∧ lg_created_at r' = lg_created_at r) →
  lg_status r' = lg_status r ∨ status_edge (lg_status r) (lg_status r') → row_step r r'.
Proof. intros Ht Hs He. split; [done|done|]. by rewrite Ht. Qed.

Lemma pending_sent_not_terminal r :
  has_status STATUS_PENDING r || has_status STATUS_SENT r = true → log_terminal (lg_status r) = false.
Proof. unfold has_status. intros [->%bool_decide_eq_true | ->%bool_decide_eq_true]%orb_true_iff; done. Qed.

Lemma mark_ready_step path size clk id t : table_step t (mark_ready path size clk id t).1.
Proof.
  apply table_step_update. intros r Hg%pending_sent_not_terminal. apply in_flight_step; [done..|].
  right. by apply edge_ready.
Qed.

Lemma mark_failed_step e clk id t : table_step t (mark_failed e clk id t).1.
Proof.
  apply table_step_update. intros r Hg%negb_true_iff. apply in_flight_step; [done..|]. right. by apply edge_failed.
Qed.

Lemma record_error_step e clk id t : table_step t (record_error e clk id t).1.
Proof. apply table_step_update. intros r Hg%negb_true_iff. apply in_flight_step; [done..|by left]. Qed.

Lemma committed_step (c : bool) f t : table_step t (f t).1 → table_step t (committed c f t).
Proof. destruct c; [done|]. intros _. apply table_step_refl. Qed.

Lemma drained_step clk dispatch now locked t r :
  keyed t → row_step r (drained dcfg clk dispatch now locked t r).
Proof.
  intros Hk. unfold drained. case_bool_decide as Hin; [|clear Hin; case_bool_decide as Hin; [|apply row_step_refl]].
  - apply elem_of_due_stuck in Hin as [_ Hst]; [|done]. unfold rescued.
    destruct (_ <=? _); (apply in_flight_step; [by rewrite Hst|done|right; cbn; rewrite Hst; by constructor]).
  - apply elem_of_due_pending in Hin as (_ & Hst & _); [|done]. unfold settled.
    destruct (dispatch r); [destruct (_ <=? _)|]; (apply in_flight_step; [by rewrite Hst|done|]); cbn; rewrite Hst;
      first [by left|right; by constructor].
Qed.

Lemma reaped_step clk delete_io now batch locked t r :
  keyed t → row_step r (reaped clk bk delete_io now batch locked t r).
Proof.
  intros Hk. unfold reaped. destruct (_ && _) eqn:E; [|apply row_step_refl].
  apply andb_true_iff in E as [Hin%bool_decide_eq_true _]. apply elem_of_select_rows in Hin as (_ & Hp & _); [|done].
  apply andb_true_iff in Hp as [_ Hne%negb_true_iff%bool_decide_eq_false].
  split; [done|right; by apply edge_expired|]. intros _. right. eexists. by right.
Qed.

(** The rows of a run of [mark_failed]: as they were, or failed once. *)
Lemma fold_failed_step items clk (db_ok : string → bool) t :
  table_step t (fold_left (λ t item, committed (db_ok (rt_request_id item))
                                       (mark_failed (rt_reason item) clk (rt_request_id item)) t) items t).
Proof.
  assert (Hinv : ∀ i r, t !! i = Some r → ∃ r',
    fold_left (λ t item, committed (db_ok (rt_request_id item))
                 (mark_failed (rt_reason item) clk (rt_request_id item)) t) items t !! i = Some r' ∧
    (r' = r ∨ row_step r r' ∧ lg_status r' = STATUS_FAILED)).
  { intros i r Hi.
    apply (fold_left_inv _ (λ t' : log_table, ∃ r', t' !! i = Some r' ∧ (r' = r ∨ row_step r r' ∧ lg_status r' = STATUS_FAILED)));
      [by exists r; split; [|left]|].
    intros t' x _ (r' & Hi' & Hr'). destruct (db_ok (rt_request_id x)); cbn; [|by exists r'].
    unfold mark_failed. rewrite update_where_lookup. case_bool_decide; [|by exists r'].
    rewrite Hi'. simpl. eexists. split; [done|]. destruct (non_terminal r') eqn:Hn; [|done]. right.
    destruct Hr' as [->|[_ Hf]]; [|unfold non_terminal in Hn; by rewrite Hf in Hn]. split; [|done].
    apply in_flight_step; [by apply negb_true_iff|done|]. right. apply edge_failed. by apply negb_true_iff. }
  intros i r Hi. destruct (Hinv i r Hi) as (r' & Hi' & [->|[Hs _]]); eauto using row_step_refl.
Qed.

(** C5. The documented state machine is all that happens: in one step of the
    system a row keeps its identity and either its status or takes an edge
    (pending to sent, sent back to pending, from either to ready or failed,
    anything to expired); a ready, failed or expired row changes only by a
    download that shortens its life or by the reaper's tombstone, and rows
    vanish only with their device. *)
Theorem flow_transitions w w' id row :
  flow_ok w → flow_step w w' → w_table w !! id = Some row →
  (∃ row', w_table w' !! id = Some row' ∧ row_step row row') ∨ w_table w' !! id = None ∧
  w' = set_table (filter (λ ir, lg_device_id ir.2 ≠ lg_device_id row) (w_table w)) w.
Proof.
  intros [[Hk Hr] Hb] Hs Hi.
  assert (Hgoal : table_step (w_table w) (w_table w') ∨
    ∃ dev, w' = set_table (filter (λ ir, lg_device_id ir.2 ≠ dev) (w_table w)) w).
  { destruct Hs; [left..|right; by eexists].
    - unfold create_log_request_begin, create. destruct access; [|apply table_step_refl].
      case_bool_decide as Hfresh; cbn; [apply table_step_refl|]. destruct (known dev); cbn; [|apply table_step_refl].
      intros i r Hir. exists r. rewrite lookup_insert_ne; [split; [done|apply row_step_refl]|].
      intros <-. apply Hfresh. by rewrite Hir.
    - destruct err; cbn; apply table_step_update; unfold has_status; intros r Hst%bool_decide_eq_true.
      + apply in_flight_step; [by rewrite Hst|done|left; by rewrite Hst].
      + apply in_flight_step; [by rewrite Hst|done|right; rewrite Hst; constructor].
    - unfold download_log_request. destruct (_load_outbox_row_with_access _ _ _) as [x|]; [|apply table_step_refl].
      destruct (has_status STATUS_READY x), (truthy (lg_blob_path x)); try apply table_step_refl. cbn.
      apply table_step_update. intros r _. split; [done|by left|]. intros _. right. eexists. by left.
    - unfold upload_store. destruct (write_log_blob _ _ _ _ _) as [b [n|e]]; cbn.
      + apply committed_step, mark_ready_step.
      + destruct e; apply table_step_refl.
    - unfold handle_frame. destruct (parse_frame _); [|apply table_step_refl].
      destruct (ingest _ _ _ _ _) as [bufs [[bundle|]|e]]; cbn; [|apply table_step_refl|].
      + destruct (write_log_blob _ _ _ _ _) as [b [n|ex]]; cbn; [destruct c1; cbn|];
          first [apply mark_ready_step|apply committed_step, mark_failed_step].
      + destruct e; cbn; first [apply committed_step, mark_failed_step|apply table_step_refl].
    - unfold reply_store. destruct (truthy error).
      + destruct c1; cbn; [apply mark_failed_step|apply committed_step, record_error_step].
      + destruct (write_log_blob _ _ _ _ _) as [b [n|ex]]; [destruct c1|]; cbn;
          first [apply mark_ready_step|apply committed_step, record_error_step].
    - cbn. rewrite drain_once_rows by done. apply table_step_fmap. intros i r _. by apply drained_step.
    - cbn. rewrite reap_once_table by done. apply table_step_fmap. intros i r _. by apply reaped_step.
    - unfold chunk_reaper_tick, reap_expired. cbn [w_table]. apply fold_failed_step. }
  destruct Hgoal as [Hg|[dev ->]]; [left; by apply Hg|]. cbn.
  destruct (decide (lg_device_id row = dev)) as [<-|Hne].
  - right. split; [|done]. apply map_lookup_filter_None. right. intros r Hr' Hne. simplify_eq.
  - left. exists row. split; [apply map_lookup_filter_Some; by split|apply row_step_refl].
Qed.
End system.

(** ** The upload endpoint *)

(** The bounded stream gives the whole body or stops at the cap. *)
Lemma bounded_body_spec total body end_error :
  let s := _bounded_body_stream total body end_error in
  if total + Z.of_nat (length (concat body)) <=? MAX_UPLOAD_BYTES
  then concat (src_chunks s) = concat body ∧ src_error s = end_error
  else 0 <= total <= MAX_UPLOAD_BYTES →
       src_error s = Some (HTTPException 413) ∧ total + Z.of_nat (length (concat (src_chunks s))) ≤ MAX_UPLOAD_BYTES.
Proof.
  cbv zeta. revert total. induction body as [|chunk body IH]; intros total.
  { cbn [_bounded_body_stream concat length src_chunks src_error].
    destruct (Z.leb_spec (total + Z.of_nat 0) MAX_UPLOAD_BYTES); [done|lia]. }
  cbn [_bounded_body_stream concat]. rewrite length_app, Nat2Z.inj_add.
  destruct (bool_decide_reflect (chunk = [])) as [->|Hne]; [cbn [length]; rewrite Z.add_0_l; apply IH|].
  specialize (IH (total + Z.of_nat (length chunk))). rewrite <-Z.add_assoc in IH.
  destruct (Z.leb_spec (total + (Z.of_nat (length chunk) + Z.of_nat (length (concat body)))) MAX_UPLOAD_BYTES).
  - rewrite (proj2 (Z.ltb_ge _ _)) by lia. destruct IH as [IH1 IH2]. cbn. by rewrite IH1.
  - intros Ht. destruct (Z.ltb_spec MAX_UPLOAD_BYTES (total + Z.of_nat (length chunk))); [cbn; split; [done|lia]|].
    destruct IH as [IH1 IH2]; [lia|]. cbn. rewrite length_app. split; [done|lia].
Qed.

Section upload.
Context (bk : Backend) (io : string → write_io) (body : list bytes) (end_error : option exn).
Context (clk : Z) (commit : bool) (dev id : string) (w : World).
Notation upload := (upload_log_bundle bk io body end_error clk commit dev id w).
Notation path := (bundle_path dev id).

(** C31. The upload endpoint, branch by branch: an unknown request and another
    device's request are answered 404 and a finished one 409, all without an
    effect; a body over the cap is refused with 413 and no other failure
    touches the table either; and a body within the cap whose write and commit
    work makes the device's own request ready, with the bundle stored under its
    path and its size recorded. *)
Theorem upload_exact :
  plain dev = true → plain id = true →
  match w_table w !! id with
  | None => upload = (w, Err (HTTPException 404))
  | Some row =>
      if negb (bool_decide (lg_device_id row = dev)) then upload = (w, Err (HTTPException 404))
      else if log_terminal (lg_status row) then upload = (w, Err (HTTPException 409))
      else
        (Z.of_nat (length (concat body)) ≤ MAX_UPLOAD_BYTES → end_error = None → io path = WRITE_OK → commit = true →
         upload = (mkWorld (<[id := to_ready path (Z.of_nat (length (concat body))) clk row]> (w_table w))
                     (<[path := concat body]> (w_blobs w)) (w_bufs w), Ok (Z.of_nat (length (concat body))))) ∧
        (MAX_UPLOAD_BYTES < Z.of_nat (length (concat body)) → io path = WRITE_OK →
         upload.2 = Err (HTTPException 413)) ∧
        (∀ e, upload.2 = Err e → w_table upload.1 = w_table w ∧ w_bufs upload.1 = w_bufs w) ∧
        (∀ n, upload.2 = Ok n → n = Z.of_nat (length (concat body)) ∧ n ≤ MAX_UPLOAD_BYTES)
  end.
Proof.
  intros Hd (_ & Hi & Hi' & _)%plain_inv. unfold upload_log_bundle, upload_check, get.
  destruct (w_table w !! id) as [row|] eqn:Hrow; [|done].
  destruct (negb (bool_decide (lg_device_id row = dev))); [done|].
  destruct (log_terminal (lg_status row)) eqn:Hterm; [done|].
  assert (Hst : has_status STATUS_PENDING row || has_status STATUS_SENT row = true).
  { unfold has_status. by destruct (lg_status row). }
  rewrite Hst. cbn [negb]. pose proof (bounded_body_spec 0 body end_error) as Hb. cbv zeta in Hb.
  unfold upload_store. rewrite Z.add_0_l in Hb. set (src := _bounded_body_stream 0 body end_error) in *.
  split_and!.
  - intros Hle -> Hio ->. rewrite (proj2 (Z.leb_le _ _)) in Hb by done. destruct Hb as [Hc He].
    unfold write_log_blob. rewrite blob_key_plain, He, Hio, Hc by done.
    destruct bk; cbn; unfold mark_ready, update_where; by rewrite Hrow, Hst.
  - intros Hgt Hio. rewrite (proj2 (Z.leb_gt _ _)) in Hb by done. destruct Hb as [He _]; [done|].
    unfold write_log_blob. rewrite blob_key_plain, He, Hio by done. by destruct bk.
  - intros e. destruct (write_log_blob _ _ _ _ _) as [b [n|x]]; [destruct commit|destruct x]; done.
  - intros n. destruct (write_log_blob _ _ _ _ _) as [b [m|x]] eqn:Hw; [|by destruct x].
    destruct commit; [|done]. intros [= <-]. apply write_stores in Hw as (k & _ & _ & -> & He & _).
    destruct (Z.leb_spec (Z.of_nat (length (concat body))) MAX_UPLOAD_BYTES); [destruct Hb as [-> _]; done|].
    destruct Hb as [Hx _]; [done|]. congruence.
Qed.
End upload.

(** ** From the frames on the wire to the bundle *)

(** [handle_frame] never raises on a bad frame: whatever the bytes, from
    buffers that keep their invariant, the handler returns, so a frame cannot
    drop the connection; malformed bytes have no effect at all. *)
Theorem handle_frame_returns bk asm io clk c1 c2 dev frame_bytes w :
  0 < max_bytes asm → buffers_ok asm (w_bufs w) →
  (∃ res, (handle_frame bk asm io clk c1 c2 dev frame_bytes w).2 = Ok res) ∧
  (is_ok (parse_frame frame_bytes) = false → (handle_frame bk asm io clk c1 c2 dev frame_bytes w).1 = w).
Proof.
  intros Hmb Hb. unfold handle_frame. destruct (parse_frame frame_bytes) as [f|e] eqn:Hf; [|by eauto]. split; [|done].
  apply parse_frame_inv in Hf as (flags & (_ & _ & Hseq & _) & _).
  pose proof (ingest_safe asm clk dev f (w_bufs w) Hmb Hb Hseq) as (_ & _ & Hres).
  destruct (ingest asm clk dev f (w_bufs w)) as [bufs [[bundle|]|e]]; cbn [fst snd] in *; [|by eauto|].
  - destruct (write_log_blob _ _ _ _ _) as [b [n|x]]; [destruct c1|]; eauto.
  - destruct Hres as [_ He]. destruct e; eauto. done.
Qed.

Section chunked.
Context (bk : Backend) (asm : AssemblerConfig) (io : string → write_io).
Context (dev rid : string) (n : Z) (part : Z → bytes).
Notation path := (bundle_path dev rid).

Hypothesis asm_max_bytes : 0 < max_bytes asm.
Hypothesis ids_plain : plain dev = true ∧ plain rid = true.
Hypothesis rid_text : utf8_valid (utf8_encode rid) = true.
Hypothesis n_fits : 1 ≤ n ≤ max_count asm.
Hypothesis whole_fits : Z.of_nat (length (whole n part)) ≤ max_bytes asm.

(** What the device sends for part [s]. *)
Definition sends (s : Z) (fin : bool) (data : bytes) : Prop :=
  0 ≤ s < n ∧ encode_frame rid s n (part s) fin = Ok data.

Lemma sends_parse s fin data :
  sends s fin data → ∃ f, parse_frame data = Ok f ∧ part_of n part f ∧ cf_request_id f = rid ∧ cf_seq f = s ∧
    cf_is_final f = fin.
Proof.
  intros [Hs He]. apply encode_frame_ok in He as (Hl & _ & Hn & ->).
  exists (mkChunkFrame rid s n fin (part s)). split_and!; try done.
  apply parse_wire; [done|by destruct fin|by destruct fin].
Qed.

(** The handler on each arrival, with the clock at that moment. *)
Definition deliver (w : World) (cb : Z * bytes) : World :=
  (handle_frame bk asm io cb.1 true true dev cb.2 w).1.

Lemma deliver_parts (seen : gset Z) frames seqs w :
  receiving asm n part (dev, rid) seen (w_bufs w) →
  Forall2 (λ s cb, sends s false cb.2) seqs frames →
  w_table (fold_left deliver frames w) = w_table w ∧ w_blobs (fold_left deliver frames w) = w_blobs w ∧
  receiving asm n part (dev, rid) (list_to_set seqs ∪ seen) (w_bufs (fold_left deliver frames w)).
Proof.
  intros Hrec Hall. revert seen w Hrec. induction Hall as [|s [clk data] seqs frames Hs Hall IH]; intros seen w Hrec.
  { cbn. by rewrite union_empty_l_L. }
  cbn [snd] in Hs. apply sends_parse in Hs as (f & Hf & Hp & Hrid & Hseq & Hfin).
  pose proof (receive_part asm n part (dev, rid) asm_max_bytes n_fits whole_fits seen clk f (w_bufs w) Hrec Hp) as Hr.
  rewrite Hfin in Hr. cbn [fst snd] in Hr. specialize (Hr ltac:(by rewrite Hrid)). destruct Hr as [Hrec' Hnone].
  assert (Hd : deliver w (clk, data) = mkWorld (w_table w) (w_blobs w) (ingest asm clk dev f (w_bufs w)).1).
  { unfold deliver, handle_frame. cbn [fst snd]. rewrite Hf.
    destruct (ingest asm clk dev f (w_bufs w)) as [bufs x]. cbn in *. by subst x. }
  cbn [fold_left]. rewrite Hd. cbn [list_to_set].
  destruct (IH _ (mkWorld (w_table w) (w_blobs w) (ingest asm clk dev f (w_bufs w)).1) Hrec') as (-> & -> & Hend).
  split_and!; [done..|]. rewrite Hseq in Hend.
  by replace ({[s]} ∪ list_to_set seqs ∪ seen) with (list_to_set seqs ∪ ({[s]} ∪ seen) : gset Z) by set_solver.
Qed.

(** C7. The chunked upload works end to end: when a device encodes the parts of a
    bundle as frames and they arrive in any order, with any repeats, the final
    one last, then the bundle is stored, byte for byte, under the path of the
    request and the request, pending or sent before, is ready with its size;
    nothing else in the table or the store changes. *)
Theorem chunked_upload_completes frames seqs clk last data row w :
  buffers_ok asm (w_bufs w) → aget (dev, rid) (w_bufs w) = None →
  w_table w !! rid = Some row → has_status STATUS_PENDING row || has_status STATUS_SENT row = true →
  io path = WRITE_OK →
  Forall2 (λ s cb, sends s false cb.2) seqs frames → sends last true data →
  (∀ i, 0 ≤ i < n → i ∈ seqs ∨ i = last) →
  let after := handle_frame bk asm io clk true true dev data (fold_left deliver frames w) in
  w_table after.1 = <[rid := to_ready path (Z.of_nat (length (whole n part))) clk row]> (w_table w) ∧
  w_blobs after.1 = <[path := whole n part]> (w_blobs w) ∧
  after.2 = Ok (Some (mkBundle dev rid (whole n part))) ∧ aget (dev, rid) (w_bufs after.1) = None.
Proof.
  intros Hb Hnone Hrow Hst Hio Hall Hlast Hcover. cbv zeta.
  assert (Hrec : receiving asm n part (dev, rid) ∅ (w_bufs w)) by (split; [done|by rewrite Hnone]).
  destruct (deliver_parts ∅ frames seqs w Hrec Hall) as (Ht & Hbl & Hrec').
  set (w' := fold_left deliver frames w) in *.
  apply sends_parse in Hlast as (f & Hf & Hp & Hrid & Hseq & Hfin).
  pose proof (receive_part asm n part (dev, rid) asm_max_bytes n_fits whole_fits _ clk f (w_bufs w') Hrec' Hp) as Hr.
  rewrite Hfin in Hr. cbn [fst snd] in Hr. specialize (Hr ltac:(by rewrite Hrid)).
  destruct Hr as [Hres Hfree].
  { intros i Hi. destruct (Hcover i Hi) as [Hin| ->]; [left; set_solver | by right]. }
  destruct ids_plain as [Hd Hi]. apply plain_inv in Hi as (_ & ? & ? & _).
  unfold handle_frame. rewrite Hf. destruct (ingest asm clk dev f (w_bufs w')) as [bufs x]. cbn [fst snd] in *. subst x.
  cbn [ab_device_id ab_request_id ab_data]. unfold write_log_blob. rewrite blob_key_plain, Hio by done.
  cbn [of_bytes src_chunks src_error concat]. rewrite app_nil_r, Hbl, Ht.
  destruct bk; cbn; unfold mark_ready, update_where; by rewrite Hrow, Hst.
Qed.
End chunked.

(** ** What the pipeline does not guard *)

Definition a_row : LogRequest :=
  mkLogRequest "r" "A" None "24h" STATUS_SENT 1 None (Some 5) None None None (Some 3600000000) 0 5.
Definition a_world : World := mkWorld {["r" := a_row]} ∅ [].
Definition all_written (k : string) : write_io := WRITE_OK.
(** A one-frame transfer of the byte 42. *)
Definition one_frame : bytes := wire (mkChunkFrame "r" 0 1 true [Byte.x2a]) 1.
Definition two_bytes_frame : bytes := wire (mkChunkFrame "r" 0 1 true [Byte.x2b; Byte.x2b]) 1.

(** Chunk frames are not matched against the owner of the request: device B
    completes the request made of device A, with its own bundle. *)
Example foreign_device_completes :
  let after := (handle_frame Local default_assembler all_written 9 true true "B" one_frame a_world).1 in
  lg_blob_path <$> w_table after !! "r" = Some (Some "B/r.tar.gz") ∧
  lg_status <$> w_table after !! "r" = Some STATUS_READY ∧ lg_device_id <$> w_table after !! "r" = Some "A".
Proof. vm_compute. done. Qed.

(** [mark_ready] refuses a finished request, but the blob has been written by
    then: a second transfer replaces a bundle that is ready. *)
Example second_transfer_overwrites :
  let deliver := λ f w, (handle_frame Local default_assembler all_written 9 true true "A" f w).1 in
  let after := deliver two_bytes_frame (deliver one_frame a_world) in
  w_blobs after !! "A/r.tar.gz" = Some [Byte.x2b; Byte.x2b] ∧
  lg_size_bytes <$> w_table after !! "r" = Some (Some 1).
Proof. vm_compute. done. Qed.

(** On Azure a delete that fails answers False, so the reaper takes the blob for
    missing: the row forgets its path and the blob stays. *)
Example azure_blob_leaks :
  let t : log_table := {["r" := to_ready "A/r.tar.gz" 1 6 a_row]} in
  let st := reap_once 3600000000 Azure (λ _, BLOB_FAILS) 3600000000 100 no_lock t {["A/r.tar.gz" := [Byte.x2a]]} in
  lg_blob_path <$> rp_table st !! "r" = Some None ∧ rp_blobs st !! "A/r.tar.gz" = Some [Byte.x2a] ∧
  blobs_missing (rp_stats st) = 1.
Proof. vm_compute. done. Qed.

(** A local upload past the cap leaves what was read before it. *)
Example refused_upload_leaves_part :
  let st := write_log_blob Local all_written "A/r.tar.gz"
              (mkSource [[Byte.x2a]] (Some (HTTPException 413))) ∅ in
  st.2 = Err (HTTPException 413) ∧ st.1 !! "A/r.tar.gz" = Some [Byte.x2a].
Proof. vm_compute. done. Qed.

(** The claim of pending rows takes the oldest and then drops those in backoff:
    with a full batch of old rows in backoff a younger row that is due waits. *)
Example backoff_starves :
  let old := mkLogRequest "o" "A" None "24h" STATUS_PENDING 9 None None None None None None 0 1000000000 in
  let young := mkLogRequest "y" "A" None "24h" STATUS_PENDING 0 None None None None None None 1 1 in
  claim_due_pending 1000000001 1 no_lock {["o" := old; "y" := young]} = [] ∧
  _eligible_for_retry 1000000001 young = true.
Proof. vm_compute. done. Qed.

(** ** Witnesses *)

Definition small_cfg : AssemblerConfig := mkAssembler 2 3 300.

(** A request is made, dispatched, and answered in one frame. *)
Definition created : World :=
  (create_log_request_begin (Ok tt) (λ _, true) "r" "A" None "24h" 0 (mkWorld ∅ ∅ [])).1.



Lemma flow_transitions_witness :
  ∃ row', w_table (create_log_request_end None 5 "r" created).1 !! "r" = Some row' ∧
    row_step (new_request "r" "A" None "24h" (Some DEFAULT_RETENTION_US) 0) row'.
Proof.
  destruct (flow_transitions Local small_cfg default_drainer created (create_log_request_end None 5 "r" created).1
    "r" (new_request "r" "A" None "24h" (Some DEFAULT_RETENTION_US) 0)) as [?|[E _]].
  - apply create_ok; [reflexivity|]. split; [split; by intros ??|]. split; [apply NoDup_nil_2|done].
  - apply step_dispatched.
  - vm_compute. reflexivity.
  - done.
  - vm_compute in E. discriminate.
Defined.

Lemma upload_exact_witness :
  (upload_log_bundle Local all_written [[Byte.x2a]; []; [Byte.x2b]] None 9 true "A" "r" a_world).2 = Ok 2.
Proof.
  pose proof (upload_exact Local all_written [[Byte.x2a]; []; [Byte.x2b]] None 9 true "A" "r" a_world
    eq_refl eq_refl) as Hx.
  destruct (w_table a_world !! "r") as [row|] eqn:Hrow; [|vm_compute in Hrow; discriminate].
  vm_compute in Hrow. injection Hrow as <-. cbn [lg_device_id lg_status] in Hx.
  destruct Hx as [Hok _]. rewrite Hok; [reflexivity|vm_compute; discriminate|reflexivity..].
Defined.

Lemma handle_frame_returns_witness :
  (handle_frame Local small_cfg all_written 9 true true "A" [Byte.x00] a_world).1 = a_world.
Proof.
  destruct (handle_frame_returns Local small_cfg all_written 9 true true "A" [Byte.x00] a_world eq_refl) as [_ Hbad];
    [split; [apply NoDup_nil_2|done]|]. exact (Hbad eq_refl).
Defined.

(** Two parts, the second one first and twice. *)
Definition two_parts (s : Z) : bytes := [Z_byte s].
Definition part_wire (s : Z) (fin : bool) : bytes :=
  wire (mkChunkFrame "r" s 2 fin (two_parts s)) (if fin then FLAG_FINAL else 0).

Lemma part_sends s fin : 0 ≤ s < 2 → sends "r" 2 two_parts s fin (part_wire s fin).
Proof.
  intros Hs. split; [done|]. apply encode_frame_ok. split_and!; try done; lia.
Defined.

Lemma chunked_upload_completes_witness :
  w_blobs (handle_frame Local small_cfg all_written 9 true true "A" (part_wire 0 true)
    (fold_left (deliver Local small_cfg all_written "A") [(7, part_wire 1 false); (8, part_wire 1 false)] a_world)).1 =
  <["A/r.tar.gz" := [Byte.x00; Byte.x01]]> ∅.
Proof.
  assert (Hn : 1 ≤ 2 ≤ max_count small_cfg) by (split; discriminate).
  assert (Hw : Z.of_nat (length (whole 2 two_parts)) ≤ max_bytes small_cfg) by (vm_compute; discriminate).
  refine (proj1 (proj2 (chunked_upload_completes Local small_cfg all_written "A" "r" 2 two_parts eq_refl
    (conj eq_refl eq_refl) eq_refl Hn Hw [(7, part_wire 1 false); (8, part_wire 1 false)] [1; 1] 9 0 (part_wire 0 true)
    a_row a_world _ eq_refl _ eq_refl eq_refl _ _ _))).
  - split; [apply NoDup_nil_2|done].
  - vm_compute. reflexivity.
  - constructor; [apply part_sends; lia|]. constructor; [apply part_sends; lia|constructor].
  - apply part_sends. lia.
  - intros i Hi. destruct (decide (i = 0)); [by right|left]. replace i with 1 by lia. left.
Defined.
