(* ===== verification/RateLimit.v ===== *)
(** * Rate limits and replay protection (cms/routers/bootstrap.py and cms/ui.py:
      the per-IP buckets; cms/services/device_identity.py: [InMemoryNonceCache],
      [timestamp_within_skew])

    Both keep times of the past in memory, per process, and forget them by age.
    Clocks are microseconds. *)

From S2P Require Import Prelude PyText.
Open Scope Z_scope.

(** ** Buckets *)

(** [xff.split(",")[0]]. *)
Fixpoint before_comma (s : string) : string :=
  match s with
  | EmptyString => EmptyString
  | String c s' => if bool_decide (c = ","%char) then EmptyString else String c (before_comma s')
  end.

(** The address of a request: the [X-Forwarded-For] header and the peer. *)
Definition _client_ip (xff host : option string) : option string :=
  match xff with
  | Some x => let first := str_strip (before_comma x) in if bool_decide (first = "") then host else Some first
  | None => host
  end.
Definition _reset_ip (xff host : option string) : string :=
  match xff with
  | Some EmptyString | None => host or_else "unknown"
  | Some x => str_strip (before_comma x)
  end.

(** [while bucket and bucket[0] < cutoff: bucket.popleft()]. *)
Fixpoint drop_old (cutoff : Z) (bucket : list Z) : list Z :=
  match bucket with
  | [] => []
  | t :: rest => if t <? cutoff then drop_old cutoff rest else bucket
  end.

Definition hit (limit : nat) (window now : Z) (bucket : list Z) : list Z * bool :=
  let bucket := drop_old (now - window) bucket in
  if (limit <=? length bucket)%nat then (bucket, false) else (bucket ++ [now], true).

(** The buckets of all limiters, by name and client. *)
Abbreviation bucket_key := (string * string)%type.
Abbreviation buckets := (gmap bucket_key (list Z)).

(** The limit and the window of each limiter. *)
Definition policy (key : string) : nat * Z :=
  if bool_decide (key = "register") then (10%nat, 60000000)
  else if bool_decide (key = "bootstrap-status" ∨ key = "connect-token") then (120%nat, 60000000)
  else if bool_decide (key = "forgot-password") then (5%nat, 300000000)
  else (60%nat, 60000000).

Definition take_slot (k : bucket_key) (now : Z) (m : buckets) : buckets * bool :=
  let p := policy k.1 in
  let r := hit p.1 p.2 now (m !! k or_else []) in
  (<[k := r.1]> m, r.2).

Definition _ip_ratelimited (key : string) (xff host : option string) (now : Z) (m : buckets) : buckets * bool :=
  take_slot (key, _client_ip xff host or_else "unknown") now m.
Definition _reset_ratelimited (xff host : option string) (now : Z) (m : buckets) : buckets * bool :=
  take_slot ("forgot-password", _reset_ip xff host) now m.

(** ** Nonces *)

(** Each entry holds when it expires. *)
Abbreviation nonce_cache := (gmap (string * string) Z).

Definition _gc_locked (now : Z) (c : nonce_cache) : nonce_cache := filter (λ kv, now < kv.2) c.

Definition check_and_record (ttl now : Z) (key : string * string) (c : nonce_cache) : nonce_cache * bool :=
  let c := _gc_locked now c in
  if bool_decide (is_Some (c !! key)) then (c, false) else (<[key := now + ttl]> c, true).

(** [int(time.time())]. *)
Definition unix_seconds (now : Z) : Z := now / 1000000.
Definition timestamp_within_skew (now ts_unix skew_seconds : Z) : bool := Z.abs (unix_seconds now - ts_unix) <=? skew_seconds.

(** ** The limit holds *)

Definition le_from (t x : Z) : Prop := t ≤ x.
Definition within (t window : Z) (x : Z) : Prop := t ≤ x ∧ x ≤ t + window.
#[export] Instance within_dec t window x : Decision (within t window x).
Proof. unfold within. apply _. Defined.
Definition count_within (t window : Z) (l : list Z) : nat := length (filter (within t window) l).

(** The hits of a trace that were let through, from buckets [m]. *)
Fixpoint accepted (m : buckets) (trace : list (bucket_key * Z)) : list (bucket_key * Z) :=
  match trace with
  | [] => []
  | (k, now) :: rest =>
      let r := take_slot k now m in
      if r.2 then (k, now) :: accepted r.1 rest else accepted r.1 rest
  end.
Definition run_hits (trace : list (bucket_key * Z)) : buckets := fold_left (λ m kt, (take_slot kt.1 kt.2 m).1) trace ∅.
(** The times at which one client was let through. *)
Definition accepted_times (k : bucket_key) (trace : list (bucket_key * Z)) : list Z :=
  (filter (λ kt, kt.1 = k) (accepted ∅ trace)).*2.

(** The clock of the process does not go back. *)
Definition monotone (times : list Z) : Prop := Sorted Z.le times.

Lemma drop_old_filter cutoff b : Sorted Z.le b → drop_old cutoff b = filter (λ t, cutoff ≤ t) b.
Proof.
  intros Hs. apply Sorted_StronglySorted in Hs; [|intros ???; lia]. induction b as [|t b IH]; [done|].
  apply StronglySorted_inv in Hs as [Hs Hall]. cbn [drop_old]. rewrite filter_cons. destruct (Z.ltb_spec t cutoff) as [Hlt|Hge].
  - rewrite decide_False by lia. by apply IH.
  - rewrite decide_True by done. f_equal. symmetry. apply filter_all. intros x Hx. rewrite Forall_forall in Hall.
    specialize (Hall x Hx). lia.
Qed.

Lemma accepted_app m t1 t2 :
  accepted m (t1 ++ t2) = accepted m t1 ++ accepted (fold_left (λ m kt, (take_slot kt.1 kt.2 m).1) t1 m) t2.
Proof.
  revert m. induction t1 as [|[k now] t1 IH]; intros m; [done|]. cbn [app accepted fold_left fst snd].
  destruct (take_slot k now m).2; by rewrite IH.
Qed.

Lemma run_hits_snoc trace k now : run_hits (trace ++ [(k, now)]) = (take_slot k now (run_hits trace)).1.
Proof. unfold run_hits. by rewrite fold_left_app. Qed.

Lemma accepted_times_snoc k trace k0 now :
  accepted_times k (trace ++ [(k0, now)]) =
  accepted_times k trace ++ (if bool_decide (k0 = k) && (take_slot k0 now (run_hits trace)).2 then [now] else []).
Proof.
  unfold accepted_times. rewrite accepted_app, filter_app, fmap_app. f_equal. cbn [accepted].
  unfold run_hits. destruct (take_slot k0 now _).2; rewrite ?andb_true_r, ?andb_false_r; [|done].
  rewrite filter_cons. cbn [fst]. case_bool_decide; [by rewrite decide_True|by rewrite decide_False].
Qed.

Lemma accepted_times_in k trace t : t ∈ accepted_times k trace → t ∈ trace.*2.
Proof.
  induction trace as [|[k0 now] trace IH] using rev_ind; [done|]. rewrite accepted_times_snoc, fmap_app.
  intros [H|H]%elem_of_app; apply elem_of_app; [left; by apply IH|right].
  destruct (_ && _); [done|by apply elem_of_nil in H].
Qed.

Lemma Sorted_snoc (l : list Z) x : Sorted Z.le l → (∀ y, y ∈ l → y ≤ x) → Sorted Z.le (l ++ [x]).
Proof.
  intros Hs Hx. induction Hs as [|a l Hs IH Hhd]; cbn; [by repeat constructor|]. constructor; [apply IH; intros; apply Hx; by right|].
  destruct l; cbn; constructor; [apply Hx; left|by inversion Hhd].
Qed.
Lemma Sorted_filter (P : Z → Prop) `{!∀ x, Decision (P x)} (l : list Z) : Sorted Z.le l → Sorted Z.le (filter P l).
Proof.
  intros Hs. apply Sorted_StronglySorted in Hs; [|intros ???; lia]. apply StronglySorted_Sorted.
  induction Hs as [|a l Hs IH Hall]; [constructor|]. rewrite filter_cons. case_decide; [|done]. constructor; [done|].
  rewrite Forall_forall in *. intros x Hx. apply Hall. by apply list_elem_of_filter in Hx as [_ ?].
Qed.
Lemma monotone_snoc l x : monotone (l ++ [x]) → monotone l ∧ ∀ y, y ∈ l → y ≤ x.
Proof.
  unfold monotone. intros Hs. apply Sorted_StronglySorted in Hs; [|intros ???; lia].
  induction l as [|a l IH]; cbn in *; [split; [constructor|by intros y ?%elem_of_nil]|].
  apply StronglySorted_inv in Hs as [Hs Hall]. destruct (IH Hs) as [IH1 IH2]. rewrite Forall_forall in Hall. split.
  - constructor; [done|]. destruct l as [|b l]; constructor. apply Hall. left.
  - intros y [->|Hy]%elem_of_cons; [apply Hall, elem_of_app; right; left|by apply IH2].
Qed.

Lemma filter_filter_le (c c' : Z) (l : list Z) : c ≤ c' → filter (λ t, c' ≤ t) (filter (λ t, c ≤ t) l) = filter (λ t, c' ≤ t) l.
Proof.
  intros Hc. induction l as [|x l IH]; [done|]. rewrite (filter_cons (λ t, c ≤ t)). case_decide.
  - rewrite !filter_cons, IH. done.
  - rewrite IH, filter_cons. by rewrite decide_False by lia.
Qed.

(** What a bucket holds: of the accepted times those that still matter. *)
Definition bucket_inv (trace : list (bucket_key * Z)) : Prop :=
  ∀ k, let b := run_hits trace !! k or_else [] in
    Sorted Z.le b ∧ Sorted Z.le (accepted_times k trace) ∧ (∀ t, t ∈ b → t ∈ trace.*2) ∧
    ∀ now, (∀ t, t ∈ trace.*2 → t ≤ now) →
      filter (λ t, now - (policy k.1).2 ≤ t) b = filter (λ t, now - (policy k.1).2 ≤ t) (accepted_times k trace).

Lemma bucket_inv_run trace : monotone trace.*2 → bucket_inv trace.
Proof.
  induction trace as [|[k0 now0] trace IH] using rev_ind.
  { intros _ k. cbn. split_and!; [constructor|constructor|by intros t ?%elem_of_nil|done]. }
  rewrite fmap_app. cbn [fmap list_fmap snd]. intros [Hm Hle]%monotone_snoc. specialize (IH Hm). intros k. cbv zeta. rewrite run_hits_snoc, accepted_times_snoc.
  assert (Htr : ∀ t, t ∈ (trace ++ [(k0, now0)]).*2 ↔ t ∈ trace.*2 ∨ t = now0).
  { intros t. rewrite fmap_app, elem_of_app. cbn. by rewrite list_elem_of_singleton. }
  destruct (IH k0) as (Hb0 & Ha0 & Hin0 & Hf0). cbv zeta in *.
  unfold take_slot. cbn [fst snd]. set (b0 := run_hits trace !! k0 or_else []) in *. set (W := (policy k0.1).2) in *.
  assert (Hacc : ∀ t, t ∈ accepted_times k0 trace → t ≤ now0) by (intros t Ht; apply Hle; by apply accepted_times_in in Ht).
  unfold hit. cbv zeta. rewrite drop_old_filter by done. destruct (bool_decide_reflect (k0 = k)) as [->|Hne].
  - rewrite lookup_insert_eq. unfold default, from_option, id. set (b1 := filter (λ t, now0 - W ≤ t) b0).
    assert (Hb1 : ∀ t, t ∈ b1 → t ∈ trace.*2) by (intros t [_ Ht]%list_elem_of_filter; by apply Hin0).
    assert (Hs1 : Sorted Z.le b1) by by apply Sorted_filter.
    assert (Hf : ∀ now, now0 ≤ now → filter (λ t, now - W ≤ t) b1 = filter (λ t, now - W ≤ t) (accepted_times k trace)).
    { intros now Hnow. unfold b1. rewrite filter_filter_le by lia. apply Hf0. intros t Ht. specialize (Hle t Ht). lia. }
    destruct (_ <=? _)%nat; cbn [fst snd andb]; rewrite ?app_nil_r.
    + split_and!; [done|done|intros t Ht; apply Htr; left; by apply Hb1|]. intros now Hnow. apply Hf, Hnow, Htr. by right.
    + split_and!; [apply Sorted_snoc; [done|intros y Hy; by apply Hle, Hb1]|by apply Sorted_snoc| |].
      * intros t [Ht|Ht%list_elem_of_singleton]%elem_of_app; apply Htr; [left; by apply Hb1|by right].
      * intros now Hnow. rewrite !filter_app. f_equal. apply Hf, Hnow, Htr. by right.
  - rewrite lookup_insert_ne by done. cbn [andb]. rewrite app_nil_r. destruct (IH k) as (Hb & Ha & Hin & Hfk). cbv zeta in *.
    split_and!; [done|done|intros t Ht; apply Htr; left; by apply Hin|]. intros now Hnow. apply Hfk. intros t Ht.
    apply Hnow, Htr. by left.
Qed.

Lemma take_slot_exact trace k now :
  monotone (trace.*2 ++ [now]) →
  (take_slot k now (run_hits trace)).2 = true ↔
  (length (filter (λ t, (now - (policy k.1).2 ≤ t)%Z) (accepted_times k trace)) < (policy k.1).1)%nat.
Proof.
  intros [Hm Hle]%monotone_snoc. destruct (bucket_inv_run trace Hm k) as (Hb & _ & _ & Hf). cbv zeta in *.
  unfold take_slot, hit. cbv zeta. rewrite drop_old_filter by done. rewrite Hf by done.
  destruct (Nat.leb_spec (policy k.1).1 (length (filter (λ t, (now - (policy k.1).2 ≤ t)%Z) (accepted_times k trace)))); cbn [snd];
    split; (done || lia).
Qed.

Lemma count_within_snoc t w l x : (count_within t w (l ++ [x]) ≤ S (count_within t w l))%nat.
Proof. unfold count_within. rewrite filter_app, length_app, filter_cons. case_decide; cbn; lia. Qed.

(** The limiters limit: as long as the clock does not go back, a request is
    let through exactly when the client had fewer than the limit in the window
    before it, and so in any interval of the length of the window, anywhere in
    the history, no client is let through more often than the limit, whatever
    the others do. *)
Theorem rate_limit_holds trace k t :
  monotone trace.*2 →
  (count_within t (policy k.1).2 (accepted_times k trace) ≤ (policy k.1).1)%nat ∧
  ∀ now, (∀ x, x ∈ trace.*2 → x ≤ now) →
    (take_slot k now (run_hits trace)).2 = true ↔
    (count_within (now - (policy k.1).2) (policy k.1).2 (accepted_times k trace) < (policy k.1).1)%nat.
Proof.
  intros Hm. assert (Hexact : ∀ tr, monotone tr.*2 → ∀ now, (∀ x, x ∈ tr.*2 → x ≤ now) →
    (take_slot k now (run_hits tr)).2 = true ↔
    (count_within (now - (policy k.1).2) (policy k.1).2 (accepted_times k tr) < (policy k.1).1)%nat).
  { intros tr Htr now Hnow. rewrite take_slot_exact by by apply Sorted_snoc. unfold count_within.
    assert (Hall : ∀ x, x ∈ accepted_times k tr → x ≤ now) by (intros x Hx; apply Hnow; by apply accepted_times_in in Hx).
    replace (filter (within (now - (policy k.1).2) (policy k.1).2) (accepted_times k tr))
      with (filter (λ x, now - (policy k.1).2 ≤ x) (accepted_times k tr)); [done|].
    revert Hall. generalize (accepted_times k tr) as l. induction l as [|x l IHl]; intros Hall; [done|].
    rewrite !filter_cons, IHl by (intros; apply Hall; by right). specialize (Hall x ltac:(left)). unfold within.
    repeat case_decide; (done || lia). }
  split; [|by apply Hexact]. induction trace as [|[k0 now] trace IH] using rev_ind; [cbn; lia|].
  rewrite fmap_app in Hm. cbn [fmap list_fmap snd] in Hm. pose proof (monotone_snoc _ _ Hm) as [Hm' Hle]. specialize (IH Hm'). rewrite accepted_times_snoc.
  destruct (bool_decide_reflect (k0 = k)) as [->|]; [|by rewrite app_nil_r].
  destruct (take_slot k now (run_hits trace)).2 eqn:Hok; [|by rewrite app_nil_r]. cbn [andb].
  apply Hexact in Hok; [|done|done]. set (W := (policy k.1).2) in *. destruct (decide (within t W now)) as [[H1 H2]|Hout].
  - pose proof (count_within_snoc t W (accepted_times k trace) now). enough (count_within t W (accepted_times k trace) ≤
      count_within (now - W) W (accepted_times k trace))%nat by lia.
    apply filter_length_mono. intros x Hx [Hx1 Hx2]. apply accepted_times_in in Hx. split; [lia|]. apply Hle in Hx. lia.
  - unfold count_within in *. rewrite filter_app, length_app, filter_cons. rewrite decide_False by done. cbn. lia.
Qed.

(** ** A nonce is good once *)

Definition record_nonces (ttl : Z) (trace : list (Z * (string * string))) (c : nonce_cache) : nonce_cache :=
  fold_left (λ c x, (check_and_record ttl x.1 x.2 c).1) trace c.

Lemma check_and_record_entry ttl now key c :
  (check_and_record ttl now key c).2 = true → (check_and_record ttl now key c).1 !! key = Some (now + ttl).
Proof. unfold check_and_record. cbv zeta. case_bool_decide; [done|]. intros _. apply lookup_insert_eq. Qed.

Lemma check_and_record_keeps ttl now key key' e c :
  c !! key = Some e → now < e → (check_and_record ttl now key' c).1 !! key = Some e.
Proof.
  intros He Hlt. assert (Hgc : _gc_locked now c !! key = Some e) by by apply map_lookup_filter_Some.
  unfold check_and_record. cbv zeta. case_bool_decide as Hk; [done|]. cbn [fst]. rewrite lookup_insert_ne; [done|].
  intros ->. apply Hk. by eexists.
Qed.

Lemma record_nonces_keeps ttl trace key e c :
  c !! key = Some e → (∀ x, x ∈ trace → x.1 < e) → record_nonces ttl trace c !! key = Some e.
Proof.
  intros He Ht. apply (fold_left_inv _ (λ c, c !! key = Some e)); [done|]. intros c' x Hx Hc'.
  by apply check_and_record_keeps; [|apply Ht].
Qed.

(** A nonce that was accepted is refused until its time to live is over,
    whatever nonces come in between. *)
Lemma nonce_refused ttl key t1 t2 trace c :
  (check_and_record ttl t1 key c).2 = true → t2 < t1 + ttl → (∀ x, x ∈ trace → x.1 ≤ t2) →
  (check_and_record ttl t2 key (record_nonces ttl trace (check_and_record ttl t1 key c).1)).2 = false.
Proof.
  intros H1 H2 Ht. apply check_and_record_entry in H1. eapply record_nonces_keeps in H1; [|intros x Hx; apply Ht in Hx; lia].
  unfold check_and_record at 1. cbv zeta. rewrite bool_decide_eq_true_2; [done|]. exists (t1 + ttl).
  by apply map_lookup_filter_Some.
Qed.

(** Two instants that both fit one timestamp are at most twice the skew and one
    second apart. *)
Lemma skew_apart t1 t2 ts skew :
  timestamp_within_skew t1 ts skew = true → timestamp_within_skew t2 ts skew = true → t2 - t1 < (2 * skew + 1) * 1000000.
Proof.
  unfold timestamp_within_skew, unix_seconds. intros H1%Z.leb_le H2%Z.leb_le.
  pose proof (Z.div_mod t1 1000000 ltac:(lia)). pose proof (Z.div_mod t2 1000000 ltac:(lia)).
  pose proof (Z.mod_pos_bound t1 1000000 ltac:(lia)). pose proof (Z.mod_pos_bound t2 1000000 ltac:(lia)). lia.
Qed.

(** C40. A signed request works at most once per process: when the time to live
    of the nonces is at least twice the allowed skew and a second, a request
    whose timestamp fits and whose nonce was accepted is refused whenever it is
    sent again, either because its timestamp no longer fits or because its
    nonce is still known, whatever else is received in between. *)
Theorem request_not_replayed ttl skew scope nonce ts t1 t2 trace c :
  (2 * skew + 1) * 1000000 ≤ ttl →
  timestamp_within_skew t1 ts skew = true → (check_and_record ttl t1 (scope, nonce) c).2 = true →
  (∀ x, x ∈ trace → x.1 ≤ t2) →
  timestamp_within_skew t2 ts skew = false ∨
  (check_and_record ttl t2 (scope, nonce) (record_nonces ttl trace (check_and_record ttl t1 (scope, nonce) c).1)).2 = false.
Proof.
  intros Httl H1 Hc Htr. destruct (timestamp_within_skew t2 ts skew) eqn:H2; [right|by left].
  pose proof (skew_apart _ _ _ _ H1 H2). apply nonce_refused; [done|lia|done].
Qed.

(** ** Examples *)

Section examples.
(** The settings of the repository: nonces live 600 seconds, a registration may
    be 300 seconds off.  A registration dated 300 seconds ahead is accepted
    again 600 seconds later: the time to live is a second short. *)
Example registration_replayed :
  let r := check_and_record 600000000 0 ("fleet", "n") ∅ in
  timestamp_within_skew 0 300 300 = true ∧ r.2 = true ∧
  timestamp_within_skew 600000000 300 300 = true ∧ (check_and_record 600000000 600000000 ("fleet", "n") r.1).2 = true.
Proof. by vm_compute. Qed.

(** A time to live of 300 seconds, which the comment of the settings allows,
    leaves a replay window of minutes. *)
Example comment_ttl_too_short :
  let r := check_and_record 300000000 0 ("fleet", "n") ∅ in
  r.2 = true ∧ timestamp_within_skew 300000000 300 300 = true ∧ (check_and_record 300000000 300000000 ("fleet", "n") r.1).2 = true.
Proof. by vm_compute. Qed.

(** An empty first entry of X-Forwarded-For: the two limiters disagree. *)
Example addresses_differ : _client_ip (Some " , 10.0.0.1") (Some "10.0.0.9") = Some "10.0.0.9" ∧ _reset_ip (Some " , 10.0.0.1") (Some "10.0.0.9") = "".
Proof. by vm_compute. Qed.
End examples.

(** ** Witnesses *)

Lemma rate_limit_holds_witness :
  (count_within 0 60000000 (accepted_times ("register", "10.0.0.1") (replicate 12 (("register", "10.0.0.1"), 5%Z))) ≤ 10)%nat.
Proof.
  refine (proj1 (rate_limit_holds (replicate 12 (("register", "10.0.0.1"), 5%Z)) ("register", "10.0.0.1") 0 _)).
  cbn. repeat (apply Sorted_cons; [|by repeat constructor]). apply Sorted_nil.
Defined.

Lemma request_not_replayed_witness :
  (check_and_record 600000000 90000000 ("connect-token", "n")
     (record_nonces 600000000 [(30000000, ("fleet", "n"))] (check_and_record 600000000 0 ("connect-token", "n") ∅).1)).2 = false.
Proof.
  destruct (request_not_replayed 600000000 60 "connect-token" "n" 60 0 90000000 [(30000000, ("fleet", "n"))] ∅) as [H|H].
  - lia.
  - reflexivity.
  - reflexivity.
  - intros x ->%list_elem_of_singleton. vm_compute. discriminate.
  - by vm_compute in H.
  - exact H.
Defined.
