(* ===== verification/DeviceIdentity.v ===== *)
(** * Keys, signatures and sealed payloads of devices
      (cms/services/device_identity.py)

    The texts that are signed, the canonical form of public keys (base64 of the
    standard library is part of the model) and the layout of sealed payloads.
    X25519, HKDF, AES-GCM, SHA-512, HMAC and Ed25519 are arguments. *)

From Stdlib Require Import Strings.Byte Zpow_facts.
From S2P Require Import Prelude Clock Models PyText LogBlobs LogFrames.
Open Scope Z_scope.

(** ** Base64 *)

(** The character of six bits, and back. *)
Definition b64_char (n : Z) : ascii :=
  ascii_of_nat (Z.to_nat (if n <? 26 then 65 + n else if n <? 52 then 71 + n else if n <? 62 then n - 4 else if n =? 62 then 43 else 47)).
Definition b64_value (c : ascii) : option Z :=
  let n := Z.of_nat (nat_of_ascii c) in
  if (65 <=? n) && (n <=? 90) then Some (n - 65)
  else if (97 <=? n) && (n <=? 122) then Some (n - 71)
  else if (48 <=? n) && (n <=? 57) then Some (n + 4)
  else if n =? 43 then Some 62 else if n =? 47 then Some 63 else None.

Definition sextets (a b c : Z) : Z * Z * Z * Z := (a / 4, 16 * (a mod 4) + b / 16, 4 * (b mod 16) + c / 64, c mod 64).

(** [base64.b64encode]. *)
Fixpoint b64encode (bs : bytes) : string :=
  match bs with
  | [] => ""
  | [a] => let '(w, x, _, _) := sextets (byte_Z a) 0 0 in String (b64_char w) (String (b64_char x) "==")
  | [a; b] => let '(w, x, y, _) := sextets (byte_Z a) (byte_Z b) 0 in
              String (b64_char w) (String (b64_char x) (String (b64_char y) "="))
  | a :: b :: c :: rest =>
      let '(w, x, y, z) := sextets (byte_Z a) (byte_Z b) (byte_Z c) in
      String (b64_char w) (String (b64_char x) (String (b64_char y) (String (b64_char z) (b64encode rest))))
  end.

(** The bytes of four sextets. *)
Definition octets (w x y z : Z) : bytes :=
  [Z_byte (4 * w + x / 16); Z_byte (16 * (x mod 16) + y / 4); Z_byte (64 * (y mod 4) + z)].

Definition is_pad (c : ascii) : bool := bool_decide (c = "="%char).

(** [base64.b64decode(s, validate=True)]: groups of four, only the last one
    padded, no other character; [None] is the [binascii.Error]. *)
Fixpoint b64decode (s : string) : option bytes :=
  match s with
  | "" => Some []
  | String c1 (String c2 (String c3 (String c4 rest))) =>
      match b64_value c1, b64_value c2 with
      | Some w, Some x =>
          if is_pad c4 && bool_decide (rest = "") then
            if is_pad c3 then Some (take 1 (octets w x 0 0))
            else match b64_value c3 with Some y => Some (take 2 (octets w x y 0)) | None => None end
          else
            match b64_value c3, b64_value c4, b64decode rest with
            | Some y, Some z, Some bs => Some (octets w x y z ++ bs)
            | _, _, _ => None
            end
      | _, _ => None
      end
  | _ => None
  end.

(** [base64.b64decode(s)] skips foreign characters and stops at the padding:
    [quad] is the position in the group of four, [left] the bits kept. *)
Fixpoint b64decode_lax_from (quad pads left : Z) (s : string) : option bytes :=
  match s with
  | "" => if quad =? 0 then Some [] else None
  | String c s' =>
      if is_pad c then
        if 2 <=? quad then if 4 <=? quad + (pads + 1) then Some [] else b64decode_lax_from quad (pads + 1) left s'
        else b64decode_lax_from quad pads left s'
      else match b64_value c with
      | None => b64decode_lax_from quad pads left s'
      | Some v =>
          if quad =? 0 then b64decode_lax_from 1 0 v s'
          else if quad =? 1 then cons (Z_byte (4 * left + v / 16)) <$> b64decode_lax_from 2 0 (v mod 16) s'
          else if quad =? 2 then cons (Z_byte (16 * left + v / 4)) <$> b64decode_lax_from 3 0 (v mod 4) s'
          else cons (Z_byte (64 * left + v)) <$> b64decode_lax_from 0 0 0 s'
      end
  end.
Definition b64decode_lax : string → option bytes := b64decode_lax_from 0 0 0.

(** ** Public keys *)

(** [s.replace("-", "+").replace("_", "/")]. *)
Definition standard_char (c : ascii) : ascii :=
  if bool_decide (c = "-"%char) then "+"%char else if bool_decide (c = "_"%char) then "/"%char else c.
Definition urlsafe_char (c : ascii) : ascii :=
  if bool_decide (c = "+"%char) then "-"%char else if bool_decide (c = "/"%char) then "_"%char else c.

(** [c * n]. *)
Fixpoint str_repeat (c : ascii) (n : nat) : string := match n with O => "" | S n => String c (str_repeat c n) end.

Definition canonicalize_pubkey_b64 (s : string) : result exn string :=
  let t := str_map standard_char s in
  let pad := Z.to_nat ((- Z.of_nat (String.length t)) mod 4) in
  match b64decode (t +:+ str_repeat "="%char pad) with
  | None => Err (ValueError "pubkey is not valid base64")
  | Some raw =>
      if negb (bool_decide (length raw = 32%nat)) then Err (ValueError "ed25519 public key must decode to 32 bytes")
      else Ok (b64encode raw)
  end.

(** ** The texts that are signed *)

Definition connect_token_canonical_bytes (device_id timestamp nonce : string) : string :=
  device_id +:+ "|" +:+ timestamp +:+ "|" +:+ nonce.

Definition fleet_hmac_input (device_id pubkey pairing_secret_hash fleet_id timestamp nonce : string) : string :=
  String.concat "|" ["register"; device_id; pubkey; pairing_secret_hash; fleet_id; timestamp; nonce].

(** ** Ed25519 to X25519 *)

Definition P25519 : Z := 2 ^ 255 - 19.

(** [int.from_bytes(b, "little")] and [u.to_bytes(n, "little")]. *)
Fixpoint from_little (bs : bytes) : Z := match bs with [] => 0 | b :: r => byte_Z b + 256 * from_little r end.
Fixpoint to_little (n : nat) (u : Z) : bytes := match n with O => [] | S n => Z_byte u :: to_little n (u / 256) end.

Definition _ed25519_pub_to_x25519 (pub_bytes : bytes) : result exn bytes :=
  if negb (bool_decide (length pub_bytes = 32%nat)) then Err (ValueError "ed25519 public key must be 32 bytes")
  else
    let y := Z.land (from_little pub_bytes) (Z.shiftl 1 255 - 1) in
    if P25519 <=? y then Err (ValueError "ed25519 public key y-coordinate is not canonical")
    else
      let denom := (1 - y) mod P25519 in
      if denom =? 0 then Err (ValueError "ed25519 public key maps to point at infinity")
      else
        let inv := Zpow_mod denom (P25519 - 2) P25519 in
        let u := ((1 + y) * inv) mod P25519 in
        if (u =? 0) || (u =? 1) then Err (ValueError "ed25519 public key maps to a low-order x25519 point")
        else Ok (to_little 32 u).

Definition set_nth_byte (i : nat) (f : Z → Z) (bs : bytes) : bytes := alter (λ b, Z_byte (f (byte_Z b))) i bs.

Section crypto.
Context (sha512 : bytes → bytes) (hmac_sha256_hex : bytes → bytes → string).
(** X25519: the public key of a scalar, and the exchange of a private scalar
    with a public key (an all-zero result is an error). *)
Context (x25519_public : bytes → bytes) (x25519_exchange : bytes → bytes → result exn bytes).
(** HKDF-SHA256 to 44 bytes; AES-GCM with the tag appended. *)
Context (hkdf : bytes → bytes) (aesgcm_encrypt : bytes → bytes → bytes → bytes) (aesgcm_decrypt : bytes → bytes → bytes → result exn bytes).

Definition _ed25519_priv_to_x25519 (priv_bytes : bytes) : result exn bytes :=
  if negb (bool_decide (length priv_bytes = 32%nat)) then Err (ValueError "ed25519 private key must be 32 bytes")
  else
    let scalar := take 32 (sha512 priv_bytes) in
    Ok (set_nth_byte 31 (λ b, Z.lor b 64) (set_nth_byte 31 (λ b, Z.land b 127) (set_nth_byte 0 (λ b, Z.land b 248) scalar))).

(** [eph_priv] is a fresh random scalar. *)
Definition encrypt_for_device (eph_priv : bytes) (pubkey_b64 : string) (plaintext : bytes) : result exn string :=
  match b64decode pubkey_b64 with
  | None => Err (ValueError "invalid base64 recipient public key")
  | Some recip_ed =>
      recip_x ← _ed25519_pub_to_x25519 recip_ed;
      shared ← x25519_exchange eph_priv recip_x;
      let key_material := hkdf shared in
      let ct := aesgcm_encrypt (take 32 key_material) (drop 32 key_material) plaintext in
      Ok (b64encode (x25519_public eph_priv ++ drop 32 key_material ++ ct))
  end.

Definition decrypt_with_device_key (priv_bytes : bytes) (ciphertext_b64 : string) : result exn bytes :=
  match b64decode ciphertext_b64 with
  | None => Err (ValueError "invalid base64 ciphertext")
  | Some blob =>
      if (length blob <? 32 + 12 + 16)%nat then Err (ValueError "ciphertext too short")
      else
        let eph_pub := take 32 blob in let nonce := take 12 (drop 32 blob) in let ct := drop 44 blob in
        x_priv ← _ed25519_priv_to_x25519 priv_bytes;
        shared ← x25519_exchange x_priv eph_pub;
        let key_material := hkdf shared in
        if negb (bool_decide (drop 32 key_material = nonce)) then Err (ValueError "nonce mismatch")
        else aesgcm_decrypt (take 32 key_material) nonce ct
  end.

Definition compute_fleet_hmac (secret : bytes) (message : string) : string := hmac_sha256_hex secret (utf8_encode message).
Definition verify_fleet_hmac (secret : bytes) (message mac_hex : string) : bool :=
  bool_decide (compute_fleet_hmac secret message = str_lower mac_hex).
End crypto.

Section signatures.
(** [Ed25519PublicKey.verify]; a key or signature of the wrong size counts as
    a bad signature. *)
Context (ed25519_verify : bytes → bytes → bytes → bool).

Definition verify_ed25519_signature (pubkey_b64 message signature_b64 : string) : bool :=
  match b64decode_lax pubkey_b64, b64decode_lax signature_b64 with
  | Some pub, Some sig => ed25519_verify pub (utf8_encode message) sig
  | _, _ => false
  end.
End signatures.

(** ** Base64 round trips *)

Lemma forall_range (n : nat) (P : Z → Prop) `{!∀ z, Decision (P z)} :
  forallb (λ i, bool_decide (P (Z.of_nat i))) (seq 0 n) = true → ∀ z, 0 ≤ z < Z.of_nat n → P z.
Proof.
  intros Hall z Hz. rewrite forallb_forall in Hall. specialize (Hall (Z.to_nat z)). rewrite bool_decide_eq_true, Z2Nat.id in Hall by lia.
  apply Hall, list_elem_of_In, elem_of_seq. lia.
Qed.

Lemma b64_value_char n : 0 ≤ n < 64 → b64_value (b64_char n) = Some n.
Proof. apply (forall_range 64 (λ n, b64_value (b64_char n) = Some n)). by vm_compute. Qed.
Lemma is_pad_char n : 0 ≤ n < 64 → is_pad (b64_char n) = false.
Proof. apply (forall_range 64 (λ n, is_pad (b64_char n) = false)). by vm_compute. Qed.
Lemma standard_b64_char n : 0 ≤ n < 64 → standard_char (b64_char n) = b64_char n.
Proof. apply (forall_range 64 (λ n, standard_char (b64_char n) = b64_char n)). by vm_compute. Qed.

Ltac divmod := Z.to_euclidean_division_equations; lia.

(** Three bytes as four sextets. *)
Lemma sextet1 a : 0 ≤ a < 256 → 0 ≤ a / 4 < 64.
Proof. intros. divmod. Qed.
Lemma sextet2 a b : 0 ≤ a < 256 → 0 ≤ b < 256 → 0 ≤ 16 * (a mod 4) + b / 16 < 64.
Proof. intros. divmod. Qed.
Lemma sextet3 b c : 0 ≤ b < 256 → 0 ≤ c < 256 → 0 ≤ 4 * (b mod 16) + c / 64 < 64.
Proof. intros. divmod. Qed.
Lemma sextet4 c : 0 ≤ c < 256 → 0 ≤ c mod 64 < 64.
Proof. intros. divmod. Qed.
Lemma octet1 a b : 0 ≤ a < 256 → 0 ≤ b < 256 → (4 * (a / 4) + (16 * (a mod 4) + b / 16) / 16) mod 256 = a.
Proof. intros. divmod. Qed.
Lemma octet2 a b c : 0 ≤ b < 256 → 0 ≤ c < 256 →
  (16 * ((16 * (a mod 4) + b / 16) mod 16) + (4 * (b mod 16) + c / 64) / 4) mod 256 = b.
Proof. intros. divmod. Qed.
Lemma octet3 b c : 0 ≤ c < 256 → (64 * ((4 * (b mod 16) + c / 64) mod 4) + c mod 64) mod 256 = c.
Proof. intros. divmod. Qed.

Section one_group.
Context (a b c : byte).
Let Ha := byte_Z_range a.
Let Hb := byte_Z_range b.
Let Hc := byte_Z_range c.
Let H0 : 0 ≤ 0 < 256 := conj (Z.le_refl 0) eq_refl.

Lemma octets_sextets : let '(w, x, y, z) := sextets (byte_Z a) (byte_Z b) (byte_Z c) in octets w x y z = [a; b; c].
Proof. unfold sextets, octets. rewrite (Z_byte_Z a), (Z_byte_Z b), (Z_byte_Z c); [done|by apply octet3|by apply octet2|by apply octet1]. Qed.
Lemma octets_two : let '(w, x, y, _) := sextets (byte_Z a) (byte_Z b) 0 in take 2 (octets w x y 0) = [a; b].
Proof. unfold sextets, octets. cbn [take]. rewrite (Z_byte_Z a), (Z_byte_Z b); [done|by apply octet2|by apply octet1]. Qed.
Lemma octets_one : let '(w, x, _, _) := sextets (byte_Z a) 0 0 in take 1 (octets w x 0 0) = [a].
Proof. unfold sextets, octets. cbn [take]. rewrite (Z_byte_Z a); [done|by apply octet1]. Qed.
Lemma sextets_range : let '(w, x, y, z) := sextets (byte_Z a) (byte_Z b) (byte_Z c) in
  0 ≤ w < 64 ∧ 0 ≤ x < 64 ∧ 0 ≤ y < 64 ∧ 0 ≤ z < 64.
Proof. unfold sextets. split_and!; first [by apply sextet1|by apply sextet2|by apply sextet3|by apply sextet4]. Qed.
End one_group.

(** Induction three bytes at a time. *)
Lemma bytes_ind3 (P : bytes → Prop) :
  P [] → (∀ a, P [a]) → (∀ a b, P [a; b]) → (∀ a b c r, P r → P (a :: b :: c :: r)) → ∀ bs, P bs.
Proof.
  intros H0 H1 H2 H3. fix IH 1. intros [|a [|b [|c r]]]; [done|apply H1|apply H2|]. apply H3, IH.
Qed.

(** Decoding undoes encoding. *)
Theorem b64_roundtrip bs : b64decode (b64encode bs) = Some bs.
Proof.
  induction bs as [|a|a b|a b c r IH] using bytes_ind3; [done|..]; cbn [b64encode].
  - pose proof (octets_one a) as Ho. pose proof (sextets_range a x00 x00) as Hr. unfold sextets in *. cbn [byte_Z] in *.
    destruct Hr as (Hw & Hx & _). cbn [b64decode]. rewrite !b64_value_char by done. change (is_pad "=") with true.
    rewrite bool_decide_eq_true_2 by done. cbn [andb]. by f_equal.
  - pose proof (octets_two a b) as Ho. pose proof (sextets_range a b x00) as Hr. unfold sextets in *. cbn [byte_Z] in *.
    destruct Hr as (Hw & Hx & Hy & _). cbn [b64decode]. rewrite !b64_value_char by done. rewrite is_pad_char by done.
    change (is_pad "=") with true. rewrite bool_decide_eq_true_2 by done. cbn [andb]. by f_equal.
  - pose proof (octets_sextets a b c) as Ho. pose proof (sextets_range a b c) as Hr. unfold sextets in *.
    destruct Hr as (Hw & Hx & Hy & Hz). cbn [b64decode]. rewrite !b64_value_char, is_pad_char by done. cbn [andb].
    rewrite IH, Ho. done.
Qed.

Lemma b64encode_inj bs bs' : b64encode bs = b64encode bs' → bs = bs'.
Proof. intros E. apply (f_equal b64decode) in E. rewrite !b64_roundtrip in E. by injection E. Qed.

(** The lax decoder reads what the encoder writes. *)
Lemma b64_lax_roundtrip bs : b64decode_lax (b64encode bs) = Some bs.
Proof.
  unfold b64decode_lax. induction bs as [|a|a b|a b c r IH] using bytes_ind3; [done|..]; cbn [b64encode].
  - pose proof (octets_one a) as Ho. pose proof (sextets_range a x00 x00) as Hr. unfold sextets, octets in *. cbn [byte_Z] in *.
    destruct Hr as (Hw & Hx & _). cbn [b64decode_lax_from]. rewrite !b64_value_char, !is_pad_char by done. cbn. injection Ho as Ho.
    by rewrite Ho.
  - pose proof (octets_two a b) as Ho. pose proof (sextets_range a b x00) as Hr. unfold sextets, octets in *. cbn [byte_Z] in *.
    destruct Hr as (Hw & Hx & Hy & _). cbn [b64decode_lax_from]. rewrite !b64_value_char, !is_pad_char by done. cbn. injection Ho as Ho1 Ho2.
    by rewrite Ho1, Ho2.
  - pose proof (octets_sextets a b c) as Ho. pose proof (sextets_range a b c) as Hr. unfold sextets, octets in *.
    destruct Hr as (Hw & Hx & Hy & Hz). cbn [b64decode_lax_from]. rewrite !b64_value_char, !is_pad_char by done. cbn. rewrite IH.
    cbn. injection Ho as Ho1 Ho2 Ho3. by rewrite Ho1, Ho2, Ho3.
Qed.

(** ** One text for each public key *)

Lemma length_b64encode bs : Z.of_nat (String.length (b64encode bs)) = 4 * ((Z.of_nat (length bs) + 2) / 3).
Proof.
  induction bs as [|a|a b|a b c r IH] using bytes_ind3; [done..|]. cbn [b64encode length].
  unfold sextets. cbn [String.length]. rewrite !Nat2Z.inj_succ, IH.
  replace (Z.succ (Z.succ (Z.succ (Z.of_nat (length r)))) + 2) with (Z.of_nat (length r) + 2 + 1 * 3) by lia.
  rewrite Z.div_add by lia. lia.
Qed.

Lemma standard_b64encode bs : str_map standard_char (b64encode bs) = b64encode bs.
Proof.
  induction bs as [|a|a b|a b c r IH] using bytes_ind3; [done|..]; cbn [b64encode].
  - pose proof (sextets_range a x00 x00) as Hr. unfold sextets in *. destruct Hr as (Hw & Hx & _). cbn [str_map].
    by rewrite !standard_b64_char.
  - pose proof (sextets_range a b x00) as Hr. unfold sextets in *. destruct Hr as (Hw & Hx & Hy & _). cbn [str_map].
    by rewrite !standard_b64_char.
  - pose proof (sextets_range a b c) as Hr. unfold sextets in *. destruct Hr as (Hw & Hx & Hy & Hz). cbn [str_map].
    by rewrite !standard_b64_char, IH.
Qed.

Lemma str_map_length f s : String.length (str_map f s) = String.length s.
Proof. induction s as [|c s IH]; [done|]. cbn. by rewrite IH. Qed.

(** The texts of a key: its base64 in the standard or the URL-safe alphabet,
    mixed even, with the padding or without. *)
Definition key_text (raw : bytes) (s : string) : Prop :=
  str_map standard_char s = b64encode raw ∨ str_map standard_char s +:+ "=" = b64encode raw.

Lemma canonicalize_key_text raw s : length raw = 32%nat → key_text raw s → canonicalize_pubkey_b64 s = Ok (b64encode raw).
Proof.
  intros Hlen Hs. pose proof (length_b64encode raw) as Hl. rewrite Hlen in Hl. change (4 * _) with 44 in Hl.
  unfold canonicalize_pubkey_b64. cbv zeta. destruct Hs as [E|E].
  - rewrite E, Hl. change (Z.to_nat (Z.opp 44 mod 4)) with 0%nat. cbn [str_repeat].
    rewrite str_app_nil_r, b64_roundtrip. by rewrite bool_decide_eq_true_2.
  - assert (Hlen' : Z.of_nat (String.length (str_map standard_char s)) = 43).
    { rewrite <-E, str_app_length in Hl. cbn [String.length] in Hl. lia. }
    rewrite Hlen'. change (Z.to_nat (Z.opp 43 mod 4)) with 1%nat. cbn [str_repeat]. rewrite E, b64_roundtrip. by rewrite bool_decide_eq_true_2.
Qed.

Lemma canonicalize_inv s c : canonicalize_pubkey_b64 s = Ok c → ∃ raw, length raw = 32%nat ∧ c = b64encode raw.
Proof.
  unfold canonicalize_pubkey_b64. cbv zeta. destruct (b64decode _) as [raw|]; [|done]. case_bool_decide; [|done].
  intros [= <-]. by exists raw.
Qed.

(** A device and the server agree on the text of a public key: every way of
    writing the 32 bytes in base64, standard or URL-safe, padded or not, has
    the same canonical text, which decodes to those bytes; different keys have
    different texts; and a canonical text is its own canonical text. *)
Theorem pubkey_canonical raw s :
  length raw = 32%nat → key_text raw s →
  canonicalize_pubkey_b64 s = Ok (b64encode raw) ∧ b64decode (b64encode raw) = Some raw ∧ b64decode_lax (b64encode raw) = Some raw ∧
  canonicalize_pubkey_b64 (b64encode raw) = Ok (b64encode raw) ∧
  ∀ s' c, canonicalize_pubkey_b64 s' = Ok c → c ≠ b64encode raw → ∃ raw', raw' ≠ raw ∧ length raw' = 32%nat ∧ c = b64encode raw'.
Proof.
  intros Hlen Hs. split_and!; [by apply canonicalize_key_text|apply b64_roundtrip|apply b64_lax_roundtrip|..].
  - apply canonicalize_key_text; [done|]. left. apply standard_b64encode.
  - intros s' c Hc Hne. apply canonicalize_inv in Hc as (raw' & Hl & ->). exists raw'. split_and!; [congruence|done|done].
Qed.

(** ** A signature covers one request *)

Definition PIPE : ascii := "|"%char.
Definition pipe_free (s : string) : Prop := split_on PIPE s = [s].

Lemma split_on_nonempty c s : split_on c s ≠ [].
Proof. destruct s as [|a s]; cbn; [done|]. destruct (decide (a = c)); [done|]. by destruct (split_on c s). Qed.

Lemma split_on_app c a b : split_on c (a +:+ String c b) = split_on c a ++ split_on c b.
Proof.
  induction a as [|x a IH].
  - rewrite str_app_nil. cbn [split_on]. by rewrite decide_True.
  - rewrite str_app_cons. cbn [split_on]. rewrite IH. destruct (decide (x = c)); [done|].
    pose proof (split_on_nonempty c a). by destruct (split_on c a).
Qed.

Lemma split_on_single c s x : split_on c s = [x] → x = s.
Proof.
  revert x. induction s as [|a s IH]; intros x; cbn [split_on]; [by intros [= <-]|].
  destruct (decide (a = c)). { intros [= _ E]. by destruct (split_on_nonempty c s). }
  pose proof (split_on_nonempty c s). destruct (split_on c s) as [|y l]; [done|]. intros [= <- ->]. f_equal. by apply IH.
Qed.

Lemma split_on_concat fields :
  fields ≠ [] → split_on PIPE (String.concat "|" fields) = concat (split_on PIPE <$> fields).
Proof.
  induction fields as [|a [|b l] IH]; [done| |]; intros _.
  - cbn. by rewrite app_nil_r.
  - change (String.concat "|" (a :: b :: l)) with (a +:+ String PIPE (String.concat "|" (b :: l))).
    rewrite split_on_app, IH by done. done.
Qed.

Lemma concat_length_ge {A} (ls : list (list A)) : (∀ l, l ∈ ls → l ≠ []) → (length ls ≤ length (concat ls))%nat.
Proof.
  induction ls as [|l ls IH]; intros H; [done|]. cbn. rewrite length_app. specialize (IH ltac:(intros; apply H; by right)).
  specialize (H l ltac:(left)). destruct l; [done|]. cbn. lia.
Qed.
Lemma concat_singletons {A} (ls : list (list A)) :
  (∀ l, l ∈ ls → l ≠ []) → length (concat ls) = length ls → ∀ l, l ∈ ls → ∃ x, l = [x].
Proof.
  induction ls as [|l ls IH]; intros H E; [by intros ? ?%elem_of_nil|]. cbn in E. rewrite length_app in E.
  pose proof (concat_length_ge ls ltac:(intros; apply H; by right)). pose proof (H l ltac:(left)) as Hl.
  intros l' [->|Hl']%elem_of_cons.
  - destruct l as [|x [|y l]]; [done|by exists x|]. cbn in E. lia.
  - apply IH; [intros; apply H; by right| |done]. destruct l; [done|]. cbn in E. lia.
Qed.

Lemma pipe_free_concat fields : (∀ s, s ∈ fields → pipe_free s) → concat (split_on PIPE <$> fields) = fields.
Proof.
  induction fields as [|a l IH]; intros H; [done|]. cbn. rewrite (H a) by left. cbn. f_equal. apply IH. intros; apply H; by right.
Qed.

(** Joining with a bar loses nothing, if one of the two lists has no bar. *)
Lemma join_injective fields fields' :
  length fields = length fields' → (∀ s, s ∈ fields → pipe_free s) →
  String.concat "|" fields = String.concat "|" fields' → fields = fields'.
Proof.
  intros Hlen Hfree E. destruct fields' as [|f' l']; [by destruct fields|]. apply (f_equal (split_on PIPE)) in E.
  assert (Hne : fields ≠ []) by (intros ->; done).
  rewrite !split_on_concat in E by done. rewrite (pipe_free_concat fields) in E by done.
  rewrite E. apply pipe_free_concat. intros s Hs.
  destruct (concat_singletons (split_on PIPE <$> (f' :: l'))) with (l := split_on PIPE s) as [x Hx].
  - intros l (t & -> & _)%list_elem_of_fmap. apply split_on_nonempty.
  - by rewrite <-E, length_fmap.
  - by apply list_elem_of_fmap_2.
  - unfold pipe_free. rewrite Hx. f_equal. by apply split_on_single in Hx.
Qed.

(** A message authentication code or a signature covers one request only:
    two requests with the same signed text are the same, field by field, as
    soon as the fields of one of them contain no bar, as those of an honest
    device do; the other may contain anything. *)
Theorem signed_text_injective :
  (∀ d p h f t n d' p' h' f' t' n',
    (∀ s, s ∈ [d; p; h; f; t; n] → pipe_free s) →
    fleet_hmac_input d p h f t n = fleet_hmac_input d' p' h' f' t' n' → [d; p; h; f; t; n] = [d'; p'; h'; f'; t'; n']) ∧
  (∀ d t n d' t' n',
    (∀ s, s ∈ [d; t; n] → pipe_free s) →
    connect_token_canonical_bytes d t n = connect_token_canonical_bytes d' t' n' → [d; t; n] = [d'; t'; n']).
Proof.
  split.
  - intros d p h f t n d' p' h' f' t' n' Hfree E. apply (join_injective ["register"; d; p; h; f; t; n] ["register"; d'; p'; h'; f'; t'; n']) in E; [congruence|done|].
    intros s [->|Hs]%elem_of_cons; [by vm_compute|by apply Hfree].
  - intros d t n d' t' n' Hfree E. by apply (join_injective [d; t; n] [d'; t'; n']).
Qed.

(** ** Sealed payloads *)

Section sealed.
Context (sha512 : bytes → bytes) (x25519_public : bytes → bytes) (x25519_exchange : bytes → bytes → result exn bytes).
Context (hkdf : bytes → bytes) (aesgcm_encrypt : bytes → bytes → bytes → bytes) (aesgcm_decrypt : bytes → bytes → bytes → result exn bytes).
(** The Ed25519 public key of a seed. *)
Context (ed25519_public : bytes → bytes).

(** The documented behaviour of the primitives: both sides of an exchange get
    the same secret, sizes, AES-GCM decrypts what it encrypted, and the two
    conversions of [device_identity] agree on a key pair. *)
Record crypto_laws : Prop := mkLaws {
  law_exchange a b : ∃ s, x25519_exchange a (x25519_public b) = Ok s ∧ x25519_exchange b (x25519_public a) = Ok s;
  law_public_size a : length (x25519_public a) = 32%nat;
  law_hkdf_size s : length (hkdf s) = 44%nat;
  law_tag k n m : length (aesgcm_encrypt k n m) = (length m + 16)%nat;
  law_decrypt k n m : aesgcm_decrypt k n (aesgcm_encrypt k n m) = Ok m;
  law_curves seed : length seed = 32%nat →
    ∃ x, _ed25519_priv_to_x25519 sha512 seed = Ok x ∧ _ed25519_pub_to_x25519 (ed25519_public seed) = Ok (x25519_public x)
}.

(** The device opens what the server seals for it: for the public key of a
    32-byte seed, written in base64, every payload is sealed (no error), and the
    holder of the seed, and the seed alone being used, gets the payload back. *)
Theorem sealed_roundtrip eph_priv seed payload :
  crypto_laws → length seed = 32%nat →
  ∃ c, encrypt_for_device x25519_public x25519_exchange hkdf aesgcm_encrypt eph_priv (b64encode (ed25519_public seed)) payload = Ok c ∧
       decrypt_with_device_key sha512 x25519_exchange hkdf aesgcm_decrypt seed c = Ok payload.
Proof.
  intros [Hex Hpub Hk Htag Hdec Hcur] Hseed. destruct (Hcur seed Hseed) as (x & Hx & Hu). destruct (Hex eph_priv x) as (s & Hs1 & Hs2).
  unfold encrypt_for_device. rewrite b64_roundtrip, Hu. cbn [mbind result_bind]. rewrite Hs1. cbn [mbind result_bind]. eexists. split; [reflexivity|].
  unfold decrypt_with_device_key. rewrite b64_roundtrip.
  set (eph := x25519_public eph_priv). set (nonce := drop 32 (hkdf s)). set (ct := aesgcm_encrypt _ nonce payload).
  assert (Hn : length nonce = 12%nat) by (unfold nonce; rewrite length_drop, Hk; done).
  assert (He : length eph = 32%nat) by apply Hpub.
  assert (Hlen : (length (eph ++ nonce ++ ct) <? 32 + 12 + 16)%nat = false).
  { apply Nat.ltb_ge. rewrite !length_app, He, Hn. unfold ct. rewrite Htag. lia. }
  rewrite Hlen. cbv zeta. rewrite Hx. cbn [mbind result_bind].
  rewrite (take_app_length' eph) by done. fold eph in Hs2. rewrite Hs2. cbn [mbind result_bind].
  rewrite (drop_app_length' eph) by done. rewrite (take_app_length' nonce) by done. fold nonce. rewrite bool_decide_eq_true_2 by done. cbn [negb].
  rewrite (app_assoc eph nonce ct), (drop_app_length' (eph ++ nonce)) by (rewrite length_app, He, Hn; done). apply Hdec.
Qed.
End sealed.

(** ** A toy instance *)

Section toy.
(** Toy primitives: one key, one shared secret, a tag of zeros. *)
Definition toy_key : bytes := to_little 32 2.
(** (1 + 2) / (1 - 2). *)
Definition toy_u : bytes := to_little 32 (P25519 - 3).
Definition toy_public (a : bytes) : bytes := toy_u.
Definition toy_exchange (a b : bytes) : result exn bytes := Ok [].
Definition toy_hkdf (s : bytes) : bytes := replicate 44 x00.
Definition toy_encrypt (k n m : bytes) : bytes := m ++ replicate 16 x00.
Definition toy_decrypt (k n ct : bytes) : result exn bytes := Ok (take (length ct - 16) ct).
Definition toy_seed : bytes := replicate 32 x01.

Lemma toy_curve : _ed25519_pub_to_x25519 toy_key = Ok toy_u.
Proof. by vm_compute. Qed.

Lemma toy_laws : crypto_laws (λ s, s) toy_public toy_exchange toy_hkdf toy_encrypt toy_decrypt (λ _, toy_key).
Proof.
  split.
  - intros a b. exists []. done.
  - intros a. reflexivity.
  - intros s. reflexivity.
  - intros k n m. unfold toy_encrypt. by rewrite length_app.
  - intros k n m. unfold toy_decrypt, toy_encrypt. f_equal. rewrite length_app, length_replicate, Nat.add_sub. apply take_app_length.
  - intros seed Hseed. unfold _ed25519_priv_to_x25519. rewrite bool_decide_eq_true_2 by done. eexists. split; [reflexivity|apply toy_curve].
Qed.
End toy.

(** ** Witnesses *)

Lemma pubkey_canonical_witness :
  canonicalize_pubkey_b64 "-_-_-_-_-_-_-_-_-_-_-_-_-_-_-_-_-_-_-_-_-_8" = Ok (b64encode (default [] (b64decode "+/+/+/+/+/+/+/+/+/+/+/+/+/+/+/+/+/+/+/+/+/8="))).
Proof. refine (proj1 (pubkey_canonical _ _ _ _)); [reflexivity|right; reflexivity]. Defined.

Lemma sealed_roundtrip_witness :
  ∃ c, encrypt_for_device toy_public toy_exchange toy_hkdf toy_encrypt [] (b64encode toy_key) [x42] = Ok c ∧
       decrypt_with_device_key (λ s, s) toy_exchange toy_hkdf toy_decrypt toy_seed c = Ok [x42].
Proof. exact (sealed_roundtrip (λ s, s) toy_public toy_exchange toy_hkdf toy_encrypt toy_decrypt (λ _, toy_key) [] toy_seed [x42] toy_laws eq_refl). Defined.

Lemma signed_text_injective_witness :
  ∀ d t n, connect_token_canonical_bytes "dev" "5" "ab" = connect_token_canonical_bytes d t n → ["dev"; "5"; "ab"] = [d; t; n].
Proof.
  intros d t n. apply (proj2 signed_text_injective). intros s Hs.
  repeat (apply elem_of_cons in Hs as [->|Hs]; [reflexivity|]). by apply elem_of_nil in Hs.
Defined.
