(* ===== verification/Bootstrap.v ===== *)
(** * Registration and adoption of devices (cms/services/device_bootstrap.py,
      cms/routers/bootstrap.py, cms/services/fleet_registry.py,
      pending_registration_reaper.py)

    A device registers a public key and the hash of a pairing secret, polls, is
    adopted by an administrator and collects its sealed payload.  Row ids and
    device ids are fresh random values; log and audit rows are left out. *)

From Stdlib Require Import Strings.Byte.
From S2P Require Import Prelude Clock Models Database PyText JsonText LogBlobs LogFrames RateLimit DeviceIdentity.
Open Scope Z_scope.

(** ** Pairing secrets *)

Definition upper_char (c : ascii) : ascii :=
  let n := nat_of_ascii c in if ((97 <=? n) && (n <=? 122))%nat then ascii_of_nat (n - 32) else c.
(** I and L for 1, O for 0. *)
Definition fix_confusable (c : ascii) : ascii :=
  if bool_decide (c = "I"%char ∨ c = "L"%char) then "1"%char else if bool_decide (c = "O"%char) then "0"%char else c.
Definition _CROCKFORD_ALPHA : list ascii := String.list_ascii_of_string "0123456789ABCDEFGHJKMNPQRSTVWXYZ".
Definition in_alpha (c : ascii) : bool := bool_decide (c ∈ _CROCKFORD_ALPHA).
Definition _SHORT_CODE_LEN : nat := 8.
Definition is_separator (c : ascii) : bool :=
  bool_decide (c = " "%char ∨ c = "-"%char ∨ nat_of_ascii c = 9%nat).

Definition normalize_pairing_secret (raw : string) : string :=
  let stripped := str_strip raw in
  let candidate := str_filter (λ c, negb (is_separator c)) stripped in
  if negb (bool_decide (String.length candidate = _SHORT_CODE_LEN)) then stripped
  else
    let fixed := str_map (λ c, fix_confusable (upper_char c)) candidate in
    if str_all in_alpha fixed then fixed else stripped.

(** ** Tables *)

Record Pending := mkPending {
  pr_device_id : string; pr_pubkey : string; pr_hash : string; pr_metadata : option (list (string * string)); pr_ip : option string;
  pr_created_at : Z; pr_updated_at : Z; pr_polled_at : option Z; pr_adopted_at : option Z; pr_outbox : option string;
  pr_adopted_device_id : option string
}.
Record BDevice := mkBDevice {
  bd_name : string; bd_location : string; bd_status : DeviceStatus; bd_profile_id : option uuid; bd_pubkey : option string;
  bd_group_id : option uuid
}.
Record Fleet := mkFleet { fl_fleet_id : string; fl_secret_b64 : string; fl_deleted_at : option Z }.

Record BootDb := mkBootDb {
  bt_pending : gmap uuid Pending; bt_devices : gmap string BDevice; bt_groups : gset uuid;
  (** whether each profile is enabled *)
  bt_profiles : gmap uuid bool; bt_fleets : gmap uuid Fleet
}.

Definition put_pending (p : gmap uuid Pending) (db : BootDb) : BootDb :=
  mkBootDb p (bt_devices db) (bt_groups db) (bt_profiles db) (bt_fleets db).
Definition put_devices (d : gmap string BDevice) (db : BootDb) : BootDb :=
  mkBootDb (bt_pending db) d (bt_groups db) (bt_profiles db) (bt_fleets db).
Definition put_fleets (f : gmap uuid Fleet) (db : BootDb) : BootDb :=
  mkBootDb (bt_pending db) (bt_devices db) (bt_groups db) (bt_profiles db) f.

Definition unadopted (r : Pending) : bool := bool_decide (pr_adopted_at r = None).
Definition pending_count (db : BootDb) : Z := Z.of_nat (count_where unadopted (bt_pending db)).

(** ** Errors *)

Inductive boot_exn := BootstrapCapReached | BootstrapAlreadyAdopted | BootstrapPendingNotFound | BootstrapPubkeyMismatch | Other (e : exn).
#[export] Instance boot_exn_eq_dec : EqDecision boot_exn.
Proof. solve_decision. Defined.

Definition lift {A} (r : result exn A) : result boot_exn A := match r with Ok a => Ok a | Err e => Err (Other e) end.

(** ** Registration *)

(** [metadata or None]. *)
Definition or_none (m : option (list (string * string))) : option (list (string * string)) :=
  match m with Some [] => None | _ => m end.

Definition refresh_registration (now : Z) (metadata : option (list (string * string))) (ip : option string) (r : Pending) : Pending :=
  mkPending (pr_device_id r) (pr_pubkey r) (pr_hash r) (or_none metadata) ip (pr_created_at r) now (pr_polled_at r) (pr_adopted_at r)
    (pr_outbox r) (pr_adopted_device_id r).

(** The unique indexes of the table: the hash, and the key among unadopted rows. *)
Definition insert_violates (id : uuid) (r : Pending) (db : BootDb) : bool :=
  negb (bool_decide (bt_pending db !! id = None)) ||
  negb (bool_decide (rows_where (λ x, bool_decide (pr_hash x = pr_hash r)) (bt_pending db) = [])) ||
  negb (bool_decide (rows_where (λ x, unadopted x && bool_decide (pr_pubkey x = pr_pubkey r)) (bt_pending db) = [])).

(** The row that answers the registration. *)
Definition register_device (cap now : Z) (id : uuid) (device_id pubkey_b64 pairing_secret_hash : string)
    (metadata : option (list (string * string))) (ip_address : option string) (db : BootDb) : result boot_exn (BootDb * uuid) :=
  pubkey_b64 ← lift (canonicalize_pubkey_b64 pubkey_b64);
  match rows_where (λ r, bool_decide (pr_hash r = pairing_secret_hash)) (bt_pending db) with
  | (i, existing) :: _ =>
      if negb (unadopted existing) then Ok (db, i)
      else if negb (bool_decide (pr_pubkey existing = pubkey_b64)) then Err BootstrapPubkeyMismatch
      else Ok (put_pending (<[i := refresh_registration now metadata ip_address existing]> (bt_pending db)) db, i)
  | [] =>
      if (0 <? cap) && (cap <=? pending_count db) then Err BootstrapCapReached
      else
        let row := mkPending device_id pubkey_b64 pairing_secret_hash (or_none metadata) ip_address now now None None None None in
        if insert_violates id row db then
          match rows_where (λ r, unadopted r && bool_decide (pr_pubkey r = pubkey_b64)) (bt_pending db) with
          | (w, _) :: _ => Ok (db, w)
          | [] => Err (Other IntegrityError)
          end
        else Ok (put_pending (<[id := row]> (bt_pending db)) db, id)
  end.

(** ** Polling *)

Definition newest_updated (a b : uuid * Pending) : bool := pr_updated_at b.2 <=? pr_updated_at a.2.

(** [onupdate] stamps the row as well. *)
Definition first_poll (now : Z) (r : Pending) : Pending :=
  mkPending (pr_device_id r) (pr_pubkey r) (pr_hash r) (pr_metadata r) (pr_ip r) (pr_created_at r) now (Some now) (pr_adopted_at r)
    (pr_outbox r) (pr_adopted_device_id r).

Definition get_bootstrap_status (now : Z) (pubkey_b64 : string) (db : BootDb) : BootDb * result exn (option Pending) :=
  match canonicalize_pubkey_b64 pubkey_b64 with
  | Err e => (db, Err e)
  | Ok key =>
      match sort_on newest_updated (rows_where (λ r, bool_decide (pr_pubkey r = key)) (bt_pending db)) with
      | [] => (db, Ok None)
      | (i, r) :: _ =>
          match pr_polled_at r with
          | Some _ => (db, Ok (Some r))
          | None => let r := first_poll now r in (put_pending (<[i := r]> (bt_pending db)) db, Ok (Some r))
          end
      end
  end.

(** ** Expiry *)

Definition before (t cutoff : Z) : bool := t <? cutoff.
Definition opt_before (t : option Z) (cutoff : Z) : bool := match t with Some t => t <? cutoff | None => false end.

Definition expired_unpolled (now ttl : Z) (r : Pending) : bool :=
  (0 <? ttl) && unadopted r && bool_decide (pr_polled_at r = None) && before (pr_created_at r) (now - ttl).
Definition expired_polled (now ttl : Z) (r : Pending) : bool := (0 <? ttl) && unadopted r && opt_before (pr_polled_at r) (now - ttl).
Definition expired_adopted (now ttl : Z) (r : Pending) : bool := (0 <? ttl) && opt_before (pr_adopted_at r) (now - ttl).

(** [DELETE ... WHERE], with the count of rows. *)
Definition delete_where (p : Pending → bool) (m : gmap uuid Pending) : gmap uuid Pending * Z :=
  (filter (λ ir, p ir.2 = false) m, Z.of_nat (count_where p m)).

Definition reap_pending_registrations (now unpolled_ttl polled_ttl adopted_ttl : Z) (db : BootDb) : BootDb * Z :=
  let (m1, n1) := delete_where (expired_unpolled now unpolled_ttl) (bt_pending db) in
  let (m2, n2) := delete_where (expired_polled now polled_ttl) m1 in
  let (m3, n3) := delete_where (expired_adopted now adopted_ttl) m2 in
  let total := n1 + n2 + n3 in
  if 0 <? total then (put_pending m3 db, total) else (db, total).

(** ** Lists and rejection *)

Definition newest_created (a b : uuid * Pending) : bool := pr_created_at b.2 <=? pr_created_at a.2.
Definition list_pending_registrations (db : BootDb) : list (uuid * Pending) := sort_on newest_created (rows_where unadopted (bt_pending db)).

Definition delete_pending (id : uuid) (db : BootDb) : BootDb * option string :=
  match bt_pending db !! id with
  | Some r => if unadopted r then (put_pending (delete id (bt_pending db)) db, Some (pr_device_id r)) else (db, None)
  | None => (db, None)
  end.

(** ** Adoption *)

(** [isoformat().replace("+00:00", "Z")]. *)
Definition isoformat_z (t : Z) : string := str_remove 40 "+00:00" (utc_isoformat t) +:+ "Z".

Definition _build_bootstrap_payload (now : Z) (device_row_id wps_url wps_jwt : string) (jwt_lifetime_minutes : Z) : bytes :=
  let member k v := json_str k +:+ ":" +:+ json_str v in
  utf8_encode ("{" +:+ member "device_id" device_row_id +:+ "," +:+ member "wps_jwt" wps_jwt +:+ "," +:+ member "wps_url" wps_url +:+ "," +:+
               member "jwt_expires_at" (isoformat_z (now + jwt_lifetime_minutes * 60000000)) +:+ "}").

(** What the transport answers. *)
Record MintReply := mkMint { mr_url : option string; mr_baseUrl : option string; mr_token : option string; mr_accessToken : option string }.
Definition reply_url (a : MintReply) : string := str_or (mr_url a) (mr_baseUrl a) or_else "".
Definition reply_token (a : MintReply) : string := str_or (mr_token a) (mr_accessToken a) or_else "".

Record AdoptRequest := mkAdopt {
  aq_profile_id : string; aq_name : option string; aq_location : option string; aq_group_id : option string
}.

(** The group and the profile of the request. *)
Definition check_group (group_id : option string) (db : BootDb) : result boot_exn (option uuid) :=
  match group_id with
  | None => Ok None
  | Some text => match uuid_of_str text with
                 | Some g => if bool_decide (g ∈ bt_groups db) then Ok (Some g) else Err (Other (ValueError "group_not_found"))
                 | None => Err (Other (ValueError "group_not_found"))
                 end
  end.
Definition check_profile (profile_id : string) (db : BootDb) : result boot_exn uuid :=
  match uuid_of_str profile_id with
  | Some p => match bt_profiles db !! p with
              | Some true => Ok p
              | Some false => Err (Other (ValueError "profile_disabled"))
              | None => Err (Other (ValueError "profile_not_found"))
              end
  | None => Err (Other (ValueError "profile_not_found"))
  end.

(** The primary key and the unique index on keys. *)
Definition device_violates (id : string) (d : BDevice) (db : BootDb) : bool :=
  negb (bool_decide (bt_devices db !! id = None)) ||
  existsb (λ x, bool_decide (bd_pubkey x.2 = bd_pubkey d)) (map_to_list (bt_devices db)).

Definition adopt_row (now : Z) (ciphertext device_row_id : string) (r : Pending) : Pending :=
  mkPending (pr_device_id r) (pr_pubkey r) (pr_hash r) (pr_metadata r) (pr_ip r) (pr_created_at r) now (pr_polled_at r) (Some now)
    (Some ciphertext) (Some device_row_id).

(** The unadopted rows of the same board, other than the adopted one. *)
Definition stale_sibling (pending_id : uuid) (r : Pending) (ir : uuid * Pending) : bool :=
  negb (bool_decide (pr_device_id r = "")) && bool_decide (pr_device_id ir.2 = pr_device_id r) && negb (bool_decide (ir.1 = pending_id)) &&
  unadopted ir.2.

Section adoption.
Context (sha256_hex : string → string).
Context (x25519_public : bytes → bytes) (x25519_exchange : bytes → bytes → result exn bytes) (hkdf : bytes → bytes).
Context (aesgcm_encrypt : bytes → bytes → bytes → bytes).
(** The transport, and the lifetime of its tokens in minutes. *)
Context (mint_wps_jwt : string → result exn MintReply) (jwt_minutes : Z).

(** On an error the caller rolls back, so that an [Err] carries no state. *)
Definition _perform_adoption (now : Z) (device_row_id : string) (eph_priv : bytes) (id : uuid) (pending : Pending) (rq : AdoptRequest)
    (db : BootDb) : result boot_exn (BootDb * string) :=
  group ← check_group (aq_group_id rq) db;
  profile ← check_profile (aq_profile_id rq) db;
  let device := mkBDevice (aq_name rq or_else "") (aq_location rq or_else "") D_ADOPTED (Some profile) (Some (pr_pubkey pending)) group in
  if device_violates device_row_id device db then Err BootstrapAlreadyAdopted
  else
    access ← lift (mint_wps_jwt device_row_id);
    if bool_decide (reply_url access = "" ∨ reply_token access = "") then Err (Other RuntimeError)
    else
      ciphertext ← lift (encrypt_for_device x25519_public x25519_exchange hkdf aesgcm_encrypt eph_priv (pr_pubkey pending)
                           (_build_bootstrap_payload now device_row_id (reply_url access) (reply_token access) jwt_minutes));
      let rows := <[id := adopt_row now ciphertext device_row_id pending]> (bt_pending db) in
      Ok (put_pending (filter (λ ir, stale_sibling id pending ir = false) rows) (put_devices (<[device_row_id := device]> (bt_devices db)) db),
          device_row_id).

Definition adopt_device (now : Z) (device_row_id : string) (eph_priv : bytes) (pairing_secret : string) (rq : AdoptRequest) (db : BootDb)
    : result boot_exn (BootDb * string) :=
  let h := sha256_hex (normalize_pairing_secret pairing_secret) in
  match rows_where (λ r, bool_decide (pr_hash r = h)) (bt_pending db) with
  | [] => Err BootstrapPendingNotFound
  | (id, r) :: _ => if unadopted r then _perform_adoption now device_row_id eph_priv id r rq db else Err BootstrapAlreadyAdopted
  end.

Definition adopt_pending_by_id (now : Z) (device_row_id : string) (eph_priv : bytes) (pending_id : uuid) (rq : AdoptRequest) (db : BootDb)
    : result boot_exn (BootDb * string) :=
  match bt_pending db !! pending_id with
  | None => Err BootstrapPendingNotFound
  | Some r => if unadopted r then _perform_adoption now device_row_id eph_priv pending_id r rq db else Err BootstrapAlreadyAdopted
  end.
End adoption.

(** ** Fleets *)

Definition active_fleet (fleet_id : string) (f : Fleet) : bool := bool_decide (fl_fleet_id f = fleet_id) && bool_decide (fl_deleted_at f = None).

(** [Err] is FleetSecretMisconfigured. *)
Definition get_fleet_secret (fleet_id : string) (db : BootDb) : result exn (option bytes) :=
  match rows_where (active_fleet fleet_id) (bt_fleets db) with
  | [] => Ok None
  | (_, f) :: _ => match b64decode (fl_secret_b64 f) with Some s => Ok (Some s) | None => Err RuntimeError end
  end.

(** [fresh] is the generated secret.  [Err IntegrityError] is FleetAlreadyExists. *)
Definition create_fleet (id : uuid) (fleet_id : string) (secret_b64 : option string) (fresh : bytes) (db : BootDb) : result exn (BootDb * uuid) :=
  match match secret_b64 with
        | None => Ok (b64encode fresh)
        | Some s => match b64decode s with Some _ => Ok s | None => Err (ValueError "secret_b64 is not valid base64") end
        end with
  | Err e => Err e
  | Ok secret =>
      if negb (bool_decide (bt_fleets db !! id = None)) || negb (bool_decide (rows_where (active_fleet fleet_id) (bt_fleets db) = []))
      then Err IntegrityError
      else Ok (put_fleets (<[id := mkFleet fleet_id secret None]> (bt_fleets db)) db, id)
  end.

Definition delete_fleet (now : Z) (fleet_id : string) (db : BootDb) : BootDb * bool :=
  match rows_where (active_fleet fleet_id) (bt_fleets db) with
  | [] => (db, false)
  | (i, f) :: _ => (put_fleets (<[i := mkFleet (fl_fleet_id f) (fl_secret_b64 f) (Some now)]> (bt_fleets db)) db, true)
  end.

(** ** The endpoints *)

(** The tables and the memory of the process. *)
Record BootApp := mkApp { ap_db : BootDb; ap_nonces : nonce_cache; ap_buckets : buckets }.
Definition set_db (db : BootDb) (a : BootApp) : BootApp := mkApp db (ap_nonces a) (ap_buckets a).
Definition set_nonces (n : nonce_cache) (a : BootApp) : BootApp := mkApp (ap_db a) n (ap_buckets a).
Definition set_buckets (b : buckets) (a : BootApp) : BootApp := mkApp (ap_db a) (ap_nonces a) b.

(** Where a request comes from, and the two clocks (monotonic and wall). *)
Record Client := mkClient { cl_xff : option string; cl_host : option string; cl_mono : Z; cl_now : Z }.

Definition limited (key : string) (c : Client) (a : BootApp) : BootApp * bool :=
  let r := _ip_ratelimited key (cl_xff c) (cl_host c) (cl_mono c) (ap_buckets a) in (set_buckets r.1 a, r.2).

Record BootSettings := mkSettings {
  st_pending_max : Z; st_nonce_ttl : Z; st_jwt_minutes : Z; st_unpolled_ttl : Z; st_polled_ttl : Z; st_adopted_ttl : Z
}.
(** The defaults of cms/config.py. *)
Definition default_settings : BootSettings := mkSettings 50000 600000000 60 3600000000 86400000000 86400000000.

Record FleetHeaders := mkFleetHeaders { fh_id : string; fh_timestamp : string; fh_nonce : string; fh_mac : string }.
Record RegisterRequest := mkRegister {
  rr_device_id : string; rr_pubkey : string; rr_hash : string; rr_metadata : list (string * string)
}.

Section endpoints.
Context (hmac_sha256_hex : bytes → bytes → string) (ed25519_verify : bytes → bytes → bytes → bool) (sha256_hex : string → string).
Context (x25519_public : bytes → bytes) (x25519_exchange : bytes → bytes → result exn bytes) (hkdf : bytes → bytes).
Context (aesgcm_encrypt : bytes → bytes → bytes → bytes) (mint_wps_jwt : string → result exn MintReply) (st : BootSettings).

Definition _verify_fleet_hmac (c : Client) (h : FleetHeaders) (body : RegisterRequest) (a : BootApp) : BootApp * result exn unit :=
  let refuse := (a, Err (HTTPException 401)) in
  if bool_decide (fh_id h = "" ∨ fh_timestamp h = "" ∨ fh_nonce h = "" ∨ fh_mac h = "") then refuse
  else match int_of_str (fh_timestamp h) with
  | None => refuse
  | Some ts =>
      if negb (timestamp_within_skew (cl_now c) ts 300) then refuse
      else match get_fleet_secret (fh_id h) (ap_db a) with
      | Err _ => (a, Err (HTTPException 500))
      | Ok None => refuse
      | Ok (Some secret) =>
          let canonical := fleet_hmac_input (rr_device_id body) (rr_pubkey body) (rr_hash body) (fh_id h) (Z_str ts) (fh_nonce h) in
          if negb (verify_fleet_hmac hmac_sha256_hex secret canonical (fh_mac h)) then refuse
          else
            let r := check_and_record (st_nonce_ttl st) (cl_now c) ("fleet", fh_nonce h) (ap_nonces a) in
            (set_nonces r.1 a, if r.2 then Ok () else Err (HTTPException 401))
      end
  end.

Definition status_of (e : boot_exn) : Z :=
  match e with BootstrapCapReached => 503 | BootstrapPubkeyMismatch => 409 | Other (HTTPException s) => s | _ => 500 end.

Definition register (c : Client) (id : uuid) (h : FleetHeaders) (body : RegisterRequest) (a : BootApp) : BootApp * result exn unit :=
  let (a, ok) := limited "register" c a in
  if negb ok then (a, Err (HTTPException 429))
  else match _verify_fleet_hmac c h body a with
  | (a, Err e) => (a, Err e)
  | (a, Ok _) =>
      match canonicalize_pubkey_b64 (rr_pubkey body) with
      | Err _ => (a, Err (HTTPException 400))
      | Ok _ =>
          match register_device (st_pending_max st) (cl_now c) id (rr_device_id body) (rr_pubkey body) (str_lower (rr_hash body))
                  (Some (rr_metadata body)) (_client_ip (cl_xff c) (cl_host c)) (ap_db a) with
          | Ok (db, _) => (set_db db a, Ok ())
          | Err e => (a, Err (HTTPException (status_of e)))
          end
      end
  end.

(** [None] is "pending", [Some payload] "adopted". *)
Definition bootstrap_status (c : Client) (pubkey : string) (a : BootApp) : BootApp * result exn (option string) :=
  let (a, ok) := limited "bootstrap-status" c a in
  if negb ok then (a, Err (HTTPException 429))
  else match get_bootstrap_status (cl_now c) pubkey (ap_db a) with
  | (_, Err _) => (a, Err (HTTPException 400))
  | (_, Ok None) => (a, Err (HTTPException 404))
  | (db, Ok (Some r)) => (set_db db a, Ok (if unadopted r then None else pr_outbox r))
  end.

Definition _validate_bootstrap_group_id (group_id : option string) (db : BootDb) : result exn (option string) :=
  match group_id with
  | None => Ok None
  | Some text => match uuid_of_str text with
                 | Some g => if bool_decide (g ∈ bt_groups db) then Ok (Some g) else Err (HTTPException 404)
                 | None => Err (HTTPException 404)
                 end
  end.

Inductive AdoptTarget := By_secret (pairing_secret : string) | By_pending_id (pending_id : string).

Definition adopt_status (e : boot_exn) : Z :=
  match e with
  | BootstrapPendingNotFound => 404
  | BootstrapAlreadyAdopted => 409
  | Other (ValueError msg) =>
      if bool_decide (msg = "group_not_found" ∨ msg = "profile_not_found") then 404
      else if bool_decide (msg = "profile_disabled") then 422 else 400
  | Other (HTTPException s) => s
  | _ => 500
  end.

(** [adopt] and [adopt_pending], for the administrator [user]. *)
Definition adopt (c : Client) (user device_row_id : string) (eph_priv : bytes) (target : AdoptTarget) (rq : AdoptRequest) (a : BootApp)
    : BootApp * result exn string :=
  let (a, ok) := limited "adopt" c a in
  if negb ok then (a, Err (HTTPException 429))
  else
    let r := take_slot ("adopt-user", user) (cl_mono c) (ap_buckets a) in
    let a := set_buckets r.1 a in
    if negb r.2 then (a, Err (HTTPException 429))
    else match _validate_bootstrap_group_id (aq_group_id rq) (ap_db a) with
    | Err e => (a, Err e)
    | Ok group =>
        let rq := mkAdopt (aq_profile_id rq) (aq_name rq) (aq_location rq) group in
        let perform :=
          match target with
          | By_secret s => adopt_device sha256_hex x25519_public x25519_exchange hkdf aesgcm_encrypt mint_wps_jwt (st_jwt_minutes st)
                             (cl_now c) device_row_id eph_priv s rq (ap_db a)
          | By_pending_id text =>
              match uuid_of_str text with
              | None => Err BootstrapPendingNotFound
              | Some id => adopt_pending_by_id x25519_public x25519_exchange hkdf aesgcm_encrypt mint_wps_jwt (st_jwt_minutes st)
                             (cl_now c) device_row_id eph_priv id rq (ap_db a)
              end
          end in
        match perform with
        | Ok (db, device) => (set_db db a, Ok device)
        | Err e => (a, Err (HTTPException (adopt_status e)))
        end
    end.

Definition reject_pending (pending_id : string) (a : BootApp) : BootApp * result exn unit :=
  match uuid_of_str pending_id with
  | None => (a, Err (HTTPException 404))
  | Some id => match delete_pending id (ap_db a) with
               | (_, None) => (a, Err (HTTPException 404))
               | (db, Some _) => (set_db db a, Ok ())
               end
  end.

Record ConnectTokenRequest := mkConnect { ct_device_id : string; ct_timestamp : Z; ct_nonce : string; ct_signature : string }.

(** The token and the url of the answer. *)
Definition connect_token (c : Client) (body : ConnectTokenRequest) (a : BootApp) : BootApp * result exn (string * string) :=
  let (a, ok) := limited "connect-token" c a in
  let refuse := (a, Err (HTTPException 401)) in
  if negb ok then (a, Err (HTTPException 429))
  else match bt_devices (ap_db a) !! ct_device_id body with
  | None => refuse
  | Some d =>
      match truthy (bd_pubkey d) with
      | None => refuse
      | Some key =>
          if negb (bool_decide (bd_status d = D_ADOPTED)) then refuse
          else if negb (timestamp_within_skew (cl_now c) (ct_timestamp body) 60) then refuse
          else if negb (verify_ed25519_signature ed25519_verify key
                          (connect_token_canonical_bytes (ct_device_id body) (Z_str (ct_timestamp body)) (ct_nonce body)) (ct_signature body))
          then refuse
          else
            let r := check_and_record (st_nonce_ttl st) (cl_now c) ("connect-token", ct_nonce body) (ap_nonces a) in
            let a := set_nonces r.1 a in
            if negb r.2 then (a, Err (HTTPException 401))
            else match mint_wps_jwt (ct_device_id body) with
            | Err e => (a, Err e)
            | Ok reply => if bool_decide (reply_url reply = "" ∨ reply_token reply = "") then (a, Err (HTTPException 500))
                          else (a, Ok (reply_token reply, reply_url reply))
            end
      end
  end.

(** One pass of [pending_registration_reaper_loop]. *)
Definition reaper_pass (now : Z) (a : BootApp) : BootApp :=
  set_db (reap_pending_registrations now (st_unpolled_ttl st) (st_polled_ttl st) (st_adopted_ttl st) (ap_db a)).1 a.
End endpoints.

(** ** Pairing codes *)

(** A short code, and the texts that mean it: separators, lower case and
    confusable letters aside, they spell the code. *)
Definition short_code (code : string) : Prop := String.length code = _SHORT_CODE_LEN ∧ str_all in_alpha code = true.
Definition spells (s code : string) : Prop :=
  str_map (λ c, fix_confusable (upper_char c)) (str_filter (λ c, negb (is_separator c)) (str_strip s)) = code.

Lemma normalize_spelled s code : short_code code → spells s code → normalize_pairing_secret s = code.
Proof.
  intros [Hlen Hall] Hs. unfold normalize_pairing_secret, spells in *. cbv zeta. rewrite Hs, Hall.
  rewrite <-Hs, str_map_length in Hlen. by rewrite bool_decide_eq_true_2.
Qed.

Lemma alpha_plain c : in_alpha c = true → is_space c = false ∧ is_separator c = false ∧ fix_confusable (upper_char c) = c.
Proof.
  unfold in_alpha. intros Hc%bool_decide_eq_true. unfold _CROCKFORD_ALPHA in Hc. cbn in Hc.
  repeat (apply elem_of_cons in Hc as [->|Hc]; [by vm_compute|]). by apply elem_of_nil in Hc.
Qed.
Lemma alpha_strip s : str_all in_alpha s = true → str_strip s = s ∧ str_filter (λ c, negb (is_separator c)) s = s ∧
  str_map (λ c, fix_confusable (upper_char c)) s = s.
Proof.
  intros Hs. assert (Hr : str_rstrip s = s ∧ str_filter (λ c, negb (is_separator c)) s = s ∧ str_map (λ c, fix_confusable (upper_char c)) s = s).
  { induction s as [|c s IH]; [done|]. cbn in Hs. apply andb_true_iff in Hs as [(Hsp & Hsep & Hfix)%alpha_plain Hs].
    destruct (IH Hs) as (IH1 & IH2 & IH3). cbn. rewrite IH1, IH2, IH3, Hfix, Hsep, Hsp. cbn. by destruct s. }
  destruct Hr as (Hr & Hf & Hm). split_and!; [|done|done]. unfold str_strip. destruct s as [|c s]; [done|].
  cbn in Hs. apply andb_true_iff in Hs as [(Hsp & _)%alpha_plain _]. cbn [str_lstrip]. by rewrite Hsp.
Qed.
(** The code spells itself, so that the device's hash is the one looked up. *)
Lemma normalize_code code : short_code code → normalize_pairing_secret code = code.
Proof.
  intros Hc. apply normalize_spelled; [done|]. destruct Hc as [_ Hall]. unfold spells. apply alpha_strip in Hall as (-> & -> & ->). done.
Qed.

(** ** The tables stay consistent *)

Definition live_fleet (f : Fleet) : option string := if bool_decide (fl_deleted_at f = None) then Some (fl_fleet_id f) else None.




(** A row whose identity and adoption do not change. *)
Definition same_registration (r r' : Pending) : Prop :=
  pr_hash r' = pr_hash r ∧ pr_pubkey r' = pr_pubkey r ∧ pr_adopted_at r' = pr_adopted_at r ∧ pr_outbox r' = pr_outbox r ∧
  pr_adopted_device_id r' = pr_adopted_device_id r ∧ pr_device_id r' = pr_device_id r ∧ pr_created_at r' = pr_created_at r.




Lemma first_poll_same now r : same_registration r (first_poll now r).
Proof. done. Qed.





Section steps.
Context (hmac_sha256_hex : bytes → bytes → string) (ed25519_verify : bytes → bytes → bytes → bool) (sha256_hex : string → string).
Context (x25519_public : bytes → bytes) (x25519_exchange : bytes → bytes → result exn bytes) (hkdf : bytes → bytes).
Context (aesgcm_encrypt : bytes → bytes → bytes → bytes) (mint_wps_jwt : string → result exn MintReply) (st : BootSettings).

Let perform := _perform_adoption x25519_public x25519_exchange hkdf aesgcm_encrypt mint_wps_jwt.

(** What a successful adoption did. *)
Lemma perform_inv minutes now dev eph id r rq db db' d :
  perform minutes now dev eph id r rq db = Ok (db', d) →
  d = dev ∧ ∃ profile group c access,
    mint_wps_jwt dev = Ok access ∧
    encrypt_for_device x25519_public x25519_exchange hkdf aesgcm_encrypt eph (pr_pubkey r)
      (_build_bootstrap_payload now dev (reply_url access) (reply_token access) minutes) = Ok c ∧
    (let device := mkBDevice (aq_name rq or_else "") (aq_location rq or_else "") D_ADOPTED (Some profile) (Some (pr_pubkey r)) group in
     device_violates dev device db = false ∧ bt_profiles db !! profile = Some true ∧
     db' = put_pending (filter (λ ir, stale_sibling id r ir = false) (<[id := adopt_row now c dev r]> (bt_pending db)))
             (put_devices (<[dev := device]> (bt_devices db)) db)).
Proof.
  unfold perform, _perform_adoption. destruct (check_group _ db) as [group|]; [|done]. cbn [mbind result_bind].
  destruct (check_profile _ db) as [profile|] eqn:Hp; [|done]. cbn [mbind result_bind]. cbv zeta.
  destruct (device_violates _ _ db) eqn:Hv; [done|]. destruct (mint_wps_jwt dev) as [access|] eqn:Hm; [|done]. cbn [lift mbind result_bind].
  case_bool_decide; [done|]. destruct (encrypt_for_device _ _ _ _ _ _ _) as [c|] eqn:Hc; [|done]. cbn [lift mbind result_bind].
  intros [= <- <-]. split; [done|]. exists profile, group, c, access. split_and!; try done.
  unfold check_profile in Hp. destruct (uuid_of_str _) as [q|]; [|done]. destruct (bt_profiles db !! q) as [[]|] eqn:Hq; try done.
  by injection Hp as <-.
Qed.


Lemma adopt_device_inv minutes now dev eph secret rq db x :
  adopt_device sha256_hex x25519_public x25519_exchange hkdf aesgcm_encrypt mint_wps_jwt minutes now dev eph secret rq db = Ok x →
  ∃ id r, bt_pending db !! id = Some r ∧ unadopted r = true ∧ perform minutes now dev eph id r rq db = Ok x.
Proof.
  unfold adopt_device. cbv zeta. destruct (rows_where _ _) as [|[id r] l] eqn:E; [done|]. apply rows_where_head in E as [_ Hid].
  destruct (unadopted r) eqn:Hun; [|done]. intros H. by exists id, r.
Qed.
Lemma adopt_by_id_inv minutes now dev eph id rq db x :
  adopt_pending_by_id x25519_public x25519_exchange hkdf aesgcm_encrypt mint_wps_jwt minutes now dev eph id rq db = Ok x →
  ∃ r, bt_pending db !! id = Some r ∧ unadopted r = true ∧ perform minutes now dev eph id r rq db = Ok x.
Proof.
  unfold adopt_pending_by_id. destruct (bt_pending db !! id) as [r|] eqn:Hid; [|done]. destruct (unadopted r) eqn:Hun; [|done].
  intros H. by exists r.
Qed.

Inductive boot_op :=
  | B_register (c : Client) (id : uuid) (h : FleetHeaders) (body : RegisterRequest)
  | B_status (c : Client) (pubkey : string)
  | B_adopt (c : Client) (user device_row_id : string) (eph_priv : bytes) (target : AdoptTarget) (rq : AdoptRequest)
  | B_reject (pending_id : string)
  | B_connect (c : Client) (body : ConnectTokenRequest)
  | B_reap (now : Z)
  | B_create_fleet (id : uuid) (fleet_id : string) (secret_b64 : option string) (fresh : bytes)
  | B_delete_fleet (now : Z) (fleet_id : string).

Definition boot_step (a : BootApp) (op : boot_op) : BootApp :=
  match op with
  | B_register c id h body => (register hmac_sha256_hex st c id h body a).1
  | B_status c key => (bootstrap_status c key a).1
  | B_adopt c user dev eph target rq =>
      (adopt sha256_hex x25519_public x25519_exchange hkdf aesgcm_encrypt mint_wps_jwt st c user dev eph target rq a).1
  | B_reject id => (reject_pending id a).1
  | B_connect c body => (connect_token ed25519_verify mint_wps_jwt st c body a).1
  | B_reap now => reaper_pass st now a
  | B_create_fleet id f s fresh => match create_fleet id f s fresh (ap_db a) with Ok (db, _) => set_db db a | Err _ => a end
  | B_delete_fleet now f => set_db (delete_fleet now f (ap_db a)).1 a
  end.

(** What an operation does to the tables, and when it is a pass of the reaper. *)
Inductive db_change (db : BootDb) : option Z → BootDb → Prop :=
  | Ch_none : db_change db None db
  | Ch_register now id dev key h md ip db' i : register_device (st_pending_max st) now id dev key h md ip db = Ok (db', i) → db_change db None db'
  | Ch_status now key : db_change db None (get_bootstrap_status now key db).1
  | Ch_adopt now dev eph id r rq db' d :
      bt_pending db !! id = Some r → unadopted r = true → perform (st_jwt_minutes st) now dev eph id r rq db = Ok (db', d) → db_change db None db'
  | Ch_reject id r : bt_pending db !! id = Some r → unadopted r = true → db_change db None (put_pending (delete id (bt_pending db)) db)
  | Ch_reap now : db_change db (Some now) (reap_pending_registrations now (st_unpolled_ttl st) (st_polled_ttl st) (st_adopted_ttl st) db).1
  | Ch_fleets f : (unique_by live_fleet (bt_fleets db) → unique_by live_fleet f) → db_change db None (put_fleets f db).

Definition reaps (op : boot_op) : option Z := match op with B_reap now => Some now | _ => None end.

Lemma verify_db c h body a : ap_db (_verify_fleet_hmac hmac_sha256_hex st c h body a).1 = ap_db a.
Proof.
  unfold _verify_fleet_hmac. cbv zeta. case_bool_decide; [done|]. destruct (int_of_str _); [|done]. destruct (negb _); [done|].
  destruct (get_fleet_secret _ _) as [[s|]|]; [|done|done]. by destruct (negb _).
Qed.

Lemma boot_step_change a op : db_change (ap_db a) (reaps op) (ap_db (boot_step a op)).
Proof.
  destruct op as [c id h body|c key|c user dev eph target rq|pid|c body|now|id f s fresh|now f]; cbn [boot_step reaps].
  - unfold register. destruct (limited _ c a) as [a1 ok] eqn:Hl. assert (E1 : ap_db a1 = ap_db a) by (by injection Hl as <- _).
    destruct ok; cbn [negb]; [|rewrite <-E1; constructor]. pose proof (verify_db c h body a1) as E2.
    destruct (_verify_fleet_hmac _ _ c h body a1) as [a2 [[]|e]]; cbn in E2; [|cbn; rewrite E2, E1; constructor].
    destruct (canonicalize_pubkey_b64 _); [|cbn; rewrite E2, E1; constructor].
    destruct (register_device _ _ _ _ _ _ _ _ _) as [[db i]|] eqn:Hr; cbn; [|rewrite E2, E1; constructor].
    rewrite E2, E1 in Hr. by eapply Ch_register.
  - unfold bootstrap_status. destruct (limited _ c a) as [a1 ok] eqn:Hl. assert (E1 : ap_db a1 = ap_db a) by (by injection Hl as <- _).
    destruct ok; cbn [negb]; [|rewrite <-E1; constructor]. pose proof (Ch_status (ap_db a) (cl_now c) key) as Hs.
    destruct (get_bootstrap_status (cl_now c) key (ap_db a1)) as [db [[r|]|]] eqn:Hg; cbn; rewrite ?E1; try constructor.
    rewrite E1 in Hg. by rewrite Hg in Hs.
  - unfold adopt. destruct (limited _ c a) as [a1 ok] eqn:Hl. assert (E1 : ap_db a1 = ap_db a) by (by injection Hl as <- _).
    destruct ok; cbn [negb]; [|rewrite <-E1; constructor]. cbv zeta. destruct (negb _); [cbn; rewrite E1; constructor|].
    destruct (_validate_bootstrap_group_id _ _) as [g|]; [|cbn; rewrite E1; constructor]. cbn [ap_db set_buckets]. rewrite E1.
    destruct target as [secret|text].
    + destruct (adopt_device _ _ _ _ _ _ _ _ _ _ _ _ _) as [[db d]|] eqn:H; cbn; [|rewrite E1; constructor].
      apply adopt_device_inv in H as (id & r & Hid & Hun & H). by eapply Ch_adopt.
    + destruct (uuid_of_str text) as [id|]; [|cbn; rewrite E1; constructor].
      destruct (adopt_pending_by_id _ _ _ _ _ _ _ _ _ _ _ _) as [[db d]|] eqn:H; cbn; [|rewrite E1; constructor].
      apply adopt_by_id_inv in H as (r & Hid & Hun & H). by eapply Ch_adopt.
  - unfold reject_pending, delete_pending. destruct (uuid_of_str pid) as [id|]; [|constructor].
    destruct (bt_pending (ap_db a) !! id) as [r|] eqn:Hid; [|constructor]. destruct (unadopted r) eqn:Hun; [|constructor]. by eapply Ch_reject.
  - unfold connect_token. destruct (limited _ c a) as [a1 ok] eqn:Hl. assert (E1 : ap_db a1 = ap_db a) by (by injection Hl as <- _).
    assert (H1 : ∀ a', ap_db a' = ap_db a → db_change (ap_db a) None (ap_db a')) by (intros a' ->; constructor).
    destruct ok; cbn [negb]; [|by apply H1]. cbv zeta. repeat (case_match; try by apply H1).
  - apply Ch_reap.
  - unfold create_fleet. destruct (match s with None => _ | Some _ => _ end) as [secret|]; [|constructor].
    destruct (_ || _) eqn:Hv; [constructor|]. rewrite orb_false_iff, !negb_false_iff, !bool_decide_eq_true in Hv. destruct Hv as [Hid Hf].
    apply Ch_fleets. intros Hu. apply unique_by_insert; [done|]. intros j x k Hx _ [= <-] E. rewrite rows_where_nil in Hf.
    specialize (Hf j x Hx). unfold active_fleet in Hf. unfold live_fleet in E. case_bool_decide; [|done]. injection E as E.
    rewrite andb_true_r in Hf. by apply bool_decide_eq_false in Hf.
  - unfold delete_fleet. destruct (rows_where _ _) as [|[i x] l] eqn:E; [by destruct a as [[]]; constructor|].
    apply rows_where_head in E as [_ Hi]. apply Ch_fleets. intros Hu. apply (unique_by_update _ i x); [done|done|by right].
Qed.

(** Adoption is final: nothing that happens later changes the key, the
    pairing hash, the adoption time, the sealed payload or the device of an
    adopted registration, so that no request can adopt it again or replace the
    payload; it only disappears, in a pass of the reaper, once the retention of
    adopted rows is over. *)
Theorem adoption_final a op i r :
  bt_pending (ap_db a) !! i = Some r → unadopted r = false →
  match bt_pending (ap_db (boot_step a op)) !! i with
  | Some r' => same_registration r r'
  | None => ∃ now, op = B_reap now ∧ expired_adopted now (st_adopted_ttl st) r = true
  end.
Proof.
  intros Hi Hun. assert (Hsame : same_registration r r) by by split_and!.
  pose proof (boot_step_change a op) as Hch. remember (reaps op) as rp eqn:Hrp.
  destruct Hch as [|now id dev key h md ip db' j Hr|now key|now dev eph id s rq db' d Hid Hs Hp|id s Hid Hs|now|f Hf].
  - by rewrite Hi.
  - unfold register_device in Hr. destruct (canonicalize_pubkey_b64 key) as [k|]; [|done]. cbn [lift mbind result_bind] in Hr.
    destruct (rows_where _ _) as [|[j' s] l] eqn:E.
    + destruct (_ && _); [done|]. destruct (insert_violates _ _ _) eqn:Hv.
      * destruct (rows_where (λ r, unadopted r && bool_decide (pr_pubkey r = k)) _) as [|[w ?] ?]; [done|]. injection Hr as <- <-. by rewrite Hi.
      * injection Hr as <- <-. cbn. unfold insert_violates in Hv. rewrite !orb_false_iff, negb_false_iff, bool_decide_eq_true in Hv.
        destruct Hv as [[Hid _] _]. rewrite lookup_insert_ne by congruence. by rewrite Hi.
    + apply rows_where_head in E as [_ Hj]. destruct (unadopted s) eqn:Hs; cbn [negb] in Hr; [|injection Hr as <- <-; by rewrite Hi].
      case_bool_decide; cbn [negb] in Hr; [|done]. injection Hr as <- <-. cbn. rewrite lookup_insert_ne by congruence. by rewrite Hi.
  - unfold get_bootstrap_status. destruct (canonicalize_pubkey_b64 key) as [k|]; [|cbn; by rewrite Hi].
    destruct (sort_on _ _) as [|[j s] l] eqn:E; [cbn; by rewrite Hi|]. destruct (pr_polled_at s); [cbn; by rewrite Hi|]. cbn.
    destruct (decide (j = i)) as [->|]; [|rewrite lookup_insert_ne by done; by rewrite Hi]. rewrite lookup_insert_eq.
    assert (Hin : (i, s) ∈ sort_on newest_updated (rows_where (λ r, bool_decide (pr_pubkey r = k)) (bt_pending (ap_db a)))) by (rewrite E; left).
    rewrite sort_on_Permutation in Hin. apply elem_of_rows_where in Hin as [_ Hs]. assert (s = r) as -> by congruence. apply first_poll_same.
  - apply perform_inv in Hp as (-> & profile & group & c & access & _ & _ & _ & _ & ->). cbn.
    assert (Hne : i ≠ id) by congruence.
    assert (Hl : filter (λ ir, stale_sibling id s ir = false) (<[id:=adopt_row now c dev s]> (bt_pending (ap_db a))) !! i = Some r).
    { apply map_lookup_filter_Some. split; [by rewrite lookup_insert_ne|]. unfold stale_sibling. cbn. by rewrite Hun, andb_false_r. }
    by rewrite Hl.
  - cbn. rewrite lookup_delete_ne by congruence. by rewrite Hi.
  - destruct op as [| | | | |t| |]; try done. injection Hrp as ->. clear Hsame.
    unfold reap_pending_registrations, delete_where. cbv zeta. destruct (0 <? _) eqn:Htot; cbn; [|by rewrite Hi].
    destruct (expired_adopted t (st_adopted_ttl st) r) eqn:Hexp.
    + rewrite map_lookup_filter_None_2; [by exists t|]. right. intros r' [Hr' _]%map_lookup_filter_Some. cbn.
      apply map_lookup_filter_Some in Hr' as [Hr' _]. assert (r' = r) as -> by congruence. by rewrite Hexp.
    + assert (Hl : ∀ m, m !! i = Some r → filter (λ ir, expired_adopted t (st_adopted_ttl st) ir.2 = false) m !! i = Some r)
        by (intros m Hm; by apply map_lookup_filter_Some).
      rewrite Hl; [by split_and!|]. apply map_lookup_filter_Some. cbn. unfold expired_polled. rewrite Hun, andb_false_r. split; [|done].
      apply map_lookup_filter_Some. cbn. unfold expired_unpolled. by rewrite Hun, andb_false_r.
  - cbn. by rewrite Hi.
Qed.
End steps.

(** ** The reaper *)

Definition expired (now unpolled_ttl polled_ttl adopted_ttl : Z) (r : Pending) : bool :=
  expired_unpolled now unpolled_ttl r || expired_polled now polled_ttl r || expired_adopted now adopted_ttl r.

Lemma lookup_delete_where p m i :
  (delete_where p m).1 !! i = match m !! i with Some r => if p r then None else Some r | None => None end.
Proof.
  unfold delete_where. cbn. destruct (m !! i) as [r|] eqn:Hi.
  - destruct (p r) eqn:Hp.
    + apply map_lookup_filter_None_2. right. intros r' Hr'. assert (r' = r) as -> by congruence. cbn. by rewrite Hp.
    + by apply map_lookup_filter_Some.
  - apply map_lookup_filter_None_2. by left.
Qed.
Lemma delete_where_none p m : (delete_where p m).2 = 0 → (delete_where p m).1 = m.
Proof.
  intros H. apply map_eq. intros i. rewrite lookup_delete_where. destruct (m !! i) as [r|] eqn:Hi; [|done].
  assert (Hnil : rows_where p m = []) by (apply nil_length_inv; unfold delete_where, count_where in H; cbn in H; lia).
  rewrite rows_where_nil in Hnil. by rewrite (Hnil i r Hi).
Qed.

(** The reaper removes exactly the expired rows. *)
Theorem reap_exact now u p t db i :
  bt_pending (reap_pending_registrations now u p t db).1 !! i =
  match bt_pending db !! i with Some r => if expired now u p t r then None else Some r | None => None end.
Proof.
  assert (H : (delete_where (expired_adopted now t) (delete_where (expired_polled now p) (delete_where (expired_unpolled now u) (bt_pending db)).1).1).1 !! i =
      match bt_pending db !! i with Some r => if expired now u p t r then None else Some r | None => None end).
  { rewrite !lookup_delete_where. destruct (bt_pending db !! i) as [r|]; [|done]. unfold expired.
    destruct (expired_unpolled now u r); [done|]. cbn [orb]. destruct (expired_polled now p r); [done|]. cbn [orb].
    by destruct (expired_adopted now t r). }
  unfold reap_pending_registrations. pose proof (delete_where_none (expired_unpolled now u) (bt_pending db)) as N1.
  destruct (delete_where _ (bt_pending db)) as [m1 n1] eqn:E1. pose proof (delete_where_none (expired_polled now p) m1) as N2.
  cbn [fst snd] in *. destruct (delete_where _ m1) as [m2 n2] eqn:E2. pose proof (delete_where_none (expired_adopted now t) m2) as N3.
  cbn [fst snd] in *. destruct (delete_where _ m2) as [m3 n3] eqn:E3. cbn [fst snd] in *.
  assert (0 ≤ n1 ∧ 0 ≤ n2 ∧ 0 ≤ n3) as (P1 & P2 & P3).
  { unfold delete_where in E1, E2, E3. injection E1 as _ <-. injection E2 as _ <-. injection E3 as _ <-. lia. }
  destruct (Z.ltb_spec 0 (n1 + n2 + n3)); [done|]. cbn [fst]. rewrite <-H. rewrite N3, N2, N1 by lia. done.
Qed.

(** ** From registration to the token *)

Section delivery.
Context (sha256_hex : string → string) (sha512 : bytes → bytes) (x25519_public : bytes → bytes).
Context (x25519_exchange : bytes → bytes → result exn bytes) (hkdf : bytes → bytes) (aesgcm_encrypt : bytes → bytes → bytes → bytes).
Context (aesgcm_decrypt : bytes → bytes → bytes → result exn bytes) (ed25519_public : bytes → bytes).
Context (mint_wps_jwt : string → result exn MintReply) (minutes : Z).


End delivery.

(** ** Examples *)

Section examples.
Definition toy_mint (d : string) : result exn MintReply := Ok (mkMint (Some "wss://hub") None (Some "jwt") None).
Definition toy_pubkey : string := b64encode toy_key.

Definition empty_db : BootDb := mkBootDb ∅ ∅ ∅ {["00000000-0000-0000-0000-000000000001" := true]} ∅.
Definition an_adoption : AdoptRequest := mkAdopt "00000000-0000-0000-0000-000000000001" (Some "Lobby") None None.
Definition do_register (now : Z) (id h : string) (db : BootDb) : BootDb :=
  match register_device 50000 now id "serial" toy_pubkey h None None db with Ok (db', _) => db' | Err _ => db end.
Definition do_adopt (now : Z) (dev secret : string) (db : BootDb) : result boot_exn (BootDb * string) :=
  adopt_device (λ s, s) toy_public toy_exchange toy_hkdf toy_encrypt toy_mint 60 now dev [] secret an_adoption db.

(** A device that restarts with a new pairing secret after it was adopted and
    before it polled: the poll answers "pending" (the new row is the newer
    one), and the new row cannot be adopted, because the device row of the
    first adoption holds the key. *)
Example reregistration_hides_payload :
  match do_adopt 2 "dev1" "AAAA-AAAA" (do_register 1 "p1" "AAAAAAAA" empty_db) with
  | Ok (db, _) =>
      let db := do_register 3 "p2" "BBBBBBBB" db in
      (unadopted <$> bt_pending db !! "p1", unadopted <$> bt_pending db !! "p2") = (Some false, Some true) ∧
      match (get_bootstrap_status 4 toy_pubkey db).2 with Ok (Some r) => unadopted r = true | _ => False end ∧
      do_adopt 5 "dev2" "BBBB-BBBB" db = Err BootstrapAlreadyAdopted
  | Err _ => False
  end.
Proof. by vm_compute. Qed.

(** Confusable letters, lower case, a hyphen. *)
Example code_spelled : normalize_pairing_secret " o1l2-xyz9 " = "0112XYZ9".
Proof. by vm_compute. Qed.
End examples.

(** ** Witnesses *)

Definition toy_row : Pending := mkPending "serial" toy_pubkey "AAAAAAAA" None None 1 1 None None None None.
Definition toy_db : BootDb := put_pending {["p1" := toy_row]} empty_db.


Lemma toy_registered : do_register 1 "p1" "AAAAAAAA" empty_db = toy_db.
Proof. by vm_compute. Qed.


Definition adopted_row : Pending := adopt_row 2 "sealed" "dev1" toy_row.
Lemma adoption_final_witness :
  ∃ now, B_reap 90000000000000 = B_reap now ∧ expired_adopted now 86400000000 adopted_row = true.
Proof.
  exact (adoption_final (λ _ _, "mac") (λ _ _ _, true) (λ s, s) toy_public toy_exchange toy_hkdf toy_encrypt toy_mint default_settings
    (mkApp (put_pending {["p1" := adopted_row]} empty_db) ∅ ∅) (B_reap 90000000000000) "p1" adopted_row eq_refl eq_refl).
Defined.


