(* ===== verification/Variants.v ===== *)
(** * Transcoded variants (cms/services/transcoder.py, shared/services/image.py,
      the deletion endpoint of cms/routers/assets.py)

    The CMS side of transcoding: which variant rows an asset gets, how a profile
    edit supersedes them, how work whose worker died is started again, and how
    rows and files of deleted assets and superseded variants go away.  An
    instant is a number of microseconds since 1970, fresh UUIDs are arguments;
    the files are the names under the local asset directory. *)

From S2P Require Import Prelude Clock Models Database Samples AssetReadiness Jobs PyText.
Open Scope Z_scope.

(** ** Rows *)

Record DeviceProfile := mkProfile {
  p_id : uuid;
  p_name : string;
  p_description : string;
  p_video_codec : string;
  p_video_profile : string;
  p_max_width : Z;
  p_max_height : Z;
  p_max_fps : Z;
  p_video_bitrate : string;
  p_crf : Z;
  p_pixel_format : string;
  p_color_space : string;
  p_audio_codec : string;
  p_audio_bitrate : string;
  p_builtin : bool;
  p_purpose : string;
  p_enabled : bool
}.

(** A device and its references to profiles and assets. *)
Record DevRow := mkDevRow { dr_id : string; dr_profile_id : option uuid; dr_default_asset_id : option uuid }.

(** A notification as the reconciler writes it; [details] is a JSON object. *)
Record TNote := mkTNote {
  tn_scope : string; tn_level : string; tn_title : string; tn_message : string;
  tn_details : option (list (string * string))
}.

(** The tables, the jobs with their outbox and the local files. *)
Record Lib := mkLib {
  lb_profiles : list DeviceProfile;
  lb_media : Media;
  lb_store : JobStore;
  lb_notes : list TNote;
  lb_schedules : list Schedule;
  lb_devices : list DevRow;
  lb_group_defaults : list (uuid * option uuid);      (* group, default_asset_id *)
  lb_device_assets : list (string * uuid);            (* device_id, asset_id *)
  lb_group_assets : list (uuid * uuid);               (* group_id, asset_id *)
  lb_files : gset string
}.

Definition lb_assets (lib : Lib) : list Asset := m_assets (lb_media lib).
Definition lb_variants (lib : Lib) : list AssetVariant := m_variants (lb_media lib).
Definition lb_jobs (lib : Lib) : gmap uuid Job := js_jobs (lb_store lib).

Definition set_media (m : Media) (lib : Lib) : Lib :=
  mkLib (lb_profiles lib) m (lb_store lib) (lb_notes lib) (lb_schedules lib) (lb_devices lib)
        (lb_group_defaults lib) (lb_device_assets lib) (lb_group_assets lib) (lb_files lib).
Definition set_variants (vs : list AssetVariant) (lib : Lib) : Lib :=
  set_media (mkMedia (lb_assets lib) vs (m_slides (lb_media lib)) (m_asset_tags (lb_media lib))
                     (m_composed (lb_media lib))) lib.
Definition set_assets (l : list Asset) (lib : Lib) : Lib :=
  set_media (mkMedia l (lb_variants lib) (m_slides (lb_media lib)) (m_asset_tags (lb_media lib))
                     (m_composed (lb_media lib))) lib.
Definition set_store (st : JobStore) (lib : Lib) : Lib :=
  mkLib (lb_profiles lib) (lb_media lib) st (lb_notes lib) (lb_schedules lib) (lb_devices lib)
        (lb_group_defaults lib) (lb_device_assets lib) (lb_group_assets lib) (lb_files lib).
Definition set_notes (l : list TNote) (lib : Lib) : Lib :=
  mkLib (lb_profiles lib) (lb_media lib) (lb_store lib) l (lb_schedules lib) (lb_devices lib)
        (lb_group_defaults lib) (lb_device_assets lib) (lb_group_assets lib) (lb_files lib).
Definition set_files (fs : gset string) (lib : Lib) : Lib :=
  mkLib (lb_profiles lib) (lb_media lib) (lb_store lib) (lb_notes lib) (lb_schedules lib) (lb_devices lib)
        (lb_group_defaults lib) (lb_device_assets lib) (lb_group_assets lib) fs.
Definition set_profiles (l : list DeviceProfile) (lib : Lib) : Lib :=
  mkLib l (lb_media lib) (lb_store lib) (lb_notes lib) (lb_schedules lib) (lb_devices lib)
        (lb_group_defaults lib) (lb_device_assets lib) (lb_group_assets lib) (lb_files lib).
Definition set_schedule_rows (l : list Schedule) (lib : Lib) : Lib :=
  mkLib (lb_profiles lib) (lb_media lib) (lb_store lib) (lb_notes lib) l (lb_devices lib)
        (lb_group_defaults lib) (lb_device_assets lib) (lb_group_assets lib) (lb_files lib).

Definition set_jobs (jobs : gmap uuid Job) (lib : Lib) : Lib := set_store (mkStore jobs (js_outbox (lb_store lib))) lib.

Definition find_variant (vid : uuid) (lib : Lib) : option AssetVariant :=
  snd <$> list_find (λ v, v_id v = vid) (lb_variants lib).
Definition find_asset (aid : uuid) (lib : Lib) : option Asset :=
  snd <$> list_find (λ a, a_id a = aid) (lb_assets lib).
Definition find_profile (pid : uuid) (lib : Lib) : option DeviceProfile :=
  snd <$> list_find (λ p, p_id p = pid) (lb_profiles lib).

(** Assignments to the columns of a variant row. *)
Definition with_status (st : VariantStatus) (v : AssetVariant) : AssetVariant :=
  mkVariant (v_id v) (v_source_asset_id v) (v_profile_id v) (v_filename v) (v_size_bytes v) (v_checksum v)
            st (v_created_at v) (v_deleted_at v) (v_error_message v).
Definition with_error (e : string) (v : AssetVariant) : AssetVariant :=
  mkVariant (v_id v) (v_source_asset_id v) (v_profile_id v) (v_filename v) (v_size_bytes v) (v_checksum v)
            (v_status v) (v_created_at v) (v_deleted_at v) e.
Definition with_file (name : string) (size : Z) (checksum : string) (v : AssetVariant) : AssetVariant :=
  mkVariant (v_id v) (v_source_asset_id v) (v_profile_id v) name size checksum
            (v_status v) (v_created_at v) (v_deleted_at v) (v_error_message v).
Definition with_deleted (t : Z) (v : AssetVariant) : AssetVariant :=
  mkVariant (v_id v) (v_source_asset_id v) (v_profile_id v) (v_filename v) (v_size_bytes v) (v_checksum v)
            (v_status v) (v_created_at v) (Some t) (v_error_message v).
Definition delete_at (t : Z) (a : Asset) : Asset :=
  mkAsset (a_id a) (a_filename a) (a_original_filename a) (a_display_name a) (a_asset_type a) (a_size_bytes a)
          (a_checksum a) (a_url a) (a_duration_ms a) (a_shuffle a) (a_slideshow_anchor_at a) (Some t).

(** [UPDATE asset_variants SET ... WHERE p]. *)
Definition update_variants (p : AssetVariant → bool) (f : AssetVariant → AssetVariant) (lib : Lib) : Lib :=
  set_variants ((λ v, if p v then f v else v) <$> lb_variants lib) lib.

(** ** Which variants an asset gets *)

Definition IMAGE_RELEVANT_FIELDS : list string := ["max_width"; "max_height"].
Definition THUMBNAIL_ONLY_ASSET_TYPES : list AssetType := [COMPOSED; WEBPAGE].

Definition image_variant_ext (source_filename : string) : string :=
  if str_endswith ".png" (str_lower source_filename) then ".png" else ".jpg".

Definition _variant_ext_for (asset : Asset) (profile : DeviceProfile) : string :=
  if bool_decide (p_purpose profile = "thumbnail") then ".jpg"
  else if bool_decide (a_asset_type asset = IMAGE) then image_variant_ext (a_filename asset)
  else if bool_decide (p_audio_codec profile = "libopus") then ".mkv"
  else ".mp4".

Definition _profile_emits_for_asset (profile : DeviceProfile) (asset : Asset) : bool :=
  if bool_decide (a_asset_type asset ∈ THUMBNAIL_ONLY_ASSET_TYPES)
  then bool_decide (p_purpose profile = "thumbnail") else true.

(** A fresh row with the column defaults. *)
Definition new_variant_row (vid : uuid) (now : Z) (asset : Asset) (profile : DeviceProfile) : AssetVariant :=
  mkVariant vid (a_id asset) (p_id profile) (vid +:+ _variant_ext_for asset profile) 0 "" V_PENDING now None "".

Definition add_variants (vs : list AssetVariant) (lib : Lib) : Lib := set_variants (lb_variants lib ++ vs) lib.

(** Is there a variant of the asset for the profile that is not deleted? *)
Definition has_variant (aid pid : uuid) (lib : Lib) : bool :=
  existsb (λ v, bool_decide (v_source_asset_id v = aid) && bool_decide (v_profile_id v = pid) && is_live v)
          (lb_variants lib).

(** [SELECT DISTINCT source_asset_id] of the live variants of a profile. *)
Definition live_sources (pid : uuid) (lib : Lib) : list uuid :=
  remove_dups (v_source_asset_id <$> filter (λ v, v_profile_id v = pid ∧ is_live v = true) (lb_variants lib)).

Definition skip_images (changed_fields : option (list string)) : bool :=
  match changed_fields with
  | None => false
  | Some fields => forallb (λ f, negb (bool_decide (f ∈ IMAGE_RELEVANT_FIELDS))) fields
  end.

(** The source assets the loop makes a new row for. *)
Definition superseded_assets (pid : uuid) (changed_fields : option (list string)) (lib : Lib) : list Asset :=
  omap (λ aid, a ← find_asset aid lib;
               if negb (bool_decide (a_deleted_at a = None)) then None
               else if skip_images changed_fields && bool_decide (a_asset_type a = IMAGE) then None
               else Some a) (live_sources pid lib).

(** [gen n] is the [n]-th fresh UUID of the call. *)
Definition rows_for (gen : nat → uuid) (now : Z) (profile : DeviceProfile) (assets : list Asset) : list AssetVariant :=
  imap (λ n a, new_variant_row (gen n) now a profile) assets.

Definition supersede_profile_variants (gen : nat → uuid) (now : Z) (pid : uuid)
    (changed_fields : option (list string)) (lib : Lib) : Lib * list uuid :=
  match find_profile pid lib with
  | None => (lib, [])
  | Some profile =>
      let rows := rows_for gen now profile (superseded_assets pid changed_fields lib) in
      (add_variants rows lib, v_id <$> rows)
  end.

(** Sets the flag of the active transcode jobs of the profile's variants;
    returns how many rows matched. *)
Definition cancelling (j : Job) : Job :=
  mkJob (j_id j) (j_type j) (j_target_id j) (j_status j) (j_retry_count j) (j_error_message j) (j_created_at j)
        (j_completed_at j) (j_heartbeat_at j) true.
Definition job_of_profile (pid : uuid) (lib : Lib) (j : Job) : bool :=
  indexed j && existsb (λ v, bool_decide (v_id v = j_target_id j) && bool_decide (v_profile_id v = pid)) (lb_variants lib).
Definition flag_profile_jobs_cancelled (pid : uuid) (lib : Lib) : Lib * Z :=
  (set_jobs ((λ j, if job_of_profile pid lib j then cancelling j else j) <$> lb_jobs lib) lib,
   Z.of_nat (count_where (job_of_profile pid lib) (lb_jobs lib))).

Definition enqueue_variants (jgen : nat → uuid * uuid) (now : Z) (variant_ids : list uuid) (lib : Lib)
    : result exn (Lib * list uuid) :=
  match enqueue_jobs jgen now ((λ vid, (VARIANT_TRANSCODE, vid)) <$> variant_ids) (lb_store lib) with
  | Err e => Err e
  | Ok (st, ids) => Ok (set_store st lib, ids)
  end.

(** The rows are committed. *)
Definition enqueue_for_new_profile (gen : nat → uuid) (now : Z) (pid : uuid) (lib : Lib) : Lib * list uuid :=
  match find_profile pid lib with
  | None => (lib, [])
  | Some profile =>
      if negb (p_enabled profile) then (lib, [])
      else
        let wanted_types := [VIDEO; IMAGE] ++
          (if bool_decide (p_purpose profile = "thumbnail") then THUMBNAIL_ONLY_ASSET_TYPES else []) in
        let rows := rows_for gen now profile
          (filter (λ a, a_asset_type a ∈ wanted_types ∧ a_deleted_at a = None ∧ has_variant (a_id a) pid lib = false)
                  (lb_assets lib)) in
        (add_variants rows lib, v_id <$> rows)
  end.

(** One row for every enabled profile that has none. *)
Definition _enqueue_transcoding_for_asset (gen : nat → uuid) (now : Z) (asset : Asset) (lib : Lib) : Lib * list uuid :=
  let rows := imap (λ n p, new_variant_row (gen n) now asset p)
    (filter (λ p, p_enabled p = true ∧ _profile_emits_for_asset p asset = true ∧
                  has_variant (a_id asset) (p_id p) lib = false) (lb_profiles lib)) in
  (add_variants rows lib, v_id <$> rows).

Definition thumbnail_profiles (lib : Lib) : list DeviceProfile :=
  filter (λ p, p_purpose p = "thumbnail" ∧ p_enabled p = true) (lb_profiles lib).

(** Rows, jobs and outbox rows are committed together. *)
Definition enqueue_composed_thumbnail (gen : nat → uuid) (jgen : nat → uuid * uuid) (now : Z) (asset : Asset) (lib : Lib)
    : result exn (Lib * list uuid) :=
  if negb (bool_decide (a_asset_type asset ∈ THUMBNAIL_ONLY_ASSET_TYPES)) then Ok (lib, [])
  else
    let pending (p : DeviceProfile) := existsb (λ v, bool_decide (v_source_asset_id v = a_id asset) &&
      bool_decide (v_profile_id v = p_id p) && bool_decide (v_status v = V_PENDING) && is_live v) (lb_variants lib) in
    let rows := imap (λ n p, new_variant_row (gen n) now asset p)
      (filter (λ p, pending p = false) (thumbnail_profiles lib)) in
    match rows with
    | [] => Ok (lib, [])
    | _ => r ← enqueue_variants jgen now (v_id <$> rows) (add_variants rows lib); Ok (r.1, v_id <$> rows)
    end.

Definition needs_thumbnail (lib : Lib) (a : Asset) : bool :=
  bool_decide (a_asset_type a ∈ THUMBNAIL_ONLY_ASSET_TYPES) && bool_decide (a_deleted_at a = None) &&
  negb (existsb (λ v, bool_decide (v_source_asset_id v = a_id a) &&
                      bool_decide (v_profile_id v ∈ p_id <$> thumbnail_profiles lib) &&
                      (is_inflight v || is_ready v) && is_live v) (lb_variants lib)).

Definition enqueue_missing_composed_thumbnails (gen : nat → uuid) (jgen : nat → uuid * uuid) (now : Z) (lib : Lib)
    : result exn (Lib * Z) :=
  let assets := filter (λ a, needs_thumbnail lib a = true) (lb_assets lib) in
  let rows := imap (λ n ap, new_variant_row (gen n) now ap.1 ap.2)
    (a ← assets; p ← thumbnail_profiles lib; [(a, p)]) in
  match rows with
  | [] => Ok (lib, 0)
  | _ => r ← enqueue_variants jgen now (v_id <$> rows) (add_variants rows lib); Ok (r.1, Z.of_nat (length assets))
  end.

(** Image variants with a video's extension; the join drops rows without asset. *)
Definition wrong_extension (lib : Lib) (v : AssetVariant) : bool :=
  match find_asset (v_source_asset_id v) lib with
  | Some a => bool_decide (a_asset_type a = IMAGE) && str_endswith ".mp4" (v_filename v)
  | None => false
  end.
Definition fixed_variant (lib : Lib) (v : AssetVariant) : AssetVariant :=
  let ext := match find_asset (v_source_asset_id v) lib with Some a => image_variant_ext (a_filename a) | None => "" end in
  with_status V_PENDING (with_error "" (with_file (rsplit_head "." (v_filename v) +:+ ext) 0 "" v)).
(** The new rows are committed before the jobs: an error leaves them. *)
Definition fix_image_variant_extensions (jgen : nat → uuid * uuid) (now : Z) (lib : Lib) : Lib * result exn Z :=
  let broken := filter (λ v, wrong_extension lib v = true) (lb_variants lib) in
  match broken with
  | [] => (lib, Ok 0)
  | _ =>
      let lib1 := update_variants (wrong_extension lib) (fixed_variant lib) lib in
      match enqueue_variants jgen now (v_id <$> broken) lib1 with
      | Err e => (lib1, Err e)
      | Ok (lib2, _) => (lib2, Ok (Z.of_nat (length broken)))
      end
  end.

(** ** Work whose worker died *)

Definition _STALE_HEARTBEAT_TIMEOUT : Z := 120.
Definition _STALE_RESET_BATCH : nat := 50.

Definition stale (now : Z) (j : Job) : bool :=
  default (j_created_at j) (j_heartbeat_at j) <? now - _STALE_HEARTBEAT_TIMEOUT * 1000000.

(** The join of jobs and variants with its WHERE clause; [locked] are the job
    rows another session holds. *)
Definition stalled_row (locked : uuid → bool) (now : Z) (lib : Lib) (kv : uuid * Job) : option (uuid * Job * AssetVariant) :=
  if bool_decide (j_type kv.2 = VARIANT_TRANSCODE) && bool_decide (j_status kv.2 = J_PROCESSING) &&
     stale now kv.2 && negb (locked kv.1) then
    v ← find_variant (j_target_id kv.2) lib;
    if bool_decide (v_status v = V_PROCESSING) && is_live v then Some (kv, v) else None
  else None.

Definition stalled_rows (locked : uuid → bool) (now : Z) (lib : Lib) : list (uuid * Job * AssetVariant) :=
  take _STALE_RESET_BATCH (sort_by (λ r, j_created_at r.1.2) (omap (stalled_row locked now lib) (map_to_list (lb_jobs lib)))).

Definition close_job (now : Z) (j : Job) : Job :=
  if j_cancel_requested j
  then finish J_CANCELLED "cancel_requested on job; worker stopped heartbeating before it observed the flag" now j
  else finish J_FAILED ("no heartbeat for >" +:+ Z_str _STALE_HEARTBEAT_TIMEOUT +:+ "s — worker presumed dead") now j.

Definition cancelled_rows (rows : list (uuid * Job * AssetVariant)) := filter (λ r, j_cancel_requested r.1.2 = true) rows.
Definition live_rows (rows : list (uuid * Job * AssetVariant)) := filter (λ r, j_cancel_requested r.1.2 = false) rows.

Definition close_jobs (now : Z) (rows : list (uuid * Job * AssetVariant)) (jobs : gmap uuid Job) : gmap uuid Job :=
  fold_left (λ m r, <[r.1.1 := close_job now r.1.2]> m) rows jobs.

(** The assignments of the second loop come last. *)
Definition reset_variant (rows : list (uuid * Job * AssetVariant)) (v : AssetVariant) : AssetVariant :=
  if bool_decide (v_id v ∈ (λ r, v_id r.2) <$> live_rows rows) then with_status V_PENDING v
  else if bool_decide (v_id v ∈ (λ r, v_id r.2) <$> cancelled_rows rows) then with_status V_CANCELLED v
  else v.

(** The dead jobs are closed and their replacements staged in one transaction. *)
Definition recover_stalled_variants_once (jgen : nat → uuid * uuid) (locked : uuid → bool) (now : Z) (lib : Lib)
    : result exn (Lib * list uuid) :=
  match stalled_rows locked now lib with
  | [] => Ok (lib, [])
  | rows =>
      let ids := (λ r, v_id r.2) <$> live_rows rows in
      let lib1 := set_jobs (close_jobs now rows (lb_jobs lib))
                    (set_variants (reset_variant rows <$> lb_variants lib) lib) in
      r ← stage_jobs jgen now ((λ vid, (VARIANT_TRANSCODE, vid)) <$> ids) (lb_store lib1);
      Ok (set_store r.1 lib1, ids)
  end.

(** ** Captured streams *)

Definition captured_assets (lib : Lib) : list Asset :=
  filter (λ a, a_asset_type a = SAVED_STREAM ∧ 0 < a_size_bytes a ∧ a_deleted_at a = None ∧
               a_id a ∉ v_source_asset_id <$> lb_variants lib) (lb_assets lib).

(** The loop of the monitor's first phase, left at the first exception; the
    variant rows of an asset are committed before its jobs. *)
Fixpoint capture_loop (gen : nat → nat → uuid) (jgen : nat → nat → uuid * uuid) (now : Z) (k : nat)
    (assets : list Asset) (lib : Lib) : Lib * option exn :=
  match assets with
  | [] => (lib, None)
  | a :: rest =>
      let '(lib1, ids) := _enqueue_transcoding_for_asset (gen k) now a lib in
      match ids with
      | [] => capture_loop gen jgen now (S k) rest lib1
      | _ => match enqueue_variants (jgen k) now ids lib1 with
             | Err e => (lib1, Some e)
             | Ok (lib2, _) => capture_loop gen jgen now (S k) rest lib2
             end
      end
  end.

(** One tick of [stream_capture_monitor_loop] under its lock. *)
Definition monitor_tick (gen : nat → nat → uuid) (jgen : nat → nat → uuid * uuid) (jgen' : nat → uuid * uuid)
    (locked : uuid → bool) (now : Z) (lib : Lib) : Lib * option exn :=
  match capture_loop gen jgen now 0 (captured_assets lib) lib with
  | (lib1, Some e) => (lib1, Some e)
  | (lib1, None) =>
      match recover_stalled_variants_once jgen' locked now lib1 with
      | Err e => (lib1, Some e)
      | Ok (lib2, _) => (lib2, None)
      end
  end.

(** ** Superseded variants *)

(** [v] has a younger live READY sibling. *)
Definition newer_ready (vs : list AssetVariant) (v : AssetVariant) : bool :=
  existsb (λ u, bool_decide (v_source_asset_id u = v_source_asset_id v) && bool_decide (v_profile_id u = v_profile_id v) &&
                is_ready u && is_live u && (v_created_at v <? v_created_at u)) vs.

Definition to_mark (vs : list AssetVariant) (v : AssetVariant) : bool :=
  is_live v && bool_decide (v_status v = V_READY ∨ v_status v = V_FAILED ∨ v_status v = V_CANCELLED) && newer_ready vs v.

Definition supersede_ready_variants_once (now : Z) (lib : Lib) : Lib * Z :=
  (update_variants (to_mark (lb_variants lib)) (with_deleted now) lib,
   Z.of_nat (length (filter (λ v, to_mark (lb_variants lib) v = true) (lb_variants lib)))).

(** [DELETE FROM jobs WHERE p]; outbox rows go with their job. *)
Definition delete_jobs (p : Job → bool) (st : JobStore) : JobStore :=
  mkStore (filter (λ kv, p kv.2 = false) (js_jobs st))
          (filter (λ o, match js_jobs st !! o_job_id o with Some j => negb (p j) | None => true end = true) (js_outbox st)).

Definition transcodes (vid : uuid) (j : Job) : bool :=
  bool_decide (j_type j = VARIANT_TRANSCODE) && bool_decide (j_target_id j = vid).
Definition active_where (p : Job → bool) (lib : Lib) : nat := count_where (λ j, is_active (j_status j) && p j) (lb_jobs lib).

Definition variant_path (filename : string) : string := "variants/" +:+ filename.

(** [unlink_ok path]: the local file can be removed.  Failures are swallowed. *)
Definition unlink (unlink_ok : string → bool) (path : string) (lib : Lib) : Lib :=
  if unlink_ok path then set_files (lb_files lib ∖ {[path]}) lib else lib.

(** The loop body; [commit_ok] says whether the transaction succeeds. *)
Definition reap_variant (unlink_ok : string → bool) (commit_ok : uuid → bool) (s : Lib * Z) (v : AssetVariant) : Lib * Z :=
  if Nat.eqb (active_where (transcodes (v_id v)) s.1) 0 then
    let lib1 := unlink unlink_ok (variant_path (v_filename v)) s.1 in
    if commit_ok (v_id v) then
      (set_store (delete_jobs (transcodes (v_id v)) (lb_store lib1))
         (set_variants (filter (λ u, v_id u ≠ v_id v) (lb_variants lib1)) lib1), s.2 + 1)
    else (lib1, s.2)
  else s.

Definition reap_superseded_variants_once (unlink_ok : string → bool) (commit_ok : uuid → bool) (lib : Lib) : Lib * Z :=
  fold_left (reap_variant unlink_ok commit_ok) (filter (λ v, is_live v = false) (lb_variants lib)) (lib, 0).

(** ** Deleted assets *)

(** The jobs on an asset: its capture and the transcodes of its variants. *)
Definition job_of_asset (aid : uuid) (variant_ids : list uuid) (j : Job) : bool :=
  (bool_decide (j_type j = STREAM_CAPTURE) && bool_decide (j_target_id j = aid)) ||
  (bool_decide (j_type j = VARIANT_TRANSCODE) && bool_decide (j_target_id j ∈ variant_ids)).
Definition variant_ids_of (aid : uuid) (lib : Lib) : list uuid := v_id <$> variants_of (lb_media lib) aid.

Definition slide_source (s : SlideshowSlide) : option uuid :=
  match sl_kind s with K_ASSET src => src | K_TAG _ => None end.
Definition references (aid : uuid) (s : SlideshowSlide) : bool := bool_decide (slide_source s = Some aid).
Definition scheduled (aid : uuid) (s : Schedule) : bool := bool_decide (a_id <$> s_asset s = Some aid).

(** The foreign keys that refuse the deletion of an asset row: schedules and
    the slides of other decks (RESTRICT); a deck's own slides cascade. *)
Definition fk_blocked (aid : uuid) (lib : Lib) : bool :=
  existsb (scheduled aid) (lb_schedules lib) ||
  existsb (λ s, references aid s && negb (bool_decide (sl_slideshow_asset_id s = aid))) (m_slides (lb_media lib)).

Definition clear_ref (aid : uuid) (r : option uuid) : option uuid := if bool_decide (r = Some aid) then None else r.

(** The deletes and updates of the transaction, with what cascades. *)
Definition hard_delete_asset (aid : uuid) (lib : Lib) : Lib :=
  let m := lb_media lib in
  mkLib (lb_profiles lib)
    (mkMedia (filter (λ a, a_id a ≠ aid) (m_assets m))
             (filter (λ v, v_source_asset_id v ≠ aid) (m_variants m))
             (filter (λ s, sl_slideshow_asset_id s ≠ aid) (m_slides m))
             (filter (λ t, at_asset_id t ≠ aid) (m_asset_tags m))
             (filter (λ c, c.1 ≠ aid) (m_composed m)))
    (delete_jobs (job_of_asset aid (variant_ids_of aid lib)) (lb_store lib))
    (lb_notes lib) (lb_schedules lib)
    ((λ d, mkDevRow (dr_id d) (dr_profile_id d) (clear_ref aid (dr_default_asset_id d))) <$> lb_devices lib)
    ((λ g, (g.1, clear_ref aid g.2)) <$> lb_group_defaults lib)
    (filter (λ da, da.2 ≠ aid) (lb_device_assets lib))
    (filter (λ ga, ga.2 ≠ aid) (lb_group_assets lib))
    (lb_files lib).

(** The files of an asset: its own, the original and the variants'. *)
Definition asset_paths (a : Asset) (lib : Lib) : list string :=
  [a_filename a] ++
  match truthy (a_original_filename a) with Some o => ["originals/" +:+ o] | None => [] end ++
  ((λ v, variant_path (v_filename v)) <$> variants_of (lb_media lib) (a_id a)).

(** The loop body: files first, then the transaction. *)
Definition reap_asset (unlink_ok : string → bool) (commit_ok : uuid → bool) (s : Lib * Z) (a : Asset) : Lib * Z :=
  if Nat.eqb (active_where (job_of_asset (a_id a) (variant_ids_of (a_id a) s.1)) s.1) 0 then
    let lib1 := fold_left (λ l path, unlink unlink_ok path l) (asset_paths a s.1) s.1 in
    if commit_ok (a_id a) && negb (fk_blocked (a_id a) s.1) then (hard_delete_asset (a_id a) lib1, s.2 + 1)
    else (lib1, s.2)
  else s.

Definition reap_deleted_assets_once (unlink_ok : string → bool) (commit_ok : uuid → bool) (lib : Lib) : Lib * Z :=
  fold_left (reap_asset unlink_ok commit_ok) (filter (λ a, a_deleted_at a ≠ None) (lb_assets lib)) (lib, 0).

(** The user of the request: [None] is an administrator, otherwise whether the
    user uploaded the asset. *)
Definition cancel_deleted (j : Job) : Job :=
  mkJob (j_id j) (j_type j) (j_target_id j) J_CANCELLED (j_retry_count j) "Asset deleted by user" (j_created_at j)
        (j_completed_at j) (j_heartbeat_at j) true.

Definition schedule_ended (now : Z) (s : Schedule) : bool :=
  match s_end_date s with None => false | Some e => dt_us e - EPOCH_ORDINAL * DAY_US <? now end.

Definition delete_asset (now : Z) (owner : option bool) (aid : uuid) (lib : Lib) : result exn Lib :=
  match find_asset aid lib with
  | None => Err (HTTPException 404)
  | Some asset =>
      if negb (bool_decide (a_deleted_at asset = None)) then Err (HTTPException 404)
      else if bool_decide (owner = Some false) then Err (HTTPException 403)
      else if bool_decide (a_asset_type asset = IMAGE ∨ a_asset_type asset = VIDEO) &&
              existsb (references aid) (m_slides (lb_media lib)) then Err (HTTPException 409)
      else if existsb (λ s, scheduled aid s && negb (schedule_ended now s)) (lb_schedules lib) then Err (HTTPException 409)
      else
        let lib1 := set_schedule_rows (filter (λ s, scheduled aid s = false) (lb_schedules lib)) lib in
        let lib2 := set_assets ((λ a, if bool_decide (a_id a = aid) then delete_at now a else a) <$> lb_assets lib1) lib1 in
        Ok (set_jobs ((λ j, if is_active (j_status j) && job_of_asset aid (variant_ids_of aid lib2) j
                            then cancel_deleted j else j) <$> lb_jobs lib2) lib2)
  end.

(** ** Repair and notification *)

Definition TRANSCODE_FAIL_NOTIFICATION_TITLE : string := "Transcode failed".

(** [ORDER BY created_at DESC, id DESC]. *)
Definition later_job (x y : uuid * Job) : bool :=
  (j_created_at y.2 <? j_created_at x.2) || ((j_created_at x.2 =? j_created_at y.2) && negb (x.1 <s y.1)).
Definition newest_job (vid : uuid) (jobs : gmap uuid Job) : option Job :=
  snd <$> head (sort_on later_job (filter (λ kv, transcodes vid kv.2 = true) (map_to_list jobs))).

(** What the newest job says about a variant without active job. *)
Definition repair_of (newest : option Job) : option (VariantStatus * string) :=
  match newest with
  | None => None
  | Some j =>
      match j_status j with
      | J_CANCELLED => Some (V_CANCELLED, str_or (Some (j_error_message j)) (Some "cancelled") or_else "")
      | J_FAILED => if MAX_JOB_RETRIES <? j_retry_count j
                    then Some (V_FAILED, str_or (Some (j_error_message j)) (Some "job exceeded retry limit") or_else "")
                    else None
      | _ => None
      end
  end.

Definition stranded (lib : Lib) (v : AssetVariant) : bool :=
  is_live v && is_inflight v &&
  match find_asset (v_source_asset_id v) lib with Some a => bool_decide (a_deleted_at a = None) | None => false end &&
  Nat.eqb (active_where (transcodes (v_id v)) lib) 0.

Definition stranded_candidates (limit : nat) (lib : Lib) : list AssetVariant :=
  take limit (sort_by v_created_at (filter (λ v, stranded lib v = true) (lb_variants lib))).

Definition apply_repair (r : VariantStatus * string) (v : AssetVariant) : AssetVariant :=
  with_status r.1 (with_error (String.substring 0 2000 r.2) v).

(** The loop body; the UPDATE asks again for a non-terminal variant. *)
Definition repair_step (s : Lib * Z) (c : AssetVariant) : Lib * Z :=
  match repair_of (newest_job (v_id c) (lb_jobs s.1)) with
  | None => s
  | Some r =>
      let hit (v : AssetVariant) := bool_decide (v_id v = v_id c) && is_inflight v in
      if existsb hit (lb_variants s.1) then (update_variants hit (apply_repair r) s.1, s.2 + 1) else s
  end.

Definition reconcile_stranded_variants_once (limit : nat) (lib : Lib) : Lib * Z :=
  fold_left repair_step (stranded_candidates limit lib) (lib, 0).

Definition failed_rows (lib : Lib) : list AssetVariant :=
  filter (λ v, v_status v = V_FAILED ∧ is_live v = true) (lb_variants lib).
Definition tagged_variant (n : TNote) : option string := d ← tn_details n; aget "variant_id" d.
Definition is_fail_note (n : TNote) : bool := bool_decide (tn_title n = TRANSCODE_FAIL_NOTIFICATION_TITLE).

Definition stale_note (lib : Lib) (n : TNote) : bool :=
  is_fail_note n && match tagged_variant n with Some vid => negb (bool_decide (vid ∈ v_id <$> failed_rows lib)) | None => false end.
Definition notified (lib : Lib) (vid : uuid) : bool :=
  existsb (λ n, is_fail_note n && bool_decide (tagged_variant n = Some vid)) (lb_notes lib).

Definition fail_note (lib : Lib) (v : AssetVariant) : TNote :=
  let filename := str_or (a_filename <$> find_asset (v_source_asset_id v) lib) (Some "asset") or_else "" in
  mkTNote "system" "error" TRANSCODE_FAIL_NOTIFICATION_TITLE ("Transcoding failed for " +:+ filename +:+ ".")
    (Some [("variant_id", v_id v); ("asset_id", v_source_asset_id v); ("filename", filename);
           ("error", String.substring 0 500 (v_error_message v))]).

Definition reconcile_transcode_failure_notifications_once (lib : Lib) : Lib * Z :=
  let to_create := filter (λ v, notified lib (v_id v) = false) (failed_rows lib) in
  (set_notes (filter (λ n, stale_note lib n = false) (lb_notes lib) ++ (fail_note lib <$> to_create)) lib,
   Z.of_nat (length to_create)).

(** One tick of [deleted_asset_reaper_loop] under its lock. *)
Definition reaper_tick (unlink_ok : string → bool) (commit_ok : uuid → bool) (now : Z) (lib : Lib) : Lib :=
  let lib1 := (reap_deleted_assets_once unlink_ok commit_ok lib).1 in
  let lib2 := (reconcile_stranded_variants_once 100 lib1).1 in
  let lib3 := (supersede_ready_variants_once now lib2).1 in
  let lib4 := (reap_superseded_variants_once unlink_ok commit_ok lib3).1 in
  (reconcile_transcode_failure_notifications_once lib4).1.

(** ** Specification *)

(** The file the resolvers hand out for an asset under a profile
    ([ORDER BY created_at DESC LIMIT 1] over the live READY variants). *)
Definition ready_for (aid pid : uuid) (v : AssetVariant) : bool :=
  bool_decide (v_source_asset_id v = aid) && bool_decide (v_profile_id v = pid) && is_ready v && is_live v.
Definition latest_ready (aid pid : uuid) (vs : list AssetVariant) : option AssetVariant :=
  head (sort_by (λ v, - v_created_at v) (filter (λ v, ready_for aid pid v = true) vs)).

(** A variant without a job that will still work on it. *)
Definition idle (lib : Lib) (vid : uuid) : Prop :=
  ∀ jid j, lb_jobs lib !! jid = Some j → is_active (j_status j) = true → transcodes vid j = false.

(** What the repair pass makes of one row. *)
Definition repaired (lib : Lib) (v : AssetVariant) : AssetVariant :=
  if stranded lib v then
    match repair_of (newest_job (v_id v) (lb_jobs lib)) with Some r => apply_repair r v | None => v end
  else v.

(** ** Small libraries

    A profile for screens and one for thumbnails, files by type, fresh ids by
    number: the inputs of examples. *)

Definition wall_profile : DeviceProfile :=
  mkProfile "p" "wall" "" "h264" "main" 1920 1080 30 "" 23 "auto" "auto" "aac" "128k" false "device" true.
Definition thumbnail_profile : DeviceProfile :=
  mkProfile "t" "thumbnail" "" "h264" "main" 480 480 1 "" 23 "auto" "auto" "aac" "128k" true "thumbnail" true.
Definition asset_of (t : AssetType) (id ext : uuid) : Asset :=
  mkAsset id (id +:+ ext) None None t 1000 "c0ffee" None None false None None.
Definition picture (id : uuid) : Asset := asset_of IMAGE id ".jpg".

Definition workshop (assets : list Asset) (slides : list SlideshowSlide) : Lib :=
  mkLib [wall_profile; thumbnail_profile] (mkMedia assets [] slides [] []) (mkStore ∅ []) [] [] [] [] [] []
        (list_to_set (a_filename <$> assets)).

(** Ids [x0], [x1], ... *)
Definition numbered (x : string) (n : nat) : uuid := x +:+ Z_str (Z.of_nat n).
Definition numbered2 (x : string) (n : nat) : uuid * uuid := (numbered x n, numbered ("o" +:+ x) n).

(** ** Lemmas *)

Lemma numbered_inj x n m : numbered x n = numbered x m → n = m.
Proof. intros E%str_app_inj_l. apply Z_str_inj in E; lia. Qed.

Lemma active_where_0 p lib :
  Nat.eqb (active_where p lib) 0 = true ↔
  ∀ jid j, lb_jobs lib !! jid = Some j → is_active (j_status j) = true → p j = false.
Proof.
  rewrite Nat.eqb_eq. unfold active_where, count_where. rewrite length_zero_iff_nil, rows_where_nil.
  split; intros H jid j Hj.
  - intros Ha. specialize (H jid j Hj). by rewrite Ha in H.
  - destruct (is_active _) eqn:Ha; [|done]. by eapply H.
Qed.

Lemma ready_for_spec aid pid v :
  ready_for aid pid v = true ↔
  v_source_asset_id v = aid ∧ v_profile_id v = pid ∧ v_status v = V_READY ∧ v_deleted_at v = None.
Proof.
  unfold ready_for, is_ready, is_live. rewrite !andb_true_iff, !bool_decide_eq_true. tauto.
Qed.

Lemma newer_ready_spec vs v :
  newer_ready vs v = true ↔
  ∃ u, u ∈ vs ∧ ready_for (v_source_asset_id v) (v_profile_id v) u = true ∧ v_created_at v < v_created_at u.
Proof.
  unfold newer_ready. rewrite existsb_exists. split.
  - intros (u & Hu & [Hr Hc%Z.ltb_lt]%andb_true_iff). exists u. by rewrite list_elem_of_In.
  - intros (u & Hu & Hr & Hc%Z.ltb_lt). exists u. split; [by apply list_elem_of_In|]. by apply andb_true_iff.
Qed.

Lemma latest_ready_Some aid pid vs v :
  latest_ready aid pid vs = Some v →
  v ∈ vs ∧ ready_for aid pid v = true ∧
  ∀ u, u ∈ vs → ready_for aid pid u = true → v_created_at u ≤ v_created_at v.
Proof.
  unfold latest_ready. intros (l1 & l2 & Hl & H1 & H2)%head_sort_by.
  assert (v ∈ filter (λ v, ready_for aid pid v = true) vs) as [Hr Hv]%list_elem_of_filter.
  { rewrite Hl. apply elem_of_app. right. left. }
  split; [done|]. split; [done|]. intros u Hu Hur.
  assert (u ∈ filter (λ v, ready_for aid pid v = true) vs) as Hin by by apply list_elem_of_filter.
  rewrite Hl in Hin. apply elem_of_app in Hin as [Hin|[->|Hin]%elem_of_cons]; [specialize (H1 u Hin)|lia|specialize (H2 u Hin)]; lia.
Qed.

Lemma latest_ready_None aid pid vs u : latest_ready aid pid vs = None → u ∈ vs → ready_for aid pid u = false.
Proof.
  intros Hn%head_sort_by_None Hu. apply not_true_iff_false. intros Hr.
  assert (u ∈ filter (λ v, ready_for aid pid v = true) vs) as Hin by by apply list_elem_of_filter.
  rewrite Hn in Hin. by apply elem_of_nil in Hin.
Qed.

(** Steps on other rows: a row map that keeps the live READY rows as they are
    and makes no new ones keeps the choice. *)
Lemma latest_ready_fmap aid pid (f : AssetVariant → AssetVariant) vs :
  (∀ v, v ∈ vs → ready_for aid pid v = true → f v = v) →
  (∀ v, v ∈ vs → ready_for aid pid (f v) = true → ready_for aid pid v = true) →
  latest_ready aid pid (f <$> vs) = latest_ready aid pid vs.
Proof.
  intros Hkeep Hnew. unfold latest_ready. f_equal. f_equal.
  induction vs as [|v vs IH]; [done|]. rewrite fmap_cons, !filter_cons.
  assert (IH' : filter (λ v, ready_for aid pid v = true) (f <$> vs) = filter (λ v, ready_for aid pid v = true) vs)
    by (apply IH; intros u Hu Hr; [apply Hkeep|apply (Hnew u)]; first [done | by right]).
  rewrite IH'. destruct (decide (ready_for aid pid v = true)) as [Hr|Hr].
  - rewrite (Hkeep v); [by rewrite decide_True|by left|done].
  - rewrite decide_False; [done|]. intros H. apply Hr, (Hnew v); [by left|done].
Qed.

Lemma latest_ready_filter aid pid (P : AssetVariant → Prop) `{!∀ v, Decision (P v)} vs :
  (∀ v, v ∈ vs → ready_for aid pid v = true → P v) →
  latest_ready aid pid (filter P vs) = latest_ready aid pid vs.
Proof.
  intros Hkeep. unfold latest_ready. f_equal. f_equal. induction vs as [|v vs IH]; [done|].
  rewrite !filter_cons. rewrite <-IH by (intros u Hu; apply Hkeep; by right). clear IH.
  destruct (decide (P v)); rewrite ?filter_cons; case_decide as Hr; try done.
  exfalso. apply (Hkeep v) in Hr; [done|by left].
Qed.

(** Marking superseded rows keeps the choice. *)
Lemma latest_ready_mark aid pid now vs :
  latest_ready aid pid ((λ v, if to_mark vs v then with_deleted now v else v) <$> vs) = latest_ready aid pid vs.
Proof.
  unfold latest_ready.
  assert (Hf : ∀ l : list AssetVariant, filter (λ v, ready_for aid pid v = true) ((λ v, if to_mark vs v then with_deleted now v else v) <$> l)
               = filter (λ v, to_mark vs v = false) (filter (λ v, ready_for aid pid v = true) l)).
  { induction l as [|v l IH]; [done|]. rewrite fmap_cons, !filter_cons, IH.
    destruct (to_mark vs v) eqn:Hm.
    - rewrite (decide_False (P := ready_for aid pid (with_deleted now v) = true)).
      2:{ rewrite ready_for_spec. simpl. naive_solver. }
      case_decide; [|done]. rewrite filter_cons, decide_False; [done|]. by rewrite Hm.
    - case_decide; [|done]. rewrite filter_cons, decide_True; done. }
  rewrite Hf. apply head_sort_by_filter. intros v [Hr Hv]%list_elem_of_filter Hm.
  apply not_false_iff_true in Hm. unfold to_mark in Hm. apply andb_true_iff in Hm as [_ Hn].
  apply newer_ready_spec in Hn as (u & Hu & Hur & Hlt). exists u.
  apply ready_for_spec in Hr as (<- & <- & _ & _). split; [by apply list_elem_of_filter|lia].
Qed.

(** Projections of updated states. *)
Lemma lb_variants_update p f lib : lb_variants (update_variants p f lib) = (λ v, if p v then f v else v) <$> lb_variants lib.
Proof. done. Qed.
Lemma lb_variants_set vs lib : lb_variants (set_variants vs lib) = vs.
Proof. done. Qed.
Lemma lb_variants_unlink ok path lib : lb_variants (unlink ok path lib) = lb_variants lib.
Proof. unfold unlink. by case_match. Qed.
Lemma lb_assets_unlink ok path lib : lb_assets (unlink ok path lib) = lb_assets lib.
Proof. unfold unlink. by case_match. Qed.

(** Unlinking files touches nothing else. *)
Lemma unlink_files ok paths lib :
  fold_left (λ l path, unlink ok path l) paths lib = set_files (lb_files (fold_left (λ l path, unlink ok path l) paths lib)) lib.
Proof.
  revert lib. induction paths as [|p ps IH]; intros lib; simpl; [by destruct lib|].
  rewrite IH. unfold unlink at 3. by case_match.
Qed.

(** A pass of the reaper over the assets: it keeps the rows of every other asset. *)
Lemma reap_asset_variants ok cok s a :
  lb_variants (reap_asset ok cok s a).1 = lb_variants s.1 ∨
  lb_variants (reap_asset ok cok s a).1 = filter (λ v, v_source_asset_id v ≠ a_id a) (lb_variants s.1).
Proof.
  unfold reap_asset. destruct (Nat.eqb _ _); [|by left]. rewrite unlink_files.
  destruct (_ && _); [by right|by left].
Qed.

Lemma reap_assets_variants ok cok lib aid pid :
  (∀ a, a ∈ lb_assets lib → a_id a = aid → a_deleted_at a = None) → NoDup (v_id <$> lb_variants lib) →
  let lib' := (reap_deleted_assets_once ok cok lib).1 in
  latest_ready aid pid (lb_variants lib') = latest_ready aid pid (lb_variants lib) ∧ NoDup (v_id <$> lb_variants lib').
Proof.
  intros Hlive Hnd. unfold reap_deleted_assets_once.
  apply (fold_left_inv (reap_asset ok cok) (λ s, latest_ready aid pid (lb_variants s.1) = latest_ready aid pid (lb_variants lib)
           ∧ NoDup (v_id <$> lb_variants s.1))); [done|].
  intros s a [Hdel Ha]%list_elem_of_filter [Hs Hsd].
  destruct (reap_asset_variants ok cok s a) as [->| ->]; [done|]. split; [|by apply NoDup_fmap_filter].
  rewrite <-Hs. apply latest_ready_filter. intros v _ (<- & _)%ready_for_spec Heq. by apply Hdel, Hlive.
Qed.

(** Rows map to rows of the same key. *)
Lemma fmap_ids (f : AssetVariant → AssetVariant) (vs : list AssetVariant) : (∀ v, v_id (f v) = v_id v) → v_id <$> (f <$> vs) = v_id <$> vs.
Proof. intros H. rewrite <-list_fmap_compose. apply list_fmap_ext. intros i v _. apply H. Qed.

Lemma update_ids p f lib : (∀ v, v_id (f v) = v_id v) → v_id <$> lb_variants (update_variants p f lib) = v_id <$> lb_variants lib.
Proof. intros H. rewrite lb_variants_update. apply fmap_ids. intros v. by destruct (p v). Qed.

Lemma repair_of_status newest r : repair_of newest = Some r → r.1 = V_CANCELLED ∨ r.1 = V_FAILED.
Proof.
  unfold repair_of. destruct newest as [j|]; [|done].
  destruct (j_status j); try done; [case_match; [|done]|]; intros [= <-]; [by right|by left].
Qed.

(** A repair leaves every READY row as it is and makes none. *)
Lemma repair_step_keeps s c aid pid :
  latest_ready aid pid (lb_variants (repair_step s c).1) = latest_ready aid pid (lb_variants s.1) ∧
  v_id <$> lb_variants (repair_step s c).1 = v_id <$> lb_variants s.1.
Proof.
  unfold repair_step. destruct (repair_of _) as [r|] eqn:Hr; [|done]. apply repair_of_status in Hr.
  destruct (existsb _ _); [|done]. cbn [fst]. split; [|by apply update_ids].
  rewrite lb_variants_update. apply latest_ready_fmap; intros v _.
  - intros (_ & _ & Hst & _)%ready_for_spec. unfold is_inflight. rewrite Hst. by rewrite andb_false_r.
  - destruct (_ && _); [|done]. intros (_ & _ & Hst & _)%ready_for_spec. simpl in Hst. destruct Hr; congruence.
Qed.

Lemma repair_keeps limit lib aid pid :
  let lib' := (reconcile_stranded_variants_once limit lib).1 in
  latest_ready aid pid (lb_variants lib') = latest_ready aid pid (lb_variants lib) ∧
  v_id <$> lb_variants lib' = v_id <$> lb_variants lib.
Proof.
  unfold reconcile_stranded_variants_once.
  apply (fold_left_inv repair_step (λ s, latest_ready aid pid (lb_variants s.1) = latest_ready aid pid (lb_variants lib)
           ∧ v_id <$> lb_variants s.1 = v_id <$> lb_variants lib)); [done|].
  intros s c _ [H1 H2]. destruct (repair_step_keeps s c aid pid) as [H3 H4]. split; congruence.
Qed.

(** After the sweep every live READY row of a pair is among the newest. *)
Lemma sweep_newest now lib aid pid u v :
  let vs := lb_variants (supersede_ready_variants_once now lib).1 in
  u ∈ vs → v ∈ vs → ready_for aid pid u = true → ready_for aid pid v = true → v_created_at u ≤ v_created_at v.
Proof.
  simpl. rewrite lb_variants_update. intros (u0 & -> & Hu)%list_elem_of_fmap (v0 & -> & Hv)%list_elem_of_fmap.
  destruct (to_mark _ u0) eqn:Hmu; [by intros (_ & _ & _ & [=])%ready_for_spec|].
  destruct (to_mark _ v0) eqn:Hmv; [by intros _ (_ & _ & _ & [=])%ready_for_spec|].
  intros Hru Hrv. apply Z.le_ngt. intros Hlt. apply not_true_iff_false in Hmv. apply Hmv.
  pose proof Hrv as (Hs & Hp & Hst & Hd)%ready_for_spec. unfold to_mark, is_live.
  rewrite !bool_decide_eq_true_2 by tauto. simpl. apply newer_ready_spec. exists u0. subst. done.
Qed.

Lemma reap_variant_variants ok cok s v :
  lb_variants (reap_variant ok cok s v).1 = lb_variants s.1 ∨
  lb_variants (reap_variant ok cok s v).1 = filter (λ u, v_id u ≠ v_id v) (lb_variants s.1).
Proof.
  unfold reap_variant. destruct (Nat.eqb _ _); [|by left].
  destruct (cok _); simpl; rewrite ?lb_variants_set, ?lb_variants_unlink; [by right|by left].
Qed.

Lemma reap_variants_keeps ok cok lib aid pid :
  NoDup (v_id <$> lb_variants lib) →
  let lib' := (reap_superseded_variants_once ok cok lib).1 in
  latest_ready aid pid (lb_variants lib') = latest_ready aid pid (lb_variants lib) ∧
  (∀ v, v ∈ lb_variants lib' → v ∈ lb_variants lib).
Proof.
  intros Hnd. unfold reap_superseded_variants_once.
  apply (fold_left_inv (reap_variant ok cok) (λ s, latest_ready aid pid (lb_variants s.1) = latest_ready aid pid (lb_variants lib)
           ∧ ∀ v, v ∈ lb_variants s.1 → v ∈ lb_variants lib)); [done|].
  intros s v [Hdel Hv]%list_elem_of_filter [Hs Hsub].
  destruct (reap_variant_variants ok cok s v) as [->| ->]; [done|]. split.
  - rewrite <-Hs. apply latest_ready_filter. intros u Hu (_ & _ & _ & Hlive)%ready_for_spec Heq.
    assert (u = v) as -> by (eapply (NoDup_fmap_eq v_id); eauto).
    unfold is_live in Hdel. by rewrite bool_decide_eq_true_2 in Hdel.
  - intros u [_ Hu]%list_elem_of_filter. auto.
Qed.

(** ** The reaper *)

Lemma reap_variants_ids ok cok lib :
  NoDup (v_id <$> lb_variants lib) → NoDup (v_id <$> lb_variants (reap_superseded_variants_once ok cok lib).1).
Proof.
  intros Hnd. apply (fold_left_inv (reap_variant ok cok) (λ s, NoDup (v_id <$> lb_variants s.1))); [done|].
  intros s v _ Hs. destruct (reap_variant_variants ok cok s v) as [->| ->]; [done|by apply NoDup_fmap_filter].
Qed.

(** The stages of a tick together. *)
Lemma reaper_tick_choice ok cok now lib aid pid :
  NoDup (v_id <$> lb_variants lib) → (∀ a, a ∈ lb_assets lib → a_id a = aid → a_deleted_at a = None) →
  let lib' := reaper_tick ok cok now lib in
  latest_ready aid pid (lb_variants lib') = latest_ready aid pid (lb_variants lib) ∧
  NoDup (v_id <$> lb_variants lib') ∧
  ∃ lib2, ∀ v, v ∈ lb_variants lib' → v ∈ lb_variants (supersede_ready_variants_once now lib2).1.
Proof.
  intros Hnd Hlive lib'.
  destruct (reap_assets_variants ok cok lib aid pid Hlive Hnd) as [H1 Hnd1].
  set (lib1 := (reap_deleted_assets_once ok cok lib).1) in *.
  destruct (repair_keeps 100 lib1 aid pid) as [H2 Hid2].
  set (lib2 := (reconcile_stranded_variants_once 100 lib1).1) in *.
  assert (H3 := latest_ready_mark aid pid now (lb_variants lib2)).
  assert (Hnd3 : NoDup (v_id <$> lb_variants (supersede_ready_variants_once now lib2).1)).
  { simpl. rewrite update_ids by done. by rewrite Hid2. }
  destruct (reap_variants_keeps ok cok _ aid pid Hnd3) as [H4 Hsub].
  split; [|split; [|by exists lib2]].
  - unfold lib', reaper_tick. fold lib1 lib2. etrans; [exact H4|]. etrans; [exact H3|]. congruence.
  - by apply (reap_variants_ids ok cok) in Hnd3.
Qed.

(** A tick of the reaper never changes what a device is told to play: for an
    asset that is not deleted the newest ready variant of every profile is the
    same before and after, whatever fails on the way, and afterwards no older
    ready variant of the pair is left. *)
Theorem reaper_keeps_playback (unlink_ok : string → bool) (commit_ok : uuid → bool) (now : Z) (lib : Lib) (aid pid : uuid) :
  NoDup (v_id <$> lb_variants lib) → (∀ a, a ∈ lb_assets lib → a_id a = aid → a_deleted_at a = None) →
  let lib' := reaper_tick unlink_ok commit_ok now lib in
  latest_ready aid pid (lb_variants lib') = latest_ready aid pid (lb_variants lib) ∧
  ∀ u v, u ∈ lb_variants lib' → v ∈ lb_variants lib' →
    ready_for aid pid u = true → ready_for aid pid v = true → v_created_at u = v_created_at v.
Proof.
  intros Hnd Hlive lib'.
  destruct (reaper_tick_choice unlink_ok commit_ok now lib aid pid Hnd Hlive) as (H & _ & lib2 & Hsub).
  split; [exact H|]. intros u v Hu%Hsub Hv%Hsub Hru Hrv.
  apply Z.le_antisymm; by eapply (sweep_newest now lib2 aid pid).
Qed.

(** The reaper adds no asset. *)
Lemma reaper_assets ok cok now lib a : a ∈ lb_assets (reaper_tick ok cok now lib) → a ∈ lb_assets lib.
Proof.
  assert (H1 : ∀ a, a ∈ lb_assets (reap_deleted_assets_once ok cok lib).1 → a ∈ lb_assets lib).
  { apply (fold_left_inv (reap_asset ok cok) (λ s, ∀ a, a ∈ lb_assets s.1 → a ∈ lb_assets lib)); [done|].
    intros s b _ Hs c. unfold reap_asset. destruct (Nat.eqb _ _); [|apply Hs]. rewrite unlink_files.
    destruct (_ && _); [|apply Hs]. by intros [_ ?%Hs]%list_elem_of_filter. }
  set (lib1 := (reap_deleted_assets_once ok cok lib).1) in *.
  assert (H2 : lb_assets (reconcile_stranded_variants_once 100 lib1).1 = lb_assets lib1).
  { apply (fold_left_inv repair_step (λ s, lb_assets s.1 = lb_assets lib1)); [done|].
    intros s c _ Hs. unfold repair_step. destruct (repair_of _); [|done]. by destruct (existsb _ _). }
  intros Ha. apply H1. rewrite <-H2. revert Ha. unfold reaper_tick. fold lib1.
  set (lib2 := (reconcile_stranded_variants_once 100 lib1).1) in *.
  change (lb_assets lib2) with (lb_assets (supersede_ready_variants_once now lib2).1).
  generalize (supersede_ready_variants_once now lib2).1 as lib3. intros lib3.
  assert (H4 : lb_assets (reap_superseded_variants_once ok cok lib3).1 = lb_assets lib3).
  { apply (fold_left_inv (reap_variant ok cok) (λ s, lb_assets s.1 = lb_assets lib3)); [done|].
    intros s v _ Hs. unfold reap_variant. destruct (Nat.eqb _ _); [|done].
    rewrite <-Hs, <-(lb_assets_unlink ok (variant_path (v_filename v)) s.1). by destruct (cok _). }
  by rewrite <-H4.
Qed.

(** ** Repair of stranded variants *)

Definition repair_by_job (jobs : gmap uuid Job) (v : AssetVariant) : AssetVariant :=
  match repair_of (newest_job (v_id v) jobs) with Some r => apply_repair r v | None => v end.
Definition repairable (jobs : gmap uuid Job) (v : AssetVariant) : bool :=
  match repair_of (newest_job (v_id v) jobs) with Some _ => true | None => false end.

Lemma list_fmap_ext_in {A B} (f g : A → B) (l : list A) : (∀ x, x ∈ l → f x = g x) → f <$> l = g <$> l.
Proof.
  induction l as [|x l IH]; intros H; [done|]. rewrite !fmap_cons, (H x) by (by left).
  f_equal. apply IH. intros y Hy. apply H. by right.
Qed.

Lemma set_variants_twice vs vs' lib : set_variants vs (set_variants vs' lib) = set_variants vs lib.
Proof. done. Qed.
Lemma set_variants_same lib : set_variants (lb_variants lib) lib = lib.
Proof. by destruct lib as [? []]. Qed.

(** The loop over distinct rows in flight. *)
Lemma repair_loop cs lib n :
  NoDup (v_id <$> lb_variants lib) → NoDup (v_id <$> cs) →
  (∀ c, c ∈ cs → c ∈ lb_variants lib ∧ is_inflight c = true) →
  fold_left repair_step cs (lib, n) =
  (set_variants ((λ v, if bool_decide (v_id v ∈ v_id <$> cs) then repair_by_job (lb_jobs lib) v else v) <$> lb_variants lib) lib,
   n + Z.of_nat (length (filter (λ c, repairable (lb_jobs lib) c = true) cs))).
Proof.
  revert lib n. induction cs as [|c cs IH]; intros lib n Hnd Hcs Hin.
  { cbn [fold_left]. rewrite (list_fmap_ext_in _ id).
    - rewrite list_fmap_id, set_variants_same. f_equal. simpl. lia.
    - intros v _. rewrite bool_decide_eq_false_2 by apply not_elem_of_nil. done. }
  rewrite fmap_cons in Hcs. apply NoDup_cons in Hcs as [Hnin Hcs].
  destruct (Hin c) as [Hc Hf]; [by left|]. cbn [fold_left]. unfold repair_step at 2. cbn [fst snd].
  rewrite filter_cons. destruct (decide (repairable (lb_jobs lib) c = true)) as [Hp|Hp]; unfold repairable in Hp;
    destruct (repair_of (newest_job (v_id c) (lb_jobs lib))) as [r|] eqn:Hr; try done.
  - rewrite (proj2 (existsb_exists _ _)).
    2:{ exists c. split; [by apply list_elem_of_In|]. by rewrite bool_decide_eq_true_2, Hf. }
    set (hit := λ v, bool_decide (v_id v = v_id c) && is_inflight v).
    rewrite IH; [|by rewrite update_ids|done|].
    2:{ intros d Hd. destruct (Hin d) as [Hd1 Hd2]; [by right|]. split; [|done].
        rewrite lb_variants_update. apply list_elem_of_fmap. exists d. split; [|done].
        unfold hit. rewrite bool_decide_eq_false_2; [done|]. intros He. apply Hnin. rewrite <-He.
        by apply list_elem_of_fmap_2. }
    f_equal; [|cbn [length]; change (lb_jobs (update_variants hit (apply_repair r) lib)) with (lb_jobs lib); lia].
    change (lb_jobs (update_variants hit (apply_repair r) lib)) with (lb_jobs lib).
    unfold update_variants. rewrite set_variants_twice, lb_variants_set. f_equal.
    rewrite <-list_fmap_compose. apply list_fmap_ext_in. intros v Hv. unfold compose, hit.
    destruct (decide (v_id v = v_id c)) as [He|Hne].
    + assert (v = c) as -> by exact (NoDup_fmap_eq v_id _ _ _ Hnd Hv Hc He).
      rewrite (bool_decide_eq_true_2 (v_id c = v_id c)), Hf by done.
      change (v_id (if true && true then apply_repair r c else c)) with (v_id c).
      rewrite (bool_decide_eq_false_2 (v_id c ∈ v_id <$> cs)) by done.
      rewrite (bool_decide_eq_true_2 (v_id c ∈ v_id <$> c :: cs)) by left.
      unfold repair_by_job. by rewrite Hr.
    + rewrite (bool_decide_eq_false_2 (v_id v = v_id c)) by done. cbn [andb].
      rewrite (bool_decide_ext (v_id v ∈ v_id <$> c :: cs) (v_id v ∈ v_id <$> cs)); [done|].
      rewrite fmap_cons, elem_of_cons. tauto.
  - rewrite IH; [|done|done|intros d Hd; apply Hin; by right]. f_equal. f_equal. apply list_fmap_ext_in.
    intros v Hv. destruct (decide (v_id v = v_id c)) as [He|Hne].
    + rewrite (bool_decide_eq_false_2 (v_id v ∈ v_id <$> cs)) by (by rewrite He).
      rewrite bool_decide_eq_true_2 by (rewrite He; left). unfold repair_by_job. by rewrite He, Hr.
    + rewrite (bool_decide_ext (v_id v ∈ v_id <$> c :: cs) (v_id v ∈ v_id <$> cs)); [done|].
      rewrite fmap_cons, elem_of_cons. tauto.
Qed.

Lemma stranded_inflight lib v : stranded lib v = true → is_inflight v = true.
Proof. unfold stranded. intros H. by bool_to_prop. Qed.

(** The repair pass does in one go what its specification says row by row:
    every stranded variant (live, not finished, of a live asset, without active
    job) takes over the end of its newest job, if that was cancelled or ran out
    of retries; every other row, a READY one above all, and every job stay. *)
Theorem reconcile_stranded_exact (limit : nat) (lib : Lib) :
  NoDup (v_id <$> lb_variants lib) →
  (length (filter (λ v, stranded lib v = true) (lb_variants lib)) ≤ limit)%nat →
  reconcile_stranded_variants_once limit lib =
  (set_variants (repaired lib <$> lb_variants lib) lib,
   Z.of_nat (length (filter (λ v, repairable (lb_jobs lib) v = true) (stranded_candidates limit lib)))).
Proof.
  intros Hnd Hlim. unfold reconcile_stranded_variants_once.
  assert (Hperm : stranded_candidates limit lib ≡ₚ filter (λ v, stranded lib v = true) (lb_variants lib)).
  { unfold stranded_candidates. rewrite take_ge; [apply sort_by_Permutation|].
    by rewrite (Permutation_length (sort_by_Permutation _ _)). }
  rewrite repair_loop; [|done| |].
  - f_equal. f_equal. apply list_fmap_ext_in. intros v Hv. unfold repaired, repair_by_job.
    erewrite bool_decide_iff_eq; [done|]. rewrite Hperm, list_elem_of_fmap. split.
    + intros (u & Heq & [Hs Hu]%list_elem_of_filter). by rewrite (NoDup_fmap_eq v_id _ v u Hnd).
    + intros Hs. exists v. by rewrite list_elem_of_filter.
  - rewrite Hperm. by apply NoDup_fmap_filter.
  - intros c Hc. rewrite Hperm in Hc. apply list_elem_of_filter in Hc as [Hs Hc].
    split; [done|]. by eapply stranded_inflight.
Qed.

(** ** Recovery of stalled work *)

Lemma stalled_rows_spec locked now lib k j v :
  (k, j, v) ∈ stalled_rows locked now lib →
  lb_jobs lib !! k = Some j ∧ v ∈ lb_variants lib ∧ v_id v = j_target_id j ∧ indexed j = true ∧
  v_status v = V_PROCESSING ∧ v_deleted_at v = None ∧ stale now j = true ∧ locked k = false.
Proof.
  unfold stalled_rows. intros Hin%elem_of_take. destruct Hin as (i & Hi%list_elem_of_lookup_2 & _).
  rewrite sort_by_Permutation, list_elem_of_omap in Hi. destruct Hi as ([k' j'] & Hk%elem_of_map_to_list & Hr).
  unfold stalled_row in Hr. cbn [fst snd] in Hr. destruct (_ && negb _) eqn:Hc; [|done].
  destruct (find_variant _ _) as [v'|] eqn:Hv; [|done]. cbn [mbind option_bind] in Hr.
  destruct (_ && _) eqn:Hst in Hr; [|done]. unfold is_live in Hst. bool_to_prop. simplify_eq.
  unfold find_variant in Hv. apply fmap_Some in Hv as ([i' v''] & Hv & ->).
  apply list_find_Some in Hv as (Hl%list_elem_of_lookup_2 & Hid & _).
  unfold indexed, is_active. rewrite !bool_decide_eq_true_2 by tauto. done.
Qed.

Lemma close_job_status now j : is_active (j_status (close_job now j)) = false.
Proof. unfold close_job, finish. by destruct (j_cancel_requested j). Qed.

(** The closing loop on rows read from the table. *)
Lemma lookup_close_jobs now rows (jobs0 jobs : gmap uuid Job) k :
  (∀ r, r ∈ rows → jobs0 !! r.1.1 = Some r.1.2) →
  close_jobs now rows jobs !! k =
  if bool_decide (k ∈ (λ r, r.1.1) <$> rows) then close_job now <$> jobs0 !! k else jobs !! k.
Proof.
  unfold close_jobs. revert jobs. induction rows as [|r rows IH]; intros jobs Hr; cbn [fold_left].
  { by rewrite bool_decide_eq_false_2 by apply not_elem_of_nil. }
  rewrite IH by (intros r' Hr'; apply Hr; by right).
  destruct (decide (k ∈ (λ r, r.1.1) <$> rows)) as [Hk|Hk].
  { rewrite !bool_decide_eq_true_2; [done|by right|done]. }
  rewrite (bool_decide_eq_false_2 _ Hk). destruct (decide (k = r.1.1)) as [->|Hne].
  - rewrite lookup_insert_eq, bool_decide_eq_true_2 by left. by rewrite Hr by (by left).
  - rewrite lookup_insert_ne by done. rewrite bool_decide_eq_false_2; [done|].
    rewrite fmap_cons, elem_of_cons. tauto.
Qed.

Lemma close_jobs_index now rows (jobs : gmap uuid Job) : index_ok jobs → index_ok (close_jobs now rows jobs).
Proof.
  intros Hi. unfold close_jobs. apply (fold_left_inv _ (λ m, index_ok m)); [done|].
  intros m r _ Hm. apply index_ok_insert_inactive; [apply close_job_status|done].
Qed.

Lemma stalled_keys locked now lib r : r ∈ stalled_rows locked now lib → lb_jobs lib !! r.1.1 = Some r.1.2.
Proof. destruct r as [[k j] v]. intros H. by apply stalled_rows_spec in H as (? & _). Qed.

(** The partial index: the closed job is the only active one on its variant. *)
Lemma stalled_only locked now lib r k j :
  index_ok (lb_jobs lib) → r ∈ stalled_rows locked now lib → lb_jobs lib !! k = Some j →
  indexed j = true → j_target_id j = v_id r.2 → k ∈ (λ r, r.1.1) <$> stalled_rows locked now lib.
Proof.
  destruct r as [[k0 j0] v]. intros Hidx Hr Hj Hi Ht. pose proof (stalled_rows_spec _ _ _ _ _ _ Hr) as (Hk & _ & Hv & Hi0 & _).
  assert (k = k0) as -> by (eapply Hidx; eauto; simpl in Ht; congruence).
  apply list_elem_of_fmap. by exists (k0, j0, v).
Qed.

(** What the closing loop leaves of an old row. *)
Lemma lookup_closed locked now lib k j :
  lb_jobs lib !! k = Some j →
  close_jobs now (stalled_rows locked now lib) (lb_jobs lib) !! k =
  Some (if bool_decide (k ∈ (λ r, r.1.1) <$> stalled_rows locked now lib) then close_job now j else j).
Proof.
  intros Hj. rewrite (lookup_close_jobs now _ (lb_jobs lib)) by apply stalled_keys. rewrite Hj. by case_bool_decide.
Qed.

Lemma closed_None locked now lib k :
  lb_jobs lib !! k = None → close_jobs now (stalled_rows locked now lib) (lb_jobs lib) !! k = None.
Proof.
  intros Hj. rewrite (lookup_close_jobs now _ (lb_jobs lib)) by apply stalled_keys. rewrite Hj. by case_bool_decide.
Qed.

(** After the closing loop no old job of a stalled variant is active. *)
Lemma closed_inactive locked now lib r k j j' :
  index_ok (lb_jobs lib) → r ∈ stalled_rows locked now lib → lb_jobs lib !! k = Some j →
  close_jobs now (stalled_rows locked now lib) (lb_jobs lib) !! k = Some j' →
  transcodes (v_id r.2) j' = true → is_active (j_status j') = true → False.
Proof.
  intros Hidx Hr Hj Hc Ht Ha. rewrite (lookup_closed _ _ _ _ _ Hj) in Hc. case_bool_decide as Hk; simplify_eq.
  - by rewrite close_job_status in Ha.
  - apply Hk. unfold transcodes in Ht. bool_to_prop. eapply stalled_only; [done..| |done].
    unfold indexed. rewrite Ha. by rewrite bool_decide_eq_true_2.
Qed.

Lemma recover_eq jgen locked now lib :
  let rows := stalled_rows locked now lib in
  let ids := (λ r, v_id r.2) <$> live_rows rows in
  let lib1 := set_jobs (close_jobs now rows (lb_jobs lib)) (set_variants (reset_variant rows <$> lb_variants lib) lib) in
  recover_stalled_variants_once jgen locked now lib =
  (r ← stage_jobs jgen now ((λ vid, (VARIANT_TRANSCODE, vid)) <$> ids) (lb_store lib1); Ok (set_store r.1 lib1, ids)).
Proof.
  intros rows ids lib1. unfold recover_stalled_variants_once. fold rows.
  destruct rows as [|r rest] eqn:Hr; [|done]. unfold ids, lib1. cbn [live_rows filter list_filter fmap list_fmap stage_jobs mbind result_bind].
  f_equal. f_equal. rewrite (list_fmap_ext_in _ id), list_fmap_id.
  - rewrite set_variants_same. by destruct lib as [? ? []].
  - intros v _. unfold reset_variant. simpl. done.
Qed.

(** C10. Recovery of stalled transcodes never fails and never leaves two workers
    on one variant: each stale job of the batch is closed, every other job
    stays, each of their variants that nobody cancelled gets exactly one new
    pending job in the same transaction, and a cancelled one gets none. *)
Theorem recover_stalled_exact (jgen : nat → uuid * uuid) (locked : uuid → bool) (now : Z) (lib : Lib) :
  index_ok (lb_jobs lib) → (∀ n m, (jgen n).1 = (jgen m).1 → n = m) → (∀ n, lb_jobs lib !! (jgen n).1 = None) →
  let rows := stalled_rows locked now lib in
  ∃ lib', recover_stalled_variants_once jgen locked now lib = Ok (lib', (λ r, v_id r.2) <$> live_rows rows) ∧
    index_ok (lb_jobs lib') ∧ lb_variants lib' = reset_variant rows <$> lb_variants lib ∧
    (∀ k j, lb_jobs lib !! k = Some j →
       lb_jobs lib' !! k = Some (if bool_decide (k ∈ (λ r, r.1.1) <$> rows) then close_job now j else j)) ∧
    (∀ r, r ∈ rows → j_cancel_requested r.1.2 = false →
       ∃ k j, lb_jobs lib !! k = None ∧ lb_jobs lib' !! k = Some j ∧ transcodes (v_id r.2) j = true ∧ j_status j = J_PENDING) ∧
    (∀ r, r ∈ rows → j_cancel_requested r.1.2 = true → idle lib' (v_id r.2)).
Proof.
  intros Hidx Hgen Hnew rows. rewrite recover_eq. fold rows.
  set (ids := (λ r, v_id r.2) <$> live_rows rows).
  set (lib1 := set_jobs _ _).
  assert (Hc : js_jobs (lb_store lib1) = close_jobs now rows (lb_jobs lib)) by done.
  destruct (stage_jobs_exact jgen now ((λ vid, (VARIANT_TRANSCODE, vid)) <$> ids) (lb_store lib1))
    as (st' & jobs & Heq & _ & _ & Hact & _ & Hold); [done|intros n; rewrite Hc; apply closed_None, Hnew|].
  rewrite Heq. cbn [mbind result_bind fst]. eexists. split; [done|].
  destruct (stage_jobs_table _ _ _ _ _ _ Heq) as [Hti Htab].
  change (lb_jobs (set_store st' lib1)) with (js_jobs st').
  split; [apply Hti; rewrite Hc; by apply close_jobs_index|]. split; [done|]. split; [|split].
  - intros k j Hj. apply Hold. rewrite Hc. by apply lookup_closed.
  - intros r Hr Hcan. destruct (Hact VARIANT_TRANSCODE (v_id r.2)) as (k & j & Hj & Hty & Htg & Ha).
    { apply list_elem_of_fmap. exists (v_id r.2). split; [done|]. apply list_elem_of_fmap. exists r.
      split; [done|]. by apply list_elem_of_filter. }
    assert (Htr : transcodes (v_id r.2) j = true) by (unfold transcodes; by rewrite !bool_decide_eq_true_2).
    exists k, j. destruct (lb_jobs lib !! k) as [j0|] eqn:Hk.
    + exfalso. eapply (closed_inactive locked now lib r k j0 j); [done..| |done|done].
      pose proof (lookup_closed locked now lib k j0 Hk) as Hl. rewrite Hl.
      pose proof (Hold k _ Hl) as Hl'. congruence.
    + split; [done|]. split; [done|]. split; [done|].
      destruct (Htab k j Hj) as [Hold'|(_ & ? & _)]; [|done]. rewrite Hc in Hold'. unfold rows in Hold'. by rewrite closed_None in Hold'.
  - intros r Hr Hcan k j Hj Ha. apply not_true_iff_false. intros Htr.
    change (js_jobs st' !! k = Some j) in Hj.
    destruct (Htab k j Hj) as [Hold'|(Hsp & _)].
    + rewrite Hc in Hold'. destruct (lb_jobs lib !! k) as [j0|] eqn:Hk.
      * by eapply (closed_inactive locked now lib r k j0 j).
      * unfold rows in Hold'. by rewrite closed_None in Hold'.
    + apply list_elem_of_fmap in Hsp as (vid & Hv & Hin). simplify_eq.
      apply list_elem_of_fmap in Hin as (r' & Htg & [Hcan' Hr']%list_elem_of_filter).
      unfold transcodes in Htr. apply andb_true_iff in Htr as [_ Htr%bool_decide_eq_true]. destruct r as [[k1 j1] v1], r' as [[k2 j2] v2].
      pose proof (stalled_rows_spec _ _ _ _ _ _ Hr) as (Hk1 & _ & Hv1 & Hi1 & _).
      pose proof (stalled_rows_spec _ _ _ _ _ _ Hr') as (Hk2 & _ & Hv2 & Hi2 & _).
      cbn [fst snd] in *. assert (k1 = k2) as -> by (eapply Hidx; eauto; congruence). simplify_eq. congruence.
Qed.

(** ** Deletion of assets *)

(** What the reaper's steps on other assets leave for the asset [aid]. *)
Record shrinks (aid : uuid) (lib lib' : Lib) : Prop := {
  sh_schedules : lb_schedules lib' = lb_schedules lib;
  sh_slides : ∀ s, s ∈ m_slides (lb_media lib') → s ∈ m_slides (lb_media lib);
  sh_jobs : lb_jobs lib' ⊆ lb_jobs lib;
  sh_assets : ∀ a, a ∈ lb_assets lib' → a ∈ lb_assets lib;
  sh_variants : variants_of (lb_media lib') aid = variants_of (lb_media lib) aid
}.

Lemma shrinks_refl aid lib : shrinks aid lib lib.
Proof. by split. Qed.
Lemma shrinks_trans aid l1 l2 l3 : shrinks aid l1 l2 → shrinks aid l2 l3 → shrinks aid l1 l3.
Proof.
  intros [E1 S1 J1 A1 V1] [E2 S2 J2 A2 V2].
  split; [congruence|auto|by trans (lb_jobs l2)|auto|congruence].
Qed.

Lemma shrinks_files aid fs lib : shrinks aid lib (set_files fs lib).
Proof. by split. Qed.

Lemma hard_delete_shrinks aid other lib : other ≠ aid → shrinks aid lib (hard_delete_asset other lib).
Proof.
  intros Hne. split; simpl.
  - done.
  - by intros s [_ ?]%list_elem_of_filter.
  - apply map_filter_subseteq.
  - by intros a [_ ?]%list_elem_of_filter.
  - unfold variants_of. simpl. rewrite list_filter_filter. apply list_filter_iff. intros v. naive_solver.
Qed.

Lemma reap_asset_shrinks ok cok s a aid : a_id a ≠ aid → shrinks aid s.1 (reap_asset ok cok s a).1.
Proof.
  intros Hne. unfold reap_asset. destruct (Nat.eqb _ _); [|apply shrinks_refl]. rewrite unlink_files.
  destruct (_ && _); [|apply shrinks_files].
  eapply shrinks_trans; [apply shrinks_files|by apply hard_delete_shrinks].
Qed.

(** Nothing of the asset is left. *)
Record asset_gone (aid : uuid) (lib : Lib) : Prop := {
  ag_asset : ∀ a, a ∈ lb_assets lib → a_id a ≠ aid;
  ag_variants : variants_of (lb_media lib) aid = [];
  ag_slides : ∀ s, s ∈ m_slides (lb_media lib) → sl_slideshow_asset_id s ≠ aid;
  ag_tags : ∀ t, t ∈ m_asset_tags (lb_media lib) → at_asset_id t ≠ aid;
  ag_defaults : ∀ d, d ∈ lb_devices lib → dr_default_asset_id d ≠ Some aid;
  ag_group_defaults : ∀ g, g ∈ lb_group_defaults lib → g.2 ≠ Some aid;
  ag_device_assets : ∀ x, x ∈ lb_device_assets lib → x.2 ≠ aid;
  ag_group_assets : ∀ x, x ∈ lb_group_assets lib → x.2 ≠ aid
}.

Lemma clear_ref_spec aid other r : clear_ref other r = Some aid → r = Some aid ∧ other ≠ aid.
Proof. unfold clear_ref. case_bool_decide; naive_solver. Qed.

Lemma hard_delete_gone aid lib : asset_gone aid (hard_delete_asset aid lib).
Proof.
  split; simpl.
  - by intros a [? _]%list_elem_of_filter.
  - unfold variants_of. simpl. apply filter_nil_intro. by intros v [? _]%list_elem_of_filter.
  - by intros s [? _]%list_elem_of_filter.
  - by intros t [? _]%list_elem_of_filter.
  - intros d (d0 & -> & _)%list_elem_of_fmap. simpl. by intros [_ ?]%clear_ref_spec.
  - intros g (g0 & -> & _)%list_elem_of_fmap. simpl. by intros [_ ?]%clear_ref_spec.
  - by intros x [? _]%list_elem_of_filter.
  - by intros x [? _]%list_elem_of_filter.
Qed.

Lemma hard_delete_keeps_gone aid other lib : asset_gone aid lib → asset_gone aid (hard_delete_asset other lib).
Proof.
  intros [Ga Gv Gs Gt Gd Gg Gda Gga]. split; simpl.
  - intros a [_ ?]%list_elem_of_filter. auto.
  - unfold variants_of in *. simpl. rewrite list_filter_filter. apply filter_nil_intro.
    intros v Hv [He _]. assert (v ∈ @nil AssetVariant) as []%elem_of_nil. rewrite <-Gv. by apply list_elem_of_filter.
  - intros s [_ ?]%list_elem_of_filter. auto.
  - intros t [_ ?]%list_elem_of_filter. auto.
  - intros d (d0 & -> & ?)%list_elem_of_fmap. simpl. intros [? _]%clear_ref_spec. by eapply Gd.
  - intros g (g0 & -> & ?)%list_elem_of_fmap. simpl. intros [? _]%clear_ref_spec. by eapply Gg.
  - intros x [_ ?]%list_elem_of_filter. auto.
  - intros x [_ ?]%list_elem_of_filter. auto.
Qed.

Lemma reap_asset_keeps_gone ok cok s a aid : asset_gone aid s.1 → asset_gone aid (reap_asset ok cok s a).1.
Proof.
  intros Hg. unfold reap_asset. destruct (Nat.eqb _ _); [|done]. rewrite unlink_files.
  assert (Hf : ∀ fs, asset_gone aid (set_files fs s.1)) by (intros fs; by destruct Hg).
  destruct (_ && _); [by apply hard_delete_keeps_gone|apply Hf].
Qed.

(** The asset whose turn it is goes, when no job works on it and no foreign
    key refuses. *)
Lemma reap_asset_removes ok cok s a :
  (∀ jid j, lb_jobs s.1 !! jid = Some j → is_active (j_status j) = true → job_of_asset (a_id a) (variant_ids_of (a_id a) s.1) j = false) →
  fk_blocked (a_id a) s.1 = false → cok (a_id a) = true → asset_gone (a_id a) (reap_asset ok cok s a).1.
Proof.
  intros Hj Hfk Hc. unfold reap_asset. rewrite (proj2 (active_where_0 _ _)) by done.
  rewrite Hc, Hfk. simpl. apply hard_delete_gone.
Qed.

Lemma job_of_asset_status aid ids j : job_of_asset aid ids (cancel_deleted j) = job_of_asset aid ids j.
Proof. done. Qed.

(** What the endpoint leaves: no schedule, no slide of an image or video, no
    active job. *)
Lemma delete_asset_spec now owner aid lib lib' :
  delete_asset now owner aid lib = Ok lib' →
  ∃ asset, find_asset aid lib = Some asset ∧ a_deleted_at asset = None ∧ owner ≠ Some false ∧
    existsb (scheduled aid) (lb_schedules lib') = false ∧
    (a_asset_type asset = IMAGE ∨ a_asset_type asset = VIDEO → existsb (references aid) (m_slides (lb_media lib')) = false) ∧
    lb_assets lib' = (λ a, if bool_decide (a_id a = aid) then delete_at now a else a) <$> lb_assets lib ∧
    (∀ jid j, lb_jobs lib' !! jid = Some j → is_active (j_status j) = true → job_of_asset aid (variant_ids_of aid lib') j = false).
Proof.
  unfold delete_asset. destruct (find_asset aid lib) as [asset|] eqn:Hf; [|done].
  destruct (negb _) eqn:Hd; [done|]. destruct (bool_decide (owner = Some false)) eqn:Ho; [done|].
  destruct (_ && existsb (references aid) _) eqn:Hr; [done|]. destruct (existsb _ (lb_schedules lib)); [done|].
  intros [= <-]. bool_to_prop. exists asset. split; [done|]. split; [done|]. split; [done|]. split; [|split; [|split]].
  - simpl. apply not_true_iff_false. rewrite existsb_exists. intros (s & Hs%list_elem_of_In & Hsch).
    apply list_elem_of_filter in Hs as [Hs _]. congruence.
  - intros Hty. simpl. rewrite bool_decide_eq_true_2 in Hr by done. done.
  - done.
  - intros jid j Hj Ha. unfold lb_jobs in Hj. simpl in Hj. rewrite lookup_fmap in Hj.
    apply fmap_Some in Hj as (j0 & Hj0 & ->). destruct (is_active (j_status j0) && _) eqn:Hc; [done|].
    rewrite Ha in Hc. exact Hc.
Qed.

Section reap_loop.
Context (unlink_ok : string → bool) (commit_ok : uuid → bool) (aid : uuid) (lib : Lib).
Hypothesis not_scheduled : existsb (scheduled aid) (lb_schedules lib) = false.
Hypothesis not_on_slide : existsb (references aid) (m_slides (lb_media lib)) = false.
Hypothesis no_job : ∀ jid j, lb_jobs lib !! jid = Some j → is_active (j_status j) = true →
  job_of_asset aid (variant_ids_of aid lib) j = false.
Hypothesis commits : commit_ok aid = true.

Lemma shrinks_unblocked lib' : shrinks aid lib lib' → fk_blocked aid lib' = false.
Proof.
  intros [E S _ _ _]. unfold fk_blocked. rewrite E, not_scheduled. simpl.
  apply not_true_iff_false. rewrite existsb_exists. intros (sl & Hsl%list_elem_of_In & Hb). bool_to_prop.
  pose proof not_on_slide as Hn. apply not_true_iff_false in Hn. apply Hn, existsb_exists.
  exists sl. split; [|done]. apply list_elem_of_In. auto.
Qed.

Lemma reap_loop l s :
  asset_gone aid s.1 ∨ shrinks aid lib s.1 ∧ (∃ a, a ∈ l ∧ a_id a = aid) →
  asset_gone aid (fold_left (reap_asset unlink_ok commit_ok) l s).1.
Proof.
  revert s. induction l as [|a l IH]; intros s; simpl.
  { intros [?|(_ & a & []%elem_of_nil & _)]. done. }
  intros [Hg|[Hs (b & Hb & Hid)]]; apply IH; [left; by apply reap_asset_keeps_gone|].
  destruct (decide (a_id a = aid)) as [He|Hne].
  - left. pose proof (reap_asset_removes unlink_ok commit_ok s a) as Hr. rewrite He in Hr.
    apply Hr; [|by apply shrinks_unblocked|done].
    intros jid j Hj Ha. unfold variant_ids_of. rewrite (sh_variants _ _ _ Hs). eapply no_job; [|done].
    eapply lookup_weaken; [exact Hj|]. apply Hs.
  - right. split; [eapply shrinks_trans; [exact Hs|by apply reap_asset_shrinks]|].
    apply elem_of_cons in Hb as [->|Hb]; [done|by exists b].
Qed.
End reap_loop.

(** C13. Deletion completes: once the endpoint has accepted the deletion of an
    image or a video, the next pass of the reaper removes the asset with its
    variants, tags and every reference of devices and groups, if its
    transaction commits: no job and no foreign key can hold it back. *)
Theorem deletion_completes (now : Z) (owner : option bool) (aid : uuid) (lib lib' : Lib) (asset : Asset)
    (unlink_ok : string → bool) (commit_ok : uuid → bool) :
  delete_asset now owner aid lib = Ok lib' → find_asset aid lib = Some asset →
  (a_asset_type asset = IMAGE ∨ a_asset_type asset = VIDEO) → commit_ok aid = true →
  asset_gone aid (reap_deleted_assets_once unlink_ok commit_ok lib').1.
Proof.
  intros (a0 & Hf & _ & _ & Hsch & Hsl & Has & Hjobs)%delete_asset_spec Hf' Hty Hc.
  rewrite Hf in Hf'. injection Hf' as ->.
  apply (reap_loop unlink_ok commit_ok aid lib'); auto. right. split; [apply shrinks_refl|].
  unfold find_asset in Hf. apply fmap_Some in Hf as ([i x] & Hx & ->).
  apply list_find_Some in Hx as (Hx%list_elem_of_lookup_2 & Hid & _).
  exists (delete_at now x). rewrite list_elem_of_filter, Has. split; [split; [done|]|done].
  apply list_elem_of_fmap. exists x. by rewrite bool_decide_eq_true_2.
Qed.

(** ** Superseded variants go away *)

Record variant_gone (v : AssetVariant) (lib : Lib) : Prop := {
  vg_row : ∀ u, u ∈ lb_variants lib → v_id u ≠ v_id v;
  vg_jobs : ∀ jid j, lb_jobs lib !! jid = Some j → transcodes (v_id v) j = false
}.

(** Every step of the pass removes rows, jobs and files only. *)
Lemma reap_variant_subset ok cok s v :
  let s' := reap_variant ok cok s v in
  (∀ u, u ∈ lb_variants s'.1 → u ∈ lb_variants s.1) ∧ lb_jobs s'.1 ⊆ lb_jobs s.1 ∧ lb_files s'.1 ⊆ lb_files s.1.
Proof.
  unfold reap_variant. destruct (Nat.eqb _ _); [|done].
  assert (Hf : lb_files (unlink ok (variant_path (v_filename v)) s.1) ⊆ lb_files s.1)
    by (unfold unlink; destruct (ok _); simpl; set_solver).
  assert (Hj : lb_store (unlink ok (variant_path (v_filename v)) s.1) = lb_store s.1)
    by (unfold unlink; by destruct (ok _)).
  destruct (cok _); simpl; rewrite ?lb_variants_set, ?lb_variants_unlink; unfold lb_jobs; simpl; rewrite Hj.
  - split; [by intros u [_ ?]%list_elem_of_filter|]. split; [apply map_filter_subseteq|done].
  - done.
Qed.

Lemma reap_variant_removes ok cok s v :
  idle s.1 (v_id v) → cok (v_id v) = true →
  let s' := reap_variant ok cok s v in
  variant_gone v s'.1 ∧ (ok (variant_path (v_filename v)) = true → variant_path (v_filename v) ∉ lb_files s'.1).
Proof.
  intros Hi Hc. unfold reap_variant. rewrite (proj2 (active_where_0 _ _)) by exact Hi. rewrite Hc. split; [split|].
  - by intros u [? _]%list_elem_of_filter.
  - intros jid j. unfold lb_jobs. simpl. by intros [_ ?]%map_lookup_filter_Some.
  - intros Hok. simpl. unfold unlink. rewrite Hok. simpl. set_solver.
Qed.

Lemma reap_variants_loop ok cok v l s :
  cok (v_id v) = true →
  (variant_gone v s.1 ∧ (ok (variant_path (v_filename v)) = true → variant_path (v_filename v) ∉ lb_files s.1)) ∨
  (idle s.1 (v_id v) ∧ v ∈ l) →
  let s' := fold_left (reap_variant ok cok) l s in
  variant_gone v s'.1 ∧ (ok (variant_path (v_filename v)) = true → variant_path (v_filename v) ∉ lb_files s'.1).
Proof.
  intros Hc. revert s. induction l as [|w l IH]; intros s; simpl; [by intros [?|[_ []%elem_of_nil]]|].
  intros Hs. apply IH. destruct (reap_variant_subset ok cok s w) as (Hv & Hj & Hf).
  destruct Hs as [[[Hrow Hjob] Hfile]|[Hi [->|Hin]%elem_of_cons]].
  - left. split; [split|].
    + intros u Hu. by apply Hrow, Hv.
    + intros jid j Hl. eapply Hjob. by eapply lookup_weaken.
    + intros Hok. specialize (Hfile Hok). set_solver.
  - left. by apply reap_variant_removes.
  - right. split; [|done]. intros jid j Hl. eapply Hi. by eapply lookup_weaken.
Qed.

(** The old variants of a profile edit do not pile up: a finished variant
    with a younger ready sibling and no work left on it is removed by the next
    two sweeps with its jobs and its file. *)
Theorem superseded_reclaimed (now : Z) (lib : Lib) (v : AssetVariant) (unlink_ok : string → bool) (commit_ok : uuid → bool) :
  v ∈ lb_variants lib → to_mark (lb_variants lib) v = true → idle lib (v_id v) →
  unlink_ok (variant_path (v_filename v)) = true → commit_ok (v_id v) = true →
  let lib' := (reap_superseded_variants_once unlink_ok commit_ok (supersede_ready_variants_once now lib).1).1 in
  variant_gone v lib' ∧ variant_path (v_filename v) ∉ lb_files lib'.
Proof.
  intros Hv Hm Hi Hu Hc. unfold reap_superseded_variants_once.
  destruct (reap_variants_loop unlink_ok commit_ok (with_deleted now v)
              (filter (λ v, is_live v = false) (lb_variants (supersede_ready_variants_once now lib).1))
              ((supersede_ready_variants_once now lib).1, 0)) as [[Hr Hj] Hf]; [done| |].
  - right. split; [exact Hi|]. apply list_elem_of_filter. split; [by unfold is_live; rewrite bool_decide_eq_false_2|].
    simpl. rewrite lb_variants_update. apply list_elem_of_fmap. exists v. by rewrite Hm.
  - split; [split; done|]. by apply Hf.
Qed.

(** ** Notifications of failures *)

Lemma tagged_fail_note lib v : tagged_variant (fail_note lib v) = Some (v_id v).
Proof. done. Qed.

Lemma notified_spec lib vid :
  notified lib vid = true ↔ ∃ n, n ∈ lb_notes lib ∧ is_fail_note n = true ∧ tagged_variant n = Some vid.
Proof.
  unfold notified. rewrite existsb_exists. split.
  - intros (n & Hn%list_elem_of_In & Hb). bool_to_prop. by exists n.
  - intros (n & Hn & Hf & Ht). exists n. split; [by apply list_elem_of_In|]. by rewrite Hf, bool_decide_eq_true_2.
Qed.

(** The bell shows the permanent failures and nothing else: after a pass the
    variants named by failure notifications are those that failed and are not
    deleted, other notifications stay, and a second pass changes nothing. *)
Theorem fail_notes_exact (lib : Lib) :
  let lib' := (reconcile_transcode_failure_notifications_once lib).1 in
  (∀ vid, notified lib' vid = true ↔ vid ∈ v_id <$> failed_rows lib) ∧
  (∀ n, is_fail_note n = false → n ∈ lb_notes lib' ↔ n ∈ lb_notes lib) ∧
  reconcile_transcode_failure_notifications_once lib' = (lib', 0).
Proof.
  intros lib'. assert (Hnotes : lb_notes lib' = filter (λ n, stale_note lib n = false) (lb_notes lib) ++
    (fail_note lib <$> filter (λ v, notified lib (v_id v) = false) (failed_rows lib))) by done.
  assert (Hfr : failed_rows lib' = failed_rows lib) by done.
  assert (H1 : ∀ vid, notified lib' vid = true ↔ vid ∈ v_id <$> failed_rows lib).
  { intros vid. rewrite notified_spec, Hnotes. setoid_rewrite elem_of_app. split.
    - intros (n & [[Hs Hn]%list_elem_of_filter|(v & -> & [_ Hv]%list_elem_of_filter)%list_elem_of_fmap] & Hf & Ht).
      + unfold stale_note in Hs. rewrite Hf, Ht in Hs. simpl in Hs. by bool_to_prop.
      + rewrite tagged_fail_note in Ht. simplify_eq. by apply list_elem_of_fmap_2.
    - intros Hin. destruct (notified lib vid) eqn:Hn.
      + apply notified_spec in Hn as (n & Hn & Hf & Ht). exists n. split; [left|done].
        apply list_elem_of_filter. split; [|done]. unfold stale_note. rewrite Hf, Ht. simpl.
        by rewrite bool_decide_eq_true_2.
      + apply list_elem_of_fmap in Hin as (v & -> & Hv). exists (fail_note lib v). split; [right|done].
        apply list_elem_of_fmap_2, list_elem_of_filter. done. }
  split; [exact H1|]. split.
  - intros n Hf. rewrite Hnotes, elem_of_app, list_elem_of_filter, list_elem_of_fmap. split.
    + intros [[_ ?]|(v & -> & _)]; done.
    + intros Hn. left. split; [|done]. unfold stale_note. by rewrite Hf.
  - unfold reconcile_transcode_failure_notifications_once. rewrite Hfr.
    rewrite (filter_nil_intro (λ v, notified lib' (v_id v) = false)).
    2:{ intros v Hv Hn. apply not_true_iff_false in Hn. apply Hn, H1. by apply list_elem_of_fmap_2. }
    change (fail_note lib' <$> []) with (@nil TNote). rewrite app_nil_r, filter_all; [done|].
    intros n Hn. unfold stale_note. destruct (is_fail_note n) eqn:Hf; [|done].
    destruct (tagged_variant n) as [vid|] eqn:Ht; [|done]. rewrite Hfr, bool_decide_eq_true_2; [done|].
    apply H1, notified_spec. by exists n.
Qed.

(** ** Witnesses *)

(** A worker died on the first row; the second job was flagged for cancelling. *)
Definition stalled_library : Lib :=
  let job k vid c := (k, mkJob k VARIANT_TRANSCODE vid J_PROCESSING 1 "" c None (Some 5) false) in
  set_jobs (list_to_map [job "j1" "v1" 1; (job "j2" "v2" 2)])
    (set_variants [mkVariant "v1" "a" "p" "v1.mp4" 0 "" V_PROCESSING 1 None ""; mkVariant "v2" "a" "q" "v2.mp4" 0 "" V_PROCESSING 2 None ""]
       (workshop [video "a"] [])).

Lemma recover_stalled_exact_witness :
  index_ok (lb_jobs stalled_library) ∧ stalled_rows (λ _, false) 1000000000 stalled_library ≠ [] ∧
  ∃ lib' ids, recover_stalled_variants_once (numbered2 "n") (λ _, false) 1000000000 stalled_library = Ok (lib', ids).
Proof.
  assert (H : index_ok (lb_jobs stalled_library)) by (apply index_check_ok; by vm_compute).
  split; [exact H|]. split; [by vm_compute|].
  destruct (recover_stalled_exact (numbered2 "n") (λ _, false) 1000000000 stalled_library H) as (lib' & Hr & _).
  - intros n m. apply numbered_inj.
  - intros n. unfold stalled_library, lb_jobs. cbn. rewrite !lookup_insert_ne by (intros E; discriminate). apply lookup_empty.
  - do 2 eexists. exact Hr.
Defined.

Lemma reconcile_stranded_exact_witness :
  (reconcile_stranded_variants_once 100 (set_variants [mkVariant "v1" "a" "p" "v1.mp4" 0 "" V_PROCESSING 1 None ""] (workshop [video "a"] []))).2 = 0.
Proof.
  rewrite (reconcile_stranded_exact 100 (set_variants [mkVariant "v1" "a" "p" "v1.mp4" 0 "" V_PROCESSING 1 None ""] (workshop [video "a"] []))).
  - by vm_compute.
  - apply (bool_decide_unpack _). by vm_compute.
  - vm_compute. lia.
Defined.

Lemma deletion_completes_witness :
  ∃ lib', delete_asset 5 None "a" stalled_library = Ok lib' ∧ asset_gone "a" (reap_deleted_assets_once (λ _, true) (λ _, true) lib').1.
Proof.
  eexists. split; [reflexivity|]. eapply (deletion_completes 5 None "a" stalled_library _ (video "a")); first [reflexivity | right; reflexivity].
Defined.
