(* ===== verification/Profiles.v ===== *)
(** * Transcoding profiles (cms/routers/profiles.py, cms/profile_defaults.py,
      cms/schemas/profile.py, the seeding of cms/main.py)

    Creating, editing, copying, resetting, disabling, enabling and deleting a
    profile, and what that does to the variants and the jobs of Variants.  The
    handlers start after authentication.  A handler that fails after a commit
    returns the changed tables next to the error. *)

From S2P Require Import Prelude Clock Models Database Samples AssetReadiness Jobs PyText Variants.
Open Scope Z_scope.

(** ** Attributes by name *)

(** A value of a profile column. *)
Inductive PVal := PStr (s : string) | PInt (z : Z).

#[export] Instance PVal_eq_dec : EqDecision PVal.
Proof. solve_decision. Defined.

(** [getattr(profile, field)] for the columns the handlers go through by name. *)
Definition pget (field : string) (p : DeviceProfile) : option PVal :=
  if bool_decide (field = "description") then Some (PStr (p_description p))
  else if bool_decide (field = "purpose") then Some (PStr (p_purpose p))
  else if bool_decide (field = "video_codec") then Some (PStr (p_video_codec p))
  else if bool_decide (field = "video_profile") then Some (PStr (p_video_profile p))
  else if bool_decide (field = "max_width") then Some (PInt (p_max_width p))
  else if bool_decide (field = "max_height") then Some (PInt (p_max_height p))
  else if bool_decide (field = "max_fps") then Some (PInt (p_max_fps p))
  else if bool_decide (field = "crf") then Some (PInt (p_crf p))
  else if bool_decide (field = "video_bitrate") then Some (PStr (p_video_bitrate p))
  else if bool_decide (field = "pixel_format") then Some (PStr (p_pixel_format p))
  else if bool_decide (field = "color_space") then Some (PStr (p_color_space p))
  else if bool_decide (field = "audio_codec") then Some (PStr (p_audio_codec p))
  else if bool_decide (field = "audio_bitrate") then Some (PStr (p_audio_bitrate p))
  else None.

Definition pstr (v : PVal) (old : string) : string := match v with PStr s => s | PInt _ => old end.
Definition pint (v : PVal) (old : Z) : Z := match v with PInt z => z | PStr _ => old end.

(** [setattr(profile, field, value)] for the same columns, at their types. *)
Definition pset (p : DeviceProfile) (fv : string * PVal) : DeviceProfile :=
  let set_if {A} (name : string) (new old : A) := if bool_decide (fv.1 = name) then new else old in
  mkProfile (p_id p) (p_name p)
    (set_if "description" (pstr fv.2 (p_description p)) (p_description p))
    (set_if "video_codec" (pstr fv.2 (p_video_codec p)) (p_video_codec p))
    (set_if "video_profile" (pstr fv.2 (p_video_profile p)) (p_video_profile p))
    (set_if "max_width" (pint fv.2 (p_max_width p)) (p_max_width p))
    (set_if "max_height" (pint fv.2 (p_max_height p)) (p_max_height p))
    (set_if "max_fps" (pint fv.2 (p_max_fps p)) (p_max_fps p))
    (set_if "video_bitrate" (pstr fv.2 (p_video_bitrate p)) (p_video_bitrate p))
    (set_if "crf" (pint fv.2 (p_crf p)) (p_crf p))
    (set_if "pixel_format" (pstr fv.2 (p_pixel_format p)) (p_pixel_format p))
    (set_if "color_space" (pstr fv.2 (p_color_space p)) (p_color_space p))
    (set_if "audio_codec" (pstr fv.2 (p_audio_codec p)) (p_audio_codec p))
    (set_if "audio_bitrate" (pstr fv.2 (p_audio_bitrate p)) (p_audio_bitrate p))
    (p_builtin p)
    (set_if "purpose" (pstr fv.2 (p_purpose p)) (p_purpose p))
    (p_enabled p).

Definition with_enabled (b : bool) (p : DeviceProfile) : DeviceProfile :=
  mkProfile (p_id p) (p_name p) (p_description p) (p_video_codec p) (p_video_profile p) (p_max_width p) (p_max_height p)
    (p_max_fps p) (p_video_bitrate p) (p_crf p) (p_pixel_format p) (p_color_space p) (p_audio_codec p)
    (p_audio_bitrate p) (p_builtin p) (p_purpose p) b.

(** The fields of a [ProfileUpdate] that the request set, in the model's order
    (an explicit null, which the NOT NULL columns refuse, is not represented). *)
Abbreviation updates := (list (string * PVal)).

(** ** Factory defaults *)

Definition pi_defaults (description codec : string) (fps : Z) : updates :=
  [("description", PStr description); ("video_codec", PStr codec); ("video_profile", PStr "main");
   ("max_width", PInt 1920); ("max_height", PInt 1080); ("max_fps", PInt fps); ("crf", PInt 23);
   ("video_bitrate", PStr ""); ("pixel_format", PStr "auto"); ("color_space", PStr "auto");
   ("audio_codec", PStr "aac"); ("audio_bitrate", PStr "128k")].

Definition BUILTIN_PROFILES : list (string * updates) :=
  [("thumbnail",
    [("description", PStr "CMS internal - grid view thumbnails (480px JPEG)"); ("purpose", PStr "thumbnail");
     ("video_codec", PStr "h264"); ("video_profile", PStr "main"); ("max_width", PInt 480); ("max_height", PInt 480);
     ("max_fps", PInt 1); ("crf", PInt 23); ("video_bitrate", PStr ""); ("pixel_format", PStr "auto");
     ("color_space", PStr "auto"); ("audio_codec", PStr "aac"); ("audio_bitrate", PStr "128k")]);
   ("pi-zero-2w", pi_defaults "Raspberry Pi Zero 2 W — H.264 Main, 1080p30" "h264" 30);
   ("pi-4", pi_defaults "Raspberry Pi 4 — HEVC Main, 1080p30" "h265" 30);
   ("pi-5", pi_defaults "Raspberry Pi 5 / CM5 — HEVC Main, 1080p60" "h265" 60)].

Definition _TRANSCODE_FIELDS : list string :=
  ["video_codec"; "video_profile"; "max_width"; "max_height"; "max_fps"; "crf"; "video_bitrate"; "pixel_format";
   "color_space"; "audio_codec"; "audio_bitrate"; "purpose"].

Definition _matches_defaults (p : DeviceProfile) : bool :=
  if negb (p_builtin p) then false
  else match aget (p_name p) BUILTIN_PROFILES with
       | None => false
       | Some defaults => forallb (λ fv, bool_decide (pget fv.1 p = Some fv.2))
                            (filter (λ fv, fv.1 ∈ _TRANSCODE_FIELDS) defaults)
       end.

(** ** Validation *)

Definition name_char (first : bool) (c : ascii) : bool :=
  let n := N_of_ascii c in
  ((65 <=? n)%N && (n <=? 90)%N) || ((97 <=? n)%N && (n <=? 122)%N) || ((48 <=? n)%N && (n <=? 57)%N) ||
  (negb first && bool_decide (c = "_"%char ∨ c = "-"%char)).

(** [_PROFILE_NAME_RE]; its [$] also matches before a final newline. *)
Definition plain_name (s : string) : bool :=
  match s with
  | EmptyString => false
  | String c rest => name_char true c && str_all (name_char false) rest && (Z.of_nat (String.length rest) <=? 63)
  end.
Definition newline : string := String (ascii_of_nat 10) EmptyString.
Definition validate_name (s : string) : bool :=
  plain_name s || match before_last (ascii_of_nat 10) s with
                  | Some t => bool_decide (s = t +:+ newline) && plain_name t
                  | None => false
                  end.

Definition _PROFILES_420_ONLY (codec : string) : list string :=
  if bool_decide (codec = "h264") then ["baseline"; "main"; "high"; "high10"]
  else if bool_decide (codec = "h265") then ["main"; "main10"] else [].
Definition _PROFILES_8BIT_ONLY (codec : string) : list string :=
  if bool_decide (codec = "h264") then ["baseline"; "main"; "high"]
  else if bool_decide (codec = "h265") then ["main"] else [].
Definition _PIX_FMT_422_OR_444 : list string := ["yuv422p"; "yuv422p10le"; "yuv444p"; "yuv444p10le"].
Definition _PIX_FMT_10BIT : list string := ["yuv420p10le"; "yuv422p10le"; "yuv444p10le"].
Definition _AV1_ALLOWED_PIX_FMT : list string := ["auto"; "yuv420p"; "yuv420p10le"].
Definition _HDR_COLOR_SPACES : list string := ["bt2020-pq"; "bt2020-hlg"].

Definition _validate_profile_compat (video_codec video_profile pixel_format color_space : string) : result exn unit :=
  let forces_420 := bool_decide (video_codec = "av1") || bool_decide (video_profile ∈ _PROFILES_420_ONLY video_codec) in
  let is_8bit_only := bool_decide (video_profile ∈ _PROFILES_8BIT_ONLY video_codec) in
  if negb (bool_decide (pixel_format = "auto")) &&
     ((bool_decide (video_codec = "av1") && negb (bool_decide (pixel_format ∈ _AV1_ALLOWED_PIX_FMT))) ||
      (forces_420 && bool_decide (pixel_format ∈ _PIX_FMT_422_OR_444)) ||
      (is_8bit_only && bool_decide (pixel_format ∈ _PIX_FMT_10BIT))) then Err (HTTPException 422)
  else if bool_decide (color_space ∈ _HDR_COLOR_SPACES) && is_8bit_only then Err (HTTPException 422)
  else Ok tt.

(** ** Handlers *)

(** Column defaults. *)
Definition default_profile (pid : uuid) (name : string) : DeviceProfile :=
  mkProfile pid name "" "h264" "main" 1920 1080 30 "" 23 "auto" "auto" "aac" "128k" false "device" true.

Definition name_taken (lib : Lib) (name : string) : bool := existsb (λ p, bool_decide (p_name p = name)) (lb_profiles lib).
Definition add_profile (p : DeviceProfile) (lib : Lib) : Lib := set_profiles (lb_profiles lib ++ [p]) lib.
Definition on_profile (pid : uuid) (f : DeviceProfile → DeviceProfile) (lib : Lib) : Lib :=
  set_profiles ((λ p, if bool_decide (p_id p = pid) then f p else p) <$> lb_profiles lib) lib.

(** [if variant_ids: await enqueue_variants(db, variant_ids)], after a commit. *)
Definition enqueue_if_any (jgen : nat → uuid * uuid) (now : Z) (ids : list uuid) (lib : Lib) : Lib * option exn :=
  match ids with
  | [] => (lib, None)
  | _ => match enqueue_variants jgen now ids lib with Err e => (lib, Some e) | Ok (lib', _) => (lib', None) end
  end.

Definition fan_out (gen : nat → uuid) (jgen : nat → uuid * uuid) (now : Z) (pid : uuid) (lib : Lib) : Lib * option exn :=
  let '(lib1, ids) := enqueue_for_new_profile gen now pid lib in enqueue_if_any jgen now ids lib1.

Definition response {A} (a : A) (r : Lib * option exn) : Lib * result exn A :=
  (r.1, match r.2 with Some e => Err e | None => Ok a end).

Definition compat_of (p : DeviceProfile) : result exn unit :=
  _validate_profile_compat (p_video_codec p) (p_video_profile p) (p_pixel_format p) (p_color_space p).

(** The body is a name and the other fields over their defaults. *)
Definition create_profile (gen : nat → uuid) (jgen : nat → uuid * uuid) (now : Z) (pid : uuid) (name : string)
    (fields : updates) (lib : Lib) : Lib * result exn uuid :=
  let profile := fold_left pset fields (default_profile pid name) in
  if negb (validate_name name) then (lib, Err (HTTPException 422))
  else match compat_of profile with
  | Err e => (lib, Err e)
  | Ok _ =>
      if name_taken lib name then (lib, Err (HTTPException 409))
      else response pid (fan_out gen jgen now pid (add_profile profile lib))
  end.

(** [compute_diff]: the fields whose value changes. *)
Definition changed_fields (p : DeviceProfile) (u : updates) : list string :=
  (filter (λ fv, is_Some (pget fv.1 p) ∧ pget fv.1 p ≠ Some fv.2) u).*1.

(** What an edit that changes the output does to variants and jobs. *)
Definition supersede (gen : nat → uuid) (now : Z) (pid : uuid) (fields : list string) (lib : Lib) : Lib * list uuid :=
  supersede_profile_variants gen now pid (Some fields) (flag_profile_jobs_cancelled pid lib).1.

Definition update_profile (gen : nat → uuid) (jgen : nat → uuid * uuid) (now : Z) (pid : uuid) (u : updates) (lib : Lib)
    : Lib * result exn unit :=
  match find_profile pid lib with
  | None => (lib, Err (HTTPException 404))
  | Some profile =>
      if negb (bool_decide (p_purpose profile = "device")) then (lib, Err (HTTPException 400))
      else match compat_of (fold_left pset u profile) with
      | Err e => (lib, Err e)
      | Ok _ =>
          let changes := changed_fields profile u in
          let transcode_changed := existsb (λ f, bool_decide (f ∈ _TRANSCODE_FIELDS)) changes in
          let lib1 := on_profile pid (fold_left pset u) lib in
          if transcode_changed then
            let '(lib2, ids) := supersede gen now pid changes lib1 in response tt (enqueue_if_any jgen now ids lib2)
          else (lib1, Ok tt)
      end
  end.

Definition reset_profile (gen : nat → uuid) (jgen : nat → uuid * uuid) (now : Z) (pid : uuid) (lib : Lib) : Lib * result exn unit :=
  match find_profile pid lib with
  | None => (lib, Err (HTTPException 404))
  | Some profile =>
      if negb (p_builtin profile) then (lib, Err (HTTPException 400))
      else if negb (bool_decide (p_purpose profile = "device")) then (lib, Err (HTTPException 400))
      else match aget (p_name profile) BUILTIN_PROFILES with
      | None => (lib, Err (HTTPException 400))
      | Some defaults =>
          let changes := filter (λ f, f ∈ _TRANSCODE_FIELDS) (changed_fields profile defaults) in
          let lib1 := on_profile pid (fold_left pset defaults) lib in
          match changes with
          | [] => (lib1, Ok tt)
          | _ => let '(lib2, ids) := supersede gen now pid changes lib1 in response tt (enqueue_if_any jgen now ids lib2)
          end
      end
  end.

(** [vpath.unlink()] of the files that exist; the first failure is raised. *)
Fixpoint unlink_all (unlink_ok : string → bool) (paths : list string) (lib : Lib) : Lib * bool :=
  match paths with
  | [] => (lib, true)
  | p :: rest =>
      if bool_decide (p ∈ lb_files lib) then
        if unlink_ok p then unlink_all unlink_ok rest (set_files (lb_files lib ∖ {[p]}) lib) else (lib, false)
      else unlink_all unlink_ok rest lib
  end.

Definition variants_of_profile (pid : uuid) (lib : Lib) : list AssetVariant :=
  filter (λ v, v_profile_id v = pid) (lb_variants lib).

(** A failing unlink rolls the tables back; the files removed so far are gone. *)
Definition delete_profile (unlink_ok : string → bool) (pid : uuid) (lib : Lib) : Lib * result exn unit :=
  match find_profile pid lib with
  | None => (lib, Err (HTTPException 404))
  | Some profile =>
      if p_builtin profile then (lib, Err (HTTPException 400))
      else if negb (bool_decide (p_purpose profile = "device")) then (lib, Err (HTTPException 400))
      else if existsb (λ d, bool_decide (dr_profile_id d = Some pid)) (lb_devices lib) then (lib, Err (HTTPException 400))
      else
        let '(lib1, ok) := unlink_all unlink_ok ((λ v, variant_path (v_filename v)) <$> variants_of_profile pid lib) lib in
        if negb ok then (lib1, Err OSError)
        else
          let lib2 := (flag_profile_jobs_cancelled pid lib1).1 in
          let lib3 := set_variants (filter (λ v, v_profile_id v ≠ pid) (lb_variants lib2)) lib2 in
          (set_profiles (filter (λ p, p_id p ≠ pid) (lb_profiles lib3)) lib3, Ok tt)
  end.

Definition copy_candidate (name : string) (k : nat) : string :=
  let base := "Copy of " +:+ name in
  match k with O => base | _ => base +:+ " " +:+ Z_str (Z.of_nat (S k)) end.
Definition copy_name (name : string) (lib : Lib) : option string :=
  first_free (name_taken lib) (copy_candidate name) (S (length (lb_profiles lib))) 0.

Definition copied (pid : uuid) (name : string) (src : DeviceProfile) : DeviceProfile :=
  mkProfile pid name (p_description src) (p_video_codec src) (p_video_profile src) (p_max_width src) (p_max_height src)
    (p_max_fps src) (p_video_bitrate src) (p_crf src) (p_pixel_format src) (p_color_space src) (p_audio_codec src)
    (p_audio_bitrate src) false "device" true.

Definition copy_profile (gen : nat → uuid) (jgen : nat → uuid * uuid) (now : Z) (new_pid pid : uuid) (lib : Lib)
    : Lib * result exn uuid :=
  match find_profile pid lib with
  | None => (lib, Err (HTTPException 404))
  | Some source =>
      if negb (bool_decide (p_purpose source = "device")) then (lib, Err (HTTPException 400))
      else match copy_name (p_name source) lib with
      | None => (lib, Err RuntimeError)
      | Some name => response new_pid (fan_out gen jgen now new_pid (add_profile (copied new_pid name source) lib))
      end
  end.

Definition disable_profile (pid : uuid) (lib : Lib) : Lib * result exn unit :=
  match find_profile pid lib with
  | None => (lib, Err (HTTPException 404))
  | Some profile =>
      if negb (bool_decide (p_purpose profile = "device")) then (lib, Err (HTTPException 400))
      else if negb (p_enabled profile) then (lib, Ok tt)
      else ((flag_profile_jobs_cancelled pid (on_profile pid (with_enabled false) lib)).1, Ok tt)
  end.

Definition enable_profile (gen : nat → uuid) (jgen : nat → uuid * uuid) (now : Z) (pid : uuid) (lib : Lib)
    : Lib * result exn unit :=
  match find_profile pid lib with
  | None => (lib, Err (HTTPException 404))
  | Some profile =>
      if negb (bool_decide (p_purpose profile = "device")) then (lib, Err (HTTPException 400))
      else
        let lib1 := on_profile pid (with_enabled true) lib in
        if p_enabled profile then (lib1, Ok tt) else response tt (fan_out gen jgen now pid lib1)
  end.

(** [visible] is what [_visible_asset_ids] returns: [None] for all assets. *)
Definition visible_failed (visible : option (list uuid)) (v : AssetVariant) : bool :=
  bool_decide (v_status v = V_FAILED) && where_in (v_source_asset_id v) visible.

Definition clear_transcode_errors (unlink_ok : string → bool) (visible : option (list uuid)) (lib : Lib) : Lib * (Z * Z) :=
  let failed := filter (λ v, visible_failed visible v = true) (lb_variants lib) in
  let lib1 := fold_left (λ l v, unlink unlink_ok (variant_path (v_filename v)) l) failed lib in
  let lib2 := set_variants (filter (λ v, visible_failed visible v = false) (lb_variants lib1)) lib1 in
  let cleared := v_id <$> failed in
  let hit (n : TNote) := is_fail_note n && match tagged_variant n with Some vid => bool_decide (vid ∈ cleared) | None => false end in
  (set_notes (filter (λ n, hit n = false) (lb_notes lib2)) lib2,
   (Z.of_nat (length failed), Z.of_nat (length (filter (λ n, hit n = true) (lb_notes lib2))))).

(** ** What the page shows *)

Definition device_count (pid : uuid) (lib : Lib) : Z :=
  Z.of_nat (length (filter (λ d, dr_profile_id d = Some pid) (lb_devices lib))).
(** The totals of [ProfileOut]: deleted rows count. *)
Definition total_variants (pid : uuid) (lib : Lib) : Z := Z.of_nat (length (variants_of_profile pid lib)).
Definition ready_variants (pid : uuid) (lib : Lib) : Z :=
  Z.of_nat (length (filter (λ v, v_status v = V_READY) (variants_of_profile pid lib))).

(** The rows the status endpoint counts and lists. *)
Definition shown (lib : Lib) (v : AssetVariant) : bool :=
  is_live v && match find_asset (v_source_asset_id v) lib with Some a => bool_decide (a_deleted_at a = None) | None => false end.
Definition status_counts (lib : Lib) (p : DeviceProfile) : uuid * Z * Z * bool :=
  (p_id p, Z.of_nat (length (filter (λ v, shown lib v = true) (variants_of_profile (p_id p) lib))),
   Z.of_nat (length (filter (λ v, shown lib v = true ∧ v_status v = V_READY) (variants_of_profile (p_id p) lib))),
   _matches_defaults p).
Definition QUEUE_LIMIT : nat := 50.
Definition status_queue (visible : option (list uuid)) (lib : Lib) : list AssetVariant :=
  take QUEUE_LIMIT (sort_by v_created_at (filter (λ v, (v_status v = V_PENDING ∨ v_status v = V_PROCESSING ∨ v_status v = V_FAILED) ∧
    shown lib v = true ∧ where_in (v_source_asset_id v) visible = true) (lb_variants lib))).
Definition profiles_status_json (visible : option (list uuid)) (lib : Lib) :=
  (status_counts lib <$> sort_on (λ p q, negb (p_name q <s p_name p)) (lb_profiles lib), status_queue visible lib,
   Z.of_nat (length (status_queue visible lib))).

(** ** Seeding at startup *)

(** The first loop: [pids k] is the key of the [k]-th new row. *)
Fixpoint seed_missing (gen : nat → nat → uuid) (jgen : nat → nat → uuid * uuid) (pids : nat → uuid) (now : Z) (k : nat)
    (existing : list string) (defs : list (string * updates)) (lib : Lib) : Lib * option exn :=
  match defs with
  | [] => (lib, None)
  | (name, defaults) :: rest =>
      if bool_decide (name ∈ existing) then seed_missing gen jgen pids now k existing rest lib
      else
        let d := default_profile (pids k) name in
        let p := fold_left pset defaults (mkProfile (p_id d) (p_name d) (p_description d) (p_video_codec d) (p_video_profile d)
                   (p_max_width d) (p_max_height d) (p_max_fps d) (p_video_bitrate d) (p_crf d) (p_pixel_format d)
                   (p_color_space d) (p_audio_codec d) (p_audio_bitrate d) true (p_purpose d) (p_enabled d)) in
        match fan_out (gen k) (jgen k) now (pids k) (add_profile p lib) with
        | (lib1, Some e) => (lib1, Some e)
        | (lib1, None) => seed_missing gen jgen pids now (S k) existing rest lib1
        end
  end.

Fixpoint fill_gaps (gen : nat → nat → uuid) (jgen : nat → nat → uuid * uuid) (now : Z) (k : nat) (pids : list uuid) (lib : Lib)
    : Lib * option exn :=
  match pids with
  | [] => (lib, None)
  | pid :: rest =>
      match fan_out (gen k) (jgen k) now pid lib with
      | (lib1, Some e) => (lib1, Some e)
      | (lib1, None) => fill_gaps gen jgen now (S k) rest lib1
      end
  end.

Definition _seed_profiles (gen : nat → nat → uuid) (jgen : nat → nat → uuid * uuid) (pids : nat → uuid) (now : Z) (lib : Lib)
    : Lib * option exn :=
  match seed_missing gen jgen pids now 0 (p_name <$> lb_profiles lib) BUILTIN_PROFILES lib with
  | (lib1, Some e) => (lib1, Some e)
  | (lib1, None) => fill_gaps gen jgen now (length BUILTIN_PROFILES) (p_id <$> lb_profiles lib1) lib1
  end.

(** ** Fresh identifiers *)

(** The UUIDs of a call are new: [uuid4] never repeats. *)
Record fresh_ids (gen : nat → uuid) (jgen : nat → uuid * uuid) (lib : Lib) : Prop := mkFresh {
  fr_gen : ∀ n m, gen n = gen m → n = m;
  fr_variant : ∀ n v, v ∈ lb_variants lib → v_id v ≠ gen n;
  fr_target : ∀ n k j, lb_jobs lib !! k = Some j → j_target_id j ≠ gen n;
  fr_jgen : ∀ n m, (jgen n).1 = (jgen m).1 → n = m;
  fr_job : ∀ n, lb_jobs lib !! (jgen n).1 = None
}.

Lemma flag_jobs pid lib k : lb_jobs (flag_profile_jobs_cancelled pid lib).1 !! k =
  (λ j, if job_of_profile pid lib j then cancelling j else j) <$> lb_jobs lib !! k.
Proof. unfold lb_jobs, flag_profile_jobs_cancelled. simpl. by rewrite lookup_fmap. Qed.

Lemma flag_media pid lib : lb_media (flag_profile_jobs_cancelled pid lib).1 = lb_media lib.
Proof. done. Qed.

Lemma fresh_flag gen jgen pid lib : fresh_ids gen jgen lib → fresh_ids gen jgen (flag_profile_jobs_cancelled pid lib).1.
Proof.
  intros [Hg Hv Ht Hj Hn]. split; [done|done| |done|].
  - intros n k j. rewrite flag_jobs. intros (j0 & Hk & ->)%fmap_Some. destruct (job_of_profile pid lib j0); exact (Ht n k _ Hk).
  - intros n. by rewrite flag_jobs, Hn.
Qed.


(** ** Enqueueing *)





Lemma pset_id p fv : p_id (pset p fv) = p_id p.
Proof. done. Qed.
Lemma psets_id u p : p_id (fold_left pset u p) = p_id p.
Proof. revert p. induction u as [|fv u IH]; intros p; simpl; [done|]. by rewrite IH. Qed.
Lemma pset_name p fv : p_name (pset p fv) = p_name p.
Proof. done. Qed.
Lemma psets_name u p : p_name (fold_left pset u p) = p_name p.
Proof. revert p. induction u as [|fv u IH]; intros p; simpl; [done|]. by rewrite IH. Qed.



(** ** A profile edit *)




(** ** Names of copies *)

Lemma name_taken_spec lib s : name_taken lib s = true ↔ s ∈ p_name <$> lb_profiles lib.
Proof.
  unfold name_taken. rewrite existsb_exists, list_elem_of_fmap. split.
  - intros (p & Hp%list_elem_of_In & Hb). bool_to_prop. by exists p.
  - intros (p & -> & Hp%list_elem_of_In). exists p. by rewrite bool_decide_eq_true_2.
Qed.

Lemma copy_candidate_inj name i j : copy_candidate name i = copy_candidate name j → i = j.
Proof.
  assert (Hne : ∀ base k, base ≠ base +:+ " " +:+ Z_str k).
  { intros base k E. rewrite <-(str_app_nil_r base) in E at 1. apply str_app_inj_l in E. by rewrite str_app_cons in E. }
  unfold copy_candidate. destruct i as [|i], j as [|j]; intros E.
  - done.
  - by apply Hne in E.
  - symmetry in E. by apply Hne in E.
  - do 2 apply str_app_inj_l in E. apply Z_str_inj in E; lia.
Qed.

(** Choosing the name of a copy terminates with a free name. *)
Theorem copy_name_total (name : string) (lib : Lib) :
  ∃ k, copy_name name lib = Some (copy_candidate name k) ∧ name_taken lib (copy_candidate name k) = false ∧
       ∀ j, (j < k)%nat → name_taken lib (copy_candidate name j) = true.
Proof.
  unfold copy_name. rewrite <-(length_fmap p_name). apply first_free_total.
  - intros s Hs. by apply name_taken_spec.
  - apply copy_candidate_inj.
Qed.

(** ** The table of profiles stays consistent *)

Record profiles_ok (lib : Lib) : Prop := {
  po_ids : NoDup (p_id <$> lb_profiles lib);
  po_names : NoDup (p_name <$> lb_profiles lib);
  po_compat : ∀ p, p ∈ lb_profiles lib → compat_of p = Ok tt
}.

Lemma profiles_ok_same lib lib' : lb_profiles lib' = lb_profiles lib → profiles_ok lib → profiles_ok lib'.
Proof. intros E [Hi Hn Hc]. split; rewrite E; done. Qed.

Lemma enqueue_profiles jgen now ids lib : lb_profiles (enqueue_if_any jgen now ids lib).1 = lb_profiles lib.
Proof.
  unfold enqueue_if_any, enqueue_variants. destruct ids; [done|]. by destruct (enqueue_jobs _ _ _ _) as [[]|].
Qed.

Lemma fan_out_profiles gen jgen now pid lib : lb_profiles (fan_out gen jgen now pid lib).1 = lb_profiles lib.
Proof.
  unfold fan_out. destruct (enqueue_for_new_profile gen now pid lib) as [lib1 ids] eqn:He.
  rewrite enqueue_profiles. unfold enqueue_for_new_profile in He.
  destruct (find_profile pid lib); [|by injection He as <- _]. by case_match; injection He as <- _.
Qed.

Lemma supersede_profiles gen now pid fields lib : lb_profiles (supersede gen now pid fields lib).1 = lb_profiles lib.
Proof. unfold supersede, supersede_profile_variants. by destruct (find_profile _ _). Qed.

Lemma profiles_ok_add p lib :
  (∀ q, q ∈ lb_profiles lib → p_id q ≠ p_id p) → name_taken lib (p_name p) = false → compat_of p = Ok tt →
  profiles_ok lib → profiles_ok (add_profile p lib).
Proof.
  intros Hid Hname Hc [Hi Hn Hall]. unfold add_profile. split; simpl.
  - rewrite fmap_app. apply NoDup_app. split_and!; [done| |apply NoDup_singleton].
    intros x (q & -> & Hq)%list_elem_of_fmap Hx%list_elem_of_singleton. by apply (Hid q).
  - rewrite fmap_app. apply NoDup_app. split_and!; [done| |apply NoDup_singleton].
    intros x Hx Hx'%list_elem_of_singleton. subst x. apply name_taken_spec in Hx. congruence.
  - intros q [Hq|Hq%list_elem_of_singleton]%elem_of_app; subst; auto.
Qed.

Lemma profiles_ok_on pid f lib :
  (∀ q, p_id (f q) = p_id q) → (∀ q, p_name (f q) = p_name q) →
  (∀ q, q ∈ lb_profiles lib → p_id q = pid → compat_of (f q) = Ok tt) →
  profiles_ok lib → profiles_ok (on_profile pid f lib).
Proof.
  intros Hid Hname Hc [Hi Hn Hall]. unfold on_profile. split; simpl.
  - rewrite <-list_fmap_compose. erewrite list_fmap_ext_in; [exact Hi|]. intros q _. simpl. case_match; [apply Hid|done].
  - rewrite <-list_fmap_compose. erewrite list_fmap_ext_in; [exact Hn|]. intros q _. simpl. case_match; [apply Hname|done].
  - intros q (q0 & -> & Hq)%list_elem_of_fmap. case_bool_decide; auto.
Qed.

Lemma find_profile_In pid lib p : find_profile pid lib = Some p → p ∈ lb_profiles lib ∧ p_id p = pid.
Proof.
  unfold find_profile. intros ([i x] & Hx & ->)%fmap_Some.
  by apply list_find_Some in Hx as (?%list_elem_of_lookup_2 & ? & _).
Qed.

(** The factory defaults are valid settings. *)
Lemma defaults_compat name defaults p :
  aget name BUILTIN_PROFILES = Some defaults → compat_of (fold_left pset defaults p) = Ok tt.
Proof.
  unfold BUILTIN_PROFILES. cbn [aget]. destruct p.
  repeat (case_decide; [intros [= <-]; by vm_compute|]). done.
Qed.

Lemma unlink_all_profiles ok paths lib : lb_profiles (unlink_all ok paths lib).1 = lb_profiles lib.
Proof.
  revert lib. induction paths as [|p paths IH]; intros lib; simpl; [done|].
  destruct (bool_decide _); [|apply IH]. destruct (ok p); [|done]. by rewrite IH.
Qed.

(** The edits of the profile table; a new key is one no row has. *)
Inductive profile_op : Lib → Lib → Prop :=
  | op_create gen jgen now pid name fields lib :
      (∀ q, q ∈ lb_profiles lib → p_id q ≠ pid) → profile_op lib (create_profile gen jgen now pid name fields lib).1
  | op_copy gen jgen now new_pid pid lib :
      (∀ q, q ∈ lb_profiles lib → p_id q ≠ new_pid) → profile_op lib (copy_profile gen jgen now new_pid pid lib).1
  | op_update gen jgen now pid u lib : profile_op lib (update_profile gen jgen now pid u lib).1
  | op_reset gen jgen now pid lib : profile_op lib (reset_profile gen jgen now pid lib).1
  | op_disable pid lib : profile_op lib (disable_profile pid lib).1
  | op_enable gen jgen now pid lib : profile_op lib (enable_profile gen jgen now pid lib).1
  | op_delete unlink_ok pid lib : profile_op lib (delete_profile unlink_ok pid lib).1.

Lemma unique_profile lib p q : profiles_ok lib → p ∈ lb_profiles lib → q ∈ lb_profiles lib → p_id p = p_id q → p = q.
Proof. intros [Hi _ _]. by apply NoDup_fmap_eq. Qed.

Lemma copied_compat pid name p : compat_of (copied pid name p) = compat_of p.
Proof. done. Qed.

Lemma create_profile_ok gen jgen now pid name fields lib :
  (∀ q, q ∈ lb_profiles lib → p_id q ≠ pid) → profiles_ok lib → profiles_ok (create_profile gen jgen now pid name fields lib).1.
Proof.
  intros Hnew Hok. unfold create_profile. destruct (negb _); [done|].
  destruct (compat_of _) as [[]|] eqn:Hc; [|done]. destruct (name_taken lib name) eqn:Hn; [done|].
  eapply profiles_ok_same; [apply fan_out_profiles|]. apply profiles_ok_add; [by rewrite psets_id|by rewrite psets_name|done|done].
Qed.

Lemma copy_ok gen jgen now new_pid pid lib :
  (∀ q, q ∈ lb_profiles lib → p_id q ≠ new_pid) → profiles_ok lib → profiles_ok (copy_profile gen jgen now new_pid pid lib).1.
Proof.
  intros Hnew Hok. unfold copy_profile. destruct (find_profile pid lib) as [p|] eqn:Hf; [|done].
  destruct (negb _); [done|]. destruct (copy_name_total (p_name p) lib) as (k & -> & Hfree & _).
  eapply profiles_ok_same; [apply fan_out_profiles|]. apply profiles_ok_add; [done|done| |done].
  rewrite copied_compat. by apply Hok, (find_profile_In pid).
Qed.

Lemma update_profile_ok gen jgen now pid u lib : profiles_ok lib → profiles_ok (update_profile gen jgen now pid u lib).1.
Proof.
  intros Hok. unfold update_profile. destruct (find_profile pid lib) as [p|] eqn:Hf; [|done].
  destruct (negb _); [done|]. destruct (compat_of _) as [[]|] eqn:Hc; [|done].
  assert (Hon : profiles_ok (on_profile pid (fold_left pset u) lib)).
  { apply profiles_ok_on; [apply psets_id|apply psets_name| |done]. intros q Hq Hid.
    apply find_profile_In in Hf as [Hp Hpid]. by rewrite (unique_profile lib q p) by (done || congruence). }
  destruct (existsb _ _); [|done].
  destruct (supersede _ _ _ _ _) as [lib2 ids] eqn:Hs. eapply profiles_ok_same; [|exact Hon].
  cbn [response fst]. rewrite enqueue_profiles.
  change lib2 with ((lib2, ids).1). rewrite <-Hs. apply supersede_profiles.
Qed.

Lemma reset_ok gen jgen now pid lib : profiles_ok lib → profiles_ok (reset_profile gen jgen now pid lib).1.
Proof.
  intros Hok. unfold reset_profile. destruct (find_profile pid lib) as [p|] eqn:Hf; [|done].
  destruct (negb _); [done|]. destruct (negb _); [done|]. destruct (aget _ _) as [defaults|] eqn:Hd; [|done].
  assert (Hon : profiles_ok (on_profile pid (fold_left pset defaults) lib)).
  { apply profiles_ok_on; [apply psets_id|apply psets_name| |done]. intros q _ _. by eapply defaults_compat. }
  destruct (filter _ _) as [|f fs] eqn:Hc; [done|].
  destruct (supersede _ _ _ _ _) as [lib2 ids] eqn:Hs. eapply profiles_ok_same; [|exact Hon].
  cbn [response fst]. rewrite enqueue_profiles.
  change lib2 with ((lib2, ids).1). rewrite <-Hs. apply supersede_profiles.
Qed.

Lemma delete_ok unlink_ok pid lib : profiles_ok lib → profiles_ok (delete_profile unlink_ok pid lib).1.
Proof.
  intros Hok. unfold delete_profile. destruct (find_profile pid lib) as [p|]; [|done].
  destruct (p_builtin p); [done|]. destruct (negb _); [done|]. destruct (existsb _ _); [done|].
  destruct (unlink_all _ _ _) as [lib1 ok] eqn:Hu.
  assert (E : lb_profiles lib1 = lb_profiles lib).
  { change lib1 with ((lib1, ok).1). rewrite <-Hu. apply unlink_all_profiles. }
  destruct (negb ok); [by eapply profiles_ok_same|].
  destruct Hok as [Hi Hn Hc]. split; simpl; rewrite E.
  - by apply NoDup_fmap_filter.
  - by apply NoDup_fmap_filter.
  - intros q [_ Hq]%list_elem_of_filter. auto.
Qed.

Lemma on_enabled_ok pid b lib : profiles_ok lib → profiles_ok (on_profile pid (with_enabled b) lib).
Proof. intros Hok. apply profiles_ok_on; [done|done| |done]. intros q Hq _. exact (po_compat _ Hok q Hq). Qed.

(** Every operation on profiles keeps the table consistent: keys and names
    stay unique (a copy always finds a free name) and every profile stays a
    combination the encoder accepts, whatever a request asks for. *)
Theorem profiles_preserved (lib lib' : Lib) : rtc profile_op lib lib' → profiles_ok lib → profiles_ok lib'.
Proof.
  induction 1 as [|lib1 lib2 lib3 Hop _ IH]; [done|]. intros Hok. apply IH. clear IH.
  destruct Hop; [by apply create_profile_ok|by apply copy_ok|by apply update_profile_ok|by apply reset_ok| | |by apply delete_ok].
  - unfold disable_profile. destruct (find_profile _ _); [|done]. destruct (negb _); [done|]. destruct (negb _); [done|].
    by apply (profiles_ok_same (on_profile pid (with_enabled false) lib)), on_enabled_ok.
  - unfold enable_profile. destruct (find_profile _ _); [|done]. destruct (negb _); [done|].
    destruct (p_enabled _); [by apply on_enabled_ok|]. eapply profiles_ok_same; [apply fan_out_profiles|]. by apply on_enabled_ok.
Qed.

(** A name that ends in a line break is accepted, and the name of a copy is
    one that creation refuses. *)
Example name_with_newline_accepted : validate_name ("wall" +:+ newline) = true ∧ validate_name (copy_candidate "pi-4" 0) = false.
Proof. vm_compute. done. Qed.

(** ** Witnesses *)

Definition shop : Lib :=
  set_variants [mkVariant "v0" "a" "p" "v0.mp4" 10 "5eed" V_READY 1 None ""; mkVariant "v1" "i" "p" "v1.jpg" 10 "5eed" V_READY 1 None ""]
    (workshop [video "a"; picture "i"] []).



Lemma profiles_preserved_witness :
  profiles_ok (copy_profile (numbered "w") (numbered2 "k") 2 "p2" "p" (update_profile (numbered "x") (numbered2 "l") 1 "p" [("crf", PInt 20)] shop).1).1.
Proof.
  eapply (profiles_preserved shop).
  - eapply rtc_l; [apply op_update|]. apply rtc_once, op_copy.
    intros q Hq. vm_compute in Hq. repeat (apply elem_of_cons in Hq as [->|Hq]; [discriminate|]). by apply elem_of_nil in Hq.
  - split; [apply (bool_decide_unpack _); by vm_compute..|].
    intros q Hq. unfold shop in Hq. repeat (apply elem_of_cons in Hq as [->|Hq]; [reflexivity|]). by apply elem_of_nil in Hq.
Defined.
