(* ===== verification/DeviceLife.v ===== *)
(** * The life of a device row (cms/services/device_register.py,
      device_membership.py, device_purge.py, cms/routers/devices.py, ws.py)

    Registration and its tokens, the API key with its rotation, adoption,
    edits, group moves, deletion and the purge of devices that were never
    adopted; groups.  A row is the part the scheduler reads ([Device]) with the
    credentials and reports of the device.  Hashing and fresh tokens are
    arguments.  What a handler sends after its commit is returned as a list of
    [Effect]s. *)

From S2P Require Import Prelude Clock Models Database Samples AssetReadiness Occurrence Targeting ConflictGate PyText Access Variants.
Open Scope Z_scope.

(** ** Rows *)

Record LDevice := mkLDevice {
  ld_row : Device;
  ld_location : string;
  ld_firmware_version : string;
  ld_os_version : string;
  ld_supported_codecs : string;
  ld_storage_capacity_mb : Z;
  ld_storage_used_mb : Z;
  ld_update_channel : string;
  ld_auth_token_hash : option string;
  ld_api_key_hash : option string;
  ld_previous_api_key_hash : option string;
  ld_api_key_rotated_at : option Z;
  ld_last_seen : option Z;
  ld_registered_at : Z;
  ld_online : bool
}.

Definition ld_id (d : LDevice) : string := d_id (ld_row d).
Definition ld_status (d : LDevice) : DeviceStatus := d_status (ld_row d).

(** The tables of this file; groups are kept with their default asset. *)
Record Floor := mkFloor {
  fl_devices : list LDevice;
  fl_groups : list DeviceGroup;
  fl_profiles : list DeviceProfile;
  fl_tags : list DeviceTag;
  fl_assignments : list (uuid * string);
  fl_schedules : list Schedule;
  fl_media : Media;
  fl_device_assets : list (string * uuid)
}.

(** What the scheduler and the gates see of it. *)
Definition db_of (fl : Floor) : Db :=
  mkDb None (fl_schedules fl) (ld_row <$> fl_devices fl) (fl_tags fl) (fl_assignments fl) (fl_media fl) ∅ ∅ [].

Definition set_devices (l : list LDevice) (fl : Floor) : Floor :=
  mkFloor l (fl_groups fl) (fl_profiles fl) (fl_tags fl) (fl_assignments fl) (fl_schedules fl) (fl_media fl) (fl_device_assets fl).
Definition set_groups (l : list DeviceGroup) (fl : Floor) : Floor :=
  mkFloor (fl_devices fl) l (fl_profiles fl) (fl_tags fl) (fl_assignments fl) (fl_schedules fl) (fl_media fl) (fl_device_assets fl).
Definition set_tags (l : list DeviceTag) (fl : Floor) : Floor :=
  mkFloor (fl_devices fl) (fl_groups fl) (fl_profiles fl) l (fl_assignments fl) (fl_schedules fl) (fl_media fl) (fl_device_assets fl).
Definition set_tag_rows (l : list (uuid * string)) (fl : Floor) : Floor :=
  mkFloor (fl_devices fl) (fl_groups fl) (fl_profiles fl) (fl_tags fl) l (fl_schedules fl) (fl_media fl) (fl_device_assets fl).
Definition set_device_assets (l : list (string * uuid)) (fl : Floor) : Floor :=
  mkFloor (fl_devices fl) (fl_groups fl) (fl_profiles fl) (fl_tags fl) (fl_assignments fl) (fl_schedules fl) (fl_media fl) l.

Definition find_device (did : string) (fl : Floor) : option LDevice :=
  snd <$> list_find (λ d, ld_id d = did) (fl_devices fl).
Definition find_group (gid : uuid) (fl : Floor) : option DeviceGroup :=
  snd <$> list_find (λ g, g_id g = gid) (fl_groups fl).
Definition profile_row (pid : uuid) (fl : Floor) : option DeviceProfile :=
  snd <$> list_find (λ p, p_id p = pid) (fl_profiles fl).

(** [UPDATE devices ... WHERE id = did]. *)
Definition on_device (did : string) (f : LDevice → LDevice) (fl : Floor) : Floor :=
  set_devices ((λ d, if bool_decide (ld_id d = did) then f d else d) <$> fl_devices fl) fl.

Definition on_row (f : Device → Device) (d : LDevice) : LDevice :=
  mkLDevice (f (ld_row d)) (ld_location d) (ld_firmware_version d) (ld_os_version d) (ld_supported_codecs d)
    (ld_storage_capacity_mb d) (ld_storage_used_mb d) (ld_update_channel d) (ld_auth_token_hash d) (ld_api_key_hash d)
    (ld_previous_api_key_hash d) (ld_api_key_rotated_at d) (ld_last_seen d) (ld_registered_at d) (ld_online d).

Definition row_status (st : DeviceStatus) (d : Device) : Device :=
  mkDevice (d_id d) (d_name d) st (d_group_id d) (d_group d) (d_profile_id d) (d_default_asset d) (d_timezone d)
    (d_device_type d) (d_capabilities d).
Definition row_name (n : string) (d : Device) : Device :=
  mkDevice (d_id d) n (d_status d) (d_group_id d) (d_group d) (d_profile_id d) (d_default_asset d) (d_timezone d)
    (d_device_type d) (d_capabilities d).
Definition row_group (g : option DeviceGroup) (gid : option uuid) (d : Device) : Device :=
  mkDevice (d_id d) (d_name d) (d_status d) gid g (d_profile_id d) (d_default_asset d) (d_timezone d)
    (d_device_type d) (d_capabilities d).
Definition row_profile (p : option uuid) (d : Device) : Device :=
  mkDevice (d_id d) (d_name d) (d_status d) (d_group_id d) (d_group d) p (d_default_asset d) (d_timezone d)
    (d_device_type d) (d_capabilities d).
Definition row_default (a : option Asset) (d : Device) : Device :=
  mkDevice (d_id d) (d_name d) (d_status d) (d_group_id d) (d_group d) (d_profile_id d) a (d_timezone d)
    (d_device_type d) (d_capabilities d).
Definition row_timezone (tz : option string) (d : Device) : Device :=
  mkDevice (d_id d) (d_name d) (d_status d) (d_group_id d) (d_group d) (d_profile_id d) (d_default_asset d) tz
    (d_device_type d) (d_capabilities d).
Definition row_reports (ty : string) (caps : list string) (d : Device) : Device :=
  mkDevice (d_id d) (d_name d) (d_status d) (d_group_id d) (d_group d) (d_profile_id d) (d_default_asset d) (d_timezone d)
    ty caps.

Definition with_auth_token (h : option string) (d : LDevice) : LDevice :=
  mkLDevice (ld_row d) (ld_location d) (ld_firmware_version d) (ld_os_version d) (ld_supported_codecs d)
    (ld_storage_capacity_mb d) (ld_storage_used_mb d) (ld_update_channel d) h (ld_api_key_hash d)
    (ld_previous_api_key_hash d) (ld_api_key_rotated_at d) (ld_last_seen d) (ld_registered_at d) (ld_online d).
Definition with_keys (cur prev : option string) (at_ : option Z) (d : LDevice) : LDevice :=
  mkLDevice (ld_row d) (ld_location d) (ld_firmware_version d) (ld_os_version d) (ld_supported_codecs d)
    (ld_storage_capacity_mb d) (ld_storage_used_mb d) (ld_update_channel d) (ld_auth_token_hash d) cur prev at_
    (ld_last_seen d) (ld_registered_at d) (ld_online d).
Definition seen_at (now : Z) (d : LDevice) : LDevice :=
  mkLDevice (ld_row d) (ld_location d) (ld_firmware_version d) (ld_os_version d) (ld_supported_codecs d)
    (ld_storage_capacity_mb d) (ld_storage_used_mb d) (ld_update_channel d) (ld_auth_token_hash d) (ld_api_key_hash d)
    (ld_previous_api_key_hash d) (ld_api_key_rotated_at d) (Some now) (ld_registered_at d) (ld_online d).
Definition with_location (loc : string) (d : LDevice) : LDevice :=
  mkLDevice (ld_row d) loc (ld_firmware_version d) (ld_os_version d) (ld_supported_codecs d)
    (ld_storage_capacity_mb d) (ld_storage_used_mb d) (ld_update_channel d) (ld_auth_token_hash d) (ld_api_key_hash d)
    (ld_previous_api_key_hash d) (ld_api_key_rotated_at d) (ld_last_seen d) (ld_registered_at d) (ld_online d).
Definition with_channel (ch : string) (d : LDevice) : LDevice :=
  mkLDevice (ld_row d) (ld_location d) (ld_firmware_version d) (ld_os_version d) (ld_supported_codecs d)
    (ld_storage_capacity_mb d) (ld_storage_used_mb d) ch (ld_auth_token_hash d) (ld_api_key_hash d)
    (ld_previous_api_key_hash d) (ld_api_key_rotated_at d) (ld_last_seen d) (ld_registered_at d) (ld_online d).

Inductive Effect :=
  | Wipe (did reason : string)
  | Sync (did : string)
  | PushDefault (did : string) (a : Asset)
  | SendKey (did key : string)
  | AuthAssigned (did token : string).

#[export] Instance Effect_eq_dec : EqDecision Effect.
Proof.
  assert (EqDecision Asset) by (intros x y; unfold Decision; repeat (decide equality || apply string_eq_dec)).
  solve_decision.
Defined.

(** ** Registration *)

(** Checked in order. *)
Definition _DEVICE_TYPE_PROFILE_MAP : list (string * string) :=
  [("pi zero 2 w", "pi-zero-2w"); ("raspberry pi zero 2 w", "pi-zero-2w"); ("pi 5", "pi-5"); ("pi 4", "pi-4")].

Definition profile_for_type (device_type : string) : option string :=
  snd <$> (snd <$> list_find (λ pn, str_contains pn.1 (str_lower device_type) = true) _DEVICE_TYPE_PROFILE_MAP).

(** The row after the assignment. *)
Definition auto_assign_profile (fl : Floor) (d : LDevice) : LDevice :=
  if bool_decide (is_Some (d_profile_id (ld_row d))) || bool_decide (d_device_type (ld_row d) = "") then d
  else match profile_for_type (d_device_type (ld_row d)) with
       | None => d
       | Some name => match snd <$> list_find (λ p, p_name p = name) (fl_profiles fl) with
                      | Some p => on_row (row_profile (Some (p_id p))) d
                      | None => d
                      end
       end.

(** The fields of a register message; [None] for a missing one, or a null one
    where the code treats both alike. *)
Record RegisterMsg := mkReg {
  rg_auth_token : option string;
  rg_firmware_version : option string;
  rg_os_version : option string;
  rg_device_type : option string;
  rg_supported_codecs : option (list string);
  rg_capabilities : option (list string);
  rg_storage_capacity_mb : option Z;
  rg_storage_used_mb : option Z;
  rg_device_name : option string;
  rg_device_name_custom : bool
}.

(** The metadata a known device reports; an empty field keeps the old value. *)
Definition refresh_metadata (now : Z) (m : RegisterMsg) (d : LDevice) : LDevice :=
  let keep (new : option string) (old : string) := str_or new (Some old) or_else old in
  let row1 := row_reports (keep (rg_device_type m) (d_device_type (ld_row d)))
                (default (d_capabilities (ld_row d)) (rg_capabilities m)) (ld_row d) in
  let row2 := match truthy (rg_device_name m) with
              | Some n => if rg_device_name_custom m then row_name n row1 else row1
              | None => row1
              end in
  mkLDevice row2 (ld_location d) (keep (rg_firmware_version m) (ld_firmware_version d))
    (keep (rg_os_version m) (ld_os_version d))
    (match rg_supported_codecs m with Some l => String.concat "," l | None => ld_supported_codecs d end)
    (default (ld_storage_capacity_mb d) (rg_storage_capacity_mb m)) (default (ld_storage_used_mb d) (rg_storage_used_mb m))
    (ld_update_channel d) (ld_auth_token_hash d) (ld_api_key_hash d) (ld_previous_api_key_hash d)
    (ld_api_key_rotated_at d) (Some now) (ld_registered_at d) (ld_online d).

Section keys.
Context (hash : string → string).    (* SHA-256, hexadecimal *)

(** [orphaned], or the token to send if one was minted. *)
Inductive RegisterResult := Orphaned | Accepted (auth_assigned : option string).

Definition register_known_device (now : Z) (new_token : string) (fl : Floor) (m : RegisterMsg) (d : LDevice)
    : LDevice * RegisterResult :=
  let finish d' r := (auto_assign_profile fl (refresh_metadata now m d'), Accepted r) in
  match truthy (ld_auth_token_hash d) with
  | Some stored =>
      match truthy (rg_auth_token m) with
      | None => finish (seen_at now (with_auth_token (Some (hash new_token)) (on_row (row_status D_PENDING) d))) (Some new_token)
      | Some token =>
          if bool_decide (hash token = stored) then finish d None
          else (seen_at now (on_row (row_status D_ORPHANED) d), Orphaned)
      end
  | None => finish (with_auth_token (Some (hash new_token)) d) (Some new_token)
  end.

(** A row for a device nobody knows. *)
Definition new_device (now : Z) (did new_token : string) (m : RegisterMsg) : LDevice :=
  mkLDevice
    (mkDevice did (str_or (rg_device_name m) (Some did) or_else did) D_PENDING None None None None None
       (rg_device_type m or_else "") (default [] (rg_capabilities m)))
    "" (rg_firmware_version m or_else "") (rg_os_version m or_else "") (String.concat "," (default [] (rg_supported_codecs m)))
    (default 0 (rg_storage_capacity_mb m)) (default 0 (rg_storage_used_mb m)) "stable" (Some (hash new_token)) None None None
    (Some now) now false.

Definition rotate_api_key (now : Z) (new_key : string) (d : LDevice) : LDevice :=
  with_keys (Some (hash new_key)) (ld_api_key_hash d) (Some now) d.

(** Device default, group default, or none. *)
Definition effective_default (d : LDevice) : option Asset :=
  match d_default_asset (ld_row d) with Some a => Some a | None => g ← d_group (ld_row d); g_default_asset g end.
Definition push_effective (d : LDevice) : list Effect :=
  match effective_default d with Some a => [PushDefault (ld_id d) a] | None => [] end.

(** The register part of [device_websocket]: the answer and, for an adopted
    device, a sync, its default and a fresh key.  [None] closes the connection. *)
Definition ws_register (now : Z) (new_token new_key did : string) (m : RegisterMsg) (fl : Floor)
    : Floor * option (list Effect) :=
  match find_device did fl with
  | None =>
      let d := auto_assign_profile fl (new_device now did new_token m) in
      (set_devices (fl_devices fl ++ [d]) fl, Some [AuthAssigned did new_token])
  | Some d =>
      match register_known_device now new_token fl m d with
      | (d', Orphaned) => (on_device did (λ _, d') fl, None)
      | (d', Accepted t) =>
          let auth := match t with Some tok => [AuthAssigned did tok] | None => [] end in
          if bool_decide (ld_status d' = D_ADOPTED)
          then (on_device did (λ _, rotate_api_key now new_key d') fl, Some (auth ++ Sync did :: push_effective d' ++ [SendKey did new_key]))
          else (on_device did (λ _, d') fl, Some auth)
      end
  end.

(** The register branch of the webhook: an unknown device is dropped, an
    orphaned one stays connected. *)
Definition wps_register (now : Z) (new_token new_key did : string) (m : RegisterMsg) (fl : Floor) : Floor * list Effect :=
  match find_device did fl with
  | None => (fl, [])
  | Some d =>
      match register_known_device now new_token fl m d with
      | (d', Orphaned) => (on_device did (λ _, d') fl, [])
      | (d', Accepted t) =>
          let auth := match t with Some tok => [AuthAssigned did tok] | None => [] end in
          if bool_decide (ld_status d' = D_ADOPTED)
          then (on_device did (λ _, rotate_api_key now new_key d') fl, auth ++ [SendKey did new_key])
          else (on_device did (λ _, d') fl, auth)
      end
  end.

(** The rotation at the end of a STATUS message. *)
Definition rotation_due (rotation_hours now : Z) (d : LDevice) : bool :=
  bool_decide (ld_status d = D_ADOPTED) && (0 <? rotation_hours) &&
  match ld_api_key_rotated_at d with None => false | Some at_ => rotation_hours * 3600000000 <? now - at_ end.
Definition status_rotation (rotation_hours now : Z) (new_key did : string) (fl : Floor) : Floor * list Effect :=
  match find_device did fl with
  | None => (fl, [])
  | Some d => if rotation_due rotation_hours now d
              then (on_device did (λ _, rotate_api_key now new_key d) fl, [SendKey did new_key])
              else (fl, [])
  end.

Definition _KEY_GRACE_SECONDS : Z := 300.

(** The previous key, inside its grace period. *)
Definition previous_key_ok (now : Z) (h : string) (d : LDevice) : bool :=
  bool_decide (ld_previous_api_key_hash d = Some h) &&
  match ld_api_key_rotated_at d with None => false | Some at_ => now - at_ <? _KEY_GRACE_SECONDS * 1000000 end.

(** The key part of [require_device_or_session_auth]: any device's key.  Two
    rows with one hash make [scalar_one_or_none] raise. *)
Definition require_device_auth (now : Z) (key : option string) (fl : Floor) : result exn unit :=
  match truthy key with
  | None => Err (HTTPException 401)
  | Some k =>
      match filter (λ d, ld_api_key_hash d = Some (hash k)) (fl_devices fl) with
      | [_] => Ok tt
      | _ :: _ :: _ => Err RuntimeError
      | [] => match filter (λ d, ld_previous_api_key_hash d = Some (hash k)) (fl_devices fl) with
           | [d] => if previous_key_ok now (hash k) d then Ok tt else Err (HTTPException 401)
           | [] => Err (HTTPException 401)
           | _ => Err RuntimeError
           end
      end
  end.

Definition _authenticate_device (now : Z) (did : string) (key : option string) (fl : Floor) : result exn LDevice :=
  match truthy key with
  | None => Err (HTTPException 401)
  | Some k =>
      match find_device did fl with
      | None => Err (HTTPException 404)
      | Some d =>
          if bool_decide (ld_api_key_hash d = Some (hash k)) || previous_key_ok now (hash k) d then Ok d
          else Err (HTTPException 401)
      end
  end.
End keys.

(** ** Groups and moves *)

(** [set_device_group] without its report: tags stay behind. *)
Definition set_device_group (did : string) (gid : option uuid) (fl : Floor) : Floor :=
  match find_device did fl with
  | None => fl
  | Some d =>
      if bool_decide (d_group_id (ld_row d) = gid) then fl
      else set_tag_rows (filter (λ row, row.2 ≠ did) (fl_assignments fl))
             (on_device did (on_row (row_group (g ← gid; find_group g fl) gid)) fl)
  end.

(** The names of the tags a device would lose, in order. *)
Definition dropped_tags (did : string) (gid : option uuid) (fl : Floor) : list string :=
  match find_device did fl with
  | None => []
  | Some d =>
      if bool_decide (d_group_id (ld_row d) = gid) then []
      else sort_on (λ a b, negb (str_lower b <s str_lower a))
             (omap (λ row, if bool_decide (row.2 = did) then t_name <$> (snd <$> list_find (λ t, t_id t = row.1) (fl_tags fl)) else None)
                   (fl_assignments fl))
  end.

Section handlers.
Context (uid : uuid) (user : User) (adb : AuthDb).    (* who asks *)

Definition device_scope (d : LDevice) : gset uuid := match d_group_id (ld_row d) with Some g => {[g]} | None => ∅ end.

Definition _get_device_with_access (did : string) (fl : Floor) : result exn LDevice :=
  match find_device did fl with
  | None => Err (HTTPException 404)
  | Some d => _ ← verify_resource_group_access uid user adb (device_scope d); Ok d
  end.

Definition _verify_group_change_access (d : LDevice) (target_group_id : option uuid) (fl : Floor) : result exn unit :=
  match target_group_id with
  | Some g => if bool_decide (find_group g fl = None) then Err (HTTPException 404) else Ok tt
  | None => Ok tt
  end ≫= λ _,
  let touched := device_scope d ∪ match target_group_id with Some g => {[g]} | None => ∅ end in
  if forallb (can_manage_group_membership uid user adb) (elements touched) then Ok tt else Err (HTTPException 403).

Definition _require_existing_group (gid : uuid) (fl : Floor) : result exn unit :=
  if bool_decide (find_group gid fl = None) then Err (HTTPException 404) else Ok tt.

Definition perms_of : list string := match role_of adb user with Some r => rl_permissions r | None => [] end.

(** The fields of the request; [Some None] is an explicit null. *)
Record DeviceUpdate := mkUpd {
  up_name : option (option string);
  up_location : option (option string);
  up_status : option (option DeviceStatus);
  up_group_id : option (option uuid);
  up_default_asset_id : option (option uuid);
  up_profile_id : option (option uuid);
  up_timezone : option (option string);
  up_update_channel : option (option string)
}.

Definition CHANNELS : list string := ["stable"; "prerelease"].

(** The gates of [update_device], in order. *)
Definition update_checks (u : DeviceUpdate) (d : LDevice) (fl : Floor) : result exn (option Asset) :=
  _ ← match up_group_id u with
      | None => Ok tt
      | Some g => _ ← _verify_group_change_access d g fl;
                  match g with Some gid => _require_existing_group gid fl | None => Ok tt end
      end;
  _ ← match up_update_channel u with
      | Some (Some c) => if bool_decide (c ∈ CHANNELS) then Ok tt else Err (HTTPException 422)
      | Some None => Err (HTTPException 422)
      | None => Ok tt
      end;
  _ ← (if (bool_decide (is_Some (up_profile_id u)) || bool_decide (is_Some (up_timezone u)) || bool_decide (is_Some (up_status u)))
          && negb (has_permission perms_of DEVICES_MANAGE) then Err (HTTPException 403) else Ok tt);
  asset ← match up_default_asset_id u with
          | Some (Some aid) =>
              a ← require_asset_ready (fl_media fl) aid;
              if bool_decide (a_asset_type a = SLIDESHOW) && negb (bool_decide (CAPABILITY_SLIDESHOW_V1 ∈ d_capabilities (ld_row d)))
              then Err (HTTPException 422) else Ok (Some a)
          | _ => Ok None
          end;
  _ ← match up_profile_id u with
      | Some (Some pid) => match profile_row pid fl with
                           | None => Err (HTTPException 404)
                           | Some p => if p_enabled p then Ok tt else Err (HTTPException 422)
                           end
      | _ => Ok tt
      end;
  Ok asset.

(** The assignments; a null in a NOT NULL column is raised at the commit. *)
Definition apply_update (u : DeviceUpdate) (asset : option Asset) (d : LDevice) : LDevice :=
  let set {A} (x : option A) (f : A → LDevice → LDevice) (d : LDevice) := match x with Some a => f a d | None => d end in
  set (up_update_channel u) (λ c, match c with Some ch => with_channel ch | None => id end)
    (set (up_timezone u) (λ tz, on_row (row_timezone tz))
    (set (up_profile_id u) (λ p, on_row (row_profile p))
    (set (up_default_asset_id u) (λ _, on_row (row_default asset))
    (set (up_status u) (λ s, match s with Some st => on_row (row_status st) | None => id end)
    (set (up_location u) (λ l, match l with Some loc => with_location loc | None => id end)
    (set (up_name u) (λ n, match n with Some nm => on_row (row_name nm) | None => id end) d)))))).
Definition update_violates (u : DeviceUpdate) : bool :=
  bool_decide (up_name u = Some None) || bool_decide (up_location u = Some None) || bool_decide (up_status u = Some None).

Definition update_device (did : string) (u : DeviceUpdate) (fl : Floor) : result exn (Floor * list Effect) :=
  match find_device did fl with
  | None => Err (HTTPException 404)
  | Some d =>
      _ ← verify_resource_group_access uid user adb (device_scope d);
      asset ← update_checks u d fl;
      if update_violates u then Err IntegrityError
      else
        let fl1 := on_device did (apply_update u asset) fl in
        let fl2 := match up_group_id u with Some g => set_device_group did g fl1 | None => fl1 end in
        let effects := match find_device did fl2 with
          | None => []
          | Some d2 =>
              if bool_decide (is_Some (up_group_id u)) then [Sync did]
              else if bool_decide (is_Some (up_default_asset_id u)) then
                match effective_default d2 with Some a => [PushDefault did a] | None => [Sync did] end
              else if bool_decide (is_Some (up_timezone u)) then [Sync did] else []
          end in
        Ok (fl2, effects)
  end.

Record AdoptBody := mkAdopt { ad_name : option string; ad_location : option string; ad_group_id : option uuid; ad_profile_id : uuid }.

(** The row after the status branch. *)
Definition readopt (d : LDevice) : result exn LDevice :=
  match ld_status d with
  | D_PENDING => Ok (on_row (row_status D_ADOPTED) d)
  | D_ORPHANED => Ok (on_row (row_status D_ADOPTED) (with_auth_token None (with_keys None None None d)))
  | D_ADOPTED => Err (HTTPException 400)
  end.

Definition adopt_device (did : string) (b : AdoptBody) (fl : Floor) : result exn (Floor * list Effect) :=
  d ← _get_device_with_access did fl;
  d1 ← readopt d;
  let d2 := match ad_name b with Some n => on_row (row_name n) d1 | None => d1 end in
  let d3 := match ad_location b with Some l => with_location l d2 | None => d2 end in
  _ ← match ad_group_id b with
      | Some g => _ ← _require_existing_group g fl; _verify_group_change_access d (Some g) fl
      | None => Ok tt
      end;
  match profile_row (ad_profile_id b) fl with
  | None => Err (HTTPException 404)
  | Some p =>
      if negb (p_enabled p) then Err (HTTPException 422)
      else
        let fl1 := on_device did (λ _, on_row (row_profile (Some (ad_profile_id b))) d3) fl in
        let fl2 := match ad_group_id b with Some g => set_device_group did (Some g) fl1 | None => fl1 end in
        Ok (fl2, [Wipe did "adopted"; Sync did])
  end.

(** The rows of the device that cascade go with it. *)
Definition drop_devices (dids : list string) (fl : Floor) : Floor :=
  set_tag_rows (filter (λ row, row.2 ∉ dids) (fl_assignments fl))
    (set_devices (filter (λ d, ld_id d ∉ dids) (fl_devices fl)) fl).

Definition delete_device (did : string) (fl : Floor) : result exn (Floor * list Effect) :=
  _ ← _get_device_with_access did fl;
  Ok (drop_devices [did] (set_device_assets (filter (λ da, da.1 ≠ did) (fl_device_assets fl)) fl), [Wipe did "deleted"]).

(** A command to a device: reboot, factory reset, SSH, local API; the password
    command checks its argument first. *)
Definition device_command (connected sent : bool) (did : string) (fl : Floor) : result exn LDevice :=
  d ← _get_device_with_access did fl;
  if negb connected then Err (HTTPException 409) else if negb sent then Err (HTTPException 502) else Ok d.
Definition set_device_password (password : string) (connected sent : bool) (did : string) (fl : Floor) : result exn LDevice :=
  let p := str_strip password in
  if bool_decide (p = "") then Err (HTTPException 400)
  else if (String.length p <? 4)%nat then Err (HTTPException 400)
  else device_command connected sent did fl.

(** ** Group endpoints *)

(** The new group and, for a user who does not see all groups, the membership. *)
Definition create_group (gid : uuid) (name : string) (default_asset_id : option uuid) (fl : Floor)
    : result exn (Floor * AuthDb) :=
  asset ← match default_asset_id with Some aid => a ← require_asset_ready (fl_media fl) aid; Ok (Some a) | None => Ok None end;
  if existsb (λ g, bool_decide (g_name g = name)) (fl_groups fl) then Err (HTTPException 409)
  else
    gids ← get_user_group_ids uid user adb;
    Ok (set_groups (fl_groups fl ++ [mkGroup gid name asset]) fl,
        match gids with
        | None => adb
        | Some _ => mkAuthDb (au_users adb) (au_roles adb) ({[(uid, gid)]} ∪ au_user_groups adb) (au_keys adb) (au_settings adb)
        end).

Definition members (gid : uuid) (fl : Floor) : list LDevice := filter (λ d, d_group_id (ld_row d) = Some gid) (fl_devices fl).

(** [Some None] clears the default; the rows of the members carry the group. *)
Definition update_group (gid : uuid) (name : option (option string)) (default_asset_id : option (option uuid)) (fl : Floor)
    : result exn (Floor * list Effect) :=
  match find_group gid fl with
  | None => Err (HTTPException 404)
  | Some g =>
      _ ← verify_resource_group_access uid user adb {[gid]};
      asset ← match default_asset_id with
              | Some (Some aid) =>
                  a ← require_asset_ready (fl_media fl) aid;
                  if bool_decide (a_asset_type a = SLIDESHOW) &&
                     existsb (λ d, bool_decide (ld_status d = D_ADOPTED) &&
                                   negb (bool_decide (CAPABILITY_SLIDESHOW_V1 ∈ d_capabilities (ld_row d)))) (members gid fl)
                  then Err (HTTPException 422) else Ok (Some a)
              | Some None => Ok None
              | None => Ok (g_default_asset g)
              end;
      match name with
      | Some None => Err IntegrityError
      | _ =>
          let name' := match name with Some (Some n) => n | _ => g_name g end in
          if existsb (λ h, bool_decide (g_id h ≠ gid) && bool_decide (g_name h = name')) (fl_groups fl) then Err IntegrityError
          else
            let g' := mkGroup gid name' asset in
            let fl1 := set_groups ((λ h, if bool_decide (g_id h = gid) then g' else h) <$> fl_groups fl) fl in
            let fl2 := set_devices ((λ d, if bool_decide (d_group_id (ld_row d) = Some gid)
                                          then on_row (row_group (Some g') (Some gid)) d else d) <$> fl_devices fl1) fl1 in
            Ok (fl2, if bool_decide (is_Some default_asset_id)
                     then (λ d, match effective_default d with Some a => PushDefault (ld_id d) a | None => Sync (ld_id d) end)
                            <$> members gid fl2
                     else [])
      end
  end.

(** Devices lose the group, its tags go with their assignments. *)
Definition delete_group (gid : uuid) (fl : Floor) : result exn (Floor * list Effect) :=
  match find_group gid fl with
  | None => Err (HTTPException 404)
  | Some _ =>
      _ ← verify_resource_group_access uid user adb {[gid]};
      if existsb (λ s, bool_decide (s_group_id s = Some gid)) (fl_schedules fl) then Err (HTTPException 409)
      else
        let gone := t_id <$> filter (λ t, t_group_id t = gid) (fl_tags fl) in
        let affected := sort_on (λ a b, negb (b <s a)) (ld_id <$> members gid fl) in
        let fl1 := set_groups (filter (λ g, g_id g ≠ gid) (fl_groups fl)) fl in
        let fl2 := set_tag_rows (filter (λ row, row.1 ∉ gone) (fl_assignments fl1))
                     (set_tags (filter (λ t, t_group_id t ≠ gid) (fl_tags fl1)) fl1) in
        Ok (set_devices ((λ d, if bool_decide (d_group_id (ld_row d) = Some gid) then on_row (row_group None None) d else d)
                         <$> fl_devices fl2) fl2, Sync <$> affected)
  end.
End handlers.

(** ** The purge of pending devices *)

Definition purge_candidate (ttl_hours now : Z) (d : LDevice) : bool :=
  bool_decide (ld_status d = D_PENDING) && negb (ld_online d) &&
  ((ld_last_seen d or_else ld_registered_at d) <=? now - ttl_hours * 3600000000).
Definition purge_candidates (ttl_hours now : Z) (fl : Floor) : list string :=
  ld_id <$> filter (λ d, purge_candidate ttl_hours now d = true) (fl_devices fl).

(** The guarded DELETE, on the tables as they are by then. *)
Definition purge_delete (candidates : list string) (fl : Floor) : Floor * list string :=
  let purged := ld_id <$> filter (λ d, ld_id d ∈ candidates ∧ ld_status d = D_PENDING ∧ ld_online d = false) (fl_devices fl) in
  (drop_devices purged fl, purged).

(** ** Specification *)

(** Two enabled schedules of one group, one of them for the whole group, do
    not clash: what the schedule gate sees without looking at devices. *)
Definition group_free (schedules : list Schedule) : Prop :=
  ∀ a b g, a ∈ schedules → b ∈ schedules → s_enabled a = true → s_enabled b = true →
    s_group_id a = Some g → s_group_id b = Some g → s_tag_id a = None ∨ s_tag_id b = None → ¬ clash a b.

(** A tag assignment joins a device and a tag of its group. *)
Definition tags_scoped (fl : Floor) : Prop :=
  ∀ row, row ∈ fl_assignments fl →
    ∃ d t, d ∈ fl_devices fl ∧ ld_id d = row.2 ∧ t ∈ fl_tags fl ∧ t_id t = row.1 ∧
           d_group_id (ld_row d) = Some (t_group_id t).

Record floor_ok (fl : Floor) : Prop := {
  fo_gate : gate_ok (db_of fl);
  fo_tag_ids : NoDup (t_id <$> fl_tags fl);
  fo_scoped : tags_scoped fl;
  fo_group_free : group_free (fl_schedules fl);
  fo_free : conflict_free (db_of fl)
}.

(** No tags, so that becoming a target adds only schedules for the whole group. *)
Definition untagged (did : string) (fl : Floor) : Prop := ∀ row, row ∈ fl_assignments fl → row.2 ≠ did.
#[export] Instance untagged_dec did fl : Decision (untagged did fl).
Proof.
  refine (cast_if (decide (Forall (λ row, row.2 ≠ did) (fl_assignments fl)))); unfold untagged; by rewrite <-Forall_forall.
Defined.

(** Every operation on devices and groups.  Adoption, by its endpoint or by an
    edit of the status, asks no gate: the relation admits it for devices without
    tags, and [adoption_creates_conflict] shows why. *)
Inductive floor_op (hash : string → string) : Floor → Floor → Prop :=
  | fo_ws now tok key did m fl : floor_op hash fl (ws_register hash now tok key did m fl).1
  | fo_wps now tok key did m fl : floor_op hash fl (wps_register hash now tok key did m fl).1
  | fo_rotation hours now key did fl : floor_op hash fl (status_rotation hash hours now key did fl).1
  | fo_update uid user adb did u fl fl' eff :
      (up_status u = Some (Some D_ADOPTED) → untagged did fl) →
      update_device uid user adb did u fl = Ok (fl', eff) → floor_op hash fl fl'
  | fo_adopt uid user adb did b fl fl' eff :
      untagged did fl → adopt_device uid user adb did b fl = Ok (fl', eff) → floor_op hash fl fl'
  | fo_delete uid user adb did fl fl' eff : delete_device uid user adb did fl = Ok (fl', eff) → floor_op hash fl fl'
  | fo_create_group uid user adb gid name dflt fl fl' adb' :
      create_group uid user adb gid name dflt fl = Ok (fl', adb') → floor_op hash fl fl'
  | fo_update_group uid user adb gid name dflt fl fl' eff :
      update_group uid user adb gid name dflt fl = Ok (fl', eff) → floor_op hash fl fl'
  | fo_delete_group uid user adb gid fl fl' eff : delete_group uid user adb gid fl = Ok (fl', eff) → floor_op hash fl fl'
  | fo_purge candidates fl : floor_op hash fl (purge_delete candidates fl).1.

(** ** Lemmas *)

Lemma find_device_In did fl d : find_device did fl = Some d → d ∈ fl_devices fl ∧ ld_id d = did.
Proof.
  unfold find_device. intros ([i d'] & Hf & ->)%fmap_Some. apply list_find_Some in Hf as (H%list_elem_of_lookup_2 & Hid & _). done.
Qed.
Lemma find_device_None did fl d : find_device did fl = None → d ∈ fl_devices fl → ld_id d ≠ did.
Proof. unfold find_device. intros Hf%fmap_None Hd. apply list_find_None in Hf. rewrite Forall_forall in Hf. by apply Hf. Qed.

Lemma find_on_device did (f : LDevice → LDevice) fl d :
  find_device did fl = Some d → ld_id (f d) = did → find_device did (on_device did f fl) = Some (f d).
Proof.
  unfold find_device. simpl. induction (fl_devices fl) as [|e l IH]; simpl; [done|].
  case_decide as E; simpl.
  - intros [= ->] Hid. by rewrite bool_decide_true, decide_True.
  - intros Hf Hid. rewrite bool_decide_false by done. rewrite decide_False by done.
    destruct (list_find (λ x, ld_id x = did) l) as [[i x]|]; simpl in *; [|done].
    specialize (IH Hf Hid). match goal with |- context [list_find ?P ?m] => change (snd <$> list_find P m = Some (f d)) in IH end.
    by destruct (list_find _ _) as [[j y]|].
Qed.

(** The rows with a property only one key may have, when that row is replaced. *)
Lemma filter_replaced {A} (key : A → string) (P : A → Prop) `{∀ x, Decision (P x)} (l : list A) (d d' : A) (k : string) :
  NoDup (key <$> l) → d ∈ l → key d = k → (∀ e, e ∈ l → key e ≠ k → ¬ P e) →
  filter P ((λ e, if bool_decide (key e = k) then d' else e) <$> l) = if bool_decide (P d') then [d'] else [].
Proof.
  intros Hnd Hd Hk Ho. set (g := λ e, if bool_decide (key e = k) then d' else e).
  assert (Hrest : ∀ m, (∀ e, e ∈ m → e ∈ l) → k ∉ key <$> m → filter P (g <$> m) = []).
  { intros m Hm Hn. apply filter_nil_intro. intros x (e & -> & He)%list_elem_of_fmap. unfold g.
    assert (key e ≠ k) as E by (intros <-; by apply Hn, list_elem_of_fmap_2). rewrite bool_decide_false by done. auto. }
  apply list_elem_of_split in Hd as (l1 & l2 & ->). rewrite fmap_app, fmap_cons in Hnd. rewrite fmap_app, fmap_cons. subst k.
  apply NoDup_app in Hnd as (_ & H1 & [H2 _]%NoDup_cons).
  rewrite filter_app, filter_cons, !Hrest; simpl.
  - unfold g. rewrite (bool_decide_true (key d = key d)) by done. case_bool_decide as E; [by rewrite decide_True|by rewrite decide_False].
  - intros e He. rewrite elem_of_app, elem_of_cons. auto.
  - done.
  - intros e He. rewrite elem_of_app. auto.
  - intros Hn. by apply (H1 _ Hn); left.
Qed.

(** Who is in which group and adopted. *)
Definition posted (fl : Floor) (did : string) (g : uuid) : Prop :=
  ∃ d, d ∈ fl_devices fl ∧ ld_id d = did ∧ ld_status d = D_ADOPTED ∧ d_group_id (ld_row d) = Some g.

Lemma targets_posted fl s did :
  targets (db_of fl) s did ↔
  ∃ g, posted fl did g ∧ s_group_id s = Some g ∧ ∀ tag, s_tag_id s = Some tag → (tag, did) ∈ fl_assignments fl.
Proof.
  unfold targets, posted. split.
  - intros (d & g & (x & -> & Hx)%list_elem_of_fmap & Hid & Hst & Hg & Hs & Ht). exists g. eauto 10.
  - intros (g & (x & Hx & Hid & Hst & Hg) & Hs & Ht). exists (ld_row x), g. split_and!; try done. by apply list_elem_of_fmap_2.
Qed.

Lemma same_device fl d1 d2 :
  gate_ok (db_of fl) → d1 ∈ fl_devices fl → d2 ∈ fl_devices fl → ld_id d1 = ld_id d2 → d1 = d2.
Proof.
  intros Hg H1 H2 E. pose proof (gok_devices _ Hg) as Hnd. simpl in Hnd. rewrite <-list_fmap_compose in Hnd.
  by apply (NoDup_fmap_eq ld_id _ _ _ Hnd).
Qed.

Lemma posted_unique fl did g1 g2 : gate_ok (db_of fl) → posted fl did g1 → posted fl did g2 → g1 = g2.
Proof.
  intros Hg (d1 & H1 & I1 & _ & G1) (d2 & H2 & I2 & _ & G2). pose proof (gok_devices _ Hg) as Hnd.
  assert (ld_row d1 = ld_row d2) as E.
  { apply (NoDup_fmap_eq d_id _ _ _ Hnd); [by apply list_elem_of_fmap_2..|]. unfold ld_id in *. congruence. }
  congruence.
Qed.

(** The general step: every device keeps at most its targets, or is reached by
    group-wide schedules only. *)
Lemma free_step fl fl' :
  gate_ok (db_of fl') → fl_schedules fl' = fl_schedules fl → group_free (fl_schedules fl) → conflict_free (db_of fl) →
  (∀ did, (∀ s, targets (db_of fl') s did → targets (db_of fl) s did) ∨
          (∀ s, targets (db_of fl') s did → s_tag_id s = None)) →
  conflict_free (db_of fl').
Proof.
  intros Hg' Es Hgf Hcf Hstep a b did Ha Hb Ea Eb Ta Tb Hc. simpl in Ha, Hb. rewrite Es in Ha, Hb.
  destruct (Hstep did) as [Hk|Hk]; [by apply (Hcf a b did); auto|].
  pose proof (Hk a Ta) as Na. apply targets_posted in Ta as (g & Pa & Sa & _). apply targets_posted in Tb as (g' & Pb & Sb & _).
  pose proof (posted_unique _ _ _ _ Hg' Pa Pb) as <-. by apply (Hgf a b g); auto.
Qed.

(** Steps that post no device anew and assign no tag. *)
Lemma free_shrink fl fl' :
  gate_ok (db_of fl') → fl_schedules fl' = fl_schedules fl → group_free (fl_schedules fl) → conflict_free (db_of fl) →
  (∀ did g, posted fl' did g → posted fl did g) → (∀ row, row ∈ fl_assignments fl' → row ∈ fl_assignments fl) →
  conflict_free (db_of fl').
Proof.
  intros Hg' Es Hgf Hcf Hp Hr. apply (free_step fl); [done..|]. intros did. left. intros s Ht.
  apply targets_posted in Ht as (g & P & S & T). apply targets_posted. exists g. split; [by apply Hp|]. split; [done|].
  intros tag Htag. by apply Hr, T.
Qed.

(** Steps that rewrite device rows and drop tags: keys stay, and a device that
    moves or is adopted keeps no tag. *)
Lemma rows_ok fl fl' (f : LDevice → LDevice) :
  floor_ok fl → fl_devices fl' = f <$> fl_devices fl → fl_schedules fl' = fl_schedules fl → NoDup (t_id <$> fl_tags fl') →
  (∀ row, row ∈ fl_assignments fl' → row ∈ fl_assignments fl) →
  (∀ row t, row ∈ fl_assignments fl' → t ∈ fl_tags fl → t_id t = row.1 → t ∈ fl_tags fl') →
  (∀ d, d ∈ fl_devices fl → ld_id (f d) = ld_id d ∧
     (untagged (ld_id d) fl' ∨ d_group_id (ld_row (f d)) = d_group_id (ld_row d) ∧
                               (ld_status (f d) = D_ADOPTED → ld_status d = D_ADOPTED))) → floor_ok fl'.
Proof.
  intros [Hg Htn Hsc Hgf Hcf] Ed Es Hnd Hr Ht Hf.
  assert (Hids : ld_id <$> fl_devices fl' = ld_id <$> fl_devices fl).
  { rewrite Ed, <-list_fmap_compose. apply list_fmap_ext_in. intros d Hd. by apply Hf. }
  assert (Hg' : gate_ok (db_of fl')).
  { destruct Hg as [H1 H2 H3]. split; simpl in *; [by rewrite Es| |by rewrite Es].
    rewrite <-list_fmap_compose in *. change (NoDup (ld_id <$> fl_devices fl')). by rewrite Hids. }
  split; [done|done| |by rewrite Es|].
  - intros row Hrow. destruct (Hsc row (Hr row Hrow)) as (d & t & Hd & Hid & Htt & Htid & Hgr). exists (f d), t.
    destruct (Hf d Hd) as [Hid' [Hu|[Hg2 _]]]; [by destruct (Hu row Hrow)|].
    rewrite Ed. split_and!; [by apply list_elem_of_fmap_2|congruence|by apply (Ht row)|done|congruence].
  - apply (free_step fl); [done..|]. intros did.
    assert (Hp : ∀ g, posted fl' did g → ∃ d, d ∈ fl_devices fl ∧ ld_id d = did ∧ ld_status (f d) = D_ADOPTED ∧
                                             d_group_id (ld_row (f d)) = Some g).
    { intros g (d' & Hd' & Hid & Hs & Hgr). rewrite Ed in Hd'. apply list_elem_of_fmap in Hd' as (d & -> & Hd).
      exists d. split_and!; [done| |done|done]. destruct (Hf d Hd) as [<- _]. done. }
    destruct (decide (untagged did fl')) as [Hu|Hn].
    + right. intros s (g & _ & _ & Hs)%targets_posted. destruct (s_tag_id s) as [tag|]; [|done].
      by destruct (Hu (tag, did) (Hs tag eq_refl)).
    + left. intros s (g & (d & Hd & <- & Hst & Hgr)%Hp & Hs & Htag)%targets_posted. apply targets_posted. exists g.
      destruct (Hf d Hd) as [_ [Hu|[Hg2 Hst2]]]; [done|]. split; [|split; [done|]; intros tag E; by apply Hr, Htag].
      exists d. split_and!; [done..|by apply Hst2|congruence].
Qed.

(** The common case: one device, its group kept. *)
Lemma on_device_ok did (f : LDevice → LDevice) fl :
  floor_ok fl →
  (∀ d, find_device did fl = Some d →
     ld_id (f d) = did ∧ d_group_id (ld_row (f d)) = d_group_id (ld_row d) ∧
     (ld_status (f d) = D_ADOPTED → ld_status d = D_ADOPTED ∨ untagged did fl)) →
  floor_ok (on_device did f fl).
Proof.
  intros Hok Hf. eapply (rows_ok fl); [done|reflexivity|reflexivity|apply Hok|done|done|]. intros d Hd. simpl.
  case_bool_decide as E; [|by auto]. subst did. destruct (find_device (ld_id d) fl) as [d0|] eqn:Hf0.
  - destruct (find_device_In _ _ _ Hf0) as [Hd0 Hid0]. rewrite (same_device fl d0 d) in Hf by (done || apply Hok).
    destruct (Hf d eq_refl) as (Hi & Hgr & Hst). split; [done|].
    destruct (decide (untagged (ld_id d) fl)) as [Hu|Hn]; [by left|]. right. split; [done|]. intros Hs.
    by destruct (Hst Hs).
  - by destruct (find_device_None _ _ d Hf0 Hd).
Qed.

(** A move to another group: the tags of the old one are dropped. *)
Lemma set_device_group_ok did gid fl : floor_ok fl → floor_ok (set_device_group did gid fl).
Proof.
  intros Hok. unfold set_device_group. destruct (find_device did fl) as [d0|] eqn:Hf0; [|done]. case_bool_decide; [done|].
  eapply (rows_ok fl); [done|reflexivity|reflexivity|apply Hok| |done|].
  - intros row. simpl. rewrite list_elem_of_filter. naive_solver.
  - intros d Hd. simpl. case_bool_decide as E; [|by auto]. split; [done|]. left. intros row. simpl.
    rewrite list_elem_of_filter. intros [? _]. congruence.
Qed.

(** Devices that go, with their tags. *)
Lemma drop_devices_ok dids fl : floor_ok fl → floor_ok (drop_devices dids fl).
Proof.
  intros [Hg Htn Hsc Hgf Hcf]. assert (Hg' : gate_ok (db_of (drop_devices dids fl))).
  { destruct Hg as [H1 H2 H3]. split; [done| |done]. simpl in *. rewrite <-list_fmap_compose in *.
    apply (NoDup_fmap_filter ld_id), H2. }
  split; [done|done| |done|].
  - intros row. simpl. intros [Hn Hrow]%list_elem_of_filter. destruct (Hsc row Hrow) as (d & t & Hd & Hid & Htt & Htid & Hgr).
    exists d, t. split_and!; try done. apply list_elem_of_filter. by rewrite Hid.
  - apply (free_shrink fl); [done..| |].
    + intros did g (d & [_ Hd]%list_elem_of_filter & Hr). by exists d.
    + intros row [_ Hr]%list_elem_of_filter. done.
Qed.

(** What reporting to the CMS leaves alone. *)
Definition keeps (d d' : LDevice) : Prop :=
  ld_id d' = ld_id d ∧ d_group_id (ld_row d') = d_group_id (ld_row d) ∧ (ld_status d' = D_ADOPTED → ld_status d = D_ADOPTED).

Lemma auto_assign_keeps fl d : keeps d (auto_assign_profile fl d).
Proof. unfold auto_assign_profile. by repeat case_match. Qed.

Lemma refresh_keeps now m d : keeps d (refresh_metadata now m d).
Proof. unfold refresh_metadata. by repeat case_match. Qed.

Lemma row_keeps_trans d1 d2 d3 : keeps d1 d2 → keeps d2 d3 → keeps d1 d3.
Proof. intros (? & ? & ?) (? & ? & ?). split_and!; [congruence..|auto]. Qed.

Lemma register_keeps hash now tok fl m d : keeps d (register_known_device hash now tok fl m d).1.
Proof.
  unfold register_known_device. repeat case_match; cbn [fst]; try done;
    (eapply row_keeps_trans; [|apply auto_assign_keeps]); (eapply row_keeps_trans; [|apply refresh_keeps]); done.
Qed.

Lemma on_device_keeps did d0 d' fl :
  floor_ok fl → find_device did fl = Some d0 → keeps d0 d' → floor_ok (on_device did (λ _, d') fl).
Proof.
  intros Hok Hf0 (H1 & H2 & H3). apply on_device_ok; [done|]. intros d Hf. assert (d = d0) as -> by congruence.
  destruct (find_device_In _ _ _ Hf0) as [_ <-]. auto.
Qed.

Lemma ws_register_ok hash now tok key did m fl : floor_ok fl → floor_ok (ws_register hash now tok key did m fl).1.
Proof.
  intros Hok. unfold ws_register. destruct (find_device did fl) as [d|] eqn:Hf.
  - pose proof (register_keeps hash now tok fl m d) as Hk. destruct (register_known_device _ _ _ _ _ d) as [d' []]; simpl in *;
      repeat case_bool_decide; simpl; by apply (on_device_keeps did d).
  - set (d := auto_assign_profile _ _). simpl.
    assert (Hd : keeps (new_device hash now did tok m) d) by apply auto_assign_keeps. destruct Hd as (Hid & Hg & Hst).
    destruct Hok as [[H1 H2 H3] Htn Hsc Hgf Hcf].
    assert (Hg' : gate_ok (db_of (set_devices (fl_devices fl ++ [d]) fl))).
    { split; [done| |done]. simpl in *. rewrite <-list_fmap_compose in *. rewrite fmap_app. apply NoDup_app. split_and!; [done| |apply NoDup_singleton].
      intros x (y & -> & Hy)%list_elem_of_fmap Hx%list_elem_of_singleton.
      apply (find_device_None _ _ y Hf Hy). exact (eq_trans Hx Hid). }
    split; [done|done| |done|].
    + intros row Hrow. destruct (Hsc row Hrow) as (x & t & Hx & Hr). exists x, t. simpl. split; [|exact Hr]. apply elem_of_app. by left.
    + apply (free_shrink fl); [done..| |done]. intros x g (y & Hy & Hr). exists y. split; [|done].
      apply elem_of_app in Hy as [Hl| ->%list_elem_of_singleton]; [done|]. destruct Hr as (_ & Hs & _). by apply Hst in Hs.
Qed.

Lemma wps_register_ok hash now tok key did m fl : floor_ok fl → floor_ok (wps_register hash now tok key did m fl).1.
Proof.
  intros Hok. unfold wps_register. destruct (find_device did fl) as [d|] eqn:Hf; [|done].
  pose proof (register_keeps hash now tok fl m d) as Hk. destruct (register_known_device _ _ _ _ _ d) as [d' []]; simpl in *;
    repeat case_bool_decide; simpl; by apply (on_device_keeps did d).
Qed.

Lemma status_rotation_ok hash hours now key did fl : floor_ok fl → floor_ok (status_rotation hash hours now key did fl).1.
Proof.
  intros Hok. unfold status_rotation. destruct (find_device did fl) as [d|] eqn:Hf; [|done].
  case_match; [|done]. by apply (on_device_keeps did d).
Qed.

Lemma apply_update_row u a d :
  ld_id (apply_update u a d) = ld_id d ∧ d_group_id (ld_row (apply_update u a d)) = d_group_id (ld_row d) ∧
  (ld_status (apply_update u a d) = D_ADOPTED → ld_status d = D_ADOPTED ∨ up_status u = Some (Some D_ADOPTED)).
Proof.
  unfold apply_update. destruct u as [n l st g da p tz ch]; simpl.
  destruct n as [[]|], l as [[]|], st as [[]|], da as [|], p as [|], tz as [|], ch as [[]|]; simpl; split_and!; try done;
    unfold ld_status; simpl; intros ->; auto.
Qed.

Lemma update_device_ok uid user adb did u fl fl' eff :
  floor_ok fl → (up_status u = Some (Some D_ADOPTED) → untagged did fl) →
  update_device uid user adb did u fl = Ok (fl', eff) → floor_ok fl'.
Proof.
  intros Hok Hst. unfold update_device. destruct (find_device did fl) as [d0|] eqn:Hf0; [|done].
  destruct (verify_resource_group_access _ _ _ _) as [v|]; simpl; [|done]. destruct (update_checks _ _ _ u d0 fl) as [a|]; simpl; [|done].
  destruct (update_violates u); [done|]. intros [= <- _].
  assert (floor_ok (on_device did (apply_update u a) fl)) as H1.
  { apply on_device_ok; [done|]. intros d Hf. destruct (apply_update_row u a d) as (-> & -> & Hs).
    split_and!; [by apply (find_device_In _ _ _ Hf)|done|]. intros [|E]%Hs; auto. }
  destruct (up_group_id u); [|done]. by apply set_device_group_ok.
Qed.

Lemma readopt_row d d1 : readopt d = Ok d1 → ld_id d1 = ld_id d ∧ d_group_id (ld_row d1) = d_group_id (ld_row d).
Proof. unfold readopt. by destruct (ld_status d); intros [= <-]. Qed.

Lemma adopt_device_ok uid user adb did b fl fl' eff :
  floor_ok fl → untagged did fl → adopt_device uid user adb did b fl = Ok (fl', eff) → floor_ok fl'.
Proof.
  intros Hok Hu. unfold adopt_device, _get_device_with_access. destruct (find_device did fl) as [d|] eqn:Hf; [|done].
  destruct (verify_resource_group_access _ _ _ _) as [v|]; simpl; [|done]. destruct (readopt d) as [d1|] eqn:Hr; simpl; [|done].
  intros Hb. apply result_bind_ok in Hb as (_ & _ & Hb). destruct (profile_row _ _) as [p|]; [|done].
  destruct (negb (p_enabled p)); [done|]. injection Hb as <- _.
  match goal with |- context [on_device did (λ _, on_row _ ?d3) fl] => set (fl1 := on_device did (λ _, on_row _ d3) fl) end.
  assert (floor_ok fl1) as H1.
  { apply on_device_ok; [done|]. intros d' Hf'. assert (d' = d) as -> by congruence. apply readopt_row in Hr as [Hid Hg].
    destruct (find_device_In _ _ _ Hf) as [_ Hid']. split_and!; [|by destruct (ad_location b), (ad_name b)|by right].
    destruct (ad_location b), (ad_name b); unfold ld_id in *; simpl; congruence. }
  destruct (ad_group_id b); [|done]. by apply set_device_group_ok.
Qed.

Lemma delete_device_ok uid user adb did fl fl' eff :
  floor_ok fl → delete_device uid user adb did fl = Ok (fl', eff) → floor_ok fl'.
Proof.
  intros Hok (d & _ & [= <- _])%result_bind_ok. apply drop_devices_ok.
  destruct Hok as [Hg Htn Hsc Hgf Hcf]. by split.
Qed.

Lemma create_group_ok uid user adb gid name dflt fl fl' adb' :
  floor_ok fl → create_group uid user adb gid name dflt fl = Ok (fl', adb') → floor_ok fl'.
Proof.
  intros Hok (a & _ & Hc)%result_bind_ok. destruct (existsb _ _); [done|].
  apply result_bind_ok in Hc as (gids & _ & [= <- _]). by destruct Hok.
Qed.

Lemma update_group_ok uid user adb gid name dflt fl fl' eff :
  floor_ok fl → update_group uid user adb gid name dflt fl = Ok (fl', eff) → floor_ok fl'.
Proof.
  intros Hok. unfold update_group. destruct (find_group gid fl) as [g|]; [|done].
  intros (v & _ & (a & _ & Hu)%result_bind_ok)%result_bind_ok.
  destruct name as [[n|]|]; [|done|]; (destruct (existsb _ _); [done|]); injection Hu as <- _;
    (eapply (rows_ok fl); [done|reflexivity|reflexivity|apply Hok|done|done|]); intros d Hd; simpl;
    case_bool_decide as Hg; (split; [done|]); right; by rewrite ?Hg.
Qed.

Lemma delete_group_ok uid user adb gid fl fl' eff :
  floor_ok fl → delete_group uid user adb gid fl = Ok (fl', eff) → floor_ok fl'.
Proof.
  intros Hok. unfold delete_group. destruct (find_group gid fl) as [g|]; [|done]. intros (v & _ & Hd)%result_bind_ok.
  destruct (existsb _ _); [done|]. injection Hd as <- _.
  set (gone := t_id <$> filter (λ t, t_group_id t = gid) (fl_tags fl)).
  assert (Hgone : ∀ t, t ∈ fl_tags fl → t_group_id t = gid → t_id t ∈ gone).
  { intros t Ht Hg. apply list_elem_of_fmap_2, list_elem_of_filter. done. }
  eapply (rows_ok fl); [done|reflexivity|reflexivity| | | |]; simpl.
  - apply NoDup_fmap_filter, Hok.
  - intros row [_ Hr]%list_elem_of_filter. done.
  - intros row t [Hn _]%list_elem_of_filter Ht Hid. apply list_elem_of_filter. split; [|done].
    intros Hg. by rewrite <-Hid in Hn; destruct (Hn (Hgone t Ht Hg)).
  - intros d Hd. case_bool_decide as Hg; [|by auto]. split; [done|]. left.
    intros row [Hn Hrow]%list_elem_of_filter Hid.
    destruct (fo_scoped _ Hok row Hrow) as (x & t & Hx & Hxid & Ht & Htid & Hxg).
    assert (x = d) as -> by (apply (same_device fl); [apply Hok|done..|congruence]).
    apply Hn. rewrite <-Htid. apply Hgone; [done|congruence].
Qed.

(** Every operation on devices and groups keeps the invariant. *)
Lemma floor_op_ok hash fl fl' : floor_ok fl → floor_op hash fl fl' → floor_ok fl'.
Proof.
  intros Hok Hop. destruct Hop; eauto using ws_register_ok, wps_register_ok, status_rotation_ok, update_device_ok, adopt_device_ok,
    delete_device_ok, create_group_ok, update_group_ok, delete_group_ok. by apply drop_devices_ok.
Qed.

(** ** Theorems *)

(**  A key rotation: from then on the endpoints that know the device accept
    its new key and, for less than five minutes, the key before; downloads,
    which look the key up among all devices, agree as long as no other device
    has that key. *)
Theorem key_rotation_exact (hash : string → string) (now t : Z) (key k did : string) (d : LDevice) (fl : Floor) :
  find_device did fl = Some d → NoDup (ld_id <$> fl_devices fl) → k ≠ "" →
  (∀ e, e ∈ fl_devices fl → ld_id e ≠ did → ld_api_key_hash e ≠ Some (hash k) ∧ ld_previous_api_key_hash e ≠ Some (hash k)) →
  let fl' := on_device did (λ _, rotate_api_key hash now key d) fl in
  let valid := hash k = hash key ∨ ld_api_key_hash d = Some (hash k) ∧ t - now < 300000000 in
  (_authenticate_device hash t did (Some k) fl' = Ok (rotate_api_key hash now key d) ↔ valid) ∧
  (require_device_auth hash t (Some k) fl' = Ok tt ↔ valid).
Proof.
  intros Hf Hnd Hk Hothers fl' valid. destruct (find_device_In _ _ _ Hf) as [Hd Hid].
  assert (Hvalid : bool_decide (ld_api_key_hash (rotate_api_key hash now key d) = Some (hash k)) ||
                   previous_key_ok t (hash k) (rotate_api_key hash now key d) = true ↔ valid).
  { unfold previous_key_ok, valid, _KEY_GRACE_SECONDS. simpl.
    rewrite orb_true_iff, andb_true_iff, !bool_decide_eq_true, Z.ltb_lt. change (300 * 1000000) with 300000000.
    split; (intros [E|[E T]]; [left|right; split]; congruence). }
  split.
  - unfold _authenticate_device. rewrite truthy_nonempty by done. unfold fl'. rewrite (find_on_device _ _ _ d) by done.
    rewrite <-Hvalid. destruct (_ || _); naive_solver.
  - unfold require_device_auth. rewrite truthy_nonempty by done. unfold fl'. simpl.
    assert (Hcur : ∀ (h : LDevice → option string),
      (∀ e, e ∈ fl_devices fl → ld_id e ≠ did → h e ≠ Some (hash k)) →
      filter (λ e, h e = Some (hash k)) ((λ e, if bool_decide (ld_id e = did) then rotate_api_key hash now key d else e) <$> fl_devices fl)
      = if bool_decide (h (rotate_api_key hash now key d) = Some (hash k)) then [rotate_api_key hash now key d] else []).
    { intros h Hh. exact (filter_replaced ld_id (λ e, h e = Some (hash k)) (fl_devices fl) d _ did Hnd Hd Hid Hh). }
    rewrite !Hcur by (intros e He Hne; by apply (Hothers e)). rewrite <-Hvalid.
    set (r := rotate_api_key hash now key d). destruct (bool_decide (ld_api_key_hash r = _)); [done|]. cbn [orb].
    destruct (bool_decide (ld_previous_api_key_hash r = _)) eqn:Ep; [by destruct (previous_key_ok _ _ _)|].
    assert (previous_key_ok t (hash k) r = false) as -> by (unfold previous_key_ok; by rewrite Ep). done.
Qed.

(** What a registration decides, and the token the row holds afterwards. *)
Lemma register_cases hash now tok fl m d d' r :
  register_known_device hash now tok fl m d = (d', r) →
  ld_id d' = ld_id d ∧
  match truthy (ld_auth_token_hash d), truthy (rg_auth_token m) with
  | None, _ => r = Accepted (Some tok) ∧ ld_auth_token_hash d' = Some (hash tok) ∧ ld_status d' = ld_status d
  | Some _, None => r = Accepted (Some tok) ∧ ld_auth_token_hash d' = Some (hash tok) ∧ ld_status d' = D_PENDING
  | Some s, Some t =>
      ld_auth_token_hash d' = ld_auth_token_hash d ∧
      (hash t = s ∧ r = Accepted None ∧ ld_status d' = ld_status d ∨ hash t ≠ s ∧ r = Orphaned ∧ ld_status d' = D_ORPHANED)
  end.
Proof.
  assert (Ha : ∀ x, ld_id (auto_assign_profile fl x) = ld_id x ∧ ld_auth_token_hash (auto_assign_profile fl x) = ld_auth_token_hash x
                  ∧ ld_status (auto_assign_profile fl x) = ld_status x) by (intros x; unfold auto_assign_profile; by repeat case_match).
  assert (Hr : ∀ x, ld_id (refresh_metadata now m x) = ld_id x ∧ ld_auth_token_hash (refresh_metadata now m x) = ld_auth_token_hash x
                  ∧ ld_status (refresh_metadata now m x) = ld_status x) by (intros x; unfold refresh_metadata; by repeat case_match).
  assert (Hf : ∀ x, ld_id (auto_assign_profile fl (refresh_metadata now m x)) = ld_id x ∧
                    ld_auth_token_hash (auto_assign_profile fl (refresh_metadata now m x)) = ld_auth_token_hash x ∧
                    ld_status (auto_assign_profile fl (refresh_metadata now m x)) = ld_status x).
  { intros x. destruct (Ha (refresh_metadata now m x)) as (-> & -> & ->). apply Hr. }
  unfold register_known_device. destruct (truthy (ld_auth_token_hash d)) as [s|], (truthy (rg_auth_token m)) as [t|];
    [case_bool_decide|..]; intros [= <- <-]; try (match goal with |- context [auto_assign_profile fl (refresh_metadata now m ?x)] =>
      destruct (Hf x) as (-> & -> & ->) end); repeat split; auto 6.
Qed.

(** C25.  A key and a configuration reach a device on registering only when it
    was adopted and its token was right: the row held no token yet, or the
    message carried one with the stored hash. *)
Theorem register_authenticates (hash : string → string) (now : Z) (tok key did : string) (m : RegisterMsg) (fl : Floor) (e : Effect) :
  (∃ eff, (ws_register hash now tok key did m fl).2 = Some eff ∧ e ∈ eff) ∨ e ∈ (wps_register hash now tok key did m fl).2 →
  e = AuthAssigned did tok ∨
  ∃ d, find_device did fl = Some d ∧ ld_status d = D_ADOPTED ∧
       (truthy (ld_auth_token_hash d) = None ∨ ∃ t, truthy (rg_auth_token m) = Some t ∧ truthy (ld_auth_token_hash d) = Some (hash t)).
Proof.
  intros He. unfold ws_register, wps_register in He. destruct (find_device did fl) as [d|] eqn:Hf.
  2:{ destruct He as [(eff & [= <-] & ->%list_elem_of_singleton)|He%not_elem_of_nil]; [by left|done]. }
  destruct (register_known_device hash now tok fl m d) as [d' r] eqn:Hr. apply register_cases in Hr as [_ Hr].
  assert (Hin : r ≠ Orphaned ∧ (e = AuthAssigned did tok ∨ ld_status d' = D_ADOPTED)).
  { destruct r as [|[t|]]; [destruct He as [(? & [=] & _)|He%not_elem_of_nil]; done|..];
      (split; [done|]); (destruct (decide (ld_status d' = D_ADOPTED)) as [|Hn]; [by right|left]); rewrite bool_decide_false in He by done.
    - assert (t = tok) as -> by (destruct (truthy (ld_auth_token_hash d)), (truthy (rg_auth_token m)); intuition congruence).
      by destruct He as [(eff & [= <-] & ->%list_elem_of_singleton)| ->%list_elem_of_singleton].
    - destruct He as [(eff & [= <-] & He)|He]; by apply not_elem_of_nil in He. }
  destruct Hin as [Hno [->|Hst]]; [by left|right]. exists d. split; [done|].
  destruct (truthy (ld_auth_token_hash d)) as [s|]; [|split; [destruct Hr as (_ & _ & ?); congruence|by left]].
  destruct (truthy (rg_auth_token m)) as [t|]; [|destruct Hr as (_ & _ & ?); congruence].
  destruct Hr as [_ [(<- & _ & E)|(_ & -> & _)]]; [|done]. split; [congruence|]. right. by exists t.
Qed.

(**  The token round trip: when a registration hands out a token, the next
    registration with it is accepted and keeps the status of the row; any token
    with another hash orphans the device, and none at all resets it to pending. *)
Theorem register_roundtrip (hash : string → string) (now now2 : Z) (tok tok2 key did : string) (m m2 : RegisterMsg)
    (fl fl' fl2 : Floor) (eff : list Effect) (r : RegisterResult) (d2 : LDevice) :
  ws_register hash now tok key did m fl = (fl', Some eff) → AuthAssigned did tok ∈ eff → hash tok ≠ "" →
  ∃ d', find_device did fl' = Some d' ∧
    (register_known_device hash now2 tok2 fl2 m2 d' = (d2, r) →
     match truthy (rg_auth_token m2) with
     | Some t => if bool_decide (hash t = hash tok) then r = Accepted None ∧ ld_status d2 = ld_status d'
                 else r = Orphaned ∧ ld_status d2 = D_ORPHANED
     | None => r = Accepted (Some tok2) ∧ ld_status d2 = D_PENDING
     end).
Proof.
  intros Hw Hin Htok. enough (∃ d', find_device did fl' = Some d' ∧ ld_auth_token_hash d' = Some (hash tok)) as (d' & Hf & Hh).
  { exists d'. split; [done|]. intros [_ Hr]%register_cases. rewrite Hh, truthy_nonempty in Hr by done.
    destruct (truthy (rg_auth_token m2)) as [t|]; [|tauto]. case_bool_decide; tauto. }
  unfold ws_register in Hw. destruct (find_device did fl) as [d|] eqn:Hf.
  - destruct (find_device_In _ _ _ Hf) as [_ Hid].
    destruct (register_known_device hash now tok fl m d) as [d' r'] eqn:Hr. apply register_cases in Hr as [Hid' Hr].
    destruct r' as [|[t|]]; [done| |].
    + assert (ld_auth_token_hash d' = Some (hash tok)) as Hh
        by (destruct (truthy (ld_auth_token_hash d)), (truthy (rg_auth_token m)); intuition congruence).
      case_bool_decide; injection Hw as <- _; (eexists; split; [apply (find_on_device _ _ _ d); [done|change (ld_id d' = did); congruence]|done]).
    + case_bool_decide; injection Hw as _ <-; [|by apply not_elem_of_nil in Hin].
      apply elem_of_cons in Hin as [|Hin]; [done|]. apply elem_of_app in Hin as [Hin|Hin%list_elem_of_singleton]; [|done].
      unfold push_effective in Hin. by destruct (effective_default d'); [apply list_elem_of_singleton in Hin|apply not_elem_of_nil in Hin].
  - injection Hw as <- _. set (d := auto_assign_profile _ _). exists d.
    assert (ld_id d = did ∧ ld_auth_token_hash d = Some (hash tok)) as [Hid Hh].
    { unfold d, auto_assign_profile. by repeat case_match. }
    split; [|done]. unfold find_device in *. simpl. apply fmap_None in Hf. rewrite list_find_app_r by done. simpl.
    by rewrite decide_True.
Qed.

(**  The purge removes exactly the candidates that are still pending and
    offline when it deletes, whatever happened since they were read, and tells
    which; a device adopted or connected by then stays, with its tags. *)
Theorem purge_exact (ttl_hours now : Z) (fl0 fl : Floor) (d : LDevice) :
  NoDup (ld_id <$> fl_devices fl) →
  let gone := ld_id d ∈ purge_candidates ttl_hours now fl0 ∧ ld_status d = D_PENDING ∧ ld_online d = false in
  d ∈ fl_devices fl →
  (d ∈ fl_devices (purge_delete (purge_candidates ttl_hours now fl0) fl).1 ↔ ¬ gone) ∧
  (ld_id d ∈ (purge_delete (purge_candidates ttl_hours now fl0) fl).2 ↔ gone) ∧
  (gone → ∃ d0, d0 ∈ fl_devices fl0 ∧ ld_id d0 = ld_id d ∧ ld_status d0 = D_PENDING ∧
                (ld_last_seen d0 or_else ld_registered_at d0) + ttl_hours * 3600000000 ≤ now).
Proof.
  intros Hnd gone Hd. set (purged := (purge_delete (purge_candidates ttl_hours now fl0) fl).2).
  assert (Hp : ld_id d ∈ purged ↔ gone).
  { unfold purged, purge_delete. simpl. rewrite list_elem_of_fmap. split.
    - intros (x & E & [Hx Hin]%list_elem_of_filter). unfold gone. by rewrite (NoDup_fmap_eq ld_id _ d x Hnd Hd Hin E).
    - intros Hg. exists d. split; [done|]. by apply list_elem_of_filter. }
  split_and!; [|done|].
  - rewrite <-Hp. change (d ∈ filter (λ x, ld_id x ∉ purged) (fl_devices fl) ↔ ld_id d ∉ purged).
    rewrite list_elem_of_filter. tauto.
  - intros [(d0 & Hid & [Hc Hin]%list_elem_of_filter)%list_elem_of_fmap _]. exists d0.
    unfold purge_candidate in Hc. rewrite !andb_true_iff, bool_decide_eq_true, Z.leb_le in Hc.
    split_and!; [done|done|tauto|lia].
Qed.

(** ** Examples *)

Section examples.
(** The hash of the examples. *)
Definition sharp (s : string) : string := "#" +:+ s.

Definition row (did : string) (st : DeviceStatus) (gid : option uuid) : Device :=
  mkDevice did did st gid None None None None "" [].
Definition unit_of (did : string) (st : DeviceStatus) (gid : option uuid) (token key : option string) : LDevice :=
  mkLDevice (row did st gid) "" "" "" "" 0 0 "stable" token key None None None 0 false.

Definition tagged (s : Schedule) (tag : uuid) : Schedule :=
  mkSchedule (s_id s) (s_name s) (s_group_id s) None (Some tag) (s_asset s) None None (s_start_time s) (s_end_time s) None
    (s_priority s) true None None.
Definition two_tags : list Schedule :=
  [tagged (daily "east" "g" 1 (hm 9 0) (hm 12 0)) "t1"; tagged (daily "west" "g" 1 (hm 10 0) (hm 13 0)) "t2"].
Definition hall (st : DeviceStatus) : Floor :=
  mkFloor [unit_of "d1" st (Some "g") (Some "#tok") None] [mkGroup "g" "hall" None] [wall_profile]
    [mkTag "t1" "g" "east"; mkTag "t2" "g" "west"] [] two_tags no_media [].
Definition operator : Role :=
  mkRole "Operator" ["devices:write"; "devices:manage"; "schedules:read"; "schedules:write"; "groups:view_all"] false.
Definition boss : User := person "r-op" true.
Definition admin_db : AuthDb := mkAuthDb {["u1" := boss]} {["r-op" := operator]} ∅ ∅ ∅.
Definition hello (token : option string) : RegisterMsg := mkReg token None None None None None None None None false.

(** Tagging an adopted device with two clashing tags is refused; tagging a
    pending one is not, and adopting it then asks no gate. *)
Example adoption_creates_conflict :
  set_device_tags (db_of (hall D_ADOPTED)) "d1" ["t1"; "t2"] = Err (HTTPException 409) ∧
  let db := retag "d1" ["t1"; "t2"] (db_of (hall D_PENDING)) in
  let fl1 := set_tag_rows (db_tag_assignments db) (hall D_PENDING) in
  set_device_tags (db_of (hall D_PENDING)) "d1" ["t1"; "t2"] = Ok db ∧ conflict_free (db_of fl1) ∧
  ∃ fl2 eff, adopt_device "u1" boss admin_db "d1" (mkAdopt None None None (p_id wall_profile)) fl1 = Ok (fl2, eff) ∧
    ¬ conflict_free (db_of fl2).
Proof.
  split; [by vm_compute|]. intros db fl1. split_and!; [by vm_compute| |eexists _, _; split].
  - intros a b did _ _ _ _ (d & g & Hd & _ & Hst & _) _ _. apply list_elem_of_singleton in Hd as ->. done.
  - by vm_compute.
  - set (a := tagged (daily "east" "g" 1 (hm 9 0) (hm 12 0)) "t1"). set (b := tagged (daily "west" "g" 1 (hm 10 0) (hm 13 0)) "t2").
    assert (Ht : ∀ s tag, s_group_id s = Some "g" → s_tag_id s = Some tag → tag = "t1" ∨ tag = "t2" →
              targets (db_of (on_device "d1" (λ _, on_row (row_profile (Some (p_id wall_profile))) (unit_of "d1" D_ADOPTED (Some "g") (Some "#tok") None)) fl1)) s "d1").
    { intros s tag Hg Hs Htag. eexists _, "g". split; [by left|]. split_and!; try done.
      intros t Et. assert (t = tag) as -> by congruence. by destruct Htag as [->| ->]; [left|right; left]. }
    intros Hcf. apply (Hcf a b "d1"); try done; [by left|by right; left|by apply (Ht a "t1"); auto|by apply (Ht b "t2"); auto|].
    split_and!; [done|done|]. by apply (schedules_overlap_correct a b true); vm_compute.
Qed.

(** A second registration within five minutes discards the key that was still
    in its grace period. *)
Example double_rotation_breaks_grace :
  let fl0 := set_devices [unit_of "d1" D_ADOPTED (Some "g") (Some "#tok") (Some "#k1")] (hall D_ADOPTED) in
  let fl1 := (wps_register sharp 0 "t" "k2" "d1" (hello (Some "tok")) fl0).1 in
  let fl2 := (wps_register sharp 1000000 "t" "k3" "d1" (hello (Some "tok")) fl1).1 in
  require_device_auth sharp 2000000 (Some "k1") fl1 = Ok tt ∧ require_device_auth sharp 2000000 (Some "k1") fl2 = Err (HTTPException 401).
Proof. by vm_compute. Qed.

(** A device that failed its authentication keeps its key: it still passes the
    checks of downloads and of connection tokens. *)
Example orphaned_key_still_works :
  let fl0 := set_devices [unit_of "d1" D_ADOPTED (Some "g") (Some "#tok") (Some "#k1")] (hall D_ADOPTED) in
  let '(fl1, eff) := wps_register sharp 0 "t" "k2" "d1" (hello (Some "bad")) fl0 in
  eff = [] ∧ (ld_status <$> find_device "d1" fl1) = Some D_ORPHANED ∧
  require_device_auth sharp 1 (Some "k1") fl1 = Ok tt ∧ ld_id <$> _authenticate_device sharp 1 "d1" (Some "k1") fl1 = Ok "d1".
Proof. by vm_compute. Qed.

(** A disabled profile is refused by the operator's endpoints, and assigned by
    the type of the device. *)
Definition pi4_profile : DeviceProfile :=
  mkProfile "p4" "pi-4" "" "h264" "main" 1920 1080 30 "" 23 "auto" "auto" "aac" "128k" true "device" false.
Example auto_assign_disabled_profile :
  let fl := mkFloor [] [] [pi4_profile] [] [] [] no_media [] in
  let m := mkReg None None None (Some "Raspberry Pi 4 Model B") None None None None None false in
  let fl1 := (ws_register sharp 0 "t" "k" "d1" m fl).1 in
  (d_profile_id ∘ ld_row) <$> find_device "d1" fl1 = Some (Some (p_id pi4_profile)) ∧
  adopt_device "u1" boss admin_db "d1" (mkAdopt None None None (p_id pi4_profile)) fl1 = Err (HTTPException 422).
Proof. by vm_compute. Qed.

(** The name of another group is a conflict on creation and a database error on
    renaming. *)
Example rename_group_raises :
  let fl := set_groups [mkGroup "g1" "hall" None; mkGroup "g2" "lobby" None] (hall D_ADOPTED) in
  create_group "u1" boss admin_db "g3" "hall" None fl = Err (HTTPException 409) ∧
  update_group "u1" boss admin_db "g2" (Some (Some "hall")) None fl = Err IntegrityError.
Proof. by vm_compute. Qed.

(** A device row is taken over by a registration with an empty token: it goes
    back to pending and the token of the device that had it stops working. *)
Example empty_token_takes_over :
  let fl1 := (ws_register sharp 0 "new" "k" "d1" (hello None) (hall D_ADOPTED)).1 in
  (ld_status <$> find_device "d1" fl1) = Some D_PENDING ∧
  (ws_register sharp 1 "t" "k" "d1" (hello (Some "tok")) fl1).2 = None.
Proof. by vm_compute. Qed.
End examples.

(** ** Witnesses *)

Lemma hall_ok : floor_ok (hall D_PENDING).
Proof.
  split.
  - split; [apply (bool_decide_unpack _); by vm_compute..|].
    intros s Hs. simpl in Hs. unfold two_tags in Hs. rewrite !elem_of_cons, elem_of_nil in Hs. by destruct Hs as [->|[->|[]]].
  - apply (bool_decide_unpack _). by vm_compute.
  - intros row Hrow. by apply not_elem_of_nil in Hrow.
  - intros a b g Ha Hb _ _ _ _ Hn. simpl in Ha, Hb. unfold two_tags in Ha, Hb. rewrite !elem_of_cons, elem_of_nil in Ha, Hb.
    destruct Ha as [->|[->|[]]], Hb as [->|[->|[]]]; by destruct Hn.
  - intros a b did _ _ _ _ (d & g & Hd & _ & Hst & _) _ _. apply list_elem_of_singleton in Hd as ->. done.
Qed.

Lemma register_authenticates_witness :
  SendKey "d1" "k" = AuthAssigned "d1" "t" ∨
  ∃ d, find_device "d1" (hall D_ADOPTED) = Some d ∧ ld_status d = D_ADOPTED ∧
       (truthy (ld_auth_token_hash d) = None ∨
        ∃ t, truthy (rg_auth_token (hello (Some "tok"))) = Some t ∧ truthy (ld_auth_token_hash d) = Some (sharp t)).
Proof.
  apply (register_authenticates sharp 5 "t" "k" "d1" (hello (Some "tok")) (hall D_ADOPTED) (SendKey "d1" "k")).
  right. apply (bool_decide_unpack _). by vm_compute.
Defined.

Lemma register_roundtrip_witness :
  ∃ d', find_device "d9" (ws_register sharp 5 "t" "k" "d9" (hello None) (hall D_ADOPTED)).1 = Some d'.
Proof.
  destruct (register_roundtrip sharp 5 6 "t" "t2" "k" "d9" (hello None) (hello (Some "t")) (hall D_ADOPTED)
    (ws_register sharp 5 "t" "k" "d9" (hello None) (hall D_ADOPTED)).1 (hall D_ADOPTED) [AuthAssigned "d9" "t"] Orphaned (unit_of "d9" D_PENDING None None None))
    as (d' & Hd & _); [reflexivity|left|discriminate|]. by exists d'.
Defined.

Definition keyed : LDevice := unit_of "d1" D_ADOPTED (Some "g") (Some "#tok") (Some "#k1").
Lemma key_rotation_exact_witness :
  require_device_auth sharp 2000000 (Some "k1") (on_device "d1" (λ _, rotate_api_key sharp 0 "k2" keyed) (set_devices [keyed] (hall D_ADOPTED))) = Ok tt.
Proof.
  apply (key_rotation_exact sharp 0 2000000 "k2" "k1" "d1" keyed (set_devices [keyed] (hall D_ADOPTED))).
  - reflexivity.
  - apply (bool_decide_unpack _). by vm_compute.
  - discriminate.
  - intros e He Hne. by apply list_elem_of_singleton in He as ->.
  - right. split; [reflexivity|lia].
Defined.

Lemma purge_exact_witness :
  ld_id (unit_of "d1" D_PENDING (Some "g") (Some "#tok") None) ∈ (purge_delete (purge_candidates 24 (100 * 3600000000) (hall D_PENDING)) (hall D_PENDING)).2.
Proof.
  apply (purge_exact 24 (100 * 3600000000) (hall D_PENDING) (hall D_PENDING)).
  - apply (bool_decide_unpack _). by vm_compute.
  - left.
  - split_and!; [left|reflexivity..].
Defined.
