(* ===== verification/Schedules.v ===== *)
(** * Schedules and device tags (cms/routers/schedules.py, device_tags.py,
      cms/services/device_tags.py, cms/schemas/schedule.py)

    The endpoints that write schedules and tags, from the validation of the body
    to the rows and the devices that are synced, on the tables of DeviceLife.
    The relation [console_op] composes them with every operation on devices and
    groups.  Permissions on the endpoints are checked before; the caller's
    access to groups is part of the model.  Colours of tags are validated and
    returned, no modelled code reads them. *)

From S2P Require Import Prelude Clock PyText Models Database Samples AssetReadiness Occurrence Targeting NowPlaying ConflictGate Access Variants DeviceLife.
Open Scope Z_scope.

(** ** The tables *)

(** [ScheduleDeviceSkip] rows go with their schedule and with their device. *)
Record Console := mkConsole { co_floor : Floor; co_skips : gmap (uuid * string) datetime }.

Definition co_db (c : Console) : Db := db_of (co_floor c).

Definition set_fl_schedules (l : list Schedule) (fl : Floor) : Floor :=
  mkFloor (fl_devices fl) (fl_groups fl) (fl_profiles fl) (fl_tags fl) (fl_assignments fl) l (fl_media fl) (fl_device_assets fl).
Definition drop_skips (sids : list uuid) (c : Console) : Console :=
  mkConsole (co_floor c) (filter (λ kv, kv.1.1 ∉ sids) (co_skips c)).

Definition asset_by_id (aid : uuid) (fl : Floor) : option Asset :=
  snd <$> list_find (λ a, a_id a = aid) (m_assets (fl_media fl)).
Definition find_schedule (sid : uuid) (fl : Floor) : option Schedule :=
  snd <$> list_find (λ s, s_id s = sid) (fl_schedules fl).
Definition find_tag (tid : uuid) (fl : Floor) : option DeviceTag :=
  snd <$> list_find (λ t, t_id t = tid) (fl_tags fl).

(** ** Bodies *)

Record ScheduleCreate := mkSchedIn {
  sc_name : string;
  sc_group_id : uuid;
  sc_tag_id : option uuid;
  sc_asset_id : uuid;
  sc_start_date : option datetime;
  sc_end_date : option datetime;
  sc_start_time : time;
  sc_end_time : option time;
  sc_days_of_week : option (list Z);
  sc_priority : Z;
  sc_enabled : bool;
  sc_loop_count : option Z
}.

(** The fields a PATCH sets; [Some None] is an explicit null. *)
Record ScheduleUpdate := mkSchedUpd {
  su_name : option (option string);
  su_group_id : option (option uuid);
  su_tag_id : option (option uuid);
  su_asset_id : option (option uuid);
  su_start_date : option (option datetime);
  su_end_date : option (option datetime);
  su_start_time : option (option time);
  su_end_time : option (option time);
  su_days_of_week : option (option (list Z));
  su_priority : option (option Z);
  su_enabled : option (option bool);
  su_loop_count : option (option Z)
}.

Definition validate_days_of_week (v : option (list Z)) : result exn (option (list Z)) :=
  match v with
  | None => Ok None
  | Some l => if existsb (λ d, (d <? 1) || (7 <? d)) l then Err (HTTPException 422)
              else Ok (Some (merge_sort Z.le (remove_dups l)))
  end.

(** [date()] of both ends. *)
Definition dates_ordered (start_date end_date : option datetime) : bool :=
  match start_date, end_date with Some s, Some e => dt_date s <=? dt_date e | _, _ => true end.

Definition check_create (d : ScheduleCreate) : result exn unit :=
  if bool_decide (sc_end_time d = Some (sc_start_time d)) then Err (HTTPException 422)
  else if bool_decide (sc_end_time d = None) && bool_decide (sc_loop_count d = None) then Err (HTTPException 422)
  else if negb (dates_ordered (sc_start_date d) (sc_end_date d)) then Err (HTTPException 422)
  else Ok tt.

(** [x] unless it is absent or null. *)
Definition given {A} (x : option (option A)) : option A := match x with Some y => y | None => None end.

Definition check_update (u : ScheduleUpdate) : result exn unit :=
  if bool_decide (su_priority u = Some None) || bool_decide (su_enabled u = Some None) then Err (HTTPException 422)
  else if bool_decide (is_Some (given (su_start_time u))) && bool_decide (given (su_start_time u) = given (su_end_time u))
  then Err (HTTPException 422)
  else if negb (dates_ordered (given (su_start_date u)) (given (su_end_date u))) then Err (HTTPException 422)
  else Ok tt.

(** ** Gates *)

Definition schedule_named (exclude_id : option uuid) (fl : Floor) (name : string) : bool :=
  existsb (λ s, bool_decide (s_name s = name) && negb (bool_decide (Some (s_id s) = exclude_id))) (fl_schedules fl).
Definition name_candidate (name : string) (k : nat) : string :=
  match k with O => name | S _ => name +:+ " (" +:+ Z_str (Z.of_nat (S k)) +:+ ")" end.
Definition _unique_name (name : string) (exclude_id : option uuid) (fl : Floor) : option string :=
  first_free (schedule_named exclude_id fl) (name_candidate name) (S (length (fl_schedules fl))) 0.

(** [end_date < now] on UTC datetimes. *)
Definition _guard_deleted_asset (now : Z) (asset : option Asset) (enabled : bool) (end_date : option datetime) : result exn unit :=
  match asset with
  | None => Ok tt
  | Some a =>
      if bool_decide (a_deleted_at a = None) || negb enabled ||
         match end_date with Some e => dt_ltb e (utc_datetime now) | None => false end
      then Ok tt else Err (HTTPException 409)
  end.

Definition _verify_schedule_access (uid : uuid) (user : User) (adb : AuthDb) (s : Schedule) : result exn unit :=
  match s_group_id s with Some g => verify_resource_group_access uid user adb {[g]} | None => Ok tt end.

Definition _validate_schedule_tag (tag_id group_id : option uuid) (fl : Floor) : result exn unit :=
  match tag_id with
  | None => Ok tt
  | Some tid => match find_tag tid fl with
                | None => Err (HTTPException 422)
                | Some t => if bool_decide (group_id = Some (t_group_id t)) then Ok tt else Err (HTTPException 422)
                end
  end.

Definition total_seconds (loop_count duration_ms : Z) : Z := Z.quot (loop_count * duration_ms) 1000.

(** A [timedelta] holds less than 10^9 days. *)
Definition _compute_end_time (start_time : time) (loop_count duration_ms : Z) : result exn time :=
  let e := hour start_time * 3600 + minute start_time * 60 + second start_time + total_seconds loop_count duration_ms in
  if 86400 * 1000000000 <=? e then Err OverflowError
  else let r := e mod 86400 in Ok (Time (r / 3600) (r mod 3600 / 60) (r mod 3600 mod 60) 0).

Definition adopted_in (gid : uuid) (fl : Floor) : list LDevice :=
  filter (λ d, ld_status d = D_ADOPTED ∧ d_group_id (ld_row d) = Some gid) (fl_devices fl).

Definition _validate_webpage_group (gid : uuid) (fl : Floor) : result exn unit :=
  if forallb (λ d, _is_pi5_compatible (Some (d_device_type (ld_row d)))) (adopted_in gid fl) then Ok tt else Err (HTTPException 422).

(** Slides with a source asset of their own. *)
Definition _slideshow_has_composed_member (aid : uuid) (fl : Floor) : bool :=
  existsb (λ sl, bool_decide (sl_slideshow_asset_id sl = aid) &&
                 match sl_kind sl with
                 | K_ASSET (Some src) => bool_decide (a_asset_type <$> asset_by_id src fl = Some COMPOSED)
                 | _ => false
                 end) (m_slides (fl_media fl)).

Definition _validate_slideshow_group (gid aid : uuid) (fl : Floor) : result exn unit :=
  let has cap d := bool_decide (cap ∈ d_capabilities (ld_row d)) in
  if negb (forallb (has CAPABILITY_SLIDESHOW_V1) (adopted_in gid fl)) then Err (HTTPException 422)
  else if _slideshow_has_composed_member aid fl && negb (forallb (has CAPABILITY_SLIDESHOW_COMPOSED_V1) (adopted_in gid fl))
  then Err (HTTPException 422) else Ok tt.

Definition _resolve_loop_end_time (loop_count : option Z) (asset : option Asset) (start_time : option time)
    : result exn (option time) :=
  match loop_count with
  | None => Ok None
  | Some n =>
      match asset with
      | None => Err (HTTPException 422)
      | Some a =>
          match a_duration_ms a with
          | None => Err (HTTPException 422)
          | Some ms =>
              let total := total_seconds n ms in
              if bool_decide (ms = 0) || (total <=? 0) || (total mod 86400 =? 0) then Err (HTTPException 422)
              else match start_time with
                   | None => Err AttributeError
                   | Some st => e ← _compute_end_time st n ms; Ok (Some e)
                   end
          end
      end
  end.

Definition is_url (a : Asset) : bool := bool_decide (a_asset_type a = WEBPAGE) || bool_decide (a_asset_type a = STREAM).
Definition is_slideshow (a : Asset) : bool := bool_decide (a_asset_type a = SLIDESHOW).

(** What the devices of the group must be able to show. *)
Definition validate_group (a : Asset) (gid : option uuid) (fl : Floor) : result exn unit :=
  match gid with
  | None => Ok tt
  | Some g =>
      _ ← (if is_url a then _validate_webpage_group g fl else Ok tt);
      if is_slideshow a then _validate_slideshow_group g (a_id a) fl else Ok tt
  end.

(** ** Schedule endpoints *)

(** The new table and the devices that are synced. *)
Definition create_schedule (now : Z) (sid : uuid) (data : ScheduleCreate) (c : Console) : result exn (Console * list string) :=
  let fl := co_floor c in
  days ← validate_days_of_week (sc_days_of_week data);
  _ ← check_create data;
  match _unique_name (sc_name data) None fl with
  | None => Err RuntimeError
  | Some name =>
      asset ← require_asset_ready (fl_media fl) (sc_asset_id data);
      _ ← _validate_schedule_tag (sc_tag_id data) (Some (sc_group_id data)) fl;
      _ ← _guard_deleted_asset now (Some asset) (sc_enabled data) (sc_end_date data);
      if is_url asset && bool_decide (is_Some (sc_loop_count data)) then Err (HTTPException 422)
      else
        _ ← validate_group asset (Some (sc_group_id data)) fl;
        computed ← (if is_url asset then Ok None else _resolve_loop_end_time (sc_loop_count data) (Some asset) (Some (sc_start_time data)));
        match (match computed with Some t => Some t | None => sc_end_time data end) with
        | None => Err (HTTPException 422)
        | Some end_time =>
            let s := mkSchedule sid name (Some (sc_group_id data)) (find_group (sc_group_id data) fl) (sc_tag_id data) (Some asset)
                       (sc_start_date data) (sc_end_date data) (sc_start_time data) end_time days (sc_priority data)
                       (sc_enabled data) (sc_loop_count data) None in
            _ ← _check_conflicts (co_db c) s None;
            if bool_decide (find_group (sc_group_id data) fl = None) then Err IntegrityError
            else
              let c' := mkConsole (set_fl_schedules (fl_schedules fl ++ [s]) fl) (co_skips c) in
              Ok (c', _get_target_device_ids (co_db c') s)
        end
  end.

(** The row after the assignments; [None] for a null in a NOT NULL column or a
    group that does not exist. *)
Definition updated_row (s : Schedule) (u : ScheduleUpdate) (days : option (option (list Z))) (asset : option Asset)
    (end_time : option time) (fl : Floor) : option Schedule :=
  let keep {A} (x : option (option A)) (old : A) : option A := match x with None => Some old | Some y => y end in
  let col {A} (x : option (option A)) (old : option A) : option A := match x with None => old | Some y => y end in
  name ← keep (su_name u) (s_name s);
  gid ← col (su_group_id u) (s_group_id s);
  group ← find_group gid fl;
  st ← keep (su_start_time u) (s_start_time s);
  et ← match end_time with Some t => Some t | None => keep (su_end_time u) (s_end_time s) end;
  prio ← keep (su_priority u) (s_priority s);
  enabled ← keep (su_enabled u) (s_enabled s);
  Some (mkSchedule (s_id s) name (Some gid) (Some group) (col (su_tag_id u) (s_tag_id s)) asset
          (col (su_start_date u) (s_start_date s)) (col (su_end_date u) (s_end_date s)) st et
          (col days (s_days_of_week s)) prio enabled (col (su_loop_count u) (s_loop_count s)) None).

(** The gates of [update_schedule]: the asset and the end time it computes. *)
Definition update_schedule_checks (now : Z) (s : Schedule) (u : ScheduleUpdate) (fl : Floor)
    : result exn (option Asset * option time) :=
  let current := a_id <$> s_asset s in
  let col {A} (x : option (option A)) (old : option A) : option A := match x with None => old | Some y => y end in
  let gid := col (su_group_id u) (s_group_id s) in
  let retarget := bool_decide (is_Some (su_asset_id u)) || bool_decide (is_Some (su_group_id u)) in
  let enabled := match given (su_enabled u) with Some b => b | None => s_enabled s end in
  let loop_count := col (su_loop_count u) (s_loop_count s) in
  let start_time := match su_start_time u with None => Some (s_start_time s) | Some t => t end in
  _ ← match su_asset_id u with
      | None => Ok tt
      | Some x => if bool_decide (x = current) then Ok tt
                  else match x with
                       | None => Err (HTTPException 404)
                       | Some aid => _ ← require_asset_ready (fl_media fl) aid; Ok tt
                       end
      end;
  _ ← (if bool_decide (is_Some (su_tag_id u)) || bool_decide (is_Some (su_group_id u))
       then _validate_schedule_tag (col (su_tag_id u) (s_tag_id s)) gid fl else Ok tt);
  let target := aid ← col (su_asset_id u) current; asset_by_id aid fl in
  let url := match target with Some a => is_url a | None => false end in
  _ ← _guard_deleted_asset now target enabled (col (su_end_date u) (s_end_date s));
  if enabled && bool_decide (is_Some (composed_unpublished_reason target)) then Err (HTTPException 422)
  else if url && bool_decide (is_Some (given (su_loop_count u))) then Err (HTTPException 422)
  else
    _ ← (if retarget then match target with Some a => validate_group a gid fl | None => Ok tt end else Ok tt);
    computed ← (if negb url && bool_decide (is_Some loop_count) &&
                   (bool_decide (is_Some (su_loop_count u)) || bool_decide (is_Some (su_asset_id u)) || bool_decide (is_Some (su_start_time u)))
                then _resolve_loop_end_time loop_count target start_time else Ok None);
    Ok (target, computed).

Definition replace_schedule (sid : uuid) (s' : Schedule) (l : list Schedule) : list Schedule :=
  (λ s, if bool_decide (s_id s = sid) then s' else s) <$> l.

Section users.
Context (uid : uuid) (user : User) (adb : AuthDb).    (* who asks *)

(** Ordered by priority, the higher first, then by name. *)
Definition list_schedules (c : Console) : result exn (list Schedule) :=
  gids ← get_user_group_ids uid user adb;
  Ok (sort_on (λ a b, (s_priority b <? s_priority a) || (s_priority a =? s_priority b) && negb (s_name b <s s_name a))
       (filter (λ s, build_group_read_scope_clause gids (s_group_id s) = true) (fl_schedules (co_floor c)))).

Definition get_schedule (sid : uuid) (c : Console) : result exn Schedule :=
  match find_schedule sid (co_floor c) with
  | None => Err (HTTPException 404)
  | Some s => _ ← _verify_schedule_access uid user adb s; Ok s
  end.

Definition update_schedule (now : Z) (sid : uuid) (u : ScheduleUpdate) (c : Console) : result exn (Console * list string) :=
  let fl := co_floor c in
  days ← match su_days_of_week u with None => Ok None | Some v => d ← validate_days_of_week v; Ok (Some d) end;
  _ ← check_update u;
  s ← get_schedule sid c;
  '(asset, computed) ← update_schedule_checks now s u fl;
  match updated_row s u days asset computed fl with
  | None => Err IntegrityError
  | Some s' =>
      _ ← _check_conflicts (co_db c) s' (Some sid);
      let c' := drop_skips [sid] (mkConsole (set_fl_schedules (replace_schedule sid s' (fl_schedules fl)) fl) (co_skips c)) in
      Ok (c', _get_target_device_ids (co_db c') s')
  end.


(** ** Tags *)









End users.

(** ** Specification *)





(** ** Names and end times *)



Lemma compute_end_time_spec st n ms e :
  time_ok st = true → 0 ≤ total_seconds n ms → _compute_end_time st n ms = Ok e →
  time_ok e = true ∧ time_us e = (time_us st - microsecond st + total_seconds n ms * 1000000) mod DAY_US.
Proof.
  unfold _compute_end_time, time_ok. rewrite !andb_true_iff, !Z.leb_le, !Z.ltb_lt. intros Hst Htot.
  case_match; [done|]. intros [= <-]. set (x := _ + total_seconds n ms).
  pose proof (Z.mod_pos_bound x 86400 ltac:(lia)) as Hr. set (r := x mod 86400) in *.
  pose proof (Z.div_mod r 3600 ltac:(lia)). pose proof (Z.mod_pos_bound r 3600 ltac:(lia)).
  pose proof (Z.div_mod (r mod 3600) 60 ltac:(lia)). pose proof (Z.mod_pos_bound (r mod 3600) 60 ltac:(lia)).
  split; [simpl; rewrite ?andb_true_iff, ?Z.leb_le, ?Z.ltb_lt; split_and!; try done; try lia; by apply Z.div_pos; lia|].
  unfold time_us. simpl. transitivity (r * 1000000); [lia|]. unfold r, DAY_US.
  replace ((hour st * 3600 + minute st * 60 + second st) * 1000000 + microsecond st - microsecond st + total_seconds n ms * 1000000)
    with (x * 1000000) by (unfold x; lia).
  change 86400000000 with (86400 * 1000000). by rewrite Z.mul_mod_distr_r.
Qed.

(** The end of a schedule with a loop count: the start, to the second, plus the
    whole seconds of the loops, on a 24 hour clock; never the start itself. *)
Theorem loop_end_exact (n : Z) (a : Asset) (st e : time) :
  time_ok st = true → _resolve_loop_end_time (Some n) (Some a) (Some st) = Ok (Some e) →
  ∃ ms, a_duration_ms a = Some ms ∧ 0 < total_seconds n ms ∧ time_ok e = true ∧ e ≠ st ∧
        time_us e = (time_us st - microsecond st + total_seconds n ms * 1000000) mod DAY_US.
Proof.
  intros Hst. simpl. destruct (a_duration_ms a) as [ms|]; [|done]. destruct (_ || _ || _) eqn:Hb; [done|].
  rewrite !orb_false_iff, Z.leb_gt, Z.eqb_neq in Hb. destruct Hb as [[_ Hpos] Hm].
  destruct (_compute_end_time st n ms) as [e'|] eqn:He; simpl; [|done]. intros [= ->].
  destruct (compute_end_time_spec st n ms e Hst ltac:(lia) He) as [Hok Hus]. exists ms. split_and!; try done.
  intros ->. unfold time_ok in Hst. rewrite !andb_true_iff, !Z.leb_le, !Z.ltb_lt in Hst.
  unfold time_us, DAY_US in Hus. set (t := total_seconds n ms) in *.
  set (x := hour st * 3600 + minute st * 60 + second st) in *.
  replace (x * 1000000 + microsecond st - microsecond st + t * 1000000) with ((x + t) * 1000000) in Hus by lia.
  change 86400000000 with (86400 * 1000000) in Hus. rewrite Z.mul_mod_distr_r in Hus by lia.
  assert (x = (x + t) mod 86400) as Hx by lia. apply Hm.
  pose proof (Z.div_mod (x + t) 86400 ltac:(lia)) as Hd. rewrite <-Hx in Hd.
  assert (t = (x + t) / 86400 * 86400) as -> by lia. apply Z.mod_mul. lia.
Qed.

(** ** The tables stay consistent *)

Lemma found_In {A} (P : A → Prop) `{∀ x, Decision (P x)} (l : list A) x : snd <$> list_find P l = Some x → x ∈ l ∧ P x.
Proof. intros ([i y] & Hf & ->)%fmap_Some. by apply list_find_Some in Hf as (Hx%list_elem_of_lookup_2 & Hp & _). Qed.












Lemma get_schedule_In uid user adb sid c s : get_schedule uid user adb sid c = Ok s → s ∈ fl_schedules (co_floor c) ∧ s_id s = sid.
Proof.
  unfold get_schedule. destruct (find_schedule sid _) as [x|] eqn:Hf; [|done]. intros (v & _ & [= ->])%result_bind_ok.
  by apply found_In in Hf.
Qed.

(** What a successful edit writes, and has checked. *)
Lemma update_inv uid user adb now sid u c c' l :
  update_schedule uid user adb now sid u c = Ok (c', l) →
  ∃ s s' days asset computed,
    s ∈ fl_schedules (co_floor c) ∧ s_id s = sid ∧ update_schedule_checks now s u (co_floor c) = Ok (asset, computed) ∧
    updated_row s u days asset computed (co_floor c) = Some s' ∧ _check_conflicts (co_db c) s' (Some sid) = Ok tt ∧
    c' = drop_skips [sid] (mkConsole (set_fl_schedules (replace_schedule sid s' (fl_schedules (co_floor c))) (co_floor c)) (co_skips c)) ∧
    l = _get_target_device_ids (co_db c') s'.
Proof.
  unfold update_schedule. intros (days & _ & ([] & _ & (s & Hs & ([a comp] & Hck & Hu)%result_bind_ok)%result_bind_ok)%result_bind_ok)%result_bind_ok.
  apply get_schedule_In in Hs as [Hin Hid]. destruct (updated_row s u days a comp (co_floor c)) as [s'|] eqn:Hr; [|done].
  apply result_bind_ok in Hu as ([] & Hcf & [= <- <-]). eauto 15.
Qed.

Lemma updated_row_spec s u days asset computed fl s' :
  updated_row s u days asset computed fl = Some s' →
  s_id s' = s_id s ∧ s_skipped_until s' = None ∧
  s_group_id s' = match su_group_id u with None => s_group_id s | Some g => g end ∧
  s_tag_id s' = match su_tag_id u with None => s_tag_id s | Some t => t end ∧
  s_start_time s' = (given (su_start_time u) or_else s_start_time s) ∧
  s_end_time s' = (computed or_else given (su_end_time u) or_else s_end_time s).
Proof.
  unfold updated_row. intros (name & _ & (gid & Hg & (group & _ & (st & Hst & (et & Het & (prio & _ & (en & _ & [= <-])%bind_Some)%bind_Some)%bind_Some)%bind_Some)%bind_Some)%bind_Some)%bind_Some.
  simpl. split_and!; try done.
  - destruct (su_start_time u) as [[t|]|]; simpl in *; congruence.
  - destruct computed; simpl in *; [congruence|]. destruct (su_end_time u) as [[t|]|]; simpl in *; congruence.
Qed.













(** ** Theorems *)



(** Editing a schedule ends its skips, for all devices and for single ones. *)
Theorem update_clears_skips (uid : uuid) (user : User) (adb : AuthDb) (now : Z) (sid : uuid) (u : ScheduleUpdate) (c c' : Console)
    (l : list string) :
  update_schedule uid user adb now sid u c = Ok (c', l) →
  (∀ did, co_skips c' !! (sid, did) = None) ∧ (∀ s, s ∈ fl_schedules (co_floor c') → s_id s = sid → s_skipped_until s = None).
Proof.
  intros (s & s' & days & a & comp & _ & Hid & _ & Hr & _ & -> & _)%update_inv. simpl. split.
  - intros did. apply map_lookup_filter_None. right. intros x _ Hn. apply Hn. by left.
  - intros x (y & -> & Hy)%list_elem_of_fmap Hx. apply updated_row_spec in Hr as (_ & Hn & _). by case_bool_decide.
Qed.

(** ** Examples *)

Section examples.
Definition page : Asset := mkAsset "page" "page" None None WEBPAGE 0 "" (Some "https://x") None false None None.
Definition clip : Asset := mkAsset "clip" "clip.mp4" None None VIDEO 1000 "c1" None (Some 90000) false None None.
Definition collage : Asset := mkAsset "collage" "collage" None None COMPOSED 0 "c2" None None false None None.
Definition tag_deck : Asset := mkAsset "deck" "deck" None None SLIDESHOW 0 "" None None false None None.
Definition shelf : Media :=
  mkMedia [page; clip; collage; tag_deck] [] [slide_row (K_TAG (Some "news")) 0 always] [mkAssetTag "x1" "collage" "news" 1] [].
Definition studio (schedules : list Schedule) : Console :=
  mkConsole (mkFloor [unit_of "d1" D_ADOPTED (Some "g") None None] [mkGroup "g" "hall" None; mkGroup "h" "lobby" None] [] [] []
               schedules shelf []) ∅.
Definition body (gid aid : uuid) (st : time) (et : option time) (loops : option Z) : ScheduleCreate :=
  mkSchedIn "show" gid None aid None None st et None 0 true loops.
Definition no_change : ScheduleUpdate := mkSchedUpd None None None None None None None None None None None None.
Definition written (r : result exn (Console * list string)) : list Schedule :=
  match r with Ok (c, _) => fl_schedules (co_floor c) | Err _ => [] end.

(** A user in no group; a member of ["h"]. *)
Definition outsider : User := person "r-viewer" true.
Definition members_db : AuthDb := mkAuthDb {["u3" := outsider]} {["r-viewer" := viewer]} {[("u3", "h")]} ∅ ∅.

(** A schedule can be created in any group, and moved into any group; only
    reading, editing and deleting it there ask for the group. *)
Example foreign_group_scheduled :
  (s_group_id <$> written (create_schedule 0 "s1" (body "g" "clip" (hm 9 0) (Some (hm 10 0)) None) (studio []))) = [Some "g"] ∧
  get_schedule "u3" outsider members_db "s1" (studio [daily "s1" "g" 0 (hm 9 0) (hm 10 0)]) = Err (HTTPException 403) ∧
  (s_group_id <$> written (update_schedule "u3" outsider members_db 0 "s2"
     (mkSchedUpd None (Some (Some "g")) None None None None None None None None None None)
     (studio [daily "s2" "h" 0 (hm 9 0) (hm 10 0)]))) = [Some "g"].
Proof. by vm_compute. Qed.

(** One end of the window, edited alone, can meet the other: the schedule never
    plays again. *)
Example partial_update_empties_window :
  let l := written (update_schedule "u1" boss admin_db 0 "s1"
     (mkSchedUpd None None None None None None (Some (Some (hm 10 0))) None None None None None)
     (studio [daily "s1" "g" 0 (hm 9 0) (hm 10 0)])) in
  ((λ s, (s_start_time s, s_end_time s)) <$> l) = [(hm 10 0, hm 10 0)] ∧
  (λ s, matches_at s (at_hm 10 0)) <$> l = [Ok false].
Proof. by vm_compute. Qed.

(** Loops that take longer than a day get the rest of the division: a thousand
    times ninety seconds, from nine o'clock, end at ten. *)
Example loops_longer_than_a_day :
  s_end_time <$> written (create_schedule 0 "s1" (body "g" "clip" (hm 9 0) None (Some 1000)) (studio [])) = [hm 10 0].
Proof. by vm_compute. Qed.

(** A deck that shows composed slides through a tag passes the gate that asks
    the devices for [slideshow_composed_v1]. *)
Example tag_block_composed_ungated : _slideshow_has_composed_member "deck" (co_floor (studio [])) = false.
Proof. by vm_compute. Qed.

(** A schedule with a loop count keeps it when it is moved to a web page. *)
Example url_swap_keeps_loop_count :
  let c := mkConsole (set_fl_schedules [mkSchedule "s1" "show" (Some "h") None None (Some clip) None None (hm 9 0) (hm 10 0) None 0 true (Some 40) None]
                        (co_floor (studio []))) ∅ in
  ((λ s, (a_id <$> s_asset s, s_loop_count s)) <$> written (update_schedule "u1" boss admin_db 0 "s1"
     (mkSchedUpd None None None (Some (Some "page")) None None None None None None None None) c)) = [(Some "page", Some 40)].
Proof. by vm_compute. Qed.
End examples.

(** ** Witnesses *)





Lemma loop_end_exact_witness : ∃ e, _resolve_loop_end_time (Some 4) (Some clip) (Some (hm 9 0)) = Ok (Some e) ∧ e ≠ hm 9 0.
Proof.
  eexists. split; [by vm_compute|]. edestruct (loop_end_exact 4 clip (hm 9 0)) as (ms & _ & _ & _ & Hne & _); [reflexivity|by vm_compute|exact Hne].
Defined.

Lemma update_clears_skips_witness :
  ∃ c' l, update_schedule "u1" boss admin_db 0 "s1" no_change (studio [daily "s1" "g" 0 (hm 9 0) (hm 10 0)]) = Ok (c', l) ∧
    co_skips c' !! ("s1", "d1") = None.
Proof.
  do 2 eexists. split; [by vm_compute|].
  apply (update_clears_skips "u1" boss admin_db 0 "s1" no_change (studio [daily "s1" "g" 0 (hm 9 0) (hm 10 0)]) _ ["d1"]). by vm_compute.
Defined.
