(* ===== verification/Slides.v ===== *)
(** * Slides of a slideshow: the body and the row (cms/schemas/asset.py,
      shared/models/slideshow_slide.py, [_slide_row] of cms/routers/assets.py)

    The Pydantic validation of a slide, with the canonical names of Ken Burns
    directions, the row it becomes, and the CHECK constraints of the table.
    The two vocabularies are written down twice in the code; the theorem is
    that every body that passes the one is a row that passes the other. *)

From S2P Require Import Prelude Clock PyText Models Database Samples.
Open Scope Z_scope.

(** ** Ken Burns directions *)

Definition _KEN_BURNS_PANS : list string := ["left"; "right"; "up"; "down"; "up_left"; "up_right"; "down_left"; "down_right"].
Definition KEN_BURNS_DIRECTIONS : list string :=
  ["in"; "out"] ++ ((λ p, "in_" +:+ p) <$> _KEN_BURNS_PANS) ++ ((λ p, "out_" +:+ p) <$> _KEN_BURNS_PANS) ++ _KEN_BURNS_PANS.
Definition _KEN_BURNS_FILLER_WORDS : list string :=
  ["zoom"; "pan"; "and"; "going"; "go"; "to"; "the"; "then"; "motion"; "drift"].

(** [s.split(c)]: one part more than there are separators. *)
Fixpoint str_split (c : ascii) (s : string) : list string :=
  match s with
  | EmptyString => [""]
  | String x s' =>
      if bool_decide (x = c) then "" :: str_split c s'
      else match str_split c s' with
           | p :: ps => String x p :: ps
           | [] => [String x ""]
           end
  end.

(** The separators ["-"], [" "], ["/"], ["+"] and [","] become ["_"]. *)
Definition to_underscore (c : ascii) : ascii :=
  if bool_decide (c ∈ ["-"; " "; "/"; "+"; ","]%char) then "_"%char else c.

Record Motion := mkMotion { mo_zoom : option string; mo_vert : list string; mo_horiz : list string }.

Definition add_once (p : string) (l : list string) : list string := if bool_decide (p ∈ l) then l else l ++ [p].

(** One word of the description; [None] gives up. *)
Definition motion_word (m : Motion) (p : string) : option Motion :=
  if bool_decide (p ∈ ["in"; "out"]) then
    match mo_zoom m with
    | Some z => if bool_decide (z = p) then Some m else None
    | None => Some (mkMotion (Some p) (mo_vert m) (mo_horiz m))
    end
  else if bool_decide (p ∈ ["up"; "down"]) then Some (mkMotion (mo_zoom m) (add_once p (mo_vert m)) (mo_horiz m))
  else if bool_decide (p ∈ ["left"; "right"]) then Some (mkMotion (mo_zoom m) (mo_vert m) (add_once p (mo_horiz m)))
  else None.

Fixpoint motion_of (m : Motion) (parts : list string) : option Motion :=
  match parts with [] => Some m | p :: ps => m' ← motion_word m p; motion_of m' ps end.

(** The candidate token; [None] where the code returns its argument. *)
Definition motion_token (m : Motion) : option string :=
  if (1 <? length (mo_vert m))%nat || (1 <? length (mo_horiz m))%nat then None
  else
    let pan := String.concat "_" (mo_vert m ++ mo_horiz m) in
    match mo_zoom m with
    | Some z => Some (if bool_decide (pan = "") then z else z +:+ "_" +:+ pan)
    | None => if bool_decide (pan = "") then None else Some pan
    end.

Definition is_word (p : string) : Prop := p ≠ "" ∧ p ∉ _KEN_BURNS_FILLER_WORDS.
#[export] Instance is_word_dec p : Decision (is_word p).
Proof. unfold is_word. apply _. Defined.

(** The words left after the fillers are dropped, read as one direction. *)
Definition direction_of (words : list string) : option string :=
  motion_of (mkMotion None [] []) (filter is_word words) ≫= motion_token.

Definition normalize_effect_direction (value : string) : string :=
  let raw := str_lower (str_strip value) in
  if bool_decide (raw ∈ KEN_BURNS_DIRECTIONS) then raw
  else
    match direction_of (str_split "_" (str_map to_underscore raw)) with
    | Some candidate => if bool_decide (candidate ∈ KEN_BURNS_DIRECTIONS) then candidate else value
    | None => value
    end.

(** ** The body of a slide *)

Definition MIN_SLIDE_DURATION_MS : Z := 500.
Definition MAX_SLIDE_DURATION_MS : Z := 60 * 60 * 1000.
Definition SLIDE_TRANSITIONS : list string := ["cut"; "fade"; "fade_black"; "dissolve"; "push"; "wipe"; "zoom"].
Definition MIN_SLIDE_TRANSITION_MS : Z := 0.
Definition MAX_SLIDE_TRANSITION_MS : Z := 5000.
Definition SLIDE_FITS : list string := ["cover"; "contain"; "contain_blur"].
Definition SLIDE_EFFECTS : list string := ["none"; "ken_burns"].
Definition SLIDESHOW_TAG_ORDER_BY_VALUES : list string := ["tagged_at"].

Record SlideIn := mkSlideIn {
  si_kind : string;
  si_source_asset_id : option uuid;
  si_tag_id : option uuid;
  si_tag_order_by : string;
  si_duration_ms : Z;
  si_play_to_end : bool;
  si_transition : string;
  si_transition_ms : Z;
  si_member_transition : option string;
  si_member_transition_ms : option Z;
  si_fit : string;
  si_effect : string;
  si_effect_direction : string;
  si_window : SlideWindow;
  si_clip_start_ms : option Z;
  si_clip_duration_ms : option Z
}.

Definition between (lo hi x : Z) : bool := (lo <=? x) && (x <=? hi).
Definition opt_all {A} (p : A → bool) (x : option A) : bool := match x with Some a => p a | None => true end.
Definition one_of (l : list string) (s : string) : bool := bool_decide (s ∈ l).

(** [ge] and [le] of the fields. *)
Definition field_bounds (s : SlideIn) : bool :=
  between MIN_SLIDE_DURATION_MS MAX_SLIDE_DURATION_MS (si_duration_ms s) &&
  between MIN_SLIDE_TRANSITION_MS MAX_SLIDE_TRANSITION_MS (si_transition_ms s) &&
  opt_all (between MIN_SLIDE_TRANSITION_MS MAX_SLIDE_TRANSITION_MS) (si_member_transition_ms s) &&
  opt_all (Z.leb 0) (si_clip_start_ms s) && opt_all (Z.leb MIN_SLIDE_DURATION_MS) (si_clip_duration_ms s).

(** The field validators.  [_validate_kind] has no decorator and never runs. *)
Definition field_validators (s : SlideIn) : bool :=
  one_of SLIDESHOW_TAG_ORDER_BY_VALUES (si_tag_order_by s) && one_of SLIDE_TRANSITIONS (si_transition s) &&
  opt_all (one_of SLIDE_TRANSITIONS) (si_member_transition s) && one_of SLIDE_FITS (si_fit s) && one_of SLIDE_EFFECTS (si_effect s) &&
  one_of KEN_BURNS_DIRECTIONS (normalize_effect_direction (si_effect_direction s)).

Definition _validate_active_days (v : option (list Z)) : option (option (list Z)) :=
  match v with
  | None => Some None
  | Some l => if existsb (λ d, (d <? 0) || (6 <? d)) l then None
              else match merge_sort Z.le (remove_dups l) with [] => Some None | u => Some (Some u) end
  end.

Definition _validate_visibility_window (w : SlideWindow) : bool :=
  match valid_from w, valid_to w with Some f, Some t => f <=? t | _, _ => true end &&
  match active_start w, active_end w with Some s, Some e => negb (bool_decide (s = e)) | _, _ => true end.

(** An asset slide drops its member transition. *)
Definition _validate_kind_columns (s : SlideIn) : option SlideIn :=
  if bool_decide (si_kind s = "asset") then
    if bool_decide (si_source_asset_id s = None) || bool_decide (is_Some (si_tag_id s)) then None
    else Some (mkSlideIn (si_kind s) (si_source_asset_id s) (si_tag_id s) (si_tag_order_by s) (si_duration_ms s) (si_play_to_end s)
                 (si_transition s) (si_transition_ms s) None None (si_fit s) (si_effect s) (si_effect_direction s) (si_window s)
                 (si_clip_start_ms s) (si_clip_duration_ms s))
  else if bool_decide (si_tag_id s = None) || bool_decide (is_Some (si_source_asset_id s)) || si_play_to_end s ||
          bool_decide (is_Some (si_clip_start_ms s)) || bool_decide (is_Some (si_clip_duration_ms s)) then None
  else Some s.

(** [SlideIn.model_validate]: the slide as the handler sees it. *)
Definition model_validate (s : SlideIn) : option SlideIn :=
  days ← _validate_active_days (active_days (si_window s));
  let w := si_window s in
  let w' := mkSlideWindow (valid_from w) (valid_to w) days (active_start w) (active_end w) in
  let s' := mkSlideIn (si_kind s) (si_source_asset_id s) (si_tag_id s) (si_tag_order_by s) (si_duration_ms s) (si_play_to_end s)
              (si_transition s) (si_transition_ms s) (si_member_transition s) (si_member_transition_ms s) (si_fit s) (si_effect s)
              (normalize_effect_direction (si_effect_direction s)) w' (si_clip_start_ms s) (si_clip_duration_ms s) in
  if field_bounds s && field_validators s && _validate_visibility_window w then _validate_kind_columns s' else None.

Definition _slide_row (slideshow_asset_id : uuid) (idx : nat) (s : SlideIn) : SlideshowSlide :=
  if bool_decide (si_kind s = "tag")
  then mkSlide slideshow_asset_id (K_TAG (si_tag_id s)) (Z.of_nat idx) (si_duration_ms s) false (si_transition s) (si_transition_ms s)
         (si_member_transition s) (si_member_transition_ms s) (si_fit s) (si_effect s) (si_effect_direction s) (si_window s) None None
  else mkSlide slideshow_asset_id (K_ASSET (si_source_asset_id s)) (Z.of_nat idx) (si_duration_ms s) (si_play_to_end s)
         (si_transition s) (si_transition_ms s) None None (si_fit s) (si_effect s) (si_effect_direction s) (si_window s)
         (si_clip_start_ms s) (si_clip_duration_ms s).

(** ** The table *)

Definition transition_known (t : string) : bool := one_of ["cut"; "fade"; "fade_black"; "dissolve"; "push"; "wipe"; "zoom"] t.

(** [_KEN_BURNS_DIRECTION_SQL_LIST] of the model. *)
Definition sql_directions : list string :=
  let pans := ["left"; "right"; "up"; "down"; "up_left"; "up_right"; "down_left"; "down_right"] in
  ["in"; "out"] ++ ((λ p, "in_" +:+ p) <$> pans) ++ ((λ p, "out_" +:+ p) <$> pans) ++ pans.

(** The CHECK constraints of [slideshow_slides]; a NULL passes an [IN]. *)
Definition slide_checks (r : SlideshowSlide) : bool :=
  (0 <? sl_duration_ms r) && (0 <=? sl_position r) && transition_known (sl_transition r) && between 0 5000 (sl_transition_ms r) &&
  opt_all transition_known (sl_member_transition r) && opt_all (between 0 5000) (sl_member_transition_ms r) &&
  one_of ["cover"; "contain"; "contain_blur"] (sl_fit r) && one_of ["none"; "ken_burns"] (sl_effect r) &&
  one_of sql_directions (sl_effect_direction r) &&
  match sl_kind r with K_ASSET s => bool_decide (is_Some s) | K_TAG t => bool_decide (is_Some t) end &&
  match valid_to (sl_window r), valid_from (sl_window r) with Some t, Some f => f <=? t | _, _ => true end &&
  match active_start (sl_window r), active_end (sl_window r) with Some s, Some e => negb (bool_decide (s = e)) | _, _ => true end &&
  opt_all (forallb (between 0 6)) (active_days (sl_window r)) &&
  opt_all (Z.leb 0) (sl_clip_start_ms r) && opt_all (Z.ltb 0) (sl_clip_duration_ms r).

(** ** The order of the words never matters *)

(** Two readings that differ only in the order of their words. *)
Definition same_motion (m m' : Motion) : Prop :=
  mo_zoom m = mo_zoom m' ∧ mo_vert m ≡ₚ mo_vert m' ∧ mo_horiz m ≡ₚ mo_horiz m'.

#[local] Instance same_motion_equiv : Equivalence same_motion.
Proof. split; [done|intros ?? (?&?&?)|intros ??? (?&?&?) (?&?&?)]; split_and!; (done || by etrans). Qed.

Lemma add_once_perm p l l' : l ≡ₚ l' → add_once p l ≡ₚ add_once p l'.
Proof.
  intros E. unfold add_once. rewrite (bool_decide_ext (p ∈ l) (p ∈ l')) by (by rewrite E).
  destruct (bool_decide (p ∈ l')); by rewrite E.
Qed.

Lemma add_once_swap p q l : add_once p (add_once q l) ≡ₚ add_once q (add_once p l).
Proof.
  unfold add_once. destruct (decide (p ∈ l)), (decide (q ∈ l)), (decide (p = q)) as [->|];
    repeat match goal with
    | |- context [bool_decide ?P] =>
        first [rewrite (bool_decide_true P) by set_solver|rewrite (bool_decide_false P) by set_solver]
    end; try done.
  solve_Permutation.
Qed.

#[local] Instance motion_word_proper : Proper (same_motion ==> (=) ==> option_Forall2 same_motion) motion_word.
Proof.
  intros m m' (Hz & Hv & Hh) p ? <-. unfold motion_word. rewrite Hz.
  repeat case_bool_decide; try (constructor; repeat split; simpl; (done || by apply add_once_perm)).
  destruct (mo_zoom m') eqn:E; [|constructor; repeat split; done].
  case_bool_decide; constructor; subst. split; simpl; congruence || done.
Qed.

#[local] Instance motion_of_proper : Proper (same_motion ==> (=) ==> option_Forall2 same_motion) motion_of.
Proof.
  intros m m' Hm ps ? <-. revert m m' Hm. induction ps as [|p ps IH]; intros m m' Hm; simpl; [by constructor|].
  destruct (motion_word_proper m m' Hm p p eq_refl); simpl; [by apply IH|constructor].
Qed.

Definition set_zoom (p : string) (m : Motion) : option Motion :=
  match mo_zoom m with
  | Some z => if bool_decide (z = p) then Some m else None
  | None => Some (mkMotion (Some p) (mo_vert m) (mo_horiz m))
  end.

(** A word is a zoom, a vertical or horizontal pan, or unknown, whatever came before it. *)
Lemma motion_word_cases p :
  (∀ m, motion_word m p = set_zoom p m) ∨
  (∀ m, motion_word m p = Some (mkMotion (mo_zoom m) (add_once p (mo_vert m)) (mo_horiz m))) ∨
  (∀ m, motion_word m p = Some (mkMotion (mo_zoom m) (mo_vert m) (add_once p (mo_horiz m)))) ∨
  (∀ m, motion_word m p = None).
Proof. unfold motion_word, set_zoom. repeat case_bool_decide; eauto 6. Qed.

Lemma set_zoom_swap p q m : (m' ← set_zoom p m; set_zoom q m') = (m' ← set_zoom q m; set_zoom p m').
Proof. destruct m as [[z|] v h]; unfold set_zoom; simpl; repeat (case_bool_decide; simpl; subst; try congruence). Qed.

Lemma set_zoom_pans p m v h :
  set_zoom p (mkMotion (mo_zoom m) v h) = (λ m', mkMotion (mo_zoom m') v h) <$> set_zoom p m.
Proof. destruct m as [[z|] v' h']; unfold set_zoom; simpl; [case_bool_decide|]; done. Qed.

Lemma set_zoom_keeps p m m' : set_zoom p m = Some m' → mo_vert m' = mo_vert m ∧ mo_horiz m' = mo_horiz m.
Proof. destruct m as [[z|] v h]; unfold set_zoom; simpl; [case_bool_decide|]; naive_solver. Qed.

Lemma motion_word_swap m p q :
  option_Forall2 same_motion (m' ← motion_word m p; motion_word m' q) (m' ← motion_word m q; motion_word m' p).
Proof.
  destruct (motion_word_cases p) as [Hp|[Hp|[Hp|Hp]]], (motion_word_cases q) as [Hq|[Hq|[Hq|Hq]]];
    rewrite (Hp m), (Hq m).
  1: { pose proof (set_zoom_swap p q m) as E.
       destruct (set_zoom p m) as [a|], (set_zoom q m) as [b|]; simpl in *; rewrite ?Hp, ?Hq, ?E; simpl;
         try rewrite <-E; try (destruct (set_zoom p b)); try (destruct (set_zoom q a)); by constructor. }
  all: try (destruct (set_zoom _ m) as [a|] eqn:E); simpl; rewrite ?Hp, ?Hq; simpl;
       rewrite ?set_zoom_pans, ?E; simpl; first [done|apply None_Forall2|apply Some_Forall2];
       try (apply set_zoom_keeps in E as [-> ->]); split_and!; simpl; first [done|apply add_once_swap].
Qed.

Lemma short_perm (l l' : list string) : l ≡ₚ l' → (1 <? length l)%nat = false → l = l'.
Proof.
  intros E Hl. apply Nat.ltb_ge in Hl. destruct l as [|x [|]]; simpl in *; [by apply Permutation_nil in E| |lia].
  by apply Permutation_singleton_l in E.
Qed.

#[local] Instance same_motion_opt_trans : Transitive (option_Forall2 same_motion).
Proof. intros x y z H1 H2. destruct H1; inversion H2; subst; constructor. by etrans. Qed.

Lemma motion_of_bind ps (x y : option Motion) :
  option_Forall2 same_motion x y →
  option_Forall2 same_motion (x ≫= λ m, motion_of m ps) (y ≫= λ m, motion_of m ps).
Proof. intros [a b E|]; simpl; [by apply motion_of_proper|constructor]. Qed.

Lemma motion_of_perm ps qs : ps ≡ₚ qs → ∀ m, option_Forall2 same_motion (motion_of m ps) (motion_of m qs).
Proof.
  induction 1 as [|p ps qs _ IH|p q ps|ps qs rs _ IH1 _ IH2]; intros m; simpl.
  - by constructor.
  - destruct (motion_word m p); simpl; [apply IH|constructor].
  - pose proof (motion_word_swap m q p) as S.
    apply (motion_of_bind ps) in S.
    destruct (motion_word m q) as [a|], (motion_word m p) as [b|]; exact S.
  - etrans; [apply IH1|apply IH2].
Qed.

Lemma motion_token_proper m m' : same_motion m m' → motion_token m = motion_token m'.
Proof.
  intros (Hz & Hv & Hh). unfold motion_token. rewrite Hz, (Permutation_length Hv), (Permutation_length Hh).
  destruct (_ || _) eqn:E; [done|]. apply orb_false_iff in E as [E1 E2].
  by rewrite (short_perm _ _ (symmetry Hv) E1), (short_perm _ _ (symmetry Hh) E2).
Qed.

(** "This collapses separators ..., drops filler words, and reorders the pan components so order never matters":
    two descriptions made of the same words, in any order, name the same canonical direction, or neither names one. *)
Theorem direction_order_irrelevant ps qs : ps ≡ₚ qs → direction_of ps = direction_of qs.
Proof.
  intros E. unfold direction_of.
  destruct (motion_of_perm _ _ (filter_Permutation is_word _ _ E) (mkMotion None [] [])); simpl; [|done].
  by apply motion_token_proper.
Qed.

(** ** A direction that can be read is a canonical one *)

Definition pans_ok (m : Motion) : Prop :=
  (∀ z, mo_zoom m = Some z → z ∈ ["in"; "out"]) ∧ (∀ p, p ∈ mo_vert m → p ∈ ["up"; "down"]) ∧ ∀ p, p ∈ mo_horiz m → p ∈ ["left"; "right"].

Lemma add_once_in p q l : q ∈ add_once p l → q = p ∨ q ∈ l.
Proof. unfold add_once. case_bool_decide; set_solver. Qed.

Lemma motion_word_ok m p m' : motion_word m p = Some m' → pans_ok m → pans_ok m'.
Proof.
  unfold motion_word. intros E (Hz & Hv & Hh). repeat case_bool_decide; simplify_eq.
  - destruct (mo_zoom m) eqn:Em; [case_bool_decide; simplify_eq|simplify_eq]; repeat split; simpl; naive_solver.
  - repeat split; simpl; [done| |done]. intros q [->|]%add_once_in; auto.
  - repeat split; simpl; [done|done|]. intros q [->|]%add_once_in; auto.
Qed.

Lemma motion_of_ok ps : ∀ m m', motion_of m ps = Some m' → pans_ok m → pans_ok m'.
Proof.
  induction ps as [|p ps IH]; intros m m'; simpl; [by intros [= ->]|].
  destruct (motion_word m p) as [m1|] eqn:E; simpl; [|done]. intros ? Hm. by eapply IH, motion_word_ok.
Qed.

Lemma one_of_two (x a b : string) : x ∈ [a; b] → x = a ∨ x = b.
Proof. set_solver. Qed.

Lemma token_canonical m d : pans_ok m → motion_token m = Some d → d ∈ KEN_BURNS_DIRECTIONS.
Proof.
  destruct m as [z v h]. intros (Hz & Hv & Hh). unfold motion_token. simpl in *.
  destruct (_ || _) eqn:E; [done|]. apply orb_false_iff in E as [Ev Eh]. apply Nat.ltb_ge in Ev, Eh.
  destruct v as [|a [|]], h as [|b [|]]; simpl in *; try lia; destruct z as [z|];
    try (destruct (one_of_two _ _ _ (Hv a (list_elem_of_here _ _))); subst a);
    try (destruct (one_of_two _ _ _ (Hh b (list_elem_of_here _ _))); subst b);
    try (destruct (one_of_two _ _ _ (Hz z eq_refl)); subst z);
    intros E; vm_compute in E; simplify_eq; apply (bool_decide_eq_true_1 _); reflexivity.
Qed.

(** The membership test that ends the function never rejects what it read. *)
Lemma direction_of_canonical ps d : direction_of ps = Some d → d ∈ KEN_BURNS_DIRECTIONS.
Proof.
  unfold direction_of. destruct (motion_of _ _) as [m|] eqn:E; simpl; [|done]. apply token_canonical.
  eapply motion_of_ok; [exact E|]. repeat split; simpl; set_solver.
Qed.

Lemma canonical_fixed d : d ∈ KEN_BURNS_DIRECTIONS → str_lower (str_strip d) = d.
Proof.
  assert (F : Forall (λ d, str_lower (str_strip d) = d) KEN_BURNS_DIRECTIONS)
    by (apply (bool_decide_eq_true_1 _); vm_compute; reflexivity).
  rewrite Forall_forall in F. apply F.
Qed.

(** What is stored is read back as itself: normalising again changes nothing. *)
Lemma normalize_idem v : normalize_effect_direction (normalize_effect_direction v) = normalize_effect_direction v.
Proof.
  assert (C : ∀ d, d ∈ KEN_BURNS_DIRECTIONS → normalize_effect_direction d = d).
  { intros d Hd. unfold normalize_effect_direction. rewrite canonical_fixed by done. by rewrite bool_decide_true. }
  destruct (decide (normalize_effect_direction v ∈ KEN_BURNS_DIRECTIONS)) as [|N]; [by apply C|].
  assert (E : normalize_effect_direction v = v); [|by rewrite !E].
  revert N. unfold normalize_effect_direction. repeat case_match; try done; repeat case_bool_decide; done.
Qed.

Lemma vocabularies_agree : sql_directions = KEN_BURNS_DIRECTIONS.
Proof. reflexivity. Qed.

(** ** Every body that is accepted is a row the table accepts *)

Lemma between_spec lo hi x : between lo hi x = true ↔ lo ≤ x ≤ hi.
Proof. unfold between. rewrite andb_true_iff, !Z.leb_le. done. Qed.

Lemma days_checked v u : _validate_active_days v = Some u → opt_all (forallb (between 0 6)) u = true.
Proof.
  destruct v as [l|]; simpl; [|by intros [= <-]]. destruct (existsb _ l) eqn:E; [done|].
  assert (F : ∀ d, d ∈ merge_sort Z.le (remove_dups l) → between 0 6 d = true).
  { intros d Hd. rewrite merge_sort_Permutation, elem_of_remove_dups in Hd. apply between_spec.
    apply not_true_iff_false in E. rewrite existsb_exists in E.
    assert (¬ ((d <? 0) || (6 <? d)) = true) as N by (intros X; apply E; exists d; split; [by apply list_elem_of_In|done]).
    apply not_true_iff_false, orb_false_iff in N as [E1%Z.ltb_ge E2%Z.ltb_ge]. lia. }
  destruct (merge_sort _ _) as [|x xs]; intros [= <-]; [done|]. simpl.
  apply (forallb_forall _ (x :: xs)). intros d ?%list_elem_of_In. by apply F.
Qed.

(** "The DB CHECKs mirror the Pydantic validators": whenever [SlideIn] accepts a body that says "asset" or "tag", the row
    that [_slide_row] makes of it, at any position, satisfies every CHECK constraint of [slideshow_slides], so saving
    the slide cannot fail with the database's error; in particular the two copies of the Ken Burns grammar agree. *)
Theorem accepted_slides_fit_table (b s : SlideIn) (show : uuid) (idx : nat) :
  model_validate b = Some s → si_kind b ∈ ["asset"; "tag"] → slide_checks (_slide_row show idx s) = true.
Proof.
  unfold model_validate. intros E K. destruct (_validate_active_days _) as [days|] eqn:Ed; simpl in E; [|done].
  apply days_checked in Ed. destruct (_ && _) eqn:V in E; [|done].
  apply andb_true_iff in V as [[FB FV]%andb_true_iff W].
  unfold field_bounds in FB. unfold field_validators in FV. unfold _validate_visibility_window in W.
  apply andb_true_iff in FB as [[[[Hd Ht]%andb_true_iff Hmt]%andb_true_iff Hcs]%andb_true_iff Hcd].
  apply andb_true_iff in FV as [[[[[Ho Htr]%andb_true_iff Hm]%andb_true_iff Hf]%andb_true_iff He]%andb_true_iff Hdir].
  apply andb_true_iff in W as [Wd Wt].
  apply between_spec in Ht. unfold MIN_SLIDE_TRANSITION_MS, MAX_SLIDE_TRANSITION_MS in Ht.
  assert (0 < si_duration_ms b) by (apply between_spec in Hd; unfold MIN_SLIDE_DURATION_MS in Hd; lia).
  assert (Hcd' : opt_all (Z.ltb 0) (si_clip_duration_ms b) = true).
  { destruct (si_clip_duration_ms b); simpl in *; [|done]. apply Z.leb_le in Hcd. apply Z.ltb_lt. unfold MIN_SLIDE_DURATION_MS in Hcd. lia. }
  assert (K' : si_kind b = "asset" ∨ si_kind b = "tag") by set_solver. clear K Ho Hcd Hd.
  unfold _validate_kind_columns in E. simpl in E.
  destruct K' as [K|K]; rewrite K in E; simpl in E; destruct (_ || _) eqn:B in E; try done;
    rewrite ?orb_false_iff in B; destruct_and?; injection E as <-; unfold _slide_row, slide_checks; simpl;
    rewrite ?K; simpl.
  all: repeat (apply andb_true_intro; split); try done; try (by apply Z.ltb_lt); try (apply Z.leb_le; lia).
  all: try (by destruct (si_source_asset_id b)); try (by destruct (si_tag_id b)).
  all: by destruct (valid_to (si_window b)), (valid_from (si_window b)).
Qed.

(** ** Concrete bodies *)

Definition dog_slide (kind : string) : SlideIn :=
  mkSlideIn kind (Some "dog") None "tagged_at" 5000 false "fade" 600 None None "cover" "ken_burns" "Zoom out, right-down" always None None.
Definition misspelt_tag : SlideIn :=
  mkSlideIn "Tag" None (Some "dogs") "tagged_at" 5000 false "cut" 600 None None "cover" "none" "in" always None None.

Example direction_words : normalize_effect_direction " Zoom OUT going right/down " = "out_down_right".
Proof. vm_compute. reflexivity. Qed.

(** [_validate_kind] has no [@field_validator] and never runs: a kind that is neither "asset" nor "tag" is validated as a tag
    slide, and [_slide_row] makes an asset row without a source of it, which the table would refuse. *)
Example unknown_kind_reaches_table :
  match model_validate misspelt_tag with Some s => Some (slide_checks (_slide_row "show" 0 s)) | None => None end = Some false.
Proof. vm_compute. reflexivity. Qed.

(** ** Witnesses *)

Lemma direction_order_irrelevant_witness : direction_of ["right"; "out"; "down"] = direction_of ["out"; "down"; "right"].
Proof. apply (direction_order_irrelevant ["right"; "out"; "down"] ["out"; "down"; "right"]). solve_Permutation. Defined.

Lemma accepted_slides_fit_table_witness :
  ∃ s, model_validate (dog_slide "asset") = Some s ∧ slide_checks (_slide_row "show" 3 s) = true.
Proof.
  eexists. split; [by vm_compute|]. apply (accepted_slides_fit_table (dog_slide "asset")); [by vm_compute|].
  apply (bool_decide_unpack _). by vm_compute.
Defined.
