(* ===== verification/Library.v ===== *)
(** * The asset library: who may see, share and edit what (cms/routers/assets.py)

    Visibility of assets, sharing with groups, the global flag, the creation and
    the editing of slideshows, deletion, tagging and the bulk endpoint, on the
    tables of [Lib].  The columns [is_global] and [uploaded_by_user_id] and the
    description are kept by asset id.  Fresh UUIDs are arguments; a failed
    request leaves the tables as they were. *)

From S2P Require Import Prelude Clock PyText Models Database Samples AssetReadiness Jobs Variants Slideshow Access Slides.
Open Scope Z_scope.

Record Shelf := mkShelf {
  sh_lib : Lib;
  sh_global : gset uuid;
  sh_uploader : gmap uuid uuid;
  sh_description : gmap uuid string;
  sh_tags : list uuid;
  sh_group_rows : list uuid
}.

Definition with_lib (lib : Lib) (sh : Shelf) : Shelf :=
  mkShelf lib (sh_global sh) (sh_uploader sh) (sh_description sh) (sh_tags sh) (sh_group_rows sh).
Definition with_global (g : gset uuid) (sh : Shelf) : Shelf :=
  mkShelf (sh_lib sh) g (sh_uploader sh) (sh_description sh) (sh_tags sh) (sh_group_rows sh).

Definition sh_assets (sh : Shelf) : list Asset := lb_assets (sh_lib sh).
Definition sh_media (sh : Shelf) : Media := lb_media (sh_lib sh).
Definition sh_slides (sh : Shelf) : list SlideshowSlide := m_slides (sh_media sh).
Definition sh_links (sh : Shelf) : list (uuid * uuid) := lb_group_assets (sh_lib sh).

(** [select(Asset).where(Asset.id == aid, Asset.deleted_at.is_(None))]. *)
Definition live_asset (aid : uuid) (sh : Shelf) : option Asset :=
  a ← find_asset aid (sh_lib sh); if bool_decide (a_deleted_at a = None) then Some a else None.
Definition groups_of (aid : uuid) (sh : Shelf) : gset uuid := list_to_set (fst <$> filter (λ ga, ga.2 = aid) (sh_links sh)).

Definition set_links (l : list (uuid * uuid)) (sh : Shelf) : Shelf :=
  let lib := sh_lib sh in
  with_lib (mkLib (lb_profiles lib) (lb_media lib) (lb_store lib) (lb_notes lib) (lb_schedules lib) (lb_devices lib)
              (lb_group_defaults lib) (lb_device_assets lib) l (lb_files lib)) sh.
Definition set_rows (assets : list Asset) (slides : list SlideshowSlide) (sh : Shelf) : Shelf :=
  let m := sh_media sh in
  with_lib (set_media (mkMedia assets (m_variants m) slides (m_asset_tags m) (m_composed m)) (sh_lib sh)) sh.
Definition set_asset_tags (l : list AssetTag) (sh : Shelf) : Shelf :=
  let m := sh_media sh in
  with_lib (set_media (mkMedia (m_assets m) (m_variants m) (m_slides m) l (m_composed m)) (sh_lib sh)) sh.

(** ** Visibility *)

(** The ids a user with the groups [gs] sees. *)
Definition visible_to (uid : uuid) (gs : gset uuid) (sh : Shelf) : gset uuid :=
  let global_ids := list_to_set (a_id <$> filter (λ a, a_id a ∈ sh_global sh) (sh_assets sh)) in
  let group_asset_ids := list_to_set (snd <$> filter (λ ga, ga.1 ∈ gs) (sh_links sh)) in
  let own_ids := list_to_set (a_id <$> filter (λ a, sh_uploader sh !! a_id a = Some uid ∧ a_id a ∉ snd <$> sh_links sh) (sh_assets sh)) in
  global_ids ∪ group_asset_ids ∪ own_ids.

Section request.
Context (uid : uuid) (user : User) (adb : AuthDb).

Definition _visible_asset_ids (sh : Shelf) : result exn (option (gset uuid)) :=
  gids ← get_user_group_ids uid user adb;
  Ok (match gids with None => None | Some gs => Some (visible_to uid gs sh) end).

Definition _verify_asset_access (aid : uuid) (sh : Shelf) : result exn unit :=
  visible ← _visible_asset_ids sh;
  match visible with
  | None => Ok tt
  | Some v => if bool_decide (aid ∈ v) then Ok tt else Err (HTTPException 403)
  end.

(** The group ids of a request body. *)
Fixpoint resolve_groups (gids : option (gset uuid)) (raw_ids : list string) : result exn (list uuid) :=
  match raw_ids with
  | [] => Ok []
  | raw :: rest =>
      match uuid_of_str raw with
      | None => Err (HTTPException 400)
      | Some g =>
          if match gids with None => false | Some gs => negb (bool_decide (g ∈ gs)) end then Err (HTTPException 403)
          else l ← resolve_groups gids rest; Ok (g :: l)
      end
  end.
End request.

(** ** New rows *)

(** [Path(s).name], [.stem] and [.suffix]. *)
Definition path_name (s : string) : string := default "" (last (filter (λ p, p ≠ "" ∧ p ≠ ".") (str_split "/" s))).
Definition path_stem (s : string) : string :=
  let n := path_name s in
  match before_last "."%char n with
  | Some st => if bool_decide (st ≠ "" ∧ (S (String.length st) < String.length n)%nat) then st else n
  | None => n
  end.
Definition path_suffix (s : string) : string :=
  let n := path_name s in String.substring (String.length (path_stem s)) (String.length n) n.

Definition filename_taken (sh : Shelf) (name : string) : bool := existsb (λ a, bool_decide (a_filename a = name)) (sh_assets sh).

(** [hex8]: eight fresh hexadecimal digits. *)
Definition _unique_filename (hex8 desired : string) (max_attempts : nat) (sh : Shelf) : string :=
  let stem := str_or (Some (path_stem desired)) (Some desired) or_else "" in
  let suffix := path_suffix desired in
  let candidate n := if (0 <? n)%nat then stem +:+ "_" +:+ Z_str (Z.of_nat n) +:+ suffix else desired in
  match first_free (filename_taken sh) candidate max_attempts 0 with
  | Some c => c
  | None => stem +:+ "_" +:+ hex8 +:+ suffix
  end.

(** The INSERTs of an asset and its groups; the table refuses a taken file name,
    a group that does not exist and a group named twice. *)
Definition insert_asset (a : Asset) (is_global : bool) (uploader : uuid) (groups : list uuid) (slides : list SlideshowSlide) (sh : Shelf)
    : result exn Shelf :=
  if filename_taken sh (a_filename a) then Err IntegrityError
  else if negb (bool_decide (NoDup groups)) then Err IntegrityError
  else if negb (forallb (λ g, bool_decide (g ∈ sh_group_rows sh)) groups) then Err IntegrityError
  else
    let sh1 := set_rows (sh_assets sh ++ [a]) (sh_slides sh ++ slides) sh in
    let sh2 := set_links (sh_links sh ++ ((λ g, (g, a_id a)) <$> groups)) sh1 in
    Ok (mkShelf (sh_lib sh2) (if is_global then {[a_id a]} ∪ sh_global sh else sh_global sh) (<[a_id a := uploader]> (sh_uploader sh))
          (sh_description sh) (sh_tags sh) (sh_group_rows sh)).

(** ** The deck of a slideshow *)

Definition MAX_SLIDESHOW_SLIDES : nat := 50.

Definition has_clip (s : SlideIn) : bool := negb (bool_decide (default 0 (si_clip_start_ms s) = 0)) || bool_decide (is_Some (si_clip_duration_ms s)).

(** The loop body over the asset slides. *)
Definition check_source (s : SlideIn) (src : Asset) : result exn unit :=
  let bad := Err (HTTPException 400) in
  if negb (bool_decide (a_asset_type src ∈ [IMAGE; VIDEO; COMPOSED])) then bad
  else if bool_decide (a_asset_type src = COMPOSED) && bool_decide (is_Some (composed_unpublished_reason (Some src))) then bad
  else if si_play_to_end s && negb (bool_decide (a_asset_type src = VIDEO)) then bad
  else if has_clip s then
    if negb (bool_decide (a_asset_type src = VIDEO)) then bad
    else match a_duration_ms src with
         | None => bad
         | Some real_ms =>
             let start := default 0 (si_clip_start_ms s) in
             if real_ms <=? start then bad
             else match si_clip_duration_ms s with
                  | Some d => if real_ms <? start + d then bad else Ok tt
                  | None => Ok tt
                  end
         end
  else Ok tt.

Definition is_tag_slide (s : SlideIn) : bool := bool_decide (si_kind s = "tag").
(** [sources_by_id[s.source_asset_id]]. *)
Definition source_of (sh : Shelf) (s : SlideIn) : option Asset := aid ← si_source_asset_id s; live_asset aid sh.

Fixpoint check_sources (sh : Shelf) (slides : list SlideIn) : result exn unit :=
  match slides with
  | [] => Ok tt
  | s :: rest => match source_of sh s with
                 | None => Err (HTTPException 404)
                 | Some src => _ ← check_source s src; check_sources sh rest
                 end
  end.

(** The loaded rows and their groups are [source_of] and [groups_of] of the same
    transaction; what is returned is the list of the sources. *)
Definition _load_and_validate_slide_sources (slides : list SlideIn) (visible_ids : option (gset uuid)) (sh : Shelf) : result exn (list Asset) :=
  if bool_decide (slides = []) then Err (HTTPException 400)
  else if (MAX_SLIDESHOW_SLIDES <? length slides)%nat then Err (HTTPException 400)
  else
    let asset_slides := filter (λ s, is_tag_slide s = false) slides in
    let tag_slides := filter (λ s, is_tag_slide s = true) slides in
    if negb (forallb (λ s, match si_tag_id s with Some t => bool_decide (t ∈ sh_tags sh) | None => false end) tag_slides)
    then Err (HTTPException 404)
    else if negb (forallb (λ s, bool_decide (is_Some (source_of sh s))) asset_slides) then Err (HTTPException 404)
    else
      _ ← check_sources sh asset_slides;
      if match visible_ids with
         | None => false
         | Some v => negb (forallb (λ s, match si_source_asset_id s with Some aid => bool_decide (aid ∈ v) | None => false end) asset_slides)
         end then Err (HTTPException 403)
      else Ok (omap (source_of sh) asset_slides).

Definition _validate_slideshow_acl (slideshow_groups : gset uuid) (slideshow_global : bool) (sources : list Asset) (sh : Shelf) : result exn unit :=
  if slideshow_global then
    if forallb (λ a, bool_decide (a_id a ∈ sh_global sh)) sources then Ok tt else Err (HTTPException 400)
  else if bool_decide (slideshow_groups = ∅) then Ok tt
  else if forallb (λ a, bool_decide (a_id a ∈ sh_global sh) || bool_decide (slideshow_groups ⊆ groups_of (a_id a) sh)) sources
  then Ok tt else Err (HTTPException 400).

Definition _load_tag_members (sh : Shelf) (tag_id : uuid) : list (uuid * string) :=
  (λ t, (at_asset_id t, match find_asset (at_asset_id t) (sh_lib sh) with Some a => a_checksum a | None => "" end)) <$>
    sort_on tagged_first (filter (λ t, is_member (sh_media sh) tag_id t = true) (m_asset_tags (sh_media sh))).

(** The milliseconds of a member of a tag block, and of a slide. *)
Definition member_ms (sh : Shelf) (s : SlideIn) (member_id : uuid) : Z :=
  match find_asset member_id (sh_lib sh) with
  | Some a => match a_duration_ms a with
              | Some d => if bool_decide (a_asset_type a = VIDEO) && negb (d =? 0) then d else si_duration_ms s
              | None => si_duration_ms s
              end
  | None => si_duration_ms s
  end.
Definition slide_ms (sh : Shelf) (s : SlideIn) : Z :=
  if is_tag_slide s then
    match si_tag_id s with Some t => fold_left (λ ms m, ms + member_ms sh s m.1) (_load_tag_members sh t) 0 | None => 0 end
  else match source_of sh s with
       | Some src => match a_duration_ms src with
                     | Some d => if si_play_to_end s && bool_decide (a_asset_type src = VIDEO) && negb (d =? 0) then d else si_duration_ms s
                     | None => si_duration_ms s
                     end
       | None => si_duration_ms s
       end.
Definition _compute_slideshow_duration_ms (slides : list SlideIn) (sh : Shelf) : Z := fold_left (λ ms s, ms + slide_ms sh s) slides 0.

(** The text that is hashed, slide by slide. *)
Definition slide_text (sh : Shelf) (idx : nat) (s : SlideIn) : string :=
  let field x := x +:+ "|" in
  if is_tag_slide s then
    field (Z_str (Z.of_nat idx)) +:+ field "tag" +:+ field (default "None" (si_tag_id s)) +:+ field (si_tag_order_by s) +:+
    field (String.concat "," ((λ m, m.1 +:+ ":" +:+ m.2) <$> match si_tag_id s with Some t => _load_tag_members sh t | None => [] end)) +:+
    field (Z_str (si_duration_ms s)) +:+ field (si_transition s) +:+ field (Z_str (si_transition_ms s))
  else
    field (Z_str (Z.of_nat idx)) +:+ field (default "None" (si_source_asset_id s)) +:+
    field (match source_of sh s with Some a => a_checksum a | None => "" end) +:+ field (Z_str (si_duration_ms s)) +:+
    field (if si_play_to_end s then "1" else "0") +:+ field (si_transition s) +:+ field (Z_str (si_transition_ms s)).
Definition deck_text (sh : Shelf) (slides : list SlideIn) : string := String.concat "" (imap (slide_text sh) slides).

Definition _apply_slideshow_anchor (now : Z) (anchor : option Z) (slides : list SlideIn) : option Z :=
  if existsb is_tag_slide slides then match anchor with Some t => Some t | None => Some now end else None.

(** ** Editing slideshows *)

(** A slide as it is sent, with whether it carries a [kind]. *)
Definition deck_of (raw : list (bool * SlideIn)) : option (list SlideIn) := mapM (λ r, model_validate r.2) raw.

Section editing.
Context (sha256 : string → string) (now : Z) (uid : uuid) (user : User) (adb : AuthDb).

Definition create_slideshow_asset (aid : uuid) (hex8 name : string) (raw_slides : list (bool * SlideIn)) (raw_ids : list string) (shuffle : bool)
    (sh : Shelf) : result exn Shelf :=
  let name := str_strip name in
  if bool_decide (name = "") then Err (HTTPException 400)
  else if (200 <? String.length name)%nat then Err (HTTPException 400)
  else match deck_of raw_slides with
  | None => Err (HTTPException 400)
  | Some slides =>
      visible ← _visible_asset_ids uid user adb sh;
      sources ← (if bool_decide (slides = []) then Ok [] else _load_and_validate_slide_sources slides visible sh);
      user_groups ← get_user_group_ids uid user adb;
      resolved ← resolve_groups user_groups raw_ids;
      let is_admin := bool_decide (user_groups = None) in
      let make_global := bool_decide (resolved = []) && is_admin && negb (bool_decide (slides = [])) in
      _ ← _validate_slideshow_acl (list_to_set resolved) make_global sources sh;
      insert_asset
        (mkAsset aid (_unique_filename hex8 name 1000 sh) None None SLIDESHOW 0 (sha256 (deck_text sh slides)) None
           (Some (_compute_slideshow_duration_ms slides sh)) shuffle (_apply_slideshow_anchor now None slides) None)
        make_global uid resolved (imap (_slide_row aid) slides) sh
  end.

(** An administrator or the uploader. *)
Definition may_edit (user_groups : option (gset uuid)) (aid : uuid) (sh : Shelf) : bool :=
  bool_decide (user_groups = None) || bool_decide (sh_uploader sh !! aid = Some uid).

Definition _load_slideshow_for_write (aid : uuid) (sh : Shelf) : result exn Asset :=
  _ ← _verify_asset_access uid user adb aid sh;
  match live_asset aid sh with
  | None => Err (HTTPException 404)
  | Some asset =>
      if negb (bool_decide (a_asset_type asset = SLIDESHOW)) then Err (HTTPException 400)
      else user_groups ← get_user_group_ids uid user adb;
           if may_edit user_groups aid sh then Ok asset else Err (HTTPException 403)
  end.

Definition with_deck (duration_ms : Z) (checksum : string) (shuffle : bool) (anchor : option Z) (a : Asset) : Asset :=
  mkAsset (a_id a) (a_filename a) (a_original_filename a) (a_display_name a) (a_asset_type a) (a_size_bytes a) checksum (a_url a)
    (Some duration_ms) shuffle anchor (a_deleted_at a).
Definition update_asset_row (aid : uuid) (f : Asset → Asset) (sh : Shelf) : list Asset :=
  (λ a, if bool_decide (a_id a = aid) then f a else a) <$> sh_assets sh.
Definition slides_of (aid : uuid) (sh : Shelf) : list SlideshowSlide := filter (λ r, sl_slideshow_asset_id r = aid) (sh_slides sh).
Definition is_tag_row (r : SlideshowSlide) : bool := match sl_kind r with K_TAG _ => true | K_ASSET _ => false end.

Definition replace_slideshow_slides (aid : uuid) (raw_slides : list (bool * SlideIn)) (shuffle : option bool) (sh : Shelf) : result exn Shelf :=
  asset ← _load_slideshow_for_write aid sh;
  match deck_of raw_slides with
  | None => Err (HTTPException 400)
  | Some slides =>
      if negb (bool_decide (raw_slides = [])) && negb (existsb fst raw_slides) && existsb is_tag_row (slides_of aid sh)
      then Err (HTTPException 409)
      else
        visible ← _visible_asset_ids uid user adb sh;
        sources ← _load_and_validate_slide_sources slides visible sh;
        _ ← _validate_slideshow_acl (groups_of aid sh) (bool_decide (aid ∈ sh_global sh)) sources sh;
        Ok (set_rows
              (update_asset_row aid (with_deck (_compute_slideshow_duration_ms slides sh) (sha256 (deck_text sh slides))
                 (default (a_shuffle asset) shuffle) (_apply_slideshow_anchor now (a_slideshow_anchor_at asset) slides)) sh)
              (filter (λ r, sl_slideshow_asset_id r ≠ aid) (sh_slides sh) ++ imap (_slide_row aid) slides) sh)
  end.

(** ** Sharing *)

(** The distinct sources of a deck that are still there. *)
Definition deck_sources (aid : uuid) (sh : Shelf) : list Asset :=
  omap (λ r, src ← slide_source r; live_asset src sh) (slides_of aid sh).

Definition _revalidate_slideshow_audience (aid : uuid) (sh : Shelf) : result exn unit :=
  let sources := deck_sources aid sh in
  if bool_decide (aid ∈ sh_global sh) then
    if forallb (λ a, bool_decide (a_id a ∈ sh_global sh)) sources then Ok tt else Err (HTTPException 409)
  else if bool_decide (groups_of aid sh = ∅) then Ok tt
  else if forallb (λ a, bool_decide (a_id a ∈ sh_global sh) || bool_decide (groups_of aid sh ⊆ groups_of (a_id a) sh)) sources
  then Ok tt else Err (HTTPException 409).

(** Scoped users only touch groups they belong to. *)
Definition in_groups (user_groups : option (gset uuid)) (gid : uuid) : bool :=
  match user_groups with None => true | Some gs => bool_decide (gid ∈ gs) end.

Definition share_asset (aid gid : uuid) (sh : Shelf) : result exn Shelf :=
  match live_asset aid sh with
  | None => Err (HTTPException 404)
  | Some asset =>
      _ ← _verify_asset_access uid user adb aid sh;
      if negb (bool_decide (gid ∈ sh_group_rows sh)) then Err (HTTPException 404)
      else
        user_groups ← get_user_group_ids uid user adb;
        if negb (in_groups user_groups gid) then Err (HTTPException 403)
        else if bool_decide ((gid, aid) ∈ sh_links sh) then Ok sh
        else
          let sh1 := set_links (sh_links sh ++ [(gid, aid)]) sh in
          _ ← (if bool_decide (a_asset_type asset = SLIDESHOW) then _revalidate_slideshow_audience aid sh1 else Ok tt);
          Ok sh1
  end.

(** The live slideshows that show the asset and satisfy [p]. *)
Definition blocking_slideshows (p : Asset → bool) (aid : uuid) (sh : Shelf) : list Asset :=
  filter (λ a, a_deleted_at a = None ∧ p a = true ∧ existsb (λ r, references aid r && bool_decide (sl_slideshow_asset_id r = a_id a)) (sh_slides sh) = true)
    (sh_assets sh).

Definition unshare_asset (aid gid : uuid) (sh : Shelf) : result exn Shelf :=
  _ ← _verify_asset_access uid user adb aid sh;
  user_groups ← get_user_group_ids uid user adb;
  if negb (in_groups user_groups gid) then Err (HTTPException 403)
  else if negb (bool_decide ((gid, aid) ∈ sh_links sh)) then Err (HTTPException 404)
  else
    let in_group a := bool_decide ((gid, a_id a) ∈ sh_links sh) && negb (bool_decide (a_id a ∈ sh_global sh)) in
    if bool_decide (blocking_slideshows in_group aid sh = []) then Ok (set_links (filter (λ ga, ga ≠ (gid, aid)) (sh_links sh)) sh)
    else Err (HTTPException 409).

Definition toggle_asset_global (aid : uuid) (sh : Shelf) : result exn Shelf :=
  _ ← _verify_asset_access uid user adb aid sh;
  match live_asset aid sh with
  | None => Err (HTTPException 404)
  | Some asset =>
      let is_global := bool_decide (aid ∈ sh_global sh) in
      if is_global && bool_decide (a_asset_type asset = IMAGE ∨ a_asset_type asset = VIDEO) &&
         negb (bool_decide (blocking_slideshows (λ a, bool_decide (a_id a ∈ sh_global sh)) aid sh = []))
      then Err (HTTPException 409)
      else if is_global then Ok (with_global (sh_global sh ∖ {[aid]}) sh)
      else
        let sh1 := with_global ({[aid]} ∪ sh_global sh) sh in
        _ ← (if bool_decide (a_asset_type asset = SLIDESHOW) then _revalidate_slideshow_audience aid sh1 else Ok tt);
        Ok sh1
  end.
(** ** Deletion, tags and the bulk endpoint *)

Definition delete_asset_endpoint (aid : uuid) (sh : Shelf) : result exn Shelf :=
  match live_asset aid sh with
  | None => Err (HTTPException 404)
  | Some _ =>
      user_groups ← get_user_group_ids uid user adb;
      lib ← delete_asset now (match user_groups with None => None | Some _ => Some (bool_decide (sh_uploader sh !! aid = Some uid)) end) aid (sh_lib sh);
      Ok (with_lib lib sh)
  end.

Definition tagged_with (aid tid : uuid) (t : AssetTag) : bool := bool_decide (at_asset_id t = aid ∧ at_tag_id t = tid).

(** [row_id]: the id of the link. *)
Definition add_tag (row_id aid tid : uuid) (sh : Shelf) : result exn Shelf :=
  if bool_decide (live_asset aid sh = None) then Err (HTTPException 404)
  else
    _ ← _verify_asset_access uid user adb aid sh;
    if existsb (tagged_with aid tid) (m_asset_tags (sh_media sh)) then Ok sh
    else Ok (set_asset_tags (m_asset_tags (sh_media sh) ++ [mkAssetTag row_id aid tid now]) sh).
Definition remove_tag (aid tid : uuid) (sh : Shelf) : result exn Shelf :=
  if bool_decide (live_asset aid sh = None) then Err (HTTPException 404)
  else
    _ ← _verify_asset_access uid user adb aid sh;
    Ok (set_asset_tags (filter (λ t, tagged_with aid tid t = false) (m_asset_tags (sh_media sh))) sh).

(** Toggles only when the current state differs. *)
Definition set_global (value : bool) (aid : uuid) (sh : Shelf) : result exn Shelf :=
  if bool_decide (live_asset aid sh = None) then Err (HTTPException 404)
  else if bool_decide (bool_decide (aid ∈ sh_global sh) = value) then Ok sh
  else toggle_asset_global aid sh.

Inductive BulkAction :=
  | B_DELETE | B_ADD_GROUP (group_id : option uuid) | B_REMOVE_GROUP (group_id : option uuid)
  | B_SET_GLOBAL (is_global : option bool) | B_ADD_TAG (tag_id : option uuid) | B_REMOVE_TAG (tag_id : option uuid).

(** The request-level checks; what remains is one operation per asset. *)
Definition bulk_action (fresh : uuid → uuid) (act : BulkAction) (sh : Shelf) : result exn (uuid → Shelf → result exn Shelf) :=
  match act with
  | B_DELETE => Ok delete_asset_endpoint
  | B_ADD_GROUP (Some g) => Ok (λ aid, share_asset aid g)
  | B_REMOVE_GROUP (Some g) => Ok (λ aid, unshare_asset aid g)
  | B_ADD_TAG (Some t) => if bool_decide (t ∈ sh_tags sh) then Ok (λ aid, add_tag (fresh aid) aid t) else Err (HTTPException 404)
  | B_REMOVE_TAG (Some t) => if bool_decide (t ∈ sh_tags sh) then Ok (λ aid, remove_tag aid t) else Err (HTTPException 404)
  | B_SET_GLOBAL (Some b) =>
      user_groups ← get_user_group_ids uid user adb;
      if bool_decide (user_groups = None) then Ok (set_global b) else Err (HTTPException 403)
  | _ => Err (HTTPException 400)
  end.

(** An [HTTPException] is noted and its work rolled back; any other exception ends the loop. *)
Fixpoint bulk_loop (op : uuid → Shelf → result exn Shelf) (ids : list uuid) (sh : Shelf) (succeeded : list uuid) (failed : list (uuid * Z))
    : Shelf * result exn (list uuid * list (uuid * Z)) :=
  match ids with
  | [] => (sh, Ok (succeeded, failed))
  | aid :: rest =>
      match op aid sh with
      | Ok sh' => bulk_loop op rest sh' (succeeded ++ [aid]) failed
      | Err (HTTPException status) => bulk_loop op rest sh succeeded (failed ++ [(aid, status)])
      | Err e => (sh, Err e)
      end
  end.

(** The first occurrence of every id, in order. *)
Fixpoint dedupe (seen : gset uuid) (ids : list uuid) : list uuid :=
  match ids with
  | [] => []
  | a :: rest => if bool_decide (a ∈ seen) then dedupe seen rest else a :: dedupe ({[a]} ∪ seen) rest
  end.

Definition bulk_assets (fresh : uuid → uuid) (act : BulkAction) (asset_ids : list uuid) (sh : Shelf)
    : Shelf * result exn (list uuid * list (uuid * Z)) :=
  match bulk_action fresh act sh with
  | Err e => (sh, Err e)
  | Ok op => bulk_loop op (dedupe ∅ asset_ids) sh [] []
  end.
End editing.

(** ** The tables are consistent *)

Record shelf_ok (sh : Shelf) : Prop := mkShelfOk {
  so_ids : NoDup (a_id <$> sh_assets sh);
  so_names : NoDup (a_filename <$> sh_assets sh);
  so_links : ∀ ga, ga ∈ sh_links sh → ga.2 ∈ a_id <$> sh_assets sh;
  so_decks : ∀ r, r ∈ sh_slides sh → ∃ a, a ∈ sh_assets sh ∧ a_id a = sl_slideshow_asset_id r ∧ a_asset_type a = SLIDESHOW;
  so_sources : ∀ r src, r ∈ sh_slides sh → slide_source r = Some src →
    ∃ a, a ∈ sh_assets sh ∧ a_id a = src ∧ a_asset_type a ∈ [IMAGE; VIDEO; COMPOSED];
  so_global : ∀ i, i ∈ sh_global sh → i ∈ a_id <$> sh_assets sh
}.

(** The audience of [src] contains that of the deck [show]. *)
Definition covered (show src : uuid) (sh : Shelf) : Prop :=
  src ∈ sh_global sh ∨ (show ∉ sh_global sh ∧ groups_of show sh ⊆ groups_of src sh).

Definition is_live_id (aid : uuid) (sh : Shelf) : Prop := is_Some (live_asset aid sh).

(** The rule of [_validate_slideshow_acl], for every deck and source that is not deleted. *)
Definition audience_ok (sh : Shelf) : Prop :=
  ∀ r src, r ∈ sh_slides sh → slide_source r = Some src →
    is_live_id (sl_slideshow_asset_id r) sh → is_live_id src sh → covered (sl_slideshow_asset_id r) src sh.

Lemma find_asset_spec aid sh a : shelf_ok sh → find_asset aid (sh_lib sh) = Some a ↔ a ∈ sh_assets sh ∧ a_id a = aid.
Proof. intros H. apply find_key_spec, so_ids, H. Qed.

Lemma live_asset_spec aid sh a : shelf_ok sh → live_asset aid sh = Some a ↔ a ∈ sh_assets sh ∧ a_id a = aid ∧ a_deleted_at a = None.
Proof.
  intros H. unfold live_asset. destruct (find_asset aid (sh_lib sh)) as [b|] eqn:E; simpl.
  - apply find_asset_spec in E as [Hb Hid]; [|done]. case_bool_decide as D.
    + split; [intros [= ->]; done|]. intros (Ha & Hi & _). f_equal. symmetry.
      assert (F : find_asset aid (sh_lib sh) = Some a) by by apply find_asset_spec.
      assert (G : find_asset aid (sh_lib sh) = Some b) by by apply find_asset_spec. congruence.
    + split; [done|]. intros (Ha & Hi & Hd). exfalso.
      assert (F : find_asset aid (sh_lib sh) = Some a) by by apply find_asset_spec.
      assert (G : find_asset aid (sh_lib sh) = Some b) by by apply find_asset_spec. congruence.
  - split; [done|]. intros (Ha & Hi & Hd). exfalso.
    assert (F : find_asset aid (sh_lib sh) = Some a) by by apply find_asset_spec. congruence.
Qed.

Lemma elem_of_group_links g aid sh : g ∈ groups_of aid sh ↔ (g, aid) ∈ sh_links sh.
Proof.
  unfold groups_of. rewrite elem_of_list_to_set, list_elem_of_fmap. split.
  - intros ([g' a] & -> & [Ha Hl]%list_elem_of_filter). simpl in *. by subst.
  - intros H. exists (g, aid). rewrite list_elem_of_filter. done.
Qed.


(** What later operations may do without touching the rule. *)
Lemma audience_mono sh sh' :
  audience_ok sh → (∀ r, r ∈ sh_slides sh' → r ∈ sh_slides sh) → (∀ i, is_live_id i sh' → is_live_id i sh) →
  (∀ show src, covered show src sh → covered show src sh') → audience_ok sh'.
Proof. intros H Hs Hl Hc r src Hr Hsrc H1 H2. apply Hc, H; eauto. Qed.

(** ** A new row *)

Section insert.
Context (a : Asset) (g : bool) (u : uuid) (groups : list uuid) (slides : list SlideshowSlide) (sh sh' : Shelf).
Hypothesis W : shelf_ok sh.
Hypothesis E : insert_asset a g u groups slides sh = Ok sh'.
Hypothesis Hfresh : a_id a ∉ a_id <$> sh_assets sh.

Lemma insert_rows :
  sh_assets sh' = sh_assets sh ++ [a] ∧ sh_slides sh' = sh_slides sh ++ slides ∧
  sh_links sh' = sh_links sh ++ ((λ g, (g, a_id a)) <$> groups) ∧
  sh_global sh' = (if g then {[a_id a]} ∪ sh_global sh else sh_global sh) ∧ a_filename a ∉ a_filename <$> sh_assets sh.
Proof.
  unfold insert_asset in E. destruct (filename_taken sh _) eqn:T; [done|]. destruct (negb _); [done|].
  destruct (negb (forallb _ _)); [done|]. injection E as <-. split_and!; try done.
  intros (b & Eb & Hb)%list_elem_of_fmap. apply not_true_iff_false in T. apply T, existsb_exists. exists b.
  rewrite bool_decide_eq_true. split; [by apply list_elem_of_In|done].
Qed.

Lemma insert_find i : i ≠ a_id a → find_asset i (sh_lib sh') = find_asset i (sh_lib sh).
Proof.
  destruct insert_rows as (Ha & _). intros Hi. unfold find_asset. change (lb_assets (sh_lib sh')) with (sh_assets sh').
  rewrite Ha. apply (find_key_app a_id). done.
Qed.

Lemma insert_groups i : i ≠ a_id a → groups_of i sh' = groups_of i sh.
Proof.
  destruct insert_rows as (_ & _ & Hl & _). intros Hi. apply set_eq. intros x. rewrite !elem_of_group_links, Hl, elem_of_app.
  split; [intros [?|(y & [= -> ->] & _)%list_elem_of_fmap]; done|auto].
Qed.

Lemma insert_groups_new x : x ∈ groups_of (a_id a) sh' ↔ x ∈ groups.
Proof.
  destruct insert_rows as (_ & _ & Hl & _). rewrite elem_of_group_links, Hl, elem_of_app, list_elem_of_fmap. split.
  - intros [Hin|(y & [= ->] & Hy)]; [|done]. exfalso. by apply Hfresh, (so_links sh W _ Hin).
  - intros Hx. right. by exists x.
Qed.

Lemma insert_covered show src : show ≠ a_id a → src ≠ a_id a → covered show src sh → covered show src sh'.
Proof.
  destruct insert_rows as (_ & _ & _ & Hg & _). intros H1 H2. unfold covered.
  rewrite !insert_groups, Hg by done. destruct g; rewrite ?elem_of_union, ?elem_of_singleton; naive_solver.
Qed.

Lemma insert_live i : i ≠ a_id a → is_live_id i sh' ↔ is_live_id i sh.
Proof. intros Hi. unfold is_live_id, live_asset. by rewrite insert_find. Qed.

Hypothesis Hshow : ∀ r, r ∈ slides → sl_slideshow_asset_id r = a_id a ∧ a_asset_type a = SLIDESHOW.
Hypothesis Hsrc : ∀ r src, r ∈ slides → slide_source r = Some src →
  ∃ b, live_asset src sh = Some b ∧ a_asset_type b ∈ [IMAGE; VIDEO; COMPOSED] ∧
       (src ∈ sh_global sh ∨ (g = false ∧ list_to_set groups ⊆ groups_of src sh)).

Lemma old_source r src : r ∈ sh_slides sh → slide_source r = Some src → src ≠ a_id a.
Proof. intros Hr Hs ->. destruct (so_sources sh W _ _ Hr Hs) as (b & Hb & Hid & _). apply Hfresh. rewrite <-Hid. by apply list_elem_of_fmap_2. Qed.
Lemma old_show r : r ∈ sh_slides sh → sl_slideshow_asset_id r ≠ a_id a.
Proof. intros Hr H. destruct (so_decks sh W _ Hr) as (b & Hb & Hid & _). apply Hfresh. rewrite <-H, <-Hid. by apply list_elem_of_fmap_2. Qed.

Lemma insert_audience : audience_ok sh → audience_ok sh'.
Proof.
  destruct insert_rows as (_ & Hs & _ & Hg & _). intros A r src Hr Hsr Hlive1 Hlive2.
  rewrite Hs, elem_of_app in Hr. destruct Hr as [Hr|Hr].
  - pose proof (old_source _ _ Hr Hsr) as N1. pose proof (old_show _ Hr) as N2. apply insert_covered; [done|done|].
    rewrite !insert_live in * by done. by apply A.
  - destruct (Hshow _ Hr) as [-> _]. destruct (Hsrc _ _ Hr Hsr) as (b & Hb & _ & Hc).
    assert (N : src ≠ a_id a).
    { intros ->. apply live_asset_spec in Hb as (Hb & Hid & _); [|done]. apply Hfresh. rewrite <-Hid. by apply list_elem_of_fmap_2. }
    unfold covered. rewrite Hg. destruct Hc as [Hc|[Hgf Hc]].
    + left. destruct g; set_solver.
    + destruct (decide (src ∈ sh_global sh)) as [?|]; [left; destruct g; set_solver|]. right. rewrite Hgf. split.
      * intros Hin. apply Hfresh, (so_global sh W), Hin.
      * intros x Hx. rewrite insert_groups by done. apply Hc, elem_of_list_to_set. by apply insert_groups_new.
Qed.

Lemma insert_ok : shelf_ok sh'.
Proof.
  destruct insert_rows as (Ha & Hs & Hl & Hg & Hn). destruct W as [W1 W2 W3 W4 W5 W6]. split; rewrite ?Ha, ?Hs, ?Hl, ?Hg, ?fmap_app.
  - apply NoDup_app. split_and!; [done|set_solver|apply NoDup_singleton].
  - apply NoDup_app. split_and!; [done|set_solver|apply NoDup_singleton].
  - intros ga [Hin|(y & -> & _)%list_elem_of_fmap]%elem_of_app; apply elem_of_app; [left; by apply W3|right; by apply list_elem_of_singleton].
  - intros r [Hr|Hr]%elem_of_app.
    + destruct (W4 _ Hr) as (b & ? & ?). exists b. rewrite elem_of_app. auto.
    + destruct (Hshow _ Hr). exists a. rewrite elem_of_app, list_elem_of_singleton. auto.
  - intros r src [Hr|Hr]%elem_of_app Hsr.
    + destruct (W5 _ _ Hr Hsr) as (b & ? & ?). exists b. rewrite elem_of_app. auto.
    + destruct (Hsrc _ _ Hr Hsr) as (b & Hb & Ht & _). apply live_asset_spec in Hb as (? & ? & _); [|by split].
      exists b. rewrite elem_of_app. auto.
  - intros i Hi. apply elem_of_app. destruct g; [apply elem_of_union in Hi as [->%elem_of_singleton|Hi]|]; [right|left|left]; auto.
    by apply list_elem_of_singleton.
Qed.
End insert.

(** ** What the checks of a deck establish *)

(** A slide that shows an asset: it is live, of a type that can be shown, published, and its clip lies within it. *)
Definition slide_sound (sh : Shelf) (s : SlideIn) (a : Asset) : Prop :=
  source_of sh s = Some a ∧ a_asset_type a ∈ [IMAGE; VIDEO; COMPOSED] ∧ composed_unpublished_reason (Some a) = None ∧
  (si_play_to_end s = true → a_asset_type a = VIDEO) ∧
  (has_clip s = true → a_asset_type a = VIDEO ∧ ∃ real_ms, a_duration_ms a = Some real_ms ∧
     default 0 (si_clip_start_ms s) < real_ms ∧ ∀ d, si_clip_duration_ms s = Some d → default 0 (si_clip_start_ms s) + d ≤ real_ms).


Lemma check_source_sound sh s a : source_of sh s = Some a → check_source s a = Ok tt → slide_sound sh s a.
Proof.
  intros Hs. unfold check_source. destruct (negb _) eqn:H1; [done|]. destruct (_ && _) eqn:H2; [done|].
  destruct (si_play_to_end s && _) eqn:H3; [done|]. intros H. bool_to_prop. split_and!; [done|done| | |].
  - destruct (decide (a_asset_type a = COMPOSED)) as [C|C].
    + rewrite (bool_decide_true _ C) in H2. simpl in H2. bool_to_prop. by apply eq_None_not_Some.
    + unfold composed_unpublished_reason. by rewrite bool_decide_false.
  - intros P. rewrite P in H3. simpl in H3. by bool_to_prop.
  - intros C. rewrite C in H. destruct (negb (bool_decide (a_asset_type a = VIDEO))) eqn:V; [done|]. bool_to_prop. split; [done|].
    destruct (a_duration_ms a) as [real|]; [|done]. exists real. split; [done|].
    destruct (real <=? _) eqn:L; [done|]. bool_to_prop. split; [done|]. intros d Hd. rewrite Hd in H.
    destruct (real <? _) eqn:K; [done|]. by bool_to_prop.
Qed.

Lemma check_sources_sound sh l : check_sources sh l = Ok tt → ∀ s, s ∈ l → ∃ a, slide_sound sh s a.
Proof.
  induction l as [|x l IH]; simpl; intros H s Hin; [by apply elem_of_nil in Hin|].
  destruct (source_of sh x) as [src|] eqn:Hx; [|done]. apply result_bind_ok in H as ([] & H1 & H2).
  apply elem_of_cons in Hin as [->|Hin]; [exists src; by apply check_source_sound|by apply IH].
Qed.

Lemma load_sources_sound slides visible sh sources :
  _load_and_validate_slide_sources slides visible sh = Ok sources →
  (slides ≠ [] ∧ (length slides ≤ MAX_SLIDESHOW_SLIDES)%nat) ∧
  ∀ s, s ∈ slides → is_tag_slide s = false →
    ∃ a, slide_sound sh s a ∧ a ∈ sources ∧ ∀ v aid, visible = Some v → si_source_asset_id s = Some aid → aid ∈ v.
Proof.
  unfold _load_and_validate_slide_sources. destruct (bool_decide (slides = [])) eqn:B0; [done|].
  destruct (_ <? _)%nat eqn:B1; [done|]. destruct (negb (forallb _ _)); [done|]. destruct (negb (forallb _ _)); [done|].
  intros ([] & Hc & H)%result_bind_ok. bool_to_prop. apply Nat.ltb_ge in B1. split; [done|]. intros s Hs Ht.
  assert (Hin : s ∈ filter (λ s, is_tag_slide s = false) slides) by by apply list_elem_of_filter.
  destruct (check_sources_sound _ _ Hc s Hin) as [a Ha]. exists a. split; [done|].
  destruct (match visible with Some _ => _ | None => _ end) eqn:V in H; [done|]. injection H as <-. split.
  - apply list_elem_of_omap. exists s. split; [done|]. apply Ha.
  - intros v aid -> Haid. apply negb_false_iff in V. rewrite forallb_forall in V.
    specialize (V s ltac:(by apply list_elem_of_In)). rewrite Haid in V. by apply bool_decide_eq_true in V.
Qed.

Lemma acl_sound groups g sources sh a :
  _validate_slideshow_acl groups g sources sh = Ok tt → a ∈ sources →
  a_id a ∈ sh_global sh ∨ (g = false ∧ groups ⊆ groups_of (a_id a) sh).
Proof.
  unfold _validate_slideshow_acl. intros H Ha. destruct g.
  - destruct (forallb _ _) eqn:F in H; [|done]. rewrite forallb_forall in F.
    specialize (F a ltac:(by apply list_elem_of_In)). left. by apply bool_decide_eq_true in F.
  - destruct (bool_decide (groups = ∅)) eqn:G; [apply bool_decide_eq_true in G as ->; right; split; [done|set_solver]|].
    destruct (forallb _ _) eqn:F in H; [|done]. rewrite forallb_forall in F.
    specialize (F a ltac:(by apply list_elem_of_In)). apply orb_true_iff in F as [F|F]; apply bool_decide_eq_true in F; auto.
Qed.

Lemma slide_row_spec show idx s :
  sl_slideshow_asset_id (_slide_row show idx s) = show ∧
  slide_source (_slide_row show idx s) = if is_tag_slide s then None else si_source_asset_id s.
Proof. unfold _slide_row, is_tag_slide. by destruct (bool_decide _). Qed.

Lemma deck_row_in show slides r : r ∈ imap (_slide_row show) slides → ∃ idx s, s ∈ slides ∧ r = _slide_row show idx s.
Proof.
  intros [n Hr]%list_elem_of_lookup. rewrite list_lookup_imap in Hr. destruct (slides !! n) as [s|] eqn:E; simplify_eq/=.
  exists n, s. split; [by eapply list_elem_of_lookup_2|done].
Qed.

(** The rows of a checked deck show live assets that cover its audience. *)
Lemma deck_rows_sound show slides visible sources groups g sh r src :
  shelf_ok sh → (_load_and_validate_slide_sources slides visible sh = Ok sources ∨ (slides = [] ∧ sources = [])) →
  _validate_slideshow_acl groups g sources sh = Ok tt →
  r ∈ imap (_slide_row show) slides → slide_source r = Some src →
  ∃ b, live_asset src sh = Some b ∧ a_asset_type b ∈ [IMAGE; VIDEO; COMPOSED] ∧
       (src ∈ sh_global sh ∨ (g = false ∧ groups ⊆ groups_of src sh)).
Proof.
  intros W HL HA (idx & s & Hs & ->)%deck_row_in Hsrc. rewrite (proj2 (slide_row_spec _ _ _)) in Hsrc.
  destruct (is_tag_slide s) eqn:T; [done|]. destruct HL as [HL|[-> _]]; [|by apply elem_of_nil in Hs].
  destruct (proj2 (load_sources_sound _ _ _ _ HL) s Hs T) as (a & (H1 & H2 & _) & Ha & _). exists a.
  unfold source_of in H1. rewrite Hsrc in H1. simpl in H1. split; [done|]. split; [done|].
  pose proof (acl_sound _ _ _ _ _ HA Ha) as HC. apply live_asset_spec in H1 as (_ & <- & _); done.
Qed.

(** ** Every operation keeps the rule *)

Section operations.
Context (sha256 : string → string) (now : Z) (uid : uuid) (user : User) (adb : AuthDb).

Lemma create_slideshow_keeps aid hex8 name raw raw_ids shuffle sh sh' :
  create_slideshow_asset sha256 now uid user adb aid hex8 name raw raw_ids shuffle sh = Ok sh' →
  aid ∉ a_id <$> sh_assets sh → shelf_ok sh → audience_ok sh → shelf_ok sh' ∧ audience_ok sh'.
Proof.
  unfold create_slideshow_asset. intros H Hf W A. destruct (bool_decide (str_strip name = "")); [done|].
  destruct (_ <? _)%nat; [done|]. destruct (deck_of raw) as [slides|]; [|done].
  apply result_bind_ok in H as (visible & _ & H). apply result_bind_ok in H as (sources & HL & H).
  apply result_bind_ok in H as (ug & _ & H). apply result_bind_ok in H as (resolved & _ & H).
  apply result_bind_ok in H as ([] & HA & H).
  assert (HL' : _load_and_validate_slide_sources slides visible sh = Ok sources ∨ (slides = [] ∧ sources = [])).
  { destruct (bool_decide (slides = [])) eqn:B; [right|by left]. apply bool_decide_eq_true in B. by injection HL as <-. }
  assert (Hsh : ∀ r, r ∈ imap (_slide_row aid) slides → sl_slideshow_asset_id r = aid).
  { intros r (i & s & _ & ->)%deck_row_in. apply slide_row_spec. }
  pose proof (λ r src, deck_rows_sound aid slides visible sources _ _ sh r src W HL' HA) as Hsrc.
  split; [eapply insert_ok|eapply insert_audience]; eauto.
Qed.

(** Assignments to columns of one row that are neither its id, its type nor its deletion. *)
Definition keeps_identity (f : Asset → Asset) : Prop :=
  ∀ a, a_id (f a) = a_id a ∧ a_asset_type (f a) = a_asset_type a ∧ a_deleted_at (f a) = a_deleted_at a.

Lemma update_row_ids aid f sh : keeps_identity f → a_id <$> update_asset_row aid f sh = a_id <$> sh_assets sh.
Proof.
  intros Hf. unfold update_asset_row. rewrite <-list_fmap_compose.
  apply list_fmap_ext; intros i x _; simpl; destruct (bool_decide _); [apply Hf|done].
Qed.
Lemma update_row_names aid f sh : (∀ a, a_filename (f a) = a_filename a) → shelf_ok sh → NoDup (a_filename <$> update_asset_row aid f sh).
Proof.
  intros Hf W. replace (a_filename <$> update_asset_row aid f sh) with (a_filename <$> sh_assets sh); [apply W|].
  unfold update_asset_row. rewrite <-list_fmap_compose. apply list_fmap_ext; intros i x _; simpl. by destruct (bool_decide _); rewrite ?Hf.
Qed.

Lemma update_row_elem aid f sh a : keeps_identity f → a ∈ sh_assets sh →
  ∃ b, b ∈ update_asset_row aid f sh ∧ a_id b = a_id a ∧ a_asset_type b = a_asset_type a.
Proof.
  intros Hf Ha. exists (if bool_decide (a_id a = aid) then f a else a). split; [unfold update_asset_row; apply list_elem_of_fmap; by exists a|].
  destruct (bool_decide _); [|done]. split; apply Hf.
Qed.

Lemma update_row_live aid f slides sh i : keeps_identity f →
  is_live_id i (set_rows (update_asset_row aid f sh) slides sh) ↔ is_live_id i sh.
Proof.
  intros Hf. unfold is_live_id, live_asset, find_asset.
  change (lb_assets (sh_lib (set_rows (update_asset_row aid f sh) slides sh))) with (update_asset_row aid f sh).
  unfold update_asset_row. rewrite (find_key_map a_id) by (intros x; destruct (bool_decide _); [apply Hf|done]).
  change (lb_assets (sh_lib sh)) with (sh_assets sh). destruct (snd <$> list_find _ (sh_assets sh)) as [a|]; simpl; [|done].
  assert (Hd : a_deleted_at (if bool_decide (a_id a = aid) then f a else a) = a_deleted_at a) by (destruct (bool_decide _); [apply Hf|done]).
  rewrite Hd. destruct (bool_decide (a_deleted_at a = None)); split; intros [? ?]; by eauto.
Qed.

Lemma update_rows_ok aid f slides sh :
  keeps_identity f → NoDup (a_filename <$> update_asset_row aid f sh) → shelf_ok sh →
  (∀ r, r ∈ slides → r ∈ sh_slides sh ∨
     ((∃ a, a ∈ sh_assets sh ∧ a_id a = sl_slideshow_asset_id r ∧ a_asset_type a = SLIDESHOW) ∧
      ∀ src, slide_source r = Some src → ∃ a, a ∈ sh_assets sh ∧ a_id a = src ∧ a_asset_type a ∈ [IMAGE; VIDEO; COMPOSED])) →
  shelf_ok (set_rows (update_asset_row aid f sh) slides sh).
Proof.
  intros Hf Hn [W1 W2 W3 W4 W5 W6] Hs. pose proof (update_row_ids aid f sh Hf) as E1.
  split; change (sh_assets (set_rows (update_asset_row aid f sh) slides sh)) with (update_asset_row aid f sh);
    change (sh_slides (set_rows (update_asset_row aid f sh) slides sh)) with slides; rewrite ?E1; try done.
  - intros r Hr. assert (HH : ∃ a, a ∈ sh_assets sh ∧ a_id a = sl_slideshow_asset_id r ∧ a_asset_type a = SLIDESHOW)
      by (destruct (Hs r Hr) as [?|[? _]]; auto).
    destruct HH as (a & Ha & <- & Ht). destruct (update_row_elem aid f sh a Hf Ha) as (b & ? & ? & ?). exists b. split_and!; congruence || done.
  - intros r src Hr Hsr. assert (HH : ∃ a, a ∈ sh_assets sh ∧ a_id a = src ∧ a_asset_type a ∈ [IMAGE; VIDEO; COMPOSED])
      by (destruct (Hs r Hr) as [?|[_ ?]]; eauto).
    destruct HH as (a & Ha & <- & Ht). destruct (update_row_elem aid f sh a Hf Ha) as (b & ? & ? & Hb). exists b. rewrite Hb. done.
Qed.

Lemma load_for_write_spec aid sh a :
  _load_slideshow_for_write uid user adb aid sh = Ok a → live_asset aid sh = Some a ∧ a_asset_type a = SLIDESHOW ∧
    ∃ ug, get_user_group_ids uid user adb = Ok ug ∧ (ug = None ∨ sh_uploader sh !! aid = Some uid).
Proof.
  unfold _load_slideshow_for_write. intros ([] & _ & H)%result_bind_ok. destruct (live_asset aid sh) as [x|]; [|done].
  destruct (negb _) eqn:T; [done|]. apply result_bind_ok in H as (ug & Hug & H). destruct (may_edit _ _ _ _) eqn:M; [|done].
  injection H as ->. bool_to_prop. split_and!; [done|done|]. exists ug. split; [done|].
  unfold may_edit in M. apply orb_true_iff in M as [M|M]; apply bool_decide_eq_true in M; auto.
Qed.

Lemma with_deck_keeps d c s an : keeps_identity (with_deck d c s an).
Proof. by intros a. Qed.

Lemma replace_slides_keeps aid raw shuffle sh sh' :
  replace_slideshow_slides sha256 now uid user adb aid raw shuffle sh = Ok sh' →
  shelf_ok sh → audience_ok sh → shelf_ok sh' ∧ audience_ok sh'.
Proof.
  unfold replace_slideshow_slides. intros H W A. apply result_bind_ok in H as (asset & Hw & H).
  apply load_for_write_spec in Hw as (Hl & Ht & _). destruct (deck_of raw) as [slides|]; [|done].
  destruct (_ && _) in H; [done|]. apply result_bind_ok in H as (visible & _ & H). apply result_bind_ok in H as (sources & HL & H).
  apply result_bind_ok in H as ([] & HA & H). injection H as <-.
  pose proof (λ r src, deck_rows_sound aid slides visible sources _ _ sh r src W (or_introl HL) HA) as Hsrc.
  set (f := with_deck _ _ _ _). assert (Hf : keeps_identity f) by apply with_deck_keeps. split.
  - apply update_rows_ok; [done|by apply update_row_names|done|]. intros r [Hr|Hr]%elem_of_app; [left; by apply list_elem_of_filter in Hr as [_ ?]|right]. split.
    + apply live_asset_spec in Hl as (? & ? & _); [|done]. exists asset.
      destruct (deck_row_in _ _ _ Hr) as (i & s & _ & ->). rewrite (proj1 (slide_row_spec _ _ _)). done.
    + intros src Hs. destruct (Hsrc r src Hr Hs) as (b & Hb & Hty & _). apply live_asset_spec in Hb as (? & ? & _); eauto.
  - intros r src Hr Hs Hv1 Hv2. rewrite update_row_live in * by done.
    change (covered (sl_slideshow_asset_id r) src (set_rows _ _ sh)) with (covered (sl_slideshow_asset_id r) src sh).
    apply elem_of_app in Hr as [[_ Hr]%list_elem_of_filter|Hr]; [by apply A|].
    destruct (Hsrc r src Hr Hs) as (b & _ & _ & Hc). destruct (deck_row_in _ _ _ Hr) as (i & s & _ & ->).
    rewrite (proj1 (slide_row_spec _ _ _)) in *. unfold covered. destruct Hc as [?|[Hg ?]]; [by left|right].
    by apply bool_decide_eq_false in Hg.
Qed.

Lemma links_set l sh : sh_links (set_links l sh) = l.
Proof. reflexivity. Qed.
Lemma set_links_ok l sh : shelf_ok sh → (∀ ga, ga ∈ l → ga.2 ∈ a_id <$> sh_assets sh) → shelf_ok (set_links l sh).
Proof. intros [W1 W2 W3 W4 W5 W6] H. by split. Qed.
Lemma with_global_ok g sh : shelf_ok sh → (∀ i, i ∈ g → i ∈ a_id <$> sh_assets sh) → shelf_ok (with_global g sh).
Proof. intros [W1 W2 W3 W4 W5 W6] H. by split. Qed.
Lemma live_in aid a sh : shelf_ok sh → live_asset aid sh = Some a → aid ∈ a_id <$> sh_assets sh.
Proof. intros W (H1 & <- & _)%live_asset_spec; [|done]. by apply list_elem_of_fmap_2. Qed.

Lemma deck_type aid asset r sh : shelf_ok sh → live_asset aid sh = Some asset → r ∈ sh_slides sh →
  sl_slideshow_asset_id r = aid → a_asset_type asset = SLIDESHOW.
Proof.
  intros W Hl Hr Hid. destruct (so_decks sh W _ Hr) as (b & Hb & Hib & Ht).
  assert (F : find_asset aid (sh_lib sh) = Some b) by (apply find_asset_spec; [done|split; congruence]).
  unfold live_asset in Hl. rewrite F in Hl. simpl in Hl. case_bool_decide; [|done]. by injection Hl as <-.
Qed.
Lemma source_type src asset r sh : shelf_ok sh → live_asset src sh = Some asset → r ∈ sh_slides sh →
  slide_source r = Some src → a_asset_type asset ∈ [IMAGE; VIDEO; COMPOSED].
Proof.
  intros W Hl Hr Hid. destruct (so_sources sh W _ _ Hr Hid) as (b & Hb & Hib & Ht).
  assert (F : find_asset src (sh_lib sh) = Some b) by (apply find_asset_spec; [done|split; congruence]).
  unfold live_asset in Hl. rewrite F in Hl. simpl in Hl. case_bool_decide; [|done]. by injection Hl as <-.
Qed.

Lemma deck_source_in aid r src sh : r ∈ sh_slides sh → sl_slideshow_asset_id r = aid → slide_source r = Some src → is_live_id src sh →
  shelf_ok sh → ∃ a, a ∈ deck_sources aid sh ∧ a_id a = src.
Proof.
  intros Hr Hid Hs [a Ha] W. exists a. split.
  - apply list_elem_of_omap. exists r. unfold slides_of. rewrite list_elem_of_filter, Hs. simpl. done.
  - by apply live_asset_spec in Ha as (_ & ? & _).
Qed.

(** The re-check of a deck is exactly the rule on that deck. *)
Lemma revalidate_sound aid sh r src :
  _revalidate_slideshow_audience aid sh = Ok tt → shelf_ok sh → r ∈ sh_slides sh → sl_slideshow_asset_id r = aid →
  slide_source r = Some src → is_live_id src sh → covered aid src sh.
Proof.
  intros H W Hr Hid Hs Hl. destruct (deck_source_in _ _ _ _ Hr Hid Hs Hl W) as (a & Ha & Hia).
  unfold _revalidate_slideshow_audience in H. unfold covered. destruct (bool_decide (aid ∈ sh_global sh)) eqn:G.
  - destruct (forallb _ _) eqn:F in H; [|done]. rewrite forallb_forall in F. specialize (F a ltac:(by apply list_elem_of_In)).
    left. by bool_to_prop; subst.
  - bool_to_prop. destruct (bool_decide (groups_of aid sh = ∅)) eqn:Z; [bool_to_prop; right; rewrite Z; split; [done|set_solver]|].
    destruct (forallb _ _) eqn:F in H; [|done]. rewrite forallb_forall in F. specialize (F a ltac:(by apply list_elem_of_In)).
    apply orb_true_iff in F as [F|F]; bool_to_prop; subst; auto.
Qed.

Lemma share_keeps aid gid sh sh' :
  share_asset uid user adb aid gid sh = Ok sh' → shelf_ok sh → audience_ok sh → shelf_ok sh' ∧ audience_ok sh'.
Proof.
  unfold share_asset. intros H W A. destruct (live_asset aid sh) as [asset|] eqn:Hl; [|done].
  apply result_bind_ok in H as ([] & _ & H). destruct (negb _) in H; [done|]. apply result_bind_ok in H as (ug & _ & H).
  destruct (negb (in_groups _ _)) in H; [done|]. destruct (bool_decide _) in H; [by injection H as <-|].
  apply result_bind_ok in H as ([] & Hre & H). injection H as <-.
  set (sh1 := set_links _ sh) in *. assert (W1 : shelf_ok sh1).
  { apply set_links_ok; [done|]. intros ga [Hga| ->%list_elem_of_singleton]%elem_of_app; [by apply (so_links sh W)|]. by eapply live_in. }
  split; [done|]. intros r src Hr Hs Hv1 Hv2. destruct (decide (sl_slideshow_asset_id r = aid)) as [E|N].
  - rewrite (bool_decide_true _ (deck_type _ _ r sh W Hl Hr E)) in Hre. rewrite E. by eapply revalidate_sound.
  - destruct (A r src Hr Hs Hv1 Hv2) as [?|[? Hsub]]; [by left|right]. split; [done|].
    intros x. unfold sh1. rewrite !elem_of_group_links, links_set, !elem_of_app, list_elem_of_singleton.
    intros [Hx|[= ? ?]]; [|done]. left. apply elem_of_group_links, Hsub. by apply elem_of_group_links.
Qed.

Lemma blocking_spec p aid sh a :
  a ∈ blocking_slideshows p aid sh ↔ a ∈ sh_assets sh ∧ a_deleted_at a = None ∧ p a = true ∧
    ∃ r, r ∈ sh_slides sh ∧ slide_source r = Some aid ∧ sl_slideshow_asset_id r = a_id a.
Proof.
  unfold blocking_slideshows. rewrite list_elem_of_filter, existsb_exists. split.
  - intros ((? & ? & r & Hr & Hb) & ?). apply andb_true_iff in Hb as [B1 B2]. unfold references in B1. bool_to_prop.
    split_and!; [done..|]. exists r. by rewrite <-list_elem_of_In in Hr.
  - intros (? & ? & ? & r & Hr & B1 & B2). split_and!; [done..| |done]. exists r. rewrite <-list_elem_of_In. split; [done|].
    unfold references. rewrite !bool_decide_true by done. done.
Qed.

Lemma not_blocked p aid sh r : blocking_slideshows p aid sh = [] → shelf_ok sh → r ∈ sh_slides sh → slide_source r = Some aid →
  ∀ a, live_asset (sl_slideshow_asset_id r) sh = Some a → p a = false.
Proof.
  intros B W Hr Hs a Ha. apply live_asset_spec in Ha as (H1 & H2 & H3); [|done]. apply not_true_iff_false. intros Hp.
  assert (Hin : a ∈ blocking_slideshows p aid sh) by (apply blocking_spec; split_and!; eauto). rewrite B in Hin. by apply elem_of_nil in Hin.
Qed.

Lemma unshare_keeps aid gid sh sh' :
  unshare_asset uid user adb aid gid sh = Ok sh' → shelf_ok sh → audience_ok sh → shelf_ok sh' ∧ audience_ok sh'.
Proof.
  unfold unshare_asset. intros H W A. apply result_bind_ok in H as ([] & _ & H). apply result_bind_ok in H as (ug & _ & H).
  destruct (negb (in_groups _ _)) in H; [done|]. destruct (negb _) in H; [done|]. destruct (bool_decide _) eqn:B in H; [|done].
  apply bool_decide_eq_true in B. injection H as <-. split.
  { apply set_links_ok; [done|]. intros ga [_ Hga]%list_elem_of_filter. by apply (so_links sh W). }
  intros r src Hr Hs Hv1 Hv2. destruct (A r src Hr Hs Hv1 Hv2) as [?|[Hng Hsub]]; [by left|right]. split; [done|].
  intros x. rewrite !elem_of_group_links, links_set, !list_elem_of_filter. intros [Hx1 Hx2]. split.
  - intros [= -> ->]. destruct Hv1 as [a Ha]. pose proof (not_blocked _ _ _ _ B W Hr Hs a Ha) as Hp. simpl in Hp.
    change (live_asset (sl_slideshow_asset_id r) sh = Some a) in Ha. apply live_asset_spec in Ha as (_ & Hid & _); [|done]. rewrite Hid in Hp.
    rewrite (bool_decide_true _ Hx2), (bool_decide_false _ Hng) in Hp. done.
  - apply elem_of_group_links, Hsub. by apply elem_of_group_links.
Qed.

(** Dropping the global flag of [aid] is checked against global decks only, and only for images and videos.  This is
    what is left: a live deck that shows it and would keep an audience that [aid] loses. *)
Definition toggle_exposes (aid : uuid) (sh : Shelf) : bool :=
  bool_decide (aid ∈ sh_global sh) &&
  existsb (λ r, references aid r && bool_decide (is_live_id (sl_slideshow_asset_id r) sh) &&
                (bool_decide (sl_slideshow_asset_id r ∈ sh_global sh) || negb (bool_decide (groups_of (sl_slideshow_asset_id r) sh ⊆ groups_of aid sh))))
    (sh_slides sh).

Lemma toggle_ok aid sh sh' : toggle_asset_global uid user adb aid sh = Ok sh' → shelf_ok sh → shelf_ok sh'.
Proof.
  unfold toggle_asset_global. intros H W. apply result_bind_ok in H as ([] & _ & H). destruct (live_asset aid sh) as [asset|] eqn:Hl; [|done].
  destruct (_ && negb _) in H; [done|]. destruct (bool_decide (aid ∈ sh_global sh)).
  - injection H as <-. apply with_global_ok; [done|]. intros i [Hi _]%elem_of_difference. by apply (so_global sh W).
  - apply result_bind_ok in H as ([] & _ & H). injection H as <-. apply with_global_ok; [done|].
    intros i [->%elem_of_singleton|Hi]%elem_of_union; [by eapply live_in|by apply (so_global sh W)].
Qed.

Lemma toggle_safe aid sh sh' :
  toggle_asset_global uid user adb aid sh = Ok sh' → shelf_ok sh → audience_ok sh → toggle_exposes aid sh = false → audience_ok sh'.
Proof.
  unfold toggle_asset_global, toggle_exposes. intros H W A X. apply result_bind_ok in H as ([] & _ & H).
  destruct (live_asset aid sh) as [asset|] eqn:Hl; [|done].
  destruct (_ && negb _) eqn:B in H; [done|]. destruct (bool_decide (aid ∈ sh_global sh)) eqn:G.
  - injection H as <-. simpl in X. apply not_true_iff_false in X. rewrite existsb_exists in X.
    intros r src Hr Hs Hv1 Hv2. change (is_live_id (sl_slideshow_asset_id r) sh) in Hv1. unfold covered. simpl.
    change (groups_of ?x (with_global _ sh)) with (groups_of x sh).
    destruct (decide (src = aid)) as [->|N].
    + assert (Hc : bool_decide (sl_slideshow_asset_id r ∈ sh_global sh) || negb (bool_decide (groups_of (sl_slideshow_asset_id r) sh ⊆ groups_of aid sh)) = false).
      { apply not_true_iff_false. intros Hc. apply X. exists r. rewrite <-list_elem_of_In. split; [done|]. rewrite Hc.
        unfold references. by rewrite !bool_decide_true. }
      apply orb_false_iff in Hc as [C1 C2]. apply negb_false_iff in C2. apply bool_decide_eq_false in C1. apply bool_decide_eq_true in C2.
      right. split; [set_solver|done].
    + destruct (A r src Hr Hs Hv1 Hv2) as [?|[? ?]]; [left; set_solver|right]. split; [set_solver|done].
  - apply result_bind_ok in H as ([] & Hre & H). injection H as <-. apply bool_decide_eq_false in G.
    assert (W1 : shelf_ok (with_global ({[aid]} ∪ sh_global sh) sh)).
    { apply with_global_ok; [done|]. intros i [->%elem_of_singleton|Hi]%elem_of_union; [by eapply live_in|by apply (so_global sh W)]. }
    intros r src Hr Hs Hv1 Hv2. destruct (decide (sl_slideshow_asset_id r = aid)) as [E|N].
    + rewrite (bool_decide_true _ (deck_type _ _ r sh W Hl Hr E)) in Hre. rewrite E. by eapply revalidate_sound.
    + unfold covered. simpl. change (groups_of ?x (with_global _ sh)) with (groups_of x sh).
      destruct (A r src Hr Hs Hv1 Hv2) as [?|[? ?]]; [left; set_solver|right]. split; [set_solver|done].
Qed.

Lemma toggle_unsafe aid sh sh' :
  toggle_asset_global uid user adb aid sh = Ok sh' → shelf_ok sh → toggle_exposes aid sh = true → ¬ audience_ok sh'.
Proof.
  unfold toggle_asset_global, toggle_exposes. intros H W X A. apply result_bind_ok in H as ([] & _ & H).
  destruct (live_asset aid sh) as [asset|] eqn:Hl; [|done]. apply andb_true_iff in X as [G (r & Hr & X)%existsb_exists].
  rewrite G in H. destruct (_ && negb _) in H; [done|]. injection H as <-. apply andb_true_iff in X as [[X1 X2]%andb_true_iff X3].
  unfold references in X1. apply bool_decide_eq_true in X1, X2, G.
  destruct (A r aid) as [C|[C1 C2]]; [by apply list_elem_of_In|done|done|by exists asset| |]; simpl in *; [set_solver|].
  assert (N : sl_slideshow_asset_id r ≠ aid).
  { intros N. apply list_elem_of_In in Hr. pose proof (deck_type _ _ r sh W Hl Hr N) as T1.
    pose proof (source_type _ _ r sh W Hl Hr X1) as T2. rewrite T1 in T2. set_solver. }
  apply orb_true_iff in X3 as [X3|X3]; [apply bool_decide_eq_true in X3; set_solver|].
  apply negb_true_iff, bool_decide_eq_false in X3. by apply X3.
Qed.

(** *** Deletion and tags *)

Lemma delete_at_keeps_id t a : a_id (delete_at t a) = a_id a ∧ a_filename (delete_at t a) = a_filename a ∧ a_asset_type (delete_at t a) = a_asset_type a.
Proof. done. Qed.

Lemma delete_frame owner aid lib lib' : delete_asset now owner aid lib = Ok lib' →
  lb_assets lib' = (λ a, if bool_decide (a_id a = aid) then delete_at now a else a) <$> lb_assets lib ∧
  m_slides (lb_media lib') = m_slides (lb_media lib) ∧ lb_group_assets lib' = lb_group_assets lib.
Proof.
  unfold delete_asset. destruct (find_asset aid lib); [|done]. destruct (negb _); [done|]. destruct (bool_decide (owner = _)); [done|].
  destruct (_ && existsb _ _); [done|]. destruct (existsb _ (lb_schedules lib)); [done|]. by intros [= <-].
Qed.

Lemma delete_keeps aid sh sh' :
  delete_asset_endpoint now uid user adb aid sh = Ok sh' → shelf_ok sh → audience_ok sh → shelf_ok sh' ∧ audience_ok sh'.
Proof.
  unfold delete_asset_endpoint. intros H W A. destruct (live_asset aid sh) as [row|]; [|done].
  apply result_bind_ok in H as (ug & _ & H). apply result_bind_ok in H as (lib & Hd & H). injection H as <-.
  apply delete_frame in Hd as (Ha & Hs & Hg). set (f := λ a, if bool_decide (a_id a = aid) then delete_at now a else a) in Ha.
  assert (Hf : ∀ a, a_id (f a) = a_id a ∧ a_filename (f a) = a_filename a ∧ a_asset_type (f a) = a_asset_type a)
    by (intros a; unfold f; by destruct (bool_decide _)).
  assert (Ha' : sh_assets (with_lib lib sh) = f <$> sh_assets sh) by done.
  assert (Hs' : sh_slides (with_lib lib sh) = sh_slides sh) by done. assert (Hg' : sh_links (with_lib lib sh) = sh_links sh) by done.
  assert (Ei : a_id <$> (f <$> sh_assets sh) = a_id <$> sh_assets sh)
    by (rewrite <-list_fmap_compose; apply list_fmap_ext; intros i x _; apply Hf).
  assert (En : a_filename <$> (f <$> sh_assets sh) = a_filename <$> sh_assets sh)
    by (rewrite <-list_fmap_compose; apply list_fmap_ext; intros i x _; apply Hf).
  split.
  - destruct W as [W1 W2 W3 W4 W5 W6]. split; rewrite ?Ha', ?Hs', ?Hg', ?Ei, ?En; try done.
    + intros r Hr. destruct (W4 r Hr) as (b & ? & ? & ?). exists (f b). destruct (Hf b) as (-> & _ & ->). split; [|done].
      by apply list_elem_of_fmap_2.
    + intros r src Hr Hsr. destruct (W5 r src Hr Hsr) as (b & ? & ? & ?). exists (f b). destruct (Hf b) as (-> & _ & ->). split; [|done].
      by apply list_elem_of_fmap_2.
  - apply (audience_mono sh); [done|by rewrite Hs'| |].
    + intros i. unfold is_live_id, live_asset, find_asset. change (lb_assets (sh_lib (with_lib lib sh))) with (lb_assets lib).
      rewrite Ha, (find_key_map a_id) by (intros x; apply Hf). change (lb_assets (sh_lib sh)) with (sh_assets sh).
      destruct (snd <$> list_find _ _) as [a|]; simpl; [|intros [? ?]; done]. unfold f. destruct (bool_decide (a_id a = aid)); simpl; [intros [? ?]; done|].
      destruct (bool_decide (a_deleted_at a = None)); intros [? ?]; by eauto.
    + intros show src. unfold covered, groups_of. by rewrite Hg'.
Qed.

Lemma set_asset_tags_keeps l sh : (shelf_ok sh → shelf_ok (set_asset_tags l sh)) ∧ (audience_ok sh → audience_ok (set_asset_tags l sh)).
Proof. split; [intros [W1 W2 W3 W4 W5 W6]; by split|]. intros A r src Hr Hs H1 H2. by apply (A r src). Qed.
End operations.

(** ** The library over time *)

(** One committed request of any user.  Dropping a global flag counts only when it exposes nothing. *)
Inductive lib_step (sha256 : string → string) : Shelf → Shelf → Prop :=
  | S_create now uid user adb aid hex8 name raw raw_ids shuffle sh sh' :
      create_slideshow_asset sha256 now uid user adb aid hex8 name raw raw_ids shuffle sh = Ok sh' →
      aid ∉ a_id <$> sh_assets sh → lib_step sha256 sh sh'
  | S_replace now uid user adb aid raw shuffle sh sh' :
      replace_slideshow_slides sha256 now uid user adb aid raw shuffle sh = Ok sh' → lib_step sha256 sh sh'
  | S_insert a g u groups sh sh' :                     (* any other kind of asset *)
      insert_asset a g u groups [] sh = Ok sh' → a_id a ∉ a_id <$> sh_assets sh → lib_step sha256 sh sh'
  | S_edit aid f sh :                                  (* other columns of a row; file names stay unique *)
      keeps_identity f → NoDup (a_filename <$> update_asset_row aid f sh) →
      lib_step sha256 sh (set_rows (update_asset_row aid f sh) (sh_slides sh) sh)
  | S_frame lib sh :                                   (* variants, jobs, files, notifications, schedules *)
      lb_assets lib = sh_assets sh → m_slides (lb_media lib) = sh_slides sh → lb_group_assets lib = sh_links sh →
      lib_step sha256 sh (with_lib lib sh)
  | S_describe d sh :
      lib_step sha256 sh (mkShelf (sh_lib sh) (sh_global sh) (sh_uploader sh) d (sh_tags sh) (sh_group_rows sh))
  | S_share uid user adb aid gid sh sh' : share_asset uid user adb aid gid sh = Ok sh' → lib_step sha256 sh sh'
  | S_unshare uid user adb aid gid sh sh' : unshare_asset uid user adb aid gid sh = Ok sh' → lib_step sha256 sh sh'
  | S_toggle uid user adb aid sh sh' :
      toggle_asset_global uid user adb aid sh = Ok sh' → toggle_exposes aid sh = false → lib_step sha256 sh sh'
  | S_delete now uid user adb aid sh sh' : delete_asset_endpoint now uid user adb aid sh = Ok sh' → lib_step sha256 sh sh'
  | S_tags l sh : lib_step sha256 sh (set_asset_tags l sh).

Lemma frame_keeps lib sh :
  lb_assets lib = sh_assets sh → m_slides (lb_media lib) = sh_slides sh → lb_group_assets lib = sh_links sh →
  shelf_ok sh → audience_ok sh → shelf_ok (with_lib lib sh) ∧ audience_ok (with_lib lib sh).
Proof.
  intros E1 E2 E3 W A. assert (E1' : sh_assets (with_lib lib sh) = sh_assets sh) by done.
  assert (E2' : sh_slides (with_lib lib sh) = sh_slides sh) by done. assert (E3' : sh_links (with_lib lib sh) = sh_links sh) by done.
  split.
  - destruct W as [W1 W2 W3 W4 W5 W6]. split; rewrite ?E1', ?E2', ?E3'; done.
  - apply (audience_mono sh); [done|by rewrite E2'| |].
    + intros i. unfold is_live_id, live_asset, find_asset. change (lb_assets (sh_lib (with_lib lib sh))) with (lb_assets lib).
      by rewrite E1.
    + intros show src. unfold covered, groups_of. by rewrite E3'.
Qed.

Lemma step_keeps sha256 sh sh' : lib_step sha256 sh sh' → shelf_ok sh → audience_ok sh → shelf_ok sh' ∧ audience_ok sh'.
Proof.
  intros [] W A.
  - by eapply create_slideshow_keeps.
  - by eapply replace_slides_keeps.
  - split; [eapply insert_ok|eapply insert_audience]; eauto; first [by intros ? ?%elem_of_nil|by intros ? ? ?%elem_of_nil].
  - split; [apply update_rows_ok; auto|]. intros r src Hr Hs H1 H2. rewrite update_row_live in * by done. by apply (A r src).
  - by eapply frame_keeps.
  - split; [by destruct W; split|]. intros r src Hr Hs H1 H2. by apply (A r src).
  - by eapply share_keeps.
  - by eapply unshare_keeps.
  - split; [by eapply toggle_ok|by eapply toggle_safe].
  - by eapply delete_keeps.
  - split; by apply set_asset_tags_keeps.
Qed.

Lemma run_keeps sha256 sh sh' : rtc (lib_step sha256) sh sh' → shelf_ok sh → audience_ok sh → shelf_ok sh' ∧ audience_ok sh'.
Proof. induction 1 as [|x y z Hs _ IH]; [done|]. intros W A. destruct (step_keeps _ _ _ Hs W A). by apply IH. Qed.


(** The endpoint that drops a global flag looks at global decks and at images and videos only.  Exactly where
    [toggle_exposes] holds (a composed source of a global deck; a source of a deck shared with groups the source is not
    shared with) the request is answered and the rule is broken; everywhere else the rule survives the toggle. *)
Theorem toggle_exact (uid : uuid) (user : User) (adb : AuthDb) (aid : uuid) (sh sh' : Shelf) :
  toggle_asset_global uid user adb aid sh = Ok sh' → shelf_ok sh → audience_ok sh → (audience_ok sh' ↔ toggle_exposes aid sh = false).
Proof.
  intros H W A. split; [|by eapply toggle_safe]. intros A'. apply not_true_iff_false. intros X.
  by eapply toggle_unsafe.
Qed.

(** ** The bulk endpoint *)

Section bulk.
Context (sha256 : string → string) (now : Z) (uid : uuid) (user : User) (adb : AuthDb).

Lemma bulk_action_steps fresh act op sh0 :
  bulk_action now uid user adb fresh act sh0 = Ok op → act ≠ B_SET_GLOBAL (Some false) →
  ∀ aid sh sh', op aid sh = Ok sh' → rtc (lib_step sha256) sh sh'.
Proof.
  intros H N aid sh sh' Hop. destruct act as [|[g|]|[g|]|[b|]|[t|]|[t|]]; simpl in H; try done.
  - injection H as <-. by eapply rtc_once, S_delete.
  - injection H as <-. by eapply rtc_once, S_share.
  - injection H as <-. by eapply rtc_once, S_unshare.
  - apply result_bind_ok in H as (ug & _ & H). destruct (bool_decide _) in H; [|done]. injection H as <-. unfold set_global in Hop.
    destruct (bool_decide _) in Hop; [done|]. destruct (bool_decide (_ = b)) eqn:B in Hop; [injection Hop as <-; done|].
    eapply rtc_once, S_toggle; [done|]. unfold toggle_exposes. destruct b; [|done]. by destruct (bool_decide (aid ∈ sh_global sh)).
  - destruct (bool_decide _) in H; [|done]. injection H as <-. unfold add_tag in Hop. destruct (bool_decide _) in Hop; [done|].
    apply result_bind_ok in Hop as ([] & _ & Hop). destruct (existsb _ _) in Hop; injection Hop as <-; [done|]. apply rtc_once, S_tags.
  - destruct (bool_decide _) in H; [|done]. injection H as <-. unfold remove_tag in Hop. destruct (bool_decide _) in Hop; [done|].
    apply result_bind_ok in Hop as ([] & _ & Hop). injection Hop as <-. apply rtc_once, S_tags.
Qed.

End bulk.

Lemma bulk_loop_rtc (R : Shelf → Shelf → Prop) op :
  (∀ aid sh sh', op aid sh = Ok sh' → rtc R sh sh') → ∀ ids sh s f, rtc R sh (bulk_loop op ids sh s f).1.
Proof.
  intros Hop ids. induction ids as [|a ids IH]; intros sh s f; simpl; [done|].
  destruct (op a sh) as [sh'|[]] eqn:E; simpl; try apply IH; try done. etrans; [by eapply Hop|apply IH].
Qed.

(** Every id is reported once. *)
Lemma bulk_loop_partition op ids : ∀ sh s f r, (bulk_loop op ids sh s f).2 = Ok r → r.1 ++ r.2.*1 ≡ₚ s ++ f.*1 ++ ids.
Proof.
  induction ids as [|a ids IH]; intros sh s f r; simpl; [intros [= <-]; by rewrite app_nil_r|].
  destruct (op a sh) as [sh'|[]]; simpl; try done; intros H; rewrite (IH _ _ _ _ H), ?fmap_app; simpl; solve_Permutation.
Qed.

Lemma dedupe_spec (ids : list uuid) : ∀ seen, NoDup (dedupe seen ids) ∧ ∀ a, a ∈ dedupe seen ids ↔ a ∈ ids ∧ a ∉ seen.
Proof.
  induction ids as [|x ids IH]; intros seen; simpl; [split; [constructor|set_solver]|]. case_bool_decide as H.
  - destruct (IH seen) as [N E]. split; [done|]. intros a. rewrite E, elem_of_cons. naive_solver.
  - destruct (IH ({[x]} ∪ seen)) as [N E]. split; [constructor; [rewrite E; set_solver|done]|].
    intros a. rewrite !elem_of_cons, E. destruct (decide (a = x)) as [->|]; set_solver.
Qed.

(** The bulk endpoint is its single-asset operations one after the other: every distinct id is reported exactly once,
    as succeeded or as failed, and (flags dropped apart) what is left is a state the single requests can reach, so the
    audience rule holds after it. *)
Theorem bulk_is_single_steps (sha256 : string → string) (now : Z) (uid : uuid) (user : User) (adb : AuthDb) (fresh : uuid → uuid)
    (act : BulkAction) (ids : list uuid) (sh sh' : Shelf) (res : result exn (list uuid * list (uuid * Z))) :
  bulk_assets now uid user adb fresh act ids sh = (sh', res) → shelf_ok sh → audience_ok sh → act ≠ B_SET_GLOBAL (Some false) →
  rtc (lib_step sha256) sh sh' ∧ audience_ok sh' ∧
  ∀ ok failed, res = Ok (ok, failed) → NoDup (ok ++ failed.*1) ∧ ∀ a, a ∈ ok ++ failed.*1 ↔ a ∈ ids.
Proof.
  unfold bulk_assets. intros H W A N. destruct (bulk_action _ _ _ _ _ _ _) as [op|e] eqn:B; [|by injection H as <- <-].
  destruct (bulk_loop op (dedupe ∅ ids) sh [] []) as [s r] eqn:L. injection H as -> ->.
  assert (R : rtc (lib_step sha256) sh sh').
  { change sh' with (sh', res).1. rewrite <-L. apply bulk_loop_rtc. by eapply bulk_action_steps. }
  split; [done|]. split; [by eapply run_keeps|]. intros ok failed ->.
  pose proof (bulk_loop_partition op (dedupe ∅ ids) sh [] [] (ok, failed)) as P. rewrite L in P. specialize (P eq_refl). simpl in P.
  destruct (dedupe_spec ids ∅) as [D E]. rewrite P. split; [done|]. intros a. rewrite P, E. set_solver.
Qed.

(** ** The stored duration and the resolver *)

(** Without clips the stored duration counts an asset slide as the slot the resolver gives it. *)
Lemma slide_ms_is_slot sh s src show idx pos spec emit_clip :
  is_tag_slide s = false → source_of sh s = Some src → a_asset_type src ≠ SAVED_STREAM →
  (∀ d, a_duration_ms src = Some d → 0 ≤ d) → default 0 (si_clip_start_ms s) = 0 → si_clip_duration_ms s = None →
  row_specs (sh_media sh) _EMPTY_WINDOW pos (_slide_row show idx s) = [spec] →
  slide_ms sh s = (_effective_slide_playback spec src false emit_clip).1.1.
Proof.
  intros Ht Hs Hty Hd Hc Hcd Hspec. unfold slide_ms. rewrite Ht, Hs. unfold is_tag_slide in Ht. unfold _slide_row in Hspec. rewrite Ht in Hspec.
  unfold row_specs in Hspec. simpl in Hspec. destruct (si_source_asset_id s); [|done]. injection Hspec as <-.
  unfold _effective_slide_playback. simpl. rewrite Hcd, Hc. rewrite orb_false_r.
  destruct (bool_decide (a_asset_type src = VIDEO)) eqn:V.
  - apply bool_decide_eq_true in V. rewrite (bool_decide_true (_ ∨ _)) by auto.
    destruct (a_duration_ms src) as [d|] eqn:E; destruct (si_play_to_end s); simpl; try done.
    + specialize (Hd d eq_refl). rewrite Z.sub_0_r. destruct (d =? 0) eqn:Z; simpl.
      * apply Z.eqb_eq in Z as ->. done.
      * apply Z.eqb_neq in Z. rewrite (proj2 (Z.leb_gt d 0)) by lia. done.
  - apply bool_decide_eq_false in V. rewrite (bool_decide_false (_ ∨ _)) by naive_solver.
    destruct (a_duration_ms src), (si_play_to_end s); simpl; done.
Qed.

(** ** A small library *)

Definition viewer_role : Role := mkRole "Editor" ["assets:read"; "assets:write"] true.
Definition admin_role : Role := mkRole "Admin" [GROUPS_VIEW_ALL] true.
Definition someone (role : uuid) : User := mkUser "n" "n@x" "h" role true false None None None None None.
Definition library_users : AuthDb :=
  mkAuthDb {["ann" := someone "r-ed"; "root" := someone "r-ad"]} {["r-ed" := viewer_role; "r-ad" := admin_role]} {[("ann", "g1")]} ∅ ∅.
Definition ann : User := someone "r-ed".
Definition root_user : User := someone "r-ad".

Definition picture (id : uuid) : Asset := mkAsset id (id +:+ ".png") None None IMAGE 1000 "beef" None None false None None.
Definition bundle (id : uuid) : Asset := mkAsset id (id +:+ ".html") None None COMPOSED 1000 "b0b0" None None false None None.
Definition shows (src : uuid) : SlideIn :=
  mkSlideIn "asset" (Some src) None "tagged_at" 5000 false "cut" 600 None None "cover" "none" "in" always None None.

(** Three global assets of the administrator; [web1] is composed. *)
Definition empty_lib : Lib := mkLib [] (mkMedia [picture "pic"; bundle "web1"; video "film"] [] [] [] []) (mkStore ∅ []) [] [] [] [] [] [] ∅.
Definition shelf : Shelf :=
  mkShelf empty_lib {["pic"; "web1"; "film"]} {["pic" := "root"; "web1" := "root"; "film" := "root"]} ∅ ["t1"] ["g1"; "g2"].

Definition toy_hash (s : string) : string := s.
Definition G1 : string := "11111111-1111-1111-1111-111111111111".
Definition shelf_g : Shelf := mkShelf empty_lib (sh_global shelf) (sh_uploader shelf) ∅ ["t1"] [G1].
Definition members_g : AuthDb := mkAuthDb (au_users library_users) (au_roles library_users) {[("ann", G1)]} ∅ ∅.

Lemma shelf_g_ok : shelf_ok shelf_g ∧ audience_ok shelf_g.
Proof.
  split; [|by intros r src ?%elem_of_nil]. split.
  - apply (bool_decide_unpack _). vm_compute. done.
  - apply (bool_decide_unpack _). vm_compute. done.
  - by intros ga ?%elem_of_nil.
  - by intros r ?%elem_of_nil.
  - by intros r src ?%elem_of_nil.
  - intros i. unfold shelf_g. simpl. set_solver.
Qed.

(** The administrator's global deck of the composed slide: its source can be taken off the global list, and every user
    still sees the deck.  The endpoint's query is skipped for composed assets. *)
Example composed_source_ungloballed :
  ∃ sh1 sh2,
    create_slideshow_asset toy_hash 0 "root" root_user members_g "deck" "h" "Deck" [(true, shows "web1")] [] false shelf_g = Ok sh1 ∧
    "deck" ∈ sh_global sh1 ∧ toggle_asset_global "root" root_user members_g "web1" sh1 = Ok sh2 ∧
    "deck" ∈ visible_to "ann" {[G1]} sh2 ∧ "web1" ∉ visible_to "ann" {[G1]} sh2.
Proof.
  eexists _, _. split; [vm_compute; reflexivity|]. split; [apply (bool_decide_unpack _); vm_compute; done|].
  split; [vm_compute; reflexivity|]. split; apply (bool_decide_unpack _); vm_compute; done.
Qed.

(** The same for a picture in a deck that is shared with a group: only global decks are asked for. *)
Example group_deck_source_ungloballed :
  ∃ sh1 sh2,
    create_slideshow_asset toy_hash 0 "ann" ann members_g "deck" "h" "Deck" [(true, shows "pic")] [G1] false shelf_g = Ok sh1 ∧
    toggle_asset_global "root" root_user members_g "pic" sh1 = Ok sh2 ∧
    "deck" ∈ visible_to "bob" {[G1]} sh2 ∧ "pic" ∉ visible_to "bob" {[G1]} sh2.
Proof.
  eexists _, _. split; [vm_compute; reflexivity|]. split; [vm_compute; reflexivity|].
  split; apply (bool_decide_unpack _); vm_compute; done.
Qed.

(** Anyone who may write assets toggles the flag of whatever he sees; the bulk endpoint asks for an administrator. *)
Example toggle_is_not_admin_only :
  is_ok (toggle_asset_global "ann" ann members_g "pic" shelf_g) = true ∧
  (bulk_assets 0 "ann" ann members_g id (B_SET_GLOBAL (Some false)) ["pic"] shelf_g).2 = Err (HTTPException 403).
Proof. split; vm_compute; reflexivity. Qed.

(** A ten-second clip of a one-minute film: the deck is stored with the length of the dwell time, or of the whole film. *)
Definition clipped (play_to_end : bool) : SlideIn :=
  mkSlideIn "asset" (Some "film") None "tagged_at" 5000 play_to_end "cut" 600 None None "cover" "none" "in" always (Some 50000) (Some 10000).
Example clip_ignored_in_duration :
  check_source (clipped true) (video "film") = Ok tt ∧ _compute_slideshow_duration_ms [clipped true] shelf_g = 60000 ∧
  _compute_slideshow_duration_ms [clipped false] shelf_g = 5000.
Proof. split_and!; vm_compute; reflexivity. Qed.

(** A saved stream in a tag block: the resolver plays it to its end, the stored duration counts the dwell time. *)
Definition stream_tape : Asset := mkAsset "tape" "tape.mp4" None None SAVED_STREAM 1 "c" None (Some 60000) false None None.
Example saved_stream_member_counts_dwell :
  let sh := mkShelf (mkLib [] (mkMedia [stream_tape] [] [] [mkAssetTag "x" "tape" "t1" 1] []) (mkStore ∅ []) [] [] [] [] [] [] ∅) ∅ ∅ ∅ ["t1"] [] in
  let s := mkSlideIn "tag" None (Some "t1") "tagged_at" 5000 false "cut" 600 None None "cover" "none" "in" always None None in
  slide_ms sh s = 5000 ∧
  (λ spec, (_effective_slide_playback spec stream_tape true true).1.1) <$> row_specs (sh_media sh) _EMPTY_WINDOW 0 (_slide_row "deck" 0 s) = [60000].
Proof. split; vm_compute; reflexivity. Qed.

(** ** Witnesses *)



Lemma toggle_exact_witness :
  ∃ sh', toggle_asset_global "root" root_user members_g "pic" shelf_g = Ok sh' ∧ audience_ok sh'.
Proof.
  eexists. split; [by vm_compute|]. eapply (toggle_exact "root" root_user members_g "pic" shelf_g); [by vm_compute|apply shelf_g_ok..|by vm_compute].
Defined.

Lemma bulk_is_single_steps_witness :
  let r := bulk_assets 0 "root" root_user members_g id (B_ADD_GROUP (Some G1)) ["pic"; "film"; "pic"; "nope"] shelf_g in
  audience_ok r.1 ∧ r.2 = Ok (["pic"; "film"], [("nope", 404)]).
Proof.
  intros r. split; [|by vm_compute].
  apply (bulk_is_single_steps toy_hash 0 "root" root_user members_g id (B_ADD_GROUP (Some G1)) ["pic"; "film"; "pic"; "nope"] shelf_g r.1 r.2).
  - reflexivity.
  - apply shelf_g_ok.
  - apply shelf_g_ok.
  - discriminate.
Defined.
