(* ===== verification/Paging.v ===== *)
(** * Browsing the asset library page by page ([list_assets_paged] of cms/routers/assets.py)

    The filters, the order and the cursor of the paginated list, on the tables of
    [Shelf].  A cursor is the pair of values it encodes (its JSON and base64 text
    is not modelled); uuids compare as their texts, and texts by code point, where
    the database uses its collation. *)

From S2P Require Import Prelude Clock PyText Models Database Samples Jobs Variants Slideshow Access Slides Library.
Open Scope Z_scope.

(** ** Orders *)

Inductive OrderKey := O_DISPLAY_NAME | O_ASSET_TYPE | O_SIZE_BYTES | O_UPLOADED_AT | O_DURATION_SECONDS.

(** The value of a sort column; only [duration_seconds] can be NULL. *)
Inductive OVal := VInt (z : Z) | VStr (s : string).
#[export] Instance OVal_eq_dec : EqDecision OVal.
Proof. solve_decision. Defined.

Definition val_lt (x y : OVal) : bool :=
  match x, y with
  | VInt a, VInt b => a <? b
  | VStr a, VStr b => a <s b
  | VInt _, VStr _ => true
  | VStr _, VInt _ => false
  end.

Fixpoint lstrip_dashes (s : string) : string :=
  match s with String "-" s' => lstrip_dashes s' | _ => s end.

(** [order=]: a key, optionally prefixed with dashes. *)
Definition parse_order (order : string) : result exn (bool * OrderKey) :=
  let descending := str_startswith "-" order in
  let key := lstrip_dashes order in
  if bool_decide (key = "display_name") then Ok (descending, O_DISPLAY_NAME)
  else if bool_decide (key = "asset_type") then Ok (descending, O_ASSET_TYPE)
  else if bool_decide (key = "size_bytes") then Ok (descending, O_SIZE_BYTES)
  else if bool_decide (key = "uploaded_at") then Ok (descending, O_UPLOADED_AT)
  else if bool_decide (key = "duration_seconds") then Ok (descending, O_DURATION_SECONDS)
  else Err (HTTPException 400).

(** ** Filters *)

(** [s LIKE p]: [%] is any text, [_] any character, a backslash quotes. *)
Fixpoint like (p : string) (s : string) : bool :=
  match p with
  | EmptyString => bool_decide (s = "")
  | String "%" p' =>
      (fix any (t : string) : bool := like p' t || match t with EmptyString => false | String _ t' => any t' end) s
  | String "_" p' => match s with String _ s' => like p' s' | EmptyString => false end
  | String "\" (String c p') => match s with String d s' => bool_decide (c = d) && like p' s' | EmptyString => false end
  | String c p' => match s with String d s' => bool_decide (c = d) && like p' s' | EmptyString => false end
  end.
Definition ilike (pattern s : string) : bool := like (str_lower pattern) (str_lower s).

Record Filters := mkFilters {
  fi_q : string;
  fi_types : list string;
  fi_group_ids : list uuid;
  fi_uploader_ids : list uuid;
  fi_tag_ids : list uuid;
  fi_uploaded_after : option Z;
  fi_uploaded_before : option Z;
  fi_usage : option string
}.

(** SQL's three-valued [IN] and [NOT IN]: a NULL in the list makes a NOT IN unknown. *)
Definition sql_in (x : uuid) (l : list (option uuid)) : bool := bool_decide (Some x ∈ l).
Definition sql_notin (x : uuid) (l : list (option uuid)) : bool := negb (bool_decide (Some x ∈ l)) && negb (bool_decide (None ∈ l)).

Definition ALL_TYPES : list AssetType := [VIDEO; IMAGE; WEBPAGE; STREAM; SAVED_STREAM; SLIDESHOW; COMPOSED; VOICE_ANNOUNCEMENT].
Definition type_of_value (v : string) : option AssetType := snd <$> list_find (λ t, AssetType_value t = v) ALL_TYPES.

Section paging.
(** The column [uploaded_at] and the order of the enum's labels. *)
Context (uploaded_at : uuid → Z) (type_rank : AssetType → Z) (now : Z).

Definition non_expired_sched_subq (sh : Shelf) : list (option uuid) :=
  (λ s, a_id <$> s_asset s) <$> filter (λ s, schedule_ended now s = false) (lb_schedules (sh_lib sh)).
(** The sources of the slides of live decks, NULL for a tag block. *)
Definition slide_used_subq (sh : Shelf) : list (option uuid) :=
  slide_source <$> filter (λ r, bool_decide (is_live_id (sl_slideshow_asset_id r) sh) = true) (sh_slides sh).

Definition matches_q (q : string) (sh : Shelf) (a : Asset) : bool :=
  bool_decide (q = "") ||
  (let p := "%" +:+ q +:+ "%" in
   ilike p (default "" (a_display_name a)) || ilike p (default "" (a_original_filename a)) ||
   ilike p (default "" (sh_description sh !! a_id a)) || ilike p (a_filename a)).
Definition in_filter {A} `{EqDecision A} (x : option A) (l : list A) : bool :=
  bool_decide (l = []) || match x with Some y => bool_decide (y ∈ l) | None => false end.
Definition has_all_tags (tags : list uuid) (sh : Shelf) (aid : uuid) : bool :=
  forallb (λ t, existsb (tagged_with aid t) (m_asset_tags (sh_media sh))) tags.
Definition usage_ok (usage : option string) (sh : Shelf) (aid : uuid) : bool :=
  match usage with
  | None => true
  | Some u => if bool_decide (u = "used") then sql_in aid (non_expired_sched_subq sh) || sql_in aid (slide_used_subq sh)
              else sql_notin aid (non_expired_sched_subq sh) && sql_notin aid (slide_used_subq sh)
  end.

(** The WHERE clause without the cursor. *)
Definition filter_clauses (visible : option (gset uuid)) (types : list AssetType) (f : Filters) (sh : Shelf) (a : Asset) : bool :=
  bool_decide (a_deleted_at a = None) && match visible with None => true | Some v => bool_decide (a_id a ∈ v) end &&
  matches_q (fi_q f) sh a && in_filter (Some (a_asset_type a)) types && in_filter (sh_uploader sh !! a_id a) (fi_uploader_ids f) &&
  match fi_uploaded_after f with Some t => t <=? uploaded_at (a_id a) | None => true end &&
  match fi_uploaded_before f with Some t => uploaded_at (a_id a) <? t | None => true end &&
  (bool_decide (fi_group_ids f = []) || existsb (λ g, bool_decide ((g, a_id a) ∈ sh_links sh)) (fi_group_ids f)) &&
  has_all_tags (fi_tag_ids f) sh (a_id a) && usage_ok (fi_usage f) sh (a_id a).

(** ** The page *)

(** [func.coalesce(display_name, filename)] and the other columns. *)
Definition order_value (k : OrderKey) (a : Asset) : option OVal :=
  match k with
  | O_DISPLAY_NAME => Some (VStr (default (a_filename a) (a_display_name a)))
  | O_ASSET_TYPE => Some (VInt (type_rank (a_asset_type a)))
  | O_SIZE_BYTES => Some (VInt (a_size_bytes a))
  | O_UPLOADED_AT => Some (VInt (uploaded_at (a_id a)))
  | O_DURATION_SECONDS => VInt <$> a_duration_ms a
  end.

(** A position in the list: the value and the id; NULLs come last in both directions. *)
Definition pos_lt (desc : bool) (x y : option OVal * uuid) : bool :=
  match x.1, y.1 with
  | Some v, Some w => (if desc then val_lt w v else val_lt v w) || (bool_decide (v = w) && (if desc then y.2 <s x.2 else x.2 <s y.2))
  | Some _, None => true
  | None, Some _ => false
  | None, None => if desc then y.2 <s x.2 else x.2 <s y.2
  end.
Definition position (k : OrderKey) (a : Asset) : option OVal * uuid := (order_value k a, a_id a).
Definition before_row (desc : bool) (k : OrderKey) (x y : Asset) : bool := negb (pos_lt desc (position k y) (position k x)).

(** The cursor predicate; a comparison with NULL is not true, one with None is refused by the query builder. *)
Definition cursor_clause (desc : bool) (k : OrderKey) (cursor : option (option OVal * uuid)) : result exn (Asset → bool) :=
  match cursor with
  | None => Ok (λ _, true)
  | Some (None, _) => Err ArgumentError
  | Some (Some v, last_id) => Ok (λ a, bool_decide (is_Some (order_value k a)) && pos_lt desc (Some v, last_id) (position k a))
  end.

Record Page := mkPage { pg_items : list Asset; pg_next : option (option OVal * uuid); pg_total : nat }.

Definition page_of (page_size : nat) (desc : bool) (k : OrderKey) (keep cur : Asset → bool) (rows : list Asset) : Page :=
  let l := take (S page_size) (sort_on (before_row desc k) (filter (λ a, keep a && cur a = true) rows)) in
  let items := take page_size l in
  mkPage items
    (if (page_size <? length l)%nat then position k <$> last items else None)
    (length (filter (λ a, keep a = true) rows)).

Definition list_assets_paged (uid : uuid) (user : User) (adb : AuthDb) (f : Filters) (order : string)
    (cursor : option (option OVal * uuid)) (page_size : nat) (sh : Shelf) : result exn Page :=
  o ← parse_order order;
  match mapM type_of_value (fi_types f) with
  | None => Err (HTTPException 400)
  | Some types =>
      visible ← _visible_asset_ids uid user adb sh;
      if match fi_usage f with Some u => negb (bool_decide (u ∈ ["used"; "unused"])) | None => false end then Err (HTTPException 400)
      else
        cur ← cursor_clause o.1 o.2 cursor;
        Ok (page_of page_size o.1 o.2 (filter_clauses visible types f sh) cur (sh_assets sh))
  end.

(** A client that follows [next_cursor] to the end; [None] when out of fuel. *)
Fixpoint browse (fuel : nat) (uid : uuid) (user : User) (adb : AuthDb) (f : Filters) (order : string) (page_size : nat) (sh : Shelf)
    (cursor : option (option OVal * uuid)) : option (result exn (list Page)) :=
  match fuel with
  | O => None
  | S n =>
      match list_assets_paged uid user adb f order cursor page_size sh with
      | Err e => Some (Err e)
      | Ok p => match pg_next p with
                | None => Some (Ok [p])
                | Some c => rest ← browse n uid user adb f order page_size sh (Some c);
                            Some (match rest with Ok l => Ok (p :: l) | Err e => Err e end)
                end
      end
  end.
End paging.

(** ** Positions are totally ordered *)

Lemma val_lt_irrefl v : val_lt v v = false.
Proof. destruct v; simpl; [apply Z.ltb_irrefl|apply str_ltb_irrefl]. Qed.
Lemma val_lt_trans u v w : val_lt u v = true → val_lt v w = true → val_lt u w = true.
Proof. destruct u, v, w; simpl; try done; [rewrite !Z.ltb_lt; lia|apply str_ltb_trans]. Qed.
Lemma val_lt_total v w : val_lt v w = true ∨ v = w ∨ val_lt w v = true.
Proof.
  destruct v as [a|a], w as [b|b]; simpl; auto.
  - rewrite !Z.ltb_lt. destruct (Z.lt_trichotomy a b) as [?|[->|?]]; auto.
  - destruct (str_ltb_total a b) as [?|[->|?]]; auto.
Qed.

(** One direction of the comparison, so that both directions share the lemmas. *)
Definition dir (desc : bool) {A} (lt : A → A → bool) (x y : A) : bool := if desc then lt y x else lt x y.

Lemma pos_lt_spec desc x y :
  pos_lt desc x y = match x.1, y.1 with
                    | Some v, Some w => dir desc val_lt v w || (bool_decide (v = w) && dir desc String.ltb x.2 y.2)
                    | Some _, None => true
                    | None, Some _ => false
                    | None, None => dir desc String.ltb x.2 y.2
                    end.
Proof. unfold pos_lt, dir. destruct (x.1), (y.1); done. Qed.

Section dir.
Context {A : Type} (lt : A → A → bool).
Context (irrefl : ∀ x, lt x x = false) (trans : ∀ x y z, lt x y = true → lt y z = true → lt x z = true).
Context (total : ∀ x y, lt x y = true ∨ x = y ∨ lt y x = true).
Lemma dir_irrefl d x : dir d lt x x = false.
Proof. destruct d; apply irrefl. Qed.
Lemma dir_trans d x y z : dir d lt x y = true → dir d lt y z = true → dir d lt x z = true.
Proof. destruct d; simpl; eauto. Qed.
Lemma dir_total d x y : dir d lt x y = true ∨ x = y ∨ dir d lt y x = true.
Proof. destruct d; simpl; destruct (total x y) as [?|[?|?]]; auto. Qed.
End dir.

Lemma pos_lt_irrefl d x : pos_lt d x x = false.
Proof.
  rewrite pos_lt_spec. destruct (x.1) as [v|]; rewrite ?(dir_irrefl val_lt val_lt_irrefl), ?(dir_irrefl String.ltb str_ltb_irrefl); [|done].
  by rewrite andb_false_r.
Qed.

Lemma pos_lt_trans d x y z : pos_lt d x y = true → pos_lt d y z = true → pos_lt d x z = true.
Proof.
  rewrite !pos_lt_spec. destruct (x.1) as [u|], (y.1) as [v|], (z.1) as [w|]; try done.
  - rewrite !orb_true_iff, !andb_true_iff, !bool_decide_eq_true. intros [H1|[-> H1]] [H2|[-> H2]]; auto.
    + left. by eapply (dir_trans val_lt val_lt_trans).
    + right. split; [done|]. by eapply (dir_trans String.ltb str_ltb_trans).
  - apply (dir_trans String.ltb str_ltb_trans).
Qed.

Lemma pos_lt_total d x y : pos_lt d x y = true ∨ x = y ∨ pos_lt d y x = true.
Proof.
  rewrite !pos_lt_spec. destruct x as [[v|] i], y as [[w|] j]; simpl; auto.
  - destruct (dir_total val_lt val_lt_total d v w) as [H|[->|H]]; rewrite ?H; simpl; auto.
    rewrite !(bool_decide_true (w = w)) by done. rewrite !(dir_irrefl val_lt val_lt_irrefl). simpl.
    destruct (dir_total String.ltb str_ltb_total d i j) as [?|[->|?]]; auto.
  - destruct (dir_total String.ltb str_ltb_total d i j) as [?|[->|?]]; auto.
Qed.

Lemma pos_lt_asym d x y : pos_lt d x y = true → pos_lt d y x = false.
Proof.
  intros H. apply not_true_iff_false. intros H'. pose proof (pos_lt_trans _ _ _ _ H H') as E. by rewrite pos_lt_irrefl in E.
Qed.

(** ** The list in order *)

Lemma filter_agree {A} (P Q : A → Prop) `{!∀ x, Decision (P x), !∀ x, Decision (Q x)} (l : list A) :
  (∀ x, x ∈ l → P x ↔ Q x) → filter P l = filter Q l.
Proof.
  induction l as [|x l IH]; intros HPQ; [done|]. rewrite !filter_cons. assert (E : P x ↔ Q x) by (apply HPQ; left).
  rewrite IH by (intros y Hy; apply HPQ; by right). destruct (decide (P x)), (decide (Q x)); tauto.
Qed.

Section ordered.
Context (uploaded_at : uuid → Z) (type_rank : AssetType → Z) (desc : bool) (k : OrderKey).
Notation pos := (position uploaded_at type_rank k).
Notation leb := (before_row uploaded_at type_rank desc k).
Notation R := (λ x y : Asset, leb x y = true).

Lemma leb_spec x y : leb x y = true ↔ pos x = pos y ∨ pos_lt desc (pos x) (pos y) = true.
Proof.
  unfold before_row. rewrite negb_true_iff. split.
  - intros H. destruct (pos_lt_total desc (pos x) (pos y)) as [?|[?|?]]; [by right|by left|congruence].
  - intros [->|H]; [apply pos_lt_irrefl|by apply pos_lt_asym].
Qed.
Lemma leb_total x y : leb x y = true ∨ leb y x = true.
Proof. rewrite !leb_spec. destruct (pos_lt_total desc (pos x) (pos y)) as [?|[->|?]]; auto. Qed.
#[local] Instance leb_trans : Transitive R.
Proof.
  intros x y z. rewrite !leb_spec. intros [->|H1] [E|H2]; [by left|by right|right; by rewrite <-E|right; by eapply pos_lt_trans].
Qed.

Lemma same_row (rows : list Asset) x y : NoDup (a_id <$> rows) → x ∈ rows → y ∈ rows → a_id x = a_id y → x = y.
Proof.
  intros Hnd [i Hi]%list_elem_of_lookup [j Hj]%list_elem_of_lookup E.
  assert (i = j) as ->; [|congruence].
  eapply (NoDup_lookup _ _ _ (a_id x) Hnd); rewrite list_lookup_fmap; [by rewrite Hi|by rewrite Hj, E].
Qed.

Lemma leb_antisym (rows : list Asset) x y : NoDup (a_id <$> rows) → x ∈ rows → y ∈ rows → leb x y = true → leb y x = true → x = y.
Proof.
  intros Hnd Hx Hy H1 H2. apply leb_spec in H1, H2. apply (same_row rows); [done|done|done|].
  destruct H1 as [[= _ ?]|H1]; [done|]. destruct H2 as [[= _ ?]|H2]; [done|]. apply pos_lt_asym in H1. congruence.
Qed.

Lemma StronglySorted_filter (P : Asset → Prop) `{!∀ x, Decision (P x)} l : StronglySorted R l → StronglySorted R (filter P l).
Proof.
  induction 1 as [|x l Hl IH Hall]; [constructor|]. rewrite filter_cons. case_decide; [|done]. constructor; [done|].
  rewrite Forall_forall in *. intros y [_ Hy]%list_elem_of_filter. by apply Hall.
Qed.

(** Filtering commutes with sorting. *)
Lemma filter_sort_on (P : Asset → Prop) `{!∀ x, Decision (P x)} rows :
  NoDup (a_id <$> rows) → filter P (sort_on leb rows) = sort_on leb (filter P rows).
Proof.
  intros Hnd. assert (Hs : ∀ l, StronglySorted R (sort_on leb l)) by (intros l; apply Sorted_StronglySorted; [apply leb_trans|apply sort_on_Sorted, leb_total]).
  apply (StronglySorted_unique_strong R); [|by apply StronglySorted_filter|apply Hs|].
  - intros x y [_ Hx]%list_elem_of_filter Hy. rewrite sort_on_Permutation in Hx. rewrite sort_on_Permutation in Hy.
    apply list_elem_of_filter in Hy as [_ Hy]. by apply (leb_antisym rows).
  - by rewrite !sort_on_Permutation.
Qed.

(** What the cursor predicate leaves is what follows the row of the cursor. *)
Lemma after_cursor l1 c l2 :
  NoDup (a_id <$> (l1 ++ c :: l2)) → StronglySorted R (l1 ++ c :: l2) →
  filter (λ a, pos_lt desc (pos c) (pos a) = true) (l1 ++ c :: l2) = l2.
Proof.
  intros Hnd Hs. rewrite filter_app, filter_cons. rewrite (decide_False (P := pos_lt desc (pos c) (pos c) = true)) by (by rewrite pos_lt_irrefl).
  assert (H1 : filter (λ a, pos_lt desc (pos c) (pos a) = true) l1 = []).
  { apply elem_of_nil_inv. intros x [Hx Hin]%list_elem_of_filter. apply list_elem_of_split in Hin as (p & q & ->).
    rewrite <-app_assoc in Hs. apply StronglySorted_app in Hs as (_ & _ & Hs). simpl in Hs.
    apply StronglySorted_inv in Hs as [_ Hall]. rewrite Forall_forall in Hall. specialize (Hall c ltac:(set_solver)).
    unfold before_row in Hall. by rewrite Hx in Hall. }
  rewrite H1. simpl. clear H1.
  assert (Hall : ∀ y, y ∈ l2 → pos_lt desc (pos c) (pos y) = true).
  { intros y Hy. assert (HR : leb c y = true) by (eapply (StronglySorted_app_1_elem_of R (l1 ++ [c]) l2); [by rewrite <-app_assoc|set_solver|done]).
    apply leb_spec in HR as [[= _ E]|?]; [|done]. exfalso. rewrite fmap_app, fmap_cons in Hnd.
    apply NoDup_app in Hnd as (_ & _ & Hnd). apply NoDup_cons in Hnd as [Hn _]. apply Hn. rewrite E. by apply list_elem_of_fmap_2. }
  clear Hnd Hs. induction l2 as [|y l2 IH]; [done|]. rewrite filter_cons, decide_True by (apply Hall; left). f_equal. apply IH.
  intros z Hz. apply Hall. by right.
Qed.

(** ** Following the cursors *)

Context (keep : Asset → bool) (rows : list Asset) (page_size : nat).
Hypothesis Hids : NoDup (a_id <$> rows).
Hypothesis Hsize : (0 < page_size)%nat.
Hypothesis Hnull : ∀ a, a ∈ rows → keep a = true → is_Some (order_value uploaded_at type_rank k a).

Definition sorted_rows : list Asset := sort_on leb (filter (λ a, keep a = true) rows).
Definition cursor_at (seen : list Asset) : option (option OVal * uuid) := pos <$> last seen.

Lemma sorted_in a : a ∈ sorted_rows ↔ a ∈ rows ∧ keep a = true.
Proof. unfold sorted_rows. rewrite sort_on_Permutation, list_elem_of_filter. naive_solver. Qed.
Lemma sorted_ids : NoDup (a_id <$> sorted_rows).
Proof.
  unfold sorted_rows. rewrite sort_on_Permutation. clear Hnull. induction rows as [|a l IH]; [constructor|].
  rewrite fmap_cons in Hids. apply NoDup_cons in Hids as [Ha Hl]. rewrite filter_cons. case_decide; [|by apply IH].
  rewrite fmap_cons. constructor; [|by apply IH]. intros (b & E & [_ Hb]%list_elem_of_filter)%list_elem_of_fmap. apply Ha. rewrite E.
  by apply list_elem_of_fmap_2.
Qed.
Lemma sorted_sorted : StronglySorted R sorted_rows.
Proof. apply Sorted_StronglySorted; [apply leb_trans|apply sort_on_Sorted, leb_total]. Qed.

(** The rows a request with the cursor after [seen] finds, in order. *)
Lemma cursor_rows seen rest cur :
  sorted_rows = seen ++ rest → cursor_clause uploaded_at type_rank desc k (cursor_at seen) = Ok cur →
  sort_on leb (filter (λ a, keep a && cur a = true) rows) = rest.
Proof.
  intros E Hc. unfold cursor_at in Hc. destruct seen as [|c seen _] using rev_ind.
  - simpl in Hc. injection Hc as <-. simpl in E. rewrite <-E. unfold sorted_rows. f_equal. apply list_filter_iff. intros a. by rewrite andb_true_r.
  - rewrite last_snoc in Hc. simpl in Hc. unfold position at 1 in Hc.
    assert (Hin : c ∈ sorted_rows) by (rewrite E; set_solver). apply sorted_in in Hin as [Hin Hk].
    destruct (Hnull c Hin Hk) as [v Hv]. rewrite Hv in Hc. simpl in Hc. injection Hc as <-.
    rewrite <-app_assoc in E. simpl in E. pose proof (after_cursor seen c rest) as A. rewrite <-E in A. rewrite <-(A sorted_ids sorted_sorted).
    unfold sorted_rows. rewrite filter_sort_on by (pose proof sorted_ids as S; unfold sorted_rows in S; by rewrite sort_on_Permutation in S).
    f_equal. rewrite list_filter_filter. apply filter_agree. intros a Ha. rewrite andb_true_iff. split.
    + intros [H1 H2]. apply andb_true_iff in H2 as [_ H2]. split; [|done]. unfold position. by rewrite Hv.
    + intros [H1 H2]. split; [done|]. apply andb_true_iff. split; [by apply bool_decide_eq_true, Hnull|]. unfold position in H1. by rewrite Hv in H1.
Qed.

Notation page cur := (page_of uploaded_at type_rank page_size desc k keep cur rows).

(** A page is the next stretch of the list, and its cursor stands after it. *)
Lemma page_spec seen rest cur :
  sorted_rows = seen ++ rest → cursor_clause uploaded_at type_rank desc k (cursor_at seen) = Ok cur →
  pg_items (page cur) = take page_size rest ∧ pg_total (page cur) = length sorted_rows ∧
  pg_next (page cur) = if (page_size <? length rest)%nat then cursor_at (seen ++ take page_size rest) else None.
Proof.
  intros E Hc. unfold page_of. simpl. rewrite (cursor_rows seen rest cur E Hc). rewrite take_take, Nat.min_l by lia.
  split; [done|]. split.
  - unfold sorted_rows. by rewrite (Permutation_length (sort_on_Permutation _ _)).
  - rewrite length_take. destruct (Nat.ltb_spec page_size (length rest)) as [L|L].
    + rewrite (proj2 (Nat.ltb_lt _ _)) by lia. unfold cursor_at. destruct (take page_size rest) as [|x l] eqn:T.
      * apply (f_equal length) in T. rewrite length_take in T. simpl in T. lia.
      * rewrite last_app. simpl. by destruct (last_is_Some (x :: l)) as [_ [y ->]].
    + rewrite (proj2 (Nat.ltb_ge _ _)) by lia. done.
Qed.

Lemma cursor_ok seen rest : sorted_rows = seen ++ rest → ∃ cur, cursor_clause uploaded_at type_rank desc k (cursor_at seen) = Ok cur.
Proof.
  intros E. unfold cursor_at. destruct (last seen) as [c|] eqn:L; simpl; [|by eexists].
  assert (Hin : c ∈ sorted_rows) by (rewrite E; apply elem_of_app; left; by apply last_Some_elem_of).
  apply sorted_in in Hin as [Hin Hk]. destruct (Hnull c Hin Hk) as [v Hv]. unfold position. rewrite Hv. by eexists.
Qed.
End ordered.

(** C17. The library page by page: a client that follows [next_cursor] from the first page reaches an end, and the pages
    put together are exactly the rows its filters and its visibility select, each once, in the requested order (ties by
    id); no page is longer than asked for and each reports the full number of matches.  The order column must be set on
    every matching row: only [duration_seconds] can be NULL. *)
Theorem pages_complete (uploaded_at : uuid → Z) (type_rank : AssetType → Z) (now : Z) (uid : uuid) (user : User) (adb : AuthDb)
    (f : Filters) (order : string) (page_size : nat) (sh : Shelf) (desc : bool) (k : OrderKey) (types : list AssetType)
    (visible : option (gset uuid)) :
  let keep := filter_clauses uploaded_at now visible types f sh in
  parse_order order = Ok (desc, k) → mapM type_of_value (fi_types f) = Some types → _visible_asset_ids uid user adb sh = Ok visible →
  (∀ u, fi_usage f = Some u → u ∈ ["used"; "unused"]) → (0 < page_size)%nat → NoDup (a_id <$> sh_assets sh) →
  (∀ a, a ∈ sh_assets sh → keep a = true → is_Some (order_value uploaded_at type_rank k a)) →
  ∃ pages, browse uploaded_at type_rank now (S (length (sh_assets sh))) uid user adb f order page_size sh None = Some (Ok pages) ∧
    concat (pg_items <$> pages) = sort_on (before_row uploaded_at type_rank desc k) (filter (λ a, keep a = true) (sh_assets sh)) ∧
    ∀ p, p ∈ pages → (length (pg_items p) ≤ page_size)%nat ∧ pg_total p = length (filter (λ a, keep a = true) (sh_assets sh)).
Proof.
  intros keep Ho Ht Hv Hu Hsize Hids Hnull. set (rows := sh_assets sh) in *.
  set (L := sorted_rows uploaded_at type_rank desc k keep rows).
  assert (HL : length L = length (filter (λ a, keep a = true) rows)) by (unfold L, sorted_rows; by rewrite sort_on_Permutation).
  assert (Hreq : ∀ seen rest, L = seen ++ rest → ∃ p, list_assets_paged uploaded_at type_rank now uid user adb f order (cursor_at uploaded_at type_rank k seen) page_size sh = Ok p ∧
    pg_items p = take page_size rest ∧ pg_total p = length L ∧
    pg_next p = if (page_size <? length rest)%nat then cursor_at uploaded_at type_rank k (seen ++ take page_size rest) else None).
  { intros seen rest E. destruct (cursor_ok uploaded_at type_rank desc k keep rows Hnull seen rest E) as [cur Hc].
    eexists. split; [|by apply (page_spec uploaded_at type_rank desc k keep rows page_size Hids Hsize Hnull seen rest cur)].
    unfold list_assets_paged. rewrite Ho. simpl. rewrite Ht, Hv. simpl.
    destruct (fi_usage f) as [u|]; [rewrite (bool_decide_true _ (Hu u eq_refl)); simpl|]; rewrite Hc; done. }
  assert (Hwalk : ∀ fuel seen rest, L = seen ++ rest → (length rest < fuel)%nat → ∃ pages,
    browse uploaded_at type_rank now fuel uid user adb f order page_size sh (cursor_at uploaded_at type_rank k seen) = Some (Ok pages) ∧
    concat (pg_items <$> pages) = rest ∧ ∀ p, p ∈ pages → (length (pg_items p) ≤ page_size)%nat ∧ pg_total p = length L).
  { intros fuel. induction fuel as [|fuel IH]; intros seen rest E Hf; [lia|].
    destruct (Hreq seen rest E) as (p & Hp & Hi & Htot & Hn). simpl. rewrite Hp, Hn.
    assert (Hlen : (length (pg_items p) ≤ page_size)%nat) by (rewrite Hi, length_take; lia).
    destruct (Nat.ltb_spec page_size (length rest)) as [Hlt|Hge].
    - assert (E' : L = (seen ++ take page_size rest) ++ drop page_size rest) by (by rewrite <-app_assoc, take_drop).
      destruct (IH _ _ E') as (pages & Hb & Hc & Hall); [rewrite length_drop; lia|]. exists (p :: pages).
      assert (Hs : is_Some (last (seen ++ take page_size rest))).
      { apply last_is_Some. intros [_ X]%app_eq_nil. apply (f_equal length) in X. rewrite length_take in X. simpl in X. lia. }
      destruct Hs as [c Hs]. unfold cursor_at in Hb |- *. rewrite Hs in Hb |- *. simpl in Hb |- *. rewrite Hb. split; [done|].
      change (list_fmap Page (list Asset) pg_items pages) with (pg_items <$> pages). rewrite Hc, Hi, take_drop. split; [done|]. intros q [->|Hq]%elem_of_cons; auto.
    - exists [p]. split; [done|]. simpl. rewrite Hi, app_nil_r, take_ge by lia. split; [done|]. intros q ->%list_elem_of_singleton. auto. }
  destruct (Hwalk (S (length rows)) [] L eq_refl) as (pages & Hb & Hc & Hall).
  { rewrite HL. pose proof (length_filter (λ a, keep a = true) rows). lia. }
  exists pages. split; [done|]. split; [done|]. intros p Hp. rewrite <-HL. by apply Hall.
Qed.

(** ** Where browsing goes wrong *)

Definition no_filter : Filters := mkFilters "" [] [] [] [] None None None.
Definition clocked (id : uuid) (ms : option Z) : Asset := mkAsset id (id +:+ ".mp4") None None VIDEO 1 "c" None ms false None None.
(** Two films with a known length, two that are still being processed. *)
Definition half_probed : Shelf :=
  mkShelf (mkLib [] (mkMedia [clocked "a" (Some 1000); clocked "b" None; clocked "c" (Some 3000); clocked "d" None] [] [] [] []) (mkStore ∅ []) [] [] [] [] [] [] ∅)
    ∅ ∅ ∅ [] [].
Definition page_ids (b : option (result exn (list Page))) : result exn (list (list uuid)) :=
  match b with Some (Ok l) => Ok ((λ p, a_id <$> pg_items p) <$> l) | Some (Err e) => Err e | None => Err RuntimeError end.
Definition item_ids (r : result exn Page) : result exn (list uuid) := match r with Ok p => Ok (a_id <$> pg_items p) | Err e => Err e end.
Definition rank0 (_ : AssetType) : Z := 0.
Definition stamp0 (_ : uuid) : Z := 0.

(** Ordered by duration, the rows whose duration is not known yet come last; behind a cursor they are lost. *)
Example unknown_durations_lost :
  page_ids (browse stamp0 rank0 0 5 "root" root_user library_users no_filter "duration_seconds" 1 half_probed None) = Ok [["a"]; ["c"]].
Proof. vm_compute. reflexivity. Qed.

(** When the first page ends in such a row its cursor is null, and the next request fails. *)
Example null_cursor_raises :
  page_ids (browse stamp0 rank0 0 5 "root" root_user library_users no_filter "duration_seconds" 3 half_probed None) = Err ArgumentError.
Proof. vm_compute. reflexivity. Qed.

(** One tag block in one live deck puts a NULL into the NOT IN list: nothing is unused any more. *)
Definition tag_block_row : SlideshowSlide := mkSlide "deck" (K_TAG (Some "t1")) 0 5000 false "cut" 600 None None "cover" "none" "in" always None None.
Definition with_decks (rows : list SlideshowSlide) : Shelf :=
  mkShelf (mkLib [] (mkMedia [picture "pic"; deck] [] rows [] []) (mkStore ∅ []) [] [] [] [] [] [] ∅) ∅ ∅ ∅ ["t1"] [].
Example tag_block_hides_unused :
  let unused := mkFilters "" ["image"] [] [] [] None None (Some "unused") in
  let ids sh := item_ids (list_assets_paged stamp0 rank0 0 "root" root_user library_users unused "display_name" None 50 sh) in
  ids (with_decks []) = Ok ["pic"] ∧ ids (with_decks [tag_block_row]) = Ok [].
Proof. split; vm_compute; reflexivity. Qed.

(** The search text is a LIKE pattern: an underscore finds everything. *)
Example search_is_a_pattern :
  item_ids (list_assets_paged stamp0 rank0 0 "root" root_user library_users (mkFilters "_" [] [] [] [] None None None) "display_name" None 50 half_probed)
  = Ok ["a"; "b"; "c"; "d"].
Proof. vm_compute. reflexivity. Qed.

(** ** Witnesses *)

Lemma pages_complete_witness :
  ∃ pages, browse stamp0 rank0 0 5 "root" root_user library_users no_filter "-display_name" 3 half_probed None = Some (Ok pages) ∧
    length (concat (pg_items <$> pages)) = 4%nat.
Proof.
  destruct (pages_complete stamp0 rank0 0 "root" root_user library_users no_filter "-display_name" 3 half_probed true O_DISPLAY_NAME [] None)
    as (pages & Hb & Hc & _).
  - by vm_compute.
  - by vm_compute.
  - by vm_compute.
  - done.
  - lia.
  - apply (bool_decide_unpack _). by vm_compute.
  - intros a _ _. by eexists.
  - exists pages. split; [exact Hb|]. rewrite Hc. by vm_compute.
Defined.
