(* ===== verification/Intake.v ===== *)
(** * How assets enter the library and are edited (cms/routers/assets.py)

    Uploads, web pages, streams, edits and recaptures, on the tables of [Shelf].
    The bytes of a file, its conversion to JPEG, what the probe finds and the
    digests are arguments. *)

From S2P Require Import Prelude Clock PyText Models Database Samples AssetReadiness Jobs Variants Slideshow Access Slides Library.
Open Scope Z_scope.

(** ** URLs ([urllib.parse] as the handlers use it) *)

(** [s.partition(c)]: the text before the first [c] and, if there is one, the text after it. *)
Fixpoint str_partition (c : ascii) (s : string) : string * option string :=
  match s with
  | EmptyString => ("", None)
  | String x s' => if bool_decide (x = c) then ("", Some s') else let r := str_partition c s' in (String x r.1, r.2)
  end.
(** [s.rpartition(c)[2]]: the text after the last [c], or all of it. *)
Fixpoint rpartition_tail (c : ascii) (s : string) : string :=
  match str_partition c s with
  | (_, None) => s
  | _ => match s with EmptyString => s | String _ s' => rpartition_tail c s' end
  end.
(** Splits before the first character that satisfies [p]. *)
Fixpoint str_span (p : ascii → bool) (s : string) : string * string :=
  match s with
  | EmptyString => ("", "")
  | String x s' => if p x then ("", s) else let r := str_span p s' in (String x r.1, r.2)
  end.

Record Parsed := mkParsed { pu_scheme : string; pu_netloc : string; pu_path : string }.

(** Line breaks and tabs anywhere are dropped before the URL is taken apart. *)
Definition unsafe_url_char (c : ascii) : bool := existsb (λ n, bool_decide (c = Ascii.ascii_of_nat n)) [9; 10; 13]%nat.
Definition has_char (c : ascii) (s : string) : bool := bool_decide (is_Some (str_partition c s).2).
(** The parameters of the last segment are no part of the path. *)
Definition split_params (path : string) : string :=
  match before_last "/"%char path with
  | Some dir => dir +:+ "/" +:+ (str_partition ";" (rpartition_tail "/" path)).1
  | None => (str_partition ";" path).1
  end.
(** [uses_params] of the module. *)
Definition uses_params (scheme : string) : bool := bool_decide (scheme ∈ ["http"; "https"; "rtsp"; "mms"]).

Section urls.
(** Which host in brackets [ipaddress] accepts. *)
Context (bracket_ok : string → bool).

(** [urlparse] of a text that starts with [scheme://]; unbalanced brackets and bad hosts in them raise. *)
Definition urlparse (scheme rest : string) : result exn Parsed :=
  let url := str_filter (λ c, negb (unsafe_url_char c)) rest in
  let '(netloc, tail) := str_span (λ c, bool_decide (c ∈ ["/"; "?"; "#"]%char)) url in
  if negb (Bool.eqb (has_char "[" netloc) (has_char "]" netloc)) then Err (ValueError "Invalid IPv6 URL")
  else if has_char "[" netloc && negb (bracket_ok netloc) then Err (ValueError "Invalid IPv6 URL")
  else
    let path := (str_partition "?" (str_partition "#" tail).1).1 in
    Ok (mkParsed scheme netloc (if uses_params scheme then split_params path else path)).

(** [parsed.hostname or ""]. *)
Definition hostname (netloc : string) : string :=
  let hostinfo := rpartition_tail "@" netloc in
  let name := match str_partition "[" hostinfo with
              | (_, Some bracketed) => (str_partition "]" bracketed).1
              | (_, None) => (str_partition ":" hostinfo).1
              end in
  match str_partition "%" name with
  | (host, Some zone) => str_lower host +:+ "%" +:+ zone
  | (host, None) => str_lower host
  end.

Definition _blocked : list string := ["localhost"; "127.0.0.1"; "::1"; "0.0.0.0"].
Definition blocked_host (netloc : string) : bool :=
  bool_decide (hostname netloc ∈ _blocked) || str_endswith ".local" (hostname netloc).

(** The scheme in front of [://], among those allowed, and the rest. *)
Fixpoint scheme_of (allowed : list string) (url : string) : option (string * string) :=
  match allowed with
  | [] => None
  | s :: rest => match str_drop_prefix (s +:+ "://") url with Some t => Some (s, t) | None => scheme_of rest url end
  end.

Definition _validate_webpage_url (raw : string) : result exn (string * Parsed) :=
  let url := str_strip raw in
  if bool_decide (url = "") then Err (HTTPException 400)
  else match scheme_of ["http"; "https"] url with
       | None => Err (HTTPException 400)
       | Some (scheme, rest) =>
           if (2048 <? String.length url)%nat then Err (HTTPException 400)
           else
             parsed ← urlparse scheme rest;
             if bool_decide (pu_netloc parsed = "") || negb (has_char "." (pu_netloc parsed)) then Err (HTTPException 400)
             else if blocked_host (pu_netloc parsed) then Err (HTTPException 400)
             else Ok (url, parsed)
       end.

End urls.

(** ** New assets *)

(** [ALLOWED_PATTERN]; [$] also matches before a final line break, and letter case does not matter. *)
Definition name_char (c : ascii) : bool :=
  let n := Ascii.nat_of_ascii c in
  ((48 <=? n) && (n <=? 57) || (65 <=? n) && (n <=? 90) || (97 <=? n) && (n <=? 122))%nat ||
  bool_decide (c = "_"%char) || bool_decide (c = "-"%char).
Definition EXTENSIONS : list string :=
  ["mp4"; "mov"; "mkv"; "avi"; "webm"; "ts"; "m4v"; "jpg"; "jpeg"; "png"; "heif"; "heic"; "avif"; "webp"; "gif"; "bmp"; "tiff"; "tif"].
Definition drop_final_newline (s : string) : string :=
  match before_last "010"%char s with Some t => if bool_decide (s = t +:+ String "010" "") then t else s | None => s end.
Definition allowed_filename (s : string) : bool :=
  let s := drop_final_newline s in
  match before_last "."%char s with
  | Some (String c stem) =>
      name_char c && (String.length stem <=? 200)%nat &&
      str_all (λ x, name_char x || bool_decide (x = "."%char) || bool_decide (x = " "%char)) stem &&
      bool_decide (str_lower (rpartition_tail "." s) ∈ EXTENSIONS)
  | _ => false
  end.

Definition MAX_UPLOAD_BYTES : Z := 2 * 1024 * 1024 * 1024.
Definition IMAGE_CONVERT_EXTS : list string := [".heif"; ".heic"; ".avif"; ".webp"; ".bmp"; ".tiff"; ".tif"; ".gif"].
Definition _asset_type (filename : string) : AssetType :=
  if bool_decide (str_lower (rpartition_tail "." filename) ∈ ["mp4"; "mov"; "mkv"; "avi"; "webm"; "ts"; "m4v"]) then VIDEO else IMAGE.

Definition store_file (name : string) (lib : Lib) : Lib := set_files ({[name]} ∪ lb_files lib) lib.
Definition remove_file (name : string) (lib : Lib) : Lib := set_files (lb_files lib ∖ {[name]}) lib.

(** The bytes of a file: their number and their digest. *)
Record Content := mkContent { ct_size : Z; ct_checksum : string }.

Section creation.
Context (bracket_ok : string → bool) (md5_6 : string → string) (now : Z) (uid : uuid) (user : User) (adb : AuthDb).

(** The name, the content and the stored files of an upload; [converted] is the JPEG, if the conversion works. *)
Definition receive_file (hex8 jpeg_hex8 filename : string) (content : Content) (converted : option Content) (sh : Shelf)
    : Shelf * result exn (AssetType * string * option string * Content) :=
  let stored := _unique_filename hex8 filename 1000 sh in
  if MAX_UPLOAD_BYTES <? ct_size content then (sh, Err (HTTPException 413))
  else
    let sh1 := with_lib (store_file stored (sh_lib sh)) sh in
    if bool_decide (_asset_type stored = IMAGE) && bool_decide ("." +:+ str_lower (rpartition_tail "." stored) ∈ IMAGE_CONVERT_EXTS) then
      let jpeg := _unique_filename jpeg_hex8 (path_stem stored +:+ ".jpg") 1000 sh in
      match converted with
      | None => (with_lib (remove_file stored (sh_lib sh1)) sh1, Err (HTTPException 422))
      | Some c => (with_lib (store_file jpeg (store_file ("originals/" +:+ stored) (remove_file stored (sh_lib sh1)))) sh1, Ok (_asset_type stored, jpeg, Some filename, c))
      end
    else (sh1, Ok (_asset_type stored, stored, if bool_decide (stored = filename) then None else Some filename, content)).

Definition with_duration (d : option Z) (a : Asset) : Asset :=
  mkAsset (a_id a) (a_filename a) (a_original_filename a) (a_display_name a) (a_asset_type a) (a_size_bytes a) (a_checksum a) (a_url a)
    (match d with Some _ => d | None => a_duration_ms a end) (a_shuffle a) (a_slideshow_anchor_at a) (a_deleted_at a).

(** [probe]: the duration the probe reads; [gen], [jgen]: the ids of the variants and of the jobs.  The files stay when
    a later step refuses the request; the row stays when the enqueueing fails. *)
Definition upload_asset (aid : uuid) (hex8 jpeg_hex8 filename : string) (content : Content) (converted : option Content) (probe : option Z)
    (gen : nat → uuid) (jgen : nat → uuid * uuid) (raw_ids : list string) (sh : Shelf) : Shelf * result exn Asset :=
  if negb (allowed_filename filename) then (sh, Err (HTTPException 400))
  else match receive_file hex8 jpeg_hex8 filename content converted sh with
  | (sh1, Err e) => (sh1, Err e)
  | (sh1, Ok (t, final, original, c)) =>
      match (user_groups ← get_user_group_ids uid user adb;
             resolved ← resolve_groups user_groups raw_ids;
             let make_global := bool_decide (resolved = []) && bool_decide (user_groups = None) in
             insert_asset (mkAsset aid final original None t (ct_size c) (ct_checksum c) None None false None None) make_global uid resolved [] sh1) with
      | Err e => (sh1, Err e)
      | Ok sh2 =>
          let sh3 := set_rows (update_asset_row aid (with_duration probe) sh2) (sh_slides sh2) sh2 in
          match live_asset aid sh3 with
          | None => (sh3, Err RuntimeError)
          | Some asset =>
              let '(lib, ids) := _enqueue_transcoding_for_asset gen now asset (sh_lib sh3) in
              match enqueue_variants jgen now ids lib with
              | Err e => (with_lib lib sh3, Err e)
              | Ok (lib', _) => (with_lib lib' sh3, Ok asset)
              end
          end
      end
  end.

(** The name of a page or a stream: the given one, or one taken from the URL; the digits keep two of them apart. *)
Definition link_name (given : string) (url : string) (parsed : Parsed) (sh : Shelf) : string :=
  let name := str_strip given in
  let name := if bool_decide (name = "")
              then String.substring 0 200 (pu_netloc parsed +:+ (if bool_decide (pu_path parsed = "/") then "" else pu_path parsed))
              else name in
  if existsb (λ a, bool_decide (a_filename a = name ∧ a_deleted_at a = None)) (sh_assets sh) then name +:+ " (" +:+ md5_6 url +:+ ")" else name.

Definition insert_link (aid : uuid) (name url : string) (t : AssetType) (raw_ids : list string) (sh : Shelf) : result exn Shelf :=
  user_groups ← get_user_group_ids uid user adb;
  resolved ← resolve_groups user_groups raw_ids;
  insert_asset (mkAsset aid name None None t 0 "" (Some url) None false None None)
    (bool_decide (resolved = []) && bool_decide (user_groups = None)) uid resolved [] sh.

(** A failed snapshot does not fail the request. *)
Definition best_effort (gen : nat → uuid) (jgen : nat → uuid * uuid) (aid : uuid) (sh : Shelf) : Shelf :=
  match live_asset aid sh with
  | Some a => match enqueue_composed_thumbnail gen jgen now a (sh_lib sh) with Ok (lib, _) => with_lib lib sh | Err _ => sh end
  | None => sh
  end.

Definition create_webpage_asset (aid : uuid) (url name : string) (gen : nat → uuid) (jgen : nat → uuid * uuid) (raw_ids : list string)
    (sh : Shelf) : result exn Shelf :=
  u ← _validate_webpage_url bracket_ok url;
  sh1 ← insert_link aid (link_name name u.1 u.2 sh) u.1 WEBPAGE raw_ids sh;
  Ok (best_effort gen jgen aid sh1).


(** ** Edits *)

(** [(body[key] or "").strip()], empty meaning NULL. *)
Definition text_column (max : nat) (v : option string) : result exn (option string) :=
  let t := str_strip (default "" v) in
  if (max <? String.length t)%nat then Err (HTTPException 400) else Ok (if bool_decide (t = "") then None else Some t).

Definition with_texts (display_name : option (option string)) (url : option string) (a : Asset) : Asset :=
  mkAsset (a_id a) (a_filename a) (a_original_filename a) (default (a_display_name a) display_name) (a_asset_type a) (a_size_bytes a)
    (a_checksum a) (match url with Some _ => url | None => a_url a end) (a_duration_ms a) (a_shuffle a) (a_slideshow_anchor_at a) (a_deleted_at a).

(** An outer [None] is a key the body does not have. *)
Definition update_asset (aid : uuid) (display_name description url : option (option string)) (gen : nat → uuid) (jgen : nat → uuid * uuid)
    (sh : Shelf) : result exn Shelf :=
  match live_asset aid sh with
  | None => Err (HTTPException 404)
  | Some asset =>
      name ← match display_name with None => Ok None | Some v => t ← text_column 255 v; Ok (Some t) end;
      desc ← match description with None => Ok None | Some v => t ← text_column 2000 v; Ok (Some t) end;
      new_url ← match url with
                | None => Ok None
                | Some v => if negb (bool_decide (a_asset_type asset = WEBPAGE)) then Err (HTTPException 400)
                            else u ← _validate_webpage_url bracket_ok (default "" v); Ok (Some u.1)
                end;
      let sh1 := set_rows (update_asset_row aid (with_texts name new_url) sh) (sh_slides sh) sh in
      let sh2 := match desc with
                 | None => sh1
                 | Some d => mkShelf (sh_lib sh1) (sh_global sh1) (sh_uploader sh1) (partial_alter (λ _, d) aid (sh_description sh1)) (sh_tags sh1) (sh_group_rows sh1)
                 end in
      Ok (if bool_decide (is_Some new_url) && negb (bool_decide (new_url = a_url asset)) then best_effort gen jgen aid sh2 else sh2)
  end.


End creation.

(** ** Every way in keeps the library consistent *)

(** The tables the audience rule is about are the same. *)
Definition same_tables (lib lib' : Lib) : Prop :=
  lb_assets lib' = lb_assets lib ∧ m_slides (lb_media lib') = m_slides (lb_media lib) ∧ lb_group_assets lib' = lb_group_assets lib.

Lemma same_refl lib : same_tables lib lib.
Proof. done. Qed.


Section steps.
Context (sha256 : string → string) (bracket_ok : string → bool) (md5_6 : string → string) (now : Z) (uid : uuid) (user : User) (adb : AuthDb).
Notation steps := (rtc (lib_step sha256)).










End steps.





(** ** What an accepted URL may still be *)

Definition any_bracket (_ : string) : bool := true.
Example url_parts :
  urlparse any_bracket "http" "user:pw@Example.COM:8080/a/b;x?q=1#f" = Ok (mkParsed "http" "user:pw@Example.COM:8080" "/a/b") ∧
  hostname "user:pw@Example.COM:8080" = "example.com" ∧ is_ok (_validate_webpage_url any_bracket " https://example.com ") = true.
Proof. split_and!; vm_compute; reflexivity. Qed.

(** Loopback addresses that are not on the list of four: the trailing dot, the short form, the mapped address. *)
Example loopback_accepted :
  (is_ok ∘ _validate_webpage_url any_bracket) <$>
    ["http://localhost/"; "http://127.0.0.1/"; "http://localhost./"; "http://127.1/"; "http://127.0.0.2/"; "http://[::ffff:127.0.0.1]/"] =
  [false; false; true; true; true; true].
Proof. vm_compute. reflexivity. Qed.

(** An open bracket is not refused but raises. *)
Example bracket_raises : _validate_webpage_url any_bracket "http://[a.b" = Err (ValueError "Invalid IPv6 URL").
Proof. vm_compute. reflexivity. Qed.

(** The names of deleted rows are not looked at, and the third page of one name collides with the second. *)
Definition gen0 (_ : nat) : uuid := "v".
Definition jgen0 (_ : nat) : uuid * uuid := ("j", "o").
Definition digits (_ : string) : string := "abcdef".
Definition add_page (aid : uuid) (sh : Shelf) : result exn Shelf :=
  create_webpage_asset any_bracket digits 0 "root" root_user members_g aid "http://example.com/" "" gen0 jgen0 [] sh.
Example third_page_raises :
  let two := add_page "p1" shelf_g ≫= add_page "p2" in is_ok two = true ∧ two ≫= add_page "p3" = Err IntegrityError.
Proof. split; vm_compute; reflexivity. Qed.
Example deleted_name_raises :
  let deleted := add_page "p1" shelf_g ≫= delete_asset_endpoint 5 "root" root_user members_g "p1" in
  is_ok deleted = true ∧ deleted ≫= add_page "p2" = Err IntegrityError.
Proof. split; vm_compute; reflexivity. Qed.

(** A user who cannot see an asset renames it: the endpoint does not ask for access. *)
Definition private_shelf : Shelf := mkShelf empty_lib ∅ (sh_uploader shelf) ∅ ["t1"] [G1].
Example invisible_asset_renamed :
  _verify_asset_access "ann" ann members_g "pic" private_shelf = Err (HTTPException 403) ∧
  match update_asset any_bracket 0 "pic" (Some (Some "mine")) None None gen0 jgen0 private_shelf with
  | Ok sh' => a_display_name <$> live_asset "pic" sh'
  | Err _ => None
  end = Some (Some "mine").
Proof. split; vm_compute; reflexivity. Qed.

(** The pattern that keeps names safe lets a final line break through. *)
Example upload_name_with_newline : allowed_filename ("a.mp4" +:+ String "010" "") = true ∧ allowed_filename "../a.mp4" = false.
Proof. split; vm_compute; reflexivity. Qed.

(** The file is written before the groups are looked at: a refused upload leaves it behind, without a row. *)
Example refused_upload_leaves_file :
  let r := upload_asset 0 "ann" ann members_g "new" "h" "h" "clip.mp4" (mkContent 10 "c") None None gen0 jgen0 ["22222222-2222-2222-2222-222222222222"] shelf_g in
  r.2 = Err (HTTPException 403) ∧ "clip.mp4" ∈ lb_files (sh_lib r.1) ∧ live_asset "new" r.1 = None.
Proof. split; [vm_compute; reflexivity|]. split; [apply (bool_decide_unpack _); vm_compute; done|vm_compute; reflexivity]. Qed.

(** ** Witnesses *)

