(* ===== verification/ImageBuild.v ===== *)
(** * Fetching and building Pi images (shared/services/imager_catalog.py,
      cms/services/imager.py, imager_settings.py: URLs; worker/imager_handlers.py:
      the download; cms/routers/imager.py: the fleet env)

    The pure parts of the imager: which URLs it contacts, the catalog it reads,
    the file it downloads, the env file it writes into an image and the steps of
    the build.  HTTP servers, SHA-256, xz, parted and mcopy are arguments.
    Errors carry the data of their messages; the wording is left out. *)

From Stdlib Require Import QArith Strings.Byte.
From S2P Require Import Prelude Clock PyText Models LogBlobs LogFrames Presence JsonText DeviceIdentity Budget Intake.
Open Scope Z_scope.

(** ** Errors *)

(** Why an import or a build can never succeed. *)
Inductive Fault :=
  | F_scheme (scheme : string) | F_host (host : string) | F_redirects | F_not_json | F_not_object
  | F_sha_text (expected : string) | F_exceeded (written : Z) (expected : Json) | F_sha_mismatch (expected got : string) | F_size (expected : Json) (got : Z)
  | F_no_catalog_url | F_no_entry (variant : string) | F_ref (ref : Json) (version : string) | F_incomplete (variant : string)
  | F_blob_path (path : string)
  | F_base_missing (base_image_id : option uuid) | F_base_failed | F_base_path (path : option string) | F_base_sha (sha : option string)
  | F_no_payload | F_payload_text | F_drifted (row blob : string) | F_pipeline (why : string)
  | F_retries (message : string).

(** [CatalogError], [TerminalImagerError], [httpx.HTTPError], and any other exception: they are all
    retried by the worker and answered with 500 by the API. *)
Inductive img_exn := CatalogError (f : Fault) | TerminalImagerError (f : Fault) | HTTPError | OtherError.

(** ** URLs ([urllib.parse]) *)

(** Code points up to the space, which [urlsplit] strips in front. *)
Definition c0_or_space (c : ascii) : bool := (nat_of_ascii c <=? 32)%nat.
Definition is_alpha (c : ascii) : bool :=
  let n := nat_of_ascii c in ((65 <=? n) && (n <=? 90) || (97 <=? n) && (n <=? 122))%nat.
Definition is_alnum (c : ascii) : bool := is_alpha c || let n := nat_of_ascii c in ((48 <=? n) && (n <=? 57))%nat.
Definition scheme_char (c : ascii) : bool := is_alnum c || bool_decide (c ∈ ["+"; "-"; "."]%char).

(** The scheme, in small letters, and the rest. *)
Definition split_scheme (url : string) : string * string :=
  match str_partition ":" url with
  | (String c s, Some rest) => if is_alpha c && str_all scheme_char (String c s) then (str_lower (String c s), rest) else ("", url)
  | _ => ("", url)
  end.

Record UrlParts := mkUrl { ur_scheme : string; ur_netloc : string; ur_path : string; ur_params : string; ur_query : string; ur_fragment : string }.

Definition USES_PARAMS : list string :=
  [""; "ftp"; "hdl"; "prospero"; "http"; "https"; "shttp"; "rtsp"; "rtspu"; "sip"; "sips"; "mms"; "sftp"; "tel"].

(** [_splitparams]: the parameters of the last segment. *)
Definition path_params (path : string) : string * string :=
  match before_last "/"%char path with
  | Some dir => let r := str_partition ";" (rpartition_tail "/" path) in (dir +:+ "/" +:+ r.1, r.2 or_else "")
  | None => let r := str_partition ";" path in (r.1, r.2 or_else "")
  end.

Section urls.
(** Which host in brackets [ipaddress] accepts. *)
Context (bracket_ok : string → bool).

(** [urlparse(url)]; bad brackets raise a ValueError. *)
Definition url_parse (raw : string) : result img_exn UrlParts :=
  let url := str_filter (λ c, negb (unsafe_url_char c)) (strip_left c0_or_space raw) in
  let '(scheme, rest) := split_scheme url in
  let '(netloc, tail) := match str_drop_prefix "//" rest with
                         | Some t => str_span (λ c, bool_decide (c ∈ ["/"; "?"; "#"]%char)) t
                         | None => ("", rest)
                         end in
  if negb (Bool.eqb (has_char "[" netloc) (has_char "]" netloc)) then Err OtherError
  else if has_char "[" netloc && negb (bracket_ok netloc) then Err OtherError
  else
    let '(before_hash, fragment) := str_partition "#" tail in
    let '(path, query) := str_partition "?" before_hash in
    let '(path, params) := if bool_decide (scheme ∈ USES_PARAMS) then path_params path else (path, "") in
    Ok (mkUrl scheme netloc path params (query or_else "") (fragment or_else "")).

(** [(parsed.hostname or "").lower()]. *)
Definition url_host (u : UrlParts) : string := str_lower (hostname (ur_netloc u)).

(** ** The allowlist *)

(** The pieces of a text between commas. *)
Definition split_commas (s : string) : list string := split_on ","%char s.

Definition parse_allowed_hosts (raw : option string) : gset string :=
  let text := str_strip (raw or_else "") in
  if bool_decide (text = "") then ∅
  else list_to_set ((λ h, str_lower (str_strip h)) <$> filter (λ h, str_strip h ≠ "") (split_commas text)).

Definition validate_url (url : string) (allowlist : gset string) : result img_exn string :=
  parsed ← url_parse url;
  if negb (bool_decide (ur_scheme parsed = "https")) then Err (CatalogError (F_scheme (ur_scheme parsed)))
  else if negb (bool_decide (url_host parsed ∈ allowlist)) then Err (CatalogError (F_host (url_host parsed)))
  else Ok url.

(** [None] is the CatalogUrlValidationError; a ValueError of [urlparse] passes. *)
Definition validate_catalog_url (url allowed_hosts_raw : string) : result img_exn (option string) :=
  let candidate := str_strip url in
  if bool_decide (candidate = "") then Ok None
  else
    parsed ← url_parse candidate;
    if negb (bool_decide (ur_scheme parsed = "https")) then Ok None
    else if bool_decide (url_host parsed = "") then Ok None
    else
      let allowlist := parse_allowed_hosts (Some allowed_hosts_raw) in
      if bool_decide (allowlist = ∅) then Ok None
      else if negb (bool_decide (url_host parsed ∈ allowlist)) then Ok None
      else Ok (Some candidate).

(** The address devices connect to; [Err] is the ValueError. *)
Definition is_slash (c : ascii) : bool := bool_decide (c = "/"%char).
Definition _derive_device_ws_url (base_url : string) : result img_exn string :=
  if bool_decide (base_url = "") then Err OtherError
  else
    parsed ← url_parse (strip_right is_slash base_url);
    if negb (bool_decide (ur_scheme parsed ∈ ["http"; "https"; "ws"; "wss"])) then Err OtherError
    else if bool_decide (ur_netloc parsed = "") then Err OtherError
    else if negb (bool_decide (ur_path parsed = "" ∧ ur_params parsed = "" ∧ ur_query parsed = "" ∧ ur_fragment parsed = "")) then Err OtherError
    else
      let ws_scheme := if bool_decide (ur_scheme parsed ∈ ["https"; "wss"]) then "wss" else "ws" in
      Ok (ws_scheme +:+ "://" +:+ ur_netloc parsed +:+ "/ws/device").

(** ** HTTP *)

(** What a server answers: a redirect (with its Location), an error status, a
    body in chunks that may break off, or nothing. *)
Inductive Response := Moved (location : option string) | Refused_status | Answer (chunks : list bytes) (broken : bool) | NoAnswer.

Definition MAX_REDIRECTS : nat := 5.

Section fetch.
Context (http : string → Response) (allowlist : gset string).

(** The walk over the redirects: every URL contacted, and the last answer. *)
Fixpoint walk (hops : nat) (url : string) : list string * result img_exn (list bytes * bool) :=
  match http url with
  | NoAnswer | Refused_status => ([url], Err HTTPError)
  | Answer chunks broken => ([url], Ok (chunks, broken))
  | Moved loc =>
      match hops with
      | O => ([url], Err (CatalogError F_redirects))
      | S hops' =>
          match loc with
          | None | Some "" => ([url], Err HTTPError)
          | Some loc =>
              match validate_url loc allowlist with
              | Err e => ([url], Err e)
              | Ok target => let r := walk hops' target in (url :: r.1, r.2)
              end
          end
      end
  end.

Definition fetch (url : string) : list string * result img_exn (list bytes * bool) :=
  match validate_url url allowlist with Err e => ([], Err e) | Ok target => walk MAX_REDIRECTS target end.
End fetch.
End urls.

(** ** The catalog *)

(** The truth value of a JSON value, and [d.get(key)] of an object. *)
Definition json_true (v : Json) : bool :=
  match v with
  | JNull => false | JBool b => b | JNum q => negb (Qeq_bool q 0) | JStr s => negb (bool_decide (s = ""))
  | JArr l => negb (bool_decide (length l = 0%nat)) | JObj l => negb (bool_decide (length l = 0%nat))
  end.
Definition jget (key : string) (d : list (string * Json)) : Json := aget key d or_else JNull.
(** [isinstance(v, int)]; a [bool] is one. *)
Definition json_is_int (v : Json) : bool := match v with JBool _ => true | JNum q => bool_decide (Qden q = 1%positive) | _ => false end.

(** The entries of a list under their names, the last one of a name winning. *)
Definition keyed_variants (l : list Json) : list (string * Json) :=
  fold_left (λ d entry, match entry with
                        | JObj e => match aget "variant" e with
                                    | Some (JStr name) => if bool_decide (name = "") then d else aset name entry d
                                    | _ => d
                                    end
                        | _ => d
                        end) l [].
Definition with_size (entry : Json) : Json :=
  match entry with
  | JObj e => if negb (bool_decide ("size_bytes" ∈ e.*1)) && json_is_int (jget "compressedBytes" e)
              then JObj (aset "size_bytes" (jget "compressedBytes" e) e) else entry
  | _ => entry
  end.

Definition _normalize_catalog (doc : Json) : result img_exn (list (string * Json)) :=
  match doc with
  | JObj l =>
      let out := match aget "version" l with
                 | Some (JStr v) => if bool_decide ("ref" ∈ l.*1) then l else aset "ref" (JStr v) l
                 | _ => l
                 end in
      Ok match aget "variants" out with
         | Some (JArr entries) => aset "variants" (JObj (prod_map id with_size <$> keyed_variants entries)) out
         | Some (JObj d) => aset "variants" (JObj (prod_map id with_size <$> d)) out
         | _ => out
         end
  | _ => Err (CatalogError F_not_object)
  end.

(** [json.loads] of the body: bytes that are no UTF-8 raise another error than bad JSON. *)
Definition read_catalog (body : bytes) : result img_exn (list (string * Json)) :=
  match utf8_decode body with
  | None => Err OtherError
  | Some text => match json_loads text with None => Err (CatalogError F_not_json) | Some doc => _normalize_catalog doc end
  end.

Definition fetch_catalog (bracket_ok : string → bool) (http : string → Response) (allowlist : gset string) (catalog_url : string)
    : list string * result img_exn (list (string * Json)) :=
  let r := fetch bracket_ok http allowlist catalog_url in
  (r.1, match r.2 with
        | Err e => Err e
        | Ok (chunks, broken) => if (broken : bool) then Err HTTPError else read_catalog (concat chunks)
        end).

(** The source URL and digest a catalog gives for a variant; [Err] is the status. *)
Definition _resolve_catalog_entry (catalog : list (string * Json)) (variant version : string) : result exn (list (string * Json)) :=
  let ref := jget "ref" catalog in
  if json_true ref && negb (match ref with JStr s => bool_decide (s = version) | _ => false end) then Err (HTTPException 422)
  else
    let variants := jget "variants" catalog in
    match (if json_true variants then variants else JObj []) with
    | JObj d =>
        match aget variant d with
        | Some (JObj entry) =>
            if json_true (jget "url" entry) && json_true (jget "sha256" entry) then Ok entry else Err (HTTPException 422)
        | _ => Err (HTTPException 404)
        end
    | _ => Err (HTTPException 500)
    end.

(** The same for an import without stamped coordinates, in the worker's order. *)
Definition resolve_for_worker (catalog : list (string * Json)) (variant version : string) : result img_exn (list (string * Json)) :=
  let variants := jget "variants" catalog in
  match (if json_true variants then variants else JObj []) with
  | JObj d =>
      match aget variant d with
      | Some (JObj entry) =>
          let ref := jget "ref" catalog in
          if json_true ref && negb (match ref with JStr s => bool_decide (s = version) | _ => false end)
          then Err (TerminalImagerError (F_ref ref version))
          else if json_true (jget "url" entry) && json_true (jget "sha256" entry) then Ok entry
          else Err (TerminalImagerError (F_incomplete variant))
      | _ => Err (TerminalImagerError (F_no_entry variant))
      end
  | _ => Err OtherError
  end.

(** What a catalog says about an image: a digest for a variant and a version. *)
Definition announces (catalog : list (string * Json)) (variant version sha : string) : Prop :=
  (json_true (jget "ref" catalog) = true → jget "ref" catalog = JStr version) ∧
  ∃ d entry, jget "variants" catalog = JObj d ∧ aget variant d = Some (JObj entry) ∧ jget "sha256" entry = JStr sha.

(** ** The download *)

(** [_SHA256_RE.match]; [$] also matches before a final line break. *)
Definition is_sha256_text (s : string) : bool :=
  let s := drop_final_newline s in (String.length s =? 64)%nat && str_all is_hex s.

(** CatalogError becomes terminal in the worker. *)
Definition in_worker {A} (r : result img_exn A) : result img_exn A :=
  match r with Err (CatalogError f) => Err (TerminalImagerError f) | _ => r end.

(** [written > expected_size] and [written != expected_size], for whatever the
    catalog gave as a size: comparing with text or a container raises. *)
Definition size_number (v : Json) : option Q :=
  match v with JNum q => Some q | JBool b => Some (inject_Z (if b then 1 else 0)) | _ => None end.
Definition size_exceeded (written : Z) (expected_size : Json) : result img_exn bool :=
  match expected_size, size_number expected_size with
  | JNull, _ => Ok false
  | _, Some q => Ok (negb (Qle_bool (inject_Z written) q))
  | _, None => Err OtherError
  end.
Definition size_differs (written : Z) (expected_size : Json) : bool :=
  match expected_size, size_number expected_size with
  | JNull, _ => false
  | _, Some q => negb (Qeq_bool (inject_Z written) q)
  | _, None => true
  end.

(** The loop over the chunks: it stops at the first byte too many; empty
    chunks are passed over. *)
Fixpoint receive (expected_size : Json) (written : Z) (chunks : list bytes) (broken : bool) : result img_exn bytes :=
  match chunks with
  | [] => if broken then Err HTTPError else Ok []
  | [] :: rest => receive expected_size written rest broken
  | chunk :: rest =>
      let written := written + Z.of_nat (length chunk) in
      exceeded ← size_exceeded written expected_size;
      if (exceeded : bool) then Err (TerminalImagerError (F_exceeded written expected_size))
      else data ← receive expected_size written rest broken; Ok (chunk ++ data)
  end.

Section download.
Context (bracket_ok : string → bool) (sha256_hex : bytes → string).

(** The URLs contacted, and the digest and the bytes of the file. *)
Definition _download_with_sha (http : string → Response) (allowlist : gset string) (url expected_sha256 : string) (expected_size : Json)
    : list string * result img_exn (string * bytes) :=
  if negb (is_sha256_text expected_sha256) then ([], Err (TerminalImagerError (F_sha_text expected_sha256)))
  else
    let r := fetch bracket_ok http allowlist url in
    (r.1, '(chunks, broken) ← in_worker r.2;
          data ← receive expected_size 0 chunks broken;
          let actual := sha256_hex data in
          if negb (bool_decide (str_lower actual = str_lower expected_sha256))
          then Err (TerminalImagerError (F_sha_mismatch (str_lower expected_sha256) (str_lower actual)))
          else if size_differs (Z.of_nat (length data)) expected_size then Err (TerminalImagerError (F_size expected_size (Z.of_nat (length data))))
          else Ok (actual, data)).
End download.

(** ** The fleet env *)

(** [bytes.hex()] and [bytes.fromhex()]. *)
Definition hex_byte (b : Byte.byte) : string :=
  String (hex_digit (Z.to_nat (byte_Z b / 16))) (String (hex_digit (Z.to_nat (byte_Z b mod 16))) "").
Definition bytes_hex (bs : bytes) : string := String.concat "" (hex_byte <$> bs).
Fixpoint fromhex (s : string) : option bytes :=
  match s with
  | String a (String b t) => x ← hex_value a; y ← hex_value b; r ← fromhex t; Some (Z_byte (16 * x + y) :: r)
  | "" => Some []
  | _ => None
  end.

Definition NEWLINE : string := String "010" "".
Definition env_line (key value : string) : string := key +:+ "=" +:+ value +:+ NEWLINE.

Definition fleet_env_text (cms_url fleet_id : string) (fleet_secret : bytes) (device_transport : string) (wifi : option (string * string)) : string :=
  let fw_transport := if bool_decide (device_transport = "local") then "direct" else device_transport in
  env_line "AGORA_CMS_URL" cms_url +:+ env_line "AGORA_CMS_TRANSPORT" fw_transport +:+ env_line "AGORA_FLEET_ID" fleet_id +:+
  env_line "AGORA_FLEET_SECRET_HEX" (bytes_hex fleet_secret) +:+
  match wifi with
  | Some (ssid, psk) => if bool_decide (ssid = "" ∨ psk = "") then "" else env_line "AGORA_WIFI_SSID" ssid +:+ env_line "AGORA_WIFI_PASS" psk
  | None => ""
  end.
Definition _fleet_env_payload (cms_url fleet_id : string) (fleet_secret : bytes) (device_transport : string) (wifi : option (string * string)) : bytes :=
  utf8_encode (fleet_env_text cms_url fleet_id fleet_secret device_transport wifi).

(** ** The build *)

(** [ImagerError] with its reason, or an exception the handler does not catch. *)
Inductive build_exn := ImagerError (why : string) | UncaughtError.

(** [rstrip("Bb")]. *)
Definition is_b (c : ascii) : bool := bool_decide (c ∈ ["B"; "b"]%char).
Definition _parse_byte_value (value : Json) : result build_exn Z :=
  match value with
  | JBool b => Ok (if b then 1 else 0)
  | JNum q => if bool_decide (Qden q = 1%positive) then Ok (Qnum q) else Err (ImagerError "unparseable byte value")
  | JStr s => match int_of_str (strip_right is_b (str_strip s)) with Some n => Ok n | None => Err (ImagerError "unparseable byte value") end
  | _ => Err (ImagerError "unparseable byte value")
  end.

(** No [str] of a value that is no string starts with "fat". *)
Definition is_fat (part : Json) : bool :=
  match part with JObj p => match aget "filesystem" p with Some (JStr fs) => str_startswith "fat" (str_lower fs) | _ => false end | _ => false end.

Fixpoint first_fat (partitions : list Json) : result build_exn Z :=
  match partitions with
  | [] => Err (ImagerError "no FAT partition found in parted output")
  | part :: rest =>
      if is_fat part then
        match part with
        | JObj p => match jget "start" p with JNull => Err (ImagerError "FAT partition is missing 'start' offset") | start => _parse_byte_value start end
        | _ => first_fat rest
        end
      else first_fat rest
  end.

Definition parse_boot_partition_offset (parted_json : string) : result build_exn Z :=
  match json_loads parted_json with
  | None => Err (ImagerError "could not parse parted JSON output")
  | Some (JObj data) =>
      match jget "disk" data with
      | JObj disk =>
          match jget "partitions" disk with
          | JArr (p :: ps) => first_fat (p :: ps)
          | _ => Err (ImagerError "parted JSON has no partitions")
          end
      | _ => Err (ImagerError "parted JSON missing 'disk' object")
      end
  | Some _ => Err UncaughtError
  end.

Definition FLEET_ENV_MAX_BYTES : Z := 64 * 1024.

(** The characters of names, and the output names: a basename that ends in .img.xz. *)
Definition plain_char (c : ascii) : bool := is_alnum c || bool_decide (c ∈ ["."; "_"; "-"]%char).
(** [_SAFE_OUTPUT_RE.fullmatch]. *)
Definition safe_output (s : string) : bool :=
  (7 <? String.length s)%nat && str_all plain_char s && str_endswith ".img.xz" s.
(** [_SAFE_OUTPUT_RE.match]; [$] also matches before a final line break. *)
Definition is_valid_output_name (name : string) : bool := safe_output (drop_final_newline name).

Section build.
(** [xz -d], [parted ... print], [mcopy] to an offset and [xz -z]; [None] is a
    failed command. *)
Context (xz_d : bytes → option bytes) (parted : bytes → option string) (mcopy : bytes → Z → bytes → option bytes) (xz_z : bytes → option bytes).

Definition boot_partition_offset (img : bytes) : result build_exn Z :=
  match parted img with None => Err (ImagerError "command failed") | Some out => parse_boot_partition_offset out end.

Definition inject_fleet_env (img : bytes) (text : string) : result build_exn bytes :=
  let payload := utf8_encode text in
  if bool_decide (x00 ∈ payload) then Err (ImagerError "fleet env contains a NUL byte")
  else if FLEET_ENV_MAX_BYTES <? Z.of_nat (length payload) then Err (ImagerError "fleet env is too large")
  else
    boot_offset ← boot_partition_offset img;
    match mcopy img boot_offset payload with None => Err (ImagerError "command failed") | Some img' => Ok img' end.

Definition build_provisioned (base_xz : bytes) (text output_name : string) : result build_exn bytes :=
  if negb (safe_output output_name) then Err (ImagerError "invalid output_name; must match [A-Za-z0-9._-]+.img.xz")
  else match xz_d base_xz with
       | None => Err (ImagerError "xz decompress failed")
       | Some img =>
           img' ← inject_fleet_env img text;
           match xz_z img' with None => Err (ImagerError "xz compress failed") | Some xz => Ok xz end
       end.

(** What is on the boot partition of an image; [mcopy_out] reads a file back. *)
Definition read_fleet_env (mcopy_out : bytes → Z → option bytes) (img : bytes) : result build_exn string :=
  boot_offset ← boot_partition_offset img;
  match mcopy_out img boot_offset with
  | None => Err (ImagerError "mcopy read failed")
  | Some payload => match utf8_decode payload with Some s => Ok s | None => Err UncaughtError end
  end.
End build.

(** ** Progress of a build *)

(** One reading of the size watcher: the share of the file that exists, never
    the end of the phase.  The quotient is exact below 2^53. *)
Definition watch_pct (base_pct end_pct expected_size cur : Z) : Z :=
  Z.max base_pct (Z.min (end_pct - 1) (base_pct + cur * (end_pct - base_pct) / Z.max 1 expected_size)).

(** The values a watcher emits for the sizes it sees: each change once. *)
Fixpoint watch_emits (base_pct end_pct expected_size last_pct : Z) (sizes : list Z) : list Z :=
  match sizes with
  | [] => []
  | cur :: rest =>
      let projected := watch_pct base_pct end_pct expected_size cur in
      if projected =? last_pct then watch_emits base_pct end_pct expected_size last_pct rest
      else projected :: watch_emits base_pct end_pct expected_size projected rest
  end.

(** The percentages of one build, with the sizes its two watchers saw; without
    an expected size a phase only reports its start. *)
Definition phase (base_pct end_pct : Z) (expected : option Z) (sizes : list Z) : list Z :=
  match expected with
  | Some n => if 0 <? n then base_pct :: watch_emits base_pct end_pct n base_pct sizes else [base_pct]
  | None => [base_pct]
  end.
Definition build_progress (uncompressed : option Z) (sizes1 : list Z) (recompressed : option Z) (sizes2 : list Z) : list Z :=
  phase 35 55 uncompressed sizes1 ++ [55; 56] ++ phase 58 82 recompressed sizes2 ++ [82].

(** ** Which hosts are contacted *)

Definition allowed (bracket_ok : string → bool) (allowlist : gset string) (url : string) : Prop :=
  ∃ parts, url_parse bracket_ok url = Ok parts ∧ ur_scheme parts = "https" ∧ url_host parts ∈ allowlist.

Lemma validate_url_ok bracket_ok allowlist url target :
  validate_url bracket_ok url allowlist = Ok target → target = url ∧ allowed bracket_ok allowlist url.
Proof.
  unfold validate_url. intros (parts & E & H)%result_bind_ok. case_bool_decide as S; [|done]. case_bool_decide as Hh; [|done].
  cbn in H. injection H as <-. split; [done|]. by exists parts.
Qed.

Lemma walk_contacts bracket_ok http allowlist hops url : allowed bracket_ok allowlist url →
  Forall (allowed bracket_ok allowlist) (walk bracket_ok http allowlist hops url).1 ∧
  (length (walk bracket_ok http allowlist hops url).1 ≤ S hops)%nat.
Proof.
  revert url. induction hops as [|hops IH]; intros url A; cbn [walk]; (destruct (http url) as [loc| | |];
    [|cbn; split; [by constructor|lia]..]).
  - cbn. split; [by constructor|lia].
  - destruct loc as [[|c loc]|]; [cbn; split; [by constructor|lia]| |cbn; split; [by constructor|lia]].
    destruct (validate_url bracket_ok (String c loc) allowlist) as [target|e] eqn:V; [|cbn; split; [by constructor|lia]].
    apply validate_url_ok in V as [-> A']. destruct (IH _ A') as [F L]. cbn. split; [by constructor|lia].
Qed.

Lemma fetch_contacts bracket_ok http allowlist url :
  Forall (allowed bracket_ok allowlist) (fetch bracket_ok http allowlist url).1 ∧
  (length (fetch bracket_ok http allowlist url).1 ≤ S MAX_REDIRECTS)%nat.
Proof.
  unfold fetch. destruct (validate_url bracket_ok url allowlist) as [target|e] eqn:V; [|cbn; split; [constructor|lia]].
  apply validate_url_ok in V as [-> A]. by apply walk_contacts.
Qed.

(** Whatever servers answer, the imager contacts only https URLs whose host is on the allowlist, at most six for a
    catalog and at most six for an image: the first URL and every redirect are checked before they are requested. *)
Theorem imager_contacts_allowed bracket_ok sha256_hex http allowlist catalog_url url sha size :
  let cat := (fetch_catalog bracket_ok http allowlist catalog_url).1 in
  let img := (_download_with_sha bracket_ok sha256_hex http allowlist url sha size).1 in
  Forall (allowed bracket_ok allowlist) (cat ++ img) ∧ (length cat ≤ 6)%nat ∧ (length img ≤ 6)%nat.
Proof.
  intros cat img. subst cat img. unfold fetch_catalog, _download_with_sha. cbn [fst].
  destruct (fetch_contacts bracket_ok http allowlist catalog_url) as [F L]. destruct (fetch_contacts bracket_ok http allowlist url) as [F' L'].
  unfold MAX_REDIRECTS in *. case_match; cbn [fst length]; (split_and!; [apply Forall_app; split; [done|]|lia|lia]); [constructor|done].
Qed.

(** ** What a download yields *)

Lemma receive_ok size written chunks broken data : receive size written chunks broken = Ok data →
  data = concat chunks ∧ broken = false.
Proof.
  revert written data. induction chunks as [|c l IH]; intros w data; cbn [receive concat].
  - destruct broken; [done|]. by intros [= <-].
  - destruct c as [|x c]; [apply IH|]. intros (b & _ & H)%result_bind_ok. destruct b; [done|].
    apply result_bind_ok in H as (d & E & H). injection H as <-. destruct (IH _ _ E) as [-> ?]. done.
Qed.

(** Without a size every chunk is taken. *)
Lemma receive_unbounded written chunks : receive JNull written chunks false = Ok (concat chunks).
Proof.
  revert written. induction chunks as [|c l IH]; intros w; [done|]. cbn [receive concat]. destruct c as [|x c]; [apply IH|].
  cbn [mbind result_bind size_exceeded]. by rewrite IH.
Qed.

Lemma in_worker_ok {A} (r : result img_exn A) a : in_worker r = Ok a → r = Ok a.
Proof. by destruct r as [?|[]]. Qed.

Lemma download_sound bracket_ok sha256_hex http allowlist url expected size actual data :
  (_download_with_sha bracket_ok sha256_hex http allowlist url expected size).2 = Ok (actual, data) →
  actual = sha256_hex data ∧ str_lower actual = str_lower expected ∧ is_sha256_text expected = true ∧
  size_differs (Z.of_nat (length data)) size = false.
Proof.
  unfold _download_with_sha. destruct (is_sha256_text expected); [|done]. cbn [negb snd].
  intros ([chunks broken] & _ & H)%result_bind_ok. apply result_bind_ok in H as (d & _ & H). revert H.
  case_bool_decide as E; [|done]. cbn [negb]. case_match eqn:D; [done|]. by intros [= <- <-].
Qed.

(** A server that answers with the right bytes is enough when no size is expected. *)
Lemma download_good bracket_ok sha256_hex http allowlist url expected chunks :
  allowed bracket_ok allowlist url → http url = Answer chunks false → is_sha256_text expected = true →
  str_lower (sha256_hex (concat chunks)) = str_lower expected →
  (_download_with_sha bracket_ok sha256_hex http allowlist url expected JNull).2 = Ok (sha256_hex (concat chunks), concat chunks).
Proof.
  intros (parts & P & S & A) H T E. unfold _download_with_sha. rewrite T. cbn [negb snd]. unfold fetch, validate_url. rewrite P.
  cbn [mbind result_bind]. rewrite bool_decide_true by done. rewrite bool_decide_true by done. cbn [negb walk MAX_REDIRECTS]. rewrite H.
  cbn [snd in_worker mbind result_bind]. rewrite receive_unbounded. cbn [mbind result_bind]. by rewrite bool_decide_true.
Qed.

(** ** What the env file says *)

Definition line_break : ascii := "010"%char.
Definition one_line (s : string) : Prop := split_on line_break s = [s].

(** The reading of a device: a variable per line, up to the first "=". *)
Definition env_pairs (text : string) : list (string * string) :=
  omap (λ line, match str_partition "=" line with (key, Some value) => Some (key, value) | _ => None end) (split_on line_break text).

Lemma hex_value_digit n : (n < 16)%nat → hex_value (hex_digit n) = Some (Z.of_nat n).
Proof. intros H. do 16 (destruct n as [|n]; [by vm_compute|]). lia. Qed.

Lemma fromhex_hex bs : fromhex (bytes_hex bs) = Some bs.
Proof.
  unfold bytes_hex. induction bs as [|b bs IH]; [done|]. rewrite fmap_cons, concat_cons. unfold hex_byte at 1.
  pose proof (byte_Z_range b). rewrite !str_app_cons, str_app_nil. cbn [fromhex].
  rewrite !hex_value_digit by (zify; zdm). cbn [mbind option_bind]. rewrite IH. cbn [mbind option_bind]. do 2 f_equal.
  apply Z_byte_Z. rewrite !Z2Nat.id by zdm. zdm.
Qed.

Lemma one_line_str_all s : str_all (λ c, negb (bool_decide (c = line_break))) s = true ↔ one_line s.
Proof.
  unfold one_line. induction s as [|c s IH]; [done|]. cbn [str_all split_on]. rewrite andb_true_iff, IH. case_bool_decide as E; cbn [negb].
  - rewrite decide_True by done. split; [by intros []|]. intros [=].
  - rewrite decide_False by done. split.
    + intros [_ ->]. done.
    + intros H. split; [done|]. destruct (split_on line_break s) as [|x l] eqn:S; [by apply split_on_nonempty in S|].
      by injection H as -> ->.
Qed.
Lemma one_line_app a b : one_line a → one_line b → one_line (a +:+ b).
Proof. rewrite <-!one_line_str_all, str_all_app. by intros -> ->. Qed.
Lemma hex_one_line bs : one_line (bytes_hex bs).
Proof.
  unfold bytes_hex. induction bs as [|b bs IH]; [done|]. rewrite fmap_cons, concat_cons. apply one_line_app; [|done].
  apply one_line_str_all. unfold hex_byte. cbn [str_all]. assert (H : ∀ n, (n < 16)%nat → negb (bool_decide (hex_digit n = line_break)) = true).
  { intros n L. do 16 (destruct n as [|n]; [by vm_compute|]). lia. }
  pose proof (byte_Z_range b). by rewrite !H by (zify; zdm).
Qed.

Lemma env_pairs_line key value rest : str_partition "=" (key +:+ "=" +:+ value) = (key, Some value) → one_line key → one_line value →
  env_pairs (env_line key value +:+ rest) = (key, value) :: env_pairs rest.
Proof.
  intros P K V. unfold env_pairs, env_line, NEWLINE.
  replace ((key +:+ "=" +:+ value +:+ String "010" "") +:+ rest) with ((key +:+ "=" +:+ value) +:+ String line_break rest)
    by (rewrite !str_app_assoc; by rewrite str_app_cons, str_app_nil).
  assert (L : one_line (key +:+ "=" +:+ value)) by (apply one_line_app; [done|]; by apply one_line_app).
  rewrite split_on_app, L. cbn [app omap list_omap]. by rewrite P.
Qed.

Definition wifi_pairs (wifi : option (string * string)) : list (string * string) :=
  match wifi with
  | Some (ssid, psk) => if bool_decide (ssid = "" ∨ psk = "") then [] else [("AGORA_WIFI_SSID", ssid); ("AGORA_WIFI_PASS", psk)]
  | None => []
  end.

(** The env of values without line breaks says exactly what it was made from. *)
Lemma fleet_env_pairs cms_url fleet_id secret transport wifi :
  one_line cms_url → one_line fleet_id → one_line transport →
  (∀ ssid psk, wifi = Some (ssid, psk) → one_line ssid ∧ one_line psk) →
  env_pairs (fleet_env_text cms_url fleet_id secret transport wifi) =
    [("AGORA_CMS_URL", cms_url); ("AGORA_CMS_TRANSPORT", if bool_decide (transport = "local") then "direct" else transport);
     ("AGORA_FLEET_ID", fleet_id); ("AGORA_FLEET_SECRET_HEX", bytes_hex secret)] ++ wifi_pairs wifi.
Proof.
  intros U F T W. unfold fleet_env_text. cbv zeta. cbn [app].
  assert (Hk : ∀ k v rest, str_partition "=" (k +:+ "=" +:+ v) = (k, Some v) → one_line k → one_line v →
    env_pairs (env_line k v +:+ rest) = (k, v) :: env_pairs rest) by (intros; by apply env_pairs_line).
  rewrite Hk; [|done|done|done]. rewrite Hk; [|done|done|by case_bool_decide]. rewrite Hk; [|done|done|done].
  rewrite Hk; [|done|done|apply hex_one_line]. do 4 f_equal.
  destruct wifi as [[ssid psk]|]; [|done]. cbn [wifi_pairs]. case_bool_decide; [done|]. destruct (W _ _ eq_refl).
  rewrite Hk by done. rewrite <-(str_app_nil_r (env_line "AGORA_WIFI_PASS" psk)). by rewrite Hk by done.
Qed.

(** *** The address *)

Lemma str_filter_chars p q s : (∀ c, p c = true → q c = true) → str_all q (str_filter p s) = true.
Proof. intros H. induction s as [|c s IH]; [done|]. cbn. destruct (p c) eqn:E; [|done]. cbn. by rewrite (H c E), IH. Qed.
Lemma str_span_app p s : (str_span p s).1 +:+ (str_span p s).2 = s.
Proof. induction s as [|c s IH]; [done|]. cbn. destruct (p c); [done|]. cbn [fst snd]. rewrite str_app_cons. by rewrite IH. Qed.
Lemma str_drop_prefix_app p s t : str_drop_prefix p s = Some t → s = p +:+ t.
Proof.
  revert s. induction p as [|c p IH]; intros s; cbn; [by intros [= ->]|]. destruct s as [|x s]; [done|]. case_bool_decide as E; [|done].
  intros H. subst x. rewrite str_app_cons. by rewrite <-(IH s).
Qed.
Lemma str_partition_app c s a b : str_partition c s = (a, Some b) → s = a +:+ String c b.
Proof.
  revert a b. induction s as [|x s IH]; intros a b; cbn; [done|]. case_bool_decide as E; [intros [= <- <-]; by rewrite E|].
  destruct (str_partition c s) as [a' [b'|]]; cbn [fst snd]; [|done]. intros [= <- <-]. rewrite str_app_cons. by rewrite (IH a' b').
Qed.

Lemma netloc_one_line bracket_ok raw parts : url_parse bracket_ok raw = Ok parts → one_line (ur_netloc parts).
Proof.
  unfold url_parse. set (url := str_filter _ _).
  assert (U : str_all (λ c, negb (bool_decide (c = line_break))) url = true).
  { apply str_filter_chars. intros c. case_bool_decide as E; [|done]. rewrite E. by vm_compute. }
  destruct (split_scheme url) as [scheme rest] eqn:S.
  assert (R : str_all (λ c, negb (bool_decide (c = line_break))) rest = true).
  { unfold split_scheme in S. destruct (str_partition ":" url) as [[|c s] [t|]] eqn:P; try (injection S as <- <-; exact U).
    destruct (is_alpha c && _); [|injection S as <- <-; exact U]. injection S as <- <-. apply str_partition_app in P. rewrite P, str_all_app in U.
    apply andb_true_iff in U as [_ U]. cbn in U. by apply andb_true_iff in U as [_ U]. }
  intros H. apply one_line_str_all. destruct (str_drop_prefix "//" rest) as [t|] eqn:D.
  - destruct (str_span _ t) as [netloc tail] eqn:Sp.
    assert (N : str_all (λ c, negb (bool_decide (c = line_break))) netloc = true).
    { apply str_drop_prefix_app in D. rewrite D, str_all_app in R. apply andb_true_iff in R as [_ R].
      rewrite <-(str_span_app (λ c, bool_decide (c ∈ ["/"; "?"; "#"]%char)) t), Sp, str_all_app in R. by apply andb_true_iff in R as [R _]. }
    revert H. repeat (case_match; try done); by intros [= <-].
  - revert H. repeat (case_match; try done); by intros [= <-].
Qed.

Lemma derive_ws_one_line bracket_ok base url : _derive_device_ws_url bracket_ok base = Ok url → one_line url.
Proof.
  unfold _derive_device_ws_url. case_bool_decide; [done|]. intros (parts & E & Hp)%result_bind_ok. revert Hp.
  case_bool_decide; [|done]. case_bool_decide; [done|]. case_bool_decide; [|done]. intros [= <-].
  apply one_line_app; [by case_bool_decide|]. apply one_line_app; [done|]. apply one_line_app; [|done].
  by apply (netloc_one_line _ _ _ E).
Qed.

(** ** The boot partition *)

(** A partition in the output of parted. *)
Record Partition := mkPartition { pt_filesystem : string; pt_start : Z }.
Definition partition_json (p : Partition) : Json :=
  JObj [("start", JStr (Z_str (pt_start p) +:+ "B")); ("filesystem", JStr (pt_filesystem p))].
Definition parted_text (float_repr : Q → string) (parts : list Partition) : string :=
  json_dumps float_repr (JObj [("disk", JObj [("partitions", JArr (partition_json <$> parts))])]).
Definition fat (p : Partition) : bool := str_startswith "fat" (str_lower (pt_filesystem p)).

Lemma Z_str_chars n : str_all (λ c, is_digit c || bool_decide (c = "-"%char)) (Z_str n) = true.
Proof.
  assert (H : ∀ m, 0 ≤ m → str_all (λ c, is_digit c || bool_decide (c = "-"%char)) (Z_str m) = true).
  { intros m Hm. rewrite Z_str_nonneg by done. eapply str_all_impl; [|by apply nat_str_digits]. by intros c ->. }
  destruct (Z.lt_ge_cases n 0); [|by apply H]. rewrite Z_str_neg, str_all_app, H by lia. done.
Qed.

Lemma parse_byte_text n : _parse_byte_value (JStr (Z_str n +:+ "B")) = Ok n.
Proof.
  unfold _parse_byte_value. assert (S : str_strip (Z_str n +:+ "B") = Z_str n +:+ "B").
  { apply str_strip_all. by rewrite str_all_app, Z_str_no_space. }
  rewrite S. assert (R : strip_right is_b (Z_str n +:+ "B") = Z_str n).
  { assert (D : str_all (λ c, negb (is_b c)) (Z_str n) = true).
    { eapply str_all_impl; [|apply Z_str_chars]. intros c. by destruct c as [[] [] [] [] [] [] [] []]. }
    revert D. generalize (Z_str n) as t. induction t as [|c t IH]; [done|]. rewrite str_app_cons. cbn [str_all strip_right].
    intros [Hc Ht]%andb_true_iff. rewrite IH by done. apply negb_true_iff in Hc. rewrite Hc. by destruct t. }
  by rewrite R, int_of_Z_str.
Qed.

Lemma first_fat_printed parts :
  first_fat (partition_json <$> parts) =
  match find (λ p, fat p) parts with Some p => Ok (pt_start p) | None => Err (ImagerError "no FAT partition found in parted output") end.
Proof.
  induction parts as [|p l IH]; [done|]. cbn [fmap list_fmap first_fat find]. change (is_fat (partition_json p)) with (fat p).
  destruct (fat p); [|exact IH]. cbn [partition_json]. apply parse_byte_text.
Qed.

(** The offset that is written to is that of the first FAT partition of the table parted prints. *)
Lemma parse_boot_partition_offset_printed float_repr parts : parts ≠ [] →
  parse_boot_partition_offset (parted_text float_repr parts) =
  match find (λ p, fat p) parts with Some p => Ok (pt_start p) | None => Err (ImagerError "no FAT partition found in parted output") end.
Proof.
  intros N. unfold parse_boot_partition_offset, parted_text. rewrite json_roundtrip.
  - destruct parts as [|p l]; [done|]. exact (first_fat_printed (p :: l)).
  - simpl. split_and!; try done; try (apply NoDup_singleton). clear N. induction parts as [|p l IH]; [done|]. simpl. split_and!; try done.
    apply (bool_decide_unpack _). by vm_compute.
Qed.

(** ** A finished image *)

(** What the tools promise: xz gives back what it packed, and writing a file
    with mcopy leaves the partition table alone and can be read back. *)
Record image_tools (xz_d : bytes → option bytes) (parted : bytes → option string) (mcopy : bytes → Z → bytes → option bytes)
    (xz_z : bytes → option bytes) (mcopy_out : bytes → Z → option bytes) : Prop := mkTools {
  it_xz : ∀ img xz, xz_z img = Some xz → xz_d xz = Some img;
  it_table : ∀ img off data img', mcopy img off data = Some img' → parted img' = parted img;
  it_file : ∀ img off data img', mcopy img off data = Some img' → mcopy_out img' off = Some data
}.

Lemma build_provisioned_name xz_d parted mcopy xz_z base text name out :
  build_provisioned xz_d parted mcopy xz_z base text name = Ok out → safe_output name = true.
Proof. unfold build_provisioned. by destruct (safe_output name). Qed.

(** A build puts the env on the boot partition: unpacking the image and reading
    the file gives the text back. *)
Lemma build_carries_env xz_d parted mcopy xz_z mcopy_out base text name out :
  image_tools xz_d parted mcopy xz_z mcopy_out → utf8_valid (utf8_encode text) = true →
  build_provisioned xz_d parted mcopy xz_z base text name = Ok out →
  ∃ img, xz_d out = Some img ∧ read_fleet_env parted mcopy_out img = Ok text.
Proof.
  intros L V. unfold build_provisioned. destruct (safe_output name); [|done]. cbn [negb]. destruct (xz_d base) as [img|]; [|done].
  intros (img' & I & H)%result_bind_ok. destruct (xz_z img') as [xz|] eqn:X; [|done]. injection H as ->.
  exists img'. split; [by apply (it_xz _ _ _ _ _ L)|]. unfold inject_fleet_env in I. case_bool_decide; [done|].
  destruct (FLEET_ENV_MAX_BYTES <? _); [done|]. apply result_bind_ok in I as (off & O & I).
  destruct (mcopy img off (utf8_encode text)) as [i|] eqn:M; [|done]. injection I as ->.
  unfold read_fleet_env. unfold boot_partition_offset in *. rewrite (it_table _ _ _ _ _ L _ _ _ _ M), O. cbn [mbind result_bind].
  by rewrite (it_file _ _ _ _ _ L _ _ _ _ M), utf8_decode_encode.
Qed.

(** ** Progress never goes back *)

Definition steady (low high : Z) (l : list Z) : Prop := Sorted Z.le l ∧ Forall (λ p, low ≤ p ≤ high) l.

Lemma steady_app a b c d l k : steady a b l → steady c d k → b ≤ c → a ≤ c → b ≤ d → steady a d (l ++ k).
Proof.
  intros [S1 F1] [S2 F2] B A D. split.
  - apply Sorted_StronglySorted in S1; [|intros ???; lia]. apply Sorted_StronglySorted in S2; [|intros ???; lia]. apply StronglySorted_Sorted.
    induction S1 as [|x l S1 IH Fx]; [done|]. apply Forall_cons in F1 as [Hx F1]. cbn. constructor; [by apply IH|].
    apply Forall_app. split; [done|]. eapply Forall_impl; [exact F2|]. cbn. lia.
  - apply Forall_app. split; (eapply Forall_impl; [eassumption|]); cbn; lia.
Qed.

Lemma watch_pct_mono base_pct end_pct n cur cur' : base_pct < end_pct → 0 ≤ cur ≤ cur' →
  base_pct ≤ watch_pct base_pct end_pct n cur ≤ watch_pct base_pct end_pct n cur' ∧ watch_pct base_pct end_pct n cur' ≤ end_pct - 1.
Proof.
  intros B [C C']. unfold watch_pct. assert (cur * (end_pct - base_pct) / Z.max 1 n ≤ cur' * (end_pct - base_pct) / Z.max 1 n).
  { apply Z.div_le_mono; [lia|]. apply Z.mul_le_mono_nonneg_r; lia. }
  lia.
Qed.

Lemma watch_steady base_pct end_pct n sizes : base_pct < end_pct → ∀ cur, 0 ≤ cur → Sorted Z.le (cur :: sizes) →
  ∀ last, base_pct ≤ last ≤ watch_pct base_pct end_pct n cur →
  Sorted Z.le (last :: watch_emits base_pct end_pct n last sizes) ∧ Forall (λ p, base_pct ≤ p ≤ end_pct - 1) (watch_emits base_pct end_pct n last sizes).
Proof.
  intros B. induction sizes as [|c l IH]; intros cur C S last L; cbn [watch_emits].
  - split; repeat constructor.
  - apply Sorted_inv in S as [S H]. apply HdRel_inv in H. destruct (watch_pct_mono base_pct end_pct n cur c B ltac:(lia)) as [M E].
    destruct (Z.eqb_spec (watch_pct base_pct end_pct n c) last) as [<-|N].
    + apply (IH c); [lia|done|lia].
    + destruct (IH c ltac:(lia) S (watch_pct base_pct end_pct n c) ltac:(lia)) as [S' F]. split; [|constructor; [lia|done]].
      constructor; [done|]. constructor. lia.
Qed.

Lemma phase_steady base_pct end_pct expected sizes : base_pct < end_pct → Sorted Z.le (0 :: sizes) →
  steady base_pct (end_pct - 1) (phase base_pct end_pct expected sizes).
Proof.
  intros B S. assert (O : steady base_pct (end_pct - 1) [base_pct]) by (split; repeat constructor; lia).
  unfold phase. destruct expected as [n|]; [|done]. destruct (0 <? n); [|done].
  destruct (watch_steady base_pct end_pct n sizes B 0 ltac:(lia) S base_pct) as [S' F].
  - unfold watch_pct. lia.
  - split; [done|]. constructor; [lia|done].
Qed.

(** The bar of a build only moves forward, between the 35 and the 85 of the stages around it. *)
Lemma build_progress_steady uncompressed sizes1 recompressed sizes2 : Sorted Z.le (0 :: sizes1) → Sorted Z.le (0 :: sizes2) →
  steady 35 82 (build_progress uncompressed sizes1 recompressed sizes2).
Proof.
  intros S1 S2. unfold build_progress. eapply (steady_app 35 54 55 82); [by apply (phase_steady 35 55)| |lia..].
  eapply (steady_app 55 56 58 82 [55; 56]); [split; repeat constructor; lia| |lia..].
  eapply (steady_app 58 81 82 82); [by apply (phase_steady 58 82)|split; repeat constructor; lia|lia..].
Qed.
