(* ===== verification/Chat.v ===== *)
(** * Chat threads, messages and usage (cms/models/chat_thread.py,
      chat_message.py, chat_pending_approval.py, cms/routers/chat.py: threads,
      cms/services/assistant/budget.py: usage; the editor threads of
      cms/routers/assets.py and composed.py)

    The tables of the assistant and what users do to them without the model:
    threads of their own, threads bound to the asset an editor has open, the
    tokens of the day.  Instants are microseconds; messages keep the order in
    which they were inserted. *)

From S2P Require Import Prelude Clock Models Database AssetReadiness PyText Presence JsonText Variants Access Features Budget Slides Library.
Open Scope Z_scope.

(** ** Rows *)

(** An entry of [tool_calls]; [tl_arguments] is a text, as the model sends it. *)
Record ToolCall := mkToolCall { tl_id : option string; tl_name : string; tl_arguments : Json }.

Record ChatMessage := mkMessage {
  cm_id : uuid; cm_thread_id : uuid; cm_role : string; cm_content : string; cm_tool_calls : option (list ToolCall);
  cm_tool_call_id : option string; cm_tokens_in : Z; cm_tokens_out : Z; cm_created_at : Z
}.

Record ChatThread := mkThread {
  ct_user_id : uuid; ct_title : string; ct_mode : string; ct_composed_asset_id : option uuid; ct_created_at : Z; ct_updated_at : Z
}.

Definition STATUS_PENDING : string := "pending".
Definition STATUS_APPROVED : string := "approved".
Definition STATUS_REJECTED : string := "rejected".

Record ChatPendingApproval := mkApproval {
  ap_thread_id : uuid; ap_proposed_by_message_id : option uuid; ap_tool_name : string; ap_tool_call_id : string;
  ap_tool_arguments : list (string * Json); ap_display_arguments : option (list (string * Json)); ap_status : string;
  ap_result_content : option string; ap_decision_note : option string; ap_created_at : Z; ap_decided_at : option Z
}.

Record ChatDb := mkChatDb {
  cd_threads : gmap uuid ChatThread; cd_messages : list ChatMessage; cd_approvals : gmap uuid ChatPendingApproval
}.
Definition put_threads (t : gmap uuid ChatThread) (db : ChatDb) : ChatDb := mkChatDb t (cd_messages db) (cd_approvals db).

(** [order_by(created_at, id)]. *)
Definition chronological (a b : ChatMessage) : bool :=
  (cm_created_at a <? cm_created_at b) || ((cm_created_at a =? cm_created_at b) && negb (String.ltb (cm_id b) (cm_id a))).
Definition in_thread (tid : uuid) (db : ChatDb) : list ChatMessage := filter (λ m, cm_thread_id m = tid) (cd_messages db).
Definition history (tid : uuid) (db : ChatDb) : list ChatMessage := sort_on chronological (in_thread tid db).

(** ** Usage of the day *)

(** The join with [chat_threads]. *)
Definition counted (uid : uuid) (day_start : Z) (db : ChatDb) (m : ChatMessage) : bool :=
  match cd_threads db !! cm_thread_id m with
  | Some t => bool_decide (ct_user_id t = uid) && (day_start <=? cm_created_at m)
  | None => false
  end.
Definition sum_of (f : ChatMessage → Z) (l : list ChatMessage) : Z := foldr (λ m n, f m + n) 0 l.

Definition _utc_day_start (now : Z) : Z := now - now mod DAY_US.

Definition get_user_today_usage_split (uid : uuid) (now : Z) (db : ChatDb) : Z * Z :=
  let rows := filter (λ m, counted uid (_utc_day_start now) db m = true) (cd_messages db) in
  (sum_of cm_tokens_in rows, sum_of cm_tokens_out rows).
Definition get_user_today_usage (uid : uuid) (now : Z) (db : ChatDb) : Z :=
  let rows := filter (λ m, counted uid (_utc_day_start now) db m = true) (cd_messages db) in
  sum_of cm_tokens_in rows + sum_of cm_tokens_out rows.

Definition check_budget (adb : AuthDb) (uid : uuid) (now : Z) (db : ChatDb) : result exn (Z * Z) :=
  let cap := get_user_daily_cap adb uid in
  let used := get_user_today_usage uid now db in
  if cap <? 0 then Ok (used, cap)
  else if cap <=? used then Err (BudgetExceededError cap used)
  else Ok (used, cap).

(** ** The endpoints on threads *)

Definition MODE_GENERAL : string := "general".
Definition MODE_COMPOSED_EDITOR : string := "composed_editor".
Definition MODE_SLIDESHOW_EDITOR : string := "slideshow_editor".
Definition _EDITOR_MODES : list string := [MODE_COMPOSED_EDITOR; MODE_SLIDESHOW_EDITOR].
Definition ASSETS_WRITE : string := "assets:write".

Definition newest_first (a b : uuid * ChatThread) : bool := ct_updated_at b.2 <=? ct_updated_at a.2.
Definition latest_created (a b : uuid * ChatThread) : bool := ct_created_at b.2 <=? ct_created_at a.2.

Section request.
Context (adb : AuthDb) (flags : FlagRows) (uid : uuid) (user : User).

Definition _require_feature : result exn unit := if assistant_enabled_for adb flags (uid, user) then Ok tt else Err (HTTPException 404).

Definition _get_owned_thread (tid : uuid) (db : ChatDb) : result exn ChatThread :=
  match cd_threads db !! tid with
  | Some t => if bool_decide (ct_user_id t = uid) then Ok t else Err (HTTPException 404)
  | None => Err (HTTPException 404)
  end.

(** [GET /feature] and [GET /usage], without the estimate in dollars. *)
Definition get_feature_status : bool := assistant_enabled_for adb flags (uid, user).
Definition get_assistant_usage (now : Z) (db : ChatDb) : result exn (Z * Z * Z * bool) :=
  _ ← _require_feature;
  let '(tokens_in, tokens_out) := get_user_today_usage_split uid now db in
  let cap := get_user_daily_cap adb uid in
  Ok (tokens_in, tokens_out, cap, cap <? 0).

Definition list_threads (db : ChatDb) : result exn (list (uuid * ChatThread)) :=
  _ ← _require_feature;
  Ok (sort_on newest_first (filter (λ it, ct_user_id it.2 = uid ∧ ct_mode it.2 ∉ _EDITOR_MODES) (map_to_list (cd_threads db)))).

(** A title longer than 200 characters is refused by the schema. *)
Definition create_thread (fresh : uuid) (now : Z) (title : string) (db : ChatDb) : result exn ChatDb :=
  if (200 <? String.length title)%nat then Err (HTTPException 422)
  else _ ← _require_feature;
       Ok (put_threads (<[fresh := mkThread uid (str_strip title) MODE_GENERAL None now now]> (cd_threads db)) db).

(** The foreign keys delete the messages and the approvals. *)
Definition drop_thread (tid : uuid) (db : ChatDb) : ChatDb :=
  mkChatDb (delete tid (cd_threads db)) (filter (λ m, cm_thread_id m ≠ tid) (cd_messages db))
    (filter (λ ia, ap_thread_id ia.2 ≠ tid) (cd_approvals db)).
Definition delete_thread (tid : uuid) (db : ChatDb) : result exn ChatDb :=
  _ ← _require_feature; _ ← _get_owned_thread tid db; Ok (drop_thread tid db).

Definition by_created (a b : ChatMessage) : bool := cm_created_at a <=? cm_created_at b.
Definition list_thread_messages (tid : uuid) (db : ChatDb) : result exn (list ChatMessage) :=
  _ ← _require_feature; _ ← _get_owned_thread tid db; Ok (sort_on by_created (in_thread tid db)).

(** *** Editor threads *)

Definition may (permission : string) : bool :=
  match role_of adb user with Some role => has_permission (rl_permissions role) permission | None => false end.

(** The rows of [composed_slides] are those of [m_composed]. *)
Definition _load_composed_for_write (aid : uuid) (sh : Shelf) : result exn Asset :=
  match live_asset aid sh with
  | Some asset =>
      if negb (bool_decide (a_asset_type asset = COMPOSED)) then Err (HTTPException 404)
      else _ ← _verify_asset_access uid user adb aid sh;
           if bool_decide (aid ∈ (m_composed (sh_media sh)).*1) then Ok asset else Err (HTTPException 404)
  | None => Err (HTTPException 404)
  end.

(** The two get-or-create endpoints differ in the mode, the load and the name. *)
Definition editor_thread (mode : string) (load : uuid → Shelf → result exn Asset) (name : Asset → string) (fresh : uuid) (now : Z)
    (aid : uuid) (sh : Shelf) (db : ChatDb) : result exn (ChatDb * uuid * bool) :=
  if negb (may ASSETS_WRITE) then Err (HTTPException 403)
  else
    asset ← load aid sh;
    if negb (assistant_enabled_for adb flags (uid, user)) then Err (HTTPException 404)
    else
      match head (sort_on latest_created
              (filter (λ it, ct_user_id it.2 = uid ∧ ct_composed_asset_id it.2 = Some aid ∧ ct_mode it.2 = mode) (map_to_list (cd_threads db)))) with
      | Some (tid, _) => Ok (db, tid, false)
      | None =>
          let t := mkThread uid (String.substring 0 200 ("Editing " +:+ name asset)) mode (Some aid) now now in
          Ok (put_threads (<[fresh := t]> (cd_threads db)) db, fresh, true)
      end.

Definition slideshow_name (a : Asset) : string := str_or (a_display_name a) (truthy (Some (a_filename a))) or_else "slideshow".
Definition composed_name (a : Asset) : string :=
  str_or (a_display_name a) (str_or (a_original_filename a) (truthy (Some (a_filename a)))) or_else "slide".
Definition slideshow_assistant_thread := editor_thread MODE_SLIDESHOW_EDITOR (_load_slideshow_for_write uid user adb) slideshow_name.
Definition composed_assistant_thread := editor_thread MODE_COMPOSED_EDITOR _load_composed_for_write composed_name.

(** Before every turn. *)
Definition _verify_composed_editor_thread (t : ChatThread) (sh : Shelf) : result exn unit :=
  if negb (bool_decide (ct_mode t ∈ _EDITOR_MODES)) then Ok tt
  else match ct_composed_asset_id t with
       | None => Err (HTTPException 409)
       | Some aid =>
           if negb (may ASSETS_WRITE) then Err (HTTPException 403)
           else if bool_decide (ct_mode t = MODE_COMPOSED_EDITOR) then _ ← _load_composed_for_write aid sh; Ok tt
           else _ ← _load_slideshow_for_write uid user adb aid sh; Ok tt
       end.
End request.

(** ** Histories *)

Lemma chronological_total a b : chronological a b = true ∨ chronological b a = true.
Proof.
  unfold chronological. destruct (Z.lt_trichotomy (cm_created_at a) (cm_created_at b)) as [L|[E|G]].
  - left. by rewrite (proj2 (Z.ltb_lt _ _)).
  - rewrite E, Z.eqb_refl, Z.ltb_irrefl. simpl. destruct (String.ltb (cm_id b) (cm_id a)) eqn:S; [right|by left]. by rewrite (str_ltb_asym _ _ S).
  - right. by rewrite (proj2 (Z.ltb_lt _ _)).
Qed.

(** Rows that are later than all the others come last, in their order. *)
Definition later (a b : ChatMessage) : Prop := cm_created_at a < cm_created_at b.
Lemma sort_later (old new : list ChatMessage) :
  StronglySorted later new → (∀ a b, a ∈ old → b ∈ new → later a b) →
  sort_on chronological (old ++ new) = sort_on chronological old ++ new.
Proof.
  intros S H. assert (E : sort_on chronological new = new).
  { induction S as [|x l _ IH Hx]; [done|]. cbn [sort_on foldr]. fold (sort_on chronological l). rewrite IH by (intros; apply H; [done|by right]).
    destruct l as [|y l]; [done|]. simpl. apply Forall_cons in Hx as [Hx _]. unfold chronological, later in *. by rewrite (proj2 (Z.ltb_lt _ _)). }
  induction old as [|x old IH]; [done|]. cbn [app sort_on foldr]. fold (sort_on chronological (old ++ new)). rewrite IH by (intros; apply H; [by right|done]).
  fold (sort_on chronological old). assert (Hx : ∀ b, b ∈ new → later x b) by (intros; apply H; [left|done]). clear -Hx.
  induction (sort_on chronological old) as [|y s IH]; simpl; [|by destruct (chronological x y); [|rewrite IH]].
  destruct new as [|b new]; [done|]. simpl. unfold chronological. specialize (Hx b (list_elem_of_here _ _)). unfold later in Hx.
  by rewrite (proj2 (Z.ltb_lt _ _)).
Qed.

Lemma sum_of_app f a b : sum_of f (a ++ b) = sum_of f a + sum_of f b.
Proof. induction a as [|x a IH]; [done|]. simpl. lia. Qed.
