(* ===== verification/Display.v ===== *)
(** * Names on approval cards (cms/services/assistant/approval_display.py)

    The ids in the arguments of a proposed tool call, resolved to names.  The
    tables are a function from a model and an id to the attributes of the row
    that may serve as its name. *)

From S2P Require Import Prelude Models PyText Presence JsonText.
Open Scope Z_scope.

Inductive NameModel := N_DEVICE | N_ASSET | N_GROUP | N_SCHEDULE | N_TAG | N_PROFILE | N_VIEW.
#[export] Instance NameModel_eq_dec : EqDecision NameModel.
Proof. solve_decision. Defined.

Definition _SINGLE_REGISTRY : list (string * NameModel) :=
  [("device_id", N_DEVICE); ("asset_id", N_ASSET); ("default_asset_id", N_ASSET); ("source_asset_id", N_ASSET); ("group_id", N_GROUP);
   ("tag_id", N_TAG); ("schedule_id", N_SCHEDULE); ("profile_id", N_PROFILE); ("asset_view_id", N_VIEW); ("view_id", N_VIEW)].
Definition _PLURAL_REGISTRY : list (string * NameModel) :=
  [("device_ids", N_DEVICE); ("member_device_ids", N_DEVICE); ("asset_ids", N_ASSET); ("group_ids", N_GROUP); ("member_group_ids", N_GROUP);
   ("tag_ids", N_TAG); ("schedule_ids", N_SCHEDULE)].

(** Only the ids of devices are plain text. *)
Definition _id_column_is_uuid (m : NameModel) : bool := negb (bool_decide (m = N_DEVICE)).

(** The text of the id; the text of a UUID is the canonical one. *)
Definition _coerce_id (raw : Json) : option string :=
  match raw with
  | JStr t =>
      let s := str_strip t in
      if bool_decide (s = "") || (64 <? String.length s)%nat then None
      else Some (uuid_of_str s or_else s)
  | _ => None
  end.

Fixpoint _first_nonempty (chain : list (option string)) : option string :=
  match chain with
  | [] => None
  | val :: rest => match val with
                   | None => _first_nonempty rest
                   | Some v => match truthy (Some (str_strip v)) with Some text => Some text | None => _first_nonempty rest end
                   end
  end.

Section tables.
(** The rows, and whether the SELECT of a model succeeds. *)
Context (rows : NameModel → string → option (list (option string))) (db_ok : NameModel → bool).

(** [_bulk_load] at one id. *)
Definition _bulk_load (m : NameModel) (id : string) : option (list (option string)) :=
  if negb (db_ok m) then None
  else if _id_column_is_uuid m then u ← uuid_of_str id; rows m u
  else rows m id.

Definition name_of (m : NameModel) (id : string) : option string := row ← _bulk_load m id; _first_nonempty row.

Definition single_name (kv : string * Json) : option (string * Json) :=
  m ← aget kv.1 _SINGLE_REGISTRY; id ← _coerce_id kv.2; n ← name_of m id; Some (kv.1, JStr n).
Definition plural_item (m : NameModel) (item : Json) : option string := id ← _coerce_id item; name_of m id.
Definition plural_names (kv : string * Json) : option (string * Json) :=
  if bool_decide (is_Some (aget kv.1 _SINGLE_REGISTRY)) then None
  else m ← aget kv.1 _PLURAL_REGISTRY;
       match kv.2 with
       | JArr raw =>
           let names := plural_item m <$> raw in
           if existsb (λ n, bool_decide (is_Some n)) names then Some (kv.1, JArr ((λ n, match n with Some t => JStr t | None => JNull end) <$> names)) else None
       | _ => None
       end.

Definition resolve_friendly_names (tool_arguments : list (string * Json)) : list (string * Json) :=
  alist_of (omap single_name tool_arguments ++ omap plural_names tool_arguments).
End tables.

(** A card shows names of rows only, at keys of the arguments, and a list of
    names is as long as the list of ids. *)
Lemma resolved_from_rows rows db_ok args k v :
  (k, v) ∈ omap (single_name rows db_ok) args ++ omap (plural_names rows db_ok) args →
  ∃ raw, (k, raw) ∈ args ∧
    ((∃ m id n, v = JStr n ∧ _coerce_id raw = Some id ∧ name_of rows db_ok m id = Some n) ∨
     (∃ ids names, raw = JArr ids ∧ v = JArr names ∧ length names = length ids)).
Proof.
  rewrite elem_of_app, !list_elem_of_omap. intros [([k' raw] & Hin & H)|([k' raw] & Hin & H)].
  - unfold single_name in H. cbn [fst snd] in H. apply bind_Some in H as (m & _ & H). apply bind_Some in H as (id & Hid & H).
    apply bind_Some in H as (n & Hn & [= <- <-]). exists raw. split; [done|left]. by exists m, id, n.
  - unfold plural_names in H. cbn [fst snd] in H. destruct (bool_decide _); [done|]. apply bind_Some in H as (m & _ & H).
    destruct raw as [| | | |ids|]; try done. destruct (existsb _ _); [|done]. injection H as <- <-. exists (JArr ids). split; [done|right].
    eexists _, _. split; [done|]. split; [done|]. by rewrite !length_fmap.
Qed.
