(* ===== verification/Agent.v ===== *)
(** * The assistant: tools, turns and approvals (cms/services/assistant/agent.py,
      mcp_client.py, cms/routers/chat.py, chat_approvals.py)

    One turn of the agent loop, with and without streaming, as a computation on
    the rows it will commit and on the log of the tool calls it makes; the
    decisions on proposed writes; and the system of all of them.

    The language model is any function of the conversation, the MCP server any
    function of the log of calls; both may raise.  Rows get ids and times from
    the functions [fresh] and [clk] of the number of rows made so far. *)

From S2P Require Import Prelude Clock Models Database PyText Presence JsonText Jobs Variants Access Features Budget Library Chat Display.
Open Scope Z_scope.

(** ** The tool profiles *)

Definition READ_ONLY_TOOLS : list string :=
  ["list_devices"; "get_device"; "list_groups"; "list_assets"; "get_asset"; "list_assets_paged"; "list_tags"; "list_schedules";
   "get_schedule"; "list_profiles"; "get_device_logs"; "list_audit_events"; "get_server_time"; "get_dashboard"; "list_asset_views"].
Definition WRITE_TOOLS : list string :=
  ["adopt_device"; "update_device"; "reboot_device"; "check_device_updates"; "upgrade_device"; "create_group"; "update_group";
   "delete_group"; "create_webpage_asset"; "update_asset"; "delete_asset"; "share_asset"; "unshare_asset"; "toggle_asset_global";
   "recapture_stream"; "create_tag"; "update_tag"; "delete_tag"; "tag_asset"; "untag_asset"; "create_schedule"; "update_schedule";
   "delete_schedule"; "play_now"; "end_schedule_now"; "create_profile"; "update_profile"; "copy_profile"; "enable_profile";
   "disable_profile"; "reset_profile"; "delete_profile"; "create_asset_view"; "update_asset_view"; "delete_asset_view"].
Definition ALLOWED_TOOLS : list string := READ_ONLY_TOOLS ++ WRITE_TOOLS.

Definition COMPOSED_READ_TOOLS : list string := ["list_composed_widget_types"; "get_composed_layout"].
Definition COMPOSED_DRAFT_WRITE_TOOLS : list string := ["set_composed_widgets"].
Definition COMPOSED_ASSET_SCOPED_TOOLS : list string := ["get_composed_layout"; "set_composed_widgets"].
Definition SLIDESHOW_READ_TOOLS : list string := ["get_slideshow"].
Definition SLIDESHOW_WRITE_TOOLS : list string := ["set_slideshow_slides"].
Definition SLIDESHOW_ASSET_SCOPED_TOOLS : list string := ["get_slideshow"; "set_slideshow_slides"].
Definition NO_APPROVAL_TOOLS : list string :=
  READ_ONLY_TOOLS ++ COMPOSED_READ_TOOLS ++ COMPOSED_DRAFT_WRITE_TOOLS ++ SLIDESHOW_READ_TOOLS ++ SLIDESHOW_WRITE_TOOLS.
Definition COMPOSED_EDITOR_TOOLS : list string := ["list_assets"; "get_asset"] ++ COMPOSED_READ_TOOLS ++ COMPOSED_DRAFT_WRITE_TOOLS.
Definition SLIDESHOW_EDITOR_TOOLS : list string := ["list_assets"; "get_asset"; "list_tags"] ++ SLIDESHOW_READ_TOOLS ++ SLIDESHOW_WRITE_TOOLS.
Definition _ASSET_SCOPED_TOOLS : list string := COMPOSED_ASSET_SCOPED_TOOLS ++ SLIDESHOW_ASSET_SCOPED_TOOLS.

Definition tools_for_mode (mode : string) : list string :=
  if bool_decide (mode = MODE_COMPOSED_EDITOR) then COMPOSED_EDITOR_TOOLS
  else if bool_decide (mode = MODE_SLIDESHOW_EDITOR) then SLIDESHOW_EDITOR_TOOLS
  else ALLOWED_TOOLS.
Definition executable_tools_for_mode (mode : string) : list string := filter (λ t, t ∈ tools_for_mode mode) NO_APPROVAL_TOOLS.

(** ** The client of the MCP server *)

(** A call that reached the server, on behalf of a user. *)
Record Call := mkCall { cl_user : uuid; cl_name : string; cl_args : list (string * Json); cl_bypass : bool }.

(** A block of a result: its text, or the value it dumps to. *)
Record CallResult := mkResult { cr_structured : option Json; cr_content : list (string + Json); cr_isError : bool }.
(** What the server answers, or the text "Class: message" of what is raised. *)
Inductive Reply := Returned (r : CallResult) | Raised (text : string).

Record OpenAITool := mkTool { ot_name : string; ot_description : string; ot_parameters : Json }.

(** [tool.inputSchema or {...}]. *)
Definition EMPTY_SCHEMA : Json := JObj [("type", JStr "object"); ("properties", JObj [])].
Definition NEWLINE : string := String (ascii_of_nat 10) "".
Definition WRITE_NOTE : string :=
  "[Note: this is a write tool — calling it will queue an approval request that the user must explicitly click Approve on before it runs.]".

(** A tool the server lists: name, description, schema. *)
Definition openai_tool (t : string * option string * option Json) : OpenAITool :=
  let '(name, description, schema) := t in
  let d := description or_else "" in
  mkTool name (if bool_decide (name ∈ WRITE_TOOLS) then str_strip (d +:+ NEWLINE +:+ NEWLINE +:+ WRITE_NOTE) else d)
    (match schema with Some (JObj []) | None => EMPTY_SCHEMA | Some s => s end).
Definition list_openai_tools (mode : string) (listing : list (string * option string * option Json)) : list OpenAITool :=
  openai_tool <$> filter (λ t, t.1.1 ∈ tools_for_mode mode) listing.

(** The service key: the stripped file, then the stripped key vault ([None]
    when no URI is configured). *)
Definition _read_service_key (file_text : option string) (keyvault : option string) : result exn string :=
  match (t ← file_text; truthy (Some (str_strip t))) with
  | Some key => Ok key
  | None => match keyvault with
            | Some raw => match truthy (Some (str_strip raw)) with Some key => Ok key | None => Err (McpUnavailableError "empty key vault") end
            | None => Err (McpUnavailableError "no key file")
            end
  end.

Section client.
Context (float_repr : QArith_base.Q → string) (session : list Call → Reply).
Abbreviation dumps := (json_dumps float_repr).

Definition block_text (b : string + Json) : string := match b with inl t => t | inr v => dumps v end.
Definition result_text (r : CallResult) : string :=
  match cr_structured r with
  | Some v => dumps v
  | None =>
      let body := String.concat NEWLINE (block_text <$> cr_content r) in
      if cr_isError r then dumps (JObj [("error", JStr "tool_error"); ("message", JStr body)]) else body
  end.

(** The log, newest call first, and the text or what was raised. *)
Definition call_tool (uid : uuid) (name : string) (arguments : list (string * Json)) (bypass_whitelist : bool) (log : list Call)
    : list Call * result exn string :=
  if negb bypass_whitelist && negb (bool_decide (name ∈ NO_APPROVAL_TOOLS)) then
    (log, Err (PermissionError ("Tool '" +:+ name +:+ "' is not in the no-approval whitelist (fleet writes require approval).")))
  else if bypass_whitelist && negb (bool_decide (name ∈ ALLOWED_TOOLS)) then
    (log, Err (PermissionError ("Tool '" +:+ name +:+ "' is not in the assistant's allowlist (read or write).")))
  else
    let log' := mkCall uid name arguments bypass_whitelist :: log in
    match session log' with
    | Returned r => (log', Ok (result_text r))
    | Raised text => (log', Err (TransportError text))
    end.

(** [f"{type(exc).__name__}: {exc}"] of what [call_tool] raises. *)
Definition raised_text (e : exn) : string :=
  match e with PermissionError msg => "PermissionError: " +:+ msg | TransportError text => text | _ => "" end.

(** ** One tool call of the model *)

(** The text of the error that json.loads raises. *)
Context (decode_error : Json → string).

Definition _parse_tool_arguments (raw : Json) : list (string * Json) + string :=
  match raw with
  | JNull | JStr "" => inl []
  | JObj l => inl l
  | JStr s => match json_loads s with
              | None => inr ("invalid_json_arguments: " +:+ decode_error raw)
              | Some (JObj l) => inl l
              | Some _ => inr "tool arguments must be a JSON object"
              end
  | _ => inr ("invalid_json_arguments: " +:+ decode_error raw)
  end.

Definition error_json (error message : string) : string := dumps (JObj [("error", JStr error); ("message", JStr message)]).
Definition not_exposed (name : string) : string := "Tool '" +:+ name +:+ "' is not exposed to the assistant.".

Definition _execute_tool_call (uid : uuid) (tool_call : ToolCall) (executable_tools : list string) (bound_asset_id : option uuid) (log : list Call)
    : list Call * string :=
  let name := tl_name tool_call in
  match _parse_tool_arguments (tl_arguments tool_call) with
  | inr err => (log, error_json "bad_arguments" err)
  | inl args =>
      let args := match bound_asset_id with
                  | Some aid => if bool_decide (name ∈ _ASSET_SCOPED_TOOLS) then aset "asset_id" (JStr aid) args else args
                  | None => args
                  end in
      if negb (bool_decide (name ∈ executable_tools)) then
        (log, error_json "tool_not_allowed"
                (if bool_decide (name ∈ WRITE_TOOLS)
                 then "Tool '" +:+ name +:+ "' requires an approval click which isn't available in the non-streaming agent path. Try again over the SSE stream endpoint."
                 else not_exposed name))
      else
        match call_tool uid name args false log with
        | (log', Ok text) => (log', text)
        | (log', Err (PermissionError msg)) => (log', error_json "tool_not_allowed" msg)
        | (log', Err e) => (log', error_json "tool_execution_failed" (raised_text e))
        end
  end.
End client.

(** ** Conversations *)

(** A message in the format of OpenAI. *)
Record OMsg := mkOMsg { om_role : string; om_content : string; om_tool_calls : option (list ToolCall); om_tool_call_id : option string }.

Definition _history_to_openai_messages (rows : list ChatMessage) : list OMsg :=
  (λ r, mkOMsg (cm_role r) (cm_content r) (match cm_tool_calls r with Some [] => None | c => c end) (truthy (cm_tool_call_id r))) <$> rows.

(** [" ".join(s.split())]. *)
Fixpoint split_words (word : string) (s : string) : list string :=
  match s with
  | EmptyString => if bool_decide (word = "") then [] else [word]
  | String c s' => if is_space c then (if bool_decide (word = "") then [] else [word]) ++ split_words "" s'
                   else split_words (word +:+ String c "") s'
  end.
Definition _AUTO_TITLE_MAX : nat := 80.
Definition _auto_title (user_message : string) : string :=
  let flat := String.concat " " (split_words "" user_message) in
  if (String.length flat <=? _AUTO_TITLE_MAX)%nat then flat
  else str_rstrip (String.substring 0 (_AUTO_TITLE_MAX - 1) flat) +:+ "…".

(** What the model answers at once, and in pieces. *)
Record CompletionResult := mkCompletion { co_content : string; co_tokens_in : Z; co_tokens_out : Z; co_tool_calls : option (list ToolCall) }.
Inductive Delta :=
  | D_content (text : string)
  | D_tool_call (index : Z) (id name arguments_delta : option string)
  | D_finish (tokens_in tokens_out : Z).

(** *** The client of the model (cms/services/assistant/llm_client.py) *)

(** A response of the API: text, tool calls, prompt and completion tokens. *)
Record Response := mkResponse { rs_content : option string; rs_tool_calls : list ToolCall; rs_usage : option (Z * Z) }.
(** [LLMClient.complete], after the request. *)
Definition completion_of (r : Response) : CompletionResult :=
  mkCompletion (truthy (rs_content r) or_else "") (default 0 (fst <$> rs_usage r)) (default 0 (snd <$> rs_usage r))
    (match rs_tool_calls r with [] => None | l => Some l end).

(** A chunk of a streamed response; its choice is the text and the fragments of
    tool calls (index, id, name, arguments). *)
Record Chunk := mkChunk { ck_usage : option (Z * Z); ck_choice : option (option string * list (Z * option string * option string * option string)) }.
Definition chunk_deltas (c : Chunk) : list Delta :=
  match ck_choice c with
  | None => []
  | Some (content, calls) =>
      match truthy content with Some t => [D_content t] | None => [] end ++
      ((λ tc, let '(index, id, name, args) := tc in D_tool_call index id name args) <$> calls)
  end.
Definition add_usage (u : Z * Z) (c : Chunk) : Z * Z :=
  match ck_usage c with
  | Some (i, o) => (if i =? 0 then u.1 else i, if o =? 0 then u.2 else o)
  | None => u
  end.
(** [LLMClient.stream]: the finish carries the usage seen last, and is not sent
    when the stream breaks. *)
Definition llm_stream (reply : list Chunk * option exn) : list Delta * option exn :=
  let '(chunks, raised) := reply in
  let u := fold_left add_usage chunks (0, 0) in
  (concat (chunk_deltas <$> chunks) ++ match raised with None => [D_finish u.1 u.2] | Some _ => [] end, raised).

(** The frames of the event stream. *)
Inductive Event :=
  | E_token (text : string)
  | E_tool_call (id name : string) (arguments : Json)
  | E_tool_result (id name content : string)
  | E_approval_request (approval_id : uuid) (tool_call_id name : string) (arguments : list (string * Json)) (display : option (list (string * Json)))
  | E_done (message_id : uuid) (tokens_in tokens_out : Z).

(** *** Fragments of tool calls *)

Record Slot := mkSlot { sl_id : option string; sl_name : string; sl_args : string }.
Abbreviation Slots := (list (Z * Slot)).

Definition add_fragment (index : Z) (id name args : option string) (slots : Slots) : Slots :=
  let slot := aget index slots or_else mkSlot None "" "" in
  aset index (mkSlot (str_or id (sl_id slot)) (sl_name slot +:+ (name or_else "")) (sl_args slot +:+ (args or_else ""))) slots.

Definition by_index (a b : Z * Slot) : bool := a.1 <=? b.1.
Definition _assemble_tool_calls (slots : Slots) : option (list ToolCall) :=
  let out := omap (λ slot, let '(index, tc) := slot in
      if bool_decide (sl_name tc = "") then None
      else Some (mkToolCall (Some (truthy (sl_id tc) or_else ("call_" +:+ Z_str index))) (sl_name tc) (JStr (sl_args tc))))
    (sort_on by_index slots) in
  match out with [] => None | _ => Some out end.

(** ** Turns *)

(** What a turn has made so far: rows and approvals to commit, the conversation,
    the log of calls, the frames, how many rows exist and how many times the
    model was asked. *)
Record Turn := mkTurn {
  tn_rows : list ChatMessage; tn_approvals : list (uuid * ChatPendingApproval); tn_msgs : list OMsg; tn_log : list Call;
  tn_events : list Event; tn_next : nat; tn_asked : nat
}.
Definition push_msg (m : OMsg) (t : Turn) : Turn :=
  mkTurn (tn_rows t) (tn_approvals t) (tn_msgs t ++ [m]) (tn_log t) (tn_events t) (tn_next t) (tn_asked t).
Definition emit (es : list Event) (t : Turn) : Turn :=
  mkTurn (tn_rows t) (tn_approvals t) (tn_msgs t) (tn_log t) (tn_events t ++ es) (tn_next t) (tn_asked t).
Definition with_log (log : list Call) (t : Turn) : Turn :=
  mkTurn (tn_rows t) (tn_approvals t) (tn_msgs t) log (tn_events t) (tn_next t) (tn_asked t).
Definition ask_once (t : Turn) : Turn :=
  mkTurn (tn_rows t) (tn_approvals t) (tn_msgs t) (tn_log t) (tn_events t) (tn_next t) (S (tn_asked t)).

(** What a turn meets outside: whether the MCP session opens, the tools it
    lists, the model, the server. *)
Record World := mkWorld {
  w_connect : result exn unit;
  w_listing : result exn (list (string * option string * option Json));
  w_response : list OMsg → list OpenAITool → result exn Response;
  w_chunks : list OMsg → list OpenAITool → list Chunk * option exn;
  w_session : list Call → Reply
}.
Definition w_complete (w : World) (msgs : list OMsg) (tools : list OpenAITool) : result exn CompletionResult := completion_of <$> w_response w msgs tools.
Definition w_stream (w : World) (msgs : list OMsg) (tools : list OpenAITool) : list Delta * option exn := llm_stream (w_chunks w msgs tools).

Section turn.
Context (float_repr : QArith_base.Q → string) (decode_error : Json → string).
Context (prompt : uuid → string → option uuid → string).
Context (rows : NameModel → string → option (list (option string))) (db_ok : NameModel → bool).
Context (fresh : nat → uuid) (clk : nat → Z).
Context (uid : uuid) (tid : uuid) (thread : ChatThread) (w : World).
Abbreviation dumps := (json_dumps float_repr).

Definition bound_asset_id : option uuid := if bool_decide (ct_mode thread ∈ _EDITOR_MODES) then ct_composed_asset_id thread else None.

(** [db.add(ChatMessage(...))] with the flush. *)
Definition add_row (role content : string) (tool_calls : option (list ToolCall)) (tool_call_id : option string) (tokens_in tokens_out : Z) (t : Turn)
    : Turn * ChatMessage :=
  let m := mkMessage (fresh (tn_next t)) tid role content tool_calls tool_call_id tokens_in tokens_out (clk (tn_next t)) in
  (mkTurn (tn_rows t ++ [m]) (tn_approvals t) (tn_msgs t) (tn_log t) (tn_events t) (S (tn_next t)) (tn_asked t), m).
Definition tool_row (content : string) (tool_call_id : option string) (t : Turn) : Turn :=
  push_msg (mkOMsg "tool" content None tool_call_id) (add_row "tool" content None tool_call_id 0 0 t).1.

(** Steps 1 to 3: the user's row, the history, the conversation. *)
Definition start_turn (user_message : string) (log : list Call) (db : ChatDb) : Turn * list ChatMessage :=
  let t := (add_row "user" user_message None None 0 0 (mkTurn [] [] [] log [] 0 0)).1 in
  let hist := sort_on chronological (in_thread tid db ++ tn_rows t) in
  let system := mkOMsg "system" (prompt uid (ct_mode thread) bound_asset_id) None None in
  (mkTurn (tn_rows t) [] (system :: _history_to_openai_messages hist) log [] (tn_next t) 0, hist).

Definition STOPPED : string :=
  "(stopped: max tool iterations reached. The assistant kept requesting more tools without producing a final answer. Try rephrasing the request.)".

(** *** Without streaming *)

Definition run_tool (executable : list string) (t : Turn) (tc : ToolCall) : Turn :=
  let '(log, content) := _execute_tool_call float_repr (w_session w) decode_error uid tc executable bound_asset_id (tn_log t) in
  tool_row content (tl_id tc) (with_log log t).

Fixpoint turn_loop (iters : nat) (executable : list string) (tools : list OpenAITool) (t : Turn) : Turn * result exn ChatMessage :=
  match iters with
  | O => let '(t, m) := add_row "assistant" STOPPED None None 0 0 t in (t, Ok m)
  | S iters =>
      match w_complete w (tn_msgs t) tools with
      | Err e => (ask_once t, Err e)
      | Ok r =>
          let t := ask_once t in
          match co_tool_calls r with
          | None | Some [] =>
              let '(t, m) := add_row "assistant" (co_content r) None None (co_tokens_in r) (co_tokens_out r) t in
              (push_msg (mkOMsg "assistant" (co_content r) None None) t, Ok m)
          | Some calls =>
              let t := (add_row "assistant" (co_content r) (Some calls) None (co_tokens_in r) (co_tokens_out r) t).1 in
              let t := push_msg (mkOMsg "assistant" (co_content r) (Some calls) None) t in
              turn_loop iters executable tools (fold_left (run_tool executable) calls t)
          end
      end
  end.

(** *** With streaming *)

(** The pieces of one answer: text, slots, tokens, frames. *)
Record Piece := mkPiece { pc_content : string; pc_slots : Slots; pc_in : Z; pc_out : Z; pc_events : list Event }.
Definition add_delta (p : Piece) (d : Delta) : Piece :=
  match d with
  | D_content text => mkPiece (pc_content p +:+ text) (pc_slots p) (pc_in p) (pc_out p) (pc_events p ++ [E_token text])
  | D_tool_call index id name args => mkPiece (pc_content p) (add_fragment index id name args (pc_slots p)) (pc_in p) (pc_out p) (pc_events p)
  | D_finish tin tout =>
      mkPiece (pc_content p) (pc_slots p) (if tin =? 0 then pc_in p else tin) (if tout =? 0 then pc_out p else tout) (pc_events p)
  end.
Definition gather (ds : list Delta) : Piece := fold_left add_delta ds (mkPiece "" [] 0 0 []).

Definition placeholder (approval_id : uuid) (name : string) : string :=
  dumps (JObj [("status", JStr "awaiting_approval"); ("approval_id", JStr approval_id); ("tool", JStr name)]).

(** The approval of a write: its row, the placeholder row, the frame. *)
Definition propose (proposer : uuid) (tc : ToolCall) (tc_id : string) (t : Turn) : Turn :=
  let args := match _parse_tool_arguments decode_error (tl_arguments tc) with
              | inl args => args
              | inr _ => [("_unparsed_arguments", tl_arguments tc)]
              end in
  let display := match resolve_friendly_names rows db_ok args with [] => None | d => Some d end in
  let aid := fresh (tn_next t) in
  let row := mkApproval tid (Some proposer) (tl_name tc) tc_id args display STATUS_PENDING None None (clk (tn_next t)) None in
  let t := mkTurn (tn_rows t) (tn_approvals t ++ [(aid, row)]) (tn_msgs t) (tn_log t) (tn_events t) (S (tn_next t)) (tn_asked t) in
  emit [E_approval_request aid tc_id (tl_name tc) args display] (tool_row (placeholder aid (tl_name tc)) (Some tc_id) t).

(** The loop body over the tool calls of one answer. *)
Definition stream_tool (proposer : uuid) (mode_tools executable : list string) (t : Turn) (tc : ToolCall) : Turn :=
  let name := tl_name tc in
  let tc_id := tl_id tc or_else "" in
  let t := emit [E_tool_call tc_id name (tl_arguments tc)] t in
  if negb (bool_decide (name = "")) && negb (bool_decide (name ∈ mode_tools)) then
    let err := error_json float_repr "tool_not_allowed" (not_exposed name) in
    emit [E_tool_result tc_id name err] (tool_row err (Some tc_id) t)
  else if negb (bool_decide (name = "")) && bool_decide (name ∈ WRITE_TOOLS) then propose proposer tc tc_id t
  else
    let '(log, content) := _execute_tool_call float_repr (w_session w) decode_error uid tc executable bound_asset_id (tn_log t) in
    emit [E_tool_result tc_id name content] (tool_row content (Some tc_id) (with_log log t)).

(** [pending_approvals]: the approvals of this answer. *)
Definition AWAITING (n : nat) : string :=
  "(awaiting your approval before continuing — " +:+ Z_str (Z.of_nat n) +:+ " action" +:+ (if (n =? 1)%nat then "" else "s") +:+ " queued)".

Fixpoint stream_loop (iters : nat) (mode_tools executable : list string) (tools : list OpenAITool) (t : Turn) : Turn * result exn ChatMessage :=
  match iters with
  | O => let '(t, m) := add_row "assistant" STOPPED None None 0 0 t in (t, Ok m)
  | S iters =>
      let '(deltas, raised) := w_stream w (tn_msgs t) tools in
      let p := gather deltas in
      let t := emit (pc_events p) (ask_once t) in
      match raised with
      | Some e => (t, Err e)
      | None =>
          match _assemble_tool_calls (pc_slots p) with
          | None =>
              let '(t, m) := add_row "assistant" (pc_content p) None None (pc_in p) (pc_out p) t in
              (push_msg (mkOMsg "assistant" (pc_content p) None None) t, Ok m)
          | Some calls =>
              let '(t, tc_row) := add_row "assistant" (pc_content p) (Some calls) None (pc_in p) (pc_out p) t in
              let t := push_msg (mkOMsg "assistant" (pc_content p) (Some calls) None) t in
              let before := length (tn_approvals t) in
              let t := fold_left (stream_tool (cm_id tc_row) mode_tools executable) calls t in
              let queued := (length (tn_approvals t) - before)%nat in
              if (0 <? queued)%nat then let '(t, m) := add_row "assistant" (AWAITING queued) None None 0 0 t in (t, Ok m)
              else stream_loop iters mode_tools executable tools t
          end
      end
  end.

(** *** The commit *)

Definition is_user (m : ChatMessage) : bool := bool_decide (cm_role m = "user").
Definition commit_turn (user_message : string) (hist : list ChatMessage) (now : Z) (t : Turn) (db : ChatDb) : ChatDb :=
  let first := (length (filter (λ m, is_user m = true) hist) =? 1)%nat in
  let title := if first && bool_decide (str_strip (ct_title thread) = "") then _auto_title user_message else ct_title thread in
  mkChatDb (<[tid := mkThread (ct_user_id thread) title (ct_mode thread) (ct_composed_asset_id thread) (ct_created_at thread) now]> (cd_threads db))
    (cd_messages db ++ tn_rows t) (list_to_map (tn_approvals t) ∪ cd_approvals db).

(** The loops are tried [max(1, int(assistant_max_tool_iterations))] times. *)
Definition max_iters (setting : Z) : nat := Z.to_nat (Z.max 1 setting).

(** Both turns: checks, start, the session, the loop, the commit.  When anything
    raises nothing is committed, but the calls made stay in the log. *)
Definition run_turn (loop : list string → list OpenAITool → Turn → Turn * result exn ChatMessage) (now : Z) (adb : AuthDb) (raw_message : string)
    (log : list Call) (db : ChatDb) : Turn * result exn (ChatDb * ChatMessage) :=
  let user_message := str_strip raw_message in
  let idle := mkTurn [] [] [] log [] 0 0 in
  if bool_decide (user_message = "") then (idle, Err (ValueError "user_message must not be empty"))
  else
    match check_budget adb uid now db with
    | Err e => (idle, Err e)
    | Ok _ =>
        let '(t, hist) := start_turn user_message log db in
        match (_ ← w_connect w; w_listing w) with
        | Err e => (t, Err e)
        | Ok listing =>
            match loop (executable_tools_for_mode (ct_mode thread)) (list_openai_tools (ct_mode thread) listing) t with
            | (t, Ok m) => (t, Ok (commit_turn user_message hist (clk (tn_next t)) t db, m))
            | (t, Err e) => (t, Err e)
            end
        end
    end.

Definition run_user_turn (setting now : Z) := run_turn (turn_loop (max_iters setting)) now.
Definition run_user_turn_streaming (setting now : Z) (adb : AuthDb) (raw_message : string) (log : list Call) (db : ChatDb)
    : Turn * result exn (ChatDb * ChatMessage) :=
  match run_turn (stream_loop (max_iters setting) (tools_for_mode (ct_mode thread))) now adb raw_message log db with
  | (t, Ok (db', m)) => (emit [E_done (cm_id m) (cm_tokens_in m) (cm_tokens_out m)] t, Ok (db', m))
  | r => r
  end.
End turn.

(** ** The endpoints of a turn (cms/routers/chat.py) *)

(** The status of what a turn raises; the others are not caught. *)
Definition turn_status (e : exn) : exn :=
  match e with
  | BudgetExceededError _ _ => HTTPException 429
  | AssistantUnavailableError _ | McpUnavailableError _ => HTTPException 503
  | e => e
  end.

(** The checks before a turn.  [llm]: the settings name a model. *)
Definition turn_gate (adb : AuthDb) (flags : FlagRows) (uid : uuid) (user : User) (llm : bool) (now : Z) (tid : uuid) (sh : Shelf) (db : ChatDb)
    : result exn ChatThread :=
  _ ← _require_feature adb flags uid user;
  thread ← _get_owned_thread uid tid db;
  _ ← _verify_composed_editor_thread adb uid user thread sh;
  match check_budget adb uid now db with
  | Err _ => Err (HTTPException 429)
  | Ok _ => if llm then Ok thread else Err (HTTPException 503)
  end.

(** The length of the body is checked by the schema. *)
Definition content_ok (content : string) : bool := ((1 <=? String.length content) && (String.length content <=? 10000))%nat.

Section endpoints.
Context (float_repr : QArith_base.Q → string) (decode_error : Json → string) (prompt : uuid → string → option uuid → string).
Context (rows : NameModel → string → option (list (option string))) (db_ok : NameModel → bool).
Context (fresh : nat → uuid) (clk : nat → Z) (adb : AuthDb) (flags : FlagRows) (uid : uuid) (user : User) (w : World).

Definition post_message (llm : bool) (setting now : Z) (tid : uuid) (content : string) (sh : Shelf) (log : list Call) (db : ChatDb)
    : list Call * ChatDb * result exn ChatMessage :=
  if negb (content_ok content) then (log, db, Err (HTTPException 422))
  else match turn_gate adb flags uid user llm now tid sh db with
       | Err e => (log, db, Err e)
       | Ok thread =>
           match run_user_turn float_repr decode_error prompt fresh clk uid tid thread w setting now adb content log db with
           | (t, Ok (db', m)) => (tn_log t, db', Ok m)
           | (t, Err e) => (tn_log t, db, Err (turn_status e))
           end
       end.

(** The frames sent; an exception becomes a last frame of its own. *)
Definition post_message_stream (llm : bool) (setting now : Z) (tid : uuid) (content : string) (sh : Shelf) (log : list Call) (db : ChatDb)
    : list Call * ChatDb * result exn (list Event * option exn) :=
  if negb (content_ok content) then (log, db, Err (HTTPException 422))
  else match turn_gate adb flags uid user llm now tid sh db with
       | Err e => (log, db, Err e)
       | Ok thread =>
           match run_user_turn_streaming float_repr decode_error prompt rows db_ok fresh clk uid tid thread w setting now adb content log db with
           | (t, Ok (db', _)) => (tn_log t, db', Ok (tn_events t, None))
           | (t, Err e) => (tn_log t, db, Ok (tn_events t, Some e))
           end
       end.
End endpoints.

(** ** Decisions (cms/routers/chat_approvals.py) *)

Definition put_messages (l : list ChatMessage) (db : ChatDb) : ChatDb := mkChatDb (cd_threads db) l (cd_approvals db).

Definition is_result_of (tid : uuid) (tool_call_id : string) (m : ChatMessage) : bool :=
  bool_decide (cm_thread_id m = tid ∧ cm_tool_call_id m = Some tool_call_id ∧ cm_role m = "tool").
Definition with_content (content : string) (m : ChatMessage) : ChatMessage :=
  mkMessage (cm_id m) (cm_thread_id m) (cm_role m) content (cm_tool_calls m) (cm_tool_call_id m) (cm_tokens_in m) (cm_tokens_out m) (cm_created_at m).

(** [fresh] and [now]: the id and the time of a row inserted. *)
Definition _upsert_tool_result (fresh : uuid) (now : Z) (tid : uuid) (tool_call_id content : string) (db : ChatDb) : result exn ChatDb :=
  match filter (λ m, is_result_of tid tool_call_id m = true) (cd_messages db) with
  | [] => if bool_decide (is_Some (cd_threads db !! tid))
          then Ok (put_messages (cd_messages db ++ [mkMessage fresh tid "tool" content None (Some tool_call_id) 0 0 now]) db)
          else Err IntegrityError
  | [_] => Ok (put_messages ((λ m, if is_result_of tid tool_call_id m then with_content content m else m) <$> cd_messages db) db)
  | _ => Err MultipleResultsFound
  end.

(** The UPDATE of the decided row. *)
Definition decide_row (status result_text : string) (note : option string) (now : Z) (r : ChatPendingApproval) : ChatPendingApproval :=
  mkApproval (ap_thread_id r) (ap_proposed_by_message_id r) (ap_tool_name r) (ap_tool_call_id r) (ap_tool_arguments r) (ap_display_arguments r)
    status (Some result_text) note (ap_created_at r) (Some now).
Definition record_decision (aid : uuid) (row : ChatPendingApproval) (status result_text : string) (note : option string) (fresh : uuid) (now : Z) (db : ChatDb)
    : result exn ChatDb :=
  db1 ← _upsert_tool_result fresh now (ap_thread_id row) (ap_tool_call_id row) result_text db;
  match cd_approvals db1 !! aid with
  | None => Err StaleDataError
  | Some r => Ok (mkChatDb (cd_threads db1) (cd_messages db1) (<[aid := decide_row status result_text note now r]> (cd_approvals db1)))
  end.

Definition created_first (a b : uuid * ChatPendingApproval) : bool := ap_created_at a.2 <=? ap_created_at b.2.

Section decisions.
Context (float_repr : QArith_base.Q → string) (adb : AuthDb) (flags : FlagRows) (uid : uuid) (user : User).

Definition _get_owned_approval (aid : uuid) (db : ChatDb) : result exn ChatPendingApproval :=
  match cd_approvals db !! aid with
  | None => Err (HTTPException 404)
  | Some row => _ ← _get_owned_thread uid (ap_thread_id row) db; Ok row
  end.
Definition _ensure_pending (row : ChatPendingApproval) : result exn unit :=
  if bool_decide (ap_status row = STATUS_PENDING) then Ok tt else Err (HTTPException 409).

Definition list_thread_approvals (tid : uuid) (status : option string) (db : ChatDb) : result exn (list (uuid * ChatPendingApproval)) :=
  _ ← _require_feature adb flags uid user;
  _ ← _get_owned_thread uid tid db;
  let effective := status or_else STATUS_PENDING in
  Ok (sort_on created_first (filter (λ ia, ap_thread_id ia.2 = tid ∧ (effective = "" ∨ ap_status ia.2 = effective)) (map_to_list (cd_approvals db)))).
Definition get_approval (aid : uuid) (db : ChatDb) : result exn ChatPendingApproval :=
  _ ← _require_feature adb flags uid user; _get_owned_approval aid db.

(** What both decisions check first. *)
Definition decidable_row (aid : uuid) (db : ChatDb) : result exn ChatPendingApproval :=
  _ ← _require_feature adb flags uid user;
  row ← _get_owned_approval aid db;
  _ ← _ensure_pending row;
  Ok row.

(** The first half of an approval: the checks and the call.  Nothing is locked
    while the tool runs. *)
Definition approve_begin (w : World) (aid : uuid) (log : list Call) (db : ChatDb) : list Call * result exn (ChatPendingApproval * string) :=
  match decidable_row aid db with
  | Err e => (log, Err e)
  | Ok row =>
      match w_connect w with
      | Err (McpUnavailableError _) => (log, Err (HTTPException 503))
      | Err e => (log, Ok (row, json_dumps float_repr (JObj [("error", JStr (raised_text e))])))
      | Ok _ =>
          match call_tool float_repr (w_session w) uid (ap_tool_name row) (ap_tool_arguments row) true log with
          | (log', Ok text) => (log', Ok (row, text))
          | (log', Err e) => (log', Ok (row, json_dumps float_repr (JObj [("error", JStr (raised_text e))])))
          end
      end
  end.

(** The second half: what is written and committed. *)
Definition approve_finish (aid : uuid) (row : ChatPendingApproval) (result_text : string) (note : option string) (fresh : uuid) (now : Z) (db : ChatDb)
    : result exn ChatDb := record_decision aid row STATUS_APPROVED result_text (truthy note) fresh now db.

Definition approve_approval (w : World) (aid : uuid) (note : option string) (fresh : uuid) (now : Z) (log : list Call) (db : ChatDb)
    : list Call * ChatDb * result exn unit :=
  match approve_begin w aid log db with
  | (log', Err e) => (log', db, Err e)
  | (log', Ok (row, text)) =>
      match approve_finish aid row text note fresh now db with Ok db' => (log', db', Ok tt) | Err e => (log', db, Err e) end
  end.

Definition reject_approval (aid : uuid) (note : option string) (fresh : uuid) (now : Z) (db : ChatDb) : result exn ChatDb :=
  row ← decidable_row aid db;
  let note := truthy note in
  let result_text := json_dumps float_repr (JObj [("rejected", JBool true); ("reason", JStr (note or_else "User declined to approve this action."))]) in
  record_decision aid row STATUS_REJECTED result_text note fresh now db.
End decisions.

(** ** The system *)

(** The tables, the calls made so far, and the approvals whose tool has run but
    whose row is not written yet. *)
Record Chat := mkChat { cs_db : ChatDb; cs_log : list Call; cs_running : list (uuid * ChatPendingApproval * string) }.

(** Ids are new, and rows are made later than all the rows there are. *)
Definition ids_new (fresh : nat → uuid) (db : ChatDb) : Prop :=
  (∀ i j, fresh i = fresh j → i = j) ∧ (∀ i, cd_approvals db !! fresh i = None).
Definition clock_on (clk : nat → Z) (db : ChatDb) : Prop :=
  (∀ i j, (i < j)%nat → clk i < clk j) ∧ (∀ m i, m ∈ cd_messages db → cm_created_at m < clk i).

(** An id of a new thread: nothing refers to it. *)
Definition new_thread (tid : uuid) (s : Chat) : Prop :=
  cd_threads (cs_db s) !! tid = None ∧ Forall (λ e, ap_thread_id e.1.2 ≠ tid) (cs_running s).

Section system.
Context (float_repr : QArith_base.Q → string) (decode_error : Json → string) (prompt : uuid → string → option uuid → string).
Context (rows : NameModel → string → option (list (option string))) (db_ok : NameModel → bool).

(** Requests of any users, with any answers of the model and the server, and any
    accounts, flags and assets at each of them.  A stream whose client goes away
    stops after some of its calls. *)
Inductive chat_step : Chat → Chat → Prop :=
  | CS_create adb flags uid user fresh now title s db' :
      new_thread fresh s → create_thread adb flags uid user fresh now title (cs_db s) = Ok db' →
      chat_step s (mkChat db' (cs_log s) (cs_running s))
  | CS_slideshow_editor adb flags uid user fresh now aid sh s db' tid new :
      new_thread fresh s → slideshow_assistant_thread adb flags uid user fresh now aid sh (cs_db s) = Ok (db', tid, new) →
      chat_step s (mkChat db' (cs_log s) (cs_running s))
  | CS_composed_editor adb flags uid user fresh now aid sh s db' tid new :
      new_thread fresh s → composed_assistant_thread adb flags uid user fresh now aid sh (cs_db s) = Ok (db', tid, new) →
      chat_step s (mkChat db' (cs_log s) (cs_running s))
  | CS_delete adb flags uid user tid s db' :
      delete_thread adb flags uid user tid (cs_db s) = Ok db' → chat_step s (mkChat db' (cs_log s) (cs_running s))
  | CS_message fresh clk adb flags uid user w llm setting now tid content sh s log' db' r :
      ids_new fresh (cs_db s) → clock_on clk (cs_db s) →
      post_message float_repr decode_error prompt fresh clk adb flags uid user w llm setting now tid content sh (cs_log s) (cs_db s) = (log', db', r) →
      chat_step s (mkChat db' log' (cs_running s))
  | CS_stream fresh clk adb flags uid user w llm setting now tid content sh s log' db' r :
      ids_new fresh (cs_db s) → clock_on clk (cs_db s) →
      post_message_stream float_repr decode_error prompt rows db_ok fresh clk adb flags uid user w llm setting now tid content sh
        (cs_log s) (cs_db s) = (log', db', r) →
      chat_step s (mkChat db' log' (cs_running s))
  | CS_interrupted fresh clk adb flags uid user w llm setting now tid content sh s log' db' r rest made :
      ids_new fresh (cs_db s) → clock_on clk (cs_db s) →
      post_message_stream float_repr decode_error prompt rows db_ok fresh clk adb flags uid user w llm setting now tid content sh
        (cs_log s) (cs_db s) = (log', db', r) → log' = rest ++ made ++ cs_log s →
      chat_step s (mkChat (cs_db s) (made ++ cs_log s) (cs_running s))
  | CS_approve_begin adb flags uid user w aid s log' row text :
      approve_begin float_repr adb flags uid user w aid (cs_log s) (cs_db s) = (log', Ok (row, text)) →
      chat_step s (mkChat (cs_db s) log' ((aid, row, text) :: cs_running s))
  | CS_approve_finish aid row text rest note fresh now s db' :
      cs_running s ≡ₚ (aid, row, text) :: rest → approve_finish aid row text note fresh now (cs_db s) = Ok db' →
      chat_step s (mkChat db' (cs_log s) rest)
  | CS_approve_lost e rest s : cs_running s ≡ₚ e :: rest → chat_step s (mkChat (cs_db s) (cs_log s) rest)
  | CS_reject adb flags uid user aid note fresh now s db' :
      reject_approval float_repr adb flags uid user aid note fresh now (cs_db s) = Ok db' → chat_step s (mkChat db' (cs_log s) (cs_running s)).

Definition NO_CHATS : Chat := mkChat (mkChatDb ∅ [] ∅) [] [].
End system.

(** ** Histories that the model accepts *)

(** The ids of the results still owed by the last answer. *)
Definition coh_step (want : list (option string)) (m : ChatMessage) : option (list (option string)) :=
  match want with
  | [] => if bool_decide (cm_role m = "user") then Some []
          else if bool_decide (cm_role m = "assistant") then Some (tl_id <$> default [] (cm_tool_calls m))
          else None
  | i :: want' => if bool_decide (cm_role m = "tool" ∧ cm_tool_call_id m = i) then Some want' else None
  end.
Fixpoint coh (want : list (option string)) (l : list ChatMessage) : option (list (option string)) :=
  match l with [] => Some want | m :: l' => want' ← coh_step want m; coh want' l' end.

(** Every answer that asks for tools is followed by one result per call, in
    order, and results occur nowhere else. *)
Definition coherent (l : list ChatMessage) : Prop := coh [] l = Some [].

Lemma coh_app want a b : coh want (a ++ b) = w ← coh want a; coh w b.
Proof. revert want. induction a as [|m a IH]; intros want; simpl; [done|]. destruct (coh_step want m); simpl; auto. Qed.
Lemma coh_snoc want want' a m : coh want a = Some want' → coh want (a ++ [m]) = coh_step want' m.
Proof. intros H. rewrite coh_app, H. simpl. by destruct (coh_step want' m). Qed.
Lemma coh_map (f : ChatMessage → ChatMessage) want l :
  (∀ m, cm_role (f m) = cm_role m ∧ cm_tool_calls (f m) = cm_tool_calls m ∧ cm_tool_call_id (f m) = cm_tool_call_id m) →
  coh want (f <$> l) = coh want l.
Proof.
  intros H. assert (E : ∀ w m, coh_step w (f m) = coh_step w m).
  { intros w m. unfold coh_step. destruct (H m) as (-> & -> & ->). done. }
  revert want. induction l as [|m l IH]; intros want; [done|]. csimpl. rewrite E. destruct (coh_step want m); simpl; auto.
Qed.

(** ** What a turn has made *)

Section turn_inv.
Context (float_repr : QArith_base.Q → string) (decode_error : Json → string) (prompt : uuid → string → option uuid → string).
Context (rows : NameModel → string → option (list (option string))) (db_ok : NameModel → bool).
Context (fresh : nat → uuid) (clk : nat → Z) (uid : uuid) (tid : uuid) (thread : ChatThread) (w : World).

(** A call a turn may make: on behalf of its user, a tool of the mode that needs
    no approval, on the bound asset where the tool takes one. *)
Record confined (c : Call) : Prop := {
  cf_user : cl_user c = uid;
  cf_mode : cl_name c ∈ tools_for_mode (ct_mode thread);
  cf_free : cl_name c ∈ NO_APPROVAL_TOOLS;
  cf_bypass : cl_bypass c = false;
  cf_asset : ∀ aid, bound_asset_id thread = Some aid → cl_name c ∈ _ASSET_SCOPED_TOOLS → aget "asset_id" (cl_args c) = Some (JStr aid)
}.

(** A proposal: a write of the mode, with its placeholder among the rows. *)
Record proposed (msgs : list ChatMessage) (r : ChatPendingApproval) : Prop := {
  pr_thread : ap_thread_id r = tid;
  pr_write : ap_tool_name r ∈ WRITE_TOOLS;
  pr_mode : ap_tool_name r ∈ tools_for_mode (ct_mode thread);
  pr_status : ap_status r = STATUS_PENDING;
  pr_placeholder : ∃ m, m ∈ msgs ∧ is_result_of tid (ap_tool_call_id r) m = true
}.

Record turn_inv (log0 : list Call) (want : list (option string)) (t : Turn) : Prop := {
  ti_coh : coh [] (tn_rows t) = Some want;
  ti_thread : Forall (λ m, cm_thread_id m = tid) (tn_rows t);
  ti_times : ∃ ns, StronglySorted lt ns ∧ Forall (λ n, n < tn_next t)%nat ns ∧ cm_created_at <$> tn_rows t = clk <$> ns;
  ti_log : ∃ new, tn_log t = new ++ log0 ∧ Forall confined new;
  ti_appr : Forall (λ ir, (∃ n, ir.1 = fresh n) ∧ proposed (tn_rows t) ir.2) (tn_approvals t)
}.

Lemma inv_push_msg log0 want m t : turn_inv log0 want t → turn_inv log0 want (push_msg m t).
Proof. by intros []. Qed.
Lemma inv_emit log0 want es t : turn_inv log0 want t → turn_inv log0 want (emit es t).
Proof. by intros []. Qed.
Lemma inv_ask log0 want t : turn_inv log0 want t → turn_inv log0 want (ask_once t).
Proof. by intros []. Qed.
Lemma inv_with_log log0 want log t : turn_inv log0 want t → (∃ new, log = new ++ tn_log t ∧ Forall confined new) → turn_inv log0 want (with_log log t).
Proof.
  intros [C T X (n1 & L1 & F1) A] (n2 & -> & F2). split; try done. exists (n2 ++ n1). simpl. rewrite L1, app_assoc. split; [done|].
  by apply Forall_app.
Qed.

Lemma StronglySorted_snoc (l : list nat) x : StronglySorted lt l → Forall (λ y, y < x)%nat l → StronglySorted lt (l ++ [x]).
Proof.
  induction 1 as [|y l _ IH Hy]; intros H; simpl; [repeat constructor|]. apply Forall_cons in H as [H1 H]. constructor; [auto|].
  apply Forall_app. by repeat constructor.
Qed.
Lemma proposed_more msgs more r : proposed msgs r → proposed (msgs ++ more) r.
Proof. intros [? ? ? ? (m & Hm & Hr)]. split; [done..|]. exists m. split; [|done]. apply elem_of_app. by left. Qed.

Lemma inv_add_row log0 want want' role content calls call_id tin tout t :
  turn_inv log0 want t →
  (∀ i d, coh_step want (mkMessage i tid role content calls call_id tin tout d) = Some want') →
  turn_inv log0 want' (add_row fresh clk tid role content calls call_id tin tout t).1.
Proof.
  intros [C T (ns & S & B & E) L A] H. split; simpl.
  - by rewrite (coh_snoc _ _ _ _ C).
  - apply Forall_app. by repeat constructor.
  - exists (ns ++ [tn_next t]). split_and!.
    + by apply StronglySorted_snoc.
    + apply Forall_app. split; [eapply Forall_impl; [exact B|]; simpl; lia|repeat constructor].
    + by rewrite !fmap_app, E.
  - done.
  - eapply Forall_impl; [exact A|]. intros [i r] [Hn Hp]. split; [done|by apply proposed_more].
Qed.

Lemma inv_tool_row log0 i want content t : turn_inv log0 (i :: want) t → turn_inv log0 want (tool_row fresh clk tid content i t).
Proof.
  intros I. unfold tool_row. apply inv_push_msg. eapply inv_add_row; [exact I|]. intros i' d. simpl. by rewrite bool_decide_true.
Qed.

(** A tool call makes at most one call, and that one is confined. *)
Lemma execute_confined tc executable log log' text :
  (∀ n, n ∈ executable → n ∈ tools_for_mode (ct_mode thread) ∧ n ∈ NO_APPROVAL_TOOLS) →
  _execute_tool_call float_repr (w_session w) decode_error uid tc executable (bound_asset_id thread) log = (log', text) →
  ∃ new, log' = new ++ log ∧ Forall confined new.
Proof.
  intros X. unfold _execute_tool_call. destruct (_parse_tool_arguments _ _) as [args|err]; [|intros [= <- _]; by exists []].
  destruct (bool_decide (tl_name tc ∈ executable)) eqn:Ex; simpl; [|intros [= <- _]; by exists []]. apply bool_decide_eq_true in Ex.
  destruct (X _ Ex) as [Hm Hf]. set (args' := match bound_asset_id thread with Some _ => _ | None => _ end).
  assert (Hc : confined (mkCall uid (tl_name tc) args' false)).
  { split; try done. intros aid Ha Hs. simpl in Hs |- *. unfold args'. rewrite Ha. rewrite bool_decide_true by done. rewrite aget_aset. by case_decide. }
  unfold call_tool. rewrite bool_decide_true by done. cbn [negb andb]. destruct (w_session w _); intros [= <- _];
    (exists [mkCall uid (tl_name tc) args' false]; split; [done|by apply Forall_singleton]).
Qed.

Lemma executable_ok mode n : n ∈ executable_tools_for_mode mode → n ∈ tools_for_mode mode ∧ n ∈ NO_APPROVAL_TOOLS.
Proof. unfold executable_tools_for_mode. by rewrite list_elem_of_filter. Qed.

Lemma inv_run_tool log0 want t tc :
  turn_inv log0 (tl_id tc :: want) t →
  turn_inv log0 want (run_tool float_repr decode_error fresh clk uid tid thread w (executable_tools_for_mode (ct_mode thread)) t tc).
Proof.
  intros I. unfold run_tool. destruct (_execute_tool_call _ _ _ _ _ _ _ _) as [log text] eqn:E.
  apply inv_tool_row, inv_with_log; [done|]. eapply execute_confined; [apply executable_ok|exact E].
Qed.

Lemma inv_batch log0 f calls t want :
  (∀ want t tc, tc ∈ calls → turn_inv log0 (tl_id tc :: want) t → turn_inv log0 want (f t tc)) →
  turn_inv log0 ((tl_id <$> calls) ++ want) t → turn_inv log0 want (fold_left f calls t).
Proof.
  intros H. revert t. induction calls as [|tc calls IH]; intros t I; [done|]. simpl. apply IH; [intros; apply H; [by right|done]|].
  apply H; [left|done].
Qed.

Lemma inv_turn_loop log0 iters tools t : turn_inv log0 [] t →
  let '(t', r) := turn_loop float_repr decode_error fresh clk uid tid thread w iters (executable_tools_for_mode (ct_mode thread)) tools t in
  (∃ want, turn_inv log0 want t') ∧ (is_ok r = true → turn_inv log0 [] t').
Proof.
  revert t. induction iters as [|iters IH]; intros t I; cbn [turn_loop].
  - assert (J : turn_inv log0 [] (add_row fresh clk tid "assistant" STOPPED None None 0 0 t).1) by by eapply inv_add_row.
    split; [by exists []|done].
  - destruct (w_complete w (tn_msgs t) tools) as [r|e]; [|split; [exists []; by apply inv_ask|done]].
    pose proof (inv_ask _ _ _ I) as I'. destruct (co_tool_calls r) as [[|c calls]|] eqn:Ec.
    + assert (J : turn_inv log0 [] (add_row fresh clk tid "assistant" (co_content r) None None (co_tokens_in r) (co_tokens_out r) (ask_once t)).1)
        by by eapply inv_add_row. split; [exists []|intros _]; by apply inv_push_msg.
    + apply IH. apply inv_batch; [intros; by apply inv_run_tool|]. rewrite app_nil_r. apply inv_push_msg. by eapply inv_add_row.
    + assert (J : turn_inv log0 [] (add_row fresh clk tid "assistant" (co_content r) None None (co_tokens_in r) (co_tokens_out r) (ask_once t)).1)
        by by eapply inv_add_row. split; [exists []|intros _]; by apply inv_push_msg.
Qed.

Lemma inv_propose log0 want proposer tc i t :
  tl_name tc ∈ WRITE_TOOLS → tl_name tc ∈ tools_for_mode (ct_mode thread) → turn_inv log0 (Some i :: want) t →
  turn_inv log0 want (propose float_repr decode_error rows db_ok fresh clk tid proposer tc i t).
Proof.
  intros Hw Hm I. unfold propose. set (row := mkApproval _ _ _ _ _ _ _ _ _ _ _). set (aid := fresh (tn_next t)). cbv zeta.
  apply inv_emit. set (t1 := mkTurn (tn_rows t) _ _ _ _ _ _).
  assert (E : turn_inv log0 want (tool_row fresh clk tid (placeholder float_repr aid (tl_name tc)) (Some i)
                (mkTurn (tn_rows t) (tn_approvals t) (tn_msgs t) (tn_log t) (tn_events t) (S (tn_next t)) (tn_asked t)))).
  { apply inv_tool_row. destruct I as [C T (ns & S & B & E) L A]. split; try done. exists ns. split_and!; [done| |done].
    eapply Forall_impl; [exact B|]. simpl. lia. }
  destruct E as [C T X L A]. split; [exact C|exact T|exact X|exact L|]. simpl in A |- *. apply Forall_app. split; [exact A|].
  apply Forall_singleton. split; [by eexists|]. split; try done. eexists. split; [apply elem_of_app; right; left|].
  unfold is_result_of. by rewrite bool_decide_true.
Qed.

Lemma inv_stream_tool log0 want proposer t tc i :
  tl_id tc = Some i → turn_inv log0 (Some i :: want) t →
  turn_inv log0 want (stream_tool float_repr decode_error rows db_ok fresh clk uid tid thread w proposer (tools_for_mode (ct_mode thread))
                        (executable_tools_for_mode (ct_mode thread)) t tc).
Proof.
  intros Hi I. unfold stream_tool. rewrite Hi. cbn [default]. apply (inv_emit _ _ [E_tool_call i (tl_name tc) (tl_arguments tc)]) in I.
  destruct (negb (bool_decide (tl_name tc = "")) && _) eqn:B1; [by apply inv_emit, inv_tool_row|].
  destruct (negb (bool_decide (tl_name tc = "")) && bool_decide (tl_name tc ∈ WRITE_TOOLS)) eqn:B2.
  - apply andb_true_iff in B2 as [N W%bool_decide_eq_true]. rewrite N in B1. simpl in B1. apply negb_false_iff, bool_decide_eq_true in B1.
    by apply inv_propose.
  - destruct (_execute_tool_call _ _ _ _ _ _ _ _) as [log text] eqn:E. apply inv_emit, inv_tool_row, inv_with_log; [done|].
    eapply execute_confined; [apply executable_ok|exact E].
Qed.

(** Every assembled call has an id. *)
Lemma assembled_ids slots calls : _assemble_tool_calls slots = Some calls → Forall (λ tc, is_Some (tl_id tc)) calls.
Proof.
  unfold _assemble_tool_calls. set (l := omap _ _). intros H. assert (El : l = calls) by (destruct l; [done|by injection H]).
  clear H. apply Forall_forall. intros tc Htc. rewrite <-El in Htc. unfold l in Htc. apply list_elem_of_omap in Htc as ([i sl] & _ & Htc).
  destruct (bool_decide _); [done|]. injection Htc as <-. by eexists.
Qed.

Lemma inv_stream_loop log0 iters tools t : turn_inv log0 [] t →
  let '(t', r) := stream_loop float_repr decode_error rows db_ok fresh clk uid tid thread w iters (tools_for_mode (ct_mode thread))
                    (executable_tools_for_mode (ct_mode thread)) tools t in
  (∃ want, turn_inv log0 want t') ∧ (is_ok r = true → turn_inv log0 [] t').
Proof.
  revert t. induction iters as [|iters IH]; intros t I; cbn [stream_loop].
  - assert (J : turn_inv log0 [] (add_row fresh clk tid "assistant" STOPPED None None 0 0 t).1) by by eapply inv_add_row.
    split; [by exists []|done].
  - destruct (w_stream w (tn_msgs t) tools) as [ds raised]. set (p := gather ds).
    assert (I' : turn_inv log0 [] (emit (pc_events p) (ask_once t))) by by apply inv_emit, inv_ask.
    destruct raised as [e|]; [split; [by exists []|done]|].
    destruct (_assemble_tool_calls (pc_slots p)) as [calls|] eqn:Ec.
    + cbn [add_row]. set (t1 := push_msg _ _). 
      assert (J : turn_inv log0 (tl_id <$> calls) t1).
      { unfold t1. apply inv_push_msg.
        apply (inv_add_row log0 [] _ "assistant" (pc_content p) (Some calls) None (pc_in p) (pc_out p) _ I'). done. }
      set (t2 := fold_left _ calls t1). assert (K : turn_inv log0 [] t2).
      { apply inv_batch; [|by rewrite app_nil_r]. intros want t3 tc Htc I3. apply assembled_ids in Ec. rewrite Forall_forall in Ec.
        destruct (Ec _ Htc) as [i Hi]. eapply inv_stream_tool; [exact Hi|]. by rewrite Hi in I3. }
      destruct (0 <? _)%nat; [|by apply IH].
      assert (M : turn_inv log0 [] (add_row fresh clk tid "assistant" (AWAITING (length (tn_approvals t2) - length (tn_approvals t1))) None None 0 0 t2).1)
        by by eapply inv_add_row.
      split; [by exists []|done].
    + assert (J : turn_inv log0 [] (add_row fresh clk tid "assistant" (pc_content p) None None (pc_in p) (pc_out p) (emit (pc_events p) (ask_once t))).1)
        by by eapply inv_add_row. split; [exists []|intros _]; by apply inv_push_msg.
Qed.

(** What a loop keeps, and what a turn commits. *)
Definition loop_ok (loop : list string → list OpenAITool → Turn → Turn * result exn ChatMessage) : Prop := ∀ log0 tools t, turn_inv log0 [] t →
  let '(t', r) := loop (executable_tools_for_mode (ct_mode thread)) tools t in
  (∃ want, turn_inv log0 want t') ∧ (is_ok r = true → turn_inv log0 [] t').

Lemma run_turn_inv loop now adb raw log db t r :
  loop_ok loop → run_turn prompt fresh clk uid tid thread w loop now adb raw log db = (t, r) →
  (∃ new, tn_log t = new ++ log ∧ Forall confined new) ∧
  ∀ db' m, r = Ok (db', m) → turn_inv log [] t ∧ ∃ title at_,
    db' = mkChatDb (<[tid := mkThread (ct_user_id thread) title (ct_mode thread) (ct_composed_asset_id thread) (ct_created_at thread) at_]> (cd_threads db))
            (cd_messages db ++ tn_rows t) (list_to_map (tn_approvals t) ∪ cd_approvals db).
Proof.
  intros HL. unfold run_turn. destruct (bool_decide _); [intros [= <- <-]; split; [by exists []|done]|].
  destruct (check_budget _ _ _ _); [|intros [= <- <-]; split; [by exists []|done]].
  cbn [start_turn]. set (t0 := mkTurn _ _ _ log _ _ 0). set (hist := sort_on _ _).
  assert (I : turn_inv log [] t0).
  { split; simpl; [done|by repeat constructor| |by exists []|constructor]. exists [0%nat]. by repeat constructor. }
  destruct (w_connect w ≫= _) as [listing|e]; [|intros [= <- <-]; split; [by exists []|done]].
  specialize (HL log (list_openai_tools (ct_mode thread) listing) t0 I). destruct (loop _ _ _) as [t' [m|e]].
  - intros [= <- <-]. destruct HL as [_ HL]. specialize (HL eq_refl). split; [apply HL|]. intros db' m' [= <- <-]. split; [done|].
    by eexists _, _.
  - intros [= <- <-]. destruct HL as [[want HL] _]. split; [apply HL|done].
Qed.
End turn_inv.

(** ** The invariant of the tables *)

Record db_inv (db : ChatDb) : Prop := {
  di_msgs : ∀ m, m ∈ cd_messages db → is_Some (cd_threads db !! cm_thread_id m);
  di_appr : ∀ aid r, cd_approvals db !! aid = Some r →
    ap_tool_name r ∈ WRITE_TOOLS ∧
    (∃ th, cd_threads db !! ap_thread_id r = Some th ∧ ct_mode th ∉ _EDITOR_MODES) ∧
    (∃ m, m ∈ cd_messages db ∧ is_result_of (ap_thread_id r) (ap_tool_call_id r) m = true);
  di_coh : ∀ tid, coherent (history tid db)
}.
Record chat_inv (s : Chat) : Prop := {
  ch_db : db_inv (cs_db s);
  ch_running : Forall (λ e, is_Some (cd_threads (cs_db s) !! ap_thread_id e.1.2) →
    ∃ m, m ∈ cd_messages (cs_db s) ∧ is_result_of (ap_thread_id e.1.2) (ap_tool_call_id e.1.2) m = true) (cs_running s)
}.

Lemma no_messages_coherent tid db : in_thread tid db = [] → coherent (history tid db).
Proof. unfold history. by intros ->. Qed.

(** A new thread has no rows. *)
Lemma db_inv_new_thread tid t db : cd_threads db !! tid = None → db_inv db → db_inv (put_threads (<[tid := t]> (cd_threads db)) db).
Proof.
  intros N [M A C]. split; [| |exact C].
  - intros m Hm. simpl. destruct (decide (cm_thread_id m = tid)) as [->|E]; [by rewrite lookup_insert_eq|]. rewrite lookup_insert_ne by done. auto.
  - intros aid r Hr. destruct (A aid r Hr) as (W & (th & Ht & Hm) & P). split_and!; [done| |done]. exists th. split; [|done]. simpl.
    rewrite lookup_insert_ne; [done|]. congruence.
Qed.
Lemma chat_inv_new_thread tid t s : new_thread tid s → chat_inv s →
  chat_inv (mkChat (put_threads (<[tid := t]> (cd_threads (cs_db s))) (cs_db s)) (cs_log s) (cs_running s)).
Proof.
  intros [N F] [D R]. split; [by apply db_inv_new_thread|]. simpl. rewrite Forall_forall in R, F. apply Forall_forall. intros e He. specialize (R e He). specialize (F e He).
  by rewrite lookup_insert_ne by congruence.
Qed.

Lemma in_thread_drop tid tid' db : in_thread tid' (drop_thread tid db) = if decide (tid' = tid) then [] else in_thread tid' db.
Proof.
  unfold in_thread, drop_thread. simpl. rewrite list_filter_filter. case_decide as E.
  - subst. apply filter_nil_intro. by intros m _ [? ?].
  - apply list_filter_iff. naive_solver.
Qed.
Lemma chat_inv_drop tid s : chat_inv s → chat_inv (mkChat (drop_thread tid (cs_db s)) (cs_log s) (cs_running s)).
Proof.
  intros [[M A C] R]. split; [split|]; simpl.
  - intros m [Hne Hm]%list_elem_of_filter. rewrite lookup_delete_ne by done. auto.
  - intros aid r [Hr Hne]%map_lookup_filter_Some. simpl in Hne. destruct (A aid r Hr) as (W & (th & Ht & Hm) & (m & Hin & Hres)).
    split_and!; [done| |].
    + exists th. by rewrite lookup_delete_ne.
    + exists m. split; [|done]. apply list_elem_of_filter. split; [|done]. unfold is_result_of in Hres. apply bool_decide_eq_true in Hres. by destruct Hres as [-> _].
  - intros tid'. unfold history. rewrite in_thread_drop. case_decide; [done|]. apply C.
  - rewrite Forall_forall in R. apply Forall_forall. intros e He. specialize (R e He). destruct (decide (ap_thread_id e.1.2 = tid)) as [->|N].
    + rewrite lookup_delete_eq. by intros [].
    + rewrite lookup_delete_ne by done. intros H. destruct (R H) as (m & Hin & Hres). exists m. split; [|done]. apply list_elem_of_filter. split; [|done].
      unfold is_result_of in Hres. apply bool_decide_eq_true in Hres. by destruct Hres as [-> _].
Qed.

(** The commit of a turn. *)
Lemma timed_sorted (clk : nat → Z) (rs : list ChatMessage) ns :
  (∀ i j, (i < j)%nat → clk i < clk j) → StronglySorted lt ns → cm_created_at <$> rs = clk <$> ns → StronglySorted later rs.
Proof.
  intros M S. revert rs. induction S as [|n ns _ IH Hn]; intros [|r rs] E; try done; [constructor|]. csimpl in E. injection E as E1 E2.
  constructor; [by apply IH|]. rewrite Forall_forall in Hn. apply Forall_forall. intros r' Hr'. unfold later. rewrite E1.
  assert (Hin : cm_created_at r' ∈ clk <$> ns) by (rewrite <-E2; by apply list_elem_of_fmap_2). apply list_elem_of_fmap in Hin as (k & -> & Hk).
  apply M, Hn, Hk.
Qed.

Lemma chat_inv_commit fresh clk uid tid thread log0 t title at_ s log' :
  clock_on clk (cs_db s) → cd_threads (cs_db s) !! tid = Some thread → turn_inv fresh clk uid tid thread log0 [] t → chat_inv s →
  chat_inv (mkChat (mkChatDb (<[tid := mkThread (ct_user_id thread) title (ct_mode thread) (ct_composed_asset_id thread) (ct_created_at thread) at_]>
      (cd_threads (cs_db s))) (cd_messages (cs_db s) ++ tn_rows t) (list_to_map (tn_approvals t) ∪ cd_approvals (cs_db s))) log' (cs_running s)).
Proof.
  intros [CK1 CK2] Ht [IC IT (ns & S & B & E) _ IA] [[M A C] R].
  assert (TH : ∀ x, is_Some (cd_threads (cs_db s) !! x) ↔
    is_Some ((<[tid := mkThread (ct_user_id thread) title (ct_mode thread) (ct_composed_asset_id thread) (ct_created_at thread) at_]> (cd_threads (cs_db s))) !! x)).
  { intros x. destruct (decide (x = tid)) as [->|N]; [by rewrite lookup_insert_eq, Ht|by rewrite lookup_insert_ne]. }
  split; [split|]; simpl.
  - intros m [Hm|Hm]%elem_of_app; apply TH; [auto|]. rewrite Forall_forall in IT. by rewrite (IT m Hm), Ht.
  - intros aid r [Hr|[Hn Hr]]%lookup_union_Some_raw.
    + apply elem_of_list_to_map_2 in Hr. rewrite Forall_forall in IA. destruct (IA _ Hr) as [_ [P1 P2 P3 P4 (m & Hm & Hres)]]. simpl in *.
      split_and!; [done| |].
      * rewrite P1, lookup_insert_eq. eexists. split; [done|]. simpl. intros He. unfold tools_for_mode in P3.
        assert (X : Forall (λ n, n ∉ COMPOSED_EDITOR_TOOLS ∧ n ∉ SLIDESHOW_EDITOR_TOOLS) WRITE_TOOLS) by (apply (bool_decide_unpack _); by vm_compute).
        rewrite Forall_forall in X. destruct (X _ P2) as [X1 X2]. unfold _EDITOR_MODES in He.
        repeat case_bool_decide; try done. set_solver.
      * exists m. rewrite P1. split; [apply elem_of_app; by right|done].
    + destruct (A aid r Hr) as (W & (th & Hth & Hm) & (m & Hin & Hres)). split_and!; [done| |].
      * destruct (decide (ap_thread_id r = tid)) as [Er|N].
        { rewrite Er, lookup_insert_eq. eexists. split; [done|]. simpl. rewrite Er, Ht in Hth. by injection Hth as ->. }
        exists th. by rewrite lookup_insert_ne.
      * exists m. split; [apply elem_of_app; by left|done].
  - intros x. unfold history, in_thread. simpl. rewrite filter_app. destruct (decide (x = tid)) as [->|N].
    + rewrite (filter_all (λ m, cm_thread_id m = tid) (tn_rows t)) by by apply Forall_forall.
      rewrite sort_later.
      * unfold coherent. rewrite coh_app. pose proof (C tid) as Ct. unfold coherent, history, in_thread in Ct. by rewrite Ct.
      * by eapply timed_sorted.
      * intros a b [_ Ha]%list_elem_of_filter Hb. unfold later.
        assert (Hin : cm_created_at b ∈ clk <$> ns) by (rewrite <-E; by apply list_elem_of_fmap_2). apply list_elem_of_fmap in Hin as (k & -> & Hk). auto.
    + assert (Hf : filter (λ m, cm_thread_id m = x) (tn_rows t) = []).
      { apply filter_nil_intro. rewrite Forall_forall in IT. intros m Hm. rewrite (IT m Hm). congruence. }
      rewrite Hf, app_nil_r. apply C.
  - rewrite Forall_forall in R |- *. intros e He X. apply TH in X. destruct (R e He X) as (m & Hin & Hres). exists m.
    split; [apply elem_of_app; by left|done].
Qed.

(** A decision rewrites the placeholder and the decided row. *)
Definition rewrite_result (tid : uuid) (tool_call_id content : string) (m : ChatMessage) : ChatMessage :=
  if is_result_of tid tool_call_id m then with_content content m else m.
Lemma rewrite_result_same tid i c m :
  let m' := rewrite_result tid i c m in
  cm_id m' = cm_id m ∧ cm_thread_id m' = cm_thread_id m ∧ cm_role m' = cm_role m ∧ cm_tool_calls m' = cm_tool_calls m ∧
  cm_tool_call_id m' = cm_tool_call_id m ∧ cm_created_at m' = cm_created_at m ∧ ∀ t j, is_result_of t j m' = is_result_of t j m.
Proof. unfold rewrite_result. by destruct (is_result_of tid i m). Qed.

Lemma upsert_rewrites fresh now tid i content db db1 :
  (is_Some (cd_threads db !! tid) → ∃ m, m ∈ cd_messages db ∧ is_result_of tid i m = true) →
  _upsert_tool_result fresh now tid i content db = Ok db1 → db1 = put_messages (rewrite_result tid i content <$> cd_messages db) db.
Proof.
  intros H. unfold _upsert_tool_result. destruct (filter _ _) as [|x [|y l]] eqn:F; [|by intros [= <-]|done].
  destruct (bool_decide (is_Some _)) eqn:T; [|done]. apply bool_decide_eq_true in T. destruct (H T) as (m & Hm & Hr).
  by destruct (filter_nil_not_elem_of _ _ m F Hr).
Qed.

Lemma history_rewrite tid i c x db :
  history x (put_messages (rewrite_result tid i c <$> cd_messages db) db) = rewrite_result tid i c <$> history x db.
Proof.
  unfold history, in_thread. simpl. rewrite <-sort_on_map.
  - f_equal. induction (cd_messages db) as [|m l IH]; [done|]. csimpl. rewrite !filter_cons. destruct (rewrite_result_same tid i c m) as (_ & -> & _).
    case_decide; csimpl; by rewrite IH.
  - intros a b. unfold chronological. destruct (rewrite_result_same tid i c a) as (-> & _ & _ & _ & _ & -> & _).
    by destruct (rewrite_result_same tid i c b) as (-> & _ & _ & _ & _ & -> & _).
Qed.
Lemma db_inv_rewrite tid i c db : db_inv db → db_inv (put_messages (rewrite_result tid i c <$> cd_messages db) db).
Proof.
  intros [M A C]. split; simpl.
  - intros m (m0 & -> & Hm)%list_elem_of_fmap. destruct (rewrite_result_same tid i c m0) as (_ & -> & _). auto.
  - intros aid r Hr. destruct (A aid r Hr) as (W & Th & (m & Hm & Hres)). split_and!; [done|done|].
    exists (rewrite_result tid i c m). split; [by apply list_elem_of_fmap_2|]. destruct (rewrite_result_same tid i c m) as (_ & _ & _ & _ & _ & _ & E). by rewrite E.
  - intros x. rewrite history_rewrite. unfold coherent. rewrite coh_map; [apply C|]. intros m.
    by destruct (rewrite_result_same tid i c m) as (_ & _ & -> & -> & -> & _).
Qed.

Lemma chat_inv_decision aid row status text note fresh now s db' :
  (is_Some (cd_threads (cs_db s) !! ap_thread_id row) →
    ∃ m, m ∈ cd_messages (cs_db s) ∧ is_result_of (ap_thread_id row) (ap_tool_call_id row) m = true) →
  record_decision aid row status text note fresh now (cs_db s) = Ok db' → chat_inv s → chat_inv (mkChat db' (cs_log s) (cs_running s)).
Proof.
  intros P H [D R]. unfold record_decision in H. apply result_bind_ok in H as (db1 & U & H).
  apply upsert_rewrites in U; [|done]. set (i := ap_tool_call_id row) in *. set (tid := ap_thread_id row) in *.
  pose proof (db_inv_rewrite tid i text _ D) as D1. rewrite <-U in D1. destruct (cd_approvals db1 !! aid) as [r|] eqn:E; [|done].
  injection H as <-. destruct D1 as [M A C]. split; [split|]; simpl; [done| |exact C|].
  - intros aid' r' [[<- <-]|[N Hr]]%lookup_insert_Some; [|by eapply A]. exact (A aid r E).
  - subst db1. rewrite Forall_forall in R. apply Forall_forall. intros e He X. destruct (R e He X) as (m & Hm & Hres).
    exists (rewrite_result tid i text m). split; [simpl; by apply list_elem_of_fmap_2|].
    destruct (rewrite_result_same tid i text m) as (_ & _ & _ & _ & _ & _ & Es). by rewrite Es.
Qed.

(** ** Every step *)

Section steps.
Context (float_repr : QArith_base.Q → string) (decode_error : Json → string) (prompt : uuid → string → option uuid → string).
Context (rows : NameModel → string → option (list (option string))) (db_ok : NameModel → bool).
Abbreviation step := (chat_step float_repr decode_error prompt rows db_ok).

(** What a request to talk does: its calls are confined to the thread it was let
    into, and the tables are committed or left alone. *)
Lemma turn_gate_thread adb flags uid user llm now tid sh db thread :
  turn_gate adb flags uid user llm now tid sh db = Ok thread → cd_threads db !! tid = Some thread ∧ ct_user_id thread = uid.
Proof.
  unfold turn_gate. intros ([] & _ & H)%result_bind_ok. apply result_bind_ok in H as (th & Ho & H). apply result_bind_ok in H as ([] & _ & H).
  unfold _get_owned_thread in Ho. destruct (cd_threads db !! tid) as [t|]; [|done]. destruct (bool_decide _) eqn:B; [|done]. injection Ho as ->.
  destruct (check_budget _ _ _ _); [|done]. destruct llm; [|done]. injection H as ->. split; [done|]. by apply bool_decide_eq_true in B.
Qed.

Definition turn_outcome (uid : uuid) (s : Chat) (log' : list Call) (db' : ChatDb) : Prop :=
  (log' = cs_log s ∧ db' = cs_db s) ∨
  ∃ tid thread new, cd_threads (cs_db s) !! tid = Some thread ∧ ct_user_id thread = uid ∧ log' = new ++ cs_log s ∧ Forall (confined uid thread) new ∧
    (chat_inv s → chat_inv (mkChat db' log' (cs_running s))).

Lemma turn_inv_log_only s log' : chat_inv s → chat_inv (mkChat (cs_db s) log' (cs_running s)).
Proof. by intros []. Qed.

Lemma post_message_outcome fresh clk adb flags uid user w llm setting now tid content sh s log' db' r :
  clock_on clk (cs_db s) →
  post_message float_repr decode_error prompt fresh clk adb flags uid user w llm setting now tid content sh (cs_log s) (cs_db s) = (log', db', r) →
  turn_outcome uid s log' db'.
Proof.
  intros CK. unfold post_message. destruct (negb _); [intros [= <- <- _]; by left|].
  destruct (turn_gate _ _ _ _ _ _ _ _ _) as [thread|e] eqn:G; [|intros [= <- <- _]; by left].
  destruct (turn_gate_thread _ _ _ _ _ _ _ _ _ _ G) as [Ht Hu].
  destruct (run_user_turn _ _ _ _ _ _ _ _ _ _ _ _ _ _ _) as [t out] eqn:RT. unfold run_user_turn in RT.
  apply (run_turn_inv prompt fresh clk uid tid thread w) in RT as [(new & L & F) RT]; [|intros log0 tools t0 I; by apply inv_turn_loop].
  destruct out as [[db1 m]|e].
  - intros [= <- <- _]. right. exists tid, thread, new. split_and!; [done..|]. intros I. destruct (RT db1 m eq_refl) as (TI & title & at_ & ->).
    by eapply chat_inv_commit.
  - intros [= <- <- _]. right. exists tid, thread, new. split_and!; [done..|]. apply turn_inv_log_only.
Qed.

Lemma post_stream_outcome fresh clk adb flags uid user w llm setting now tid content sh s log' db' r :
  clock_on clk (cs_db s) →
  post_message_stream float_repr decode_error prompt rows db_ok fresh clk adb flags uid user w llm setting now tid content sh (cs_log s) (cs_db s)
    = (log', db', r) →
  turn_outcome uid s log' db'.
Proof.
  intros CK. unfold post_message_stream. destruct (negb _); [intros [= <- <- _]; by left|].
  destruct (turn_gate _ _ _ _ _ _ _ _ _) as [thread|e] eqn:G; [|intros [= <- <- _]; by left].
  destruct (turn_gate_thread _ _ _ _ _ _ _ _ _ _ G) as [Ht Hu]. unfold run_user_turn_streaming.
  destruct (run_turn _ _ _ _ _ _ _ _ _ _ _ _ _) as [t out] eqn:RT.
  apply (run_turn_inv prompt fresh clk uid tid thread w) in RT as [(new & L & F) RT]; [|intros log0 tools t0 I; by apply inv_stream_loop].
  destruct out as [[db1 m]|e].
  - intros [= <- <- _]. right. exists tid, thread, new. split_and!; [done..|]. intros I. destruct (RT db1 m eq_refl) as (TI & title & at_ & ->).
    by eapply chat_inv_commit.
  - intros [= <- <- _]. right. exists tid, thread, new. split_and!; [done..|]. apply turn_inv_log_only.
Qed.

Lemma decidable_row_spec adb flags uid user aid db row :
  decidable_row adb flags uid user aid db = Ok row →
  cd_approvals db !! aid = Some row ∧ ap_status row = STATUS_PENDING ∧ ∃ th, cd_threads db !! ap_thread_id row = Some th ∧ ct_user_id th = uid.
Proof.
  unfold decidable_row, _get_owned_approval, _ensure_pending, _get_owned_thread. intros ([] & _ & H)%result_bind_ok.
  apply result_bind_ok in H as (r & Hr & H). destruct (cd_approvals db !! aid) as [r0|]; [|done]. apply result_bind_ok in Hr as (th & Ht & [= ->]).
  destruct (cd_threads db !! _) as [t|] eqn:T; [|done]. destruct (bool_decide _) eqn:B in Ht; [|done]. injection Ht as <-.
  apply bool_decide_eq_true in B. destruct (bool_decide (ap_status r = _)) eqn:P; [|done]. injection H as <-. apply bool_decide_eq_true in P. eauto.
Qed.

(** A call of an approval: on behalf of the owner of the thread, exactly what the
    pending row says. *)
Definition approved_call (db : ChatDb) (c : Call) : Prop :=
  cl_bypass c = true ∧ ∃ aid row th, cd_approvals db !! aid = Some row ∧ ap_status row = STATUS_PENDING ∧
    cd_threads db !! ap_thread_id row = Some th ∧ ct_user_id th = cl_user c ∧ cl_name c = ap_tool_name row ∧ cl_args c = ap_tool_arguments row.

Lemma approve_begin_spec adb flags uid user w aid log db log' row text :
  approve_begin float_repr adb flags uid user w aid log db = (log', Ok (row, text)) →
  cd_approvals db !! aid = Some row ∧ ∃ new, log' = new ++ log ∧ Forall (approved_call db) new.
Proof.
  unfold approve_begin. destruct (decidable_row _ _ _ _ _ _) as [r|] eqn:E; [|done]. apply decidable_row_spec in E as (Ha & Hp & th & Ht & Hu).
  destruct (w_connect w) as [[]|[]]; try (by intros [= <- <- _]; split; [done|]; by exists []); [|done].
  assert (K : ∀ log1 res, call_tool float_repr (w_session w) uid (ap_tool_name r) (ap_tool_arguments r) true log = (log1, res) →
            ∃ new, log1 = new ++ log ∧ Forall (approved_call db) new).
  { unfold call_tool. intros log1 res. destruct (negb true && _); [intros [= <- _]; by exists []|].
    destruct (true && _); [intros [= <- _]; by exists []|].
    destruct (w_session w _); intros [= <- _]; (eexists [_]; split; [done|]; apply Forall_singleton; split; [done|]; by exists aid, r, th). }
  destruct (call_tool _ _ _ _ _ _ _) as [log1 [t|e]] eqn:C; intros [= <- <- _]; (split; [done|]; by eapply K).
Qed.

(** The new calls of a step. *)
Definition accounted (s : Chat) (c : Call) : Prop :=
  (∃ tid thread, cd_threads (cs_db s) !! tid = Some thread ∧ confined (ct_user_id thread) thread c) ∨ approved_call (cs_db s) c.

Lemma turn_outcome_log uid s log' db' : turn_outcome uid s log' db' → ∃ new, log' = new ++ cs_log s ∧ Forall (accounted s) new.
Proof.
  intros [[-> _]|(tid & th & new & Ht & <- & -> & F & _)]; [by exists []|]. exists new. split; [done|].
  eapply Forall_impl; [exact F|]. intros c Hc. left. by exists tid, th.
Qed.
Lemma turn_outcome_inv uid s log' db' : turn_outcome uid s log' db' → chat_inv s → chat_inv (mkChat db' log' (cs_running s)).
Proof. intros [[-> ->]|(tid & th & new & _ & _ & _ & _ & K)]; [apply turn_inv_log_only|done]. Qed.

Lemma step_log s s' : step s s' → ∃ new, cs_log s' = new ++ cs_log s ∧ Forall (accounted s) new.
Proof.
  intros H. destruct H as [ | | | |fresh clk adb flags uid user w llm setting now tid content sh s log' db' r IN CK H
    |fresh clk adb flags uid user w llm setting now tid content sh s log' db' r IN CK H
    |fresh clk adb flags uid user w llm setting now tid content sh s log' db' r rest made IN CK H E
    |adb flags uid user w aid s log' row text H| | | ]; simpl; try by exists [].
  - by eapply turn_outcome_log, post_message_outcome.
  - by eapply turn_outcome_log, post_stream_outcome.
  - exists made. split; [done|]. destruct (turn_outcome_log _ _ _ _ (post_stream_outcome _ _ _ _ _ _ _ _ _ _ _ _ _ _ _ _ _ CK H)) as (new & En & F).
    rewrite E, app_assoc in En. apply app_inv_tail in En. subst new. by apply Forall_app in F as [_ F].
  - apply approve_begin_spec in H as (_ & new & -> & F). exists new. split; [done|]. eapply Forall_impl; [exact F|]. by right.
Qed.

Lemma step_inv s s' : step s s' → chat_inv s → chat_inv s'.
Proof.
  intros H. destruct H as [adb flags uid user fresh now title s db' N H|adb flags uid user fresh now aid sh s db' tid new N H
    |adb flags uid user fresh now aid sh s db' tid new N H|adb flags uid user tid s db' H
    |fresh clk adb flags uid user w llm setting now tid content sh s log' db' r IN CK H
    |fresh clk adb flags uid user w llm setting now tid content sh s log' db' r IN CK H
    |fresh clk adb flags uid user w llm setting now tid content sh s log' db' r rest made IN CK H E
    |adb flags uid user w aid s log' row text H|aid row text rest note fresh now s db' P H|e rest s P|adb flags uid user aid note fresh now s db' H]; intros I.
  - unfold create_thread in H. destruct (200 <? _)%nat; [done|]. apply result_bind_ok in H as ([] & _ & [= <-]). by apply chat_inv_new_thread.
  - unfold slideshow_assistant_thread, editor_thread in H. destruct (negb _); [done|]. apply result_bind_ok in H as (a & _ & H).
    destruct (negb _); [done|]. destruct (head _) as [[]|]; injection H as <- _ _; [by destruct s|by apply chat_inv_new_thread].
  - unfold composed_assistant_thread, editor_thread in H. destruct (negb _); [done|]. apply result_bind_ok in H as (a & _ & H).
    destruct (negb _); [done|]. destruct (head _) as [[]|]; injection H as <- _ _; [by destruct s|by apply chat_inv_new_thread].
  - unfold delete_thread in H. apply result_bind_ok in H as ([] & _ & H). apply result_bind_ok in H as (? & _ & [= <-]). by apply chat_inv_drop.
  - by eapply turn_outcome_inv; [eapply post_message_outcome|].
  - by eapply turn_outcome_inv; [eapply post_stream_outcome|].
  - by apply turn_inv_log_only.
  - apply approve_begin_spec in H as (Ha & _). destruct I as [D R]. split; [done|]. simpl. constructor; [|done]. simpl. intros _.
    by destruct (di_appr _ D _ _ Ha) as (_ & _ & ?).
  - destruct I as [D R]. rewrite P in R. apply Forall_cons in R as [R0 R]. simpl in R0.
    exact (chat_inv_decision aid row STATUS_APPROVED text (truthy note) fresh now (mkChat (cs_db s) (cs_log s) rest) db' R0 H (Build_chat_inv (mkChat (cs_db s) (cs_log s) rest) D R)).
  - destruct I as [D R]. rewrite P in R. apply Forall_cons in R as [_ R]. by split.
  - unfold reject_approval in H. apply result_bind_ok in H as (row & Hr & H). apply decidable_row_spec in Hr as (Ha & _).
    eapply chat_inv_decision; [|exact H|done]. intros _. by destruct (di_appr _ (ch_db _ I) _ _ Ha) as (_ & _ & ?).
Qed.

Lemma no_chats_inv : chat_inv NO_CHATS.
Proof.
  split; [split|]; simpl; [by intros m ?%elem_of_nil|by intros ??; rewrite lookup_empty| |constructor]. intros tid. by apply no_messages_coherent.
Qed.
Lemma reachable_inv s : rtc step NO_CHATS s → chat_inv s.
Proof.
  intros H. assert (G : ∀ x y, rtc step x y → chat_inv x → chat_inv y).
  { induction 1 as [|x y z Hs _ IH]; [done|]. intros I. by eapply IH, step_inv. }
  eapply G; [exact H|apply no_chats_inv].
Qed.

(** C22. No write tool runs unless its owner says so.  Whatever the model answers, in whatever order users talk, decide,
    delete and disconnect: every call that reaches the MCP server in a step is either a tool that needs no approval,
    called in a turn of the thread's owner and of that thread's profile, and in an editor thread only on the asset
    the thread is bound to; or exactly the tool and the arguments of a pending proposal, called for the owner of its thread,
    which is a general thread, and the tool is one of the writes. *)
Theorem writes_need_approval (s s' : Chat) :
  rtc step NO_CHATS s → step s s' →
  ∃ new, cs_log s' = new ++ cs_log s ∧ ∀ c, c ∈ new →
    (cl_name c ∉ WRITE_TOOLS ∧ cl_bypass c = false ∧ ∃ tid thread, cd_threads (cs_db s) !! tid = Some thread ∧ ct_user_id thread = cl_user c ∧
       cl_name c ∈ executable_tools_for_mode (ct_mode thread) ∧
       ∀ aid, ct_mode thread ∈ _EDITOR_MODES → ct_composed_asset_id thread = Some aid → cl_name c ∈ _ASSET_SCOPED_TOOLS →
         aget "asset_id" (cl_args c) = Some (JStr aid)) ∨
    (cl_name c ∈ WRITE_TOOLS ∧ cl_bypass c = true ∧ ∃ aid row th, cd_approvals (cs_db s) !! aid = Some row ∧ ap_status row = STATUS_PENDING ∧
       cl_name c = ap_tool_name row ∧ cl_args c = ap_tool_arguments row ∧
       cd_threads (cs_db s) !! ap_thread_id row = Some th ∧ ct_user_id th = cl_user c ∧ ct_mode th ∉ _EDITOR_MODES).
Proof.
  intros R H. apply reachable_inv in R as [D _]. destruct (step_log _ _ H) as (new & E & F). exists new. split; [done|].
  intros c Hc. rewrite Forall_forall in F. destruct (F c Hc) as [(tid & th & Ht & [U M N B A])|(B & aid & row & th & Ha & Hp & Ht & Hu & En & Ea)].
  - left. split_and!; [|done|].
    + assert (X : Forall (λ n, n ∉ WRITE_TOOLS) NO_APPROVAL_TOOLS) by (apply (bool_decide_unpack _); by vm_compute).
      rewrite Forall_forall in X. by apply X.
    + exists tid, th. split_and!; [done|done|by apply list_elem_of_filter|]. intros aid He Hb. apply A. unfold bound_asset_id. by rewrite bool_decide_true.
  - right. destruct (di_appr _ D _ _ Ha) as (W & (th' & Ht' & Hm) & _). simplify_eq. split_and!; [by rewrite En|done|]. by exists aid, row, th.
Qed.

End steps.

(** ** What a turn may spend *)

Definition tokens_of (l : list ChatMessage) : Z := sum_of cm_tokens_in l + sum_of cm_tokens_out l.
Definition no_debt (m : ChatMessage) : Prop := 0 ≤ cm_tokens_in m ∧ 0 ≤ cm_tokens_out m.

(** At most [K] tokens per answer, and none negative. *)
Record frugal (K : Z) (w : World) : Prop := {
  fg_complete : ∀ msgs tools r, w_complete w msgs tools = Ok r → 0 ≤ co_tokens_in r ∧ 0 ≤ co_tokens_out r ∧ co_tokens_in r + co_tokens_out r ≤ K;
  fg_stream : ∀ msgs tools, let p := gather (w_stream w msgs tools).1 in 0 ≤ pc_in p ∧ 0 ≤ pc_out p ∧ pc_in p + pc_out p ≤ K
}.

(** The tokens of the rows against the number of answers, of which [n] are allowed. *)
Definition spent (K : Z) (n : nat) (t : Turn) : Prop :=
  Forall no_debt (tn_rows t) ∧ tokens_of (tn_rows t) ≤ K * Z.of_nat (tn_asked t) ∧ (tn_asked t ≤ n)%nat.

Lemma tokens_snoc l m : tokens_of (l ++ [m]) = tokens_of l + (cm_tokens_in m + cm_tokens_out m).
Proof. unfold tokens_of. rewrite !sum_of_app. simpl. lia. Qed.

Section spending.
Context (float_repr : QArith_base.Q → string) (decode_error : Json → string) (prompt : uuid → string → option uuid → string).
Context (rows : NameModel → string → option (list (option string))) (db_ok : NameModel → bool).
Context (fresh : nat → uuid) (clk : nat → Z) (uid : uuid) (tid : uuid) (thread : ChatThread) (w : World) (K : Z).

Lemma spent_row n role content calls call_id t :
  spent K n t → spent K n (add_row fresh clk tid role content calls call_id 0 0 t).1.
Proof.
  intros (F & S & A). split_and!; simpl; [|rewrite tokens_snoc; simpl; lia|done]. apply Forall_app. split; [done|]. by apply Forall_singleton.
Qed.
Lemma spent_tool_row n i content t : spent K n t → spent K n (tool_row fresh clk tid content i t).
Proof. apply spent_row. Qed.
Lemma spent_answer n role content calls call_id tin tout es t :
  0 ≤ tin → 0 ≤ tout → tin + tout ≤ K → spent K n t →
  spent K (S n) (add_row fresh clk tid role content calls call_id tin tout (emit es (ask_once t))).1.
Proof.
  intros Hi Ho HK (F & S & A). split_and!; simpl; [|rewrite tokens_snoc; simpl; lia|lia]. apply Forall_app. split; [done|]. by apply Forall_singleton.
Qed.
Lemma spent_fold n f (calls : list ToolCall) t : (∀ t tc, spent K n t → spent K n (f t tc)) → spent K n t → spent K n (fold_left f calls t).
Proof. intros H. revert t. induction calls as [|tc calls IH]; intros t S; simpl; auto. Qed.
Lemma spent_run_tool n executable t tc : spent K n t → spent K n (run_tool float_repr decode_error fresh clk uid tid thread w executable t tc).
Proof. intros S. unfold run_tool. destruct (_execute_tool_call _ _ _ _ _ _ _ _). by apply spent_tool_row. Qed.
Lemma spent_stream_tool n proposer mode_tools executable t tc :
  spent K n t → spent K n (stream_tool float_repr decode_error rows db_ok fresh clk uid tid thread w proposer mode_tools executable t tc).
Proof.
  intros S. unfold stream_tool. destruct (_ && _); [by apply (spent_tool_row n)|]. destruct (_ && _).
  - unfold propose. exact (spent_tool_row n _ _ (mkTurn _ (_ ++ _) _ _ _ _ _) S).
  - destruct (_execute_tool_call _ _ _ _ _ _ _ _). by apply (spent_tool_row n).
Qed.
Lemma spent_more n m t : spent K n t → (n ≤ m)%nat → spent K m t.
Proof. intros (F & S & A) H. split_and!; [done|done|lia]. Qed.

Lemma spent_turn_loop n iters executable tools t t' m :
  frugal K w → spent K n t → turn_loop float_repr decode_error fresh clk uid tid thread w iters executable tools t = (t', Ok m) → spent K (n + iters) t'.
Proof.
  intros G. revert n t. induction iters as [|iters IH]; intros n t S; cbn [turn_loop].
  - intros [= <- _]. eapply spent_more; [apply (spent_row n); exact S|lia].
  - destruct (w_complete w _ _) as [r|] eqn:E; [|done]. destruct (fg_complete _ _ G _ _ _ E) as (Hi & Ho & HK).
    destruct (co_tool_calls r) as [[|c calls]|].
    + intros [= <- _]. eapply spent_more; [apply (spent_answer n _ _ _ _ _ _ [] t Hi Ho HK S)|lia].
    + intros H. apply (IH (Datatypes.S n)) in H; [eapply spent_more; [exact H|lia]|]. apply spent_fold; [intros; by apply spent_run_tool|].
      apply (spent_answer n "assistant" (co_content r) (Some (c :: calls)) None _ _ [] t Hi Ho HK S).
    + intros [= <- _]. eapply spent_more; [apply (spent_answer n _ _ _ _ _ _ [] t Hi Ho HK S)|lia].
Qed.
Lemma spent_stream_loop n iters mode_tools executable tools t t' m :
  frugal K w → spent K n t →
  stream_loop float_repr decode_error rows db_ok fresh clk uid tid thread w iters mode_tools executable tools t = (t', Ok m) → spent K (n + iters) t'.
Proof.
  intros G. revert n t. induction iters as [|iters IH]; intros n t S; cbn [stream_loop].
  - intros [= <- _]. eapply spent_more; [apply (spent_row n); exact S|lia].
  - destruct (fg_stream _ _ G (tn_msgs t) tools) as (Hi & Ho & HK). destruct (w_stream w (tn_msgs t) tools) as [ds [e|]]; [done|].
    cbn [fst] in Hi, Ho, HK. destruct (_assemble_tool_calls _) as [calls|].
    + cbn [add_row]. set (t1 := push_msg _ _).
      assert (S1 : spent K (Datatypes.S n) t1).
      { exact (spent_answer n "assistant" (pc_content (gather ds)) (Some calls) None _ _ (pc_events (gather ds)) t Hi Ho HK S). }
      set (t2 := fold_left _ calls t1). assert (S2 : spent K (Datatypes.S n) t2) by (apply spent_fold; [intros; by apply spent_stream_tool|done]).
      destruct (0 <? _)%nat; intros H.
      * injection H as <- _. eapply spent_more; [apply (spent_row (Datatypes.S n)); exact S2|lia].
      * apply (IH (Datatypes.S n)) in H; [eapply spent_more; [exact H|lia]|done].
    + intros [= <- _]. eapply spent_more; [apply (spent_answer n _ _ _ _ _ _ _ t Hi Ho HK S)|lia].
Qed.

Lemma sum_filter_le (f : ChatMessage → Z) (p : ChatMessage → bool) l :
  Forall (λ m, 0 ≤ f m) l → sum_of f (filter (λ m, p m = true) l) ≤ sum_of f l ∧ 0 ≤ sum_of f l.
Proof.
  induction 1 as [|m l Hm _ [IH1 IH2]]; [done|]. rewrite filter_cons. simpl. case_decide; simpl; lia.
Qed.

(** The usage of anyone after a commit. *)
Lemma usage_commit who now db title at_ rs aps : cd_threads db !! tid = Some thread → Forall no_debt rs →
  get_user_today_usage who now
    (mkChatDb (<[tid := mkThread (ct_user_id thread) title (ct_mode thread) (ct_composed_asset_id thread) (ct_created_at thread) at_]> (cd_threads db))
       (cd_messages db ++ rs) aps) ≤ get_user_today_usage who now db + tokens_of rs.
Proof.
  intros Ht F. unfold get_user_today_usage. set (db' := mkChatDb _ _ _).
  assert (E : ∀ m, counted who (_utc_day_start now) db' m = counted who (_utc_day_start now) db m).
  { intros m. unfold counted, db'. simpl. destruct (decide (cm_thread_id m = tid)) as [->|N]; [by rewrite lookup_insert_eq, Ht|by rewrite lookup_insert_ne]. }
  simpl. rewrite filter_app, !sum_of_app.
  rewrite (list_filter_iff (λ m, counted who (_utc_day_start now) db' m = true) (λ m, counted who (_utc_day_start now) db m = true)) by (intros; by rewrite E).
  unfold tokens_of.
  destruct (sum_filter_le cm_tokens_in (counted who (_utc_day_start now) db') rs) as [L1 _]; [eapply Forall_impl; [exact F|]; by intros ? []|].
  destruct (sum_filter_le cm_tokens_out (counted who (_utc_day_start now) db') rs) as [L2 _]; [eapply Forall_impl; [exact F|]; by intros ? []|]. lia.
Qed.

(** A turn of at most [n] answers. *)
Lemma run_turn_spends loop n now adb raw log db t r :
  cd_threads db !! tid = Some thread →
  (∀ tools t0 t1 m, spent K 0 t0 → loop (executable_tools_for_mode (ct_mode thread)) tools t0 = (t1, Ok m) → spent K n t1) → 0 ≤ K →
  run_turn prompt fresh clk uid tid thread w loop now adb raw log db = (t, r) →
  ∀ db' m, r = Ok (db', m) → (∃ b, check_budget adb uid now db = Ok b) ∧
    get_user_today_usage uid now db' ≤ get_user_today_usage uid now db + K * Z.of_nat n.
Proof.
  intros Ht HL HK. unfold run_turn. destruct (bool_decide _); [by intros [= <- <-]|]. destruct (check_budget adb uid now db) as [b|]; [|by intros [= <- <-]].
  cbn [start_turn]. set (t0 := mkTurn _ _ _ log _ _ 0). set (hist := sort_on _ _).
  destruct (w_connect w ≫= _) as [listing|e]; [|by intros [= <- <-]].
  destruct (loop _ _ _) as [t1 [m|e]] eqn:E; [|by intros [= <- <-]]. intros [= <- <-] db' m' [= <- <-]. split; [by eexists|].
  apply HL in E; [|split_and!; simpl; [by apply Forall_singleton|unfold tokens_of; simpl; lia|lia]]. destruct E as (F & S & A).
  unfold commit_turn. etrans; [by apply usage_commit|]. nia.
Qed.
End spending.

Lemma check_budget_under adb uid now db b : check_budget adb uid now db = Ok b → 0 ≤ get_user_daily_cap adb uid →
  get_user_today_usage uid now db < get_user_daily_cap adb uid.
Proof.
  unfold check_budget. intros H Hc. rewrite (proj2 (Z.ltb_ge _ _)) in H by done. destruct (Z.leb_spec (get_user_daily_cap adb uid) (get_user_today_usage uid now db)); [done|lia].
Qed.

(** C24. The cap holds up to one turn: with a cap that is not the escape hatch, a request to talk leaves the user's tokens of
    the day where they were, or below the cap plus what one turn can use, that is the number of iterations allowed
    times the size of an answer. *)
Theorem overspend_bounded (K : Z) float_repr decode_error prompt rows db_ok fresh clk (adb : AuthDb) (flags : FlagRows) (uid : uuid) (user : User)
    (w : World) (llm : bool) (setting now : Z) (tid : uuid) (content : string) (sh : Shelf) (log log' : list Call) (db db' : ChatDb) :
  (∃ r, post_message float_repr decode_error prompt fresh clk adb flags uid user w llm setting now tid content sh log db = (log', db', r)) ∨
  (∃ r, post_message_stream float_repr decode_error prompt rows db_ok fresh clk adb flags uid user w llm setting now tid content sh log db = (log', db', r)) →
  frugal K w → 0 ≤ K → 0 ≤ get_user_daily_cap adb uid →
  get_user_today_usage uid now db' ≤ Z.max (get_user_today_usage uid now db) (get_user_daily_cap adb uid - 1 + K * Z.of_nat (max_iters setting)).
Proof.
  intros H G HK Hc.
  assert (Same : db' = db → get_user_today_usage uid now db' ≤ Z.max (get_user_today_usage uid now db) (get_user_daily_cap adb uid - 1 + K * Z.of_nat (max_iters setting)))
    by (intros ->; lia).
  assert (Turn : ∀ thread loop, cd_threads db !! tid = Some thread →
    (∀ tools t0 t1 m, spent K 0 t0 → loop (executable_tools_for_mode (ct_mode thread)) tools t0 = (t1, Ok m) → spent K (max_iters setting) t1) →
    ∀ t m, run_turn prompt fresh clk uid tid thread w loop now adb content log db = (t, Ok (db', m)) →
    get_user_today_usage uid now db' ≤ Z.max (get_user_today_usage uid now db) (get_user_daily_cap adb uid - 1 + K * Z.of_nat (max_iters setting))).
  { intros thread loop Ht HL t m RT. destruct (run_turn_spends prompt fresh clk uid tid thread w K loop _ now adb content log db t _ Ht HL HK RT db' m eq_refl) as [[b B] U].
    pose proof (check_budget_under _ _ _ _ _ B Hc). lia. }
  destruct H as [[r H]|[r H]]; [unfold post_message in H|unfold post_message_stream in H];
    (destruct (negb _); [injection H as _ <- _; by apply Same|]);
    (destruct (turn_gate _ _ _ _ _ _ _ _ _) as [thread|e] eqn:Gt; [|injection H as _ <- _; by apply Same]);
    destruct (turn_gate_thread _ _ _ _ _ _ _ _ _ _ Gt) as [Ht _].
  - destruct (run_user_turn _ _ _ _ _ _ _ _ _ _ _ _ _ _ _) as [t [[db1 m]|e]] eqn:RT; injection H as _ <- _; [|by apply Same].
    eapply Turn; [exact Ht| |exact RT]. intros tools t0 t1 m' S0 E. by eapply (spent_turn_loop _ _ _ _ _ _ _ _ _ 0) in E.
  - unfold run_user_turn_streaming in H. destruct (run_turn _ _ _ _ _ _ _ _ _ _ _ _ _) as [t [[db1 m]|e]] eqn:RT; injection H as _ <- _; [|by apply Same].
    eapply Turn; [exact Ht| |exact RT]. intros tools t0 t1 m' S0 E. by eapply (spent_stream_loop _ _ _ _ _ _ _ _ _ _ _ 0) in E.
Qed.

(** ** What can go wrong *)

(** Amy may use the assistant and has one thread. *)
Definition amy : User := mkUser "amy" "amy@x.org" "h" "ops" true false None None None None None.
Definition amys_db : AuthDb := mkAuthDb {[ "amy" := amy ]} {[ "ops" := mkRole "Operator" ["settings:write"; "assets:write"] false ]} ∅ ∅ ∅.
Definition amys_chat : ChatDb := mkChatDb {[ "t1" := mkThread "amy" "" MODE_GENERAL None 0 0 ]} [] ∅.
Definition bare_shelf : Shelf := mkShelf (mkLib [] (mkMedia [] [] [] [] []) (mkStore ∅ []) [] [] [] [] [] [] ∅) ∅ ∅ ∅ [] [].

(** Every tool answers "done". *)
Definition says_done (log : list Call) : Reply := Returned (mkResult None [inl "done"] false).
Definition last_role (msgs : list OMsg) : string := default "" (om_role <$> last msgs).
(** A model that wants an asset deleted, and gives its calls these ids. *)
Definition deleter (id : option string) : World :=
  mkWorld (Ok tt) (Ok []) (λ _ _, Err (TransportError "")) (λ _ _, ([mkChunk None (Some (None, [(0, id, Some "delete_asset", Some "{}")])); mkChunk (Some (7, 3)) None], None)) says_done.
(** A model that looks at the devices, then answers. *)
Definition looker : World :=
  mkWorld (Ok tt) (Ok [])
    (λ msgs _, if bool_decide (last_role msgs = "user") then Ok (mkResponse None [mkToolCall (Some "c1") "list_devices" (JStr "")] (Some (5, 5)))
               else Ok (mkResponse (Some "two") [] (Some (5, 5))))
    (λ _ _, ([], None)) says_done.
Definition no_floats (q : QArith_base.Q) : string := "".
Definition no_detail (v : Json) : string := "".
Definition no_prompt (u : uuid) (mode : string) (aid : option uuid) : string := "".
Definition no_names (m : NameModel) (id : string) : option (list (option string)) := None.
Definition all_ok (m : NameModel) : bool := true.
Definition ids (prefix : string) (n : nat) : uuid := prefix +:+ Z_str (Z.of_nat n).
Definition ticks (start : Z) (n : nat) : Z := start + Z.of_nat n.

Definition ask_to_delete (id : option string) (prefix : string) (start : Z) (log : list Call) (db : ChatDb) :=
  post_message_stream no_floats no_detail no_prompt no_names all_ok (ids prefix) (ticks start) amys_db ∅ "amy" amy (deleter id) true 3 1000 "t1"
    "delete it" bare_shelf log db.
Definition asked (id : option string) : ChatDb := (ask_to_delete id "a" 1000 [] amys_chat).1.2.

(** The proposal is the third row made: a2. *)
Example proposal_queued :
  let '(log, db, r) := ask_to_delete (Some "c1") "a" 1000 [] amys_chat in
  log = [] ∧ (ap_tool_name <$> (cd_approvals db !! "a2")) = Some "delete_asset" ∧
  (cm_role <$> history "t1" db) = ["user"; "assistant"; "tool"; "assistant"].
Proof. by vm_compute. Qed.

Definition begin_approval (log : list Call) (db : ChatDb) := approve_begin no_floats amys_db ∅ "amy" amy (deleter None) "a2" log db.

(** Two clicks on Approve, the second while the tool of the first still runs: the
    tool runs twice, and both requests succeed. *)
Example double_approval_runs_twice :
  let db := asked (Some "c1") in
  let '(log1, r1) := begin_approval [] db in
  let '(log2, r2) := begin_approval log1 db in
  cl_name <$> log2 = ["delete_asset"; "delete_asset"] ∧
  match r1, r2 with
  | Ok (row1, text1), Ok (row2, text2) =>
      match approve_finish "a2" row1 text1 None "x" 2000 db with
      | Ok db1 => is_ok (approve_finish "a2" row2 text2 None "y" 2001 db1) = true
      | Err _ => False
      end
  | _, _ => False
  end.
Proof. by vm_compute. Qed.

(** A rejection that arrives while the tool runs succeeds and is then overwritten:
    decisions are not terminal. *)
Example rejection_overwritten :
  let db := asked (Some "c1") in
  match (begin_approval [] db).2, reject_approval no_floats amys_db ∅ "amy" amy "a2" None "x" 2000 db with
  | Ok (row, text), Ok db1 =>
      (ap_status <$> (cd_approvals db1 !! "a2")) = Some STATUS_REJECTED ∧
      match approve_finish "a2" row text None "y" 2001 db1 with
      | Ok db2 => (ap_status <$> (cd_approvals db2 !! "a2")) = Some STATUS_APPROVED
      | Err _ => False
      end
  | _, _ => False
  end.
Proof. by vm_compute. Qed.

(** Fragments without an id get the id "call_0" in every answer: in the second
    turn the results of a thread are no longer unique, so the approval runs the
    tool and then fails, the row stays pending, and a retry runs it again. *)
Example fallback_id_collides :
  let db1 := asked None in
  let db2 := (ask_to_delete None "b" 3000 [] db1).1.2 in
  let '(log, db3, r) := approve_approval no_floats amys_db ∅ "amy" amy (deleter None) "b2" None "x" 5000 [] db2 in
  r = Err MultipleResultsFound ∧ cl_name <$> log = ["delete_asset"] ∧ (ap_status <$> (cd_approvals db3 !! "b2")) = Some STATUS_PENDING.
Proof. by vm_compute. Qed.

(** Deleting a thread gives its tokens back. *)
Example delete_thread_refunds :
  let db := asked (Some "c1") in
  get_user_today_usage "amy" 1000 db = 10 ∧
  match delete_thread amys_db ∅ "amy" amy "t1" db with Ok db' => get_user_today_usage "amy" 1000 db' = 0 | Err _ => False end.
Proof. by vm_compute. Qed.

(** When the model fails in the second round of a turn, the tool call of the first
    round was made, and nothing of the turn is kept, not even the message of the
    user or the tokens of the first round. *)
Definition gives_up : World :=
  mkWorld (Ok tt) (Ok []) (λ _ _, Err (TransportError ""))
    (λ msgs _, if bool_decide (last_role msgs = "user") then ([mkChunk None (Some (None, [(0, Some "c1", Some "list_devices", None)])); mkChunk (Some (7, 3)) None], None)
               else ([], Some (TransportError "down"))) says_done.
Example failed_turn_leaves_nothing :
  let '(log, db, r) := post_message_stream no_floats no_detail no_prompt no_names all_ok (ids "a") (ticks 1000) amys_db ∅ "amy" amy gives_up true 3 1000 "t1"
    "how many?" bare_shelf [] amys_chat in
  cl_name <$> log = ["list_devices"] ∧ db = amys_chat.
Proof. by vm_compute. Qed.

(** Two turns of one thread at the same time: the rows of the other turn land
    between an answer and its results. *)
Definition looking (prefix : string) (start : Z) : Turn :=
  (run_user_turn no_floats no_detail no_prompt (ids prefix) (λ n, start + 2 * Z.of_nat n) "amy" "t1"
     (mkThread "amy" "" MODE_GENERAL None 0 0) looker 3 1000 amys_db "how many?" [] amys_chat).1.
Example parallel_turns_interleave :
  let one := mkChatDb (cd_threads amys_chat) (tn_rows (looking "a" 1000)) ∅ in
  let both := mkChatDb (cd_threads amys_chat) (tn_rows (looking "a" 1000) ++ tn_rows (looking "b" 1001)) ∅ in
  coherent (history "t1" one) ∧ coh [] (history "t1" both) = None.
Proof. by vm_compute. Qed.

(** With the whitelist bypassed, reads are accepted as well as writes. *)
Example bypass_accepts_reads :
  (call_tool no_floats says_done "amy" "list_devices" [] true []).2 = Ok "done".
Proof. reflexivity. Qed.

(** The card shows the name of any row: nobody asks who may see it. *)
Example card_names_anything :
  resolve_friendly_names (λ m id, if bool_decide (id = "12345678-1234-5678-1234-567812345678") then Some [None; Some "secret.mp4"] else None) all_ok
    [("asset_id", JStr "{12345678123456781234567812345678}")] = [("asset_id", JStr "secret.mp4")].
Proof. by vm_compute. Qed.

(** ** Witnesses *)

Lemma ids_new_ids prefix db : cd_approvals db = ∅ → ids_new (ids prefix) db.
Proof.
  intros E. split; [|intros i; by rewrite E, lookup_empty]. intros i j H%str_app_inj_l%Z_str_inj; lia.
Qed.

Lemma proposal_reachable : rtc (chat_step no_floats no_detail no_prompt no_names all_ok) NO_CHATS (mkChat (asked (Some "c1")) [] []).
Proof.
  eapply rtc_l.
  - eapply (CS_create _ _ _ _ _ amys_db ∅ "amy" amy "t1" 0 "" NO_CHATS amys_chat); [split; [done|constructor]|by vm_compute].
  - apply rtc_once. eapply (CS_stream _ _ _ _ _ (ids "a") (ticks 1000) amys_db ∅ "amy" amy (deleter (Some "c1")) true 3 1000 "t1" "delete it" bare_shelf
      (mkChat amys_chat [] [])); [by apply ids_new_ids| |].
    + split; [unfold ticks; lia|by intros m i ?%elem_of_nil].
    + unfold asked. change (cs_log (mkChat amys_chat [] [])) with (@nil Call). change (cs_db (mkChat amys_chat [] [])) with amys_chat.
      by vm_compute.
Qed.

Lemma writes_need_approval_witness :
  match begin_approval [] (asked (Some "c1")) with
  | (log', Ok (row, text)) => cl_name <$> log' = ["delete_asset"] ∧ ∀ c, c ∈ log' → cl_bypass c = true
  | _ => False
  end.
Proof.
  destruct (begin_approval [] (asked (Some "c1"))) as [log' [[row text]|e]] eqn:E; [|by vm_compute in E].
  assert (L : cl_name <$> log' = ["delete_asset"]) by (apply (f_equal fst) in E; simpl in E; subst log'; by vm_compute).
  split; [done|]. intros c Hc.
  destruct (writes_need_approval no_floats no_detail no_prompt no_names all_ok (mkChat (asked (Some "c1")) [] [])
    (mkChat (asked (Some "c1")) log' [("a2", row, text)])) as (new & En & H).
  - apply proposal_reachable.
  - eapply (CS_approve_begin _ _ _ _ _ amys_db ∅ "amy" amy (deleter None) "a2" (mkChat (asked (Some "c1")) [] []) log' row text). exact E.
  - simpl in En. rewrite app_nil_r in En. subst new. destruct (H c Hc) as [(N & _)|(_ & B & _)]; [|done]. destruct N.
    assert (Hn : cl_name c ∈ cl_name <$> log') by by apply list_elem_of_fmap_2. rewrite L in Hn. apply list_elem_of_singleton in Hn. rewrite Hn.
    apply (bool_decide_unpack _). by vm_compute.
Defined.


Lemma overspend_bounded_witness : get_user_today_usage "amy" 1000 (asked (Some "c1")) ≤ 50029 ∧ get_user_today_usage "amy" 1000 (asked (Some "c1")) = 10.
Proof.
  split; [|by vm_compute].
  pose proof (overspend_bounded 10 no_floats no_detail no_prompt no_names all_ok (ids "a") (ticks 1000) amys_db ∅ "amy" amy (deleter (Some "c1")) true 3 1000
    "t1" "delete it" bare_shelf [] [] amys_chat (asked (Some "c1"))) as H.
  assert (U : get_user_today_usage "amy" 1000 amys_chat = 0) by by vm_compute.
  assert (C : get_user_daily_cap amys_db "amy" = 50000) by by vm_compute.
  rewrite U, C in H. change (Z.of_nat (max_iters 3)) with 3 in H. etrans; [apply H|lia].
  - right. eexists. by vm_compute.
  - split; [done|]. intros msgs tools. vm_compute. repeat split; discriminate.
  - lia.
  - lia.
Defined.
