(* ===== verification/Worker.v ===== *)
(** * The transcoding worker (worker/__main__.py, worker/transcoder.py)

    The database side of a worker: claiming a job, the checks before and after
    encoding, the heartbeat, the ways a run can end and the repair of rows a
    crash left behind.  Encoders, browsers and the queue service are arguments:
    what an encoder yields is an [Outcome], and a run's end is described by the
    flags of the finalize block.  A block of reads followed by a commit is one
    step. *)

From S2P Require Import Prelude Clock Models Database Samples AssetReadiness Jobs PyText Variants Profiles.
Open Scope Z_scope.

(** ** Writes to one row *)

(** [UPDATE asset_variants ... WHERE id = vid]. *)
Definition on_variant (vid : uuid) (f : AssetVariant → AssetVariant) (lib : Lib) : Lib :=
  update_variants (λ v, bool_decide (v_id v = vid)) f lib.

(** [... AND status IN ('PENDING', 'PROCESSING')]. *)
Definition on_unfinished (vid : uuid) (f : AssetVariant → AssetVariant) (lib : Lib) : Lib :=
  update_variants (λ v, bool_decide (v_id v = vid) && is_inflight v) f lib.

Definition with_job_status (st : JobStatus) (error : string) (j : Job) : Job :=
  mkJob (j_id j) (j_type j) (j_target_id j) st (j_retry_count j) error (j_created_at j) (j_completed_at j)
        (j_heartbeat_at j) (j_cancel_requested j).
Definition with_heartbeat (now : Z) (j : Job) : Job :=
  mkJob (j_id j) (j_type j) (j_target_id j) (j_status j) (j_retry_count j) (j_error_message j) (j_created_at j)
        (j_completed_at j) (Some now) (j_cancel_requested j).

(** [UPDATE jobs SET status, error_message WHERE id = job_id] to a terminal status. *)
Definition close_job_row (job_id : uuid) (st : JobStatus) (error : string) (lib : Lib) : Lib :=
  match lb_jobs lib !! job_id with
  | None => lib
  | Some j => set_jobs (<[job_id := with_job_status st error j]> (lb_jobs lib)) lib
  end.

(** ** Failures *)

Definition _NO_RETRY_ERRORS : list string := ["Image conversion failed"; "Invalid data found"].

Definition _should_retry (error : string) (source : Asset) : bool :=
  bool_decide (a_asset_type source = SAVED_STREAM) && negb (existsb (λ pat, str_contains pat error) _NO_RETRY_ERRORS).

(** The write is lost when the row is gone. *)
Definition _mark_failed (vid : uuid) (source : Asset) (message : string) (lib : Lib) : Lib :=
  let error := String.substring 0 500 message in
  on_variant vid (λ v, with_status (if _should_retry error source then V_PENDING else V_FAILED) (with_error error v)) lib.

Inductive Mirrored := not_variant | skipped_newer_job | missing | skipped_status | updated.

(** [ORDER BY created_at DESC LIMIT 1]. *)
Definition latest_job_id (vid : uuid) (jobs : gmap uuid Job) : option uuid :=
  fst <$> head (sort_by (λ kv, - j_created_at kv.2) (filter (λ kv, transcodes vid kv.2 = true) (map_to_list jobs))).

Definition exhaustion_message (job : Job) : string :=
  "job exceeded retry limit (" +:+ Z_str (j_retry_count job) +:+ " attempts): " +:+
  String.substring 0 200 (str_or (Some (j_error_message job)) (Some "unknown failure") or_else "").

Definition mark_variant_failed_on_exhaustion (job_id : uuid) (job : Job) (lib : Lib) : Lib * Mirrored :=
  if negb (bool_decide (j_type job = VARIANT_TRANSCODE)) then (lib, not_variant)
  else if match latest_job_id (j_target_id job) (lb_jobs lib) with Some k => negb (bool_decide (k = job_id)) | None => false end
  then (lib, skipped_newer_job)
  else match find_variant (j_target_id job) lib with
       | None => (lib, missing)
       | Some v =>
           if negb (is_inflight v) then (lib, skipped_status)
           else (on_variant (v_id v) (λ v, with_status V_FAILED (with_error (String.substring 0 2000 (exhaustion_message job)) v)) lib,
                 updated)
       end.

(** ** Before encoding *)

(** [assets.deleted_at] of a row; no row counts as not deleted. *)
Definition _source_asset_is_deleted (aid : uuid) (lib : Lib) : bool :=
  match find_asset aid lib with Some a => negb (bool_decide (a_deleted_at a = None)) | None => false end.

(** [str] of an aware UTC datetime. *)
Definition utc_str (u : Z) : string :=
  let d := utc_datetime u in
  date_isoformat (dt_date d) +:+ " " +:+ strftime_HMS (dt_time d) +:+
  (if microsecond (dt_time d) =? 0 then "" else "." +:+ pad6 (microsecond (dt_time d))) +:+ "+00:00".

(** The pre-transcode check of a claimed job: the reason to cancel it. *)
Definition cancel_reason (job : Job) (lib : Lib) : option string :=
  if j_cancel_requested job then Some "cancel_requested on job"
  else match j_type job with
  | VARIANT_TRANSCODE =>
      v ← find_variant (j_target_id job) lib;
      a ← find_asset (v_source_asset_id v) lib;
      t ← a_deleted_at a; Some ("source asset soft-deleted at " +:+ utc_str t)
  | STREAM_CAPTURE | VOICE_SYNTHESIS =>
      a ← find_asset (j_target_id job) lib;
      t ← a_deleted_at a; Some ("asset soft-deleted at " +:+ utc_str t)
  | IMAGE_IMPORT | IMAGE_PROVISION => None
  end.

Definition cancel_run (job_id : uuid) (job : Job) (reason : string) (lib : Lib) : Lib :=
  let lib1 := close_job_row job_id J_CANCELLED (String.substring 0 2000 reason) lib in
  if bool_decide (j_type job = VARIANT_TRANSCODE) then
    on_unfinished (j_target_id job) (λ v, with_status V_CANCELLED (with_error (String.substring 0 2000 reason) v)) lib1
  else lib1.

(** What the worker does with a delivered message until encoding starts. *)
Inductive Preflight := MessageDropped | RunJob (job : Job).

(** When the mirroring of the poison branch raises, the message stays and the
    whole step is repeated; that outcome is the claim alone. *)
Definition preflight (now : Z) (job_id : uuid) (lib : Lib) : result exn (Lib * Preflight) :=
  match claim_job now job_id (lb_store lib) with
  | Err e => Err e
  | Ok (st, None) => Ok (set_store st lib, MessageDropped)
  | Ok (st, Some job) =>
      let lib1 := set_store st lib in
      match j_status job with
      | J_DONE => Ok (lib1, MessageDropped)
      | J_FAILED => Ok ((mark_variant_failed_on_exhaustion job_id job lib1).1, MessageDropped)
      | _ =>
          match cancel_reason job lib1 with
          | Some reason => Ok (cancel_run job_id job reason lib1, MessageDropped)
          | None => Ok (lib1, RunJob job)
          end
      end
  end.

(** ** The heartbeat *)

Inductive Beat := Evicted | CancelSeen | Alive.

(** The UPDATE matches the job while it is not terminal and returns its flag. *)
Definition heartbeat (now : Z) (job_id : uuid) (lib : Lib) : Lib * Beat :=
  match lb_jobs lib !! job_id with
  | None => (lib, Evicted)
  | Some j =>
      if is_terminal (j_status j) then (lib, Evicted)
      else (set_jobs (<[job_id := with_heartbeat now j]> (lb_jobs lib)) lib, if j_cancel_requested j then CancelSeen else Alive)
  end.

(** ** Encoding *)


Definition output_path (source : Asset) (profile : DeviceProfile) (v : AssetVariant) : string :=
  if bool_decide (a_asset_type source = IMAGE) && negb (bool_decide (p_purpose profile = "thumbnail"))
  then variant_path (rsplit_head "." (v_filename v) +:+ image_variant_ext (a_filename source))
  else variant_path (v_filename v).



(** What came out of the encoder: a file, an error, or nothing because the
    process was stopped on purpose. *)
Inductive Outcome := Encoded (size : Z) (checksum : string) | EncodeFailed (message : string) | Killed.

Definition _owner_job_lost (owner_job_id : option uuid) (lib : Lib) : bool :=
  match owner_job_id with
  | None => false
  | Some k => match lb_jobs lib !! k with None => true | Some j => is_terminal (j_status j) end
  end.

(** Composed slides and web pages are published by [_render_thumbnail_from_png],
    which does not ask for the owner. *)
Definition asks_owner (source : Asset) : bool := negb (bool_decide (a_asset_type source ∈ THUMBNAIL_ONLY_ASSET_TYPES)).

Definition publish (owner_job_id : option uuid) (vid : uuid) (source : Asset) (path : string) (size : Z) (checksum : string)
    (lib : Lib) : Lib :=
  if _source_asset_is_deleted (a_id source) lib || (asks_owner source && _owner_job_lost owner_job_id lib)
  then set_files (lb_files lib ∖ {[path]}) lib
  else on_variant vid (λ v, with_status V_READY (with_file (v_filename v) size checksum v))
         (set_files (lb_files lib ∪ {[path]}) lib).

Definition end_transcode (owner_job_id : option uuid) (vid : uuid) (source : Asset) (path : string) (outcome : Outcome)
    (lib : Lib) : Lib :=
  match outcome with
  | Encoded size checksum => publish owner_job_id vid source path size checksum lib
  | EncodeFailed message => _mark_failed vid source message lib
  | Killed => lib
  end.

(** What [transcode_variant_by_id] returns after the refresh. *)
Definition transcode_succeeded (vid : uuid) (lib : Lib) : bool :=
  match find_variant vid lib with Some v => is_ready v | None => false end.

(** ** The end of a run *)

Record RunEnd := mkEnd {
  re_sigterm : bool;
  re_replica_timeout : bool;
  re_job_evicted : bool;
  re_lease_lost : bool;
  re_cancel_observed : bool;
  re_terminal_failure : bool;
  re_success : bool;
  re_error : option string
}.

Definition TIMEOUT_MSG : string := "Transcode exceeded the 2 hour time limit.".

(** The new tables and whether the message is deleted; an index violation is
    raised and the message stays. *)
Definition finalize (now : Z) (job_id : uuid) (job : Job) (re : RunEnd) (lib : Lib) : result exn (Lib * bool) :=
  let transcode := bool_decide (j_type job = VARIANT_TRANSCODE) in
  if re_sigterm re && negb (re_replica_timeout re) then Ok (lib, true)
  else if re_sigterm re then
    let lib1 := close_job_row job_id J_FAILED TIMEOUT_MSG lib in
    Ok (if transcode then on_variant (j_target_id job) (λ v, with_status V_FAILED (with_error TIMEOUT_MSG v)) lib1 else lib1, true)
  else if re_job_evicted re then Ok (lib, true)
  else if re_lease_lost re then Ok (lib, false)
  else if re_cancel_observed re then
    let lib1 := close_job_row job_id J_CANCELLED "cancelled mid-transcode" lib in
    Ok (if transcode then on_unfinished (j_target_id job)
                            (λ v, with_status V_CANCELLED (with_error "cancelled mid-transcode" v)) lib1 else lib1, true)
  else if re_terminal_failure re then
    Ok (set_store (mark_failed now job_id (String.substring 0 2000
          (str_or (re_error re) (Some "terminal") or_else "")) (lb_store lib)) lib, true)
  else if re_success re then Ok (set_store (mark_done now job_id (lb_store lib)) lib, true)
  else match lb_jobs lib !! job_id with
       | None => Ok (lib, false)
       | Some j =>
           jobs ← put_job job_id (with_job_status J_PENDING
                    (String.substring 0 2000 (str_or (re_error re) (Some "unknown failure") or_else "")) j) (lb_jobs lib);
           Ok (set_jobs jobs lib, false)
       end.

(** ** LISTEN mode *)

Definition recover_interrupted (lib : Lib) : Lib * Z :=
  (update_variants (λ v, bool_decide (v_status v = V_PROCESSING)) (with_status V_PENDING) lib,
   Z.of_nat (length (filter (λ v, v_status v = V_PROCESSING) (lb_variants lib)))).


(** ** Specification: what a device plays is never lost *)



(** ** The partial index under every write *)









Section playback.
Context (aid pid : uuid).



(** Every ready file of the pair is matched by one at least as new. *)
Definition keeps (lib lib' : Lib) : Prop :=
  ∀ v, v ∈ lb_variants lib → ready_for aid pid v = true →
  ∃ v', v' ∈ lb_variants lib' ∧ ready_for aid pid v' = true ∧ v_created_at v ≤ v_created_at v'.

(** ** Lemmas *)


Lemma keeps_update p f lib :
  (∀ v, v ∈ lb_variants lib → p v = true → ready_for aid pid v = true →
        ready_for aid pid (f v) = true ∧ v_created_at (f v) = v_created_at v) →
  keeps lib (update_variants p f lib).
Proof.
  intros H v Hv Hr. exists (if p v then f v else v). split; [apply list_elem_of_fmap; by exists v|].
  destruct (p v) eqn:Hp; [|done]. destruct (H v Hv Hp Hr) as [H1 H2]. split; [done|lia].
Qed.

Lemma ready_status v : ready_for aid pid v = true → v_status v = V_READY.
Proof. intros (_ & _ & ? & _)%ready_for_spec. done. Qed.

(** Writes that ask for an unfinished row. *)
Lemma keeps_unready p f lib : (∀ v, v ∈ lb_variants lib → p v = true → v_status v ≠ V_READY) → keeps lib (update_variants p f lib).
Proof. intros H. apply keeps_update. intros v Hv Hp Hr%ready_status. by destruct (H v Hv Hp). Qed.

Lemma inflight_unready v : is_inflight v = true → v_status v ≠ V_READY.
Proof. unfold is_inflight. intros [?|?]%bool_decide_eq_true; congruence. Qed.

Lemma keeps_unfinished vid f lib : keeps lib (on_unfinished vid f lib).
Proof. apply keeps_unready. intros v _ [_ Hi]%andb_true_iff. by apply inflight_unready. Qed.









































End playback.


(** ** A run whose job was taken away *)




(** ** Concrete runs *)

Definition uploaded (a : Asset) (slides : list SlideshowSlide) : Lib :=
  let '(lib, ids) := _enqueue_transcoding_for_asset (numbered "v") 1 a (workshop [a] slides) in
  (enqueue_if_any (numbered2 "j") 1 ids lib).1.

(** The rows as variant id and status. *)
Definition rows_of (lib : Lib) : list (uuid * VariantStatus) := (λ v, (v_id v, v_status v)) <$> lb_variants lib.

(** The worker picks the message of [k] up. *)
Definition picked_up (k : uuid) (lib : Lib) : Lib := match preflight 3 k lib with Ok (lib', _) => lib' | Err _ => lib end.

(** A picture waits for its first file when an administrator changes the video
    bitrate.  Its job is flagged, no new row is made since the field does not
    concern images, and the worker cancels the only row; even asking for the
    profile again makes no row. *)
Example video_edit_strands_image :
  let edited := (update_profile (numbered "w") (numbered2 "k") 2 "p" [("video_bitrate", PStr "4M")] (uploaded (picture "i") [])).1 in
  let lib := picked_up "j0" edited in
  rows_of lib = [("v0", V_CANCELLED); ("v1", V_PENDING)] ∧
  (enqueue_for_new_profile (numbered "x") 4 "p" lib).2 = [].
Proof. vm_compute. done. Qed.

(** Disabling a profile cancels what is queued; enabling it again does not
    queue it anew, because the cancelled row still counts as present. *)
Example disable_enable_strands :
  let disabled := picked_up "j0" (disable_profile "p" (uploaded (video "a") [])).1 in
  let enabled := (enable_profile (numbered "x") (numbered2 "k") 4 "p" disabled).1 in
  rows_of enabled = [("v0", V_CANCELLED); ("v1", V_PENDING)] ∧
  (p_enabled <$> find_profile "p" enabled) = Some true.
Proof. vm_compute. done. Qed.

(** The encoded file of [v0] is published, then the platform's time limit is
    reported for the run: the branch does not look at the status. *)
Definition encoded_a : Lib := end_transcode (Some "j0") "v0" (video "a") "variants/v0.mp4" (Encoded 10 "5eed") (uploaded (video "a") []).
Example late_timeout_unreadies :
  let job := mkJob "j0" VARIANT_TRANSCODE "v0" J_PROCESSING 1 "" 1 None None false in
  (latest_ready "a" "p" (lb_variants encoded_a) ≠ None) ∧
  match finalize 9 "j0" job (mkEnd true true false false false false true None) encoded_a with
  | Ok (lib', _) => latest_ready "a" "p" (lb_variants lib') = None
  | Err _ => False
  end.
Proof. vm_compute. done. Qed.

(** A failure that a replaced run reports overwrites the file its successor
    published. *)
Example late_failure_unreadies :
  latest_ready "a" "p" (lb_variants encoded_a) ≠ None ∧
  latest_ready "a" "p" (lb_variants (end_transcode (Some "old") "v0" (video "a") "variants/v0.mp4" (EncodeFailed "boom") encoded_a)) = None.
Proof. vm_compute. done. Qed.

(** The thumbnail of a composed slide is published by a run that lost its job. *)
Example evicted_thumbnail_publishes :
  let lib := (recover_interrupted (uploaded (asset_of COMPOSED "c" ".html") [])).1 in
  let lost := close_job_row "j0" J_FAILED "no heartbeat" lib in
  (heartbeat 5 "j0" lost).2 = Evicted ∧
  rows_of (end_transcode (Some "j0") "v0" (asset_of COMPOSED "c" ".html") "variants/v0.jpg" (Encoded 10 "5eed") lost)
    = [("v0", V_READY)].
Proof. vm_compute. done. Qed.

(** A slideshow shows a composed slide; deleting the slide is accepted, its
    file goes away, and its row can never be removed: the foreign key of the
    slideshow restricts it in every pass. *)
Definition deck_with_composed : Lib :=
  let lib := workshop [asset_of COMPOSED "c" ".html"; deck] [slide_row (K_ASSET (Some "c")) 0 always] in lib.
Example composed_source_unreapable :
  match delete_asset 5 None "c" deck_with_composed with
  | Err _ => False
  | Ok lib =>
      let reaped := reaper_tick (λ _, true) (λ _, true) 9 lib in
      a_id <$> lb_assets reaped = ["c"; "deck"] ∧ bool_decide ("c.html" ∈ lb_files reaped) = false
  end.
Proof. vm_compute. done. Qed.

(** A hundred rows whose newest job is DONE are never repaired, and they fill
    the batch of every pass: a younger row that a cancelled job left behind is
    never looked at. *)
Definition stuck_row (vid : uuid) (created : Z) : AssetVariant :=
  mkVariant vid "a" "p" (vid +:+ ".mp4") 0 "" V_PROCESSING created None "".
Definition ended_job (st : JobStatus) (jid vid : uuid) : uuid * Job := (jid, mkJob jid VARIANT_TRANSCODE vid st 1 "" 1 None None false).
Definition crowd (n : nat) : Lib :=
  let lib := workshop [video "a"] [] in
  set_jobs (list_to_map (ended_job J_CANCELLED "last" "late" :: ((λ i, ended_job J_DONE (numbered "j" i) (numbered "v" i)) <$> seq 0 n)))
    (set_variants (((λ i, stuck_row (numbered "v" i) (Z.of_nat i)) <$> seq 0 n) ++ [stuck_row "late" 1000]) lib).
Example stranded_batch_starves :
  let '(lib', n) := reconcile_stranded_variants_once 100 (crowd 100) in
  n = 0 ∧ lb_variants lib' = lb_variants (crowd 100) ∧ (reconcile_stranded_variants_once 100 (crowd 99)).2 = 1.
Proof. vm_compute. done. Qed.

(** A captured stream is transcoded for the profiles that exist when it is
    captured; a profile created later never gets a file for it. *)
Example new_profile_skips_streams :
  let stream := asset_of SAVED_STREAM "s" ".mkv" in
  rows_of (uploaded stream []) = [("v0", V_PENDING); ("v1", V_PENDING)] ∧
  (enqueue_for_new_profile (numbered "x") 4 "p" (workshop [stream] [])).2 = [] ∧
  (enqueue_for_new_profile (numbered "x") 4 "p" (workshop [video "a"] [])).2 = ["x0"].
Proof. vm_compute. done. Qed.

(** ** Witnesses *)


