(* ===== verification/Imager.v ===== *)
(** * The imager (cms/routers/imager.py, worker/imager_handlers.py,
      shared/models/imager.py, cms/services/imager_settings.py)

    Base images imported from a catalog and images built from them for a fleet:
    the endpoints, the two handlers of the worker one commit or upload at a
    time, and the system of all of them with the two blob containers.  Jobs are
    those of [Lib], fleets those of [BootDb]. *)

From Stdlib Require Import Strings.Byte QArith.
From S2P Require Import Prelude Clock PyText Models Database Jobs LogBlobs LogFrames Presence JsonText RateLimit DeviceIdentity Bootstrap.
From S2P Require Import Budget Slideshow Variants Profiles Intake Worker ImageBuild.
Open Scope Z_scope.

(** ** Rows *)

Inductive BaseImageStatus := B_IMPORTING | B_READY | B_FAILED.
(** [EXPIRED] is written by nobody. *)
Inductive ProvisionedImageStatus := P_PROVISIONING | P_READY | P_FAILED | P_EXPIRED.
#[export] Instance BaseImageStatus_eq_dec : EqDecision BaseImageStatus.
Proof. solve_decision. Defined.
#[export] Instance ProvisionedImageStatus_eq_dec : EqDecision ProvisionedImageStatus.
Proof. solve_decision. Defined.

Record BaseImage := mkBase {
  bi_variant : string;
  bi_version : string;
  bi_sha256 : option string;
  bi_source_url : option string;
  bi_expected_sha256 : option string;
  bi_blob_path : option string;
  bi_size_bytes : option Z;
  bi_imported_at : option Z;
  bi_imported_by : option uuid;
  bi_status : BaseImageStatus;
  bi_error : option Fault;                   (* [error_message], without its wording; None is "" *)
  bi_created_at : Z
}.

Record ProvisionedImage := mkBuild {
  pv_base_image_id : option uuid;
  pv_base_variant : option string;
  pv_base_version : option string;
  pv_provisioning_job_id : option uuid;
  pv_output_sha256 : option string;
  pv_output_size : option Z;
  pv_blob_path : option string;
  pv_expires_at : option Z;
  pv_built_at : option Z;
  pv_built_by : option uuid;
  pv_fleet_id : option string;
  pv_fleet_env_payload : option bytes;
  pv_wifi : option (string * string);        (* [wifi_ssid], [wifi_psk] *)
  pv_output_name : string;
  pv_status : ProvisionedImageStatus;
  pv_error : option Fault;
  pv_created_at : Z
}.

(** The tables; [im_progress] holds [progress_stage] and [progress_pct] of jobs. *)
Record ImgDb := mkImgDb {
  im_bases : gmap uuid BaseImage;
  im_builds : gmap uuid ProvisionedImage;
  im_lib : Lib;
  im_progress : gmap uuid (string * option Z);
  im_fleets : BootDb;
  im_catalog_url : option string             (* the value of [imager.catalog_url] *)
}.
Definition set_bases (m : gmap uuid BaseImage) (db : ImgDb) : ImgDb :=
  mkImgDb m (im_builds db) (im_lib db) (im_progress db) (im_fleets db) (im_catalog_url db).
Definition set_builds (m : gmap uuid ProvisionedImage) (db : ImgDb) : ImgDb :=
  mkImgDb (im_bases db) m (im_lib db) (im_progress db) (im_fleets db) (im_catalog_url db).
Definition set_lib (lib : Lib) (db : ImgDb) : ImgDb :=
  mkImgDb (im_bases db) (im_builds db) lib (im_progress db) (im_fleets db) (im_catalog_url db).
Definition set_progress (m : gmap uuid (string * option Z)) (db : ImgDb) : ImgDb :=
  mkImgDb (im_bases db) (im_builds db) (im_lib db) m (im_fleets db) (im_catalog_url db).
Definition set_fleets (b : BootDb) (db : ImgDb) : ImgDb :=
  mkImgDb (im_bases db) (im_builds db) (im_lib db) (im_progress db) b (im_catalog_url db).
Definition set_url (u : option string) (db : ImgDb) : ImgDb :=
  mkImgDb (im_bases db) (im_builds db) (im_lib db) (im_progress db) (im_fleets db) u.
Definition im_jobs (db : ImgDb) : gmap uuid Job := lb_jobs (im_lib db).

(** Writes of a row by its id. *)
Definition on_base (id : uuid) (f : BaseImage → BaseImage) (db : ImgDb) : ImgDb := set_bases (alter f id (im_bases db)) db.
Definition on_build (id : uuid) (f : ProvisionedImage → ProvisionedImage) (db : ImgDb) : ImgDb := set_builds (alter f id (im_builds db)) db.

(** ** Names *)

(** [^[A-Za-z0-9._-]{1,64}$] with [match]: a final line break goes through. *)
Definition name_ok (s : string) : bool :=
  let s := drop_final_newline s in (0 <? String.length s)%nat && (String.length s <=? 64)%nat && str_all plain_char s.
(** [Field(min_length, max_length)]. *)
Definition length_ok (low high : nat) (s : string) : bool := (low <=? String.length s)%nat && (String.length s <=? high)%nat.

(** ** Settings *)

Record ImgSettings := mkImgSettings {
  sg_allowed_hosts : string;
  sg_base_url : option string;
  sg_device_transport : string;
  sg_retention_hours : Z;
  sg_min_free_bytes : Z
}.

Definition get_catalog_url (db : ImgDb) : option string :=
  v ← im_catalog_url db; if bool_decide (str_strip v = "") then None else Some (str_strip v).
Definition set_catalog_url (url : string) (db : ImgDb) : ImgDb := set_url (Some (str_strip url)) db.

(** ** Progress of jobs *)

Definition newest_of (t : JobType) (target : uuid) (active : bool) (db : ImgDb) : option uuid :=
  fst <$> head (sort_by (λ kv, - j_created_at kv.2)
    (filter (λ kv, j_type kv.2 = t ∧ j_target_id kv.2 = target ∧ (active = true → is_active (j_status kv.2) = true)) (map_to_list (im_jobs db)))).

(** The newest job of the target gets the stage; a percentage only when there is one. *)
Definition _set_progress (target : uuid) (t : JobType) (stage : string) (pct : option Z) (db : ImgDb) : ImgDb :=
  match newest_of t target false db with
  | None => db
  | Some k =>
      let old := (im_progress db !! k) or_else ("", None) in
      let pct' := match pct with Some p => Some (Z.max 0 (Z.min 100 p)) | None => old.2 end in
      set_progress (<[k := (String.substring 0 64 stage, pct')]> (im_progress db)) db
  end.

Definition _latest_in_flight_progress (t : JobType) (target_ids : list uuid) (db : ImgDb) : list (uuid * (string * option Z)) :=
  omap (λ target, k ← newest_of t target true db; Some (target, (im_progress db !! k) or_else ("", None))) target_ids.

(** The lists, newest first; a row in work shows the progress of its job. *)
Definition shown_progress (in_work : bool) (id : uuid) (t : JobType) (db : ImgDb) : string * option Z :=
  if in_work then (aget id (_latest_in_flight_progress t [id] db)) or_else ("", None) else ("", None).
Definition list_base_images (db : ImgDb) : list (uuid * BaseImage * (string * option Z)) :=
  (λ r, (r, shown_progress (bool_decide (bi_status r.2 = B_IMPORTING)) r.1 IMAGE_IMPORT db)) <$>
    sort_by (λ r, - bi_created_at r.2) (map_to_list (im_bases db)).

(** One line of the list of built images. *)
Record BuiltOut := mkBuiltOut {
  bo_id : uuid; bo_output_name : string; bo_fleet_id : option string; bo_base_image_id : option uuid;
  bo_base_variant : option string; bo_base_version : option string; bo_status : ProvisionedImageStatus; bo_blob_path : option string;
  bo_output_size : option Z; bo_download_job_id : option uuid; bo_wifi : option (string * string); bo_progress : string * option Z
}.
(** The columns of the WiFi are not passed on. *)
Definition built_out (db : ImgDb) (r : uuid * ProvisionedImage) : BuiltOut :=
  mkBuiltOut r.1 (pv_output_name r.2) (pv_fleet_id r.2) (pv_base_image_id r.2) (pv_base_variant r.2) (pv_base_version r.2)
    (pv_status r.2) (pv_blob_path r.2) (pv_output_size r.2) (pv_provisioning_job_id r.2) None
    (shown_progress (bool_decide (pv_status r.2 = P_PROVISIONING)) r.1 IMAGE_PROVISION db).
Definition list_provisioned_images (db : ImgDb) : list BuiltOut :=
  built_out db <$> take 200 (sort_by (λ r, - pv_created_at r.2) (map_to_list (im_builds db))).

Section api.
(** Bracketed hosts; and what the driver makes of a JSON value for a BIGINT column. *)
Context (bracket_ok : string → bool) (bigint : Json → result exn Z) (sg : ImgSettings).

Definition allowlist : gset string := parse_allowed_hosts (Some (sg_allowed_hosts sg)).

Definition update_imager_settings (catalog_url : string) (db : ImgDb) : ImgDb * result exn string :=
  if negb (length_ok 1 2048 catalog_url) then (db, Err (HTTPException 422))
  else match validate_catalog_url bracket_ok catalog_url (sg_allowed_hosts sg) with
       | Err _ => (db, Err (HTTPException 500))
       | Ok None => (db, Err (HTTPException 422))
       | Ok (Some cleaned) => (set_catalog_url cleaned db, Ok (str_strip cleaned))
       end.

(** ** Fleets *)

Definition create_fleet_endpoint (id : uuid) (fleet_id : string) (fresh : bytes) (db : ImgDb) : ImgDb * result exn string :=
  if negb (length_ok 1 64 fleet_id) || negb (name_ok fleet_id) then (db, Err (HTTPException 422))
  else match create_fleet id fleet_id None fresh (im_fleets db) with
       | Err IntegrityError => (db, Err (HTTPException 409))
       | Err _ => (db, Err (HTTPException 500))
       | Ok (fl, _) => (set_fleets fl db, Ok fleet_id)
       end.
Definition delete_fleet_endpoint (now : Z) (fleet_id : string) (db : ImgDb) : ImgDb * result exn unit :=
  if negb (name_ok fleet_id) then (db, Err (HTTPException 422))
  else (set_fleets (delete_fleet now fleet_id (im_fleets db)).1 db, Ok ()).

(** ** Importing a base image *)

(** The catalog entry of an import: what the API stamps on the row. *)
Definition import_resolve (http : string → Response) (variant version : string) (db : ImgDb) : result exn (list (string * Json)) :=
  if negb (length_ok 1 64 variant && length_ok 1 64 version) then Err (HTTPException 422)
  else if negb (name_ok variant) then Err (HTTPException 422)
  else if negb (name_ok version) then Err (HTTPException 422)
  else match get_catalog_url db with
  | None => Err (HTTPException 503)
  | Some catalog_url =>
      match (fetch_catalog bracket_ok http allowlist catalog_url).2 with
      | Err (CatalogError _) | Err HTTPError => Err (HTTPException 502)
      | Err _ => Err (HTTPException 500)
      | Ok doc => _resolve_catalog_entry doc variant version
      end
  end.

(** Text and BIGINT columns refuse values of other types; texts hold no NUL. *)
Definition text_value (v : Json) : result exn string :=
  match v with JStr s => if has_char zero s then Err (HTTPException 500) else Ok s | _ => Err (HTTPException 500) end.
Definition size_value (v : Json) : result exn (option Z) :=
  match v with JNull => Ok None | _ => match bigint v with Ok n => Ok (Some n) | Err _ => Err (HTTPException 500) end end.

Definition same_image (variant version : string) (r : uuid * BaseImage) : bool :=
  bool_decide (bi_variant r.2 = variant) && bool_decide (bi_version r.2 = version).
Definition find_image (variant version : string) (rows : list (uuid * BaseImage)) : option (uuid * BaseImage) :=
  find (same_image variant version) rows.

Definition importing_row (now : Z) (user : uuid) (variant version url sha : string) (size : option Z) : BaseImage :=
  mkBase variant version None (Some url) (Some sha) None size None (Some user) B_IMPORTING None now.
(** The restart of a failed row. *)
Definition restarted_row (user : uuid) (url sha : string) (size : option Z) (b : BaseImage) : BaseImage :=
  mkBase (bi_variant b) (bi_version b) None (Some url) (Some sha) None size None (Some user) B_IMPORTING None (bi_created_at b).

Definition enqueue_image_job (now : Z) (job outbox : uuid) (t : JobType) (target : uuid) (db : ImgDb) : result exn ImgDb :=
  match enqueue_job job outbox now t target (lb_store (im_lib db)) with
  | Err _ => Err (HTTPException 500)
  | Ok (st, _) => Ok (set_lib (set_store st (im_lib db)) db)
  end.

(** The rest of [import_base_image], with the entry: [seen] are the rows the
    SELECT saw, for an insert can lose a race against a row it did not see. *)
Definition import_base_image (now : Z) (user id job outbox : uuid) (seen : uuid → bool) (variant version : string)
    (entry : list (string * Json)) (db : ImgDb) : ImgDb * result exn uuid :=
  let rows := map_to_list (im_bases db) in
  let stamped : result exn (string * string * option Z) :=
    url ← text_value (jget "url" entry); sha ← text_value (jget "sha256" entry); size ← size_value (jget "size_bytes" entry); Ok (url, sha, size) in
  let enqueue target db' := match enqueue_image_job now job outbox IMAGE_IMPORT target db' with
                            | Ok db2 => (db2, Ok target) | Err e => (db, Err e) end in
  match find_image variant version (filter (λ r, seen r.1 = true) rows) with
  | Some (k, b) =>
      if negb (bool_decide (bi_status b = B_FAILED)) then (db, Ok k)
      else match stamped with
           | Err e => (db, Err e)
           | Ok (url, sha, size) => enqueue k (on_base k (restarted_row user url sha size) db)
           end
  | None =>
      match stamped with
      | Err e => (db, Err e)
      | Ok (url, sha, size) =>
          match find_image variant version rows with
          | Some (k, _) => (db, Ok k)
          | None =>
              if bool_decide (is_Some (im_bases db !! id)) then (db, Err (HTTPException 500))
              else enqueue id (set_bases (<[id := importing_row now user variant version url sha size]> (im_bases db)) db)
          end
      end
  end.

(** The row goes, the builds made from it keep their snapshot; the path of the
    blob is removed afterwards. *)
Definition forget_base (id : uuid) (p : ProvisionedImage) : ProvisionedImage :=
  mkBuild (clear_ref id (pv_base_image_id p)) (pv_base_variant p) (pv_base_version p) (pv_provisioning_job_id p) (pv_output_sha256 p)
    (pv_output_size p) (pv_blob_path p) (pv_expires_at p) (pv_built_at p) (pv_built_by p) (pv_fleet_id p) (pv_fleet_env_payload p)
    (pv_wifi p) (pv_output_name p) (pv_status p) (pv_error p) (pv_created_at p).
Definition delete_base_image (id : uuid) (db : ImgDb) : result exn (ImgDb * option string) :=
  match im_bases db !! id with
  | None => Err (HTTPException 404)
  | Some b => Ok (set_bases (delete id (im_bases db)) (set_builds (forget_base id <$> im_builds db) db), bi_blob_path b)
  end.

(** ** Building an image *)

Record BuildBody := mkBuildBody {
  bb_base_image_id : uuid; bb_fleet_id : string; bb_output_name : string; bb_wifi_ssid : option string; bb_wifi_psk : option string
}.
Definition opt_length_ok (low high : nat) (s : option string) : bool := match s with Some s => length_ok low high s | None => true end.
Definition body_ok (b : BuildBody) : bool :=
  length_ok 1 64 (bb_fleet_id b) && length_ok 1 255 (bb_output_name b) &&
  opt_length_ok 1 32 (bb_wifi_ssid b) && opt_length_ok 8 64 (bb_wifi_psk b) &&
  Bool.eqb (bool_decide (bb_wifi_ssid b = None)) (bool_decide (bb_wifi_psk b = None)).
Definition body_wifi (b : BuildBody) : option (string * string) :=
  match bb_wifi_ssid b, bb_wifi_psk b with Some s, Some p => Some (s, p) | _, _ => None end.

(** The checks shared with the credentials of soft players: the secret of the
    fleet and the address devices connect to. *)
Definition fleet_for_build (fleet_id : string) (db : ImgDb) : result exn (bytes * string) :=
  match get_fleet_secret fleet_id (im_fleets db) with
  | Ok None => Err (HTTPException 404)
  | Err _ => Err (HTTPException 503)
  | Ok (Some secret) =>
      if negb (bool_decide (sg_device_transport sg ∈ ["local"; "wps"])) then Err (HTTPException 503)
      else
        let cms_base := strip_right is_slash (sg_base_url sg or_else "") in
        if bool_decide (cms_base = "") then Err (HTTPException 503)
        else match _derive_device_ws_url bracket_ok cms_base with Err _ => Err (HTTPException 503) | Ok cms_url => Ok (secret, cms_url) end
  end.

Definition build_row (now : Z) (user : uuid) (body : BuildBody) (b : BaseImage) (payload : bytes) : ProvisionedImage :=
  mkBuild (Some (bb_base_image_id body)) (Some (bi_variant b)) (Some (bi_version b)) None None None None None None (Some user)
    (Some (bb_fleet_id body)) (Some payload) (body_wifi body) (bb_output_name body) P_PROVISIONING None now.

(** The first transaction: the row and its job. *)
Definition build_provisioned_image (now : Z) (user id job outbox : uuid) (body : BuildBody) (db : ImgDb) : ImgDb * result exn uuid :=
  if negb (body_ok body) then (db, Err (HTTPException 422))
  else if negb (is_valid_output_name (bb_output_name body)) then (db, Err (HTTPException 422))
  else if negb (name_ok (bb_fleet_id body)) then (db, Err (HTTPException 422))
  else match fleet_for_build (bb_fleet_id body) db with
  | Err e => (db, Err e)
  | Ok (secret, cms_url) =>
      match im_bases db !! bb_base_image_id body with
      | None => (db, Err (HTTPException 404))
      | Some b =>
          if negb (bool_decide (bi_status b = B_READY)) then (db, Err (HTTPException 409))
          else if bool_decide (is_Some (im_builds db !! id)) then (db, Err (HTTPException 500))
          else
            let payload := _fleet_env_payload cms_url (bb_fleet_id body) secret (sg_device_transport sg) (body_wifi body) in
            match enqueue_image_job now job outbox IMAGE_PROVISION id
                    (set_builds (<[id := build_row now user body b payload]> (im_builds db)) db) with
            | Err e => (db, Err e)
            | Ok db' => (db', Ok id)
            end
      end
  end.

(** The second one: the job on the row, which may be gone. *)
Definition with_job (job : uuid) (p : ProvisionedImage) : ProvisionedImage :=
  mkBuild (pv_base_image_id p) (pv_base_variant p) (pv_base_version p) (Some job) (pv_output_sha256 p)
    (pv_output_size p) (pv_blob_path p) (pv_expires_at p) (pv_built_at p) (pv_built_by p) (pv_fleet_id p) (pv_fleet_env_payload p)
    (pv_wifi p) (pv_output_name p) (pv_status p) (pv_error p) (pv_created_at p).
Definition note_build_job (id job : uuid) (db : ImgDb) : ImgDb * result exn unit :=
  if bool_decide (is_Some (im_builds db !! id)) then (on_build id (with_job job) db, Ok ()) else (db, Err StaleDataError).

(** The env file of a soft player. *)
Definition build_softplayer_credentials (fleet_id : string) (db : ImgDb) : result exn bytes :=
  if negb (length_ok 1 64 fleet_id) || negb (name_ok fleet_id) then Err (HTTPException 422)
  else '(secret, cms_url) ← fleet_for_build fleet_id db; Ok (_fleet_env_payload cms_url fleet_id secret (sg_device_transport sg) None).

Definition delete_provisioned_image (id : uuid) (db : ImgDb) : result exn (ImgDb * option string) :=
  match im_builds db !! id with
  | None => Err (HTTPException 404)
  | Some p => Ok (set_builds (delete id (im_builds db)) db, pv_blob_path p)
  end.

(** ** Downloads *)

(** A signed URL for a path of the container of built images. *)
Context (generate_blob_sas_url : string → string).

(** [has_blob] says which built images the storage holds. *)
Definition _resolve_provisioned_sas (has_blob : string → bool) (job_id : uuid) (db : ImgDb) : result exn (uuid * ProvisionedImage * string) :=
  match im_jobs db !! job_id with
  | None => Err (HTTPException 404)
  | Some job =>
      if negb (bool_decide (j_type job = IMAGE_PROVISION)) then Err (HTTPException 404)
      else if negb (bool_decide (j_status job = J_DONE)) then Err (HTTPException 409)
      else match im_builds db !! j_target_id job with
           | None => Err (HTTPException 404)
           | Some p =>
               match pv_blob_path p with
               | None | Some "" => Err (HTTPException 404)
               | Some path =>
                   if negb (bool_decide (pv_status p = P_READY)) then Err (HTTPException 404)
                   else if negb (has_blob path) then Err (HTTPException 404)
                   else Ok (j_target_id job, p, generate_blob_sas_url path)
               end
           end
  end.

(** [get_job_status]: the job and, for a finished build, its name and URL. *)
Definition get_job_status (job_id : uuid) (db : ImgDb) : result exn (Job * (string * option Z) * option (string * option Z * option string)) :=
  match im_jobs db !! job_id with
  | None => Err (HTTPException 404)
  | Some job =>
      if negb (bool_decide (j_type job ∈ [IMAGE_IMPORT; IMAGE_PROVISION])) then Err (HTTPException 404)
      else
        let progress := (im_progress db !! job_id) or_else ("", None) in
        if bool_decide (j_type job = IMAGE_PROVISION) && bool_decide (j_status job = J_DONE) then
          Ok (job, progress,
              p ← im_builds db !! j_target_id job;
              Some (pv_output_name p, pv_expires_at p,
                    match pv_blob_path p with
                    | None | Some "" => None
                    | Some path => if bool_decide (pv_status p = P_READY) then Some (generate_blob_sas_url path) else None
                    end))
        else Ok (job, progress, None)
  end.
End api.

(** ** The worker *)

(** How a handler ends: it returns, it raises [TerminalImagerError] after the
    row was marked, or it raises something else. *)
Inductive HandlerEnd := Returned (ok : bool) | RaisedTerminal (f : Fault) | RaisedOther.

(** Where a run is: between two of its transactions and uploads. *)
Inductive Stage :=
  | Begun
  | Fetched (variant version sha : string) (data : bytes)       (* a base image, checked, not yet uploaded *)
  | Stored (variant version sha : string) (size : Z)
  | Built (name : string) (out : bytes)                          (* a finished image, not yet uploaded *)
  | Sent (name : string) (sha : string) (size : Z)
  | Failing (f : Fault)                                         (* terminal, the row still to be marked *)
  | Over (e : HandlerEnd).

(** An exception of a handler: a terminal one is caught to mark the row. *)
Definition raised (e : img_exn) : Stage := match e with TerminalImagerError f => Failing f | _ => Over RaisedOther end.

Definition MiB : Z := 1024 * 1024.
(** The space an import asks for. *)
Definition import_needed (min_free : Z) (size : option Z) : Z :=
  match size with Some n => if 0 <? n then Z.max (n * 2 + 256 * MiB) (512 * MiB) else min_free | None => min_free end.
(** The free space, measured again when the sweep removed something. *)
Definition space_ok (needed free : Z) (swept : option Z) : bool :=
  (needed <=? free) || match swept with Some free' => needed <=? free' | None => false end.

Definition base_blob_path (variant version : string) : string := variant +:+ "/" +:+ version +:+ "/base.img.xz".
(** [_BASE_BLOB_PATH_RE.match]. *)
Definition segment_ok (s : string) : bool := negb (bool_decide (s = "")) && str_all plain_char s.
Definition base_path_ok (path : string) : bool :=
  match split_on "/"%char (drop_final_newline path) with
  | [a; b; c] => segment_ok a && segment_ok b && bool_decide (c = "base.img.xz")
  | _ => false
  end.
Definition build_blob_path (id : uuid) (name : string) : string := id +:+ "/" +:+ name.

Section worker.
Context (bracket_ok : string → bool) (sha256_hex : bytes → string) (sg : ImgSettings).
Context (xz_d : bytes → option bytes) (parted : bytes → option string) (mcopy : bytes → Z → bytes → option bytes) (xz_z : bytes → option bytes).

(** *** Importing *)

(** Where to download from and what to expect: the stamped coordinates, or the
    catalog's when the row has none. *)
Definition import_source (http : string → Response) (variant version : string) (source_url expected : option string) (catalog_url : option string)
    : result img_exn (Json * Json * Json) :=
  match truthy source_url, truthy expected with
  | Some url, Some sha => Ok (JStr url, JStr sha, JNull)
  | _, _ =>
      match catalog_url with
      | None => Err (TerminalImagerError F_no_catalog_url)
      | Some u =>
          catalog ← in_worker (fetch_catalog bracket_ok http (allowlist sg) u).2;
          entry ← resolve_for_worker catalog variant version;
          Ok (jget "url" entry, jget "sha256" entry, jget "size_bytes" entry)
      end
  end.

Definition import_download (http : string → Response) (url sha size : Json) : result img_exn (string * bytes) :=
  match sha, url with
  | JStr sha, JStr url => (_download_with_sha bracket_ok sha256_hex http (allowlist sg) url sha size).2
  | JStr sha, _ => if is_sha256_text sha then Err OtherError else Err (TerminalImagerError (F_sha_text sha))
  | _, _ => Err OtherError
  end.

(** From the first read to the upload. *)
Definition import_fetch (http : string → Response) (free : Z) (swept : option Z) (id : uuid) (db : ImgDb) : Stage :=
  match im_bases db !! id with
  | None => Over (Returned false)
  | Some b =>
      if bool_decide (bi_status b = B_READY) then Over (Returned true)
      else if negb (space_ok (import_needed (sg_min_free_bytes sg) (bi_size_bytes b)) free swept) then Over (Returned false)
      else
        match ('(url, sha, size) ← import_source http (bi_variant b) (bi_version b) (bi_source_url b) (bi_expected_sha256 b) (get_catalog_url db);
               import_download http url sha size) with
        | Err e => raised e
        | Ok (actual_sha, data) =>
            let path := base_blob_path (bi_variant b) (bi_version b) in
            if base_path_ok path then Fetched (bi_variant b) (bi_version b) actual_sha data else Failing (F_blob_path path)
        end
  end.

Definition ready_base (now : Z) (sha : string) (size : Z) (path : string) (b : BaseImage) : BaseImage :=
  mkBase (bi_variant b) (bi_version b) (Some (str_lower sha)) (bi_source_url b) (bi_expected_sha256 b) (Some path) (Some size) (Some now)
    (bi_imported_by b) B_READY None (bi_created_at b).
(** The last transaction of an import. *)
Definition import_publish (now : Z) (id : uuid) (variant version sha : string) (size : Z) (db : ImgDb) : ImgDb * HandlerEnd :=
  match im_bases db !! id with
  | None => (db, Returned false)
  | Some _ => (on_base id (ready_base now sha size (base_blob_path variant version)) db, Returned true)
  end.

Definition failed_base (f : Fault) (b : BaseImage) : BaseImage :=
  mkBase (bi_variant b) (bi_version b) (bi_sha256 b) (bi_source_url b) (bi_expected_sha256 b) (bi_blob_path b) (bi_size_bytes b) (bi_imported_at b)
    (bi_imported_by b) B_FAILED (Some f) (bi_created_at b).
Definition _set_base_image_terminal (id : uuid) (f : Fault) (db : ImgDb) : ImgDb := on_base id (failed_base f) db.

(** *** Building *)

(** The checks of the base image and of the payload, then the build; [blobs] is
    the container of base images. *)
Definition provision_build (blobs : gmap string bytes) (free : Z) (swept : option Z) (id : uuid) (db : ImgDb) : Stage :=
  match im_builds db !! id with
  | None => Over (Returned false)
  | Some p =>
      if bool_decide (pv_status p = P_READY) then Over (Returned true)
      else match (k ← pv_base_image_id p; im_bases db !! k) with
      | None => Failing (F_base_missing (pv_base_image_id p))
      | Some b =>
          match bi_status b with
          | B_IMPORTING => Over (Returned false)
          | B_FAILED => Failing F_base_failed
          | B_READY =>
              match truthy (bi_blob_path b) with
              | None => Failing (F_base_path (bi_blob_path b))
              | Some path =>
                  if negb (base_path_ok path) then Failing (F_base_path (Some path))
                  else match truthy (bi_sha256 b) with
                  | None => Failing (F_base_sha (bi_sha256 b))
                  | Some sha =>
                      if negb (is_sha256_text sha) then Failing (F_base_sha (Some sha))
                      else match pv_fleet_env_payload p with
                      | None => Failing F_no_payload
                      | Some payload =>
                          match utf8_decode payload with
                          | None => Failing F_payload_text
                          | Some text =>
                              if negb (space_ok (sg_min_free_bytes sg) free swept) then Over (Returned false)
                              else match blobs !! path with
                              | None => Over RaisedOther
                              | Some data =>
                                  if negb (bool_decide (str_lower (sha256_hex data) = str_lower sha))
                                  then Failing (F_drifted (str_lower sha) (str_lower (sha256_hex data)))
                                  else match build_provisioned xz_d parted mcopy xz_z data text (pv_output_name p) with
                                       | Err (ImagerError why) => Failing (F_pipeline why)
                                       | Err UncaughtError => Over RaisedOther
                                       | Ok out => Built (pv_output_name p) out
                                       end
                              end
                          end
                      end
                  end
              end
          end
      end
  end.

Definition HOUR_US : Z := 3600 * 1000000.
Definition ready_build (now : Z) (sha : string) (size : Z) (path : string) (p : ProvisionedImage) : ProvisionedImage :=
  mkBuild (pv_base_image_id p) (pv_base_variant p) (pv_base_version p) (pv_provisioning_job_id p) (Some (str_lower sha))
    (Some size) (Some path) (Some (now + sg_retention_hours sg * HOUR_US)) (Some now) (pv_built_by p) (pv_fleet_id p) None
    (pv_wifi p) (pv_output_name p) P_READY None (pv_created_at p).
Definition provision_publish (now : Z) (id : uuid) (name sha : string) (size : Z) (db : ImgDb) : ImgDb * HandlerEnd :=
  match im_builds db !! id with
  | None => (db, Returned false)
  | Some _ => (on_build id (ready_build now sha size (build_blob_path id name)) db, Returned true)
  end.

Definition failed_build (f : Fault) (p : ProvisionedImage) : ProvisionedImage :=
  mkBuild (pv_base_image_id p) (pv_base_variant p) (pv_base_version p) (pv_provisioning_job_id p) (pv_output_sha256 p)
    (pv_output_size p) (pv_blob_path p) (pv_expires_at p) (pv_built_at p) (pv_built_by p) (pv_fleet_id p) None
    (pv_wifi p) (pv_output_name p) P_FAILED (Some f) (pv_created_at p).
Definition _set_provisioned_terminal (id : uuid) (f : Fault) (db : ImgDb) : ImgDb := on_build id (failed_build f) db.
End worker.

(** *** Jobs that ran out of retries *)

Inductive MirrorResult := mr_updated | mr_missing | mr_newer_job | mr_status | mr_not_imager.

Definition mark_target_failed_on_exhaustion (job_id : uuid) (job : Job) (db : ImgDb) : ImgDb * MirrorResult :=
  let f := F_retries (exhaustion_message job) in
  if negb (bool_decide (j_type job ∈ [IMAGE_IMPORT; IMAGE_PROVISION])) then (db, mr_not_imager)
  else if match newest_of (j_type job) (j_target_id job) false db with Some k => negb (bool_decide (k = job_id)) | None => false end
  then (db, mr_newer_job)
  else if bool_decide (j_type job = IMAGE_IMPORT) then
    match im_bases db !! j_target_id job with
    | None => (db, mr_missing)
    | Some b => if negb (bool_decide (bi_status b = B_IMPORTING)) then (db, mr_status)
                else (on_base (j_target_id job) (failed_base f) db, mr_updated)
    end
  else
    match im_builds db !! j_target_id job with
    | None => (db, mr_missing)
    | Some p => if negb (bool_decide (pv_status p = P_PROVISIONING)) then (db, mr_status)
                else (on_build (j_target_id job) (failed_build f) db, mr_updated)
    end.

(** The message of a job at the worker: the claim and, for a job that has no
    retries left, the mirror on its target. *)
Definition imager_preflight (now : Z) (job_id : uuid) (db : ImgDb) : result exn (ImgDb * Preflight) :=
  '(lib, r) ← preflight now job_id (im_lib db);
  let db1 := set_lib lib db in
  match r, lb_jobs lib !! job_id with
  | MessageDropped, Some job => if bool_decide (j_status job = J_FAILED) then Ok ((mark_target_failed_on_exhaustion job_id job db1).1, r) else Ok (db1, r)
  | _, _ => Ok (db1, r)
  end.

(** What [finalize] is told about an end that nothing interrupted. *)
Definition run_end (error_text : Fault → string) (other : string) (e : HandlerEnd) : RunEnd :=
  match e with
  | Returned ok => mkEnd false false false false false false ok None
  | RaisedTerminal f => mkEnd false false false false false true false (Some ("TerminalImagerError: " +:+ error_text f))
  | RaisedOther => mkEnd false false false false false false false (Some other)
  end.

(** *** A handler from start to end *)

Section runs.
Context (bracket_ok : string → bool) (sha256_hex : bytes → string) (sg : ImgSettings).
Context (xz_d : bytes → option bytes) (parted : bytes → option string) (mcopy : bytes → Z → bytes → option bytes) (xz_z : bytes → option bytes).

Definition import_base_image_by_id (http : string → Response) (free : Z) (swept : option Z) (now : Z) (id : uuid) (db : ImgDb) (cache : gmap string bytes)
    : ImgDb * gmap string bytes * HandlerEnd :=
  match import_fetch bracket_ok sha256_hex sg http free swept id db with
  | Fetched variant version sha data =>
      let r := import_publish now id variant version sha (Z.of_nat (length data)) db in
      (r.1, <[base_blob_path variant version := data]> cache, r.2)
  | Failing f => (_set_base_image_terminal id f db, cache, RaisedTerminal f)
  | Over e => (db, cache, e)
  | _ => (db, cache, RaisedOther)
  end.

Definition provision_image_by_id (free : Z) (swept : option Z) (now : Z) (id : uuid) (db : ImgDb) (cache output : gmap string bytes)
    : ImgDb * gmap string bytes * HandlerEnd :=
  match provision_build sha256_hex sg xz_d parted mcopy xz_z cache free swept id db with
  | Built name out =>
      let r := provision_publish sg now id name (sha256_hex out) (Z.of_nat (length out)) db in
      (r.1, <[build_blob_path id name := out]> output, r.2)
  | Failing f => (_set_provisioned_terminal id f db, output, RaisedTerminal f)
  | Over e => (db, output, e)
  | _ => (db, output, RaisedOther)
  end.
End runs.

(** ** The system *)

Record Run := mkRun { rn_job : uuid; rn_type : JobType; rn_target : uuid; rn_stage : Stage }.

(** The tables, the two containers, the handlers that are running and the blobs
    that deletions still have to remove (of which container). *)
Record World := mkWorld {
  w_db : ImgDb;
  w_cache : gmap string bytes;
  w_output : gmap string bytes;
  w_runs : list Run;
  w_trash : list (bool * string)
}.
Definition with_db (db : ImgDb) (w : World) : World := mkWorld db (w_cache w) (w_output w) (w_runs w) (w_trash w).
Definition with_runs (l : list Run) (w : World) : World := mkWorld (w_db w) (w_cache w) (w_output w) l (w_trash w).
Definition with_trash (l : list (bool * string)) (w : World) : World := mkWorld (w_db w) (w_cache w) (w_output w) (w_runs w) l.
Definition at_stage (s : Stage) (r : Run) : Run := mkRun (rn_job r) (rn_type r) (rn_target r) s.
Definition trash_of (cache : bool) (path : option string) : list (bool * string) :=
  match truthy path with Some p => [(cache, p)] | None => [] end.
(** The removal of one blob. *)
Definition remove_blob (x : bool * string) (w : World) : World :=
  if x.1 then mkWorld (w_db w) (delete x.2 (w_cache w)) (w_output w) (w_runs w) (w_trash w)
  else mkWorld (w_db w) (w_cache w) (delete x.2 (w_output w)) (w_runs w) (w_trash w).

Section world.
Context (bracket_ok : string → bool) (bigint : Json → result exn Z) (sha256_hex : bytes → string) (sg : ImgSettings).
Context (xz_d : bytes → option bytes) (parted : bytes → option string) (mcopy : bytes → Z → bytes → option bytes) (xz_z : bytes → option bytes).
(** The catalogs that servers ever hand out. *)
Context (served : list (string * Json) → Prop).

Notation build_image := (build_provisioned xz_d parted mcopy xz_z).
Definition serves (http : string → Response) : Prop :=
  ∀ url doc, (fetch_catalog bracket_ok http (allowlist sg) url).2 = Ok doc → served doc.

(** Fresh UUIDs: no row, run, reference or blob has them. *)
Definition fresh_base (id : uuid) (w : World) : Prop :=
  (∀ r, r ∈ w_runs w → rn_target r ≠ id) ∧ ∀ k p, im_builds (w_db w) !! k = Some p → pv_base_image_id p ≠ Some id.
Definition fresh_build (id : uuid) (w : World) : Prop :=
  (∀ r, r ∈ w_runs w → rn_target r ≠ id) ∧ ∀ name, w_output w !! build_blob_path id name = None.

(** One commit, upload or deletion; handlers may stop, fail or vanish anywhere,
    and the rest of the CMS may do anything to jobs and assets. *)
Inductive img_step : World → World → Prop :=
  | is_settings url w : img_step w (with_db (update_imager_settings bracket_ok sg url (w_db w)).1 w)
  | is_create_fleet id fid key w : img_step w (with_db (create_fleet_endpoint id fid key (w_db w)).1 w)
  | is_delete_fleet now fid w : img_step w (with_db (delete_fleet_endpoint now fid (w_db w)).1 w)
  | is_lib lib w : img_step w (with_db (set_lib lib (w_db w)) w)
  | is_import http now user id job outbox seen variant version entry db0 w :
      serves http → import_resolve bracket_ok sg http variant version db0 = Ok entry → fresh_base id w →
      img_step w (with_db (import_base_image bigint now user id job outbox seen variant version entry (w_db w)).1 w)
  | is_delete_base id db path w : delete_base_image id (w_db w) = Ok (db, path) →
      img_step w (with_trash (w_trash w ++ trash_of true path) (with_db db w))
  | is_build now user id job outbox body w : fresh_build id w →
      img_step w (with_db (build_provisioned_image bracket_ok sg now user id job outbox body (w_db w)).1 w)
  | is_note_job id job w : img_step w (with_db (note_build_job id job (w_db w)).1 w)
  | is_delete_build id db path w : delete_provisioned_image id (w_db w) = Ok (db, path) →
      img_step w (with_trash (w_trash w ++ trash_of false path) (with_db db w))
  | is_trash x l1 l2 w : w_trash w = l1 ++ x :: l2 → img_step w (remove_blob x (with_trash (l1 ++ l2) w))
  | is_leak x l1 l2 w : w_trash w = l1 ++ x :: l2 → img_step w (with_trash (l1 ++ l2) w)
  | is_claim now k db job w : imager_preflight now k (w_db w) = Ok (db, RunJob job) →
      img_step w (with_runs (w_runs w ++ [mkRun k (j_type job) (j_target_id job) Begun]) (with_db db w))
  | is_drop now k db w : imager_preflight now k (w_db w) = Ok (db, MessageDropped) → img_step w (with_db db w)
  | is_progress target t stage pct w : img_step w (with_db (_set_progress target t stage pct (w_db w)) w)
  | is_fetch http free swept r l1 l2 w : serves http → w_runs w = l1 ++ r :: l2 → rn_stage r = Begun → rn_type r = IMAGE_IMPORT →
      img_step w (with_runs (l1 ++ at_stage (import_fetch bracket_ok sha256_hex sg http free swept (rn_target r) (w_db w)) r :: l2) w)
  | is_store variant version sha data r l1 l2 w : w_runs w = l1 ++ r :: l2 → rn_stage r = Fetched variant version sha data →
      img_step w (mkWorld (w_db w) (<[base_blob_path variant version := data]> (w_cache w)) (w_output w)
                    (l1 ++ at_stage (Stored variant version sha (Z.of_nat (length data))) r :: l2) (w_trash w))
  | is_publish now variant version sha size r l1 l2 w : w_runs w = l1 ++ r :: l2 → rn_stage r = Stored variant version sha size →
      img_step w (with_runs (l1 ++ at_stage (Over (import_publish now (rn_target r) variant version sha size (w_db w)).2) r :: l2)
                    (with_db (import_publish now (rn_target r) variant version sha size (w_db w)).1 w))
  | is_provision free swept r l1 l2 w : w_runs w = l1 ++ r :: l2 → rn_stage r = Begun → rn_type r = IMAGE_PROVISION →
      img_step w (with_runs (l1 ++ at_stage (provision_build sha256_hex sg xz_d parted mcopy xz_z (w_cache w) free swept (rn_target r) (w_db w)) r :: l2) w)
  | is_send name out r l1 l2 w : w_runs w = l1 ++ r :: l2 → rn_stage r = Built name out →
      img_step w (mkWorld (w_db w) (w_cache w) (<[build_blob_path (rn_target r) name := out]> (w_output w))
                    (l1 ++ at_stage (Sent name (sha256_hex out) (Z.of_nat (length out))) r :: l2) (w_trash w))
  | is_deliver now name sha size r l1 l2 w : w_runs w = l1 ++ r :: l2 → rn_stage r = Sent name sha size →
      img_step w (with_runs (l1 ++ at_stage (Over (provision_publish sg now (rn_target r) name sha size (w_db w)).2) r :: l2)
                    (with_db (provision_publish sg now (rn_target r) name sha size (w_db w)).1 w))
  | is_fail f r l1 l2 w : w_runs w = l1 ++ r :: l2 → rn_stage r = Failing f →
      img_step w (with_runs (l1 ++ at_stage (Over (RaisedTerminal f)) r :: l2)
                    (with_db (if bool_decide (rn_type r = IMAGE_IMPORT) then _set_base_image_terminal (rn_target r) f (w_db w)
                              else _set_provisioned_terminal (rn_target r) f (w_db w)) w))
  | is_abort r l1 l2 w : w_runs w = l1 ++ r :: l2 → img_step w (with_runs (l1 ++ at_stage (Over RaisedOther) r :: l2) w)
  | is_finalize now job re lib d r l1 l2 e w : w_runs w = l1 ++ r :: l2 → rn_stage r = Over e →
      finalize now (rn_job r) job re (im_lib (w_db w)) = Ok (lib, d) →
      img_step w (with_runs (l1 ++ l2) (with_db (set_lib lib (w_db w)) w))
  | is_crash r l1 l2 w : w_runs w = l1 ++ r :: l2 → img_step w (with_runs (l1 ++ l2) w).

(** *** What holds *)

(** A catalog has given this digest for the variant and the version. *)
Definition verified (variant version sha : string) : Prop :=
  ∃ doc sha0, served doc ∧ announces doc variant version sha0 ∧ str_lower sha = str_lower sha0.

(** A fleet of that name has, or had, this secret. *)
Definition has_secret (fleet_id : string) (secret : bytes) (db : ImgDb) : Prop :=
  ∃ i f, bt_fleets (im_fleets db) !! i = Some f ∧ fl_fleet_id f = fleet_id ∧ b64decode (fl_secret_b64 f) = Some secret.

(** The env of a build. *)
Definition env_of (fleet_id : string) (wifi : option (string * string)) (db : ImgDb) (text : string) : Prop :=
  ∃ secret cms_url, has_secret fleet_id secret db ∧
    _derive_device_ws_url bracket_ok (strip_right is_slash (sg_base_url sg or_else "")) = Ok cms_url ∧
    text = fleet_env_text cms_url fleet_id secret (sg_device_transport sg) wifi.

(** An image made for a row: a base image a catalog has announced as the variant
    and version of the row, with the env of the fleet of the row. *)
Definition made_for (p : ProvisionedImage) (db : ImgDb) (out : bytes) : Prop :=
  ∃ variant version fleet_id data text,
    pv_base_variant p = Some variant ∧ pv_base_version p = Some version ∧ pv_fleet_id p = Some fleet_id ∧
    verified variant version (sha256_hex data) ∧ env_of fleet_id (pv_wifi p) db text ∧ build_image data text (pv_output_name p) = Ok out.

Record base_ok (b : BaseImage) : Prop := mkBaseOk {
  bo_expected : ∀ s, bi_expected_sha256 b = Some s → verified (bi_variant b) (bi_version b) s;
  bo_sha : ∀ s, bi_sha256 b = Some s → verified (bi_variant b) (bi_version b) s;
  bo_ready : bi_status b = B_READY → is_Some (bi_sha256 b) ∧ bi_blob_path b = Some (base_blob_path (bi_variant b) (bi_version b))
}.
Record build_ok (w : World) (k : uuid) (p : ProvisionedImage) : Prop := mkBuildOk {
  po_payload : is_Some (pv_fleet_env_payload p) ↔ pv_status p = P_PROVISIONING;
  po_env : ∀ bs, pv_fleet_env_payload p = Some bs →
    ∃ fleet_id text, pv_fleet_id p = Some fleet_id ∧ env_of fleet_id (pv_wifi p) (w_db w) text ∧ bs = utf8_encode text;
  po_base : ∀ i b, pv_base_image_id p = Some i → im_bases (w_db w) !! i = Some b →
    pv_base_variant p = Some (bi_variant b) ∧ pv_base_version p = Some (bi_version b);
  po_name : has_char "/" (pv_output_name p) = false;
  po_ready : pv_status p = P_READY → pv_blob_path p = Some (build_blob_path k (pv_output_name p));
  po_blob : ∀ out, w_output w !! build_blob_path k (pv_output_name p) = Some out → made_for p (w_db w) out
}.
Definition run_ok (w : World) (r : Run) : Prop :=
  match rn_stage r with
  | Fetched variant version sha _ | Stored variant version sha _ =>
      verified variant version sha ∧
      ∀ b, im_bases (w_db w) !! rn_target r = Some b → bi_variant b = variant ∧ bi_version b = version
  | Built name out => has_char "/" name = false ∧
      ∀ p, im_builds (w_db w) !! rn_target r = Some p → pv_output_name p = name ∧ made_for p (w_db w) out
  | Sent name _ _ => ∀ p, im_builds (w_db w) !! rn_target r = Some p → pv_output_name p = name
  | _ => True
  end.
Record world_ok (w : World) : Prop := mkWorldOk {
  wo_bases : ∀ k b, im_bases (w_db w) !! k = Some b → base_ok b;
  wo_builds : ∀ k p, im_builds (w_db w) !! k = Some p → build_ok w k p;
  wo_runs : ∀ r, r ∈ w_runs w → run_ok w r
}.

(** *** Catalog entries *)

Lemma resolve_announces doc variant version entry sha :
  _resolve_catalog_entry doc variant version = Ok entry → jget "sha256" entry = JStr sha → announces doc variant version sha.
Proof.
  unfold _resolve_catalog_entry, announces. intros H S. destruct (json_true (jget "ref" doc) && _) eqn:R; [done|].
  split.
  - intros T. rewrite T in R. cbn in R. destruct (jget "ref" doc) as [| | |r| |]; try done. case_bool_decide; [by subst|done].
  - destruct (json_true (jget "variants" doc)); [|done]. destruct (jget "variants" doc) as [| | | | |d]; try done.
    destruct (aget variant d) as [[| | | | |e]|] eqn:E; try done. destruct (json_true (jget "url" e) && _); [|done]. injection H as ->.
    by exists d, entry.
Qed.
Lemma resolve_worker_announces doc variant version entry sha :
  resolve_for_worker doc variant version = Ok entry → jget "sha256" entry = JStr sha → announces doc variant version sha.
Proof.
  unfold resolve_for_worker, announces. intros H S. destruct (json_true (jget "variants" doc)); [|done].
  destruct (jget "variants" doc) as [| | | | |d]; try done. destruct (aget variant d) as [[| | | | |e]|] eqn:E; try done.
  destruct (json_true (jget "ref" doc) && _) eqn:R; [done|]. destruct (json_true (jget "url" e) && _); [|done]. injection H as ->. split.
  - intros T. rewrite T in R. cbn in R. destruct (jget "ref" doc) as [| | |r| |]; try done. case_bool_decide; [by subst|done].
  - by exists d, entry.
Qed.

Lemma verified_lower variant version sha sha' : str_lower sha = str_lower sha' → verified variant version sha → verified variant version sha'.
Proof. intros E (doc & sha0 & D & A & L). exists doc, sha0. split_and!; [done|done|congruence]. Qed.
Lemma str_lower_lower s : str_lower (str_lower s) = str_lower s.
Proof.
  unfold str_lower. induction s as [|c s IH]; [done|]. cbn. rewrite IH. f_equal. by destruct c as [[] [] [] [] [] [] [] []].
Qed.

(** *** What a fetched base image is *)

Lemma import_fetch_ok http free swept id db variant version sha data : serves http →
  (∀ b, im_bases db !! id = Some b → base_ok b) →
  import_fetch bracket_ok sha256_hex sg http free swept id db = Fetched variant version sha data →
  verified variant version sha ∧ ∃ b, im_bases db !! id = Some b ∧ bi_variant b = variant ∧ bi_version b = version.
Proof.
  intros Hs Hb. unfold import_fetch. destruct (im_bases db !! id) as [b|] eqn:B; [|done]. specialize (Hb b eq_refl).
  case_bool_decide; [done|]. destruct (space_ok _ _ _); [|done]. cbn [negb].
  destruct (import_source _ _ _ _ _ _ _ _) as [[[url sh] size]|e] eqn:S; cbn [mbind result_bind]; [|by destruct e].
  destruct (import_download _ _ _ _ _ _ _) as [[actual d]|e] eqn:D; [|by destruct e].
  case_match; [|done]. intros [= <- <- <- <-]. split; [|by exists b].
  unfold import_download in D. destruct sh as [| | |sh| |]; try done. destruct url as [| | |url| |]; try (by destruct (is_sha256_text sh)).
  apply download_sound in D as (-> & E & _ & _). unfold import_source in S.
  assert (F : (catalog ← match get_catalog_url db with Some u => in_worker (fetch_catalog bracket_ok http (allowlist sg) u).2 | None => Err (TerminalImagerError F_no_catalog_url) end;
               entry ← resolve_for_worker catalog (bi_variant b) (bi_version b);
               Ok (jget "url" entry, jget "sha256" entry, jget "size_bytes" entry)) = Ok (JStr url, JStr sh, size) →
              verified (bi_variant b) (bi_version b) (sha256_hex d)).
  { intros (doc & F & G)%result_bind_ok. apply result_bind_ok in G as (entry & R & G). injection G as G1 G2 G3.
    destruct (get_catalog_url db) as [u|]; [|done]. apply in_worker_ok in F. exists doc, sh. split_and!; [by eapply Hs| |done].
    by eapply resolve_worker_announces. }
  destruct (truthy (bi_source_url b)) as [u|] eqn:U.
  - destruct (truthy (bi_expected_sha256 b)) as [x|] eqn:X.
    + injection S as <- <- <-. eapply verified_lower; [symmetry; exact E|]. apply (bo_expected _ Hb).
      destruct (bi_expected_sha256 b) as [[|c y]|]; [done| |done]. by injection X as <-.
    + apply F. by destruct (get_catalog_url db).
  - apply F. by destruct (get_catalog_url db).
Qed.

Lemma import_fetch_stage http free swept id db : match import_fetch bracket_ok sha256_hex sg http free swept id db with
  | Fetched _ _ _ _ | Failing _ | Over _ => True | _ => False end.
Proof.
  unfold import_fetch, raised. repeat (case_match; try done).
Qed.

(** *** What a built image is *)

Lemma utf8_decode_text bs text s : bs = utf8_encode text → utf8_decode bs = Some s → s = text.
Proof.
  intros -> H. unfold utf8_decode in H. destruct (utf8_valid _); [|done]. injection H as <-. apply String.string_of_list_byte_of_string.
Qed.

Lemma provision_build_ok free swept id w name out : world_ok w →
  provision_build sha256_hex sg xz_d parted mcopy xz_z (w_cache w) free swept id (w_db w) = Built name out →
  ∃ p, im_builds (w_db w) !! id = Some p ∧ pv_output_name p = name ∧ made_for p (w_db w) out.
Proof.
  intros W. unfold provision_build. destruct (im_builds (w_db w) !! id) as [p|] eqn:P; [|done]. case_bool_decide; [done|].
  destruct (pv_base_image_id p) as [k|] eqn:K; [|done]. cbn [mbind option_bind]. destruct (im_bases (w_db w) !! k) as [b|] eqn:B; [|done].
  destruct (bi_status b); [done| |done]. destruct (truthy (bi_blob_path b)) as [path|]; [|done]. destruct (base_path_ok path); [|done]. cbn [negb].
  destruct (truthy (bi_sha256 b)) as [sha|] eqn:S; [|done]. destruct (is_sha256_text sha); [|done]. cbn [negb].
  destruct (pv_fleet_env_payload p) as [payload|] eqn:E; [|done]. destruct (utf8_decode payload) as [text|] eqn:T; [|done].
  destruct (space_ok _ _ _); [|done]. cbn [negb]. destruct (w_cache w !! path) as [data|]; [|done]. case_bool_decide as D; [|done]. cbn [negb].
  destruct (build_image data text (pv_output_name p)) as [o|[]] eqn:O; [|done|done]. intros [= <- <-].
  exists p. split_and!; [done|done|]. destruct (wo_builds _ W _ _ P) as [_ Henv Hbase _ _ _].
  destruct (Henv _ E) as (fleet & t & F & Ev & ->). apply (utf8_decode_text _ t) in T as ->; [|done].
  destruct (Hbase _ _ K B) as [V1 V2]. exists (bi_variant b), (bi_version b), fleet, data, t. split_and!; try done.
  eapply verified_lower; [symmetry; exact D|]. apply (bo_sha _ (wo_bases _ W _ _ B)).
  destruct (bi_sha256 b) as [[|c y]|]; [done| |done]. by injection S as <-.
Qed.

Lemma provision_build_stage blobs free swept id db : match provision_build sha256_hex sg xz_d parted mcopy xz_z blobs free swept id db with
  | Built _ _ | Failing _ | Over _ => True | _ => False end.
Proof. unfold provision_build. repeat (case_match; try done). Qed.

(** *** Preservation *)

Definition keeps_secrets (db db' : ImgDb) : Prop :=
  ∀ i f, bt_fleets (im_fleets db) !! i = Some f →
    ∃ f', bt_fleets (im_fleets db') !! i = Some f' ∧ fl_fleet_id f' = fl_fleet_id f ∧ fl_secret_b64 f' = fl_secret_b64 f.
Definition same_order (p p' : ProvisionedImage) : Prop :=
  pv_base_variant p' = pv_base_variant p ∧ pv_base_version p' = pv_base_version p ∧ pv_fleet_id p' = pv_fleet_id p ∧
  pv_wifi p' = pv_wifi p ∧ pv_output_name p' = pv_output_name p.
(** What any write may do to the row of a build. *)
Record evolves (k : uuid) (p p' : ProvisionedImage) : Prop := mkEvolves {
  ev_order : same_order p p';
  ev_base : pv_base_image_id p' = pv_base_image_id p ∨ pv_base_image_id p' = None;
  ev_payload : pv_fleet_env_payload p' = pv_fleet_env_payload p ∨ pv_fleet_env_payload p' = None;
  ev_cleared : is_Some (pv_fleet_env_payload p') ↔ pv_status p' = P_PROVISIONING;
  ev_ready : pv_status p' = P_READY → pv_blob_path p' = Some (build_blob_path k (pv_output_name p'))
}.

Lemma env_of_keeps fleet wifi db db' text : keeps_secrets db db' → env_of fleet wifi db text → env_of fleet wifi db' text.
Proof.
  intros K (secret & url & (i & f & F & <- & D) & U & ->). destruct (K i f F) as (f' & F' & E1 & E2).
  exists secret, url. split_and!; [|done|done]. exists i, f'. split_and!; congruence.
Qed.
Lemma made_for_keeps p p' db db' out : same_order p p' → keeps_secrets db db' → made_for p db out → made_for p' db' out.
Proof.
  intros (E1 & E2 & E3 & E4 & E5) K (v & ver & fleet & data & text & V1 & V2 & F & V & E & B). exists v, ver, fleet, data, text.
  rewrite E1, E2, E3, E4, E5. split_and!; try done. by eapply env_of_keeps.
Qed.
Lemma same_order_refl p : same_order p p. Proof. done. Qed.
Lemma evolves_refl w k p : build_ok w k p → evolves k p p.
Proof. intros [P _ _ _ R _]. split; [done|by left|by left|done|done]. Qed.

(** A path names one build. *)
Lemma str_partition_none c s : has_char c s = false → split_on c s = [s].
Proof.
  unfold has_char. induction s as [|x s IH]; [done|]. cbn [str_partition split_on]. intros H. destruct (decide (x = c)) as [E|N].
  - rewrite (bool_decide_true (x = c)) in H by done. apply bool_decide_eq_false in H. destruct H. by eexists.
  - rewrite (bool_decide_false (x = c)) in H by done. cbn [snd] in H. by rewrite IH.
Qed.
Lemma build_path_inj k k' n n' : has_char "/" n = false → has_char "/" n' = false →
  build_blob_path k n = build_blob_path k' n' → k = k' ∧ n = n'.
Proof.
  intros H H' E. unfold build_blob_path in E. assert (S : split_on "/" k ++ [n] = split_on "/" k' ++ [n']).
  { pose proof (split_on_app "/" k n) as X. pose proof (split_on_app "/" k' n') as Y.
    rewrite (str_partition_none _ n) in X by done. rewrite (str_partition_none _ n') in Y by done. rewrite <-X, <-Y. by f_equal. }
  apply app_inj_2 in S as [_ S]; [|done]. injection S as <-. split; [|done]. by apply str_app_inj_r in E.
Qed.

(** The shape of every step: rows evolve or are new, blobs are made for their row. *)
Lemma world_ok_evolve w w' : world_ok w → keeps_secrets (w_db w) (w_db w') →
  (∀ k b', im_bases (w_db w') !! k = Some b' → base_ok b' ∧
     ((∃ b, im_bases (w_db w) !! k = Some b ∧ bi_variant b = bi_variant b' ∧ bi_version b = bi_version b') ∨ fresh_base k w)) →
  (∀ k p', im_builds (w_db w') !! k = Some p' →
     (∃ p, im_builds (w_db w) !! k = Some p ∧ evolves k p p') ∨ (build_ok w' k p' ∧ fresh_build k w)) →
  (∀ path out, w_output w' !! path = Some out → w_output w !! path = Some out ∨
     ∀ k p, im_builds (w_db w) !! k = Some p → build_blob_path k (pv_output_name p) = path → made_for p (w_db w) out) →
  (∀ r, r ∈ w_runs w' → r ∈ w_runs w ∨ run_ok w' r) → world_ok w'.
Proof.
  intros [Wb Wp Wr] K Hb Hp Ho Hr. split.
  - intros k b' B. by apply Hb in B as [? _].
  - intros k p' P'. destruct (Hp k p' P') as [(p & P & [O Eb Ep Ec Er])|[? _]]; [|done]. destruct (Wp k p P) as [_ Henv Hbase Hname _ Hblob].
    destruct O as (O1 & O2 & O3 & O4 & O5). split; [done| | |by rewrite O5|done|].
    + intros bs E. destruct Ep as [Ep|Ep]; [|congruence]. rewrite Ep in E. destruct (Henv bs E) as (fleet & t & F & Ev & ->).
      exists fleet, t. rewrite O3, O4. split_and!; [done|by eapply env_of_keeps|done].
    + intros i b' E B'. destruct Eb as [Eb|Eb]; [|congruence]. rewrite Eb in E. destruct (Hb i b' B') as [_ [(b & B & <- & <-)|[_ N]]].
      * rewrite O1, O2. by eapply Hbase.
      * by destruct (N k p P).
    + intros out X. rewrite O5 in X. eapply made_for_keeps; [|exact K|]; [by split_and!|].
      destruct (Ho _ _ X) as [Y|Y]; [by apply Hblob|by eapply Y].
  - intros r R. destruct (Hr r R) as [R0|?]; [|done]. pose proof (Wr r R0) as Q. unfold run_ok in *. destruct (rn_stage r); try done.
    + destruct Q as [V Q]. split; [done|]. intros b' B'. destruct (Hb _ _ B') as [_ [(b & B & <- & <-)|[N _]]]; [by apply Q|by destruct (N r R0)].
    + destruct Q as [V Q]. split; [done|]. intros b' B'. destruct (Hb _ _ B') as [_ [(b & B & <- & <-)|[N _]]]; [by apply Q|by destruct (N r R0)].
    + destruct Q as [V Q]. split; [done|]. intros p' P'. destruct (Hp _ _ P') as [(p & P & Ev)|[_ [N _]]]; [|by destruct (N r R0)].
      destruct (Q p P) as [Q1 Q2]. pose proof (ev_order _ _ _ Ev) as O. split; [rewrite <-Q1; apply O|by eapply made_for_keeps].
    + intros p' P'. destruct (Hp _ _ P') as [(p & P & Ev)|[_ [N _]]]; [|by destruct (N r R0)]. rewrite <-(Q p P). apply (ev_order _ _ _ Ev).
Qed.

(** *** Single writes *)

Lemma keeps_secrets_eq db db' : bt_fleets (im_fleets db') = bt_fleets (im_fleets db) → keeps_secrets db db'.
Proof. intros E i f F. exists f. by rewrite E. Qed.

(** Nothing but the fleets, the jobs or the settings changes. *)
Lemma world_ok_other w db : world_ok w → keeps_secrets (w_db w) db → im_bases db = im_bases (w_db w) → im_builds db = im_builds (w_db w) →
  world_ok (with_db db w).
Proof.
  intros W K B P. apply (world_ok_evolve w); cbn; try done.
  - intros k b. rewrite B. intros H. split; [by eapply wo_bases|]. left. by exists b.
  - intros k p. rewrite P. intros H. left. exists p. split; [done|]. by eapply evolves_refl, wo_builds.
  - by left.
  - by left.
Qed.

(** A write of one base image that keeps what it is. *)
Lemma world_ok_base w id f : world_ok w →
  (∀ b, im_bases (w_db w) !! id = Some b → base_ok (f b) ∧ bi_variant (f b) = bi_variant b ∧ bi_version (f b) = bi_version b) →
  world_ok (with_db (on_base id f (w_db w)) w).
Proof.
  intros W F. apply (world_ok_evolve w); cbn; [done|by apply keeps_secrets_eq| | |by left|by left].
  - intros k b' B'. destruct (decide (k = id)) as [->|N].
    + rewrite lookup_alter in B'. rewrite decide_True in B' by done. apply fmap_Some in B' as (b & B & ->). destruct (F b B) as (? & E1 & E2).
      split; [done|]. left. by exists b.
    + rewrite lookup_alter_ne in B' by done. split; [by eapply wo_bases|]. left. by exists b'.
  - intros k p P. left. exists p. split; [done|]. by eapply evolves_refl, wo_builds.
Qed.

(** A write of one build. *)
Lemma world_ok_build w id f : world_ok w → (∀ p, im_builds (w_db w) !! id = Some p → evolves id p (f p)) →
  world_ok (with_db (on_build id f (w_db w)) w).
Proof.
  intros W F. apply (world_ok_evolve w); cbn; [done|by apply keeps_secrets_eq| | |by left|by left].
  - intros k b B. split; [by eapply wo_bases|]. left. by exists b.
  - intros k p' P'. left. destruct (decide (k = id)) as [->|N].
    + rewrite lookup_alter in P'. rewrite decide_True in P' by done. apply fmap_Some in P' as (p & P & ->). exists p. by split; [|apply F].
    + rewrite lookup_alter_ne in P' by done. exists p'. split; [done|]. by eapply evolves_refl, wo_builds.
Qed.

(** The runs only change their stage. *)
Lemma world_ok_runs w l : world_ok w → (∀ r, r ∈ l → r ∈ w_runs w ∨ run_ok w r) → world_ok (with_runs l w).
Proof.
  intros W R. apply (world_ok_evolve w); cbn; [done|by apply keeps_secrets_eq| | |by left|exact R].
  - intros k b B. split; [by eapply wo_bases|]. left. by exists b.
  - intros k p P. left. exists p. split; [done|]. by eapply evolves_refl, wo_builds.
Qed.
Lemma world_ok_stage w l1 r l2 s : world_ok w → w_runs w = l1 ++ r :: l2 → run_ok w (at_stage s r) →
  world_ok (with_runs (l1 ++ at_stage s r :: l2) w).
Proof.
  intros W E O. apply world_ok_runs; [done|]. intros x. rewrite E, !elem_of_app, !elem_of_cons. intros [?|[->|?]]; [tauto|by right|tauto].
Qed.
Lemma world_ok_gone w l1 r l2 : world_ok w → w_runs w = l1 ++ r :: l2 → world_ok (with_runs (l1 ++ l2) w).
Proof. intros W E. apply world_ok_runs; [done|]. intros x. rewrite E, !elem_of_app, elem_of_cons. tauto. Qed.
Lemma world_ok_trash w l : world_ok w → world_ok (with_trash l w).
Proof.
  intros W. apply (world_ok_evolve w); cbn; [done|by apply keeps_secrets_eq| | |by left|by left].
  - intros k b B. split; [by eapply wo_bases|]. left. by exists b.
  - intros k p P. left. exists p. split; [done|]. by eapply evolves_refl, wo_builds.
Qed.

(** *** The endpoints *)

Lemma settings_ok w url : world_ok w → world_ok (with_db (update_imager_settings bracket_ok sg url (w_db w)).1 w).
Proof.
  intros W. apply world_ok_other; [done|apply keeps_secrets_eq|..]; unfold update_imager_settings; repeat case_match; done.
Qed.
Lemma create_fleet_ok w id fid key : world_ok w → world_ok (with_db (create_fleet_endpoint id fid key (w_db w)).1 w).
Proof.
  intros W. apply world_ok_other; [done| |unfold create_fleet_endpoint; repeat case_match; done..].
  unfold create_fleet_endpoint. case_match; [by apply keeps_secrets_eq|]. destruct (create_fleet _ _ _ _ _) as [[fl k]|[]] eqn:C; try by apply keeps_secrets_eq.
  unfold create_fleet in C. destruct (negb _ || negb _) eqn:N in C; [done|]. apply orb_false_iff in N as [N _]. apply negb_false_iff, bool_decide_eq_true in N.
  injection C as <- <-. intros i f F. exists f. cbn. split; [|done]. rewrite lookup_insert_ne; [done|]. congruence.
Qed.
Lemma delete_fleet_ok w now fid : world_ok w → world_ok (with_db (delete_fleet_endpoint now fid (w_db w)).1 w).
Proof.
  intros W. apply world_ok_other; [done| |unfold delete_fleet_endpoint; repeat case_match; done..].
  unfold delete_fleet_endpoint. case_match; [by apply keeps_secrets_eq|]. cbn. unfold delete_fleet.
  destruct (rows_where _ _) as [|[i f] l] eqn:R; [by apply keeps_secrets_eq|]. apply rows_where_head in R as [_ R].
  intros j g G. cbn. destruct (decide (j = i)) as [->|N].
  - rewrite R in G. injection G as <-. eexists. split; [by rewrite lookup_insert, decide_True by done|done].
  - exists g. by rewrite lookup_insert_ne.
Qed.

Lemma find_image_some variant version rows k b : find_image variant version rows = Some (k, b) →
  (k, b) ∈ rows ∧ bi_variant b = variant ∧ bi_version b = version.
Proof.
  unfold find_image. induction rows as [|[i x] l IH]; [done|]. cbn [find]. destruct (same_image variant version (i, x)) eqn:S.
  - intros [= -> ->]. unfold same_image in S. cbn in S. apply andb_true_iff in S as [S1 S2]. apply bool_decide_eq_true in S1, S2.
    split; [left|done].
  - intros H. destruct (IH H) as (? & ? & ?). split; [by right|done].
Qed.

Lemma enqueue_image_job_db now job outbox t target db db' : enqueue_image_job now job outbox t target db = Ok db' →
  ∃ lib, db' = set_lib lib db.
Proof. unfold enqueue_image_job. destruct (enqueue_job _ _ _ _ _ _) as [[st ?]|]; [|done]. intros [= <-]. by eexists. Qed.

Lemma text_value_str v s : text_value v = Ok s → v = JStr s.
Proof. destruct v; cbn; try done. case_match; [done|]. by intros [= ->]. Qed.

(** The stamped digest is announced. *)
Lemma stamped_verified http variant version entry db0 sha :
  serves http → import_resolve bracket_ok sg http variant version db0 = Ok entry → text_value (jget "sha256" entry) = Ok sha →
  verified variant version sha.
Proof.
  intros S. unfold import_resolve. case_match; [done|]. case_match; [done|]. case_match; [done|]. destruct (get_catalog_url db0) as [u|]; [|done].
  destruct (fetch_catalog _ _ _ _).2 as [doc|[]] eqn:F; try done. intros R T%text_value_str. exists doc, sha. split_and!; [by eapply S| |done].
  by eapply resolve_announces.
Qed.

Lemma import_ok http w now user id job outbox seen variant version entry db0 :
  serves http → import_resolve bracket_ok sg http variant version db0 = Ok entry → fresh_base id w → world_ok w →
  world_ok (with_db (import_base_image bigint now user id job outbox seen variant version entry (w_db w)).1 w).
Proof.
  intros S R N W. assert (Keep : world_ok (with_db (w_db w) w)) by by destruct w.
  unfold import_base_image. set (stamped := mbind _ (text_value (jget "url" entry))).
  assert (V : ∀ url sha size, stamped = Ok (url, sha, size) → verified variant version sha).
  { intros url sha size (u & _ & H)%result_bind_ok. apply result_bind_ok in H as (x & X & H). apply result_bind_ok in H as (n & _ & H).
    injection H as _ -> _. by eapply stamped_verified. }
  destruct (find_image variant version (filter _ _)) as [[k b]|] eqn:F.
  - case_bool_decide; [|done]. cbn [negb]. destruct stamped as [[[url sha] size]|] eqn:St; [|done]. specialize (V _ _ _ eq_refl).
    destruct (enqueue_image_job _ _ _ _ _ _) as [db2|] eqn:E; [|done]. apply enqueue_image_job_db in E as [lib ->].
    apply find_image_some in F as (Hin & Hv & Hver). apply list_elem_of_filter in Hin as [_ Hin]. apply elem_of_map_to_list in Hin.
    change (world_ok (with_db (set_lib lib (w_db (with_db (on_base k (restarted_row user url sha size) (w_db w)) w)))
              (with_db (on_base k (restarted_row user url sha size) (w_db w)) w))).
    apply world_ok_other; [|by apply keeps_secrets_eq|done|done]. apply world_ok_base; [done|]. intros b' B'. simplify_eq.
    split; [|done]. split; cbn; [|done|done]. by intros ? [= <-].
  - destruct stamped as [[[url sha] size]|] eqn:St; [|done]. specialize (V _ _ _ eq_refl). destruct (find_image variant version (map_to_list _)) as [[? ?]|]; [done|]. case_bool_decide as I; [done|].
    destruct (enqueue_image_job _ _ _ _ _ _) as [db2|] eqn:E; [|done]. apply enqueue_image_job_db in E as [lib ->]. cbn [fst].
    apply (world_ok_evolve w); cbn; [done|by apply keeps_secrets_eq| | |by left|by left].
    + intros k b B. apply lookup_insert_Some in B as [[<- <-]|[_ B]].
      * split; [|by right]. split; cbn; [by intros ? [= <-]|done|done].
      * split; [by eapply wo_bases|]. left. by exists b.
    + intros k p P. left. exists p. split; [done|]. by eapply evolves_refl, wo_builds.
Qed.

Lemma delete_base_ok w id db path : delete_base_image id (w_db w) = Ok (db, path) → world_ok w → world_ok (with_db db w).
Proof.
  unfold delete_base_image. destruct (im_bases (w_db w) !! id) as [b|]; [|done]. intros [= <- <-] W.
  apply (world_ok_evolve w); cbn; [done|by apply keeps_secrets_eq| | |by left|by left].
  - intros k x [_ B]%lookup_delete_Some. split; [by eapply wo_bases|]. left. by exists x.
  - intros k p' P'. left. rewrite lookup_fmap in P'. apply fmap_Some in P' as (p & P & ->). exists p. split; [done|].
    pose proof (wo_builds _ W _ _ P) as O. split; [by split_and!| |by left|by destruct O|by destruct O].
    cbn. unfold clear_ref. case_bool_decide; [by right|by left].
Qed.

Lemma no_slash_name name : is_valid_output_name name = true → has_char "/" name = false.
Proof.
  intros H. assert (A : str_all (λ c, negb (bool_decide (c = "/"%char))) name = true).
  { unfold is_valid_output_name, safe_output in H. apply andb_true_iff in H as [H _]. apply andb_true_iff in H as [_ H].
    assert (D : name = drop_final_newline name ∨ name = drop_final_newline name +:+ String "010" "").
    { unfold drop_final_newline. destruct (before_last _ name) as [t|]; [|by left]. case_bool_decide; [by right|by left]. }
    assert (X : str_all (λ c, negb (bool_decide (c = "/"%char))) (drop_final_newline name) = true).
    { eapply str_all_impl; [|exact H]. intros c. by destruct c as [[] [] [] [] [] [] [] []]. }
    destruct D as [->|D]; [done|]. rewrite D, str_all_app, X. done. }
  clear H. unfold has_char. apply bool_decide_eq_false. intros [y Y]. destruct (str_partition "/" name) as [x [z|]] eqn:P; [|done].
  apply str_partition_app in P. rewrite P, str_all_app in A. apply andb_true_iff in A as [_ A]. cbn in A. done.
Qed.

Lemma get_fleet_secret_has fid secret db : get_fleet_secret fid (im_fleets db) = Ok (Some secret) → has_secret fid secret db.
Proof.
  unfold get_fleet_secret. destruct (rows_where _ _) as [|[i f] l] eqn:R; [done|]. apply rows_where_head in R as [A R].
  destruct (b64decode (fl_secret_b64 f)) as [s|] eqn:D; [|done]. intros [= <-]. unfold active_fleet in A. apply andb_true_iff in A as [A _].
  apply bool_decide_eq_true in A. by exists i, f.
Qed.
Lemma fleet_for_build_env fid wifi db secret url : fleet_for_build bracket_ok sg fid db = Ok (secret, url) →
  env_of fid wifi db (fleet_env_text url fid secret (sg_device_transport sg) wifi).
Proof.
  unfold fleet_for_build. destruct (get_fleet_secret _ _) as [[s|]|] eqn:G; try done. case_bool_decide; [|done]. cbn [negb].
  case_bool_decide; [done|]. destruct (_derive_device_ws_url _ _) as [u|] eqn:U; [|done]. intros [= -> ->].
  exists secret, url. split_and!; [by apply get_fleet_secret_has|done|done].
Qed.

Lemma build_row_ok w now user id job outbox body : fresh_build id w → world_ok w →
  world_ok (with_db (build_provisioned_image bracket_ok sg now user id job outbox body (w_db w)).1 w).
Proof.
  intros N W. assert (Keep : world_ok (with_db (w_db w) w)) by by destruct w.
  unfold build_provisioned_image. case_match; [done|]. destruct (is_valid_output_name _) eqn:Hname; [|done]. cbn [negb]. case_match; [done|].
  destruct (fleet_for_build _ _ _ _) as [[secret url]|] eqn:Fl; [|done]. destruct (im_bases (w_db w) !! bb_base_image_id body) as [b|] eqn:B; [|done].
  case_bool_decide; [|done]. cbn [negb]. case_bool_decide; [done|]. destruct (enqueue_image_job _ _ _ _ _ _) as [db2|] eqn:E; [|done].
  apply enqueue_image_job_db in E as [lib ->]. cbn [fst].
  apply (world_ok_evolve w); cbn; [done|by apply keeps_secrets_eq| | |by left|by left].
  - intros k x X. split; [by eapply wo_bases|]. left. by exists x.
  - intros k p P. apply lookup_insert_Some in P as [[<- <-]|[_ P]].
    + right. split; [|done]. split; cbn; try done.
      * intros ? [= <-]. eexists _, _. split; [done|]. split; [|done]. by apply (fleet_for_build_env _ _ (w_db w)).
      * intros i x [= <-] X. simplify_eq. done.
      * by apply no_slash_name.
      * intros out X. destruct N as [_ N]. by rewrite N in X.
    + left. exists p. split; [done|]. by eapply evolves_refl, wo_builds.
Qed.

Lemma delete_build_ok w id db path : delete_provisioned_image id (w_db w) = Ok (db, path) → world_ok w → world_ok (with_db db w).
Proof.
  unfold delete_provisioned_image. destruct (im_builds (w_db w) !! id) as [p|]; [|done]. intros [= <- <-] W.
  apply (world_ok_evolve w); cbn; [done|by apply keeps_secrets_eq| | |by left|by left].
  - intros k x X. split; [by eapply wo_bases|]. left. by exists x.
  - intros k x [_ X]%lookup_delete_Some. left. exists x. split; [done|]. by eapply evolves_refl, wo_builds.
Qed.

Lemma remove_blob_ok w x : world_ok w → world_ok (remove_blob x w).
Proof.
  intros W. apply (world_ok_evolve w); [done|by destruct x as [[] ?]; apply keeps_secrets_eq|..].
  - intros k b B. split; [by eapply (wo_bases w), (f_equal (λ o, o)); destruct x as [[] ?]|]. left. exists b. by destruct x as [[] ?].
  - intros k p P. left. exists p. destruct x as [[] ?]; (split; [done|]; by eapply evolves_refl, wo_builds).
  - intros path out. destruct x as [[] y]; cbn; [by left|]. intros [_ X]%lookup_delete_Some. by left.
  - intros r. destruct x as [[] ?]; by left.
Qed.

(** *** The worker *)

Lemma failed_base_ok f b : base_ok b → base_ok (failed_base f b).
Proof. intros [E S _]. by split. Qed.
Lemma failed_build_evolves w k p f : build_ok w k p → evolves k p (failed_build f p).
Proof. intros _. split; cbn; [by split_and!|by left|by right| |done]. split; [by intros []|done]. Qed.

Lemma set_lib_ok w lib : world_ok w → world_ok (with_db (set_lib lib (w_db w)) w).
Proof. intros W. by apply world_ok_other; [|apply keeps_secrets_eq|..]. Qed.

Lemma terminal_base_ok w id f : world_ok w → world_ok (with_db (on_base id (failed_base f) (w_db w)) w).
Proof. intros W. apply world_ok_base; [done|]. intros b B. split; [|done]. by eapply failed_base_ok, wo_bases. Qed.
Lemma terminal_build_ok w id f : world_ok w → world_ok (with_db (on_build id (failed_build f) (w_db w)) w).
Proof. intros W. apply world_ok_build; [done|]. intros p P. by eapply failed_build_evolves, wo_builds. Qed.

Lemma mirror_ok w k job : world_ok w → world_ok (with_db (mark_target_failed_on_exhaustion k job (w_db w)).1 w).
Proof.
  intros W. assert (Keep : world_ok (with_db (w_db w) w)) by by destruct w. unfold mark_target_failed_on_exhaustion.
  case_match; [done|]. destruct (match newest_of _ _ _ _ with Some i => negb (bool_decide (i = k)) | None => false end); [done|]. case_match.
  - destruct (im_bases (w_db w) !! j_target_id job); [|done]. case_match; [done|]. by apply terminal_base_ok.
  - destruct (im_builds (w_db w) !! j_target_id job); [|done]. case_match; [done|]. by apply terminal_build_ok.
Qed.
Lemma preflight_ok w now k db r : imager_preflight now k (w_db w) = Ok (db, r) → world_ok w → world_ok (with_db db w).
Proof.
  unfold imager_preflight. intros ([lib q] & _ & H)%result_bind_ok W. cbv zeta in H. pose proof (set_lib_ok w lib W) as L. destruct q.
  - destruct (lb_jobs lib !! k) as [job|]; [|by injection H as <- _]. case_bool_decide; [|by injection H as <- _]. injection H as <- _.
    exact (mirror_ok (with_db (set_lib lib (w_db w)) w) k job L).
  - by injection H as <- _.
Qed.

Lemma progress_ok w target t stage pct : world_ok w → world_ok (with_db (_set_progress target t stage pct (w_db w)) w).
Proof.
  intros W. unfold _set_progress. destruct (newest_of _ _ _ _); [|by destruct w]. by apply world_ok_other; [|apply keeps_secrets_eq|..].
Qed.

Lemma fetch_ok w http free swept r l1 l2 : serves http → w_runs w = l1 ++ r :: l2 → world_ok w →
  world_ok (with_runs (l1 ++ at_stage (import_fetch bracket_ok sha256_hex sg http free swept (rn_target r) (w_db w)) r :: l2) w).
Proof.
  intros S E W. apply world_ok_stage; [done|done|]. pose proof (import_fetch_stage http free swept (rn_target r) (w_db w)) as X.
  unfold run_ok. cbn. destruct (import_fetch _ _ _ _ _ _ _ _) as [|v ver sha data| | | | |] eqn:F; try done.
  apply import_fetch_ok in F as (V & b & B & E1 & E2); [|done|intros ?; by apply wo_bases]. split; [done|]. intros b' B'. by simplify_eq.
Qed.

Lemma provision_ok w free swept r l1 l2 : w_runs w = l1 ++ r :: l2 → world_ok w →
  world_ok (with_runs (l1 ++ at_stage (provision_build sha256_hex sg xz_d parted mcopy xz_z (w_cache w) free swept (rn_target r) (w_db w)) r :: l2) w).
Proof.
  intros E W. apply world_ok_stage; [done|done|]. pose proof (provision_build_stage (w_cache w) free swept (rn_target r) (w_db w)) as X.
  unfold run_ok. cbn. destruct (provision_build _ _ _ _ _ _ _ _ _ _ _) as [| | |name out| | |] eqn:F; try done.
  apply provision_build_ok in F as (p & P & N & M); [|done]. split; [rewrite <-N; by apply (po_name _ _ _ (wo_builds _ W _ _ P))|].
  intros p' P'. by simplify_eq.
Qed.

(** The containers may change without the rows. *)
Lemma world_ok_blobs w cache output l : world_ok w →
  (∀ path out, output !! path = Some out → w_output w !! path = Some out ∨
     ∀ k p, im_builds (w_db w) !! k = Some p → build_blob_path k (pv_output_name p) = path → made_for p (w_db w) out) →
  (∀ r, r ∈ l → r ∈ w_runs w ∨ run_ok w r) → world_ok (mkWorld (w_db w) cache output l (w_trash w)).
Proof.
  intros W O R. apply (world_ok_evolve w); cbn; [done|by apply keeps_secrets_eq| | |exact O|exact R].
  - intros k b B. split; [by eapply wo_bases|]. left. by exists b.
  - intros k p P. left. exists p. split; [done|]. by eapply evolves_refl, wo_builds.
Qed.
Lemma elem_of_restaged_runs (l1 l2 : list Run) r r' x : x ∈ l1 ++ r' :: l2 → x ∈ l1 ++ r :: l2 ∨ x = r'.
Proof. rewrite !elem_of_app, !elem_of_cons. tauto. Qed.

Lemma store_ok w variant version sha data r l1 l2 : w_runs w = l1 ++ r :: l2 → rn_stage r = Fetched variant version sha data → world_ok w →
  world_ok (mkWorld (w_db w) (<[base_blob_path variant version := data]> (w_cache w)) (w_output w)
              (l1 ++ at_stage (Stored variant version sha (Z.of_nat (length data))) r :: l2) (w_trash w)).
Proof.
  intros E St W. apply world_ok_blobs; [done|by left|]. intros x. rewrite E. intros [?| ->]%(elem_of_restaged_runs _ _ r); [by left|right].
  assert (R : run_ok w r) by (apply (wo_runs _ W); rewrite E; apply elem_of_app; right; left). unfold run_ok in *. rewrite St in R. done.
Qed.

Lemma send_ok w name out sha size r l1 l2 : w_runs w = l1 ++ r :: l2 → rn_stage r = Built name out → world_ok w →
  world_ok (mkWorld (w_db w) (w_cache w) (<[build_blob_path (rn_target r) name := out]> (w_output w))
              (l1 ++ at_stage (Sent name sha size) r :: l2) (w_trash w)).
Proof.
  intros E St W. assert (R : run_ok w r) by (apply (wo_runs _ W); rewrite E; apply elem_of_app; right; left).
  unfold run_ok in R. rewrite St in R. destruct R as [N R]. apply world_ok_blobs; [done| |].
  - intros path o [[<- <-]|[_ X]]%lookup_insert_Some; [|by left]. right. intros k p P X.
    apply build_path_inj in X as [-> _]; [by apply R|by apply (po_name _ _ _ (wo_builds _ W _ _ P))|done].
  - intros x. rewrite E. intros [?| ->]%(elem_of_restaged_runs _ _ r); [by left|right]. intros p P. by apply R.
Qed.

Lemma publish_ok w now variant version sha size r l1 l2 : w_runs w = l1 ++ r :: l2 → rn_stage r = Stored variant version sha size → world_ok w →
  world_ok (with_db (import_publish now (rn_target r) variant version sha size (w_db w)).1 w).
Proof.
  intros E St W. assert (R : run_ok w r) by (apply (wo_runs _ W); rewrite E; apply elem_of_app; right; left).
  unfold run_ok in R. rewrite St in R. destruct R as [V R]. unfold import_publish. destruct (im_bases (w_db w) !! rn_target r) as [b0|] eqn:B0; [|by destruct w].
  apply world_ok_base; [done|]. intros b B. assert (b0 = b) as -> by congruence. destruct (R b eq_refl) as [<- <-]. split; [|done]. destruct (wo_bases _ W _ _ B) as [Ex _ _].
  split; cbn; [done| |by split].
  intros ? [= <-]. eapply verified_lower; [|exact V]. by rewrite str_lower_lower.
Qed.

Lemma deliver_ok w now name sha size r l1 l2 : w_runs w = l1 ++ r :: l2 → rn_stage r = Sent name sha size → world_ok w →
  world_ok (with_db (provision_publish sg now (rn_target r) name sha size (w_db w)).1 w).
Proof.
  intros E St W. assert (R : run_ok w r) by (apply (wo_runs _ W); rewrite E; apply elem_of_app; right; left).
  unfold run_ok in R. rewrite St in R. unfold provision_publish. destruct (im_builds (w_db w) !! rn_target r) as [p0|] eqn:P0; [|by destruct w].
  apply world_ok_build; [done|]. intros p P. assert (p0 = p) as -> by congruence. rewrite <-(R p eq_refl). split; cbn; [by split_and!|by left|by right| |done]. split; [by intros []|done].
Qed.

Lemma note_ok w id job : world_ok w → world_ok (with_db (note_build_job id job (w_db w)).1 w).
Proof.
  intros W. unfold note_build_job. case_bool_decide; [|by destruct w]. apply world_ok_build; [done|]. intros p P.
  destruct (wo_builds _ W _ _ P) as [Pl _ _ _ Rd _]. split; cbn; [by split_and!|by left|by left|done|done].
Qed.

(** Every step keeps the invariant. *)
Lemma img_step_ok w w' : img_step w w' → world_ok w → world_ok w'.
Proof.
  destruct 1; intros W.
  - by apply settings_ok.
  - by apply create_fleet_ok.
  - by apply delete_fleet_ok.
  - by apply set_lib_ok.
  - by eapply import_ok.
  - apply (world_ok_trash (with_db db w)). by eapply delete_base_ok.
  - by apply build_row_ok.
  - by apply note_ok.
  - apply (world_ok_trash (with_db db w)). by eapply delete_build_ok.
  - by apply remove_blob_ok, world_ok_trash.
  - by apply world_ok_trash.
  - apply (world_ok_runs (with_db db w)); [by eapply preflight_ok|]. intros r [?| ->%list_elem_of_singleton]%elem_of_app; [by left|by right].
  - by eapply preflight_ok.
  - by apply progress_ok.
  - by apply fetch_ok.
  - by apply store_ok.
  - eapply (world_ok_stage (with_db _ w)); [by eapply publish_ok|done|done].
  - by apply provision_ok.
  - by apply send_ok.
  - eapply (world_ok_stage (with_db _ w)); [by eapply deliver_ok|done|done].
  - eapply (world_ok_stage (with_db _ w)); [|done|done]. case_bool_decide; [by apply terminal_base_ok|by apply terminal_build_ok].
  - by apply world_ok_stage.
  - eapply (world_ok_gone (with_db _ w)); [by apply set_lib_ok|done].
  - by eapply world_ok_gone.
Qed.

(** An installation without images, whatever the rest of its tables. *)
Definition no_images (w : World) : Prop :=
  im_bases (w_db w) = ∅ ∧ im_builds (w_db w) = ∅ ∧ w_runs w = [].
Lemma no_images_ok w : no_images w → world_ok w.
Proof. intros (B & P & R). split; intros *; [rewrite B|rewrite P|rewrite R]; [by rewrite lookup_empty..|by intros ?%elem_of_nil]. Qed.
Lemma reachable_world_ok w0 w : no_images w0 → rtc img_step w0 w → world_ok w.
Proof.
  intros N H. apply no_images_ok in N. induction H as [|x y z S _ IH]; [done|]. apply IH. by eapply img_step_ok.
Qed.

(** C19. What an operator downloads.  Whatever servers answer, whichever handlers run, fail, repeat or vanish, and whatever is
    deleted meanwhile: a download URL is for an image that was built for the row it belongs to, from a file whose SHA-256 some
    catalog of an allowed host announced for the row's variant and version, with the env of the row's fleet (its own
    secret) and of the row's WiFi; and the row no longer holds the secret. *)
Theorem image_provenance sign w0 w job_id id p url :
  no_images w0 → rtc img_step w0 w →
  _resolve_provisioned_sas sign (λ path, bool_decide (is_Some (w_output w !! path))) job_id (w_db w) = Ok (id, p, url) →
  ∃ out, w_output w !! build_blob_path id (pv_output_name p) = Some out ∧ url = sign (build_blob_path id (pv_output_name p)) ∧
    made_for p (w_db w) out ∧ pv_fleet_env_payload p = None.
Proof.
  intros N H. pose proof (reachable_world_ok _ _ N H) as W. unfold _resolve_provisioned_sas. destruct (im_jobs (w_db w) !! job_id) as [job|]; [|done].
  case_bool_decide; [|done]. case_bool_decide; [|done]. cbn [negb]. destruct (im_builds (w_db w) !! j_target_id job) as [q|] eqn:P; [|done].
  pose proof (wo_builds _ W _ _ P) as [Pl _ _ _ Rd Bl]. destruct (pv_blob_path q) as [[|c path]|] eqn:B; [done| |done].
  destruct (bool_decide_reflect (pv_status q = P_READY)) as [S|]; [|done]. cbn [negb].
  destruct (bool_decide (is_Some (w_output w !! String c path))) eqn:O; [|done]. cbn [negb]. intros [= <- <- <-].
  apply bool_decide_eq_true in O as [out O]. specialize (Rd S). injection Rd as Rd. rewrite Rd in O |- *. exists out. split_and!; [done|done|by apply Bl|].
  destruct (pv_fleet_env_payload q) as [bs|]; [|done]. destruct Pl as [Pl _]. rewrite S in Pl. by specialize (Pl ltac:(by eexists)).
Qed.

(** Secrets are kept exactly as long as a build is in work. *)
Lemma payload_while_building w0 w k p : no_images w0 → rtc img_step w0 w → im_builds (w_db w) !! k = Some p →
  is_Some (pv_fleet_env_payload p) ↔ pv_status p = P_PROVISIONING.
Proof. intros N H P. by destruct (wo_builds _ (reachable_world_ok _ _ N H) _ _ P). Qed.
End world.

(** ** From the build to the registration *)

(** A registration signed with a key for a fleet. *)
Definition fleet_signed (hmac_sha256_hex : bytes → bytes → string) (key : bytes) (fleet_id : string) (ts : Z) (h : FleetHeaders) (body : RegisterRequest) : Prop :=
  fh_id h = fleet_id ∧ fh_timestamp h = Z_str ts ∧ fh_nonce h ≠ "" ∧ fh_mac h ≠ "" ∧
  fh_mac h = compute_fleet_hmac hmac_sha256_hex key
    (fleet_hmac_input (rr_device_id body) (rr_pubkey body) (rr_hash body) fleet_id (Z_str ts) (fh_nonce h)).

Lemma signed_request_passes hmac st c h body a secret fleet_id ts :
  fleet_id ≠ "" → fleet_signed hmac secret fleet_id ts h body → (∀ k m, str_lower (hmac k m) = hmac k m) →
  get_fleet_secret fleet_id (ap_db a) = Ok (Some secret) → timestamp_within_skew (cl_now c) ts 300 = true →
  (check_and_record (st_nonce_ttl st) (cl_now c) ("fleet", fh_nonce h) (ap_nonces a)).2 = true →
  (_verify_fleet_hmac hmac st c h body a).2 = Ok ().
Proof.
  intros F (E1 & E2 & E3 & E4 & E5) L G T C. unfold _verify_fleet_hmac. cbv zeta. rewrite bool_decide_false.
  - rewrite E1, E2, int_of_Z_str, T. cbn [negb]. rewrite G. unfold verify_fleet_hmac. rewrite E5. unfold compute_fleet_hmac.
    rewrite bool_decide_true by (by rewrite L). cbn [negb snd]. by rewrite C.
  - rewrite E1, E2. intros [?|[X|[?|?]]]; [done| |done|done]. pose proof (int_of_Z_str ts) as Y. by rewrite X in Y.
Qed.

Lemma deleted_fleet_gone now fleet_id db : unique_by live_fleet (bt_fleets db) →
  get_fleet_secret fleet_id (delete_fleet now fleet_id db).1 = Ok None.
Proof.
  intros U. unfold delete_fleet, get_fleet_secret. destruct (rows_where (active_fleet fleet_id) (bt_fleets db)) as [|[i f] l] eqn:R; [cbn; by rewrite ?R|].
  cbn. apply rows_where_head in R as [A R].
  assert (Hn : rows_where (active_fleet fleet_id) (<[i := mkFleet (fl_fleet_id f) (fl_secret_b64 f) (Some now)]> (bt_fleets db)) = []); [|by rewrite Hn].
  apply rows_where_nil. intros j g [[<- <-]|[Nj G]]%lookup_insert_Some; unfold active_fleet in *; cbn [fl_fleet_id fl_deleted_at]; [by rewrite andb_false_r|].
  destruct (bool_decide (fl_fleet_id g = fleet_id) && bool_decide (fl_deleted_at g = None)) eqn:X; [|done]. exfalso. apply Nj.
  apply andb_true_iff in A as [A1 A2], X as [X1 X2]. apply bool_decide_eq_true in A1, A2, X1, X2.
  apply (U i j f g fleet_id); [done|done|..]; unfold live_fleet; rewrite bool_decide_true by done; by f_equal.
Qed.

(** C20. An image works until its fleet is deleted.  The env that a build puts on an image, read from the unpacked image line by
    line, gives the device the fleet and the secret with which its registration passes the check of the registration
    endpoint; once the fleet is deleted, the same requests are refused.  Names and WiFi data must not hold line breaks,
    which the endpoint does not check. *)
Theorem flashed_device_registers bracket_ok sg xz_d parted mcopy xz_z mcopy_out hmac st now user id job outbox body db db' p payload text data out :
  image_tools xz_d parted mcopy xz_z mcopy_out → (∀ k m, str_lower (hmac k m) = hmac k m) → unique_by live_fleet (bt_fleets (im_fleets db)) →
  build_provisioned_image bracket_ok sg now user id job outbox body db = (db', Ok id) →
  one_line (bb_fleet_id body) → (∀ ssid psk, body_wifi body = Some (ssid, psk) → one_line ssid ∧ one_line psk) →
  im_builds db' !! id = Some p → pv_fleet_env_payload p = Some payload → utf8_decode payload = Some text →
  build_provisioned xz_d parted mcopy xz_z data text (pv_output_name p) = Ok out →
  ∃ img env hex key, xz_d out = Some img ∧ read_fleet_env parted mcopy_out img = Ok env ∧
    aget "AGORA_FLEET_ID" (env_pairs env) = Some (bb_fleet_id body) ∧ aget "AGORA_FLEET_SECRET_HEX" (env_pairs env) = Some hex ∧ fromhex hex = Some key ∧
    ∀ c h rq a ts, fleet_signed hmac key (bb_fleet_id body) ts h rq → timestamp_within_skew (cl_now c) ts 300 = true →
      (check_and_record (st_nonce_ttl st) (cl_now c) ("fleet", fh_nonce h) (ap_nonces a)).2 = true →
      (ap_db a = im_fleets db' → (_verify_fleet_hmac hmac st c h rq a).2 = Ok ()) ∧
      (∀ t, ap_db a = (delete_fleet t (bb_fleet_id body) (im_fleets db')).1 → (_verify_fleet_hmac hmac st c h rq a).2 = Err (HTTPException 401)).
Proof.
  intros L Hmac U B F Wi P Pl T O. unfold build_provisioned_image in B. destruct (body_ok body) eqn:Body; [|done]. cbn [negb] in B.
  destruct (is_valid_output_name _); [|done]. destruct (name_ok (bb_fleet_id body)) eqn:Nm; [|done]. cbn [negb] in B.
  destruct (fleet_for_build bracket_ok sg (bb_fleet_id body) db) as [[secret url]|] eqn:Fl; [|done].
  destruct (im_bases db !! bb_base_image_id body) as [b|]; [|done]. destruct (negb _); [done|]. case_bool_decide; [done|].
  destruct (enqueue_image_job _ _ _ _ _ _) as [db2|] eqn:E; [|done]. injection B as <-. apply enqueue_image_job_db in E as [lib ->]. cbn in P.
  rewrite lookup_insert, decide_True in P by done. injection P as <-. cbn in Pl. injection Pl as <-.
  assert (Dec : utf8_valid (utf8_encode text) = true ∧ text = fleet_env_text url (bb_fleet_id body) secret (sg_device_transport sg) (body_wifi body)).
  { unfold utf8_decode in T. destruct (utf8_valid _) eqn:V; [|done]. injection T as <-. unfold _fleet_env_payload, utf8_encode in *.
    by rewrite !String.string_of_list_byte_of_string. }
  destruct Dec as [V ->]. destruct (build_carries_env _ _ _ _ _ _ _ _ _ L V O) as (img & X & R).
  unfold fleet_for_build in Fl. destruct (get_fleet_secret _ _) as [[s|]|] eqn:G; try done. destruct (bool_decide_reflect (sg_device_transport sg ∈ ["local"; "wps"])) as [Tr|]; [|done].
  cbn [negb] in Fl. case_bool_decide; [done|]. destruct (_derive_device_ws_url _ _) as [u|] eqn:D; [|done]. injection Fl as -> ->.
  assert (Env : env_pairs (fleet_env_text url (bb_fleet_id body) secret (sg_device_transport sg) (body_wifi body)) = _) by
    (apply fleet_env_pairs; [by eapply derive_ws_one_line|done|by repeat (apply elem_of_cons in Tr as [->|Tr]; [done|]); apply elem_of_nil in Tr|done]).
  exists img, (fleet_env_text url (bb_fleet_id body) secret (sg_device_transport sg) (body_wifi body)), (bytes_hex secret), secret. rewrite Env.
  split_and!; [done|done|done|done|apply fromhex_hex|]. intros c h rq a ts S Sk C.
  assert (Ne : bb_fleet_id body ≠ "") by (intros Z; unfold body_ok in Body; rewrite Z in Body; done). split.
  - intros Ha. eapply signed_request_passes; [done|done|done| |done|done]. by rewrite Ha.
  - intros t Ha. unfold _verify_fleet_hmac. cbv zeta. destruct S as (E1 & E2 & _). destruct (bool_decide (fh_id h = "" ∨ _)); [done|]. rewrite E2, int_of_Z_str, Sk. cbn [negb].
    rewrite E1, Ha, deleted_fleet_gone; done.
Qed.

(** ** Requests that nothing disturbs are served *)

Lemma drop_final_newline_id s : one_line s → drop_final_newline s = s.
Proof.
  intros A%one_line_str_all. unfold drop_final_newline. destruct (before_last _ _) as [t|]; [|done]. case_bool_decide as E; [exfalso|done].
  rewrite E, str_all_app in A. by apply andb_true_iff in A as [_ A].
Qed.
Lemma plain_one_line s : str_all plain_char s = true → one_line s.
Proof. intros A. apply one_line_str_all. eapply str_all_impl; [|exact A]. intros c. by destruct c as [[] [] [] [] [] [] [] []]. Qed.

Lemma base_path_is_ok variant version : segment_ok variant = true → segment_ok version = true →
  base_path_ok (base_blob_path variant version) = true.
Proof.
  intros V W. unfold segment_ok in V, W. apply andb_true_iff in V as [V1 V2], W as [W1 W2]. unfold base_path_ok.
  assert (N : ∀ s, str_all plain_char s = true → has_char "/" s = false).
  { intros s A. unfold has_char. apply bool_decide_eq_false. intros [y Y]. destruct (str_partition "/" s) as [x [z|]] eqn:P; [|done].
    apply str_partition_app in P. rewrite P, str_all_app in A. apply andb_true_iff in A as [_ A]. done. }
  assert (D : drop_final_newline (base_blob_path variant version) = base_blob_path variant version).
  { apply drop_final_newline_id. unfold base_blob_path. apply one_line_app; [by apply plain_one_line|]. apply one_line_app; [done|].
    apply one_line_app; [by apply plain_one_line|done]. }
  rewrite D. unfold base_blob_path. change ("/" +:+ version +:+ "/base.img.xz") with (String "/" (version +:+ String "/" "base.img.xz")).
  rewrite !split_on_app, !str_partition_none by (by apply N). cbn [app]. unfold segment_ok. by rewrite V1, V2, W1, W2.
Qed.

Section served.
Context (bracket_ok : string → bool) (bigint : Json → result exn Z) (sha256_hex : bytes → string) (sg : ImgSettings).
Context (xz_d : bytes → option bytes) (parted : bytes → option string) (mcopy : bytes → Z → bytes → option bytes) (xz_z : bytes → option bytes).
Context (sign : string → string).

(** An import whose source delivers the announced bytes makes the base image ready. *)
Lemma import_completes http free swept now id db cache b url sha chunks :
  im_bases db !! id = Some b → bi_status b ≠ B_READY → bi_source_url b = Some url → bi_expected_sha256 b = Some sha → url ≠ "" →
  segment_ok (bi_variant b) = true → segment_ok (bi_version b) = true →
  space_ok (import_needed (sg_min_free_bytes sg) (bi_size_bytes b)) free swept = true →
  allowed bracket_ok (allowlist sg) url → http url = Answer chunks false → is_sha256_text sha = true →
  str_lower (sha256_hex (concat chunks)) = str_lower sha →
  let path := base_blob_path (bi_variant b) (bi_version b) in
  import_base_image_by_id bracket_ok sha256_hex sg http free swept now id db cache =
    (on_base id (ready_base now (sha256_hex (concat chunks)) (Z.of_nat (length (concat chunks))) path) db, <[path := concat chunks]> cache, Returned true).
Proof.
  intros B St U E Ne V W Sp A H T Sh path. unfold import_base_image_by_id, import_fetch. rewrite B, bool_decide_false by done. rewrite Sp. cbn [negb].
  unfold import_source. rewrite U, E. rewrite truthy_nonempty by done. rewrite truthy_nonempty by (intros ->; done). cbn [mbind result_bind import_download].
  rewrite (download_good _ _ _ _ _ _ chunks) by done. rewrite base_path_is_ok by done. unfold import_publish. by rewrite B.
Qed.

Lemma lower_text_is_sha s : is_sha256_text s = true → drop_final_newline s = s → is_sha256_text (str_lower s) = true.
Proof.
  unfold is_sha256_text. intros H D. rewrite D in H. apply andb_true_iff in H as [H1 H2].
  assert (D' : drop_final_newline (str_lower s) = str_lower s).
  { apply drop_final_newline_id, one_line_str_all. clear -H2. unfold str_lower. induction s as [|c s IH]; [done|]. cbn in *.
    apply andb_true_iff in H2 as [H H2]. rewrite IH by done. rewrite andb_true_r. by destruct c as [[] [] [] [] [] [] [] []]. }
  rewrite D'. apply andb_true_iff. unfold str_lower. split.
  - rewrite <-H1. clear. f_equal. induction s as [|c s IH]; [done|]. cbn. by f_equal.
  - clear -H2. induction s as [|c s IH]; [done|]. cbn in *. apply andb_true_iff in H2 as [H H2]. rewrite IH by done.
    rewrite andb_true_r. by destruct c as [[] [] [] [] [] [] [] []].
Qed.

(** A build in work whose base image is in the cache ends with its image. *)
Lemma provision_completes free swept now id db cache output p k b data payload text out :
  im_builds db !! id = Some p → pv_status p ≠ P_READY → pv_base_image_id p = Some k → im_bases db !! k = Some b → bi_status b = B_READY →
  segment_ok (bi_variant b) = true → segment_ok (bi_version b) = true →
  bi_blob_path b = Some (base_blob_path (bi_variant b) (bi_version b)) → bi_sha256 b = Some (str_lower (sha256_hex data)) →
  is_sha256_text (sha256_hex data) = true → drop_final_newline (sha256_hex data) = sha256_hex data →
  cache !! base_blob_path (bi_variant b) (bi_version b) = Some data →
  pv_fleet_env_payload p = Some payload → utf8_decode payload = Some text → space_ok (sg_min_free_bytes sg) free swept = true →
  build_provisioned xz_d parted mcopy xz_z data text (pv_output_name p) = Ok out →
  let path := build_blob_path id (pv_output_name p) in
  provision_image_by_id sha256_hex sg xz_d parted mcopy xz_z free swept now id db cache output =
    (on_build id (ready_build sg now (sha256_hex out) (Z.of_nat (length out)) path) db, <[path := out]> output, Returned true).
Proof.
  intros P St K B Rd V W Path Sha T D C Pl Tx Sp O path. unfold provision_image_by_id, provision_build. rewrite P, bool_decide_false by done.
  rewrite K. cbn [mbind option_bind]. rewrite B, Rd, Path, truthy_nonempty by (unfold base_blob_path; destruct (bi_variant b); done).
  rewrite base_path_is_ok by done. cbn [negb]. rewrite Sha, truthy_nonempty by (destruct (sha256_hex data); done). rewrite lower_text_is_sha by done.
  cbn [negb]. rewrite Pl, Tx, Sp. cbn [negb]. rewrite C, str_lower_lower, bool_decide_true by done. cbn [negb]. rewrite O.
  unfold provision_publish. by rewrite P.
Qed.

(** The accepted request: the row and its pending job. *)
Lemma build_accepted now user id job outbox body db db1 :
  build_provisioned_image bracket_ok sg now user id job outbox body db = (db1, Ok id) →
  ∃ b payload, im_bases db !! bb_base_image_id body = Some b ∧ bi_status b = B_READY ∧ im_bases db1 = im_bases db ∧
    im_builds db1 !! id = Some (build_row now user body b payload) ∧ im_jobs db1 !! job = Some (new_job job IMAGE_PROVISION id now).
Proof.
  unfold build_provisioned_image. destruct (negb (body_ok body)); [done|]. destruct (negb _); [done|].
  destruct (negb (name_ok _)); [done|]. destruct (fleet_for_build _ _ _ _) as [[secret url]|]; [|done].
  destruct (im_bases db !! bb_base_image_id body) as [b|]; [|done]. case_bool_decide as Rd; [|done]. cbn [negb]. case_bool_decide; [done|].
  unfold enqueue_image_job, enqueue_job. destruct (insert_job _ _) as [jobs|] eqn:J; cbn [mbind result_bind]; [|done]. intros [= <-].
  unfold insert_job in J. destruct (bool_decide _); [done|]. unfold put_job in J. cbn in J. injection J as <-.
  eexists b, _. split_and!; [done|done|done|..]; cbn; by rewrite lookup_insert, decide_True.
Qed.

(** The claim of a fresh job of the imager. *)
Lemma preflight_fresh now job id t now0 db : im_jobs db !! job = Some (new_job job t id now0) → t = IMAGE_IMPORT ∨ t = IMAGE_PROVISION →
  ∃ lib, imager_preflight now job db = Ok (set_lib lib db, RunJob (claimed now (new_job job t id now0))) ∧
    lb_jobs lib !! job = Some (claimed now (new_job job t id now0)).
Proof.
  unfold im_jobs, lb_jobs. intros J T. unfold imager_preflight, preflight, claim_job. rewrite J.
  assert (X : put_job job (claimed now (new_job job t id now0)) (js_jobs (lb_store (im_lib db))) =
    Ok (<[job := claimed now (new_job job t id now0)]> (js_jobs (lb_store (im_lib db))))) by by destruct T as [-> | ->].
  rewrite X. cbn [mbind result_bind]. eexists. split; [by destruct T as [-> | ->]|]. cbn. by rewrite lookup_insert, decide_True.
Qed.

(** C21. A build that is accepted is delivered: if its base image is in the cache and the tools succeed, the worker that picks up the
    job builds and uploads the image, the job ends DONE, its message is removed, and the download endpoint hands out
    the URL of exactly that image. *)
Theorem image_delivered now user id job outbox body db db1 b data text out cache output now1 free swept now2 now3 other etext :
  build_provisioned_image bracket_ok sg now user id job outbox body db = (db1, Ok id) →
  im_bases db !! bb_base_image_id body = Some b → segment_ok (bi_variant b) = true → segment_ok (bi_version b) = true →
  bi_blob_path b = Some (base_blob_path (bi_variant b) (bi_version b)) → bi_sha256 b = Some (str_lower (sha256_hex data)) →
  is_sha256_text (sha256_hex data) = true → drop_final_newline (sha256_hex data) = sha256_hex data →
  cache !! base_blob_path (bi_variant b) (bi_version b) = Some data →
  (∀ p, im_builds db1 !! id = Some p → (payload ← pv_fleet_env_payload p; utf8_decode payload) = Some text) →
  build_provisioned xz_d parted mcopy xz_z data text (bb_output_name body) = Ok out → space_ok (sg_min_free_bytes sg) free swept = true →
  ∃ db2 row, imager_preflight now1 job db1 = Ok (db2, RunJob row) ∧ j_target_id row = id ∧
    let '(db3, output', e) := provision_image_by_id sha256_hex sg xz_d parted mcopy xz_z free swept now2 (j_target_id row) db2 cache output in
    e = Returned true ∧ output' !! build_blob_path id (bb_output_name body) = Some out ∧
    ∃ lib p, finalize now3 job row (run_end etext other e) (im_lib db3) = Ok (lib, true) ∧
      _resolve_provisioned_sas sign (λ path, bool_decide (is_Some (output' !! path))) job (set_lib lib db3) =
        Ok (id, p, sign (build_blob_path id (bb_output_name body))).
Proof.
  intros B Hb Vs Ws Path Sha T D C Txt O Sp. apply build_accepted in B as (b' & payload & Hb' & Rd & Eb & P & J). assert (b' = b) as -> by congruence.
  destruct (preflight_fresh now1 job id IMAGE_PROVISION now db1 J) as (lib & Pf & Jl); [by right|].
  specialize (Txt _ P). cbn [pv_fleet_env_payload build_row mbind option_bind] in Txt.
  eexists _, _. split_and!; [exact Pf|done|]. change (j_target_id (claimed now1 (new_job job IMAGE_PROVISION id now))) with id.
  rewrite (provision_completes free swept now2 id (set_lib lib db1) cache output (build_row now user body b payload) (bb_base_image_id body) b data payload text out);
    [|done|done|done|cbn; congruence|done..].
  cbn [pv_output_name build_row]. split_and!; [done|by rewrite lookup_insert, decide_True|]. eexists _, _. split; [reflexivity|].
  set (db4 := set_lib _ _). assert (Hj : im_jobs db4 !! job = Some (finish J_DONE "" now3 (claimed now1 (new_job job IMAGE_PROVISION id now)))).
  { unfold db4, im_jobs, lb_jobs. cbn [im_lib set_lib lb_store set_store]. unfold mark_done, lb_jobs in *. cbn [im_lib on_build set_builds set_lib].
    rewrite Jl. change (is_terminal _) with false. cbn [js_jobs]. by rewrite lookup_insert, decide_True. }
  assert (Hp : im_builds db4 !! id = Some (ready_build sg now2 (sha256_hex out) (Z.of_nat (length out)) (build_blob_path id (bb_output_name body))
    (build_row now user body b payload))).
  { unfold db4. cbn [im_builds set_lib on_build set_builds]. by rewrite lookup_alter, decide_True, P. }
  unfold _resolve_provisioned_sas. rewrite Hj. cbn [j_type j_status j_target_id finish]. change (j_target_id (claimed _ _)) with id.
  rewrite Hp. cbn [pv_blob_path pv_status ready_build]. rewrite (bool_decide_true (is_Some _)) by (rewrite lookup_insert, decide_True by done; by eexists).
  change (bool_decide (j_type (claimed _ _) = IMAGE_PROVISION)) with true. unfold build_blob_path. by destruct id.
Qed.
End served.

(** The mirror of an exhausted job, exactly: a target in work whose newest job this is becomes FAILED with the
    job's message, and a build loses its secret; nothing else changes. *)
Lemma exhaustion_exact job_id job db : j_type job = IMAGE_IMPORT ∨ j_type job = IMAGE_PROVISION →
  let r := mark_target_failed_on_exhaustion job_id job db in
  let f := F_retries (exhaustion_message job) in
  let owner := match newest_of (j_type job) (j_target_id job) false db with Some k => k = job_id | None => True end in
  (r.2 = mr_updated ∧ owner ∧
     ((j_type job = IMAGE_IMPORT ∧ (∃ b, im_bases db !! j_target_id job = Some b ∧ bi_status b = B_IMPORTING) ∧
       r.1 = on_base (j_target_id job) (failed_base f) db) ∨
      (j_type job = IMAGE_PROVISION ∧ (∃ p, im_builds db !! j_target_id job = Some p ∧ pv_status p = P_PROVISIONING) ∧
       r.1 = on_build (j_target_id job) (failed_build f) db))) ∨
  (r.1 = db ∧ r.2 ≠ mr_updated ∧
     (¬ owner ∨ (j_type job = IMAGE_IMPORT ∧ ∀ b, im_bases db !! j_target_id job = Some b → bi_status b ≠ B_IMPORTING) ∨
      (j_type job = IMAGE_PROVISION ∧ ∀ p, im_builds db !! j_target_id job = Some p → pv_status p ≠ P_PROVISIONING))).
Proof.
  intros T r f owner. subst r. unfold mark_target_failed_on_exhaustion. rewrite (bool_decide_true (j_type job ∈ _)) by (destruct T as [-> | ->]; set_solver).
  cbn [negb]. assert (O : (match newest_of (j_type job) (j_target_id job) false db with Some k => negb (bool_decide (k = job_id)) | None => false end) = true ↔ ¬ owner).
  { subst owner. destruct (newest_of _ _ _ _); [|naive_solver]. by rewrite negb_true_iff, bool_decide_eq_false. }
  destruct (match newest_of _ _ _ _ with Some _ => _ | None => _ end).
  { right. split_and!; [done|done|]. left. by apply O. }
  assert (Ow : owner). { subst owner. destruct (newest_of _ _ _ _) as [k|]; [|done]. destruct (decide (k = job_id)) as [->|N]; [done|]. by apply O in N. }
  clear O. destruct T as [-> | ->].
  - rewrite bool_decide_true by done. destruct (im_bases db !! j_target_id job) as [b|]; [|right; naive_solver].
    case_bool_decide as S; cbn [negb]; [left; split_and!; [done|done|]; left; split_and!; [done|by exists b|done]|].
    right. split_and!; [done|done|]. right; left. split; [done|]. by intros ? [= <-].
  - rewrite (bool_decide_false (IMAGE_PROVISION = IMAGE_IMPORT)) by done. destruct (im_builds db !! j_target_id job) as [p|]; [|right; naive_solver].
    case_bool_decide as S; cbn [negb]; [left; split_and!; [done|done|]; right; split_and!; [done|by exists p|done]|].
    right. split_and!; [done|done|]. right; right. split; [done|]. by intros ? [= <-].
Qed.

(** ** A small installation *)

Definition toy_host (_ : string) : bool := true.
Definition toy_sha (_ : bytes) : string := "00000000000000000000000000000000000000000000000000000000000000AB".
Definition toy_bigint (v : Json) : result exn Z := match v with JNum q => Ok (Qnum q) | _ => Err RuntimeError end.
Definition toy_unpack (b : bytes) : option bytes := Some b.
Definition toy_parted (_ : bytes) : option string := Some (parted_text (λ _, "") [mkPartition "FAT32" 512; mkPartition "ext4" 4096]).
Definition toy_mcopy (img : bytes) (off : Z) (data : bytes) : option bytes := Some data.
Definition toy_mcopy_out (img : bytes) (off : Z) : option bytes := Some img.
Definition toy_sign (path : string) : string := "https://blobs/" +:+ path.
Definition toy_settings : ImgSettings := mkImgSettings "github.com" (Some "https://agora.example.com/") "local" 24 (6 * 1024 * MiB).

Definition toy_catalog : Json :=
  JObj [("version", JStr "v1"); ("variants", JArr [JObj [("variant", JStr "pi5"); ("url", JStr "https://github.com/pi5.img.xz");
    ("sha256", JStr "00000000000000000000000000000000000000000000000000000000000000ab"); ("compressedBytes", JNum (inject_Z 5))]])].
Definition toy_doc : list (string * Json) := match _normalize_catalog toy_catalog with Ok d => d | Err _ => [] end.
Definition toy_data : bytes := [x01; x02; x03].
Definition toy_http (url : string) : Response :=
  if bool_decide (url = "https://github.com/catalog.json") then Answer [utf8_encode (json_dumps (λ _, "") toy_catalog)] false
  else Answer [toy_data] false.

Definition toy_fleets : BootDb := put_fleets {["f1" := mkFleet "shop" (b64encode [x01; x02]) None]} empty_db.
Definition no_media : Lib := mkLib [] (mkMedia [] [] [] [] []) (mkStore ∅ []) [] [] [] [] [] [] ∅.
Definition installation : ImgDb := mkImgDb ∅ ∅ no_media ∅ toy_fleets (Some "https://github.com/catalog.json").
Definition toy_body : BuildBody := mkBuildBody "b1" "shop" "shop.img.xz" (Some "guest") (Some "password").

(** The row of a catalog import, and the request that makes it. *)
Definition toy_entry : list (string * Json) :=
  match import_resolve toy_host toy_settings toy_http "pi5" "v1" installation with Ok e => e | Err _ => [] end.
Definition request_import (now : Z) (id job : uuid) (db : ImgDb) : ImgDb :=
  (import_base_image toy_bigint now "admin" id job ("o" +:+ job) (λ _, true) "pi5" "v1" toy_entry db).1.
Definition work_import (id : uuid) (dbc : ImgDb * gmap string bytes) : ImgDb * gmap string bytes :=
  (import_base_image_by_id toy_host toy_sha toy_settings toy_http (10 * 1024 * MiB) None 3 id dbc.1 dbc.2).1.
Definition with_base : ImgDb * gmap string bytes := work_import "b1" (request_import 1 "b1" "j1" installation, ∅).
Definition request_build (now : Z) (id job : uuid) (body : BuildBody) (db : ImgDb) : ImgDb * result exn uuid :=
  build_provisioned_image toy_host toy_settings now "admin" id job ("o" +:+ job) body db.
Definition status_of_base (id : uuid) (db : ImgDb) : option BaseImageStatus := bi_status <$> im_bases db !! id.

Example catalog_imported : status_of_base "b1" with_base.1 = Some B_READY ∧ with_base.2 !! "pi5/v1/base.img.xz" = Some toy_data.
Proof. vm_compute. done. Qed.

(** The size of the catalog (5) is on the row, but the stamped import does not compare it with the file (3 bytes). *)
Example stamped_size_unchecked :
  (bi_size_bytes <$> im_bases (request_import 1 "b1" "j1" installation) !! "b1") = Some (Some 5) ∧
  (bi_size_bytes <$> im_bases with_base.1 !! "b1") = Some (Some 3).
Proof. vm_compute. done. Qed.

(** A worker that is shut down leaves its job "for the staleness monitor", which only looks at transcodes; one that
    times out fails the job only.  Either way the image stays IMPORTING, no message is left, and importing it again
    does nothing. *)
Definition shut_down (timeout : bool) : ImgDb :=
  let db := request_import 1 "b1" "j1" installation in
  match imager_preflight 2 "j1" db with
  | Ok (db', RunJob row) =>
      match finalize 3 "j1" row (mkEnd true timeout false false false false false None) (im_lib db') with Ok (lib, _) => set_lib lib db' | Err _ => db end
  | _ => db
  end.
Definition monitored (db : ImgDb) : ImgDb :=
  match recover_stalled_variants_once (λ n, ("x", "y")) (λ _, false) 1000000000000 (im_lib db) with Ok (lib, _) => set_lib lib db | Err _ => db end.
Example interrupted_import_stuck :
  let after t := request_import 9 "b2" "j2" (monitored (shut_down t)) in
  (status_of_base "b1" (after false), j_status <$> im_jobs (after false) !! "j1", im_jobs (after false) !! "j2") = (Some B_IMPORTING, Some J_PROCESSING, None) ∧
  (status_of_base "b1" (after true), j_status <$> im_jobs (after true) !! "j1", im_jobs (after true) !! "j2") = (Some B_IMPORTING, Some J_FAILED, None).
Proof. vm_compute. done. Qed.

(** A second delivery of the import that fails for good takes a READY image back; builds are then refused. *)
Example late_failure_unreadies_base :
  let db := _set_base_image_terminal "b1" F_redirects with_base.1 in
  status_of_base "b1" db = Some B_FAILED ∧ (request_build 5 "p1" "j2" toy_body db).2 = Err (HTTPException 409).
Proof. vm_compute. done. Qed.

(** The blob of a deleted base image is removed after the commit: an import of the same version in between loses its
    file, and the READY image fails every build. *)
Example delete_race_loses_blob :
  match delete_base_image "b1" with_base.1 with
  | Ok (db, Some path) =>
      let '(db2, cache2) := work_import "b2" (request_import 5 "b2" "j2" db, with_base.2) in
      status_of_base "b2" db2 = Some B_READY ∧ (delete path cache2) !! path = None ∧
      provision_build toy_sha toy_settings toy_unpack toy_parted toy_mcopy toy_unpack (delete path cache2) (10 * 1024 * MiB) None "p1"
        (request_build 6 "p1" "j3" (mkBuildBody "b2" "shop" "shop.img.xz" None None) db2).1 = Over RaisedOther
  | _ => False
  end.
Proof. vm_compute. done. Qed.

(** Deleting a base image fails the builds that are still queued. *)
Example deleted_base_fails_build :
  match delete_base_image "b1" (request_build 5 "p1" "j2" toy_body with_base.1).1 with
  | Ok (db, _) => provision_build toy_sha toy_settings toy_unpack toy_parted toy_mcopy toy_unpack with_base.2 (10 * 1024 * MiB) None "p1" db =
                  Failing (F_base_missing None)
  | Err _ => False
  end.
Proof. vm_compute. done. Qed.

(** A name with a final line break is accepted and fails in the worker. *)
Example newline_output_name : let name := "shop.img.xz" +:+ NEWLINE in is_valid_output_name name = true ∧ safe_output name = false.
Proof. vm_compute. done. Qed.

(** A network name with a line break adds variables of its own to the env. *)
Example wifi_writes_env :
  let body := mkBuildBody "b1" "shop" "shop.img.xz" (Some ("x" +:+ NEWLINE +:+ "AGORA_CMS_URL=wss://evil")) (Some "password") in
  body_ok body = true ∧
  ("AGORA_CMS_URL", "wss://evil") ∈ env_pairs (fleet_env_text "wss://agora.example.com/ws/device" "shop" [x01] "local" (body_wifi body)).
Proof. split; [by vm_compute|]. apply (bool_decide_unpack _). by vm_compute. Qed.

(** The list of built images does not carry the WiFi that its model promises. *)
Example wifi_not_listed :
  let db := (request_build 5 "p1" "j2" toy_body with_base.1).1 in
  (pv_wifi <$> im_builds db !! "p1") = Some (Some ("guest", "password")) ∧ (bo_wifi <$> list_provisioned_images db) = [None].
Proof. vm_compute. done. Qed.

(** ** A run of the whole system *)

Definition toy_served (doc : list (string * Json)) : Prop := doc = toy_doc.
Lemma toy_serves : serves toy_host toy_settings toy_served toy_http.
Proof.
  intros url doc. unfold fetch_catalog, fetch. destruct (validate_url _ url _) as [target|] eqn:V; [|done]. apply validate_url_ok in V as [-> _].
  unfold walk, toy_http, MAX_REDIRECTS. cbn [fst snd]. case_bool_decide; cbn [fst snd].
  - assert (E : read_catalog (concat [utf8_encode (json_dumps (λ _, "") toy_catalog)]) = Ok toy_doc) by (by vm_compute).
    rewrite E. by intros [= <-].
  - assert (E : read_catalog (concat [toy_data]) = Err (CatalogError F_not_json)) by (by vm_compute). by rewrite E.
Qed.

Notation toy_step := (img_step toy_host toy_bigint toy_sha toy_settings toy_unpack toy_parted toy_mcopy toy_unpack toy_served).
Definition toy_world : World := mkWorld installation ∅ ∅ [] [].

Ltac toy_now := match goal with |- rtc _ ?w _ => let w' := eval vm_compute in w in change w with w' end.

Lemma toy_run : ∃ w p, rtc toy_step toy_world w ∧
  _resolve_provisioned_sas toy_sign (λ path, bool_decide (is_Some (w_output w !! path))) "j2" (w_db w) = Ok ("p1", p, "https://blobs/p1/shop.img.xz").
Proof.
  eexists _, _. split.
  - eapply rtc_l; [eapply (is_import _ _ _ _ _ _ _ _ _ toy_http 1 "admin" "b1" "j1" "oj1" (λ _, true) "pi5" "v1" toy_entry installation);
      [exact toy_serves|by vm_compute|split; [by intros ? ?%elem_of_nil|by intros]]|]. toy_now.
    eapply rtc_l; [eapply (is_claim _ _ _ _ _ _ _ _ _ 2 "j1"); vm_compute; reflexivity|]. toy_now.
    eapply rtc_l; [eapply (is_fetch _ _ _ _ _ _ _ _ _ toy_http (10 * 1024 * MiB) None _ []); [exact toy_serves|reflexivity..]|]. toy_now.
    eapply rtc_l; [eapply (is_store _ _ _ _ _ _ _ _ _ _ _ _ _ _ []); reflexivity|]. toy_now.
    eapply rtc_l; [eapply (is_publish _ _ _ _ _ _ _ _ _ 3 _ _ _ _ _ []); reflexivity|]. toy_now.
    eapply rtc_l; [eapply (is_build _ _ _ _ _ _ _ _ _ 4 "admin" "p1" "j2" "oj2" toy_body); split;
      [by intros ? ->%list_elem_of_singleton|by intros name; reflexivity]|]. toy_now.
    eapply rtc_l; [eapply (is_claim _ _ _ _ _ _ _ _ _ 5 "j2"); vm_compute; reflexivity|]. toy_now.
    eapply rtc_l; [eapply (is_provision _ _ _ _ _ _ _ _ _ (10 * 1024 * MiB) None _ [_]); reflexivity|]. toy_now.
    eapply rtc_l; [eapply (is_send _ _ _ _ _ _ _ _ _ _ _ _ [_]); reflexivity|]. toy_now.
    eapply rtc_l; [eapply (is_deliver _ _ _ _ _ _ _ _ _ 6 _ _ _ _ [_]); reflexivity|]. toy_now.
    eapply rtc_l; [eapply (is_finalize _ _ _ _ _ _ _ _ _ 7 (new_job "j2" IMAGE_PROVISION "p1" 4) (run_end (λ _, "") "" (Returned true)) _ _ _ [_]);
      [reflexivity|reflexivity|vm_compute; reflexivity]|]. toy_now.
    apply rtc_refl.
  - vm_compute. reflexivity.
Qed.

(** ** Witnesses *)

(** The download of the small installation. *)
Lemma image_provenance_witness : ∃ w p out, w_output w !! build_blob_path "p1" (pv_output_name p) = Some out ∧
  made_for toy_host toy_sha toy_settings toy_unpack toy_parted toy_mcopy toy_unpack toy_served p (w_db w) out ∧ pv_fleet_env_payload p = None.
Proof.
  destruct toy_run as (w & p & R & S).
  destruct (image_provenance toy_host toy_bigint toy_sha toy_settings toy_unpack toy_parted toy_mcopy toy_unpack toy_served toy_sign
    toy_world w "j2" "p1" p "https://blobs/p1/shop.img.xz") as (out & O & _ & M & P); [by split_and!|exact R|exact S|].
  by exists w, p, out.
Defined.

Lemma toy_tools : image_tools toy_unpack toy_parted toy_mcopy toy_unpack toy_mcopy_out.
Proof. split; [by intros ? ? [= ->]|done|]. by intros img off data img' [= <-]. Qed.

Lemma flashed_device_registers_witness : ∃ env hex key, aget "AGORA_FLEET_ID" (env_pairs env) = Some "shop" ∧
  aget "AGORA_FLEET_SECRET_HEX" (env_pairs env) = Some hex ∧ fromhex hex = Some key.
Proof.
  set (db' := (request_build 5 "p1" "j2" toy_body with_base.1).1).
  set (text := fleet_env_text "wss://agora.example.com/ws/device" "shop" [x01; x02] "local" (Some ("guest", "password"))).
  destruct (flashed_device_registers toy_host toy_settings toy_unpack toy_parted toy_mcopy toy_unpack toy_mcopy_out (λ _ _, "ab") default_settings
    5 "admin" "p1" "j2" "oj2" toy_body with_base.1 db' (build_row 5 "admin" toy_body (default (importing_row 0 "" "" "" "" "" None)
      (im_bases with_base.1 !! "b1")) (utf8_encode text)) (utf8_encode text) text toy_data (utf8_encode text))
    as (img & env & hex & key & _ & _ & Hf & Hh & Hk & _).
  - apply toy_tools.
  - done.
  - replace (im_fleets with_base.1) with toy_fleets by by vm_compute. intros i j a b k Ha Hb _ _. unfold toy_fleets in Ha, Hb. cbn in Ha, Hb. apply lookup_singleton_Some in Ha as [<- _]. by apply lookup_singleton_Some in Hb as [<- _].
  - subst db'. vm_compute. reflexivity.
  - by vm_compute.
  - intros ssid psk [= <- <-]. by vm_compute.
  - subst db' text. vm_compute. reflexivity.
  - reflexivity.
  - subst text. vm_compute. reflexivity.
  - subst text. vm_compute. reflexivity.
  - by exists env, hex, key.
Defined.

Lemma image_delivered_witness : ∃ db2 row, imager_preflight 6 "j2" (request_build 5 "p1" "j2" toy_body with_base.1).1 = Ok (db2, RunJob row) ∧
  j_target_id row = "p1".
Proof.
  set (text := fleet_env_text "wss://agora.example.com/ws/device" "shop" [x01; x02] "local" (Some ("guest", "password"))).
  destruct (image_delivered toy_host toy_sha toy_settings toy_unpack toy_parted toy_mcopy toy_unpack toy_sign
    5 "admin" "p1" "j2" "oj2" toy_body with_base.1 (request_build 5 "p1" "j2" toy_body with_base.1).1
    (default (importing_row 0 "" "" "" "" "" None) (im_bases with_base.1 !! "b1")) toy_data text (utf8_encode text) with_base.2 ∅
    6 (10 * 1024 * MiB) None 7 8 "" (λ _, "")) as (db2 & row & P & T & _).
  1-9: by vm_compute.
  - intros p Hp. vm_compute in Hp. injection Hp as <-. by vm_compute.
  - by vm_compute.
  - by vm_compute.
  - exists db2, row. split; [exact P|exact T].
Defined.
